(* ===== verification/_CoqProject ===== *)
-Q . S2P
Prelude.v
PyStr.v
PyNumber.v
Sha256.v
Canonical.v
CanonicalFacts.v
Fingerprints.v
Records.v
RecordsFacts.v
InertJson.v
InertJsonFacts.v
Kernel.v
KernelFacts.v
Kahn.v
KahnFacts.v
Obligations.v
ObligationsFacts.v
Epistemic.v
EpistemicFacts.v
Orchestration.v
Admission.v
AdmissionFacts.v
AdmissionSpec.v
Assurance.v
AssuranceFacts.v
Budget.v
BudgetFacts.v
CanonFields.v
Progress.v
ProgressFacts.v
Snapshot.v
SnapshotFacts.v
Receipts.v
ReceiptsFacts.v
Strategy.v
StrategyFacts.v
Lease.v
LeaseMachine.v
LeaseExamples.v
LeaseFacts.v
LeaseSpec.v
LeaseProperties.v
Session.v
JsonFields.v
Evidence.v
TraceFacts.v
EvidenceFacts.v
Effects.v
EffectFacts.v
Governance.v
CompactEvidence.v
GovernanceReceipts.v
Wrapper.v
CompactEvidenceFacts.v
GovernanceFacts.v
GovernanceSpec.v
GovernanceExamples.v
Supervisor.v
Proposals.v
GitHub.v
ObservedSnapshots.v
TransportLedger.v
Activation.v
Adapters.v
Capture.v
Gates.v
LedgerFacts.v
ActivationFacts.v
CaptureFacts.v
ActivationProperties.v
ActivationExamples.v
SupervisorExamples.v
SupervisorFacts.v
SupervisorProperties.v
EffectProfiles.v
EffectProfileFacts.v
EffectProfileReads.v
EffectProfileExamples.v
