(* ===== verification/Prelude.v ===== *)
(** * IBAE verification library: root file and shared prelude

    IBAE bounds what an AI agent may do.  A model proposes; deterministic Python records decide;
    a native runtime executes.  The package under [src/src/ibae/] keeps every record closed,
    bounded and named by a SHA-256 fingerprint of its canonical JSON, and this library models the
    records and decisions of that package and proves what they promise to each other.

    ** Files, bottom up

    - This file: results ([res]: a Python call returns or raises), loops and comprehensions that
      may raise, and generic lemmas.  [PyStr], [PyNumber], [Sha256]: the parts of Python's strings,
      numbers and [hashlib] that the program uses.
    - [Canonical] ([canonical.py]): canonical JSON, its parser and domain-separated fingerprints;
      [CanonicalFacts], [Fingerprints]: the text determines the record and a fingerprint binds its
      domain and record unless its message collides with that of the other record; Python's [==].
    - [Records], [RecordsFacts] ([_records.py]): validators, the bounded JSON copy and the bounded
      materialization of iterables.
    - [Kernel], [KernelFacts] ([policy.py], [cache.py], [state.py], [invariants.py],
      [reference_executor.py]): the bounded executor, whose methods change the executor and may
      then raise; operations may call back into it.
    - [Kahn], [KahnFacts]: the topological sort that two constructors write out.
      [Obligations], [Epistemic] ([obligations.py], [epistemic.py]) and their [Facts]: the two
      dependency graphs of an orchestration state.
    - [Orchestration], [Admission] ([orchestration.py]): strategies, capabilities, proposals,
      batches, and the transition [admit_batch]; [AdmissionFacts] its steps, [AdmissionSpec] what
      an admission guarantees.
    - [Assurance], [AssuranceFacts] ([assurance.py]): the closed relation of supporting evidence.
    - [Budget], [Progress] and their [Facts] ([continuation.py], lines 1-1420): checked 64-bit
      budget vectors, continuation policies, objective progress.
    - [Snapshot], [SnapshotFacts], [Receipts], [ReceiptsFacts] ([runtime.py], lines 1-1230): the
      records that cross from the native runtime and their validation.
    - [Strategy], [StrategyFacts] (lines 1420-2000): cycle evidence and strategy changes.
    - [Lease] (lines 2085-3385): the continuation state and the request, grant and denial records.
      [LeaseMachine] (lines 2001-3870): profiles, and the four operations that make states: create,
      observe, evaluate, commit.  [LeaseFacts]: how each moves the ledger.  [LeaseSpec]: the
      abstract ledger and the refinement.  [LeaseExamples]: one runtime from creation to an applied
      lease, with concrete seals.  [LeaseProperties]: the theorems on the lease machine.
    - [Evidence] (lines 3872-4610 and 2486-2565): compact projections, checkpoints, evidence
      receipts, watchdog observations and partial receipts.  [TraceFacts]: the hash chains, and the
      history of progress and decisions behind every reachable state; [EvidenceFacts]: what the
      checkpoints and receipts say of it.
    - [Session] ([runtime.py], lines 1231-1756, and [executor.py]): the facade over one native
      session and the executor over the facade; the native session is the class [NativeRuntime].
    - [Effects], [EffectFacts] ([effects.py]): commands, snapshots and receipts of effects.
      [EffectProfiles] (the same file): declared entries and profiles, and the creation of a
      session; [EffectProfileFacts] what a session was created for, [EffectProfileReads] that a
      declaration can be read again, [EffectProfileExamples] one declared effect.
    - [Governance], [GovernanceReceipts], [Wrapper] ([governance.py]): policies and permissions, the
      receipts, and the five operations of the wrapper.  [CompactEvidence] ([evidence.py]): what an
      execution may prove about itself.  [GovernanceFacts], [CompactEvidenceFacts]: their laws;
      [GovernanceSpec]: what a grant and an acceptance guarantee; [GovernanceExamples]: one task
      from its policy to its acceptance.
    - [CanonFields], [JsonFields], [InertJson], [InertJsonFacts]: fields of values that were read
      back from their text and of equal records, and the bounded traversal of untrusted JSON that two
      modules write out.
    - [Supervisor] ([supervisor.py]): projections, handoffs and recoveries; [SupervisorFacts],
      [SupervisorProperties]: what they offer and restore; [SupervisorExamples]: a live context.
    - [Proposals] ([synthetic_protocol.py]): normalized proposals, fixtures and frozen adapters.
      [GitHub], [Adapters] ([readonly_adapters.py]): selections, plans and receipts of reads, and
      the adapters that make them.  [ObservedSnapshots] ([observed_snapshots.py]).
    - [TransportLedger], [Activation], [Capture], [Gates] ([transport_activation.py]): the ledger of
      transport calls, the controller around it, the captures it admits and its gates.
      [LedgerFacts], [ActivationFacts], [CaptureFacts]: runs of the ledger, the invariant of the
      controller, one capture alone; [ActivationProperties], [ActivationExamples]: the theorems on
      concurrent callers and a controller through its first gate.

    A class is a [Record] with a [Module] of the same name; [make] is its constructor with
    [__post_init__] (it returns the record as stored), a property or method keeps its name, and
    [check_authority] is [_validate_authority_fields].  A record that a validated constructor
    returned is not assumed valid: whatever the code checks again is checked again.

    ** The theorems

    - Encoding: canonical text parses back to the canonical form; fingerprints, tool keys, policy,
      graph and proposal identities bind what they name.  Nothing assumes that SHA-256
      is free of collisions: where an identity binds a record, the alternative is that messages
      which the statement names - the bytes that those very records hash - collide
      ([Fingerprints.collide], [collision_among]), and for concrete records hashing refutes it.
    - Bounds: the kernel's budgets over any program of nested calls; budget vectors; policies;
      bounded copies and materializations terminate and accept exactly what is within the limits.
    - Graphs: the registry and the epistemic state accept exactly the closed, acyclic, bounded sets;
      topological order; ready work exists; support never rests on proposals.
    - Admission: exactly which proposals are admitted, deduplicated or refused, once per occurrence,
      with authority unchanged, for any sequence of batches.
    - Progress: the classification is determined, measurable progress runs out, completion needs
      every obligation.
    - The lease machine refines an abstract ledger ([LeaseSpec.ledger_step]): every state reachable
      by evaluations, observations and commits between native seals stands for a run of the ledger,
      so counters, totals and limits stay within the policy.  A request is granted exactly under
      the conditions of [LeaseFacts.grantable]; without a seal or without leases left nothing moves.
    - Evidence: every reachable state can report its history within the byte bound, a receipt
      commits to one history, a checkpoint resumes on its own state only, a partial receipt and the
      projection agree with what the machine can still grant.
    - Runtime records: a validated receipt balances its clock, counters and state identity; a
      snapshot that was read is well formed and reads back.
    - Effects: a session exists only for a committed profile whose every entry governance granted; a
      declared profile reads back; a receipt answers the command it names; a snapshot accounts for
      every request.
    - Governance: a granted tool holds the permission of the policy for an admitted decision, an
      orchestration authorizes exactly its admitted actions, a final acceptance rests on live,
      failure-free evidence of the execution and on every required gate; a partial one says what is
      missing.  What the orchestrator processes satisfies what governance demands of it.
    - Supervision: a projection offers exactly what the live context allows; a handoff carries its
      projection and no authority; a recovery selects a task only on live authority, and a live
      task can always be resumed.
    - Transport: callers interleave locked actions of the controller in any order
      ([ActivationFacts.system_step], one step per critical section, since every method of the
      source holds the controller's lock).  In every reachable state the controller refines its
      ledger, stages move only through the gates, an outstanding permit is inside the authorization
      in force, the record of captures reconciles with the calls spent, and revocation is final.

    ** Bounds and fuel

    Loops of the source are structural where they can be.  Fuel appears in Kahn's loop and the
    epistemic closure (one step per node, proved enough for termination and exactness), SHA-256
    (one step per block), the number printer and parser (one step per character) and bounded
    materialization (the limit itself, proved exact even for endless iterators).  Integers are
    unbounded as in Python; the 64-bit checks are the code's own.

    ** Not modelled

    - [isinstance] and exact-type checks of arguments whose type the definition already fixes;
      messages of exceptions; subclasses of [ValueError].  The checks stay where the argument is an
      arbitrary Python value ([pyval]).
    - The limits of the interpreter (recursion depth, the digits of [str(int)]), and
      [str.lower] beyond ASCII.
    - Aliasing: the records are frozen and every copy is fresh, so values stand for objects; where
      the code compares objects ([is]) the model carries the answer ([ev_same_object]).
    - The native extension: its seals are the class [NativeSeals] (what Python asks of a seal is
      whether it validates a text), its sessions the class [NativeRuntime], its evaluator an
      argument of [evaluate_continuation], its check of a snapshot one of
      [ContinuationCheckpoint.make], its ledger of effects (also what creates it) and its reducer of evidence arguments of
      the operations that use them.  The Rust sources are not Python.
    - [runtime.py]: the private methods that only hand the native object to other modules.
    - [readonly_adapters.py]: sockets, TLS and the decoding of bytes; what the exchange answers and
      the parsed body are arguments.  [observed_snapshots.py]: the driver that probes snapshots with
      a native session.  [openai_transport.py]: a network client.
    - Harnesses: [synthetic_runner.py], [synthetic_recovery.py], [continuation_benchmark.py] and the
      conformance modules replay fixtures through the operations modelled here and hold no
      authority of their own. *)

From Stdlib Require Import Ascii String ZArith Lia Bool.
From stdpp Require Import base decidable list sorting gmap.

#[global] Open Scope Z_scope.

(** [simpl] evaluates comparisons of literals only. *)
#[global] Arguments Z.eqb !_ !_ /.
#[global] Arguments Z.leb !_ !_ /.
#[global] Arguments Z.ltb !_ !_ /.
#[global] Arguments Z.mul : simpl never.
#[global] Arguments Z.add : simpl never.
#[global] Arguments Z.sub : simpl never.

(** ** Results: a Python call returns a value or raises an exception *)

(** The exception classes the modelled code raises.  Messages are not modelled; a subclass
    of [ValueError] (a JSON decoding error, a Unicode encoding error) is [ValueError]. *)
Inductive exn :=
  | TypeError
  | ValueError
  | KeyError
  | OverflowError
  | IndexError
  | AssertionError
  | PolicyViolation
  | BudgetExceeded
  | CycleDetected
  | RuntimeError
  | LookupError
  | OSError.

Inductive res (A : Type) :=
  | Ok (a : A)
  | Raise (e : exn).
Arguments Ok {A} a.
Arguments Raise {A} e.

Definition res_bind {A B} (r : res A) (k : A → res B) : res B :=
  match r with
  | Ok a => k a
  | Raise e => Raise e
  end.

(** [if b: raise e] *)
Definition raise_if (b : bool) (e : exn) : res unit :=
  if b then Raise e else Ok tt.

Declare Scope res_scope.
Delimit Scope res_scope with res.
Notation "'let*' x ':=' e 'in' k" := (res_bind e (fun x => k))
  (at level 200, x pattern, e at level 200, k at level 200) : res_scope.
Notation "e ';;*' k" := (res_bind e (fun _ => k))
  (at level 100, k at level 200, right associativity) : res_scope.
#[global] Open Scope res_scope.

(** A comprehension whose element expression may raise, evaluated left to right. *)
Definition res_map {A B} (f : A → res B) : list A → res (list B) :=
  fix go l :=
    match l with
    | [] => Ok []
    | x :: r => let* y := f x in let* ys := go r in Ok (y :: ys)
    end.

(** A [for] loop whose body only checks. *)
Definition res_iter {A} (f : A → res unit) : list A → res unit :=
  fix go l :=
    match l with
    | [] => Ok tt
    | x :: r => f x ;;* go r
    end.

(** A [for] loop that carries a state. *)
Definition res_fold {A S} (f : S → A → res S) : S → list A → res S :=
  fix go s l :=
    match l with
    | [] => Ok s
    | x :: r => let* s' := f s x in go s' r
    end.

Definition is_ok {A} (r : res A) : bool :=
  match r with Ok _ => true | Raise _ => false end.

(** [any(..)] over a test that may raise, left to right until it holds. *)
Definition res_exists {A} (f : A → res bool) : list A → res bool :=
  fix go l :=
    match l with
    | [] => Ok false
    | x :: r => let* b := f x in if b then Ok true else go r
    end.

(** [if not a or not b or ..: raise e]: the tests run in order up to the first that fails. *)
Definition require_all (tests : list (res bool)) (e : exn) : res unit :=
  res_iter (λ t, let* b := t in raise_if (negb b) e) tests.

(** [left == f(..)] on text, with the right side computed. *)
Definition is_result {A} `{EqDecision A} (left : A) (right : res A) : res bool :=
  let* r := right in Ok (bool_decide (left = r)).

Lemma res_bind_Ok {A B} (r : res A) (k : A → res B) b :
  res_bind r k = Ok b ↔ ∃ a, r = Ok a ∧ k a = Ok b.
Proof. destruct r; simpl; naive_solver. Qed.

Lemma res_bind_Raise {A B} (r : res A) (k : A → res B) e :
  res_bind r k = Raise e ↔ r = Raise e ∨ ∃ a, r = Ok a ∧ k a = Raise e.
Proof. destruct r; simpl; naive_solver. Qed.

Lemma raise_if_Ok b e u : raise_if b e = Ok u ↔ b = false.
Proof. destruct b, u; simpl; naive_solver. Qed.

Lemma raise_if_Raise b e e' : raise_if b e = Raise e' ↔ b = true ∧ e' = e.
Proof. destruct b; simpl; naive_solver. Qed.

Lemma res_iter_Ok {A} (f : A → res unit) l u :
  res_iter f l = Ok u ↔ Forall (λ x, f x = Ok tt) l.
Proof.
  destruct u. induction l as [|x l IH]; simpl; [by split; auto|].
  rewrite res_bind_Ok, Forall_cons, <- IH. split.
  - intros ([] & ? & ?); auto.
  - intros [? ?]; eauto.
Qed.

Lemma res_map_Ok {A B} (f : A → res B) l l' :
  res_map f l = Ok l' ↔ Forall2 (λ x y, f x = Ok y) l l'.
Proof.
  revert l'; induction l as [|x l IH]; intros l'; simpl.
  - split; [by intros [= <-]|by inversion 1].
  - rewrite res_bind_Ok. split.
    + intros (y & ? & (ys & ?%IH & [= <-])%res_bind_Ok). by constructor.
    + inversion 1; subst. eexists; split; [done|].
      rewrite res_bind_Ok. eexists; split; [by apply IH|done].
Qed.

(** A loop that only checks accepts or rejects with the exception of its first bad element. *)
Lemma res_iter_Raise {A} (f : A → res unit) l e :
  res_iter f l = Raise e ↔
  ∃ l1 x l2, l = l1 ++ x :: l2 ∧ Forall (λ y, f y = Ok tt) l1 ∧ f x = Raise e.
Proof.
  induction l as [|x l IH]; simpl.
  { split; [done|intros ([] & ? & ? & [=] & _)]. }
  rewrite res_bind_Raise. split.
  - intros [He|([] & Hx & (l1 & y & l2 & -> & ? & ?)%IH)].
    + by exists [], x, l.
    + exists (x :: l1), y, l2. by repeat constructor.
  - intros ([|z l1] & y & l2 & [= -> ->] & H & Hy); [by left|].
    inversion H; subst. right. exists tt. split; [done|]. apply IH. by exists l1, y, l2.
Qed.

Lemma res_fold_app {A S} (f : S → A → res S) s l1 l2 :
  res_fold f s (l1 ++ l2) = let* s' := res_fold f s l1 in res_fold f s' l2.
Proof. revert s; induction l1 as [|x l1 IH]; intros s; simpl; [done|]. destruct (f s x); simpl; auto. Qed.

(** [res_inv]: turn every hypothesis that a computation returned into facts about its steps. *)
Ltac res_inv_step :=
  match goal with
  | H : Ok _ = Ok _ |- _ => injection H as H
  | H : Raise _ = Ok _ |- _ => discriminate H
  | H : Ok _ = Raise _ |- _ => discriminate H
  | H : res_bind _ _ = Ok _ |- _ =>
      let a := fresh "a" in let E := fresh "E" in
      apply res_bind_Ok in H; destruct H as (a & E & H)
  | H : raise_if _ _ = Ok _ |- _ => apply raise_if_Ok in H
  | H : (if ?b then Raise _ else _) = Ok _ |- _ => destruct b eqn:?; [discriminate H|]
  | H : (if ?b then _ else Raise _) = Ok _ |- _ => destruct b eqn:?; [|discriminate H]
  | u : unit |- _ => destruct u
  end.
Ltac res_inv := repeat res_inv_step; simpl in *.

(** Reflect boolean tests into propositions, in the shapes the guards use. *)
Ltac bool_inv_step :=
  match goal with
  | H : _ && _ = true |- _ => apply andb_true_iff in H; destruct H
  | H : _ || _ = false |- _ => apply orb_false_iff in H; destruct H
  | H : negb _ = false |- _ => apply negb_false_iff in H
  | H : negb _ = true |- _ => apply negb_true_iff in H
  | H : bool_decide _ = true |- _ => apply bool_decide_eq_true in H
  | H : bool_decide _ = false |- _ => apply bool_decide_eq_false in H
  | H : (_ <=? _) = true |- _ => apply Z.leb_le in H
  | H : (_ <=? _) = false |- _ => apply Z.leb_gt in H
  | H : (_ <? _) = true |- _ => apply Z.ltb_lt in H
  | H : (_ <? _) = false |- _ => apply Z.ltb_ge in H
  | H : (_ =? _) = true |- _ => apply Z.eqb_eq in H
  | H : (_ =? _) = false |- _ => apply Z.eqb_neq in H
  end.
Ltac bool_inv := repeat bool_inv_step.

Lemma forallb_elem {A} (f : A → bool) l : forallb f l = true ↔ ∀ x, x ∈ l → f x = true.
Proof. rewrite forallb_forall. by setoid_rewrite list_elem_of_In. Qed.

Lemma existsb_elem {A} (f : A → bool) l : existsb f l = true ↔ ∃ x, x ∈ l ∧ f x = true.
Proof. rewrite existsb_exists. by setoid_rewrite list_elem_of_In. Qed.

Lemma existsb_elem_false {A} (f : A → bool) l : existsb f l = false ↔ ∀ x, x ∈ l → f x = false.
Proof.
  rewrite <- not_true_iff_false, existsb_elem. split.
  - intros H x Hx. destruct (f x) eqn:E; [|done]. destruct H; eauto.
  - intros H (x & Hx & Hf). rewrite (H x Hx) in Hf. done.
Qed.

Lemma find_elem {A} (f : A → bool) l x : find f l = Some x → x ∈ l ∧ f x = true.
Proof. intros [? ?]%find_some. by rewrite list_elem_of_In. Qed.

Lemma filter_ext_elem {A} (P Q : A → Prop) `{∀ x, Decision (P x)} `{∀ x, Decision (Q x)} (l : list A) :
  (∀ x, x ∈ l → P x ↔ Q x) → filter P l = filter Q l.
Proof.
  induction l as [|x l IH]; [done|]. intros Hl. rewrite !filter_cons, IH.
  - destruct (decide (P x)), (decide (Q x)); pose proof (Hl x (list_elem_of_here x l)); tauto || done.
  - intros y Hy. apply Hl. by apply list_elem_of_further.
Qed.

(** [l[-n:]] for a positive [n]. *)
Definition last_items {A} (n : Z) (l : list A) : list A := drop (length l - Z.to_nat n) l.

Lemma length_last_items {A} n (l : list A) :
  0 < n → Z.of_nat (length (last_items n l)) = Z.min n (Z.of_nat (length l)).
Proof. intros. unfold last_items. rewrite length_drop. lia. Qed.
