(* ===== verification/PyStr.v ===== *)
(** * Python strings, ordering, [sorted] and [set]

    A Python [str] is the list of its Unicode code points, so [ord], [len], [<] and slicing are
    list operations and an unpaired surrogate is a value like any other.  [sorted] is a stable
    insertion sort; [sorted(set(..))] is [sorted_set].  The order on strings is lexicographic on
    code points, as in Python. *)

From Stdlib Require Import Ascii String.
From stdpp Require Import base decidable list sorting.
From S2P Require Import Prelude.

Definition pystr := list Z.

(** A Python literal of ASCII characters. *)
Definition u (s : string) : pystr :=
  map (λ a, Z.of_N (N_of_ascii a)) (list_ascii_of_string s).
Arguments u s%_string_scope.

(** ** The order of [str] *)

Fixpoint pystr_compare (a b : pystr) : comparison :=
  match a, b with
  | [], [] => Eq
  | [], _ :: _ => Lt
  | _ :: _, [] => Gt
  | x :: a', y :: b' =>
      match Z.compare x y with Eq => pystr_compare a' b' | c => c end
  end.

Definition pystr_leb (a b : pystr) : bool :=
  match pystr_compare a b with Gt => false | _ => true end.

Definition pystr_le (a b : pystr) : Prop := pystr_leb a b = true.

#[export] Instance pystr_le_dec : RelDecision pystr_le.
Proof. intros a b. unfold pystr_le. apply _. Defined.

Lemma pystr_compare_refl a : pystr_compare a a = Eq.
Proof. induction a as [|x a IH]; simpl; [done|]. by rewrite Z.compare_refl. Qed.

Lemma pystr_compare_eq a b : pystr_compare a b = Eq → a = b.
Proof.
  revert b; induction a as [|x a IH]; intros [|y b]; simpl; try done.
  destruct (Z.compare_spec x y); intros; try done. subst. f_equal; auto.
Qed.

Lemma pystr_compare_antisym a b : pystr_compare b a = CompOpp (pystr_compare a b).
Proof.
  revert b; induction a as [|x a IH]; intros [|y b]; simpl; try done.
  rewrite (Z.compare_antisym x y). destruct (Z.compare x y); simpl; auto.
Qed.

Lemma pystr_compare_trans_lt a b c :
  pystr_compare a b = Lt → pystr_compare b c = Lt → pystr_compare a c = Lt.
Proof.
  revert b c; induction a as [|x a IH]; intros [|y b] [|z c]; simpl; try done.
  destruct (Z.compare_spec x y), (Z.compare_spec y z); intros; try done; subst;
    rewrite ?Z.compare_refl; eauto;
    match goal with |- context [Z.compare ?p ?q] => destruct (Z.compare_spec p q) end;
    try done; lia.
Qed.

#[export] Instance pystr_le_refl : Reflexive pystr_le.
Proof. intros a. unfold pystr_le, pystr_leb. by rewrite pystr_compare_refl. Qed.

#[export] Instance pystr_le_trans : Transitive pystr_le.
Proof.
  intros a b c. unfold pystr_le, pystr_leb.
  destruct (pystr_compare a b) eqn:E1; [|destruct (pystr_compare b c) eqn:E2|done].
  - by apply pystr_compare_eq in E1 as ->.
  - apply pystr_compare_eq in E2 as ->. by rewrite E1.
  - by rewrite (pystr_compare_trans_lt _ _ _ E1 E2).
  - done.
Qed.

#[export] Instance pystr_le_antisymm : AntiSymm (=) pystr_le.
Proof.
  intros a b. unfold pystr_le, pystr_leb. rewrite (pystr_compare_antisym a b).
  destruct (pystr_compare a b) eqn:E; simpl; try done. by apply pystr_compare_eq in E.
Qed.

#[export] Instance pystr_le_total : Total pystr_le.
Proof.
  intros a b. unfold pystr_le, pystr_leb. rewrite (pystr_compare_antisym a b).
  destruct (pystr_compare a b); simpl; auto.
Qed.

Lemma pystr_leb_false a b : pystr_leb a b = false → pystr_le b a.
Proof. intros H. destruct (total pystr_le a b) as [E|E]; [|done]. unfold pystr_le in E; congruence. Qed.

(** ** [sorted] with a string key *)

Section sorting.
  Context {A : Type} (key : A → pystr).

Fixpoint insert_by (x : A) (l : list A) : list A :=
  match l with
  | [] => [x]
  | y :: r => if pystr_leb (key x) (key y) then x :: y :: r else y :: insert_by x r
  end.

(** [sorted(l, key=key)] *)
Fixpoint sorted_by (l : list A) : list A :=
  match l with
  | [] => []
  | x :: r => insert_by x (sorted_by r)
  end.

Definition key_le (x y : A) : Prop := pystr_le (key x) (key y).

Lemma insert_by_perm x l : insert_by x l ≡ₚ x :: l.
Proof.
  induction l as [|y l IH]; simpl; [done|].
  case_match; [done|]. rewrite IH. apply Permutation_swap.
Qed.

Lemma sorted_by_perm l : sorted_by l ≡ₚ l.
Proof. induction l as [|x l IH]; simpl; [done|]. by rewrite insert_by_perm, IH. Qed.

Lemma elem_of_sorted_by x l : x ∈ sorted_by l ↔ x ∈ l.
Proof. by rewrite sorted_by_perm. Qed.

Lemma length_sorted_by l : length (sorted_by l) = length l.
Proof. by rewrite sorted_by_perm. Qed.

Lemma NoDup_sorted_by l : NoDup (sorted_by l) ↔ NoDup l.
Proof. by rewrite sorted_by_perm. Qed.

Lemma insert_by_sorted x l :
  StronglySorted key_le l → StronglySorted key_le (insert_by x l).
Proof.
  induction l as [|y l IH]; simpl; intros Hs; [by repeat constructor|].
  inversion Hs as [|? ? Hl Hy]; subst. case_match eqn:E.
  - constructor; [done|]. constructor; [done|].
    eapply Forall_impl; [done|]. intros z Hz. exact (transitivity (R:=pystr_le) E Hz).
  - constructor; [auto|]. rewrite insert_by_perm. constructor; [|done].
    by apply pystr_leb_false.
Qed.

Lemma sorted_by_sorted l : StronglySorted key_le (sorted_by l).
Proof. induction l; simpl; [constructor|by apply insert_by_sorted]. Qed.

Lemma sorted_by_id l : StronglySorted key_le l → sorted_by l = l.
Proof.
  induction l as [|x l IH]; simpl; intros Hs; [done|].
  inversion Hs as [|? ? Hl Hx]; subst. rewrite IH by done.
  destruct Hx as [|y l Hxy]; simpl; [done|]. unfold key_le, pystr_le in Hxy. by rewrite Hxy.
Qed.

Lemma sorted_by_idem l : sorted_by (sorted_by l) = sorted_by l.
Proof. apply sorted_by_id, sorted_by_sorted. Qed.

(** Two enumerations of the same records with distinct keys sort to the same list. *)
Lemma sorted_perm_unique l1 l2 :
  NoDup (key <$> l1) → l1 ≡ₚ l2 →
  StronglySorted key_le l1 → StronglySorted key_le l2 → l1 = l2.
Proof.
  revert l2; induction l1 as [|x l1 IH]; intros l2 Hnd Hp H1 H2.
  { by apply Permutation_nil_l in Hp. }
  destruct l2 as [|y l2]; [by apply Permutation_nil_r in Hp|].
  inversion H1 as [|? ? Hs1 Hx]; inversion H2 as [|? ? Hs2 Hy]; subst.
  rewrite fmap_cons, NoDup_cons in Hnd. destruct Hnd as [Hnin Hnd].
  assert (x = y) as <-.
  { assert (x ∈ y :: l2) as [|Hx2]%elem_of_cons by (rewrite <- Hp; apply elem_of_cons; auto); [done|].
    assert (y ∈ x :: l1) as [|Hy1]%elem_of_cons by (rewrite Hp; apply elem_of_cons; auto); [done|].
    rewrite Forall_forall in Hx, Hy. destruct Hnin.
    rewrite (anti_symm pystr_le (key x) (key y) (Hx _ Hy1) (Hy _ Hx2)).
    by apply list_elem_of_fmap_2. }
  f_equal. apply IH; [done| |done|done]. by apply Permutation_cons_inv in Hp.
Qed.

Lemma sorted_by_perm_eq l1 l2 :
  NoDup (key <$> l1) → l1 ≡ₚ l2 → sorted_by l1 = sorted_by l2.
Proof.
  intros Hnd Hp. apply sorted_perm_unique; try apply sorted_by_sorted.
  - by rewrite sorted_by_perm.
  - by rewrite !sorted_by_perm.
Qed.
End sorting.

Lemma insert_by_map {A B} (k : B → pystr) (f : A → B) x l :
  insert_by k (f x) (map f l) = map f (insert_by (λ a, k (f a)) x l).
Proof. induction l as [|y l IH]; simpl; [done|]. case_match; simpl; [done|]. by rewrite IH. Qed.

Lemma sorted_by_map {A B} (k : B → pystr) (f : A → B) l :
  sorted_by k (map f l) = map f (sorted_by (λ a, k (f a)) l).
Proof. induction l as [|x l IH]; simpl; [done|]. by rewrite IH, insert_by_map. Qed.

(** [sorted(l)] on strings *)
Definition sorted (l : list pystr) : list pystr := sorted_by id l.

(** [sorted(set(l))] *)
Definition sorted_set (l : list pystr) : list pystr := sorted (remove_dups l).

(** [len(l) != len(set(l))] *)
Definition has_duplicates (l : list pystr) : bool := negb (bool_decide (NoDup l)).

Definition str_in (x : pystr) (l : list pystr) : bool := bool_decide (x ∈ l).

Lemma sorted_idem l : sorted (sorted l) = sorted l.
Proof. apply sorted_by_idem. Qed.

Lemma has_duplicates_false l : has_duplicates l = false ↔ NoDup l.
Proof. unfold has_duplicates. by rewrite negb_false_iff, bool_decide_eq_true. Qed.

Lemma str_in_true x l : str_in x l = true ↔ x ∈ l.
Proof. apply bool_decide_eq_true. Qed.

Lemma str_in_false x l : str_in x l = false ↔ x ∉ l.
Proof. apply bool_decide_eq_false. Qed.

Lemma sorted_set_elem x l : x ∈ sorted_set l ↔ x ∈ l.
Proof. unfold sorted_set, sorted. by rewrite elem_of_sorted_by, elem_of_remove_dups. Qed.

Lemma sorted_set_NoDup l : NoDup (sorted_set l).
Proof. unfold sorted_set, sorted. rewrite NoDup_sorted_by. apply NoDup_remove_dups. Qed.

Lemma sorted_perm l : sorted l ≡ₚ l.
Proof. apply sorted_by_perm. Qed.

Lemma sorted_elem x l : x ∈ sorted l ↔ x ∈ l.
Proof. apply elem_of_sorted_by. Qed.

(** A sorted set is determined by its members. *)
Lemma sorted_set_ext l1 l2 : (∀ x, x ∈ l1 ↔ x ∈ l2) → sorted_set l1 = sorted_set l2.
Proof.
  intros H. unfold sorted_set, sorted. apply sorted_by_perm_eq.
  - rewrite list_fmap_id. apply NoDup_remove_dups.
  - apply NoDup_Permutation; try apply NoDup_remove_dups.
    intros x. by rewrite !elem_of_remove_dups.
Qed.

Lemma sorted_set_length_le l : (length (sorted_set l) <= length l)%nat.
Proof.
  unfold sorted_set, sorted. rewrite length_sorted_by. induction l as [|x l IH]; simpl; [lia|].
  case_decide; simpl; lia.
Qed.
