(* ===== verification/PyNumber.v ===== *)
(** * Decimal text of Python numbers

    [int_str] is [str] of an integer.  A [float] is an IEEE binary64 value; [float_repr] is
    Python's [repr]: the shortest decimal that reads back to the same value (the nearest one
    when several of that length do), in fixed notation for a decimal point position in
    [-4 < p <= 16] and in exponent notation otherwise.  [parse_number] reads a JSON number
    token, rounding a decimal to the nearest binary64 value, ties to even. *)

From Stdlib Require Import Ascii String.
From stdpp Require Import base list.
From S2P Require Import Prelude PyStr.

(** ** Digits *)

Definition is_digit (c : Z) : bool := (48 <=? c) && (c <=? 57).

Definition digits_fold (acc : Z) (ds : pystr) : Z :=
  fold_left (λ a c, a * 10 + (c - 48)) ds acc.

Fixpoint dec_digits (fuel : nat) (z : Z) (acc : pystr) : pystr :=
  match fuel with
  | O => acc
  | S fuel' =>
      if z <? 10 then (48 + z) :: acc
      else dec_digits fuel' (z / 10) ((48 + z mod 10) :: acc)
  end.

(** Decimal digits of a non-negative integer. *)
Definition nonneg_str (z : Z) : pystr := dec_digits (S (Z.to_nat (Z.log2 z))) z [].

(** [str(z)] *)
Definition int_str (z : Z) : pystr :=
  if z <? 0 then 45 :: nonneg_str (- z) else nonneg_str z.

Fixpoint span {A} (p : A → bool) (l : list A) : list A * list A :=
  match l with
  | [] => ([], [])
  | x :: r => if p x then let '(a, b) := span p r in (x :: a, b) else ([], l)
  end.

(** ** Binary64 *)

(** [FFin neg m e] is [(-1)^neg * m * 2^e]. *)
Inductive pyfloat :=
  | FNan
  | FInf (neg : bool)
  | FFin (neg : bool) (m e : Z).

#[export] Instance pyfloat_eq_dec : EqDecision pyfloat.
Proof. solve_decision. Defined.

Definition isfinite (f : pyfloat) : bool :=
  match f with FFin _ _ _ => true | _ => false end.

(** Round [num / den] (both positive) to the nearest binary64 magnitude. *)
Definition round_ratio (neg : bool) (num den : Z) : pyfloat :=
  let scaled e := if 0 <=? e then (num, den * 2 ^ e) else (num * 2 ^ (- e), den) in
  let e0 := Z.max (-1074) (Z.log2 num - Z.log2 den - 53) in
  let e1 := let '(n, d) := scaled e0 in if 2 ^ 53 <=? n / d then e0 + 1 else e0 in
  let '(n, d) := scaled e1 in
  let q := n / d in
  let r := n mod d in
  let q' := if (d <? 2 * r) || ((d =? 2 * r) && Z.odd q) then q + 1 else q in
  let '(m, e) := if q' =? 2 ^ 53 then (2 ^ 52, e1 + 1) else (q', e1) in
  if 971 <? e then FInf neg else FFin neg m e.

(** The value of the decimal [d * 10^k], [d] with [n] digits. *)
Definition float_of_decimal (neg : bool) (d : Z) (n : nat) (k : Z) : pyfloat :=
  if d =? 0 then FFin neg 0 (-1074)
  else if 310 <? Z.of_nat n + k then FInf neg
  else if Z.of_nat n + k <? -330 then FFin neg 0 (-1074)
  else if 0 <=? k then round_ratio neg (d * 10 ^ k) 1
  else round_ratio neg d (10 ^ (- k)).

Inductive number :=
  | NInt (z : Z)
  | NFloat (f : pyfloat).

#[export] Instance number_eq_dec : EqDecision number.
Proof. solve_decision. Defined.

Definition signed (neg : bool) (z : Z) : Z := if neg then - z else z.

Definition nonempty {A} (l : list A) : bool := match l with [] => false | _ => true end.

(** The optional exponent, to the end of the token. *)
Definition parse_exponent (s : pystr) : option (option Z) :=
  match s with
  | [] => Some None
  | c :: r =>
      if (c =? 101) || (c =? 69) then
        let '(neg, ds) := match r with
                          | c' :: r' =>
                              if c' =? 45 then (true, r')
                              else if c' =? 43 then (false, r') else (false, r)
                          | [] => (false, r)
                          end in
        if nonempty ds && forallb is_digit ds
        then Some (Some (signed neg (digits_fold 0 ds))) else None
      else None
  end.

(** An integer part has a digit, and no leading zero unless it is [0]. *)
Definition int_part_ok (ip : pystr) : bool :=
  match ip with
  | [] => false
  | [_] => true
  | c :: _ => negb (c =? 48)
  end.

Definition parse_magnitude (neg : bool) (r : pystr) : option number :=
  let '(ip, r1) := span is_digit r in
  if int_part_ok ip then
    match r1 with
    | [] => Some (NInt (signed neg (digits_fold 0 ip)))
    | c :: r2 =>
        if c =? 46 then
          let '(fp, r3) := span is_digit r2 in
          if nonempty fp then
            match parse_exponent r3 with
            | Some x =>
                Some (NFloat (float_of_decimal neg (digits_fold 0 (ip ++ fp))
                                (length (ip ++ fp)) (default 0 x - Z.of_nat (length fp))))
            | None => None
            end
          else None
        else
          match parse_exponent r1 with
          | Some (Some x) =>
              Some (NFloat (float_of_decimal neg (digits_fold 0 ip) (length ip) x))
          | _ => None
          end
    end
  else None.

(** A whole JSON number token: an optional minus sign, an integer part without leading zeros,
    an optional fraction and an optional exponent. *)
Definition parse_number (s : pystr) : option number :=
  match s with
  | c :: r => if c =? 45 then parse_magnitude true r else parse_magnitude false s
  | [] => None
  end.

(** ** [repr] of a float *)

Fixpoint strip_zeros (fuel : nat) (d k : Z) : Z * Z :=
  match fuel with
  | O => (d, k)
  | S fuel' => if (d =? 0) || negb (d mod 10 =? 0) then (d, k) else strip_zeros fuel' (d / 10) (k + 1)
  end.

(** The text of the decimal [d * 10^k] ([d > 0]). *)
Definition format_decimal (d k : Z) : pystr :=
  let '(d, k) := strip_zeros 20 d k in
  let ds := nonneg_str d in
  let n := Z.of_nat (length ds) in
  let p := n + k in
  let zeros z := replicate (Z.to_nat z) 48 in
  if (-4 <? p) && (p <=? 16) then
    if p <=? 0 then [48; 46] ++ zeros (- p) ++ ds
    else if n <=? p then ds ++ zeros (p - n) ++ [46; 48]
    else take (Z.to_nat p) ds ++ [46] ++ drop (Z.to_nat p) ds
  else
    let x := p - 1 in
    let xs := nonneg_str (Z.abs x) in
    take 1 ds ++ (match drop 1 ds with [] => [] | r => 46 :: r end)
      ++ [101; if x <? 0 then 45 else 43] ++ (if (length xs <? 2)%nat then 48 :: xs else xs).

(** [m * 2^e * 10^k] as a ratio. *)
Definition float_scaled (m e k : Z) : Z * Z :=
  let n := m * 2 ^ Z.max 0 e * 10 ^ Z.max 0 k in
  let d := 2 ^ Z.max 0 (- e) * 10 ^ Z.max 0 (- k) in
  (n, d).

(** The position [p] of the decimal point: [10^(p-1) <= m * 2^e < 10^p]. *)
Definition decimal_point (m e : Z) : Z :=
  let guess := (Z.log2 m + e) * 1233 / 4096 in
  let below p := let '(n, d) := float_scaled m e (- p) in n <? d in
  if below guess then guess
  else if below (guess + 1) then guess + 1
  else guess + 2.

Definition with_sign (neg : bool) (s : pystr) : pystr := if neg then 45 :: s else s.

(** The candidates of [n] digits: nearest first. *)
Definition repr_candidates (neg : bool) (m e : Z) (n : Z) : list pystr :=
  let p := decimal_point m e in
  let '(num, den) := float_scaled m e (n - p) in
  let d0 := num / den in
  let r := num mod den in
  let near_up := (den <? 2 * r) || ((den =? 2 * r) && Z.odd d0) in
  let text d := with_sign neg (format_decimal d (p - n)) in
  if near_up then [text (d0 + 1); text d0] else [text d0; text (d0 + 1)].

Definition reads_back (f : pyfloat) (s : pystr) : bool :=
  bool_decide (parse_number s = Some (NFloat f)).

(** [repr(f)]: [None] for a non-finite value, and for a triple that is no binary64 value. *)
Definition float_repr (f : pyfloat) : option pystr :=
  match f with
  | FFin neg m e =>
      if m =? 0 then
        List.find (reads_back f) [with_sign neg [48; 46; 48]]
      else
        List.find (reads_back f)
          (concat (map (repr_candidates neg m e) (map Z.of_nat (seq 1 17))))
  | _ => None
  end.

(** ** Lemmas *)

Lemma span_app {A} (p : A → bool) l a b : span p l = (a, b) → l = a ++ b.
Proof.
  revert a b; induction l as [|x l IH]; simpl; intros a b E; [by injection E as <- <-|].
  destruct (p x); [|by injection E as <- <-].
  destruct (span p l) as [a' b']. injection E as <- <-. simpl. f_equal. by apply IH.
Qed.

Lemma span_all {A} (p : A → bool) l a b : span p l = (a, b) → forallb p a = true.
Proof.
  revert a b; induction l as [|x l IH]; simpl; intros a b E; [by injection E as <- <-|].
  destruct (p x) eqn:Px; [|by injection E as <- <-].
  destruct (span p l) as [a' b']. injection E as <- <-. simpl. rewrite Px. by eapply IH.
Qed.

(** A run of accepted items is taken whole when what follows starts with a rejected one. *)
Lemma span_exact {A} (p : A → bool) a b :
  forallb p a = true → (∀ x r, b = x :: r → p x = false) → span p (a ++ b) = (a, b).
Proof.
  induction a as [|x a IH]; simpl; intros Ha Hb.
  - destruct b as [|y b]; simpl; [done|]. by rewrite (Hb y b).
  - apply andb_true_iff in Ha as [-> Ha]. by rewrite IH.
Qed.

Lemma dec_digits_fold fuel z acc :
  0 <= z → z < 2 ^ Z.of_nat fuel →
  digits_fold 0 (dec_digits fuel z acc) = digits_fold z acc.
Proof.
  revert z acc; induction fuel as [|fuel IH]; intros z acc Hz Hf.
  { simpl in *. by replace z with 0 by lia. }
  cbn [dec_digits]. destruct (Z.ltb_spec z 10) as [H10|H10].
  - unfold digits_fold. simpl. f_equal. lia.
  - rewrite IH.
    + unfold digits_fold. simpl. f_equal. pose proof (Z.div_mod z 10). lia.
    + apply Z.div_pos; lia.
    + apply Z.div_lt_upper_bound; [lia|].
      rewrite Nat2Z.inj_succ, Z.pow_succ_r in Hf by lia. nia.
Qed.

Lemma dec_digits_all fuel z acc :
  0 <= z → forallb is_digit acc = true → forallb is_digit (dec_digits fuel z acc) = true.
Proof.
  revert z acc; induction fuel as [|fuel IH]; intros z acc Hz Ha; [done|].
  cbn [dec_digits]. destruct (Z.ltb_spec z 10).
  - simpl. rewrite Ha, andb_true_r. unfold is_digit. lia.
  - apply IH; [apply Z.div_pos; lia|]. simpl. rewrite Ha, andb_true_r.
    pose proof (Z.mod_pos_bound z 10). unfold is_digit. lia.
Qed.

(** No leading zero: the first digit of a positive number is not 0. *)
Lemma dec_digits_head fuel z acc :
  0 < z → z < 2 ^ Z.of_nat fuel → ∃ c r, dec_digits fuel z acc = c :: r ∧ 48 < c.
Proof.
  revert z acc; induction fuel as [|fuel IH]; intros z acc Hz Hf.
  { simpl in *. lia. }
  cbn [dec_digits]. destruct (Z.ltb_spec z 10).
  - eexists _, _. split; [done|lia].
  - apply IH; [apply Z.div_str_pos; lia|].
    apply Z.div_lt_upper_bound; [lia|].
    rewrite Nat2Z.inj_succ, Z.pow_succ_r in Hf by lia. nia.
Qed.

Lemma log2_fuel z : 0 < z → z < 2 ^ Z.of_nat (S (Z.to_nat (Z.log2 z))).
Proof.
  intros Hz. rewrite Nat2Z.inj_succ, Z2Nat.id by apply Z.log2_nonneg.
  apply Z.log2_spec, Hz.
Qed.

Lemma nonneg_str_fold z : 0 <= z → digits_fold 0 (nonneg_str z) = z.
Proof.
  intros Hz. unfold nonneg_str. destruct (decide (z = 0)) as [->|]; [done|].
  rewrite dec_digits_fold; [done|lia|apply log2_fuel; lia].
Qed.

Lemma nonneg_str_digits z : 0 <= z → forallb is_digit (nonneg_str z) = true.
Proof. intros. by apply dec_digits_all. Qed.

Lemma nonneg_str_shape z :
  0 <= z → nonneg_str z = [48] ∨ ∃ c r, nonneg_str z = c :: r ∧ 48 < c.
Proof.
  intros Hz. destruct (decide (z = 0)) as [->|]; [by left|right].
  apply dec_digits_head; [lia|apply log2_fuel; lia].
Qed.

Lemma nonneg_str_cons z : 0 <= z → ∃ c r, nonneg_str z = c :: r ∧ is_digit c = true.
Proof.
  intros Hz. pose proof (nonneg_str_digits z Hz) as Hd.
  destruct (nonneg_str_shape z Hz) as [E|(c & r & E & _)]; rewrite E in Hd; simpl in Hd.
  - rewrite E. eauto.
  - apply andb_true_iff in Hd as [? _]. rewrite E. eauto.
Qed.

Lemma parse_magnitude_nonneg neg z :
  0 <= z → parse_magnitude neg (nonneg_str z) = Some (NInt (signed neg z)).
Proof.
  intros Hz. unfold parse_magnitude. rewrite <- (app_nil_r (nonneg_str z)).
  rewrite span_exact; [|by apply nonneg_str_digits|done].
  rewrite nonneg_str_fold by done.
  replace (int_part_ok (nonneg_str z)) with true; [done|].
  destruct (nonneg_str_shape z Hz) as [->|(c & [|c' r] & -> & Hc)]; [done..|].
  simpl. symmetry. apply negb_true_iff, Z.eqb_neq. lia.
Qed.

(** Reading back the text of an integer. *)
Lemma parse_number_int_str z : parse_number (int_str z) = Some (NInt z).
Proof.
  unfold int_str. destruct (Z.ltb_spec z 0) as [Hz|Hz]; simpl.
  - rewrite parse_magnitude_nonneg by lia. simpl. by rewrite Z.opp_involutive.
  - destruct (nonneg_str_cons z Hz) as (c & r & E & Hc). rewrite E. simpl.
    replace (c =? 45) with false by (unfold is_digit in Hc; bool_inv; lia).
    rewrite <- E. by rewrite parse_magnitude_nonneg.
Qed.

Lemma int_str_cons z :
  ∃ c r, int_str z = c :: r ∧ (is_digit c = true ∨ c = 45 ∧ ∃ c' r', r = c' :: r' ∧ is_digit c' = true).
Proof.
  unfold int_str. destruct (Z.ltb_spec z 0) as [Hz|Hz].
  - destruct (nonneg_str_cons (- z)) as (c & r & E & Hc); [lia|].
    eexists _, _. split; [done|]. right. split; [done|]. eauto.
  - destruct (nonneg_str_cons z) as (c & r & E & Hc); [lia|]. eauto.
Qed.

(** The characters of number tokens. *)
Definition is_numchar (c : Z) : bool :=
  is_digit c || (c =? 45) || (c =? 43) || (c =? 46) || (c =? 101) || (c =? 69).

Lemma digits_numchars s : forallb is_digit s = true → forallb is_numchar s = true.
Proof.
  rewrite !forallb_forall. intros H x Hx. unfold is_numchar. by rewrite (H x Hx).
Qed.

Lemma int_str_numchars z : forallb is_numchar (int_str z) = true.
Proof.
  unfold int_str. destruct (Z.ltb_spec z 0); simpl; apply digits_numchars, nonneg_str_digits; lia.
Qed.

Lemma parse_exponent_numchars s x : parse_exponent s = Some x → forallb is_numchar s = true.
Proof.
  destruct s as [|c r]; simpl; [done|].
  destruct ((c =? 101) || (c =? 69)) eqn:Hc; [|done].
  replace (is_numchar c) with true
    by (unfold is_numchar; destruct (c =? 101), (c =? 69); simpl in *; rewrite ?orb_true_r; done).
  destruct r as [|c' r']; simpl; [done|].
  destruct (Z.eqb_spec c' 45) as [->|]; [|destruct (Z.eqb_spec c' 43) as [->|]].
  - destruct (nonempty r' && forallb is_digit r') eqn:E; [|done].
    apply andb_true_iff in E as [_ E]. by rewrite digits_numchars.
  - destruct (nonempty r' && forallb is_digit r') eqn:E; [|done].
    apply andb_true_iff in E as [_ E]. by rewrite digits_numchars.
  - simpl. destruct (is_digit c' && forallb is_digit r') eqn:E; [|done].
    apply andb_true_iff in E as [E1 E2]. rewrite digits_numchars by done.
    unfold is_numchar. by rewrite E1.
Qed.

Lemma parse_magnitude_numchars neg s n :
  parse_magnitude neg s = Some n → forallb is_numchar s = true.
Proof.
  unfold parse_magnitude. destruct (span is_digit s) as [ip r1] eqn:E1.
  rewrite (span_app _ _ _ _ E1), forallb_app.
  pose proof (digits_numchars _ (span_all _ _ _ _ E1)) as ->.
  destruct (int_part_ok ip); [|done]. destruct r1 as [|c r2]; [done|].
  destruct (Z.eqb_spec c 46) as [->|].
  - destruct (span is_digit r2) as [fp r3] eqn:E2. destruct (nonempty fp); [|done].
    destruct (parse_exponent r3) eqn:E3; [|done]. intros _. simpl.
    rewrite (span_app _ _ _ _ E2), forallb_app.
    rewrite (digits_numchars _ (span_all _ _ _ _ E2)). simpl.
    by apply parse_exponent_numchars in E3.
  - destruct (parse_exponent (c :: r2)) eqn:E3; [|done]. intros _.
    by apply parse_exponent_numchars in E3.
Qed.

Lemma parse_number_numchars s n : parse_number s = Some n → forallb is_numchar s = true.
Proof.
  destruct s as [|c r]; simpl; [done|].
  destruct (Z.eqb_spec c 45) as [->|]; intros E%parse_magnitude_numchars; [by simpl|done].
Qed.

Lemma float_repr_reads f s : float_repr f = Some s → parse_number s = Some (NFloat f).
Proof.
  unfold float_repr. destruct f as [| |neg m e]; [done..|].
  destruct (m =? 0); intros [_ H]%List.find_some; by apply bool_decide_eq_true in H.
Qed.

Lemma float_repr_finite f s : float_repr f = Some s → isfinite f = true.
Proof. by destruct f. Qed.

(** A finite number's token starts with a digit, or with a minus sign and a digit. *)
Lemma parse_number_head s n :
  parse_number s = Some n →
  ∃ c r, s = c :: r ∧ (is_digit c = true ∨ c = 45 ∧ ∃ c' r', r = c' :: r' ∧ is_digit c' = true).
Proof.
  assert (Hm : ∀ neg s n, parse_magnitude neg s = Some n → ∃ c r, s = c :: r ∧ is_digit c = true).
  { intros neg s' n'. unfold parse_magnitude. destruct s' as [|c r]; simpl; [done|].
    destruct (is_digit c) eqn:Hc; [eauto|done]. }
  destruct s as [|c r]; simpl; [done|].
  destruct (Z.eqb_spec c 45) as [->|]; intros E%Hm.
  - destruct E as (c' & r' & -> & ?). eauto 10.
  - destruct E as (c' & r' & [= -> ->] & ?). eauto 10.
Qed.

Example int_str_examples : map int_str [0; 7; -305; 4096] = map u ["0"; "7"; "-305"; "4096"]%string.
Proof. reflexivity. Qed.

(** [1.5], [-0.1], [2^-44] (where the nearest 16-digit decimal does not read back) and [1e16]. *)
Example float_repr_examples :
  map float_repr [FFin false 6755399441055744 (-52); FFin true 7205759403792794 (-56);
                  FFin false (2 ^ 52) (-96); FFin false (5 ^ 16 * 2 ^ 15) 1]
  = map (λ s, Some (u s)) ["1.5"; "-0.1"; "5.684341886080802e-14"; "1e+16"]%string.
Proof. vm_compute. reflexivity. Qed.
