(* ===== verification/Sha256.v ===== *)
(** * SHA-256, as [hashlib.sha256(payload).hexdigest()]

    A byte is a [Z] in [0, 256).  A 32-bit word is a [Z] reduced with a mask after each
    addition and left shift. *)

From Stdlib Require Import Ascii String.
From stdpp Require Import base list.
From S2P Require Import Prelude PyStr.

Definition word_mask : Z := 0xffffffff.

Definition add32 (a b : Z) : Z := Z.land (a + b) word_mask.

Definition rotr32 (x n : Z) : Z :=
  Z.lor (Z.shiftr x n) (Z.land (Z.shiftl x (32 - n)) word_mask).

Definition big_sigma0 (x : Z) : Z := Z.lxor (rotr32 x 2) (Z.lxor (rotr32 x 13) (rotr32 x 22)).
Definition big_sigma1 (x : Z) : Z := Z.lxor (rotr32 x 6) (Z.lxor (rotr32 x 11) (rotr32 x 25)).
Definition small_sigma0 (x : Z) : Z := Z.lxor (rotr32 x 7) (Z.lxor (rotr32 x 18) (Z.shiftr x 3)).
Definition small_sigma1 (x : Z) : Z := Z.lxor (rotr32 x 17) (Z.lxor (rotr32 x 19) (Z.shiftr x 10)).
Definition choose (x y z : Z) : Z := Z.lxor (Z.land x y) (Z.land (Z.lxor x word_mask) z).
Definition majority (x y z : Z) : Z := Z.lxor (Z.land x y) (Z.lxor (Z.land x z) (Z.land y z)).

(** The constants of the standard are fractional parts of roots of the first primes: the first
    32 bits of the cube roots of 64 primes, and of the square roots of 8. *)
Definition is_prime (n : Z) : bool :=
  forallb (λ d, negb (n mod Z.of_nat d =? 0)) (seq 2 (Z.to_nat n - 2)).

Definition primes (n : nat) : list Z :=
  take n (List.filter is_prime (map Z.of_nat (seq 2 310))).

(** The greatest [r] with [r ^ 3 <= n], bit by bit from [2 ^ bits]. *)
Fixpoint cube_root (bits : nat) (n r : Z) : Z :=
  match bits with
  | O => r
  | S b =>
      let r' := r + Z.shiftl 1 (Z.of_nat b) in
      cube_root b n (if r' * r' * r' <=? n then r' else r)
  end.

Definition round_constants : list Z := Eval vm_compute in
  map (λ p, Z.land (cube_root 36 (Z.shiftl p 96) 0) word_mask) (primes 64).

Definition initial_hash : list Z := Eval vm_compute in
  map (λ p, Z.land (Z.sqrt (Z.shiftl p 64)) word_mask) (primes 8).

(** ** Padding and blocks *)

Definition be_bytes (n : nat) (z : Z) : list Z :=
  map (λ i, Z.land (Z.shiftr z (8 * Z.of_nat (n - 1 - i))) 255) (seq 0 n).

Definition sha_pad (msg : list Z) : list Z :=
  let n := Z.of_nat (length msg) in
  msg ++ [128] ++ replicate (Z.to_nat ((55 - n) mod 64)) 0 ++ be_bytes 8 (8 * n).

Fixpoint be_words (bs : list Z) : list Z :=
  match bs with
  | a :: b :: c :: d :: r => (Z.shiftl a 24 + Z.shiftl b 16 + Z.shiftl c 8 + d) :: be_words r
  | _ => []
  end.

(** [n] more words of the message schedule, latest first. *)
Fixpoint extend_schedule (n : nat) (ws : list Z) : list Z :=
  match n with
  | O => ws
  | S n' =>
      let w i := nth i ws 0 in
      extend_schedule n'
        (add32 (add32 (small_sigma1 (w 1%nat)) (w 6%nat)) (add32 (small_sigma0 (w 14%nat)) (w 15%nat)) :: ws)
  end.

Definition schedule (block : list Z) : list Z := rev (extend_schedule 48 (rev block)).

Definition sha_round (s : list Z) (kw : Z * Z) : list Z :=
  match s with
  | [a; b; c; d; e; f; g; h] =>
      let t1 := add32 (add32 h (big_sigma1 e)) (add32 (choose e f g) (add32 (fst kw) (snd kw))) in
      let t2 := add32 (big_sigma0 a) (majority a b c) in
      [add32 t1 t2; a; b; c; add32 d t1; e; f; g]
  | _ => s
  end.

Definition compress (h : list Z) (block : list Z) : list Z :=
  zip_with add32 h (fold_left sha_round (zip round_constants (schedule block)) h).

Fixpoint sha_blocks (fuel : nat) (h ws : list Z) : list Z :=
  match fuel with
  | O => h
  | S fuel' =>
      match ws with
      | [] => h
      | _ => sha_blocks fuel' (compress h (take 16 ws)) (drop 16 ws)
      end
  end.

Definition hex_digit (n : Z) : Z := if n <? 10 then 48 + n else 87 + n.

Definition hex_word (w : Z) : pystr :=
  map (λ i, hex_digit (Z.land (Z.shiftr w (4 * Z.of_nat (7 - i))) 15)) (seq 0 8).

(** The eight words of the digest; the fuel, one step per word of the padded message, is more
    than the number of blocks. *)
Definition sha256_words (msg : list Z) : list Z :=
  let ws := be_words (sha_pad msg) in sha_blocks (length ws) initial_hash ws.

Definition sha256_hexdigest (msg : list Z) : pystr := concat (map hex_word (sha256_words msg)).

(** ** The shape of a digest: 64 lowercase hexadecimal digits *)

Definition is_hex (c : Z) : bool := ((48 <=? c) && (c <=? 57)) || ((97 <=? c) && (c <=? 102)).

Lemma hex_digit_is_hex n : 0 <= n <= 15 → is_hex (hex_digit n) = true.
Proof. intros. unfold is_hex, hex_digit. destruct (Z.ltb_spec n 10); lia. Qed.

Lemma hex_word_shape w : length (hex_word w) = 8%nat ∧ Forall (λ c, is_hex c = true) (hex_word w).
Proof.
  split; [done|]. unfold hex_word. apply Forall_fmap, Forall_forall. intros i _.
  apply hex_digit_is_hex. rewrite (Z.land_ones _ 4) by lia.
  pose proof (Z.mod_pos_bound (w ≫ (4 * Z.of_nat (7 - i))) (2 ^ 4)). lia.
Qed.

Lemma sha_round_length s kw : length s = 8%nat → length (sha_round s kw) = 8%nat.
Proof. destruct s as [|? [|? [|? [|? [|? [|? [|? [|? [|]]]]]]]]]; simpl; congruence. Qed.

Lemma compress_length h block : length h = 8%nat → length (compress h block) = 8%nat.
Proof.
  intros Hh. unfold compress. rewrite length_zip_with, Hh.
  assert (∀ l s, length s = 8%nat → length (fold_left sha_round l s) = 8%nat) as ->; [|done|done].
  induction l as [|kw l IH]; simpl; intros; [done|]. by apply IH, sha_round_length.
Qed.

Lemma sha_blocks_length fuel h ws : length h = 8%nat → length (sha_blocks fuel h ws) = 8%nat.
Proof.
  revert h ws; induction fuel as [|fuel IH]; intros h ws Hh; simpl; [done|].
  destruct ws; [done|]. by apply IH, compress_length.
Qed.

Lemma sha256_hexdigest_shape msg :
  length (sha256_hexdigest msg) = 64%nat ∧ Forall (λ c, is_hex c = true) (sha256_hexdigest msg).
Proof.
  unfold sha256_hexdigest, sha256_words.
  pose proof (sha_blocks_length (length (be_words (sha_pad msg))) initial_hash
                (be_words (sha_pad msg)) eq_refl) as Hl.
  destruct (sha_blocks _ _ _) as [|? [|? [|? [|? [|? [|? [|? [|? [|]]]]]]]]]; simpl in Hl;
    try congruence.
  split; [done|]. cbn [map concat]. rewrite !Forall_app.
  repeat split; try apply hex_word_shape. constructor.
Qed.

(** FIPS 180-4 test vectors. *)
Example sha256_empty :
  sha256_hexdigest [] = u "e3b0c44298fc1c149afbf4c8996fb92427ae41e4649b934ca495991b7852b855".
Proof. vm_compute. reflexivity. Qed.

Example sha256_abc :
  sha256_hexdigest (u "abc") = u "ba7816bf8f01cfea414140de5dae2223b00361a396177a9cb410ff61f20015ad".
Proof. vm_compute. reflexivity. Qed.

Example sha256_two_blocks :
  sha256_hexdigest (u "abcdbcdecdefdefgefghfghighijhijkijkljklmklmnlmnomnopnopq")
  = u "248d6a61d20638b8e5c026930c3e6039a33ce45964ff2167f6ecedd419db06c1".
Proof. vm_compute. reflexivity. Qed.

#[global] Opaque sha256_hexdigest.
