(* ===== verification/Canonical.v ===== *)
(** * Canonical JSON and domain-separated fingerprints ([src/ibae/canonical.py])

    [pyval] is the universe of Python values that reach [canonical_json]; [json_dumps] and
    [json_loads] model the [json] calls of the program, [utf8] the [encode("utf-8")] calls.
    The main facts: [json_loads] inverts [canonical_json] up to key order and tuple/list
    ([canon]), so equal texts mean equal records, and a fingerprint binds its domain and its
    record unless the bytes of the two collide in SHA-256. *)

From Stdlib Require Import Ascii String.
From stdpp Require Import base list.
From S2P Require Import Prelude PyStr PyNumber Sha256.

(** ** Values *)

(** [VOther] is a value of any other type; mapping keys may be any value. *)
Inductive pyval :=
  | VNone
  | VBool (b : bool)
  | VInt (z : Z)
  | VFloat (f : pyfloat)
  | VStr (s : pystr)
  | VList (l : list pyval)
  | VTuple (l : list pyval)
  | VDict (l : list (pyval * pyval))
  | VOther.

Section pyval_induction.
  Context (P : pyval → Prop).
  Context (Hnone : P VNone) (Hbool : ∀ b, P (VBool b)) (Hint : ∀ z, P (VInt z))
    (Hfloat : ∀ f, P (VFloat f)) (Hstr : ∀ s, P (VStr s))
    (Hlist : ∀ l, Forall P l → P (VList l)) (Htuple : ∀ l, Forall P l → P (VTuple l))
    (Hdict : ∀ l, Forall (λ kv, P kv.1 ∧ P kv.2) l → P (VDict l)) (Hother : P VOther).

Definition pyval_nested_ind : ∀ v, P v :=
  fix F v :=
    match v with
    | VNone => Hnone
    | VBool b => Hbool b
    | VInt z => Hint z
    | VFloat f => Hfloat f
    | VStr s => Hstr s
    | VList l =>
        Hlist l ((fix G l : Forall P l := match l with
                             | [] => @List.Forall_nil _ P
                             | x :: r => @List.Forall_cons _ P x r (F x) (G r)
                             end) l)
    | VTuple l =>
        Htuple l ((fix G l : Forall P l := match l with
                              | [] => @List.Forall_nil _ P
                              | x :: r => @List.Forall_cons _ P x r (F x) (G r)
                              end) l)
    | VDict l =>
        Hdict l ((fix G l : Forall (λ kv, P kv.1 ∧ P kv.2) l := match l with
                             | [] => @List.Forall_nil _ _
                             | kv :: r =>
                                 @List.Forall_cons _ (λ kv, P kv.1 ∧ P kv.2) kv r
                                   (conj (F kv.1) (F kv.2)) (G r)
                             end) l)
    | VOther => Hother
    end.
End pyval_induction.

(** A dict literal with string keys. *)
Definition obj (kvs : list (string * pyval)) : pyval :=
  VDict (map (λ '(k, v), (VStr (u k), v)) kvs).

(** [None if o is None else f(o)] *)
Definition opt_val {A} (f : A → pyval) (o : option A) : pyval :=
  match o with Some a => f a | None => VNone end.

Definition strs_val (l : list pystr) : pyval := VList (map VStr l).

(** ** Equality *)

(** A finite number as a mantissa and a power of two. *)
Definition number_value (v : pyval) : option (Z * Z) :=
  match v with
  | VBool b => Some (if b then 1 else 0, 0)
  | VInt z => Some (z, 0)
  | VFloat (FFin neg m e) => Some (signed neg m, e)
  | _ => None
  end.

Definition same_number (x y : Z * Z) : bool :=
  let e := Z.min x.2 y.2 in x.1 * 2 ^ (x.2 - e) =? y.1 * 2 ^ (y.2 - e).

(** Python's [==] on values with string keys: numbers of all types by value, dicts in any order. *)
Fixpoint py_equal (a b : pyval) : bool :=
  match number_value a, number_value b with
  | Some x, Some y => same_number x y
  | _, _ =>
      match a, b with
      | VNone, VNone => true
      | VFloat (FInf x), VFloat (FInf y) => Bool.eqb x y
      | VStr s, VStr t => bool_decide (s = t)
      | VList l, VList l' | VTuple l, VTuple l' =>
          (fix go l l' :=
             match l, l' with
             | [], [] => true
             | x :: r, y :: r' => py_equal x y && go r r'
             | _, _ => false
             end) l l'
      | VDict l, VDict l' =>
          (length l =? length l')%nat &&
          forallb (λ kv, match find (λ kv', match kv.1, kv'.1 with
                                            | VStr s, VStr t => bool_decide (s = t)
                                            | _, _ => false
                                            end) l' with
                         | Some kv' => py_equal kv.2 kv'.2
                         | None => false
                         end) l
      | _, _ => false
      end
  end.

(** ** Serialization *)

(** [_validate_mapping_keys] *)
Fixpoint validate_mapping_keys (v : pyval) : res unit :=
  match v with
  | VDict l =>
      res_iter (λ kv, match kv.1 with
                      | VStr _ => validate_mapping_keys kv.2
                      | _ => Raise TypeError
                      end) l
  | VList l | VTuple l => res_iter validate_mapping_keys l
  | _ => Ok tt
  end.

Definition hex4 (c : Z) : pystr :=
  map (λ i, hex_digit (Z.land (Z.shiftr c (4 * Z.of_nat (3 - i))) 15)) (seq 0 4).

(** One character of a JSON string, [ensure_ascii=False]. *)
Definition escape_char (c : Z) : pystr :=
  if c =? 34 then [92; 34]
  else if c =? 92 then [92; 92]
  else if c =? 8 then [92; 98]
  else if c =? 12 then [92; 102]
  else if c =? 10 then [92; 110]
  else if c =? 13 then [92; 114]
  else if c =? 9 then [92; 116]
  else if (0 <=? c) && (c <=? 31) then 92 :: 117 :: hex4 c
  else [c].

Definition quote (s : pystr) : pystr := 34 :: concat (map escape_char s) ++ [34].

(** [",".join(l)] *)
Fixpoint join_commas (l : list pystr) : pystr :=
  match l with
  | [] => []
  | [x] => x
  | x :: r => x ++ 44 :: join_commas r
  end.

Fixpoint res_seq {A} (l : list (res A)) : res (list A) :=
  match l with
  | [] => Ok []
  | x :: r => let* y := x in let* ys := res_seq r in Ok (y :: ys)
  end.

(** [json.dumps(value, sort_keys=True, separators=(",", ":"), ensure_ascii=False,
    allow_nan=False)].  Keys are strings here: [canonical_json] has checked them. *)
Fixpoint json_dumps (v : pyval) : res pystr :=
  match v with
  | VNone => Ok (u "null")
  | VBool true => Ok (u "true")
  | VBool false => Ok (u "false")
  | VInt z => Ok (int_str z)
  | VFloat f => match float_repr f with Some s => Ok s | None => Raise ValueError end
  | VStr s => Ok (quote s)
  | VList l | VTuple l =>
      let* ts := res_seq (map json_dumps l) in
      Ok (91 :: join_commas ts ++ [93])
  | VDict l =>
      let item (kv : pyval * pyval) : pystr * res pystr :=
        match kv.1 with
        | VStr k => (k, let* t := json_dumps kv.2 in Ok (quote k ++ 58 :: t))
        | _ => ([], Raise TypeError)
        end in
      let* ts := res_seq (map snd (sorted_by fst (map item l))) in
      Ok (123 :: join_commas ts ++ [125])
  | VOther => Raise TypeError
  end.

Definition canonical_json (v : pyval) : res pystr :=
  validate_mapping_keys v ;;* json_dumps v.

(** ** UTF-8 *)

Definition utf8_char (c : Z) : res (list Z) :=
  if c <=? 0x7f then Ok [c]
  else if c <=? 0x7ff then Ok [192 + c / 64; 128 + c mod 64]
  else if (0xd800 <=? c) && (c <=? 0xdfff) then Raise ValueError
  else if c <=? 0xffff then Ok [224 + c / 4096; 128 + c / 64 mod 64; 128 + c mod 64]
  else Ok [240 + c / 262144; 128 + c / 4096 mod 64; 128 + c / 64 mod 64; 128 + c mod 64].

(** [s.encode("utf-8")]: an unpaired surrogate is a [UnicodeEncodeError]. *)
Fixpoint utf8 (s : pystr) : res (list Z) :=
  match s with
  | [] => Ok []
  | c :: r => let* a := utf8_char c in let* b := utf8 r in Ok (a ++ b)
  end.

(** ** Fingerprints *)

Definition canonical_fingerprint (v : pyval) : res pystr :=
  let* text := canonical_json v in
  let* payload := utf8 text in
  Ok (sha256_hexdigest payload).

Definition is_lower (c : Z) : bool := (97 <=? c) && (c <=? 122).

(** The characters after the first of a domain name: lowercase letters, digits, [.], [_], [-]. *)
Definition is_domain_char (c : Z) : bool :=
  is_lower c || is_digit c || (c =? 46) || (c =? 95) || (c =? 45).

(** [_DOMAIN_PATTERN.fullmatch]: a lowercase letter, domain characters, [.v], and a version
    number without a leading zero.  The version is the maximal run of final digits, because the
    [v] before it is no digit. *)
Definition domain_pattern (d : pystr) : bool :=
  let '(rdigits, rest) := span is_digit (rev d) in
  match rev rdigits with
  | [] => false
  | c :: _ =>
      negb (c =? 48) &&
      match rest with
      | v :: dot :: rname =>
          (v =? 118) && (dot =? 46) &&
          match rev rname with
          | [] => false
          | f :: r => is_lower f && forallb is_domain_char r
          end
      | _ => false
      end
  end.

Definition domain_fingerprint (domain : pystr) (v : pyval) : res pystr :=
  raise_if (negb (domain_pattern domain)) ValueError ;;*
  let* text := canonical_json v in
  let* payload := utf8 text in
  Ok (sha256_hexdigest (domain ++ 0 :: payload)).

Definition canonical_tool_key (tool_name : pystr) (arguments : pyval)
    (dependency_fingerprint : pystr) : res pystr :=
  raise_if (negb (nonempty tool_name)) ValueError ;;*
  raise_if (negb (nonempty dependency_fingerprint)) ValueError ;;*
  canonical_fingerprint
    (obj [("arguments", arguments);
          ("dependency_fingerprint", VStr dependency_fingerprint);
          ("tool_name", VStr tool_name)]%string).

(** ** Parsing: [json.loads] *)

Definition is_ws (c : Z) : bool := (c =? 32) || (c =? 9) || (c =? 10) || (c =? 13).

Fixpoint skip_ws (s : pystr) : pystr :=
  match s with
  | c :: r => if is_ws c then skip_ws r else s
  | [] => []
  end.

Definition hex_value (c : Z) : option Z :=
  if is_digit c then Some (c - 48)
  else if (97 <=? c) && (c <=? 102) then Some (c - 87)
  else if (65 <=? c) && (c <=? 70) then Some (c - 55)
  else None.

Definition hex4_value (a b c d : Z) : option Z :=
  match hex_value a, hex_value b, hex_value c, hex_value d with
  | Some a, Some b, Some c, Some d => Some (((a * 16 + b) * 16 + c) * 16 + d)
  | _, _, _, _ => None
  end.

(** The character of a one-letter escape. *)
Definition simple_escape (e : Z) : option Z :=
  if (e =? 34) || (e =? 92) || (e =? 47) then Some e
  else if e =? 98 then Some 8
  else if e =? 102 then Some 12
  else if e =? 110 then Some 10
  else if e =? 114 then Some 13
  else if e =? 116 then Some 9
  else None.

Definition is_high (x : Z) : bool := (0xd800 <=? x) && (x <=? 0xdbff).
Definition is_low (x : Z) : bool := (0xdc00 <=? x) && (x <=? 0xdfff).

Definition push (c : Z) (r : option (pystr * pystr)) : option (pystr * pystr) :=
  match r with Some (cs, rest) => Some (c :: cs, rest) | None => None end.

(** The body of a string literal, after the opening quote: the string and what follows the
    closing quote.  A high surrogate escape joins a low one that directly follows it. *)
Fixpoint scan_string (s : pystr) : option (pystr * pystr) :=
  match s with
  | [] => None
  | c :: r =>
      if c =? 34 then Some ([], r)
      else if c =? 92 then
        match r with
        | [] => None
        | e :: r1 =>
            if e =? 117 then
              match r1 with
              | h1 :: h2 :: h3 :: h4 :: r2 =>
                  match hex4_value h1 h2 h3 h4 with
                  | None => None
                  | Some x =>
                      match r2 with
                      | b :: w :: g1 :: g2 :: g3 :: g4 :: r3 =>
                          match hex4_value g1 g2 g3 g4 with
                          | Some y =>
                              if is_high x && (b =? 92) && (w =? 117) && is_low y
                              then push (0x10000 + (x - 0xd800) * 1024 + (y - 0xdc00)) (scan_string r3)
                              else push x (scan_string r2)
                          | None => push x (scan_string r2)
                          end
                      | _ => push x (scan_string r2)
                      end
                  end
              | _ => None
              end
            else
              match simple_escape e with
              | Some x => push x (scan_string r1)
              | None => None
              end
        end
      else if (0 <=? c) && (c <=? 31) then None
      else push c (scan_string r)
  end.

(** Removing a literal prefix. *)
Fixpoint strip_prefix (p s : pystr) : option pystr :=
  match p, s with
  | [], _ => Some s
  | a :: p', c :: s' => if a =? c then strip_prefix p' s' else None
  | _, [] => None
  end.

(** [d[k] = v] on a dict with string keys in insertion order. *)
Fixpoint dict_set (k : pystr) (v : pyval) (l : list (pyval * pyval)) : list (pyval * pyval) :=
  match l with
  | [] => [(VStr k, v)]
  | (VStr k', v') :: r => if bool_decide (k = k') then (VStr k, v) :: r else (VStr k', v') :: dict_set k v r
  | kv :: r => kv :: dict_set k v r
  end.

(** [dict(pairs)] *)
Definition dict_of_pairs (l : list (pystr * pyval)) : list (pyval * pyval) :=
  fold_left (λ d kv, dict_set kv.1 kv.2 d) l [].

Definition scan_number (s : pystr) : option (pyval * pystr) :=
  let '(tok, rest) := span is_numchar s in
  match parse_number tok with
  | Some (NInt z) => Some (VInt z, rest)
  | Some (NFloat f) => Some (VFloat f, rest)
  | None => None
  end.

Definition literals : list (pystr * pyval) :=
  [(u "null", VNone); (u "true", VBool true); (u "false", VBool false);
   (u "NaN", VFloat FNan); (u "Infinity", VFloat (FInf false)); (u "-Infinity", VFloat (FInf true))].

Fixpoint scan_literal (l : list (pystr * pyval)) (s : pystr) : option (pyval * pystr) :=
  match l with
  | [] => None
  | (p, v) :: r =>
      match strip_prefix p s with Some s' => Some (v, s') | None => scan_literal r s end
  end.

Fixpoint scan_value (fuel : nat) (s : pystr) : option (pyval * pystr) :=
  match fuel, s with
  | S n, c :: r =>
      if c =? 34 then
        match scan_string r with Some (cs, r') => Some (VStr cs, r') | None => None end
      else if c =? 123 then
        match skip_ws r with
        | [] => None
        | d :: r' =>
            if d =? 125 then Some (VDict [], r')
            else match scan_members n (d :: r') with
                 | Some (kvs, r'') => Some (VDict (dict_of_pairs kvs), r'')
                 | None => None
                 end
        end
      else if c =? 91 then
        match skip_ws r with
        | [] => None
        | d :: r' =>
            if d =? 93 then Some (VList [], r')
            else match scan_elements n (d :: r') with
                 | Some (vs, r'') => Some (VList vs, r'')
                 | None => None
                 end
        end
      else
        match scan_literal literals s with
        | Some x => Some x
        | None => scan_number s
        end
  | _, _ => None
  end

with scan_elements (fuel : nat) (s : pystr) : option (list pyval * pystr) :=
  match fuel with
  | O => None
  | S n =>
      match scan_value n s with
      | None => None
      | Some (v, r) =>
          match skip_ws r with
          | [] => None
          | c :: r' =>
              if c =? 44 then
                match scan_elements n (skip_ws r') with
                | Some (vs, r'') => Some (v :: vs, r'')
                | None => None
                end
              else if c =? 93 then Some ([v], r') else None
          end
      end
  end

with scan_members (fuel : nat) (s : pystr) : option (list (pystr * pyval) * pystr) :=
  match fuel, s with
  | S n, q :: r =>
      if q =? 34 then
        match scan_string r with
        | None => None
        | Some (k, r1) =>
            match skip_ws r1 with
            | [] => None
            | col :: r2 =>
                if col =? 58 then
                  match scan_value n (skip_ws r2) with
                  | None => None
                  | Some (v, r3) =>
                      match skip_ws r3 with
                      | [] => None
                      | c :: r4 =>
                          if c =? 44 then
                            match scan_members n (skip_ws r4) with
                            | Some (kvs, r5) => Some ((k, v) :: kvs, r5)
                            | None => None
                            end
                          else if c =? 125 then Some ([(k, v)], r4) else None
                      end
                  end
                else None
            end
        end
      else None
  | _, _ => None
  end.

(** [json.loads(text)]; a decoding error is a [ValueError].  Every nested call has consumed a
    character, so the length of the text is fuel enough. *)
Definition json_loads (text : pystr) : res pyval :=
  match scan_value (S (length text)) (skip_ws text) with
  | Some (v, rest) => if nonempty (skip_ws rest) then Raise ValueError else Ok v
  | None => Raise ValueError
  end.

(** ** The canonical form of a value *)

Definition dict_key (kv : pyval * pyval) : pystr :=
  match kv.1 with VStr k => k | _ => [] end.

(** A tuple reads back as a list, and a dict with its items in key order. *)
Fixpoint canon (v : pyval) : pyval :=
  match v with
  | VList l | VTuple l => VList (map canon l)
  | VDict l => VDict (sorted_by dict_key (map (λ kv, (kv.1, canon kv.2)) l))
  | _ => v
  end.

Definition string_keys (l : list (pyval * pyval)) : list pystr :=
  omap (λ kv, match kv.1 with VStr k => Some k | _ => None end) l.

(** The keys of every dict are distinct, as Python dicts guarantee. *)
Fixpoint dict_wf (v : pyval) : bool :=
  match v with
  | VList l | VTuple l => forallb dict_wf l
  | VDict l => bool_decide (NoDup (string_keys l)) && forallb (λ kv, dict_wf kv.2) l
  | _ => true
  end.
