(* ===== verification/CanonicalFacts.v ===== *)
(** * Properties of canonical JSON and fingerprints *)

From Stdlib Require Import Ascii String.
From stdpp Require Import base list sets.
From S2P Require Import Prelude PyStr PyNumber Sha256 Canonical.

(** ** Strings *)

Lemma hex_value_digit n : 0 <= n <= 15 → hex_value (hex_digit n) = Some n.
Proof.
  intros Hn. unfold hex_value, hex_digit, is_digit.
  destruct (Z.ltb_spec n 10).
  - replace ((48 <=? 48 + n) && (48 + n <=? 57)) with true by lia. f_equal. lia.
  - replace ((48 <=? 87 + n) && (87 + n <=? 57)) with false by lia.
    replace ((97 <=? 87 + n) && (87 + n <=? 102)) with true by lia. f_equal. lia.
Qed.

Lemma hex4_roundtrip c : 0 <= c <= 31 →
  ∃ a1 a2 a3 a4, hex4 c = [a1; a2; a3; a4] ∧ hex4_value a1 a2 a3 a4 = Some c.
Proof.
  intros Hc. assert (c = 0 ∨ ∃ p, c = Zpos p ∧ (p <= 31)%positive) as [->|(p & -> & Hp)].
  { destruct c; [auto|right; eexists; split; [done|lia]|lia]. }
  - by eexists _, _, _, _.
  - eexists _, _, _, _; split; [done|].
    do 5 (destruct p as [p|p|]; [| |reflexivity]); lia.
Qed.

Lemma scan_string_escape c s :
  scan_string (escape_char c ++ s) = push c (scan_string s).
Proof.
  unfold escape_char.
  destruct (Z.eqb_spec c 34) as [->|H34]; [done|].
  destruct (Z.eqb_spec c 92) as [->|H92]; [done|].
  destruct (Z.eqb_spec c 8) as [->|]; [done|].
  destruct (Z.eqb_spec c 12) as [->|]; [done|].
  destruct (Z.eqb_spec c 10) as [->|]; [done|].
  destruct (Z.eqb_spec c 13) as [->|]; [done|].
  destruct (Z.eqb_spec c 9) as [->|]; [done|].
  destruct ((0 <=? c) && (c <=? 31)) eqn:E.
  - apply andb_true_iff in E as [E1%Z.leb_le E2%Z.leb_le].
    destruct (hex4_roundtrip c ltac:(lia)) as (a1 & a2 & a3 & a4 & -> & Hv).
    cbn -[hex4_value is_high]. rewrite Hv.
    replace (is_high c) with false by (unfold is_high; lia). simpl.
    destruct s as [|b [|w [|g1 [|g2 [|g3 [|g4 r]]]]]]; try done.
    by destruct (hex4_value g1 g2 g3 g4).
  - simpl. apply Z.eqb_neq in H34 as ->. apply Z.eqb_neq in H92 as ->. by rewrite E.
Qed.

Lemma scan_string_quote s rest :
  scan_string (concat (map escape_char s) ++ 34 :: rest) = Some (s, rest).
Proof.
  induction s as [|c s IH]; [done|]. cbn [map concat].
  rewrite <- app_assoc, scan_string_escape, IH. done.
Qed.

(** ** Sequencing *)

Lemma res_seq_Ok {A} (l : list (res A)) ts : res_seq l = Ok ts ↔ l = map Ok ts.
Proof.
  revert ts; induction l as [|x l IH]; intros ts; simpl.
  - split; [by intros [= <-]|]. by destruct ts.
  - rewrite res_bind_Ok. split.
    + intros (y & -> & (ys & ->%IH & [= <-])%res_bind_Ok). done.
    + destruct ts as [|y ts]; intros [= -> ->]. eexists; split; [done|].
      by rewrite (proj2 (IH ts) eq_refl).
Qed.

Lemma res_seq_map_Ok {A B} (f : A → res B) l ts :
  res_seq (map f l) = Ok ts ↔ Forall2 (λ x t, f x = Ok t) l ts.
Proof.
  rewrite res_seq_Ok. revert ts; induction l as [|x l IH]; intros [|t ts]; simpl;
    split; try done; try (by inversion 1).
  - intros [= Hx Hl]. constructor; [done|]. by apply IH.
  - inversion 1; subst. f_equal; [done|]. by apply IH.
Qed.

(** ** The text of a value never starts with a blank or a closing bracket *)

Definition head_ok (t : pystr) : Prop :=
  ∃ c r, t = c :: r ∧ is_ws c = false ∧ c ≠ 93 ∧ c ≠ 125.

Lemma head_ok_skip_ws t rest : head_ok t → skip_ws (t ++ rest) = t ++ rest.
Proof. intros (c & r & -> & Hc & _). simpl. by rewrite Hc. Qed.

Lemma digit_head c r : is_digit c = true → head_ok (c :: r).
Proof.
  intros Hc. exists c, r. split; [done|]. unfold is_digit in Hc. unfold is_ws.
  bool_inv. repeat split; lia.
Qed.

Lemma number_head t : (∃ c r, t = c :: r ∧
    (is_digit c = true ∨ c = 45 ∧ ∃ c' r', r = c' :: r' ∧ is_digit c' = true)) → head_ok t.
Proof.
  intros (c & r & -> & [Hc|[-> _]]); [by apply digit_head|].
  exists 45, r. repeat split; done.
Qed.

Lemma json_dumps_head v t : json_dumps v = Ok t → head_ok t.
Proof.
  destruct v as [|[]|z|f|s|l|l|l|]; cbn [json_dumps]; intros H; try done.
  - injection H as <-. by eexists _, _.
  - injection H as <-. by eexists _, _.
  - injection H as <-. by eexists _, _.
  - injection H as <-. apply number_head, int_str_cons.
  - destruct (float_repr f) eqn:E; [|done]. injection H as <-.
    apply number_head. by eapply parse_number_head, float_repr_reads.
  - injection H as <-. by eexists _, _.
  - apply res_bind_Ok in H as (ts & _ & [= <-]). by eexists _, _.
  - apply res_bind_Ok in H as (ts & _ & [= <-]). by eexists _, _.
  - apply res_bind_Ok in H as (ts & _ & [= <-]). by eexists _, _.
Qed.

(** ** Numbers and literals *)

(** What may follow a value: nothing that could extend a number token. *)
Definition follows_ok (rest : pystr) : Prop := ∀ x r, rest = x :: r → is_numchar x = false.

Lemma scan_number_token tok n rest :
  parse_number tok = Some n → follows_ok rest →
  scan_number (tok ++ rest) =
    Some (match n with NInt z => VInt z | NFloat f => VFloat f end, rest).
Proof.
  intros Hp Hr. unfold scan_number.
  rewrite span_exact by (eauto using parse_number_numchars). rewrite Hp. by destruct n.
Qed.

Lemma strip_prefix_ne a p c s : a ≠ c → strip_prefix (a :: p) (c :: s) = None.
Proof. intros H. simpl. by apply Z.eqb_neq in H as ->. Qed.

Lemma scan_literal_number t rest :
  (∃ c r, t = c :: r ∧
    (is_digit c = true ∨ c = 45 ∧ ∃ c' r', r = c' :: r' ∧ is_digit c' = true)) →
  scan_literal literals (t ++ rest) = None.
Proof.
  intros (c & r & -> & [Hc|(-> & c' & r' & -> & Hc)]);
    unfold is_digit in Hc; bool_inv; cbn [app]; unfold literals, u; simpl;
    repeat match goal with
           | |- context [?a =? ?b] => destruct (Z.eqb_spec a b); [lia|]
           end; done.
Qed.

Lemma scan_value_number n t x rest :
  parse_number t = Some x → follows_ok rest →
  scan_value (S n) (t ++ rest) =
    Some (match x with NInt z => VInt z | NFloat f => VFloat f end, rest).
Proof.
  intros Hp Hr. pose proof (parse_number_head _ _ Hp) as Hh.
  pose proof (scan_literal_number t rest Hh) as Hl.
  pose proof (scan_number_token t x rest Hp Hr) as Hn.
  destruct Hh as (c & r & -> & Hc). cbn [app scan_value] in *.
  replace (c =? 34) with false; [replace (c =? 123) with false; [replace (c =? 91) with false|]|].
  { by rewrite Hl. }
  all: destruct Hc as [Hc|[-> _]]; [unfold is_digit in Hc; bool_inv; lia|done].
Qed.

(** ** Arrays *)

Definition scans (v : pyval) (t : pystr) : Prop :=
  ∀ n rest, (length t <= n)%nat → follows_ok rest → scan_value (S n) (t ++ rest) = Some (canon v, rest).

Lemma follows_bracket c r : is_numchar c = false → follows_ok (c :: r).
Proof. intros Hc x s [= <- _]. done. Qed.

Lemma scan_elements_join l ts :
  Forall2 scans l ts → Forall head_ok ts → l ≠ [] →
  ∀ n rest, (length (join_commas ts) + 2 <= n)%nat →
    scan_elements n (join_commas ts ++ 93 :: rest) = Some (map canon l, rest).
Proof.
  induction 1 as [|v t l ts Hv Hl IH]; [done|].
  intros Hh _ n rest Hn. inversion Hh as [|? ? Ht Hts]; subst.
  destruct n as [|[|n]]; [lia..|].
  destruct Hl as [|v' t' l ts Hv' Hl].
  - cbn [join_commas scan_elements map] in *.
    rewrite Hv; [|simpl in *; lia|by apply follows_bracket]. done.
  - change (join_commas (t :: t' :: ts)) with (t ++ 44 :: join_commas (t' :: ts)) in *.
    rewrite length_app in Hn. cbn [length] in Hn. rewrite <- app_assoc. cbn [app].
    change (scan_elements (S (S n)) ?s) with
      (match scan_value (S n) s with
       | None => None
       | Some (v, r) => match skip_ws r with
                        | [] => None
                        | c :: r' => if c =? 44 then match scan_elements (S n) (skip_ws r') with
                                                     | Some (vs, r'') => Some (v :: vs, r'')
                                                     | None => None end
                                     else if c =? 93 then Some ([v], r') else None
                        end
       end).
    rewrite Hv; [|lia|by apply follows_bracket]. simpl skip_ws. cbn [Z.eqb Pos.eqb].
    assert (Hj : head_ok (join_commas (t' :: ts))).
    { inversion Hts as [|? ? (c & r & -> & Hc) _]; subst. destruct ts; [by exists c, r|].
      by exists c, (r ++ 44 :: join_commas (p :: ts)). }
    rewrite (head_ok_skip_ws _ _ Hj). rewrite IH; [done|done|done|].
    inversion Ht as (c & r & -> & _). cbn [length] in Hn. lia.
Qed.

(** ** Objects *)

Lemma sorted_by_ext {A} (k1 k2 : A → pystr) l :
  (∀ x, k1 x = k2 x) → sorted_by k1 l = sorted_by k2 l.
Proof.
  intros H. assert (Hi : ∀ x l, insert_by k1 x l = insert_by k2 x l).
  { intros x l'; induction l' as [|y l' IH]; simpl; [done|]. by rewrite !H, IH. }
  induction l as [|x l IH]; simpl; [done|]. by rewrite IH, Hi.
Qed.

Lemma dict_set_fresh k v l :
  k ∉ map fst l → dict_set k v (map (λ kv : pystr * pyval, (VStr kv.1, kv.2)) l)
  = map (λ kv, (VStr kv.1, kv.2)) (l ++ [(k, v)]).
Proof.
  induction l as [|[k' v'] l IH]; [done|]. cbn [map fst]. rewrite not_elem_of_cons.
  intros [Hne Hin]. cbn. rewrite bool_decide_false by done. by rewrite IH.
Qed.

Lemma dict_of_pairs_distinct l :
  NoDup (map fst l) → dict_of_pairs l = map (λ kv, (VStr kv.1, kv.2)) l.
Proof.
  intros Hnd. unfold dict_of_pairs.
  enough (H : ∀ l1, NoDup (map fst (l1 ++ l)) →
    fold_left (λ d kv, dict_set kv.1 kv.2 d) l (map (λ kv, (VStr kv.1, kv.2)) l1)
    = map (λ kv, (VStr kv.1, kv.2)) (l1 ++ l)) by (by apply (H [])).
  clear Hnd. induction l as [|[k v] l IH]; intros l1 Hnd; cbn [fold_left fst snd].
  { by rewrite app_nil_r. }
  rewrite dict_set_fresh.
  - rewrite IH by (by rewrite <- app_assoc). by rewrite <- app_assoc.
  - rewrite map_app in Hnd. cbn [map fst] in Hnd.
    apply NoDup_app in Hnd as (_ & Hd & _). intros Hin. apply (Hd k Hin). set_solver.
Qed.

Definition member_text (kt : pystr * pystr) : pystr := quote kt.1 ++ 58 :: kt.2.

Lemma scan_members_join (kvs : list (pystr * pyval)) ts :
  Forall2 (λ kv t, scans kv.2 t) kvs ts → Forall head_ok ts → kvs ≠ [] →
  ∀ n rest,
    (length (join_commas (zip_with (λ kv t, member_text (kv.1, t)) kvs ts)) + 2 <= n)%nat →
    scan_members n (join_commas (zip_with (λ kv t, member_text (kv.1, t)) kvs ts) ++ 125 :: rest)
    = Some (map (λ kv, (kv.1, canon kv.2)) kvs, rest).
Proof.
  induction 1 as [|[k v] t kvs ts Hv Hl IH]; [done|].
  intros Hh _ n rest Hn. inversion Hh as [|? ? Ht Hts]; subst.
  destruct n as [|[|n]]; [lia..|].
  assert (Hone : ∀ s, (length (member_text (k, t)) <= S n)%nat → follows_ok s →
    scan_members (S (S n)) (member_text (k, t) ++ s) =
      match skip_ws s with
      | [] => None
      | c :: r4 => if c =? 44 then match scan_members (S n) (skip_ws r4) with
                                   | Some (kvs, r5) => Some ((k, canon v) :: kvs, r5)
                                   | None => None end
                   else if c =? 125 then Some ([(k, canon v)], r4) else None
      end).
  { intros s Hlen Hs. unfold member_text, quote. cbn [fst snd app].
    unfold member_text, quote in Hlen. cbn [fst snd length app] in Hlen.
    rewrite !length_app in Hlen. cbn [length] in Hlen.
    rewrite <- !app_assoc. cbn [app scan_members]. cbn [Z.eqb Pos.eqb].
    rewrite scan_string_quote. simpl skip_ws at 1. cbn [Z.eqb Pos.eqb].
    rewrite (head_ok_skip_ws _ _ Ht). rewrite (Hv n s); [done|simpl; lia|done]. }
  destruct Hl as [|[k' v'] t' kvs ts Hv' Hl].
  - cbn [zip_with join_commas] in *. rewrite Hone; [done|simpl in *; lia|by apply follows_bracket].
  - cbn [zip_with] in *. cbn [fst] in *.
    set (ms := zip_with _ kvs ts) in *.
    change (join_commas (member_text (k, t) :: member_text (k', t') :: ms))
      with (member_text (k, t) ++ 44 :: join_commas (member_text (k', t') :: ms)) in *.
    rewrite length_app in Hn. cbn [length] in Hn. rewrite <- app_assoc. cbn [app].
    rewrite Hone; [|lia|by apply follows_bracket]. simpl skip_ws at 1. cbn [Z.eqb Pos.eqb].
    assert (Hj : head_ok (join_commas (member_text (k', t') :: ms))).
    { destruct ms; by eexists _, _. }
    rewrite (head_ok_skip_ws _ _ Hj). rewrite IH; [done|done|done|].
    lia.
Qed.

(** ** The round trip *)

Lemma string_keys_perm l1 l2 : l1 ≡ₚ l2 → string_keys l1 ≡ₚ string_keys l2.
Proof. intros H. unfold string_keys. by rewrite H. Qed.

(** The items of a dict that serializes, in the order in which they are written. *)
Lemma json_dumps_dict l t :
  json_dumps (VDict l) = Ok t →
  ∃ kvs ts,
    sorted_by dict_key l = map (λ kv, (VStr kv.1, kv.2)) kvs ∧
    Forall2 (λ kv t, json_dumps kv.2 = Ok t) kvs ts ∧
    t = 123 :: join_commas (zip_with (λ kv t, member_text (kv.1, t)) kvs ts) ++ [125].
Proof.
  cbn [json_dumps]. set (item := λ kv : pyval * pyval, _).
  intros (ms & Hms & [= <-])%res_bind_Ok. rewrite sorted_by_map in Hms.
  rewrite (sorted_by_ext _ dict_key) in Hms by (by intros [[] ?]).
  rewrite map_map in Hms. apply res_seq_map_Ok in Hms.
  assert (H : ∃ kvs ts, sorted_by dict_key l = map (λ kv, (VStr kv.1, kv.2)) kvs ∧
     Forall2 (λ kv t, json_dumps kv.2 = Ok t) kvs ts ∧
     ms = zip_with (λ kv t, member_text (kv.1, t)) kvs ts).
  { induction Hms as [|[k v] m sl ms Hm _ (kvs & ts & -> & Hf & ->)]; [by exists [], []|].
    destruct k as [| | | |k| | | |]; try discriminate Hm.
    apply res_bind_Ok in Hm as (t & Ht & [= <-]).
    exists ((k, v) :: kvs), (t :: ts). by repeat constructor. }
  destruct H as (kvs & ts & ? & ? & ->). eauto.
Qed.

Lemma scan_value_dict kvs ts :
  Forall2 (λ kv t, scans kv.2 t) kvs ts → Forall head_ok ts → NoDup (map fst kvs) →
  ∀ n rest,
    (length (join_commas (zip_with (λ kv t, member_text (kv.1, t)) kvs ts)) + 2 <= n)%nat →
    scan_value (S n)
      (123 :: join_commas (zip_with (λ kv t, member_text (kv.1, t)) kvs ts) ++ 125 :: rest)
    = Some (VDict (map (λ kv, (VStr kv.1, canon kv.2)) kvs), rest).
Proof.
  intros Hs Hh Hnd n rest Hn.
  pose proof (scan_members_join kvs ts Hs Hh) as Hm. cbn [scan_value Z.eqb Pos.eqb].
  destruct Hs as [|[k v] t kvs ts Hv Hs]; [done|].
  specialize (Hm ltac:(done) n rest Hn). cbn [zip_with] in *.
  set (ms := zip_with _ kvs ts) in *.
  assert (Hj : ∃ r, join_commas (member_text (k, t) :: ms) = 34 :: r).
  { destruct ms; by eexists. }
  cbn [fst] in *. destruct Hj as [r Hj]. rewrite Hj in *. cbn [app] in *.
  simpl skip_ws. cbn [Z.eqb Pos.eqb]. rewrite Hm.
  rewrite dict_of_pairs_distinct; [|by rewrite map_map].
  by rewrite map_map.
Qed.

Lemma scan_value_list l ts :
  Forall2 scans l ts → Forall head_ok ts →
  ∀ n rest, (length (join_commas ts) + 2 <= n)%nat →
    scan_value (S n) (91 :: join_commas ts ++ 93 :: rest) = Some (VList (map canon l), rest).
Proof.
  intros Hs Hh n rest Hn. pose proof (scan_elements_join l ts Hs Hh) as Hm.
  cbn [scan_value Z.eqb Pos.eqb]. destruct Hs as [|v t l ts Hv Hs]; [done|].
  specialize (Hm ltac:(done) n rest Hn).
  assert (Hj : head_ok (join_commas (t :: ts))).
  { inversion Hh as [|? ? (c & r & -> & Hc) _]; subst. destruct ts as [|t' ts]; [by exists c, r|].
    by exists c, (r ++ 44 :: join_commas (t' :: ts)). }
  rewrite (head_ok_skip_ws _ _ Hj). destruct Hj as (c & r & E & _ & Hc & _). rewrite E in *.
  cbn [app] in *. apply Z.eqb_neq in Hc as ->. by rewrite Hm.
Qed.

Lemma Forall2_scans l ts :
  Forall (λ v, dict_wf v = true → ∀ t, json_dumps v = Ok t → scans v t) l →
  forallb dict_wf l = true → Forall2 (λ v t, json_dumps v = Ok t) l ts →
  Forall2 scans l ts ∧ Forall head_ok ts.
Proof.
  intros HP Hwf H2. induction H2 as [|v t l ts Hv H2 IH]; [by repeat constructor|].
  inversion HP; subst. simpl in Hwf. apply andb_true_iff in Hwf as [Hw Hwf].
  destruct IH as [? ?]; [done..|]. split; constructor; eauto using json_dumps_head.
Qed.

Lemma json_dumps_scans v :
  dict_wf v = true → ∀ t, json_dumps v = Ok t → scans v t.
Proof.
  induction v as [|b|z|f|s|l IH|l IH|l IH|] using pyval_nested_ind; intros Hwf t Ht n rest Hn Hr.
  - injection Ht as <-. done.
  - destruct b; injection Ht as <-; done.
  - injection Ht as <-. by rewrite (scan_value_number _ _ _ _ (parse_number_int_str z)).
  - cbn [json_dumps] in Ht. destruct (float_repr f) eqn:E; [|done]. injection Ht as <-.
    by rewrite (scan_value_number _ _ _ _ (float_repr_reads _ _ E)).
  - injection Ht as <-. unfold quote. cbn [app scan_value]. cbn [Z.eqb Pos.eqb].
    rewrite <- app_assoc. cbn [app]. by rewrite scan_string_quote.
  - apply res_bind_Ok in Ht as (ts & Hts & [= <-]). apply res_seq_map_Ok in Hts.
    destruct (Forall2_scans l ts IH Hwf Hts) as [Hs Hh].
    cbn [app] in *. rewrite <- app_assoc. cbn [app].
    rewrite (scan_value_list _ _ Hs Hh); [done|]. cbn [length] in Hn.
    rewrite length_app in Hn. simpl in Hn. lia.
  - apply res_bind_Ok in Ht as (ts & Hts & [= <-]). apply res_seq_map_Ok in Hts.
    destruct (Forall2_scans l ts IH Hwf Hts) as [Hs Hh].
    cbn [app] in *. rewrite <- app_assoc. cbn [app].
    rewrite (scan_value_list _ _ Hs Hh); [done|]. cbn [length] in Hn.
    rewrite length_app in Hn. simpl in Hn. lia.
  - destruct (json_dumps_dict l t Ht) as (kvs & ts & Hkvs & Hts & ->).
    cbn [dict_wf] in Hwf. apply andb_true_iff in Hwf as [Hnd%bool_decide_eq_true Hwf].
    assert (Hperm : l ≡ₚ map (λ kv, (VStr kv.1, kv.2)) kvs) by (by rewrite <- Hkvs, sorted_by_perm).
    assert (Hs : Forall2 (λ kv t, scans kv.2 t) kvs ts ∧ Forall head_ok ts).
    { assert (Hall : Forall (λ kv : pyval * pyval, dict_wf kv.2 = true ∧
         (dict_wf kv.2 = true → ∀ t, json_dumps kv.2 = Ok t → scans kv.2 t)) l).
      { rewrite forallb_forall in Hwf. apply Forall_forall. intros kv Hkv.
        split; [apply Hwf; by apply list_elem_of_In|]. rewrite Forall_forall in IH. by apply IH. }
      rewrite Hperm, Forall_fmap in Hall. clear -Hall Hts.
      induction Hts as [|kv t kvs ts Hkv _ IH]; [by repeat constructor|].
      inversion Hall as [|? ? [? ?] ?]; subst. destruct IH; [done|].
      split; constructor; eauto using json_dumps_head. }
    destruct Hs as [Hs Hh]. cbn [app] in *. rewrite <- app_assoc. cbn [app].
    rewrite (scan_value_dict _ _ Hs Hh).
    + do 2 f_equal. cbn [canon]. rewrite sorted_by_map.
      rewrite (sorted_by_ext _ dict_key) by done. rewrite Hkvs, map_map. done.
    + rewrite (string_keys_perm _ _ Hperm) in Hnd. unfold string_keys in Hnd.
      clear -Hnd. replace (map fst kvs) with (omap (λ kv : pyval * pyval, match kv.1 with VStr k => Some k | _ => None end)
        (map (λ kv : pystr * pyval, (VStr kv.1, kv.2)) kvs)); [done|].
      induction kvs as [|kv kvs IH]; [done|]. simpl. f_equal. apply IH.
      simpl in Hnd. by inversion Hnd.
    + cbn [length] in Hn. rewrite length_app in Hn. simpl in Hn. lia.
  - discriminate Ht.
Qed.

Lemma json_dumps_loads v t : dict_wf v = true → json_dumps v = Ok t → json_loads t = Ok (canon v).
Proof.
  intros Hwf Ht. unfold json_loads.
  pose proof (head_ok_skip_ws t [] (json_dumps_head _ _ Ht)) as Hs. rewrite app_nil_r in Hs.
  rewrite Hs. rewrite <- (app_nil_r t) at 2.
  by rewrite (json_dumps_scans v Hwf t Ht (length t) []).
Qed.

(** ** The canonical form determines the text *)

Lemma res_map_fmap_dumps (l : list pyval) (f : pyval → pyval) :
  Forall (λ v, json_dumps (f v) = json_dumps v) l → map json_dumps (map f l) = map json_dumps l.
Proof. induction 1 as [|v l Hv _ IH]; simpl; [done|]. by rewrite Hv, IH. Qed.

Lemma json_dumps_canon v : json_dumps (canon v) = json_dumps v.
Proof.
  induction v as [|b|z|f|s|l IH|l IH|l IH|] using pyval_nested_ind; try done.
  - cbn [canon json_dumps]. by rewrite res_map_fmap_dumps.
  - cbn [canon json_dumps]. by rewrite res_map_fmap_dumps.
  - cbn [canon json_dumps]. set (item := λ kv : pyval * pyval, _). do 2 f_equal. f_equal.
    rewrite (sorted_by_map dict_key). rewrite map_map.
    rewrite (sorted_by_map fst), (sorted_by_map fst item).
    rewrite (sorted_by_ext _ dict_key) by (by intros [[] ?]).
    replace (sorted_by (λ a, dict_key (a.1, canon a.2)) l) with (sorted_by dict_key l)
      by (by apply sorted_by_ext).
    replace (sorted_by (λ a, (item a).1) l) with (sorted_by dict_key l)
      by (by apply sorted_by_ext; intros [[] ?]).
    rewrite sorted_by_idem. apply map_ext_in. intros [k w] Hin%list_elem_of_In.
    rewrite elem_of_sorted_by in Hin. rewrite Forall_forall in IH.
    destruct (IH _ Hin) as [_ Hw]. unfold item. cbn [fst snd] in *. by rewrite Hw.
Qed.

Lemma validate_keys_cases v : validate_mapping_keys v = Ok tt ∨ validate_mapping_keys v = Raise TypeError.
Proof.
  assert (Hl : ∀ {A} (f : A → res unit) l, Forall (λ x, f x = Ok tt ∨ f x = Raise TypeError) l →
    res_iter f l = Ok tt ∨ res_iter f l = Raise TypeError).
  { intros A f l. induction 1 as [|x l [Hx|Hx] _ IH]; simpl; rewrite ?Hx; auto. }
  induction v as [|b|z|f|s|l IH|l IH|l IH|] using pyval_nested_ind; try (by left);
    cbn [validate_mapping_keys]; apply Hl; try done.
  eapply Forall_impl; [done|]. intros [k w] [_ ?]. destruct k; simpl; auto.
Qed.

Lemma validate_keys_canon v : validate_mapping_keys (canon v) = validate_mapping_keys v.
Proof.
  assert (Hl : ∀ {A} (f : A → res unit) l1 l2, l1 ≡ₚ l2 →
    Forall (λ x, f x = Ok tt ∨ f x = Raise TypeError) l1 → res_iter f l1 = res_iter f l2).
  { intros A f l1 l2 Hp. induction Hp as [|x l1 l2 _ IH|x y l|l1 l2 l3 H12 IH1 _ IH2]; intros HF; simpl.
    - done.
    - inversion HF; subst. by rewrite IH.
    - inversion HF as [|? ? [Hy|Hy] HF']; inversion HF' as [|? ? [Hx|Hx] _]; subst;
        by rewrite Hx, Hy.
    - rewrite IH1 by done. apply IH2. by rewrite <- H12. }
  assert (Hm : ∀ l : list pyval, Forall (λ v, validate_mapping_keys (canon v) = validate_mapping_keys v) l →
    res_iter validate_mapping_keys (map canon l) = res_iter validate_mapping_keys l).
  { induction 1 as [|x l Hx _ IH]; simpl; [done|]. by rewrite Hx, IH. }
  induction v as [|b|z|f|s|l IH|l IH|l IH|] using pyval_nested_ind; try done;
    cbn [canon validate_mapping_keys]; [by apply Hm..|].
  rewrite (Hl _ _ _ _ (sorted_by_perm dict_key _)).
  - induction IH as [|[k w] l [_ Hw] _ IHl]; [done|]. cbn [map res_iter fst snd] in *.
    rewrite IHl. destruct k; [done..| |done|done|done|done]. by rewrite Hw.
  - apply Forall_forall. intros [k w] _. destruct k; simpl; auto using validate_keys_cases.
Qed.

Lemma canonical_json_canon_eq v : canonical_json (canon v) = canonical_json v.
Proof. unfold canonical_json. by rewrite validate_keys_canon, json_dumps_canon. Qed.

Lemma canonical_json_dumps v t : canonical_json v = Ok t → json_dumps v = Ok t.
Proof. unfold canonical_json. intros. by res_inv. Qed.

Lemma canonical_json_inj v1 v2 t :
  dict_wf v1 = true → dict_wf v2 = true →
  canonical_json v1 = Ok t → canonical_json v2 = Ok t → canon v1 = canon v2.
Proof.
  intros W1 W2 H1%canonical_json_dumps H2%canonical_json_dumps.
  apply json_dumps_loads in H1; [|done]. apply json_dumps_loads in H2; [|done]. congruence.
Qed.

(** ** UTF-8 is injective *)

Lemma utf8_char_inj c1 c2 a1 a2 r1 r2 :
  utf8_char c1 = Ok a1 → utf8_char c2 = Ok a2 → a1 ++ r1 = a2 ++ r2 → c1 = c2 ∧ r1 = r2.
Proof.
  unfold utf8_char.
  destruct (Z.leb_spec c1 0x7f); [|destruct (Z.leb_spec c1 0x7ff);
    [|destruct ((0xd800 <=? c1) && (c1 <=? 0xdfff)); [done|destruct (Z.leb_spec c1 0xffff)]]];
  (destruct (Z.leb_spec c2 0x7f); [|destruct (Z.leb_spec c2 0x7ff);
    [|destruct ((0xd800 <=? c2) && (c2 <=? 0xdfff)); [done|destruct (Z.leb_spec c2 0xffff)]]]);
  intros [= <-] [= <-]; cbn [app]; intros E; injection E; intros; subst;
  (split; [|done]) || idtac; try (split; [|done]);
  Z.to_euclidean_division_equations; lia.
Qed.

Lemma utf8_char_nonempty c a : utf8_char c = Ok a → a ≠ [].
Proof. unfold utf8_char. repeat case_match; intros [= <-]; done. Qed.

Lemma utf8_inj s1 s2 b : utf8 s1 = Ok b → utf8 s2 = Ok b → s1 = s2.
Proof.
  revert s2 b; induction s1 as [|c1 s1 IH]; intros [|c2 s2] b; cbn [utf8]; intros H1 H2; res_inv; subst.
  - done.
  - exfalso. apply (utf8_char_nonempty _ _ E). by destruct a.
  - exfalso. apply (utf8_char_nonempty _ _ E). by destruct a.
  - destruct (utf8_char_inj c1 c2 a1 a a2 a0) as [-> ->]; try done. f_equal. by eapply IH.
Qed.

(** ** Dict literals *)

Definition obj_keys (kvs : list (string * pyval)) : list pystr := map (λ kv, u kv.1) kvs.

Lemma obj_wf kvs :
  dict_wf (obj kvs) = bool_decide (NoDup (obj_keys kvs)) && forallb (λ kv, dict_wf kv.2) kvs.
Proof.
  unfold obj. cbn [dict_wf]. f_equal.
  - apply bool_decide_ext. unfold string_keys, obj_keys.
    replace (omap _ _) with (map (λ kv : string * pyval, u kv.1) kvs); [done|].
    induction kvs as [|[k v] kvs IH]; [done|]. simpl. by rewrite IH.
  - induction kvs as [|[k v] kvs IH]; [done|]. simpl. by rewrite IH.
Qed.

Lemma strs_val_wf l : dict_wf (strs_val l) = true.
Proof. simpl. by induction l. Qed.

Lemma list_val_wf {A} (f : A → pyval) l :
  (∀ x, x ∈ l → dict_wf (f x) = true) → dict_wf (VList (map f l)) = true.
Proof.
  intros H. cbn [dict_wf]. rewrite forallb_forall. intros v (x & <- & Hx)%in_map_iff.
  by apply H, list_elem_of_In.
Qed.

Lemma opt_val_wf {A} (f : A → pyval) o :
  (∀ x, o = Some x → dict_wf (f x) = true) → dict_wf (opt_val f o) = true.
Proof. destruct o; simpl; auto. Qed.

(** [wf_obj]: a dict literal is well formed when its values are. *)
Ltac wf_obj :=
  rewrite obj_wf; apply andb_true_intro; split;
  [vm_compute; reflexivity
  |cbn [forallb snd fst]; rewrite ?strs_val_wf; cbn [dict_wf andb]].

(** ** The fields of equal dict literals *)

Fixpoint field (k : string) (kvs : list (string * pyval)) : option pyval :=
  match kvs with
  | [] => None
  | (k', v) :: r => if String.eqb k k' then Some v else field k r
  end.

Lemma field_elem k kvs v : field k kvs = Some v → (k, v) ∈ kvs.
Proof.
  induction kvs as [|[k' v'] kvs IH]; [done|]. simpl. destruct (String.eqb_spec k k') as [->|].
  - intros [= ->]. set_solver.
  - intros ?%IH. set_solver.
Qed.

Lemma canon_obj kvs :
  canon (obj kvs) = VDict (sorted_by dict_key (map (λ '(k, v), (VStr (u k), canon v)) kvs)).
Proof.
  unfold obj. cbn [canon]. rewrite map_map. do 2 f_equal. apply map_ext. by intros [k v].
Qed.

Lemma obj_field_pair kvs1 kvs2 k v1 :
  canon (obj kvs1) = canon (obj kvs2) → (k, v1) ∈ kvs1 →
  ∃ k' v2, (k', v2) ∈ kvs2 ∧ u k' = u k ∧ canon v1 = canon v2.
Proof.
  rewrite !canon_obj. intros [= H] Hin.
  assert (Hp : (VStr (u k), canon v1) ∈ map (λ '(k, v), (VStr (u k), canon v)) kvs2).
  { rewrite <- (sorted_by_perm dict_key (map _ kvs2)), <- H, sorted_by_perm.
    apply list_elem_of_In, in_map_iff. exists (k, v1). split; [done|]. by apply list_elem_of_In. }
  apply list_elem_of_In, in_map_iff in Hp as ([k' v2] & [= Hk Hv] & Hin').
  exists k', v2. split; [by apply list_elem_of_In|done].
Qed.

(** Equal literals have equal fields. *)
Lemma obj_field k kvs1 kvs2 v1 v2 :
  canon (obj kvs1) = canon (obj kvs2) → bool_decide (NoDup (obj_keys kvs2)) = true →
  field k kvs1 = Some v1 → field k kvs2 = Some v2 → canon v1 = canon v2.
Proof.
  intros Hc Hnd%bool_decide_eq_true H1%field_elem H2%field_elem.
  destruct (obj_field_pair _ _ _ _ Hc H1) as (k' & v' & Hin & Hk & ->). f_equal.
  unfold obj_keys in Hnd. clear -Hnd H2 Hin Hk. induction kvs2 as [|[k1 w] kvs IH]; [by apply elem_of_nil in H2|].
  cbn [map fst] in Hnd. inversion Hnd as [|? ? Hni Hnd']; subst.
  assert (Hmap : ∀ k v, (k, v) ∈ kvs → u k ∈ map (λ kv : string * pyval, u kv.1) kvs).
  { intros ? ? Hkv. apply list_elem_of_In, in_map_iff. eexists. split; [|by apply list_elem_of_In]. done. }
  apply elem_of_cons in H2 as [[= -> ->]|H2]; apply elem_of_cons in Hin as [[= -> ->]|Hin]; auto.
  - destruct Hni. rewrite <- Hk. eauto.
  - destruct Hni. rewrite Hk. eauto.
Qed.

Lemma canon_obj_length kvs1 kvs2 : canon (obj kvs1) = canon (obj kvs2) → length kvs1 = length kvs2.
Proof.
  rewrite !canon_obj. intros [= H]. apply (f_equal length) in H. by rewrite !length_sorted_by, !length_map in H.
Qed.

(** [obj_fields H k]: the equation for field [k] of two equal dict literals. *)
Ltac obj_field_eq H k :=
  let E := fresh "F" in
  pose proof (obj_field k _ _ _ _ H ltac:(vm_compute; reflexivity) eq_refl eq_refl) as E.

(** ** Equality of a value with itself *)

(** Not a number is not equal to itself, and nothing is known of other objects. *)
Fixpoint comparable (v : pyval) : bool :=
  match v with
  | VFloat FNan | VOther => false
  | VList l | VTuple l => forallb comparable l
  | VDict l => forallb (λ kv, match kv.1 with VStr _ => true | _ => false end && comparable kv.2) l
  | _ => true
  end.

Lemma same_number_refl x : same_number x x = true.
Proof. apply Z.eqb_refl. Qed.

(** The search for a key of the dict itself finds its own item. *)
Lemma find_own_item (l : list (pyval * pyval)) k v :
  Forall (λ kv, match kv.1 with VStr _ => true | _ => false end = true) l → NoDup (string_keys l) →
  (VStr k, v) ∈ l →
  find (λ kv', match VStr k, kv'.1 with VStr s, VStr t => bool_decide (s = t) | _, _ => false end) l =
  Some (VStr k, v).
Proof.
  induction l as [|[k' v'] l IH]; intros Hk Hnd Hin; [by apply elem_of_nil in Hin|].
  apply Forall_cons in Hk as [Hk' Hk]. cbn [fst] in Hk'. destruct k' as [| | | |k'| | | |]; try done.
  cbn [find fst] in *. unfold string_keys in Hnd. cbn [omap list_omap fst] in Hnd.
  apply NoDup_cons in Hnd as [Hni Hnd]. apply elem_of_cons in Hin as [[= -> ->]|Hin]; [by rewrite bool_decide_true|].
  rewrite bool_decide_false; [by apply IH|]. intros ->. apply Hni, list_elem_of_omap. by exists (VStr k', v).
Qed.

Lemma py_equal_refl v : dict_wf v = true → comparable v = true → py_equal v v = true.
Proof.
  induction v as [|b|z|f|s|l IH|l IH|l IH|] using pyval_nested_ind; intros Hw Hc; try done; cbn in Hw, Hc |- *.
  - apply same_number_refl.
  - apply same_number_refl.
  - destruct f; cbn in Hc |- *; done || by apply eqb_reflx || apply same_number_refl.
  - by apply bool_decide_true.
  - induction IH as [|x l Hx _ IHl]; [done|]. cbn in Hw, Hc. apply andb_true_iff in Hw as [? ?], Hc as [? ?].
    by rewrite Hx, IHl.
  - induction IH as [|x l Hx _ IHl]; [done|]. cbn in Hw, Hc. apply andb_true_iff in Hw as [? ?], Hc as [? ?].
    by rewrite Hx, IHl.
  - rewrite Nat.eqb_refl. apply andb_true_iff in Hw as [Hnd%bool_decide_eq_true Hw].
    apply forallb_forall. intros [k v] Hin. rewrite Forall_forall in IH.
    rewrite forallb_forall in Hw, Hc. specialize (Hw _ Hin). specialize (Hc _ Hin) as Hkv. cbn [fst snd] in *.
    apply andb_true_iff in Hkv as [Hk Hv]. destruct k as [| | | |k| | | |]; try done.
    apply list_elem_of_In in Hin. rewrite (find_own_item l k v); [by apply (IH _ Hin)| |done|done].
    apply Forall_forall. intros kv Hkv%list_elem_of_In. specialize (Hc _ Hkv). by apply andb_true_iff in Hc as [? _].
Qed.
