(* ===== verification/Fingerprints.v ===== *)
(** * What a fingerprint commits to

    Properties of [canonical_json], [domain_fingerprint] and [canonical_tool_key] that the rest
    of the system relies on: the canonical text is a faithful encoding, and two records with the
    same fingerprint are the same record in the same domain unless their two messages - the domain
    and the canonical bytes of each - are a collision of SHA-256. *)

From Stdlib Require Import Ascii String.
From stdpp Require Import base list sets.
From S2P Require Import Prelude PyStr PyNumber Sha256 Canonical CanonicalFacts.

(** ** Messages and their collisions *)

(** The bytes that a domain fingerprint hashes, of a value and of a computed record. *)
Definition domain_message (d : pystr) (v : pyval) : res (list Z) :=
  let* t := canonical_json v in
  let* p := utf8 t in
  Ok (d ++ 0 :: p).

Definition record_message (d : pystr) (record : res pyval) : res (list Z) :=
  let* v := record in domain_message d v.

(** The bytes that a plain fingerprint hashes. *)
Definition plain_message (v : pyval) : res (list Z) := let* t := canonical_json v in utf8 t.

(** Two messages that are hashed, differ, and have the same digest. *)
Definition collide (m1 m2 : res (list Z)) : Prop :=
  ∃ b1 b2, m1 = Ok b1 ∧ m2 = Ok b2 ∧ b1 ≠ b2 ∧ sha256_hexdigest b1 = sha256_hexdigest b2.

(** Two of the listed messages collide.  Every theorem names the messages that it lists. *)
Definition collision_among (l : list (res (list Z))) : Prop := ∃ m1 m2, m1 ∈ l ∧ m2 ∈ l ∧ collide m1 m2.

Lemma collision_among_incl l l' : (∀ m, m ∈ l → m ∈ l') → collision_among l → collision_among l'.
Proof. intros Hi (m1 & m2 & H1 & H2 & H). exists m1, m2. auto. Qed.

Lemma collision_pair m1 m2 : collide m1 m2 → collision_among [m1; m2].
Proof. intros H. exists m1, m2. split; [|split; [|exact H]]; set_solver. Qed.

(** A collision of fewer messages. *)
Ltac among H :=
  eapply collision_among_incl, H; intros ?;
  rewrite ?elem_of_app, ?elem_of_cons, ?elem_of_app, ?elem_of_cons, ?elem_of_nil; tauto.

(** Collisions among given messages are decided by hashing them. *)
Definition no_collision (l : list (res (list Z))) : bool :=
  let hashed := omap (λ m, match m with Ok b => Some (b, sha256_hexdigest b) | Raise _ => None end) l in
  forallb (λ x, forallb (λ y, bool_decide (x.1 = y.1) || negb (bool_decide (x.2 = y.2))) hashed) hashed.

Lemma no_collision_sound l : no_collision l = true → ¬ collision_among l.
Proof.
  unfold no_collision. intros H (m1 & m2 & H1 & H2 & b1 & b2 & -> & -> & Hne & Heq).
  set (hashed := omap _ l) in H.
  assert (Hin : ∀ b, Ok b ∈ l → In (b, sha256_hexdigest b) hashed).
  { intros b Hb. apply list_elem_of_In, list_elem_of_omap. by exists (Ok b). }
  rewrite forallb_forall in H. specialize (H _ (Hin _ H1)). rewrite forallb_forall in H. specialize (H _ (Hin _ H2)).
  cbn [fst snd] in H. rewrite bool_decide_false in H by done. by rewrite bool_decide_true in H.
Qed.

(** ** The domain pattern *)

Definition domain_shape (d : pystr) : Prop :=
  ∃ f r c ds, d = f :: r ++ [46; 118] ++ c :: ds ∧ is_lower f = true ∧
    forallb is_domain_char r = true ∧ is_digit c = true ∧ c ≠ 48 ∧ forallb is_digit ds = true.

Lemma forallb_rev {A} (p : A → bool) l : forallb p (rev l) = forallb p l.
Proof.
  induction l as [|x l IH]; [done|]. simpl. rewrite forallb_app, IH. simpl.
  by rewrite andb_true_r, andb_comm.
Qed.

Lemma domain_pattern_sound d : domain_pattern d = true → domain_shape d.
Proof.
  unfold domain_pattern. destruct (span is_digit (rev d)) as [rds rest] eqn:E.
  pose proof (span_all _ _ _ _ E) as Hds. pose proof (span_app _ _ _ _ E) as Happ.
  destruct (rev rds) as [|c ds] eqn:Erev; [done|].
  destruct rest as [|v [|dot rname]]; rewrite ?andb_false_r; try done.
  intros H. bool_inv. subst. destruct (rev rname) as [|f r] eqn:En; [done|]. bool_inv.
  assert (Hc : forallb is_digit (c :: ds) = true) by (by rewrite <- Erev, forallb_rev).
  simpl in Hc. bool_inv. exists f, r, c, ds. repeat split; try done.
  rewrite <- (rev_involutive d), Happ, rev_app_distr. cbn [rev].
  rewrite Erev, En. by rewrite <- !app_assoc.
Qed.

Lemma domain_pattern_complete d : domain_shape d → domain_pattern d = true.
Proof.
  intros (f & r & c & ds & -> & Hf & Hr & Hc & Hc0 & Hds). unfold domain_pattern.
  replace (rev (f :: r ++ [46; 118] ++ c :: ds)) with (rev (c :: ds) ++ 118 :: 46 :: rev (f :: r)).
  - rewrite span_exact.
    + rewrite !rev_involutive. apply Z.eqb_neq in Hc0 as ->. cbn. by rewrite Hf, Hr.
    + rewrite forallb_rev. simpl. by rewrite Hc.
    + by intros x l [= <- _].
  - change (f :: r ++ [46; 118] ++ c :: ds) with ((f :: r) ++ [46; 118] ++ (c :: ds)).
    by rewrite !rev_app_distr, <- app_assoc.
Qed.

Lemma domain_no_nul d : domain_pattern d = true → 0 ∉ d.
Proof.
  intros (f & r & c & ds & -> & Hf & Hr & Hc & _ & Hds)%domain_pattern_sound.
  rewrite forallb_forall in Hr, Hds. intros Hin%list_elem_of_In.
  cbn [app In] in Hin. rewrite in_app_iff in Hin. cbn [In] in Hin.
  destruct Hin as [->|[Hin%Hr|[|[|[->|Hin%Hds]]]]]; done.
Qed.

Lemma nul_separator d1 d2 p1 p2 :
  0 ∉ d1 → 0 ∉ d2 → d1 ++ 0 :: p1 = d2 ++ 0 :: p2 → d1 = d2 ∧ p1 = p2.
Proof.
  revert d2; induction d1 as [|x d1 IH]; intros [|y d2]; cbn [app]; rewrite ?not_elem_of_cons;
    intros H1 H2 E; simplify_eq; [done|naive_solver..|].
  destruct (IH d2) as [-> ->]; naive_solver.
Qed.

Lemma domain_fingerprint_inv d v h :
  domain_fingerprint d v = Ok h →
  domain_pattern d = true ∧ ∃ t p, canonical_json v = Ok t ∧ utf8 t = Ok p ∧
    h = sha256_hexdigest (d ++ 0 :: p).
Proof. unfold domain_fingerprint. intros. res_inv. bool_inv. eauto 10. Qed.

(** A fingerprint is the digest of its message. *)
Lemma domain_fingerprint_message d v h :
  domain_fingerprint d v = Ok h → ∃ m, domain_message d v = Ok m ∧ h = sha256_hexdigest m.
Proof.
  intros (_ & t & p & Ht & Hp & ->)%domain_fingerprint_inv. exists (d ++ 0 :: p). split; [|done].
  unfold domain_message. rewrite Ht. cbn [res_bind]. by rewrite Hp.
Qed.

Lemma domain_fingerprint_shape d v h :
  domain_fingerprint d v = Ok h → length h = 64%nat ∧ Forall (λ c, is_hex c = true) h.
Proof. intros (_ & t & p & _ & _ & ->)%domain_fingerprint_inv. apply sha256_hexdigest_shape. Qed.

(** Equal identities, or a collision of their two messages. *)
Lemma domain_fingerprint_inj d1 d2 v1 v2 h :
  domain_fingerprint d1 v1 = Ok h → domain_fingerprint d2 v2 = Ok h →
  dict_wf v1 = true → dict_wf v2 = true →
  (d1 = d2 ∧ canon v1 = canon v2) ∨ collide (domain_message d1 v1) (domain_message d2 v2).
Proof.
  intros (D1 & t1 & p1 & C1 & U1 & E1)%domain_fingerprint_inv
    (D2 & t2 & p2 & C2 & U2 & E2)%domain_fingerprint_inv W1 W2.
  destruct (decide (d1 ++ 0 :: p1 = d2 ++ 0 :: p2)) as [E|NE].
  - left. destruct (nul_separator d1 d2 p1 p2) as [-> ->]; auto using domain_no_nul.
    rewrite (utf8_inj t1 t2 p2) in C1 by done. split; [done|]. by apply (canonical_json_inj v1 v2 t2).
  - right. exists (d1 ++ 0 :: p1), (d2 ++ 0 :: p2). unfold domain_message. rewrite C1, C2. cbn [res_bind].
    rewrite U1, U2. repeat (split; [done|]). congruence.
Qed.

(** ** Properties *)

(** C38.  Canonical JSON is a faithful encoding: the text of a value parses back to its canonical
    form (dict items in key order, tuples as lists), and that form has the same text. *)
Theorem canonical_json_roundtrip v t :
  dict_wf v = true → canonical_json v = Ok t →
  json_loads t = Ok (canon v) ∧ canonical_json (canon v) = Ok t.
Proof.
  intros Hwf Ht. split.
  - apply json_dumps_loads; [done|]. by apply canonical_json_dumps.
  - by rewrite canonical_json_canon_eq.
Qed.

(** A domain fingerprint binds its domain and its record: two calls that return the same
    fingerprint had the same domain and the same canonical value, or their own two messages
    collide.  In particular the NUL separator keeps a domain suffix apart from a payload. *)
Theorem domain_fingerprint_binds d1 d2 v1 v2 h :
  dict_wf v1 = true → dict_wf v2 = true →
  domain_fingerprint d1 v1 = Ok h → domain_fingerprint d2 v2 = Ok h →
  (d1 = d2 ∧ canon v1 = canon v2) ∨ collide (domain_message d1 v1) (domain_message d2 v2).
Proof. intros. by eapply domain_fingerprint_inj. Qed.

(** The identity of a tool call. *)
Lemma canonical_tool_key_inv n a d h :
  canonical_tool_key n a d = Ok h →
  n ≠ [] ∧ d ≠ [] ∧
  canonical_fingerprint (obj [("arguments", a); ("dependency_fingerprint", VStr d);
                              ("tool_name", VStr n)]%string) = Ok h.
Proof.
  unfold canonical_tool_key. intros. res_inv. bool_inv. by destruct n, d.
Qed.

Lemma canonical_fingerprint_inj v1 v2 h :
  canonical_fingerprint v1 = Ok h → canonical_fingerprint v2 = Ok h →
  dict_wf v1 = true → dict_wf v2 = true →
  canon v1 = canon v2 ∨ collide (plain_message v1) (plain_message v2).
Proof.
  unfold canonical_fingerprint, plain_message. intros H1 H2 W1 W2.
  apply res_bind_Ok in H1 as (t1 & C1 & H1). apply res_bind_Ok in H1 as (p1 & U1 & H1). injection H1 as H1.
  apply res_bind_Ok in H2 as (t2 & C2 & H2). apply res_bind_Ok in H2 as (p2 & U2 & H2). injection H2 as H2.
  destruct (decide (p1 = p2)) as [->|].
  - left. rewrite (utf8_inj t1 t2 p2) in C1 by done. by apply (canonical_json_inj v1 v2 t2).
  - right. exists p1, p2. rewrite C1, C2. repeat (split; [done|]). congruence.
Qed.

(** The record of a tool call. *)
Definition tool_call (n : pystr) (a : pyval) (d : pystr) : pyval :=
  obj [("arguments", a); ("dependency_fingerprint", VStr d); ("tool_name", VStr n)]%string.

(** A tool key determines the call: equal keys come from the same tool name, the same
    dependency fingerprint and the same canonical arguments, unless the two calls collide. *)
Theorem canonical_tool_key_binds n1 n2 a1 a2 d1 d2 h :
  dict_wf a1 = true → dict_wf a2 = true →
  canonical_tool_key n1 a1 d1 = Ok h → canonical_tool_key n2 a2 d2 = Ok h →
  (n1 = n2 ∧ d1 = d2 ∧ canon a1 = canon a2) ∨ collide (plain_message (tool_call n1 a1 d1)) (plain_message (tool_call n2 a2 d2)).
Proof.
  intros W1 W2 (_ & _ & H1)%canonical_tool_key_inv (_ & _ & H2)%canonical_tool_key_inv.
  destruct (canonical_fingerprint_inj _ _ _ H1 H2) as [E|]; [| |left|by right].
  - wf_obj. by rewrite W1.
  - wf_obj. by rewrite W2.
  - cbn in E. injection E as ? ? ?. done.
Qed.

(** *** Witnesses *)

(** A dict in non-canonical key order, with a tuple, an escaped string and a float. *)
Definition ex_value : pyval :=
  VDict [(VStr (u "b"), VTuple [VInt (-7); VBool true]);
         (VStr (u "a"), VStr [104; 10; 233]); (VStr (u "c"), VFloat (round_ratio false 1 2))].

Definition ex_text : pystr := Eval vm_compute in
  match canonical_json ex_value with Ok t => t | Raise _ => [] end.

Lemma canonical_json_roundtrip_witness :
  json_loads ex_text = Ok (canon ex_value) ∧ canonical_json (canon ex_value) = Ok ex_text.
Proof. apply (canonical_json_roundtrip ex_value ex_text); vm_compute; reflexivity. Defined.

Definition ex_domain : pystr := u "ibae.example.v1".

Definition ex_hash : pystr := Eval vm_compute in
  match domain_fingerprint ex_domain ex_value with Ok h => h | Raise _ => [] end.

Lemma domain_fingerprint_binds_witness : ex_domain = ex_domain ∧ canon ex_value = canon (canon ex_value).
Proof.
  destruct (domain_fingerprint_binds ex_domain ex_domain ex_value (canon ex_value) ex_hash) as [H|H];
    [vm_compute; reflexivity..|exact H|].
  destruct (no_collision_sound [domain_message ex_domain ex_value; domain_message ex_domain (canon ex_value)]);
    [vm_compute; reflexivity|by apply collision_pair].
Defined.

Definition ex_key : pystr := Eval vm_compute in
  match canonical_tool_key (u "read") ex_value (u "dep") with Ok h => h | Raise _ => [] end.

Lemma canonical_tool_key_binds_witness :
  (u "read" = u "read" ∧ u "dep" = u "dep" ∧ canon ex_value = canon ex_value) ∨
  collide (plain_message (tool_call (u "read") ex_value (u "dep"))) (plain_message (tool_call (u "read") ex_value (u "dep"))).
Proof.
  apply (canonical_tool_key_binds (u "read") (u "read") ex_value ex_value (u "dep") (u "dep") ex_key);
    vm_compute; reflexivity.
Defined.
