(* ===== verification/Records.v ===== *)
(** * Bounded record helpers ([src/ibae/_records.py])

    The validators every record constructor calls, the bounded copy of a JSON value
    ([normalize_bounded_json], with its shared node and byte counters passed as state), and the
    mutation-isolated [CanonicalValue].  A type annotation that Python checks with [isinstance]
    is a Rocq type here; the checks on values that can fail for a well-typed argument remain. *)

From Stdlib Require Import Ascii String.
From stdpp Require Import base list.
From S2P Require Import Prelude PyStr PyNumber Sha256 Canonical.

Definition MAX_CANONICAL_VALUE_BYTES : Z := 262144.
Definition MAX_CANONICAL_VALUE_DEPTH : Z := 32.
Definition MAX_CANONICAL_VALUE_NODES : Z := 4096.
Definition MAX_CANONICAL_COLLECTION_ITEMS : Z := 1024.
Definition MAX_CANONICAL_STRING_BYTES : Z := 65536.
Definition MAX_CANONICAL_INTEGER_BITS : Z := 256.
Definition MAX_IDENTITY_INTEGER_BITS : Z := 256.
Definition MAX_RECORD_TEXT_BYTES : Z := 4096.
Definition MAX_RUNTIME_RECORD_BYTES : Z := 2097152.
Definition MAX_RUNTIME_RECORD_DEPTH : Z := 40.
Definition MAX_RUNTIME_RECORD_NODES : Z := 32768.
Definition MAX_RUNTIME_COLLECTION_ITEMS : Z := 4096.

(** ** Integers *)

(** [int.bit_length] *)
Definition bit_length (z : Z) : Z := if z =? 0 then 0 else Z.log2 (Z.abs z) + 1.

Definition require_nonnegative_int (value : Z) : res unit :=
  raise_if (value <? 0) ValueError ;;*
  raise_if (MAX_IDENTITY_INTEGER_BITS <? bit_length value) ValueError.

Definition require_positive_int (value : Z) : res unit :=
  raise_if (value <=? 0) ValueError ;;*
  raise_if (MAX_IDENTITY_INTEGER_BITS <? bit_length value) ValueError.

Definition require_bounded_positive_int (value hard_limit : Z) : res unit :=
  require_positive_int value ;;*
  require_positive_int hard_limit ;;*
  raise_if (hard_limit <? value) ValueError.

(** ** Strings *)

Definition is_surrogate (c : Z) : bool := (0xd800 <=? c) && (c <=? 0xdfff).

(** The number of UTF-8 bytes of a code point that is no surrogate. *)
Definition utf8_width (c : Z) : Z :=
  if c <=? 0x7f then 1 else if c <=? 0x7ff then 2 else if c <=? 0xffff then 3 else 4.

Fixpoint bounded_utf8_loop (limit total : Z) (s : pystr) : res Z :=
  match s with
  | [] => Ok total
  | c :: r =>
      raise_if (is_surrogate c) ValueError ;;*
      let total := total + utf8_width c in
      raise_if (limit <? total) ValueError ;;*
      bounded_utf8_loop limit total r
  end.

Definition bounded_utf8_length (value : pystr) (limit : Z) : res Z :=
  require_positive_int limit ;;*
  bounded_utf8_loop limit 0 value.

(** The escapes of two characters: quote, backslash and the named control characters. *)
Definition is_short_escape (c : Z) : bool :=
  (c =? 34) || (c =? 92) || (c =? 8) || (c =? 12) || (c =? 10) || (c =? 13) || (c =? 9).

Definition serialized_width (c : Z) : Z :=
  if is_short_escape c then 2 else if (0 <=? c) && (c <=? 0x1f) then 6 else utf8_width c.

Fixpoint json_string_loop (raw serialized : Z) (s : pystr) : res Z :=
  match s with
  | [] => Ok serialized
  | c :: r =>
      raise_if (is_surrogate c) ValueError ;;*
      let raw := raw + utf8_width c in
      raise_if (MAX_CANONICAL_STRING_BYTES <? raw) ValueError ;;*
      let serialized := serialized + serialized_width c in
      raise_if (MAX_CANONICAL_VALUE_BYTES <? serialized) ValueError ;;*
      json_string_loop raw serialized r
  end.

(** [_bounded_json_string_length]: the two quotes are counted from the start. *)
Definition bounded_json_string_length (value : pystr) : res Z := json_string_loop 0 2 value.

(** [materialize_bounded_iterable] on an iterator, given by its next item at each position.  One
    more step than [limit] is enough fuel: the loop raises there. *)
Fixpoint materialize_loop {A} (fuel : nat) (limit : nat) (next : nat → option A) (acc : list A)
    : res (list A) :=
  match next (length acc) with
  | None => Ok acc
  | Some item =>
      if (length acc =? limit)%nat then Raise ValueError
      else match fuel with
           | O => Raise AssertionError
           | S fuel' => materialize_loop fuel' limit next (acc ++ [item])
           end
  end.

Definition materialize_bounded_iterable {A} (next : nat → option A) (limit : Z) : res (list A) :=
  require_positive_int limit ;;*
  materialize_loop (Z.to_nat limit) (Z.to_nat limit) next [].

(** The same on a finite collection, for the callers. *)
Definition materialize {A} (l : list A) (limit : Z) : res (list A) :=
  materialize_bounded_iterable (λ i, l !! i) limit.

(** [_SYMBOL_PATTERN]: a lowercase letter and up to 127 letters, digits or [._:/-]. *)
Definition is_symbol_char (c : Z) : bool :=
  is_lower c || is_digit c || (c =? 46) || (c =? 95) || (c =? 58) || (c =? 47) || (c =? 45).

Definition symbol_pattern (s : pystr) : bool :=
  match s with
  | [] => false
  | c :: r => is_lower c && forallb is_symbol_char r && (Z.of_nat (length r) <=? 127)
  end.

(** [_FINGERPRINT_PATTERN] *)
Definition fingerprint_pattern (s : pystr) : bool :=
  (Z.of_nat (length s) =? 64) && forallb is_hex s.

Definition is_upper (c : Z) : bool := (65 <=? c) && (c <=? 90).

(** [_INVARIANT_PATTERN]: [IBAE-], capital letters, [-] and three digits. *)
Definition invariant_pattern (s : pystr) : bool :=
  match strip_prefix (u "IBAE-") s with
  | None => false
  | Some r =>
      let '(family, r') := span is_upper r in
      nonempty family &&
      match r' with
      | [h; a; b; c] => (h =? 45) && is_digit a && is_digit b && is_digit c
      | _ => false
      end
  end.

Definition require_symbol (value : pystr) : res unit :=
  raise_if (negb (symbol_pattern value)) ValueError.

Definition require_fingerprint (value : pystr) : res unit :=
  raise_if (negb (fingerprint_pattern value)) ValueError.

Definition require_invariant_id (value : pystr) : res unit :=
  raise_if (negb (invariant_pattern value)) ValueError.

(** [str.isspace] of one character. *)
Definition is_space (c : Z) : bool :=
  ((9 <=? c) && (c <=? 13)) || ((28 <=? c) && (c <=? 32)) || (c =? 133) || (c =? 160) ||
  (c =? 5760) || ((8192 <=? c) && (c <=? 8202)) || (c =? 8232) || (c =? 8233) || (c =? 8239) ||
  (c =? 8287) || (c =? 12288).

(** [str.strip] *)
Definition strip (s : pystr) : pystr :=
  rev (snd (span is_space (rev (snd (span is_space s))))).

Definition require_text (value : pystr) : res unit :=
  raise_if (negb (nonempty value)) ValueError ;;*
  bounded_utf8_length value MAX_RECORD_TEXT_BYTES ;;*
  raise_if (negb (bool_decide (value = strip value))) ValueError.

(** ** Bounded JSON values *)

Record json_limits := {
  max_bytes : Z;
  max_depth : Z;
  max_nodes : Z;
  max_collection_items : Z
}.

(** The counters shared by the recursive calls. *)
Record counters := { node_count : Z; byte_count : Z }.

Definition consume_bytes (lim : json_limits) (st : counters) (amount : Z) : res counters :=
  let b := byte_count st + amount in
  raise_if (max_bytes lim <? b) ValueError ;;*
  Ok {| node_count := node_count st; byte_count := b |}.

Definition consume_node (lim : json_limits) (st : counters) : res counters :=
  let n := node_count st + 1 in
  raise_if (max_nodes lim <? n) ValueError ;;*
  Ok {| node_count := n; byte_count := byte_count st |}.

(** [_normalize_bounded_json] *)
Fixpoint normalize_bounded_json (lim : json_limits) (depth : Z) (st : counters) (v : pyval)
    {struct v} : res (pyval * counters) :=
  raise_if (max_depth lim <? depth) ValueError ;;*
  let* st := consume_node lim st in
  match v with
  | VNone => let* st := consume_bytes lim st 4 in Ok (v, st)
  | VBool b => let* st := consume_bytes lim st (if b then 4 else 5) in Ok (v, st)
  | VInt z =>
      raise_if (MAX_CANONICAL_INTEGER_BITS <? bit_length z) ValueError ;;*
      let* st := consume_bytes lim st (Z.of_nat (length (int_str z))) in Ok (v, st)
  | VFloat f =>
      match float_repr f with
      | None => Raise ValueError
      | Some t => let* st := consume_bytes lim st (Z.of_nat (length t)) in Ok (v, st)
      end
  | VStr s =>
      let* n := bounded_json_string_length s in
      let* st := consume_bytes lim st n in Ok (v, st)
  | VDict l =>
      let* _ := materialize l (max_collection_items lim) in
      let* st := consume_bytes lim st (2 + Z.max 0 (Z.of_nat (length l) - 1)) in
      let step (acc : list (pyval * pyval) * counters) (kv : pyval * pyval) :=
        let '(normalized, st) := acc in
        match kv.1 with
        | VStr key =>
            raise_if (str_in key (string_keys normalized)) ValueError ;;*
            let* n := bounded_json_string_length key in
            let* st := consume_bytes lim st (n + 1) in
            let* r := normalize_bounded_json lim (depth + 1) st kv.2 in
            Ok (normalized ++ [(VStr key, r.1)], r.2)
        | _ => Raise TypeError
        end in
      let* r := res_fold step ([], st) l in
      Ok (VDict r.1, r.2)
  | VList l | VTuple l =>
      let* _ := materialize l (max_collection_items lim) in
      let* st := consume_bytes lim st (2 + Z.max 0 (Z.of_nat (length l) - 1)) in
      let step (acc : list pyval * counters) (item : pyval) :=
        let '(items, st) := acc in
        let* r := normalize_bounded_json lim (depth + 1) st item in
        Ok (items ++ [r.1], r.2) in
      let* r := res_fold step ([], st) l in
      Ok (VList r.1, r.2)
  | VOther => Raise TypeError
  end.

Definition no_counters : counters := {| node_count := 0; byte_count := 0 |}.

Definition normalize_json (lim : json_limits) (v : pyval) : res pyval :=
  let* r := normalize_bounded_json lim 0 no_counters v in Ok r.1.

Definition value_limits : json_limits := {|
  max_bytes := MAX_CANONICAL_VALUE_BYTES;
  max_depth := MAX_CANONICAL_VALUE_DEPTH;
  max_nodes := MAX_CANONICAL_VALUE_NODES;
  max_collection_items := MAX_CANONICAL_COLLECTION_ITEMS
|}.

Definition runtime_limits : json_limits := {|
  max_bytes := MAX_RUNTIME_RECORD_BYTES;
  max_depth := MAX_RUNTIME_RECORD_DEPTH;
  max_nodes := MAX_RUNTIME_RECORD_NODES;
  max_collection_items := MAX_RUNTIME_COLLECTION_ITEMS
|}.

(** The check of a canonical text, under either profile. *)
Definition check_canonical_text (lim : json_limits) (text : pystr) : res unit :=
  bounded_utf8_length text (max_bytes lim) ;;*
  let* decoded := json_loads text in
  let* normalized := normalize_json lim decoded in
  let* text' := canonical_json normalized in
  raise_if (negb (bool_decide (text' = text))) ValueError.

Record CanonicalValue := { cv_text : pystr }.

Module CanonicalValue.

(** [CanonicalValue(text)] *)
Definition make (text : pystr) : res CanonicalValue :=
  check_canonical_text value_limits text ;;*
  Ok {| cv_text := text |}.

Definition from_value (v : pyval) : res CanonicalValue :=
  let* normalized := normalize_json value_limits v in
  let* text := canonical_json normalized in
  make text.

Definition to_value (cv : CanonicalValue) : res pyval := json_loads (cv_text cv).

End CanonicalValue.

Record CanonicalRuntimeRecord := { rr_text : pystr }.

Module CanonicalRuntimeRecord.

Definition make (text : pystr) : res CanonicalRuntimeRecord :=
  check_canonical_text runtime_limits text ;;*
  Ok {| rr_text := text |}.

Definition from_value (v : pyval) : res CanonicalRuntimeRecord :=
  let* normalized := normalize_json runtime_limits v in
  let* text := canonical_json normalized in
  make text.

Definition to_value (r : CanonicalRuntimeRecord) : res pyval := json_loads (rr_text r).

End CanonicalRuntimeRecord.

#[export] Instance CanonicalValue_eq_dec : EqDecision CanonicalValue.
Proof. solve_decision. Defined.
