(* ===== verification/RecordsFacts.v ===== *)
(** * Properties of the bounded record helpers

    [materialize_bounded_iterable] reads at most one item past its limit, even of an endless
    iterator.  [normalize_bounded_json] accepts exactly the values whose shape, node count and
    serialized size are within the limits ([shape_ok], [nodes], [json_bytes]); its byte counter is
    the length of the canonical text; so [CanonicalValue.from_value] never fails once the bounded
    copy succeeded, and [to_value] returns the canonical form. *)

From Stdlib Require Import Ascii String.
From stdpp Require Import base list sets.
From S2P Require Import Prelude PyStr PyNumber Sha256 Canonical CanonicalFacts Fingerprints Records.

(** ** Bounded iteration *)

(** The items of an iterator up to a stop. *)
Definition yields {A} (next : nat → option A) (l : list A) : Prop :=
  (∀ i, (i < length l)%nat → next i = l !! i) ∧ next (length l) = None.

Lemma materialize_loop_Ok {A} (limit : nat) (next : nat → option A) l fuel acc rest :
  l = acc ++ rest → yields next l → (length acc + fuel = limit)%nat →
  materialize_loop fuel limit next acc =
    (if (length l <=? limit)%nat then Ok l else Raise ValueError).
Proof.
  intros -> [Hl Hend]. revert acc rest Hl Hend; induction fuel as [|fuel IH];
    intros acc rest Hl Hend Hlen.
  - simpl. destruct rest as [|x rest].
    + rewrite app_nil_r in *. rewrite Hend. by rewrite (proj2 (Nat.leb_le _ _)) by lia.
    + rewrite (Hl (length acc)) by (rewrite length_app; simpl; lia).
      rewrite lookup_app_r, Nat.sub_diag by done. simpl.
      rewrite (proj2 (Nat.eqb_eq _ _)) by lia.
      rewrite (proj2 (Nat.leb_gt _ _)); [done|]. rewrite length_app; simpl; lia.
  - simpl. destruct rest as [|x rest].
    + rewrite app_nil_r in *. rewrite Hend. by rewrite (proj2 (Nat.leb_le _ _)) by lia.
    + rewrite (Hl (length acc)) by (rewrite length_app; simpl; lia).
      rewrite lookup_app_r, Nat.sub_diag by done. simpl.
      rewrite (proj2 (Nat.eqb_neq _ _)) by lia.
      replace (acc ++ x :: rest) with ((acc ++ [x]) ++ rest) in * by (by rewrite <- app_assoc).
      apply IH; [done|done|]. rewrite length_app; simpl; lia.
Qed.

Lemma materialize_loop_endless {A} (limit : nat) (next : nat → option A) fuel acc :
  (∀ i, (i <= limit)%nat → is_Some (next i)) → (length acc + fuel = limit)%nat →
  materialize_loop fuel limit next acc = Raise ValueError.
Proof.
  revert acc; induction fuel as [|fuel IH]; intros acc Hs Hlen; simpl;
    destruct (Hs (length acc) ltac:(lia)) as [x ->].
  - by rewrite (proj2 (Nat.eqb_eq _ _)) by lia.
  - rewrite (proj2 (Nat.eqb_neq _ _)) by lia. apply IH; [done|].
    rewrite length_app. simpl. lia.
Qed.

Definition limit_ok (limit : Z) : Prop := require_positive_int limit = Ok tt.

Lemma limit_ok_pos limit : limit_ok limit → 0 < limit.
Proof. unfold limit_ok, require_positive_int. intros H. res_inv. bool_inv. lia. Qed.

Lemma materialize_list {A} (l : list A) limit :
  limit_ok limit →
  materialize l limit = if Z.of_nat (length l) <=? limit then Ok l else Raise ValueError.
Proof.
  intros Hl. pose proof (limit_ok_pos _ Hl). unfold materialize, materialize_bounded_iterable.
  rewrite Hl. simpl. rewrite (materialize_loop_Ok _ _ l _ [] l); [| done | |simpl; lia].
  - destruct (Nat.leb_spec (length l) (Z.to_nat limit)), (Z.leb_spec (Z.of_nat (length l)) limit); lia || done.
  - split; [done|]. by apply lookup_ge_None.
Qed.

Lemma materialize_Ok {A} (l l' : list A) limit :
  materialize l limit = Ok l' → l' = l ∧ Z.of_nat (length l) <= limit.
Proof.
  intros H. assert (Hl : limit_ok limit).
  { unfold materialize, materialize_bounded_iterable in H. res_inv. done. }
  rewrite materialize_list in H by done. destruct (Z.leb_spec (Z.of_nat (length l)) limit); simplify_eq; auto.
Qed.

(** A positive integer below a hard limit of the identity width. *)
Lemma limit_ok_small v hard : bit_length hard <= MAX_IDENTITY_INTEGER_BITS → 0 < v <= hard → limit_ok v.
Proof.
  unfold bit_length. intros Hb H. unfold limit_ok, require_positive_int. replace (v <=? 0) with false by lia.
  simpl. apply raise_if_Ok. unfold bit_length. replace (v =? 0) with false by lia.
  replace (hard =? 0) with false in Hb by lia. apply Z.ltb_ge.
  pose proof (Z.log2_le_mono (Z.abs v) (Z.abs hard) ltac:(lia)). lia.
Qed.

Lemma bounded_small v hard :
  bit_length hard <= MAX_IDENTITY_INTEGER_BITS ∧ 0 < hard →
  require_bounded_positive_int v hard = Ok tt ↔ 0 < v <= hard.
Proof.
  intros [Hb Hh]. pose proof (limit_ok_small hard hard Hb ltac:(lia)) as Hok.
  unfold require_bounded_positive_int. unfold limit_ok in Hok. rewrite Hok. split.
  - intros H. res_inv. bool_inv. pose proof (limit_ok_pos v E). lia.
  - intros Hv. pose proof (limit_ok_small v hard Hb Hv) as H1. unfold limit_ok in H1. rewrite H1. simpl.
    apply raise_if_Ok, Z.ltb_ge. lia.
Qed.

(** ** Sums *)

Definition zsum (l : list Z) : Z := fold_right Z.add 0 l.

Lemma zsum_cons x l : zsum (x :: l) = x + zsum l.
Proof. done. Qed.

Lemma zsum_app l1 l2 : zsum (l1 ++ l2) = zsum l1 + zsum l2.
Proof. induction l1 as [|x l1 IH]; [done|]. cbn [app]. rewrite (zsum_cons x (l1 ++ l2)), IH, zsum_cons. lia. Qed.

Lemma zsum_nonneg l : Forall (λ x, 0 <= x) l → 0 <= zsum l.
Proof. induction 1; [done|]. rewrite zsum_cons. lia. Qed.

#[export] Instance zsum_perm : Proper ((≡ₚ) ==> (=)) zsum.
Proof. induction 1; rewrite ?zsum_cons in *; lia. Qed.

(** ** String lengths *)

Definition no_surrogate (s : pystr) : bool := forallb (λ c, negb (is_surrogate c)) s.

Definition utf8_length (s : pystr) : Z := zsum (map utf8_width s).

Definition serialized_length (s : pystr) : Z := 2 + zsum (map serialized_width s).

Lemma utf8_width_pos c : 1 <= utf8_width c <= 4.
Proof. unfold utf8_width. repeat case_match; lia. Qed.

Lemma serialized_width_pos c : 1 <= serialized_width c.
Proof. unfold serialized_width. pose proof (utf8_width_pos c). repeat case_match; lia. Qed.

Lemma utf8_length_nonneg s : 0 <= utf8_length s.
Proof.
  unfold utf8_length. apply zsum_nonneg, Forall_forall. intros x (c & <- & _)%list_elem_of_In%in_map_iff.
  pose proof (utf8_width_pos c). lia.
Qed.

Lemma serialized_nonneg s : 0 <= zsum (map serialized_width s).
Proof.
  apply zsum_nonneg, Forall_forall. intros x (c & <- & _)%list_elem_of_In%in_map_iff.
  pose proof (serialized_width_pos c). lia.
Qed.

Lemma utf8_length_app s1 s2 : utf8_length (s1 ++ s2) = utf8_length s1 + utf8_length s2.
Proof. unfold utf8_length. by rewrite map_app, zsum_app. Qed.

Lemma utf8_length_cons c s : utf8_length (c :: s) = utf8_width c + utf8_length s.
Proof. done. Qed.

Lemma no_surrogate_app s1 s2 : no_surrogate (s1 ++ s2) = no_surrogate s1 && no_surrogate s2.
Proof. apply forallb_app. Qed.

Lemma bounded_utf8_loop_spec limit total s n :
  total <= limit →
  bounded_utf8_loop limit total s = Ok n ↔
  no_surrogate s = true ∧ total + utf8_length s <= limit ∧ n = total + utf8_length s.
Proof.
  revert total; induction s as [|c s IH]; intros total Ht.
  { unfold utf8_length. simpl. rewrite Z.add_0_r. naive_solver. }
  cbn [bounded_utf8_loop no_surrogate forallb]. fold (no_surrogate s).
  pose proof (utf8_length_nonneg s). rewrite utf8_length_cons.
  destruct (is_surrogate c); simpl; [naive_solver|].
  destruct (Z.ltb_spec limit (total + utf8_width c)); simpl; [split; [done|lia]|].
  rewrite IH by done. rewrite Z.add_assoc. done.
Qed.

Lemma bounded_utf8_length_spec s limit n :
  bounded_utf8_length s limit = Ok n ↔
  limit_ok limit ∧ no_surrogate s = true ∧ utf8_length s <= limit ∧ n = utf8_length s.
Proof.
  unfold bounded_utf8_length, limit_ok. rewrite res_bind_Ok. split.
  - intros ([] & Hl & Hs). pose proof (limit_ok_pos _ Hl). apply bounded_utf8_loop_spec in Hs; [|lia].
    naive_solver.
  - intros (Hl & Hs). pose proof (limit_ok_pos _ Hl). exists tt. split; [done|].
    apply bounded_utf8_loop_spec; [lia|]. done.
Qed.

(** What [_bounded_json_string_length] accepts. *)
Definition string_ok (s : pystr) : bool :=
  no_surrogate s && (utf8_length s <=? MAX_CANONICAL_STRING_BYTES) &&
  (serialized_length s <=? MAX_CANONICAL_VALUE_BYTES).

Lemma json_string_loop_spec raw ser s n :
  raw <= MAX_CANONICAL_STRING_BYTES → ser <= MAX_CANONICAL_VALUE_BYTES →
  json_string_loop raw ser s = Ok n ↔
  no_surrogate s = true ∧ raw + utf8_length s <= MAX_CANONICAL_STRING_BYTES ∧
  ser + zsum (map serialized_width s) <= MAX_CANONICAL_VALUE_BYTES ∧
  n = ser + zsum (map serialized_width s).
Proof.
  revert raw ser; induction s as [|c s IH]; intros raw ser Hr Hs.
  { unfold utf8_length. cbn [json_string_loop no_surrogate forallb map zsum fold_right].
    rewrite !Z.add_0_r. naive_solver. }
  cbn [json_string_loop no_surrogate forallb map]. fold (no_surrogate s).
  pose proof (utf8_length_nonneg s). pose proof (serialized_nonneg s).
  rewrite utf8_length_cons, zsum_cons.
  destruct (is_surrogate c); cbn [raise_if res_bind negb andb]; [naive_solver|].
  destruct (Z.ltb_spec MAX_CANONICAL_STRING_BYTES (raw + utf8_width c)); cbn [raise_if res_bind];
    [split; [done|lia]|].
  destruct (Z.ltb_spec MAX_CANONICAL_VALUE_BYTES (ser + serialized_width c)); cbn [raise_if res_bind];
    [split; [done|lia]|].
  rewrite IH by lia. rewrite !Z.add_assoc. done.
Qed.

Lemma bounded_json_string_length_spec s n :
  bounded_json_string_length s = Ok n ↔ string_ok s = true ∧ n = serialized_length s.
Proof.
  unfold bounded_json_string_length, string_ok, serialized_length.
  rewrite json_string_loop_spec by done. rewrite !andb_true_iff, !Z.leb_le.
  rewrite Z.add_0_l. naive_solver.
Qed.

(** ** What the bounded copy accepts *)

(** The copy: tuples become lists. *)
Fixpoint listify (v : pyval) : pyval :=
  match v with
  | VList l | VTuple l => VList (map listify l)
  | VDict l => VDict (map (λ kv, (kv.1, listify kv.2)) l)
  | _ => v
  end.

Fixpoint nodes (v : pyval) : Z :=
  match v with
  | VList l | VTuple l => 1 + zsum (map nodes l)
  | VDict l => 1 + zsum (map (λ kv, nodes kv.2) l)
  | _ => 1
  end.

(** Brackets and commas of a collection. *)
Definition punctuation {A} (l : list A) : Z := 2 + Z.max 0 (Z.of_nat (length l) - 1).

(** The length of the canonical text. *)
Fixpoint json_bytes (v : pyval) : Z :=
  match v with
  | VNone => 4
  | VBool b => if b then 4 else 5
  | VInt z => Z.of_nat (length (int_str z))
  | VFloat f => match float_repr f with Some t => Z.of_nat (length t) | None => 0 end
  | VStr s => serialized_length s
  | VList l | VTuple l => punctuation l + zsum (map json_bytes l)
  | VDict l =>
      punctuation l +
      zsum (map (λ kv, (match kv.1 with VStr k => serialized_length k + 1 | _ => 0 end) +
                       json_bytes kv.2) l)
  | VOther => 0
  end.

Definition key_ok (k : pyval) : bool := match k with VStr s => string_ok s | _ => false end.

Fixpoint shape_ok (lim : json_limits) (depth : Z) (v : pyval) : bool :=
  (depth <=? max_depth lim) &&
  match v with
  | VNone | VBool _ => true
  | VInt z => bit_length z <=? MAX_CANONICAL_INTEGER_BITS
  | VFloat f => match float_repr f with Some _ => true | None => false end
  | VStr s => string_ok s
  | VList l | VTuple l =>
      (Z.of_nat (length l) <=? max_collection_items lim) && forallb (shape_ok lim (depth + 1)) l
  | VDict l =>
      (Z.of_nat (length l) <=? max_collection_items lim) &&
      bool_decide (NoDup (string_keys l)) &&
      forallb (λ kv, key_ok kv.1 && shape_ok lim (depth + 1) kv.2) l
  | VOther => false
  end.

Definition add_counters (st : counters) (n b : Z) : counters :=
  {| node_count := node_count st + n; byte_count := byte_count st + b |}.

Definition within (lim : json_limits) (st : counters) : Prop :=
  node_count st <= max_nodes lim ∧ byte_count st <= max_bytes lim.

Lemma nodes_pos v : 1 <= nodes v.
Proof.
  assert (Hl : ∀ {A} (f : A → Z) l, Forall (λ x, 1 <= f x) l → 0 <= zsum (map f l)).
  { intros A f l H. apply zsum_nonneg, Forall_fmap. eapply Forall_impl; [done|]. simpl. lia. }
  induction v as [|b|z|f|s|l IH|l IH|l IH|] using pyval_nested_ind; cbn [nodes]; try lia.
  - specialize (Hl _ nodes l IH). lia.
  - specialize (Hl _ nodes l IH). lia.
  - specialize (Hl _ (λ kv, nodes kv.2) l). cut (0 <= zsum (map (λ kv, nodes kv.2) l)); [lia|].
    apply Hl. eapply Forall_impl; [done|]. naive_solver.
Qed.

Lemma serialized_length_nonneg s : 0 <= serialized_length s.
Proof. unfold serialized_length. pose proof (serialized_nonneg s). lia. Qed.

Lemma json_bytes_nonneg v : 0 <= json_bytes v.
Proof.
  assert (Hl : ∀ {A} (f : A → Z) l, Forall (λ x, 0 <= f x) l → 0 <= zsum (map f l)).
  { intros A f l H. by apply zsum_nonneg, Forall_fmap. }
  induction v as [|b|z|f|s|l IH|l IH|l IH|] using pyval_nested_ind; cbn [json_bytes]; try lia.
  - destruct b; lia.
  - destruct (float_repr f); lia.
  - apply serialized_length_nonneg.
  - specialize (Hl _ json_bytes l IH). unfold punctuation. lia.
  - specialize (Hl _ json_bytes l IH). unfold punctuation. lia.
  - unfold punctuation. match goal with |- context [zsum ?m] => cut (0 <= zsum m); [lia|] end.
    apply Hl. eapply Forall_impl; [done|]. intros [k w] [_ Hw]. cbn [fst snd] in *.
    destruct k; try lia. pose proof (serialized_length_nonneg s). lia.
Qed.

Lemma add_counters_add st n1 b1 n2 b2 :
  add_counters (add_counters st n1 b1) n2 b2 = add_counters st (n1 + n2) (b1 + b2).
Proof. unfold add_counters. simpl. by rewrite !Z.add_assoc. Qed.

Lemma add_counters_0 st : add_counters st 0 0 = st.
Proof. destruct st. unfold add_counters. simpl. by rewrite !Z.add_0_r. Qed.

Lemma consume_bytes_Ok lim st n st' :
  consume_bytes lim st n = Ok st' ↔
  byte_count st + n <= max_bytes lim ∧ st' = add_counters st 0 n.
Proof.
  unfold consume_bytes, add_counters. destruct (Z.ltb_spec (max_bytes lim) (byte_count st + n)); simpl.
  - split; [done|lia].
  - rewrite Z.add_0_r. naive_solver.
Qed.

Lemma consume_node_Ok lim st st' :
  consume_node lim st = Ok st' ↔
  node_count st + 1 <= max_nodes lim ∧ st' = add_counters st 1 0.
Proof.
  unfold consume_node, add_counters. destruct (Z.ltb_spec (max_nodes lim) (node_count st + 1)); simpl.
  - split; [done|lia].
  - rewrite Z.add_0_r. naive_solver.
Qed.

Section normalize.
  Context (lim : json_limits) (Hlim : limit_ok (max_collection_items lim)).

Definition normalize_ok (d : Z) (v : pyval) : Prop := ∀ st r,
  within lim st →
  normalize_bounded_json lim d st v = Ok r ↔
  shape_ok lim d v = true ∧ r = (listify v, add_counters st (nodes v) (json_bytes v)) ∧
  within lim r.2.

Lemma within_mono st n b : within lim (add_counters st n b) → 0 <= n → 0 <= b → within lim st.
Proof. unfold within, add_counters. simpl. lia. Qed.

Definition list_step d (acc : list pyval * counters) (item : pyval) : res (list pyval * counters) :=
  let '(items, st) := acc in
  let* r := normalize_bounded_json lim d st item in
  Ok (items ++ [r.1], r.2).

Lemma zsum_map_nonneg {A} (f : A → Z) l : (∀ x, 0 <= f x) → 0 <= zsum (map f l).
Proof. intros H. apply zsum_nonneg, Forall_fmap, Forall_forall. intros x _. apply H. Qed.

Lemma nodes_nonneg v : 0 <= nodes v.
Proof. pose proof (nodes_pos v). lia. Qed.

Lemma list_fold_spec d l :
  Forall (normalize_ok d) l → ∀ acc st r, within lim st →
  res_fold (list_step d) (acc, st) l = Ok r ↔
  forallb (shape_ok lim d) l = true ∧
  r = (acc ++ map listify l, add_counters st (zsum (map nodes l)) (zsum (map json_bytes l))) ∧
  within lim r.2.
Proof.
  induction 1 as [|v l Hv _ IH]; intros acc st r Hst; cbn [res_fold].
  { cbn [forallb map zsum fold_right]. rewrite app_nil_r, add_counters_0. naive_solver. }
  rewrite res_bind_Ok. cbn [forallb map list_step]. rewrite !zsum_cons.
  rewrite <- add_counters_add. split.
  - intros ([items st1] & (rv & Hrv & [= <- <-])%res_bind_Ok & Hr).
    apply Hv in Hrv as (Hs & -> & Hw); [|done]. cbn [fst snd] in *.
    apply IH in Hr as (-> & -> & Hw'); [|done]. rewrite <- app_assoc. by rewrite Hs.
  - intros ([Hs Hsl]%andb_true_iff & -> & Hw). cbn [snd] in Hw.
    pose proof (within_mono _ _ _ Hw (zsum_map_nonneg _ l nodes_nonneg)
      (zsum_map_nonneg _ l json_bytes_nonneg)) as Hw1.
    eexists (_, _). split.
    + apply res_bind_Ok. eexists. split; [by apply Hv|done].
    + apply IH; [done|]. cbn [fst]. rewrite <- app_assoc. done.
Qed.

Definition dict_step d (acc : list (pyval * pyval) * counters) (kv : pyval * pyval)
    : res (list (pyval * pyval) * counters) :=
  let '(normalized, st) := acc in
  match kv.1 with
  | VStr key =>
      raise_if (str_in key (string_keys normalized)) ValueError ;;*
      let* n := bounded_json_string_length key in
      let* st := consume_bytes lim st (n + 1) in
      let* r := normalize_bounded_json lim d st kv.2 in
      Ok (normalized ++ [(VStr key, r.1)], r.2)
  | _ => Raise TypeError
  end.

Definition key_bytes (kv : pyval * pyval) : Z :=
  match kv.1 with VStr k => serialized_length k + 1 | _ => 0 end.

Definition item_bytes (kv : pyval * pyval) : Z := key_bytes kv + json_bytes kv.2.

Lemma key_bytes_nonneg kv : 0 <= key_bytes kv.
Proof. destruct kv as [[] w]; unfold key_bytes; simpl; try lia. pose proof (serialized_length_nonneg s). lia. Qed.

Lemma item_bytes_nonneg kv : 0 <= item_bytes kv.
Proof. unfold item_bytes. pose proof (key_bytes_nonneg kv). pose proof (json_bytes_nonneg kv.2). lia. Qed.

Lemma string_keys_app l1 l2 : string_keys (l1 ++ l2) = string_keys l1 ++ string_keys l2.
Proof. apply omap_app. Qed.

Lemma string_keys_cons kv l : string_keys (kv :: l) = string_keys [kv] ++ string_keys l.
Proof. by destruct kv as [[] w]. Qed.

Lemma string_keys_one kv : NoDup (string_keys [kv]).
Proof. destruct kv as [[] w]; cbn; try apply NoDup_nil_2. apply NoDup_singleton. Qed.

(** One item of a mapping. *)
Lemma dict_step_spec d acc st kv r :
  normalize_ok d kv.2 → within lim st →
  dict_step d (acc, st) kv = Ok r ↔
  key_ok kv.1 = true ∧ (∀ k, k ∈ string_keys [kv] → k ∉ string_keys acc) ∧
  shape_ok lim d kv.2 = true ∧
  r = (acc ++ [(kv.1, listify kv.2)], add_counters st (nodes kv.2) (item_bytes kv)) ∧
  within lim r.2.
Proof.
  intros Hv Hst. destruct kv as [k v]. unfold item_bytes, key_bytes. cbn [fst snd dict_step] in *.
  destruct k as [| | | |key| | | |]; try (cbn; naive_solver).
  cbn [key_ok string_keys omap list_omap fst].
  rewrite res_bind_Ok. split.
  - intros ([] & Hin%raise_if_Ok%str_in_false & (n & Hn & (st1 & Hst1 & (rv & Hrv & [= <-])%res_bind_Ok)%res_bind_Ok)%res_bind_Ok).
    apply bounded_json_string_length_spec in Hn as [Hn ->].
    apply consume_bytes_Ok in Hst1 as [Hb ->].
    apply Hv in Hrv as (Hs & -> & Hw); [|split; unfold add_counters; simpl; [destruct Hst; lia|lia]].
    cbn [fst snd] in *. rewrite add_counters_add in *. rewrite Z.add_0_l in *.
    repeat split; try done; [|apply Hw..]. intros k' ->%list_elem_of_singleton. done.
  - intros (Hk & Hin & Hs & -> & Hw). cbn [snd] in Hw. exists tt.
    assert (Hin' : key ∉ string_keys acc) by (by apply Hin, list_elem_of_singleton).
    split; [by apply raise_if_Ok, str_in_false|].
    rewrite <- (Z.add_0_l (nodes v)), <- add_counters_add in Hw |- *.
    pose proof (within_mono _ _ _ Hw (nodes_nonneg _) (json_bytes_nonneg _)) as Hw1.
    rewrite res_bind_Ok. eexists. split; [by apply bounded_json_string_length_spec|].
    rewrite res_bind_Ok. eexists. split; [apply consume_bytes_Ok; split; [apply Hw1|done]|].
    rewrite res_bind_Ok. eexists. split; [apply Hv; done|]. done.
Qed.

Lemma dict_fold_spec d l :
  Forall (λ kv, normalize_ok d kv.2) l → ∀ acc st r, within lim st →
  NoDup (string_keys acc) →
  res_fold (dict_step d) (acc, st) l = Ok r ↔
  forallb (λ kv, key_ok kv.1 && shape_ok lim d kv.2) l = true ∧
  NoDup (string_keys (acc ++ l)) ∧
  r = (acc ++ map (λ kv, (kv.1, listify kv.2)) l,
       add_counters st (zsum (map (λ kv, nodes kv.2) l)) (zsum (map item_bytes l))) ∧
  within lim r.2.
Proof.
  induction 1 as [|kv l Hv _ IH]; intros acc st r Hst Hnd; cbn [res_fold].
  { cbn [forallb map zsum fold_right]. rewrite !app_nil_r, add_counters_0. naive_solver. }
  rewrite res_bind_Ok. cbn [forallb map]. rewrite !zsum_cons, <- add_counters_add.
  assert (Hkeys : ∀ w l', string_keys ((acc ++ [(kv.1, w)]) ++ l') = string_keys (acc ++ kv :: l')).
  { intros w l'. rewrite <- app_assoc, !string_keys_app, (string_keys_cons kv). done. }
  assert (Hkv : NoDup (string_keys (acc ++ kv :: l)) → ∀ k, k ∈ string_keys [kv] → k ∉ string_keys acc).
  { rewrite string_keys_app, string_keys_cons.
    intros (_ & H & _)%NoDup_app k Hk Hin. apply (H k Hin). set_solver. }
  split.
  - intros ([items st1] & Hstep & Hr).
    apply dict_step_spec in Hstep as (Hk & Hin & Hs & [= -> ->] & Hw); [|done..]. cbn [fst snd] in *.
    assert (Hnd' : NoDup (string_keys (acc ++ [(kv.1, listify kv.2)]))).
    { rewrite string_keys_app. apply NoDup_app. split; [done|].
      split; [intros k Hka Hk2; exact (Hin k Hk2 Hka)|]. apply string_keys_one. }
    apply IH in Hr as (Hl & Hnd2 & -> & Hw'); [|done..]. rewrite <- app_assoc. rewrite Hk, Hs.
    rewrite Hkeys in Hnd2. done.
  - intros ([[Hk Hs]%andb_true_iff Hl]%andb_true_iff & Hnd2 & -> & Hw). cbn [snd] in Hw.
    pose proof (within_mono _ _ _ Hw (zsum_map_nonneg (λ kv, nodes kv.2) l (λ kv, nodes_nonneg kv.2))
      (zsum_map_nonneg _ l item_bytes_nonneg)) as Hw1.
    exists (acc ++ [(kv.1, listify kv.2)], add_counters st (nodes kv.2) (item_bytes kv)).
    split; [by apply dict_step_spec; auto|].
    apply IH; [done| |].
    + specialize (Hkeys (listify kv.2) []). rewrite app_nil_r in Hkeys. rewrite Hkeys.
      rewrite string_keys_app, string_keys_cons, app_assoc in Hnd2.
      rewrite string_keys_app. by apply NoDup_app in Hnd2 as [? _].
    + split; [done|]. split; [by rewrite Hkeys|]. cbn [fst]. by rewrite <- app_assoc.
Qed.

Lemma normalize_list_eq d st l :
  normalize_bounded_json lim d st (VList l) =
    (raise_if (max_depth lim <? d) ValueError ;;*
     let* st := consume_node lim st in
     let* _ := materialize l (max_collection_items lim) in
     let* st := consume_bytes lim st (punctuation l) in
     let* r := res_fold (list_step (d + 1)) ([], st) l in
     Ok (VList r.1, r.2)).
Proof. done. Qed.

Lemma normalize_dict_eq d st l :
  normalize_bounded_json lim d st (VDict l) =
    (raise_if (max_depth lim <? d) ValueError ;;*
     let* st := consume_node lim st in
     let* _ := materialize l (max_collection_items lim) in
     let* st := consume_bytes lim st (punctuation l) in
     let* r := res_fold (dict_step (d + 1)) ([], st) l in
     Ok (VDict r.1, r.2)).
Proof. done. Qed.

Lemma normalize_tuple_eq d st l :
  normalize_bounded_json lim d st (VTuple l) = normalize_bounded_json lim d st (VList l).
Proof. done. Qed.

Lemma within_bytes st n : within lim st → byte_count st + n <= max_bytes lim → within lim (add_counters st 0 n).
Proof. unfold within, add_counters. simpl. lia. Qed.

Lemma within_nodes st n : within lim st → node_count st + n <= max_nodes lim → within lim (add_counters st n 0).
Proof. unfold within, add_counters. simpl. lia. Qed.

(** The checks before the items of a collection. *)
Definition enter {A} (d : Z) (l : list A) (st : counters) : res counters :=
  raise_if (max_depth lim <? d) ValueError ;;*
  let* st := consume_node lim st in
  let* _ := materialize l (max_collection_items lim) in
  consume_bytes lim st (punctuation l).

Lemma enter_Ok {A} d (l : list A) st st' :
  within lim st →
  enter d l st = Ok st' ↔
  (d <=? max_depth lim) = true ∧ (Z.of_nat (length l) <=? max_collection_items lim) = true ∧
  st' = add_counters st 1 (punctuation l) ∧ within lim st'.
Proof.
  intros Hst. unfold enter. rewrite res_bind_Ok, materialize_list by done. split.
  - intros ([] & Hd%raise_if_Ok & (st1 & [Hn ->]%consume_node_Ok &
      (l' & Hl & [Hb ->]%consume_bytes_Ok)%res_bind_Ok)%res_bind_Ok).
    destruct (Z.leb_spec (Z.of_nat (length l)) (max_collection_items lim)); [|done].
    rewrite add_counters_add, Z.add_0_l, Z.add_0_r.
    split; [bool_inv; lia|]. repeat split; simpl in *; lia.
  - intros (Hd & Hl & -> & Hw). exists tt. split; [apply raise_if_Ok; bool_inv; lia|].
    destruct Hw as [Hw1 Hw2]. simpl in *. rewrite Hl. rewrite res_bind_Ok.
    exists (add_counters st 1 0). split; [by apply consume_node_Ok|]. simpl.
    apply consume_bytes_Ok. rewrite add_counters_add. simpl. split; [lia|].
    by rewrite Z.add_0_l, Z.add_0_r.
Qed.

Lemma normalize_list_enter d st l :
  normalize_bounded_json lim d st (VList l) =
    let* st := enter d l st in
    let* r := res_fold (list_step (d + 1)) ([], st) l in
    Ok (VList r.1, r.2).
Proof.
  rewrite normalize_list_eq. unfold enter. destruct (raise_if _ _); [|done]. simpl.
  destruct (consume_node lim st); [|done]. simpl. by destruct (materialize l _).
Qed.

Lemma normalize_dict_enter d st l :
  normalize_bounded_json lim d st (VDict l) =
    let* st := enter d l st in
    let* r := res_fold (dict_step (d + 1)) ([], st) l in
    Ok (VDict r.1, r.2).
Proof.
  rewrite normalize_dict_eq. unfold enter. destruct (raise_if _ _); [|done]. simpl.
  destruct (consume_node lim st); [|done]. simpl. by destruct (materialize l _).
Qed.

Lemma normalize_leaf d st v r (body : counters → res (pyval * counters)) ok n :
  normalize_bounded_json lim d st v =
    (raise_if (max_depth lim <? d) ValueError ;;* let* st := consume_node lim st in body st) →
  shape_ok lim d v = (d <=? max_depth lim) && ok → nodes v = 1 → json_bytes v = n → listify v = v →
  (∀ st r, body st = Ok r ↔ ok = true ∧ r = (v, add_counters st 0 n) ∧ byte_count st + n <= max_bytes lim) →
  within lim st →
  normalize_bounded_json lim d st v = Ok r ↔
  shape_ok lim d v = true ∧ r = (listify v, add_counters st (nodes v) (json_bytes v)) ∧
  within lim r.2.
Proof.
  intros -> -> -> -> -> Hbody Hst. rewrite res_bind_Ok, andb_true_iff. split.
  - intros ([] & Hd%raise_if_Ok & (st1 & [Hn ->]%consume_node_Ok & (Hok & -> & Hb)%Hbody)%res_bind_Ok).
    rewrite add_counters_add, Z.add_0_l, Z.add_0_r.
    split; [bool_inv; split; [lia|done]|]. repeat split; simpl in *; lia.
  - intros ([Hd Hok] & -> & Hw). exists tt. split; [apply raise_if_Ok; bool_inv; lia|].
    destruct Hw as [Hw1 Hw2]. simpl in *. rewrite res_bind_Ok.
    exists (add_counters st 1 0). split; [by apply consume_node_Ok|]. apply Hbody. split; [done|].
    rewrite add_counters_add, Z.add_0_l, Z.add_0_r. split; [done|]. simpl. lia.
Qed.

(** The end of a scalar case. *)
Lemma finish_leaf st v n r :
  (let* st := consume_bytes lim st n in Ok (v, st)) = Ok r ↔
  r = (v : pyval, add_counters st 0 n) ∧ byte_count st + n <= max_bytes lim.
Proof.
  rewrite res_bind_Ok. split.
  - intros (st' & [Hb ->]%consume_bytes_Ok & [= <-]). done.
  - intros [-> Hb]. exists (add_counters st 0 n). split; [by apply consume_bytes_Ok|done].
Qed.

Lemma normalize_list d l : Forall (normalize_ok (d + 1)) l → normalize_ok d (VList l).
Proof.
  intros Hl st r Hst. rewrite normalize_list_enter. cbn [shape_ok listify nodes json_bytes].
  rewrite res_bind_Ok, !andb_true_iff, <- add_counters_add. split.
  - intros (st1 & (Hd & Hn & -> & Hw)%enter_Ok & (r' & Hr & [= <-])%res_bind_Ok); [|done].
    apply list_fold_spec in Hr as (Hs & -> & Hw'); done.
  - intros ((Hd & Hn & Hs) & -> & Hw). cbn [snd] in Hw.
    pose proof (within_mono _ _ _ Hw (zsum_map_nonneg _ l nodes_nonneg)
      (zsum_map_nonneg _ l json_bytes_nonneg)) as Hw1.
    eexists. split; [by apply enter_Ok|]. rewrite res_bind_Ok. eexists.
    split; [by apply list_fold_spec|done].
Qed.

Lemma normalize_dict d l : Forall (λ kv, normalize_ok (d + 1) kv.2) l → normalize_ok d (VDict l).
Proof.
  intros Hl st r Hst. rewrite normalize_dict_enter. cbn [shape_ok listify nodes json_bytes].
  rewrite res_bind_Ok, !andb_true_iff, <- add_counters_add, bool_decide_eq_true. split.
  - intros (st1 & (Hd & Hn & -> & Hw)%enter_Ok & (r' & Hr & [= <-])%res_bind_Ok); [|done].
    apply dict_fold_spec in Hr as (Hs & Hnd & -> & Hw'); [|done..|constructor]. done.
  - intros ((Hd & (Hn & Hnd) & Hs) & -> & Hw). cbn [snd] in Hw.
    pose proof (within_mono _ _ _ Hw (zsum_map_nonneg (λ kv, nodes kv.2) l (λ kv, nodes_nonneg kv.2))
      (zsum_map_nonneg _ l item_bytes_nonneg)) as Hw1.
    eexists. split; [by apply enter_Ok|]. rewrite res_bind_Ok. eexists.
    split; [apply dict_fold_spec; [done|done|constructor|]|]; done.
Qed.

Lemma normalize_spec v d : normalize_ok d v.
Proof.
  revert d; induction v as [|b|z|f|s|l IH|l IH|l IH|] using pyval_nested_ind; intros d;
    [intros st r Hst..| | | |].
  - eapply (normalize_leaf _ _ _ _ _ true); try reflexivity; [|done].
    intros st' r'. rewrite finish_leaf. naive_solver.
  - eapply (normalize_leaf _ _ _ _ _ true); try reflexivity; [|done].
    intros st' r'. rewrite finish_leaf. naive_solver.
  - eapply normalize_leaf; try reflexivity; [|done]. intros st' r'. cbv beta. cbn [json_bytes].
    destruct (Z.leb_spec (bit_length z) MAX_CANONICAL_INTEGER_BITS),
      (Z.ltb_spec MAX_CANONICAL_INTEGER_BITS (bit_length z)); try lia; cbn [raise_if res_bind].
    + rewrite finish_leaf. naive_solver.
    + naive_solver.
  - eapply normalize_leaf; try reflexivity; [|done].
    intros st' r'. cbv beta. cbn [json_bytes]. destruct (float_repr f); [|naive_solver].
    rewrite finish_leaf. naive_solver.
  - eapply normalize_leaf; try reflexivity; [|done]. intros st' r'. cbv beta. cbn [json_bytes].
    rewrite res_bind_Ok. split.
    + intros (n & [Hs ->]%bounded_json_string_length_spec & Hr%finish_leaf). done.
    + intros (Hs & Hr). exists (serialized_length s).
      split; [by apply bounded_json_string_length_spec|]. by apply finish_leaf.
  - apply normalize_list. eapply Forall_impl; [done|]. auto.
  - apply (normalize_list d l). eapply Forall_impl; [done|]. auto.
  - apply normalize_dict. eapply Forall_impl; [done|]. naive_solver.
  - intros st r _. cbn. rewrite andb_false_r. split; [|naive_solver]. intros H. res_inv.
Qed.
End normalize.

(** ** The text of an accepted value *)

Lemma hex_digit_ascii n : 0 <= n <= 15 → 0 <= hex_digit n <= 127.
Proof. intros. unfold hex_digit. destruct (n <? 10) eqn:E; bool_inv; lia. Qed.

Definition ascii (s : pystr) : Prop := Forall (λ c, c <= 127) s.

Lemma ascii_text s : ascii s → no_surrogate s = true ∧ utf8_length s = Z.of_nat (length s).
Proof.
  induction 1 as [|c s Hc _ [IH1 IH2]]; [done|]. rewrite utf8_length_cons, IH2.
  cbn [no_surrogate forallb length]. fold (no_surrogate s). rewrite IH1. split.
  - unfold is_surrogate. by replace (0xd800 <=? c) with false by lia.
  - unfold utf8_width. replace (c <=? 0x7f) with true by lia. lia.
Qed.

Lemma numchars_ascii s : forallb is_numchar s = true → ascii s.
Proof.
  rewrite forallb_forall. intros H. apply Forall_forall. intros c Hc%list_elem_of_In%H.
  unfold is_numchar, is_digit in Hc. lia.
Qed.

Lemma escape_char_text c :
  is_surrogate c = false →
  no_surrogate (escape_char c) = true ∧ utf8_length (escape_char c) = serialized_width c.
Proof.
  intros Hc. unfold escape_char, serialized_width, is_short_escape.
  repeat (match goal with |- context [c =? ?n] => destruct (Z.eqb_spec c n) as [->|]; [done|] end).
  cbn [orb]. destruct ((0 <=? c) && (c <=? 31)) eqn:E.
  - assert (Ha : ascii (92 :: 117 :: hex4 c)).
    { do 2 (apply List.Forall_cons; [lia|]). unfold hex4. apply Forall_fmap, Forall_forall.
      intros i _. apply hex_digit_ascii. change 15 with (Z.ones 4) at 1 2.
      rewrite Z.land_ones by done.
      pose proof (Z.mod_pos_bound (Z.shiftr c (4 * Z.of_nat (3 - i))) (2 ^ 4) eq_refl).
      change (2 ^ 4) with 16 in *. lia. }
    apply ascii_text in Ha as [-> ->]. by replace ((0 <=? c) && (c <=? 0x1f)) with true.
  - replace ((0 <=? c) && (c <=? 0x1f)) with false. split; [cbn; by rewrite Hc|].
    unfold utf8_length. cbn. lia.
Qed.

Lemma quote_text s :
  no_surrogate s = true →
  no_surrogate (quote s) = true ∧ utf8_length (quote s) = serialized_length s.
Proof.
  intros Hs. assert (Hb : no_surrogate (concat (map escape_char s)) = true ∧
    utf8_length (concat (map escape_char s)) = zsum (map serialized_width s)).
  { induction s as [|c s IH]; [done|]. cbn [no_surrogate forallb] in Hs. fold (no_surrogate s) in Hs.
    bool_inv. destruct IH as [IH1 IH2]; [done|]. destruct (escape_char_text c) as [E1 E2]; [done|].
    cbn [map concat]. rewrite no_surrogate_app, utf8_length_app, E1, E2, IH1, IH2. done. }
  destruct Hb as [H1 H2]. unfold quote, serialized_length. cbn [no_surrogate forallb].
  fold (no_surrogate (concat (map escape_char s) ++ [34])). rewrite no_surrogate_app, H1.
  rewrite utf8_length_cons, utf8_length_app, H2. split; [done|].
  change (utf8_length [34]) with 1. change (utf8_width 34) with 1. lia.
Qed.

(** A text of known size without surrogates. *)
Definition text_of (n : Z) (t : pystr) : Prop := no_surrogate t = true ∧ utf8_length t = n.

Lemma join_commas_text l ns :
  Forall2 text_of ns l →
  text_of (zsum ns + Z.max 0 (Z.of_nat (length l) - 1)) (join_commas l).
Proof.
  induction 1 as [|n t ns l [Ht Hn] Hl IH]; [done|]. destruct Hl as [|n' t' ns l Ht' Hl].
  - cbn [join_commas length]. rewrite !zsum_cons. split; [done|]. rewrite Hn. cbn. lia.
  - change (join_commas (t :: t' :: l)) with (t ++ 44 :: join_commas (t' :: l)).
    destruct IH as [IH1 IH2]. split.
    + rewrite no_surrogate_app, Ht. cbn [no_surrogate forallb]. fold (no_surrogate (join_commas (t' :: l))).
      by rewrite IH1.
    + rewrite utf8_length_app, utf8_length_cons, IH2, Hn, !zsum_cons. cbn [length].
      change (utf8_width 44) with 1. lia.
Qed.

Lemma wrap_text a b n t :
  a <= 127 → b <= 127 → text_of n t → text_of (n + 2) (a :: t ++ [b]).
Proof.
  intros Ha Hb [Ht Hn]. assert (Has : ∀ c, c <= 127 → is_surrogate c = false ∧ utf8_width c = 1).
  { intros c Hc. unfold is_surrogate, utf8_width. split; [lia|]. by replace (c <=? 0x7f) with true by lia. }
  split.
  - cbn [no_surrogate forallb]. fold (no_surrogate (t ++ [b])). rewrite no_surrogate_app, Ht. cbn.
    by rewrite (proj1 (Has a Ha)), (proj1 (Has b Hb)).
  - rewrite utf8_length_cons, utf8_length_app, Hn. unfold utf8_length. cbn.
    rewrite (proj2 (Has a Ha)), (proj2 (Has b Hb)). lia.
Qed.

Lemma string_ok_text s : string_ok s = true → text_of (serialized_length s) (quote s).
Proof. unfold string_ok. intros. bool_inv. by apply quote_text. Qed.

Lemma texts_exist {A} (f : A → res pystr) (n : A → Z) l :
  Forall (λ x, ∃ t, f x = Ok t ∧ text_of (n x) t) l →
  ∃ ts, res_seq (map f l) = Ok ts ∧ Forall2 text_of (map n l) ts ∧ length ts = length l.
Proof.
  induction 1 as [|x l (t & Ht & Hn) _ (ts & Hts & Hf & Hlen)]; [by exists []|].
  exists (t :: ts). cbn [map res_seq]. rewrite Ht. cbn [res_bind]. rewrite Hts. cbn [res_bind length].
  split; [done|]. split; [by constructor|]. by rewrite Hlen.
Qed.

Lemma bracketed_text {A} (a b : Z) (f : A → res pystr) (n : A → Z) l :
  a <= 127 → b <= 127 → Forall (λ x, ∃ t, f x = Ok t ∧ text_of (n x) t) l →
  ∃ t, (let* ts := res_seq (map f l) in Ok (a :: join_commas ts ++ [b])) = Ok t ∧
    text_of (punctuation l + zsum (map n l)) t.
Proof.
  intros Ha Hb (ts & -> & Hf & Hlen)%texts_exist. eexists. split; [done|].
  apply join_commas_text in Hf. rewrite Hlen in Hf. unfold punctuation.
  replace (2 + Z.max 0 (Z.of_nat (length l) - 1) + zsum (map n l))
    with (zsum (map n l) + Z.max 0 (Z.of_nat (length l) - 1) + 2) by lia.
  by apply wrap_text.
Qed.

Definition item_text (kv : pyval * pyval) : res pystr :=
  match kv.1 with
  | VStr k => let* t := json_dumps kv.2 in Ok (quote k ++ 58 :: t)
  | _ => Raise TypeError
  end.

Lemma json_dumps_items l :
  json_dumps (VDict l) =
    let* ts := res_seq (map item_text (sorted_by dict_key l)) in Ok (123 :: join_commas ts ++ [125]).
Proof.
  cbn [json_dumps]. rewrite sorted_by_map, map_map.
  rewrite (sorted_by_ext _ dict_key) by (by intros [[] ?]).
  f_equal. f_equal. apply map_ext. by intros [[] ?].
Qed.

Lemma punctuation_perm {A} (l1 l2 : list A) : l1 ≡ₚ l2 → punctuation l1 = punctuation l2.
Proof. unfold punctuation. by intros ->. Qed.

Lemma zsum_map_perm {A} (f : A → Z) l1 l2 : l1 ≡ₚ l2 → zsum (map f l1) = zsum (map f l2).
Proof. intros H. by rewrite (Permutation_map f H). Qed.

(** String keys, no unpaired surrogates, finite floats: what the records of the system hold. *)
Fixpoint clean (v : pyval) : bool :=
  match v with
  | VNone | VBool _ | VInt _ => true
  | VFloat f => match float_repr f with Some _ => true | None => false end
  | VStr s => no_surrogate s
  | VList l | VTuple l => forallb clean l
  | VDict l =>
      forallb (λ kv, match kv.1 with VStr k => no_surrogate k | _ => false end && clean kv.2) l
  | VOther => false
  end.

Lemma clean_dumps_text v : clean v = true → ∃ t, json_dumps v = Ok t ∧ text_of (json_bytes v) t.
Proof.
  induction v as [|b|z|f|s|l IH|l IH|l IH|] using pyval_nested_ind; intros Hs; cbn [clean] in Hs.
  - by eexists.
  - by destruct b; eexists.
  - eexists. split; [done|]. cbn [json_bytes]. apply ascii_text, numchars_ascii, int_str_numchars.
  - cbn [json_dumps json_bytes]. destruct (float_repr f) as [t|] eqn:E; [|done].
    eexists. split; [done|]. apply ascii_text, numchars_ascii.
    by eapply parse_number_numchars, float_repr_reads.
  - eexists. split; [done|]. by apply quote_text.
  - apply (bracketed_text 91 93 json_dumps json_bytes l); [done|done|].
    apply Forall_forall. intros x Hx. rewrite Forall_forall in IH. apply (IH x Hx).
    by eapply forallb_elem.
  - apply (bracketed_text 91 93 json_dumps json_bytes l); [done|done|].
    apply Forall_forall. intros x Hx. rewrite Forall_forall in IH. apply (IH x Hx).
    by eapply forallb_elem.
  - rewrite json_dumps_items. change (json_bytes (VDict l)) with (punctuation l + zsum (map item_bytes l)).
    rewrite <- (punctuation_perm _ _ (sorted_by_perm dict_key l)).
    rewrite <- (zsum_map_perm item_bytes _ _ (sorted_by_perm dict_key l)).
    apply bracketed_text; [done|done|].
    apply Forall_forall. intros [k w] Hx. rewrite elem_of_sorted_by in Hx.
    rewrite Forall_forall in IH. destruct (IH _ Hx) as [_ IHw].
    pose proof (proj1 (forallb_elem _ _) Hs _ Hx) as Hk. cbn [fst snd] in *. bool_inv.
    destruct k as [| | | |k| | | |]; try done.
    destruct IHw as (t & Ht & [Htn Htl]); [done|]. unfold item_text, item_bytes. cbn [fst snd].
    rewrite Ht. cbn [res_bind]. eexists. split; [done|].
    destruct (quote_text k) as [Hq1 Hq2]; [done|]. split.
    + rewrite no_surrogate_app, Hq1. cbn [no_surrogate forallb]. fold (no_surrogate t). by rewrite Htn.
    + rewrite utf8_length_app, utf8_length_cons, Hq2, Htl. change (utf8_width 58) with 1.
      unfold key_bytes. cbn [fst]. lia.
  - done.
Qed.

Lemma shape_ok_clean lim v d : shape_ok lim d v = true → clean v = true.
Proof.
  revert d; induction v as [|b|z|f|s|l IH|l IH|l IH|] using pyval_nested_ind; intros d Hs; try done;
    cbn [shape_ok clean] in *; bool_inv; rewrite Forall_forall in IH || idtac.
  - done.
  - unfold string_ok in *. by bool_inv.
  - apply forallb_elem. intros x Hx. apply (IH x Hx (d + 1)). by eapply forallb_elem.
  - apply forallb_elem. intros x Hx. apply (IH x Hx (d + 1)). by eapply forallb_elem.
  - apply forallb_elem. intros [k w] Hx. destruct (IH _ Hx) as [_ IHw]. cbn [fst snd] in *.
    match goal with H : forallb _ l = true |- _ => apply (proj1 (forallb_elem _ _) H) in Hx end.
    cbn [fst snd] in Hx. bool_inv. destruct k; try done. unfold key_ok, string_ok in *. bool_inv.
    rewrite (IHw (d + 1)) by done. rewrite andb_true_r. done.
  - done.
Qed.

Lemma shape_ok_text lim v d :
  shape_ok lim d v = true → ∃ t, json_dumps v = Ok t ∧ text_of (json_bytes v) t.
Proof. intros H%shape_ok_clean. by apply clean_dumps_text. Qed.

(** ** The canonical form and the copy keep shape and size *)

Lemma shape_ok_validate lim v d : shape_ok lim d v = true → validate_mapping_keys v = Ok tt.
Proof.
  revert d; induction v as [|b|z|f|s|l IH|l IH|l IH|] using pyval_nested_ind; intros d Hs; try done;
    cbn [shape_ok validate_mapping_keys] in *; bool_inv; apply res_iter_Ok, Forall_forall;
    rewrite Forall_forall in IH; intros x Hx.
  1,2: apply (IH x Hx (d + 1)); by eapply forallb_elem.
  destruct x as [k w]. destruct (IH _ Hx) as [_ IHw]. cbn [fst snd] in *.
  assert (Hkw : key_ok k && shape_ok lim (d + 1) w = true).
  { by match goal with H : forallb _ l = true |- _ => apply (proj1 (forallb_elem _ _) H (k, w)) end. }
  bool_inv.
  destruct k; try done. by apply (IHw (d + 1)).
Qed.

Lemma shape_ok_wf lim v d : shape_ok lim d v = true → dict_wf v = true.
Proof.
  revert d; induction v as [|b|z|f|s|l IH|l IH|l IH|] using pyval_nested_ind; intros d Hs; try done;
    cbn [shape_ok dict_wf] in *; bool_inv; rewrite Forall_forall in IH.
  1,2: apply forallb_elem; intros x Hx; apply (IH x Hx (d + 1)); by eapply forallb_elem.
  rewrite bool_decide_true by done. apply forallb_elem; intros x Hx.
  destruct (IH x Hx) as [_ IHx]. apply (IHx (d + 1)).
  match goal with H : forallb _ l = true |- _ => apply (proj1 (forallb_elem _ _) H x) in Hx end.
  by bool_inv.
Qed.

Lemma forallb_perm {A} (f : A → bool) l1 l2 : l1 ≡ₚ l2 → forallb f l1 = forallb f l2.
Proof.
  intros H. apply eq_true_iff_eq. rewrite !forallb_elem. by setoid_rewrite H.
Qed.

Lemma forallb_map {A B} (f : B → bool) (g : A → B) l : forallb f (map g l) = forallb (λ x, f (g x)) l.
Proof. induction l as [|x l IH]; [done|]. simpl. by rewrite IH. Qed.

Lemma forallb_ext_in {A} (f g : A → bool) l : Forall (λ x, f x = g x) l → forallb f l = forallb g l.
Proof. induction 1 as [|x l H _ IH]; [done|]. simpl. by rewrite H, IH. Qed.

Lemma map_ext_Forall' {A B} (f g : A → B) l : Forall (λ x, f x = g x) l → map f l = map g l.
Proof. induction 1 as [|x l H _ IH]; [done|]. simpl. by rewrite H, IH. Qed.

Lemma string_keys_map (f : pyval → pyval) l :
  string_keys (map (λ kv, (kv.1, f kv.2)) l) = string_keys l.
Proof. induction l as [|[[] w] l IH]; cbn in *; [done|..]; try done. by f_equal. Qed.

(** Reordering a dict and changing its values by a map that keeps the shape. *)
Lemma nodes_canon v : nodes (canon v) = nodes v.
Proof.
  induction v as [|b|z|f|s|l IH|l IH|l IH|] using pyval_nested_ind; try done; cbn [canon nodes].
  1,2: rewrite map_map; by rewrite (map_ext_Forall' _ _ _ IH).
  rewrite (zsum_map_perm _ _ _ (sorted_by_perm dict_key _)), map_map. cbn [snd].
  rewrite (map_ext_Forall' _ (λ kv, nodes kv.2) l); [done|].
  eapply Forall_impl; [done|]. by intros ? [_ ?].
Qed.

Lemma punctuation_length {A B} (l1 : list A) (l2 : list B) :
  length l1 = length l2 → punctuation l1 = punctuation l2.
Proof. unfold punctuation. by intros ->. Qed.

Lemma json_bytes_canon v : json_bytes (canon v) = json_bytes v.
Proof.
  induction v as [|b|z|f|s|l IH|l IH|l IH|] using pyval_nested_ind; try done; cbn [canon json_bytes].
  1,2: rewrite map_map, (map_ext_Forall' _ _ _ IH), (punctuation_length _ l); [done|];
    by rewrite length_map.
  change (punctuation (sorted_by dict_key (map (λ kv, (kv.1, canon kv.2)) l)) +
    zsum (map item_bytes (sorted_by dict_key (map (λ kv, (kv.1, canon kv.2)) l))) =
    punctuation l + zsum (map item_bytes l)).
  rewrite (zsum_map_perm _ _ _ (sorted_by_perm dict_key _)), map_map.
  rewrite (map_ext_Forall' _ item_bytes l).
  - rewrite (punctuation_length _ l); [done|]. by rewrite length_sorted_by, length_map.
  - eapply Forall_impl; [done|]. intros [k w] [_ Hw]. unfold item_bytes, key_bytes. cbn [fst snd] in *.
    by rewrite Hw.
Qed.

Lemma shape_ok_canon lim v d : shape_ok lim d (canon v) = shape_ok lim d v.
Proof.
  revert d; induction v as [|b|z|f|s|l IH|l IH|l IH|] using pyval_nested_ind; intros d; try done;
    cbn [canon shape_ok]; f_equal.
  1,2: rewrite length_map, forallb_map; f_equal; apply forallb_ext_in;
    eapply Forall_impl; [done|]; auto.
  rewrite length_sorted_by, length_map, (forallb_perm _ _ _ (sorted_by_perm dict_key _)), forallb_map.
  f_equal; [f_equal|].
  - apply bool_decide_ext. by rewrite (string_keys_perm _ _ (sorted_by_perm dict_key _)), string_keys_map.
  - apply forallb_ext_in. eapply Forall_impl; [done|]. intros [k w] [_ Hw]. cbn [fst snd] in *.
    by rewrite Hw.
Qed.

Lemma canon_listify v : canon (listify v) = canon v.
Proof.
  induction v as [|b|z|f|s|l IH|l IH|l IH|] using pyval_nested_ind; try done; cbn [canon listify]; f_equal.
  1,2: rewrite map_map; by apply map_ext_Forall'.
  rewrite map_map. cbn [fst snd]. f_equal. apply map_ext_Forall'.
  eapply Forall_impl; [done|]. intros [k w] [_ Hw]. cbn [fst snd] in *. by rewrite Hw.
Qed.

Lemma listify_canon v : listify (canon v) = canon v.
Proof.
  induction v as [|b|z|f|s|l IH|l IH|l IH|] using pyval_nested_ind; try done; cbn [canon listify]; f_equal.
  1,2: rewrite map_map; by apply map_ext_Forall'.
  rewrite <- (map_id (sorted_by dict_key _)) at 2. apply map_ext_in.
  intros kv Hin%list_elem_of_In. rewrite elem_of_sorted_by in Hin.
  apply list_elem_of_In, in_map_iff in Hin as ([k w] & <- & Hin%list_elem_of_In).
  rewrite Forall_forall in IH. destruct (IH _ Hin) as [_ Hw]. cbn [fst snd] in *. by rewrite Hw.
Qed.

Lemma canonical_json_listify v : canonical_json (listify v) = canonical_json v.
Proof. by rewrite <- canonical_json_canon_eq, canon_listify, canonical_json_canon_eq. Qed.

(** ** The bounded copy as a predicate *)

(** Everything [_normalize_bounded_json] enforces, on the whole value. *)
Definition admissible (lim : json_limits) (v : pyval) : Prop :=
  shape_ok lim 0 v = true ∧ nodes v <= max_nodes lim ∧ json_bytes v <= max_bytes lim.

Definition limits_ok (lim : json_limits) : Prop :=
  limit_ok (max_collection_items lim) ∧ limit_ok (max_bytes lim) ∧ 0 <= max_nodes lim.

Lemma normalize_json_spec lim v v' :
  limits_ok lim → normalize_json lim v = Ok v' ↔ admissible lim v ∧ v' = listify v.
Proof.
  intros (Hc & Hb%limit_ok_pos & Hn). unfold normalize_json. rewrite res_bind_Ok.
  assert (H0 : within lim no_counters) by (split; simpl; lia). split.
  - intros (r & Hr & [= <-]). apply normalize_spec in Hr as (Hs & -> & [Hw1 Hw2]); [|done..].
    simpl in *. unfold admissible. repeat split; try done; lia.
  - intros ((Hs & Hw1 & Hw2) & ->). eexists. split; [apply normalize_spec; [done..|]|].
    + split; [done|]. split; [done|]. split; simpl; lia.
    + done.
Qed.

Lemma admissible_canon lim v : admissible lim (canon v) ↔ admissible lim v.
Proof. unfold admissible. by rewrite shape_ok_canon, nodes_canon, json_bytes_canon. Qed.

Lemma admissible_text lim v :
  admissible lim v → ∃ t, canonical_json v = Ok t ∧ no_surrogate t = true ∧
    utf8_length t = json_bytes v ∧ json_loads t = Ok (canon v).
Proof.
  intros (Hs & _ & _). destruct (shape_ok_text _ _ _ Hs) as (t & Ht & Hn & Hl).
  exists t. unfold canonical_json. rewrite (shape_ok_validate _ _ _ Hs). repeat split; try done.
  apply json_dumps_loads; [by eapply shape_ok_wf|done].
Qed.

(** The text of an admissible value passes the constructor's check. *)
Lemma check_canonical_text_ok lim v t :
  limits_ok lim → admissible lim v → canonical_json v = Ok t → check_canonical_text lim t = Ok tt.
Proof.
  intros Hl Ha Ht. destruct (admissible_text _ _ Ha) as (t' & Ht' & Hn & Hlen & Hload).
  rewrite Ht in Ht'. injection Ht' as <-. unfold check_canonical_text.
  rewrite (proj2 (bounded_utf8_length_spec t (max_bytes lim) (json_bytes v))).
  - simpl. rewrite Hload. simpl.
    rewrite (proj2 (normalize_json_spec lim (canon v) (canon v) Hl)).
    + simpl. rewrite canonical_json_canon_eq, Ht. simpl. by rewrite bool_decide_true.
    + by rewrite admissible_canon, listify_canon.
  - destruct Hl as (_ & Hb & _), Ha as (_ & _ & Ha). rewrite Hlen. done.
Qed.

(** A text that passes the check is the canonical text of an admissible value. *)
Lemma check_canonical_text_inv lim t :
  limits_ok lim → check_canonical_text lim t = Ok tt →
  ∃ v, json_loads t = Ok v ∧ admissible lim v ∧ canonical_json v = Ok t ∧ canon v = v.
Proof.
  intros Hl H. unfold check_canonical_text in H. res_inv. bool_inv. subst.
  apply normalize_json_spec in E1 as [Ha ->]; [|done]. rewrite canonical_json_listify in E2.
  destruct (admissible_text _ _ Ha) as (t' & Ht' & _ & _ & Hload).
  rewrite E2 in Ht'. injection Ht' as <-. rewrite E0 in Hload. injection Hload as Hload.
  exists a0. repeat split; try done; apply Ha.
Qed.

Lemma value_limits_ok : limits_ok value_limits.
Proof. split; [reflexivity|]. split; [reflexivity|]. done. Qed.

Lemma runtime_limits_ok : limits_ok runtime_limits.
Proof. split; [reflexivity|]. split; [reflexivity|]. done. Qed.

(** [from_value] under either profile. *)
Lemma from_value_spec v :
  match normalize_json value_limits v with
  | Ok _ => ∃ cv, CanonicalValue.from_value v = Ok cv ∧ canonical_json v = Ok (cv_text cv) ∧
              CanonicalValue.to_value cv = Ok (canon v)
  | Raise e => CanonicalValue.from_value v = Raise e
  end.
Proof.
  unfold CanonicalValue.from_value. destruct (normalize_json value_limits v) as [v'|e] eqn:E; [|done].
  apply normalize_json_spec in E as [Ha ->]; [|apply value_limits_ok].
  destruct (admissible_text _ _ Ha) as (t & Ht & _ & _ & Hload).
  exists {| cv_text := t |}. simpl. rewrite canonical_json_listify, Ht. simpl.
  unfold CanonicalValue.make.
  rewrite (check_canonical_text_ok _ _ _ value_limits_ok Ha Ht). done.
Qed.

(** ** Records that always serialize *)

Lemma clean_list l : clean (VList l) = true ↔ ∀ v, v ∈ l → clean v = true.
Proof. apply forallb_elem. Qed.

Lemma clean_opt {A} (f : A → pyval) o : (∀ x, o = Some x → clean (f x) = true) → clean (opt_val f o) = true.
Proof. destruct o; simpl; auto. Qed.

Lemma clean_strs l : Forall (λ s, no_surrogate s = true) l → clean (strs_val l) = true.
Proof.
  intros H. apply clean_list. intros v (s & <- & Hs)%list_elem_of_In%in_map_iff.
  rewrite Forall_forall in H. by apply H, list_elem_of_In.
Qed.

Lemma clean_obj kvs :
  clean (obj kvs) = forallb (λ kv, no_surrogate (u kv.1) && clean kv.2) kvs.
Proof.
  unfold obj. cbn [clean]. induction kvs as [|[k v] kvs IH]; [done|].
  cbn [map forallb fst snd]. by rewrite IH.
Qed.

Definition clean_text_of (r : res pystr) : Prop := ∃ t, r = Ok t ∧ no_surrogate t = true.

Lemma quote_clean s : no_surrogate s = true → no_surrogate (quote s) = true.
Proof. intros H. by apply quote_text in H as [? _]. Qed.

Lemma clean_dumps v : clean v = true → clean_text_of (json_dumps v).
Proof. intros (t & Ht & Hn & _)%clean_dumps_text. by exists t. Qed.

Lemma clean_validate v : clean v = true → validate_mapping_keys v = Ok tt.
Proof.
  induction v as [|b|z|f|s|l IH|l IH|l IH|] using pyval_nested_ind; intros Hc; try done;
    cbn [clean validate_mapping_keys] in *; apply res_iter_Ok, Forall_forall;
    rewrite Forall_forall in IH; intros x Hx; pose proof (proj1 (forallb_elem _ _) Hc _ Hx) as Hxc.
  1,2: by apply IH.
  destruct x as [k w]. destruct (IH _ Hx) as [_ IHw]. cbn [fst snd] in *. bool_inv.
  destruct k; try done. by apply IHw.
Qed.

Lemma clean_json_text v : clean v = true → ∃ t, canonical_json v = Ok t ∧ text_of (json_bytes v) t.
Proof. intros Hc. unfold canonical_json. rewrite clean_validate by done. by apply clean_dumps_text. Qed.

Lemma clean_canonical v : clean v = true → clean_text_of (canonical_json v).
Proof. intros Hc. unfold canonical_json. rewrite clean_validate by done. by apply clean_dumps. Qed.

Lemma utf8_total s : no_surrogate s = true → ∃ b, utf8 s = Ok b.
Proof.
  induction s as [|c s IH]; intros Hs; [by exists []|]. cbn [no_surrogate forallb] in Hs.
  fold (no_surrogate s) in Hs. bool_inv. destruct IH as [b Hb]; [done|]. cbn [utf8].
  assert (Ha : ∃ a, utf8_char c = Ok a).
  { unfold utf8_char. destruct (c <=? 0x7f); [eauto|]. destruct (c <=? 0x7ff); [eauto|].
    unfold is_surrogate in *. rewrite H. destruct (c <=? 0xffff); eauto. }
  destruct Ha as [a ->]. rewrite Hb. simpl. eauto.
Qed.

Lemma domain_fingerprint_total d v :
  domain_pattern d = true → clean v = true → ∃ h, domain_fingerprint d v = Ok h.
Proof.
  intros Hd (t & Ht & Hn)%clean_canonical. destruct (utf8_total t Hn) as [b Hb].
  unfold domain_fingerprint. rewrite Hd, Ht. simpl. rewrite Hb. simpl. eauto.
Qed.

(** ** Symbols, fingerprints and texts *)

Lemma ascii_no_surrogate s : ascii s → no_surrogate s = true.
Proof. intros H. by apply ascii_text in H as [? _]. Qed.

Lemma symbol_clean s : require_symbol s = Ok tt → no_surrogate s = true.
Proof.
  unfold require_symbol. intros H%raise_if_Ok. bool_inv. destruct s as [|c s]; [done|].
  cbn [symbol_pattern] in H. bool_inv. apply ascii_no_surrogate. constructor.
  - unfold is_lower in *. lia.
  - apply Forall_forall. intros x Hx.
    assert (Hs : is_symbol_char x = true) by (by eapply forallb_elem).
    unfold is_symbol_char, is_lower, is_digit in Hs. lia.
Qed.

Lemma fingerprint_clean s : fingerprint_pattern s = true → no_surrogate s = true.
Proof.
  unfold fingerprint_pattern. intros H. bool_inv. apply ascii_no_surrogate, Forall_forall. intros x Hx.
  assert (Hs : is_hex x = true) by (by eapply forallb_elem). unfold is_hex in Hs. lia.
Qed.

Lemma require_fingerprint_Ok s : require_fingerprint s = Ok tt ↔ fingerprint_pattern s = true.
Proof. unfold require_fingerprint. rewrite raise_if_Ok. apply negb_false_iff. Qed.

Lemma text_clean s : require_text s = Ok tt → no_surrogate s = true.
Proof.
  unfold require_text. intros H. res_inv. apply bounded_utf8_length_spec in E0. by destruct E0 as (_ & ? & _).
Qed.

(** A domain fingerprint is a fingerprint. *)
Lemma domain_fingerprint_pattern d v h : domain_fingerprint d v = Ok h → fingerprint_pattern h = true.
Proof.
  intros [Hl Hh]%domain_fingerprint_shape. unfold fingerprint_pattern. rewrite Hl.
  apply forallb_elem. by apply Forall_forall.
Qed.

(** [clean_tac]: a dict literal is clean when its values are. *)
Ltac clean_tac :=
  rewrite clean_obj; cbn [forallb fst snd];
  repeat (apply andb_true_intro; split);
  first [reflexivity | vm_compute; reflexivity | idtac].

(** ** Properties *)

Lemma from_value_iff v cv :
  CanonicalValue.from_value v = Ok cv ↔
  admissible value_limits v ∧ canonical_json v = Ok (cv_text cv).
Proof.
  pose proof (from_value_spec v) as H. destruct (normalize_json value_limits v) as [v'|e] eqn:E.
  - apply normalize_json_spec in E as [Ha _]; [|apply value_limits_ok].
    destruct H as (cv' & Hf & Ht & _). rewrite Hf, Ht. destruct cv as [t], cv' as [t'].
    simpl. split; [intros [= ->]; done|]. by intros [_ [= ->]].
  - rewrite H. split; [done|]. intros [Ha _].
    assert (Hn : normalize_json value_limits v = Ok (listify v))
      by (apply normalize_json_spec; [apply value_limits_ok|done]). congruence.
Qed.

Lemma from_value_to_value v cv :
  CanonicalValue.from_value v = Ok cv → CanonicalValue.to_value cv = Ok (canon v).
Proof.
  pose proof (from_value_spec v) as H. destruct (normalize_json value_limits v).
  - destruct H as (cv' & -> & _ & Ht). by intros [= <-].
  - by rewrite H.
Qed.

(** [CanonicalValue.from_value] accepts exactly the values within every shape, node and
    byte limit, and it charges bytes exactly: [json_bytes] is the UTF-8 length of the text.  The
    stored text is the canonical text and reads back as the canonical form, so no later
    check of the constructor can fail and the caller's value cannot change the record. *)
Theorem canonical_value_admits v cv :
  CanonicalValue.from_value v = Ok cv ↔
  admissible value_limits v ∧ canonical_json v = Ok (cv_text cv) ∧
  utf8_length (cv_text cv) = json_bytes v ∧ CanonicalValue.to_value cv = Ok (canon v).
Proof.
  rewrite from_value_iff. split; [|naive_solver]. intros [Ha Ht].
  destruct (admissible_text _ _ Ha) as (t & Ht' & _ & Hlen & Hload).
  rewrite Ht in Ht'. injection Ht' as <-. done.
Qed.

(** The constructor on a text accepts exactly the canonical texts of admissible values. *)
Theorem canonical_text_only t cv :
  CanonicalValue.make t = Ok cv ↔
  cv_text cv = t ∧ ∃ v, admissible value_limits v ∧ canonical_json v = Ok t.
Proof.
  unfold CanonicalValue.make. split.
  - intros H. res_inv. subst. split; [done|].
    apply check_canonical_text_inv in E as (v & _ & Ha & Ht & _); [eauto|apply value_limits_ok].
  - intros [<- (v & Ha & Ht)]. rewrite (check_canonical_text_ok _ _ _ value_limits_ok Ha Ht).
    by destruct cv.
Qed.

(** [materialize_bounded_iterable] terminates on every iterator: it returns all the items
    when there are at most [limit] of them, and otherwise, endless iterators included, it raises
    after reading one item past the limit. *)
Theorem materialize_bounded {A} (next : nat → option A) limit :
  limit_ok limit →
  (∀ l, yields next l → Z.of_nat (length l) <= limit → materialize_bounded_iterable next limit = Ok l) ∧
  ((∀ i, (i <= Z.to_nat limit)%nat → is_Some (next i)) →
    materialize_bounded_iterable next limit = Raise ValueError).
Proof.
  intros Hl. pose proof (limit_ok_pos _ Hl). unfold materialize_bounded_iterable. rewrite Hl.
  cbn [res_bind]. split.
  - intros l Hy Hlen. rewrite (materialize_loop_Ok _ _ l _ [] l); [|done..].
    by rewrite (proj2 (Nat.leb_le _ _)) by lia.
  - intros Hs. by apply materialize_loop_endless.
Qed.

Lemma materialize_bounded_witness :
  limit_ok 3 ∧
  (∀ l, yields (λ i, Some i) l → Z.of_nat (length l) <= 3 →
    materialize_bounded_iterable (λ i, Some i) 3 = Ok l) ∧
  ((∀ i, (i <= Z.to_nat 3)%nat → is_Some (Some i)) →
    materialize_bounded_iterable (λ i, Some i) 3 = Raise ValueError).
Proof. split; [reflexivity|]. apply (materialize_bounded (λ i, Some i) 3). reflexivity. Defined.
