(* ===== verification/InertJson.v ===== *)
(** * Bounded copies of inert JSON

    [supervisor.py] ([_json_copy]) and [synthetic_protocol.py] ([_copy_json]) each write out the same
    traversal of an untrusted value: it counts nodes and serialized bytes before anything is
    serialized, and the text of the copy is measured once more at the end.  The traversal is
    written here once; a profile holds what the two differ in. *)

From Stdlib Require Import Ascii String.
From stdpp Require Import base list.
From S2P Require Import Prelude PyStr PyNumber Sha256 Canonical Records.

Record copy_profile := {
  cp_bytes : Z;                           (** the serialized bytes *)
  cp_nodes : Z;
  cp_depth : Z;
  cp_list : Z;                            (** items of an array *)
  cp_dict : Z;                            (** items of an object *)
  cp_text : pystr → res unit;             (** the check of a string before it is charged *)
  cp_int : Z → res unit;
  cp_float : pyfloat → res Z;             (** the bytes of a float *)
  cp_keys : list (pyval * pyval) → res unit;  (** the check of an object's keys before its items *)
  cp_child_first : bool                   (** [copy(child)] runs before [copy(key)] *)
}.

(** [charge] *)
Definition charge (p : copy_profile) (st : counters) (amount : Z) : res counters :=
  let size := byte_count st + amount in
  raise_if (cp_bytes p <? size) ValueError ;;*
  Ok {| node_count := node_count st; byte_count := size |}.

(** The characters of a string, each charged at its serialized width. *)
Fixpoint charge_text (p : copy_profile) (st : counters) (s : pystr) : res counters :=
  match s with
  | [] => Ok st
  | c :: r =>
      raise_if (is_surrogate c) ValueError ;;*
      let* st := charge p st (serialized_width c) in
      charge_text p st r
  end.

(** A comprehension over the items of a collection, with the counters passed along. *)
Definition copy_items {A} (step : counters → A → res (A * counters))
    : counters → list A → res (list A * counters) :=
  fix go st l :=
    match l with
    | [] => Ok ([], st)
    | x :: rest =>
        let* y := step st x in
        let* ys := go y.2 rest in
        Ok (y.1 :: ys.1, ys.2)
    end.

(** [copy] *)
Fixpoint copy_inert (p : copy_profile) (depth : Z) (st : counters) (item : pyval)
    {struct item} : res (pyval * counters) :=
  let n := node_count st + 1 in
  raise_if ((cp_nodes p <? n) || (cp_depth p <? depth)) ValueError ;;*
  let st := {| node_count := n; byte_count := byte_count st |} in
  match item with
  | VStr s =>
      cp_text p s ;;*
      let* st := charge p st 2 in
      let* st := charge_text p st s in
      Ok (item, st)
  | VNone => let* st := charge p st 4 in Ok (item, st)
  | VBool b => let* st := charge p st (if b then 4 else 5) in Ok (item, st)
  | VInt z =>
      cp_int p z ;;*
      let* st := charge p st (Z.of_nat (length (int_str z))) in
      Ok (item, st)
  | VFloat f =>
      let* n := cp_float p f in
      let* st := charge p st n in
      Ok (item, st)
  | VList l =>
      raise_if (cp_list p <? Z.of_nat (length l)) ValueError ;;*
      let* st := charge p st (2 + Z.max 0 (Z.of_nat (length l) - 1)) in
      let* r := copy_items (copy_inert p (depth + 1)) st l in
      Ok (VList r.1, r.2)
  | VDict l =>
      raise_if (cp_dict p <? Z.of_nat (length l)) ValueError ;;*
      cp_keys p l ;;*
      let* st := charge p st (2 + Z.of_nat (length l) + Z.max 0 (Z.of_nat (length l) - 1)) in
      let* r := copy_items (λ st kv,
          raise_if (match kv.1 with VStr _ => false | _ => true end) TypeError ;;*
          if cp_child_first p then
            let* c := copy_inert p (depth + 1) st kv.2 in
            let* k := copy_inert p (depth + 1) c.2 kv.1 in
            Ok ((k.1, c.1), k.2)
          else
            let* k := copy_inert p (depth + 1) st kv.1 in
            let* c := copy_inert p (depth + 1) k.2 kv.2 in
            Ok ((k.1, c.1), c.2)) st l in
      Ok (VDict r.1, r.2)
  | VTuple _ | VOther => Raise TypeError
  end.

(** The copy, and the measure of its canonical text. *)
Definition inert_copy (p : copy_profile) (value : pyval) : res pyval :=
  let* out := copy_inert p 0 no_counters value in
  let* text := canonical_json out.1 in
  bounded_utf8_length text (cp_bytes p) ;;*
  Ok out.1.

Definition no_check {A} (_ : A) : res unit := Ok tt.

(** [_json_copy] of [supervisor.py] *)
Definition supervisor_profile (limit : Z) : copy_profile := {|
  cp_bytes := limit;
  cp_nodes := 65536;
  cp_depth := 24;
  cp_list := 1024;
  cp_dict := 128;
  cp_text := no_check;
  cp_int := λ z, raise_if (negb ((0 <=? z) && (z <=? 2 ^ 256 - 1))) ValueError;
  cp_float := λ _, Raise TypeError;
  cp_keys := λ l, raise_if (existsb (λ kv, match kv.1 with VStr _ => false | _ => true end) l) ValueError;
  cp_child_first := false
|}.

(** [_copy_json] of [synthetic_protocol.py]; [str] of a finite float is its JSON spelling. *)
Definition synthetic_profile (limit node_limit : Z) : copy_profile := {|
  cp_bytes := limit;
  cp_nodes := node_limit;
  cp_depth := 16;
  cp_list := 128;
  cp_dict := 128;
  cp_text := λ s, bounded_utf8_length s 4096 ;;* Ok tt;
  cp_int := λ z, raise_if (256 <? bit_length z) ValueError;
  cp_float := λ f, match float_repr f with Some t => Ok (Z.of_nat (length t)) | None => Raise ValueError end;
  cp_keys := no_check;
  cp_child_first := true
|}.
