(* ===== verification/InertJsonFacts.v ===== *)
(** * What a bounded copy of inert JSON accepts

    The copy changes nothing, charges exactly the bytes of the canonical text, and succeeds
    exactly on the values within its bounds; the measure of the text at its end never fails. *)

From Stdlib Require Import Ascii String Btauto.
From stdpp Require Import base list.
From S2P Require Import Prelude PyStr PyNumber Sha256 Canonical CanonicalFacts Records RecordsFacts InertJson.

(** The nodes that the traversal counts: every key is one. *)
Fixpoint inert_nodes (v : pyval) : Z :=
  match v with
  | VList l => 1 + zsum (map inert_nodes l)
  | VDict l => 1 + zsum (map (λ kv, inert_nodes kv.1 + inert_nodes kv.2) l)
  | _ => 1
  end.

Definition is_str (v : pyval) : bool := match v with VStr _ => true | _ => false end.

(** The checks that do not depend on the counters. *)
Fixpoint inert_shape (p : copy_profile) (depth : Z) (v : pyval) : bool :=
  (depth <=? cp_depth p) &&
  match v with
  | VNone | VBool _ => true
  | VStr s => is_ok (cp_text p s) && no_surrogate s
  | VInt z => is_ok (cp_int p z)
  | VFloat f => is_ok (cp_float p f)
  | VList l => (Z.of_nat (length l) <=? cp_list p) && forallb (inert_shape p (depth + 1)) l
  | VDict l =>
      (Z.of_nat (length l) <=? cp_dict p) && is_ok (cp_keys p l) &&
      forallb (λ kv, is_str kv.1 && (inert_shape p (depth + 1) kv.1 && inert_shape p (depth + 1) kv.2)) l
  | VTuple _ | VOther => false
  end.

(** The counters are within the bounds. *)
Definition charged (p : copy_profile) (st : counters) : Prop :=
  node_count st <= cp_nodes p ∧ byte_count st <= cp_bytes p.

(** A step accepts an item, at a cost. *)
Definition copies {A} (p : copy_profile) (step : counters → A → res (A * counters))
    (ok : A → bool) (n b : A → Z) (x : A) : Prop :=
  ∀ st out, step st x = Ok out ↔
    ok x = true ∧ out = (x, add_counters st (n x) (b x)) ∧ charged p out.2.

Lemma inert_nodes_pos v : 1 <= inert_nodes v.
Proof.
  induction v as [|b|z|f|s|l IH|l IH|l IH|] using pyval_nested_ind; cbn [inert_nodes]; try lia.
  - cut (0 <= zsum (map inert_nodes l)); [lia|]. apply zsum_nonneg, Forall_fmap.
    eapply Forall_impl; [done|]. simpl. lia.
  - match goal with |- context [zsum ?m] => cut (0 <= zsum m); [lia|] end. apply zsum_nonneg, Forall_fmap.
    eapply Forall_impl; [done|]. intros [k w] [? ?]. simpl in *. lia.
Qed.

Lemma inert_nodes_nonneg v : 0 <= inert_nodes v.
Proof. pose proof (inert_nodes_pos v). lia. Qed.

Lemma charge_Ok p st n st' :
  charge p st n = Ok st' ↔ byte_count st + n <= cp_bytes p ∧ st' = add_counters st 0 n.
Proof.
  unfold charge, add_counters. destruct (Z.ltb_spec (cp_bytes p) (byte_count st + n)); simpl.
  - split; [done|lia].
  - rewrite Z.add_0_r. naive_solver.
Qed.

(** The characters of a string add up. *)
Lemma charge_text_Ok p s st st' :
  byte_count st <= cp_bytes p →
  charge_text p st s = Ok st' ↔
  no_surrogate s = true ∧ byte_count st + zsum (map serialized_width s) <= cp_bytes p ∧
  st' = add_counters st 0 (zsum (map serialized_width s)).
Proof.
  revert st; induction s as [|c s IH]; intros st Hst.
  - cbn. rewrite add_counters_0. rewrite Z.add_0_r. naive_solver.
  - cbn [charge_text no_surrogate forallb map]. fold (no_surrogate s). rewrite zsum_cons.
    destruct (is_surrogate c); cbn [raise_if res_bind negb andb]; [naive_solver|].
    pose proof (serialized_width_pos c). pose proof (serialized_nonneg s). rewrite res_bind_Ok. split.
    + intros (a & (Hb & ->)%charge_Ok & (Hs & Hz & ->)%IH); [|done]. rewrite add_counters_add.
      cbn [add_counters byte_count] in Hz. split; [done|]. split; [lia|]. done.
    + intros (Hs & Hz & ->). exists (add_counters st 0 (serialized_width c)). split; [apply charge_Ok; split; [lia|done]|].
      apply IH; [cbn; lia|]. rewrite add_counters_add. cbn [add_counters byte_count]. repeat split; [done|lia].
Qed.

(** The items of a collection add up. *)
Lemma copy_items_spec {A} p (step : counters → A → res (A * counters)) ok n b l :
  (∀ x, 0 <= n x ∧ 0 <= b x) → Forall (copies p step ok n b) l → ∀ st out, charged p st →
  copy_items step st l = Ok out ↔
  forallb ok l = true ∧ out = (l, add_counters st (zsum (map n l)) (zsum (map b l))) ∧ charged p out.2.
Proof.
  intros Hnn. induction 1 as [|x l Hx Hl IH]; intros st out Hst.
  - cbn. rewrite add_counters_0. naive_solver.
  - cbn [copy_items forallb map]. rewrite !zsum_cons, res_bind_Ok, andb_true_iff.
    pose proof (zsum_map_nonneg n l (λ x, proj1 (Hnn x))). pose proof (zsum_map_nonneg b l (λ x, proj2 (Hnn x))).
    split.
    + intros (y & (Hok & -> & Hc)%Hx & H1). cbn [fst snd] in *. apply res_bind_Ok in H1 as (ys & H1 & [= <-]).
      apply (IH _ _ Hc) in H1 as (Hoks & -> & Hc'). cbn [fst snd] in *. rewrite add_counters_add in *. done.
    + intros ((Hok & Hoks) & -> & Hc). cbn [snd] in Hc.
      assert (Hc1 : charged p (add_counters st (n x) (b x))) by (unfold charged, add_counters in *; simpl in *; lia).
      exists (x, add_counters st (n x) (b x)). split; [apply Hx; done|]. cbn [fst snd].
      rewrite res_bind_Ok. eexists. split; [apply (IH _ _ Hc1); split; [done|]; split; [reflexivity|]|];
        cbn [fst snd]; rewrite add_counters_add; done.
Qed.

Section copy.
  Context (p : copy_profile).
  (** Floats that the profile accepts are charged their JSON spelling. *)
  Context (Hfloat : ∀ f n, cp_float p f = Ok n → ∃ t, float_repr f = Some t ∧ n = Z.of_nat (length t)).

Definition copied (depth : Z) : pyval → Prop :=
  copies p (copy_inert p depth) (inert_shape p depth) inert_nodes json_bytes.

(** The checks around a node, and what its body costs beyond the node. *)
Lemma enter_copy depth st v (body : counters → res (pyval * counters)) shape n b out :
  0 <= n →
  (∀ o, node_count st + 1 <= cp_nodes p →
     body (add_counters st 1 0) = Ok o ↔
     shape = true ∧ o = (v, add_counters (add_counters st 1 0) n b) ∧ charged p o.2) →
  (raise_if ((cp_nodes p <? node_count st + 1) || (cp_depth p <? depth)) ValueError ;;*
   body {| node_count := node_count st + 1; byte_count := byte_count st |}) = Ok out ↔
  (depth <=? cp_depth p) && shape = true ∧ out = (v, add_counters st (1 + n) b) ∧ charged p out.2.
Proof.
  intros Hn Hbody.
  replace {| node_count := node_count st + 1; byte_count := byte_count st |} with (add_counters st 1 0)
    by (unfold add_counters; by rewrite Z.add_0_r).
  rewrite add_counters_add, Z.add_0_l in Hbody.
  destruct (Z.ltb_spec (cp_nodes p) (node_count st + 1)) as [H|H]; cbn [orb raise_if res_bind].
  { split; [done|]. intros (_ & -> & [Hc _]). cbn in Hc. lia. }
  destruct (Z.ltb_spec (cp_depth p) depth), (Z.leb_spec depth (cp_depth p)); try lia;
    cbn [raise_if res_bind andb]; [split; [done|by intros [? _]]|].
  apply Hbody. lia.
Qed.

(** A leaf is charged once. *)
Lemma leaf_copy st (v : pyval) n o :
  node_count st <= cp_nodes p →
  (let* st' := charge p st n in Ok (v, st')) = Ok o ↔ o = (v, add_counters st 0 n) ∧ charged p o.2.
Proof.
  intros Hst. rewrite res_bind_Ok. setoid_rewrite charge_Ok. unfold charged. split.
  - intros (a & (Hb & ->) & [= <-]). cbn. split; [done|]. lia.
  - intros (-> & Hc & Hb). cbn in *. eauto.
Qed.

Lemma is_ok_raise_if b e : is_ok (raise_if b e) = negb b.
Proof. by destruct b. Qed.

Lemma is_ok_bind {A} (r : res A) (k : res (pyval * counters)) o :
  (r ;;* k) = Ok o ↔ is_ok r = true ∧ k = Ok o.
Proof. destruct r; simpl; naive_solver. Qed.

(** An entry of an object, in either order. *)
Definition entry_step (depth : Z) (st : counters) (kv : pyval * pyval) : res ((pyval * pyval) * counters) :=
  raise_if (match kv.1 with VStr _ => false | _ => true end) TypeError ;;*
  if cp_child_first p then
    let* c := copy_inert p depth st kv.2 in
    let* k := copy_inert p depth c.2 kv.1 in
    Ok ((k.1, c.1), k.2)
  else
    let* k := copy_inert p depth st kv.1 in
    let* c := copy_inert p depth k.2 kv.2 in
    Ok ((k.1, c.1), c.2).

Lemma pair_copy {A B} (step1 : counters → A → res (A * counters)) (step2 : counters → B → res (B * counters))
    ok1 ok2 n1 n2 b1 b2 x y {C} (f : A → B → C) st out :
  0 <= n2 y → 0 <= b2 y → copies p step1 ok1 n1 b1 x → copies p step2 ok2 n2 b2 y →
  (let* r := step1 st x in let* s := step2 r.2 y in Ok (f r.1 s.1, s.2)) = Ok out ↔
  ok1 x && ok2 y = true ∧ out = (f x y, add_counters st (n1 x + n2 y) (b1 x + b2 y)) ∧ charged p out.2.
Proof.
  intros Hn Hb H1 H2. rewrite res_bind_Ok, andb_true_iff. split.
  - intros (r & (Ho & -> & _)%H1 & (s & (Ho' & -> & Hc)%H2 & [= <-])%res_bind_Ok). cbn [fst snd] in *.
    rewrite add_counters_add in *. done.
  - intros ((Ho & Ho') & -> & Hc). cbn [snd] in Hc. exists (x, add_counters st (n1 x) (b1 x)).
    split; [apply H1; repeat split; try done; unfold charged, add_counters in *; simpl in *; lia|].
    cbn [fst snd]. rewrite res_bind_Ok. eexists. split; [apply H2; split; [done|]; split; [reflexivity|]|];
      cbn [fst snd]; rewrite add_counters_add; done.
Qed.

Definition entry_ok (depth : Z) (kv : pyval * pyval) : bool :=
  is_str kv.1 && (inert_shape p depth kv.1 && inert_shape p depth kv.2).

Lemma entry_copy depth kv :
  copied depth kv.1 → copied depth kv.2 →
  copies p (entry_step depth) (entry_ok depth)
    (λ kv, inert_nodes kv.1 + inert_nodes kv.2) (λ kv, json_bytes kv.1 + json_bytes kv.2) kv.
Proof.
  destruct kv as [k v]. cbn [fst snd]. intros Hk Hv st out. unfold entry_step, entry_ok. cbn [fst snd].
  pose proof (inert_nodes_nonneg k). pose proof (inert_nodes_nonneg v).
  pose proof (json_bytes_nonneg k). pose proof (json_bytes_nonneg v).
  destruct (is_str k) eqn:Ek; destruct k as [| | | |k| | | |]; try discriminate Ek; cbn [raise_if res_bind andb];
    try (split; [done|by intros [? _]]).
  destruct (cp_child_first p).
  - rewrite (pair_copy _ _ _ _ inert_nodes inert_nodes json_bytes json_bytes v (VStr k) (λ x y, (y, x)) st out H H1 Hv Hk).
    by rewrite andb_comm, (Z.add_comm (inert_nodes v)), (Z.add_comm (json_bytes v)).
  - exact (pair_copy _ _ _ _ inert_nodes inert_nodes json_bytes json_bytes (VStr k) v pair st out H0 H2 Hk Hv).
Qed.

Lemma inert_nodes_list l : inert_nodes (VList l) = 1 + zsum (map inert_nodes l).
Proof. done. Qed.

Lemma inert_nodes_dict l : inert_nodes (VDict l) = 1 + zsum (map (λ kv, inert_nodes kv.1 + inert_nodes kv.2) l).
Proof. done. Qed.

(** With string keys the colons are the items. *)
Lemma dict_bytes depth l :
  forallb (entry_ok depth) l = true →
  json_bytes (VDict l) = 2 + Z.of_nat (length l) + Z.max 0 (Z.of_nat (length l) - 1) +
                         zsum (map (λ kv, json_bytes kv.1 + json_bytes kv.2) l).
Proof.
  intros H. cbn [json_bytes]. unfold punctuation.
  enough (E : zsum (map (λ kv, (match kv.1 with VStr k => serialized_length k + 1 | _ => 0 end) + json_bytes kv.2) l) =
              Z.of_nat (length l) + zsum (map (λ kv, json_bytes kv.1 + json_bytes kv.2) l)) by (rewrite E; lia).
  induction l as [|[k v] l IH]; [done|]. cbn [forallb] in H. apply andb_true_iff in H as [Hk Hl].
  cbn [map length fst snd]. rewrite !zsum_cons, (IH Hl). unfold entry_ok in Hk. cbn [fst snd] in *.
  destruct k; try done. cbn [json_bytes]. lia.
Qed.

(** A collection: its punctuation is charged, then its items. *)
Lemma collection_copy {A} (step : counters → A → res (A * counters)) ok n b (l : list A) (f : list A → pyval) m st o :
  (∀ x, 0 <= n x ∧ 0 <= b x) → 0 <= m → Forall (copies p step ok n b) l → node_count st <= cp_nodes p →
  (let* st' := charge p st m in let* r := copy_items step st' l in Ok (f r.1, r.2)) = Ok o ↔
  forallb ok l = true ∧ o = (f l, add_counters st (zsum (map n l)) (m + zsum (map b l))) ∧ charged p o.2.
Proof.
  intros Hnn Hm Hl Hst. rewrite res_bind_Ok. setoid_rewrite charge_Ok.
  pose proof (zsum_map_nonneg n l (λ x, proj1 (Hnn x))). pose proof (zsum_map_nonneg b l (λ x, proj2 (Hnn x))). split.
  - intros (a & (Hb & ->) & (r & Hr & [= <-])%res_bind_Ok).
    apply (copy_items_spec p step ok n b l Hnn Hl) in Hr as (Hok & -> & Hc); [|unfold charged; simpl; lia].
    cbn [fst snd] in *. rewrite add_counters_add in *. done.
  - intros (Hok & -> & Hc). cbn [snd] in Hc. assert (Hb : byte_count st + m <= cp_bytes p).
    { destruct Hc as [_ Hc]. cbn in Hc. lia. }
    exists (add_counters st 0 m). split; [done|]. rewrite res_bind_Ok. eexists. split.
    + apply (copy_items_spec p step ok n b l Hnn Hl); [unfold charged; simpl; lia|].
      split; [done|]. split; [reflexivity|]. cbn [snd]. by rewrite add_counters_add.
    + cbn [fst snd]. by rewrite add_counters_add.
Qed.

Lemma text_copy st s o :
  node_count st <= cp_nodes p →
  (let* st' := charge p st 2 in let* st'' := charge_text p st' s in Ok (VStr s, st'')) = Ok o ↔
  no_surrogate s = true ∧ o = (VStr s, add_counters st 0 (serialized_length s)) ∧ charged p o.2.
Proof.
  intros Hst. unfold serialized_length. pose proof (serialized_nonneg s). rewrite res_bind_Ok. split.
  - intros (a & (Hb & ->)%charge_Ok & (x & (Hs & Hz & ->)%charge_text_Ok & [= <-])%res_bind_Ok); [|done].
    rewrite add_counters_add. unfold charged. cbn in *. repeat split; [done|lia..].
  - intros (Hs & -> & _ & Hb). cbn in Hb. exists (add_counters st 0 2). split; [apply charge_Ok; split; [lia|done]|].
    rewrite res_bind_Ok. exists (add_counters (add_counters st 0 2) 0 (zsum (map serialized_width s))).
    split; [|by rewrite add_counters_add].
    apply charge_text_Ok; [cbn; lia|]. cbn [add_counters byte_count]. repeat split; [done|lia].
Qed.

Lemma list_copy depth l st o :
  Forall (copied depth) l → node_count st <= cp_nodes p →
  (raise_if (cp_list p <? Z.of_nat (length l)) ValueError ;;*
   let* st' := charge p st (2 + Z.max 0 (Z.of_nat (length l) - 1)) in
   let* r := copy_items (copy_inert p depth) st' l in Ok (VList r.1, r.2)) = Ok o ↔
  (Z.of_nat (length l) <=? cp_list p) && forallb (inert_shape p depth) l = true ∧
  o = (VList l, add_counters st (zsum (map inert_nodes l)) (json_bytes (VList l))) ∧ charged p o.2.
Proof.
  intros Hl Hst. rewrite is_ok_bind, andb_true_iff, is_ok_raise_if, <- Z.leb_antisym.
  rewrite (collection_copy _ (inert_shape p depth) inert_nodes json_bytes l VList); [|..|done]; [apply and_assoc| |lia|done].
  intros x. split; [apply inert_nodes_nonneg|apply json_bytes_nonneg].
Qed.

Lemma dict_copy depth l st o :
  Forall (λ kv, copied depth kv.1 ∧ copied depth kv.2) l → node_count st <= cp_nodes p →
  (raise_if (cp_dict p <? Z.of_nat (length l)) ValueError ;;*
   cp_keys p l ;;*
   let* st' := charge p st (2 + Z.of_nat (length l) + Z.max 0 (Z.of_nat (length l) - 1)) in
   let* r := copy_items (entry_step depth) st' l in Ok (VDict r.1, r.2)) = Ok o ↔
  (Z.of_nat (length l) <=? cp_dict p) && is_ok (cp_keys p l) && forallb (entry_ok depth) l = true ∧
  o = (VDict l, add_counters st (zsum (map (λ kv, inert_nodes kv.1 + inert_nodes kv.2) l)) (json_bytes (VDict l))) ∧
  charged p o.2.
Proof.
  intros Hl Hst. rewrite !is_ok_bind, !andb_true_iff, is_ok_raise_if, <- Z.leb_antisym.
  rewrite (collection_copy _ (entry_ok depth) (λ kv, inert_nodes kv.1 + inert_nodes kv.2)
             (λ kv, json_bytes kv.1 + json_bytes kv.2) l VDict); [|..|done].
  - split.
    + intros (Hd & Hk & He & -> & Hc). rewrite (dict_bytes depth l He) by done. done.
    + intros (((Hd & Hk) & He) & -> & Hc). rewrite (dict_bytes depth l He) in * by done. done.
  - intros [k v]. cbn [fst snd]. pose proof (inert_nodes_nonneg k). pose proof (inert_nodes_nonneg v).
    pose proof (json_bytes_nonneg k). pose proof (json_bytes_nonneg v). lia.
  - lia.
  - eapply Forall_impl; [done|]. intros kv [? ?]. by apply entry_copy.
Qed.

Lemma copy_inert_spec v : ∀ depth, copied depth v.
Proof.
  induction v as [|b|z|f|s|l IH|l IH|l IH|] using pyval_nested_ind; intros depth st out;
    cbn [copy_inert inert_shape].
  - apply (enter_copy _ _ _ (λ st, let* st' := charge p st 4 in Ok (VNone, st')) _ 0); [lia|].
    intros o Ho. rewrite leaf_copy by (cbn; lia). naive_solver.
  - apply (enter_copy _ _ _ (λ st, let* st' := charge p st (if b then 4 else 5) in Ok (VBool b, st')) _ 0); [lia|].
    intros o Ho. rewrite leaf_copy by (cbn; lia). naive_solver.
  - apply (enter_copy _ _ _ (λ st, cp_int p z ;;* let* st' := charge p st (Z.of_nat (length (int_str z))) in
                                   Ok (VInt z, st')) _ 0); [lia|].
    intros o Ho. rewrite is_ok_bind, leaf_copy by (cbn; lia). done.
  - apply (enter_copy _ _ _ (λ st, let* n := cp_float p f in let* st' := charge p st n in Ok (VFloat f, st')) _ 0); [lia|].
    intros o Ho. destruct (cp_float p f) as [n|e] eqn:E; cbn [res_bind is_ok]; [|split; [done|by intros [? _]]].
    destruct (Hfloat f n E) as (t & Ht & ->). rewrite leaf_copy by (cbn; lia). cbn [json_bytes]. rewrite Ht. naive_solver.
  - apply (enter_copy _ _ _ (λ st, cp_text p s ;;* let* st := charge p st 2 in let* st := charge_text p st s in
                                   Ok (VStr s, st)) _ 0); [lia|].
    intros o Ho. rewrite is_ok_bind, text_copy, andb_true_iff by (cbn; lia).
    change (json_bytes (VStr s)) with (serialized_length s). tauto.
  - rewrite inert_nodes_list. apply (enter_copy depth st (VList l) (λ st,
      raise_if (cp_list p <? Z.of_nat (length l)) ValueError ;;*
      let* st' := charge p st (2 + Z.max 0 (Z.of_nat (length l) - 1)) in
      let* r := copy_items (copy_inert p (depth + 1)) st' l in Ok (VList r.1, r.2))).
    { apply zsum_map_nonneg, inert_nodes_nonneg. }
    intros o Ho. apply list_copy; [|cbn; lia]. eapply Forall_impl; [done|]. auto.
  - rewrite andb_false_r. destruct (_ || _); cbn; by split; [|intros [? _]].
  - rewrite inert_nodes_dict, <- andb_assoc. apply (enter_copy depth st (VDict l) (λ st,
      raise_if (cp_dict p <? Z.of_nat (length l)) ValueError ;;*
      cp_keys p l ;;*
      let* st' := charge p st (2 + Z.of_nat (length l) + Z.max 0 (Z.of_nat (length l) - 1)) in
      let* r := copy_items (entry_step (depth + 1)) st' l in Ok (VDict r.1, r.2))).
    { apply zsum_map_nonneg. intros [k w]. pose proof (inert_nodes_nonneg k). pose proof (inert_nodes_nonneg w). simpl. lia. }
    intros o Ho. rewrite andb_assoc. apply dict_copy; [|cbn; lia]. eapply Forall_impl; [done|]. intros ? [? ?]. auto.
  - rewrite andb_false_r. destruct (_ || _); cbn; by split; [|intros [? _]].
Qed.

(** The contract of the traversal. *)
Lemma copy_inert_Ok v r :
  (let* out := copy_inert p 0 no_counters v in Ok out.1) = Ok r ↔
  r = v ∧ inert_shape p 0 v = true ∧ inert_nodes v <= cp_nodes p ∧ json_bytes v <= cp_bytes p.
Proof.
  rewrite res_bind_Ok. split.
  - intros (a & (Hs & -> & Hn & Hb)%copy_inert_spec & [= <-]). cbn in *. done.
  - intros (-> & Hs & Hn & Hb). exists (v, add_counters no_counters (inert_nodes v) (json_bytes v)).
    split; [apply copy_inert_spec; done|done].
Qed.

Lemma inert_shape_clean v depth : inert_shape p depth v = true → clean v = true.
Proof.
  revert depth; induction v as [|b|z|f|s|l IH|l IH|l IH|] using pyval_nested_ind; intros depth Hs; try done;
    cbn [inert_shape clean] in *; rewrite Forall_forall in IH || idtac; bool_inv; try done.
  - destruct (cp_float p f) eqn:E; [|done]. destruct (Hfloat _ _ E) as (t & -> & _). done.
  - apply forallb_elem. intros x Hx. apply (IH x Hx (depth + 1)). by eapply forallb_elem.
  - apply forallb_elem. intros [k w] Hx. destruct (IH _ Hx) as [IHk IHw]. cbn [fst snd] in *.
    match goal with H : forallb _ l = true |- _ => apply (proj1 (forallb_elem _ _) H) in Hx end.
    cbn [fst snd] in Hx. bool_inv. destruct k; try done.
    rewrite (IHw (depth + 1)) by done. rewrite andb_true_r. by apply (IHk (depth + 1)).
Qed.

(** A bounded copy returns the value itself, exactly when every check that the profile makes holds,
    its nodes with the keys of objects are within the bound, and so is its canonical text; the
    running charge is the length of that text, so the measure at the end adds nothing. *)
Lemma inert_copy_iff v r :
  limit_ok (cp_bytes p) →
  inert_copy p v = Ok r ↔
  r = v ∧ inert_shape p 0 v = true ∧ inert_nodes v <= cp_nodes p ∧ json_bytes v <= cp_bytes p.
Proof.
  intros Hlim. rewrite <- copy_inert_Ok. unfold inert_copy. rewrite !res_bind_Ok. split.
  - intros (out & Ho & (t & _ & (n & _ & [= <-])%res_bind_Ok)%res_bind_Ok). eauto.
  - intros (out & Ho & [= <-]). exists out. split; [done|].
    apply copy_inert_spec in Ho as (Hs & -> & _ & Hb). cbn [fst snd add_counters byte_count no_counters] in *.
    destruct (clean_json_text v) as (t & Ht & Hn & Hl); [by eapply inert_shape_clean|].
    rewrite Ht. cbn [res_bind].
    rewrite (proj2 (bounded_utf8_length_spec t (cp_bytes p) (json_bytes v))); [done|].
    rewrite Hl. repeat split; [done..|lia].
Qed.
End copy.

(** The two profiles charge floats as required. *)
Lemma supervisor_float limit f n :
  cp_float (supervisor_profile limit) f = Ok n → ∃ t, float_repr f = Some t ∧ n = Z.of_nat (length t).
Proof. done. Qed.

Lemma synthetic_float limit m f n :
  cp_float (synthetic_profile limit m) f = Ok n → ∃ t, float_repr f = Some t ∧ n = Z.of_nat (length t).
Proof. cbn. destruct (float_repr f) as [t|]; [|done]. intros [= <-]. eauto. Qed.
