(* ===== verification/Kernel.v ===== *)
(** * The bounded execution kernel

    [policy.py], [cache.py], [state.py], [invariants.py] and the reference executor of
    [reference_executor.py].  An executor method changes the executor and may then raise: the
    changes made before the exception stay.  So a method is a function from the executor to the
    new executor and a result.  The operation of a read is such a function too: it may call back
    into the same executor. *)

From Stdlib Require Import Ascii String.
From stdpp Require Import base list gmap.
From S2P Require Import Prelude PyStr PyNumber Sha256 Canonical Records.

(** ** Provider policy ([policy.py]) *)

(** [str.lower] on ASCII letters.  A letter outside ASCII never becomes one of the letters of
    [openai], so it is left as it is. *)
Definition lower (s : pystr) : pystr := map (λ c, if is_upper c then c + 32 else c) s.

Definition require_openai_remote_provider (provider : pystr) : res pystr :=
  let normalized := lower (strip provider) in
  raise_if (negb (bool_decide (normalized = u "openai"))) PolicyViolation ;;*
  Ok normalized.

(** ** Observation cache ([cache.py]) *)

Definition ObservationCache := gmap pystr pyval.

(** [get]: whether the key is present, and its value ([None] otherwise). *)
Definition cache_get (c : ObservationCache) (key : pystr) : bool * pyval :=
  match c !! key with
  | None => (false, VNone)
  | Some v => (true, v)
  end.

Definition cache_put (c : ObservationCache) (key : pystr) (v : pyval) : ObservationCache :=
  <[key := v]> c.

Definition cache_len (c : ObservationCache) : nat := size c.

(** ** Execution state ([state.py]) *)

Record ExecutionState := {
  requests : Z;
  executions : Z;
  cache_hits : Z;
  retries : Z;
  history : list pystr
}.

Definition initial_state : ExecutionState :=
  {| requests := 0; executions := 0; cache_hits := 0; retries := 0; history := [] |}.

Definition with_counters (s : ExecutionState) (dreq dexe dhit dret : Z) : ExecutionState := {|
  requests := requests s + dreq;
  executions := executions s + dexe;
  cache_hits := cache_hits s + dhit;
  retries := retries s + dret;
  history := history s
|}.

Definition append_history (s : ExecutionState) (fingerprint : pystr) (max_history : Z)
    : res ExecutionState :=
  raise_if (max_history <=? 0) ValueError ;;*
  Ok {| requests := requests s; executions := executions s; cache_hits := cache_hits s;
        retries := retries s;
        history := last_items max_history (history s ++ [fingerprint]) |}.

(** ** Budgets and cycles ([invariants.py]) *)

Definition MAX_RUNTIME_REQUESTS : Z := 1000000.
Definition MAX_RUNTIME_EXECUTIONS : Z := 4096.
Definition MAX_RUNTIME_RETRIES : Z := 1000000.
Definition MAX_RUNTIME_HISTORY : Z := 4096.

Record BudgetLimits := {
  max_requests : Z;
  max_executions : Z;
  max_retries : Z;
  max_history : Z
}.

Definition make_BudgetLimits (req exe ret hist : Z) : res BudgetLimits :=
  res_iter (λ '(value, hard_limit),
      raise_if (value <=? 0) ValueError ;;*
      raise_if (hard_limit <? value) ValueError)
    [(req, MAX_RUNTIME_REQUESTS); (exe, MAX_RUNTIME_EXECUTIONS);
     (ret, MAX_RUNTIME_RETRIES); (hist, MAX_RUNTIME_HISTORY)] ;;*
  Ok {| max_requests := req; max_executions := exe; max_retries := ret; max_history := hist |}.

Definition default_limits : BudgetLimits :=
  {| max_requests := 32; max_executions := 16; max_retries := 4; max_history := 32 |}.

Inductive violation := RequestBudget | ExecutionBudget | RetryBudget | HistoryBound.

Definition budget_violations (s : ExecutionState) (lim : BudgetLimits) : list violation :=
  (if max_requests lim <? requests s then [RequestBudget] else []) ++
  (if max_executions lim <? executions s then [ExecutionBudget] else []) ++
  (if max_retries lim <? retries s then [RetryBudget] else []) ++
  (if max_history lim <? Z.of_nat (length (history s)) then [HistoryBound] else []).

(** [history[-b:-a]] for positive [a < b <= len(history)]. *)
Definition slice_back {A} (l : list A) (b a : nat) : list A :=
  take (b - a) (drop (length l - b) l).

Fixpoint detect_from (h : list pystr) (period fuel : nat) : option nat :=
  match fuel with
  | O => None
  | S fuel' =>
      if (length h <? period * 2)%nat then detect_from h (S period) fuel'
      else if bool_decide (slice_back h (period * 2) period = slice_back h period 0) then Some period
      else detect_from h (S period) fuel'
  end.

(** [detect_short_cycle]: the periods 1 to [max_period] in turn. *)
Definition detect_short_cycle (h : list pystr) (max_period : nat) : option nat :=
  detect_from h 1 max_period.

(** ** The reference executor ([reference_executor.py]) *)

Record executor := {
  limits : BudgetLimits;
  cache : ObservationCache;
  state : ExecutionState
}.

(** A method: the executor afterwards and the value or exception. *)
Definition method (A : Type) : Type := executor → executor * res A.

Definition ret {A} (a : A) : method A := λ ex, (ex, Ok a).

Definition lift {A} (r : res A) : method A := λ ex, (ex, r).

Definition bind {A B} (m : method A) (k : A → method B) : method B := λ ex,
  match m ex with
  | (ex', Ok a) => k a ex'
  | (ex', Raise e) => (ex', Raise e)
  end.

Notation "'let!' x ':=' e 'in' k" := (bind e (fun x => k))
  (at level 200, x pattern, e at level 200, k at level 200).

Definition get_executor : method executor := λ ex, (ex, Ok ex).

Definition set_state (s : ExecutionState) : method unit := λ ex,
  ({| limits := limits ex; cache := cache ex; state := s |}, Ok tt).

Definition put_cache (key : pystr) (v : pyval) : method unit := λ ex,
  ({| limits := limits ex; cache := cache_put (cache ex) key v; state := state ex |}, Ok tt).

Definition new_executor (lim : BudgetLimits) : executor :=
  {| limits := lim; cache := ∅; state := initial_state |}.

Definition commit_state (candidate : ExecutionState) : method unit :=
  let! ex := get_executor in
  if nonempty (budget_violations candidate (limits ex)) then lift (Raise BudgetExceeded)
  else set_state candidate.

Definition transition_fingerprint (key : pystr) (v : pyval) : res pystr :=
  let* observation_fp := canonical_fingerprint v in
  canonical_fingerprint (obj [("observation", VStr observation_fp); ("tool_key", VStr key)]%string).

Definition execute_read (tool_name : pystr) (arguments : pyval) (dependency_fingerprint : pystr)
    (operation : method pyval) : method pyval :=
  let! key := lift (canonical_tool_key tool_name arguments dependency_fingerprint) in
  let! ex := get_executor in
  let! _ := commit_state (with_counters (state ex) 1 0 0 0) in
  let! ex := get_executor in
  let '(hit, value) := cache_get (cache ex) key in
  if hit then
    let! transition_fp := lift (transition_fingerprint key value) in
    let! ex := get_executor in
    let candidate := with_counters (state ex) 0 0 1 0 in
    let! candidate := lift (append_history candidate transition_fp (max_history (limits ex))) in
    let! _ := commit_state candidate in
    ret value
  else
    let! ex := get_executor in
    let! _ := commit_state (with_counters (state ex) 0 1 0 0) in
    let! value := operation in
    let! transition_fp := lift (transition_fingerprint key value) in
    let! _ := put_cache key value in
    let! ex := get_executor in
    let! candidate := lift (append_history (state ex) transition_fp (max_history (limits ex))) in
    let! _ := commit_state candidate in
    ret value.

Definition record_retry : method unit :=
  let! ex := get_executor in
  commit_state (with_counters (state ex) 0 0 0 1).

Definition terminal_cycle_period (ex : executor) : option nat :=
  detect_short_cycle (history (state ex)) 3.

Definition assert_no_terminal_cycle : method unit :=
  let! ex := get_executor in
  match terminal_cycle_period ex with
  | Some _ => lift (Raise CycleDetected)
  | None => ret tt
  end.

Definition metrics (ex : executor) : pyval :=
  obj [("cache_hits", VInt (cache_hits (state ex)));
       ("executions", VInt (executions (state ex)));
       ("requests", VInt (requests (state ex)));
       ("retries", VInt (retries (state ex)))]%string.
