(* ===== verification/KernelFacts.v ===== *)
(** * Properties of the bounded execution kernel

    Whatever calls an agent makes, in whatever order, nested in its own operations, and with
    whatever exceptions caught, the executor stays within its budgets; a key that was read once
    is never executed again; and the cycle detector finds exactly the shortest repeated suffix. *)

From Stdlib Require Import Ascii String.
From stdpp Require Import base list gmap fin_maps fin_map_dom.
From S2P Require Import Prelude PyStr PyNumber Sha256 Canonical Records Kernel.

(** ** Terminal cycles *)

(** [h] ends with two copies of a word of [p] items. *)
Definition repeats (h : list pystr) (p : nat) : Prop :=
  ∃ h0 w, h = h0 ++ w ++ w ∧ length w = p.

Lemma slice_back_repeats h p :
  (1 <= p)%nat → (p * 2 <= length h)%nat →
  slice_back h (p * 2) p = slice_back h p 0 ↔ repeats h p.
Proof.
  intros Hp Hlen. unfold slice_back. replace (p * 2 - p)%nat with p by lia. rewrite Nat.sub_0_r.
  rewrite (take_ge (drop (length h - p) h)) by (rewrite length_drop; lia). split.
  - intros E. exists (take (length h - p * 2) h), (drop (length h - p) h). split.
    + rewrite <- E at 1. rewrite <- (take_drop (length h - p * 2) h) at 1. f_equal.
      rewrite <- (take_drop p (drop (length h - p * 2) h)) at 1. f_equal.
      rewrite drop_drop. f_equal. lia.
    + rewrite length_drop. lia.
  - intros (h0 & w & -> & Hw). rewrite !length_app, Hw.
    replace (length h0 + (p + p) - p * 2)%nat with (length h0) by lia.
    replace (length h0 + (p + p) - p)%nat with (length h0 + p)%nat by lia.
    rewrite drop_app_length. rewrite take_app_length' by done.
    rewrite <- Hw, <- drop_drop, drop_app_length. by rewrite drop_app_length.
Qed.

Lemma repeats_length h p : repeats h p → (p * 2 <= length h)%nat.
Proof. intros (h0 & w & -> & Hw). rewrite !length_app. lia. Qed.

Lemma detect_from_Some h p fuel q :
  (1 <= p)%nat →
  detect_from h p fuel = Some q ↔
  (p <= q < p + fuel)%nat ∧ repeats h q ∧ ∀ r, (p <= r < q)%nat → ¬ repeats h r.
Proof.
  intros Hp.
  assert (Hstep : ∀ r, (1 <= r)%nat → ¬ repeats h r ∨ repeats h r) by
    (intros r Hr; destruct (decide (r * 2 <= length h)%nat);
     [rewrite <- slice_back_repeats by done; destruct (decide (slice_back h (r * 2) r = slice_back h r 0)); auto
     |left; intros ?%repeats_length; done]).
  revert p Hp; induction fuel as [|fuel IH]; intros p Hp; cbn [detect_from].
  { split; [done|lia]. }
  assert (Hskip : ¬ repeats h p → detect_from h (S p) fuel = Some q ↔
    (p <= q < p + S fuel)%nat ∧ repeats h q ∧ ∀ r, (p <= r < q)%nat → ¬ repeats h r).
  { intros Hno. rewrite IH by lia. split.
    - intros (? & ? & Hmin). split; [lia|]. split; [done|]. intros r Hr.
      destruct (decide (r = p)) as [->|]; [done|]. apply Hmin. lia.
    - intros (Hr & Hq & Hmin). assert (q ≠ p) by (by intros ->). split; [lia|]. split; [done|].
      intros r ?. apply Hmin. lia. }
  destruct (Nat.ltb_spec (length h) (p * 2)).
  { apply Hskip. intros ?%repeats_length. lia. }
  case_bool_decide as E; rewrite slice_back_repeats in E by done; [|by apply Hskip].
  split.
  - intros [= <-]. split; [lia|]. split; [done|lia].
  - intros (Hr & Hq & Hmin). f_equal. destruct (decide (p = q)); [done|]. destruct (Hmin p); [lia|done].
Qed.

Lemma detect_from_None h p fuel :
  (1 <= p)%nat →
  detect_from h p fuel = None ↔ ∀ r, (p <= r < p + fuel)%nat → ¬ repeats h r.
Proof.
  revert p; induction fuel as [|fuel IH]; intros p Hp; cbn [detect_from].
  { split; [lia|done]. }
  assert (Hskip : ¬ repeats h p → detect_from h (S p) fuel = None ↔
    ∀ r, (p <= r < p + S fuel)%nat → ¬ repeats h r).
  { intros Hno. rewrite IH by lia. split; intros Hall r Hr.
    - destruct (decide (r = p)) as [->|]; [done|]. apply Hall. lia.
    - apply Hall. lia. }
  destruct (Nat.ltb_spec (length h) (p * 2)).
  { apply Hskip. intros ?%repeats_length. lia. }
  case_bool_decide as E; rewrite slice_back_repeats in E by done; [|by apply Hskip].
  split; [done|]. intros Hall. by destruct (Hall p ltac:(lia)).
Qed.

(** ** Methods *)

Lemma bind_inv {A B} (m : method A) (k : A → method B) ex ex' r :
  bind m k ex = (ex', r) →
  (∃ a ex1, m ex = (ex1, Ok a) ∧ k a ex1 = (ex', r)) ∨
  (∃ e, m ex = (ex', Raise e) ∧ r = Raise e).
Proof. unfold bind. destruct (m ex) as [ex1 [a|e]] eqn:E; intros H; [left|right]; naive_solver. Qed.

(** A calling program: it may look at every result, catch exceptions, and its operations may
    call the executor again. *)
Inductive session :=
  | Finish (r : res pyval)
  | Read (tool_name : pystr) (arguments : pyval) (dependency : pystr) (operation : session)
      (k : res pyval → session)
  | Retry (k : res unit → session)
  | CheckCycle (k : res unit → session).

Fixpoint run (s : session) : method pyval :=
  match s with
  | Finish r => lift r
  | Read t a d op k => λ ex, let '(ex', r) := execute_read t a d (run op) ex in run (k r) ex'
  | Retry k => λ ex, let '(ex', r) := record_retry ex in run (k r) ex'
  | CheckCycle k => λ ex, let '(ex', r) := assert_no_terminal_cycle ex in run (k r) ex'
  end.

(** ** The budget invariant *)

Definition within_budget (lim : BudgetLimits) (s : ExecutionState) : Prop :=
  requests s <= max_requests lim ∧ executions s <= max_executions lim ∧
  retries s <= max_retries lim ∧ Z.of_nat (length (history s)) <= max_history lim.

Lemma budget_violations_nil s lim :
  nonempty (budget_violations s lim) = false ↔ within_budget lim s.
Proof.
  unfold budget_violations, within_budget.
  destruct (Z.ltb_spec (max_requests lim) (requests s)),
    (Z.ltb_spec (max_executions lim) (executions s)),
    (Z.ltb_spec (max_retries lim) (retries s)),
    (Z.ltb_spec (max_history lim) (Z.of_nat (length (history s)))); simpl; split; intros; try done; lia.
Qed.

(** Every request either executes, hits the cache, or is rejected; every history entry and
    every cached value was paid for by one of them. *)
Definition accounted (ex : executor) : Prop :=
  0 <= executions (state ex) ∧ 0 <= cache_hits (state ex) ∧ 0 <= retries (state ex) ∧
  executions (state ex) + cache_hits (state ex) <= requests (state ex) ∧
  Z.of_nat (length (history (state ex))) <= executions (state ex) + cache_hits (state ex) ∧
  Z.of_nat (size (cache ex)) <= executions (state ex).

Definition executor_ok (ex : executor) : Prop :=
  0 < max_history (limits ex) ∧ within_budget (limits ex) (state ex) ∧ accounted ex.

(** What a method may do to the counters: room once gained is kept. *)
Definition grows (ex ex' : executor) : Prop :=
  limits ex' = limits ex ∧
  requests (state ex) <= requests (state ex') ∧
  executions (state ex) <= executions (state ex') ∧
  cache_hits (state ex) <= cache_hits (state ex') ∧
  retries (state ex) <= retries (state ex') ∧
  executions (state ex) - Z.of_nat (size (cache ex)) <=
    executions (state ex') - Z.of_nat (size (cache ex')) ∧
  executions (state ex) + cache_hits (state ex) - Z.of_nat (length (history (state ex))) <=
    executions (state ex') + cache_hits (state ex') - Z.of_nat (length (history (state ex'))).

#[export] Instance grows_preorder : PreOrder grows.
Proof.
  split; unfold grows.
  - intros ex. split; [done|lia].
  - intros x y z (E1 & ?) (E2 & ?). split; [congruence|lia].
Qed.

Definition good {A} (m : method A) : Prop := ∀ ex, executor_ok ex →
  executor_ok (m ex).1 ∧ grows ex (m ex).1.

Lemma commit_state_inv s ex :
  commit_state s ex =
    if nonempty (budget_violations s (limits ex)) then (ex, Raise BudgetExceeded)
    else ({| limits := limits ex; cache := cache ex; state := s |}, Ok tt).
Proof. unfold commit_state, bind, get_executor. by destruct (nonempty _). Qed.

Lemma append_history_Ok s fp n : 0 < n →
  append_history s fp n =
    Ok {| requests := requests s; executions := executions s; cache_hits := cache_hits s;
          retries := retries s; history := last_items n (history s ++ [fp]) |}.
Proof. intros. unfold append_history. by replace (n <=? 0) with false by lia. Qed.

(** Committing a candidate that pays for what it records. *)
Lemma commit_good s ex :
  executor_ok ex →
  accounted {| limits := limits ex; cache := cache ex; state := s |} →
  grows ex {| limits := limits ex; cache := cache ex; state := s |} →
  executor_ok (commit_state s ex).1 ∧ grows ex (commit_state s ex).1.
Proof.
  intros (Hm & Hw & Ha) Ha' Hg. rewrite commit_state_inv. destruct (nonempty _) eqn:E; simpl.
  - split; [by split|done].
  - apply budget_violations_nil in E. by split.
Qed.

Lemma commit_ok s ex ex' u :
  commit_state s ex = (ex', Ok u) →
  within_budget (limits ex) s ∧ ex' = {| limits := limits ex; cache := cache ex; state := s |}.
Proof.
  rewrite commit_state_inv. destruct (nonempty _) eqn:E; [done|]. intros [= <- _].
  by apply budget_violations_nil in E.
Qed.

Lemma commit_fail s ex ex' e :
  commit_state s ex = (ex', Raise e) → ex' = ex ∧ e = BudgetExceeded ∧ ¬ within_budget (limits ex) s.
Proof.
  rewrite commit_state_inv. destruct (nonempty _) eqn:E; [|done]. intros [= <- <-].
  split; [done|]. split; [done|]. rewrite <- budget_violations_nil, E. done.
Qed.

(** ** One read, piece by piece *)

(** After the operation of a missed read. *)
Definition store_read (key : pystr) (value : pyval) : method pyval :=
  let! transition_fp := lift (transition_fingerprint key value) in
  let! _ := put_cache key value in
  let! ex := get_executor in
  let! candidate := lift (append_history (state ex) transition_fp (max_history (limits ex))) in
  let! _ := commit_state candidate in
  ret value.

Definition miss_read (key : pystr) (operation : method pyval) : method pyval :=
  let! ex := get_executor in
  let! _ := commit_state (with_counters (state ex) 0 1 0 0) in
  let! value := operation in
  store_read key value.

Definition hit_read (key : pystr) (value : pyval) : method pyval :=
  let! transition_fp := lift (transition_fingerprint key value) in
  let! ex := get_executor in
  let candidate := with_counters (state ex) 0 0 1 0 in
  let! candidate := lift (append_history candidate transition_fp (max_history (limits ex))) in
  let! _ := commit_state candidate in
  ret value.

Definition count_request (ex : executor) : executor :=
  {| limits := limits ex; cache := cache ex; state := with_counters (state ex) 1 0 0 0 |}.

Definition tool_key (t : pystr) (a : pyval) (d : pystr) : res pystr := canonical_tool_key t a d.

(** The branches of [execute_read]. *)
Lemma execute_read_eq t a d op ex :
  execute_read t a d op ex =
    match canonical_tool_key t a d with
    | Raise e => (ex, Raise e)
    | Ok key =>
        if nonempty (budget_violations (with_counters (state ex) 1 0 0 0) (limits ex))
        then (ex, Raise BudgetExceeded)
        else match cache ex !! key with
             | Some v => hit_read key v (count_request ex)
             | None => miss_read key op (count_request ex)
             end
    end.
Proof.
  unfold execute_read, bind at 1, lift at 1. destruct (canonical_tool_key t a d) as [key|e]; [|done].
  unfold bind at 1, get_executor at 1. unfold bind at 1. rewrite commit_state_inv.
  destruct (nonempty _); [done|]. unfold bind at 1, get_executor at 1. unfold cache_get. simpl.
  fold (count_request ex). by destruct (cache ex !! key).
Qed.

Lemma hit_read_eq key v ex :
  0 < max_history (limits ex) →
  hit_read key v ex =
    match transition_fingerprint key v with
    | Raise e => (ex, Raise e)
    | Ok fp =>
        let s := with_counters (state ex) 0 0 1 0 in
        let s' := {| requests := requests s; executions := executions s; cache_hits := cache_hits s;
                     retries := retries s;
                     history := last_items (max_history (limits ex)) (history s ++ [fp]) |} in
        match commit_state s' ex with
        | (ex', Ok _) => (ex', Ok v)
        | (ex', Raise e) => (ex', Raise e)
        end
    end.
Proof.
  intros Hm. unfold hit_read, bind at 1, lift at 1. destruct (transition_fingerprint key v); [|done].
  unfold bind at 1, get_executor. unfold bind at 1, lift. rewrite append_history_Ok by done.
  unfold bind at 1. by destruct (commit_state _ ex) as [? []].
Qed.

Lemma store_read_eq key v ex :
  0 < max_history (limits ex) →
  store_read key v ex =
    match transition_fingerprint key v with
    | Raise e => (ex, Raise e)
    | Ok fp =>
        let ex1 := {| limits := limits ex; cache := cache_put (cache ex) key v; state := state ex |} in
        let s := state ex in
        let s' := {| requests := requests s; executions := executions s; cache_hits := cache_hits s;
                     retries := retries s;
                     history := last_items (max_history (limits ex)) (history s ++ [fp]) |} in
        match commit_state s' ex1 with
        | (ex', Ok _) => (ex', Ok v)
        | (ex', Raise e) => (ex', Raise e)
        end
    end.
Proof.
  intros Hm. unfold store_read, bind at 1, lift at 1. destruct (transition_fingerprint key v); [|done].
  unfold bind at 1, put_cache. unfold bind at 1, get_executor. unfold bind at 1, lift. simpl.
  rewrite append_history_Ok by done. unfold bind at 1. by destruct (commit_state _ _) as [? []].
Qed.

Lemma cache_put_size c key v : (size (cache_put c key v) <= S (size c))%nat.
Proof.
  unfold cache_put, ObservationCache in *. destruct (c !! key) eqn:E.
  - rewrite map_size_insert_Some; [lia|by eexists].
  - by rewrite map_size_insert_None.
Qed.

(** The history of a candidate that adds one transition is within its bound. *)
Lemma last_items_bound {A} n (l : list A) x :
  0 < n → Z.of_nat (length (last_items n (l ++ [x]))) <= n ∧
  Z.of_nat (length (last_items n (l ++ [x]))) <= Z.of_nat (length l) + 1.
Proof. intros. rewrite length_last_items, length_app by done. simpl. lia. Qed.

Lemma hit_read_good key v ex :
  executor_ok ex → executions (state ex) + cache_hits (state ex) < requests (state ex) →
  executor_ok (hit_read key v ex).1 ∧ grows ex (hit_read key v ex).1.
Proof.
  intros Hok Hroom. pose proof Hok as (Hm & Hw & Ha). rewrite hit_read_eq by done.
  destruct (transition_fingerprint key v) as [fp|e]; [|done]. cbv zeta.
  pose proof (last_items_bound _ (history (state ex)) fp Hm).
  match goal with |- context [commit_state ?s ex] => set (s' := s) end.
  destruct (commit_good s' ex Hok) as [H1 H2].
  - unfold accounted in *. simpl. lia.
  - split; [done|]. unfold accounted in *. simpl. lia.
  - destruct (commit_state s' ex) as [ex' []]; done.
Qed.

Lemma store_read_good key v ex ex0 :
  executor_ok ex → grows ex0 ex →
  executions (state ex0) - Z.of_nat (size (cache ex0)) < executions (state ex) - Z.of_nat (size (cache ex)) →
  executions (state ex0) + cache_hits (state ex0) - Z.of_nat (length (history (state ex0))) <
    executions (state ex) + cache_hits (state ex) - Z.of_nat (length (history (state ex))) →
  executor_ok ex0 →
  executor_ok (store_read key v ex).1 ∧ grows ex0 (store_read key v ex).1.
Proof.
  intros Hok Hg Hc Hh Hok0. pose proof Hok as (Hm & Hw & Ha). rewrite store_read_eq by done.
  destruct (transition_fingerprint key v) as [fp|e]; [|done]. cbv zeta.
  pose proof (last_items_bound _ (history (state ex)) fp Hm).
  pose proof (cache_put_size (cache ex) key v). destruct Hok0 as (Hm0 & Hw0 & Ha0).
  unfold executor_ok, within_budget, accounted, grows in *.
  rewrite commit_state_inv. destruct (nonempty _) eqn:E; simpl in *.
  - split; [lia|]. split; [apply Hg|lia].
  - apply budget_violations_nil in E. unfold within_budget in E. simpl in E.
    split; [lia|]. split; [apply Hg|lia].
Qed.

Lemma miss_read_eq key op ex :
  miss_read key op ex =
    match commit_state (with_counters (state ex) 0 1 0 0) ex with
    | (ex', Raise e) => (ex', Raise e)
    | (ex', Ok _) =>
        match op ex' with
        | (ex'', Raise e) => (ex'', Raise e)
        | (ex'', Ok v) => store_read key v ex''
        end
    end.
Proof.
  unfold miss_read, bind at 1, get_executor. unfold bind at 1.
  destruct (commit_state _ ex) as [ex' []]; [|done]. unfold bind at 1. by destruct (op ex') as [? []].
Qed.

Lemma miss_read_good key op ex :
  good op → executor_ok ex → executions (state ex) + cache_hits (state ex) < requests (state ex) →
  executor_ok (miss_read key op ex).1 ∧ grows ex (miss_read key op ex).1.
Proof.
  intros Hop Hok Hroom. rewrite miss_read_eq.
  pose proof (commit_good (with_counters (state ex) 0 1 0 0) ex Hok) as Hc.
  destruct (commit_state _ ex) as [ex' [[]|e]] eqn:E.
  2: { apply commit_fail in E as (-> & _). done. }
  destruct Hc as [Hok' Hg'].
  { destruct Hok as (_ & _ & Ha). unfold accounted in *. simpl. lia. }
  { split; [done|]. simpl. lia. }
  cbn [fst] in *. apply commit_ok in E as [_ ->].
  destruct (Hop _ Hok') as [Hok'' Hg'']. destruct (op _) as [ex'' [v|e]]; cbn [fst] in *.
  - unfold grows in Hg''. simpl in Hg''. apply store_read_good; try done.
    + split; [apply Hg''|lia].
    + lia.
    + lia.
  - split; [done|]. by etransitivity.
Qed.

Lemma count_request_ok ex :
  executor_ok ex →
  nonempty (budget_violations (with_counters (state ex) 1 0 0 0) (limits ex)) = false →
  executor_ok (count_request ex) ∧ grows ex (count_request ex) ∧
  executions (state (count_request ex)) + cache_hits (state (count_request ex))
    < requests (state (count_request ex)).
Proof.
  intros (Hm & Hw & Ha) Hb%budget_violations_nil. unfold accounted in Ha.
  split; [|split; [split; [done|simpl; lia]|simpl; lia]].
  split; [done|]. split; [done|]. unfold accounted. simpl. lia.
Qed.

Lemma execute_read_good t a d op : good op → good (execute_read t a d op).
Proof.
  intros Hop ex Hok. rewrite execute_read_eq.
  destruct (canonical_tool_key t a d) as [key|e]; [|done].
  destruct (nonempty _) eqn:E; [done|].
  destruct (count_request_ok ex Hok E) as (Hok' & Hg & Hroom).
  destruct (cache ex !! key) as [v|].
  - destruct (hit_read_good key v (count_request ex) Hok' Hroom). split; [done|]. by etransitivity.
  - destruct (miss_read_good key op (count_request ex) Hop Hok' Hroom). split; [done|]. by etransitivity.
Qed.

Lemma record_retry_good : good record_retry.
Proof.
  intros ex Hok. unfold record_retry, bind, get_executor. apply commit_good; [done| |].
  - destruct Hok as (_ & _ & Ha). unfold accounted in *. simpl. lia.
  - split; [done|]. simpl. lia.
Qed.

Lemma assert_no_terminal_cycle_good : good assert_no_terminal_cycle.
Proof.
  intros ex Hok. unfold assert_no_terminal_cycle, bind, get_executor.
  by destruct (terminal_cycle_period ex).
Qed.

Lemma run_good s : good (run s).
Proof.
  induction s as [r|t a d op IHop k IHk|k IHk|k IHk]; intros ex Hok; cbn [run]; [done|..].
  - destruct (execute_read_good t a d _ IHop ex Hok) as [Hok' Hg].
    destruct (execute_read t a d (run op) ex) as [ex' r]. destruct (IHk r ex' Hok').
    split; [done|]. by etransitivity.
  - destruct (record_retry_good ex Hok) as [Hok' Hg].
    destruct (record_retry ex) as [ex' r]. destruct (IHk r ex' Hok'). split; [done|]. by etransitivity.
  - destruct (assert_no_terminal_cycle_good ex Hok) as [Hok' Hg].
    destruct (assert_no_terminal_cycle ex) as [ex' r]. destruct (IHk r ex' Hok').
    split; [done|]. by etransitivity.
Qed.

Lemma make_BudgetLimits_pos req exe rt hist lim :
  make_BudgetLimits req exe rt hist = Ok lim →
  0 < max_requests lim ∧ 0 < max_executions lim ∧ 0 < max_retries lim ∧ 0 < max_history lim.
Proof.
  unfold make_BudgetLimits. intros H. res_inv. cbn [res_iter] in *. res_inv. subst. simpl. bool_inv. lia.
Qed.

Lemma new_executor_ok req exe rt hist lim :
  make_BudgetLimits req exe rt hist = Ok lim → executor_ok (new_executor lim).
Proof.
  intros H%make_BudgetLimits_pos. unfold executor_ok, within_budget, accounted. simpl.
  change (size (∅ : ObservationCache)) with 0%nat. lia.
Qed.

(** A read that succeeded left its value in the cache, and its transition can be committed. *)
Lemma execute_read_Ok t a d op ex ex' v :
  0 < max_history (limits ex) → good op → executor_ok ex →
  execute_read t a d op ex = (ex', Ok v) →
  ∃ key fp, canonical_tool_key t a d = Ok key ∧ cache ex' !! key = Some v ∧
    transition_fingerprint key v = Ok fp.
Proof.
  intros Hm Hop Hok. rewrite execute_read_eq. destruct (canonical_tool_key t a d) as [key|e]; [|done].
  destruct (nonempty _) eqn:Eb; [done|]. destruct (count_request_ok ex Hok Eb) as (Hok' & _).
  destruct (cache ex !! key) as [w|] eqn:Ec.
  - rewrite hit_read_eq by done. destruct (transition_fingerprint key w) as [fp|] eqn:Ef; [|done].
    cbv zeta. destruct (commit_state _ _) as [ex2 [[]|]] eqn:E; [|done].
    intros [= <- <-]. apply commit_ok in E as [_ ->]. eauto.
  - rewrite miss_read_eq. destruct (commit_state _ _) as [ex2 [[]|]] eqn:E; [|done].
    destruct (commit_good (with_counters (state (count_request ex)) 0 1 0 0) _ Hok') as [Hok2 _].
    { destruct Hok as (_ & _ & Ha). unfold accounted in *. simpl. lia. }
    { split; [done|]. simpl. lia. }
    rewrite E in Hok2. simpl in Hok2. destruct (Hop _ Hok2) as [(Hm3 & _) _].
    destruct (op ex2) as [ex3 [w|]]; [|done]. cbn [fst] in Hm3. rewrite store_read_eq by done.
    destruct (transition_fingerprint key w) as [fp|] eqn:Ef; [|done].
    cbv zeta.
    match goal with |- context [commit_state ?s ?e] => destruct (commit_state s e) as [ex4 [[]|]] eqn:E4 end;
      [|done].
    intros [= <- <-]. apply commit_ok in E4 as [_ ->]. exists key, fp. split; [done|]. split; [|done].
    simpl. unfold cache_put. apply lookup_insert_eq.
Qed.

(** Reading a cached key: no execution, same cache, the operation plays no role. *)
Lemma execute_read_cached t a d op ex key v fp :
  executor_ok ex → canonical_tool_key t a d = Ok key → cache ex !! key = Some v →
  transition_fingerprint key v = Ok fp →
  (execute_read t a d op ex).2 =
    (if requests (state ex) <? max_requests (limits ex) then Ok v else Raise BudgetExceeded) ∧
  cache (execute_read t a d op ex).1 = cache ex ∧
  executions (state (execute_read t a d op ex).1) = executions (state ex).
Proof.
  intros (Hm & Hw & Ha) Hk Hc Hf. rewrite execute_read_eq, Hk.
  destruct (nonempty _) eqn:Eb.
  - destruct (Z.ltb_spec (requests (state ex)) (max_requests (limits ex))); [|done].
    exfalso. assert (Hn : within_budget (limits ex) (with_counters (state ex) 1 0 0 0)).
    { unfold within_budget in *. simpl. lia. }
    apply budget_violations_nil in Hn. congruence.
  - rewrite Hc, hit_read_eq, Hf by done. cbv zeta. apply budget_violations_nil in Eb.
    pose proof (last_items_bound _ (history (state ex)) fp Hm).
    rewrite commit_state_inv. simpl. unfold within_budget in Eb. simpl in Eb.
    match goal with |- context [nonempty ?b] => replace (nonempty b) with false end.
    + simpl. replace (requests (state ex) <? max_requests (limits ex)) with true by lia.
      split; [done|]. split; [done|]. lia.
    + symmetry. apply budget_violations_nil. unfold within_budget. simpl. lia.
Qed.

(** ** Properties *)

(** C36.  Whatever program runs against a new executor (nested calls, caught exceptions), the
    executor ends within every budget, and its counters account for each other: executions and
    cache hits are paid by requests, history entries and cached values by executions and hits. *)
Theorem session_within_budget req exe rt hist lim s :
  make_BudgetLimits req exe rt hist = Ok lim →
  let ex := (run s (new_executor lim)).1 in
  limits ex = lim ∧ within_budget lim (state ex) ∧ accounted ex.
Proof.
  intros H%new_executor_ok. destruct (run_good s _ H) as [(_ & Hw & Ha) [Hl _]].
  cbv zeta. rewrite Hl in Hw. done.
Qed.

Lemma session_within_budget_witness :
  let s := Read (u "read") VNone (u "d") (Finish (Ok (VInt 1)))
             (λ _, Retry (λ _, Read (u "read") VNone (u "d") (Finish (Raise KeyError)) Finish)) in
  let ex := (run s (new_executor default_limits)).1 in
  limits ex = default_limits ∧ within_budget default_limits (state ex) ∧ accounted ex.
Proof. intros s. by apply (session_within_budget 32 16 4 32 default_limits s). Defined.

(** Execute once: after a read succeeded, a second read of the same call returns the same
    value without running its operation, whatever that operation is; only the request budget
    can stop it, and no execution is charged. *)
Theorem repeated_read_is_cached t a d ops ex ex' v op2 :
  executor_ok ex →
  execute_read t a d (run ops) ex = (ex', Ok v) →
  (execute_read t a d op2 ex').2 =
    (if requests (state ex') <? max_requests (limits ex') then Ok v else Raise BudgetExceeded) ∧
  cache (execute_read t a d op2 ex').1 = cache ex' ∧
  executions (state (execute_read t a d op2 ex').1) = executions (state ex').
Proof.
  intros Hok Hr. pose proof Hok as (Hm & _).
  destruct (execute_read_Ok t a d _ ex ex' v Hm (run_good ops) Hok Hr) as (key & fp & Hk & Hc & Hf).
  destruct (execute_read_good t a d _ (run_good ops) ex Hok) as [Hok' _]. rewrite Hr in Hok'.
  by apply (execute_read_cached t a d op2 ex' key v fp).
Qed.

Lemma repeated_read_is_cached_witness :
  let ex := new_executor default_limits in
  let ex' := (execute_read (u "read") VNone (u "d") (run (Finish (Ok (VInt 7)))) ex).1 in
  (execute_read (u "read") VNone (u "d") (lift (Raise KeyError)) ex').2 = Ok (VInt 7).
Proof.
  intros ex ex'.
  destruct (repeated_read_is_cached (u "read") VNone (u "d") (Finish (Ok (VInt 7))) ex ex' (VInt 7)
    (lift (Raise KeyError))) as [H _].
  - unfold executor_ok, within_budget, accounted. vm_compute. repeat split; discriminate.
  - vm_compute. reflexivity.
  - rewrite H. vm_compute. reflexivity.
Defined.

(** The cycle detector returns the shortest period up to its maximum with which the history
    ends twice, and nothing exactly when there is none. *)
Theorem detect_short_cycle_shortest h max_period :
  (∀ p, detect_short_cycle h max_period = Some p ↔
    (1 <= p <= max_period)%nat ∧ repeats h p ∧ ∀ q, (1 <= q < p)%nat → ¬ repeats h q) ∧
  (detect_short_cycle h max_period = None ↔
    ∀ p, (1 <= p <= max_period)%nat → ¬ repeats h p).
Proof.
  unfold detect_short_cycle. split.
  - intros p. rewrite detect_from_Some by lia.
    split; intros (? & ? & ?); (split; [lia|done]).
  - rewrite detect_from_None by lia. split; intros H p Hp; apply H; lia.
Qed.
