(* ===== verification/KahnFacts.v ===== *)
(** * Properties of the topological sort *)

From Stdlib Require Import Ascii String Sorting.
From stdpp Require Import base list sets gmap relations.
From S2P Require Import Prelude PyStr Kahn.

(** Distinct nodes, each with distinct known dependencies. *)
Definition closed (g : graph) : Prop :=
  NoDup (map fst g) ∧ ∀ x ds, (x, ds) ∈ g → NoDup ds ∧ ∀ d, d ∈ ds → d ∈ map fst g.

(** [x] depends on [d]. *)
Definition edge (g : graph) (x d : pystr) : Prop := ∃ ds, (x, ds) ∈ g ∧ d ∈ ds.

Definition acyclic (g : graph) : Prop := ∀ x, ¬ tc (edge g) x x.

(** [x] is a node whose dependencies are all in [vis]. *)
Definition enabled (g : graph) (vis : list pystr) (x : pystr) : Prop :=
  ∃ ds, (x, ds) ∈ g ∧ ∀ d, d ∈ ds → d ∈ vis.

(** Each node of the order is the least one that was enabled and not visited yet. *)
Definition greedy (g : graph) (order : list pystr) : Prop :=
  ∀ v1 x v2, order = v1 ++ x :: v2 →
    x ∉ v1 ∧ enabled g v1 x ∧ ∀ y, y ∉ v1 → enabled g v1 y → pystr_le x y.

Section kahn.
  Context (g : graph) (Hg : closed g).

Lemma graph_unique x ds1 ds2 : (x, ds1) ∈ g → (x, ds2) ∈ g → ds1 = ds2.
Proof.
  destruct Hg as [Hnd _]. intros H1%(dict_of_lookup g x ds1 Hnd) H2%(dict_of_lookup g x ds2 Hnd).
  congruence.
Qed.

Lemma elem_fst (x : pystr) {V} (l : list (pystr * V)) : x ∈ map fst l ↔ ∃ v, (x, v) ∈ l.
Proof.
  rewrite list_elem_of_In, in_map_iff. setoid_rewrite <- list_elem_of_In. split.
  - intros ([? v] & <- & ?). eauto.
  - intros [v ?]. by exists (x, v).
Qed.

(** ** The dictionary of dependents *)

Definition dependents_of (l : graph) (d : pystr) : list pystr :=
  map fst (filter (λ n, d ∈ n.2) l).

Lemma dependents_of_app l1 l2 d : dependents_of (l1 ++ l2) d = dependents_of l1 d ++ dependents_of l2 d.
Proof. unfold dependents_of. by rewrite filter_app, map_app. Qed.

Lemma elem_dependents_of l d y : y ∈ dependents_of l d ↔ ∃ ds, (y, ds) ∈ l ∧ d ∈ ds.
Proof.
  unfold dependents_of. rewrite elem_fst. setoid_rewrite list_elem_of_filter. naive_solver.
Qed.

Lemma append_dependents x ds m :
  NoDup ds → (∀ d, d ∈ ds → is_Some (m !! d)) →
  ∃ m', res_fold (λ m d, let* l := dict_get m d in Ok (<[d := l ++ [x]]> m)) m ds = Ok m' ∧
    ∀ d, m' !! d = (λ l, if decide (d ∈ ds) then l ++ [x] else l) <$> (m !! d : option (list pystr)).
Proof.
  revert m; induction ds as [|d ds IH]; intros m Hnd Hm; cbn [res_fold].
  { exists m. split; [done|]. intros d. by destruct (m !! d). }
  inversion Hnd as [|? ? Hd Hnd']; subst. destruct (Hm d) as [l Hl]; [set_solver|].
  unfold dict_get at 1. rewrite Hl. cbn [res_bind].
  destruct (IH (<[d:=l ++ [x]]> m)) as (m' & Hm' & Hspec); [done| |].
  { intros d' Hd'. destruct (decide (d = d')) as [<-|]; [rewrite lookup_insert_eq; eauto|].
    rewrite lookup_insert_ne by done. apply Hm. set_solver. }
  exists m'. split; [done|]. intros d'. rewrite Hspec. destruct (decide (d = d')) as [<-|].
  - rewrite lookup_insert_eq, Hl. simpl. rewrite decide_False by done. rewrite decide_True by set_solver.
    done.
  - rewrite lookup_insert_ne by done. destruct (m !! d'); [|done]. simpl.
    destruct (decide (d' ∈ ds)), (decide (d' ∈ d :: ds)); set_solver.
Qed.

Lemma build_dependents_spec :
  ∃ m, build_dependents g = Ok m ∧ ∀ d, d ∈ map fst g → m !! d = Some (dependents_of g d).
Proof.
  unfold build_dependents. destruct Hg as [Hnd Hds].
  set (m0 := dict_of _). set (step := λ m n, res_fold _ m _).
  assert (H : ∀ g1 g2, g = g1 ++ g2 → ∃ m, res_fold step m0 g1 = Ok m ∧
    ∀ d, d ∈ map fst g → m !! d = Some (dependents_of g1 d)).
  { induction g1 as [|[x ds] g1 IH] using rev_ind; intros g2 Heq.
    - exists m0. split; [done|]. intros d Hd. unfold m0.
      apply dict_of_lookup; [by rewrite map_map|]. apply elem_fst in Hd as [ds Hd].
      apply list_elem_of_In, in_map_iff. exists (d, ds). split; [done|]. by apply list_elem_of_In.
    - rewrite <- app_assoc in Heq. destruct (IH _ Heq) as (m & Hm & Hspec).
      rewrite res_fold_app, Hm. cbn [res_bind res_fold].
      destruct (Hds x ds) as [Hnds Hin]; [rewrite Heq; set_solver|].
      destruct (append_dependents x ds m Hnds) as (m' & Hm' & Hspec').
      { intros d Hd. rewrite Hspec; eauto. }
      exists m'. unfold step at 1. cbn [fst snd]. rewrite Hm'. split; [done|].
      intros d Hd. rewrite Hspec', Hspec, dependents_of_app by done. simpl.
      unfold dependents_of at 3. cbn. destruct (decide (d ∈ ds)); [done|]. by rewrite app_nil_r. }
  apply (H g []). by rewrite app_nil_r.
Qed.

Lemma filter_map_NoDup {A} (P : A → Prop) `{∀ x, Decision (P x)} (f : A → pystr) l :
  NoDup (map f l) → NoDup (map f (filter P l)).
Proof.
  induction l as [|x l IH]; cbn [map]; [constructor|]. intros Hnd. inversion Hnd; subst.
  rewrite filter_cons. case_decide; [|auto]. cbn [map]. constructor; [|auto].
  intros Hin. apply list_elem_of_In, in_map_iff in Hin as (y & Hy & Hin%list_elem_of_In).
  apply list_elem_of_filter in Hin as [_ Hin]. apply H2. rewrite <- Hy. by apply (list_elem_of_fmap_2 f).
Qed.

Lemma dependents_of_NoDup d : NoDup (dependents_of g d).
Proof. apply filter_map_NoDup, Hg. Qed.

(** ** Releasing the dependents of a visited node *)

Definition released (D : list pystr) (indegree : gmap pystr Z) (y : pystr) : option Z :=
  (λ n, if decide (y ∈ D) then n - 1 else n) <$> indegree !! y.

Lemma heappush_perm heap x : heappush heap x ≡ₚ x :: heap.
Proof. apply insert_by_perm. Qed.

Lemma release_spec D indegree ready :
  NoDup D → (∀ y, y ∈ D → is_Some (indegree !! y)) →
  ∃ indegree' ready',
    release (indegree, ready) D = Ok (indegree', ready') ∧
    (∀ y, indegree' !! y = released D indegree y) ∧
    ready' ≡ₚ filter (λ y, indegree !! y = Some 1) D ++ ready ∧
    (StronglySorted (key_le id) ready → StronglySorted (key_le id) ready').
Proof.
  unfold release. revert indegree ready; induction D as [|d D IH]; intros indegree ready Hnd Hin; cbn [res_fold].
  { exists indegree, ready. split; [done|]. split; [|done].
    intros y. unfold released. by destruct (indegree !! y). }
  inversion Hnd as [|? ? Hd Hnd']; subst. destruct (Hin d) as [n Hn]; [set_solver|].
  unfold dict_get at 1. rewrite Hn. cbn [res_bind].
  destruct (IH (<[d:=n - 1]> indegree) (if n - 1 =? 0 then heappush ready d else ready) Hnd')
    as (ind' & ready' & Hr & Hi & Hp & Hs).
  { intros y Hy. destruct (decide (d = y)) as [<-|]; [rewrite lookup_insert_eq; eauto|].
    rewrite lookup_insert_ne by done. apply Hin. set_solver. }
  exists ind', ready'. rewrite Hr. split; [done|]. split; [|split].
  - intros y. rewrite Hi. unfold released. destruct (decide (d = y)) as [<-|].
    + rewrite lookup_insert_eq, Hn. simpl. rewrite decide_False by done. rewrite decide_True by set_solver. done.
    + rewrite lookup_insert_ne by done. destruct (indegree !! y); [|done]. simpl.
      destruct (decide (y ∈ D)), (decide (y ∈ d :: D)); set_solver.
  - rewrite Hp, filter_cons, Hn.
    replace (filter (λ y, <[d:=n - 1]> indegree !! y = Some 1) D)
      with (filter (λ y, indegree !! y = Some 1) D).
    + destruct (Z.eqb_spec (n - 1) 0).
      * rewrite decide_True by (f_equal; lia). rewrite heappush_perm. symmetry. apply Permutation_middle.
      * rewrite decide_False by (intros [= ->]; lia). done.
    + apply filter_ext_elem. intros y Hy. by rewrite lookup_insert_ne by (by intros ->).
  - intros Hsorted. apply Hs. destruct (n - 1 =? 0); [|done]. by apply insert_by_sorted.
Qed.

(** ** The loop invariant *)

Definition remaining (vis ds : list pystr) : Z := Z.of_nat (length (filter (λ d, d ∉ vis) ds)).

Lemma remaining_snoc vis x ds :
  NoDup ds → x ∉ vis →
  remaining (vis ++ [x]) ds = remaining vis ds - (if decide (x ∈ ds) then 1 else 0).
Proof.
  unfold remaining. intros Hnd Hx. induction Hnd as [|d ds Hd Hnd IH]; [done|].
  rewrite !filter_cons. destruct (decide (d = x)) as [->|Hne].
  - rewrite (decide_False (P:=x ∉ vis ++ [x])) by set_solver. rewrite (decide_True (P:=x ∉ vis)) by done.
    rewrite decide_True by set_solver. rewrite IH, decide_False by done. simpl. lia.
  - replace (decide (x ∈ d :: ds)) with (decide (x ∈ d :: ds)) by done.
    assert (Hiff : x ∈ d :: ds ↔ x ∈ ds) by set_solver.
    replace (if decide (x ∈ d :: ds) then 1 else 0) with (if decide (x ∈ ds) then 1 else 0)
      by (destruct (decide (x ∈ ds)), (decide (x ∈ d :: ds)); tauto || done).
    destruct (decide (d ∉ vis)).
    + rewrite decide_True by set_solver. cbn [length]. lia.
    + rewrite decide_False by set_solver. done.
Qed.

Lemma remaining_zero vis ds : remaining vis ds = 0 ↔ ∀ d, d ∈ ds → d ∈ vis.
Proof.
  unfold remaining. induction ds as [|d ds IH]; [set_solver|]. rewrite filter_cons. case_decide as H.
  - cbn [length]. split; [lia|]. intros Hall. destruct H. apply Hall. set_solver.
  - rewrite IH. set_solver.
Qed.

Record loop_inv (indegree : gmap pystr Z) (ready vis : list pystr) : Prop := {
  inv_nodup : NoDup (vis ++ ready);
  inv_sorted : StronglySorted (key_le id) ready;
  inv_degree : ∀ x ds, (x, ds) ∈ g → indegree !! x = Some (remaining vis ds);
  inv_enabled : ∀ x, x ∈ vis ++ ready ↔ enabled g vis x;
  inv_greedy : greedy g vis
}.

Lemma greedy_snoc vis x :
  greedy g vis → x ∉ vis → enabled g vis x →
  (∀ y, y ∉ vis → enabled g vis y → pystr_le x y) → greedy g (vis ++ [x]).
Proof.
  intros Hv Hx He Hmin v1 y v2 Heq. destruct v2 as [|z v2 _] using rev_ind.
  - apply app_inj_tail in Heq as [-> ->]. done.
  - change (v1 ++ y :: v2 ++ [z]) with (v1 ++ (y :: v2) ++ [z]) in Heq. rewrite app_assoc in Heq.
    apply app_inj_tail in Heq as [-> ->]. by apply (Hv v1 y v2).
Qed.

Lemma enabled_node vis x : enabled g vis x → x ∈ map fst g.
Proof. intros (ds & Hin & _). apply elem_fst. eauto. Qed.

Lemma loop_step dependents indegree x ready vis :
  (∀ d, d ∈ map fst g → dependents !! d = Some (dependents_of g d)) →
  loop_inv indegree (x :: ready) vis →
  ∃ ids indegree' ready',
    dict_get dependents x = Ok ids ∧
    release (indegree, ready) (sorted ids) = Ok (indegree', ready') ∧
    loop_inv indegree' ready' (vis ++ [x]).
Proof.
  intros Hdep [Hnd Hs Hdeg Hen Hgr].
  assert (Hex : enabled g vis x) by (apply Hen; set_solver).
  assert (Hxvis : x ∉ vis ∧ x ∉ ready ∧ NoDup vis ∧ NoDup ready ∧ ∀ y, y ∈ vis → y ∉ ready).
  { apply NoDup_app in Hnd as (H1 & H2 & H3%NoDup_cons). set_solver. }
  destruct Hxvis as (Hxv & Hxr & Hndv & Hndr & Hdisj).
  exists (dependents_of g x).
  assert (Hdin : ∀ y, y ∈ sorted (dependents_of g x) ↔ edge g y x).
  { intros y. rewrite sorted_elem. apply elem_dependents_of. }
  destruct (release_spec (sorted (dependents_of g x)) indegree ready) as (ind' & ready' & Hr & Hi & Hp & Hsr).
  { rewrite sorted_perm. apply dependents_of_NoDup. }
  { intros y (ds & Hy & _)%Hdin. rewrite (Hdeg _ _ Hy). eauto. }
  exists ind', ready'. split; [|split; [done|]].
  { unfold dict_get. by rewrite Hdep by (by eapply enabled_node). }
  inversion Hs as [|? ? Hs' Hmin]; subst.
  assert (Hdeg' : ∀ y ds, (y, ds) ∈ g → ind' !! y = Some (remaining (vis ++ [x]) ds)).
  { intros y ds Hy. rewrite Hi. unfold released. rewrite (Hdeg _ _ Hy). simpl. f_equal.
    destruct Hg as [_ Hds]. rewrite remaining_snoc by (by auto; apply (Hds y)).
    assert (Hiff : y ∈ sorted (dependents_of g x) ↔ x ∈ ds).
    { rewrite Hdin. split; [|by exists ds]. intros (ds' & Hy' & Hx). by rewrite (graph_unique y ds ds'). }
    destruct (decide (y ∈ sorted (dependents_of g x))), (decide (x ∈ ds)); try tauto; lia. }
  assert (Hready : ∀ y, y ∈ ready' ↔ y ∈ ready ∨ (edge g y x ∧ indegree !! y = Some 1)).
  { intros y. rewrite Hp, elem_of_app, list_elem_of_filter, Hdin. tauto. }
  assert (Hone : ∀ y, edge g y x → indegree !! y = Some 1 → y ∉ vis ++ x :: ready).
  { intros y (ds & Hy & Hx) H1 (ds' & Hy' & Hall)%Hen. rewrite (graph_unique y ds' ds) in Hall by done. eauto. }
  constructor.
  - rewrite <- app_assoc. cbn [app]. rewrite Hp. rewrite NoDup_app, NoDup_cons, NoDup_app.
    assert (Hf : ∀ y, y ∈ filter (λ y, indegree !! y = Some 1) (sorted (dependents_of g x)) →
      y ∉ vis ++ x :: ready).
    { intros y [H1 H2]%list_elem_of_filter. apply Hone; [by apply Hdin|done]. }
    split; [done|]. split.
    { intros y Hy [->|[Hy'%Hf|Hy']%elem_of_app]%elem_of_cons; [done|set_solver|by apply (Hdisj y)]. }
    split; [intros [Hy'%Hf|Hy']%elem_of_app; [set_solver|done]|].
    split; [apply NoDup_filter; rewrite sorted_perm; apply dependents_of_NoDup|].
    split; [|done]. intros y Hy%Hf. set_solver.
  - by apply Hsr.
  - done.
  - intros y. rewrite !elem_of_app, list_elem_of_singleton, Hready. split.
    + intros [[Hy| ->]|[Hy|[(ds & Hy & Hx) H1]]].
      * destruct (proj1 (Hen y)) as (ds & ? & Hall); [set_solver|]. exists ds. set_solver.
      * destruct Hex as (ds & ? & Hall). exists ds. set_solver.
      * destruct (proj1 (Hen y)) as (ds & ? & Hall); [set_solver|]. exists ds. set_solver.
      * exists ds. split; [done|]. apply remaining_zero. pose proof (Hdeg' _ _ Hy) as H'.
        rewrite Hi in H'. unfold released in H'. rewrite H1 in H'. simpl in H'.
        rewrite decide_True in H' by (by apply Hdin; exists ds). by injection H' as <-.
    + intros (ds & Hy & Hall). destruct (decide (y ∈ vis ++ x :: ready)) as [|Hn]; [set_solver|].
      right. right.
      assert (Hx : x ∈ ds).
      { destruct (decide (x ∈ ds)); [done|]. destruct Hn. apply Hen. exists ds. split; [done|]. set_solver. }
      split; [by exists ds|]. rewrite (Hdeg _ _ Hy). f_equal.
      pose proof (proj2 (remaining_zero (vis ++ [x]) ds) Hall) as H0. destruct Hg as [_ Hds].
      rewrite remaining_snoc in H0 by (by auto; apply (Hds y)). rewrite decide_True in H0 by done. lia.
  - apply greedy_snoc; [done..|]. intros y Hy He%Hen.
    apply elem_of_app in He as [He|[->|He]%elem_of_cons]; [done|done|].
    rewrite Forall_forall in Hmin. by apply Hmin.
Qed.

Lemma vis_bound indegree ready vis :
  loop_inv indegree ready vis → (length vis + length ready <= length g)%nat.
Proof.
  intros [Hnd _ _ Hen _]. rewrite <- length_app, <- (length_map fst g). apply submseteq_length.
  apply NoDup_submseteq; [done|]. intros y Hy%Hen. by eapply enabled_node.
Qed.

Lemma kahn_loop_spec dependents fuel indegree ready vis :
  (∀ d, d ∈ map fst g → dependents !! d = Some (dependents_of g d)) →
  loop_inv indegree ready vis → (length g <= length vis + fuel)%nat →
  ∃ order indegree', kahn_loop fuel dependents indegree ready vis = Ok order ∧
    loop_inv indegree' [] order.
Proof.
  intros Hdep. revert indegree ready vis; induction fuel as [|fuel IH]; intros indegree ready vis Hinv Hf.
  - pose proof (vis_bound _ _ _ Hinv). destruct ready as [|x ready]; [|simpl in *; lia].
    exists vis, indegree. done.
  - destruct ready as [|x ready]; [by exists vis, indegree|]. cbn [kahn_loop].
    destruct (loop_step dependents indegree x ready vis Hdep Hinv) as (ids & ind' & ready' & -> & Hr & Hinv').
    cbn [res_bind]. rewrite Hr. cbn [res_bind fst snd]. apply IH; [done|].
    rewrite length_app. simpl. lia.
Qed.

Lemma initial_inv : loop_inv (initial_indegree g) (sorted (initial_ready g)) [].
Proof.
  destruct Hg as [Hnd Hds].
  assert (Hfst : map fst (degree_items g) = map fst g) by (unfold degree_items; by rewrite map_map).
  assert (Hdeg : ∀ x ds, (x, ds) ∈ g → initial_indegree g !! x = Some (remaining [] ds)).
  { intros x ds Hx. unfold initial_indegree. apply dict_of_lookup; [by rewrite Hfst|].
    apply list_elem_of_In, in_map_iff. exists (x, ds). split; [|by apply list_elem_of_In].
    simpl. f_equal. unfold remaining. do 2 f_equal.
    clear. induction ds as [|d ds IH]; [done|]. rewrite filter_cons, decide_True by set_solver. by f_equal. }
  assert (Hready : ∀ x, x ∈ initial_ready g ↔ enabled g [] x).
  { intros x. unfold initial_ready. rewrite elem_fst. setoid_rewrite list_elem_of_filter. split.
    - intros (n & Hn & Hx%list_elem_of_In%in_map_iff). destruct Hx as ([y ds] & [= -> Hlen] & Hx).
      cbn [snd] in *. exists ds. split; [by apply list_elem_of_In|].
      destruct ds; [set_solver|simpl in *; lia].
    - intros (ds & Hx & Hall). exists 0. split; [done|]. apply list_elem_of_In, in_map_iff.
      exists (x, ds). destruct ds as [|d ds]; [|exfalso; specialize (Hall d); set_solver].
      split; [done|]. by apply list_elem_of_In. }
  constructor.
  - cbn [app]. rewrite sorted_perm. apply filter_map_NoDup. by rewrite Hfst.
  - apply sorted_by_sorted.
  - done.
  - intros x. cbn [app]. by rewrite sorted_elem.
  - intros v1 x v2 Heq. by destruct v1.
Qed.

(** The loop ends within its fuel, and visits exactly the nodes it can. *)
Lemma kahn_total :
  ∃ order, kahn g = Ok order ∧ NoDup order ∧ greedy g order ∧
    ∀ x, x ∈ order ↔ enabled g order x.
Proof.
  unfold kahn. destruct build_dependents_spec as (m & -> & Hm). cbn [res_bind].
  destruct (kahn_loop_spec m (length g) _ _ _ Hm initial_inv) as (order & ind & -> & [Hnd _ _ Hen Hgr]).
  { simpl. lia. }
  rewrite app_nil_r in Hnd. exists order. split; [done|]. split; [done|]. split; [done|].
  intros x. by rewrite <- Hen, app_nil_r.
Qed.

(** ** Completeness and cycles *)

Lemma greedy_before order v1 x v2 y :
  greedy g order → order = v1 ++ x :: v2 → tc (edge g) x y → y ∈ v1.
Proof.
  intros Hgr Heq Htc. revert v1 v2 Heq; induction Htc as [x y Hxy|x z y Hxz Hzy IH]; intros v1 v2 Heq.
  - destruct (Hgr _ _ _ Heq) as (_ & (ds & Hx & Hall) & _). destruct Hxy as (ds' & Hx' & Hy).
    apply Hall. by rewrite (graph_unique x ds ds').
  - destruct (Hgr _ _ _ Heq) as (_ & (ds & Hx & Hall) & _). destruct Hxz as (ds' & Hx' & Hz).
    assert (Hz1 : z ∈ v1) by (apply Hall; by rewrite (graph_unique x ds ds')).
    apply list_elem_of_split in Hz1 as (w1 & w2 & ->).
    rewrite <- app_assoc in Heq. cbn [app] in Heq. specialize (IH _ _ Heq). set_solver.
Qed.

Lemma edge_nodes x y : edge g x y → x ∈ map fst g ∧ y ∈ map fst g.
Proof.
  intros (ds & Hx & Hy). split; [apply elem_fst; eauto|]. destruct Hg as [_ Hds].
  by apply (proj2 (Hds x ds Hx)).
Qed.

Lemma tc_edge_node x y : tc (edge g) x y → y ∈ map fst g.
Proof. intros H. induction H as [x y He|x z y He _ IH]; [by apply edge_nodes in He as []|done]. Qed.

Lemma kahn_complete_acyclic order :
  kahn g = Ok order → length order = length g ↔ acyclic g.
Proof.
  intros Hk. destruct kahn_total as (order' & Hk' & Hnd & Hgr & Hen).
  rewrite Hk in Hk'. injection Hk' as <-.
  assert (Hsub : ∀ x, x ∈ order → x ∈ map fst g) by (intros x ?%Hen; by eapply enabled_node).
  split.
  - intros Hlen x Hx. assert (Hin : x ∈ order).
    { apply tc_edge_node in Hx. destruct Hg as [Hndg _].
      assert (Hp : order ≡ₚ map fst g); [|by rewrite Hp].
      apply submseteq_length_Permutation; [by apply NoDup_submseteq|]. rewrite length_map. lia. }
    apply list_elem_of_split in Hin as (v1 & v2 & Heq).
    pose proof (greedy_before order v1 x v2 x Hgr Heq Hx). by destruct (Hgr _ _ _ Heq).
  - intros Hac. rewrite <- (length_map fst g). apply Permutation_length.
    apply NoDup_Permutation; [done|apply Hg|]. intros x. split; [apply Hsub|].
    assert (Hsn : ∀ y, sn (edge g) y).
    { intros y. apply tc_finite_sn; [exact Hac|]. exists (map fst g). intros z. apply tc_edge_node. }
    induction (Hsn x) as [x _ IH]. intros Hx. apply Hen. apply elem_fst in Hx as [ds Hx].
    exists ds. split; [done|]. intros d Hd. assert (He : edge g x d) by (by exists ds).
    apply (IH d He). by apply edge_nodes in He as [_ ?].
Qed.

Lemma kahn_spec order :
  kahn g = Ok order → NoDup order ∧ greedy g order ∧ (∀ x, x ∈ order ↔ enabled g order x).
Proof. intros Hk. destruct kahn_total as (o & Hk' & H). rewrite Hk in Hk'. by injection Hk' as <-. Qed.
End kahn.

(** A complete order lists every node after its dependencies. *)
Definition dependency_order (g : graph) (order : list pystr) : Prop :=
  order ≡ₚ map fst g ∧ greedy g order.

Lemma acyclic_perm g1 g2 : g1 ≡ₚ g2 → acyclic g1 → acyclic g2.
Proof.
  intros Hp Ha. assert (H : ∀ x y, tc (edge g2) x y → tc (edge g1) x y).
  { intros x y Hx. induction Hx as [y z (ds & Hy & Hz)|y z w (ds & Hy & Hz) _ IH].
    - apply tc_once. exists ds. by rewrite Hp.
    - eapply tc_l; [|done]. exists ds. by rewrite Hp. }
  intros x Hx. by apply (Ha x), H.
Qed.
