(* ===== verification/Obligations.v ===== *)
(** * Obligations ([src/ibae/obligations.py])

    An obligation has a key, a status and the ids of the obligations it depends on; its id is the
    domain fingerprint of its key.  The registry sorts its obligations by id and accepts only a
    dependency DAG in which a satisfied obligation depends on satisfied ones. *)

From Stdlib Require Import Ascii String.
From stdpp Require Import base list gmap.
From S2P Require Import Prelude PyStr PyNumber Sha256 Canonical Records Kahn.

Definition OBLIGATION_ID_DOMAIN : pystr := u "ibae.obligation-id.v1".
Definition MAX_OBLIGATIONS : Z := 128.
Definition MAX_OBLIGATION_DEPENDENCIES : Z := MAX_OBLIGATIONS - 1.

Inductive ObligationStatus := UNSATISFIED | SATISFIED | BLOCKED.

Inductive ObligationReadiness :=
  | READY | DEPENDENCY_BLOCKED | EXPLICITLY_BLOCKED | READINESS_SATISFIED.

#[export] Instance ObligationStatus_eq_dec : EqDecision ObligationStatus.
Proof. solve_decision. Defined.

#[export] Instance ObligationReadiness_eq_dec : EqDecision ObligationReadiness.
Proof. solve_decision. Defined.

Definition status_value (s : ObligationStatus) : pystr :=
  match s with
  | UNSATISFIED => u "unsatisfied"
  | SATISFIED => u "satisfied"
  | BLOCKED => u "blocked"
  end.

Definition canonical_obligation_id (key : pystr) : res pystr :=
  require_symbol key ;;*
  domain_fingerprint OBLIGATION_ID_DOMAIN (obj [("key", VStr key)]%string).

(** The dataclass before its checks; the constructor is [Obligation.make]. *)
Record Obligation := {
  ob_key : pystr;
  ob_description : pystr;
  ob_dependency_ids : list pystr;
  ob_status : ObligationStatus;
  ob_block_reason : option pystr
}.

#[export] Instance Obligation_eq_dec : EqDecision Obligation.
Proof. solve_decision. Defined.

(** The property [obligation_id], which recomputes the fingerprint. *)
Definition obligation_id (o : Obligation) : res pystr := canonical_obligation_id (ob_key o).

Module Obligation.

Definition check_block_reason (status : ObligationStatus) (block_reason : option pystr) : res unit :=
  match status, block_reason with
  | BLOCKED, None => Raise ValueError
  | BLOCKED, Some r => require_text r
  | _, Some _ => Raise ValueError
  | _, None => Ok tt
  end.

(** [__post_init__] *)
Definition make (key description : pystr) (dependency_ids : list pystr) (status : ObligationStatus)
    (block_reason : option pystr) : res Obligation :=
  require_symbol key ;;*
  require_text description ;;*
  let* supplied := materialize dependency_ids MAX_OBLIGATION_DEPENDENCIES in
  let dependencies := sorted supplied in
  raise_if (has_duplicates dependencies) ValueError ;;*
  res_iter require_fingerprint dependencies ;;*
  let* own_id := canonical_obligation_id key in
  raise_if (str_in own_id dependencies) ValueError ;;*
  check_block_reason status block_reason ;;*
  Ok {| ob_key := key; ob_description := description; ob_dependency_ids := dependencies;
        ob_status := status; ob_block_reason := block_reason |}.

Definition canonical_record (o : Obligation) : res pyval :=
  let* own_id := obligation_id o in
  Ok (obj [("block_reason", opt_val VStr (ob_block_reason o));
           ("dependencies", strs_val (ob_dependency_ids o));
           ("description", VStr (ob_description o));
           ("key", VStr (ob_key o));
           ("obligation_id", VStr own_id);
           ("status", VStr (status_value (ob_status o)))]%string).

(** [dataclasses.replace] runs the constructor again. *)
Definition with_status (o : Obligation) (status : ObligationStatus) (block_reason : option pystr)
    : res Obligation :=
  make (ob_key o) (ob_description o) (ob_dependency_ids o) status block_reason.

End Obligation.

Record ObligationRegistry := {
  reg_obligations : list Obligation;
  reg_max_obligations : Z
}.

#[export] Instance ObligationRegistry_eq_dec : EqDecision ObligationRegistry.
Proof. solve_decision. Defined.

Module ObligationRegistry.

(** Obligations with their computed ids. *)
Definition with_ids (l : list Obligation) : res (list (pystr * Obligation)) :=
  res_map (λ o, let* i := obligation_id o in Ok (i, o)) l.

Definition graph_of (items : list (pystr * Obligation)) : graph :=
  map (λ io, (io.1, ob_dependency_ids io.2)) items.

Definition is_satisfied (o : Obligation) : bool := bool_decide (ob_status o = SATISFIED).

(** The dependencies that are not satisfied; [by_id[d]] raises a [KeyError] for an unknown id. *)
Definition unsatisfied_dependencies (by_id : gmap pystr Obligation) (o : Obligation) : res (list pystr) :=
  res_fold (λ acc d,
      let* item := dict_get by_id d in
      Ok (if is_satisfied item then acc else acc ++ [d])) [] (ob_dependency_ids o).

Definition validate_acyclic (items : list (pystr * Obligation)) : res unit :=
  let* visited := kahn (graph_of items) in
  raise_if (negb (length visited =? length items)%nat) ValueError.

Definition validate_satisfied_dependencies (items : list (pystr * Obligation)) : res unit :=
  let by_id := dict_of items in
  res_iter (λ io,
      if negb (is_satisfied io.2) then Ok tt
      else let* unsatisfied := unsatisfied_dependencies by_id io.2 in
           raise_if (nonempty unsatisfied) ValueError) items.

(** [__post_init__] *)
Definition make (obligations : list Obligation) (max_obligations : Z) : res ObligationRegistry :=
  require_bounded_positive_int max_obligations MAX_OBLIGATIONS ;;*
  let* supplied := materialize obligations max_obligations in
  let* keyed := with_ids supplied in
  let items := sorted_by fst keyed in
  raise_if (max_obligations <? Z.of_nat (length items)) ValueError ;;*
  let ids := map fst items in
  let keys := map (λ io, ob_key io.2) items in
  raise_if (has_duplicates ids || has_duplicates keys) ValueError ;;*
  res_iter (λ io, raise_if (existsb (λ d, negb (str_in d ids)) (ob_dependency_ids io.2)) ValueError) items ;;*
  validate_acyclic items ;;*
  validate_satisfied_dependencies items ;;*
  Ok {| reg_obligations := map snd items; reg_max_obligations := max_obligations |}.

Definition from_iterable (next : nat → option Obligation) (max_obligations : Z) : res ObligationRegistry :=
  require_bounded_positive_int max_obligations MAX_OBLIGATIONS ;;*
  let* supplied := materialize_bounded_iterable next max_obligations in
  make supplied max_obligations.

Definition by_id (r : ObligationRegistry) : res (gmap pystr Obligation) :=
  let* items := with_ids (reg_obligations r) in
  Ok (dict_of items).

Definition get (r : ObligationRegistry) (i : pystr) : res Obligation :=
  require_fingerprint i ;;*
  let* m := by_id r in
  dict_get m i.

Definition known_ids (r : ObligationRegistry) : res (list pystr) := res_map obligation_id (reg_obligations r).

Definition blocking_dependency_ids (r : ObligationRegistry) (i : pystr) : res (list pystr) :=
  let* item := get r i in
  let* m := by_id r in
  unsatisfied_dependencies m item.

Definition readiness (r : ObligationRegistry) (i : pystr) : res ObligationReadiness :=
  let* item := get r i in
  match ob_status item with
  | SATISFIED => Ok READINESS_SATISFIED
  | BLOCKED => Ok EXPLICITLY_BLOCKED
  | UNSATISFIED =>
      let* blocking := blocking_dependency_ids r i in
      Ok (if nonempty blocking then DEPENDENCY_BLOCKED else READY)
  end.

Definition ready_ids (r : ObligationRegistry) : res (list pystr) :=
  res_fold (λ acc o,
      let* i := obligation_id o in
      let* x := readiness r i in
      Ok (if decide (x = READY) then acc ++ [i] else acc)) [] (reg_obligations r).

Definition topological_ids (r : ObligationRegistry) : res (list pystr) :=
  let* items := with_ids (reg_obligations r) in
  kahn (graph_of items).

Definition with_status (r : ObligationRegistry) (i : pystr) (status : ObligationStatus)
    (block_reason : option pystr) : res ObligationRegistry :=
  get r i ;;*
  let* updated := res_map (λ o,
      let* own_id := obligation_id o in
      if decide (own_id = i) then Obligation.with_status o status block_reason else Ok o)
    (reg_obligations r) in
  make updated (reg_max_obligations r).

Definition canonical_record (r : ObligationRegistry) : res pyval :=
  let* l := res_map Obligation.canonical_record (reg_obligations r) in
  Ok (obj [("max_obligations", VInt (reg_max_obligations r)); ("obligations", VList l)]%string).

End ObligationRegistry.
