(* ===== verification/ObligationsFacts.v ===== *)
(** * Properties of obligations and their registry

    The registry accepts exactly the acyclic, closed sets of obligations in which satisfaction is
    downward closed; readiness is what the dependencies say; and the topological order is a
    dependency order. *)

From Stdlib Require Import Ascii String.
From stdpp Require Import base list sets gmap relations.
From S2P Require Import Prelude PyStr PyNumber Sha256 Canonical CanonicalFacts Fingerprints Records RecordsFacts Kahn KahnFacts Obligations.

(** ** Obligation ids *)

Lemma obligation_domain_ok : domain_pattern OBLIGATION_ID_DOMAIN = true.
Proof. vm_compute. reflexivity. Qed.

Lemma key_obj_clean key : no_surrogate key = true → clean (obj [("key", VStr key)]%string) = true.
Proof. intros H. clean_tac. exact H. Qed.

Lemma canonical_obligation_id_total key :
  require_symbol key = Ok tt → ∃ i, canonical_obligation_id key = Ok i ∧ fingerprint_pattern i = true.
Proof.
  intros Hk. unfold canonical_obligation_id. rewrite Hk. cbn [res_bind].
  destruct (domain_fingerprint_total OBLIGATION_ID_DOMAIN (obj [("key", VStr key)]%string)) as [h Hh].
  - apply obligation_domain_ok.
  - by apply key_obj_clean, symbol_clean.
  - exists h. split; [done|]. by eapply domain_fingerprint_pattern.
Qed.

Lemma canonical_obligation_id_inj k1 k2 i :
  canonical_obligation_id k1 = Ok i → canonical_obligation_id k2 = Ok i →
  k1 = k2 ∨ collide (domain_message OBLIGATION_ID_DOMAIN (obj [("key", VStr k1)]%string))
                    (domain_message OBLIGATION_ID_DOMAIN (obj [("key", VStr k2)]%string)).
Proof.
  unfold canonical_obligation_id. intros H1 H2. res_inv.
  destruct (domain_fingerprint_inj _ _ _ _ _ H1 H2) as [[_ E']|]; [wf_obj; done..| |by right].
  left. cbn in E'. by injection E'.
Qed.

(** ** Constructed obligations *)

(** A value the constructor returned: constructing it again gives itself. *)
Definition wf (o : Obligation) : Prop :=
  Obligation.make (ob_key o) (ob_description o) (ob_dependency_ids o) (ob_status o) (ob_block_reason o) = Ok o.

Lemma make_inv k d deps s b o :
  Obligation.make k d deps s b = Ok o →
  require_symbol k = Ok tt ∧ require_text d = Ok tt ∧ Z.of_nat (length deps) <= MAX_OBLIGATION_DEPENDENCIES ∧
  NoDup (sorted deps) ∧ (∀ x, x ∈ deps → fingerprint_pattern x = true) ∧
  (∃ i, canonical_obligation_id k = Ok i ∧ i ∉ deps) ∧ Obligation.check_block_reason s b = Ok tt ∧
  o = {| ob_key := k; ob_description := d; ob_dependency_ids := sorted deps; ob_status := s;
         ob_block_reason := b |}.
Proof.
  unfold Obligation.make. intros H.
  apply res_bind_Ok in H as ([] & Hk & H). apply res_bind_Ok in H as ([] & Hd & H).
  apply res_bind_Ok in H as (l & [-> Hl]%materialize_Ok & H).
  apply res_bind_Ok in H as ([] & Hnd%raise_if_Ok%has_duplicates_false & H).
  apply res_bind_Ok in H as ([] & Hf%res_iter_Ok & H).
  apply res_bind_Ok in H as (i & Hi & H).
  apply res_bind_Ok in H as ([] & Hin%raise_if_Ok%str_in_false & H).
  apply res_bind_Ok in H as ([] & Hb & [= <-]).
  rewrite sorted_elem in Hin. repeat split; eauto.
  intros x Hx. rewrite Forall_forall in Hf. apply require_fingerprint_Ok, Hf. by apply sorted_elem.
Qed.

Lemma make_intro k d deps s b i :
  require_symbol k = Ok tt → require_text d = Ok tt →
  Z.of_nat (length deps) <= MAX_OBLIGATION_DEPENDENCIES → NoDup deps →
  (∀ x, x ∈ deps → fingerprint_pattern x = true) → canonical_obligation_id k = Ok i → i ∉ deps →
  Obligation.check_block_reason s b = Ok tt →
  Obligation.make k d deps s b =
    Ok {| ob_key := k; ob_description := d; ob_dependency_ids := sorted deps; ob_status := s;
          ob_block_reason := b |}.
Proof.
  intros Hk Hd Hl Hnd Hf Hi Hin Hb. unfold Obligation.make. rewrite Hk, Hd. cbn [res_bind].
  rewrite materialize_list by done. replace (_ <=? _) with true by lia. cbn [res_bind].
  rewrite (proj2 (has_duplicates_false _)) by (by rewrite sorted_perm). cbn [raise_if res_bind].
  rewrite (proj2 (res_iter_Ok require_fingerprint (sorted deps) tt)).
  - cbn [res_bind]. rewrite Hi. cbn [res_bind].
    rewrite (proj2 (str_in_false i (sorted deps))) by (by rewrite sorted_elem). cbn [raise_if res_bind]. by rewrite Hb.
  - apply Forall_forall. intros x Hx. rewrite sorted_elem in Hx. apply (proj2 (require_fingerprint_Ok x)). by apply Hf.
Qed.

Lemma make_wf k d deps s b o : Obligation.make k d deps s b = Ok o → wf o.
Proof.
  intros (Hk & Hd & Hl & Hnd & Hf & (i & Hi & Hin) & Hb & ->)%make_inv. unfold wf. simpl.
  rewrite (make_intro _ _ _ _ _ i); try done.
  - by rewrite sorted_idem.
  - by rewrite sorted_perm.
  - intros x Hx. rewrite sorted_elem in Hx. by apply Hf.
  - by rewrite sorted_elem.
Qed.

Lemma wf_id o : wf o → ∃ i, obligation_id o = Ok i ∧ fingerprint_pattern i = true ∧ i ∉ ob_dependency_ids o.
Proof.
  intros (Hk & _ & _ & _ & _ & (i & Hi & Hin) & _ & _)%make_inv.
  destruct (canonical_obligation_id_total _ Hk) as (i' & Hi' & Hp).
  rewrite Hi in Hi'. injection Hi' as <-. exists i. done.
Qed.

Lemma wf_deps o : wf o → NoDup (ob_dependency_ids o).
Proof.
  intros H. apply make_inv in H as (_ & _ & _ & Hnd & _). by rewrite sorted_perm in Hnd.
Qed.

(** The id as a total function; it is the id of every constructed obligation. *)
Definition oid (o : Obligation) : pystr := match obligation_id o with Ok i => i | Raise _ => [] end.

Lemma oid_Ok o : wf o → obligation_id o = Ok (oid o).
Proof. intros (i & Hi & _)%wf_id. unfold oid. by rewrite Hi. Qed.

Lemma oid_pattern o : wf o → fingerprint_pattern (oid o) = true.
Proof. intros (i & Hi & Hp & _)%wf_id. unfold oid. by rewrite Hi. Qed.

Lemma oid_key o1 o2 : wf o1 → wf o2 → ob_key o1 = ob_key o2 → oid o1 = oid o2.
Proof. unfold oid, obligation_id. by intros _ _ ->. Qed.

Lemma with_ids_Ok l : Forall wf l → ObligationRegistry.with_ids l = Ok (map (λ o, (oid o, o)) l).
Proof.
  intros Hl. apply res_map_Ok. induction Hl as [|o l Ho _ IH]; cbn [map]; constructor; [|done].
  by rewrite oid_Ok.
Qed.

(** ** The registry *)

Notation item := (pystr * Obligation)%type.

Definition items_of (l : list Obligation) : list item := map (λ o, (oid o, o)) l.

Definition reg_graph (l : list Obligation) : graph := map (λ o, (oid o, ob_dependency_ids o)) l.

Lemma graph_of_items l : ObligationRegistry.graph_of (items_of l) = reg_graph l.
Proof. unfold ObligationRegistry.graph_of, items_of. by rewrite map_map. Qed.

Lemma items_of_sorted l : sorted_by fst (items_of l) = items_of (sorted_by oid l).
Proof. unfold items_of. by rewrite sorted_by_map. Qed.

Lemma items_fst l : map fst (items_of l) = map oid l.
Proof. unfold items_of. by rewrite map_map. Qed.

Lemma reg_graph_fst l : map fst (reg_graph l) = map oid l.
Proof. unfold reg_graph. by rewrite map_map. Qed.

Lemma elem_reg_graph l x ds : (x, ds) ∈ reg_graph l ↔ ∃ o, o ∈ l ∧ oid o = x ∧ ob_dependency_ids o = ds.
Proof.
  unfold reg_graph. rewrite list_elem_of_In, in_map_iff. setoid_rewrite <- list_elem_of_In. naive_solver.
Qed.

Lemma elem_items l i o : (i, o) ∈ items_of l ↔ o ∈ l ∧ i = oid o.
Proof.
  unfold items_of. rewrite list_elem_of_In, in_map_iff. setoid_rewrite <- list_elem_of_In. naive_solver.
Qed.

Lemma elem_map {A B} (f : A → B) l y : y ∈ map f l ↔ ∃ x, x ∈ l ∧ f x = y.
Proof. rewrite list_elem_of_In, in_map_iff. setoid_rewrite <- list_elem_of_In. naive_solver. Qed.

(** What the registry promises. *)
Record registry_spec (l : list Obligation) (max : Z) : Prop := {
  spec_max : 0 < max <= MAX_OBLIGATIONS;
  spec_bound : Z.of_nat (length l) <= max;
  spec_ids : NoDup (map oid l);
  spec_known : ∀ o d, o ∈ l → d ∈ ob_dependency_ids o → ∃ o', o' ∈ l ∧ oid o' = d;
  spec_acyclic : acyclic (reg_graph l);
  spec_satisfied : ∀ o d, o ∈ l → ob_status o = SATISFIED → d ∈ ob_dependency_ids o →
    ∃ o', o' ∈ l ∧ oid o' = d ∧ ob_status o' = SATISFIED
}.

Lemma reg_graph_closed l :
  Forall wf l → NoDup (map oid l) →
  (∀ o d, o ∈ l → d ∈ ob_dependency_ids o → ∃ o', o' ∈ l ∧ oid o' = d) → closed (reg_graph l).
Proof.
  intros Hwf Hnd Hk. split; [by rewrite reg_graph_fst|].
  intros x ds (o & Ho & <- & <-)%elem_reg_graph. rewrite Forall_forall in Hwf.
  split; [by apply wf_deps, Hwf|]. intros d Hd. rewrite reg_graph_fst. apply elem_map.
  destruct (Hk o d Ho Hd) as (o' & Ho' & <-). eauto.
Qed.

Lemma registry_spec_perm l1 l2 max : l1 ≡ₚ l2 → registry_spec l1 max → registry_spec l2 max.
Proof.
  intros Hp [H1 H2 H3 H4 H5 H6]. constructor.
  - done.
  - by rewrite <- Hp.
  - by rewrite <- (Permutation_map oid Hp).
  - intros o d Ho Hd. rewrite <- Hp in Ho. destruct (H4 o d Ho Hd) as (o' & ? & ?).
    exists o'. by rewrite <- Hp.
  - eapply acyclic_perm; [|done]. unfold reg_graph. by apply Permutation_map.
  - intros o d Ho Hs Hd. rewrite <- Hp in Ho. destruct (H6 o d Ho Hs Hd) as (o' & ? & ?).
    exists o'. by rewrite <- Hp.
Qed.

(** [_by_id] on constructed obligations with distinct ids. *)
Lemma by_id_lookup l i o :
  NoDup (map oid l) → dict_of (items_of l) !! i = Some o ↔ o ∈ l ∧ oid o = i.
Proof.
  intros Hnd. rewrite dict_of_lookup by (by rewrite items_fst). rewrite elem_items. naive_solver.
Qed.

Lemma is_satisfied_true o : ObligationRegistry.is_satisfied o = true ↔ ob_status o = SATISFIED.
Proof. apply bool_decide_eq_true. Qed.

Definition unsatisfied_in (l : list Obligation) (d : pystr) : bool :=
  negb (existsb (λ o, bool_decide (oid o = d) && ObligationRegistry.is_satisfied o) l).

(** The dependencies of an obligation that are not satisfied, in order. *)
Lemma unsatisfied_dependencies_Ok l o :
  NoDup (map oid l) → (∀ d, d ∈ ob_dependency_ids o → ∃ o', o' ∈ l ∧ oid o' = d) →
  ObligationRegistry.unsatisfied_dependencies (dict_of (items_of l)) o =
    Ok (List.filter (unsatisfied_in l) (ob_dependency_ids o)).
Proof.
  intros Hnd Hk. unfold ObligationRegistry.unsatisfied_dependencies.
  enough (H : ∀ ds acc, (∀ d, d ∈ ds → ∃ o', o' ∈ l ∧ oid o' = d) →
    res_fold (λ acc d, let* it := dict_get (dict_of (items_of l)) d in
      Ok (if ObligationRegistry.is_satisfied it then acc else acc ++ [d])) acc ds
    = Ok (acc ++ List.filter (unsatisfied_in l) ds)) by (by apply (H _ [])).
  clear Hk. induction ds as [|d ds IH]; intros acc Hk; cbn [res_fold].
  { simpl. by rewrite app_nil_r. }
  destruct (Hk d) as (o' & Ho' & Hd); [set_solver|].
  unfold dict_get at 1. rewrite (proj2 (by_id_lookup l d o' Hnd)) by done. cbn [res_bind].
  rewrite IH by set_solver. cbn [List.filter].
  assert (Hs : unsatisfied_in l d = negb (ObligationRegistry.is_satisfied o')).
  { unfold unsatisfied_in. f_equal. apply eq_true_iff_eq. rewrite existsb_elem. split.
    - intros (o2 & Ho2 & [He%bool_decide_eq_true Hs]%andb_true_iff).
      assert (o2 = o') as ->; [|done].
      pose proof (proj2 (by_id_lookup l d o2 Hnd) (conj Ho2 He)) as L2.
      pose proof (proj2 (by_id_lookup l d o' Hnd) (conj Ho' Hd)) as L1. congruence.
    - intros Hs. exists o'. split; [done|]. rewrite bool_decide_true by done. by rewrite Hs. }
  rewrite Hs. destruct (ObligationRegistry.is_satisfied o'); simpl; [done|]. by rewrite <- app_assoc.
Qed.

Lemma unsatisfied_in_false l d :
  unsatisfied_in l d = false ↔ ∃ o, o ∈ l ∧ oid o = d ∧ ob_status o = SATISFIED.
Proof.
  unfold unsatisfied_in. rewrite negb_false_iff, existsb_elem.
  split; intros (o & Ho & H); exists o; (split; [done|]); revert H;
    by rewrite andb_true_iff, bool_decide_eq_true, is_satisfied_true.
Qed.

Lemma filter_nil {A} (p : A → bool) l : List.filter p l = [] ↔ ∀ x, x ∈ l → p x = false.
Proof.
  induction l as [|x l IH]; simpl; [split; [intros _ x ?%elem_of_nil; done|done]|].
  destruct (p x) eqn:E.
  - split; [done|]. intros H. specialize (H x). rewrite H in E by set_solver. done.
  - rewrite IH. split; intros H y Hy; [|apply H; set_solver]. apply elem_of_cons in Hy as [->|]; auto.
Qed.

Lemma nonempty_false {A} (l : list A) : nonempty l = false ↔ l = [].
Proof. by destruct l. Qed.

Lemma filter_nonempty {A} (p : A → bool) l :
  nonempty (List.filter p l) = false ↔ ∀ x, x ∈ l → p x = false.
Proof. by rewrite nonempty_false, filter_nil. Qed.

Lemma validate_acyclic_Ok l :
  closed (reg_graph l) →
  ObligationRegistry.validate_acyclic (items_of l) = Ok tt ↔ acyclic (reg_graph l).
Proof.
  intros Hc. unfold ObligationRegistry.validate_acyclic. rewrite graph_of_items.
  destruct (kahn_total _ Hc) as (order & Hk & _). rewrite Hk. cbn [res_bind].
  rewrite raise_if_Ok, negb_false_iff, Nat.eqb_eq.
  replace (length (items_of l)) with (length (reg_graph l))
    by (unfold items_of, reg_graph; by rewrite !length_map).
  by apply kahn_complete_acyclic.
Qed.

Lemma validate_satisfied_Ok l :
  NoDup (map oid l) → (∀ o d, o ∈ l → d ∈ ob_dependency_ids o → ∃ o', o' ∈ l ∧ oid o' = d) →
  ObligationRegistry.validate_satisfied_dependencies (items_of l) = Ok tt ↔
  ∀ o d, o ∈ l → ob_status o = SATISFIED → d ∈ ob_dependency_ids o →
    ∃ o', o' ∈ l ∧ oid o' = d ∧ ob_status o' = SATISFIED.
Proof.
  intros Hnd Hk. unfold ObligationRegistry.validate_satisfied_dependencies.
  rewrite res_iter_Ok, Forall_forall.
  assert (Hone : ∀ o, o ∈ l →
    (if negb (ObligationRegistry.is_satisfied o) then Ok tt
     else let* uns := ObligationRegistry.unsatisfied_dependencies (dict_of (items_of l)) o in
          raise_if (nonempty uns) ValueError) = Ok tt ↔
    (ob_status o = SATISFIED → ∀ d, d ∈ ob_dependency_ids o → unsatisfied_in l d = false)).
  { intros o Ho. rewrite <- is_satisfied_true. destruct (ObligationRegistry.is_satisfied o); simpl.
    - rewrite unsatisfied_dependencies_Ok by eauto. cbn [res_bind].
      rewrite raise_if_Ok, filter_nonempty. naive_solver.
    - done. }
  split.
  - intros H o d Ho Hs Hd. apply unsatisfied_in_false.
    specialize (H (oid o, o)). rewrite elem_items in H. by apply (proj1 (Hone o Ho)); auto.
  - intros H [i o] [Ho _]%elem_items. apply (Hone o Ho). intros Hs d Hd.
    apply unsatisfied_in_false. eauto.
Qed.

Lemma known_check_Ok l :
  res_iter (λ io : item, raise_if (existsb (λ d, negb (str_in d (map fst (items_of l))))
    (ob_dependency_ids io.2)) ValueError) (items_of l) = Ok tt ↔
  ∀ o d, o ∈ l → d ∈ ob_dependency_ids o → ∃ o', o' ∈ l ∧ oid o' = d.
Proof.
  rewrite res_iter_Ok, Forall_forall. split.
  - intros H o d Ho Hd. specialize (H (oid o, o)). rewrite elem_items in H.
    specialize (H (conj Ho eq_refl)). apply raise_if_Ok in H. cbn [snd] in H.
    rewrite existsb_elem_false in H. specialize (H d Hd). apply negb_false_iff, str_in_true in H.
    rewrite items_fst in H. by apply elem_map in H.
  - intros H [i o] [Ho _]%elem_items. apply raise_if_Ok, existsb_elem_false. intros d Hd.
    apply negb_false_iff, str_in_true. rewrite items_fst. apply elem_map. by apply (H o).
Qed.

Lemma distinct_keys l : Forall wf l → NoDup (map oid l) → NoDup (map ob_key l).
Proof.
  induction 1 as [|o l Ho Hl IH]; cbn [map]; [constructor|]. inversion 1; subst. constructor; [|auto].
  intros (o' & Ho' & Hk)%elem_map. rewrite Forall_forall in Hl.
  apply H2, elem_map. exists o'. split; [done|]. by apply oid_key; auto.
Qed.

Lemma max_obligations_Ok v :
  require_bounded_positive_int v MAX_OBLIGATIONS = Ok tt ↔ 0 < v <= MAX_OBLIGATIONS.
Proof. apply bounded_small. done. Qed.

Lemma registry_make_spec l max r :
  Forall wf l →
  ObligationRegistry.make l max = Ok r ↔
  registry_spec l max ∧ r = {| reg_obligations := sorted_by oid l; reg_max_obligations := max |}.
Proof.
  intros Hwf. set (sl := sorted_by oid l).
  assert (Hperm : sl ≡ₚ l) by apply sorted_by_perm.
  assert (Hwfs : Forall wf sl) by (by rewrite Hperm).
  assert (Hspec : registry_spec l max ↔ registry_spec sl max)
    by (split; apply registry_spec_perm; [symmetry|]; done).
  rewrite Hspec. unfold ObligationRegistry.make.
  assert (Hsnd : map snd (items_of sl) = sl).
  { unfold items_of. rewrite map_map. apply map_id. }
  assert (Hkeys : map (λ io : item, ob_key io.2) (items_of sl) = map ob_key sl).
  { unfold items_of. by rewrite map_map. }
  split.
  - intros ([] & Hm%max_obligations_Ok & (l' & [-> Hl]%materialize_Ok & H)%res_bind_Ok)%res_bind_Ok.
    rewrite with_ids_Ok in H by done. cbn [res_bind] in H.
    rewrite items_of_sorted in H. fold sl in H.
    apply res_bind_Ok in H as ([] & _ & H).
    apply res_bind_Ok in H as ([] & Hd%raise_if_Ok & H). bool_inv.
    rewrite has_duplicates_false, items_fst in H0.
    apply res_bind_Ok in H as ([] & Hk0 & H). pose proof (proj1 (known_check_Ok sl) Hk0) as Hk.
    apply res_bind_Ok in H as ([] & Ha & H).
    apply res_bind_Ok in H as ([] & Hs & [= <-]).
    rewrite Hsnd. split; [|done]. rewrite validate_satisfied_Ok in Hs by done.
    rewrite validate_acyclic_Ok in Ha by (by apply reg_graph_closed).
    constructor; try done. by rewrite Hperm.
  - intros [[Hm Hb Hi Hk Ha Hs] ->]. rewrite (proj2 (max_obligations_Ok max) Hm). cbn [res_bind].
    rewrite materialize_list by (by apply (limit_ok_small _ MAX_OBLIGATIONS)). rewrite <- Hperm.
    replace (_ <=? max) with true by lia. cbn [res_bind]. rewrite with_ids_Ok by done. cbn [res_bind].
    rewrite items_of_sorted. fold sl. rewrite Hkeys, Hsnd, items_fst.
    replace (max <? Z.of_nat (length (items_of sl))) with false
      by (unfold items_of; rewrite length_map; lia). cbn [raise_if res_bind].
    rewrite (proj2 (has_duplicates_false (map oid sl))) by done.
    rewrite (proj2 (has_duplicates_false (map ob_key sl))) by (by apply distinct_keys).
    cbn [orb raise_if res_bind]. rewrite <- items_fst.
    rewrite (proj2 (known_check_Ok sl)) by done. cbn [res_bind].
    rewrite (proj2 (validate_acyclic_Ok sl (reg_graph_closed _ Hwfs Hi Hk))) by done. cbn [res_bind].
    rewrite (proj2 (validate_satisfied_Ok sl Hi Hk)) by done. done.
Qed.

(** ** Operations on a constructed registry *)

Definition valid (r : ObligationRegistry) : Prop :=
  ∃ l, Forall wf l ∧ ObligationRegistry.make l (reg_max_obligations r) = Ok r.

Lemma valid_inv r :
  valid r →
  Forall wf (reg_obligations r) ∧ registry_spec (reg_obligations r) (reg_max_obligations r) ∧
  sorted_by oid (reg_obligations r) = reg_obligations r.
Proof.
  intros (l & Hwf & [Hs Hr]%registry_make_spec); [|done]. destruct r as [sl max]. simpl in *.
  injection Hr as ->. split; [by rewrite sorted_by_perm|]. split; [|by apply sorted_by_idem].
  eapply registry_spec_perm; [|done]. symmetry. apply sorted_by_perm.
Qed.

Lemma valid_intro l max r : Forall wf l → ObligationRegistry.make l max = Ok r → valid r.
Proof.
  intros Hwf Hr. exists l. pose proof Hr as [_ ->]%registry_make_spec; [|done]. done.
Qed.

Section valid.
  Context (r : ObligationRegistry) (Hr : valid r).

Let l : list Obligation := reg_obligations r.

Lemma valid_wf : Forall wf l.
Proof. by destruct (valid_inv r Hr). Qed.

Lemma valid_spec : registry_spec l (reg_max_obligations r).
Proof. by destruct (valid_inv r Hr) as (_ & ? & _). Qed.

Lemma by_id_Ok : ObligationRegistry.by_id r = Ok (dict_of (items_of l)).
Proof. unfold ObligationRegistry.by_id. rewrite with_ids_Ok by apply valid_wf. done. Qed.

Lemma get_Ok i o : ObligationRegistry.get r i = Ok o ↔ o ∈ l ∧ oid o = i.
Proof.
  unfold ObligationRegistry.get. rewrite by_id_Ok. unfold dict_get. rewrite res_bind_Ok. cbn [res_bind].
  split.
  - intros ([] & _ & H). destruct (dict_of (items_of l) !! i) as [o'|] eqn:E; [|done].
    injection H as <-. by apply by_id_lookup in E; [|apply (spec_ids _ _ valid_spec)].
  - intros [Ho <-]. exists tt. split.
    + apply (proj2 (require_fingerprint_Ok _)), oid_pattern. pose proof valid_wf as Hwf.
      rewrite Forall_forall in Hwf. by apply Hwf.
    + by rewrite (proj2 (by_id_lookup l _ o (spec_ids _ _ valid_spec)) (conj Ho eq_refl)).
Qed.

Lemma get_unknown i :
  fingerprint_pattern i = true → (∀ o, o ∈ l → oid o ≠ i) → ObligationRegistry.get r i = Raise KeyError.
Proof.
  intros Hi Hn. unfold ObligationRegistry.get. rewrite (proj2 (require_fingerprint_Ok _) Hi), by_id_Ok.
  cbn [res_bind]. unfold dict_get. destruct (dict_of (items_of l) !! i) as [o|] eqn:E; [|done].
  apply by_id_lookup in E as [Ho Hi']; [by apply Hn in Ho|apply (spec_ids _ _ valid_spec)].
Qed.

Definition dependencies_satisfied (o : Obligation) : Prop :=
  ∀ d, d ∈ ob_dependency_ids o → ∃ o', o' ∈ l ∧ oid o' = d ∧ ob_status o' = SATISFIED.

Lemma blocking_Ok o :
  o ∈ l → ObligationRegistry.blocking_dependency_ids r (oid o) =
    Ok (List.filter (unsatisfied_in l) (ob_dependency_ids o)).
Proof.
  intros Ho. unfold ObligationRegistry.blocking_dependency_ids.
  rewrite (proj2 (get_Ok (oid o) o)) by done. cbn [res_bind]. rewrite by_id_Ok. cbn [res_bind].
  apply unsatisfied_dependencies_Ok; [apply (spec_ids _ _ valid_spec)|].
  intros d Hd. by eapply (spec_known _ _ valid_spec).
Qed.

Lemma readiness_Ok o x :
  o ∈ l → ObligationRegistry.readiness r (oid o) = Ok x ↔
  match ob_status o with
  | SATISFIED => x = READINESS_SATISFIED
  | BLOCKED => x = EXPLICITLY_BLOCKED
  | UNSATISFIED => (x = READY ∧ dependencies_satisfied o) ∨
                   (x = DEPENDENCY_BLOCKED ∧ ¬ dependencies_satisfied o)
  end.
Proof.
  intros Ho. unfold ObligationRegistry.readiness.
  rewrite (proj2 (get_Ok (oid o) o)) by done. cbn [res_bind].
  destruct (ob_status o); [|naive_solver..]. rewrite blocking_Ok by done. cbn [res_bind].
  assert (Hd : nonempty (List.filter (unsatisfied_in l) (ob_dependency_ids o)) = false ↔ dependencies_satisfied o).
  { rewrite filter_nonempty. unfold dependencies_satisfied. by setoid_rewrite unsatisfied_in_false. }
  destruct (nonempty _); naive_solver.
Qed.

Lemma readiness_READY o :
  o ∈ l → ObligationRegistry.readiness r (oid o) = Ok READY ↔
  ob_status o = UNSATISFIED ∧ dependencies_satisfied o.
Proof. intros Ho. rewrite readiness_Ok by done. destruct (ob_status o); naive_solver. Qed.

Lemma readiness_total o : o ∈ l → ∃ x, ObligationRegistry.readiness r (oid o) = Ok x.
Proof.
  intros Ho. unfold ObligationRegistry.readiness.
  rewrite (proj2 (get_Ok (oid o) o)) by done. cbn [res_bind].
  destruct (ob_status o); eauto. rewrite blocking_Ok by done. simpl. eauto.
Qed.

(** [ready_ids]: the ids of the ready obligations, in id order. *)
Lemma ready_ids_Ok :
  ∃ ids, ObligationRegistry.ready_ids r = Ok ids ∧
    ∀ i, i ∈ ids ↔ ∃ o, o ∈ l ∧ oid o = i ∧ ob_status o = UNSATISFIED ∧ dependencies_satisfied o.
Proof.
  unfold ObligationRegistry.ready_ids. fold l.
  match goal with |- context [res_fold ?f] => set (step := f) end.
  enough (H : ∀ l1 acc, (∀ o, o ∈ l1 → o ∈ l) → ∃ ids, res_fold step acc l1 = Ok ids ∧
    ∀ i, i ∈ ids ↔ i ∈ acc ∨ ∃ o, o ∈ l1 ∧ oid o = i ∧ ob_status o = UNSATISFIED ∧ dependencies_satisfied o).
  { destruct (H l [] (λ _ Ho, Ho)) as (ids & -> & Hi). exists ids. split; [done|].
    intros i. rewrite Hi. split; [intros [?%elem_of_nil|]; done|auto]. }
  induction l1 as [|o l1 IH]; intros acc Hin; cbn [res_fold].
  { exists acc. split; [done|]. set_solver. }
  assert (Ho : o ∈ l) by (apply Hin; set_solver).
  assert (Hwf : wf o) by (pose proof valid_wf as Hwf; rewrite Forall_forall in Hwf; auto).
  destruct (readiness_total o Ho) as [x Hx]. unfold step at 1. rewrite oid_Ok by done. cbn [res_bind].
  rewrite Hx. cbn [res_bind].
  destruct (IH (if decide (x = READY) then acc ++ [oid o] else acc)) as (ids & Hids & Hspec); [set_solver|].
  exists ids. split; [done|]. intros i. rewrite Hspec. setoid_rewrite elem_of_cons.
  pose proof (readiness_READY o Ho) as Hready. rewrite Hx in Hready.
  destruct (decide (x = READY)) as [->|Hne].
  - rewrite elem_of_app, list_elem_of_singleton. naive_solver.
  - split; [naive_solver|]. intros [?|(o' & [->|?] & ? & Hu)]; [by left| |by right; eauto].
    apply Hready in Hu. by injection Hu.
Qed.

Lemma topological_Ok :
  ∃ order, ObligationRegistry.topological_ids r = Ok order ∧ dependency_order (reg_graph l) order.
Proof.
  unfold ObligationRegistry.topological_ids. fold l. rewrite with_ids_Ok by apply valid_wf. cbn [res_bind].
  fold (items_of l). rewrite graph_of_items.
  pose proof valid_spec as [_ _ Hi Hk Ha _]. pose proof (reg_graph_closed l valid_wf Hi Hk) as Hc.
  destruct (kahn_total _ Hc) as (order & Hord & Hnd & Hgr & Hen). exists order. split; [done|].
  split; [|done].
  pose proof (proj2 (kahn_complete_acyclic _ Hc order Hord) Ha) as Hlen.
  apply submseteq_length_Permutation; [|by rewrite length_map; lia].
  apply NoDup_submseteq; [done|]. intros x Hx%Hen. by eapply enabled_node.
Qed.

(** Some obligation can be worked on unless all are satisfied or one is explicitly blocked. *)
Lemma progress :
  (∀ o, o ∈ l → ob_status o ≠ BLOCKED) → (∃ o, o ∈ l ∧ ob_status o ≠ SATISFIED) →
  ∃ o, o ∈ l ∧ ob_status o = UNSATISFIED ∧ dependencies_satisfied o.
Proof.
  intros Hb (o & Ho & Hs). pose proof valid_spec as [_ _ Hi Hk Ha _].
  pose proof (reg_graph_closed l valid_wf Hi Hk) as Hc.
  assert (Hsn : sn (edge (reg_graph l)) (oid o)).
  { apply tc_finite_sn; [exact Ha|]. exists (map fst (reg_graph l)). intros z. by apply tc_edge_node. }
  remember (oid o) as i eqn:Ei. revert o Ho Hs Ei. induction Hsn as [i _ IH]. intros o Ho Hs ->.
  assert (Hu : ob_status o = UNSATISFIED) by (specialize (Hb o Ho); by destruct (ob_status o)).
  destruct (decide (Forall (λ d, unsatisfied_in l d = false) (ob_dependency_ids o))) as [Hall|Hn].
  - exists o. split; [done|]. split; [done|]. intros d Hd. apply unsatisfied_in_false.
    rewrite Forall_forall in Hall. auto.
  - apply not_Forall_Exists in Hn; [|apply _]. apply Exists_exists in Hn as (d & Hd & Hn).
    destruct (Hk o d Ho Hd) as (o' & Ho' & Hd'). apply (IH d) with o'; [|done| |done].
    + exists (ob_dependency_ids o). split; [|done]. apply elem_reg_graph. eauto.
    + intros Hs'. apply Hn, unsatisfied_in_false. eauto.
Qed.
End valid.

(** ** Status changes *)

Definition set_status (o : Obligation) (s : ObligationStatus) (b : option pystr) : Obligation :=
  {| ob_key := ob_key o; ob_description := ob_description o;
     ob_dependency_ids := ob_dependency_ids o; ob_status := s; ob_block_reason := b |}.

Lemma with_status_Ok o s b o' :
  wf o → Obligation.with_status o s b = Ok o' → o' = set_status o s b ∧ wf o'.
Proof.
  intros Hwf H. split; [|by eapply make_wf].
  apply make_inv in Hwf as (_ & _ & _ & _ & _ & _ & _ & Ho).
  apply make_inv in H as (_ & _ & _ & _ & _ & _ & _ & ->). unfold set_status. f_equal.
  by rewrite Ho at 2.
Qed.

Lemma set_status_oid o s b : oid (set_status o s b) = oid o.
Proof. done. Qed.

Definition change (i : pystr) (s : ObligationStatus) (b : option pystr) (o : Obligation) : Obligation :=
  if decide (oid o = i) then set_status o s b else o.

Lemma change_oid i s b o : oid (change i s b o) = oid o.
Proof. unfold change. by case_decide. Qed.

Lemma registry_with_status_Ok r i s b r' :
  valid r → ObligationRegistry.with_status r i s b = Ok r' →
  valid r' ∧ reg_obligations r' = map (change i s b) (reg_obligations r) ∧
  reg_max_obligations r' = reg_max_obligations r.
Proof.
  intros Hr H. unfold ObligationRegistry.with_status in H.
  apply res_bind_Ok in H as (o & Ho & H). apply res_bind_Ok in H as (l' & Hl' & H).
  assert (Hmap : l' = map (change i s b) (reg_obligations r) ∧ Forall wf l').
  { apply res_map_Ok in Hl'. pose proof (valid_wf r Hr) as Hwf. clear -Hl' Hwf.
    induction Hl' as [|x y l l' Hxy _ IH]; [by split; constructor|]. inversion Hwf; subst.
    destruct IH as [-> Hl]; [done|]. rewrite oid_Ok in Hxy by done. cbn [res_bind] in Hxy.
    assert (Hy : y = change i s b x ∧ wf y) by (unfold change; destruct (decide (oid x = i));
      [by apply with_status_Ok in Hxy|by injection Hxy as <-]).
    destruct Hy as [-> ?]. split; [done|by constructor]. }
  destruct Hmap as [-> Hwf']. pose proof (valid_intro _ _ _ Hwf' H) as Hv. split; [done|].
  apply registry_make_spec in H as [_ ->]; [|done]. simpl. split; [|done].
  rewrite sorted_by_map. rewrite (sorted_by_ext _ oid) by (intros; apply change_oid).
  destruct (valid_inv r Hr) as (_ & _ & Hs). by rewrite Hs.
Qed.

(** ** Properties *)

(** C37.  The registry accepts exactly the sets of obligations with distinct ids, known
    dependencies, no dependency cycle, and no satisfied obligation that depends on an
    unsatisfied one; it then holds them sorted by id. *)
Theorem registry_accepts_exactly l max r :
  Forall wf l →
  ObligationRegistry.make l max = Ok r ↔
  registry_spec l max ∧ r = {| reg_obligations := sorted_by oid l; reg_max_obligations := max |}.
Proof. apply registry_make_spec. Qed.

(** Readiness says what the statuses say: an unsatisfied obligation is ready exactly when
    all its dependencies are satisfied, and [readiness] never fails on a known id. *)
Theorem readiness_correct r o x :
  valid r → o ∈ reg_obligations r →
  ObligationRegistry.readiness r (oid o) = Ok x ↔
  match ob_status o with
  | SATISFIED => x = READINESS_SATISFIED
  | BLOCKED => x = EXPLICITLY_BLOCKED
  | UNSATISFIED => (x = READY ∧ dependencies_satisfied r o) ∨
                   (x = DEPENDENCY_BLOCKED ∧ ¬ dependencies_satisfied r o)
  end.
Proof. intros Hr Ho. by apply readiness_Ok. Qed.

(** Work is never stuck on dependencies alone: when no obligation is explicitly blocked and
    one is unsatisfied, [ready_ids] is not empty. *)
Theorem ready_work_exists r :
  valid r → (∀ o, o ∈ reg_obligations r → ob_status o ≠ BLOCKED) →
  (∃ o, o ∈ reg_obligations r ∧ ob_status o ≠ SATISFIED) →
  ∃ i ids, ObligationRegistry.ready_ids r = Ok (i :: ids).
Proof.
  intros Hr Hb Hs. destruct (progress r Hr Hb Hs) as (o & Ho & Hu & Hd).
  destruct (ready_ids_Ok r Hr) as (ids & Hids & Hi).
  assert (Hin : oid o ∈ ids) by (apply Hi; eauto).
  destruct ids as [|i ids]; [by apply elem_of_nil in Hin|]. eauto.
Qed.

(** C39.  [topological_ids] lists every obligation once, each after its dependencies, and always
    takes the least id that can come next. *)
Theorem topological_ids_correct r :
  valid r →
  ∃ order, ObligationRegistry.topological_ids r = Ok order ∧
    dependency_order (reg_graph (reg_obligations r)) order.
Proof. apply topological_Ok. Qed.

(** A status change that succeeds changes the status and reason of its obligation only,
    and the result is again a valid registry: satisfaction stays downward closed. *)
Theorem with_status_preserves r i s b r' :
  valid r → ObligationRegistry.with_status r i s b = Ok r' →
  valid r' ∧ reg_obligations r' = map (change i s b) (reg_obligations r) ∧
  reg_max_obligations r' = reg_max_obligations r.
Proof. apply registry_with_status_Ok. Qed.

(** *** Witnesses: [b] depends on [a] *)

Definition ex_a_id : pystr := Eval vm_compute in
  match canonical_obligation_id (u "task/a") with Ok i => i | Raise _ => [] end.

Definition ex_b_id : pystr := Eval vm_compute in
  match canonical_obligation_id (u "task/b") with Ok i => i | Raise _ => [] end.

Definition ex_a : Obligation :=
  {| ob_key := u "task/a"; ob_description := u "first"; ob_dependency_ids := [];
     ob_status := UNSATISFIED; ob_block_reason := None |}.

Definition ex_b : Obligation :=
  {| ob_key := u "task/b"; ob_description := u "second"; ob_dependency_ids := [ex_a_id];
     ob_status := UNSATISFIED; ob_block_reason := None |}.

Definition ex_registry : ObligationRegistry :=
  {| reg_obligations := [ex_a; ex_b]; reg_max_obligations := 8 |}.

Lemma ex_wf : Forall wf [ex_b; ex_a].
Proof. repeat constructor; vm_compute; reflexivity. Qed.

Lemma ex_make : ObligationRegistry.make [ex_b; ex_a] 8 = Ok ex_registry.
Proof. vm_compute. reflexivity. Qed.

Lemma ex_valid : valid ex_registry.
Proof. eapply valid_intro; [apply ex_wf|apply ex_make]. Qed.

Lemma registry_accepts_exactly_witness :
  registry_spec [ex_b; ex_a] 8 ∧
  ex_registry = {| reg_obligations := sorted_by oid [ex_b; ex_a]; reg_max_obligations := 8 |}.
Proof. apply (registry_accepts_exactly [ex_b; ex_a] 8 ex_registry ex_wf), ex_make. Defined.

Lemma readiness_correct_witness :
  ex_a ∈ reg_obligations ex_registry ∧
  (READY = READY ∧ dependencies_satisfied ex_registry ex_a ∨
   READY = DEPENDENCY_BLOCKED ∧ ¬ dependencies_satisfied ex_registry ex_a).
Proof.
  assert (Ha : ex_a ∈ reg_obligations ex_registry) by (simpl; set_solver). split; [done|].
  apply (readiness_correct ex_registry ex_a READY ex_valid Ha). vm_compute. reflexivity.
Defined.

Lemma ready_work_exists_witness : ∃ i ids, ObligationRegistry.ready_ids ex_registry = Ok (i :: ids).
Proof.
  apply (ready_work_exists ex_registry ex_valid).
  - intros o [->|[->|[]%elem_of_nil]%elem_of_cons]%elem_of_cons; done.
  - exists ex_a. split; [simpl; set_solver|done].
Defined.

Lemma topological_ids_correct_witness :
  ∃ order, ObligationRegistry.topological_ids ex_registry = Ok order ∧
    dependency_order (reg_graph (reg_obligations ex_registry)) order.
Proof. apply (topological_ids_correct ex_registry ex_valid). Defined.

Lemma with_status_preserves_witness :
  ∃ r', valid r' ∧ reg_obligations r' = map (change ex_a_id SATISFIED None) [ex_a; ex_b] ∧
    reg_max_obligations r' = 8.
Proof.
  exists {| reg_obligations := [set_status ex_a SATISFIED None; ex_b]; reg_max_obligations := 8 |}.
  apply (with_status_preserves ex_registry ex_a_id SATISFIED None _ ex_valid).
  vm_compute. reflexivity.
Defined.
