(* ===== verification/Epistemic.v ===== *)
(** * Epistemic state ([src/ibae/epistemic.py])

    A record says what is known about a key and how: observed (with provenance), derived (from
    other records), proposed by a model, or unknown.  The state holds records with distinct keys
    whose dependencies form a DAG of resolved records. *)

From Stdlib Require Import Ascii String.
From stdpp Require Import base list gmap.
From S2P Require Import Prelude PyStr PyNumber Sha256 Canonical Records Kahn.

Definition EPISTEMIC_RECORD_DOMAIN : pystr := u "ibae.epistemic-record.v1".
Definition EPISTEMIC_DEPENDENCY_DOMAIN : pystr := u "ibae.epistemic-dependencies.v1".
Definition MAX_EPISTEMIC_RECORDS : Z := 256.
Definition MAX_EPISTEMIC_DEPENDENCIES : Z := MAX_EPISTEMIC_RECORDS - 1.

Inductive EpistemicClass := OBSERVED | DERIVED | MODEL_PROPOSED | UNKNOWN.

#[export] Instance EpistemicClass_eq_dec : EqDecision EpistemicClass.
Proof. solve_decision. Defined.

Definition class_value (c : EpistemicClass) : pystr :=
  match c with
  | OBSERVED => u "observed"
  | DERIVED => u "derived"
  | MODEL_PROPOSED => u "model_proposed"
  | UNKNOWN => u "unknown"
  end.

Record ObservationProvenance := {
  pv_source : pystr;
  pv_source_identity : pystr;
  pv_dependency_identity : pystr;
  pv_reused : bool
}.

#[export] Instance ObservationProvenance_eq_dec : EqDecision ObservationProvenance.
Proof. solve_decision. Defined.

Module ObservationProvenance.

Definition make (source source_identity dependency_identity : pystr) (reused : bool)
    : res ObservationProvenance :=
  require_symbol source ;;*
  require_fingerprint source_identity ;;*
  require_fingerprint dependency_identity ;;*
  Ok {| pv_source := source; pv_source_identity := source_identity;
        pv_dependency_identity := dependency_identity; pv_reused := reused |}.

Definition canonical_record (p : ObservationProvenance) : pyval :=
  obj [("dependency_identity", VStr (pv_dependency_identity p));
       ("reused", VBool (pv_reused p));
       ("source", VStr (pv_source p));
       ("source_identity", VStr (pv_source_identity p))]%string.

(** Without the cache-path metadata. *)
Definition identity_record (p : ObservationProvenance) : pyval :=
  obj [("dependency_identity", VStr (pv_dependency_identity p));
       ("source", VStr (pv_source p));
       ("source_identity", VStr (pv_source_identity p))]%string.

End ObservationProvenance.

Record EpistemicRecord := {
  er_key : pystr;
  er_class : EpistemicClass;
  er_dependencies : list pystr;
  er_provenance : option ObservationProvenance;
  er_value : option CanonicalValue
}.

#[export] Instance EpistemicRecord_eq_dec : EqDecision EpistemicRecord.
Proof. solve_decision. Defined.

Definition is_some {A} (o : option A) : bool := match o with Some _ => true | None => false end.

Module EpistemicRecord.

(** [__init__]; [value] is [None] when the argument is not given. *)
Definition make (key : pystr) (epistemic_class : EpistemicClass) (value : option pyval)
    (dependencies : list pystr) (provenance : option ObservationProvenance) : res EpistemicRecord :=
  require_symbol key ;;*
  let* supplied := materialize dependencies MAX_EPISTEMIC_DEPENDENCIES in
  let normalized := sorted supplied in
  raise_if (has_duplicates normalized) ValueError ;;*
  res_iter require_symbol normalized ;;*
  raise_if (str_in key normalized) ValueError ;;*
  let* canonical_value :=
    if decide (epistemic_class = UNKNOWN) then
      raise_if (is_some value) ValueError ;;*
      raise_if (is_some provenance || nonempty normalized) ValueError ;;*
      Ok None
    else
      match value with
      | None => Raise ValueError
      | Some v => let* cv := CanonicalValue.from_value v in Ok (Some cv)
      end in
  (if decide (epistemic_class = OBSERVED) then
     raise_if (negb (is_some provenance)) ValueError ;;*
     raise_if (nonempty normalized) ValueError
   else raise_if (is_some provenance) ValueError) ;;*
  raise_if (negb (bool_decide (epistemic_class = DERIVED)) && nonempty normalized) ValueError ;;*
  Ok {| er_key := key; er_class := epistemic_class; er_dependencies := normalized;
        er_provenance := provenance; er_value := canonical_value |}.

Definition is_known (r : EpistemicRecord) : bool := negb (bool_decide (er_class r = UNKNOWN)).

Definition is_resolved (r : EpistemicRecord) : bool :=
  match er_class r with OBSERVED | DERIVED => true | _ => false end.

Definition value (r : EpistemicRecord) : res pyval :=
  match er_value r with
  | None => Raise ValueError
  | Some cv => CanonicalValue.to_value cv
  end.

(** The shared part of the two records; [record["value"] = ..] adds the last item. *)
Definition record_with (r : EpistemicRecord) (provenance : pyval) : res pyval :=
  let fields :=
    [("dependencies", strs_val (er_dependencies r));
     ("epistemic_class", VStr (class_value (er_class r)));
     ("key", VStr (er_key r));
     ("provenance", provenance)]%string in
  match er_value r with
  | None => Ok (obj fields)
  | Some cv => let* v := CanonicalValue.to_value cv in Ok (obj (fields ++ [("value", v)]%string))
  end.

Definition canonical_record (r : EpistemicRecord) : res pyval :=
  record_with r (opt_val ObservationProvenance.canonical_record (er_provenance r)).

(** [record["provenance"] = ..] replaces the value of that key. *)
Definition identity_record (r : EpistemicRecord) : res pyval :=
  record_with r (opt_val ObservationProvenance.identity_record (er_provenance r)).

Definition record_id (r : EpistemicRecord) : res pystr :=
  let* v := identity_record r in domain_fingerprint EPISTEMIC_RECORD_DOMAIN v.

End EpistemicRecord.

Record EpistemicState := {
  es_records : list EpistemicRecord;
  es_max_records : Z
}.

#[export] Instance EpistemicState_eq_dec : EqDecision EpistemicState.
Proof. solve_decision. Defined.

Module EpistemicState.

Definition graph_of (records : list EpistemicRecord) : graph :=
  map (λ r, (er_key r, er_dependencies r)) records.

Definition validate_acyclic (records : list EpistemicRecord) : res unit :=
  let* visited := kahn (graph_of records) in
  raise_if (negb (length visited =? length records)%nat) ValueError.

Definition by_key_of (records : list EpistemicRecord) : gmap pystr EpistemicRecord :=
  dict_of (map (λ r, (er_key r, r)) records).

(** The dependencies that are not resolved. *)
Definition unresolved_dependencies (by_key : gmap pystr EpistemicRecord) (r : EpistemicRecord)
    : res (list pystr) :=
  res_fold (λ acc d,
      let* item := dict_get by_key d in
      Ok (if EpistemicRecord.is_resolved item then acc else acc ++ [d])) [] (er_dependencies r).

(** [__post_init__] *)
Definition make (supplied_records : list EpistemicRecord) (max_records : Z) : res EpistemicState :=
  require_bounded_positive_int max_records MAX_EPISTEMIC_RECORDS ;;*
  let* supplied := materialize supplied_records max_records in
  let records := sorted_by er_key supplied in
  raise_if (max_records <? Z.of_nat (length records)) ValueError ;;*
  let keys := map er_key records in
  raise_if (has_duplicates keys) ValueError ;;*
  res_iter (λ r, raise_if (existsb (λ d, negb (str_in d keys)) (er_dependencies r)) ValueError) records ;;*
  validate_acyclic records ;;*
  res_iter (λ r,
      let* unresolved := unresolved_dependencies (by_key_of records) r in
      raise_if (nonempty unresolved) ValueError) records ;;*
  Ok {| es_records := records; es_max_records := max_records |}.

Definition from_iterable (next : nat → option EpistemicRecord) (max_records : Z) : res EpistemicState :=
  require_bounded_positive_int max_records MAX_EPISTEMIC_RECORDS ;;*
  let* supplied := materialize_bounded_iterable next max_records in
  make supplied max_records.

Definition by_key (s : EpistemicState) : gmap pystr EpistemicRecord := by_key_of (es_records s).

Definition get (s : EpistemicState) (key : pystr) : res EpistemicRecord :=
  require_symbol key ;;*
  dict_get (by_key s) key.

Definition is_unresolved (m : gmap pystr EpistemicRecord) (key : pystr) : bool :=
  match m !! key with
  | None => true
  | Some r => negb (EpistemicRecord.is_resolved r)
  end.

Definition unresolved_keys (s : EpistemicState) (keys : list pystr) : res (list pystr) :=
  let* normalized := materialize keys MAX_EPISTEMIC_RECORDS in
  Ok (sorted_set (List.filter (is_unresolved (by_key s)) normalized)).

(** The body of the [for] loop: keys not in the closure are added to it and to the stack. *)
Definition add_new (st : list pystr * list pystr) (d : pystr) : list pystr * list pystr :=
  let '(closure, pending) := st in
  if str_in d closure then st else (closure ++ [d], pending ++ [d]).

(** [while pending: key = pending.pop(); ..].  The stack pops its last element. *)
Fixpoint close (fuel : nat) (m : gmap pystr EpistemicRecord) (closure pending : list pystr)
    : res (list pystr) :=
  match rev pending with
  | [] => Ok closure
  | key :: rest =>
      match fuel with
      | O => Raise AssertionError
      | S fuel =>
          let* r := dict_get m key in
          let '(closure, pending) := fold_left add_new (er_dependencies r) (closure, rev rest) in
          close fuel m closure pending
      end
  end.

(** [dependency_digest], with the records that it hashes *)
Definition dependency_records (s : EpistemicState) (keys : list pystr) : res (list pyval) :=
  let* supplied := materialize keys MAX_EPISTEMIC_RECORDS in
  let normalized := sorted supplied in
  raise_if (has_duplicates normalized) ValueError ;;*
  let* unresolved := unresolved_keys s normalized in
  raise_if (nonempty unresolved) KeyError ;;*
  let m := by_key s in
  let* closure := close (length (es_records s)) m normalized normalized in
  res_map (λ k, let* r := dict_get m k in EpistemicRecord.identity_record r) (sorted closure).

Definition dependency_digest (s : EpistemicState) (keys : list pystr) : res pystr :=
  let* records := dependency_records s keys in
  domain_fingerprint EPISTEMIC_DEPENDENCY_DOMAIN (VList records).

Definition canonical_record (s : EpistemicState) : res pyval :=
  let* l := res_map EpistemicRecord.canonical_record (es_records s) in
  Ok (obj [("max_records", VInt (es_max_records s)); ("records", VList l)]%string).

(** Without the model proposals, which carry no authority. *)
Definition identity_record (s : EpistemicState) : res pyval :=
  let* l := res_map EpistemicRecord.identity_record
    (List.filter (λ r, negb (bool_decide (er_class r = MODEL_PROPOSED))) (es_records s)) in
  Ok (obj [("max_records", VInt (es_max_records s)); ("records", VList l)]%string).

Definition projection (s : EpistemicState) : res pyval :=
  let* groups := res_map (λ c,
      let* l := res_map EpistemicRecord.canonical_record
        (List.filter (λ r, bool_decide (er_class r = c)) (es_records s)) in
      Ok (VStr (class_value c), VList l)) [OBSERVED; DERIVED; MODEL_PROPOSED; UNKNOWN] in
  Ok (VDict groups).

End EpistemicState.
