(* ===== verification/EpistemicFacts.v ===== *)
(** * Properties of the epistemic state

    A derived record never rests on a model proposal or an unknown, however long the chain; and
    the dependency digest of a set of keys commits to exactly the records that support them. *)

From Stdlib Require Import Ascii String.
From stdpp Require Import base list sets gmap relations.
From S2P Require Import Prelude PyStr PyNumber Sha256 Canonical CanonicalFacts Fingerprints Records RecordsFacts Kahn KahnFacts Epistemic.

(** ** Constructed records *)

Definition provenance_ok (p : ObservationProvenance) : Prop :=
  require_symbol (pv_source p) = Ok tt ∧ fingerprint_pattern (pv_source_identity p) = true ∧
  fingerprint_pattern (pv_dependency_identity p) = true.

(** What the constructor guarantees, class by class. *)
Record record_ok (r : EpistemicRecord) : Prop := {
  rec_key : require_symbol (er_key r) = Ok tt;
  rec_deps : NoDup (er_dependencies r) ∧ sorted (er_dependencies r) = er_dependencies r ∧
    ∀ d, d ∈ er_dependencies r → require_symbol d = Ok tt;
  rec_no_self : er_key r ∉ er_dependencies r;
  rec_value : match er_value r with
              | None => er_class r = UNKNOWN
              | Some cv => er_class r ≠ UNKNOWN ∧ ∃ v, admissible value_limits v ∧ canonical_json v = Ok (cv_text cv)
              end;
  rec_provenance : match er_provenance r with
                   | None => er_class r ≠ OBSERVED
                   | Some p => er_class r = OBSERVED ∧ provenance_ok p
                   end;
  rec_derived : er_dependencies r ≠ [] → er_class r = DERIVED
}.

Definition provenance_arg_ok (o : option ObservationProvenance) : Prop :=
  match o with None => True | Some p => provenance_ok p end.

Lemma provenance_make_ok s i d b p :
  ObservationProvenance.make s i d b = Ok p → provenance_ok p.
Proof.
  unfold ObservationProvenance.make. intros H. res_inv. subst. unfold provenance_ok. simpl.
  by rewrite <- !require_fingerprint_Ok.
Qed.

Lemma is_some_false {A} (o : option A) : is_some o = false → o = None.
Proof. by destruct o. Qed.

Lemma record_make_ok k c v deps p r :
  provenance_arg_ok p → EpistemicRecord.make k c v deps p = Ok r →
  record_ok r ∧ er_key r = k ∧ er_class r = c ∧ er_dependencies r = sorted deps ∧ er_provenance r = p.
Proof.
  intros Hp H. unfold EpistemicRecord.make in H.
  apply res_bind_Ok in H as ([] & Hk & H). apply res_bind_Ok in H as (l & [-> _]%materialize_Ok & H).
  apply res_bind_Ok in H as ([] & Hnd%raise_if_Ok%has_duplicates_false & H).
  apply res_bind_Ok in H as ([] & Hs%res_iter_Ok & H).
  apply res_bind_Ok in H as ([] & Hself%raise_if_Ok%str_in_false & H).
  apply res_bind_Ok in H as (cv & Hcv & H). apply res_bind_Ok in H as ([] & Hobs & H).
  apply res_bind_Ok in H as ([] & Hder%raise_if_Ok & [= <-]).
  split; [|done]. rewrite Forall_forall in Hs. constructor; cbn [er_key er_dependencies er_class er_value er_provenance].
  - done.
  - split; [done|]. split; [apply sorted_idem|done].
  - done.
  - destruct (decide (c = UNKNOWN)); [res_inv; by subst|]. destruct v as [v|]; [|done].
    apply res_bind_Ok in Hcv as (cv' & Hf & [= <-]). apply from_value_iff in Hf. eauto.
  - destruct (decide (c = OBSERVED)) as [->|]; [|apply raise_if_Ok, is_some_false in Hobs as ->; done].
    apply res_bind_Ok in Hobs as ([] & Hsome%raise_if_Ok & _). destruct p; done.
  - intros Hne. destruct (decide (c = DERIVED)); [done|]. rewrite bool_decide_false in Hder by done.
    by destruct (sorted deps).
Qed.

(** ** Identity records *)

Definition identity_fields (p : option ObservationProvenance) : option (pystr * pystr * pystr) :=
  (λ p, (pv_source p, pv_source_identity p, pv_dependency_identity p)) <$> p.

(** Two records with the same identity: only the [reused] flag may differ. *)
Definition same_identity (r1 r2 : EpistemicRecord) : Prop :=
  er_key r1 = er_key r2 ∧ er_class r1 = er_class r2 ∧ er_dependencies r1 = er_dependencies r2 ∧
  er_value r1 = er_value r2 ∧ identity_fields (er_provenance r1) = identity_fields (er_provenance r2).

Lemma class_value_inj c1 c2 : class_value c1 = class_value c2 → c1 = c2.
Proof. by destruct c1, c2. Qed.

Lemma canon_strs l : canon (strs_val l) = strs_val l.
Proof. unfold strs_val. cbn [canon]. by rewrite map_map. Qed.

Lemma strs_val_inj l1 l2 : strs_val l1 = strs_val l2 → l1 = l2.
Proof.
  unfold strs_val. intros [= H]. revert l2 H; induction l1 as [|x l1 IH]; intros [|y l2]; simpl; try done.
  intros [= -> H]. f_equal. auto.
Qed.

(** The value of a known record reads back, in canonical form. *)
Lemma value_to_value v cv :
  admissible value_limits v → canonical_json v = Ok (cv_text cv) →
  CanonicalValue.to_value cv = Ok (canon v) ∧ clean (canon v) = true ∧ dict_wf (canon v) = true ∧
  canonical_json (canon v) = Ok (cv_text cv).
Proof.
  intros Ha Ht. split.
  - apply from_value_to_value, from_value_iff. done.
  - assert (Hs : shape_ok value_limits 0 (canon v) = true) by (rewrite shape_ok_canon; apply Ha).
    split; [by eapply shape_ok_clean|]. split; [by eapply shape_ok_wf|]. by rewrite canonical_json_canon_eq.
Qed.

Lemma canon_idem_admissible v : admissible value_limits v → canon (canon v) = canon v.
Proof.
  intros Ha. destruct (admissible_text _ _ Ha) as (t & Ht & _ & _ & Hload).
  pose proof (check_canonical_text_ok _ _ _ value_limits_ok Ha Ht) as Hc.
  apply check_canonical_text_inv in Hc as (w & Hw & _ & _ & Hcw); [|apply value_limits_ok]. congruence.
Qed.

Definition base_fields (r : EpistemicRecord) (p : pyval) : list (string * pyval) :=
  [("dependencies", strs_val (er_dependencies r)); ("epistemic_class", VStr (class_value (er_class r)));
   ("key", VStr (er_key r)); ("provenance", p)]%string.

Lemma provenance_identity_clean p :
  provenance_ok p →
  clean (ObservationProvenance.identity_record p) = true ∧
  clean (ObservationProvenance.canonical_record p) = true.
Proof.
  intros (Hs%symbol_clean & Hi%fingerprint_clean & Hd%fingerprint_clean).
  unfold ObservationProvenance.identity_record, ObservationProvenance.canonical_record.
  split; clean_tac; done.
Qed.

Lemma class_value_clean c : clean (VStr (class_value c)) = true.
Proof. by destruct c. Qed.

Lemma symbols_clean l : (∀ d, d ∈ l → require_symbol d = Ok tt) → clean (strs_val l) = true.
Proof. intros H. apply clean_strs, Forall_forall. intros d Hd. by apply symbol_clean, H. Qed.

Lemma base_fields_clean r p :
  record_ok r → clean p = true →
  forallb (λ kv, no_surrogate (u kv.1) && clean kv.2) (base_fields r p) = true.
Proof.
  intros [Hk (_ & _ & Hd) _ _ _ _] Hp. unfold base_fields. cbn [forallb fst snd].
  rewrite (symbols_clean _ Hd), class_value_clean, Hp. cbn [clean].
  by rewrite (symbol_clean _ Hk).
Qed.

(** The record under either provenance: total, serializable and well formed. *)
Lemma record_with_ok r p :
  record_ok r → clean p = true → dict_wf p = true →
  ∃ v, EpistemicRecord.record_with r p = Ok v ∧ clean v = true ∧ dict_wf v = true ∧
    ((er_value r = None ∧ v = obj (base_fields r p)) ∨
     ∃ cv w, er_value r = Some cv ∧ v = obj (base_fields r p ++ [("value", w)]%string) ∧
       canon w = w ∧ canonical_json w = Ok (cv_text cv)).
Proof.
  intros Hr Hp Hpw. pose proof (base_fields_clean r p Hr Hp) as Hb.
  unfold EpistemicRecord.record_with. fold (base_fields r p). destruct Hr as [_ _ _ Hv _ _].
  destruct (er_value r) as [cv|].
  - destruct Hv as (_ & v & Ha & Ht). destruct (value_to_value v cv Ha Ht) as (-> & Hc & Hw & Ht').
    cbn [res_bind]. eexists. split; [done|]. split; [|split].
    + rewrite clean_obj, forallb_app, Hb. cbn [forallb fst snd]. by rewrite Hc.
    + unfold base_fields. cbn [app]. wf_obj. by rewrite Hpw, Hw.
    + right. exists cv, (canon v). split; [done|]. split; [done|].
      split; [by apply canon_idem_admissible|done].
  - eexists. split; [done|]. split; [|split].
    + by rewrite clean_obj.
    + unfold base_fields. wf_obj. by rewrite Hpw.
    + by left.
Qed.

Lemma identity_record_ok r :
  record_ok r →
  ∃ v, EpistemicRecord.identity_record r = Ok v ∧ clean v = true ∧ dict_wf v = true.
Proof.
  intros Hr. unfold EpistemicRecord.identity_record.
  destruct (record_with_ok r (opt_val ObservationProvenance.identity_record (er_provenance r)) Hr)
    as (v & ? & ? & ? & _); [| |by eauto].
  - apply clean_opt. intros p Hp. pose proof (rec_provenance _ Hr) as H. rewrite Hp in H.
    apply (provenance_identity_clean p (proj2 H)).
  - apply opt_val_wf. intros p _. unfold ObservationProvenance.identity_record. by wf_obj.
Qed.

Lemma canon_provenance_inj o1 o2 :
  canon (opt_val ObservationProvenance.identity_record o1) =
  canon (opt_val ObservationProvenance.identity_record o2) →
  identity_fields o1 = identity_fields o2.
Proof. destruct o1, o2; cbn; try done. by intros [= -> -> ->]. Qed.

Lemma identity_record_inj r1 r2 v1 v2 :
  record_ok r1 → record_ok r2 →
  EpistemicRecord.identity_record r1 = Ok v1 → EpistemicRecord.identity_record r2 = Ok v2 →
  canon v1 = canon v2 → same_identity r1 r2.
Proof.
  intros H1 H2 E1 E2 Hc. unfold EpistemicRecord.identity_record in *.
  assert (Hp : ∀ r, record_ok r → clean (opt_val ObservationProvenance.identity_record (er_provenance r)) = true
     ∧ dict_wf (opt_val ObservationProvenance.identity_record (er_provenance r)) = true).
  { intros r Hr. split; [|apply opt_val_wf; intros p _; unfold ObservationProvenance.identity_record; by wf_obj].
    apply clean_opt. intros p Hp. pose proof (rec_provenance _ Hr) as H. rewrite Hp in H.
    apply (provenance_identity_clean p (proj2 H)). }
  destruct (record_with_ok r1 _ H1 (proj1 (Hp r1 H1)) (proj2 (Hp r1 H1))) as (w1 & E1' & _ & _ & S1).
  destruct (record_with_ok r2 _ H2 (proj1 (Hp r2 H2)) (proj2 (Hp r2 H2))) as (w2 & E2' & _ & _ & S2).
  rewrite E1 in E1'. rewrite E2 in E2'. injection E1' as <-. injection E2' as <-.
  unfold same_identity.
  assert (Hbase : ∀ kvs1 kvs2,
    canon (obj (base_fields r1 (opt_val ObservationProvenance.identity_record (er_provenance r1)) ++ kvs1)) =
    canon (obj (base_fields r2 (opt_val ObservationProvenance.identity_record (er_provenance r2)) ++ kvs2)) →
    bool_decide (NoDup (obj_keys (base_fields r2 VNone ++ kvs2))) = true →
    er_key r1 = er_key r2 ∧ er_class r1 = er_class r2 ∧ er_dependencies r1 = er_dependencies r2 ∧
    identity_fields (er_provenance r1) = identity_fields (er_provenance r2)).
  { intros kvs1 kvs2 H Hn.
    pose proof (obj_field "dependencies"%string _ _ _ _ H Hn eq_refl eq_refl) as F1.
    pose proof (obj_field "epistemic_class"%string _ _ _ _ H Hn eq_refl eq_refl) as F2.
    pose proof (obj_field "key"%string _ _ _ _ H Hn eq_refl eq_refl) as F3.
    pose proof (obj_field "provenance"%string _ _ _ _ H Hn eq_refl eq_refl) as F4.
    rewrite !canon_strs in F1. apply strs_val_inj in F1. cbn [canon] in F2, F3. injection F2 as F2.
    injection F3 as F3. apply class_value_inj in F2. by apply canon_provenance_inj in F4. }
  destruct S1 as [[V1 ->]|(cv1 & x1 & V1 & -> & C1 & T1)], S2 as [[V2 ->]|(cv2 & x2 & V2 & -> & C2 & T2)];
    try (apply canon_obj_length in Hc; discriminate Hc).
  - destruct (Hbase [] []) as (? & ? & ? & ?); [by rewrite !app_nil_r|vm_compute; reflexivity|].
    rewrite V1, V2. done.
  - assert (Hn : ∀ p, bool_decide (NoDup (obj_keys (base_fields r2 p ++ [("value", x2)]%string))) = true)
      by (intros; vm_compute; reflexivity).
    destruct (Hbase _ _ Hc (Hn _)) as (? & ? & ? & ?).
    pose proof (obj_field "value"%string _ _ _ _ Hc (Hn _) eq_refl eq_refl) as F.
    rewrite C1, C2 in F. subst x2. rewrite T1 in T2. injection T2 as T2. rewrite V1, V2.
    destruct cv1, cv2. simpl in T2. by subst.
Qed.

Lemma identity_fields_record o1 o2 :
  identity_fields o1 = identity_fields o2 →
  opt_val ObservationProvenance.identity_record o1 = opt_val ObservationProvenance.identity_record o2.
Proof.
  destruct o1, o2; cbn; try done. unfold ObservationProvenance.identity_record. by intros [= -> -> ->].
Qed.

(** The identity does not see whether an observation was reused. *)
Lemma same_identity_record r1 r2 :
  same_identity r1 r2 → EpistemicRecord.identity_record r1 = EpistemicRecord.identity_record r2.
Proof.
  intros (Hk & Hc & Hd & Hv & Hp). unfold EpistemicRecord.identity_record, EpistemicRecord.record_with.
  by rewrite Hk, Hc, Hd, Hv, (identity_fields_record _ _ Hp).
Qed.

(** ** The state *)

Notation state_graph := EpistemicState.graph_of.

Lemma elem_state_graph l x ds :
  (x, ds) ∈ state_graph l ↔ ∃ r, r ∈ l ∧ er_key r = x ∧ er_dependencies r = ds.
Proof.
  unfold EpistemicState.graph_of. rewrite list_elem_of_In, in_map_iff.
  setoid_rewrite <- list_elem_of_In. naive_solver.
Qed.

Lemma state_graph_fst l : map fst (state_graph l) = map er_key l.
Proof. unfold EpistemicState.graph_of. by rewrite map_map. Qed.

Lemma elem_keys l k : k ∈ map er_key l ↔ ∃ r, r ∈ l ∧ er_key r = k.
Proof. rewrite list_elem_of_In, in_map_iff. setoid_rewrite <- list_elem_of_In. naive_solver. Qed.

Definition resolved (r : EpistemicRecord) : Prop := EpistemicRecord.is_resolved r = true.

Record state_spec (l : list EpistemicRecord) (max : Z) : Prop := {
  st_max : 0 < max <= MAX_EPISTEMIC_RECORDS;
  st_bound : Z.of_nat (length l) <= max;
  st_keys : NoDup (map er_key l);
  st_known : ∀ r d, r ∈ l → d ∈ er_dependencies r → ∃ r', r' ∈ l ∧ er_key r' = d;
  st_acyclic : acyclic (state_graph l);
  st_resolved : ∀ r d, r ∈ l → d ∈ er_dependencies r → ∃ r', r' ∈ l ∧ er_key r' = d ∧ resolved r'
}.

Lemma by_key_lookup l k r :
  NoDup (map er_key l) → EpistemicState.by_key_of l !! k = Some r ↔ r ∈ l ∧ er_key r = k.
Proof.
  intros Hnd. unfold EpistemicState.by_key_of. rewrite dict_of_lookup by (by rewrite map_map).
  rewrite list_elem_of_In, in_map_iff. setoid_rewrite <- list_elem_of_In. naive_solver.
Qed.

Lemma by_key_None l k : EpistemicState.by_key_of l !! k = None ↔ ∀ r, r ∈ l → er_key r ≠ k.
Proof.
  unfold EpistemicState.by_key_of. rewrite dict_of_None, map_map. cbn [fst].
  rewrite elem_keys. naive_solver.
Qed.

Lemma state_graph_closed l :
  Forall record_ok l → NoDup (map er_key l) →
  (∀ r d, r ∈ l → d ∈ er_dependencies r → ∃ r', r' ∈ l ∧ er_key r' = d) → closed (state_graph l).
Proof.
  intros Hok Hnd Hk. split; [by rewrite state_graph_fst|].
  intros x ds (r & Hr & <- & <-)%elem_state_graph. rewrite Forall_forall in Hok.
  split; [apply (rec_deps _ (Hok r Hr))|]. intros d Hd. rewrite state_graph_fst. apply elem_keys. eauto.
Qed.

Lemma unresolved_dependencies_nil l r :
  NoDup (map er_key l) → (∀ d, d ∈ er_dependencies r → ∃ r', r' ∈ l ∧ er_key r' = d) →
  ∃ ds, EpistemicState.unresolved_dependencies (EpistemicState.by_key_of l) r = Ok ds ∧
    (nonempty ds = false ↔ ∀ d, d ∈ er_dependencies r → ∃ r', r' ∈ l ∧ er_key r' = d ∧ resolved r').
Proof.
  intros Hnd. unfold EpistemicState.unresolved_dependencies.
  match goal with |- context [res_fold ?f] => set (step := f) end.
  enough (H : ∀ todo acc, (∀ d, d ∈ todo → ∃ r', r' ∈ l ∧ er_key r' = d) →
    ∃ ds, res_fold step acc todo = Ok ds ∧ (nonempty ds = false ↔ nonempty acc = false ∧
      ∀ d, d ∈ todo → ∃ r', r' ∈ l ∧ er_key r' = d ∧ resolved r')).
  { intros Hk. destruct (H _ [] Hk) as (ds & -> & Hds). exists ds. split; [done|]. naive_solver. }
  induction todo as [|d todo IH]; intros acc Hk; cbn [res_fold].
  { exists acc. split; [done|]. set_solver. }
  destruct (Hk d) as (r' & Hr' & Hd); [set_solver|].
  pose proof (proj2 (by_key_lookup l d r' Hnd) (conj Hr' Hd)) as Hl.
  unfold step at 1, dict_get. rewrite Hl. cbn [res_bind].
  destruct (IH (if EpistemicRecord.is_resolved r' then acc else acc ++ [d])) as (ds & Hds & Hn); [set_solver|].
  exists ds. split; [done|]. rewrite Hn. destruct (EpistemicRecord.is_resolved r') eqn:E.
  - split; intros [? H]; (split; [done|]); intros d' Hd'; [|apply H; set_solver].
    apply elem_of_cons in Hd' as [->|]; [exists r'|]; auto.
  - split; [intros [Hne _]; by destruct acc|]. intros [_ H]. destruct (H d) as (r2 & Hr2 & Hd2 & Hres); [set_solver|].
    pose proof (proj2 (by_key_lookup l d r2 Hnd) (conj Hr2 Hd2)) as Hl2.
    assert (r2 = r') as -> by congruence. unfold resolved in Hres. congruence.
Qed.

Lemma max_records_Ok v :
  require_bounded_positive_int v MAX_EPISTEMIC_RECORDS = Ok tt ↔ 0 < v <= MAX_EPISTEMIC_RECORDS.
Proof. apply bounded_small. done. Qed.

Lemma acyclic_Ok l :
  closed (state_graph l) → EpistemicState.validate_acyclic l = Ok tt ↔ acyclic (state_graph l).
Proof.
  intros Hc. unfold EpistemicState.validate_acyclic.
  destruct (kahn_total _ Hc) as (order & Hk & _). rewrite Hk. cbn [res_bind].
  rewrite raise_if_Ok, negb_false_iff, Nat.eqb_eq.
  replace (length l) with (length (state_graph l)) by apply length_map.
  by apply kahn_complete_acyclic.
Qed.

Lemma known_keys_Ok l :
  res_iter (λ r, raise_if (existsb (λ d, negb (str_in d (map er_key l))) (er_dependencies r)) ValueError) l
    = Ok tt ↔ ∀ r d, r ∈ l → d ∈ er_dependencies r → ∃ r', r' ∈ l ∧ er_key r' = d.
Proof.
  rewrite res_iter_Ok, Forall_forall. split.
  - intros H r d Hr Hd. specialize (H r Hr). apply raise_if_Ok in H.
    rewrite existsb_elem_false in H. specialize (H d Hd). apply negb_false_iff, str_in_true in H.
    by apply elem_keys.
  - intros H r Hr. apply raise_if_Ok, existsb_elem_false. intros d Hd.
    apply negb_false_iff, str_in_true, elem_keys. by apply (H r).
Qed.

Lemma resolved_check_Ok l :
  NoDup (map er_key l) → (∀ r d, r ∈ l → d ∈ er_dependencies r → ∃ r', r' ∈ l ∧ er_key r' = d) →
  res_iter (λ r, let* uns := EpistemicState.unresolved_dependencies (EpistemicState.by_key_of l) r in
                 raise_if (nonempty uns) ValueError) l = Ok tt ↔
  ∀ r d, r ∈ l → d ∈ er_dependencies r → ∃ r', r' ∈ l ∧ er_key r' = d ∧ resolved r'.
Proof.
  intros Hnd Hk. rewrite res_iter_Ok, Forall_forall. split.
  - intros H r d Hr. specialize (H r Hr).
    destruct (unresolved_dependencies_nil l r Hnd (λ d, Hk r d Hr)) as (ds & Hds & Hn). rewrite Hds in H.
    cbn [res_bind] in H. apply raise_if_Ok in H. exact (proj1 Hn H d).
  - intros H r Hr. destruct (unresolved_dependencies_nil l r Hnd (λ d, Hk r d Hr)) as (ds & -> & Hn).
    cbn [res_bind]. apply raise_if_Ok, Hn. eauto.
Qed.

Lemma state_spec_perm l1 l2 max : l1 ≡ₚ l2 → state_spec l1 max → state_spec l2 max.
Proof.
  intros Hp [H1 H2 H3 H4 H5 H6]. constructor.
  - done.
  - by rewrite <- Hp.
  - by rewrite <- (Permutation_map er_key Hp).
  - intros r d Hr Hd. rewrite <- Hp in Hr. destruct (H4 r d Hr Hd) as (r' & ? & ?).
    exists r'. by rewrite <- Hp.
  - eapply acyclic_perm; [|done]. by apply Permutation_map.
  - intros r d Hr Hd. rewrite <- Hp in Hr. destruct (H6 r d Hr Hd) as (r' & ? & ?).
    exists r'. by rewrite <- Hp.
Qed.

Lemma state_make_spec l max s :
  Forall record_ok l →
  EpistemicState.make l max = Ok s ↔
  state_spec l max ∧ s = {| es_records := sorted_by er_key l; es_max_records := max |}.
Proof.
  intros Hok. set (sl := sorted_by er_key l).
  assert (Hperm : sl ≡ₚ l) by apply sorted_by_perm.
  assert (Hoks : Forall record_ok sl) by (by rewrite Hperm).
  assert (Hspec : state_spec l max ↔ state_spec sl max)
    by (split; apply state_spec_perm; [symmetry|]; done).
  rewrite Hspec. unfold EpistemicState.make. split.
  - intros ([] & Hm%max_records_Ok & (l' & [-> Hl]%materialize_Ok & H)%res_bind_Ok)%res_bind_Ok.
    fold sl in H. apply res_bind_Ok in H as ([] & _ & H).
    apply res_bind_Ok in H as ([] & Hd%raise_if_Ok%has_duplicates_false & H).
    apply res_bind_Ok in H as ([] & Hk0 & H). pose proof (proj1 (known_keys_Ok sl) Hk0) as Hk.
    apply res_bind_Ok in H as ([] & Ha & H). apply res_bind_Ok in H as ([] & Hr0 & [= <-]).
    pose proof (proj1 (resolved_check_Ok sl Hd Hk) Hr0) as Hr.
    rewrite acyclic_Ok in Ha by (by apply state_graph_closed). split; [|done].
    constructor; try done. by rewrite Hperm.
  - intros [[Hm Hb Hi Hk Ha Hr] ->]. rewrite (proj2 (max_records_Ok max) Hm). cbn [res_bind].
    rewrite materialize_list by (by apply (limit_ok_small _ MAX_EPISTEMIC_RECORDS)). rewrite <- Hperm.
    replace (_ <=? max) with true by lia. cbn [res_bind]. fold sl.
    replace (max <? Z.of_nat (length sl)) with false by lia. cbn [raise_if res_bind].
    rewrite (proj2 (has_duplicates_false (map er_key sl))) by done. cbn [raise_if res_bind].
    rewrite (proj2 (known_keys_Ok sl)) by done. cbn [res_bind].
    rewrite (proj2 (acyclic_Ok sl (state_graph_closed _ Hoks Hi Hk))) by done. cbn [res_bind].
    rewrite (proj2 (resolved_check_Ok sl Hi Hk)) by done. done.
Qed.

Definition valid_state (s : EpistemicState) : Prop :=
  ∃ l, Forall record_ok l ∧ EpistemicState.make l (es_max_records s) = Ok s.

Lemma valid_state_inv s :
  valid_state s → Forall record_ok (es_records s) ∧ state_spec (es_records s) (es_max_records s).
Proof.
  intros (l & Hok & [Hs Hr]%state_make_spec); [|done]. destruct s as [sl max]. simpl in *.
  injection Hr as ->. split; [by rewrite sorted_by_perm|].
  eapply state_spec_perm; [|done]. symmetry. apply sorted_by_perm.
Qed.

(** ** Support: the records a key rests on *)

Definition depends (s : EpistemicState) (k d : pystr) : Prop := edge (state_graph (es_records s)) k d.

(** [k] is one of [keys] or supports one of them. *)
Definition supports (s : EpistemicState) (keys : list pystr) (k : pystr) : Prop :=
  ∃ k0, k0 ∈ keys ∧ rtc (depends s) k0 k.

Section state.
  Context (s : EpistemicState) (Hs : valid_state s).

Lemma state_records : Forall record_ok (es_records s).
Proof. by destruct (valid_state_inv s Hs). Qed.

Lemma state_ok : state_spec (es_records s) (es_max_records s).
Proof. by destruct (valid_state_inv s Hs). Qed.

Lemma lookup_state k r :
  EpistemicState.by_key s !! k = Some r ↔ r ∈ es_records s ∧ er_key r = k.
Proof. apply by_key_lookup, (st_keys _ _ state_ok). Qed.

Lemma lookup_record_ok k r : EpistemicState.by_key s !! k = Some r → record_ok r ∧ er_key r = k.
Proof.
  intros [Hr Hk]%lookup_state. pose proof state_records as H. rewrite Forall_forall in H. auto.
Qed.

Lemma depends_lookup k r d :
  EpistemicState.by_key s !! k = Some r → depends s k d ↔ d ∈ er_dependencies r.
Proof.
  intros Hk. pose proof Hk as [Hr Hkr]%lookup_state. split.
  - intros (ds & (r' & Hr' & Hk' & <-)%elem_state_graph & Hd).
    assert (EpistemicState.by_key s !! k = Some r') by (by apply lookup_state). congruence.
  - intros Hd. exists (er_dependencies r). split; [|done]. apply elem_state_graph. eauto.
Qed.

Lemma depends_resolved k d :
  depends s k d → ∃ r, EpistemicState.by_key s !! d = Some r ∧ resolved r.
Proof.
  intros (ds & (r & Hr & <- & <-)%elem_state_graph & Hd).
  destruct (st_resolved _ _ state_ok r d Hr Hd) as (r' & Hr' & Hd' & Hres).
  exists r'. split; [by apply lookup_state|done].
Qed.

(** Everything below a record, at any depth, is observed or derived. *)
Lemma support_resolved k d :
  tc (depends s) k d → ∃ r, EpistemicState.by_key s !! d = Some r ∧ resolved r.
Proof. intros H. induction H as [k d H|k k' d _ _ IH]; [by apply depends_resolved in H|done]. Qed.

Lemma unresolved_keys_Ok keys :
  Z.of_nat (length keys) <= MAX_EPISTEMIC_RECORDS →
  ∃ ks, EpistemicState.unresolved_keys s keys = Ok ks ∧
    ∀ k, k ∈ ks ↔ k ∈ keys ∧ ¬ ∃ r, EpistemicState.by_key s !! k = Some r ∧ resolved r.
Proof.
  intros Hl. unfold EpistemicState.unresolved_keys.
  rewrite materialize_list by done. replace (_ <=? MAX_EPISTEMIC_RECORDS) with true by lia.
  cbn [res_bind]. eexists. split; [done|]. intros k.
  rewrite sorted_set_elem, list_elem_of_In, filter_In, <- list_elem_of_In.
  unfold EpistemicState.is_unresolved, resolved. destruct (EpistemicState.by_key s !! k) as [r|].
  - rewrite negb_true_iff. split; intros [Hk H]; (split; [done|]).
    + intros (r' & [= <-] & H'). congruence.
    + destruct (EpistemicRecord.is_resolved r) eqn:E; [|done]. destruct H. eauto.
  - split; intros [Hk _]; (split; [done|]); [|done]. by intros (r & [=] & _).
Qed.

(** ** The closure loop *)

Lemma add_new_fold ds closure pending :
  NoDup ds →
  fold_left EpistemicState.add_new ds (closure, pending) =
    (closure ++ filter (λ d, d ∉ closure) ds, pending ++ filter (λ d, d ∉ closure) ds).
Proof.
  revert closure pending; induction ds as [|d ds IH]; intros closure pending Hnd; cbn [fold_left].
  { by rewrite !app_nil_r. }
  inversion Hnd as [|? ? Hd Hnd']; subst. unfold EpistemicState.add_new at 2.
  rewrite filter_cons. destruct (str_in d closure) eqn:E.
  - apply str_in_true in E. rewrite decide_False by tauto. by apply IH.
  - apply str_in_false in E. rewrite decide_True by done. rewrite IH by done.
    assert (Hf : filter (λ x, x ∉ closure ++ [d]) ds = filter (λ x, x ∉ closure) ds).
    { apply filter_ext_elem. intros x Hx. set_solver. }
    by rewrite Hf, <- !app_assoc.
Qed.

Record close_inv (keys closure pending : list pystr) : Prop := {
  ci_nodup : NoDup closure;
  ci_pending : NoDup pending ∧ ∀ k, k ∈ pending → k ∈ closure;
  ci_keys : ∀ k, k ∈ keys → k ∈ closure;
  ci_support : ∀ k, k ∈ closure → supports s keys k;
  ci_known : ∀ k, k ∈ closure → ∃ r, EpistemicState.by_key s !! k = Some r ∧ resolved r;
  ci_closed : ∀ k d, k ∈ closure → k ∉ pending → depends s k d → d ∈ closure
}.

Lemma close_bound keys closure pending :
  close_inv keys closure pending → (length closure <= length (es_records s))%nat.
Proof.
  intros [Hnd _ _ _ Hk _]. rewrite <- (length_map er_key). apply submseteq_length, NoDup_submseteq; [done|].
  intros k Hin. destruct (Hk k Hin) as (r & [Hr Hrk]%lookup_state & _). apply elem_keys. eauto.
Qed.

Lemma close_step keys closure pending k r :
  close_inv keys closure (pending ++ [k]) → EpistemicState.by_key s !! k = Some r →
  close_inv keys (closure ++ filter (λ d, d ∉ closure) (er_dependencies r))
    (pending ++ filter (λ d, d ∉ closure) (er_dependencies r)).
Proof.
  intros [Hnd [Hpn Hp] Hkeys Hsup Hknown Hcl] Hr.
  destruct (lookup_record_ok _ _ Hr) as [Hok _]. destruct (rec_deps _ Hok) as (Hdn & _ & _).
  apply NoDup_app in Hpn as (Hpn & Hpk & _).
  assert (Hkc : k ∈ closure) by (apply Hp; set_solver).
  assert (Hnew : ∀ d, d ∈ filter (λ d, d ∉ closure) (er_dependencies r) ↔ d ∉ closure ∧ d ∈ er_dependencies r)
    by (intros d; by rewrite list_elem_of_filter).
  constructor.
  - apply NoDup_app. split; [done|]. split; [|by apply NoDup_filter]. intros x Hx [Hx' _]%Hnew. done.
  - split.
    + apply NoDup_app. split; [done|]. split; [|by apply NoDup_filter].
      intros x Hx [Hx' _]%Hnew. apply Hx', Hp. set_solver.
    + intros x [Hx|Hx]%elem_of_app; [|set_solver]. apply elem_of_app. left. apply Hp. set_solver.
  - set_solver.
  - intros x [Hx|[_ Hx]%Hnew]%elem_of_app; [auto|]. destruct (Hsup k Hkc) as (k0 & Hk0 & Hrtc).
    exists k0. split; [done|]. eapply rtc_r; [done|]. by apply (depends_lookup k r x Hr).
  - intros x [Hx|[_ Hx]%Hnew]%elem_of_app; [auto|]. apply (depends_resolved k).
    by apply (depends_lookup k r x Hr).
  - intros x d Hx Hxp Hd. destruct (decide (x = k)) as [->|Hne].
    + rewrite (depends_lookup k r d Hr) in Hd. destruct (decide (d ∈ closure)); set_solver.
    + apply elem_of_app in Hx as [Hx|Hx]; [|set_solver]. apply elem_of_app. left. apply (Hcl x); set_solver.
Qed.

Lemma close_spec fuel keys closure pending :
  close_inv keys closure pending →
  (length (es_records s) + length pending <= fuel + length closure)%nat →
  ∃ c, EpistemicState.close fuel (EpistemicState.by_key s) closure pending = Ok c ∧ close_inv keys c [].
Proof.
  revert closure pending; induction fuel as [|fuel IH]; intros closure pending Hinv Hf;
    pose proof (close_bound _ _ _ Hinv); destruct pending as [|k pending _] using rev_ind;
    try (by exists closure); rewrite length_app in Hf; simpl in Hf; [lia|].
  cbn [EpistemicState.close]. rewrite rev_app_distr. cbn [rev app].
  destruct (ci_known _ _ _ Hinv k) as (r & Hr & _).
  { apply (proj2 (ci_pending _ _ _ Hinv)). set_solver. }
  unfold dict_get. rewrite Hr. cbn [res_bind]. rewrite rev_involutive.
  destruct (lookup_record_ok _ _ Hr) as [Hok _].
  rewrite add_new_fold by apply (rec_deps _ Hok). apply IH; [by apply (close_step _ _ _ k)|].
  rewrite !length_app. lia.
Qed.

Lemma close_final keys c :
  close_inv keys c [] → NoDup c ∧ ∀ k, k ∈ c ↔ supports s keys k.
Proof.
  intros [Hnd _ Hkeys Hsup _ Hcl]. split; [done|]. intros k. split; [apply Hsup|].
  intros (k0 & Hk0%Hkeys & Hrtc). induction Hrtc as [|k0 k1 k Hd _ IH]; [done|].
  apply IH, (Hcl k0); [done|by intros ?%elem_of_nil|done].
Qed.

(** ** The dependency digest *)

(** The identity records of a closure, in key order. *)
Definition identities (ks : list pystr) (vs : list pyval) : Prop :=
  Forall2 (λ k v, ∃ r, EpistemicState.by_key s !! k = Some r ∧ EpistemicRecord.identity_record r = Ok v) ks vs.

Lemma identities_exist ks :
  (∀ k, k ∈ ks → ∃ r, EpistemicState.by_key s !! k = Some r ∧ resolved r) →
  ∃ vs, res_map (λ k, let* r := dict_get (EpistemicState.by_key s) k in EpistemicRecord.identity_record r) ks = Ok vs ∧
    identities ks vs ∧ clean (VList vs) = true ∧ dict_wf (VList vs) = true.
Proof.
  induction ks as [|k ks IH]; intros Hk.
  { exists []. repeat split. constructor. }
  destruct IH as (vs & Hvs & Hi & Hc & Hw); [set_solver|]. destruct (Hk k) as (r & Hr & _); [set_solver|].
  destruct (lookup_record_ok _ _ Hr) as [Hok _]. destruct (identity_record_ok r Hok) as (v & Hv & Hcv & Hwv).
  exists (v :: vs). cbn [res_map]. unfold dict_get at 1. rewrite Hr. cbn [res_bind]. rewrite Hv. cbn [res_bind].
  rewrite Hvs. cbn [res_bind]. split; [done|]. split; [constructor; [eauto|done]|].
  cbn [clean dict_wf forallb] in *. by rewrite Hcv, Hwv, Hc, Hw.
Qed.

Lemma epistemic_dependency_domain_ok : domain_pattern EPISTEMIC_DEPENDENCY_DOMAIN = true.
Proof. vm_compute. reflexivity. Qed.

(** What a digest requires of its keys. *)
Lemma dependency_digest_pre keys h :
  EpistemicState.dependency_digest s keys = Ok h →
  NoDup keys ∧ Z.of_nat (length keys) <= MAX_EPISTEMIC_RECORDS ∧
  ∀ k, k ∈ keys → ∃ r, EpistemicState.by_key s !! k = Some r ∧ resolved r.
Proof.
  unfold EpistemicState.dependency_digest, EpistemicState.dependency_records. intros (vs & H & _)%res_bind_Ok.
  apply res_bind_Ok in H as (l & [-> Hlen]%materialize_Ok & H).
  apply res_bind_Ok in H as ([] & Hnd%raise_if_Ok%has_duplicates_false & H).
  assert (Hsl : Z.of_nat (length (sorted keys)) <= MAX_EPISTEMIC_RECORDS) by (by rewrite sorted_perm).
  destruct (unresolved_keys_Ok (sorted keys) Hsl) as (un & Hun & Hspec). rewrite Hun in H. cbn [res_bind] in H.
  apply res_bind_Ok in H as ([] & Hne%raise_if_Ok & _).
  split; [by rewrite sorted_perm in Hnd|]. split; [done|]. intros k Hk. destruct un; [|done].
  destruct (EpistemicState.by_key s !! k) as [r|] eqn:E.
  - destruct (EpistemicRecord.is_resolved r) eqn:Er; [eauto|].
    exfalso. apply (elem_of_nil k), Hspec. split; [by apply sorted_elem|]. intros (r' & Hr' & Hres).
    rewrite E in Hr'. injection Hr' as <-. unfold resolved in Hres. congruence.
  - exfalso. apply (elem_of_nil k), Hspec. split; [by apply sorted_elem|]. rewrite E. by intros (? & ? & _).
Qed.

Lemma close_start keys :
  NoDup keys → (∀ k, k ∈ keys → ∃ r, EpistemicState.by_key s !! k = Some r ∧ resolved r) →
  close_inv keys (sorted keys) (sorted keys).
Proof.
  intros Hnd Hres. constructor; try done.
  - by rewrite sorted_perm.
  - split; [by rewrite sorted_perm|done].
  - intros k Hk. by apply sorted_elem.
  - intros k Hk. rewrite sorted_elem in Hk. by exists k.
  - intros k Hk. rewrite sorted_elem in Hk. auto.
Qed.

(** The digest of resolved keys is the fingerprint of the identities of their support. *)
Lemma dependency_digest_Ok keys :
  NoDup keys → Z.of_nat (length keys) <= MAX_EPISTEMIC_RECORDS →
  (∀ k, k ∈ keys → ∃ r, EpistemicState.by_key s !! k = Some r ∧ resolved r) →
  ∃ c vs, NoDup c ∧ (∀ k, k ∈ c ↔ supports s keys k) ∧ sorted c = c ∧ identities c vs ∧
    clean (VList vs) = true ∧ dict_wf (VList vs) = true ∧ EpistemicState.dependency_records s keys = Ok vs.
Proof.
  intros Hnd Hlen Hres.
  destruct (close_spec (length (es_records s)) _ _ _ (close_start keys Hnd Hres) ltac:(lia)) as (c & Hc & Hfin).
  pose proof (close_final _ _ Hfin) as [Hcn Hcs].
  destruct (identities_exist (sorted c)) as (vs & Hvs & Hi & Hcl & Hw).
  { intros k Hk. rewrite sorted_elem in Hk. by apply (ci_known _ _ _ Hfin). }
  exists (sorted c), vs. split; [by rewrite sorted_perm|]. split; [intros k; by rewrite sorted_elem, Hcs|].
  split; [apply sorted_idem|]. split; [done|]. split; [done|]. split; [done|].
  unfold EpistemicState.dependency_records.
  rewrite materialize_list by done. replace (_ <=? MAX_EPISTEMIC_RECORDS) with true by lia. cbn [res_bind].
  rewrite (proj2 (has_duplicates_false (sorted keys))) by (by rewrite sorted_perm). cbn [raise_if res_bind].
  assert (Hsl : Z.of_nat (length (sorted keys)) <= MAX_EPISTEMIC_RECORDS) by (by rewrite sorted_perm).
  destruct (unresolved_keys_Ok (sorted keys) Hsl) as (un & -> & Hspec). cbn [res_bind].
  assert (un = []) as ->.
  { destruct un as [|k un]; [done|]. exfalso. destruct (proj1 (Hspec k)) as [Hk Hn]; [set_solver|].
    rewrite sorted_elem in Hk. auto. }
  cbn [nonempty raise_if res_bind]. rewrite Hc. cbn [res_bind]. by rewrite Hvs.
Qed.

Lemma dependency_digest_inv keys h :
  EpistemicState.dependency_digest s keys = Ok h →
  ∃ c vs, NoDup c ∧ (∀ k, k ∈ c ↔ supports s keys k) ∧ sorted c = c ∧ identities c vs ∧
    dict_wf (VList vs) = true ∧ domain_fingerprint EPISTEMIC_DEPENDENCY_DOMAIN (VList vs) = Ok h ∧
    EpistemicState.dependency_records s keys = Ok vs.
Proof.
  intros H. destruct (dependency_digest_pre _ _ H) as (Hnd & Hlen & Hres).
  destruct (dependency_digest_Ok keys Hnd Hlen Hres) as (c & vs & ? & ? & ? & ? & _ & ? & Hd).
  unfold EpistemicState.dependency_digest in H. rewrite Hd in H. by exists c, vs.
Qed.

Lemma dependency_digest_total keys :
  NoDup keys → Z.of_nat (length keys) <= MAX_EPISTEMIC_RECORDS →
  (∀ k, k ∈ keys → ∃ r, EpistemicState.by_key s !! k = Some r ∧ resolved r) →
  ∃ h, EpistemicState.dependency_digest s keys = Ok h.
Proof.
  intros Hnd Hlen Hres.
  destruct (dependency_digest_Ok keys Hnd Hlen Hres) as (c & vs & _ & _ & _ & _ & Hcl & _ & Hd).
  unfold EpistemicState.dependency_digest. rewrite Hd. by apply domain_fingerprint_total.
Qed.
End state.

(** ** Two states *)

Lemma identities_same s1 s2 ks vs1 vs2 :
  (∀ k, k ∈ ks → ∃ r1 r2, EpistemicState.by_key s1 !! k = Some r1 ∧ EpistemicState.by_key s2 !! k = Some r2 ∧
    same_identity r1 r2) →
  identities s1 ks vs1 → identities s2 ks vs2 → vs1 = vs2.
Proof.
  intros Hk H1. revert vs2; induction H1 as [|k v1 ks vs1 (r1 & Hr1 & Hv1) _ IH]; intros vs2 H2;
    inversion H2 as [|? v2 ? vs2' (r2 & Hr2 & Hv2) H2']; subst; [done|].
  f_equal; [|apply IH; [|done]; intros; apply Hk; set_solver].
  destruct (Hk k) as (r1' & r2' & E1 & E2 & Hs); [set_solver|].
  apply same_identity_record in Hs. rewrite E1 in Hr1. rewrite E2 in Hr2. simplify_eq. congruence.
Qed.

Lemma identities_inj s1 s2 ks1 ks2 vs1 vs2 :
  valid_state s1 → valid_state s2 →
  identities s1 ks1 vs1 → identities s2 ks2 vs2 → map canon vs1 = map canon vs2 →
  ks1 = ks2 ∧ ∀ k, k ∈ ks1 → ∃ r1 r2, EpistemicState.by_key s1 !! k = Some r1 ∧
    EpistemicState.by_key s2 !! k = Some r2 ∧ same_identity r1 r2.
Proof.
  intros V1 V2 H1. revert ks2 vs2; induction H1 as [|k1 v1 ks1 vs1 (r1 & Hr1 & Hv1) _ IH]; intros ks2 vs2 H2 Hc;
    inversion H2 as [|k2 v2 ks2' vs2' (r2 & Hr2 & Hv2) H2']; subst; try discriminate Hc.
  { split; [done|]. intros k ?%elem_of_nil. done. }
  cbn [map] in Hc. injection Hc as Hv Hvs. destruct (IH _ _ H2' Hvs) as [-> Hall].
  destruct (lookup_record_ok s1 V1 _ _ Hr1) as [O1 K1]. destruct (lookup_record_ok s2 V2 _ _ Hr2) as [O2 K2].
  pose proof (identity_record_inj r1 r2 v1 v2 O1 O2 Hv1 Hv2 Hv) as Hsame.
  assert (k1 = k2) as -> by (destruct Hsame as [Hk _]; congruence).
  split; [done|]. intros k [->|Hk]%elem_of_cons; [eauto|auto].
Qed.

(** The support of [keys] in [s1] is carried over unchanged to [s2]. *)
Definition carried_over (s1 s2 : EpistemicState) (keys : list pystr) : Prop :=
  ∀ k, supports s1 keys k → ∃ r1 r2, EpistemicState.by_key s1 !! k = Some r1 ∧
    EpistemicState.by_key s2 !! k = Some r2 ∧ same_identity r1 r2.

Lemma supports_step s keys k d : supports s keys k → depends s k d → supports s keys d.
Proof. intros (k0 & ? & ?) ?. exists k0. split; [done|]. by eapply rtc_r. Qed.

Lemma supports_ind_r (s : EpistemicState) keys (P : pystr → Prop) :
  (∀ k, k ∈ keys → P k) → (∀ k d, supports s keys k → P k → depends s k d → P d) →
  ∀ k, supports s keys k → P k.
Proof.
  intros Hb Hstep k (k0 & Hk0 & Hr). refine (rtc_ind_r P k0 _ _ k Hr); [auto|].
  intros k1 k2 Hr1 Hd IH. apply (Hstep k1); [by exists k0|done..].
Qed.

Lemma carried_over_supports s1 s2 keys k :
  valid_state s1 → valid_state s2 → carried_over s1 s2 keys →
  supports s1 keys k ↔ supports s2 keys k.
Proof.
  intros V1 V2 Hc.
  assert (Hdep : ∀ k d, supports s1 keys k → depends s1 k d ↔ depends s2 k d).
  { intros k' d Hk. destruct (Hc k' Hk) as (r1 & r2 & E1 & E2 & (_ & _ & Hd & _)).
    by rewrite (depends_lookup s1 V1 _ _ _ E1), (depends_lookup s2 V2 _ _ _ E2), Hd. }
  split; intros H.
  - apply (supports_ind_r s1 keys (supports s2 keys)) in H; [done|..].
    + intros k' ?. by exists k'.
    + intros k' d H1 H2 Hd. eapply supports_step; [done|]. by apply Hdep.
  - apply (supports_ind_r s2 keys (supports s1 keys)) in H; [done|..].
    + intros k' ?. by exists k'.
    + intros k' d H1 H2 Hd. eapply supports_step; [done|]. by apply Hdep.
Qed.

Lemma sorted_same_elements l1 l2 :
  NoDup l1 → NoDup l2 → (∀ x, x ∈ l1 ↔ x ∈ l2) → sorted l1 = l1 → sorted l2 = l2 → l1 = l2.
Proof.
  intros N1 N2 H E1 E2. rewrite <- E1, <- E2. apply sorted_by_perm_eq.
  - by rewrite list_fmap_id.
  - by apply NoDup_Permutation.
Qed.

(** What a dependency digest hashes. *)
Definition digest_message (s : EpistemicState) (keys : list pystr) : res (list Z) :=
  let* records := EpistemicState.dependency_records s keys in domain_message EPISTEMIC_DEPENDENCY_DOMAIN (VList records).

Lemma digest_binds s1 s2 ks1 ks2 h :
  valid_state s1 → valid_state s2 →
  EpistemicState.dependency_digest s1 ks1 = Ok h → EpistemicState.dependency_digest s2 ks2 = Ok h →
  ((∀ k, supports s1 ks1 k ↔ supports s2 ks2 k) ∧ carried_over s1 s2 ks1) ∨
  collide (digest_message s1 ks1) (digest_message s2 ks2).
Proof.
  intros V1 V2 H1 H2.
  destruct (dependency_digest_inv s1 V1 _ _ H1) as (c1 & vs1 & N1 & S1 & O1 & I1 & W1 & F1 & R1).
  destruct (dependency_digest_inv s2 V2 _ _ H2) as (c2 & vs2 & N2 & S2 & O2 & I2 & W2 & F2 & R2).
  destruct (domain_fingerprint_inj _ _ _ _ _ F1 F2 W1 W2) as [[_ Hc]|]; [left|by right; unfold digest_message; rewrite R1, R2].
  cbn [canon] in Hc. injection Hc as Hc.
  destruct (identities_inj s1 s2 c1 c2 vs1 vs2 V1 V2 I1 I2 Hc) as [<- Hall]. split.
  - intros k. by rewrite <- S1, <- S2.
  - intros k Hk. by apply Hall, S1.
Qed.

Lemma digest_carried s1 s2 keys h :
  valid_state s1 → valid_state s2 → carried_over s1 s2 keys →
  EpistemicState.dependency_digest s1 keys = Ok h → EpistemicState.dependency_digest s2 keys = Ok h.
Proof.
  intros V1 V2 Hc H1.
  destruct (dependency_digest_inv s1 V1 _ _ H1) as (c1 & vs1 & N1 & S1 & O1 & I1 & W1 & F1 & _).
  assert (Hpre : NoDup keys ∧ Z.of_nat (length keys) <= MAX_EPISTEMIC_RECORDS ∧
    ∀ k, k ∈ keys → ∃ r, EpistemicState.by_key s1 !! k = Some r ∧ resolved r)
    by (by eapply dependency_digest_pre).
  destruct Hpre as (Hnd & Hlen & Hres).
  destruct (dependency_digest_total s2 V2 keys Hnd Hlen) as [h2 H2].
  { intros k Hk. destruct (Hc k) as (r1 & r2 & E1 & E2 & Hs); [by exists k|].
    exists r2. split; [done|]. destruct (Hres k Hk) as (r1' & E1' & Hr). rewrite E1 in E1'. simplify_eq.
    destruct Hs as (_ & Hcl & _). unfold resolved, EpistemicRecord.is_resolved in *. by rewrite <- Hcl. }
  rewrite H2. destruct (dependency_digest_inv s2 V2 _ _ H2) as (c2 & vs2 & N2 & S2 & O2 & I2 & W2 & F2 & _).
  assert (c1 = c2) as <-.
  { apply sorted_same_elements; try done. intros x. rewrite S1, S2. by apply carried_over_supports. }
  assert (vs1 = vs2) as <-; [|congruence].
  apply (identities_same s1 s2 c1); [|done..]. intros k Hk. by apply Hc, S1.
Qed.

(** ** Properties *)

(** The state accepts exactly the sets of records with distinct keys whose dependencies are
    known, acyclic and resolved; it then holds them sorted by key. *)
Theorem epistemic_state_accepts_exactly l max s :
  Forall record_ok l →
  EpistemicState.make l max = Ok s ↔
  state_spec l max ∧ s = {| es_records := sorted_by er_key l; es_max_records := max |}.
Proof. apply state_make_spec. Qed.

(** No laundering of model proposals: whatever a record depends on, through any chain of
    dependencies, is an observed or derived record of the state, never a proposal or an unknown. *)
Theorem support_never_proposed s k d :
  valid_state s → tc (depends s) k d →
  ∃ r, EpistemicState.by_key s !! d = Some r ∧ (er_class r = OBSERVED ∨ er_class r = DERIVED).
Proof.
  intros Hs Hd. destruct (support_resolved s Hs k d Hd) as (r & Hr & Hres). exists r. split; [done|].
  unfold resolved, EpistemicRecord.is_resolved in Hres. destruct (er_class r); auto; discriminate.
Qed.

(** A dependency digest commits to the whole support of its keys: equal digests of two
    states mean the same supporting keys, each with the same class, value, dependencies and
    provenance identity in both, unless the two digested supports collide. *)
Theorem dependency_digest_binds s1 s2 ks1 ks2 h :
  valid_state s1 → valid_state s2 →
  EpistemicState.dependency_digest s1 ks1 = Ok h → EpistemicState.dependency_digest s2 ks2 = Ok h →
  ((∀ k, supports s1 ks1 k ↔ supports s2 ks2 k) ∧ carried_over s1 s2 ks1) ∨
  collide (digest_message s1 ks1) (digest_message s2 ks2).
Proof. apply digest_binds. Qed.

(** A dependency digest depends on nothing else: a state that holds the support of the keys
    with the same identities has the same digest, whatever other records it holds and whether
    or not an observation was reused from a cache. *)
Theorem dependency_digest_frame s1 s2 keys h :
  valid_state s1 → valid_state s2 → carried_over s1 s2 keys →
  EpistemicState.dependency_digest s1 keys = Ok h → EpistemicState.dependency_digest s2 keys = Ok h.
Proof. apply digest_carried. Qed.

(** *** Witnesses: [der/b] derives from [obs/a], fresh or reused *)

Definition ex_fp : pystr := Eval vm_compute in sha256_hexdigest [].

Definition ex_provenance (reused : bool) : ObservationProvenance :=
  {| pv_source := u "tool"; pv_source_identity := ex_fp; pv_dependency_identity := ex_fp; pv_reused := reused |}.

Definition ex_obs (reused : bool) : EpistemicRecord :=
  {| er_key := u "obs/a"; er_class := OBSERVED; er_dependencies := [];
     er_provenance := Some (ex_provenance reused); er_value := Some {| cv_text := u "1" |} |}.

Definition ex_der : EpistemicRecord :=
  {| er_key := u "der/b"; er_class := DERIVED; er_dependencies := [u "obs/a"];
     er_provenance := None; er_value := Some {| cv_text := u "2" |} |}.

Definition ex_prop : EpistemicRecord :=
  {| er_key := u "prop/c"; er_class := MODEL_PROPOSED; er_dependencies := [];
     er_provenance := None; er_value := Some {| cv_text := u "3" |} |}.

Lemma ex_record_ok k c v deps p r :
  provenance_arg_ok p → EpistemicRecord.make k c v deps p = Ok r → record_ok r.
Proof. intros Hp H. by apply (record_make_ok k c v deps p r Hp H). Qed.

Lemma ex_records_ok b : Forall record_ok [ex_obs b; ex_der; ex_prop].
Proof.
  assert (Hp : provenance_ok (ex_provenance b)) by (repeat split; vm_compute; reflexivity).
  apply Forall_cons_2; [|apply Forall_cons_2; [|apply Forall_singleton]].
  - apply (ex_record_ok (u "obs/a") OBSERVED (Some (VInt 1)) [] (Some (ex_provenance b))); [done|].
    destruct b; vm_compute; reflexivity.
  - apply (ex_record_ok (u "der/b") DERIVED (Some (VInt 2)) [u "obs/a"] None); [done|]. vm_compute. reflexivity.
  - apply (ex_record_ok (u "prop/c") MODEL_PROPOSED (Some (VInt 3)) [] None); [done|]. vm_compute. reflexivity.
Qed.

Definition ex_state1 : EpistemicState := {| es_records := [ex_der; ex_obs false]; es_max_records := 8 |}.
Definition ex_state2 : EpistemicState := {| es_records := [ex_der; ex_obs true; ex_prop]; es_max_records := 8 |}.

Lemma ex_state1_valid : valid_state ex_state1.
Proof.
  exists [ex_obs false; ex_der]. split; [|vm_compute; reflexivity].
  pose proof (ex_records_ok false) as H. inversion_clear H as [|? ? H1 H2].
  inversion_clear H2. by apply Forall_cons_2; [|apply Forall_singleton].
Qed.

Lemma ex_state2_valid : valid_state ex_state2.
Proof. exists [ex_obs true; ex_der; ex_prop]. split; [apply ex_records_ok|vm_compute; reflexivity]. Qed.

Lemma ex_depends : depends ex_state1 (u "der/b") (u "obs/a").
Proof. exists [u "obs/a"]. split; simpl; set_solver. Qed.

Lemma ex_supports k : supports ex_state1 [u "der/b"] k → k = u "der/b" ∨ k = u "obs/a".
Proof.
  revert k. apply supports_ind_r; [set_solver|]. intros k d _ _ (ds & Hk & Hd). simpl in Hk.
  apply elem_of_cons in Hk as [[= -> ->]|Hk]; [right; set_solver|].
  apply elem_of_cons in Hk as [[= -> ->]|Hk]; set_solver.
Qed.

Lemma ex_carried : carried_over ex_state1 ex_state2 [u "der/b"].
Proof.
  intros k [->| ->]%ex_supports; [exists ex_der, ex_der|exists (ex_obs false), (ex_obs true)];
    (split; [vm_compute; reflexivity|split; [vm_compute; reflexivity|by repeat split]]).
Qed.

Definition ex_digest : pystr := Eval vm_compute in
  match EpistemicState.dependency_digest ex_state1 [u "der/b"] with Ok h => h | Raise _ => [] end.

Lemma epistemic_state_accepts_exactly_witness :
  state_spec [ex_obs true; ex_der; ex_prop] 8 ∧
  ex_state2 = {| es_records := sorted_by er_key [ex_obs true; ex_der; ex_prop]; es_max_records := 8 |}.
Proof.
  apply (epistemic_state_accepts_exactly _ 8 ex_state2 (ex_records_ok true)). vm_compute. reflexivity.
Defined.

Lemma support_never_proposed_witness :
  ∃ r, EpistemicState.by_key ex_state1 !! u "obs/a" = Some r ∧ (er_class r = OBSERVED ∨ er_class r = DERIVED).
Proof.
  apply (support_never_proposed ex_state1 (u "der/b") (u "obs/a") ex_state1_valid). apply tc_once, ex_depends.
Defined.

Lemma dependency_digest_frame_witness :
  EpistemicState.dependency_digest ex_state2 [u "der/b"] = Ok ex_digest.
Proof.
  apply (dependency_digest_frame ex_state1 ex_state2 [u "der/b"] ex_digest ex_state1_valid ex_state2_valid ex_carried).
  vm_compute. reflexivity.
Defined.

Lemma dependency_digest_binds_witness :
  ((∀ k, supports ex_state1 [u "der/b"] k ↔ supports ex_state2 [u "der/b"] k) ∧
   carried_over ex_state1 ex_state2 [u "der/b"]) ∨
  collide (digest_message ex_state1 [u "der/b"]) (digest_message ex_state2 [u "der/b"]).
Proof.
  apply (dependency_digest_binds ex_state1 ex_state2 _ _ ex_digest ex_state1_valid ex_state2_valid);
    vm_compute; reflexivity.
Defined.
