(* ===== verification/Orchestration.v ===== *)
(** * Orchestration records ([src/ibae/orchestration.py])

    The records that an orchestrator owns (strategy schemas, capabilities, limits) and those a
    model proposes (strategies, action proposals, batches), the decisions and receipts, and the
    orchestration state with its logical clock.  The transition itself is in [Admission]. *)

From Stdlib Require Import Ascii String.
From stdpp Require Import base list gmap.
From S2P Require Import Prelude PyStr PyNumber Sha256 Canonical Records Obligations Epistemic.

Definition AGENT_PROTOCOL : pystr := u "IBAE-AGENT-PROTOCOL-V1".
Definition LOGICAL_CLOCK_PROFILE : pystr := u "IBAE-LOGICAL-CLOCK-V1".
Definition STRATEGY_PARAMETER_SCHEMA : pystr := u "IBAE-STRATEGY-PARAMETERS-V1".
Definition CAPABILITY_ARGUMENT_SCHEMA : pystr := u "IBAE-CAPABILITY-ARGUMENTS-V1".
Definition MAX_CAPABILITIES : Z := 64.
Definition MAX_CAPABILITY_ARGUMENTS : Z := 32.
Definition MAX_PROPOSALS_PER_BATCH : Z := 64.
Definition MAX_HISTORY_EVENTS : Z := 256.
Definition MAX_OCCURRENCE_OWNERS : Z := 256.
Definition MAX_STATE_KEYS_PER_DECLARATION : Z := MAX_EPISTEMIC_RECORDS / 2.
Definition MAX_STRATEGY_PARAMETERS : Z := 32.
Definition MAX_STRATEGY_SCHEMAS : Z := 32.
Definition MAX_STRATEGY_SYMBOL_LIST_ITEMS : Z := 64.
Definition MAX_INVARIANT_IDS_PER_REJECTION : Z := 64.

Definition CAPABILITY_ID_DOMAIN : pystr := u "ibae.capability-id.v1".
Definition STRATEGY_ID_DOMAIN : pystr := u "ibae.strategy-id.v1".
Definition STRATEGY_SCHEMA_ID_DOMAIN : pystr := u "ibae.strategy-parameter-schema.v1".
Definition PROPOSAL_ID_DOMAIN : pystr := u "ibae.proposal-id.v1".
Definition BATCH_ID_DOMAIN : pystr := u "ibae.proposal-batch-id.v1".
Definition ACTION_ID_DOMAIN : pystr := u "ibae.action-id.v1".
Definition STATE_ID_DOMAIN : pystr := u "ibae.orchestration-state-id.v1".
Definition EVENT_ID_DOMAIN : pystr := u "ibae.orchestration-event-id.v1".
Definition RECEIPT_ID_DOMAIN : pystr := u "ibae.admission-receipt-id.v1".

(** ** Enumerations *)

Inductive ReplaySafety := CACHEABLE_READ | PROVEN_REPLAY_SAFE | OCCURRENCE_SENSITIVE.
Inductive ProposalOrdering := CANONICAL_INDEPENDENT | DECLARED_SEQUENCE.
Inductive AuthorityLayer := GOVERNANCE | ORCHESTRATION | EXECUTION | BENCHMARK.
Inductive DecisionStatus := ADMITTED | DEDUPLICATED | DECISION_REJECTED.
Inductive BatchStatus := PROCESSED | BATCH_REJECTED.

Inductive RejectionReason :=
  | BATCH_LIMIT_EXCEEDED | STRATEGY_SCHEMA_NOT_ADMITTED | UNKNOWN_CAPABILITY
  | CAPABILITY_UNAVAILABLE | ARGUMENT_SCHEMA_MISMATCH | UNKNOWN_OBLIGATION
  | OBLIGATION_SATISFIED | OBLIGATION_BLOCKED | DEPENDENCY_UNSATISFIED | UNKNOWN_STATE
  | OCCURRENCE_KEY_REQUIRED | UNEXPECTED_OCCURRENCE_KEY | DUPLICATE_OCCURRENCE
  | OCCURRENCE_REGISTRY_FULL | ORDERING_CONTRACT_REQUIRED.

Inductive RecoveryAction :=
  | SPLIT_BATCH | USE_ADMITTED_STRATEGY_SCHEMA | CHOOSE_AVAILABLE_CAPABILITY
  | USE_ADMITTED_ARGUMENT_SCHEMA | CHOOSE_KNOWN_OBLIGATION | TARGET_UNSATISFIED_OBLIGATION
  | RESOLVE_BLOCKER | SATISFY_DEPENDENCIES | OBSERVE_REQUIRED_STATE | ADD_OCCURRENCE_KEY
  | REMOVE_OCCURRENCE_KEY | USE_DISTINCT_OCCURRENCE_KEY | REQUEST_NEW_BOUNDED_SCOPE
  | USE_DECLARED_SEQUENCE.

Inductive StrategyValueKind := BOOLEAN | BOUNDED_INTEGER | SYMBOL | SYMBOL_LIST.

#[export] Instance ReplaySafety_eq_dec : EqDecision ReplaySafety.
Proof. solve_decision. Defined.
#[export] Instance ProposalOrdering_eq_dec : EqDecision ProposalOrdering.
Proof. solve_decision. Defined.
#[export] Instance AuthorityLayer_eq_dec : EqDecision AuthorityLayer.
Proof. solve_decision. Defined.
#[export] Instance DecisionStatus_eq_dec : EqDecision DecisionStatus.
Proof. solve_decision. Defined.
#[export] Instance BatchStatus_eq_dec : EqDecision BatchStatus.
Proof. solve_decision. Defined.
#[export] Instance RejectionReason_eq_dec : EqDecision RejectionReason.
Proof. solve_decision. Defined.
#[export] Instance RecoveryAction_eq_dec : EqDecision RecoveryAction.
Proof. solve_decision. Defined.
#[export] Instance StrategyValueKind_eq_dec : EqDecision StrategyValueKind.
Proof. solve_decision. Defined.

Definition replay_value (r : ReplaySafety) : pystr :=
  match r with
  | CACHEABLE_READ => u "cacheable_read"
  | PROVEN_REPLAY_SAFE => u "proven_replay_safe"
  | OCCURRENCE_SENSITIVE => u "occurrence_sensitive"
  end.

Definition ordering_value (o : ProposalOrdering) : pystr :=
  match o with
  | CANONICAL_INDEPENDENT => u "canonical_independent"
  | DECLARED_SEQUENCE => u "declared_sequence"
  end.

Definition layer_value (l : AuthorityLayer) : pystr :=
  match l with
  | GOVERNANCE => u "governance"
  | ORCHESTRATION => u "orchestration"
  | EXECUTION => u "execution"
  | BENCHMARK => u "benchmark"
  end.

Definition decision_value (s : DecisionStatus) : pystr :=
  match s with
  | ADMITTED => u "admitted"
  | DEDUPLICATED => u "deduplicated"
  | DECISION_REJECTED => u "rejected"
  end.

Definition batch_status_value (s : BatchStatus) : pystr :=
  match s with PROCESSED => u "processed" | BATCH_REJECTED => u "rejected" end.

Definition reason_value (r : RejectionReason) : pystr :=
  match r with
  | BATCH_LIMIT_EXCEEDED => u "IBAE-REJECT-BATCH-LIMIT-EXCEEDED"
  | STRATEGY_SCHEMA_NOT_ADMITTED => u "IBAE-REJECT-STRATEGY-SCHEMA-NOT-ADMITTED"
  | UNKNOWN_CAPABILITY => u "IBAE-REJECT-UNKNOWN-CAPABILITY"
  | CAPABILITY_UNAVAILABLE => u "IBAE-REJECT-CAPABILITY-UNAVAILABLE"
  | ARGUMENT_SCHEMA_MISMATCH => u "IBAE-REJECT-ARGUMENT-SCHEMA-MISMATCH"
  | UNKNOWN_OBLIGATION => u "IBAE-REJECT-UNKNOWN-OBLIGATION"
  | OBLIGATION_SATISFIED => u "IBAE-REJECT-OBLIGATION-SATISFIED"
  | OBLIGATION_BLOCKED => u "IBAE-REJECT-OBLIGATION-BLOCKED"
  | DEPENDENCY_UNSATISFIED => u "IBAE-REJECT-DEPENDENCY-UNSATISFIED"
  | UNKNOWN_STATE => u "IBAE-REJECT-UNKNOWN-STATE"
  | OCCURRENCE_KEY_REQUIRED => u "IBAE-REJECT-OCCURRENCE-KEY-REQUIRED"
  | UNEXPECTED_OCCURRENCE_KEY => u "IBAE-REJECT-UNEXPECTED-OCCURRENCE-KEY"
  | DUPLICATE_OCCURRENCE => u "IBAE-REJECT-DUPLICATE-OCCURRENCE"
  | OCCURRENCE_REGISTRY_FULL => u "IBAE-REJECT-OCCURRENCE-REGISTRY-FULL"
  | ORDERING_CONTRACT_REQUIRED => u "IBAE-REJECT-ORDERING-CONTRACT-REQUIRED"
  end.

Definition recovery_value (r : RecoveryAction) : pystr :=
  match r with
  | SPLIT_BATCH => u "IBAE-RECOVERY-SPLIT-BATCH"
  | USE_ADMITTED_STRATEGY_SCHEMA => u "IBAE-RECOVERY-USE-ADMITTED-STRATEGY-SCHEMA"
  | CHOOSE_AVAILABLE_CAPABILITY => u "IBAE-RECOVERY-CHOOSE-AVAILABLE-CAPABILITY"
  | USE_ADMITTED_ARGUMENT_SCHEMA => u "IBAE-RECOVERY-USE-ADMITTED-ARGUMENT-SCHEMA"
  | CHOOSE_KNOWN_OBLIGATION => u "IBAE-RECOVERY-CHOOSE-KNOWN-OBLIGATION"
  | TARGET_UNSATISFIED_OBLIGATION => u "IBAE-RECOVERY-TARGET-UNSATISFIED-OBLIGATION"
  | RESOLVE_BLOCKER => u "IBAE-RECOVERY-RESOLVE-BLOCKER"
  | SATISFY_DEPENDENCIES => u "IBAE-RECOVERY-SATISFY-DEPENDENCIES"
  | OBSERVE_REQUIRED_STATE => u "IBAE-RECOVERY-OBSERVE-REQUIRED-STATE"
  | ADD_OCCURRENCE_KEY => u "IBAE-RECOVERY-ADD-OCCURRENCE-KEY"
  | REMOVE_OCCURRENCE_KEY => u "IBAE-RECOVERY-REMOVE-OCCURRENCE-KEY"
  | USE_DISTINCT_OCCURRENCE_KEY => u "IBAE-RECOVERY-USE-DISTINCT-OCCURRENCE-KEY"
  | REQUEST_NEW_BOUNDED_SCOPE => u "IBAE-RECOVERY-REQUEST-NEW-BOUNDED-SCOPE"
  | USE_DECLARED_SEQUENCE => u "IBAE-RECOVERY-USE-DECLARED-SEQUENCE"
  end.

(** [len(RecoveryAction)] *)
Definition RECOVERY_ACTIONS : Z := 14.

(** [_REJECTION_INVARIANTS] *)
Definition rejection_invariants (r : RejectionReason) : list pystr :=
  match r with
  | BATCH_LIMIT_EXCEEDED => [u "IBAE-BND-008"; u "IBAE-ORCH-006"]
  | STRATEGY_SCHEMA_NOT_ADMITTED => [u "IBAE-AI-002"; u "IBAE-CLK-002"; u "IBAE-PROG-005"]
  | UNKNOWN_CAPABILITY => [u "IBAE-GOV-006"; u "IBAE-ORCH-001"]
  | CAPABILITY_UNAVAILABLE => [u "IBAE-ORCH-001"]
  | ARGUMENT_SCHEMA_MISMATCH => [u "IBAE-CLK-002"; u "IBAE-ORCH-001"; u "IBAE-ORCH-003"]
  | UNKNOWN_OBLIGATION => [u "IBAE-ORCH-005"]
  | OBLIGATION_SATISFIED => [u "IBAE-ORCH-005"; u "IBAE-PROG-003"]
  | OBLIGATION_BLOCKED => [u "IBAE-ORCH-005"; u "IBAE-PROG-003"]
  | DEPENDENCY_UNSATISFIED => [u "IBAE-ORCH-005"]
  | UNKNOWN_STATE => [u "IBAE-AI-004"; u "IBAE-ORCH-005"]
  | OCCURRENCE_KEY_REQUIRED => [u "IBAE-ORCH-007"]
  | UNEXPECTED_OCCURRENCE_KEY => [u "IBAE-ORCH-003"]
  | DUPLICATE_OCCURRENCE => [u "IBAE-ORCH-007"]
  | OCCURRENCE_REGISTRY_FULL => [u "IBAE-BND-008"; u "IBAE-ORCH-006"; u "IBAE-ORCH-007"]
  | ORDERING_CONTRACT_REQUIRED => [u "IBAE-DET-004"; u "IBAE-ORCH-004"; u "IBAE-ORCH-007"]
  end.

Definition kind_value (k : StrategyValueKind) : pystr :=
  match k with
  | BOOLEAN => u "boolean"
  | BOUNDED_INTEGER => u "bounded_integer"
  | SYMBOL => u "symbol"
  | SYMBOL_LIST => u "symbol_list"
  end.

(** [tuple(sorted(materialize_bounded_iterable(..)))], then the uniqueness and element checks
    that the constructors repeat. *)
Definition unique_sorted (l : list pystr) (limit : Z) (check : pystr → res unit) : res (list pystr) :=
  let* supplied := materialize l limit in
  let items := sorted supplied in
  raise_if (has_duplicates items) ValueError ;;*
  res_iter check items ;;*
  Ok items.

(** ** Strategy schemas *)

Record StrategyParameterSpec := {
  sp_name : pystr;
  sp_value_kind : StrategyValueKind;
  sp_required : bool;
  sp_minimum : option Z;
  sp_maximum : option Z;
  sp_allowed_symbols : list pystr
}.

#[export] Instance StrategyParameterSpec_eq_dec : EqDecision StrategyParameterSpec.
Proof. solve_decision. Defined.

(** [require_symbol] of an arbitrary value. *)
Definition require_symbol_value (v : pyval) : res pystr :=
  match v with
  | VStr s => require_symbol s ;;* Ok s
  | _ => Raise ValueError
  end.

(** The items of [iter(value)] for a value that reached the caller: text and scalars raise. *)
Definition iterate_value (v : pyval) : res (list pyval) :=
  match v with
  | VList l | VTuple l => Ok l
  | VDict l => Ok (map fst l)
  | _ => Raise TypeError
  end.

Module StrategyParameterSpec.

Definition check_constraints (kind : StrategyValueKind) (minimum maximum : option Z)
    (symbols : list pystr) : res unit :=
  match kind with
  | BOUNDED_INTEGER =>
      match minimum, maximum with
      | Some lo, Some hi =>
          require_nonnegative_int lo ;;*
          require_nonnegative_int hi ;;*
          raise_if (hi <? lo) ValueError ;;*
          raise_if (nonempty symbols) ValueError
      | _, _ => Raise ValueError
      end
  | SYMBOL | SYMBOL_LIST =>
      raise_if (negb (nonempty symbols)) ValueError ;;*
      raise_if (is_some minimum || is_some maximum) ValueError
  | BOOLEAN => raise_if (nonempty symbols || is_some minimum || is_some maximum) ValueError
  end.

Definition make (name : pystr) (kind : StrategyValueKind) (required : bool)
    (minimum maximum : option Z) (allowed_symbols : list pystr) : res StrategyParameterSpec :=
  require_symbol name ;;*
  let* symbols := unique_sorted allowed_symbols MAX_STRATEGY_SYMBOL_LIST_ITEMS require_symbol in
  check_constraints kind minimum maximum symbols ;;*
  Ok {| sp_name := name; sp_value_kind := kind; sp_required := required; sp_minimum := minimum;
        sp_maximum := maximum; sp_allowed_symbols := symbols |}.

Definition require_allowed (sp : StrategyParameterSpec) (v : pyval) : res unit :=
  let* s := require_symbol_value v in
  raise_if (negb (str_in s (sp_allowed_symbols sp))) ValueError.

Definition normalize (sp : StrategyParameterSpec) (v : pyval) : res pyval :=
  match sp_value_kind sp with
  | BOOLEAN => match v with VBool _ => Ok v | _ => Raise TypeError end
  | BOUNDED_INTEGER =>
      match v with
      | VInt z =>
          match sp_minimum sp, sp_maximum sp with
          | Some lo, Some hi => raise_if ((z <? lo) || (hi <? z)) ValueError ;;* Ok v
          | _, _ => Raise AssertionError
          end
      | _ => Raise TypeError
      end
  | SYMBOL => require_allowed sp v ;;* Ok v
  | SYMBOL_LIST =>
      let* items := iterate_value v in
      let* values := materialize items MAX_STRATEGY_SYMBOL_LIST_ITEMS in
      res_iter (require_allowed sp) values ;;*
      Ok (VList values)
  end.

Definition canonical_record (sp : StrategyParameterSpec) : pyval :=
  obj [("allowed_symbols", strs_val (sp_allowed_symbols sp));
       ("maximum", opt_val VInt (sp_maximum sp));
       ("minimum", opt_val VInt (sp_minimum sp));
       ("name", VStr (sp_name sp));
       ("required", VBool (sp_required sp));
       ("value_kind", VStr (kind_value (sp_value_kind sp)))]%string.

End StrategyParameterSpec.

Record StrategySchema := {
  sc_strategy_key : pystr;
  sc_parameter_specs : list StrategyParameterSpec;
  sc_contract_version : Z
}.

#[export] Instance StrategySchema_eq_dec : EqDecision StrategySchema.
Proof. solve_decision. Defined.

(** The pairs of a mapping argument whose keys must be distinct strings. *)
Definition string_items (limit : Z) (check : pystr → res unit) (v : pyval) : res (list (pystr * pyval)) :=
  match v with
  | VDict l =>
      let* supplied := materialize l limit in
      res_fold (λ raw kv,
          match kv.1 with
          | VStr name =>
              check name ;;*
              raise_if (str_in name (map fst raw)) ValueError ;;*
              Ok (raw ++ [(name, kv.2)])
          | _ => Raise TypeError
          end) [] supplied
  | _ => Raise TypeError
  end.

Module StrategySchema.

Definition make (strategy_key : pystr) (parameter_specs : list StrategyParameterSpec)
    (contract_version : Z) : res StrategySchema :=
  require_symbol strategy_key ;;*
  require_positive_int contract_version ;;*
  let* supplied := materialize parameter_specs MAX_STRATEGY_PARAMETERS in
  let specs := sorted_by sp_name supplied in
  raise_if (has_duplicates (map sp_name specs)) ValueError ;;*
  Ok {| sc_strategy_key := strategy_key; sc_parameter_specs := specs;
        sc_contract_version := contract_version |}.

Definition canonical_record (sc : StrategySchema) : pyval :=
  obj [("contract_version", VInt (sc_contract_version sc));
       ("parameter_schema", VStr STRATEGY_PARAMETER_SCHEMA);
       ("parameter_specs", VList (map StrategyParameterSpec.canonical_record (sc_parameter_specs sc)));
       ("strategy_key", VStr (sc_strategy_key sc))]%string.

Definition schema_id (sc : StrategySchema) : res pystr :=
  domain_fingerprint STRATEGY_SCHEMA_ID_DOMAIN (canonical_record sc).

Definition normalize_parameters (sc : StrategySchema) (parameters : pyval) : res pyval :=
  let* raw := string_items MAX_STRATEGY_PARAMETERS (λ _, Ok tt) parameters in
  let specs := sc_parameter_specs sc in
  raise_if (existsb (λ kv, negb (str_in kv.1 (map sp_name specs))) raw) ValueError ;;*
  raise_if (existsb (λ sp, sp_required sp && negb (str_in (sp_name sp) (map fst raw))) specs) ValueError ;;*
  let* items := res_map (λ kv,
      match find (λ sp, bool_decide (sp_name sp = kv.1)) specs with
      | Some sp => let* v := StrategyParameterSpec.normalize sp kv.2 in Ok (VStr kv.1, v)
      | None => Raise KeyError
      end) (sorted_by fst raw) in
  Ok (VDict items).

End StrategySchema.

(** ** Capabilities and limits *)

Record Capability := {
  cap_name : pystr;
  cap_replay_safety : ReplaySafety;
  cap_description : pystr;
  cap_available : bool;
  cap_contract_version : Z;
  cap_required_state_keys : list pystr;
  cap_semantic_argument_keys : list pystr;
  cap_replay_evidence_id : option pystr
}.

#[export] Instance Capability_eq_dec : EqDecision Capability.
Proof. solve_decision. Defined.

Module Capability.

Definition make (name : pystr) (replay_safety : ReplaySafety) (description : pystr) (available : bool)
    (contract_version : Z) (required_state_keys semantic_argument_keys : list pystr)
    (replay_evidence_id : option pystr) : res Capability :=
  require_symbol name ;;*
  require_text description ;;*
  require_positive_int contract_version ;;*
  let* state_keys := unique_sorted required_state_keys MAX_STATE_KEYS_PER_DECLARATION require_symbol in
  let* argument_keys := unique_sorted semantic_argument_keys MAX_CAPABILITY_ARGUMENTS require_symbol in
  (if decide (replay_safety = PROVEN_REPLAY_SAFE) then
     match replay_evidence_id with
     | None => Raise ValueError
     | Some i => require_fingerprint i
     end
   else raise_if (is_some replay_evidence_id) ValueError) ;;*
  Ok {| cap_name := name; cap_replay_safety := replay_safety; cap_description := description;
        cap_available := available; cap_contract_version := contract_version;
        cap_required_state_keys := state_keys; cap_semantic_argument_keys := argument_keys;
        cap_replay_evidence_id := replay_evidence_id |}.

Definition is_replay_safe (c : Capability) : bool :=
  match cap_replay_safety c with
  | CACHEABLE_READ | PROVEN_REPLAY_SAFE => true
  | OCCURRENCE_SENSITIVE => false
  end.

(** The record that a capability is identified by. *)
Definition contract_record (c : Capability) : pyval :=
  obj [("contract_version", VInt (cap_contract_version c));
       ("argument_schema", VStr CAPABILITY_ARGUMENT_SCHEMA);
       ("name", VStr (cap_name c));
       ("replay_evidence_id", opt_val VStr (cap_replay_evidence_id c));
       ("replay_safety", VStr (replay_value (cap_replay_safety c)));
       ("required_state_keys", strs_val (cap_required_state_keys c));
       ("semantic_argument_keys", strs_val (cap_semantic_argument_keys c))]%string.

Definition capability_id (c : Capability) : res pystr := domain_fingerprint CAPABILITY_ID_DOMAIN (contract_record c).

Definition normalize_arguments (c : Capability) (arguments : pyval) : res pyval :=
  let* normalized := string_items MAX_CAPABILITY_ARGUMENTS require_symbol arguments in
  raise_if (existsb (λ kv, negb (str_in kv.1 (cap_semantic_argument_keys c))) normalized) ValueError ;;*
  let* cv := CanonicalValue.from_value (VDict (map (λ kv, (VStr kv.1, kv.2)) normalized)) in
  CanonicalValue.to_value cv.

Definition canonical_record (c : Capability) : res pyval :=
  let* i := capability_id c in
  Ok (obj [("argument_schema", VStr CAPABILITY_ARGUMENT_SCHEMA);
           ("available", VBool (cap_available c));
           ("capability_id", VStr i);
           ("contract_version", VInt (cap_contract_version c));
           ("description", VStr (cap_description c));
           ("name", VStr (cap_name c));
           ("replay_evidence_id", opt_val VStr (cap_replay_evidence_id c));
           ("replay_safety", VStr (replay_value (cap_replay_safety c)));
           ("required_state_keys", strs_val (cap_required_state_keys c));
           ("semantic_argument_keys", strs_val (cap_semantic_argument_keys c))]%string).

End Capability.

Record OrchestrationLimits := {
  ol_max_obligations : Z;
  ol_max_epistemic_records : Z;
  ol_max_capabilities : Z;
  ol_max_batch_proposals : Z;
  ol_max_history : Z;
  ol_max_occurrence_owners : Z;
  ol_max_strategy_schemas : Z
}.

#[export] Instance OrchestrationLimits_eq_dec : EqDecision OrchestrationLimits.
Proof. solve_decision. Defined.

Module OrchestrationLimits.

Definition check (l : OrchestrationLimits) : res unit :=
  res_iter (λ '(value, hard_limit), require_bounded_positive_int value hard_limit)
    [(ol_max_obligations l, MAX_OBLIGATIONS);
     (ol_max_epistemic_records l, MAX_EPISTEMIC_RECORDS);
     (ol_max_capabilities l, MAX_CAPABILITIES);
     (ol_max_batch_proposals l, MAX_PROPOSALS_PER_BATCH);
     (ol_max_history l, MAX_HISTORY_EVENTS);
     (ol_max_occurrence_owners l, MAX_OCCURRENCE_OWNERS);
     (ol_max_strategy_schemas l, MAX_STRATEGY_SCHEMAS)].

Definition make (l : OrchestrationLimits) : res OrchestrationLimits := check l ;;* Ok l.

Definition default : OrchestrationLimits := {|
  ol_max_obligations := MAX_OBLIGATIONS;
  ol_max_epistemic_records := MAX_EPISTEMIC_RECORDS;
  ol_max_capabilities := MAX_CAPABILITIES;
  ol_max_batch_proposals := MAX_PROPOSALS_PER_BATCH;
  ol_max_history := MAX_HISTORY_EVENTS;
  ol_max_occurrence_owners := MAX_OCCURRENCE_OWNERS;
  ol_max_strategy_schemas := MAX_STRATEGY_SCHEMAS
|}.

Definition canonical_record (l : OrchestrationLimits) : pyval :=
  obj [("max_batch_proposals", VInt (ol_max_batch_proposals l));
       ("max_capabilities", VInt (ol_max_capabilities l));
       ("max_epistemic_records", VInt (ol_max_epistemic_records l));
       ("max_history", VInt (ol_max_history l));
       ("max_obligations", VInt (ol_max_obligations l));
       ("max_occurrence_owners", VInt (ol_max_occurrence_owners l));
       ("max_strategy_schemas", VInt (ol_max_strategy_schemas l))]%string.

End OrchestrationLimits.

(** ** What a model proposes *)

Record Strategy := {
  sg_key : pystr;
  sg_schema : StrategySchema;
  sg_parameters : CanonicalValue
}.

Module Strategy.

Definition make (key : pystr) (parameters : pyval) (schema : StrategySchema) : res Strategy :=
  require_symbol key ;;*
  raise_if (negb (bool_decide (sc_strategy_key schema = key))) ValueError ;;*
  let* normalized := StrategySchema.normalize_parameters schema parameters in
  let* cv := CanonicalValue.from_value normalized in
  Ok {| sg_key := key; sg_schema := schema; sg_parameters := cv |}.

Definition parameters (s : Strategy) : res pyval := CanonicalValue.to_value (sg_parameters s).

Definition canonical_record (s : Strategy) : res pyval :=
  let* i := StrategySchema.schema_id (sg_schema s) in
  let* v := CanonicalValue.to_value (sg_parameters s) in
  Ok (obj [("key", VStr (sg_key s));
           ("parameter_schema", VStr STRATEGY_PARAMETER_SCHEMA);
           ("parameter_schema_id", VStr i);
           ("parameters", v)]%string).

Definition strategy_id (s : Strategy) : res pystr :=
  let* r := canonical_record s in domain_fingerprint STRATEGY_ID_DOMAIN r.

End Strategy.

Record ActionProposal := {
  ap_proposal_key : pystr;
  ap_capability : pystr;
  ap_target_obligation_ids : list pystr;
  ap_required_state_keys : list pystr;
  ap_occurrence_key : option pystr;
  ap_arguments : CanonicalValue;
  ap_observational_metadata : option CanonicalValue
}.

Module ActionProposal.

Definition make (proposal_key capability : pystr) (arguments : pyval)
    (target_obligation_ids required_state_keys : list pystr) (occurrence_key : option pystr)
    (observational_metadata : option pyval) : res ActionProposal :=
  require_symbol proposal_key ;;*
  require_symbol capability ;;*
  let* supplied := materialize target_obligation_ids MAX_OBLIGATIONS in
  let targets := sorted supplied in
  raise_if (negb (nonempty targets)) ValueError ;;*
  raise_if (has_duplicates targets) ValueError ;;*
  res_iter require_fingerprint targets ;;*
  let* state_keys := unique_sorted required_state_keys MAX_STATE_KEYS_PER_DECLARATION require_symbol in
  match occurrence_key with None => Ok tt | Some k => require_symbol k end ;;*
  let* arguments := CanonicalValue.from_value arguments in
  let* metadata :=
    match observational_metadata with
    | None => Ok None
    | Some v => let* cv := CanonicalValue.from_value v in Ok (Some cv)
    end in
  Ok {| ap_proposal_key := proposal_key; ap_capability := capability;
        ap_target_obligation_ids := targets; ap_required_state_keys := state_keys;
        ap_occurrence_key := occurrence_key; ap_arguments := arguments;
        ap_observational_metadata := metadata |}.

Definition arguments (p : ActionProposal) : res pyval := CanonicalValue.to_value (ap_arguments p).

Definition record_fields (p : ActionProposal) (arguments : pyval) : list (string * pyval) :=
  [("arguments", arguments);
   ("capability", VStr (ap_capability p));
   ("epistemic_class", VStr (u "model_proposed"));
   ("occurrence_key", opt_val VStr (ap_occurrence_key p));
   ("proposal_key", VStr (ap_proposal_key p));
   ("required_state_keys", strs_val (ap_required_state_keys p));
   ("target_obligation_ids", strs_val (ap_target_obligation_ids p))]%string.

Definition canonical_record (p : ActionProposal) : res pyval :=
  let* v := arguments p in Ok (obj (record_fields p v)).

Definition observational_metadata (p : ActionProposal) : res pyval :=
  match ap_observational_metadata p with
  | None => Ok VNone
  | Some cv => CanonicalValue.to_value cv
  end.

Definition agent_record (p : ActionProposal) : res pyval :=
  let* v := arguments p in
  let* m := observational_metadata p in
  Ok (obj (record_fields p v ++ [("observational_metadata", m)]%string)).

Definition proposal_id (p : ActionProposal) : res pystr :=
  let* r := canonical_record p in domain_fingerprint PROPOSAL_ID_DOMAIN r.

End ActionProposal.

Record ProposalBatch := {
  pb_batch_key : pystr;
  pb_strategy : Strategy;
  pb_proposals : list ActionProposal;
  pb_ordering : ProposalOrdering
}.

Module ProposalBatch.

Definition make (batch_key : pystr) (strategy : Strategy) (proposals : list ActionProposal)
    (ordering : ProposalOrdering) : res ProposalBatch :=
  require_symbol batch_key ;;*
  let* proposals := materialize proposals MAX_PROPOSALS_PER_BATCH in
  raise_if (negb (nonempty proposals)) ValueError ;;*
  raise_if (has_duplicates (map ap_proposal_key proposals)) ValueError ;;*
  Ok {| pb_batch_key := batch_key; pb_strategy := strategy; pb_proposals := proposals;
        pb_ordering := ordering |}.

(** [sorted(proposals, key=proposal_id)] unless the batch declares its sequence. *)
Definition ordered_proposals (b : ProposalBatch) : res (list ActionProposal) :=
  match pb_ordering b with
  | DECLARED_SEQUENCE => Ok (pb_proposals b)
  | CANONICAL_INDEPENDENT =>
      let* keyed := res_map (λ p, let* i := ActionProposal.proposal_id p in Ok (i, p)) (pb_proposals b) in
      Ok (map snd (sorted_by fst keyed))
  end.

Definition canonical_record (b : ProposalBatch) : res pyval :=
  let* ordered := ordered_proposals b in
  let* proposals := res_map ActionProposal.canonical_record ordered in
  let* strategy := Strategy.canonical_record (pb_strategy b) in
  Ok (obj [("batch_key", VStr (pb_batch_key b));
           ("epistemic_class", VStr (u "model_proposed"));
           ("ordering", VStr (ordering_value (pb_ordering b)));
           ("proposals", VList proposals);
           ("strategy", strategy)]%string).

Definition batch_id (b : ProposalBatch) : res pystr :=
  let* r := canonical_record b in domain_fingerprint BATCH_ID_DOMAIN r.

End ProposalBatch.

(** ** Decisions *)

Record AdmissionDecision := {
  ad_proposal_id : pystr;
  ad_proposal_key : pystr;
  ad_status : DecisionStatus;
  ad_logical_tick : Z;
  ad_authority_layer : AuthorityLayer;
  ad_invariant_ids : list pystr;
  ad_action_id : option pystr;
  ad_equivalent_proposal_id : option pystr;
  ad_rejection_reason : option RejectionReason;
  ad_recovery_actions : list RecoveryAction;
  ad_blocking_obligation_ids : list pystr;
  ad_dependency_state_keys : list pystr;
  ad_unresolved_state_keys : list pystr
}.

Definition opt_check (f : pystr → res unit) (o : option pystr) : res unit :=
  match o with None => Ok tt | Some s => f s end.

Definition sorted_recoveries (l : list RecoveryAction) : list RecoveryAction :=
  sorted_by recovery_value (remove_dups l).

Module AdmissionDecision.

(** The status-dependent checks at the end of [__post_init__]. *)
Definition check_status (d : AdmissionDecision) : res unit :=
  match ad_status d with
  | ADMITTED =>
      raise_if (negb (is_some (ad_action_id d))) ValueError ;;*
      raise_if (is_some (ad_equivalent_proposal_id d)) ValueError ;;*
      raise_if (is_some (ad_rejection_reason d) || nonempty (ad_recovery_actions d)) ValueError ;;*
      raise_if (nonempty (ad_invariant_ids d)) ValueError
  | DEDUPLICATED =>
      raise_if (negb (is_some (ad_action_id d)) || negb (is_some (ad_equivalent_proposal_id d))) ValueError ;;*
      raise_if (is_some (ad_rejection_reason d) || nonempty (ad_recovery_actions d)) ValueError ;;*
      raise_if (nonempty (ad_invariant_ids d)) ValueError
  | DECISION_REJECTED =>
      raise_if (is_some (ad_action_id d) || is_some (ad_equivalent_proposal_id d)) ValueError ;;*
      raise_if (negb (is_some (ad_rejection_reason d))) ValueError ;;*
      raise_if (negb (nonempty (ad_invariant_ids d))) ValueError
  end.

(** [__post_init__] on the supplied fields. *)
Definition make (d : AdmissionDecision) : res AdmissionDecision :=
  require_fingerprint (ad_proposal_id d) ;;*
  require_symbol (ad_proposal_key d) ;;*
  require_nonnegative_int (ad_logical_tick d) ;;*
  opt_check require_fingerprint (ad_action_id d) ;;*
  opt_check require_fingerprint (ad_equivalent_proposal_id d) ;;*
  let* recoveries := materialize (ad_recovery_actions d) RECOVERY_ACTIONS in
  let* blocking := unique_sorted (ad_blocking_obligation_ids d) MAX_OBLIGATIONS require_fingerprint in
  let* dependency := unique_sorted (ad_dependency_state_keys d) MAX_EPISTEMIC_RECORDS require_symbol in
  let* unresolved := unique_sorted (ad_unresolved_state_keys d) MAX_EPISTEMIC_RECORDS require_symbol in
  let* invariants := unique_sorted (ad_invariant_ids d) MAX_INVARIANT_IDS_PER_REJECTION require_invariant_id in
  let d := {|
    ad_proposal_id := ad_proposal_id d; ad_proposal_key := ad_proposal_key d;
    ad_status := ad_status d; ad_logical_tick := ad_logical_tick d;
    ad_authority_layer := ad_authority_layer d; ad_invariant_ids := invariants;
    ad_action_id := ad_action_id d; ad_equivalent_proposal_id := ad_equivalent_proposal_id d;
    ad_rejection_reason := ad_rejection_reason d; ad_recovery_actions := sorted_recoveries recoveries;
    ad_blocking_obligation_ids := blocking; ad_dependency_state_keys := dependency;
    ad_unresolved_state_keys := unresolved |} in
  check_status d ;;*
  Ok d.

Definition canonical_record (d : AdmissionDecision) : pyval :=
  obj [("action_id", opt_val VStr (ad_action_id d));
       ("authority_layer", VStr (layer_value (ad_authority_layer d)));
       ("blocking_obligation_ids", strs_val (ad_blocking_obligation_ids d));
       ("dependency_state_keys", strs_val (ad_dependency_state_keys d));
       ("equivalent_proposal_id", opt_val VStr (ad_equivalent_proposal_id d));
       ("logical_tick", VInt (ad_logical_tick d));
       ("invariant_ids", strs_val (ad_invariant_ids d));
       ("proposal_id", VStr (ad_proposal_id d));
       ("proposal_key", VStr (ad_proposal_key d));
       ("recovery_actions", strs_val (map recovery_value (ad_recovery_actions d)));
       ("rejection_reason", opt_val (λ r, VStr (reason_value r)) (ad_rejection_reason d));
       ("status", VStr (decision_value (ad_status d)));
       ("unresolved_state_keys", strs_val (ad_unresolved_state_keys d))]%string.

End AdmissionDecision.

Record BatchRejection := {
  br_reason : RejectionReason;
  br_recovery_actions : list RecoveryAction;
  br_logical_tick : Z;
  br_authority_layer : AuthorityLayer;
  br_invariant_ids : list pystr
}.

Module BatchRejection.

Definition make (r : BatchRejection) : res BatchRejection :=
  let* recoveries := materialize (br_recovery_actions r) RECOVERY_ACTIONS in
  require_nonnegative_int (br_logical_tick r) ;;*
  let* supplied := materialize (br_invariant_ids r) MAX_INVARIANT_IDS_PER_REJECTION in
  let invariants := sorted supplied in
  raise_if (negb (nonempty invariants)) ValueError ;;*
  res_iter require_invariant_id invariants ;;*
  Ok {| br_reason := br_reason r; br_recovery_actions := sorted_recoveries recoveries;
        br_logical_tick := br_logical_tick r; br_authority_layer := br_authority_layer r;
        br_invariant_ids := invariants |}.

Definition canonical_record (r : BatchRejection) : pyval :=
  obj [("authority_layer", VStr (layer_value (br_authority_layer r)));
       ("invariant_ids", strs_val (br_invariant_ids r));
       ("logical_tick", VInt (br_logical_tick r));
       ("reason", VStr (reason_value (br_reason r)));
       ("recovery_actions", strs_val (map recovery_value (br_recovery_actions r)))]%string.

End BatchRejection.

Record OccurrenceOwnership := {
  oo_occurrence_key : pystr;
  oo_action_id : pystr;
  oo_proposal_id : pystr
}.

#[export] Instance OccurrenceOwnership_eq_dec : EqDecision OccurrenceOwnership.
Proof. solve_decision. Defined.

Module OccurrenceOwnership.

Definition make (occurrence_key action_id proposal_id : pystr) : res OccurrenceOwnership :=
  require_symbol occurrence_key ;;*
  require_fingerprint action_id ;;*
  require_fingerprint proposal_id ;;*
  Ok {| oo_occurrence_key := occurrence_key; oo_action_id := action_id; oo_proposal_id := proposal_id |}.

Definition canonical_record (o : OccurrenceOwnership) : pyval :=
  obj [("action_id", VStr (oo_action_id o));
       ("occurrence_key", VStr (oo_occurrence_key o));
       ("proposal_id", VStr (oo_proposal_id o))]%string.

End OccurrenceOwnership.

(** ** Receipts *)

Record AdmissionReceipt := {
  rc_batch_id : pystr;
  rc_strategy_id : pystr;
  rc_prior_state_id : pystr;
  rc_next_state_id : pystr;
  rc_status : BatchStatus;
  rc_proposal_ordering : ProposalOrdering;
  rc_logical_tick_start : Z;
  rc_logical_tick_end : Z;
  rc_decisions : list AdmissionDecision;
  rc_batch_rejection : option BatchRejection
}.

Module AdmissionReceipt.

(** [tuple(range(start + 1, end + 1))] *)
Definition expected_ticks (start stop : Z) : list Z :=
  map (λ i, start + 1 + Z.of_nat i) (seq 0 (Z.to_nat (stop - start))).

Definition check_status (r : AdmissionReceipt) : res unit :=
  match rc_status r with
  | BATCH_REJECTED =>
      match rc_batch_rejection r with
      | None => Raise ValueError
      | Some rejection =>
          raise_if (nonempty (rc_decisions r)) ValueError ;;*
          raise_if (negb (rc_logical_tick_end r =? rc_logical_tick_start r + 1)) ValueError ;;*
          raise_if (negb (br_logical_tick rejection =? rc_logical_tick_end r)) ValueError
      end
  | PROCESSED =>
      raise_if (is_some (rc_batch_rejection r)) ValueError ;;*
      raise_if (negb (nonempty (rc_decisions r))) ValueError ;;*
      raise_if (negb (bool_decide (map ad_logical_tick (rc_decisions r) =
        expected_ticks (rc_logical_tick_start r) (rc_logical_tick_end r)))) ValueError ;;*
      let ids := map ad_proposal_id (rc_decisions r) in
      raise_if (bool_decide (rc_proposal_ordering r = CANONICAL_INDEPENDENT) &&
                negb (bool_decide (ids = sorted ids))) ValueError
  end.

Definition make (r : AdmissionReceipt) : res AdmissionReceipt :=
  require_fingerprint (rc_batch_id r) ;;*
  require_fingerprint (rc_strategy_id r) ;;*
  require_fingerprint (rc_prior_state_id r) ;;*
  require_fingerprint (rc_next_state_id r) ;;*
  require_nonnegative_int (rc_logical_tick_start r) ;;*
  require_nonnegative_int (rc_logical_tick_end r) ;;*
  raise_if (rc_logical_tick_end r <? rc_logical_tick_start r) ValueError ;;*
  materialize (rc_decisions r) MAX_PROPOSALS_PER_BATCH ;;*
  check_status r ;;*
  Ok r.

Definition canonical_record (r : AdmissionReceipt) : pyval :=
  obj [("batch_id", VStr (rc_batch_id r));
       ("batch_rejection", opt_val BatchRejection.canonical_record (rc_batch_rejection r));
       ("decisions", VList (map AdmissionDecision.canonical_record (rc_decisions r)));
       ("logical_clock_profile", VStr LOGICAL_CLOCK_PROFILE);
       ("logical_tick_end", VInt (rc_logical_tick_end r));
       ("logical_tick_start", VInt (rc_logical_tick_start r));
       ("next_state_id", VStr (rc_next_state_id r));
       ("prior_state_id", VStr (rc_prior_state_id r));
       ("proposal_ordering", VStr (ordering_value (rc_proposal_ordering r)));
       ("protocol", VStr AGENT_PROTOCOL);
       ("status", VStr (batch_status_value (rc_status r)));
       ("strategy_id", VStr (rc_strategy_id r))]%string.

Definition receipt_id (r : AdmissionReceipt) : res pystr :=
  domain_fingerprint RECEIPT_ID_DOMAIN (canonical_record r).

End AdmissionReceipt.

(** ** The orchestration state *)

Record OrchestrationState := {
  os_obligations : ObligationRegistry;
  os_epistemic_state : EpistemicState;
  os_capabilities : list Capability;
  os_limits : OrchestrationLimits;
  os_logical_tick : Z;
  os_history : list pystr;
  os_occurrence_owners : list OccurrenceOwnership;
  os_strategy_schemas : list StrategySchema
}.

#[export] Instance OrchestrationState_eq_dec : EqDecision OrchestrationState.
Proof. solve_decision. Defined.

Module OrchestrationState.

(** [__post_init__] on the supplied fields. *)
Definition make (s : OrchestrationState) : res OrchestrationState :=
  require_nonnegative_int (os_logical_tick s) ;;*
  let limits := os_limits s in
  raise_if (negb (reg_max_obligations (os_obligations s) =? ol_max_obligations limits)) ValueError ;;*
  raise_if (negb (es_max_records (os_epistemic_state s) =? ol_max_epistemic_records limits)) ValueError ;;*
  let* supplied := materialize (os_capabilities s) (ol_max_capabilities limits) in
  let capabilities := sorted_by cap_name supplied in
  raise_if (ol_max_capabilities limits <? Z.of_nat (length capabilities)) ValueError ;;*
  raise_if (has_duplicates (map cap_name capabilities)) ValueError ;;*
  let* history := materialize (os_history s) (ol_max_history limits) in
  raise_if (ol_max_history limits <? Z.of_nat (length history)) ValueError ;;*
  res_iter require_fingerprint history ;;*
  let* supplied := materialize (os_occurrence_owners s) (ol_max_occurrence_owners limits) in
  let owners := sorted_by oo_occurrence_key supplied in
  raise_if (ol_max_occurrence_owners limits <? Z.of_nat (length owners)) ValueError ;;*
  raise_if (has_duplicates (map oo_occurrence_key owners)) ValueError ;;*
  let* supplied := materialize (os_strategy_schemas s) (ol_max_strategy_schemas limits) in
  let schemas := sorted_by sc_strategy_key supplied in
  raise_if (has_duplicates (map sc_strategy_key schemas)) ValueError ;;*
  Ok {| os_obligations := os_obligations s; os_epistemic_state := os_epistemic_state s;
        os_capabilities := capabilities; os_limits := limits; os_logical_tick := os_logical_tick s;
        os_history := history; os_occurrence_owners := owners; os_strategy_schemas := schemas |}.

Definition create (obligations : nat → option Obligation) (epistemic_state : option EpistemicState)
    (capabilities : nat → option Capability) (strategy_schemas : nat → option StrategySchema)
    (limits : option OrchestrationLimits) : res OrchestrationState :=
  let active_limits := match limits with Some l => l | None => OrchestrationLimits.default end in
  let* active_state :=
    match epistemic_state with
    | Some e => Ok e
    | None => EpistemicState.make [] (ol_max_epistemic_records active_limits)
    end in
  let* registry := ObligationRegistry.from_iterable obligations (ol_max_obligations active_limits) in
  let* capabilities := materialize_bounded_iterable capabilities (ol_max_capabilities active_limits) in
  let* schemas := materialize_bounded_iterable strategy_schemas (ol_max_strategy_schemas active_limits) in
  make {| os_obligations := registry; os_epistemic_state := active_state;
          os_capabilities := capabilities; os_limits := active_limits; os_logical_tick := 0;
          os_history := []; os_occurrence_owners := []; os_strategy_schemas := schemas |}.

Definition clock_record (s : OrchestrationState) : pyval :=
  obj [("profile", VStr LOGICAL_CLOCK_PROFILE); ("tick", VInt (os_logical_tick s))]%string.

Definition canonical_record (s : OrchestrationState) : res pyval :=
  let* capabilities := res_map Capability.canonical_record (os_capabilities s) in
  let* epistemic := EpistemicState.identity_record (os_epistemic_state s) in
  let* obligations := ObligationRegistry.canonical_record (os_obligations s) in
  Ok (obj [("capabilities", VList capabilities);
           ("epistemic_state", epistemic);
           ("history", strs_val (os_history s));
           ("limits", OrchestrationLimits.canonical_record (os_limits s));
           ("logical_clock", clock_record s);
           ("obligations", obligations);
           ("occurrence_owners", VList (map OccurrenceOwnership.canonical_record (os_occurrence_owners s)));
           ("protocol", VStr AGENT_PROTOCOL);
           ("strategy_schemas", VList (map StrategySchema.canonical_record (os_strategy_schemas s)))]%string).

Definition state_id (s : OrchestrationState) : res pystr :=
  let* r := canonical_record s in domain_fingerprint STATE_ID_DOMAIN r.

Definition capability (s : OrchestrationState) (name : pystr) : res (option Capability) :=
  require_symbol name ;;*
  Ok (find (λ c, bool_decide (cap_name c = name)) (os_capabilities s)).

Definition strategy_schema (s : OrchestrationState) (key : pystr) : res (option StrategySchema) :=
  require_symbol key ;;*
  Ok (find (λ sc, bool_decide (sc_strategy_key sc = key)) (os_strategy_schemas s)).

Definition readiness_value (x : ObligationReadiness) : pystr :=
  match x with
  | READY => u "ready"
  | DEPENDENCY_BLOCKED => u "dependency_blocked"
  | EXPLICITLY_BLOCKED => u "explicitly_blocked"
  | READINESS_SATISFIED => u "satisfied"
  end.

(** One obligation of the projection: its readiness and record. *)
Definition projected_obligation (s : OrchestrationState) (o : Obligation) : res (ObligationReadiness * pyval) :=
  let* i := obligation_id o in
  let* x := ObligationRegistry.readiness (os_obligations s) i in
  let* blocking := ObligationRegistry.blocking_dependency_ids (os_obligations s) i in
  Ok (x, obj [("blocking_dependency_ids", strs_val blocking);
              ("block_reason", opt_val VStr (ob_block_reason o));
              ("description", VStr (ob_description o));
              ("key", VStr (ob_key o));
              ("obligation_id", VStr i);
              ("readiness", VStr (readiness_value x));
              ("status", VStr (status_value (ob_status o)))]%string).

Definition group_of (p : ObligationReadiness → bool) (l : list (ObligationReadiness * pyval)) : pyval :=
  VList (map snd (List.filter (λ xr, p xr.1) l)).

Definition compact_projection (s : OrchestrationState) : res pyval :=
  let* records := res_map (projected_obligation s) (reg_obligations (os_obligations s)) in
  let* capabilities := res_map Capability.canonical_record (os_capabilities s) in
  let* i := state_id s in
  let* epistemic := EpistemicState.projection (os_epistemic_state s) in
  let limits := os_limits s in
  let remaining (limit : Z) (n : nat) := VInt (limit - Z.of_nat n) in
  Ok (obj [("bounds", OrchestrationLimits.canonical_record limits);
           ("capabilities", VList capabilities);
           ("capacity", obj
             [("capability_slots_remaining", remaining (ol_max_capabilities limits) (length (os_capabilities s)));
              ("epistemic_slots_remaining",
                remaining (ol_max_epistemic_records limits) (length (es_records (os_epistemic_state s))));
              ("obligation_slots_remaining",
                remaining (ol_max_obligations limits) (length (reg_obligations (os_obligations s))));
              ("occurrence_owner_slots_remaining",
                remaining (ol_max_occurrence_owners limits) (length (os_occurrence_owners s)));
              ("strategy_schema_slots_remaining",
                remaining (ol_max_strategy_schemas limits) (length (os_strategy_schemas s)))]%string);
           ("canonical_state_identity", VStr i);
           ("epistemic_state", epistemic);
           ("logical_clock", clock_record s);
           ("obligations", obj
             [("blocked", group_of (λ x, negb (bool_decide (x = READY)) && negb (bool_decide (x = READINESS_SATISFIED))) records);
              ("ready", group_of (λ x, bool_decide (x = READY)) records);
              ("satisfied", group_of (λ x, bool_decide (x = READINESS_SATISFIED)) records)]%string);
           ("occurrence_owners", VList (map OccurrenceOwnership.canonical_record (os_occurrence_owners s)));
           ("protocol", VStr AGENT_PROTOCOL);
           ("strategy_schemas", VList (map StrategySchema.canonical_record (os_strategy_schemas s)))]%string).

Definition advance (s : OrchestrationState) (logical_tick : Z) (event_ids : list pystr)
    (occurrence_owners : option (list OccurrenceOwnership)) : res OrchestrationState :=
  require_nonnegative_int logical_tick ;;*
  raise_if (logical_tick <? os_logical_tick s) ValueError ;;*
  let* additions := materialize event_ids MAX_PROPOSALS_PER_BATCH in
  res_iter require_fingerprint additions ;;*
  raise_if (negb (logical_tick - os_logical_tick s =? Z.of_nat (length additions))) ValueError ;;*
  let history := last_items (ol_max_history (os_limits s)) (os_history s ++ additions) in
  let* owners :=
    match occurrence_owners with
    | None => Ok (os_occurrence_owners s)
    | Some l => materialize l (ol_max_occurrence_owners (os_limits s))
    end in
  make {| os_obligations := os_obligations s; os_epistemic_state := os_epistemic_state s;
          os_capabilities := os_capabilities s; os_limits := os_limits s;
          os_logical_tick := logical_tick; os_history := history;
          os_occurrence_owners := owners; os_strategy_schemas := os_strategy_schemas s |}.

End OrchestrationState.
