(* ===== verification/Admission.v ===== *)
(** * The admission transition ([admit_batch] of [src/ibae/orchestration.py])

    A batch of proposals against a state gives the next state and a receipt.  The loop carries
    the decisions and event ids so far, the replay-safe actions admitted in this batch, and the
    occurrence owners; the dictionary of owners is the list of its values in insertion order,
    each under its own key. *)

From Stdlib Require Import Ascii String.
From stdpp Require Import base list gmap.
From S2P Require Import Prelude PyStr PyNumber Sha256 Canonical Records Obligations Epistemic Orchestration.

Record AdmissionTransition := {
  tr_next_state : OrchestrationState;
  tr_receipt : AdmissionReceipt
}.

Definition make_transition (next_state : OrchestrationState) (receipt : AdmissionReceipt)
    : res AdmissionTransition :=
  let* i := OrchestrationState.state_id next_state in
  raise_if (negb (bool_decide (i = rc_next_state_id receipt))) ValueError ;;*
  Ok {| tr_next_state := next_state; tr_receipt := receipt |}.

Definition event_id (batch_id : pystr) (record : pyval) : res pystr :=
  domain_fingerprint EVENT_ID_DOMAIN (obj [("batch_id", VStr batch_id); ("event", record)]%string).

(** [_rejected_batch_transition] *)
Definition rejected_batch_transition (state : OrchestrationState) (batch : ProposalBatch)
    (reason : RejectionReason) (recovery_actions : list RecoveryAction) : res AdmissionTransition :=
  let* prior_state_id := OrchestrationState.state_id state in
  let logical_tick := os_logical_tick state + 1 in
  let* rejection := BatchRejection.make
    {| br_reason := reason; br_recovery_actions := recovery_actions; br_logical_tick := logical_tick;
       br_authority_layer := ORCHESTRATION; br_invariant_ids := rejection_invariants reason |} in
  let* batch_id := ProposalBatch.batch_id batch in
  let* ev := event_id batch_id
    (obj [("batch_rejection", BatchRejection.canonical_record rejection)]%string) in
  let* next_state := OrchestrationState.advance state logical_tick [ev] None in
  let* strategy_id := Strategy.strategy_id (pb_strategy batch) in
  let* next_state_id := OrchestrationState.state_id next_state in
  let* receipt := AdmissionReceipt.make
    {| rc_batch_id := batch_id; rc_strategy_id := strategy_id; rc_prior_state_id := prior_state_id;
       rc_next_state_id := next_state_id; rc_status := BATCH_REJECTED;
       rc_proposal_ordering := pb_ordering batch; rc_logical_tick_start := os_logical_tick state;
       rc_logical_tick_end := logical_tick; rc_decisions := []; rc_batch_rejection := Some rejection |} in
  make_transition next_state receipt.

(** [_rejected_decision] *)
Definition rejected_decision (proposal : ActionProposal) (logical_tick : Z) (reason : RejectionReason)
    (recovery_actions : list RecoveryAction)
    (blocking_obligation_ids dependency_state_keys unresolved_state_keys : list pystr)
    : res AdmissionDecision :=
  let* i := ActionProposal.proposal_id proposal in
  AdmissionDecision.make
    {| ad_proposal_id := i; ad_proposal_key := ap_proposal_key proposal; ad_status := DECISION_REJECTED;
       ad_logical_tick := logical_tick; ad_authority_layer := ORCHESTRATION;
       ad_invariant_ids := rejection_invariants reason; ad_action_id := None;
       ad_equivalent_proposal_id := None; ad_rejection_reason := Some reason;
       ad_recovery_actions := recovery_actions; ad_blocking_obligation_ids := blocking_obligation_ids;
       ad_dependency_state_keys := dependency_state_keys;
       ad_unresolved_state_keys := unresolved_state_keys |}.

(** The targets whose readiness is [x], in order. *)
Definition targets_with (state : OrchestrationState) (x : ObligationReadiness) (targets : list pystr)
    : res (list pystr) :=
  res_fold (λ acc t,
      let* r := ObligationRegistry.readiness (os_obligations state) t in
      Ok (if decide (r = x) then acc ++ [t] else acc)) [] targets.

(** [_validate_targets]: the first failing check, if any. *)
Definition validate_targets (state : OrchestrationState) (proposal : ActionProposal) (logical_tick : Z)
    (keys : list pystr) : res (option AdmissionDecision) :=
  let targets := ap_target_obligation_ids proposal in
  let reject reason recovery blocking :=
    let* d := rejected_decision proposal logical_tick reason [recovery] blocking keys [] in
    Ok (Some d) in
  let* known_ids := ObligationRegistry.known_ids (os_obligations state) in
  let unknown := List.filter (λ t, negb (str_in t known_ids)) targets in
  if nonempty unknown then reject UNKNOWN_OBLIGATION CHOOSE_KNOWN_OBLIGATION unknown else
  let* satisfied := targets_with state READINESS_SATISFIED targets in
  if nonempty satisfied then reject OBLIGATION_SATISFIED TARGET_UNSATISFIED_OBLIGATION satisfied else
  let* explicitly_blocked := targets_with state EXPLICITLY_BLOCKED targets in
  if nonempty explicitly_blocked then reject OBLIGATION_BLOCKED RESOLVE_BLOCKER explicitly_blocked else
  let* dependency_blocked := targets_with state DEPENDENCY_BLOCKED targets in
  if nonempty dependency_blocked then
    let* blockers := res_map (ObligationRegistry.blocking_dependency_ids (os_obligations state))
      dependency_blocked in
    reject DEPENDENCY_UNSATISFIED SATISFY_DEPENDENCIES (sorted_set (concat blockers))
  else Ok None.

(** [_action_id], with the record that it hashes *)
Definition action_identity (capability : Capability) (semantic_arguments : pyval)
    (occurrence_key : option pystr) (dependency_state_id : pystr) : res pyval :=
  let* capability_id := Capability.capability_id capability in
  let record :=
    [("arguments", semantic_arguments);
     ("capability_id", VStr capability_id);
     ("dependency_state_id", VStr dependency_state_id)]%string in
  Ok (obj (if decide (cap_replay_safety capability = OCCURRENCE_SENSITIVE)
           then record ++ [("occurrence_key", opt_val VStr occurrence_key)]%string
           else record)).

Definition action_id (capability : Capability) (semantic_arguments : pyval)
    (occurrence_key : option pystr) (dependency_state_id : pystr) : res pystr :=
  let* record := action_identity capability semantic_arguments occurrence_key dependency_state_id in
  domain_fingerprint ACTION_ID_DOMAIN record.

Record loop_state := {
  ls_decisions : list AdmissionDecision;
  ls_event_ids : list pystr;
  ls_replay_safe : gmap pystr pystr;
  ls_owners : list OccurrenceOwnership;
  ls_logical_tick : Z
}.

Definition find_owner (owners : list OccurrenceOwnership) (key : pystr) : option OccurrenceOwnership :=
  find (λ o, bool_decide (oo_occurrence_key o = key)) owners.

Definition admitted_decision (i key : pystr) (tick : Z) (act : pystr) (equivalent : option pystr)
    (keys : list pystr) : res AdmissionDecision :=
  AdmissionDecision.make
    {| ad_proposal_id := i; ad_proposal_key := key;
       ad_status := if is_some equivalent then DEDUPLICATED else ADMITTED;
       ad_logical_tick := tick; ad_authority_layer := ORCHESTRATION; ad_invariant_ids := [];
       ad_action_id := Some act; ad_equivalent_proposal_id := equivalent; ad_rejection_reason := None;
       ad_recovery_actions := []; ad_blocking_obligation_ids := [];
       ad_dependency_state_keys := keys; ad_unresolved_state_keys := [] |}.

(** What the loop keeps of one decision: the decision, and the two registers. *)
Definition verdict : Type := AdmissionDecision * gmap pystr pystr * list OccurrenceOwnership.

(** The last part of the loop body: the proposal passed every check before its identity. *)
Definition decide_action (state : OrchestrationState) (proposal : ActionProposal) (capability : Capability)
    (semantic_arguments : pyval) (keys : list pystr) (st : loop_state) (tick : Z) : res verdict :=
  let reject reason recovery :=
    let* d := rejected_decision proposal tick reason [recovery] [] keys [] in
    Ok (d, ls_replay_safe st, ls_owners st) in
  let* dependency_state_id := EpistemicState.dependency_digest (os_epistemic_state state) keys in
  let* act := action_id capability semantic_arguments (ap_occurrence_key proposal) dependency_state_id in
  let* i := ActionProposal.proposal_id proposal in
  if Capability.is_replay_safe capability then
    match ls_replay_safe st !! act with
    | None =>
        let* d := admitted_decision i (ap_proposal_key proposal) tick act None keys in
        Ok (d, <[act := i]> (ls_replay_safe st), ls_owners st)
    | Some equivalent =>
        let* d := admitted_decision i (ap_proposal_key proposal) tick act (Some equivalent) keys in
        Ok (d, ls_replay_safe st, ls_owners st)
    end
  else
    match ap_occurrence_key proposal with
    | None => Raise AssertionError
    | Some key =>
        match find_owner (ls_owners st) key with
        | Some _ => reject DUPLICATE_OCCURRENCE USE_DISTINCT_OCCURRENCE_KEY
        | None =>
            if Z.of_nat (length (ls_owners st)) =? ol_max_occurrence_owners (os_limits state)
            then reject OCCURRENCE_REGISTRY_FULL REQUEST_NEW_BOUNDED_SCOPE
            else
              let* owner := OccurrenceOwnership.make key act i in
              let* d := admitted_decision i (ap_proposal_key proposal) tick act None keys in
              Ok (d, ls_replay_safe st, ls_owners st ++ [owner])
        end
    end.

(** [set(capability keys) | set(proposal keys)], sorted. *)
Definition dependency_keys (capability : Capability) (proposal : ActionProposal) : list pystr :=
  sorted_set (cap_required_state_keys capability ++ ap_required_state_keys proposal).

(** The proposal's arguments under the capability: [None] when they do not match its schema. *)
Definition admitted_arguments (capability : Capability) (proposal : ActionProposal) : res (option pyval) :=
  match (let* v := ActionProposal.arguments proposal in Capability.normalize_arguments capability v) with
  | Ok v => Ok (Some v)
  | Raise TypeError | Raise ValueError => Ok None
  | Raise e => Raise e
  end.

(** One iteration of the loop, up to its decision. *)
Definition decide_proposal (state : OrchestrationState) (batch : ProposalBatch) (st : loop_state)
    (proposal : ActionProposal) (tick : Z) : res verdict :=
  let reject reason recovery keys unresolved :=
    let* d := rejected_decision proposal tick reason [recovery] [] keys unresolved in
    Ok (d, ls_replay_safe st, ls_owners st) in
  let* found := OrchestrationState.capability state (ap_capability proposal) in
  match found with
  | None => reject UNKNOWN_CAPABILITY CHOOSE_AVAILABLE_CAPABILITY (ap_required_state_keys proposal) []
  | Some capability =>
      let keys := dependency_keys capability proposal in
      if negb (cap_available capability) then
        reject CAPABILITY_UNAVAILABLE CHOOSE_AVAILABLE_CAPABILITY keys []
      else
        let* arguments := admitted_arguments capability proposal in
        match arguments with
        | None => reject ARGUMENT_SCHEMA_MISMATCH USE_ADMITTED_ARGUMENT_SCHEMA keys []
        | Some semantic_arguments =>
            if negb (bool_decide (cap_replay_safety capability = CACHEABLE_READ)) &&
               negb (bool_decide (pb_ordering batch = DECLARED_SEQUENCE)) then
              reject ORDERING_CONTRACT_REQUIRED USE_DECLARED_SEQUENCE keys []
            else
              let* invalid := validate_targets state proposal tick keys in
              match invalid with
              | Some d => Ok (d, ls_replay_safe st, ls_owners st)
              | None =>
                  let* unresolved := EpistemicState.unresolved_keys (os_epistemic_state state) keys in
                  if nonempty unresolved then
                    reject UNKNOWN_STATE OBSERVE_REQUIRED_STATE keys unresolved
                  else if bool_decide (cap_replay_safety capability = OCCURRENCE_SENSITIVE) &&
                          negb (is_some (ap_occurrence_key proposal)) then
                    reject OCCURRENCE_KEY_REQUIRED ADD_OCCURRENCE_KEY keys []
                  else if Capability.is_replay_safe capability && is_some (ap_occurrence_key proposal) then
                    reject UNEXPECTED_OCCURRENCE_KEY REMOVE_OCCURRENCE_KEY keys []
                  else decide_action state proposal capability semantic_arguments keys st tick
              end
        end
  end.

(** One iteration of the loop. *)
Definition admit_step (state : OrchestrationState) (batch : ProposalBatch) (st : loop_state)
    (proposal : ActionProposal) : res loop_state :=
  let tick := ls_logical_tick st + 1 in
  let* v := decide_proposal state batch st proposal tick in
  let '(decision, replay_safe, owners) := v in
  let* batch_id := ProposalBatch.batch_id batch in
  let* strategy_id := Strategy.strategy_id (pb_strategy batch) in
  let* ev := event_id batch_id
    (obj [("decision", AdmissionDecision.canonical_record decision);
          ("strategy_id", VStr strategy_id)]%string) in
  Ok {| ls_decisions := ls_decisions st ++ [decision]; ls_event_ids := ls_event_ids st ++ [ev];
        ls_replay_safe := replay_safe; ls_owners := owners; ls_logical_tick := tick |}.

Definition start_loop (state : OrchestrationState) : loop_state :=
  {| ls_decisions := []; ls_event_ids := []; ls_replay_safe := ∅;
     ls_owners := os_occurrence_owners state; ls_logical_tick := os_logical_tick state |}.

(** Whether the batch's schema is the one the state admits under its key. *)
Definition schema_admitted (state : OrchestrationState) (batch : ProposalBatch) : res bool :=
  let* admitted := OrchestrationState.strategy_schema state (sg_key (pb_strategy batch)) in
  match admitted with
  | None => Ok false
  | Some sc =>
      let* a := StrategySchema.schema_id sc in
      let* b := StrategySchema.schema_id (sg_schema (pb_strategy batch)) in
      Ok (bool_decide (a = b))
  end.

Definition admit_batch (state : OrchestrationState) (batch : ProposalBatch) : res AdmissionTransition :=
  let* schema_ok := schema_admitted state batch in
  if negb schema_ok then
    rejected_batch_transition state batch STRATEGY_SCHEMA_NOT_ADMITTED [USE_ADMITTED_STRATEGY_SCHEMA]
  else
    let* prior_state_id := OrchestrationState.state_id state in
    if ol_max_batch_proposals (os_limits state) <? Z.of_nat (length (pb_proposals batch)) then
      rejected_batch_transition state batch BATCH_LIMIT_EXCEEDED [SPLIT_BATCH]
    else
      let* ordered := ProposalBatch.ordered_proposals batch in
      let* st := res_fold (admit_step state batch) (start_loop state) ordered in
      let* next_state := OrchestrationState.advance state (ls_logical_tick st) (ls_event_ids st)
        (Some (ls_owners st)) in
      let* batch_id := ProposalBatch.batch_id batch in
      let* strategy_id := Strategy.strategy_id (pb_strategy batch) in
      let* next_state_id := OrchestrationState.state_id next_state in
      let* receipt := AdmissionReceipt.make
        {| rc_batch_id := batch_id; rc_strategy_id := strategy_id; rc_prior_state_id := prior_state_id;
           rc_next_state_id := next_state_id; rc_status := PROCESSED;
           rc_proposal_ordering := pb_ordering batch; rc_logical_tick_start := os_logical_tick state;
           rc_logical_tick_end := ls_logical_tick st; rc_decisions := ls_decisions st;
           rc_batch_rejection := None |} in
      make_transition next_state receipt.
