(* ===== verification/AdmissionFacts.v ===== *)
(** * Properties of the admission transition *)

From Stdlib Require Import Ascii String.
From stdpp Require Import base list sets gmap.
From S2P Require Import Prelude PyStr PyNumber Sha256 Canonical CanonicalFacts Fingerprints Records RecordsFacts Kahn Obligations Epistemic Orchestration Admission.

(** ** Constructors keep their fields *)

Lemma unique_sorted_Ok l limit check items :
  unique_sorted l limit check = Ok items →
  items = sorted l ∧ NoDup l ∧ Z.of_nat (length l) <= limit ∧ ∀ x, x ∈ l → check x = Ok tt.
Proof.
  unfold unique_sorted. intros H.
  apply res_bind_Ok in H as (l' & [-> Hl]%materialize_Ok & H).
  apply res_bind_Ok in H as ([] & Hnd%raise_if_Ok%has_duplicates_false & H).
  apply res_bind_Ok in H as ([] & Hc%res_iter_Ok & [= <-]).
  rewrite sorted_perm in Hnd. split; [done|]. split; [done|]. split; [done|].
  rewrite Forall_forall in Hc. intros x Hx. apply Hc. by apply sorted_elem.
Qed.

(** The fields of a decision that its constructor does not sort. *)
Definition same_verdict (d d0 : AdmissionDecision) : Prop :=
  ad_proposal_id d = ad_proposal_id d0 ∧ ad_proposal_key d = ad_proposal_key d0 ∧
  ad_status d = ad_status d0 ∧ ad_logical_tick d = ad_logical_tick d0 ∧
  ad_action_id d = ad_action_id d0 ∧ ad_equivalent_proposal_id d = ad_equivalent_proposal_id d0 ∧
  ad_rejection_reason d = ad_rejection_reason d0 ∧
  ad_dependency_state_keys d = sorted (ad_dependency_state_keys d0).

Lemma decision_make_Ok d0 d : AdmissionDecision.make d0 = Ok d → same_verdict d d0.
Proof.
  unfold AdmissionDecision.make. intros H.
  repeat (apply res_bind_Ok in H as (? & ? & H)). injection H as <-.
  repeat match goal with
         | E : unique_sorted _ _ _ = Ok _ |- _ => apply unique_sorted_Ok in E as (-> & _)
         end. done.
Qed.

Lemma owner_make_Ok k a i o :
  OccurrenceOwnership.make k a i = Ok o →
  o = {| oo_occurrence_key := k; oo_action_id := a; oo_proposal_id := i |}.
Proof. unfold OccurrenceOwnership.make. intros H. by res_inv. Qed.

(** ** The state constructor *)

(** A state that its own constructor returned. *)
Definition made (s : OrchestrationState) : Prop := OrchestrationState.make s = Ok s.

Record state_bounds (s : OrchestrationState) : Prop := {
  sb_capabilities : Z.of_nat (length (os_capabilities s)) <= ol_max_capabilities (os_limits s);
  sb_names : NoDup (map cap_name (os_capabilities s));
  sb_history : Z.of_nat (length (os_history s)) <= ol_max_history (os_limits s);
  sb_events : ∀ e, e ∈ os_history s → fingerprint_pattern e = true;
  sb_owners : Z.of_nat (length (os_occurrence_owners s)) <= ol_max_occurrence_owners (os_limits s);
  sb_keys : NoDup (map oo_occurrence_key (os_occurrence_owners s));
  sb_schemas : NoDup (map sc_strategy_key (os_strategy_schemas s));
  sb_sorted : sorted_by cap_name (os_capabilities s) = os_capabilities s ∧
    sorted_by oo_occurrence_key (os_occurrence_owners s) = os_occurrence_owners s ∧
    sorted_by sc_strategy_key (os_strategy_schemas s) = os_strategy_schemas s
}.

Lemma make_fields s0 s :
  OrchestrationState.make s0 = Ok s →
  os_obligations s = os_obligations s0 ∧ os_epistemic_state s = os_epistemic_state s0 ∧
  os_capabilities s = sorted_by cap_name (os_capabilities s0) ∧ os_limits s = os_limits s0 ∧
  os_logical_tick s = os_logical_tick s0 ∧ os_history s = os_history s0 ∧
  os_occurrence_owners s = sorted_by oo_occurrence_key (os_occurrence_owners s0) ∧
  os_strategy_schemas s = sorted_by sc_strategy_key (os_strategy_schemas s0) ∧ state_bounds s.
Proof.
  unfold OrchestrationState.make. intros H.
  apply res_bind_Ok in H as ([] & _ & H).
  apply res_bind_Ok in H as ([] & _ & H). apply res_bind_Ok in H as ([] & _ & H).
  apply res_bind_Ok in H as (caps & [-> Hcl]%materialize_Ok & H).
  apply res_bind_Ok in H as ([] & _ & H).
  apply res_bind_Ok in H as ([] & Hcn%raise_if_Ok%has_duplicates_false & H).
  apply res_bind_Ok in H as (hist & [-> Hhl]%materialize_Ok & H).
  apply res_bind_Ok in H as ([] & _ & H). apply res_bind_Ok in H as ([] & Hev%res_iter_Ok & H).
  apply res_bind_Ok in H as (ow & [-> Hol]%materialize_Ok & H).
  apply res_bind_Ok in H as ([] & _ & H).
  apply res_bind_Ok in H as ([] & Hok%raise_if_Ok%has_duplicates_false & H).
  apply res_bind_Ok in H as (scs & [-> Hsl]%materialize_Ok & H).
  apply res_bind_Ok in H as ([] & Hsk%raise_if_Ok%has_duplicates_false & [= <-]).
  simpl. repeat (split; [done|]). constructor; simpl; rewrite ?length_sorted_by; try done.
  - intros e He. rewrite Forall_forall in Hev. by apply require_fingerprint_Ok, Hev.
  - by rewrite !sorted_by_idem.
Qed.

Lemma make_made s0 s : OrchestrationState.make s0 = Ok s → made s.
Proof.
  intros H. pose proof (make_fields _ _ H) as (E1 & E2 & E3 & E4 & E5 & E6 & E7 & E8 & [B1 B2 B3 B4 B5 B6 B7 (B8 & B9 & B10)]).
  unfold made. revert H. unfold OrchestrationState.make. intros H.
  apply res_bind_Ok in H as ([] & Ht & H).
  apply res_bind_Ok in H as ([] & Hr & H). apply res_bind_Ok in H as ([] & He & H).
  rewrite E1, E2, E4, E5, Ht. cbn [res_bind]. rewrite Hr, He. cbn [res_bind].
  apply res_bind_Ok in H as (caps & Hc & H).
  assert (Hmat : ∀ {A} (l l0 : list A) n, materialize l0 n = Ok l0 → length l = length l0 → materialize l n = Ok l).
  { intros A l l0 n Hm Hlen. pose proof (materialize_Ok _ _ _ Hm) as [_ Hb].
    assert (Hn : limit_ok n).
    { unfold materialize, materialize_bounded_iterable in Hm. by res_inv. }
    rewrite materialize_list by done. by replace (Z.of_nat (length l) <=? n) with true by lia. }
  assert (caps = os_capabilities s0) as -> by (by apply materialize_Ok in Hc as [-> _]).
  rewrite (Hmat _ (os_capabilities s) _ _ Hc) by (by rewrite E3, length_sorted_by). cbn [res_bind].
  rewrite B8. rewrite E4 in *.
  replace (_ <? _) with false by lia. cbn [raise_if res_bind].
  rewrite (proj2 (has_duplicates_false _)) by done. cbn [raise_if res_bind].
  apply res_bind_Ok in H as ([] & _ & H). apply res_bind_Ok in H as ([] & _ & H).
  apply res_bind_Ok in H as (hist & Hh & H).
  assert (hist = os_history s0) as -> by (by apply materialize_Ok in Hh as [-> _]).
  rewrite E6, Hh. cbn [res_bind].
  apply res_bind_Ok in H as ([] & Hhb & H). rewrite Hhb. cbn [res_bind].
  apply res_bind_Ok in H as ([] & Hev & H). rewrite Hev. cbn [res_bind].
  apply res_bind_Ok in H as (ow & Ho & H).
  assert (ow = os_occurrence_owners s0) as -> by (by apply materialize_Ok in Ho as [-> _]).
  rewrite (Hmat _ (os_occurrence_owners s) _ _ Ho) by (by rewrite E7, length_sorted_by). cbn [res_bind].
  rewrite B9. replace (_ <? _) with false by lia. cbn [raise_if res_bind].
  rewrite (proj2 (has_duplicates_false _)) by done. cbn [raise_if res_bind].
  apply res_bind_Ok in H as ([] & _ & H). apply res_bind_Ok in H as ([] & _ & H).
  apply res_bind_Ok in H as (scs & Hs & H).
  assert (scs = os_strategy_schemas s0) as -> by (by apply materialize_Ok in Hs as [-> _]).
  rewrite (Hmat _ (os_strategy_schemas s) _ _ Hs) by (by rewrite E8, length_sorted_by). cbn [res_bind].
  rewrite B10. rewrite (proj2 (has_duplicates_false _)) by done. cbn [raise_if res_bind].
  f_equal. destruct s. simpl in *. by subst.
Qed.

Lemma made_bounds s : made s → state_bounds s.
Proof. intros H. by destruct (make_fields _ _ H) as (_ & _ & _ & _ & _ & _ & _ & _ & ?). Qed.

(** The parts of a state that no proposal can change. *)
Definition same_authority (s s' : OrchestrationState) : Prop :=
  os_obligations s' = os_obligations s ∧ os_epistemic_state s' = os_epistemic_state s ∧
  os_capabilities s' = os_capabilities s ∧ os_limits s' = os_limits s ∧
  os_strategy_schemas s' = os_strategy_schemas s.

Lemma advance_Ok s tick evs owners s' :
  made s → OrchestrationState.advance s tick evs owners = Ok s' →
  made s' ∧ same_authority s s' ∧ os_logical_tick s' = tick ∧
  tick - os_logical_tick s = Z.of_nat (length evs) ∧
  os_history s' = last_items (ol_max_history (os_limits s)) (os_history s ++ evs) ∧
  os_occurrence_owners s' ≡ₚ default (os_occurrence_owners s) owners.
Proof.
  intros Hs H. unfold OrchestrationState.advance in H.
  apply res_bind_Ok in H as ([] & _ & H). apply res_bind_Ok in H as ([] & _ & H).
  apply res_bind_Ok in H as (l & [-> _]%materialize_Ok & H).
  apply res_bind_Ok in H as ([] & _ & H).
  apply res_bind_Ok in H as ([] & Hn%raise_if_Ok & H). bool_inv.
  apply res_bind_Ok in H as (ow & How & H). pose proof (make_made _ _ H) as Hm.
  pose proof (sb_sorted _ (made_bounds _ Hs)) as (Hc & _ & Hsc).
  apply make_fields in H as (E1 & E2 & E3 & E4 & E5 & E6 & E7 & E8 & _). simpl in *.
  rewrite Hc in E3. rewrite Hsc in E8.
  split; [done|]. split; [done|]. split; [done|]. split; [done|]. split; [done|].
  rewrite E7, sorted_by_perm. destruct owners; simpl; [|by injection How as <-].
  by apply materialize_Ok in How as [-> _].
Qed.

(** ** One proposal *)

(** What an admitted proposal has passed. *)
Record cleared (s : OrchestrationState) (b : ProposalBatch) (p : ActionProposal) (c : Capability)
    (args : pyval) : Prop := {
  cl_capability : c ∈ os_capabilities s ∧ cap_name c = ap_capability p;
  cl_available : cap_available c = true;
  cl_arguments : admitted_arguments c p = Ok (Some args);
  cl_ordering : cap_replay_safety c = CACHEABLE_READ ∨ pb_ordering b = DECLARED_SEQUENCE;
  cl_targets : ∀ t, t ∈ ap_target_obligation_ids p → ObligationRegistry.readiness (os_obligations s) t = Ok READY;
  cl_state : ∀ k, k ∈ cap_required_state_keys c ∨ k ∈ ap_required_state_keys p →
    ∃ r, EpistemicState.by_key (os_epistemic_state s) !! k = Some r ∧ EpistemicRecord.is_resolved r = true;
  cl_occurrence : is_some (ap_occurrence_key p) = bool_decide (cap_replay_safety c = OCCURRENCE_SENSITIVE)
}.

(** The identity of the action a cleared proposal asks for. *)
Definition action_of (s : OrchestrationState) (p : ActionProposal) (c : Capability) (args : pyval)
    (act : pystr) : Prop :=
  ∃ digest, EpistemicState.dependency_digest (os_epistemic_state s) (dependency_keys c p) = Ok digest ∧
    action_id c args (ap_occurrence_key p) digest = Ok act.

(** The possible verdicts on a proposal, given the registers of the loop. *)
Inductive judged (s : OrchestrationState) (b : ProposalBatch) (st : loop_state) (p : ActionProposal)
    : verdict → Prop :=
  | J_rejected d :
      ad_status d = DECISION_REJECTED →
      judged s b st p (d, ls_replay_safe st, ls_owners st)
  | J_admitted d c args act i :
      cleared s b p c args → action_of s p c args act → cap_replay_safety c ≠ OCCURRENCE_SENSITIVE →
      ActionProposal.proposal_id p = Ok i → ls_replay_safe st !! act = None →
      ad_status d = ADMITTED → ad_action_id d = Some act → ad_equivalent_proposal_id d = None →
      judged s b st p (d, <[act := i]> (ls_replay_safe st), ls_owners st)
  | J_deduplicated d c args act j :
      cleared s b p c args → action_of s p c args act → cap_replay_safety c ≠ OCCURRENCE_SENSITIVE →
      ls_replay_safe st !! act = Some j →
      ad_status d = DEDUPLICATED → ad_action_id d = Some act → ad_equivalent_proposal_id d = Some j →
      judged s b st p (d, ls_replay_safe st, ls_owners st)
  | J_occurrence d c args act key i :
      cleared s b p c args → action_of s p c args act → cap_replay_safety c = OCCURRENCE_SENSITIVE →
      ap_occurrence_key p = Some key → ActionProposal.proposal_id p = Ok i →
      find_owner (ls_owners st) key = None →
      Z.of_nat (length (ls_owners st)) ≠ ol_max_occurrence_owners (os_limits s) →
      ad_status d = ADMITTED → ad_action_id d = Some act → ad_equivalent_proposal_id d = None →
      judged s b st p (d, ls_replay_safe st,
        ls_owners st ++ [{| oo_occurrence_key := key; oo_action_id := act; oo_proposal_id := i |}]).

Definition about (d : AdmissionDecision) (p : ActionProposal) (tick : Z) : Prop :=
  ActionProposal.proposal_id p = Ok (ad_proposal_id d) ∧ ad_proposal_key d = ap_proposal_key p ∧
  ad_logical_tick d = tick.

Lemma rejected_decision_Ok p tick reason rec bl keys un d :
  rejected_decision p tick reason rec bl keys un = Ok d →
  about d p tick ∧ ad_status d = DECISION_REJECTED ∧ ad_rejection_reason d = Some reason.
Proof.
  unfold rejected_decision. intros (i & Hi & Hd)%res_bind_Ok.
  apply decision_make_Ok in Hd as (E1 & E2 & E3 & E4 & _ & _ & E7 & _). simpl in *.
  unfold about. by rewrite E1.
Qed.

Lemma admitted_decision_Ok i key tick act eqv keys d :
  admitted_decision i key tick act eqv keys = Ok d →
  ad_proposal_id d = i ∧ ad_proposal_key d = key ∧ ad_logical_tick d = tick ∧
  ad_status d = (if is_some eqv then DEDUPLICATED else ADMITTED) ∧
  ad_action_id d = Some act ∧ ad_equivalent_proposal_id d = eqv.
Proof.
  unfold admitted_decision. intros (E1 & E2 & E3 & E4 & E5 & E6 & _)%decision_make_Ok. done.
Qed.

Lemma targets_with_spec s x ts l :
  targets_with s x ts = Ok l →
  ∀ t, t ∈ ts → ∃ r, ObligationRegistry.readiness (os_obligations s) t = Ok r ∧ (l = [] → r ≠ x).
Proof.
  unfold targets_with.
  enough (H : ∀ acc, res_fold (λ acc t,
      let* r := ObligationRegistry.readiness (os_obligations s) t in
      Ok (if decide (r = x) then acc ++ [t] else acc)) acc ts = Ok l →
    (l = [] → acc = []) ∧
    ∀ t, t ∈ ts → ∃ r, ObligationRegistry.readiness (os_obligations s) t = Ok r ∧ (l = [] → r ≠ x)).
  { intros Hl. by apply (H []). }
  induction ts as [|t ts IH]; intros acc H; cbn [res_fold] in H.
  { injection H as <-. split; [done|]. by intros t ?%elem_of_nil. }
  apply res_bind_Ok in H as (acc' & (r & Hr & [= <-])%res_bind_Ok & H).
  destruct (IH _ H) as [Hnil Hall]. split.
  - intros Hl. specialize (Hnil Hl). by destruct (decide (r = x)), acc.
  - intros t' [->|Ht']%elem_of_cons; [|auto]. exists r. split; [done|]. intros Hl Hrx.
    specialize (Hnil Hl). rewrite decide_True in Hnil by done. by destruct acc.
Qed.

Lemma validate_targets_None s p tick keys :
  validate_targets s p tick keys = Ok None →
  ∀ t, t ∈ ap_target_obligation_ids p → ObligationRegistry.readiness (os_obligations s) t = Ok READY.
Proof.
  unfold validate_targets. intros (known & _ & H)%res_bind_Ok t Ht.
  destruct (nonempty _); [by apply res_bind_Ok in H as (? & _ & ?)|].
  apply res_bind_Ok in H as (l1 & H1 & H). destruct (nonempty l1) eqn:N1; [by apply res_bind_Ok in H as (? & _ & ?)|].
  apply res_bind_Ok in H as (l2 & H2 & H). destruct (nonempty l2) eqn:N2; [by apply res_bind_Ok in H as (? & _ & ?)|].
  apply res_bind_Ok in H as (l3 & H3 & H). destruct (nonempty l3) eqn:N3.
  { apply res_bind_Ok in H as (? & _ & H). by apply res_bind_Ok in H as (? & _ & ?). }
  destruct l1, l2, l3; try done.
  destruct (targets_with_spec _ _ _ _ H1 t Ht) as (r & Hr & R1).
  destruct (targets_with_spec _ _ _ _ H2 t Ht) as (r2 & Hr2 & R2).
  destruct (targets_with_spec _ _ _ _ H3 t Ht) as (r3 & Hr3 & R3).
  rewrite Hr in Hr2, Hr3. injection Hr2 as <-. injection Hr3 as <-. rewrite Hr.
  destruct r; [done|by destruct R3|by destruct R2|by destruct R1].
Qed.

Lemma validate_targets_Some s p tick keys d :
  validate_targets s p tick keys = Ok (Some d) → about d p tick ∧ ad_status d = DECISION_REJECTED.
Proof.
  assert (Hrej : ∀ reason rec bl, (let* d := rejected_decision p tick reason [rec] bl keys [] in Ok (Some d)) = Ok (Some d) →
    about d p tick ∧ ad_status d = DECISION_REJECTED).
  { intros reason rec bl (d' & Hd & [= ->])%res_bind_Ok. by apply rejected_decision_Ok in Hd as (? & ? & _). }
  unfold validate_targets. intros (known & _ & H)%res_bind_Ok.
  destruct (nonempty _); [by eapply Hrej|]. apply res_bind_Ok in H as (l1 & H1 & H).
  destruct (nonempty l1); [by eapply Hrej|]. apply res_bind_Ok in H as (l2 & H2 & H).
  destruct (nonempty l2); [by eapply Hrej|]. apply res_bind_Ok in H as (l3 & H3 & H).
  destruct (nonempty l3); [|done]. apply res_bind_Ok in H as (bl & _ & H). by eapply Hrej.
Qed.

Lemma unresolved_nil e keys un :
  EpistemicState.unresolved_keys e keys = Ok un → nonempty un = false →
  ∀ k, k ∈ keys → ∃ r, EpistemicState.by_key e !! k = Some r ∧ EpistemicRecord.is_resolved r = true.
Proof.
  unfold EpistemicState.unresolved_keys. intros (l & [-> _]%materialize_Ok & [= <-])%res_bind_Ok Hn k Hk.
  assert (Hu : EpistemicState.is_unresolved (EpistemicState.by_key e) k = false).
  { apply not_true_iff_false. intros Hu.
    assert (Hin : k ∈ sorted_set (List.filter (EpistemicState.is_unresolved (EpistemicState.by_key e)) keys)).
    { apply sorted_set_elem, list_elem_of_In, filter_In. split; [by apply list_elem_of_In|done]. }
    destruct (sorted_set _); [by apply elem_of_nil in Hin|done]. }
  unfold EpistemicState.is_unresolved in Hu. destruct (_ !! k) as [r|]; [|done].
  apply negb_false_iff in Hu. eauto.
Qed.

Lemma reject_judged s b st p tick reason rec bl keys un v :
  (let* d := rejected_decision p tick reason rec bl keys un in Ok (d, ls_replay_safe st, ls_owners st)) = Ok v →
  judged s b st p v ∧ about v.1.1 p tick.
Proof.
  intros (d & Hd & [= <-])%res_bind_Ok. apply rejected_decision_Ok in Hd as (Ha & Hs & _).
  split; [by constructor|done].
Qed.

Lemma not_replay_safe c : Capability.is_replay_safe c = false ↔ cap_replay_safety c = OCCURRENCE_SENSITIVE.
Proof. unfold Capability.is_replay_safe. by destruct (cap_replay_safety c). Qed.

Lemma replay_safe_true c : Capability.is_replay_safe c = true → cap_replay_safety c ≠ OCCURRENCE_SENSITIVE.
Proof. unfold Capability.is_replay_safe. by destruct (cap_replay_safety c). Qed.

Lemma decide_action_Ok s b p c args st tick v :
  cleared s b p c args →
  decide_action s p c args (dependency_keys c p) st tick = Ok v →
  judged s b st p v ∧ about v.1.1 p tick.
Proof.
  intros Hc. unfold decide_action.
  intros (digest & Hdg & (act & Hact & (i & Hi & H)%res_bind_Ok)%res_bind_Ok)%res_bind_Ok.
  assert (Ha : action_of s p c args act) by (by exists digest).
  destruct (Capability.is_replay_safe c) eqn:Hr.
  - apply replay_safe_true in Hr. destruct (ls_replay_safe st !! act) as [j|] eqn:Ej;
      apply res_bind_Ok in H as (d & (E1 & E2 & E3 & E4 & E5 & E6)%admitted_decision_Ok & [= <-]); simpl in E4.
    + split; [by eapply J_deduplicated|]. unfold about. simpl. by rewrite E1.
    + split; [by eapply J_admitted|]. unfold about. simpl. by rewrite E1.
  - apply not_replay_safe in Hr. destruct (ap_occurrence_key p) as [key|] eqn:Ek; [|done].
    destruct (find_owner (ls_owners st) key) eqn:Ef; [by eapply reject_judged|].
    destruct (Z.eqb_spec (Z.of_nat (length (ls_owners st))) (ol_max_occurrence_owners (os_limits s))) as [|Hlen];
      [by eapply reject_judged|].
    apply res_bind_Ok in H as (o & ->%owner_make_Ok & H).
    apply res_bind_Ok in H as (d & (E1 & E2 & E3 & E4 & E5 & E6)%admitted_decision_Ok & [= <-]). simpl in E4.
    split; [by eapply J_occurrence|]. unfold about. simpl. by rewrite E1.
Qed.

Lemma decide_proposal_Ok s b st p tick v :
  decide_proposal s b st p tick = Ok v → judged s b st p v ∧ about v.1.1 p tick.
Proof.
  unfold decide_proposal. intros (found & Hf & H)%res_bind_Ok.
  destruct found as [c|]; [|by eapply reject_judged].
  destruct (cap_available c) eqn:Hav; cbn [negb] in H; [|by eapply reject_judged].
  apply res_bind_Ok in H as (oargs & Hargs & H). destruct oargs as [args|]; [|by eapply reject_judged].
  destruct (negb _ && negb _) eqn:Hord; [by eapply reject_judged|].
  apply res_bind_Ok in H as (invalid & Hv & H). destruct invalid as [d|].
  { injection H as <-. apply validate_targets_Some in Hv as [? ?]. split; [by constructor|done]. }
  apply res_bind_Ok in H as (un & Hun & H). destruct (nonempty un) eqn:Hn; [by eapply reject_judged|].
  destruct (bool_decide (cap_replay_safety c = OCCURRENCE_SENSITIVE) && negb (is_some (ap_occurrence_key p))) eqn:Ho1;
    [by eapply reject_judged|].
  destruct (Capability.is_replay_safe c && is_some (ap_occurrence_key p)) eqn:Ho2; [by eapply reject_judged|].
  apply (decide_action_Ok s b) in H; [done|]. unfold OrchestrationState.capability in Hf.
  apply res_bind_Ok in Hf as ([] & _ & [= Hf]). apply find_elem in Hf as [Hin Hname%bool_decide_eq_true].
  constructor; try done.
  - apply andb_false_iff in Hord as [Hord|Hord]; apply negb_false_iff, bool_decide_eq_true in Hord; auto.
  - by eapply validate_targets_None.
  - intros k Hk. eapply unresolved_nil; [done|done|]. apply sorted_set_elem, elem_of_app. done.
  - unfold Capability.is_replay_safe in Ho2.
    destruct (cap_replay_safety c), (ap_occurrence_key p); try done.
Qed.

Lemma find_owner_None owners key :
  find_owner owners key = None ↔ key ∉ map oo_occurrence_key owners.
Proof.
  unfold find_owner. induction owners as [|o owners IH]; simpl; [set_solver|].
  case_bool_decide as E; rewrite not_elem_of_cons.
  - split; [done|]. intros [[] _]. done.
  - rewrite IH. naive_solver.
Qed.

(** ** A cleared proposal is refused only for its occurrence *)

Lemma readiness_known r t x ids :
  ObligationRegistry.readiness r t = Ok x → ObligationRegistry.known_ids r = Ok ids → t ∈ ids.
Proof.
  unfold ObligationRegistry.readiness. intros (o & Hg & _)%res_bind_Ok Hk.
  unfold ObligationRegistry.get in Hg. apply res_bind_Ok in Hg as ([] & _ & (m & Hm & Hg)%res_bind_Ok).
  unfold ObligationRegistry.by_id in Hm. apply res_bind_Ok in Hm as (items & Hi & [= <-]).
  unfold dict_get in Hg. destruct (_ !! t) as [o'|] eqn:E; [|done]. apply dict_of_sound, (list_elem_of_fmap_2 fst) in E. cbn [fst] in E.
  enough (map fst items = ids) as <- by done. clear -Hi Hk.
  unfold ObligationRegistry.with_ids in Hi. unfold ObligationRegistry.known_ids in Hk.
  apply res_map_Ok in Hi, Hk. revert ids Hk.
  induction Hi as [|o [i o'] os items Ho Hi IH]; intros ids Hk; inversion Hk as [|? j ? ids' Hj Hk']; subst; [done|].
  apply res_bind_Ok in Ho as (i' & Hi' & [= <- <-]). simpl. f_equal; [congruence|auto].
Qed.

Lemma targets_with_elem s x ts l t :
  targets_with s x ts = Ok l → t ∈ l → t ∈ ts ∧ ObligationRegistry.readiness (os_obligations s) t = Ok x.
Proof.
  unfold targets_with.
  enough (H : ∀ acc, res_fold (λ acc t,
      let* r := ObligationRegistry.readiness (os_obligations s) t in
      Ok (if decide (r = x) then acc ++ [t] else acc)) acc ts = Ok l → t ∈ l →
    t ∈ acc ∨ (t ∈ ts ∧ ObligationRegistry.readiness (os_obligations s) t = Ok x)).
  { intros Hl Ht. destruct (H [] Hl Ht) as [?%elem_of_nil|?]; done. }
  induction ts as [|t' ts IH]; intros acc H Ht; cbn [res_fold] in H; [left; by injection H as <-|].
  apply res_bind_Ok in H as (acc' & (r & Hr & [= <-])%res_bind_Ok & H).
  destruct (IH _ H Ht) as [Hin|[Hin ?]]; [|right; set_solver].
  destruct (decide (r = x)) as [->|]; [|by left].
  apply elem_of_app in Hin as [?|Hin%list_elem_of_singleton]; [by left|right]. subst t'. split; [set_solver|done].
Qed.

Lemma validate_targets_ready s p tick keys v :
  (∀ t, t ∈ ap_target_obligation_ids p → ObligationRegistry.readiness (os_obligations s) t = Ok READY) →
  validate_targets s p tick keys = Ok v → v = None.
Proof.
  intros Hr H. unfold validate_targets in H. apply res_bind_Ok in H as (known & Hk & H).
  destruct (nonempty (List.filter _ _)) eqn:Hn.
  { exfalso. destruct (List.filter _ _) as [|t l] eqn:E; [done|].
    assert (Ht : t ∈ List.filter (λ t, negb (str_in t known)) (ap_target_obligation_ids p)) by (rewrite E; set_solver).
    apply list_elem_of_In, filter_In in Ht as [Ht%list_elem_of_In Hu%negb_true_iff%str_in_false].
    apply Hu. eapply readiness_known; [by apply Hr|done]. }
  assert (Hnone : ∀ x l, targets_with s x (ap_target_obligation_ids p) = Ok l → x ≠ READY → l = []).
  { intros x l Hl Hx. destruct l as [|t l]; [done|]. exfalso.
    destruct (targets_with_elem _ _ _ _ t Hl) as [Ht Hrt]; [set_solver|]. rewrite (Hr t Ht) in Hrt. congruence. }
  apply res_bind_Ok in H as (l1 & ->%Hnone & H); [|done].
  apply res_bind_Ok in H as (l2 & ->%Hnone & H); [|done].
  apply res_bind_Ok in H as (l3 & ->%Hnone & H); [|done]. by injection H as <-.
Qed.

Lemma unresolved_keys_resolved e keys un :
  EpistemicState.unresolved_keys e keys = Ok un →
  (∀ k, k ∈ keys → ∃ r, EpistemicState.by_key e !! k = Some r ∧ EpistemicRecord.is_resolved r = true) → un = [].
Proof.
  unfold EpistemicState.unresolved_keys. intros (l & [-> _]%materialize_Ok & [= <-])%res_bind_Ok Hk.
  destruct (sorted_set _) as [|k un] eqn:E; [done|]. exfalso.
  assert (Hin : k ∈ sorted_set (List.filter (EpistemicState.is_unresolved (EpistemicState.by_key e)) keys))
    by (rewrite E; set_solver).
  apply sorted_set_elem, list_elem_of_In, filter_In in Hin as [Hin Hu].
  destruct (Hk k) as (r & Hr & Hres); [by apply list_elem_of_In|].
  unfold EpistemicState.is_unresolved in Hu. by rewrite Hr, Hres in Hu.
Qed.

Lemma find_unique {A} (f : A → pystr) l x n :
  NoDup (map f l) → x ∈ l → f x = n → find (λ y, bool_decide (f y = n)) l = Some x.
Proof.
  induction l as [|y l IH]; intros Hnd Hx Hn; [by apply elem_of_nil in Hx|].
  cbn [map] in Hnd. apply NoDup_cons in Hnd as [Hy Hnd]. cbn [find]. case_bool_decide as E.
  - apply elem_of_cons in Hx as [->|Hx]; [done|]. exfalso. apply Hy. rewrite E, <- Hn.
    apply list_elem_of_In, in_map, list_elem_of_In. done.
  - apply elem_of_cons in Hx as [->|Hx]; [done|]. auto.
Qed.

Lemma cleared_decided s b st p tick c args v :
  made s → cleared s b p c args → decide_proposal s b st p tick = Ok v →
  decide_action s p c args (dependency_keys c p) st tick = Ok v.
Proof.
  intros Hm [[Hc Hname] Hav Hargs Hord Hts Hks Hocc] H. unfold decide_proposal in H.
  apply res_bind_Ok in H as (found & Hf & H). unfold OrchestrationState.capability in Hf.
  apply res_bind_Ok in Hf as ([] & _ & [= <-]).
  rewrite (find_unique _ _ c) in H; [|by apply sb_names, made_bounds|done|done].
  rewrite Hav in H. cbn [negb] in H. rewrite Hargs in H. cbn [res_bind] in H.
  replace (negb _ && negb _) with false in H.
  2:{ destruct Hord as [Ho|Ho]; rewrite Ho; [|by rewrite andb_comm]. done. }
  apply res_bind_Ok in H as (inv & ->%validate_targets_ready & H); [|done].
  apply res_bind_Ok in H as (un & Hun & H).
  apply unresolved_keys_resolved in Hun as ->.
  2:{ intros k Hk%sorted_set_elem%elem_of_app. by apply Hks. }
  cbn [nonempty] in H. unfold Capability.is_replay_safe in H.
  rewrite Hocc in H. by destruct (cap_replay_safety c).
Qed.

(** Why a cleared proposal can still be rejected: its occurrence has an owner, or the register of
    owners is full. *)
Definition occurrence_taken (s : OrchestrationState) (owners : list OccurrenceOwnership) (p : ActionProposal)
    (c : Capability) : Prop :=
  cap_replay_safety c = OCCURRENCE_SENSITIVE ∧ ∃ key, ap_occurrence_key p = Some key ∧
    (key ∈ map oo_occurrence_key owners ∨ Z.of_nat (length owners) = ol_max_occurrence_owners (os_limits s)).

Lemma cleared_rejected s b st p tick c args v :
  made s → cleared s b p c args → decide_proposal s b st p tick = Ok v → ad_status v.1.1 = DECISION_REJECTED →
  occurrence_taken s (ls_owners st) p c.
Proof.
  intros Hm Hc H Hs. pose proof (cleared_decided _ _ _ _ _ _ _ _ Hm Hc H) as Ha. unfold decide_action in Ha.
  apply res_bind_Ok in Ha as (digest & _ & Ha). apply res_bind_Ok in Ha as (act & _ & Ha).
  apply res_bind_Ok in Ha as (i & _ & Ha). destruct (Capability.is_replay_safe c) eqn:Hr.
  - exfalso. destruct (ls_replay_safe st !! act);
      apply res_bind_Ok in Ha as (d & (_ & _ & _ & E & _)%admitted_decision_Ok & [= <-]); simpl in *; congruence.
  - apply not_replay_safe in Hr. split; [done|]. destruct (ap_occurrence_key p) as [key|]; [|done]. exists key. split; [done|].
    destruct (find_owner (ls_owners st) key) eqn:Hf.
    + left. destruct (decide (key ∈ map oo_occurrence_key (ls_owners st))) as [|Hn%find_owner_None]; [done|congruence].
    + right. destruct (Z.eqb_spec (Z.of_nat (length (ls_owners st))) (ol_max_occurrence_owners (os_limits s))); [done|].
      apply res_bind_Ok in Ha as (o & _ & Ha).
      apply res_bind_Ok in Ha as (d & (_ & _ & _ & E & _)%admitted_decision_Ok & [= <-]). simpl in *. congruence.
Qed.

(** ** The loop *)

Lemma admit_step_Ok s b st p st' :
  admit_step s b st p = Ok st' →
  ∃ d, decide_proposal s b st p (ls_logical_tick st + 1) = Ok (d, ls_replay_safe st', ls_owners st') ∧
    judged s b st p (d, ls_replay_safe st', ls_owners st') ∧ about d p (ls_logical_tick st + 1) ∧
    ls_decisions st' = ls_decisions st ++ [d] ∧ ls_logical_tick st' = ls_logical_tick st + 1 ∧
    length (ls_event_ids st') = S (length (ls_event_ids st)).
Proof.
  unfold admit_step. intros ([[d rs] ow] & Hd & H)%res_bind_Ok.
  apply res_bind_Ok in H as (? & _ & H). apply res_bind_Ok in H as (? & _ & H).
  apply res_bind_Ok in H as (ev & _ & [= <-]). pose proof (decide_proposal_Ok _ _ _ _ _ _ Hd) as [Hj Ha]. simpl.
  exists d. rewrite length_app. simpl. repeat (split; [done|]). lia.
Qed.

(** The entry that an admitted occurrence adds to the register of owners. *)
Definition owner_of (pd : ActionProposal * AdmissionDecision) : option OccurrenceOwnership :=
  match ad_status pd.2, ap_occurrence_key pd.1, ad_action_id pd.2 with
  | ADMITTED, Some key, Some act =>
      Some {| oo_occurrence_key := key; oo_action_id := act; oo_proposal_id := ad_proposal_id pd.2 |}
  | _, _, _ => None
  end.

(** A verdict's effect on the registers. *)
Record effect_ok (s : OrchestrationState) (b : ProposalBatch) (st : loop_state) (p : ActionProposal)
    (d : AdmissionDecision) (rs : gmap pystr pystr) (ow : list OccurrenceOwnership) : Prop := {
  ef_cleared : ad_status d ≠ DECISION_REJECTED →
    ∃ c args act, cleared s b p c args ∧ action_of s p c args act ∧ ad_action_id d = Some act;
  ef_registered : ad_status d ≠ DECISION_REJECTED → ap_occurrence_key p = None →
    ∃ act, ad_action_id d = Some act ∧ is_Some (rs !! act);
  ef_fresh : ad_status d = ADMITTED → ap_occurrence_key p = None →
    ∀ act, ad_action_id d = Some act → ls_replay_safe st !! act = None;
  ef_replay : rs = ls_replay_safe st ∨
    ∃ act, rs = <[act := ad_proposal_id d]> (ls_replay_safe st) ∧ ad_status d = ADMITTED ∧
      ad_action_id d = Some act ∧ ap_occurrence_key p = None;
  ef_dedup : ad_status d = DEDUPLICATED → ap_occurrence_key p = None ∧
    ∃ act j, ad_action_id d = Some act ∧ ls_replay_safe st !! act = Some j ∧
      ad_equivalent_proposal_id d = Some j;
  ef_owners : ow = ls_owners st ++ option_list (owner_of (p, d));
  ef_unowned : ∀ o, owner_of (p, d) = Some o → oo_occurrence_key o ∉ map oo_occurrence_key (ls_owners st);
  ef_bound : Z.of_nat (length (ls_owners st)) <= ol_max_occurrence_owners (os_limits s) →
    Z.of_nat (length ow) <= ol_max_occurrence_owners (os_limits s)
}.

Lemma cleared_no_key s b p c args :
  cleared s b p c args → cap_replay_safety c ≠ OCCURRENCE_SENSITIVE → ap_occurrence_key p = None.
Proof.
  intros Hc Hr. pose proof (cl_occurrence _ _ _ _ _ Hc) as H. rewrite bool_decide_false in H by done.
  by destruct (ap_occurrence_key p).
Qed.

Lemma judged_effect s b st p v tick :
  judged s b st p v → about v.1.1 p tick → effect_ok s b st p v.1.1 v.1.2 v.2.
Proof.
  intros Hj (Hi & _). destruct Hj as [d Hs|d c args act i Hc Ha Hr Hp Hn Hs He Hq|d c args act j Hc Ha Hr Hl Hs He Hq
    |d c args act key i Hc Ha Hr Hk Hp Hf Hlen Hs He Hq]; cbn [fst snd] in *.
  - assert (Ho : owner_of (p, d) = None) by (unfold owner_of; simpl; by rewrite Hs).
    constructor; rewrite ?Ho, ?Hs, ?app_nil_r; auto; congruence.
  - rewrite Hp in Hi. injection Hi as ->. pose proof (cleared_no_key _ _ _ _ _ Hc Hr) as Hk.
    assert (Ho : owner_of (p, d) = None) by (unfold owner_of; simpl; by rewrite Hs, Hk).
    constructor; rewrite ?Ho, ?Hs, ?app_nil_r; try done; auto; try congruence.
    + eauto 6.
    + intros _ _. exists act. rewrite lookup_insert_eq. eauto.
    + right. by exists act.
  - pose proof (cleared_no_key _ _ _ _ _ Hc Hr) as Hk.
    assert (Ho : owner_of (p, d) = None) by (unfold owner_of; simpl; by rewrite Hs).
    constructor; rewrite ?Ho, ?Hs, ?app_nil_r; try done; auto; try congruence.
    + eauto 6.
    + intros _ _. eauto.
    + intros _. split; [done|]. by exists act, j.
  - rewrite Hp in Hi. injection Hi as ->.
    assert (Ho : owner_of (p, d) = Some {| oo_occurrence_key := key; oo_action_id := act; oo_proposal_id := ad_proposal_id d |})
      by (unfold owner_of; simpl; by rewrite Hs, Hk, He).
    constructor; rewrite ?Ho, ?Hs; try done; auto; try congruence.
    + eauto 6.
    + intros o [= <-]. by apply find_owner_None.
    + rewrite length_app. simpl. lia.
Qed.

(** What the registers hold after some proposals have been judged. *)
Record loop_ok (s : OrchestrationState) (b : ProposalBatch) (l : list (ActionProposal * AdmissionDecision))
    (st : loop_state) : Prop := {
  lo_decisions : ls_decisions st = map snd l;
  lo_about : ∀ p d, (p, d) ∈ l →
    ActionProposal.proposal_id p = Ok (ad_proposal_id d) ∧ ad_proposal_key d = ap_proposal_key p;
  lo_ticks : map ad_logical_tick (map snd l) = map (λ i, os_logical_tick s + 1 + Z.of_nat i) (seq 0 (length l));
  lo_tick : ls_logical_tick st = os_logical_tick s + Z.of_nat (length l);
  lo_events : length (ls_event_ids st) = length l;
  (* a decision that is not a rejection was cleared *)
  lo_cleared : ∀ p d, (p, d) ∈ l → ad_status d ≠ DECISION_REJECTED →
    ∃ c args act, cleared s b p c args ∧ action_of s p c args act ∧ ad_action_id d = Some act;
  (* the register of replay-safe actions *)
  lo_replay : ∀ act i, ls_replay_safe st !! act = Some i → ∃ p d, (p, d) ∈ l ∧ ad_status d = ADMITTED ∧
    ad_action_id d = Some act ∧ ad_proposal_id d = i ∧ ap_occurrence_key p = None;
  lo_registered : ∀ p d, (p, d) ∈ l → ad_status d ≠ DECISION_REJECTED → ap_occurrence_key p = None →
    ∃ act, ad_action_id d = Some act ∧ is_Some (ls_replay_safe st !! act);
  lo_once : ∀ l1 p d l2, l = l1 ++ (p, d) :: l2 → ap_occurrence_key p = None → ad_status d = ADMITTED →
    ∀ p' d', (p', d') ∈ l1 → ad_status d' ≠ DECISION_REJECTED → ap_occurrence_key p' = None →
    ad_action_id d' ≠ ad_action_id d;
  lo_dedup : ∀ l1 p d l2, l = l1 ++ (p, d) :: l2 → ad_status d = DEDUPLICATED →
    ap_occurrence_key p = None ∧
    ∃ p' d', (p', d') ∈ l1 ∧ ad_status d' = ADMITTED ∧ ad_action_id d' = ad_action_id d ∧
      ad_equivalent_proposal_id d = Some (ad_proposal_id d') ∧ ap_occurrence_key p' = None;
  (* the register of occurrences *)
  lo_owners : ls_owners st = os_occurrence_owners s ++ omap owner_of l;
  (* a rejection of a cleared proposal *)
  lo_rejected : ∀ l1 p d l2, l = l1 ++ (p, d) :: l2 → ad_status d = DECISION_REJECTED →
    ∀ c args, cleared s b p c args →
    occurrence_taken s (os_occurrence_owners s ++ omap owner_of l1) p c;
  lo_keys : NoDup (map oo_occurrence_key (ls_owners st));
  lo_bound : Z.of_nat (length (ls_owners st)) <= ol_max_occurrence_owners (os_limits s)
}.

Lemma loop_start s b : made s → loop_ok s b [] (start_loop s).
Proof.
  intros Hm. pose proof (made_bounds s Hm) as Hb. constructor; simpl; try done.
  - by intros p d ?%elem_of_nil.
  - lia.
  - by intros p d ?%elem_of_nil.
  - by intros p d ?%elem_of_nil.
  - by intros [].
  - by intros [].
  - by rewrite app_nil_r.
  - by intros [].
  - apply (sb_keys _ Hb).
  - apply (sb_owners _ Hb).
Qed.

(** The last pair of a list that grew by one, or a pair of the list before. *)
Lemma snoc_split {A} (l l1 l2 : list A) x y :
  l ++ [x] = l1 ++ y :: l2 → (l1 = l ∧ y = x) ∨ ∃ l2', l = l1 ++ y :: l2'.
Proof.
  destruct l2 as [|z l2 _] using rev_ind.
  - intros [-> [= ->]]%app_inj_tail. auto.
  - rewrite app_comm_cons, app_assoc. intros [-> _]%app_inj_tail. eauto.
Qed.

Lemma loop_step_ok s b l st p st' :
  made s → loop_ok s b l st → admit_step s b st p = Ok st' → ∃ d, loop_ok s b (l ++ [(p, d)]) st'.
Proof.
  intros Hm [L0 L1 L2 L3 L4 L5 L6 L7 L8 L9 L10 L13 L11 L12] (d & Hdp & Hj & Ha & Hd & Ht & He)%admit_step_Ok. exists d.
  pose proof (judged_effect _ _ _ _ _ _ Hj Ha) as [E1 E2 E3 E4 E5 E6 E7 E8]. cbn [fst snd] in *.
  destruct Ha as (A1 & A2 & A3).
  assert (Hin : ∀ p' d', (p', d') ∈ l ++ [(p, d)] ↔ (p', d') ∈ l ∨ (p' = p ∧ d' = d)).
  { intros p' d'. rewrite elem_of_app, list_elem_of_singleton. naive_solver. }
  assert (Hmono : ∀ act, is_Some (ls_replay_safe st !! act) → is_Some (ls_replay_safe st' !! act)).
  { intros act Hs. destruct E4 as [->|(a & -> & _)]; [done|]. rewrite lookup_insert_is_Some. destruct (decide (a = act)); auto. }
  constructor.
  - by rewrite Hd, L0, map_app.
  - intros p' d' [?|[-> ->]]%Hin; auto.
  - rewrite !map_app, L2, length_app, seq_app, map_app. simpl. do 2 f_equal. rewrite A3, L3. lia.
  - rewrite Ht, L3, length_app. simpl. lia.
  - rewrite He, L4, length_app. simpl. lia.
  - intros p' d' [?|[-> ->]]%Hin; eauto.
  - intros act i Hl. destruct E4 as [Heq|(a & Heq & Hs & Hact & Hk)]; rewrite Heq in Hl.
    + destruct (L6 _ _ Hl) as (p' & d' & ? & ?). exists p', d'. rewrite Hin. auto.
    + destruct (decide (a = act)) as [->|Hne].
      * rewrite lookup_insert_eq in Hl. injection Hl as <-. exists p, d. rewrite Hin. auto 6.
      * rewrite lookup_insert_ne in Hl by done. destruct (L6 _ _ Hl) as (p' & d' & ? & ?).
        exists p', d'. rewrite Hin. auto.
  - intros p' d' [?|[-> ->]]%Hin Hs Hk; [|auto]. destruct (L7 p' d') as (a & ? & ?); eauto.
  - intros l1 p0 d0 l2 [[-> [= -> ->]]|[l2' ->]]%snoc_split; [|by eapply L8].
    intros Hk Hs p' d' Hp' Hs' Hk' Heq. destruct (L7 _ _ Hp' Hs' Hk') as (a & Ha & Hsome).
    rewrite Ha in Heq. rewrite (E3 Hs Hk a) in Hsome by done. by apply is_Some_None in Hsome.
  - intros l1 p0 d0 l2 [[-> [= -> ->]]|[l2' ->]]%snoc_split; [|by eapply L9].
    intros Hs. destruct (E5 Hs) as (Hk & a & j & Ha & Hl & Hq). split; [done|].
    destruct (L6 _ _ Hl) as (p' & d' & ? & ? & ? & <- & ?). exists p', d'.
    split; [done|]. split; [done|]. split; [congruence|]. by split.
  - rewrite E6, L10, omap_app, <- app_assoc. do 2 f_equal; simpl; by destruct (owner_of (p, d)).
  - intros l1 p0 d0 l2 [[-> [= -> ->]]|[l2' ->]]%snoc_split; [|by eapply L13].
    intros Hs c args Hc. rewrite <- L10. by eapply cleared_rejected.
  - rewrite E6, map_app. apply NoDup_app. split; [done|]. destruct (owner_of (p, d)) as [o|] eqn:Ho; simpl.
    + split; [|apply NoDup_singleton]. intros k Hk ->%list_elem_of_singleton. by apply (E7 o).
    + split; [|constructor]. by intros ? _ ?%elem_of_nil.
  - auto.
Qed.

Lemma loop_ok_fold s b ps l st st' :
  made s → loop_ok s b l st → res_fold (admit_step s b) st ps = Ok st' →
  ∃ l', map fst l' = ps ∧ loop_ok s b (l ++ l') st'.
Proof.
  intros Hm. revert l st. induction ps as [|p ps IH]; intros l st Hl H; cbn [res_fold] in H.
  - injection H as <-. exists []. by rewrite app_nil_r.
  - apply res_bind_Ok in H as (st1 & H1 & H). destruct (loop_step_ok _ _ _ _ _ _ Hm Hl H1) as (d & Hd).
    destruct (IH _ _ Hd H) as (l' & <- & Hl'). exists ((p, d) :: l'). by rewrite <- app_assoc in Hl'.
Qed.
