(* ===== verification/AdmissionSpec.v ===== *)
(** * What an admission guarantees

    The properties of [admit_batch]: identities of proposals and actions, one batch, sequences of
    batches, and the independence of canonical batches from the order of their proposals. *)

From Stdlib Require Import Ascii String.
From stdpp Require Import base list sets gmap.
From S2P Require Import Prelude PyStr PyNumber Sha256 Canonical CanonicalFacts Fingerprints Records RecordsFacts Kahn Obligations Epistemic EpistemicFacts Orchestration Admission AdmissionFacts.

(** ** Identities *)

(** A proposal that its constructor returned. *)
Definition made_proposal (p : ActionProposal) : Prop :=
  ∃ key cap args targets keys occ meta, ActionProposal.make key cap args targets keys occ meta = Ok p.

(** The same proposal up to its observational metadata. *)
Definition same_proposal (p q : ActionProposal) : Prop :=
  ap_proposal_key p = ap_proposal_key q ∧ ap_capability p = ap_capability q ∧
  ap_target_obligation_ids p = ap_target_obligation_ids q ∧
  ap_required_state_keys p = ap_required_state_keys q ∧ ap_occurrence_key p = ap_occurrence_key q ∧
  ap_arguments p = ap_arguments q.

Lemma made_proposal_arguments p :
  made_proposal p → ∃ v, admissible value_limits v ∧ canonical_json v = Ok (cv_text (ap_arguments p)).
Proof.
  intros (key & cap & args & targets & keys & occ & meta & H). unfold ActionProposal.make in H.
  repeat (apply res_bind_Ok in H as (? & ? & H)). injection H as <-. simpl.
  repeat match goal with E : CanonicalValue.from_value _ = Ok _ |- _ => apply from_value_iff in E end. eauto.
Qed.

Lemma canon_opt_str o1 o2 : canon (opt_val VStr o1) = canon (opt_val VStr o2) → o1 = o2.
Proof. destruct o1, o2; simpl; congruence. Qed.

Lemma opt_str_wf o : dict_wf (opt_val VStr o) = true.
Proof. by destruct o. Qed.

(** What the identities of a proposal, a capability and an action hash. *)
Definition proposal_message (p : ActionProposal) : res (list Z) :=
  record_message PROPOSAL_ID_DOMAIN (ActionProposal.canonical_record p).
Definition contract_message (c : Capability) : res (list Z) :=
  domain_message CAPABILITY_ID_DOMAIN (Capability.contract_record c).
Definition action_message (c : Capability) (arguments : pyval) (occurrence : option pystr) (dependency : pystr) : res (list Z) :=
  record_message ACTION_ID_DOMAIN (action_identity c arguments occurrence dependency).

Lemma proposal_id_inj p q i :
  made_proposal p → made_proposal q →
  ActionProposal.proposal_id p = Ok i → ActionProposal.proposal_id q = Ok i →
  same_proposal p q ∨ collide (proposal_message p) (proposal_message q).
Proof.
  intros (v & Av & Tv)%made_proposal_arguments (w & Aw & Tw)%made_proposal_arguments.
  destruct (value_to_value v _ Av Tv) as (Ev & _ & Wv & _). destruct (value_to_value w _ Aw Tw) as (Ew & _ & Ww & _).
  unfold proposal_message, record_message, ActionProposal.proposal_id, ActionProposal.canonical_record, ActionProposal.arguments.
  rewrite Ev, Ew. cbn [res_bind]. intros H1 H2.
  destruct (domain_fingerprint_inj _ _ _ _ _ H1 H2) as [[_ Hc]|]; [..|left|by right].
  1,2: unfold ActionProposal.record_fields; wf_obj; by rewrite ?Wv, ?Ww, opt_str_wf.
  unfold ActionProposal.record_fields in Hc.
  obj_field_eq Hc "arguments"%string. obj_field_eq Hc "capability"%string. obj_field_eq Hc "occurrence_key"%string.
  obj_field_eq Hc "proposal_key"%string. obj_field_eq Hc "required_state_keys"%string.
  obj_field_eq Hc "target_obligation_ids"%string.
  rewrite !canon_idem_admissible in F by done. rewrite !canon_strs in F3, F4.
  apply canon_opt_str in F1. apply strs_val_inj in F3, F4. cbn [canon] in F0, F2.
  unfold same_proposal. repeat (split; [congruence|]).
  enough (cv_text (ap_arguments p) = cv_text (ap_arguments q)) by (by destruct (ap_arguments p), (ap_arguments q); simpl in *; subst).
  rewrite <- (canonical_json_canon_eq v) in Tv. rewrite <- (canonical_json_canon_eq w) in Tw. congruence.
Qed.

(** The part of a capability that its identity covers (availability and description are not). *)
Definition same_contract (c1 c2 : Capability) : Prop :=
  cap_name c1 = cap_name c2 ∧ cap_replay_safety c1 = cap_replay_safety c2 ∧
  cap_contract_version c1 = cap_contract_version c2 ∧
  cap_required_state_keys c1 = cap_required_state_keys c2 ∧
  cap_semantic_argument_keys c1 = cap_semantic_argument_keys c2 ∧
  cap_replay_evidence_id c1 = cap_replay_evidence_id c2.

Lemma replay_value_inj r1 r2 : replay_value r1 = replay_value r2 → r1 = r2.
Proof. by destruct r1, r2. Qed.

Lemma capability_id_inj c1 c2 i :
  Capability.capability_id c1 = Ok i → Capability.capability_id c2 = Ok i →
  same_contract c1 c2 ∨ collide (contract_message c1) (contract_message c2).
Proof.
  unfold Capability.capability_id. intros H1 H2.
  destruct (domain_fingerprint_inj _ _ _ _ _ H1 H2) as [[_ Hc]|]; [..|left|by right].
  all: unfold Capability.contract_record in *.
  1,2: wf_obj; by rewrite opt_str_wf.
  obj_field_eq Hc "contract_version"%string. obj_field_eq Hc "name"%string.
  obj_field_eq Hc "replay_evidence_id"%string. obj_field_eq Hc "replay_safety"%string.
  obj_field_eq Hc "required_state_keys"%string. obj_field_eq Hc "semantic_argument_keys"%string.
  rewrite !canon_strs in F3, F4. apply canon_opt_str in F1. apply strs_val_inj in F3, F4.
  cbn [canon] in F, F0, F2. injection F2 as F2%replay_value_inj. unfold same_contract.
  repeat (split; [congruence|]). congruence.
Qed.

Lemma action_id_inj c1 c2 a1 a2 o1 o2 d1 d2 act :
  dict_wf a1 = true → dict_wf a2 = true →
  action_id c1 a1 o1 d1 = Ok act → action_id c2 a2 o2 d2 = Ok act →
  (same_contract c1 c2 ∧ canon a1 = canon a2 ∧ d1 = d2 ∧
   (cap_replay_safety c1 = OCCURRENCE_SENSITIVE → o1 = o2)) ∨
  collide (action_message c1 a1 o1 d1) (action_message c2 a2 o2 d2) ∨ collide (contract_message c1) (contract_message c2).
Proof.
  intros W1 W2. unfold action_id, action_message, record_message.
  intros (r1 & C1 & H1)%res_bind_Ok (r2 & C2 & H2)%res_bind_Ok. rewrite C1, C2. cbn [res_bind].
  unfold action_identity in C1, C2. apply res_bind_Ok in C1 as (i1 & C1 & [= <-]). apply res_bind_Ok in C2 as (i2 & C2 & [= <-]).
  destruct (domain_fingerprint_inj _ _ _ _ _ H1 H2) as [[_ Hc]|]; [..| |by right; left].
  1: destruct (decide (cap_replay_safety c1 = OCCURRENCE_SENSITIVE)); cbn [app]; wf_obj; by rewrite W1, ?opt_str_wf.
  1: destruct (decide (cap_replay_safety c2 = OCCURRENCE_SENSITIVE)); cbn [app]; wf_obj; by rewrite W2, ?opt_str_wf.
  assert (Hf : i1 = i2 ∧ canon a1 = canon a2 ∧ d1 = d2).
  { destruct (decide (cap_replay_safety c1 = OCCURRENCE_SENSITIVE)), (decide (cap_replay_safety c2 = OCCURRENCE_SENSITIVE));
      cbn [app] in Hc; obj_field_eq Hc "arguments"%string; obj_field_eq Hc "capability_id"%string;
      obj_field_eq Hc "dependency_state_id"%string; cbn [canon] in F0, F1; repeat split; congruence. }
  destruct Hf as (-> & Ha & ->). destruct (capability_id_inj _ _ _ C1 C2) as [Hs|]; [left|by right; right].
  repeat (split; [done|]). intros Ho. pose proof Hs as (_ & Hr & _). rewrite Ho in Hr.
  rewrite !decide_True in Hc by done. cbn [app] in Hc. obj_field_eq Hc "occurrence_key"%string. by apply canon_opt_str.
Qed.

Lemma admitted_arguments_wf c p args :
  admitted_arguments c p = Ok (Some args) → dict_wf args = true ∧ canon args = args.
Proof.
  unfold admitted_arguments. destruct (res_bind _ _) as [v|[]] eqn:E; try done. intros [= <-].
  apply res_bind_Ok in E as (w & _ & E). unfold Capability.normalize_arguments in E.
  apply res_bind_Ok in E as (l & _ & E). apply res_bind_Ok in E as ([] & _ & E).
  apply res_bind_Ok in E as (cv & Hcv & Hv). rewrite (from_value_to_value _ _ Hcv) in Hv. injection Hv as <-.
  apply from_value_iff in Hcv as [Ha Ht]. destruct (value_to_value _ _ Ha Ht) as (_ & _ & Hw & _).
  split; [done|]. exact (canon_idem_admissible _ Ha).
Qed.

(** ** One batch *)

(** The receipt names the batch, the strategy, both states and the ticks between them. *)
Definition receipt_of (r : AdmissionReceipt) (s s' : OrchestrationState) (b : ProposalBatch) : Prop :=
  ProposalBatch.batch_id b = Ok (rc_batch_id r) ∧
  Strategy.strategy_id (pb_strategy b) = Ok (rc_strategy_id r) ∧
  OrchestrationState.state_id s = Ok (rc_prior_state_id r) ∧
  OrchestrationState.state_id s' = Ok (rc_next_state_id r) ∧
  rc_proposal_ordering r = pb_ordering b ∧
  rc_logical_tick_start r = os_logical_tick s ∧ rc_logical_tick_end r = os_logical_tick s'.

(** Every batch, processed or rejected: the authority-owned parts stay, the clock moves by the
    number of events, the history keeps the latest of them, the receipt accounts for it. *)
Record stepped (s : OrchestrationState) (b : ProposalBatch) (tr : AdmissionTransition) (ticks : nat) : Prop := {
  st_made : made (tr_next_state tr);
  st_authority : same_authority s (tr_next_state tr);
  st_tick : os_logical_tick (tr_next_state tr) = os_logical_tick s + Z.of_nat ticks;
  st_history : ∃ events, length events = ticks ∧
    os_history (tr_next_state tr) = last_items (ol_max_history (os_limits s)) (os_history s ++ events);
  st_receipt : receipt_of (tr_receipt tr) s (tr_next_state tr) b
}.

Record processed (s : OrchestrationState) (b : ProposalBatch) (tr : AdmissionTransition)
    (l : list (ActionProposal * AdmissionDecision)) : Prop := {
  pr_schema : schema_admitted s b = Ok true;
  pr_limit : Z.of_nat (length (pb_proposals b)) <= ol_max_batch_proposals (os_limits s);
  pr_ordered : ProposalBatch.ordered_proposals b = Ok (map fst l);
  pr_loop : ∃ st, loop_ok s b l st ∧ os_occurrence_owners (tr_next_state tr) ≡ₚ ls_owners st;
  pr_step : stepped s b tr (length l);
  pr_decisions : rc_decisions (tr_receipt tr) = map snd l;
  pr_status : rc_status (tr_receipt tr) = PROCESSED;
  pr_rejection : rc_batch_rejection (tr_receipt tr) = None
}.

Record batch_rejected (s : OrchestrationState) (b : ProposalBatch) (tr : AdmissionTransition) : Prop := {
  bj_reason : ∃ r, rc_batch_rejection (tr_receipt tr) = Some r ∧ br_logical_tick r = os_logical_tick s + 1 ∧
    ((schema_admitted s b = Ok false ∧ br_reason r = STRATEGY_SCHEMA_NOT_ADMITTED) ∨
     (schema_admitted s b = Ok true ∧ br_reason r = BATCH_LIMIT_EXCEEDED ∧
      ol_max_batch_proposals (os_limits s) < Z.of_nat (length (pb_proposals b))));
  bj_step : stepped s b tr 1;
  bj_decisions : rc_decisions (tr_receipt tr) = [];
  bj_status : rc_status (tr_receipt tr) = BATCH_REJECTED;
  bj_owners : os_occurrence_owners (tr_next_state tr) ≡ₚ os_occurrence_owners s
}.

Lemma receipt_make_Ok r r' : AdmissionReceipt.make r = Ok r' → r' = r.
Proof. unfold AdmissionReceipt.make. intros H. by repeat (apply res_bind_Ok in H as (? & ? & H)); injection H as <-. Qed.

Lemma transition_Ok s r tr : make_transition s r = Ok tr → tr = {| tr_next_state := s; tr_receipt := r |}.
Proof. unfold make_transition. intros H. by repeat (apply res_bind_Ok in H as (? & ? & H)); injection H as <-. Qed.

Lemma rejection_make_Ok r r' :
  BatchRejection.make r = Ok r' → br_reason r' = br_reason r ∧ br_logical_tick r' = br_logical_tick r.
Proof. unfold BatchRejection.make. intros H. by repeat (apply res_bind_Ok in H as (? & ? & H)); injection H as <-. Qed.

Lemma rejected_transition_Ok s b reason rec tr :
  made s → rejected_batch_transition s b reason rec = Ok tr →
  stepped s b tr 1 ∧ rc_decisions (tr_receipt tr) = [] ∧ rc_status (tr_receipt tr) = BATCH_REJECTED ∧
  os_occurrence_owners (tr_next_state tr) ≡ₚ os_occurrence_owners s ∧
  ∃ r, rc_batch_rejection (tr_receipt tr) = Some r ∧ br_logical_tick r = os_logical_tick s + 1 ∧ br_reason r = reason.
Proof.
  intros Hm H. unfold rejected_batch_transition in H.
  apply res_bind_Ok in H as (prior & Hp & H). apply res_bind_Ok in H as (rj & (Hr & Hrt)%rejection_make_Ok & H).
  apply res_bind_Ok in H as (bid & Hb & H). apply res_bind_Ok in H as (ev & _ & H).
  apply res_bind_Ok in H as (s' & Hs' & H). apply res_bind_Ok in H as (sid & Hsg & H).
  apply res_bind_Ok in H as (nid & Hn & H). apply res_bind_Ok in H as (r & ->%receipt_make_Ok & ->%transition_Ok).
  apply advance_Ok in Hs' as (H1 & H2 & H3 & H4 & H5 & H6); [|done]. simpl in *.
  split; [|split; [done|split; [done|split; [done|by exists rj]]]].
  constructor; simpl; [done|done|lia|by exists [ev]|]. unfold receipt_of. simpl. by rewrite H3.
Qed.

Lemma admit_batch_Ok s b tr :
  made s → admit_batch s b = Ok tr → (∃ l, processed s b tr l) ∨ batch_rejected s b tr.
Proof.
  intros Hm H. unfold admit_batch in H.
  apply res_bind_Ok in H as (ok & Hok & H). destruct ok; cbn [negb] in H; [|right].
  2:{ apply rejected_transition_Ok in H as (H1 & H2 & H3 & H4 & r & H5 & H6 & H7); [|done].
      constructor; try done. exists r. auto. }
  apply res_bind_Ok in H as (prior & Hp & H).
  destruct (Z.ltb_spec (ol_max_batch_proposals (os_limits s)) (Z.of_nat (length (pb_proposals b)))) as [Hl|Hl]; [right|left].
  { apply rejected_transition_Ok in H as (H1 & H2 & H3 & H4 & r & H5 & H6 & H7); [|done].
    constructor; try done. exists r. split; [done|]. split; [done|]. by right. }
  apply res_bind_Ok in H as (ps & Hps & H). apply res_bind_Ok in H as (st & Hst & H).
  apply res_bind_Ok in H as (s' & Hs' & H). apply res_bind_Ok in H as (bid & Hb & H).
  apply res_bind_Ok in H as (sid & Hsg & H). apply res_bind_Ok in H as (nid & Hn & H).
  apply res_bind_Ok in H as (r & ->%receipt_make_Ok & ->%transition_Ok).
  destruct (loop_ok_fold _ _ _ _ _ _ Hm (loop_start s b Hm) Hst) as (l & <- & Hlo).
  apply advance_Ok in Hs' as (H1 & H2 & H3 & H4 & H5 & H6); [|done]. simpl in *.
  exists l. constructor; simpl; try done.
  - by exists st.
  - constructor; simpl; [done|done| |exists (ls_event_ids st); split; [by apply (lo_events _ _ _ _ Hlo)|done]|].
    + rewrite H3. apply (lo_tick _ _ _ _ Hlo).
    + unfold receipt_of. simpl. by rewrite H3.
  - by rewrite (lo_decisions _ _ _ _ Hlo).
Qed.

Lemma admit_batch_stepped s b tr : made s → admit_batch s b = Ok tr → ∃ n, stepped s b tr n.
Proof.
  intros Hm H. destruct (admit_batch_Ok s b tr Hm H) as [[l Hl]|Hb].
  - exists (length l). apply (pr_step _ _ _ _ Hl).
  - exists 1%nat. apply (bj_step _ _ _ Hb).
Qed.

(** ** Sequences of batches *)

Definition admit_next (acc : OrchestrationState * list AdmissionReceipt) (b : ProposalBatch)
    : res (OrchestrationState * list AdmissionReceipt) :=
  let* tr := admit_batch acc.1 b in
  Ok (tr_next_state tr, acc.2 ++ [tr_receipt tr]).

(** One batch after the other, each against the state the last one left. *)
Definition admit_all (s : OrchestrationState) (bs : list ProposalBatch)
    : res (OrchestrationState * list AdmissionReceipt) :=
  res_fold admit_next (s, []) bs.

Notation verdicts := (list (ActionProposal * AdmissionDecision)).

(** The proposals of some batches with the decisions of their receipts. *)
Definition decided (bs : list ProposalBatch) (rs : list AdmissionReceipt) (ls : list verdicts) : Prop :=
  map (map snd) ls = map rc_decisions rs ∧
  Forall2 (λ l b, l = [] ∨ map fst l ≡ₚ pb_proposals b) ls bs ∧
  ∀ p d, (p, d) ∈ concat ls → ActionProposal.proposal_id p = Ok (ad_proposal_id d).

Lemma ordered_proposals_perm b l : ProposalBatch.ordered_proposals b = Ok l → l ≡ₚ pb_proposals b.
Proof.
  unfold ProposalBatch.ordered_proposals. destruct (pb_ordering b); [|by intros [= <-]].
  intros (keyed & Hk & [= <-])%res_bind_Ok. apply res_map_Ok in Hk. rewrite sorted_by_perm.
  induction Hk as [|p [i q] ps ks H Hk IH]; [done|]. simpl. rewrite IH.
  apply res_bind_Ok in H as (j & _ & [= _ ->]). done.
Qed.

(** One batch, as the decisions it adds. *)
Lemma admit_batch_verdicts s b tr :
  made s → admit_batch s b = Ok tr → ∃ l, rc_decisions (tr_receipt tr) = map snd l ∧
    (l = [] ∨ map fst l ≡ₚ pb_proposals b) ∧
    (∀ p d, (p, d) ∈ l → ActionProposal.proposal_id p = Ok (ad_proposal_id d)) ∧
    (∀ p d, (p, d) ∈ l → ad_status d = ADMITTED → is_Some (ad_action_id d)) ∧
    os_occurrence_owners (tr_next_state tr) ≡ₚ os_occurrence_owners s ++ omap owner_of l.
Proof.
  intros Hm H. destruct (admit_batch_Ok s b tr Hm H) as [[l [H1 H2 H3 (st & Hlo & How) H5 H6 H7 H8]]|[H1 H2 H3 H4 H5]].
  - exists l. split; [done|]. split; [right; by apply ordered_proposals_perm|].
    split; [intros p d Hin; by apply (lo_about _ _ _ _ Hlo)|]. split.
    + intros p d Hin Hs. destruct (lo_cleared _ _ _ _ Hlo p d Hin) as (c & args & act & _ & _ & ->); [congruence|eauto].
    + rewrite How. by rewrite (lo_owners _ _ _ _ Hlo).
  - exists []. rewrite H3. simpl. rewrite app_nil_r. split; [done|]. split; [by left|]. split; [|split; [|done]];
      by intros p d ?%elem_of_nil.
Qed.

Lemma admit_all_snoc s bs b r :
  admit_all s (bs ++ [b]) = Ok r → ∃ s1 rs tr,
    admit_all s bs = Ok (s1, rs) ∧ admit_batch s1 b = Ok tr ∧ r = (tr_next_state tr, rs ++ [tr_receipt tr]).
Proof.
  unfold admit_all. rewrite res_fold_app. intros ([s1 rs] & H1 & H)%res_bind_Ok. cbn [res_fold] in H.
  apply res_bind_Ok in H as (x & H & [= <-]). unfold admit_next in H.
  apply res_bind_Ok in H as (tr & H & [= <-]). by exists s1, rs, tr.
Qed.

Lemma same_authority_refl s : same_authority s s.
Proof. done. Qed.

Lemma same_authority_trans s1 s2 s3 : same_authority s1 s2 → same_authority s2 s3 → same_authority s1 s3.
Proof. unfold same_authority. intros (? & ? & ? & ? & ?) (? & ? & ? & ? & ?). repeat split; congruence. Qed.

Lemma admit_all_Ok s bs s' rs :
  made s → admit_all s bs = Ok (s', rs) → made s' ∧ same_authority s s' ∧
  ∃ ls, decided bs rs ls ∧ (∀ p d, (p, d) ∈ concat ls → ad_status d = ADMITTED → is_Some (ad_action_id d)) ∧
    os_occurrence_owners s' ≡ₚ os_occurrence_owners s ++ omap owner_of (concat ls).
Proof.
  intros Hm. revert s' rs. induction bs as [|b bs IH] using rev_ind; intros s' rs H.
  - injection H as <- <-. split; [done|]. split; [apply same_authority_refl|]. exists [].
    simpl. rewrite app_nil_r. unfold decided. cbn [concat map].
    repeat split; try done; intros p d Hin; by apply elem_of_nil in Hin.
  - apply admit_all_snoc in H as (s1 & rs1 & tr & H1 & H2 & [= -> ->]).
    destruct (IH _ _ H1) as (M1 & A1 & ls & (D1 & D2 & D3) & L2 & L3).
    destruct (admit_batch_stepped _ _ _ M1 H2) as (n & [S1 S2 _ _ _]).
    destruct (admit_batch_verdicts _ _ _ M1 H2) as (l & V1 & V2 & V3 & V4 & V5).
    split; [done|]. split; [by eapply same_authority_trans|]. exists (ls ++ [l]).
    unfold decided. rewrite concat_app. cbn [concat]. rewrite app_nil_r. split; [split; [|split]|split].
    + rewrite !map_app, D1. cbn [map]. by rewrite V1.
    + apply Forall2_app; [done|]. by apply Forall2_cons_2.
    + intros p d [?|?]%elem_of_app; eauto.
    + intros p d [?|?]%elem_of_app; eauto.
    + by rewrite V5, L3, omap_app, app_assoc.
Qed.

(** ** Independence of the order of canonical batches *)

(** The batch with other proposals. *)
Definition with_proposals (b : ProposalBatch) (ps : list ActionProposal) : ProposalBatch :=
  {| pb_batch_key := pb_batch_key b; pb_strategy := pb_strategy b; pb_proposals := ps;
     pb_ordering := pb_ordering b |}.

Lemma ordered_proposals_inv b l :
  pb_ordering b = CANONICAL_INDEPENDENT → ProposalBatch.ordered_proposals b = Ok l →
  ∃ ids, Forall2 (λ p i, ActionProposal.proposal_id p = Ok i) (pb_proposals b) ids ∧
    l = map snd (sorted_by fst (zip ids (pb_proposals b))).
Proof.
  unfold ProposalBatch.ordered_proposals. intros ->. intros (keyed & Hk & [= <-])%res_bind_Ok.
  apply res_map_Ok in Hk. exists (map fst keyed).
  assert (H : Forall2 (λ p i, ActionProposal.proposal_id p = Ok i) (pb_proposals b) (map fst keyed) ∧
    keyed = zip (map fst keyed) (pb_proposals b)).
  { induction Hk as [|p [i q] ps ks Hp Hk [IH1 IH2]]; [done|]. simpl.
    apply res_bind_Ok in Hp as (j & Hj & [= -> ->]). split; [by constructor|]. by f_equal. }
  destruct H as [H1 H2]. split; [done|]. by rewrite <- H2.
Qed.

Lemma zip_ids ps ids :
  Forall2 (λ p i, ActionProposal.proposal_id p = Ok i) ps ids →
  res_map (λ p, let* i := ActionProposal.proposal_id p in Ok (i, p)) ps = Ok (zip ids ps).
Proof.
  intros H. apply res_map_Ok. induction H as [|p i ps ids Hp H IH]; [constructor|].
  simpl. constructor; [|done]. by rewrite Hp.
Qed.

(** Two proposals of a batch with the same identity have the same key, unless there is a collision. *)
Lemma distinct_ids ps ids :
  Forall made_proposal ps → NoDup (map ap_proposal_key ps) →
  Forall2 (λ p i, ActionProposal.proposal_id p = Ok i) ps ids →
  NoDup ids ∨ collision_among (map proposal_message ps).
Proof.
  intros Hm Hnd H. induction H as [|p i ps ids Hp H IH]; [left; constructor|].
  cbn [map] in Hnd. apply NoDup_cons in Hnd as [Hni Hnd]. inversion_clear Hm as [|? ? Mp Mps].
  destruct (IH Mps Hnd) as [IHnd|Hcol]; [|right; eapply collision_among_incl, Hcol; set_solver].
  destruct (decide (i ∈ ids)) as [Hin|Hin]; [|left; by constructor].
  assert (∃ q, q ∈ ps ∧ ActionProposal.proposal_id q = Ok i) as (q & Hq & Hi).
  { apply list_elem_of_lookup in Hin as [n Hn].
    destruct (Forall2_lookup_r _ _ _ _ _ H Hn) as (q & Hq & Hi). exists q.
    split; [by eapply list_elem_of_lookup_2|done]. }
  rewrite Forall_forall in Mps.
  destruct (proposal_id_inj p q i Mp (Mps q Hq) Hp Hi) as [(Hk & _)|Hcol].
  2:{ right. exists (proposal_message p), (proposal_message q). split; [set_solver|]. split; [|exact Hcol].
      apply list_elem_of_further, list_elem_of_fmap_2, Hq. }
  exfalso. apply Hni. rewrite Hk. apply list_elem_of_In, in_map, list_elem_of_In. done.
Qed.

Lemma ordered_proposals_permuted b ps l :
  Forall made_proposal (pb_proposals b) → NoDup (map ap_proposal_key (pb_proposals b)) →
  pb_ordering b = CANONICAL_INDEPENDENT → ps ≡ₚ pb_proposals b →
  ProposalBatch.ordered_proposals b = Ok l →
  ProposalBatch.ordered_proposals (with_proposals b ps) = Ok l ∨ collision_among (map proposal_message (pb_proposals b)).
Proof.
  intros Hm Hnd Ho Hp (ids & Hids & ->)%ordered_proposals_inv; [|done].
  destruct (distinct_ids _ _ Hm Hnd Hids) as [Hids_nd|]; [left|by right].
  assert (∃ ids', Forall2 (λ p i, ActionProposal.proposal_id p = Ok i) ps ids' ∧
    zip ids (pb_proposals b) ≡ₚ zip ids' ps) as (ids' & Hids' & Hz).
  { clear -Hp Hids. symmetry in Hp. revert ids Hids.
    induction Hp as [|p ps qs Hp IH|p q ps|ps qs rs Hp1 IH1 Hp2 IH2]; intros ids Hids.
    - inversion Hids; subst. by exists [].
    - inversion Hids as [|? i ? ids0 H1 H2]; subst. destruct (IH _ H2) as (ids' & ? & ?).
      exists (i :: ids'). split; [by constructor|]. simpl. by constructor.
    - inversion Hids as [|? i ? ids0 H1 H2]; subst. inversion H2 as [|? j ? ids1 H3 H4]; subst.
      exists (j :: i :: ids1). split; [by repeat constructor|]. simpl. constructor.
    - destruct (IH1 _ Hids) as (ids1 & H1 & Z1). destruct (IH2 _ H1) as (ids2 & H2 & Z2).
      exists ids2. split; [done|]. by rewrite Z1. }
  unfold ProposalBatch.ordered_proposals. cbn [pb_ordering with_proposals pb_proposals]. rewrite Ho.
  rewrite (zip_ids _ _ Hids'). cbn [res_bind]. do 2 f_equal. symmetry. apply sorted_by_perm_eq; [|done].
  rewrite fst_zip; [done|]. by rewrite (Forall2_length _ _ _ Hids).
Qed.

(** Two batches that differ at most in the order of their proposals, and agree once ordered. *)
Record alike (b1 b2 : ProposalBatch) : Prop := {
  al_key : pb_batch_key b1 = pb_batch_key b2;
  al_strategy : pb_strategy b1 = pb_strategy b2;
  al_ordering : pb_ordering b1 = pb_ordering b2;
  al_length : length (pb_proposals b1) = length (pb_proposals b2);
  al_ordered : ProposalBatch.ordered_proposals b1 = ProposalBatch.ordered_proposals b2
}.

Lemma alike_batch_id b1 b2 : alike b1 b2 → ProposalBatch.batch_id b1 = ProposalBatch.batch_id b2.
Proof.
  intros [E1 E2 E3 E4 E5]. unfold ProposalBatch.batch_id, ProposalBatch.canonical_record. by rewrite E1, E2, E3, E5.
Qed.

Lemma res_fold_ext {A S} (f g : S → A → res S) s l : (∀ s x, f s x = g s x) → res_fold f s l = res_fold g s l.
Proof.
  intros H. revert s; induction l as [|x l IH]; intros s; cbn [res_fold]; [done|].
  rewrite H. destruct (g s x); cbn [res_bind]; [apply IH|done].
Qed.

Lemma alike_step s b1 b2 st p : alike b1 b2 → admit_step s b1 st p = admit_step s b2 st p.
Proof.
  intros H. pose proof (alike_batch_id _ _ H) as Hb. destruct H as [E1 E2 E3 E4 E5].
  unfold admit_step, decide_proposal. by rewrite Hb, E2, E3.
Qed.

Lemma alike_admit s b1 b2 : alike b1 b2 → admit_batch s b1 = admit_batch s b2.
Proof.
  intros H. pose proof (alike_batch_id _ _ H) as Hb. pose proof (λ st p, alike_step s _ _ st p H) as Hstep.
  destruct H as [E1 E2 E3 E4 E5].
  assert (Hs : schema_admitted s b1 = schema_admitted s b2) by (unfold schema_admitted; by rewrite E2).
  assert (Hr : ∀ reason rec, rejected_batch_transition s b1 reason rec = rejected_batch_transition s b2 reason rec)
    by (intros; unfold rejected_batch_transition; by rewrite Hb, E2, E3).
  unfold admit_batch. rewrite Hs, !Hr, Hb, E2, E3, E4, E5.
  destruct (schema_admitted s b2) as [[]|]; cbn [res_bind negb]; [|done|done].
  destruct (OrchestrationState.state_id s); cbn [res_bind]; [|done]. destruct (_ <? _); [done|].
  destruct (ProposalBatch.ordered_proposals b2) as [ps|]; cbn [res_bind]; [|done].
  by rewrite (res_fold_ext _ _ _ ps Hstep).
Qed.

Lemma admit_batch_ordered s b tr : admit_batch s b = Ok tr → ∃ l, ProposalBatch.ordered_proposals b = Ok l.
Proof.
  intros H. assert (Hid : ∃ i, ProposalBatch.batch_id b = Ok i).
  { unfold admit_batch in H. apply res_bind_Ok in H as (ok & _ & H). destruct (negb ok).
    - unfold rejected_batch_transition in H. apply res_bind_Ok in H as (? & _ & H).
      apply res_bind_Ok in H as (? & _ & H). apply res_bind_Ok in H as (i & ? & _). eauto.
    - apply res_bind_Ok in H as (? & _ & H). destruct (_ <? _).
      + unfold rejected_batch_transition in H. apply res_bind_Ok in H as (? & _ & H).
        apply res_bind_Ok in H as (? & _ & H). apply res_bind_Ok in H as (i & ? & _). eauto.
      + apply res_bind_Ok in H as (? & _ & H). apply res_bind_Ok in H as (? & _ & H).
        apply res_bind_Ok in H as (? & _ & H). apply res_bind_Ok in H as (i & ? & _). eauto. }
  destruct Hid as [i Hid]. unfold ProposalBatch.batch_id, ProposalBatch.canonical_record in Hid.
  apply res_bind_Ok in Hid as (? & Hid & _). apply res_bind_Ok in Hid as (l & ? & _). eauto.
Qed.

(** ** Lemmas on processed batches *)

Lemma capability_unique s c1 c2 :
  made s → c1 ∈ os_capabilities s → c2 ∈ os_capabilities s → cap_name c1 = cap_name c2 → c1 = c2.
Proof.
  intros Hm H1 H2 Hn. pose proof (sb_names _ (made_bounds _ Hm)) as Hnd.
  pose proof (find_unique cap_name _ c1 (cap_name c2) Hnd H1 Hn) as F1.
  pose proof (find_unique cap_name _ c2 (cap_name c2) Hnd H2 eq_refl) as F2. congruence.
Qed.

Lemma admitted_owner_of s b l st p d c args :
  loop_ok s b l st → (p, d) ∈ l → ad_status d ≠ DECISION_REJECTED → cleared s b p c args →
  cap_replay_safety c = OCCURRENCE_SENSITIVE → ∃ o, owner_of (p, d) = Some o ∧
    ap_occurrence_key p = Some (oo_occurrence_key o).
Proof.
  intros Hlo Hin Hs Hc Hr. pose proof (cl_occurrence _ _ _ _ _ Hc) as Hk. rewrite bool_decide_true in Hk by done.
  destruct (ap_occurrence_key p) as [k|] eqn:Ek; [|done].
  destruct (lo_cleared _ _ _ _ Hlo p d Hin Hs) as (c' & args' & act & _ & _ & Ha).
  unfold owner_of. cbn [fst snd]. rewrite Ek, Ha. destruct (ad_status d) eqn:E; [by eexists| |done].
  apply list_elem_of_split in Hin as (l1 & l2 & ->).
  destruct (lo_dedup _ _ _ _ Hlo l1 p d l2 eq_refl E) as [? _]. congruence.
Qed.

Lemma admitted_not_taken s b l st l1 p d l2 c args :
  loop_ok s b l st → l = l1 ++ (p, d) :: l2 → ad_status d ≠ DECISION_REJECTED → cleared s b p c args →
  ¬ occurrence_taken s (os_occurrence_owners s ++ omap owner_of l1) p c.
Proof.
  intros Hlo -> Hs Hc [Hr (key & Hk & Ht)].
  destruct (admitted_owner_of _ _ _ _ p d c args Hlo) as (o & Ho & Hko); [set_solver|done..|].
  pose proof (lo_keys _ _ _ _ Hlo) as Hnd. pose proof (lo_bound _ _ _ _ Hlo) as Hb.
  rewrite (lo_owners _ _ _ _ Hlo), omap_app in Hnd, Hb. cbn [omap list_omap] in Hnd, Hb. rewrite Ho in Hnd, Hb.
  rewrite app_assoc in Hnd, Hb. destruct Ht as [Hin|Hfull].
  - rewrite map_app in Hnd. apply NoDup_app in Hnd as (_ & Hd & _). apply (Hd key Hin).
    cbn [map]. rewrite Hk in Hko. injection Hko as ->. set_solver.
  - rewrite length_app in Hb. cbn [length] in Hb. lia.
Qed.

(** What a proposal's action hashes, for the capability and the arguments it was cleared with. *)
Definition cleared_messages (s : OrchestrationState) (p : ActionProposal) (c : Capability) (args : pyval) : list (res (list Z)) :=
  [contract_message c;
   let* digest := EpistemicState.dependency_digest (os_epistemic_state s) (dependency_keys c p) in
   action_message c args (ap_occurrence_key p) digest].

(** Two cleared proposals with one action identity: the same action and, by its occurrence, the same
    right to it. *)
Lemma action_determines s b p1 p2 c1 c2 a1 a2 act :
  cleared s b p1 c1 a1 → cleared s b p2 c2 a2 →
  action_of s p1 c1 a1 act → action_of s p2 c2 a2 act →
  (same_contract c1 c2 ∧ a1 = a2 ∧
   EpistemicState.dependency_digest (os_epistemic_state s) (dependency_keys c1 p1) =
   EpistemicState.dependency_digest (os_epistemic_state s) (dependency_keys c2 p2) ∧
   (cap_replay_safety c1 = OCCURRENCE_SENSITIVE → ap_occurrence_key p1 = ap_occurrence_key p2)) ∨
  collision_among (cleared_messages s p1 c1 a1 ++ cleared_messages s p2 c2 a2).
Proof.
  intros H1 H2 (d1 & D1 & A1) (d2 & D2 & A2).
  destruct (admitted_arguments_wf _ _ _ (cl_arguments _ _ _ _ _ H1)) as [W1 C1].
  destruct (admitted_arguments_wf _ _ _ (cl_arguments _ _ _ _ _ H2)) as [W2 C2].
  unfold cleared_messages. rewrite D1, D2. cbn [res_bind app].
  destruct (action_id_inj _ _ _ _ _ _ _ _ _ W1 W2 A1 A2) as [(Hc & Ha & -> & Ho)|[Hcol|Hcol]]; [left|right..].
  - split; [exact Hc|]. split; [congruence|done].
  - eexists _, _. split; [|split; [|exact Hcol]]; set_solver.
  - eexists _, _. split; [|split; [|exact Hcol]]; set_solver.
Qed.

(** Two cleared proposals that ask for the same action. *)
Lemma same_action s b p1 p2 c1 c2 a1 a2 act :
  made s → cleared s b p1 c1 a1 → cleared s b p2 c2 a2 →
  action_of s p1 c1 a1 act → action_of s p2 c2 a2 act →
  (c1 = c2 ∧ a1 = a2 ∧
   EpistemicState.dependency_digest (os_epistemic_state s) (dependency_keys c1 p1) =
   EpistemicState.dependency_digest (os_epistemic_state s) (dependency_keys c2 p2)) ∨
  collision_among (cleared_messages s p1 c1 a1 ++ cleared_messages s p2 c2 a2).
Proof.
  intros Hm H1 H2 A1 A2. destruct (action_determines _ _ _ _ _ _ _ _ _ H1 H2 A1 A2) as [((Hn & _) & Ha & Hd & _)|]; [left|by right].
  pose proof (cl_capability _ _ _ _ _ H1) as [I1 _]. pose proof (cl_capability _ _ _ _ _ H2) as [I2 _].
  split; [by eapply capability_unique|]. done.
Qed.

(** ** Properties *)

(** C1.  A processed batch decides its proposals in order, and a proposal is let through
    (admitted or deduplicated) exactly when it is cleared - an available capability of the state,
    admitted arguments, a declared sequence where the capability needs one, ready targets,
    resolved state - and its occurrence is not owned and has room in the register.  The decision
    carries the identity of the action. *)
Theorem admission_exact s b tr :
  made s → admit_batch s b = Ok tr → rc_status (tr_receipt tr) = PROCESSED →
  ∃ l, rc_decisions (tr_receipt tr) = map snd l ∧ ProposalBatch.ordered_proposals b = Ok (map fst l) ∧
    ∀ l1 p d l2, l = l1 ++ (p, d) :: l2 →
    ActionProposal.proposal_id p = Ok (ad_proposal_id d) ∧
    (ad_status d ≠ DECISION_REJECTED ↔ ∃ c args, cleared s b p c args ∧
      ¬ occurrence_taken s (os_occurrence_owners s ++ omap owner_of l1) p c) ∧
    (ad_status d ≠ DECISION_REJECTED → ∃ c args act, cleared s b p c args ∧ action_of s p c args act ∧
      ad_action_id d = Some act).
Proof.
  intros Hm H Hs. destruct (admit_batch_Ok s b tr Hm H) as [[l Hl]|Hl]; [|by destruct Hl; congruence].
  destruct Hl as [_ _ Ho (st & Hlo & _) _ Hd _ _]. exists l. split; [done|]. split; [done|].
  intros l1 p d l2 El. assert (Hin : (p, d) ∈ l) by (rewrite El; set_solver).
  split; [by apply (lo_about _ _ _ _ Hlo)|]. split; [split|by apply (lo_cleared _ _ _ _ Hlo)].
  - intros Hr. destruct (lo_cleared _ _ _ _ Hlo p d Hin Hr) as (c & args & act & Hc & _).
    exists c, args. split; [done|]. by eapply admitted_not_taken.
  - intros (c & args & Hc & Hnt) Hr. apply Hnt. by eapply (lo_rejected _ _ _ _ Hlo).
Qed.


(** C2.  Over any sequence of batches an occurrence key is admitted at most once, and never one
    that was already owned.  The register of owners grows by exactly the admitted occurrences and
    stays within its limit. *)
Theorem occurrence_admitted_once s bs s' rs :
  made s → admit_all s bs = Ok (s', rs) →
  ∃ ls, decided bs rs ls ∧
    os_occurrence_owners s' ≡ₚ os_occurrence_owners s ++ omap owner_of (concat ls) ∧
    Z.of_nat (length (os_occurrence_owners s')) <= ol_max_occurrence_owners (os_limits s) ∧
    ∀ l1 p d l2 key, concat ls = l1 ++ (p, d) :: l2 → ad_status d = ADMITTED → ap_occurrence_key p = Some key →
      key ∉ map oo_occurrence_key (os_occurrence_owners s) ∧
      ∀ p' d', (p', d') ∈ l1 → ad_status d' = ADMITTED → ap_occurrence_key p' ≠ Some key.
Proof.
  intros Hm H. destruct (admit_all_Ok _ _ _ _ Hm H) as (Hm' & Hau & ls & Hd & Ha & Ho).
  exists ls. split; [done|]. split; [done|]. pose proof (made_bounds _ Hm') as Hb. destruct Hau as (_ & _ & _ & Hlim & _).
  split; [rewrite <- Hlim; apply (sb_owners _ Hb)|].
  assert (Howner : ∀ p d key, (p, d) ∈ concat ls → ad_status d = ADMITTED → ap_occurrence_key p = Some key →
    ∃ o, owner_of (p, d) = Some o ∧ oo_occurrence_key o = key).
  { intros p d key Hin Hs Hk. destruct (Ha p d Hin Hs) as [act Hact]. unfold owner_of. cbn [fst snd].
    rewrite Hs, Hk, Hact. by eexists. }
  intros l1 p d l2 key El Hs Hk.
  pose proof (sb_keys _ Hb) as Hnd. rewrite Ho, El, omap_app, app_assoc, map_app in Hnd.
  destruct (Howner p d key) as (o & Eo & Eok); [rewrite El; set_solver|done..|].
  cbn [omap list_omap] in Hnd. rewrite Eo in Hnd. cbn [map] in Hnd. rewrite Eok in Hnd.
  apply NoDup_app in Hnd as (_ & Hdis & _). rewrite map_app in Hdis. split.
  - intros Hin. apply (Hdis key); set_solver.
  - intros p' d' Hin Hs' Hk'. destruct (Howner p' d' key) as (o' & Eo' & Eok'); [rewrite El; set_solver|done..|].
    apply (Hdis key); [|set_solver]. apply elem_of_app. right. rewrite <- Eok'.
    apply list_elem_of_In, in_map, list_elem_of_In. apply list_elem_of_omap. by exists (p', d').
Qed.

(** C4.  No sequence of batches changes what the orchestrator owns: obligations, epistemic state,
    capabilities, limits and strategy schemas stay, and the state stays well formed. *)
Theorem admissions_preserve_authority s bs s' rs :
  made s → admit_all s bs = Ok (s', rs) → made s' ∧ same_authority s s'.
Proof. intros Hm H. by destruct (admit_all_Ok _ _ _ _ Hm H) as (? & ? & _). Qed.

(** The clock moves by one tick per decision, or by one for a rejected batch; the decisions
    carry consecutive ticks, the history keeps the latest events within its bound, and the receipt
    names the batch, the strategy and both states. *)
Theorem admission_accounting s b tr :
  made s → admit_batch s b = Ok tr →
  let n := match rc_status (tr_receipt tr) with
           | PROCESSED => length (rc_decisions (tr_receipt tr))
           | BATCH_REJECTED => 1%nat
           end in
  os_logical_tick (tr_next_state tr) = os_logical_tick s + Z.of_nat n ∧
  (rc_status (tr_receipt tr) = PROCESSED → map ad_logical_tick (rc_decisions (tr_receipt tr)) =
    map (λ i, os_logical_tick s + 1 + Z.of_nat i) (seq 0 n)) ∧
  (∃ events, length events = n ∧ os_history (tr_next_state tr) =
    last_items (ol_max_history (os_limits s)) (os_history s ++ events)) ∧
  Z.of_nat (length (os_history (tr_next_state tr))) <= ol_max_history (os_limits s) ∧
  receipt_of (tr_receipt tr) s (tr_next_state tr) b.
Proof.
  intros Hm H. destruct (admit_batch_Ok s b tr Hm H) as [[l Hl]|Hl].
  - destruct Hl as [_ _ _ (st & Hlo & _) [S1 S2 S3 S4 S5] Hd Hs _]. rewrite Hs, Hd, length_map.
    split; [done|]. split; [intros _; apply (lo_ticks _ _ _ _ Hlo)|]. split; [done|]. split; [|done].
    destruct S2 as (_ & _ & _ & <- & _). apply sb_history, made_bounds, S1.
  - destruct Hl as [_ [S1 S2 S3 S4 S5] Hd Hs _]. rewrite Hs. split; [done|]. split; [done|].
    split; [done|]. split; [|done]. destruct S2 as (_ & _ & _ & <- & _). apply sb_history, made_bounds, S1.
Qed.

(** A batch is rejected as a whole exactly when its strategy schema is not the admitted one
    or it has more proposals than the state allows; it then decides nothing and owns nothing. *)
Theorem batch_rejection_exact s b tr :
  made s → admit_batch s b = Ok tr →
  (rc_status (tr_receipt tr) = BATCH_REJECTED ↔
     schema_admitted s b = Ok false ∨
     ol_max_batch_proposals (os_limits s) < Z.of_nat (length (pb_proposals b))) ∧
  (rc_status (tr_receipt tr) = BATCH_REJECTED →
     rc_decisions (tr_receipt tr) = [] ∧
     os_occurrence_owners (tr_next_state tr) ≡ₚ os_occurrence_owners s ∧
     ∃ r, rc_batch_rejection (tr_receipt tr) = Some r ∧
       br_reason r = match schema_admitted s b with Ok false => STRATEGY_SCHEMA_NOT_ADMITTED | _ => BATCH_LIMIT_EXCEEDED end).
Proof.
  intros Hm H. destruct (admit_batch_Ok s b tr Hm H) as [[l Hl]|Hl].
  - destruct Hl as [Hsc Hlim _ _ _ _ Hs _]. rewrite Hs. split; [|done]. split; [done|].
    intros [Hf|Hf]; [congruence|lia].
  - destruct Hl as [(r & Hr & _ & Hreason) _ Hd Hs Ho]. rewrite Hs. split; [split; [|done]|].
    + intros _. destruct Hreason as [[? _]|(_ & _ & ?)]; auto.
    + intros _. split; [done|]. split; [done|]. exists r. split; [done|].
      destruct Hreason as [[-> ?]|(-> & ? & _)]; done.
Qed.

(** A canonically ordered batch is decided independently of the order in which its proposals
    were listed: the whole transition is the same, unless two of the proposals collide. *)
Theorem canonical_batch_order_free s b ps tr :
  Forall made_proposal (pb_proposals b) → NoDup (map ap_proposal_key (pb_proposals b)) →
  pb_ordering b = CANONICAL_INDEPENDENT → ps ≡ₚ pb_proposals b →
  admit_batch s b = Ok tr → admit_batch s (with_proposals b ps) = Ok tr ∨
  collision_among (map proposal_message (pb_proposals b)).
Proof.
  intros Hm Hnd Ho Hp H. destruct (admit_batch_ordered _ _ _ H) as [l Hl].
  destruct (ordered_proposals_permuted b ps l Hm Hnd Ho Hp Hl) as [Hl'|]; [left|by right].
  rewrite <- H. apply alike_admit. constructor; try done.
  - cbn [with_proposals pb_proposals]. by rewrite Hp.
  - by rewrite Hl, Hl'.
Qed.

(** A proposal's identity covers everything but its observational metadata. *)
Theorem proposal_id_binds p q i :
  made_proposal p → made_proposal q → ActionProposal.proposal_id p = Ok i →
  (same_proposal p q → ActionProposal.proposal_id q = Ok i) ∧
  (ActionProposal.proposal_id q = Ok i → same_proposal p q ∨ collide (proposal_message p) (proposal_message q)).
Proof.
  intros Hp Hq Hi. split; [|intros Hj; by eapply proposal_id_inj].
  intros (E1 & E2 & E3 & E4 & E5 & E6). rewrite <- Hi. unfold ActionProposal.proposal_id,
    ActionProposal.canonical_record, ActionProposal.arguments, ActionProposal.record_fields.
  by rewrite E1, E2, E3, E4, E5, E6.
Qed.

(** *** Witnesses: a read and a write against a state with one ready obligation *)

Definition ok_or {A} (default : A) (r : res A) : A := match r with Ok a => a | Raise _ => default end.

Definition ex_obligation : Obligation :=
  {| ob_key := u "task"; ob_description := u "do it"; ob_dependency_ids := []; ob_status := UNSATISFIED;
     ob_block_reason := None |}.

Definition ex_capability (name : pystr) (r : ReplaySafety) : Capability :=
  {| cap_name := name; cap_replay_safety := r; cap_description := u "d"; cap_available := true;
     cap_contract_version := 1; cap_required_state_keys := []; cap_semantic_argument_keys := [u "a"];
     cap_replay_evidence_id := None |}.

Definition ex_schema : StrategySchema :=
  {| sc_strategy_key := u "plan"; sc_parameter_specs := []; sc_contract_version := 1 |}.

Definition ex_state : OrchestrationState :=
  {| os_obligations := {| reg_obligations := [ex_obligation]; reg_max_obligations := MAX_OBLIGATIONS |};
     os_epistemic_state := {| es_records := []; es_max_records := MAX_EPISTEMIC_RECORDS |};
     os_capabilities := [ex_capability (u "read") CACHEABLE_READ; ex_capability (u "write") OCCURRENCE_SENSITIVE];
     os_limits := OrchestrationLimits.default; os_logical_tick := 0; os_history := [];
     os_occurrence_owners := []; os_strategy_schemas := [ex_schema] |}.

Lemma ex_state_made : made ex_state.
Proof. vm_compute. reflexivity. Qed.

Definition ex_target : pystr := Eval vm_compute in ok_or [] (obligation_id ex_obligation).

Definition ex_proposal (key cap : string) (occ : option pystr) (meta : option pyval) : ActionProposal :=
  {| ap_proposal_key := u key; ap_capability := u cap; ap_target_obligation_ids := [ex_target];
     ap_required_state_keys := []; ap_occurrence_key := occ;
     ap_arguments := {| cv_text := u "{}" |};
     ap_observational_metadata := match meta with Some _ => Some {| cv_text := u "1" |} | None => None end |}.

Definition ex_strategy : Strategy :=
  {| sg_key := u "plan"; sg_schema := ex_schema; sg_parameters := {| cv_text := u "{}" |} |}.

Definition ex_batch (o : ProposalOrdering) (ps : list ActionProposal) : ProposalBatch :=
  {| pb_batch_key := u "b"; pb_strategy := ex_strategy; pb_proposals := ps; pb_ordering := o |}.

Definition ex_p1 : ActionProposal := ex_proposal "p1" "read" None None.
Definition ex_p2 : ActionProposal := ex_proposal "p2" "read" None None.
Definition ex_p3 : ActionProposal := ex_proposal "p3" "write" (Some (u "k")) None.

Lemma ex_made key cap occ meta :
  ActionProposal.make (u key) (u cap) (VDict []) [ex_target] [] occ meta = Ok (ex_proposal key cap occ meta) →
  made_proposal (ex_proposal key cap occ meta).
Proof. intros H. unfold made_proposal. by do 7 eexists. Qed.

Definition ex_writes : ProposalBatch := ex_batch DECLARED_SEQUENCE [ex_p1; ex_p2; ex_p3].
Definition ex_reads : ProposalBatch := ex_batch CANONICAL_INDEPENDENT [ex_p1; ex_p2].

Definition ex_dummy : AdmissionTransition :=
  {| tr_next_state := ex_state;
     tr_receipt := {| rc_batch_id := []; rc_strategy_id := []; rc_prior_state_id := []; rc_next_state_id := [];
       rc_status := BATCH_REJECTED; rc_proposal_ordering := DECLARED_SEQUENCE; rc_logical_tick_start := 0;
       rc_logical_tick_end := 0; rc_decisions := []; rc_batch_rejection := None |} |}.

Definition ex_transition : AdmissionTransition := Eval vm_compute in ok_or ex_dummy (admit_batch ex_state ex_writes).
Definition ex_read_transition : AdmissionTransition := Eval vm_compute in ok_or ex_dummy (admit_batch ex_state ex_reads).

Lemma ex_transition_ok : admit_batch ex_state ex_writes = Ok ex_transition.
Proof. vm_compute. reflexivity. Qed.

Example ex_statuses : map ad_status (rc_decisions (tr_receipt ex_transition)) = [ADMITTED; DEDUPLICATED; ADMITTED].
Proof. reflexivity. Qed.

Lemma admission_exact_witness :
  ∃ l, rc_decisions (tr_receipt ex_transition) = map snd l ∧
    ProposalBatch.ordered_proposals ex_writes = Ok (map fst l).
Proof.
  destruct (admission_exact ex_state ex_writes ex_transition ex_state_made ex_transition_ok eq_refl) as (l & ? & ? & _).
  by exists l.
Defined.


Definition ex_run : OrchestrationState * list AdmissionReceipt :=
  Eval vm_compute in ok_or (ex_state, []) (admit_all ex_state [ex_writes; ex_reads]).

Lemma ex_run_ok : admit_all ex_state [ex_writes; ex_reads] = Ok (ex_run.1, ex_run.2).
Proof.
  unfold admit_all. cbn [res_fold]. unfold admit_next at 1. cbn [fst]. rewrite ex_transition_ok. vm_compute. reflexivity.
Qed.

Lemma occurrence_admitted_once_witness :
  ∃ ls, decided [ex_writes; ex_reads] ex_run.2 ls ∧
    os_occurrence_owners ex_run.1 ≡ₚ os_occurrence_owners ex_state ++ omap owner_of (concat ls).
Proof.
  destruct (occurrence_admitted_once ex_state _ _ _ ex_state_made ex_run_ok) as (ls & ? & ? & _). by exists ls.
Defined.

Lemma admissions_preserve_authority_witness : made ex_run.1 ∧ same_authority ex_state ex_run.1.
Proof. apply (admissions_preserve_authority ex_state _ _ _ ex_state_made ex_run_ok). Defined.

Lemma admission_accounting_witness : os_logical_tick (tr_next_state ex_transition) = 3.
Proof.
  destruct (admission_accounting ex_state ex_writes ex_transition ex_state_made ex_transition_ok) as (H & _).
  exact H.
Defined.
