(* ===== verification/Assurance.v ===== *)
(** * Assurance graphs ([src/ibae/assurance.py])

    Declarations of which evidence may support which: nodes labelled with a class, edges between
    them, and the closed support relation on classes; research claims and calibration bindings.
    The records can be built past their constructors, so every projection validates again. *)

From Stdlib Require Import Ascii String.
From stdpp Require Import base list gmap.
From S2P Require Import Prelude PyStr PyNumber Sha256 Canonical Records Kahn.

Definition ASSURANCE_GRAPH_VERSION : pystr := u "IBAE-ASSURANCE-GRAPH-V1".
Definition CALIBRATION_PROFILE_VERSION : pystr := u "IBAE-CALIBRATION-BINDING-V1".
Definition MAX_ASSURANCE_NODES : Z := 128.
Definition MAX_ASSURANCE_EDGES : Z := 512.

Inductive AssuranceClass :=
  | CLASS_MODEL_PROPOSAL | OBSERVATION | DERIVED_FACT | RUNTIME_RECEIPT | CONFORMANCE_RESULT
  | COMPACT_EVIDENCE | PROGRESS_EVIDENCE | BENCHMARK_OBSERVATION | RESEARCH_CLAIM
  | GOVERNANCE_DECISION | FINAL_ACCEPTANCE.

#[export] Instance AssuranceClass_eq_dec : EqDecision AssuranceClass.
Proof. solve_decision. Defined.

Definition assurance_value (c : AssuranceClass) : pystr :=
  match c with
  | CLASS_MODEL_PROPOSAL => u "model_proposal"
  | OBSERVATION => u "observation"
  | DERIVED_FACT => u "derived_fact"
  | RUNTIME_RECEIPT => u "runtime_receipt"
  | CONFORMANCE_RESULT => u "conformance_result"
  | COMPACT_EVIDENCE => u "compact_evidence"
  | PROGRESS_EVIDENCE => u "progress_evidence"
  | BENCHMARK_OBSERVATION => u "benchmark_observation"
  | RESEARCH_CLAIM => u "research_claim"
  | GOVERNANCE_DECISION => u "governance_decision"
  | FINAL_ACCEPTANCE => u "final_acceptance"
  end.

(** The members of the enumeration, in declaration order. *)
Definition assurance_classes : list AssuranceClass :=
  [CLASS_MODEL_PROPOSAL; OBSERVATION; DERIVED_FACT; RUNTIME_RECEIPT; CONFORMANCE_RESULT;
   COMPACT_EVIDENCE; PROGRESS_EVIDENCE; BENCHMARK_OBSERVATION; RESEARCH_CLAIM;
   GOVERNANCE_DECISION; FINAL_ACCEPTANCE].

(** [_SUPPORT] *)
Definition support : list (AssuranceClass * AssuranceClass) :=
  [(RUNTIME_RECEIPT, OBSERVATION);
   (RUNTIME_RECEIPT, COMPACT_EVIDENCE);
   (OBSERVATION, DERIVED_FACT);
   (OBSERVATION, PROGRESS_EVIDENCE);
   (DERIVED_FACT, PROGRESS_EVIDENCE);
   (PROGRESS_EVIDENCE, GOVERNANCE_DECISION);
   (COMPACT_EVIDENCE, FINAL_ACCEPTANCE);
   (CONFORMANCE_RESULT, FINAL_ACCEPTANCE);
   (GOVERNANCE_DECISION, FINAL_ACCEPTANCE)].

(** Tuples of two strings compare by their first, then their second component: a stable sort by
    the second and then by the first component. *)
Definition sorted_by_pair {A} (f g : A → pystr) (l : list A) : list A := sorted_by f (sorted_by g l).

Definition sorted_pair_set (l : list (pystr * pystr)) : list (pystr * pystr) :=
  sorted_by_pair fst snd (remove_dups l).

Record AssuranceNode := {
  an_key : pystr;
  an_evidence_class : AssuranceClass;
  an_evidence_id : pystr
}.

Module AssuranceNode.

(** [__post_init__] *)
Definition check (n : AssuranceNode) : res unit :=
  require_symbol (an_key n) ;;*
  require_fingerprint (an_evidence_id n).

Definition canonical_record (n : AssuranceNode) : res pyval :=
  check n ;;*
  Ok (obj [("key", VStr (an_key n));
           ("evidence_class", VStr (assurance_value (an_evidence_class n)));
           ("evidence_id", VStr (an_evidence_id n))]%string).

End AssuranceNode.

Record AssuranceEdge := {
  ae_source : pystr;
  ae_target : pystr
}.

Module AssuranceEdge.

Definition check (e : AssuranceEdge) : res unit :=
  require_symbol (ae_source e) ;;*
  require_symbol (ae_target e) ;;*
  raise_if (bool_decide (ae_source e = ae_target e)) ValueError.

Definition record (e : AssuranceEdge) : pyval :=
  obj [("source", VStr (ae_source e)); ("target", VStr (ae_target e))]%string.

End AssuranceEdge.

Record AssuranceGraph := {
  ag_nodes : list AssuranceNode;
  ag_edges : list AssuranceEdge
}.

Module AssuranceGraph.

Definition check_edge (by_key : gmap pystr AssuranceNode) (e : AssuranceEdge) : res unit :=
  raise_if (bool_decide (by_key !! ae_source e = None) || bool_decide (by_key !! ae_target e = None)) ValueError ;;*
  let* source := dict_get by_key (ae_source e) in
  let* target := dict_get by_key (ae_target e) in
  raise_if (negb (bool_decide ((an_evidence_class source, an_evidence_class target) ∈ support))) ValueError.

(** [__post_init__] *)
Definition check (g : AssuranceGraph) : res unit :=
  raise_if ((MAX_ASSURANCE_NODES <? Z.of_nat (length (ag_nodes g))) ||
            (MAX_ASSURANCE_EDGES <? Z.of_nat (length (ag_edges g)))) ValueError ;;*
  res_iter AssuranceNode.check (ag_nodes g) ;;*
  res_iter AssuranceEdge.check (ag_edges g) ;;*
  let keys := map an_key (ag_nodes g) in
  let pairs := map (λ e, (ae_source e, ae_target e)) (ag_edges g) in
  raise_if (negb (bool_decide (keys = sorted_set keys)) ||
            negb (bool_decide (pairs = sorted_pair_set pairs))) ValueError ;;*
  res_iter (check_edge (dict_of (map (λ n, (an_key n, n)) (ag_nodes g)))) (ag_edges g).

Definition make (nodes : list AssuranceNode) (edges : list AssuranceEdge) : res AssuranceGraph :=
  let g := {| ag_nodes := nodes; ag_edges := edges |} in
  check g ;;* Ok g.

Definition canonical_record (g : AssuranceGraph) : res pyval :=
  check g ;;*
  let* nodes := res_map AssuranceNode.canonical_record (ag_nodes g) in
  Ok (obj [("protocol_version", VStr ASSURANCE_GRAPH_VERSION);
           ("scope", VStr (u "support_declaration_requires_source_validation"));
           ("grants_authority", VBool false);
           ("nodes", VList nodes);
           ("edges", VList (map AssuranceEdge.record (ag_edges g)))]%string).

Definition graph_id (g : AssuranceGraph) : res pystr :=
  let* r := canonical_record g in domain_fingerprint (u "ibae.assurance.graph.v1") r.

End AssuranceGraph.

Definition assurance_support_contract : pyval :=
  obj [("protocol_version", VStr ASSURANCE_GRAPH_VERSION);
       ("classes", strs_val (sorted (map assurance_value assurance_classes)));
       ("allowed_support", VList (map
         (λ ab, obj [("source", VStr (assurance_value ab.1)); ("target", VStr (assurance_value ab.2))]%string)
         (sorted_by_pair (λ ab, assurance_value ab.1) (λ ab, assurance_value ab.2) support)));
       ("unknown_edges", VStr (u "deny"));
       ("integrity_is_authenticity", VBool false);
       ("graph_is_final_acceptance", VBool false);
       ("required_validation", obj
         [("runtime_receipt", VStr (u "exact_native_source_seal"));
          ("observation", VStr (u "governed_admission_and_native_source"));
          ("derived_fact", VStr (u "validated_dependency_dag_and_governed_source_records"));
          ("compact_evidence", VStr (u "exact_native_reducer_seal_and_authorization_manifest"));
          ("conformance_result", VStr (u "independently_replayed_frozen_fixture_and_source_commit"));
          ("governance_decision", VStr (u "exact_policy_binding_and_native_decision_lineage"));
          ("progress_evidence", VStr (u "policy_bound_progress_contract_and_native_lineage"));
          ("final_acceptance", VStr (u "existing_governance_receipt_chain_and_required_gates"))]%string)]%string.

Inductive ResearchClaimStatus := HYPOTHESIS | REPORTED | EXTERNALLY_ARCHIVED.

Definition claim_status_value (s : ResearchClaimStatus) : pystr :=
  match s with
  | HYPOTHESIS => u "hypothesis"
  | REPORTED => u "reported"
  | EXTERNALLY_ARCHIVED => u "externally_archived"
  end.

Record ResearchClaim := {
  rs_claim_key : pystr;
  rs_status : ResearchClaimStatus;
  rs_source_id : pystr;
  rs_text : pystr
}.

Module ResearchClaim.

Definition check (r : ResearchClaim) : res unit :=
  require_symbol (rs_claim_key r) ;;*
  require_fingerprint (rs_source_id r) ;;*
  require_text (rs_text r).

Definition canonical_record (r : ResearchClaim) : res pyval :=
  check r ;;*
  Ok (obj [("claim_key", VStr (rs_claim_key r));
           ("status", VStr (claim_status_value (rs_status r)));
           ("source_id", VStr (rs_source_id r));
           ("text", VStr (rs_text r));
           ("operational_authority", VBool false)]%string).

End ResearchClaim.

Record CalibrationBinding := {
  cb_governance_id : pystr;
  cb_continuation_policy_id : pystr;
  cb_progress_contract_id : pystr;
  cb_validation_method : pystr;
  cb_validation_corpus_id : pystr
}.

Module CalibrationBinding.

Definition check (c : CalibrationBinding) : res unit :=
  res_iter require_fingerprint
    [cb_governance_id c; cb_continuation_policy_id c; cb_progress_contract_id c; cb_validation_corpus_id c] ;;*
  require_symbol (cb_validation_method c).

Definition canonical_record (c : CalibrationBinding) : res pyval :=
  check c ;;*
  Ok (obj [("protocol_version", VStr CALIBRATION_PROFILE_VERSION);
           ("governance_id", VStr (cb_governance_id c));
           ("continuation_policy_id", VStr (cb_continuation_policy_id c));
           ("progress_contract_id", VStr (cb_progress_contract_id c));
           ("validation_method", VStr (cb_validation_method c));
           ("validation_corpus_id", VStr (cb_validation_corpus_id c));
           ("promotes_research_claims", VBool false)]%string).

Definition profile_id (c : CalibrationBinding) : res pystr :=
  let* r := canonical_record c in domain_fingerprint (u "ibae.calibration.binding.v1") r.

Definition require_policy_binding (c : CalibrationBinding)
    (governance_id continuation_policy_id progress_contract_id : pystr) : res unit :=
  check c ;;*
  res_iter (λ '(value, own),
      require_fingerprint value ;;*
      raise_if (negb (bool_decide (value = own))) ValueError)
    [(governance_id, cb_governance_id c);
     (continuation_policy_id, cb_continuation_policy_id c);
     (progress_contract_id, cb_progress_contract_id c)].

End CalibrationBinding.
