(* ===== verification/AssuranceFacts.v ===== *)
(** * Properties of assurance graphs *)

From Stdlib Require Import Ascii String.
From stdpp Require Import base list sets gmap relations.
From S2P Require Import Prelude PyStr PyNumber Sha256 Canonical CanonicalFacts Fingerprints Records RecordsFacts Kahn EpistemicFacts Assurance.

(** ** What a valid graph is *)

(** The node of a graph under a key. *)
Definition node_at (g : AssuranceGraph) (k : pystr) (n : AssuranceNode) : Prop :=
  n ∈ ag_nodes g ∧ an_key n = k.

(** [k] directly supports [k']. *)
Definition supports_key (g : AssuranceGraph) (k k' : pystr) : Prop :=
  ∃ e, e ∈ ag_edges g ∧ ae_source e = k ∧ ae_target e = k'.

Record graph_spec (g : AssuranceGraph) : Prop := {
  gs_nodes_bound : Z.of_nat (length (ag_nodes g)) <= MAX_ASSURANCE_NODES;
  gs_edges_bound : Z.of_nat (length (ag_edges g)) <= MAX_ASSURANCE_EDGES;
  gs_nodes : ∀ n, n ∈ ag_nodes g → symbol_pattern (an_key n) = true ∧ fingerprint_pattern (an_evidence_id n) = true;
  gs_keys : map an_key (ag_nodes g) = sorted_set (map an_key (ag_nodes g));
  gs_pairs : map (λ e, (ae_source e, ae_target e)) (ag_edges g) =
    sorted_pair_set (map (λ e, (ae_source e, ae_target e)) (ag_edges g));
  gs_support : ∀ k k', supports_key g k k' → ∃ n n', node_at g k n ∧ node_at g k' n' ∧
    (an_evidence_class n, an_evidence_class n') ∈ support
}.

Lemma sorted_set_fixed l : l = sorted_set l → NoDup l.
Proof. intros ->. apply sorted_set_NoDup. Qed.

Lemma by_key_node g k n :
  NoDup (map an_key (ag_nodes g)) →
  dict_of (map (λ n, (an_key n, n)) (ag_nodes g)) !! k = Some n ↔ node_at g k n.
Proof.
  intros Hnd. rewrite dict_of_lookup by (by rewrite map_map). unfold node_at.
  rewrite !list_elem_of_In, in_map_iff. split; [intros (m & [= <- <-] & Hm); done|].
  intros [Hn <-]. by exists n.
Qed.

Lemma node_unique g k n n' : NoDup (map an_key (ag_nodes g)) → node_at g k n → node_at g k n' → n = n'.
Proof. intros Hnd H H'. rewrite <- !(by_key_node g k) in * by done. congruence. Qed.

Lemma require_symbol_Ok s : require_symbol s = Ok tt ↔ symbol_pattern s = true.
Proof. unfold require_symbol. rewrite raise_if_Ok. apply negb_false_iff. Qed.

Lemma check_edge_Ok m e :
  AssuranceGraph.check_edge m e = Ok tt ↔ ∃ n n', m !! ae_source e = Some n ∧ m !! ae_target e = Some n' ∧
    (an_evidence_class n, an_evidence_class n') ∈ support.
Proof.
  unfold AssuranceGraph.check_edge, dict_get.
  destruct (m !! ae_source e) as [n|]; cbn [res_bind]; [|split; [by intros (? & H & _)%res_bind_Ok|naive_solver]].
  destruct (m !! ae_target e) as [n'|]; cbn [res_bind]; [|split; [by intros (? & H & _)%res_bind_Ok|naive_solver]].
  cbn. rewrite raise_if_Ok, negb_false_iff, bool_decide_eq_true. naive_solver.
Qed.

Lemma support_irrefl c : (c, c) ∉ support.
Proof. intros H. by repeat (apply elem_of_cons in H as [[= -> ?]|H]; [done|]); apply elem_of_nil in H. Qed.

Lemma graph_accepts g : AssuranceGraph.check g = Ok tt ↔ graph_spec g.
Proof.
  unfold AssuranceGraph.check. split.
  - intros ([] & Hlen%raise_if_Ok & ([] & Hn%res_iter_Ok & ([] & He%res_iter_Ok & H)%res_bind_Ok)%res_bind_Ok)%res_bind_Ok.
    apply res_bind_Ok in H as ([] & Hs%raise_if_Ok & Hd%res_iter_Ok).
    apply orb_false_iff in Hlen as [H1 H2]. apply orb_false_iff in Hs as [K1 K2].
    apply negb_false_iff, bool_decide_eq_true in K1, K2. rewrite !Forall_forall in *.
    pose proof (sorted_set_fixed _ K1) as Hnd. constructor; [lia|lia| |done|done|].
    + intros n Hin. specialize (Hn n Hin). unfold AssuranceNode.check in Hn.
      apply res_bind_Ok in Hn as ([] & Hk%require_symbol_Ok & Hf%require_fingerprint_Ok). done.
    + intros k k' (e & Hin & <- & <-). destruct (proj1 (check_edge_Ok _ _) (Hd e Hin)) as (n & n' & N1 & N2 & Hsup).
      rewrite by_key_node in N1, N2 by done. by exists n, n'.
  - intros [B1 B2 Hn K1 K2 Hs]. pose proof (sorted_set_fixed _ K1) as Hnd.
    assert (Hkey : ∀ k n, node_at g k n → symbol_pattern k = true) by (intros k n [Hin <-]; by apply Hn).
    replace (_ || _) with false by lia. cbn [raise_if res_bind].
    rewrite (proj2 (res_iter_Ok _ _ tt)).
    2:{ apply Forall_forall. intros n Hin. destruct (Hn n Hin) as [Hk Hf]. unfold AssuranceNode.check.
        rewrite (proj2 (require_symbol_Ok _) Hk). by apply require_fingerprint_Ok. }
    cbn [res_bind]. rewrite (proj2 (res_iter_Ok _ _ tt)).
    2:{ apply Forall_forall. intros e Hin. destruct (Hs (ae_source e) (ae_target e)) as (n & n' & N1 & N2 & Hsup); [by exists e|].
        unfold AssuranceEdge.check. rewrite (proj2 (require_symbol_Ok _) (Hkey _ _ N1)), (proj2 (require_symbol_Ok _) (Hkey _ _ N2)).
        cbn [res_bind]. rewrite bool_decide_false; [done|]. intros Heq. rewrite Heq in N1.
        rewrite (node_unique _ _ _ _ Hnd N1 N2) in Hsup. by apply support_irrefl in Hsup. }
    cbn [res_bind]. rewrite !bool_decide_true by done. cbn [negb orb raise_if res_bind].
    apply res_iter_Ok, Forall_forall. intros e Hin. apply check_edge_Ok.
    destruct (Hs (ae_source e) (ae_target e)) as (n & n' & N1 & N2 & Hsup); [by exists e|].
    exists n, n'. by rewrite !by_key_node.
Qed.

(** ** Chains of support *)

(** The classes that text without a source can have. *)
Definition unsourced (c : AssuranceClass) : bool :=
  match c with CLASS_MODEL_PROPOSAL | BENCHMARK_OBSERVATION | RESEARCH_CLAIM => true | _ => false end.

Definition class_rank (c : AssuranceClass) : nat :=
  match c with
  | OBSERVATION | COMPACT_EVIDENCE => 1
  | DERIVED_FACT => 2
  | PROGRESS_EVIDENCE => 3
  | GOVERNANCE_DECISION => 4
  | FINAL_ACCEPTANCE => 5
  | _ => 0
  end.

Lemma support_rank c c' :
  (c, c') ∈ support →
  (class_rank c < class_rank c')%nat ∧ unsourced c = false ∧ unsourced c' = false ∧ c ≠ FINAL_ACCEPTANCE.
Proof.
  intros H. unfold support in H.
  repeat (apply elem_of_cons in H as [[= -> ->]|H]; [simpl; repeat split; (lia || done)|]). by apply elem_of_nil in H.
Qed.

Lemma chain_rank g n k k' :
  graph_spec g → nsteps (supports_key g) (S n) k k' → ∃ a b, node_at g k a ∧ node_at g k' b ∧
    (class_rank (an_evidence_class a) + S n <= class_rank (an_evidence_class b))%nat ∧
    unsourced (an_evidence_class a) = false ∧ unsourced (an_evidence_class b) = false ∧
    an_evidence_class a ≠ FINAL_ACCEPTANCE.
Proof.
  intros Hg. revert k. induction n as [|n IH]; intros k H.
  - apply nsteps_once_inv in H. destruct (gs_support _ Hg _ _ H) as (a & b & Ha & Hb & Hs).
    apply support_rank in Hs as (? & ? & ? & ?). exists a, b. repeat (split; [done || lia|]). done.
  - inversion H as [|? ? m ? Hkm Hm]; subst. destruct (IH m Hm) as (c & b & Hc & Hb & Hr & _ & Ub & _).
    destruct (gs_support _ Hg _ _ Hkm) as (a & c' & Ha & Hc' & Hs). apply support_rank in Hs as (Hr' & Ua & _ & Fa).
    rewrite (node_unique g m c c' (sorted_set_fixed _ (gs_keys _ Hg)) Hc Hc') in Hr. exists a, b.
    repeat (split; [done || lia|]). done.
Qed.

Lemma rank_le c : (class_rank c <= 5)%nat.
Proof. destruct c; simpl; lia. Qed.

(** The graph constructor accepts exactly the bounded, canonically ordered graphs of valid
    nodes whose edges join existing nodes of classes in the closed support relation. *)
Theorem graph_accepts_exactly g : AssuranceGraph.check g = Ok tt ↔ graph_spec g.
Proof. apply graph_accepts. Qed.

(** Chains of support in a valid graph have at most five edges, so a graph has no cycle; no
    chain starts or ends at a model proposal, a benchmark observation or a research claim, and
    none starts at a final acceptance. *)
Theorem support_chains g n k k' :
  AssuranceGraph.check g = Ok tt → nsteps (supports_key g) (S n) k k' →
  (S n <= 5)%nat ∧ k ≠ k' ∧ ∃ a b, node_at g k a ∧ node_at g k' b ∧
    unsourced (an_evidence_class a) = false ∧ unsourced (an_evidence_class b) = false ∧
    an_evidence_class a ≠ FINAL_ACCEPTANCE ∧
    (class_rank (an_evidence_class a) < class_rank (an_evidence_class b))%nat.
Proof.
  intros Hg Hn.
  assert (Hs : graph_spec g) by (by apply graph_accepts).
  destruct (chain_rank g n k k' Hs Hn) as (a & b & Ha & Hb & Hr & Ua & Ub & Fa).
  pose proof (rank_le (an_evidence_class b)). split; [lia|]. split.
  - intros <-. rewrite (node_unique g k a b (sorted_set_fixed _ (gs_keys _ Hs)) Ha Hb) in Hr. lia.
  - exists a, b. repeat (split; [done|]). lia.
Qed.

(** ** Identities *)

Lemma canon_nodes l1 l2 vs1 vs2 :
  res_map AssuranceNode.canonical_record l1 = Ok vs1 → res_map AssuranceNode.canonical_record l2 = Ok vs2 →
  map canon vs1 = map canon vs2 → l1 = l2.
Proof.
  rewrite !res_map_Ok. intros H1. revert l2 vs2. induction H1 as [|n v l1 vs1 Hn H1 IH]; intros l2 vs2 H2 Hc.
  - by inversion H2; subst.
  - inversion H2 as [|n' v' l2' vs2' Hn' H2']; subst; [done|]. cbn [map] in Hc.
    pose proof (f_equal (hd VNone) Hc) as Hv. pose proof (f_equal (@tl _) Hc) as Hr. cbn [hd tl] in Hv, Hr.
    unfold AssuranceNode.canonical_record in Hn, Hn'.
    apply res_bind_Ok in Hn as ([] & _ & [= <-]). apply res_bind_Ok in Hn' as ([] & _ & [= <-]).
    obj_field_eq Hv "key"%string. obj_field_eq Hv "evidence_class"%string. obj_field_eq Hv "evidence_id"%string.
    cbn [canon] in F, F0, F1. f_equal; [|by eapply IH].
    destruct n as [k c i], n' as [k' c' i']; simpl in *. f_equal; [congruence| |congruence].
    injection F0 as F0. by destruct c, c'.
Qed.

Lemma canon_edges l1 l2 : map canon (map AssuranceEdge.record l1) = map canon (map AssuranceEdge.record l2) → l1 = l2.
Proof.
  revert l2. induction l1 as [|e l1 IH]; intros [|e' l2] Hc; [done..|]. cbn [map] in Hc.
  pose proof (f_equal (hd VNone) Hc) as Hv. pose proof (f_equal (@tl _) Hc) as Hr. cbn [hd tl] in Hv, Hr.
  unfold AssuranceEdge.record in Hv. obj_field_eq Hv "source"%string. obj_field_eq Hv "target"%string.
  cbn [canon] in F, F0. f_equal; [|auto]. destruct e, e'; simpl in *. congruence.
Qed.

Lemma nodes_wf l vs : res_map AssuranceNode.canonical_record l = Ok vs → dict_wf (VList vs) = true.
Proof.
  rewrite res_map_Ok. intros H. cbn [dict_wf]. induction H as [|n v l vs Hn H IH]; [done|]. cbn [forallb].
  rewrite IH, andb_true_r. unfold AssuranceNode.canonical_record in Hn.
  apply res_bind_Ok in Hn as ([] & _ & [= <-]). by wf_obj.
Qed.

Lemma edges_wf l : dict_wf (VList (map AssuranceEdge.record l)) = true.
Proof.
  cbn [dict_wf]. induction l as [|e l IH]; [done|]. cbn [map forallb]. rewrite IH, andb_true_r.
  unfold AssuranceEdge.record. by wf_obj.
Qed.

(** What the identities of a graph and of a binding hash. *)
Definition graph_message (g : AssuranceGraph) : res (list Z) :=
  record_message (u "ibae.assurance.graph.v1") (AssuranceGraph.canonical_record g).
Definition binding_message (c : CalibrationBinding) : res (list Z) :=
  record_message (u "ibae.calibration.binding.v1") (CalibrationBinding.canonical_record c).

(** An assurance graph's identity determines its nodes and edges, unless the two graphs collide. *)
Theorem graph_id_binds g1 g2 i :
  AssuranceGraph.graph_id g1 = Ok i → AssuranceGraph.graph_id g2 = Ok i →
  g1 = g2 ∨ collide (graph_message g1) (graph_message g2).
Proof.
  unfold AssuranceGraph.graph_id, graph_message, record_message.
  intros (v1 & R1 & H1)%res_bind_Ok (v2 & R2 & H2)%res_bind_Ok. rewrite R1, R2. cbn [res_bind].
  unfold AssuranceGraph.canonical_record in R1, R2.
  apply res_bind_Ok in R1 as ([] & _ & (vs1 & N1 & [= <-])%res_bind_Ok).
  apply res_bind_Ok in R2 as ([] & _ & (vs2 & N2 & [= <-])%res_bind_Ok).
  destruct (domain_fingerprint_inj _ _ _ _ _ H1 H2) as [[_ Hc]|]; [..|left|by right].
  1,2: wf_obj; cbn [dict_wf] in *; pose proof (edges_wf (ag_edges g1)); pose proof (edges_wf (ag_edges g2));
    pose proof (nodes_wf _ _ N1); pose proof (nodes_wf _ _ N2); cbn [dict_wf] in *; by rewrite ?H, ?H0, ?H3, ?H4.
  obj_field_eq Hc "nodes"%string. obj_field_eq Hc "edges"%string. cbn [canon] in F, F0.
  injection F as F. injection F0 as F0. destruct g1, g2; simpl in *. f_equal; [by eapply canon_nodes|by apply canon_edges].
Qed.

(** A calibration binding admits exactly the three policy identities it was made with, and
    its own identity determines all of its fields, unless the two bindings collide. *)
Theorem calibration_binding_exact c g p q :
  CalibrationBinding.check c = Ok tt →
  (CalibrationBinding.require_policy_binding c g p q = Ok tt ↔
   g = cb_governance_id c ∧ p = cb_continuation_policy_id c ∧ q = cb_progress_contract_id c) ∧
  (∀ c' i, CalibrationBinding.profile_id c = Ok i → CalibrationBinding.profile_id c' = Ok i →
   c = c' ∨ collide (binding_message c) (binding_message c')).
Proof.
  intros Hc. split.
  - unfold CalibrationBinding.require_policy_binding. rewrite Hc. cbn [res_bind]. rewrite res_iter_Ok.
    assert (Hown : ∀ v own, (require_fingerprint v ;;* raise_if (negb (bool_decide (v = own))) ValueError) = Ok tt →
      v = own).
    { intros v own ([] & _ & H%raise_if_Ok)%res_bind_Ok. by apply negb_false_iff, bool_decide_eq_true in H. }
    unfold CalibrationBinding.check in Hc. apply res_bind_Ok in Hc as ([] & Hf%res_iter_Ok & _).
    rewrite Forall_forall in Hf. split.
    + intros H. inversion_clear H as [|? ? H1 H']. inversion_clear H' as [|? ? H2 H'']. inversion_clear H'' as [|? ? H3 _].
      auto.
    + intros (-> & -> & ->). repeat constructor; rewrite Hf by set_solver; cbn [res_bind]; by rewrite bool_decide_true.
  - intros c' i. unfold CalibrationBinding.profile_id, binding_message, record_message.
    intros (v1 & R1 & H1)%res_bind_Ok (v2 & R2 & H2)%res_bind_Ok. rewrite R1, R2. cbn [res_bind].
    unfold CalibrationBinding.canonical_record in R1, R2.
    apply res_bind_Ok in R1 as ([] & _ & [= <-]). apply res_bind_Ok in R2 as ([] & _ & [= <-]).
    destruct (domain_fingerprint_inj _ _ _ _ _ H1 H2) as [[_ Hv]|]; [by wf_obj|by wf_obj|left|by right].
    obj_field_eq Hv "governance_id"%string. obj_field_eq Hv "continuation_policy_id"%string.
    obj_field_eq Hv "progress_contract_id"%string. obj_field_eq Hv "validation_method"%string.
    obj_field_eq Hv "validation_corpus_id"%string. cbn [canon] in *. destruct c, c'; simpl in *. congruence.
Qed.

(** *** Witnesses *)

Definition ex_evidence : pystr := Eval vm_compute in sha256_hexdigest [].

Definition ex_graph : AssuranceGraph :=
  {| ag_nodes := [{| an_key := u "obs"; an_evidence_class := OBSERVATION; an_evidence_id := ex_evidence |};
                  {| an_key := u "run"; an_evidence_class := RUNTIME_RECEIPT; an_evidence_id := ex_evidence |}];
     ag_edges := [{| ae_source := u "run"; ae_target := u "obs" |}] |}.

Lemma support_chains_witness : u "run" ≠ u "obs".
Proof.
  apply (support_chains ex_graph 0 (u "run") (u "obs")); [vm_compute; reflexivity|].
  apply nsteps_once. exists {| ae_source := u "run"; ae_target := u "obs" |}. repeat split. set_solver.
Defined.

Lemma graph_id_binds_witness : ex_graph = ex_graph ∨ collide (graph_message ex_graph) (graph_message ex_graph).
Proof.
  apply (graph_id_binds ex_graph ex_graph
    (match AssuranceGraph.graph_id ex_graph with Ok i => i | Raise _ => [] end)); vm_compute; reflexivity.
Defined.

Definition ex_binding : CalibrationBinding :=
  {| cb_governance_id := ex_evidence; cb_continuation_policy_id := ex_evidence;
     cb_progress_contract_id := ex_evidence; cb_validation_method := u "replay";
     cb_validation_corpus_id := ex_evidence |}.

Lemma calibration_binding_exact_witness :
  CalibrationBinding.require_policy_binding ex_binding ex_evidence ex_evidence ex_evidence = Ok tt.
Proof.
  assert (H : CalibrationBinding.check ex_binding = Ok tt) by (vm_compute; reflexivity).
  by apply (proj1 (calibration_binding_exact ex_binding ex_evidence ex_evidence ex_evidence H)).
Defined.
