(* ===== verification/Budget.v ===== *)
(** * Budget vectors and continuation policies ([src/ibae/continuation.py], first part)

    The resources a continuation lease can grant, with checked 64-bit arithmetic, and the policy
    that commits a base budget, a schedule of leases and their exact total in advance.  An enum
    member is a constructor, its wire value the matching [_value] function. *)

From Stdlib Require Import Ascii String.
From stdpp Require Import base list gmap.
From S2P Require Import Prelude PyStr PyNumber Sha256 Canonical Records.

Definition CONTINUATION_PROTOCOL_VERSION : pystr := u "IBAE-CONTINUATION-LEASE-V1".
Definition CONTINUATION_POLICY_RECEIPT_VERSION : pystr := u "IBAE-CONTINUATION-POLICY-RECEIPT-V1".
Definition CONTINUATION_POLICY_ID_DOMAIN : pystr := u "ibae.continuation-policy-id.v1".
Definition CONTINUATION_POLICY_RECEIPT_ID_DOMAIN : pystr := u "ibae.continuation-policy-receipt-id.v1".

Definition MAX_U64 : Z := Z.shiftl 1 64 - 1.
Definition MAX_LEASES : Z := 64.
Definition MAX_LEASE_REQUESTS : Z := 128.
Definition MIN_CYCLE_HISTORY : Z := 6.

(** The hard limits of [src/ibae/runtime.py]. *)
Definition MAX_RUNTIME_REQUESTS : Z := 1000000.
Definition MAX_RUNTIME_EXECUTIONS : Z := 4096.
Definition MAX_RUNTIME_RETRIES : Z := 1000000.
Definition MAX_RUNTIME_HISTORY : Z := 4096.

(** [_u64] *)
Definition require_u64 (value : Z) : res unit := raise_if ((value <? 0) || (MAX_U64 <? value)) ValueError.

(** [_fingerprints] and [_symbols]: [check] is the element validator. *)
Definition checked_strings (check : pystr → res unit) (values : list pystr) (limit : Z) (sort unique : bool)
    : res (list pystr) :=
  let* active := materialize values limit in
  res_iter check active ;;*
  raise_if (unique && has_duplicates active) ValueError ;;*
  Ok (if sort then sorted active else active).

(** [_with_receipt_id] *)
Definition with_receipt_id (domain : pystr) (body : list (string * pyval)) : res pyval :=
  let* i := domain_fingerprint domain (obj body) in
  Ok (obj (body ++ [("receipt_id", VStr i)]%string)).

(** [value[name]] of a dictionary. *)
Definition dict_item (l : list (pyval * pyval)) (name : pystr) : res pyval :=
  match find (λ kv, match kv.1 with VStr k => bool_decide (k = name) | _ => false end) l with
  | Some kv => Ok kv.2
  | None => Raise KeyError
  end.

(** [set(value) == names] *)
Definition has_keys (l : list (pyval * pyval)) (names : list pystr) : bool :=
  forallb (λ kv, match kv.1 with VStr k => str_in k names | _ => false end) l &&
  forallb (λ name, is_ok (dict_item l name)) names.

Inductive ProgressClassification :=
  | MEASURABLE_PROGRESS | NO_PROGRESS | REGRESSION | NEW_INFORMATION | INCOMPARABLE.

#[export] Instance ProgressClassification_eq_dec : EqDecision ProgressClassification.
Proof. solve_decision. Defined.

Definition classification_value (c : ProgressClassification) : pystr :=
  match c with
  | MEASURABLE_PROGRESS => u "measurable_progress"
  | NO_PROGRESS => u "no_progress"
  | REGRESSION => u "regression"
  | NEW_INFORMATION => u "new_information"
  | INCOMPARABLE => u "incomparable"
  end.

(** [len(ProgressClassification)] *)
Definition PROGRESS_CLASSIFICATIONS : Z := 5.

(** ** Budget vectors *)

Record BudgetVector := {
  bv_request_delta : Z;
  bv_execution_delta : Z;
  bv_retry_delta : Z;
  bv_mutation_delta : Z;
  bv_history_delta : Z
}.

#[export] Instance BudgetVector_eq_dec : EqDecision BudgetVector.
Proof. solve_decision. Defined.

Module BudgetVector.

(** The items of [canonical_record()], in order. *)
Definition items (b : BudgetVector) : list (string * Z) :=
  [("execution_delta", bv_execution_delta b);
   ("history_delta", bv_history_delta b);
   ("mutation_delta", bv_mutation_delta b);
   ("request_delta", bv_request_delta b);
   ("retry_delta", bv_retry_delta b)]%string.

Definition values (b : BudgetVector) : list Z := map snd (items b).

Definition canonical_record (b : BudgetVector) : pyval := obj (map (λ kv, (kv.1, VInt kv.2)) (items b)).

(** [_validate_authority_fields] *)
Definition check (b : BudgetVector) : res unit := res_iter require_u64 (values b).

Definition make (request execution retry mutation history : Z) : res BudgetVector :=
  let b := {| bv_request_delta := request; bv_execution_delta := execution; bv_retry_delta := retry;
              bv_mutation_delta := mutation; bv_history_delta := history |} in
  check b ;;* Ok b.

(** [BudgetVector( ** values)] for the values in the order of [items]. *)
Definition of_values (l : list Z) : res BudgetVector :=
  match l with
  | [execution; history; mutation; request; retry] => make request execution retry mutation history
  | _ => Raise TypeError
  end.

Definition zero : BudgetVector :=
  {| bv_request_delta := 0; bv_execution_delta := 0; bv_retry_delta := 0; bv_mutation_delta := 0;
     bv_history_delta := 0 |}.

(** A value that must be an exact integer. *)
Definition exact_int (v : pyval) : res Z := match v with VInt z => Ok z | _ => Raise ValueError end.

Definition field_names : list pystr := map (λ kv, u kv.1) (items zero).

Definition from_record (value : pyval) : res BudgetVector :=
  match value with
  | VDict l =>
      raise_if (negb (has_keys l field_names)) ValueError ;;*
      let* fields := res_map (λ name, let* v := dict_item l name in exact_int v) field_names in
      of_values fields
  | _ => Raise ValueError
  end.

Definition is_zero (b : BudgetVector) : bool := forallb (λ v, v =? 0) (values b).

Definition add_checked (a b : BudgetVector) : res BudgetVector :=
  let* l := res_map (λ lr,
      let total := lr.1 + lr.2 in
      raise_if (MAX_U64 <? total) OverflowError ;;* Ok total) (zip (values a) (values b)) in
  of_values l.

Definition subtract_checked (a b : BudgetVector) : res BudgetVector :=
  let* l := res_map (λ lr,
      raise_if (lr.1 <? lr.2) OverflowError ;;* Ok (lr.1 - lr.2)) (zip (values a) (values b)) in
  of_values l.

Definition is_within (b ceiling : BudgetVector) : bool :=
  forallb (λ vc, vc.1 <=? vc.2) (zip (values b) (values ceiling)).

End BudgetVector.

(** ** Policies *)

Record ContinuationPolicy := {
  cp_policy_key : pystr;
  cp_policy_version : Z;
  cp_task_profile : pystr;
  cp_task_profile_version : Z;
  cp_initial_budget : BudgetVector;
  cp_lease_schedule : list BudgetVector;
  cp_total_ceiling : BudgetVector;
  cp_max_lease_requests : Z;
  cp_progress_contract_id : pystr;
  cp_admitted_progress : list ProgressClassification;
  cp_max_strategy_recoveries : Z
}.

Module ContinuationPolicy.

(** [_validate_authority_fields] *)
Definition check_authority (p : ContinuationPolicy) : res unit :=
  raise_if (negb (bool_decide (cp_admitted_progress p = [MEASURABLE_PROGRESS]))) ValueError.

(** [_validate_runtime_hard_limits] *)
Definition check_hard_limits (p : ContinuationPolicy) : res unit :=
  let ceiling := cp_total_ceiling p in
  let initial := cp_initial_budget p in
  res_iter (λ vm, raise_if (vm.2 <? vm.1) ValueError)
    [(bv_execution_delta ceiling, MAX_RUNTIME_EXECUTIONS);
     (bv_history_delta ceiling, MAX_RUNTIME_HISTORY);
     (bv_mutation_delta ceiling, 0);
     (bv_request_delta ceiling, MAX_RUNTIME_REQUESTS);
     (bv_retry_delta ceiling, MAX_RUNTIME_RETRIES)] ;;*
  res_iter (λ v, raise_if (v =? 0) ValueError)
    [bv_request_delta initial; bv_execution_delta initial; bv_retry_delta initial; bv_history_delta initial] ;;*
  raise_if (bv_history_delta initial <? MIN_CYCLE_HISTORY) ValueError.

(** The base budget plus a schedule without mutations, in order. *)
Definition cumulate (base : BudgetVector) (schedule : list BudgetVector) : res BudgetVector :=
  res_fold (λ cumulative item,
      raise_if (negb (bv_mutation_delta item =? 0)) ValueError ;;*
      BudgetVector.add_checked cumulative item) base schedule.

(** [__post_init__] on the supplied fields. *)
Definition make (p : ContinuationPolicy) : res ContinuationPolicy :=
  require_symbol (cp_policy_key p) ;;*
  require_positive_int (cp_policy_version p) ;;*
  require_symbol (cp_task_profile p) ;;*
  require_positive_int (cp_task_profile_version p) ;;*
  let* schedule := materialize (cp_lease_schedule p) MAX_LEASES in
  raise_if (existsb BudgetVector.is_zero schedule) ValueError ;;*
  require_u64 (cp_max_lease_requests p) ;;*
  raise_if ((cp_max_lease_requests p =? 0) || (MAX_LEASE_REQUESTS <? cp_max_lease_requests p)) ValueError ;;*
  raise_if (cp_max_lease_requests p <=? Z.of_nat (length schedule)) ValueError ;;*
  require_fingerprint (cp_progress_contract_id p) ;;*
  require_u64 (cp_max_strategy_recoveries p) ;;*
  raise_if (Z.of_nat (length schedule) <? cp_max_strategy_recoveries p) ValueError ;;*
  let* supplied := materialize (cp_admitted_progress p) PROGRESS_CLASSIFICATIONS in
  raise_if (bool_decide (supplied = [])) ValueError ;;*
  let admitted := sorted_by classification_value (remove_dups supplied) in
  raise_if (negb (bool_decide (admitted = [MEASURABLE_PROGRESS]))) ValueError ;;*
  let p := {|
    cp_policy_key := cp_policy_key p; cp_policy_version := cp_policy_version p;
    cp_task_profile := cp_task_profile p; cp_task_profile_version := cp_task_profile_version p;
    cp_initial_budget := cp_initial_budget p; cp_lease_schedule := schedule;
    cp_total_ceiling := cp_total_ceiling p; cp_max_lease_requests := cp_max_lease_requests p;
    cp_progress_contract_id := cp_progress_contract_id p; cp_admitted_progress := admitted;
    cp_max_strategy_recoveries := cp_max_strategy_recoveries p |} in
  check_authority p ;;*
  raise_if (negb (bv_mutation_delta (cp_initial_budget p) =? 0)) ValueError ;;*
  let* cumulative := cumulate (cp_initial_budget p) schedule in
  raise_if (negb (bool_decide (cumulative = cp_total_ceiling p))) ValueError ;;*
  check_hard_limits p ;;*
  Ok p.

Definition max_leases (p : ContinuationPolicy) : Z := Z.of_nat (length (cp_lease_schedule p)).

Definition continuation_capacity (p : ContinuationPolicy) : res BudgetVector :=
  BudgetVector.subtract_checked (cp_total_ceiling p) (cp_initial_budget p).

Definition canonical_record (p : ContinuationPolicy) : res pyval :=
  check_authority p ;;*
  Ok (obj [("admitted_progress", strs_val (map classification_value (cp_admitted_progress p)));
           ("authority_layer", VStr (u "governance"));
           ("initial_budget", BudgetVector.canonical_record (cp_initial_budget p));
           ("lease_schedule", VList (map BudgetVector.canonical_record (cp_lease_schedule p)));
           ("max_lease_requests", VInt (cp_max_lease_requests p));
           ("max_leases", VInt (max_leases p));
           ("max_strategy_recoveries", VInt (cp_max_strategy_recoveries p));
           ("policy_key", VStr (cp_policy_key p));
           ("policy_version", VInt (cp_policy_version p));
           ("progress_contract_id", VStr (cp_progress_contract_id p));
           ("protocol_version", VStr CONTINUATION_PROTOCOL_VERSION);
           ("task_profile", VStr (cp_task_profile p));
           ("task_profile_version", VInt (cp_task_profile_version p));
           ("total_ceiling", BudgetVector.canonical_record (cp_total_ceiling p))]%string).

Definition continuation_policy_id (p : ContinuationPolicy) : res pystr :=
  let* r := canonical_record p in domain_fingerprint CONTINUATION_POLICY_ID_DOMAIN r.

End ContinuationPolicy.

(** ** Policy receipts

    The constructor reads six fields of the governance policy and its receipt; they are its
    arguments here. *)

Record GovernanceBinding := {
  gb_policy_governance_id : pystr;
  gb_task_profile : pystr;
  gb_task_profile_version : Z;
  gb_receipt_governance_id : pystr;
  gb_receipt_task_id : pystr;
  gb_receipt_id : pystr
}.

Record ContinuationPolicyReceipt := {
  cr_task_id : pystr;
  cr_governance_id : pystr;
  cr_governance_receipt_id : pystr;
  cr_continuation_policy_id : pystr;
  cr_progress_contract_id : pystr;
  cr_task_profile : pystr;
  cr_task_profile_version : Z
}.

Module ContinuationPolicyReceipt.

(** [_validate_authority_fields] *)
Definition check_authority (r : ContinuationPolicyReceipt) : res unit :=
  res_iter require_fingerprint
    [cr_task_id r; cr_governance_id r; cr_governance_receipt_id r; cr_continuation_policy_id r;
     cr_progress_contract_id r] ;;*
  require_symbol (cr_task_profile r) ;;*
  require_positive_int (cr_task_profile_version r).

Definition make (policy : ContinuationPolicy) (g : GovernanceBinding) : res ContinuationPolicyReceipt :=
  raise_if (negb (bool_decide (gb_receipt_governance_id g = gb_policy_governance_id g))) ValueError ;;*
  raise_if (negb (bool_decide (cp_task_profile policy = gb_task_profile g)) ||
            negb (cp_task_profile_version policy =? gb_task_profile_version g)) ValueError ;;*
  let* i := ContinuationPolicy.continuation_policy_id policy in
  let r := {|
    cr_task_id := gb_receipt_task_id g; cr_governance_id := gb_policy_governance_id g;
    cr_governance_receipt_id := gb_receipt_id g; cr_continuation_policy_id := i;
    cr_progress_contract_id := cp_progress_contract_id policy;
    cr_task_profile := cp_task_profile policy;
    cr_task_profile_version := cp_task_profile_version policy |} in
  check_authority r ;;*
  Ok r.

Definition canonical_record (r : ContinuationPolicyReceipt) : res pyval :=
  check_authority r ;;*
  with_receipt_id CONTINUATION_POLICY_RECEIPT_ID_DOMAIN
    [("authority_layer", VStr (u "governance"));
     ("continuation_policy_id", VStr (cr_continuation_policy_id r));
     ("governance_id", VStr (cr_governance_id r));
     ("governance_receipt_id", VStr (cr_governance_receipt_id r));
     ("progress_contract_id", VStr (cr_progress_contract_id r));
     ("protocol_version", VStr CONTINUATION_POLICY_RECEIPT_VERSION);
     ("status", VStr (u "admitted"));
     ("task_id", VStr (cr_task_id r));
     ("task_profile", VStr (cr_task_profile r));
     ("task_profile_version", VInt (cr_task_profile_version r))]%string.

End ContinuationPolicyReceipt.
