(* ===== verification/BudgetFacts.v ===== *)
(** * Properties of budget vectors and continuation policies *)

From Stdlib Require Import Ascii String.
From stdpp Require Import base list sets gmap.
From S2P Require Import Prelude PyStr PyNumber Sha256 Canonical CanonicalFacts Fingerprints Records RecordsFacts EpistemicFacts Budget.

(** ** Vectors of natural resources *)

Definition plus (a b : BudgetVector) : BudgetVector :=
  {| bv_request_delta := bv_request_delta a + bv_request_delta b;
     bv_execution_delta := bv_execution_delta a + bv_execution_delta b;
     bv_retry_delta := bv_retry_delta a + bv_retry_delta b;
     bv_mutation_delta := bv_mutation_delta a + bv_mutation_delta b;
     bv_history_delta := bv_history_delta a + bv_history_delta b |}.

Definition minus (a b : BudgetVector) : BudgetVector :=
  {| bv_request_delta := bv_request_delta a - bv_request_delta b;
     bv_execution_delta := bv_execution_delta a - bv_execution_delta b;
     bv_retry_delta := bv_retry_delta a - bv_retry_delta b;
     bv_mutation_delta := bv_mutation_delta a - bv_mutation_delta b;
     bv_history_delta := bv_history_delta a - bv_history_delta b |}.

Record bv_le (a b : BudgetVector) : Prop := {
  le_request : bv_request_delta a <= bv_request_delta b;
  le_execution : bv_execution_delta a <= bv_execution_delta b;
  le_retry : bv_retry_delta a <= bv_retry_delta b;
  le_mutation : bv_mutation_delta a <= bv_mutation_delta b;
  le_history : bv_history_delta a <= bv_history_delta b
}.

Definition top : BudgetVector :=
  {| bv_request_delta := MAX_U64; bv_execution_delta := MAX_U64; bv_retry_delta := MAX_U64;
     bv_mutation_delta := MAX_U64; bv_history_delta := MAX_U64 |}.

(** What the constructor of a vector guarantees. *)
Definition bv_valid (a : BudgetVector) : Prop := bv_le BudgetVector.zero a ∧ bv_le a top.

#[export] Instance bv_le_dec a b : Decision (bv_le a b).
Proof.
  refine (cast_if (decide ((bv_request_delta a <= bv_request_delta b ∧ bv_execution_delta a <= bv_execution_delta b) ∧
    (bv_retry_delta a <= bv_retry_delta b ∧ bv_mutation_delta a <= bv_mutation_delta b) ∧
    bv_history_delta a <= bv_history_delta b))).
  - destruct_and!. by constructor.
  - intros []. tauto.
Defined.

#[export] Instance bv_valid_dec a : Decision (bv_valid a).
Proof. unfold bv_valid. apply _. Defined.

(** [bv_lia]: vectors are compared and added field by field. *)
Ltac bv_lia :=
  unfold bv_valid in *;
  repeat match goal with
         | H : _ ∧ _ |- _ => destruct H
         | H : bv_le _ _ |- _ => destruct H
         end;
  simpl in *; repeat split; simpl; lia.

Lemma bv_le_refl a : bv_le a a.
Proof. bv_lia. Qed.

Lemma bv_le_trans a b c : bv_le a b → bv_le b c → bv_le a c.
Proof. intros. bv_lia. Qed.

Lemma plus_le_mono a b c : bv_le b c → bv_le (plus a b) (plus a c).
Proof. intros. bv_lia. Qed.

Lemma bv_ext a b :
  bv_request_delta a = bv_request_delta b → bv_execution_delta a = bv_execution_delta b →
  bv_retry_delta a = bv_retry_delta b → bv_mutation_delta a = bv_mutation_delta b →
  bv_history_delta a = bv_history_delta b → a = b.
Proof. destruct a, b; simpl; congruence. Qed.

Lemma plus_assoc a b c : plus (plus a b) c = plus a (plus b c).
Proof. apply bv_ext; simpl; lia. Qed.

Lemma plus_zero_r a : plus a BudgetVector.zero = a.
Proof. apply bv_ext; simpl; lia. Qed.

Lemma minus_plus a b : minus (plus a b) a = b.
Proof. apply bv_ext; simpl; lia. Qed.

Lemma is_within_true a b : BudgetVector.is_within a b = true ↔ bv_le a b.
Proof.
  unfold BudgetVector.is_within. cbn. rewrite !andb_true_iff, !Z.leb_le. split.
  - intros (? & ? & ? & ? & ? & _). by constructor.
  - intros []. tauto.
Qed.

Lemma is_zero_true a : BudgetVector.is_zero a = true ↔ a = BudgetVector.zero.
Proof.
  unfold BudgetVector.is_zero. cbn. rewrite !andb_true_iff, !Z.eqb_eq. split.
  - intros (? & ? & ? & ? & ? & _). by apply bv_ext.
  - intros ->. done.
Qed.

Lemma require_u64_Ok v : require_u64 v = Ok tt ↔ 0 <= v <= MAX_U64.
Proof. unfold require_u64. rewrite raise_if_Ok, orb_false_iff, !Z.ltb_ge. done. Qed.

Lemma check_valid a : BudgetVector.check a = Ok tt ↔ bv_valid a.
Proof.
  unfold BudgetVector.check, BudgetVector.values, BudgetVector.items. cbn [map snd].
  rewrite res_iter_Ok, !Forall_cons, !require_u64_Ok. split.
  - intros (? & ? & ? & ? & ? & _). bv_lia.
  - intros [[] []]. simpl in *. repeat split; try done.
Qed.

Lemma of_values_spec a : BudgetVector.of_values (BudgetVector.values a) = (BudgetVector.check a ;;* Ok a).
Proof. by destruct a. Qed.

Lemma add_checked_spec a b :
  bv_valid a → bv_valid b →
  BudgetVector.add_checked a b = if BudgetVector.is_within (plus a b) top then Ok (plus a b) else Raise OverflowError.
Proof.
  intros Ha Hb. unfold BudgetVector.add_checked.
  destruct (BudgetVector.is_within (plus a b) top) eqn:E.
  - assert (Hv : BudgetVector.check (plus a b) = Ok tt) by (apply check_valid; apply is_within_true in E; bv_lia).
    pose proof (of_values_spec (plus a b)) as Hof. rewrite Hv in Hof. cbn [res_bind] in Hof. rewrite <- Hof.
    apply is_within_true in E as []. cbn in *. by repeat (rewrite (proj2 (Z.ltb_ge _ _)) by done; cbn [raise_if res_bind]).
  - unfold BudgetVector.is_within in E. cbn in E |- *.
    repeat match goal with |- context [raise_if (?x <? ?y)] =>
      destruct (Z.ltb_spec x y); cbn [raise_if res_bind]; [done|] end. exfalso.
    repeat (rewrite (proj2 (Z.leb_le _ _)) in E by lia). done.
Qed.

Lemma subtract_checked_spec a b :
  bv_valid a → bv_valid b →
  BudgetVector.subtract_checked a b = if BudgetVector.is_within b a then Ok (minus a b) else Raise OverflowError.
Proof.
  intros Ha Hb. unfold BudgetVector.subtract_checked.
  destruct (BudgetVector.is_within b a) eqn:E.
  - assert (Hv : BudgetVector.check (minus a b) = Ok tt) by (apply check_valid; apply is_within_true in E; bv_lia).
    pose proof (of_values_spec (minus a b)) as Hof. rewrite Hv in Hof. cbn [res_bind] in Hof. rewrite <- Hof.
    apply is_within_true in E as []. cbn in *. by repeat (rewrite (proj2 (Z.ltb_ge _ _)) by done; cbn [raise_if res_bind]).
  - unfold BudgetVector.is_within in E. cbn in E |- *.
    repeat match goal with |- context [raise_if (?x <? ?y)] =>
      destruct (Z.ltb_spec x y); cbn [raise_if res_bind]; [done|] end. exfalso.
    repeat (rewrite (proj2 (Z.leb_le _ _)) in E by lia). done.
Qed.

Lemma add_checked_Ok a b c :
  bv_valid a → bv_valid b → BudgetVector.add_checked a b = Ok c → c = plus a b ∧ bv_valid c.
Proof.
  intros Ha Hb. rewrite add_checked_spec by done. destruct (BudgetVector.is_within _ _) eqn:E; [|done].
  intros [= <-]. apply is_within_true in E. split; [done|]. bv_lia.
Qed.

(** ** Policies *)

Definition total (l : list BudgetVector) : BudgetVector := foldr plus BudgetVector.zero l.

Lemma total_app l1 l2 : total (l1 ++ l2) = plus (total l1) (total l2).
Proof.
  induction l1 as [|b l1 IH]; simpl; [by apply bv_ext; simpl; lia|]. by rewrite IH, plus_assoc.
Qed.

Lemma total_valid l : Forall bv_valid l → bv_le BudgetVector.zero (total l).
Proof. induction 1 as [|b l Hb _ IH]; simpl; bv_lia. Qed.

Lemma total_take_le n l : Forall bv_valid l → bv_le (total (take n l)) (total l).
Proof.
  intros Hl. rewrite <- (take_drop n l) at 2. rewrite total_app.
  assert (bv_le BudgetVector.zero (total (drop n l))) by (by apply total_valid, Forall_drop). bv_lia.
Qed.

Lemma cumulate_Ok base l c :
  bv_valid base → Forall bv_valid l → ContinuationPolicy.cumulate base l = Ok c →
  c = plus base (total l) ∧ bv_valid c ∧ Forall (λ b, bv_mutation_delta b = 0) l.
Proof.
  intros Hb Hl. revert base c Hb. induction Hl as [|b l Hv Hl IH]; intros base c Hb H.
  - injection H as <-. split; [|by split]. apply bv_ext; simpl; lia.
  - unfold ContinuationPolicy.cumulate in H. cbn [res_fold] in H.
    apply res_bind_Ok in H as (c1 & ([] & Hm%raise_if_Ok & H1)%res_bind_Ok & H).
    apply add_checked_Ok in H1 as [-> Hv1]; [|done|done].
    destruct (IH _ _ Hv1 H) as (-> & Hv2 & Hm2). simpl. rewrite <- plus_assoc. split; [done|]. split; [done|].
    constructor; [|done]. apply negb_false_iff, Z.eqb_eq in Hm. done.
Qed.

(** What a policy commits to. *)
Record policy_ok (p : ContinuationPolicy) : Prop := {
  po_initial : bv_valid (cp_initial_budget p);
  po_schedule : Forall bv_valid (cp_lease_schedule p);
  po_leases : Forall (λ b, b ≠ BudgetVector.zero ∧ bv_mutation_delta b = 0) (cp_lease_schedule p);
  po_ceiling : cp_total_ceiling p = plus (cp_initial_budget p) (total (cp_lease_schedule p));
  po_ceiling_valid : bv_valid (cp_total_ceiling p);
  po_mutation : bv_mutation_delta (cp_initial_budget p) = 0;
  po_count : ContinuationPolicy.max_leases p <= MAX_LEASES;
  po_requests : ContinuationPolicy.max_leases p < cp_max_lease_requests p <= MAX_LEASE_REQUESTS;
  po_recoveries : 0 <= cp_max_strategy_recoveries p <= ContinuationPolicy.max_leases p;
  po_admitted : cp_admitted_progress p = [MEASURABLE_PROGRESS];
  po_hard : bv_le (cp_total_ceiling p)
    {| bv_request_delta := MAX_RUNTIME_REQUESTS; bv_execution_delta := MAX_RUNTIME_EXECUTIONS;
       bv_retry_delta := MAX_RUNTIME_RETRIES; bv_mutation_delta := 0; bv_history_delta := MAX_RUNTIME_HISTORY |};
  po_base : 0 < bv_request_delta (cp_initial_budget p) ∧ 0 < bv_execution_delta (cp_initial_budget p) ∧
    0 < bv_retry_delta (cp_initial_budget p) ∧ MIN_CYCLE_HISTORY <= bv_history_delta (cp_initial_budget p)
}.

(** The vectors of a policy were themselves constructed. *)
Definition policy_vectors (p : ContinuationPolicy) : Prop :=
  bv_valid (cp_initial_budget p) ∧ Forall bv_valid (cp_lease_schedule p) ∧ bv_valid (cp_total_ceiling p).

Lemma check_hard_limits_Ok p :
  bv_valid (cp_initial_budget p) → ContinuationPolicy.check_hard_limits p = Ok tt →
  bv_le (cp_total_ceiling p)
    {| bv_request_delta := MAX_RUNTIME_REQUESTS; bv_execution_delta := MAX_RUNTIME_EXECUTIONS;
       bv_retry_delta := MAX_RUNTIME_RETRIES; bv_mutation_delta := 0; bv_history_delta := MAX_RUNTIME_HISTORY |} ∧
  0 < bv_request_delta (cp_initial_budget p) ∧ 0 < bv_execution_delta (cp_initial_budget p) ∧
  0 < bv_retry_delta (cp_initial_budget p) ∧ MIN_CYCLE_HISTORY <= bv_history_delta (cp_initial_budget p).
Proof.
  intros Hi. unfold ContinuationPolicy.check_hard_limits.
  intros ([] & H1%res_iter_Ok & ([] & H2%res_iter_Ok & H3%raise_if_Ok%Z.ltb_ge)%res_bind_Ok)%res_bind_Ok.
  rewrite !Forall_cons, !raise_if_Ok in H1. rewrite !Forall_cons, !raise_if_Ok in H2. cbn [fst snd] in H1. rewrite !Z.ltb_ge in H1. rewrite !Z.eqb_neq in H2.
  destruct H1 as (? & ? & ? & ? & ? & _), H2 as (? & ? & ? & ? & _), Hi as [[] _]. simpl in *. repeat split; simpl; lia.
Qed.

Lemma make_policy_ok p0 p :
  policy_vectors p0 → ContinuationPolicy.make p0 = Ok p →
  policy_ok p ∧ p = {|
    cp_policy_key := cp_policy_key p0; cp_policy_version := cp_policy_version p0;
    cp_task_profile := cp_task_profile p0; cp_task_profile_version := cp_task_profile_version p0;
    cp_initial_budget := cp_initial_budget p0; cp_lease_schedule := cp_lease_schedule p0;
    cp_total_ceiling := cp_total_ceiling p0; cp_max_lease_requests := cp_max_lease_requests p0;
    cp_progress_contract_id := cp_progress_contract_id p0; cp_admitted_progress := [MEASURABLE_PROGRESS];
    cp_max_strategy_recoveries := cp_max_strategy_recoveries p0 |}.
Proof.
  intros (Vi & Vs & Vc) H. unfold ContinuationPolicy.make in H.
  apply res_bind_Ok in H as ([] & _ & H). apply res_bind_Ok in H as ([] & _ & H).
  apply res_bind_Ok in H as ([] & _ & H). apply res_bind_Ok in H as ([] & _ & H).
  apply res_bind_Ok in H as (sched & [-> Hlen]%materialize_Ok & H).
  apply res_bind_Ok in H as ([] & Hz%raise_if_Ok & H).
  apply res_bind_Ok in H as ([] & _ & H). apply res_bind_Ok in H as ([] & Hm%raise_if_Ok & H).
  apply res_bind_Ok in H as ([] & Hml%raise_if_Ok & H). apply res_bind_Ok in H as ([] & _ & H).
  apply res_bind_Ok in H as ([] & Hr%require_u64_Ok & H). apply res_bind_Ok in H as ([] & Hrl%raise_if_Ok & H).
  apply res_bind_Ok in H as (adm & _ & H). apply res_bind_Ok in H as ([] & _ & H).
  apply res_bind_Ok in H as ([] & Ha%raise_if_Ok%negb_false_iff%bool_decide_eq_true & H).
  apply res_bind_Ok in H as ([] & _ & H). cbn [cp_initial_budget cp_total_ceiling cp_lease_schedule] in H.
  apply res_bind_Ok in H as ([] & Hmu%raise_if_Ok%negb_false_iff%Z.eqb_eq & H).
  apply res_bind_Ok in H as (c & Hc & H).
  apply cumulate_Ok in Hc as (-> & Vcum & Hms); [|done|done].
  apply res_bind_Ok in H as ([] & Heq%raise_if_Ok%negb_false_iff%bool_decide_eq_true & H).
  apply res_bind_Ok in H as ([] & Hh & [= <-]). apply check_hard_limits_Ok in Hh as [Hh Hb]; [|done].
  rewrite Ha. split; [|done]. apply orb_false_iff in Hm as [Hm1 Hm2].
  constructor; unfold ContinuationPolicy.max_leases; cbn [cp_initial_budget cp_total_ceiling cp_lease_schedule
    cp_max_lease_requests cp_max_strategy_recoveries cp_admitted_progress] in *; try done; try lia.
  rewrite Forall_forall in Hms |- *. intros b Hin. split; [|auto]. intros ->.
  pose proof (proj1 (existsb_elem_false _ _) Hz _ Hin) as Hzb. done.
Qed.

Lemma policy_capacity p : policy_ok p → ContinuationPolicy.continuation_capacity p = Ok (total (cp_lease_schedule p)).
Proof.
  intros [Vi Vs _ Hc Vc _ _ _ _ _ _ _]. unfold ContinuationPolicy.continuation_capacity.
  rewrite subtract_checked_spec by done. rewrite Hc, minus_plus.
  pose proof (total_valid _ Vs). rewrite (proj2 (is_within_true _ _)) by bv_lia. done.
Qed.

(** ** Identities *)

Lemma canon_budget a b : canon (BudgetVector.canonical_record a) = canon (BudgetVector.canonical_record b) → a = b.
Proof.
  unfold BudgetVector.canonical_record, BudgetVector.items. cbn [map fst snd]. intros Hc.
  obj_field_eq Hc "request_delta"%string. obj_field_eq Hc "execution_delta"%string.
  obj_field_eq Hc "retry_delta"%string. obj_field_eq Hc "mutation_delta"%string.
  obj_field_eq Hc "history_delta"%string. cbn [canon] in *. apply bv_ext; congruence.
Qed.

Lemma canon_budgets l1 l2 :
  map canon (map BudgetVector.canonical_record l1) = map canon (map BudgetVector.canonical_record l2) → l1 = l2.
Proof.
  revert l2. induction l1 as [|b l1 IH]; intros [|b' l2] Hc; [done..|]. cbn [map] in Hc.
  pose proof (f_equal (hd VNone) Hc) as Hv. pose proof (f_equal (@tl _) Hc) as Hr. cbn [hd tl] in Hv, Hr.
  f_equal; [by apply canon_budget|auto].
Qed.

Lemma budget_wf b : dict_wf (BudgetVector.canonical_record b) = true.
Proof. unfold BudgetVector.canonical_record, BudgetVector.items. cbn [map fst snd]. by wf_obj. Qed.

Lemma policy_record_wf p v : ContinuationPolicy.canonical_record p = Ok v → dict_wf v = true.
Proof.
  unfold ContinuationPolicy.canonical_record. intros ([] & _ & [= <-])%res_bind_Ok. wf_obj.
  rewrite !budget_wf, andb_true_r. cbn [dict_wf andb].
  apply forallb_elem.
  intros v (b & <- & _)%list_elem_of_In%in_map_iff. apply budget_wf.
Qed.

(** What a policy's identity hashes. *)
Definition policy_message (p : ContinuationPolicy) : res (list Z) :=
  record_message CONTINUATION_POLICY_ID_DOMAIN (ContinuationPolicy.canonical_record p).

Lemma policy_id_inj p1 p2 i :
  ContinuationPolicy.continuation_policy_id p1 = Ok i → ContinuationPolicy.continuation_policy_id p2 = Ok i →
  p1 = p2 ∨ collide (policy_message p1) (policy_message p2).
Proof.
  unfold ContinuationPolicy.continuation_policy_id, policy_message, record_message.
  intros (v1 & C1 & H1)%res_bind_Ok (v2 & C2 & H2)%res_bind_Ok. rewrite C1, C2. cbn [res_bind].
  destruct (domain_fingerprint_inj _ _ _ _ _ H1 H2) as [[_ Hc]|]; [by eapply policy_record_wf..|left|by right].
  unfold ContinuationPolicy.canonical_record in C1, C2.
  apply res_bind_Ok in C1 as ([] & A1%raise_if_Ok%negb_false_iff%bool_decide_eq_true & [= <-]).
  apply res_bind_Ok in C2 as ([] & A2%raise_if_Ok%negb_false_iff%bool_decide_eq_true & [= <-]).
  obj_field_eq Hc "policy_key"%string. obj_field_eq Hc "policy_version"%string.
  obj_field_eq Hc "task_profile"%string. obj_field_eq Hc "task_profile_version"%string.
  obj_field_eq Hc "initial_budget"%string. obj_field_eq Hc "lease_schedule"%string.
  obj_field_eq Hc "total_ceiling"%string. obj_field_eq Hc "max_lease_requests"%string.
  obj_field_eq Hc "progress_contract_id"%string. obj_field_eq Hc "max_strategy_recoveries"%string.
  apply canon_budget in F3, F5. cbn [canon] in F, F0, F1, F2, F4, F6, F7, F8. injection F4 as F4%canon_budgets.
  destruct p1, p2; simpl in *. congruence.
Qed.

(** ** Properties *)

(** Budget arithmetic is exact or raises: a sum is the field-wise sum when every field fits
    64 bits, a difference is the field-wise difference when no field is negative, anything else is
    an [OverflowError], and subtracting what was added gives back the vector. *)
Theorem budget_arithmetic a b :
  bv_valid a → bv_valid b →
  BudgetVector.add_checked a b = (if decide (bv_valid (plus a b)) then Ok (plus a b) else Raise OverflowError) ∧
  (BudgetVector.subtract_checked a b = Ok (minus a b) ∧ bv_le b a ∨
   BudgetVector.subtract_checked a b = Raise OverflowError ∧ ¬ bv_le b a) ∧
  (∀ c, BudgetVector.add_checked a b = Ok c → BudgetVector.subtract_checked c a = Ok b).
Proof.
  intros Ha Hb. rewrite add_checked_spec by done. split; [|split].
  - destruct (BudgetVector.is_within (plus a b) top) eqn:E.
    + rewrite decide_True; [done|]. apply is_within_true in E. bv_lia.
    + rewrite decide_False; [done|]. intros [_ Hle%is_within_true]. congruence.
  - rewrite subtract_checked_spec by done. destruct (BudgetVector.is_within b a) eqn:E; [left|right].
    + split; [done|]. by apply is_within_true.
    + split; [done|]. rewrite <- is_within_true. congruence.
  - intros c. destruct (BudgetVector.is_within (plus a b) top) eqn:E; [|done]. intros [= <-].
    apply is_within_true in E. rewrite subtract_checked_spec by (done || bv_lia).
    rewrite minus_plus. rewrite (proj2 (is_within_true _ _)) by bv_lia. done.
Qed.

(** C40.  A policy commits its whole budget in advance: the ceiling is the base budget plus the
    schedule, the capacity is the schedule's total, and applying any number of leases in order
    stays within the ceiling, which is within the runtime's hard limits and has no mutations. *)
Theorem policy_commits_budget p0 p :
  policy_vectors p0 → ContinuationPolicy.make p0 = Ok p →
  policy_ok p ∧
  ContinuationPolicy.continuation_capacity p = Ok (total (cp_lease_schedule p)) ∧
  (∀ n, bv_le (plus (cp_initial_budget p) (total (take n (cp_lease_schedule p)))) (cp_total_ceiling p)) ∧
  bv_mutation_delta (cp_total_ceiling p) = 0.
Proof.
  intros Hv H. destruct (make_policy_ok _ _ Hv H) as [Hok _]. split; [done|]. split; [by apply policy_capacity|]. split.
  - intros n. rewrite (po_ceiling _ Hok). apply plus_le_mono, total_take_le, (po_schedule _ Hok).
  - pose proof (po_hard _ Hok) as []. pose proof (po_ceiling_valid _ Hok) as [[] _]. simpl in *. lia.
Qed.

(** A policy's identity determines the policy, unless the two policies collide. *)
Theorem policy_id_binds p1 p2 i :
  ContinuationPolicy.continuation_policy_id p1 = Ok i → ContinuationPolicy.continuation_policy_id p2 = Ok i →
  p1 = p2 ∨ collide (policy_message p1) (policy_message p2).
Proof. apply policy_id_inj. Qed.

(** *** Witnesses *)

Definition ex_budget (n : Z) : BudgetVector :=
  {| bv_request_delta := 2 * n; bv_execution_delta := n; bv_retry_delta := n; bv_mutation_delta := 0;
     bv_history_delta := 2 * n |}.

Lemma ex_budget_valid n : 0 <= n <= 1000 → bv_valid (ex_budget n).
Proof. intros H. assert (2000 < MAX_U64) by (vm_compute; reflexivity). bv_lia. Qed.

Definition ex_contract_id : pystr := Eval vm_compute in sha256_hexdigest [].

Definition ex_policy : ContinuationPolicy := {|
  cp_policy_key := u "p"; cp_policy_version := 1; cp_task_profile := u "tiny"; cp_task_profile_version := 1;
  cp_initial_budget := ex_budget 4; cp_lease_schedule := [ex_budget 2; ex_budget 1];
  cp_total_ceiling := ex_budget 7; cp_max_lease_requests := 4;
  cp_progress_contract_id := ex_contract_id;
  cp_admitted_progress := [MEASURABLE_PROGRESS]; cp_max_strategy_recoveries := 1 |}.

Lemma ex_policy_vectors : policy_vectors ex_policy.
Proof. split; [by apply ex_budget_valid|]. split; [|by apply ex_budget_valid]. repeat constructor; by apply ex_budget_valid. Qed.

Lemma ex_policy_made : ContinuationPolicy.make ex_policy = Ok ex_policy.
Proof. vm_compute. reflexivity. Qed.

Lemma budget_arithmetic_witness :
  BudgetVector.subtract_checked (plus (ex_budget 2) (ex_budget 1)) (ex_budget 2) = Ok (ex_budget 1).
Proof.
  apply (budget_arithmetic (ex_budget 2) (ex_budget 1)); [by apply ex_budget_valid..|]. vm_compute. reflexivity.
Defined.

Lemma policy_commits_budget_witness :
  ContinuationPolicy.continuation_capacity ex_policy = Ok (total [ex_budget 2; ex_budget 1]).
Proof. apply (policy_commits_budget ex_policy ex_policy ex_policy_vectors ex_policy_made). Defined.

Lemma policy_id_binds_witness : ex_policy = ex_policy ∨ collide (policy_message ex_policy) (policy_message ex_policy).
Proof.
  apply (policy_id_binds ex_policy ex_policy
    (match ContinuationPolicy.continuation_policy_id ex_policy with Ok i => i | Raise _ => [] end));
    vm_compute; reflexivity.
Defined.
