(* ===== verification/CanonFields.v ===== *)
(** * Fields of values that were read back from their text

    A record that is serialized canonically reads back with the keys of every object in order.  Checks
    that only look fields up do not see the difference: lookups, key sets and the type tests of a value
    commute with [canon].  What [json_loads] returns is always a well-formed value, and records that
    Python compares equal have equal fields. *)

From Stdlib Require Import Ascii String.
From stdpp Require Import base list.
From S2P Require Import Prelude PyStr PyNumber Sha256 Canonical CanonicalFacts Records RecordsFacts Budget.

(** ** Lookups *)

Lemma dict_item_elem l k w : dict_item l k = Ok w → (VStr k, w) ∈ l.
Proof.
  unfold dict_item. destruct (find _ l) as [[k' w']|] eqn:E; [|discriminate]. intros [= <-].
  apply find_elem in E as [Hin E]. cbn [fst snd] in E |- *. destruct k'; try discriminate.
  apply bool_decide_eq_true in E as ->. exact Hin.
Qed.

Lemma dict_item_unique l k w :
  NoDup (string_keys l) → (VStr k, w) ∈ l → dict_item l k = Ok w.
Proof.
  unfold dict_item. induction l as [|[k' w'] l IH]; intros Hnd Hin; [by apply elem_of_nil in Hin|]. cbn [find fst].
  unfold string_keys in Hnd. cbn [omap list_omap fst] in Hnd. apply elem_of_cons in Hin as [[= <- <-]|Hin]; [by rewrite bool_decide_true|].
  destruct k' as [| | | |k'| | | |]; try (apply IH; [exact Hnd|exact Hin]).
  apply NoDup_cons in Hnd as [Hni Hnd]. rewrite bool_decide_false; [by apply IH|]. intros ->. apply Hni.
  apply list_elem_of_omap. by exists (VStr k, w).
Qed.

Lemma dict_item_cases l k : (∃ w, dict_item l k = Ok w) ∨ dict_item l k = Raise KeyError.
Proof. unfold dict_item. destruct (find _ l) as [kv|]; eauto. Qed.

(** The order of distinct keys does not matter. *)
Lemma dict_item_perm l1 l2 k : NoDup (string_keys l1) → l1 ≡ₚ l2 → dict_item l1 k = dict_item l2 k.
Proof.
  intros Hnd Hp. pose proof Hnd as Hnd2. rewrite (string_keys_perm _ _ Hp) in Hnd2.
  destruct (dict_item_cases l1 k) as [[w E]|E].
  - rewrite E. symmetry. apply dict_item_unique; [done|]. rewrite <- Hp. by apply dict_item_elem.
  - destruct (dict_item_cases l2 k) as [[w E2]|E2]; [|congruence]. apply dict_item_elem in E2.
    rewrite <- Hp in E2. by rewrite (dict_item_unique _ _ _ Hnd E2) in E.
Qed.

Lemma dict_item_map (f : pyval → pyval) l k :
  dict_item (map (λ kv, (kv.1, f kv.2)) l) k = (let* v := dict_item l k in Ok (f v)).
Proof.
  unfold dict_item. induction l as [|[k' w] l IH]; [done|]. cbn [map find fst snd].
  destruct (match k' with VStr s => bool_decide (s = k) | _ => false end); [done|exact IH].
Qed.

(** The items of an object once it is read back. *)
Definition canon_items (l : list (pyval * pyval)) : list (pyval * pyval) :=
  sorted_by dict_key (map (λ kv, (kv.1, canon kv.2)) l).

Lemma canon_dict l : canon (VDict l) = VDict (canon_items l).
Proof. done. Qed.

Lemma canon_items_perm l : canon_items l ≡ₚ map (λ kv, (kv.1, canon kv.2)) l.
Proof. apply sorted_by_perm. Qed.

Lemma dict_item_canon l k :
  NoDup (string_keys l) → dict_item (canon_items l) k = (let* v := dict_item l k in Ok (canon v)).
Proof.
  intros Hnd. rewrite <- dict_item_map. symmetry. apply dict_item_perm; [by rewrite string_keys_map|].
  symmetry. apply canon_items_perm.
Qed.

Lemma length_canon_items l : length (canon_items l) = length l.
Proof. by rewrite (Permutation_length (canon_items_perm l)), length_map. Qed.

Lemma forallb_keys_canon (f : pyval → bool) l :
  forallb (λ kv, f kv.1) (canon_items l) = forallb (λ kv, f kv.1) l.
Proof. rewrite (forallb_perm _ _ _ (canon_items_perm l)), forallb_map. done. Qed.

Lemma has_keys_canon l names : NoDup (string_keys l) → has_keys (canon_items l) names = has_keys l names.
Proof.
  intros Hnd. unfold has_keys. f_equal.
  - apply (forallb_keys_canon (λ k, match k with VStr k => str_in k names | _ => false end)).
  - apply forallb_ext_in, Forall_forall. intros k _. rewrite dict_item_canon by done. by destruct (dict_item l k).
Qed.

(** ** Values without tuples *)

(** A JSON value: no tuples, finite floats, no unpaired surrogates, distinct string keys. *)
Fixpoint json_form (v : pyval) : bool :=
  match v with
  | VNone | VBool _ | VInt _ => true
  | VFloat f => match float_repr f with Some _ => true | None => false end
  | VStr s => no_surrogate s
  | VList l => forallb json_form l
  | VDict l => bool_decide (NoDup (string_keys l)) &&
               forallb (λ kv, match kv.1 with VStr k => no_surrogate k | _ => false end && json_form kv.2) l
  | VTuple _ | VOther => false
  end.

Lemma json_form_clean v : json_form v = true → clean v = true.
Proof.
  induction v as [|b|z|f|s|l IH|l IH|l IH|] using pyval_nested_ind; intros Hs; try done;
    cbn [json_form clean] in *; rewrite ?Forall_forall in IH.
  - apply forallb_elem. intros x Hx. apply (IH x Hx). by eapply forallb_elem.
  - bool_inv. apply forallb_elem. intros [k w] Hx. destruct (IH _ Hx) as [_ IHw].
    match goal with H : forallb _ l = true |- _ => apply (proj1 (forallb_elem _ _) H) in Hx end.
    cbn [fst snd] in *. bool_inv. by apply andb_true_intro; auto.
Qed.

Lemma json_form_wf v : json_form v = true → dict_wf v = true.
Proof.
  induction v as [|b|z|f|s|l IH|l IH|l IH|] using pyval_nested_ind; intros Hs; try done;
    cbn [json_form dict_wf] in *; rewrite ?Forall_forall in IH.
  - apply forallb_elem. intros x Hx. apply (IH x Hx). by eapply forallb_elem.
  - apply andb_true_iff in Hs as [-> Hs]. apply forallb_elem. intros [k w] Hx. destruct (IH _ Hx) as [_ IHw].
    apply (proj1 (forallb_elem _ _) Hs) in Hx. cbn [fst snd] in *. bool_inv. auto.
Qed.

(** The keys and the items of an object. *)
Lemma json_form_dict l :
  json_form (VDict l) = true →
  NoDup (string_keys l) ∧ ∀ k v, (k, v) ∈ l → (∃ s, k = VStr s ∧ no_surrogate s = true) ∧ json_form v = true.
Proof.
  cbn [json_form]. intros H. bool_inv. split; [done|]. intros k v Hin.
  match goal with H : forallb _ l = true |- _ => apply (proj1 (forallb_elem _ _) H) in Hin end.
  cbn [fst snd] in Hin. bool_inv. destruct k; try done. eauto.
Qed.

Lemma json_form_item l k v : json_form (VDict l) = true → dict_item l k = Ok v → json_form v = true.
Proof. intros [_ H]%json_form_dict Hv%dict_item_elem. by destruct (H _ _ Hv). Qed.

Lemma json_form_canon v : json_form v = true → json_form (canon v) = true.
Proof.
  induction v as [|b|z|f|s|l IH|l IH|l IH|] using pyval_nested_ind; intros Hs; try done;
    cbn [json_form canon] in *; rewrite ?Forall_forall in IH.
  - rewrite forallb_map. apply forallb_elem. intros x Hx. apply (IH x Hx). by eapply forallb_elem.
  - bool_inv. fold (canon_items l). apply andb_true_intro. split.
    + apply bool_decide_eq_true. by rewrite (string_keys_perm _ _ (canon_items_perm l)), string_keys_map.
    + rewrite (forallb_perm _ _ _ (canon_items_perm l)), forallb_map. apply forallb_elem. intros [k w] Hx.
      destruct (IH _ Hx) as [_ IHw].
      match goal with H : forallb _ l = true |- _ => apply (proj1 (forallb_elem _ _) H) in Hx end.
      cbn [fst snd] in *. bool_inv. apply andb_true_intro. auto.
Qed.

(** ** What the parser returns *)

Lemma dict_set_keys k v l : NoDup (string_keys l) → NoDup (string_keys (dict_set k v l)) ∧
  ∀ x, x ∈ string_keys (dict_set k v l) → x = k ∨ x ∈ string_keys l.
Proof.
  induction l as [|[k' w] l IH]; intros Hnd.
  { cbn. split; [apply NoDup_singleton|]. intros x Hx. apply list_elem_of_singleton in Hx. by left. }
  rewrite string_keys_cons in Hnd. destruct k' as [| | | |s| | | |]; cbn [dict_set];
    try (change (string_keys (?a :: ?b)) with (string_keys b); apply IH; exact Hnd).
  case_bool_decide as Hk.
  - subst s. split; [exact Hnd|]. intros x Hx. right. exact Hx.
  - change (string_keys ((VStr s, w) :: ?b)) with (s :: string_keys b) in *.
    apply NoDup_cons in Hnd as [Hni Hnd]. destruct (IH Hnd) as [IH1 IH2]. split.
    + apply NoDup_cons. split; [|done]. intros [->|Hin]%IH2; done.
    + intros x [->|Hx]%elem_of_cons; [right; by left|]. destruct (IH2 x Hx); [by left|right; by right].
Qed.

Lemma dict_set_elem k v l kv : kv ∈ dict_set k v l → kv = (VStr k, v) ∨ kv ∈ l.
Proof.
  induction l as [|[k' w] l IH]; cbn [dict_set].
  { intros Hx%list_elem_of_singleton. by left. }
  destruct k'; try (intros [->|H]%elem_of_cons; [right; by left|destruct (IH H); [by left|right; by right]]).
  case_bool_decide; intros [->|H']%elem_of_cons; [by left|right; by right|right; by left|].
  destruct (IH H'); [by left|right; by right].
Qed.

Lemma dict_of_pairs_wf kvs :
  NoDup (string_keys (dict_of_pairs kvs)) ∧ ∀ kv, kv ∈ dict_of_pairs kvs → ∃ k v, kv = (VStr k, v) ∧ (k, v) ∈ kvs.
Proof.
  unfold dict_of_pairs.
  enough (∀ l0, NoDup (string_keys l0) →
            NoDup (string_keys (fold_left (λ d kv, dict_set kv.1 kv.2 d) kvs l0)) ∧
            ∀ kv, kv ∈ fold_left (λ d kv, dict_set kv.1 kv.2 d) kvs l0 →
              kv ∈ l0 ∨ ∃ k v, kv = (VStr k, v) ∧ (k, v) ∈ kvs) as H.
  { destruct (H [] ltac:(constructor)) as [H1 H2]. split; [done|]. intros kv Hkv.
    destruct (H2 kv Hkv) as [[]%elem_of_nil|Hx]. done. }
  induction kvs as [|[k v] kvs IH]; intros l0 Hnd; cbn [fold_left fst snd]; [by split; auto|].
  destruct (IH (dict_set k v l0)) as [IH1 IH2]; [by apply dict_set_keys|]. split; [done|]. intros kv Hkv.
  destruct (IH2 kv Hkv) as [[->|H]%dict_set_elem|(k' & v' & -> & H)].
  - right. exists k, v. split; [done|]. by left.
  - by left.
  - right. exists k', v'. split; [done|]. by right.
Qed.

Lemma scan_number_wf s v r : scan_number s = Some (v, r) → dict_wf v = true.
Proof. unfold scan_number. destruct (span _ s) as [tok rest]. destruct (parse_number tok) as [[z|f]|]; naive_solver. Qed.

Lemma scan_literal_wf l s v r :
  Forall (λ x : pystr * pyval, dict_wf x.2 = true) l → scan_literal l s = Some (v, r) → dict_wf v = true.
Proof. induction 1 as [|[t x] l Hx Hl IH]; cbn [scan_literal]; [done|]. destruct (strip_prefix t s); naive_solver. Qed.

Lemma literals_wf : Forall (λ x : pystr * pyval, dict_wf x.2 = true) literals.
Proof. unfold literals. repeat constructor. Qed.

Lemma scans_wf n :
  (∀ s v r, scan_value n s = Some (v, r) → dict_wf v = true) ∧
  (∀ s vs r, scan_elements n s = Some (vs, r) → Forall (λ v, dict_wf v = true) vs) ∧
  (∀ s kvs r, scan_members n s = Some (kvs, r) → Forall (λ kv : pystr * pyval, dict_wf kv.2 = true) kvs).
Proof.
  induction n as [|n (IHv & IHe & IHm)]; [done|]. split; [|split]; intros s x r H.
  - cbn [scan_value] in H. destruct s as [|c s]; [done|]. destruct (c =? 34).
    { destruct (scan_string s) as [[cs r']|]; naive_solver. }
    destruct (c =? 123).
    { destruct (skip_ws s) as [|d r']; [done|]. destruct (d =? 125); [by injection H as <- _|].
      destruct (scan_members n (d :: r')) as [[kvs r'']|] eqn:E; [|done]. injection H as <- _. cbn [dict_wf].
      apply IHm in E. rewrite Forall_forall in E. destruct (dict_of_pairs_wf kvs) as [Hnd Hel].
      apply andb_true_intro. split; [by apply bool_decide_eq_true|]. apply forallb_elem. intros kv Hkv.
      destruct (Hel kv Hkv) as (k & v & -> & Hin). apply (E _ Hin). }
    destruct (c =? 91).
    { destruct (skip_ws s) as [|d r']; [done|]. destruct (d =? 93); [by injection H as <- _|].
      destruct (scan_elements n (d :: r')) as [[vs r'']|] eqn:E; [|done]. injection H as <- _. cbn [dict_wf].
      apply IHe in E. rewrite Forall_forall in E. by apply forallb_elem. }
    destruct (scan_literal literals (c :: s)) as [[v' r']|] eqn:E.
    + injection H as <- <-. by apply (scan_literal_wf _ _ _ _ literals_wf E).
    + by eapply scan_number_wf.
  - cbn [scan_elements] in H. destruct (scan_value n s) as [[v r1]|] eqn:E; [|done]. apply IHv in E.
    destruct (skip_ws r1) as [|c r']; [done|]. destruct (c =? 44).
    + destruct (scan_elements n (skip_ws r')) as [[vs r'']|] eqn:Ee; [|done]. injection H as <- _. constructor; eauto.
    + destruct (c =? 93); [|done]. injection H as <- _. by repeat constructor.
  - cbn [scan_members] in H. destruct s as [|q s]; [done|]. destruct (q =? 34); [|done].
    destruct (scan_string s) as [[k r1]|]; [|done]. destruct (skip_ws r1) as [|col r2]; [done|].
    destruct (col =? 58); [|done]. destruct (scan_value n (skip_ws r2)) as [[v r3]|] eqn:E; [|done]. apply IHv in E.
    destruct (skip_ws r3) as [|c r4]; [done|]. destruct (c =? 44).
    + destruct (scan_members n (skip_ws r4)) as [[kvs r5]|] eqn:Em; [|done]. injection H as <- _. constructor; eauto.
    + destruct (c =? 125); [|done]. injection H as <- _. by repeat constructor.
Qed.

(** Whatever the text, its value has distinct keys in every object. *)
Lemma json_loads_wf t v : json_loads t = Ok v → dict_wf v = true.
Proof.
  unfold json_loads. destruct (scan_value _ _) as [[w r]|] eqn:E; [|done]. apply scans_wf in E.
  destruct (skip_ws r); [|done]. by intros [= <-].
Qed.

(** The text of a JSON value, and the value it reads back as. *)
Lemma json_form_text v : json_form v = true → ∃ t, canonical_json v = Ok t ∧ text_of (json_bytes v) t ∧ json_loads t = Ok (canon v).
Proof.
  intros Hv. destruct (clean_json_text v (json_form_clean v Hv)) as (t & Ht & Hl). exists t. split; [done|]. split; [done|].
  apply json_dumps_loads; [by apply json_form_wf|]. by apply canonical_json_dumps.
Qed.

(** ** Equal records *)

Lemma py_equal_int a b : py_equal (VInt a) (VInt b) = true → a = b.
Proof. cbn. unfold same_number. cbn [fst snd]. rewrite Z.min_id, Z.sub_diag, !Z.mul_1_r. by intros ?%Z.eqb_eq. Qed.

Lemma py_equal_text a b : py_equal (VStr a) (VStr b) = true → a = b.
Proof. cbn. by intros ?%bool_decide_eq_true. Qed.

Lemma py_equal_opt o1 o2 : py_equal (opt_val VStr o1) (opt_val VStr o2) = true → o1 = o2.
Proof. destruct o1, o2; cbn; try done. by intros ->%bool_decide_eq_true. Qed.

Lemma py_equal_texts l1 l2 : py_equal (strs_val l1) (strs_val l2) = true → l1 = l2.
Proof.
  unfold strs_val. revert l2; induction l1 as [|x l1 IH]; intros [|y l2]; try done. cbn.
  intros [->%bool_decide_eq_true H]%andb_true_iff. f_equal. by apply IH.
Qed.

Lemma find_literal kvs name :
  find (λ kv' : pyval * pyval, match VStr (u name), kv'.1 with VStr s, VStr t => bool_decide (s = t) | _, _ => false end)
    (map (λ '(k, v), (VStr (u k), v)) kvs) =
  option_map (λ kv, (VStr (u kv.1), kv.2)) (find (λ kv : string * pyval, bool_decide (u name = u kv.1)) kvs).
Proof. induction kvs as [|[k v] kvs IH]; [done|]. cbn [map find fst snd]. by case_match. Qed.

(** Equal literals have equal fields. *)
Lemma py_equal_field name kvs1 kvs2 v1 v2 :
  py_equal (obj kvs1) (obj kvs2) = true → bool_decide (NoDup (obj_keys kvs2)) = true →
  CanonicalFacts.field name kvs1 = Some v1 → CanonicalFacts.field name kvs2 = Some v2 → py_equal v1 v2 = true.
Proof.
  intros He Hnd%bool_decide_eq_true H1%field_elem H2%field_elem. unfold obj in He. cbn [py_equal number_value] in He.
  apply andb_true_iff in He as [_ He].
  assert (Hin : (VStr (u name), v1) ∈ map (λ '(k, v), (VStr (u k), v)) kvs1).
  { apply list_elem_of_In, in_map_iff. exists (name, v1). split; [done|]. by apply list_elem_of_In. }
  apply (proj1 (forallb_elem _ _) He) in Hin. cbn [fst snd] in Hin. rewrite find_literal in Hin.
  assert (Hf : find (λ kv : string * pyval, bool_decide (u name = u kv.1)) kvs2 = Some (name, v2)).
  { clear -Hnd H2. unfold obj_keys in Hnd. induction kvs2 as [|[k v] kvs IH]; [by apply elem_of_nil in H2|].
    cbn [map fst find] in *. apply NoDup_cons in Hnd as [Hni Hnd]. apply elem_of_cons in H2 as [[= -> ->]|H2].
    - by rewrite bool_decide_true.
    - rewrite bool_decide_false; [by apply IH|]. intros E. apply Hni, list_elem_of_In, in_map_iff.
      exists (name, v2). split; [done|]. by apply list_elem_of_In. }
  by rewrite Hf in Hin.
Qed.

Ltac equal_field H k :=
  let E := fresh "F" in
  pose proof (py_equal_field k _ _ _ _ H ltac:(vm_compute; reflexivity) eq_refl eq_refl) as E.
