(* ===== verification/Progress.v ===== *)
(** * Objective progress ([src/ibae/continuation.py], second part)

    Progress contracts declare the dimensions that count, measures are read from two bound
    orchestration states or from governed counters, and a record classifies the change between
    them.  A counter's runtime receipt and tool admission are given by the fields the code reads;
    whether a receipt is source-bound is the native seal's answer. *)

From Stdlib Require Import Ascii String.
From stdpp Require Import base list gmap.
From S2P Require Import Prelude PyStr PyNumber Sha256 Canonical Records Kahn Obligations Epistemic Orchestration Budget.

Definition PROGRESS_PROTOCOL_VERSION : pystr := u "IBAE-OBJECTIVE-PROGRESS-V1".
Definition PROGRESS_CONTRACT_ID_DOMAIN : pystr := u "ibae.progress-contract-id.v1".
Definition PROGRESS_EVIDENCE_ID_DOMAIN : pystr := u "ibae.progress-evidence-id.v1".
Definition PROGRESS_RECORD_ID_DOMAIN : pystr := u "ibae.progress-record-id.v1".
Definition PROGRESS_EXTERNAL_ENDPOINT_ID_DOMAIN : pystr := u "ibae.progress-external-endpoint-id.v1".
Definition OBLIGATION_DEFINITION_ID_DOMAIN : pystr := u "ibae.obligation-definition-set-id.v1".
Definition MAX_PROGRESS_DIMENSIONS : Z := 64.

Inductive ProgressDirection := DECREASE | INCREASE.

Inductive ProgressSource :=
  | UNSATISFIED_OBLIGATION_COUNT | BLOCKED_OBLIGATION_COUNT | SATISFIED_OBLIGATION_COUNT
  | GOVERNED_EXTERNAL_COUNTER.

#[export] Instance ProgressDirection_eq_dec : EqDecision ProgressDirection.
Proof. solve_decision. Defined.
#[export] Instance ProgressSource_eq_dec : EqDecision ProgressSource.
Proof. solve_decision. Defined.

Definition direction_value (d : ProgressDirection) : pystr :=
  match d with DECREASE => u "decrease" | INCREASE => u "increase" end.

Definition source_value (s : ProgressSource) : pystr :=
  match s with
  | UNSATISFIED_OBLIGATION_COUNT => u "unsatisfied_obligation_count"
  | BLOCKED_OBLIGATION_COUNT => u "blocked_obligation_count"
  | SATISFIED_OBLIGATION_COUNT => u "satisfied_obligation_count"
  | GOVERNED_EXTERNAL_COUNTER => u "governed_external_counter"
  end.

(** ** Contracts *)

Record ProgressDimension := {
  pd_key : pystr;
  pd_source : ProgressSource;
  pd_direction : ProgressDirection;
  pd_completion_threshold : option Z
}.

#[export] Instance ProgressDimension_eq_dec : EqDecision ProgressDimension.
Proof. solve_decision. Defined.

Definition opt_u64 (o : option Z) : res unit := match o with None => Ok tt | Some z => require_u64 z end.

Module ProgressDimension.

Definition required_direction (s : ProgressSource) : option ProgressDirection :=
  match s with
  | UNSATISFIED_OBLIGATION_COUNT | BLOCKED_OBLIGATION_COUNT => Some DECREASE
  | SATISFIED_OBLIGATION_COUNT => Some INCREASE
  | GOVERNED_EXTERNAL_COUNTER => None
  end.

Definition make (key : pystr) (source : ProgressSource) (direction : ProgressDirection)
    (completion_threshold : option Z) : res ProgressDimension :=
  require_symbol key ;;*
  match required_direction source with
  | Some d => raise_if (negb (bool_decide (direction = d))) ValueError
  | None => Ok tt
  end ;;*
  opt_u64 completion_threshold ;;*
  Ok {| pd_key := key; pd_source := source; pd_direction := direction;
        pd_completion_threshold :=
          match completion_threshold, source with
          | None, (UNSATISFIED_OBLIGATION_COUNT | BLOCKED_OBLIGATION_COUNT) => Some 0
          | t, _ => t
          end |}.

(** [_validate_authority_fields] *)
Definition check_authority (d : ProgressDimension) : res unit :=
  require_symbol (pd_key d) ;;*
  opt_u64 (pd_completion_threshold d).

Definition canonical_record (d : ProgressDimension) : pyval :=
  obj [("completion_threshold", opt_val VInt (pd_completion_threshold d));
       ("direction", VStr (direction_value (pd_direction d)));
       ("key", VStr (pd_key d));
       ("source", VStr (source_value (pd_source d)))]%string.

End ProgressDimension.

Record ProgressMeasureContract := {
  pc_contract_key : pystr;
  pc_contract_version : Z;
  pc_dimensions : list ProgressDimension
}.

#[export] Instance ProgressMeasureContract_eq_dec : EqDecision ProgressMeasureContract.
Proof. solve_decision. Defined.

Module ProgressMeasureContract.

(** [_validate_authority_fields] *)
Definition check_authority (c : ProgressMeasureContract) : res unit :=
  require_symbol (pc_contract_key c) ;;*
  require_positive_int (pc_contract_version c) ;;*
  raise_if (bool_decide (pc_dimensions c = [])) TypeError ;;*
  raise_if (MAX_PROGRESS_DIMENSIONS <? Z.of_nat (length (pc_dimensions c))) ValueError ;;*
  res_iter ProgressDimension.check_authority (pc_dimensions c).

Definition make (contract_key : pystr) (contract_version : Z) (dimensions : list ProgressDimension)
    : res ProgressMeasureContract :=
  require_symbol contract_key ;;*
  require_positive_int contract_version ;;*
  let* supplied := materialize dimensions MAX_PROGRESS_DIMENSIONS in
  raise_if (bool_decide (supplied = [])) ValueError ;;*
  let sorted_dimensions := sorted_by pd_key supplied in
  raise_if (has_duplicates (map pd_key sorted_dimensions)) ValueError ;;*
  let c := {| pc_contract_key := contract_key; pc_contract_version := contract_version;
              pc_dimensions := sorted_dimensions |} in
  check_authority c ;;*
  Ok c.

Definition canonical_record (c : ProgressMeasureContract) : pyval :=
  obj [("contract_key", VStr (pc_contract_key c));
       ("contract_version", VInt (pc_contract_version c));
       ("dimensions", VList (map ProgressDimension.canonical_record (pc_dimensions c)));
       ("protocol_version", VStr PROGRESS_PROTOCOL_VERSION)]%string.

Definition contract_id (c : ProgressMeasureContract) : res pystr :=
  domain_fingerprint PROGRESS_CONTRACT_ID_DOMAIN (canonical_record c).

End ProgressMeasureContract.

Definition default_obligation_progress_contract : res ProgressMeasureContract :=
  let* blocked := ProgressDimension.make (u "blocked") BLOCKED_OBLIGATION_COUNT DECREASE None in
  let* unsatisfied := ProgressDimension.make (u "unsatisfied") UNSATISFIED_OBLIGATION_COUNT DECREASE None in
  ProgressMeasureContract.make (u "ibae.obligation-progress") 1 [blocked; unsatisfied].

(** ** Governed counters *)

(** The fields that the code reads of a runtime receipt. *)
Record CounterReceipt := {
  ct_status : pystr;
  ct_source_bound : bool;
  ct_receipt_id : pystr;
  ct_observation_id : option pystr;
  ct_admission_id : option pystr;
  ct_tool_name : option pystr;
  ct_arguments_id : option pystr;
  ct_dependency_fingerprint : option pystr
}.

(** The fields that the code reads of a tool admission. *)
Record CounterAdmission := {
  ca_task_id : pystr;
  ca_governance_id : pystr;
  ca_is_read : bool;
  ca_action_id : pystr;
  ca_tool_name : pystr;
  ca_arguments_id : pystr;
  ca_dependency_fingerprint : pystr
}.

Record ProgressCounterEvidence := {
  pe_task_id : pystr;
  pe_governance_id : pystr;
  pe_dimension_key : pystr;
  pe_value : Z;
  pe_basis_identity : pystr;
  pe_source_receipt_id : pystr;
  pe_epistemic_class : EpistemicClass;
  pe_tool_admission : CounterAdmission;
  pe_source_observation : CanonicalValue;
  pe_source_receipt : CounterReceipt
}.

Module ProgressCounterEvidence.

Definition field_names : list pystr :=
  [u "basis_identity"; u "dimension_key"; u "epistemic_class"; u "governance_id"; u "task_id"; u "value"].

(** [EpistemicClass(value)] *)
Definition parse_class (v : pystr) : res EpistemicClass :=
  match find (λ c, bool_decide (class_value c = v)) [OBSERVED; DERIVED; MODEL_PROPOSED; UNKNOWN] with
  | Some c => Ok c
  | None => Raise ValueError
  end.

Definition require_fingerprint_value (v : pyval) : res pystr :=
  match v with VStr s => require_fingerprint s ;;* Ok s | _ => Raise ValueError end.

Definition require_u64_value (v : pyval) : res Z :=
  match v with VInt z => require_u64 z ;;* Ok z | _ => Raise ValueError end.

(** The receipt is the admitted tool's, for this task and governance. *)
Definition binds (receipt : CounterReceipt) (admission : CounterAdmission) (task_id governance_id : pystr) : bool :=
  bool_decide (ca_task_id admission = task_id) &&
  bool_decide (ca_governance_id admission = governance_id) &&
  ca_is_read admission &&
  bool_decide (ct_admission_id receipt = Some (ca_action_id admission)) &&
  bool_decide (ct_tool_name receipt = Some (ca_tool_name admission)) &&
  bool_decide (ct_arguments_id receipt = Some (ca_arguments_id admission)) &&
  bool_decide (ct_dependency_fingerprint receipt = Some (ca_dependency_fingerprint admission)).

(** [__init__] on a transition with the given receipt and observation. *)
Definition make (receipt : CounterReceipt) (raw_observation : pyval) (admission : CounterAdmission)
    : res ProgressCounterEvidence :=
  raise_if (negb (bool_decide (ct_status receipt = u "accepted")) || negb (ct_source_bound receipt)) ValueError ;;*
  let* observation := CanonicalValue.from_value raw_observation in
  let* value := CanonicalValue.to_value observation in
  match value with
  | VDict l =>
      raise_if (negb (has_keys l field_names)) ValueError ;;*
      let* raw_class := dict_item l (u "epistemic_class") in
      let* epistemic_class := match raw_class with VStr s => parse_class s | _ => Raise TypeError end in
      match epistemic_class with
      | OBSERVED | DERIVED => Ok tt
      | _ => Raise ValueError
      end ;;*
      let* raw_task := dict_item l (u "task_id") in
      let* task_id := require_fingerprint_value raw_task in
      let* raw_governance := dict_item l (u "governance_id") in
      let* governance_id := require_fingerprint_value raw_governance in
      let* raw_dimension := dict_item l (u "dimension_key") in
      let* dimension_key := require_symbol_value raw_dimension in
      let* raw_value := dict_item l (u "value") in
      let* counter := require_u64_value raw_value in
      let* raw_basis := dict_item l (u "basis_identity") in
      let* basis_identity := require_fingerprint_value raw_basis in
      let* observation_id := canonical_fingerprint value in
      raise_if (negb (bool_decide (ct_observation_id receipt = Some observation_id))) ValueError ;;*
      raise_if (negb (binds receipt admission task_id governance_id)) ValueError ;;*
      Ok {| pe_task_id := task_id; pe_governance_id := governance_id; pe_dimension_key := dimension_key;
            pe_value := counter; pe_basis_identity := basis_identity;
            pe_source_receipt_id := ct_receipt_id receipt; pe_epistemic_class := epistemic_class;
            pe_tool_admission := admission; pe_source_observation := observation;
            pe_source_receipt := receipt |}
  | _ => Raise ValueError
  end.

(** The observation that the fields describe. *)
Definition expected_observation (e : ProgressCounterEvidence) : pyval :=
  obj [("basis_identity", VStr (pe_basis_identity e));
       ("dimension_key", VStr (pe_dimension_key e));
       ("epistemic_class", VStr (class_value (pe_epistemic_class e)));
       ("governance_id", VStr (pe_governance_id e));
       ("task_id", VStr (pe_task_id e));
       ("value", VInt (pe_value e))]%string.

(** Whether a float has an integer value. *)
Definition float_is_int (f : pyfloat) (z : Z) : bool :=
  match f with
  | FFin neg m e =>
      let signed := if neg then - m else m in
      if 0 <=? e then signed * 2 ^ e =? z else signed =? z * 2 ^ (- e)
  | _ => false
  end.

(** [v == z] for an integer [z]: a [bool] is an integer, and a float compares by its value. *)
Definition equals_int (v : pyval) (z : Z) : bool :=
  match v with
  | VInt z' => z' =? z
  | VBool b => (if b then 1 else 0) =? z
  | VFloat f => float_is_int f z
  | _ => false
  end.

(** [value == expected]: the same keys with equal values. *)
Definition same_fields (value : pyval) (e : ProgressCounterEvidence) : bool :=
  match value with
  | VDict l =>
      has_keys l field_names &&
      match dict_item l (u "basis_identity"), dict_item l (u "dimension_key"),
            dict_item l (u "epistemic_class"), dict_item l (u "governance_id"),
            dict_item l (u "task_id"), dict_item l (u "value") with
      | Ok (VStr b), Ok (VStr d), Ok (VStr c), Ok (VStr g), Ok (VStr t), Ok z =>
          bool_decide (b = pe_basis_identity e) && bool_decide (d = pe_dimension_key e) &&
          bool_decide (c = class_value (pe_epistemic_class e)) && bool_decide (g = pe_governance_id e) &&
          bool_decide (t = pe_task_id e) && equals_int z (pe_value e)
      | _, _, _, _, _, _ => false
      end
  | _ => false
  end.

(** [_validate_source] *)
Definition validate_source (e : ProgressCounterEvidence) : res unit :=
  let receipt := pe_source_receipt e in
  raise_if (negb (bool_decide (ct_status receipt = u "accepted")) || negb (ct_source_bound receipt)) ValueError ;;*
  let* value := CanonicalValue.to_value (pe_source_observation e) in
  let* observation_id := canonical_fingerprint value in
  raise_if (negb (bool_decide (ct_observation_id receipt = Some observation_id))) ValueError ;;*
  raise_if (negb (same_fields value e) || negb (bool_decide (ct_receipt_id receipt = pe_source_receipt_id e)))
    ValueError ;;*
  raise_if (negb (binds receipt (pe_tool_admission e) (pe_task_id e) (pe_governance_id e))) ValueError.

Definition canonical_record (e : ProgressCounterEvidence) : res pyval :=
  validate_source e ;;*
  Ok (obj [("basis_identity", VStr (pe_basis_identity e));
           ("dimension_key", VStr (pe_dimension_key e));
           ("epistemic_class", VStr (class_value (pe_epistemic_class e)));
           ("governance_id", VStr (pe_governance_id e));
           ("source_receipt_id", VStr (pe_source_receipt_id e));
           ("task_id", VStr (pe_task_id e));
           ("value", VInt (pe_value e))]%string).

Definition evidence_id (e : ProgressCounterEvidence) : res pystr :=
  let* r := canonical_record e in domain_fingerprint PROGRESS_EVIDENCE_ID_DOMAIN r.

End ProgressCounterEvidence.

(** ** Measures *)

Record ProgressMeasure := {
  pm_dimension_key : pystr;
  pm_value : option Z;
  pm_basis_identity : option pystr;
  pm_evidence_id : option pystr
}.

#[export] Instance ProgressMeasure_eq_dec : EqDecision ProgressMeasure.
Proof. solve_decision. Defined.

Module ProgressMeasure.

Definition make (dimension_key : pystr) (value : option Z) (basis_identity evidence_id : option pystr)
    : res ProgressMeasure :=
  require_symbol dimension_key ;;*
  match value with
  | None => raise_if (is_some basis_identity || is_some evidence_id) ValueError
  | Some z =>
      require_u64 z ;;*
      match basis_identity, evidence_id with
      | Some b, Some e => require_fingerprint b ;;* require_fingerprint e
      | _, _ => Raise ValueError
      end
  end ;;*
  Ok {| pm_dimension_key := dimension_key; pm_value := value; pm_basis_identity := basis_identity;
        pm_evidence_id := evidence_id |}.

(** [_validate_authority_fields] *)
Definition check_authority (m : ProgressMeasure) : res unit :=
  require_symbol (pm_dimension_key m) ;;*
  opt_u64 (pm_value m) ;;*
  opt_check require_fingerprint (pm_basis_identity m) ;;*
  opt_check require_fingerprint (pm_evidence_id m).

Definition canonical_record (m : ProgressMeasure) : pyval :=
  obj [("basis_identity", opt_val VStr (pm_basis_identity m));
       ("dimension_key", VStr (pm_dimension_key m));
       ("evidence_id", opt_val VStr (pm_evidence_id m));
       ("value", opt_val VInt (pm_value m))]%string.

End ProgressMeasure.

(** [l[i]] *)
Definition list_item {A} (l : list A) (i : nat) : res A :=
  match l !! i with Some x => Ok x | None => Raise IndexError end.

(** [zip(a, b, c, strict=True)] *)
Definition zip3_strict {A B C} (a : list A) (b : list B) (c : list C) : res (list (A * B * C)) :=
  raise_if (negb ((length a =? length b)%nat && (length a =? length c)%nat)) ValueError ;;*
  Ok (zip (zip a b) c).

(** How one dimension changed: [None] when the measures cannot be compared. *)
Inductive dimension_change := UNCHANGED | IMPROVED | REGRESSED | REVEALED.

#[export] Instance dimension_change_eq_dec : EqDecision dimension_change.
Proof. solve_decision. Defined.

Definition change_of (dimension : ProgressDimension) (prior current : ProgressMeasure) : dimension_change :=
  match pm_value prior, pm_value current with
  | Some p, Some c =>
      if negb (bool_decide (pm_basis_identity prior = pm_basis_identity current)) then
        if bool_decide (prior = current) then UNCHANGED else REVEALED
      else if p =? c then UNCHANGED
      else if (match pd_direction dimension with DECREASE => c <? p | INCREASE => p <? c end)
      then IMPROVED else REGRESSED
  | _, _ => if bool_decide (prior = current) then UNCHANGED else REVEALED
  end.

(** [_derive_progress_classification]: the counts of the loop. *)
Definition derive_progress_classification (contract : ProgressMeasureContract)
    (prior_measures current_measures : list ProgressMeasure) : res ProgressClassification :=
  let* items := zip3_strict (pc_dimensions contract) prior_measures current_measures in
  let changes := map (λ x, change_of x.1.1 x.1.2 x.2) items in
  let improvements := existsb (λ x, bool_decide (x = IMPROVED)) changes in
  let regressions := existsb (λ x, bool_decide (x = REGRESSED)) changes in
  let new_information := existsb (λ x, bool_decide (x = REVEALED)) changes in
  Ok (if new_information then NEW_INFORMATION
      else if improvements && regressions then INCOMPARABLE
      else if improvements then MEASURABLE_PROGRESS
      else if regressions then REGRESSION
      else NO_PROGRESS).

(** The test of one dimension against its threshold; [current_by_key[key]] can raise. *)
Definition threshold_met (current_by_key : gmap pystr ProgressMeasure) (d : ProgressDimension) : res bool :=
  match pd_completion_threshold d with
  | None => Ok true
  | Some threshold =>
      let* measure := dict_get current_by_key (pd_key d) in
      Ok (match pm_value measure with
          | None => false
          | Some v => match pd_direction d with DECREASE => v <=? threshold | INCREASE => threshold <=? v end
          end)
  end.

(** Every dimension in order, stopping at the first that fails. *)
Fixpoint thresholds_met (current_by_key : gmap pystr ProgressMeasure) (ds : list ProgressDimension) : res bool :=
  match ds with
  | [] => Ok true
  | d :: r =>
      let* met := threshold_met current_by_key d in
      if met then thresholds_met current_by_key r else Ok false
  end.

(** [_derive_task_complete] *)
Definition derive_task_complete (contract : ProgressMeasureContract) (current_measures : list ProgressMeasure)
    (current_state : OrchestrationState) : res bool :=
  if negb (forallb (λ o, bool_decide (ob_status o = SATISFIED))
             (reg_obligations (os_obligations current_state))) then Ok false
  else thresholds_met (dict_of (map (λ m, (pm_dimension_key m, m)) current_measures)) (pc_dimensions contract).

(** [_obligation_definition_identity] *)
Definition obligation_definition_identity (state : OrchestrationState) : res pystr :=
  let* items := res_map (λ o,
      let* i := obligation_id o in
      Ok (obj [("dependencies", strs_val (ob_dependency_ids o));
               ("description", VStr (ob_description o));
               ("key", VStr (ob_key o));
               ("obligation_id", VStr i)]%string)) (reg_obligations (os_obligations state)) in
  domain_fingerprint OBLIGATION_DEFINITION_ID_DOMAIN (obj [("obligations", VList items)]%string).

Definition count_status (state : OrchestrationState) (s : ObligationStatus) : Z :=
  Z.of_nat (length (List.filter (λ o, bool_decide (ob_status o = s)) (reg_obligations (os_obligations state)))).

(** [_state_measure] *)
Definition state_measure (dimension : ProgressDimension) (state : OrchestrationState) : res ProgressMeasure :=
  let* basis := obligation_definition_identity state in
  let* value :=
    match pd_source dimension with
    | UNSATISFIED_OBLIGATION_COUNT => Ok (count_status state UNSATISFIED)
    | BLOCKED_OBLIGATION_COUNT => Ok (count_status state BLOCKED)
    | SATISFIED_OBLIGATION_COUNT => Ok (count_status state SATISFIED)
    | GOVERNED_EXTERNAL_COUNTER => Raise KeyError
    end in
  let* i := OrchestrationState.state_id state in
  ProgressMeasure.make (pd_key dimension) (Some value) (Some basis) (Some i).

(** [_external_measure] *)
Definition external_measure (dimension : ProgressDimension) (evidence : gmap pystr ProgressCounterEvidence)
    (task_id governance_id : pystr) : res ProgressMeasure :=
  match evidence !! pd_key dimension with
  | None => ProgressMeasure.make (pd_key dimension) None None None
  | Some item =>
      raise_if (negb (bool_decide (pe_dimension_key item = pd_key dimension))) ValueError ;;*
      raise_if (negb (bool_decide (pe_task_id item = task_id)) ||
                negb (bool_decide (pe_governance_id item = governance_id))) ValueError ;;*
      let* i := ProgressCounterEvidence.evidence_id item in
      ProgressMeasure.make (pd_key dimension) (Some (pe_value item)) (Some (pe_basis_identity item)) (Some i)
  end.

(** The measure of a dimension from its bound source. *)
Definition measure_of (dimension : ProgressDimension) (state : OrchestrationState)
    (evidence : gmap pystr ProgressCounterEvidence) (task_id governance_id : pystr) : res ProgressMeasure :=
  match pd_source dimension with
  | GOVERNED_EXTERNAL_COUNTER => external_measure dimension evidence task_id governance_id
  | _ => state_measure dimension state
  end.

(** ** Progress records *)

Record ProgressRecord := {
  pr_task_id : pystr;
  pr_governance_id : pystr;
  pr_contract : ProgressMeasureContract;
  pr_prior_orchestration_state_id : pystr;
  pr_current_orchestration_state_id : pystr;
  pr_prior_measures : list ProgressMeasure;
  pr_current_measures : list ProgressMeasure;
  pr_classification : ProgressClassification;
  pr_task_complete : bool;
  pr_prior_state : OrchestrationState;
  pr_current_state : OrchestrationState;
  pr_prior_external_evidence : list ProgressCounterEvidence;
  pr_current_external_evidence : list ProgressCounterEvidence
}.

Module ProgressRecord.

(** [_validate_authority_fields] *)
Definition check_authority (r : ProgressRecord) : res unit :=
  res_iter require_fingerprint
    [pr_task_id r; pr_governance_id r; pr_prior_orchestration_state_id r; pr_current_orchestration_state_id r] ;;*
  ProgressMeasureContract.check_authority (pr_contract r) ;;*
  res_iter ProgressMeasure.check_authority (pr_prior_measures r) ;;*
  res_iter ProgressMeasure.check_authority (pr_current_measures r).

Definition external_keys (c : ProgressMeasureContract) : list pystr :=
  map pd_key (List.filter (λ d, bool_decide (pd_source d = GOVERNED_EXTERNAL_COUNTER)) (pc_dimensions c)).

Definition evidence_map (l : list ProgressCounterEvidence) : gmap pystr ProgressCounterEvidence :=
  dict_of (map (λ e, (pe_dimension_key e, e)) l).

(** Evidence is in key order, without repeated keys. *)
Definition check_evidence (l : list ProgressCounterEvidence) : res unit :=
  let keys := map pe_dimension_key l in
  raise_if (negb (bool_decide (map pe_dimension_key (sorted_by pe_dimension_key l) = keys))) ValueError ;;*
  raise_if (has_duplicates keys) ValueError.

(** [_validate_bound_claims] *)
Definition validate_bound_claims (r : ProgressRecord) : res unit :=
  let* prior_id := OrchestrationState.state_id (pr_prior_state r) in
  raise_if (negb (bool_decide (prior_id = pr_prior_orchestration_state_id r))) ValueError ;;*
  let* current_id := OrchestrationState.state_id (pr_current_state r) in
  raise_if (negb (bool_decide (current_id = pr_current_orchestration_state_id r))) ValueError ;;*
  check_evidence (pr_prior_external_evidence r) ;;*
  check_evidence (pr_current_external_evidence r) ;;*
  let external := external_keys (pr_contract r) in
  raise_if (existsb (λ e, negb (str_in (pe_dimension_key e) external))
              (pr_prior_external_evidence r ++ pr_current_external_evidence r)) ValueError ;;*
  let prior_evidence := evidence_map (pr_prior_external_evidence r) in
  let current_evidence := evidence_map (pr_current_external_evidence r) in
  res_iter (λ '(i, dimension),
      let* expected_prior :=
        measure_of dimension (pr_prior_state r) prior_evidence (pr_task_id r) (pr_governance_id r) in
      let* expected_current :=
        measure_of dimension (pr_current_state r) current_evidence (pr_task_id r) (pr_governance_id r) in
      let* prior := list_item (pr_prior_measures r) i in
      raise_if (negb (bool_decide (prior = expected_prior))) ValueError ;;*
      let* current := list_item (pr_current_measures r) i in
      raise_if (negb (bool_decide (current = expected_current))) ValueError) (imap pair (pc_dimensions (pr_contract r))) ;;*
  let* classification :=
    derive_progress_classification (pr_contract r) (pr_prior_measures r) (pr_current_measures r) in
  raise_if (negb (bool_decide (pr_classification r = classification))) ValueError ;;*
  let* complete := derive_task_complete (pr_contract r) (pr_current_measures r) (pr_current_state r) in
  raise_if (negb (Bool.eqb (pr_task_complete r) complete)) ValueError.

Definition check_measures (c : ProgressMeasureContract) (l : list ProgressMeasure) : res unit :=
  let* active := materialize l MAX_PROGRESS_DIMENSIONS in
  raise_if (negb (bool_decide (map pm_dimension_key active = map pd_key (pc_dimensions c)))) ValueError.

Definition sort_evidence (l : list ProgressCounterEvidence) : res (list ProgressCounterEvidence) :=
  let* active := materialize l MAX_PROGRESS_DIMENSIONS in
  let sorted_evidence := sorted_by pe_dimension_key active in
  raise_if (has_duplicates (map pe_dimension_key sorted_evidence)) ValueError ;;*
  Ok sorted_evidence.

(** [__post_init__] on the supplied fields. *)
Definition make (r : ProgressRecord) : res ProgressRecord :=
  require_fingerprint (pr_task_id r) ;;*
  require_fingerprint (pr_governance_id r) ;;*
  require_fingerprint (pr_prior_orchestration_state_id r) ;;*
  require_fingerprint (pr_current_orchestration_state_id r) ;;*
  check_measures (pr_contract r) (pr_prior_measures r) ;;*
  check_measures (pr_contract r) (pr_current_measures r) ;;*
  let* prior_evidence := sort_evidence (pr_prior_external_evidence r) in
  let* current_evidence := sort_evidence (pr_current_external_evidence r) in
  let r := {|
    pr_task_id := pr_task_id r; pr_governance_id := pr_governance_id r; pr_contract := pr_contract r;
    pr_prior_orchestration_state_id := pr_prior_orchestration_state_id r;
    pr_current_orchestration_state_id := pr_current_orchestration_state_id r;
    pr_prior_measures := pr_prior_measures r; pr_current_measures := pr_current_measures r;
    pr_classification := pr_classification r; pr_task_complete := pr_task_complete r;
    pr_prior_state := pr_prior_state r; pr_current_state := pr_current_state r;
    pr_prior_external_evidence := prior_evidence; pr_current_external_evidence := current_evidence |} in
  validate_bound_claims r ;;*
  Ok r.

(** [_external_endpoint_id] of the given measures. *)
Definition external_endpoint_id (c : ProgressMeasureContract) (measures : list ProgressMeasure) : res (option pystr) :=
  raise_if (negb (length (pc_dimensions c) =? length measures)%nat) ValueError ;;*
  let endpoint := List.filter (λ dm, bool_decide (pd_source dm.1 = GOVERNED_EXTERNAL_COUNTER))
    (zip (pc_dimensions c) measures) in
  match endpoint with
  | [] => Ok None
  | _ =>
      let* contract_id := ProgressMeasureContract.contract_id c in
      let* i := domain_fingerprint PROGRESS_EXTERNAL_ENDPOINT_ID_DOMAIN
        (obj [("measure_contract_id", VStr contract_id);
              ("measures", VList (map (λ dm,
                 obj [("basis_identity", opt_val VStr (pm_basis_identity dm.2));
                      ("dimension_key", VStr (pm_dimension_key dm.2));
                      ("value", opt_val VInt (pm_value dm.2))]%string) endpoint))]%string) in
      Ok (Some i)
  end.

Definition prior_external_endpoint_id (r : ProgressRecord) : res (option pystr) :=
  external_endpoint_id (pr_contract r) (pr_prior_measures r).

Definition current_external_endpoint_id (r : ProgressRecord) : res (option pystr) :=
  external_endpoint_id (pr_contract r) (pr_current_measures r).

Definition evidence_ids (r : ProgressRecord) : list pystr :=
  sorted_set (omap pm_evidence_id (pr_prior_measures r ++ pr_current_measures r)).

Definition canonical_record (r : ProgressRecord) : res pyval :=
  check_authority r ;;*
  validate_bound_claims r ;;*
  let* contract_id := ProgressMeasureContract.contract_id (pr_contract r) in
  Ok (obj [("classification", VStr (classification_value (pr_classification r)));
           ("current_measures", VList (map ProgressMeasure.canonical_record (pr_current_measures r)));
           ("current_orchestration_state_id", VStr (pr_current_orchestration_state_id r));
           ("evidence_ids", strs_val (evidence_ids r));
           ("governance_id", VStr (pr_governance_id r));
           ("measure_contract", ProgressMeasureContract.canonical_record (pr_contract r));
           ("measure_contract_id", VStr contract_id);
           ("prior_measures", VList (map ProgressMeasure.canonical_record (pr_prior_measures r)));
           ("prior_orchestration_state_id", VStr (pr_prior_orchestration_state_id r));
           ("protocol_version", VStr PROGRESS_PROTOCOL_VERSION);
           ("task_complete", VBool (pr_task_complete r));
           ("task_id", VStr (pr_task_id r))]%string).

Definition progress_id (r : ProgressRecord) : res pystr :=
  let* v := canonical_record r in domain_fingerprint PROGRESS_RECORD_ID_DOMAIN v.

End ProgressRecord.

(** The values of a mapping in the order of its sorted keys. *)
Definition values_by_key {A} (m : gmap pystr A) : list A := omap (λ k, m !! k) (sorted (map fst (map_to_list m))).

Definition evaluate_progress (task_id governance_id : pystr) (contract : ProgressMeasureContract)
    (prior_state current_state : OrchestrationState)
    (prior_evidence current_evidence : gmap pystr ProgressCounterEvidence) : res ProgressRecord :=
  require_fingerprint task_id ;;*
  require_fingerprint governance_id ;;*
  let external := ProgressRecord.external_keys contract in
  raise_if (existsb (λ kv, negb (str_in kv.1 external)) (map_to_list prior_evidence)) ValueError ;;*
  raise_if (existsb (λ kv, negb (str_in kv.1 external)) (map_to_list current_evidence)) ValueError ;;*
  let* measures := res_map (λ dimension,
      let* prior := measure_of dimension prior_state prior_evidence task_id governance_id in
      let* current := measure_of dimension current_state current_evidence task_id governance_id in
      Ok (prior, current)) (pc_dimensions contract) in
  let prior_measures := map fst measures in
  let current_measures := map snd measures in
  let* classification := derive_progress_classification contract prior_measures current_measures in
  let* task_complete := derive_task_complete contract current_measures current_state in
  let* prior_id := OrchestrationState.state_id prior_state in
  let* current_id := OrchestrationState.state_id current_state in
  ProgressRecord.make {|
    pr_task_id := task_id; pr_governance_id := governance_id; pr_contract := contract;
    pr_prior_orchestration_state_id := prior_id; pr_current_orchestration_state_id := current_id;
    pr_prior_measures := prior_measures; pr_current_measures := current_measures;
    pr_classification := classification; pr_task_complete := task_complete;
    pr_prior_state := prior_state; pr_current_state := current_state;
    pr_prior_external_evidence := values_by_key prior_evidence;
    pr_current_external_evidence := values_by_key current_evidence |}.
