(* ===== verification/ProgressFacts.v ===== *)
(** * Properties of objective progress *)

From Stdlib Require Import Ascii String.
From stdpp Require Import base list sets gmap.
From S2P Require Import Prelude PyStr PyNumber Sha256 Canonical CanonicalFacts Fingerprints Records RecordsFacts Kahn Obligations Epistemic EpistemicFacts Orchestration Budget Progress.

(** ** How a dimension changes *)

(** Both measures are known, on the same basis. *)
Definition comparable (p c : ProgressMeasure) (v w : Z) : Prop :=
  pm_value p = Some v ∧ pm_value c = Some w ∧ pm_basis_identity p = pm_basis_identity c.

Definition better (d : ProgressDirection) (v w : Z) : Prop :=
  match d with DECREASE => w < v | INCREASE => v < w end.

Definition improved (d : ProgressDimension) (p c : ProgressMeasure) : Prop :=
  ∃ v w, comparable p c v w ∧ better (pd_direction d) v w.

Definition regressed (d : ProgressDimension) (p c : ProgressMeasure) : Prop :=
  ∃ v w, comparable p c v w ∧ better (pd_direction d) w v.

(** The measures differ and cannot be compared. *)
Definition revealed (p c : ProgressMeasure) : Prop := p ≠ c ∧ ¬ ∃ v w, comparable p c v w.

Lemma comparable_fun p c v w v' w' : comparable p c v w → comparable p c v' w' → v = v' ∧ w = w'.
Proof. intros (E1 & E2 & _) (E3 & E4 & _). split; congruence. Qed.

Lemma change_improved d p c : change_of d p c = IMPROVED ↔ improved d p c.
Proof.
  unfold change_of, improved, comparable, better.
  destruct (pm_value p) as [v|], (pm_value c) as [w|]; try (case_bool_decide; naive_solver).
  case_bool_decide as Eb; cbn [negb].
  - destruct (Z.eqb_spec v w) as [->|Hne].
    + split; [done|]. intros (? & ? & ([= <-] & [= <-] & _) & Hb). destruct (pd_direction d); lia.
    + destruct (pd_direction d).
      * destruct (Z.ltb_spec w v); split; try done; [intros _; by exists v, w|].
        intros (? & ? & ([= <-] & [= <-] & _) & Hb). lia.
      * destruct (Z.ltb_spec v w); split; try done; [intros _; by exists v, w|].
        intros (? & ? & ([= <-] & [= <-] & _) & Hb). lia.
  - split; [by case_bool_decide|]. by intros (? & ? & (_ & _ & ?) & _).
Qed.

Lemma change_regressed d p c : change_of d p c = REGRESSED ↔ regressed d p c.
Proof.
  unfold change_of, regressed, comparable, better.
  destruct (pm_value p) as [v|], (pm_value c) as [w|]; try (case_bool_decide; naive_solver).
  case_bool_decide as Eb; cbn [negb].
  - destruct (Z.eqb_spec v w) as [->|Hne].
    + split; [done|]. intros (? & ? & ([= <-] & [= <-] & _) & Hb). destruct (pd_direction d); lia.
    + destruct (pd_direction d).
      * destruct (Z.ltb_spec w v); split; try done; [|intros _; exists v, w; split; [done|lia]].
        intros (? & ? & ([= <-] & [= <-] & _) & Hb). lia.
      * destruct (Z.ltb_spec v w); split; try done; [|intros _; exists v, w; split; [done|lia]].
        intros (? & ? & ([= <-] & [= <-] & _) & Hb). lia.
  - split; [by case_bool_decide|]. by intros (? & ? & (_ & _ & ?) & _).
Qed.

Lemma change_revealed d p c : change_of d p c = REVEALED ↔ revealed p c.
Proof.
  unfold change_of, revealed, comparable.
  destruct (pm_value p) as [v|], (pm_value c) as [w|]; try (case_bool_decide; naive_solver).
  case_bool_decide as Eb; cbn [negb].
  - split; [|intros [_ H]; exfalso; apply H; by exists v, w].
    destruct (v =? w); [done|]. by destruct (match pd_direction d with DECREASE => _ | INCREASE => _ end).
  - case_bool_decide as E; [naive_solver|]. split; [|done]. intros _. split; [done|]. by intros (? & ? & _ & _ & ?).
Qed.

(** ** Classification *)

(** The dimensions of a contract with the two measures of each. *)
Definition measured (contract : ProgressMeasureContract) (ps cs : list ProgressMeasure) :
    list (ProgressDimension * ProgressMeasure * ProgressMeasure) :=
  zip (zip (pc_dimensions contract) ps) cs.

Lemma existsb_change (x : dimension_change) items :
  existsb (λ y, bool_decide (y = x)) (map (λ i : ProgressDimension * ProgressMeasure * ProgressMeasure,
    change_of i.1.1 i.1.2 i.2) items) = true ↔ ∃ d p c, (d, p, c) ∈ items ∧ change_of d p c = x.
Proof.
  rewrite existsb_elem. split.
  - intros (y & Hy & E%bool_decide_eq_true). apply list_elem_of_In, in_map_iff in Hy as ([[d p] c] & <- & Hin).
    exists d, p, c. split; [by apply list_elem_of_In|done].
  - intros (d & p & c & Hin & E). exists x. split; [|by apply bool_decide_eq_true].
    apply list_elem_of_In, in_map_iff. exists (d, p, c). split; [done|]. by apply list_elem_of_In.
Qed.

Definition any_improved contract ps cs := ∃ d p c, (d, p, c) ∈ measured contract ps cs ∧ improved d p c.
Definition any_regressed contract ps cs := ∃ d p c, (d, p, c) ∈ measured contract ps cs ∧ regressed d p c.
Definition any_revealed contract ps cs := ∃ d p c, (d, p, c) ∈ measured contract ps cs ∧ revealed p c.

(** What each classification means. *)
Definition classified (contract : ProgressMeasureContract) (ps cs : list ProgressMeasure)
    (k : ProgressClassification) : Prop :=
  match k with
  | NEW_INFORMATION => any_revealed contract ps cs
  | INCOMPARABLE => ¬ any_revealed contract ps cs ∧ any_improved contract ps cs ∧ any_regressed contract ps cs
  | MEASURABLE_PROGRESS => ¬ any_revealed contract ps cs ∧ any_improved contract ps cs ∧ ¬ any_regressed contract ps cs
  | REGRESSION => ¬ any_revealed contract ps cs ∧ ¬ any_improved contract ps cs ∧ any_regressed contract ps cs
  | NO_PROGRESS => ¬ any_revealed contract ps cs ∧ ¬ any_improved contract ps cs ∧ ¬ any_regressed contract ps cs
  end.

Lemma not_true (b : bool) (P : Prop) : (b = true ↔ P) → b = false → ¬ P.
Proof. intros H -> HP. apply H in HP. done. Qed.

Lemma derive_Ok contract ps cs k :
  derive_progress_classification contract ps cs = Ok k →
  classified contract ps cs k ∧ length (pc_dimensions contract) = length ps ∧ length (pc_dimensions contract) = length cs.
Proof.
  unfold derive_progress_classification, zip3_strict.
  intros (items & ([] & Hl%raise_if_Ok%negb_false_iff & [= <-])%res_bind_Ok & [= <-])%res_bind_Ok.
  apply andb_true_iff in Hl as [L1%Nat.eqb_eq L2%Nat.eqb_eq]. split; [|done].
  pose proof (existsb_change REVEALED (measured contract ps cs)) as Hn.
  pose proof (existsb_change IMPROVED (measured contract ps cs)) as Hi.
  pose proof (existsb_change REGRESSED (measured contract ps cs)) as Hr.
  setoid_rewrite change_revealed in Hn. setoid_rewrite change_improved in Hi. setoid_rewrite change_regressed in Hr.
  fold (any_revealed contract ps cs) in Hn. fold (any_improved contract ps cs) in Hi.
  fold (any_regressed contract ps cs) in Hr. unfold measured in *.
  destruct (existsb (λ y, bool_decide (y = REVEALED)) _) eqn:E1; [by apply Hn|].
  pose proof (not_true _ _ Hn eq_refl).
  destruct (existsb (λ y, bool_decide (y = IMPROVED)) _) eqn:E2, (existsb (λ y, bool_decide (y = REGRESSED)) _) eqn:E3;
    cbn [andb classified]; repeat (split; [done || by apply Hi | ]).
  - by apply Hr.
  - by eapply not_true.
  - split; [by eapply not_true|by apply Hr].
  - split; [by eapply not_true|by eapply not_true].
Qed.

(** ** Reversal *)

Definition flip_change (x : dimension_change) : dimension_change :=
  match x with IMPROVED => REGRESSED | REGRESSED => IMPROVED | x => x end.

Lemma comparable_sym p c v w : comparable p c v w ↔ comparable c p w v.
Proof. unfold comparable. naive_solver. Qed.

Lemma change_flip d p c : change_of d c p = flip_change (change_of d p c).
Proof.
  destruct (change_of d p c) eqn:E; cbn [flip_change].
  - destruct (change_of d c p) eqn:E'; [done|..]; exfalso; revert E.
    + apply change_improved in E' as (v & w & H%comparable_sym & Hb). rewrite (proj2 (change_regressed d p c)); [done|].
      by exists w, v.
    + apply change_regressed in E' as (v & w & H%comparable_sym & Hb). rewrite (proj2 (change_improved d p c)); [done|].
      by exists w, v.
    + apply change_revealed in E' as [Hne Hn]. rewrite (proj2 (change_revealed d p c)); [done|].
      split; [done|]. intros (v & w & H%comparable_sym). eauto.
  - apply change_improved in E as (v & w & H%comparable_sym & Hb). apply change_regressed. by exists w, v.
  - apply change_regressed in E as (v & w & H%comparable_sym & Hb). apply change_improved. by exists w, v.
  - apply change_revealed in E as [Hne Hn]. apply change_revealed. split; [done|].
    intros (v & w & H%comparable_sym). eauto.
Qed.

Lemma changes_flip ds ps cs :
  length ds = length ps → length ds = length cs →
  map (λ i : ProgressDimension * ProgressMeasure * ProgressMeasure, change_of i.1.1 i.1.2 i.2) (zip (zip ds cs) ps) =
  map flip_change (map (λ i : ProgressDimension * ProgressMeasure * ProgressMeasure, change_of i.1.1 i.1.2 i.2)
    (zip (zip ds ps) cs)).
Proof.
  revert ps cs. induction ds as [|d ds IH]; intros [|p ps] [|c cs]; try done. intros [= L1] [= L2].
  cbn [zip zip_with map fst snd]. f_equal; [apply change_flip|by apply IH].
Qed.

Lemma existsb_flip x l :
  existsb (λ y, bool_decide (y = x)) (map flip_change l) = existsb (λ y, bool_decide (y = flip_change x)) l.
Proof.
  induction l as [|y l IH]; [done|]. cbn [map existsb]. rewrite IH. f_equal. apply bool_decide_ext. by destruct x, y.
Qed.

Definition reverse_classification (k : ProgressClassification) : ProgressClassification :=
  match k with MEASURABLE_PROGRESS => REGRESSION | REGRESSION => MEASURABLE_PROGRESS | k => k end.

(** ** Completion *)

Lemma thresholds_met_true m ds :
  thresholds_met m ds = Ok true → ∀ d, d ∈ ds → threshold_met m d = Ok true.
Proof.
  induction ds as [|d ds IH]; intros H d' Hd'; [by apply elem_of_nil in Hd'|]. cbn [thresholds_met] in H.
  apply res_bind_Ok in H as (met & Hm & H). destruct met; [|done].
  apply elem_of_cons in Hd' as [->|Hd']; [done|auto].
Qed.

(** The measure of a dimension meets its threshold, if it has one. *)
Definition reached (cs : list ProgressMeasure) (d : ProgressDimension) : Prop :=
  ∀ t, pd_completion_threshold d = Some t → ∃ m v, m ∈ cs ∧ pm_dimension_key m = pd_key d ∧ pm_value m = Some v ∧
    match pd_direction d with DECREASE => v <= t | INCREASE => t <= v end.

Lemma threshold_met_true cs d :
  threshold_met (dict_of (map (λ m, (pm_dimension_key m, m)) cs)) d = Ok true → reached cs d.
Proof.
  unfold threshold_met, reached. intros H t Ht. rewrite Ht in H. apply res_bind_Ok in H as (m & Hm & [= H]).
  unfold dict_get in Hm. destruct (_ !! pd_key d) as [m'|] eqn:E; [|done]. injection Hm as ->.
  apply dict_of_sound, list_elem_of_In, in_map_iff in E as (m' & [= Hk ->] & Hin%list_elem_of_In).
  destruct (pm_value m) as [v|] eqn:Ev; [|done]. exists m, v. repeat (split; [done|]).
  destruct (pd_direction d); lia.
Qed.

Lemma task_complete_true contract cs s :
  derive_task_complete contract cs s = Ok true →
  (∀ o, o ∈ reg_obligations (os_obligations s) → ob_status o = SATISFIED) ∧
  ∀ d, d ∈ pc_dimensions contract → reached cs d.
Proof.
  unfold derive_task_complete. destruct (forallb _ _) eqn:E; cbn [negb]; [|done]. intros H. split.
  - intros o Ho. by eapply bool_decide_eq_true, (proj1 (forallb_elem _ _) E).
  - intros d Hd. by apply threshold_met_true, (thresholds_met_true _ _ H).
Qed.

(** ** Evaluation *)

Lemma record_make_Ok r0 r :
  ProgressRecord.make r0 = Ok r →
  pr_task_id r = pr_task_id r0 ∧ pr_governance_id r = pr_governance_id r0 ∧ pr_contract r = pr_contract r0 ∧
  pr_prior_measures r = pr_prior_measures r0 ∧ pr_current_measures r = pr_current_measures r0 ∧
  pr_classification r = pr_classification r0 ∧ pr_task_complete r = pr_task_complete r0 ∧
  pr_prior_state r = pr_prior_state r0 ∧ pr_current_state r = pr_current_state r0 ∧
  pr_prior_orchestration_state_id r = pr_prior_orchestration_state_id r0 ∧
  pr_current_orchestration_state_id r = pr_current_orchestration_state_id r0 ∧
  ProgressRecord.validate_bound_claims r = Ok tt.
Proof.
  unfold ProgressRecord.make. intros H.
  do 8 (apply res_bind_Ok in H as (? & ? & H)). apply res_bind_Ok in H as ([] & Hv & [= <-]).
  simpl. repeat (split; [done|]). exact Hv.
Qed.

(** What an evaluation returns. *)
Record evaluated (t g : pystr) (contract : ProgressMeasureContract) (s1 s2 : OrchestrationState)
    (e1 e2 : gmap pystr ProgressCounterEvidence) (r : ProgressRecord) : Prop := {
  ev_contract : pr_contract r = contract;
  ev_states : pr_prior_state r = s1 ∧ pr_current_state r = s2;
  ev_ids : OrchestrationState.state_id s1 = Ok (pr_prior_orchestration_state_id r) ∧
    OrchestrationState.state_id s2 = Ok (pr_current_orchestration_state_id r);
  ev_binding : pr_task_id r = t ∧ pr_governance_id r = g;
  ev_measures : Forall2 (λ d pc, measure_of d s1 e1 t g = Ok pc.1 ∧ measure_of d s2 e2 t g = Ok pc.2)
    (pc_dimensions contract) (zip (pr_prior_measures r) (pr_current_measures r));
  ev_lengths : length (pr_prior_measures r) = length (pr_current_measures r);
  ev_classification : derive_progress_classification contract (pr_prior_measures r) (pr_current_measures r) =
    Ok (pr_classification r);
  ev_complete : derive_task_complete contract (pr_current_measures r) s2 = Ok (pr_task_complete r);
  ev_valid : ProgressRecord.validate_bound_claims r = Ok tt
}.

Lemma evaluate_Ok t g contract s1 s2 e1 e2 r :
  evaluate_progress t g contract s1 s2 e1 e2 = Ok r → evaluated t g contract s1 s2 e1 e2 r.
Proof.
  unfold evaluate_progress. intros H.
  apply res_bind_Ok in H as ([] & _ & H). apply res_bind_Ok in H as ([] & _ & H).
  apply res_bind_Ok in H as ([] & _ & H). apply res_bind_Ok in H as ([] & _ & H).
  apply res_bind_Ok in H as (ms & Hms%res_map_Ok & H). apply res_bind_Ok in H as (k & Hk & H).
  apply res_bind_Ok in H as (tc & Htc & H). apply res_bind_Ok in H as (i1 & Hi1 & H).
  apply res_bind_Ok in H as (i2 & Hi2 & H).
  apply record_make_Ok in H as (E1 & E2 & E3 & E4 & E5 & E6 & E7 & E8 & E9 & E10 & E11 & Hv). simpl in *.
  constructor; rewrite ?E1, ?E2, ?E3, ?E4, ?E5, ?E6, ?E7, ?E8, ?E9, ?E10, ?E11; try done.
  - replace (zip (map fst ms) (map snd ms)) with ms by (clear; induction ms as [|[] ms IH]; simpl; by f_equal).
    eapply Forall2_impl; [exact Hms|]. intros d [p c] (p' & Hp & (c' & Hc & [= <- <-])%res_bind_Ok)%res_bind_Ok. done.
  - by rewrite !length_map.
Qed.

(** ** Measurable progress on obligation counts runs out *)

(** The obligation count that a source stands for. *)
Definition source_count (d : ProgressDimension) (s : OrchestrationState) : Z :=
  match pd_source d with
  | UNSATISFIED_OBLIGATION_COUNT => count_status s UNSATISFIED
  | BLOCKED_OBLIGATION_COUNT => count_status s BLOCKED
  | SATISFIED_OBLIGATION_COUNT => count_status s SATISFIED
  | GOVERNED_EXTERNAL_COUNTER => 0
  end.

Definition potential (ds : list ProgressDimension) (s : OrchestrationState) : Z :=
  foldr (λ d acc, source_count d s + acc) 0 ds.

(** Every dimension counts obligations that should become fewer. *)
Definition counts_down (ds : list ProgressDimension) : Prop :=
  Forall (λ d, pd_source d ≠ GOVERNED_EXTERNAL_COUNTER ∧ pd_direction d = DECREASE) ds.

Lemma measure_make_Ok k v b e m :
  ProgressMeasure.make k v b e = Ok m →
  m = {| pm_dimension_key := k; pm_value := v; pm_basis_identity := b; pm_evidence_id := e |}.
Proof.
  unfold ProgressMeasure.make. intros ([] & _ & H)%res_bind_Ok. by apply res_bind_Ok in H as ([] & _ & [= <-]).
Qed.

Lemma measure_of_count d s e t g m :
  pd_source d ≠ GOVERNED_EXTERNAL_COUNTER → measure_of d s e t g = Ok m → pm_value m = Some (source_count d s).
Proof.
  intros Hs H. unfold measure_of in H. assert (Hm : state_measure d s = Ok m) by (by destruct (pd_source d)).
  unfold state_measure in Hm. apply res_bind_Ok in Hm as (basis & _ & Hm). apply res_bind_Ok in Hm as (v & Hv & Hm).
  apply res_bind_Ok in Hm as (i & _ & ->%measure_make_Ok). simpl. f_equal. unfold source_count.
  destruct (pd_source d); congruence.
Qed.

Lemma source_count_nonneg d s : 0 <= source_count d s.
Proof. unfold source_count, count_status. destruct (pd_source d); lia. Qed.

Lemma potential_nonneg ds s : 0 <= potential ds s.
Proof. induction ds as [|d ds IH]; simpl; [lia|]. pose proof (source_count_nonneg d s). lia. Qed.

(** One dimension that is neither revealed nor regressed has no larger a count. *)
Lemma count_step d p c v w :
  pd_direction d = DECREASE → pm_value p = Some v → pm_value c = Some w → ¬ revealed p c → ¬ regressed d p c →
  w <= v ∧ (improved d p c → w < v).
Proof.
  intros Hd Hp Hc Hrev Hreg. split.
  - destruct (decide (p = c)) as [->|Hne]; [assert (v = w) by congruence; lia|].
    destruct (decide (pm_basis_identity p = pm_basis_identity c)) as [Hb|Hb].
    + destruct (Z.le_gt_cases w v); [done|]. exfalso. apply Hreg. exists v, w. split; [done|]. rewrite Hd. simpl. lia.
    + exfalso. apply Hrev. split; [done|]. by intros (? & ? & _ & _ & ?).
  - intros (v' & w' & (Hv & Hw & _) & Hb). rewrite Hd in Hb. simpl in Hb. assert (v' = v) by congruence.
    assert (w' = w) by congruence. lia.
Qed.

Lemma potential_step t g s1 s2 e1 e2 ds pcs :
  counts_down ds →
  Forall2 (λ d (pc : ProgressMeasure * ProgressMeasure),
    measure_of d s1 e1 t g = Ok pc.1 ∧ measure_of d s2 e2 t g = Ok pc.2) ds pcs →
  (∀ d p c, (d, p, c) ∈ zip (zip ds (map fst pcs)) (map snd pcs) → ¬ revealed p c ∧ ¬ regressed d p c) →
  potential ds s2 <= potential ds s1 ∧
  ((∃ d p c, (d, p, c) ∈ zip (zip ds (map fst pcs)) (map snd pcs) ∧ improved d p c) → potential ds s2 < potential ds s1).
Proof.
  intros Hd H. induction H as [|d [p c] ds pcs [Hp Hc] H IH]; intros Hall.
  - split; [done|]. intros (? & ? & ? & Hin & _). by apply elem_of_nil in Hin.
  - inversion_clear Hd as [|? ? [Hs Hdir] Hds]. cbn [map fst snd zip zip_with] in *.
    destruct (IH Hds) as [IH1 IH2]. { intros d' p' c' Hin. apply Hall. by right. }
    destruct (Hall d p c) as [Hrev Hreg]; [set_solver|].
    apply measure_of_count in Hp; [|done]. apply measure_of_count in Hc; [|done].
    destruct (count_step _ _ _ _ _ Hdir Hp Hc Hrev Hreg) as [C1 C2]. simpl. split; [lia|].
    intros (d' & p' & c' & [Heq|Hin]%elem_of_cons & Hi).
    + injection Heq as -> -> ->. specialize (C2 Hi). lia.
    + assert (potential ds s2 < potential ds s1) by (apply IH2; by exists d', p', c'). lia.
Qed.

Lemma zip_fst_snd {A B} (l : list A) (k : list B) : length l = length k → map fst (zip l k) = l ∧ map snd (zip l k) = k.
Proof.
  revert k. induction l as [|x l IH]; intros [|y k] Hl; try done. injection Hl as Hl.
  destruct (IH k Hl) as [E1 E2]. simpl. split; by f_equal.
Qed.

Lemma progress_decreases t g contract s1 s2 e1 e2 r :
  counts_down (pc_dimensions contract) → evaluate_progress t g contract s1 s2 e1 e2 = Ok r →
  pr_classification r = MEASURABLE_PROGRESS →
  potential (pc_dimensions contract) s2 < potential (pc_dimensions contract) s1.
Proof.
  intros Hd Hev Hk. apply evaluate_Ok in Hev as [_ _ _ _ Hms Hlen Hcl _ _].
  apply derive_Ok in Hcl as [Hcl _]. rewrite Hk in Hcl. destruct Hcl as (Hrev & Himp & Hreg).
  destruct (zip_fst_snd _ _ Hlen) as [Z1 Z2].
  destruct (potential_step _ _ _ _ _ _ _ _ Hd Hms) as [_ Hlt].
  - rewrite Z1, Z2. intros d p c Hin. split; intros ?; [apply Hrev|apply Hreg]; by exists d, p, c.
  - apply Hlt. rewrite Z1, Z2. exact Himp.
Qed.

(** States each of which measurably progresses from the one before. *)
Inductive progresses (contract : ProgressMeasureContract) : OrchestrationState → nat → OrchestrationState → Prop :=
  | progresses_refl s : progresses contract s 0 s
  | progresses_step s1 s2 s3 n t g e1 e2 r :
      evaluate_progress t g contract s1 s2 e1 e2 = Ok r → pr_classification r = MEASURABLE_PROGRESS →
      progresses contract s2 n s3 → progresses contract s1 (S n) s3.

(** ** Properties *)

(** The classification of a change is determined by its dimensions: new information when two
    measures differ and cannot be compared, otherwise by which dimensions improved and which
    regressed; exchanging the two states exchanges progress and regression. *)
Theorem progress_classification_exact contract ps cs k :
  derive_progress_classification contract ps cs = Ok k →
  classified contract ps cs k ∧
  derive_progress_classification contract cs ps = Ok (reverse_classification k).
Proof.
  intros H. destruct (derive_Ok _ _ _ _ H) as (Hk & L1 & L2). split; [done|]. revert H.
  unfold derive_progress_classification, zip3_strict. rewrite L1, <- L2, <- L1, !Nat.eqb_refl. cbn [andb negb raise_if res_bind].
  rewrite (changes_flip (pc_dimensions contract) ps cs L1 L2), !existsb_flip. cbn [flip_change]. intros [= <-]. f_equal.
  destruct (existsb (λ y, bool_decide (y = REVEALED)) _); [done|].
  by destruct (existsb (λ y, bool_decide (y = IMPROVED)) _), (existsb (λ y, bool_decide (y = REGRESSED)) _).
Qed.

(** An evaluation returns a record that its own validation accepts: the measures come from
    the two states and the evidence, the classification and completion follow from the measures,
    and a task is complete only when every obligation is satisfied and every threshold reached. *)
Theorem evaluate_progress_sound t g contract s1 s2 e1 e2 r :
  evaluate_progress t g contract s1 s2 e1 e2 = Ok r →
  evaluated t g contract s1 s2 e1 e2 r ∧
  classified contract (pr_prior_measures r) (pr_current_measures r) (pr_classification r) ∧
  (pr_task_complete r = true →
   (∀ o, o ∈ reg_obligations (os_obligations s2) → ob_status o = SATISFIED) ∧
   ∀ d, d ∈ pc_dimensions contract → reached (pr_current_measures r) d).
Proof.
  intros H. apply evaluate_Ok in H as Hev. split; [done|]. destruct Hev as [_ _ _ _ _ _ Hcl Hco _]. split.
  - by apply derive_Ok in Hcl as [? _].
  - intros Hc. rewrite Hc in Hco. by apply task_complete_true in Hco.
Qed.

(** Measurable progress on decreasing obligation counts cannot go on for ever: every step
    lowers the counted total, so there are at most as many steps as the first state counts. *)
Theorem measurable_progress_runs_out contract s n s' :
  counts_down (pc_dimensions contract) → progresses contract s n s' →
  Z.of_nat n <= potential (pc_dimensions contract) s.
Proof.
  intros Hd H. induction H as [s|s1 s2 s3 n t g e1 e2 r Hev Hk H IH].
  - apply potential_nonneg.
  - pose proof (progress_decreases _ _ _ _ _ _ _ _ Hd Hev Hk). lia.
Qed.

(** *** Witnesses: one obligation becomes satisfied *)

Definition ex_state_with (status : ObligationStatus) : OrchestrationState :=
  {| os_obligations := {|
       reg_obligations := [{| ob_key := u "task"; ob_description := u "do it"; ob_dependency_ids := [];
                              ob_status := status; ob_block_reason := None |}];
       reg_max_obligations := MAX_OBLIGATIONS |};
     os_epistemic_state := {| es_records := []; es_max_records := MAX_EPISTEMIC_RECORDS |};
     os_capabilities := []; os_limits := OrchestrationLimits.default; os_logical_tick := 0;
     os_history := []; os_occurrence_owners := []; os_strategy_schemas := [] |}.

Definition ex_task_id : pystr := Eval vm_compute in sha256_hexdigest [].

Definition ex_contract : ProgressMeasureContract :=
  Eval vm_compute in match default_obligation_progress_contract with
    | Ok c => c
    | Raise _ => {| pc_contract_key := []; pc_contract_version := 0; pc_dimensions := [] |}
    end.

Definition ex_evaluation : res ProgressRecord :=
  evaluate_progress ex_task_id ex_task_id ex_contract (ex_state_with UNSATISFIED) (ex_state_with SATISFIED) ∅ ∅.

Definition ex_record : ProgressRecord := Eval vm_compute in match ex_evaluation with
  | Ok r => r
  | Raise _ => {| pr_task_id := []; pr_governance_id := []; pr_contract := ex_contract;
      pr_prior_orchestration_state_id := []; pr_current_orchestration_state_id := [];
      pr_prior_measures := []; pr_current_measures := []; pr_classification := NO_PROGRESS;
      pr_task_complete := false; pr_prior_state := ex_state_with UNSATISFIED;
      pr_current_state := ex_state_with SATISFIED; pr_prior_external_evidence := [];
      pr_current_external_evidence := [] |}
  end.

Lemma ex_evaluation_ok :
  evaluate_progress ex_task_id ex_task_id ex_contract (ex_state_with UNSATISFIED) (ex_state_with SATISFIED) ∅ ∅ =
  Ok ex_record.
Proof. vm_compute. reflexivity. Qed.

Lemma evaluate_progress_sound_witness :
  (∀ o, o ∈ reg_obligations (os_obligations (ex_state_with SATISFIED)) → ob_status o = SATISFIED) ∧
  pr_classification ex_record = MEASURABLE_PROGRESS.
Proof.
  split; [|reflexivity].
  destruct (evaluate_progress_sound _ _ _ _ _ _ _ _ ex_evaluation_ok) as (_ & _ & H). apply H. reflexivity.
Defined.

Lemma progress_classification_exact_witness :
  derive_progress_classification ex_contract (pr_current_measures ex_record) (pr_prior_measures ex_record) =
  Ok REGRESSION.
Proof.
  apply (progress_classification_exact ex_contract (pr_prior_measures ex_record) (pr_current_measures ex_record)
    MEASURABLE_PROGRESS). vm_compute. reflexivity.
Defined.

Lemma measurable_progress_runs_out_witness :
  Z.of_nat 1 <= potential (pc_dimensions ex_contract) (ex_state_with UNSATISFIED).
Proof.
  apply (measurable_progress_runs_out ex_contract _ 1 (ex_state_with SATISFIED)).
  - repeat constructor; done.
  - eapply progresses_step; [exact ex_evaluation_ok|reflexivity|]. apply progresses_refl.
Defined.
