(* ===== verification/Snapshot.v ===== *)
(** * Runtime snapshots ([src/ibae/runtime.py], first part)

    The records in which the native runtime reports its state: limits, lease resource vectors, the
    continuation context and the snapshot itself.  [from_record] validates a closed record from
    the native side; [canonical_record] writes it again. *)

From Stdlib Require Import Ascii String.
From stdpp Require Import base list gmap.
From S2P Require Import Prelude PyStr PyNumber Sha256 Canonical Records Orchestration Budget Progress.

Definition RUNTIME_PROTOCOL_VERSION : pystr := u "IBAE-RUNTIME-PROTOCOL-V1".
Definition MAX_RUNTIME_LEASES : Z := 64.
Definition MAX_RUNTIME_LOGICAL_TICK : Z :=
  2 * MAX_RUNTIME_REQUESTS + 2 * MAX_RUNTIME_EXECUTIONS + MAX_RUNTIME_RETRIES + MAX_RUNTIME_LEASES.

(** ** Closed records *)

(** [record[name]] *)
Definition field (record : list (pystr * pyval)) (name : string) : res pyval :=
  match find (λ kv, bool_decide (kv.1 = u name)) record with
  | Some kv => Ok kv.2
  | None => Raise KeyError
  end.

(** A string field that is a fingerprint; any other type is refused as well. *)
Definition fingerprint_field (record : list (pystr * pyval)) (name : string) : res pystr :=
  let* v := field record name in ProgressCounterEvidence.require_fingerprint_value v.

(** [_copy_exact_mapping]: the keys are read one by one, at most one more than there are fields. *)
Definition copy_exact_mapping (value : pyval) (expected_fields : list pystr) : res (list (pystr * pyval)) :=
  match value with
  | VDict l =>
      let* seen := res_fold (λ seen kv,
          match kv.1 with
          | VStr key =>
              raise_if (negb (str_in key expected_fields) || str_in key seen) ValueError ;;*
              Ok (key :: seen)
          | _ => Raise ValueError
          end) [] (take (S (length expected_fields)) l) in
      raise_if (length expected_fields <? length l)%nat ValueError ;;*
      raise_if (existsb (λ name, negb (str_in name seen)) expected_fields) ValueError ;;*
      res_map (λ name, let* v := dict_item l name in Ok (name, v)) (sorted expected_fields)
  | _ => Raise ValueError
  end.

(** [_require_exact_u64] *)
Definition require_exact_u64 (v : pyval) : res Z :=
  match v with
  | VInt z => raise_if ((z <? 0) || (MAX_U64 <? z)) ValueError ;;* Ok z
  | _ => Raise ValueError
  end.

(** [_require_exact_positive_int] *)
Definition require_exact_positive_int (v : pyval) (hard_limit : Z) : res Z :=
  match v with
  | VInt z => raise_if (z <=? 0) ValueError ;;* raise_if (hard_limit <? z) ValueError ;;* Ok z
  | _ => Raise ValueError
  end.

(** ** Limits *)

Record RuntimeLimits := {
  rl_max_requests : Z;
  rl_max_executions : Z;
  rl_max_retries : Z;
  rl_max_history : Z
}.

#[export] Instance RuntimeLimits_eq_dec : EqDecision RuntimeLimits.
Proof. solve_decision. Defined.

Module RuntimeLimits.

Definition field_names : list pystr :=
  [u "max_executions"; u "max_history"; u "max_requests"; u "max_retries"].

Definition make (max_requests max_executions max_retries max_history : pyval) : res RuntimeLimits :=
  let* max_requests := require_exact_positive_int max_requests MAX_RUNTIME_REQUESTS in
  let* max_executions := require_exact_positive_int max_executions MAX_RUNTIME_EXECUTIONS in
  let* max_retries := require_exact_positive_int max_retries MAX_RUNTIME_RETRIES in
  let* max_history := require_exact_positive_int max_history MAX_RUNTIME_HISTORY in
  Ok {| rl_max_requests := max_requests; rl_max_executions := max_executions;
        rl_max_retries := max_retries; rl_max_history := max_history |}.

Definition default : RuntimeLimits :=
  {| rl_max_requests := 32; rl_max_executions := 16; rl_max_retries := 4; rl_max_history := 32 |}.

Definition canonical_record (l : RuntimeLimits) : pyval :=
  obj [("max_executions", VInt (rl_max_executions l));
       ("max_history", VInt (rl_max_history l));
       ("max_requests", VInt (rl_max_requests l));
       ("max_retries", VInt (rl_max_retries l))]%string.

(** The copy and the constructor call that the readers of a limits record repeat. *)
Definition from_record (value : pyval) : res RuntimeLimits :=
  let* record := copy_exact_mapping value field_names in
  let* max_requests := field record "max_requests" in
  let* max_executions := field record "max_executions" in
  let* max_retries := field record "max_retries" in
  let* max_history := field record "max_history" in
  make max_requests max_executions max_retries max_history.

End RuntimeLimits.

(** ** Lease resources *)

Record RuntimeLeaseResourceVector := {
  rv_request_delta : Z;
  rv_execution_delta : Z;
  rv_retry_delta : Z;
  rv_mutation_delta : Z;
  rv_history_delta : Z
}.

#[export] Instance RuntimeLeaseResourceVector_eq_dec : EqDecision RuntimeLeaseResourceVector.
Proof. solve_decision. Defined.

Module RuntimeLeaseResourceVector.

(** The items of [canonical_record()], in order. *)
Definition items (v : RuntimeLeaseResourceVector) : list (string * Z) :=
  [("execution_delta", rv_execution_delta v);
   ("history_delta", rv_history_delta v);
   ("mutation_delta", rv_mutation_delta v);
   ("request_delta", rv_request_delta v);
   ("retry_delta", rv_retry_delta v)]%string.

Definition field_names : list pystr :=
  [u "execution_delta"; u "history_delta"; u "mutation_delta"; u "request_delta"; u "retry_delta"].

Definition canonical_record (v : RuntimeLeaseResourceVector) : pyval :=
  obj (map (λ kv, (kv.1, VInt kv.2)) (items v)).

(** The constructor on the values in the order of [items]. *)
Definition make (values : list pyval) : res RuntimeLeaseResourceVector :=
  let* checked := res_map require_exact_u64 values in
  match checked with
  | [execution; history; mutation; request; retry] =>
      Ok {| rv_request_delta := request; rv_execution_delta := execution; rv_retry_delta := retry;
            rv_mutation_delta := mutation; rv_history_delta := history |}
  | _ => Raise TypeError
  end.

Definition from_record (value : pyval) : res RuntimeLeaseResourceVector :=
  let* record := copy_exact_mapping value field_names in
  make (map snd record).

Definition is_zero (v : RuntimeLeaseResourceVector) : bool := forallb (λ kv, kv.2 =? 0) (items v).

(** [all(v[name] <= ceiling[name] for name in _LEASE_RESOURCE_FIELDS)] *)
Definition is_within (v ceiling : RuntimeLeaseResourceVector) : bool :=
  forallb (λ vc, vc.1.2 <=? vc.2.2) (zip (items v) (items ceiling)).

End RuntimeLeaseResourceVector.

(** ** The continuation context of a session *)

Record RuntimeContinuationSnapshot := {
  rc_task : pystr;
  rc_governance : pystr;
  rc_governance_receipt : pystr;
  rc_continuation_policy : pystr;
  rc_continuation_policy_receipt : pystr;
  rc_progress_contract : pystr;
  rc_cumulative_granted : RuntimeLeaseResourceVector;
  rc_total_ceiling : RuntimeLeaseResourceVector;
  rc_applied_grant_ids : list pystr;
  rc_leases_applied : Z;
  rc_next_lease_index : Z
}.

Module RuntimeContinuationSnapshot.

Definition field_names : list pystr :=
  [u "applied_grant_ids"; u "continuation_policy_id"; u "continuation_policy_receipt_id";
   u "cumulative_granted"; u "governance_id"; u "governance_receipt_id"; u "leases_applied";
   u "next_lease_index"; u "progress_contract_id"; u "protocol_version"; u "task_id"; u "total_ceiling"].

Definition from_record (value : pyval) : res RuntimeContinuationSnapshot :=
  let* record := copy_exact_mapping value field_names in
  let* version := field record "protocol_version" in
  raise_if (negb (py_equal version (VStr CONTINUATION_PROTOCOL_VERSION))) ValueError ;;*
  let* task := fingerprint_field record "task_id" in
  let* governance := fingerprint_field record "governance_id" in
  let* governance_receipt := fingerprint_field record "governance_receipt_id" in
  let* policy := fingerprint_field record "continuation_policy_id" in
  let* policy_receipt := fingerprint_field record "continuation_policy_receipt_id" in
  let* contract := fingerprint_field record "progress_contract_id" in
  let* grants := field record "applied_grant_ids" in
  let* grants := iterate_value grants in
  let* grants := materialize grants MAX_RUNTIME_LEASES in
  let* applied := res_map ProgressCounterEvidence.require_fingerprint_value grants in
  raise_if (has_duplicates applied) ValueError ;;*
  let* leases := field record "leases_applied" in
  let* leases_applied := require_exact_u64 leases in
  let* next := field record "next_lease_index" in
  let* next_lease_index := require_exact_u64 next in
  raise_if (negb (leases_applied =? Z.of_nat (length applied)) ||
            negb (next_lease_index =? leases_applied + 1)) ValueError ;;*
  let* cumulative := field record "cumulative_granted" in
  let* cumulative := RuntimeLeaseResourceVector.from_record cumulative in
  let* ceiling := field record "total_ceiling" in
  let* ceiling := RuntimeLeaseResourceVector.from_record ceiling in
  raise_if (negb (rv_mutation_delta cumulative =? 0) || negb (rv_mutation_delta ceiling =? 0)) ValueError ;;*
  raise_if (negb (RuntimeLeaseResourceVector.is_within cumulative ceiling)) ValueError ;;*
  Ok {| rc_task := task; rc_governance := governance; rc_governance_receipt := governance_receipt;
        rc_continuation_policy := policy; rc_continuation_policy_receipt := policy_receipt;
        rc_progress_contract := contract; rc_cumulative_granted := cumulative; rc_total_ceiling := ceiling;
        rc_applied_grant_ids := applied; rc_leases_applied := leases_applied;
        rc_next_lease_index := next_lease_index |}.

Definition canonical_record (c : RuntimeContinuationSnapshot) : pyval :=
  obj [("applied_grant_ids", strs_val (rc_applied_grant_ids c));
       ("continuation_policy_id", VStr (rc_continuation_policy c));
       ("continuation_policy_receipt_id", VStr (rc_continuation_policy_receipt c));
       ("progress_contract_id", VStr (rc_progress_contract c));
       ("cumulative_granted", RuntimeLeaseResourceVector.canonical_record (rc_cumulative_granted c));
       ("governance_id", VStr (rc_governance c));
       ("governance_receipt_id", VStr (rc_governance_receipt c));
       ("leases_applied", VInt (rc_leases_applied c));
       ("next_lease_index", VInt (rc_next_lease_index c));
       ("protocol_version", VStr CONTINUATION_PROTOCOL_VERSION);
       ("task_id", VStr (rc_task c));
       ("total_ceiling", RuntimeLeaseResourceVector.canonical_record (rc_total_ceiling c))]%string.

End RuntimeContinuationSnapshot.

(** ** Snapshots *)

Record RuntimeSnapshot := {
  rs_session_id : pystr;
  rs_state_id : pystr;
  rs_logical_tick : Z;
  rs_requests : Z;
  rs_executions : Z;
  rs_cache_hits : Z;
  rs_retries : Z;
  rs_history : list pystr;
  rs_cache : list (pystr * pystr);
  rs_limits : RuntimeLimits;
  rs_continuation : option RuntimeContinuationSnapshot
}.

Module RuntimeSnapshot.

Definition budget_fields : list pystr := [u "cache_hits"; u "executions"; u "requests"; u "retries"].
Definition cache_entry_fields : list pystr := [u "observation_id"; u "tool_key"].
Definition field_names : list pystr :=
  [u "cache"; u "counters"; u "history"; u "limits"; u "logical_tick"; u "protocol_version";
   u "session_id"; u "state_id"].

(** [isinstance(value, bool) or not isinstance(value, int) or value < 0] *)
Definition require_counter (v : pyval) : res Z :=
  match v with VInt z => raise_if (z <? 0) ValueError ;;* Ok z | _ => Raise ValueError end.

Definition cache_entry (item : pyval) : res (pyval * pyval) :=
  let* entry := copy_exact_mapping item cache_entry_fields in
  let* key := field entry "tool_key" in
  let* observation := field entry "observation_id" in
  Ok (key, observation).

Definition has_continuation (value : pyval) : bool :=
  match value with VDict l => is_ok (dict_item l (u "continuation")) | _ => false end.

Definition from_record (value : pyval) : res RuntimeSnapshot :=
  let extended := has_continuation value in
  let* record := copy_exact_mapping value (field_names ++ if extended then [u "continuation"] else []) in
  let* version := field record "protocol_version" in
  raise_if (negb (py_equal version (VStr RUNTIME_PROTOCOL_VERSION))) ValueError ;;*
  let* raw := field record "counters" in
  let* counters := copy_exact_mapping raw budget_fields in
  let* raw := field record "limits" in
  let* limits := RuntimeLimits.from_record raw in
  let* session_id := fingerprint_field record "session_id" in
  let* state_id := fingerprint_field record "state_id" in
  let* cache_hits := let* v := field counters "cache_hits" in require_counter v in
  let* executions := let* v := field counters "executions" in require_counter v in
  let* requests := let* v := field counters "requests" in require_counter v in
  let* retries := let* v := field counters "retries" in require_counter v in
  let* logical_tick := let* v := field record "logical_tick" in require_counter v in
  raise_if (MAX_RUNTIME_LOGICAL_TICK <? logical_tick) ValueError ;;*
  let* raw := field record "history" in
  let* raw := iterate_value raw in
  let* raw := materialize raw (rl_max_history limits) in
  let* history := res_map ProgressCounterEvidence.require_fingerprint_value raw in
  let* raw := field record "cache" in
  let* raw := iterate_value raw in
  let* raw := materialize raw (rl_max_executions limits) in
  let* entries := res_map cache_entry raw in
  let* cache := res_map (λ ko,
      let* key := ProgressCounterEvidence.require_fingerprint_value ko.1 in
      let* observation := ProgressCounterEvidence.require_fingerprint_value ko.2 in
      Ok (key, observation)) entries in
  let* continuation :=
    if extended then
      let* raw := field record "continuation" in
      let* c := RuntimeContinuationSnapshot.from_record raw in Ok (Some c)
    else Ok None in
  let expected_tick := requests + executions + cache_hits + retries + Z.of_nat (length cache) +
    match continuation with None => 0 | Some c => rc_leases_applied c end in
  raise_if (negb (logical_tick =? expected_tick)) ValueError ;;*
  Ok {| rs_session_id := session_id; rs_state_id := state_id; rs_logical_tick := logical_tick;
        rs_requests := requests; rs_executions := executions; rs_cache_hits := cache_hits;
        rs_retries := retries; rs_history := history; rs_cache := cache; rs_limits := limits;
        rs_continuation := continuation |}.

Definition canonical_record (s : RuntimeSnapshot) : pyval :=
  obj ([("cache", VList (map (λ ko, obj [("observation_id", VStr ko.2); ("tool_key", VStr ko.1)]%string)
                         (rs_cache s)));
        ("counters", obj
          [("cache_hits", VInt (rs_cache_hits s)); ("executions", VInt (rs_executions s));
           ("requests", VInt (rs_requests s)); ("retries", VInt (rs_retries s))]);
        ("history", strs_val (rs_history s));
        ("limits", RuntimeLimits.canonical_record (rs_limits s));
        ("logical_tick", VInt (rs_logical_tick s));
        ("protocol_version", VStr RUNTIME_PROTOCOL_VERSION);
        ("session_id", VStr (rs_session_id s));
        ("state_id", VStr (rs_state_id s))]%string ++
       match rs_continuation s with
       | None => []
       | Some c => [("continuation", RuntimeContinuationSnapshot.canonical_record c)]%string
       end).

(** [_canonical_text] *)
Definition canonical_text (s : RuntimeSnapshot) : res pystr :=
  let* r := CanonicalRuntimeRecord.from_value (canonical_record s) in Ok (rr_text r).

End RuntimeSnapshot.
