(* ===== verification/SnapshotFacts.v ===== *)
(** * Facts about runtime snapshots

    Reading a snapshot establishes its accounting and bounds, and a snapshot within them reads back
    from its own canonical record. *)

From Stdlib Require Import Ascii String.
From stdpp Require Import base list gmap.
From S2P Require Import Prelude PyStr PyNumber Sha256 Canonical CanonicalFacts Fingerprints Records RecordsFacts Epistemic Orchestration Budget BudgetFacts Progress Snapshot.

(** ** Reading the literals that the writers produce *)

Lemma copy_limits l :
  copy_exact_mapping (RuntimeLimits.canonical_record l) RuntimeLimits.field_names =
  Ok [(u "max_executions", VInt (rl_max_executions l)); (u "max_history", VInt (rl_max_history l));
      (u "max_requests", VInt (rl_max_requests l)); (u "max_retries", VInt (rl_max_retries l))].
Proof. vm_compute. reflexivity. Qed.

Lemma copy_resources v :
  copy_exact_mapping (RuntimeLeaseResourceVector.canonical_record v) RuntimeLeaseResourceVector.field_names =
  Ok (map (λ kv, (u kv.1, VInt kv.2)) (RuntimeLeaseResourceVector.items v)).
Proof. vm_compute. reflexivity. Qed.

Lemma copy_entry key observation :
  copy_exact_mapping (obj [("observation_id", VStr observation); ("tool_key", VStr key)]%string)
    RuntimeSnapshot.cache_entry_fields =
  Ok [(u "observation_id", VStr observation); (u "tool_key", VStr key)].
Proof. vm_compute. reflexivity. Qed.

Lemma copy_counters h e r t :
  copy_exact_mapping (obj [("cache_hits", VInt h); ("executions", VInt e); ("requests", VInt r);
    ("retries", VInt t)]%string) RuntimeSnapshot.budget_fields =
  Ok [(u "cache_hits", VInt h); (u "executions", VInt e); (u "requests", VInt r); (u "retries", VInt t)].
Proof. vm_compute. reflexivity. Qed.

Lemma copy_continuation a b c d e f g h i j k l :
  copy_exact_mapping (obj [("applied_grant_ids", a); ("continuation_policy_id", b);
    ("continuation_policy_receipt_id", c); ("progress_contract_id", d); ("cumulative_granted", e);
    ("governance_id", f); ("governance_receipt_id", g); ("leases_applied", h); ("next_lease_index", i);
    ("protocol_version", j); ("task_id", k); ("total_ceiling", l)]%string) RuntimeContinuationSnapshot.field_names =
  Ok [(u "applied_grant_ids", a); (u "continuation_policy_id", b); (u "continuation_policy_receipt_id", c);
      (u "cumulative_granted", e); (u "governance_id", f); (u "governance_receipt_id", g); (u "leases_applied", h);
      (u "next_lease_index", i); (u "progress_contract_id", d); (u "protocol_version", j); (u "task_id", k);
      (u "total_ceiling", l)].
Proof. vm_compute. reflexivity. Qed.

Lemma copy_snapshot a b c d e f g h :
  copy_exact_mapping (obj [("cache", a); ("counters", b); ("history", c); ("limits", d); ("logical_tick", e);
    ("protocol_version", f); ("session_id", g); ("state_id", h)]%string)
    (RuntimeSnapshot.field_names ++ []) =
  Ok [(u "cache", a); (u "counters", b); (u "history", c); (u "limits", d); (u "logical_tick", e);
      (u "protocol_version", f); (u "session_id", g); (u "state_id", h)].
Proof. vm_compute. reflexivity. Qed.

Lemma copy_extended a b c d e f g h i :
  copy_exact_mapping (obj [("cache", a); ("counters", b); ("history", c); ("limits", d); ("logical_tick", e);
    ("protocol_version", f); ("session_id", g); ("state_id", h); ("continuation", i)]%string)
    (RuntimeSnapshot.field_names ++ [u "continuation"]) =
  Ok [(u "cache", a); (u "continuation", i); (u "counters", b); (u "history", c); (u "limits", d);
      (u "logical_tick", e); (u "protocol_version", f); (u "session_id", g); (u "state_id", h)].
Proof. vm_compute. reflexivity. Qed.

(** ** Well-formed records *)

Definition fingerprint_ok (s : pystr) : Prop := fingerprint_pattern s = true.

Record limits_ok (l : RuntimeLimits) : Prop := {
  li_requests : 0 < rl_max_requests l <= MAX_RUNTIME_REQUESTS;
  li_executions : 0 < rl_max_executions l <= MAX_RUNTIME_EXECUTIONS;
  li_retries : 0 < rl_max_retries l <= MAX_RUNTIME_RETRIES;
  li_history : 0 < rl_max_history l <= MAX_RUNTIME_HISTORY
}.

Definition resources_ok (v : RuntimeLeaseResourceVector) : Prop :=
  Forall (λ kv, 0 <= kv.2 <= MAX_U64) (RuntimeLeaseResourceVector.items v).

Record context_ok (c : RuntimeContinuationSnapshot) : Prop := {
  co_identities : Forall fingerprint_ok
    [rc_task c; rc_governance c; rc_governance_receipt c; rc_continuation_policy c;
     rc_continuation_policy_receipt c; rc_progress_contract c];
  co_grants : Forall fingerprint_ok (rc_applied_grant_ids c);
  co_distinct : NoDup (rc_applied_grant_ids c);
  co_bound : rc_leases_applied c <= MAX_RUNTIME_LEASES;
  co_applied : rc_leases_applied c = Z.of_nat (length (rc_applied_grant_ids c));
  co_next : rc_next_lease_index c = rc_leases_applied c + 1;
  co_cumulative : resources_ok (rc_cumulative_granted c);
  co_ceiling : resources_ok (rc_total_ceiling c);
  co_mutation : rv_mutation_delta (rc_cumulative_granted c) = 0 ∧ rv_mutation_delta (rc_total_ceiling c) = 0;
  co_within : RuntimeLeaseResourceVector.is_within (rc_cumulative_granted c) (rc_total_ceiling c) = true
}.

Definition leases_of (s : RuntimeSnapshot) : Z :=
  match rs_continuation s with None => 0 | Some c => rc_leases_applied c end.

Record snapshot_ok (s : RuntimeSnapshot) : Prop := {
  sn_session : fingerprint_ok (rs_session_id s);
  sn_state : fingerprint_ok (rs_state_id s);
  sn_limits : limits_ok (rs_limits s);
  sn_counters : Forall (λ z, 0 <= z) [rs_cache_hits s; rs_executions s; rs_requests s; rs_retries s];
  sn_tick : rs_logical_tick s =
    rs_requests s + rs_executions s + rs_cache_hits s + rs_retries s + Z.of_nat (length (rs_cache s)) + leases_of s;
  sn_tick_bound : rs_logical_tick s <= MAX_RUNTIME_LOGICAL_TICK;
  sn_history : Forall fingerprint_ok (rs_history s);
  sn_history_bound : Z.of_nat (length (rs_history s)) <= rl_max_history (rs_limits s);
  sn_cache : Forall (λ ko, fingerprint_ok ko.1 ∧ fingerprint_ok ko.2) (rs_cache s);
  sn_cache_bound : Z.of_nat (length (rs_cache s)) <= rl_max_executions (rs_limits s);
  sn_continuation : ∀ c, rs_continuation s = Some c → context_ok c
}.

(** ** Element readers *)

Lemma fingerprint_value_Ok v s :
  ProgressCounterEvidence.require_fingerprint_value v = Ok s ↔ v = VStr s ∧ fingerprint_ok s.
Proof.
  unfold ProgressCounterEvidence.require_fingerprint_value, require_fingerprint, fingerprint_ok.
  destruct v; try (split; [done|by intros []]). split.
  - intros ([] & H%raise_if_Ok%negb_false_iff & [= <-])%res_bind_Ok. done.
  - intros [[= ->] ->]. done.
Qed.

Lemma fingerprint_field_Ok record name s :
  fingerprint_field record name = Ok s ↔ field record name = Ok (VStr s) ∧ fingerprint_ok s.
Proof.
  unfold fingerprint_field. rewrite res_bind_Ok. setoid_rewrite fingerprint_value_Ok. naive_solver.
Qed.

Lemma fingerprints_Ok l : Forall fingerprint_ok l →
  res_map ProgressCounterEvidence.require_fingerprint_value (map VStr l) = Ok l.
Proof.
  intros Hl. apply res_map_Ok. induction Hl as [|x l Hx _ IH]; constructor; [by apply fingerprint_value_Ok|done].
Qed.

Lemma fingerprints_inv vs l :
  res_map ProgressCounterEvidence.require_fingerprint_value vs = Ok l → vs = map VStr l ∧ Forall fingerprint_ok l.
Proof.
  intros H%res_map_Ok. induction H as [|v s vs l [-> Hs]%fingerprint_value_Ok _ [-> IH]]; [done|]. by split; [|constructor].
Qed.

Lemma exact_u64_Ok v z : require_exact_u64 v = Ok z ↔ v = VInt z ∧ 0 <= z <= MAX_U64.
Proof.
  unfold require_exact_u64. destruct v; try (split; [done|by intros []]). rewrite res_bind_Ok. split.
  - intros ([] & H%raise_if_Ok & [= <-]). bool_inv. split; [done|lia].
  - intros [[= ->] ?]. exists tt. split; [|done]. apply raise_if_Ok, orb_false_iff. split; apply Z.ltb_ge; lia.
Qed.

Lemma counter_Ok v z : RuntimeSnapshot.require_counter v = Ok z ↔ v = VInt z ∧ 0 <= z.
Proof.
  unfold RuntimeSnapshot.require_counter. destruct v; try (split; [done|by intros []]). rewrite res_bind_Ok. split.
  - intros ([] & H%raise_if_Ok & [= <-]). bool_inv. split; [done|lia].
  - intros [[= ->] ?]. exists tt. split; [|done]. apply raise_if_Ok, Z.ltb_ge. lia.
Qed.

Lemma positive_Ok v h z : require_exact_positive_int v h = Ok z ↔ v = VInt z ∧ 0 < z <= h.
Proof.
  unfold require_exact_positive_int. destruct v; try (split; [done|by intros []]). rewrite res_bind_Ok. split.
  - intros ([] & H%raise_if_Ok & ([] & H'%raise_if_Ok & [= <-])%res_bind_Ok). bool_inv. split; [done|lia].
  - intros [[= ->] ?]. exists tt. split; [apply raise_if_Ok, Z.leb_gt; lia|].
    rewrite (proj2 (raise_if_Ok _ _ tt)); [done|]. apply Z.ltb_ge. lia.
Qed.

(** The values that the readers return. *)
Lemma fingerprint_value s : fingerprint_ok s → ProgressCounterEvidence.require_fingerprint_value (VStr s) = Ok s.
Proof. by rewrite fingerprint_value_Ok. Qed.

Lemma u64_value z : 0 <= z <= MAX_U64 → require_exact_u64 (VInt z) = Ok z.
Proof. by rewrite exact_u64_Ok. Qed.

Lemma counter_value z : 0 <= z → RuntimeSnapshot.require_counter (VInt z) = Ok z.
Proof. by rewrite counter_Ok. Qed.

Lemma positive_value z h : 0 < z <= h → require_exact_positive_int (VInt z) h = Ok z.
Proof. by rewrite positive_Ok. Qed.

(** ** Reading and writing *)

Lemma field_here name v record : Snapshot.field ((u name, v) :: record) name = Ok v.
Proof. unfold field. cbn [find fst]. by rewrite bool_decide_true. Qed.

Lemma field_there other name v record :
  bool_decide (u other = u name) = false → Snapshot.field ((u other, v) :: record) name = Snapshot.field record name.
Proof. unfold field. cbn [find fst]. by intros ->. Qed.

(** Look up the fields of a copied record by name. *)
Ltac read_fields :=
  repeat first [rewrite field_here | rewrite field_there by (vm_compute; reflexivity)]; cbn [res_bind].

Lemma limits_from_record_ok v l : RuntimeLimits.from_record v = Ok l → limits_ok l.
Proof.
  unfold RuntimeLimits.from_record, RuntimeLimits.make. intros (r & _ & H)%res_bind_Ok.
  do 4 (apply res_bind_Ok in H as (? & _ & H)).
  apply res_bind_Ok in H as (r1 & [_ L1]%positive_Ok & H). apply res_bind_Ok in H as (r2 & [_ L2]%positive_Ok & H).
  apply res_bind_Ok in H as (r3 & [_ L3]%positive_Ok & H). apply res_bind_Ok in H as (r4 & [_ L4]%positive_Ok & [= <-]).
  by constructor.
Qed.

Lemma limits_read_back l : limits_ok l → RuntimeLimits.from_record (RuntimeLimits.canonical_record l) = Ok l.
Proof.
  intros [Hr He Ht Hh]. unfold RuntimeLimits.from_record. rewrite copy_limits. cbn [res_bind]. read_fields.
  unfold RuntimeLimits.make. rewrite !positive_value by done. by destruct l.
Qed.

Lemma resources_from_record_ok v r : RuntimeLeaseResourceVector.from_record v = Ok r → resources_ok r.
Proof.
  unfold RuntimeLeaseResourceVector.from_record, RuntimeLeaseResourceVector.make. intros (l & _ & H)%res_bind_Ok.
  apply res_bind_Ok in H as (zs & Hz%res_map_Ok & H).
  assert (Hall : Forall (λ z, 0 <= z <= MAX_U64) zs)
    by (clear H; induction Hz as [|v' z vs zs [_ ?]%exact_u64_Ok _ IH]; by constructor).
  destruct zs as [|e [|h [|m [|q [|t []]]]]]; try done. injection H as <-.
  rewrite !Forall_cons in Hall. unfold resources_ok, RuntimeLeaseResourceVector.items.
  rewrite !Forall_cons, Forall_nil. cbn [fst snd rv_execution_delta rv_history_delta rv_mutation_delta rv_request_delta rv_retry_delta]. tauto.
Qed.

Lemma resources_read_back r :
  resources_ok r → RuntimeLeaseResourceVector.from_record (RuntimeLeaseResourceVector.canonical_record r) = Ok r.
Proof.
  unfold resources_ok, RuntimeLeaseResourceVector.from_record. rewrite copy_resources. cbn [res_bind].
  unfold RuntimeLeaseResourceVector.items, RuntimeLeaseResourceVector.make. rewrite !Forall_cons. cbn [map fst snd].
  intros (? & ? & ? & ? & ? & _). cbn [res_map].
  rewrite !u64_value by done. by destruct r.
Qed.

Lemma context_from_record_ok v c : RuntimeContinuationSnapshot.from_record v = Ok c → context_ok c.
Proof.
  unfold RuntimeContinuationSnapshot.from_record. intros (r & _ & H)%res_bind_Ok.
  apply res_bind_Ok in H as (ver & _ & H). apply res_bind_Ok in H as ([] & _ & H).
  apply res_bind_Ok in H as (f1 & [_ F1]%fingerprint_field_Ok & H).
  apply res_bind_Ok in H as (f2 & [_ F2]%fingerprint_field_Ok & H).
  apply res_bind_Ok in H as (f3 & [_ F3]%fingerprint_field_Ok & H).
  apply res_bind_Ok in H as (f4 & [_ F4]%fingerprint_field_Ok & H).
  apply res_bind_Ok in H as (f5 & [_ F5]%fingerprint_field_Ok & H).
  apply res_bind_Ok in H as (f6 & [_ F6]%fingerprint_field_Ok & H).
  apply res_bind_Ok in H as (g1 & _ & H). apply res_bind_Ok in H as (g2 & _ & H).
  apply res_bind_Ok in H as (g3 & [-> Hlen]%materialize_Ok & H).
  apply res_bind_Ok in H as (gs & [-> Hgs]%fingerprints_inv & H). rewrite length_map in Hlen.
  apply res_bind_Ok in H as ([] & Hd%raise_if_Ok%has_duplicates_false & H).
  apply res_bind_Ok in H as (l1 & _ & H). apply res_bind_Ok in H as (la & _ & H).
  apply res_bind_Ok in H as (n1 & _ & H). apply res_bind_Ok in H as (ni & _ & H).
  apply res_bind_Ok in H as ([] & Hi%raise_if_Ok & H).
  apply res_bind_Ok in H as (u1 & _ & H). apply res_bind_Ok in H as (cum & Hcum%resources_from_record_ok & H).
  apply res_bind_Ok in H as (u2 & _ & H). apply res_bind_Ok in H as (ceil & Hceil%resources_from_record_ok & H).
  apply res_bind_Ok in H as ([] & Hm%raise_if_Ok & H).
  apply res_bind_Ok in H as ([] & Hw%raise_if_Ok%negb_false_iff & [= <-]). bool_inv.
  constructor; cbn; try done; try lia. by repeat constructor.
Qed.

Lemma max_leases_limit : limit_ok MAX_RUNTIME_LEASES.
Proof. vm_compute. reflexivity. Qed.

Lemma context_read_back c :
  context_ok c → RuntimeContinuationSnapshot.from_record (RuntimeContinuationSnapshot.canonical_record c) = Ok c.
Proof.
  intros [Hids Hg Hnd Hb Ha Hn Hcum Hceil [Hm1 Hm2] Hw]. rewrite !Forall_cons in Hids.
  destruct Hids as (? & ? & ? & ? & ? & ? & _).
  unfold RuntimeContinuationSnapshot.from_record, RuntimeContinuationSnapshot.canonical_record.
  rewrite copy_continuation. cbn [res_bind]. unfold fingerprint_field. read_fields.
  rewrite py_equal_refl by done. cbn [negb raise_if res_bind].
  rewrite !fingerprint_value by done. cbn [res_bind iterate_value strs_val].
  rewrite materialize_list by apply max_leases_limit. rewrite length_map, (proj2 (Z.leb_le _ _)) by lia. cbn [res_bind].
  rewrite fingerprints_Ok by done. cbn [res_bind]. rewrite (proj2 (has_duplicates_false _)) by done.
  cbn [raise_if res_bind].
  assert (Hmax : MAX_RUNTIME_LEASES + 1 <= MAX_U64) by (vm_compute; done).
  rewrite !u64_value by lia. cbn [res_bind].
  rewrite (proj2 (Z.eqb_eq _ _) Ha), (proj2 (Z.eqb_eq _ _) Hn). cbn [negb orb raise_if res_bind].
  rewrite !resources_read_back by done. cbn [res_bind]. rewrite Hm1, Hm2, Hw. cbn. by destruct c.
Qed.

Lemma cache_inv raw entries cache :
  res_map RuntimeSnapshot.cache_entry raw = Ok entries →
  res_map (λ ko, let* key := ProgressCounterEvidence.require_fingerprint_value ko.1 in
                 let* observation := ProgressCounterEvidence.require_fingerprint_value ko.2 in
                 Ok (key, observation)) entries = Ok cache →
  length cache = length raw ∧ Forall (λ ko, fingerprint_ok ko.1 ∧ fingerprint_ok ko.2) cache.
Proof.
  intros He%res_map_Ok%Forall2_length Hc%res_map_Ok. rewrite He. split; [symmetry; by eapply Forall2_length|].
  clear He. induction Hc as [|e ko es cs H _ IH]; constructor; [|done].
  apply res_bind_Ok in H as (k & [_ Hk]%fingerprint_value_Ok & H).
  by apply res_bind_Ok in H as (o & [_ Ho]%fingerprint_value_Ok & [= <-]).
Qed.

Lemma cache_read_back cache :
  Forall (λ ko : pystr * pystr, fingerprint_ok ko.1 ∧ fingerprint_ok ko.2) cache →
  (let* entries := res_map RuntimeSnapshot.cache_entry
     (map (λ ko, obj [("observation_id", VStr ko.2); ("tool_key", VStr ko.1)]%string) cache) in
   res_map (λ ko, let* key := ProgressCounterEvidence.require_fingerprint_value ko.1 in
                  let* observation := ProgressCounterEvidence.require_fingerprint_value ko.2 in
                  Ok (key, observation)) entries) = Ok cache.
Proof.
  intros Hc. apply res_bind_Ok. exists (map (λ ko : pystr * pystr, (VStr ko.1, VStr ko.2)) cache).
  rewrite !res_map_Ok. induction Hc as [|[k o] cache [Hk Ho] _ [IH1 IH2]]; [by split|]. cbn [map fst snd] in *.
  split; (constructor; [|done]).
  - unfold RuntimeSnapshot.cache_entry. rewrite copy_entry. cbn [res_bind]. by read_fields.
  - cbn [fst snd]. by rewrite !fingerprint_value by done.
Qed.

Lemma from_record_ok v s : RuntimeSnapshot.from_record v = Ok s → snapshot_ok s.
Proof.
  unfold RuntimeSnapshot.from_record. intros (r & _ & H)%res_bind_Ok.
  apply res_bind_Ok in H as (ver & _ & H). apply res_bind_Ok in H as ([] & _ & H).
  apply res_bind_Ok in H as (r1 & _ & H). apply res_bind_Ok in H as (cs & _ & H).
  apply res_bind_Ok in H as (r2 & _ & H). apply res_bind_Ok in H as (lim & Hlim%limits_from_record_ok & H).
  apply res_bind_Ok in H as (f1 & [_ F1]%fingerprint_field_Ok & H).
  apply res_bind_Ok in H as (f2 & [_ F2]%fingerprint_field_Ok & H).
  apply res_bind_Ok in H as (n1 & (v1 & _ & [_ N1]%counter_Ok)%res_bind_Ok & H).
  apply res_bind_Ok in H as (n2 & (v2 & _ & [_ N2]%counter_Ok)%res_bind_Ok & H).
  apply res_bind_Ok in H as (n3 & (v3 & _ & [_ N3]%counter_Ok)%res_bind_Ok & H).
  apply res_bind_Ok in H as (n4 & (v4 & _ & [_ N4]%counter_Ok)%res_bind_Ok & H).
  apply res_bind_Ok in H as (n5 & (v5 & _ & [_ N5]%counter_Ok)%res_bind_Ok & H).
  apply res_bind_Ok in H as ([] & Hb%raise_if_Ok & H).
  apply res_bind_Ok in H as (h1 & _ & H). apply res_bind_Ok in H as (h2 & _ & H).
  apply res_bind_Ok in H as (h3 & [-> Hhl]%materialize_Ok & H).
  apply res_bind_Ok in H as (hist & [-> Hh]%fingerprints_inv & H). rewrite length_map in Hhl.
  apply res_bind_Ok in H as (c1 & _ & H). apply res_bind_Ok in H as (c2 & _ & H).
  apply res_bind_Ok in H as (c3 & [-> Hcl]%materialize_Ok & H).
  apply res_bind_Ok in H as (es & He & H). apply res_bind_Ok in H as (cache & Hc & H).
  destruct (cache_inv _ _ _ He Hc) as [Hlen Hcache]. rewrite <- Hlen in Hcl.
  apply res_bind_Ok in H as (cont & Hcont & H). apply res_bind_Ok in H as ([] & Ht%raise_if_Ok & [= <-]).
  bool_inv. constructor; try done; cbn [rs_cache_hits rs_executions rs_requests rs_retries rs_continuation].
  - by rewrite !Forall_cons.
  - intros c ->. destruct (RuntimeSnapshot.has_continuation v); [|done].
    apply res_bind_Ok in Hcont as (rc & _ & Hcont). apply res_bind_Ok in Hcont as (c' & Hc' & [= <-]).
    by apply context_from_record_ok in Hc'.
Qed.

Lemma extended_snapshot s :
  RuntimeSnapshot.has_continuation (RuntimeSnapshot.canonical_record s) = is_some (rs_continuation s).
Proof.
  destruct s as [? ? ? ? ? ? ? ? ? ? [c|]]; vm_compute; reflexivity.
Qed.

(** The two shapes of a written snapshot are copied as they are, up to the order of the fields. *)
Lemma copy_written s :
  ∃ record,
    copy_exact_mapping (RuntimeSnapshot.canonical_record s)
      (RuntimeSnapshot.field_names ++ if is_some (rs_continuation s) then [u "continuation"] else []) = Ok record ∧
    Snapshot.field record "protocol_version" = Ok (VStr RUNTIME_PROTOCOL_VERSION) ∧
    Snapshot.field record "counters" = Ok (obj
      [("cache_hits", VInt (rs_cache_hits s)); ("executions", VInt (rs_executions s));
       ("requests", VInt (rs_requests s)); ("retries", VInt (rs_retries s))]%string) ∧
    Snapshot.field record "limits" = Ok (RuntimeLimits.canonical_record (rs_limits s)) ∧
    Snapshot.field record "session_id" = Ok (VStr (rs_session_id s)) ∧
    Snapshot.field record "state_id" = Ok (VStr (rs_state_id s)) ∧
    Snapshot.field record "logical_tick" = Ok (VInt (rs_logical_tick s)) ∧
    Snapshot.field record "history" = Ok (strs_val (rs_history s)) ∧
    Snapshot.field record "cache" = Ok (VList (map (λ ko, obj [("observation_id", VStr ko.2);
      ("tool_key", VStr ko.1)]%string) (rs_cache s))) ∧
    (∀ c, rs_continuation s = Some c →
       Snapshot.field record "continuation" = Ok (RuntimeContinuationSnapshot.canonical_record c)).
Proof.
  unfold RuntimeSnapshot.canonical_record. destruct (rs_continuation s) as [c|]; cbn [app is_some].
  - rewrite copy_extended. eexists. split; [reflexivity|]. repeat (split; [by read_fields|]).
    intros c' [= <-]. by read_fields.
  - rewrite copy_snapshot. eexists. split; [reflexivity|]. repeat (split; [by read_fields|]). done.
Qed.

Lemma from_record_written s :
  snapshot_ok s → RuntimeSnapshot.from_record (RuntimeSnapshot.canonical_record s) = Ok s.
Proof.
  intros [Hs Hst Hl Hc Ht Htb Hh Hhb Hca Hcb Hcont]. rewrite !Forall_cons in Hc. destruct Hc as (? & ? & ? & ? & _).
  assert (Hlen1 : limit_ok (rl_max_history (rs_limits s)))
    by (apply (limit_ok_small _ MAX_RUNTIME_HISTORY); [vm_compute; done|apply Hl]).
  assert (Hlen2 : limit_ok (rl_max_executions (rs_limits s)))
    by (apply (limit_ok_small _ MAX_RUNTIME_EXECUTIONS); [vm_compute; done|apply Hl]).
  assert (Htick : 0 <= rs_logical_tick s).
  { rewrite Ht. unfold leases_of. destruct (rs_continuation s) as [c|]; [|lia].
    pose proof (co_applied _ (Hcont c eq_refl)). lia. }
  destruct (copy_written s) as (record & Hr & R1 & R2 & R3 & R4 & R5 & R6 & R7 & R8 & R9).
  unfold RuntimeSnapshot.from_record. rewrite extended_snapshot, Hr. cbn [res_bind].
  rewrite R1. cbn [res_bind]. rewrite py_equal_refl by done. cbn [negb raise_if res_bind].
  rewrite R2. cbn [res_bind]. rewrite copy_counters. cbn [res_bind]. rewrite R3. cbn [res_bind].
  rewrite limits_read_back by done. cbn [res_bind]. unfold fingerprint_field. rewrite R4, R5. cbn [res_bind].
  rewrite !fingerprint_value by done. cbn [res_bind]. read_fields. rewrite R6. cbn [res_bind].
  rewrite !counter_value by done. cbn [res_bind].
  rewrite (proj2 (Z.ltb_ge _ _)) by done. cbn [raise_if res_bind]. rewrite R7. cbn [res_bind iterate_value strs_val].
  rewrite materialize_list, length_map, (proj2 (Z.leb_le _ _)) by done. cbn [res_bind].
  rewrite fingerprints_Ok by done. cbn [res_bind]. rewrite R8. cbn [res_bind iterate_value].
  rewrite materialize_list, length_map, (proj2 (Z.leb_le _ _)) by done. cbn [res_bind].
  pose proof (cache_read_back _ Hca) as Hcache. apply res_bind_Ok in Hcache as (entries & -> & Hcache).
  cbn [res_bind]. rewrite Hcache. cbn [res_bind].
  assert (Hread : (if is_some (rs_continuation s) then
      let* raw := Snapshot.field record "continuation" in
      let* c := RuntimeContinuationSnapshot.from_record raw in Ok (Some c) else Ok None) = Ok (rs_continuation s)).
  { destruct (rs_continuation s) as [c|]; [|done]. cbn [is_some]. rewrite (R9 c eq_refl). cbn [res_bind].
    by rewrite context_read_back by (by apply Hcont). }
  rewrite Hread. cbn [res_bind]. unfold leases_of in Ht. rewrite Ht at 1. rewrite Z.eqb_refl. cbn. by destruct s.
Qed.

(** ** Properties *)

(** A snapshot that is read from a record is well formed: its logical tick is the sum of its
    counters, its cache entries and the leases applied, its history and cache are within its limits
    and those within the runtime's, and its lease indices, grants and ceiling agree.  Every well
    formed snapshot, and so every snapshot that was read, reads back from its own record. *)
Theorem snapshot_roundtrip :
  (∀ v s, RuntimeSnapshot.from_record v = Ok s → snapshot_ok s) ∧
  (∀ s, snapshot_ok s → RuntimeSnapshot.from_record (RuntimeSnapshot.canonical_record s) = Ok s).
Proof. split; [apply from_record_ok|apply from_record_written]. Qed.

Definition nx_id : pystr := Eval vm_compute in sha256_hexdigest [].

(** A session after one execution, whose observation is cached. *)
Definition nx_snapshot : RuntimeSnapshot := {|
  rs_session_id := nx_id; rs_state_id := nx_id; rs_logical_tick := 3; rs_requests := 1; rs_executions := 1;
  rs_cache_hits := 0; rs_retries := 0; rs_history := [nx_id]; rs_cache := [(nx_id, nx_id)];
  rs_limits := RuntimeLimits.default; rs_continuation := None |}.

Lemma snapshot_roundtrip_witness :
  snapshot_ok nx_snapshot ∧
  RuntimeSnapshot.from_record (RuntimeSnapshot.canonical_record nx_snapshot) = Ok nx_snapshot.
Proof.
  destruct snapshot_roundtrip as [Hread Hback].
  assert (Hok : snapshot_ok nx_snapshot).
  { apply (Hread (RuntimeSnapshot.canonical_record nx_snapshot)). vm_compute. reflexivity. }
  split; [exact Hok|exact (Hback _ Hok)].
Defined.
