(* ===== verification/Receipts.v ===== *)
(** * Runtime receipts ([src/ibae/runtime.py], second part)

    The validation of the two receipts that the native runtime returns: one per executed command
    and one per applied lease.  A receipt that validates is stored as canonical text; the checks
    below tie its status, reason, accounting and state identities together. *)

From Stdlib Require Import Ascii String.
From stdpp Require Import base list gmap.
From S2P Require Import Prelude PyStr PyNumber Sha256 Canonical Records Orchestration Budget Progress Snapshot.

Definition RUNTIME_RECEIPT_DOMAIN : pystr := u "ibae.runtime-receipt-id.v1".
Definition RUNTIME_LEASE_APPLICATION_PROTOCOL_VERSION : pystr := u "IBAE-RUNTIME-LEASE-APPLICATION-RECEIPT-V1".
Definition RUNTIME_LEASE_APPLICATION_ID_DOMAIN : pystr := u "ibae.runtime-lease-application-id.v1".
Definition RUNTIME_LEASE_APPLICATION_RECEIPT_ID_DOMAIN : pystr := u "ibae.runtime-lease-application-receipt-id.v1".

(** The capabilities that the native module issues are opaque: what Python can do with one is ask
    whether it validates a text. *)
Class NativeSeals := {
  receipt_seal : Type;
  receipt_seal_validates : receipt_seal → pystr → bool;
  state_seal : Type;
  state_seal_validates : state_seal → pystr → bool;
  request_seal : Type;
  request_seal_validates : request_seal → pystr → bool;
  grant_seal : Type;
  grant_seal_validates : grant_seal → pystr → bool
}.

(** ** Field tests *)

(** [value == text] for the text [text]. *)
Definition is_text (v : pyval) (text : pystr) : bool := py_equal v (VStr text).

Definition is_none (v : pyval) : bool := match v with VNone => true | _ => false end.

Definition is_str_in (v : pyval) (l : list pystr) : bool := match v with VStr s => str_in s l | _ => false end.

(** A dictionary of the copied fields. *)
Definition record_val (record : list (pystr * pyval)) : pyval := VDict (map (λ kv, (VStr kv.1, kv.2)) record).

(** [record.pop(name)], the rest of the record. *)
Definition without (record : list (pystr * pyval)) (name : string) : list (pystr * pyval) :=
  List.filter (λ kv, negb (bool_decide (kv.1 = u name))) record.

(** [_require_exact_dict] *)
Definition require_exact_dict (value : pyval) (expected_fields : list pystr) : res (list (pyval * pyval)) :=
  match value with
  | VDict l =>
      raise_if (negb (length l =? length expected_fields)%nat ||
                existsb (λ kv, negb (is_str_in kv.1 expected_fields)) l) ValueError ;;*
      Ok l
  | _ => Raise ValueError
  end.

Definition u64_item (l : list (pyval * pyval)) (name : pystr) : res Z :=
  let* v := dict_item l name in require_exact_u64 v.

(** [_require_optional_fingerprint] *)
Definition require_optional_fingerprint (v : pyval) : res unit :=
  match v with VNone => Ok tt | VStr s => require_fingerprint s | _ => Raise ValueError end.

(** [_require_optional_bounded_text] *)
Definition require_optional_bounded_text (v : pyval) : res unit :=
  match v with
  | VNone => Ok tt
  | VStr s => raise_if (negb (nonempty s)) ValueError ;;* bounded_utf8_length s MAX_RECORD_TEXT_BYTES ;;* Ok tt
  | _ => Raise ValueError
  end.

(** [_require_optional_command_type] *)
Definition require_optional_command_type (v : pyval) : res unit :=
  match v with
  | VNone => Ok tt
  | VStr s => bounded_utf8_length s MAX_CANONICAL_STRING_BYTES ;;* Ok tt
  | _ => Raise ValueError
  end.

(** [_require_none] and [_require_present] *)
Definition require_none (record : list (pystr * pyval)) (names : list string) : res unit :=
  let* b := res_exists (λ name, let* v := field record name in Ok (negb (is_none v))) names in
  raise_if b ValueError.

Definition require_present (record : list (pystr * pyval)) (names : list string) : res unit :=
  let* b := res_exists (λ name, let* v := field record name in Ok (is_none v)) names in
  raise_if b ValueError.

(** The dictionary of the four budget counters. *)
Definition accounting_val (cache_hits executions requests retries : Z) : pyval :=
  obj [("cache_hits", VInt cache_hits); ("executions", VInt executions);
       ("requests", VInt requests); ("retries", VInt retries)]%string.

(** [_require_accounting] *)
Definition require_accounting (record : list (pystr * pyval)) (requests executions cache_hits retries : Z)
    (logical_tick_delta : Z) : res unit :=
  let* delta := field record "budget_delta" in
  raise_if (negb (py_equal delta (accounting_val cache_hits executions requests retries))) ValueError ;;*
  let* tick := field record "logical_tick_delta" in
  raise_if (negb (py_equal tick (VInt logical_tick_delta))) ValueError.

(** [_require_state_change] *)
Definition require_state_change (record : list (pystr * pyval)) (changed : bool) : res unit :=
  let* prior := field record "prior_state_id" in
  let* resulting := field record "resulting_state_id" in
  raise_if (negb (Bool.eqb (negb (py_equal prior resulting)) changed)) ValueError.

(** ** Command receipts *)

Definition RECEIPT_FIELDS : list pystr :=
  map u ["admission_id"; "arguments_id"; "authority_layer"; "budget_delta"; "cache_status"; "command_id";
         "command_type"; "dependency_fingerprint"; "logical_tick"; "logical_tick_delta"; "observation_id";
         "prior_state_id"; "protocol_version"; "receipt_id"; "rejection"; "resulting_state_id"; "session_id";
         "status"; "tool_key"; "tool_name"; "transition_id"]%string.
Definition REJECTION_FIELDS : list pystr :=
  map u ["authority_layer"; "blocking_runtime_state"; "invariant_ids"; "reason_code"]%string.
Definition BLOCKING_STATE_FIELDS : list pystr :=
  map u ["counters"; "limits"; "logical_tick"; "state_id"]%string.
Definition SUPPORTED_COMMAND_TYPES : list pystr := [u "execute_read"; u "record_retry"].
Definition CACHE_STATUSES : list pystr := [u "cache_hit"; u "cold_execution"].
Definition EXECUTION_METADATA_FIELDS : list string :=
  ["admission_id"; "arguments_id"; "command_id"; "dependency_fingerprint"; "tool_key"; "tool_name"]%string.
Definition TOOL_AND_RESULT_FIELDS : list string :=
  ["arguments_id"; "cache_status"; "dependency_fingerprint"; "observation_id"; "tool_key"; "tool_name";
   "transition_id"]%string.

(** The reason codes, with the keys of [_REASON_INVARIANTS] as their values. *)
Inductive RuntimeRejection :=
  | INVALID_CANONICAL_COMMAND | INVALID_COMMAND | UNSUPPORTED_COMMAND | PROTOCOL_VERSION
  | REQUEST_BUDGET | EXECUTION_BUDGET | RETRY_BUDGET | ARITHMETIC_OVERFLOW
  | INVALID_OBSERVATION | OPERATION_FAILED.

#[export] Instance RuntimeRejection_eq_dec : EqDecision RuntimeRejection.
Proof. solve_decision. Defined.

Definition rejections : list RuntimeRejection :=
  [INVALID_CANONICAL_COMMAND; INVALID_COMMAND; UNSUPPORTED_COMMAND; PROTOCOL_VERSION; REQUEST_BUDGET;
   EXECUTION_BUDGET; RETRY_BUDGET; ARITHMETIC_OVERFLOW; INVALID_OBSERVATION; OPERATION_FAILED].

Definition rejection_code (r : RuntimeRejection) : pystr :=
  match r with
  | INVALID_CANONICAL_COMMAND => u "IBAE-RT-REJECT-INVALID-CANONICAL-COMMAND"
  | INVALID_COMMAND => u "IBAE-RT-REJECT-INVALID-COMMAND"
  | UNSUPPORTED_COMMAND => u "IBAE-RT-REJECT-UNSUPPORTED-COMMAND"
  | PROTOCOL_VERSION => u "IBAE-RT-REJECT-PROTOCOL-VERSION"
  | REQUEST_BUDGET => u "IBAE-RT-REJECT-REQUEST-BUDGET"
  | EXECUTION_BUDGET => u "IBAE-RT-REJECT-EXECUTION-BUDGET"
  | RETRY_BUDGET => u "IBAE-RT-REJECT-RETRY-BUDGET"
  | ARITHMETIC_OVERFLOW => u "IBAE-RT-REJECT-ARITHMETIC-OVERFLOW"
  | INVALID_OBSERVATION => u "IBAE-RT-REJECT-INVALID-OBSERVATION"
  | OPERATION_FAILED => u "IBAE-RT-REJECT-OPERATION-FAILED"
  end.

(** [_REASON_INVARIANTS] *)
Definition reason_invariants (r : RuntimeRejection) : list pystr :=
  match r with
  | INVALID_CANONICAL_COMMAND | INVALID_COMMAND => [u "IBAE-RT-002"; u "IBAE-RT-005"]
  | UNSUPPORTED_COMMAND | PROTOCOL_VERSION => [u "IBAE-RT-002"]
  | REQUEST_BUDGET => [u "IBAE-BND-001"; u "IBAE-CLK-004"]
  | EXECUTION_BUDGET => [u "IBAE-BND-002"; u "IBAE-DET-003"]
  | RETRY_BUDGET => [u "IBAE-BND-003"]
  | ARITHMETIC_OVERFLOW => [u "IBAE-BND-007"; u "IBAE-CLK-001"]
  | INVALID_OBSERVATION => [u "IBAE-REUSE-004"; u "IBAE-RT-005"]
  | OPERATION_FAILED => [u "IBAE-DET-003"; u "IBAE-RT-001"]
  end.

Definition parse_rejection (v : pyval) : res RuntimeRejection :=
  match find (λ r, is_text v (rejection_code r)) rejections with
  | Some r => Ok r
  | None => Raise ValueError
  end.

(** The counters and limits of a blocked runtime. *)
Record blocking_state := {
  bs_cache_hits : Z;
  bs_executions : Z;
  bs_requests : Z;
  bs_retries : Z;
  bs_limits : RuntimeLimits;
  bs_logical_tick : Z
}.

(** [_validate_blocking_state], the part that reads the record. *)
Definition read_blocking_state (receipt : list (pystr * pyval)) (raw : pyval) : res blocking_state :=
  let* blocking := require_exact_dict raw BLOCKING_STATE_FIELDS in
  let* raw := dict_item blocking (u "counters") in
  let* counters := require_exact_dict raw RuntimeSnapshot.budget_fields in
  res_iter (λ kv, require_exact_u64 kv.2 ;;* Ok tt) counters ;;*
  let* raw := dict_item blocking (u "limits") in
  let* limits_record := require_exact_dict raw RuntimeLimits.field_names in
  res_iter (λ kv, require_exact_u64 kv.2 ;;* Ok tt) limits_record ;;*
  let* max_requests := dict_item limits_record (u "max_requests") in
  let* max_executions := dict_item limits_record (u "max_executions") in
  let* max_retries := dict_item limits_record (u "max_retries") in
  let* max_history := dict_item limits_record (u "max_history") in
  let* limits := RuntimeLimits.make max_requests max_executions max_retries max_history in
  let* logical_tick := u64_item blocking (u "logical_tick") in
  let* tick := field receipt "logical_tick" in
  raise_if (negb (py_equal (VInt logical_tick) tick)) ValueError ;;*
  let* state_id := dict_item blocking (u "state_id") in
  ProgressCounterEvidence.require_fingerprint_value state_id ;;*
  let* resulting := field receipt "resulting_state_id" in
  raise_if (negb (py_equal state_id resulting)) ValueError ;;*
  let* cache_hits := u64_item counters (u "cache_hits") in
  let* executions := u64_item counters (u "executions") in
  let* requests := u64_item counters (u "requests") in
  let* retries := u64_item counters (u "retries") in
  Ok {| bs_cache_hits := cache_hits; bs_executions := executions; bs_requests := requests;
        bs_retries := retries; bs_limits := limits; bs_logical_tick := logical_tick |}.

Definition counter_values (b : blocking_state) : list (pystr * Z) :=
  [(u "cache_hits", bs_cache_hits b); (u "executions", bs_executions b);
   (u "requests", bs_requests b); (u "retries", bs_retries b)].

(** [_validate_blocking_state], the part that relates its numbers. *)
Definition check_blocking_state (receipt : list (pystr * pyval)) (reason : RuntimeRejection) (b : blocking_state)
    : res unit :=
  let limits := bs_limits b in
  raise_if (rl_max_requests limits <? bs_requests b) ValueError ;;*
  raise_if (rl_max_executions limits <? bs_executions b) ValueError ;;*
  raise_if (rl_max_retries limits <? bs_retries b) ValueError ;;*
  raise_if (bs_requests b <? bs_executions b + bs_cache_hits b) ValueError ;;*
  let authority_events := bs_cache_hits b + bs_executions b + bs_requests b + bs_retries b in
  let maximum_tick := authority_events + bs_executions b in
  raise_if (negb ((authority_events <=? bs_logical_tick b) && (bs_logical_tick b <=? maximum_tick))) ValueError ;;*
  let* raw := field receipt "budget_delta" in
  let* deltas := require_exact_dict raw RuntimeSnapshot.budget_fields in
  res_iter (λ nv,
      let* delta := u64_item deltas nv.1 in
      raise_if (nv.2 <? delta) ValueError) (counter_values b) ;;*
  let* raw := field receipt "logical_tick_delta" in
  let* tick_delta := require_exact_u64 raw in
  raise_if (bs_logical_tick b <? tick_delta) ValueError ;;*
  match reason with
  | REQUEST_BUDGET => raise_if (negb (bs_requests b =? rl_max_requests limits)) ValueError
  | EXECUTION_BUDGET => raise_if (negb (bs_executions b =? rl_max_executions limits)) ValueError
  | RETRY_BUDGET => raise_if (negb (bs_retries b =? rl_max_retries limits)) ValueError
  | _ => Ok tt
  end.

(** [_validate_rejection] *)
Definition validate_rejection (receipt : list (pystr * pyval)) : res RuntimeRejection :=
  let* raw := field receipt "rejection" in
  let* rejection := require_exact_dict raw REJECTION_FIELDS in
  let* layer := dict_item rejection (u "authority_layer") in
  raise_if (negb (is_text layer (u "execution"))) ValueError ;;*
  let* raw := dict_item rejection (u "reason_code") in
  let* reason := parse_rejection raw in
  let* ids := dict_item rejection (u "invariant_ids") in
  raise_if (negb (py_equal ids (strs_val (reason_invariants reason)))) ValueError ;;*
  let* raw := dict_item rejection (u "blocking_runtime_state") in
  let* b := read_blocking_state receipt raw in
  check_blocking_state receipt reason b ;;*
  Ok reason.

(** [_require_execute_command] and [_require_retry_command] *)
Definition require_execute_command (receipt : list (pystr * pyval)) : res unit :=
  let* command_type := field receipt "command_type" in
  raise_if (negb (is_text command_type (u "execute_read"))) ValueError ;;*
  require_present receipt EXECUTION_METADATA_FIELDS.

Definition require_retry_command (receipt : list (pystr * pyval)) : res unit :=
  let* command_type := field receipt "command_type" in
  raise_if (negb (is_text command_type (u "record_retry"))) ValueError ;;*
  require_present receipt ["admission_id"; "command_id"]%string ;;*
  require_none receipt TOOL_AND_RESULT_FIELDS.

(** [_validate_accepted_receipt] *)
Definition validate_accepted_receipt (receipt : list (pystr * pyval)) : res unit :=
  let* rejection := field receipt "rejection" in
  raise_if (negb (is_none rejection)) ValueError ;;*
  let* command_type := field receipt "command_type" in
  raise_if (negb (is_str_in command_type SUPPORTED_COMMAND_TYPES)) ValueError ;;*
  if is_text command_type (u "record_retry") then
    require_retry_command receipt ;;*
    require_accounting receipt 0 0 0 1 1 ;;*
    require_state_change receipt true
  else
    require_execute_command receipt ;;*
    require_present receipt ["cache_status"; "observation_id"; "transition_id"]%string ;;*
    let* cache_status := field receipt "cache_status" in
    (if is_text cache_status (u "cold_execution") then require_accounting receipt 1 1 0 0 3
     else if is_text cache_status (u "cache_hit") then require_accounting receipt 1 0 1 0 2
     else Raise ValueError) ;;*
    require_state_change receipt true.

(** [_validate_parsing_rejection] *)
Definition validate_parsing_rejection (receipt : list (pystr * pyval)) (reason : RuntimeRejection) : res unit :=
  require_none receipt TOOL_AND_RESULT_FIELDS ;;*
  (if decide (reason = INVALID_CANONICAL_COMMAND) then
     require_none receipt ["admission_id"; "command_id"; "command_type"]%string
   else
     require_present receipt ["command_id"]%string ;;*
     if decide (reason = UNSUPPORTED_COMMAND) then
       let* command_type := field receipt "command_type" in
       raise_if (is_none command_type || is_str_in command_type SUPPORTED_COMMAND_TYPES) ValueError
     else Ok tt) ;;*
  require_accounting receipt 0 0 0 0 0 ;;*
  require_state_change receipt false.

(** [_validate_arithmetic_rejection] *)
Definition validate_arithmetic_rejection (receipt : list (pystr * pyval)) : res unit :=
  require_none receipt ["cache_status"; "observation_id"; "transition_id"]%string ;;*
  let* command_type := field receipt "command_type" in
  if is_text command_type (u "record_retry") then
    require_retry_command receipt ;;*
    require_accounting receipt 0 0 0 0 0 ;;*
    require_state_change receipt false
  else
    require_execute_command receipt ;;*
    let* delta := field receipt "budget_delta" in
    let* tick := field receipt "logical_tick_delta" in
    raise_if (negb (existsb (λ admitted, py_equal delta admitted.1 && py_equal tick (VInt admitted.2))
                      [(accounting_val 0 0 0 0, 0); (accounting_val 0 0 1 0, 1); (accounting_val 0 1 1 0, 2)]))
      ValueError ;;*
    require_state_change receipt (negb (py_equal tick (VInt 0))).

(** [_validate_rejected_receipt] *)
Definition validate_rejected_receipt (receipt : list (pystr * pyval)) : res unit :=
  let* reason := validate_rejection receipt in
  require_none receipt ["cache_status"; "observation_id"; "transition_id"]%string ;;*
  match reason with
  | INVALID_CANONICAL_COMMAND | INVALID_COMMAND | UNSUPPORTED_COMMAND | PROTOCOL_VERSION =>
      validate_parsing_rejection receipt reason
  | REQUEST_BUDGET =>
      require_execute_command receipt ;;*
      require_accounting receipt 0 0 0 0 0 ;;*
      require_state_change receipt false
  | EXECUTION_BUDGET =>
      require_execute_command receipt ;;*
      require_accounting receipt 1 0 0 0 1 ;;*
      require_state_change receipt true
  | INVALID_OBSERVATION | OPERATION_FAILED =>
      require_execute_command receipt ;;*
      require_accounting receipt 1 1 0 0 2 ;;*
      require_state_change receipt true
  | RETRY_BUDGET =>
      require_retry_command receipt ;;*
      require_accounting receipt 0 0 0 0 0 ;;*
      require_state_change receipt false
  | ARITHMETIC_OVERFLOW => validate_arithmetic_rejection receipt
  end.

(** The checks of the fields one by one, before the transition is looked at. *)
Definition check_receipt_fields (copied : list (pystr * pyval)) : res unit :=
  let* version := field copied "protocol_version" in
  raise_if (negb (is_text version RUNTIME_PROTOCOL_VERSION)) ValueError ;;*
  let* layer := field copied "authority_layer" in
  raise_if (negb (is_text layer (u "execution"))) ValueError ;;*
  let* status := field copied "status" in
  raise_if (negb (is_str_in status [u "accepted"; u "rejected"])) ValueError ;;*
  let* command_type := field copied "command_type" in
  require_optional_command_type command_type ;;*
  let* cache_status := field copied "cache_status" in
  raise_if (negb (is_none cache_status) && negb (is_str_in cache_status CACHE_STATUSES)) ValueError ;;*
  res_iter (λ name, let* v := field copied name in require_optional_fingerprint v)
    ["admission_id"; "arguments_id"; "command_id"; "observation_id"; "tool_key"; "transition_id"]%string ;;*
  res_iter (λ name, fingerprint_field copied name ;;* Ok tt)
    ["prior_state_id"; "resulting_state_id"; "session_id"]%string ;;*
  res_iter (λ name, let* v := field copied name in require_optional_bounded_text v)
    ["dependency_fingerprint"; "tool_name"]%string ;;*
  let* tick := let* v := field copied "logical_tick" in require_exact_u64 v in
  let* delta := let* v := field copied "logical_tick_delta" in require_exact_u64 v in
  raise_if (MAX_RUNTIME_LOGICAL_TICK <? tick) ValueError ;;*
  raise_if (tick <? delta) ValueError ;;*
  let* raw := field copied "budget_delta" in
  let* budget_delta := require_exact_dict raw RuntimeSnapshot.budget_fields in
  res_iter (λ kv, let* value := require_exact_u64 kv.2 in raise_if (1 <? value) ValueError) budget_delta.

Section receipts.
Context {N : NativeSeals}.

Record RuntimeReceipt := {
  rt_record : CanonicalValue;
  rt_native_seal : option receipt_seal
}.

(** The text under a seal is the one the seal was issued for. *)
Definition check_receipt_seal (seal : option receipt_seal) (text : pystr) : res unit :=
  match seal with
  | None => Ok tt
  | Some s => raise_if (negb (receipt_seal_validates s text)) ValueError
  end.

(** [RuntimeReceipt.__init__] *)
Definition make_RuntimeReceipt (record : pyval) (seal : option receipt_seal) : res RuntimeReceipt :=
  let* all_fields := copy_exact_mapping record RECEIPT_FIELDS in
  let* receipt_id := fingerprint_field all_fields "receipt_id" in
  let copied := without all_fields "receipt_id" in
  check_receipt_fields copied ;;*
  let* status := field copied "status" in
  (if is_text status (u "accepted") then validate_accepted_receipt copied
   else
     let* rejection := field copied "rejection" in
     raise_if (is_none rejection) ValueError ;;*
     validate_rejected_receipt copied) ;;*
  let* expected := domain_fingerprint RUNTIME_RECEIPT_DOMAIN (record_val copied) in
  raise_if (negb (bool_decide (receipt_id = expected))) ValueError ;;*
  let* canonical := CanonicalValue.from_value (record_val (copied ++ [(u "receipt_id", VStr receipt_id)])) in
  check_receipt_seal seal (cv_text canonical) ;;*
  Ok {| rt_record := canonical; rt_native_seal := seal |}.

(** [_validated_value], the value of [canonical_record()]. *)
Definition receipt_value (r : RuntimeReceipt) : res pyval :=
  CanonicalValue.make (cv_text (rt_record r)) ;;*
  check_receipt_seal (rt_native_seal r) (cv_text (rt_record r)) ;;*
  CanonicalValue.to_value (rt_record r).

(** [source_bound]: a test that answers [False] where validation raises. *)
Definition receipt_source_bound (r : RuntimeReceipt) : bool :=
  match rt_native_seal r with
  | None => false
  | Some s => is_ok (CanonicalValue.make (cv_text (rt_record r))) &&
              receipt_seal_validates s (cv_text (rt_record r))
  end.

(** [receipt_id], [status], [transition_id] and [cache_status] read one item of the value. *)
Definition receipt_item (r : RuntimeReceipt) (name : string) : res pyval :=
  let* v := receipt_value r in
  match v with VDict l => dict_item l (u name) | _ => Raise TypeError end.

Definition rejection_reason (r : RuntimeReceipt) : res pyval :=
  let* rejection := receipt_item r "rejection" in
  match rejection with
  | VNone => Ok VNone
  | VDict l => dict_item l (u "reason_code")
  | _ => Raise TypeError
  end.

End receipts.

(** ** Lease application receipts *)

Definition LEASE_APPLICATION_FIELDS : list pystr :=
  map u ["authority_layer"; "command_id"; "command_type"; "continuation_policy_id";
         "continuation_policy_receipt_id"; "cumulative_granted"; "governance_id"; "grant_receipt_id";
         "invariant_ids"; "lease_application_id"; "lease_grant_id"; "lease_index"; "limit_delta";
         "logical_tick"; "logical_tick_delta"; "prior_state_id"; "protocol_version"; "reason_code";
         "receipt_id"; "resulting_limits"; "resulting_state_id"; "runtime_budget_delta"; "session_id";
         "status"; "task_id"; "total_ceiling"]%string.

(** [_LEASE_APPLICATION_REASONS] *)
Definition lease_application_reasons : list (pystr * list pystr) :=
  let b5 := u "IBAE-BND-005" in
  let b6 := u "IBAE-BND-006" in
  let b7 := u "IBAE-BND-007" in
  let p4 := u "IBAE-PROG-004" in
  let code name ids := (u "IBAE-RT-LEASE-REJECT-" ++ u name, ids) in
  [code "ARITHMETIC-OVERFLOW"%string [b7; u "IBAE-CLK-001"];
   code "CEILING"%string [b5; b7];
   code "CONTINUATION-DISABLED"%string [b5; b6; p4];
   code "GRANT-IDENTITY"%string [b5; b6; p4];
   code "LEASE-INDEX"%string [b5; b6];
   code "POLICY-MISMATCH"%string [b5; b6; p4];
   code "SCHEDULE"%string [b5; b7];
   code "STALE-GOVERNANCE"%string [b5; b6; p4];
   code "STALE-RUNTIME-STATE"%string [b5; b6];
   code "UNSUPPORTED-RESOURCE"%string [b5; b6];
   code "UNISSUED-GRANT"%string [b5; b6; p4]].

Record RuntimeLeaseApplicationReceipt := { la_record : CanonicalValue }.

Module RuntimeLeaseApplicationReceipt.

(** [copied[name] = value] of a field that exists. *)
Definition with_field (record : list (pystr * pyval)) (name : string) (value : pyval) : list (pystr * pyval) :=
  map (λ kv, if bool_decide (kv.1 = u name) then (kv.1, value) else kv) record.

Definition vector_field (record : list (pystr * pyval)) (name : string) : res RuntimeLeaseResourceVector :=
  let* v := field record name in RuntimeLeaseResourceVector.from_record v.

Definition u64_field (record : list (pystr * pyval)) (name : string) : res Z :=
  let* v := field record name in require_exact_u64 v.

Definition exact_text (v : pyval) : res pystr := match v with VStr s => Ok s | _ => Raise ValueError end.

Definition check_accepted (copied : list (pystr * pyval)) (ids : list pystr)
    (limit_delta runtime_delta cumulative : RuntimeLeaseResourceVector) : res unit :=
  let* reason := field copied "reason_code" in
  raise_if (negb (is_none reason) || nonempty ids) ValueError ;;*
  raise_if (RuntimeLeaseResourceVector.is_zero limit_delta || negb (rv_mutation_delta limit_delta =? 0)) ValueError ;;*
  raise_if (negb (RuntimeLeaseResourceVector.is_within limit_delta cumulative)) ValueError ;;*
  raise_if (negb (RuntimeLeaseResourceVector.is_zero runtime_delta)) ValueError ;;*
  let* tick_delta := field copied "logical_tick_delta" in
  raise_if (negb (py_equal tick_delta (VInt 1))) ValueError ;;*
  let* prior := field copied "prior_state_id" in
  let* resulting := field copied "resulting_state_id" in
  raise_if (py_equal prior resulting) ValueError.

Definition check_rejected (copied : list (pystr * pyval)) (ids : list pystr)
    (limit_delta runtime_delta : RuntimeLeaseResourceVector) : res unit :=
  let* reason := field copied "reason_code" in
  match find (λ ci, is_text reason ci.1) lease_application_reasons with
  | None => Raise ValueError
  | Some ci => raise_if (negb (bool_decide (ids = ci.2))) ValueError
  end ;;*
  raise_if (negb (RuntimeLeaseResourceVector.is_zero limit_delta) ||
            negb (RuntimeLeaseResourceVector.is_zero runtime_delta)) ValueError ;;*
  let* tick_delta := field copied "logical_tick_delta" in
  raise_if (negb (py_equal tick_delta (VInt 0))) ValueError ;;*
  let* prior := field copied "prior_state_id" in
  let* resulting := field copied "resulting_state_id" in
  raise_if (negb (py_equal prior resulting)) ValueError.

(** [__init__]; testing membership in a set of strings raises for an unhashable value. *)
Definition make (record : pyval) : res RuntimeLeaseApplicationReceipt :=
  let* copied := copy_exact_mapping record LEASE_APPLICATION_FIELDS in
  let* version := field copied "protocol_version" in
  raise_if (negb (is_text version RUNTIME_LEASE_APPLICATION_PROTOCOL_VERSION)) ValueError ;;*
  let* layer := field copied "authority_layer" in
  raise_if (negb (is_text layer (u "execution"))) ValueError ;;*
  let* command_type := field copied "command_type" in
  raise_if (negb (is_text command_type (u "apply_lease"))) ValueError ;;*
  let* status := field copied "status" in
  match status with VList _ | VDict _ => Raise TypeError | _ => Ok tt end ;;*
  raise_if (negb (is_str_in status [u "accepted"; u "rejected"])) ValueError ;;*
  res_iter (λ name, fingerprint_field copied name ;;* Ok tt)
    ["command_id"; "continuation_policy_id"; "continuation_policy_receipt_id"; "governance_id";
     "grant_receipt_id"; "lease_application_id"; "lease_grant_id"; "prior_state_id"; "receipt_id";
     "resulting_state_id"; "session_id"; "task_id"]%string ;;*
  let* lease_index := u64_field copied "lease_index" in
  let* tick := u64_field copied "logical_tick" in
  let* tick_delta := u64_field copied "logical_tick_delta" in
  raise_if (lease_index =? 0) ValueError ;;*
  raise_if (MAX_RUNTIME_LOGICAL_TICK <? tick) ValueError ;;*
  raise_if (tick <? tick_delta) ValueError ;;*
  let* limit_delta := vector_field copied "limit_delta" in
  let* runtime_delta := vector_field copied "runtime_budget_delta" in
  let* cumulative := vector_field copied "cumulative_granted" in
  let* ceiling := vector_field copied "total_ceiling" in
  raise_if (negb (RuntimeLeaseResourceVector.is_within cumulative ceiling)) ValueError ;;*
  let* raw := field copied "resulting_limits" in
  let* resulting_limits := RuntimeLimits.from_record raw in
  let copied := with_field copied "resulting_limits" (RuntimeLimits.canonical_record resulting_limits) in
  let* raw := field copied "invariant_ids" in
  let* raw := iterate_value raw in
  let* raw := materialize raw 4 in
  let* ids := res_map exact_text raw in
  let copied := with_field copied "invariant_ids" (strs_val ids) in
  (if is_text status (u "accepted") then check_accepted copied ids limit_delta runtime_delta cumulative
   else check_rejected copied ids limit_delta runtime_delta) ;;*
  let* receipt_id := field copied "receipt_id" in
  let* application_id := field copied "lease_application_id" in
  let body := without (without copied "receipt_id") "lease_application_id" in
  let* expected := domain_fingerprint RUNTIME_LEASE_APPLICATION_ID_DOMAIN (record_val body) in
  raise_if (negb (is_text application_id expected)) ValueError ;;*
  let identified := body ++ [(u "lease_application_id", application_id)] in
  let* expected := domain_fingerprint RUNTIME_LEASE_APPLICATION_RECEIPT_ID_DOMAIN (record_val identified) in
  raise_if (negb (is_text receipt_id expected)) ValueError ;;*
  let* canonical := CanonicalValue.from_value (record_val (identified ++ [(u "receipt_id", receipt_id)])) in
  Ok {| la_record := canonical |}.

(** [_validated_value], the value of [canonical_record()]. *)
Definition canonical_record (r : RuntimeLeaseApplicationReceipt) : res pyval :=
  CanonicalValue.make (cv_text (la_record r)) ;;*
  CanonicalValue.to_value (la_record r).

(** The properties read one item of the value. *)
Definition item (r : RuntimeLeaseApplicationReceipt) (name : string) : res pyval :=
  let* v := canonical_record r in
  match v with VDict l => dict_item l (u name) | _ => Raise TypeError end.

End RuntimeLeaseApplicationReceipt.
