(* ===== verification/ReceiptsFacts.v ===== *)
(** * Facts about runtime receipts

    A command receipt that validates accounts for what it did: its clock moves with its counters
    and its state identity changes exactly when the clock moves. *)

From Stdlib Require Import Ascii String.
From stdpp Require Import base list gmap.
From S2P Require Import Prelude PyStr PyNumber Sha256 Canonical CanonicalFacts Fingerprints Records RecordsFacts Orchestration Budget BudgetFacts Progress Snapshot Receipts.

Implicit Types receipt : list (pystr * pyval).

(** What a receipt says of one command. *)
Record command_account := {
  ca_requests : Z;
  ca_executions : Z;
  ca_cache_hits : Z;
  ca_retries : Z;
  ca_tick_delta : Z;
  ca_changed : bool
}.

Definition account (requests executions cache_hits retries tick_delta : Z) (changed : bool) : command_account :=
  {| ca_requests := requests; ca_executions := executions; ca_cache_hits := cache_hits; ca_retries := retries;
     ca_tick_delta := tick_delta; ca_changed := changed |}.

Definition states receipt (a : command_account) : Prop :=
  (∃ delta, field receipt "budget_delta" = Ok delta ∧
     py_equal delta (accounting_val (ca_cache_hits a) (ca_executions a) (ca_requests a) (ca_retries a)) = true) ∧
  (∃ tick, field receipt "logical_tick_delta" = Ok tick ∧ py_equal tick (VInt (ca_tick_delta a)) = true) ∧
  ∃ prior resulting, field receipt "prior_state_id" = Ok prior ∧ field receipt "resulting_state_id" = Ok resulting ∧
    py_equal prior resulting = negb (ca_changed a).

Lemma require_accounting_Ok receipt r e h t d :
  require_accounting receipt r e h t d = Ok tt →
  (∃ delta, field receipt "budget_delta" = Ok delta ∧ py_equal delta (accounting_val h e r t) = true) ∧
  (∃ tick, field receipt "logical_tick_delta" = Ok tick ∧ py_equal tick (VInt d) = true).
Proof.
  unfold require_accounting. intros (delta & Hd & H)%res_bind_Ok.
  apply res_bind_Ok in H as ([] & E%raise_if_Ok%negb_false_iff & H).
  apply res_bind_Ok in H as (tick & Ht & E'%raise_if_Ok%negb_false_iff). eauto 10.
Qed.

Lemma require_state_change_Ok receipt c :
  require_state_change receipt c = Ok tt →
  ∃ prior resulting, field receipt "prior_state_id" = Ok prior ∧ field receipt "resulting_state_id" = Ok resulting ∧
    py_equal prior resulting = negb c.
Proof.
  unfold require_state_change. intros (p & Hp & H)%res_bind_Ok. apply res_bind_Ok in H as (r & Hr & H).
  apply raise_if_Ok, negb_false_iff, eqb_prop in H. exists p, r. rewrite <- H, negb_involutive. auto.
Qed.

(** The two checks that end most transitions. *)
Lemma settled receipt r e h t d c :
  (require_accounting receipt r e h t d ;;* require_state_change receipt c) = Ok tt →
  states receipt (account r e h t d c).
Proof.
  intros ([] & [Hd Ht]%require_accounting_Ok & Hs%require_state_change_Ok)%res_bind_Ok. by repeat split.
Qed.

(** The accepted transitions: a retry, a cold execution, a cache hit. *)
Definition accepted_account (a : command_account) : Prop :=
  a = account 0 0 0 1 1 true ∨ a = account 1 1 0 0 3 true ∨ a = account 1 0 1 0 2 true.

Lemma accepted_accounts receipt :
  validate_accepted_receipt receipt = Ok tt → ∃ a, states receipt a ∧ accepted_account a.
Proof.
  unfold validate_accepted_receipt, accepted_account. intros (rej & _ & H)%res_bind_Ok.
  apply res_bind_Ok in H as ([] & _ & H). apply res_bind_Ok in H as (ct & _ & H).
  apply res_bind_Ok in H as ([] & _ & H). destruct (is_text ct _).
  - apply res_bind_Ok in H as ([] & _ & H%settled). eauto.
  - apply res_bind_Ok in H as ([] & _ & H). apply res_bind_Ok in H as ([] & _ & H).
    apply res_bind_Ok in H as (cs & _ & H). destruct (is_text cs (u "cold_execution")); [apply settled in H; eauto|].
    destruct (is_text cs (u "cache_hit")); [apply settled in H; eauto|done].
Qed.

(** The rejected transitions: nothing, an admitted request, an execution that failed. *)
Definition rejected_account (a : command_account) : Prop :=
  a = account 0 0 0 0 0 false ∨ a = account 1 0 0 0 1 true ∨ a = account 1 1 0 0 2 true.

Lemma parsing_accounts receipt reason :
  validate_parsing_rejection receipt reason = Ok tt → states receipt (account 0 0 0 0 0 false).
Proof.
  unfold validate_parsing_rejection. intros ([] & _ & H)%res_bind_Ok.
  by apply res_bind_Ok in H as ([] & _ & H%settled).
Qed.

Lemma py_equal_ints a b : py_equal (VInt a) (VInt b) = (a =? b).
Proof. cbn. unfold same_number. cbn. by rewrite !Z.mul_1_r. Qed.

Lemma arithmetic_accounts receipt z :
  field receipt "logical_tick_delta" = Ok (VInt z) → validate_arithmetic_rejection receipt = Ok tt →
  ∃ a, states receipt a ∧ rejected_account a.
Proof.
  intros Hz. unfold validate_arithmetic_rejection, rejected_account. intros ([] & _ & H)%res_bind_Ok.
  apply res_bind_Ok in H as (ct & _ & H). destruct (is_text ct _).
  - apply res_bind_Ok in H as ([] & _ & H%settled). eauto.
  - apply res_bind_Ok in H as ([] & _ & H). apply res_bind_Ok in H as (delta & Hd & H). rewrite Hz in H.
    cbn [res_bind] in H. apply res_bind_Ok in H as ([] & He%raise_if_Ok%negb_false_iff & Hs%require_state_change_Ok).
    cbn [existsb fst snd] in He. rewrite !py_equal_ints in *. rewrite !orb_true_iff, !andb_true_iff, !Z.eqb_eq in He.
    destruct He as [[He ->]|[[He ->]|[[He ->]|He]]]; [..|done];
      [exists (account 0 0 0 0 0 false)|exists (account 1 0 0 0 1 true)|exists (account 1 1 0 0 2 true)];
      (split; [|by auto]); (split; [eauto|]); (split; [|exact Hs]); eexists; (split; [exact Hz|done]).
Qed.

Lemma rejected_accounts receipt z :
  field receipt "logical_tick_delta" = Ok (VInt z) → validate_rejected_receipt receipt = Ok tt →
  ∃ a, states receipt a ∧ rejected_account a.
Proof.
  intros Hz. unfold validate_rejected_receipt. intros (reason & _ & H)%res_bind_Ok.
  apply res_bind_Ok in H as ([] & _ & H). unfold rejected_account.
  destruct reason; try (apply parsing_accounts in H; by eauto); try (by eapply arithmetic_accounts);
    apply res_bind_Ok in H as ([] & _ & H%settled); eauto.
Qed.

(** A rejection reports a runtime within its limits, at the limit where that is the reason. *)
Record blocked_within (reason : RuntimeRejection) (b : blocking_state) : Prop := {
  bw_requests : bs_requests b <= rl_max_requests (bs_limits b);
  bw_executions : bs_executions b <= rl_max_executions (bs_limits b);
  bw_retries : bs_retries b <= rl_max_retries (bs_limits b);
  bw_served : bs_executions b + bs_cache_hits b <= bs_requests b;
  bw_tick : bs_cache_hits b + bs_executions b + bs_requests b + bs_retries b <= bs_logical_tick b <=
    bs_cache_hits b + bs_executions b + bs_requests b + bs_retries b + bs_executions b;
  bw_request_limit : reason = REQUEST_BUDGET → bs_requests b = rl_max_requests (bs_limits b);
  bw_execution_limit : reason = EXECUTION_BUDGET → bs_executions b = rl_max_executions (bs_limits b);
  bw_retry_limit : reason = RETRY_BUDGET → bs_retries b = rl_max_retries (bs_limits b)
}.

Lemma check_blocking_Ok receipt reason b :
  check_blocking_state receipt reason b = Ok tt → blocked_within reason b.
Proof.
  unfold check_blocking_state. intros H.
  do 5 (apply res_bind_Ok in H as ([] & ?%raise_if_Ok & H)).
  apply res_bind_Ok in H as (raw & _ & H). apply res_bind_Ok in H as (ds & _ & H).
  apply res_bind_Ok in H as ([] & _ & H). apply res_bind_Ok in H as (raw' & _ & H).
  apply res_bind_Ok in H as (td & _ & H). apply res_bind_Ok in H as ([] & _ & H).
  bool_inv. constructor; try lia; intros ->; apply raise_if_Ok in H; bool_inv; lia.
Qed.

Lemma validate_rejection_Ok receipt reason :
  validate_rejection receipt = Ok reason →
  ∃ raw b, read_blocking_state receipt raw = Ok b ∧ blocked_within reason b.
Proof.
  unfold validate_rejection. intros (r0 & _ & H)%res_bind_Ok.
  apply res_bind_Ok in H as (rej & _ & H). apply res_bind_Ok in H as (l & _ & H).
  apply res_bind_Ok in H as ([] & _ & H). apply res_bind_Ok in H as (r1 & _ & H).
  apply res_bind_Ok in H as (rs & _ & H). apply res_bind_Ok in H as (ids & _ & H).
  apply res_bind_Ok in H as ([] & _ & H). apply res_bind_Ok in H as (raw & _ & H).
  apply res_bind_Ok in H as (b & Hb & H). apply res_bind_Ok in H as ([] & Hc & [= <-]).
  apply check_blocking_Ok in Hc. eauto.
Qed.

Lemma check_fields_tick copied :
  check_receipt_fields copied = Ok tt → ∃ z, field copied "logical_tick_delta" = Ok (VInt z).
Proof.
  unfold check_receipt_fields. intros H.
  apply res_bind_Ok in H as (v & _ & H). apply res_bind_Ok in H as ([] & _ & H).
  apply res_bind_Ok in H as (v1 & _ & H). apply res_bind_Ok in H as ([] & _ & H).
  apply res_bind_Ok in H as (v2 & _ & H). apply res_bind_Ok in H as ([] & _ & H).
  apply res_bind_Ok in H as (v3 & _ & H). apply res_bind_Ok in H as ([] & _ & H).
  apply res_bind_Ok in H as (v4 & _ & H). do 4 (apply res_bind_Ok in H as ([] & _ & H)).
  apply res_bind_Ok in H as (t & _ & H). apply res_bind_Ok in H as (d & Hd & _).
  apply res_bind_Ok in Hd as (dv & Hd & He). destruct dv as [| |z| | | | | |]; try done. by exists z.
Qed.

Section receipts.
Context {N : NativeSeals}.

(** A command receipt that validates balances: its clock moves one tick per budget unit, and
    one more per execution when the command was accepted, and the runtime's state identity changes
    exactly when the clock moves.  A cache hit or an execution comes with its request, and a
    rejection reports counters within the limits, at the limit that it names as its reason. *)
Theorem receipt_accounting record seal r :
  make_RuntimeReceipt record seal = Ok r →
  ∃ fields a status,
    copy_exact_mapping record RECEIPT_FIELDS = Ok fields ∧
    let copied := without fields "receipt_id" in
    let accepted := is_text status (u "accepted") in
    field copied "status" = Ok status ∧ states copied a ∧
    ca_tick_delta a = ca_requests a + ca_executions a + ca_cache_hits a + ca_retries a +
      (if accepted then ca_executions a else 0) ∧
    ca_changed a = negb (ca_tick_delta a =? 0) ∧ (accepted = true → ca_changed a = true) ∧
    0 <= ca_executions a + ca_cache_hits a <= ca_requests a ∧ ca_requests a + ca_retries a <= 1 ∧
    (accepted = false → ∃ reason raw b, validate_rejection copied = Ok reason ∧
       read_blocking_state copied raw = Ok b ∧ blocked_within reason b).
Proof.
  unfold make_RuntimeReceipt. intros (fields & Hf & H)%res_bind_Ok.
  apply res_bind_Ok in H as (i & _ & H). set (copied := without fields "receipt_id") in *.
  apply res_bind_Ok in H as ([] & Hc & H). apply check_fields_tick in Hc as [z Hz].
  apply res_bind_Ok in H as (status & Hs & H). apply res_bind_Ok in H as ([] & Hv & _).
  exists fields. destruct (is_text status (u "accepted")) eqn:Ha.
  - apply accepted_accounts in Hv as (a & Hst & Hacc). exists a, status. rewrite Ha. split; [done|].
    split; [done|]. split; [done|]. destruct Hacc as [->|[->| ->]]; repeat split; done.
  - apply res_bind_Ok in Hv as (rej & _ & Hv). apply res_bind_Ok in Hv as ([] & _ & Hv).
    pose proof Hv as Hr. apply (rejected_accounts _ _ Hz) in Hv as (a & Hst & Hacc). exists a, status. rewrite Ha.
    unfold validate_rejected_receipt in Hr. apply res_bind_Ok in Hr as (reason & Hr & _).
    destruct (validate_rejection_Ok _ _ Hr) as (raw & b & Hb & Hw).
    split; [done|]. split; [done|]. split; [done|]. destruct Hacc as [->|[->| ->]]; repeat split; eauto 10; done.
Qed.
End receipts.

(** ** A concrete receipt *)

(** Seals that are the texts they were issued for. *)
#[export] Instance text_seals : NativeSeals := {|
  receipt_seal := pystr; receipt_seal_validates := λ s t, bool_decide (s = t);
  state_seal := pystr; state_seal_validates := λ s t, bool_decide (s = t);
  request_seal := pystr; request_seal_validates := λ s t, bool_decide (s = t);
  grant_seal := pystr; grant_seal_validates := λ s t, bool_decide (s = t)
|}.

Definition rx_id : pystr := Eval vm_compute in sha256_hexdigest [].
Definition rx_next_id : pystr := Eval vm_compute in sha256_hexdigest [0].

(** The body of the receipt of an accepted retry. *)
Definition rx_body : list (string * pyval) :=
  [("admission_id", VStr rx_id); ("arguments_id", VNone); ("authority_layer", VStr (u "execution"));
   ("budget_delta", accounting_val 0 0 0 1); ("cache_status", VNone); ("command_id", VStr rx_id);
   ("command_type", VStr (u "record_retry")); ("dependency_fingerprint", VNone); ("logical_tick", VInt 4);
   ("logical_tick_delta", VInt 1); ("observation_id", VNone); ("prior_state_id", VStr rx_id);
   ("protocol_version", VStr RUNTIME_PROTOCOL_VERSION); ("rejection", VNone);
   ("resulting_state_id", VStr rx_next_id); ("session_id", VStr rx_id); ("status", VStr (u "accepted"));
   ("tool_key", VNone); ("tool_name", VNone); ("transition_id", VNone)]%string.

Definition rx_made : res RuntimeReceipt :=
  let* record := with_receipt_id RUNTIME_RECEIPT_DOMAIN rx_body in make_RuntimeReceipt record None.

Lemma receipt_accounting_witness : ∃ record r,
  make_RuntimeReceipt record None = Ok r ∧ ∃ fields, copy_exact_mapping record RECEIPT_FIELDS = Ok fields.
Proof.
  assert (Hm : is_ok rx_made = true) by (vm_compute; reflexivity). unfold rx_made in Hm.
  destruct (with_receipt_id RUNTIME_RECEIPT_DOMAIN rx_body) as [record|e]; [cbn [res_bind] in Hm|discriminate Hm].
  destruct (make_RuntimeReceipt record None) as [r|e] eqn:Hr; [|discriminate Hm].
  destruct (receipt_accounting record None r Hr) as (fields & a & status & Hf & _).
  exists record, r. split; [exact Hr|]. exists fields. exact Hf.
Defined.
