(* ===== verification/Strategy.v ===== *)
(** * Strategy changes ([src/ibae/continuation.py], third part)

    Evidence of a terminal cycle, the structured meaning of a strategy, and the receipt that says
    whether a proposed strategy is a material change: the reason is derived from the orchestration
    state, both strategies and the cycle, and rederived whenever the receipt is used. *)

From Stdlib Require Import Ascii String.
From stdpp Require Import base list gmap.
From S2P Require Import Prelude PyStr PyNumber Sha256 Canonical Records Obligations Epistemic Orchestration Budget Progress Snapshot.

Definition STRATEGY_CHANGE_PROTOCOL_VERSION : pystr := u "IBAE-STRATEGY-CHANGE-V1".
Definition CYCLE_EVIDENCE_PROTOCOL_VERSION : pystr := u "IBAE-CYCLE-EVIDENCE-V1".
Definition STRATEGY_MATERIAL_ID_DOMAIN : pystr := u "ibae.strategy-material-id.v1".
Definition STRATEGY_CHANGE_ID_DOMAIN : pystr := u "ibae.strategy-change-id.v1".
Definition CYCLE_EVIDENCE_ID_DOMAIN : pystr := u "ibae.cycle-evidence-id.v1".
Definition MAX_STRATEGY_FRONTIER : Z := 128.
Definition MAX_STRATEGY_TARGETS : Z := 128.
Definition MAX_DEPENDENCY_PATH : Z := 128.
Definition MAX_TRANSITION_PATTERN : Z := 12.

Definition MAX_ORCHESTRATION_AUTHORITY_NODES : Z :=
  32
  + MAX_OBLIGATIONS * (16 + MAX_OBLIGATION_DEPENDENCIES)
  + MAX_EPISTEMIC_RECORDS * (32 + MAX_EPISTEMIC_DEPENDENCIES)
  + MAX_CAPABILITIES * (16 + MAX_STATE_KEYS_PER_DECLARATION + MAX_CAPABILITY_ARGUMENTS)
  + MAX_HISTORY_EVENTS
  + MAX_OCCURRENCE_OWNERS * 8
  + MAX_STRATEGY_SCHEMAS * (8 + MAX_STRATEGY_PARAMETERS * (16 + MAX_STRATEGY_SYMBOL_LIST_ITEMS)).

(** ** Copying a bound orchestration state

    [_copy_orchestration_authority] walks the declared layout of the state, counts the nodes it
    visits against a bound, and reconstructs every record with its constructor; a record that is
    not equal to its reconstruction is refused.  The counter of remaining nodes is the state of
    a small monad; the layout of each class is the body of its copier. *)

Definition copier (A : Type) : Type := Z → res (A * Z).

Definition cp_ret {A} (a : A) : copier A := λ n, Ok (a, n).
Definition cp_bind {A B} (c : copier A) (k : A → copier B) : copier B := λ n, let* an := c n in k an.1 an.2.
Definition cp_lift {A} (r : res A) : copier A := λ n, let* a := r in Ok (a, n).

Notation "'copy!' x ':=' c 'in' k" := (cp_bind c (λ x, k))
  (at level 200, x pattern, c at level 200, k at level 200) : res_scope.

Definition cp_visit : copier unit := λ n, raise_if (n - 1 <? 0) ValueError ;;* Ok (tt, n - 1).

(** Exact text, numbers, flags and enum members are returned as they are. *)
Definition copy_scalar {A} (value : A) : copier A := copy! _ := cp_visit in cp_ret value.

Fixpoint cp_map {A} (f : A → copier A) (l : list A) : copier (list A) :=
  match l with
  | [] => cp_ret []
  | x :: r => copy! y := f x in copy! ys := cp_map f r in cp_ret (y :: ys)
  end.

Definition copy_tuple {A} (f : A → copier A) (bound : Z) (l : list A) : copier (list A) :=
  copy! _ := cp_visit in
  copy! _ := cp_lift (raise_if (bound <? Z.of_nat (length l)) ValueError) in
  cp_map f l.

Definition copy_texts : Z → list pystr → copier (list pystr) := copy_tuple copy_scalar.

(** A field whose value or [None] is admitted: one node in either case. *)
Definition copy_optional {A} (f : A → copier A) (o : option A) : copier (option A) :=
  match o with
  | None => copy_scalar None
  | Some a => copy! b := f a in cp_ret (Some b)
  end.

Definition copy_record {A} `{EqDecision A} (value : A) (fields : copier A) : copier A :=
  copy! _ := cp_visit in
  copy! copied := fields in
  copy! _ := cp_lift (raise_if (negb (bool_decide (copied = value))) ValueError) in
  cp_ret copied.

Definition copy_Obligation (o : Obligation) : copier Obligation := copy_record o (
  copy! key := copy_scalar (ob_key o) in
  copy! description := copy_scalar (ob_description o) in
  copy! dependency_ids := copy_texts MAX_OBLIGATION_DEPENDENCIES (ob_dependency_ids o) in
  copy! status := copy_scalar (ob_status o) in
  copy! block_reason := copy_optional copy_scalar (ob_block_reason o) in
  cp_lift (Obligation.make key description dependency_ids status block_reason)).

Definition copy_ObligationRegistry (r : ObligationRegistry) : copier ObligationRegistry := copy_record r (
  copy! obligations := copy_tuple copy_Obligation MAX_OBLIGATIONS (reg_obligations r) in
  copy! max_obligations := copy_scalar (reg_max_obligations r) in
  cp_lift (ObligationRegistry.make obligations max_obligations)).

Definition copy_CanonicalValue (v : CanonicalValue) : copier CanonicalValue := copy_record v (
  copy! text := copy_scalar (cv_text v) in
  cp_lift (CanonicalValue.make text)).

Definition copy_ObservationProvenance (p : ObservationProvenance) : copier ObservationProvenance := copy_record p (
  copy! source := copy_scalar (pv_source p) in
  copy! source_identity := copy_scalar (pv_source_identity p) in
  copy! dependency_identity := copy_scalar (pv_dependency_identity p) in
  copy! reused := copy_scalar (pv_reused p) in
  cp_lift (ObservationProvenance.make source source_identity dependency_identity reused)).

Definition copy_EpistemicRecord (r : EpistemicRecord) : copier EpistemicRecord := copy_record r (
  copy! key := copy_scalar (er_key r) in
  copy! epistemic_class := copy_scalar (er_class r) in
  copy! dependencies := copy_texts MAX_EPISTEMIC_DEPENDENCIES (er_dependencies r) in
  copy! provenance := copy_optional copy_ObservationProvenance (er_provenance r) in
  copy! payload := copy_optional copy_CanonicalValue (er_value r) in
  match payload with
  | None => cp_lift (EpistemicRecord.make key epistemic_class None dependencies provenance)
  | Some cv =>
      copy! value := cp_lift (CanonicalValue.to_value cv) in
      cp_lift (EpistemicRecord.make key epistemic_class (Some value) dependencies provenance)
  end).

Definition copy_EpistemicState (e : EpistemicState) : copier EpistemicState := copy_record e (
  copy! records := copy_tuple copy_EpistemicRecord MAX_EPISTEMIC_RECORDS (es_records e) in
  copy! max_records := copy_scalar (es_max_records e) in
  cp_lift (EpistemicState.make records max_records)).

Definition copy_Capability (c : Capability) : copier Capability := copy_record c (
  copy! name := copy_scalar (cap_name c) in
  copy! replay_safety := copy_scalar (cap_replay_safety c) in
  copy! description := copy_scalar (cap_description c) in
  copy! available := copy_scalar (cap_available c) in
  copy! contract_version := copy_scalar (cap_contract_version c) in
  copy! required_state_keys := copy_texts MAX_STATE_KEYS_PER_DECLARATION (cap_required_state_keys c) in
  copy! semantic_argument_keys := copy_texts MAX_CAPABILITY_ARGUMENTS (cap_semantic_argument_keys c) in
  copy! replay_evidence_id := copy_optional copy_scalar (cap_replay_evidence_id c) in
  cp_lift (Capability.make name replay_safety description available contract_version
             required_state_keys semantic_argument_keys replay_evidence_id)).

Definition copy_OrchestrationLimits (l : OrchestrationLimits) : copier OrchestrationLimits := copy_record l (
  copy! max_obligations := copy_scalar (ol_max_obligations l) in
  copy! max_epistemic_records := copy_scalar (ol_max_epistemic_records l) in
  copy! max_capabilities := copy_scalar (ol_max_capabilities l) in
  copy! max_batch_proposals := copy_scalar (ol_max_batch_proposals l) in
  copy! max_history := copy_scalar (ol_max_history l) in
  copy! max_occurrence_owners := copy_scalar (ol_max_occurrence_owners l) in
  copy! max_strategy_schemas := copy_scalar (ol_max_strategy_schemas l) in
  cp_lift (OrchestrationLimits.make {|
    ol_max_obligations := max_obligations; ol_max_epistemic_records := max_epistemic_records;
    ol_max_capabilities := max_capabilities; ol_max_batch_proposals := max_batch_proposals;
    ol_max_history := max_history; ol_max_occurrence_owners := max_occurrence_owners;
    ol_max_strategy_schemas := max_strategy_schemas |})).

Definition copy_OccurrenceOwnership (o : OccurrenceOwnership) : copier OccurrenceOwnership := copy_record o (
  copy! occurrence_key := copy_scalar (oo_occurrence_key o) in
  copy! action_id := copy_scalar (oo_action_id o) in
  copy! proposal_id := copy_scalar (oo_proposal_id o) in
  cp_lift (OccurrenceOwnership.make occurrence_key action_id proposal_id)).

Definition copy_StrategyParameterSpec (sp : StrategyParameterSpec) : copier StrategyParameterSpec := copy_record sp (
  copy! name := copy_scalar (sp_name sp) in
  copy! value_kind := copy_scalar (sp_value_kind sp) in
  copy! required := copy_scalar (sp_required sp) in
  copy! minimum := copy_optional copy_scalar (sp_minimum sp) in
  copy! maximum := copy_optional copy_scalar (sp_maximum sp) in
  copy! allowed_symbols := copy_texts MAX_STRATEGY_SYMBOL_LIST_ITEMS (sp_allowed_symbols sp) in
  cp_lift (StrategyParameterSpec.make name value_kind required minimum maximum allowed_symbols)).

Definition copy_StrategySchema (sc : StrategySchema) : copier StrategySchema := copy_record sc (
  copy! strategy_key := copy_scalar (sc_strategy_key sc) in
  copy! parameter_specs := copy_tuple copy_StrategyParameterSpec MAX_STRATEGY_PARAMETERS (sc_parameter_specs sc) in
  copy! contract_version := copy_scalar (sc_contract_version sc) in
  cp_lift (StrategySchema.make strategy_key parameter_specs contract_version)).

Definition copy_OrchestrationState (s : OrchestrationState) : copier OrchestrationState := copy_record s (
  copy! obligations := copy_ObligationRegistry (os_obligations s) in
  copy! epistemic_state := copy_EpistemicState (os_epistemic_state s) in
  copy! capabilities := copy_tuple copy_Capability MAX_CAPABILITIES (os_capabilities s) in
  copy! limits := copy_OrchestrationLimits (os_limits s) in
  copy! logical_tick := copy_scalar (os_logical_tick s) in
  copy! history := copy_texts MAX_HISTORY_EVENTS (os_history s) in
  copy! occurrence_owners := copy_tuple copy_OccurrenceOwnership MAX_OCCURRENCE_OWNERS (os_occurrence_owners s) in
  copy! strategy_schemas := copy_tuple copy_StrategySchema MAX_STRATEGY_SCHEMAS (os_strategy_schemas s) in
  cp_lift (OrchestrationState.make {|
    os_obligations := obligations; os_epistemic_state := epistemic_state; os_capabilities := capabilities;
    os_limits := limits; os_logical_tick := logical_tick; os_history := history;
    os_occurrence_owners := occurrence_owners; os_strategy_schemas := strategy_schemas |})).

(** [_validate_orchestration_authority] *)
Definition validate_orchestration_authority (state : OrchestrationState) : res unit :=
  let* copied := copy_OrchestrationState state MAX_ORCHESTRATION_AUTHORITY_NODES in Ok tt.

(** [_exact_text_tuple] of a tuple of exact strings. *)
Definition exact_text_tuple (value : list pystr) (limit : Z) : res unit :=
  raise_if (limit <? Z.of_nat (length value)) ValueError.

(** [_validate_strategy_authority] *)
Definition validate_strategy_authority (strategy : Strategy) : res unit :=
  let schema := sg_schema strategy in
  raise_if (MAX_STRATEGY_PARAMETERS <? Z.of_nat (length (sc_parameter_specs schema))) ValueError ;;*
  res_iter (λ spec, exact_text_tuple (sp_allowed_symbols spec) MAX_STRATEGY_SYMBOL_LIST_ITEMS)
    (sc_parameter_specs schema) ;;*
  res_iter (λ spec,
      let* expected := StrategyParameterSpec.make (sp_name spec) (sp_value_kind spec) (sp_required spec)
        (sp_minimum spec) (sp_maximum spec) (sp_allowed_symbols spec) in
      raise_if (negb (bool_decide (expected = spec))) ValueError) (sc_parameter_specs schema) ;;*
  let* expected_schema :=
    StrategySchema.make (sc_strategy_key schema) (sc_parameter_specs schema) (sc_contract_version schema) in
  raise_if (negb (bool_decide (expected_schema = schema))) ValueError ;;*
  CanonicalValue.make (cv_text (sg_parameters strategy)) ;;*
  require_symbol (sg_key strategy) ;;*
  raise_if (negb (bool_decide (sc_strategy_key schema = sg_key strategy))) ValueError ;;*
  let* parameters := Strategy.parameters strategy in
  let* normalized := StrategySchema.normalize_parameters schema parameters in
  raise_if (negb (py_equal normalized parameters)) ValueError.

(** ** Cycle evidence *)

Record CycleEvidence := {
  ce_runtime_session_id : pystr;
  ce_runtime_state_id : pystr;
  ce_period : Z;
  ce_transition_pattern : list pystr
}.

Module CycleEvidence.

Definition supported_period (p : Z) : bool := (p =? 1) || (p =? 2) || (p =? 3).

(** [__post_init__] on the supplied fields. *)
Definition make (e : CycleEvidence) : res CycleEvidence :=
  require_fingerprint (ce_runtime_session_id e) ;;*
  require_fingerprint (ce_runtime_state_id e) ;;*
  raise_if (negb (supported_period (ce_period e))) ValueError ;;*
  let* pattern := checked_strings require_fingerprint (ce_transition_pattern e) 3 false false in
  raise_if (negb (Z.of_nat (length pattern) =? ce_period e)) ValueError ;;*
  Ok {| ce_runtime_session_id := ce_runtime_session_id e; ce_runtime_state_id := ce_runtime_state_id e;
        ce_period := ce_period e; ce_transition_pattern := pattern |}.

(** [_validate_authority_fields] *)
Definition check_authority (e : CycleEvidence) : res unit :=
  require_fingerprint (ce_runtime_session_id e) ;;*
  require_fingerprint (ce_runtime_state_id e) ;;*
  raise_if (negb (supported_period (ce_period e))) ValueError ;;*
  exact_text_tuple (ce_transition_pattern e) 3 ;;*
  raise_if (negb (Z.of_nat (length (ce_transition_pattern e)) =? ce_period e)) ValueError ;;*
  res_iter require_fingerprint (ce_transition_pattern e).

(** [history[-2*period:-period] == history[-period:]], for a history of that length. *)
Definition repeats (history : list pystr) (period : Z) : bool :=
  (period * 2 <=? Z.of_nat (length history)) &&
  bool_decide (take (Z.to_nat period) (last_items (period * 2) history) = last_items period history).

Definition from_snapshot (snapshot : RuntimeSnapshot) : res (option CycleEvidence) :=
  match find (repeats (rs_history snapshot)) [1; 2; 3] with
  | None => Ok None
  | Some period =>
      let* e := make {| ce_runtime_session_id := rs_session_id snapshot;
                        ce_runtime_state_id := rs_state_id snapshot; ce_period := period;
                        ce_transition_pattern := last_items period (rs_history snapshot) |} in
      Ok (Some e)
  end.

Definition canonical_record (e : CycleEvidence) : res pyval :=
  check_authority e ;;*
  Ok (obj [("period", VInt (ce_period e));
           ("protocol_version", VStr CYCLE_EVIDENCE_PROTOCOL_VERSION);
           ("runtime_session_id", VStr (ce_runtime_session_id e));
           ("runtime_state_id", VStr (ce_runtime_state_id e));
           ("transition_pattern", strs_val (ce_transition_pattern e))]%string).

Definition cycle_evidence_id (e : CycleEvidence) : res pystr :=
  let* r := canonical_record e in domain_fingerprint CYCLE_EVIDENCE_ID_DOMAIN r.

Definition reproduces (e : CycleEvidence) (proposed_pattern : list pystr) : res bool :=
  if negb (nonempty proposed_pattern) then Ok false
  else if Z.of_nat (length proposed_pattern) <? ce_period e then Ok false
  else
    let* differs := res_exists (λ '(index, transition_id),
        let* item := list_item (ce_transition_pattern e) (Z.to_nat (Z.of_nat index mod ce_period e)) in
        Ok (negb (bool_decide (transition_id = item)))) (imap pair proposed_pattern) in
    Ok (negb differs).

End CycleEvidence.

(** ** Structured strategies *)

Record StrategyMaterialization := {
  sm_strategy : Strategy;
  sm_capability_frontier : list pystr;
  sm_target_obligation_ids : list pystr;
  sm_dependency_path : list pystr;
  sm_recovery_mode : pystr;
  sm_initial_transition_pattern : list pystr;
  sm_description : pystr
}.

Module StrategyMaterialization.

(** [__init__] on the supplied arguments. *)
Definition make (m : StrategyMaterialization) : res StrategyMaterialization :=
  let* frontier := checked_strings require_symbol (sm_capability_frontier m) MAX_STRATEGY_FRONTIER true true in
  let* targets := checked_strings require_fingerprint (sm_target_obligation_ids m) MAX_STRATEGY_TARGETS true true in
  raise_if (negb (nonempty targets)) ValueError ;;*
  let* dependencies := checked_strings require_fingerprint (sm_dependency_path m) MAX_DEPENDENCY_PATH false true in
  let* pattern :=
    checked_strings require_fingerprint (sm_initial_transition_pattern m) MAX_TRANSITION_PATTERN false false in
  require_symbol (sm_recovery_mode m) ;;*
  require_text (sm_description m) ;;*
  Ok {| sm_strategy := sm_strategy m; sm_capability_frontier := frontier;
        sm_target_obligation_ids := targets; sm_dependency_path := dependencies;
        sm_recovery_mode := sm_recovery_mode m; sm_initial_transition_pattern := pattern;
        sm_description := sm_description m |}.

(** [_validate_authority_fields] *)
Definition check_authority (m : StrategyMaterialization) : res unit :=
  validate_strategy_authority (sm_strategy m) ;;*
  exact_text_tuple (sm_capability_frontier m) MAX_STRATEGY_FRONTIER ;;*
  exact_text_tuple (sm_target_obligation_ids m) MAX_STRATEGY_TARGETS ;;*
  exact_text_tuple (sm_dependency_path m) MAX_DEPENDENCY_PATH ;;*
  exact_text_tuple (sm_initial_transition_pattern m) MAX_TRANSITION_PATTERN ;;*
  require_symbol (sm_recovery_mode m) ;;*
  require_text (sm_description m) ;;*
  raise_if (negb (nonempty (sm_target_obligation_ids m))) ValueError ;;*
  res_iter (λ items, raise_if (negb (bool_decide (sorted_set items = items))) ValueError)
    [sm_capability_frontier m; sm_target_obligation_ids m] ;;*
  raise_if (has_duplicates (sm_dependency_path m)) ValueError ;;*
  res_iter require_symbol (sm_capability_frontier m) ;;*
  res_iter (res_iter require_fingerprint)
    [sm_target_obligation_ids m; sm_dependency_path m; sm_initial_transition_pattern m].

(** The fields of [semantic_difference_record()]; the description is not one. *)
Definition difference_fields (m : StrategyMaterialization) : list (string * pyval) :=
  [("capability_frontier", strs_val (sm_capability_frontier m));
   ("dependency_path", strs_val (sm_dependency_path m));
   ("initial_transition_pattern", strs_val (sm_initial_transition_pattern m));
   ("recovery_mode", VStr (sm_recovery_mode m));
   ("target_obligation_ids", strs_val (sm_target_obligation_ids m))]%string.

Definition semantic_difference_record (m : StrategyMaterialization) : res (list (string * pyval)) :=
  check_authority m ;;* Ok (difference_fields m).

Definition identity_fields (m : StrategyMaterialization) : res (list (string * pyval)) :=
  let* fields := semantic_difference_record m in
  let* i := Strategy.strategy_id (sm_strategy m) in
  Ok (fields ++ [("strategy_id", VStr i)]%string).

Definition identity_record (m : StrategyMaterialization) : res pyval :=
  let* fields := identity_fields m in Ok (obj fields).

Definition strategy_material_id (m : StrategyMaterialization) : res pystr :=
  let* r := identity_record m in domain_fingerprint STRATEGY_MATERIAL_ID_DOMAIN r.

Definition canonical_record (m : StrategyMaterialization) : res pyval :=
  let* fields := identity_fields m in
  let* i := strategy_material_id m in
  Ok (obj (fields ++ [("strategy_material_id", VStr i)]%string)).

End StrategyMaterialization.

(** ** Strategy changes *)

Inductive StrategyChangeStatus := CHANGE_ADMITTED | CHANGE_REJECTED.

Inductive StrategyChangeReason :=
  | ADMITTED_MATERIAL_CHANGE | SAME_STRATEGY_IDENTITY | NOT_MATERIAL | INVALID_ACTIVE_SCHEMA
  | CHANGE_UNKNOWN_CAPABILITY | UNKNOWN_TARGET_OBLIGATION | CYCLE_EQUIVALENT.

#[export] Instance StrategyChangeStatus_eq_dec : EqDecision StrategyChangeStatus.
Proof. solve_decision. Defined.
#[export] Instance StrategyChangeReason_eq_dec : EqDecision StrategyChangeReason.
Proof. solve_decision. Defined.

Definition change_status_value (s : StrategyChangeStatus) : pystr :=
  match s with CHANGE_ADMITTED => u "admitted" | CHANGE_REJECTED => u "rejected" end.

Definition change_reason_value (r : StrategyChangeReason) : pystr :=
  match r with
  | ADMITTED_MATERIAL_CHANGE => u "IBAE-STRATEGY-ADMIT-MATERIAL-CHANGE"
  | SAME_STRATEGY_IDENTITY => u "IBAE-STRATEGY-REJECT-SAME-IDENTITY"
  | NOT_MATERIAL => u "IBAE-STRATEGY-REJECT-NOT-MATERIAL"
  | INVALID_ACTIVE_SCHEMA => u "IBAE-STRATEGY-REJECT-INVALID-ACTIVE-SCHEMA"
  | CHANGE_UNKNOWN_CAPABILITY => u "IBAE-STRATEGY-REJECT-UNKNOWN-CAPABILITY"
  | UNKNOWN_TARGET_OBLIGATION => u "IBAE-STRATEGY-REJECT-UNKNOWN-TARGET"
  | CYCLE_EQUIVALENT => u "IBAE-STRATEGY-REJECT-CYCLE-EQUIVALENT"
  end.

(** The active schema of the proposed strategy is the one the orchestrator admits. *)
Definition active_schema_matches (state : OrchestrationState) (strategy : Strategy) : res bool :=
  let* active_schema := OrchestrationState.strategy_schema state (sg_key strategy) in
  match active_schema with
  | None => Ok false
  | Some schema =>
      let* active := StrategySchema.schema_id schema in
      let* proposed := StrategySchema.schema_id (sg_schema strategy) in
      Ok (bool_decide (active = proposed))
  end.

Definition lacks_capability (state : OrchestrationState) (name : pystr) : res bool :=
  let* c := OrchestrationState.capability state name in
  Ok (match c with None => true | Some c => negb (cap_available c) end).

Definition lacks_target (state : OrchestrationState) (target : pystr) : res bool :=
  let* known := ObligationRegistry.known_ids (os_obligations state) in
  Ok (negb (str_in target known)).

(** [_derive_strategy_change_reason] *)
Definition derive_strategy_change_reason (state : OrchestrationState) (prior proposed : StrategyMaterialization)
    (cycle_evidence : option CycleEvidence) : res StrategyChangeReason :=
  let* admitted_schema := active_schema_matches state (sm_strategy proposed) in
  if negb admitted_schema then Ok INVALID_ACTIVE_SCHEMA else
  let* proposed_id := Strategy.strategy_id (sm_strategy proposed) in
  let* prior_id := Strategy.strategy_id (sm_strategy prior) in
  if bool_decide (proposed_id = prior_id) then Ok SAME_STRATEGY_IDENTITY else
  let* proposed_difference := StrategyMaterialization.semantic_difference_record proposed in
  let* prior_difference := StrategyMaterialization.semantic_difference_record prior in
  if py_equal (obj proposed_difference) (obj prior_difference) then Ok NOT_MATERIAL else
  let* unknown_capability := res_exists (lacks_capability state) (sm_capability_frontier proposed) in
  if unknown_capability then Ok CHANGE_UNKNOWN_CAPABILITY else
  let* unknown_target := res_exists (lacks_target state) (sm_target_obligation_ids proposed) in
  if unknown_target then Ok UNKNOWN_TARGET_OBLIGATION else
  let* reproduced :=
    match cycle_evidence with
    | None => Ok false
    | Some e => CycleEvidence.reproduces e (sm_initial_transition_pattern proposed)
    end in
  Ok (if reproduced then CYCLE_EQUIVALENT else ADMITTED_MATERIAL_CHANGE).

Definition status_of_reason (r : StrategyChangeReason) : StrategyChangeStatus :=
  if decide (r = ADMITTED_MATERIAL_CHANGE) then CHANGE_ADMITTED else CHANGE_REJECTED.

(** [f(o)] unless [o is None]. *)
Definition res_option {A B} (f : A → res B) (o : option A) : res (option B) :=
  match o with None => Ok None | Some a => let* b := f a in Ok (Some b) end.

Definition check_option {A} (f : A → res unit) (o : option A) : res unit :=
  match o with None => Ok tt | Some a => f a end.

Record StrategyChangeReceipt := {
  sr_task_id : pystr;
  sr_governance_id : pystr;
  sr_orchestration_state_id : pystr;
  sr_prior_strategy_material_id : pystr;
  sr_proposed_strategy_material_id : pystr;
  sr_proposed_strategy_id : pystr;
  sr_status : StrategyChangeStatus;
  sr_reason : StrategyChangeReason;
  sr_orchestration_state : OrchestrationState;
  sr_prior_strategy : StrategyMaterialization;
  sr_proposed_strategy : StrategyMaterialization;
  sr_cycle_evidence : option CycleEvidence;
  sr_cycle_evidence_id : option pystr
}.

Module StrategyChangeReceipt.

(** [_validate_authority_fields] *)
Definition check_authority (r : StrategyChangeReceipt) : res unit :=
  res_iter require_fingerprint
    [sr_task_id r; sr_governance_id r; sr_orchestration_state_id r; sr_prior_strategy_material_id r;
     sr_proposed_strategy_material_id r; sr_proposed_strategy_id r] ;;*
  check_option require_fingerprint (sr_cycle_evidence_id r).

(** [_validate_bound_material] *)
Definition validate_bound_material (r : StrategyChangeReceipt) : res unit :=
  validate_orchestration_authority (sr_orchestration_state r) ;;*
  StrategyMaterialization.check_authority (sr_prior_strategy r) ;;*
  StrategyMaterialization.check_authority (sr_proposed_strategy r) ;;*
  check_option CycleEvidence.check_authority (sr_cycle_evidence r) ;;*
  let* expected_reason := derive_strategy_change_reason (sr_orchestration_state r) (sr_prior_strategy r)
    (sr_proposed_strategy r) (sr_cycle_evidence r) in
  let expected_status := status_of_reason expected_reason in
  let* expected_cycle_id := res_option CycleEvidence.cycle_evidence_id (sr_cycle_evidence r) in
  require_all
    [is_result (sr_orchestration_state_id r) (OrchestrationState.state_id (sr_orchestration_state r));
     is_result (sr_prior_strategy_material_id r) (StrategyMaterialization.strategy_material_id (sr_prior_strategy r));
     is_result (sr_proposed_strategy_material_id r)
       (StrategyMaterialization.strategy_material_id (sr_proposed_strategy r));
     is_result (sr_proposed_strategy_id r) (Strategy.strategy_id (sm_strategy (sr_proposed_strategy r)));
     Ok (bool_decide (sr_cycle_evidence_id r = expected_cycle_id));
     Ok (bool_decide (sr_reason r = expected_reason));
     Ok (bool_decide (sr_status r = expected_status))] ValueError.

(** [__post_init__] *)
Definition make (r : StrategyChangeReceipt) : res StrategyChangeReceipt :=
  res_iter require_fingerprint
    [sr_task_id r; sr_governance_id r; sr_orchestration_state_id r; sr_prior_strategy_material_id r;
     sr_proposed_strategy_material_id r; sr_proposed_strategy_id r] ;;*
  check_option require_fingerprint (sr_cycle_evidence_id r) ;;*
  raise_if (xorb (bool_decide (sr_status r = CHANGE_ADMITTED))
                 (bool_decide (sr_reason r = ADMITTED_MATERIAL_CHANGE))) ValueError ;;*
  validate_bound_material r ;;*
  Ok r.

Definition canonical_record (r : StrategyChangeReceipt) : res pyval :=
  check_authority r ;;*
  validate_bound_material r ;;*
  Ok (obj [("authority_layer", VStr (u "orchestration"));
           ("cycle_evidence_id", opt_val VStr (sr_cycle_evidence_id r));
           ("governance_id", VStr (sr_governance_id r));
           ("orchestration_state_id", VStr (sr_orchestration_state_id r));
           ("prior_strategy_material_id", VStr (sr_prior_strategy_material_id r));
           ("proposed_strategy_id", VStr (sr_proposed_strategy_id r));
           ("proposed_strategy_material_id", VStr (sr_proposed_strategy_material_id r));
           ("protocol_version", VStr STRATEGY_CHANGE_PROTOCOL_VERSION);
           ("reason", VStr (change_reason_value (sr_reason r)));
           ("status", VStr (change_status_value (sr_status r)));
           ("task_id", VStr (sr_task_id r))]%string).

Definition strategy_change_id (r : StrategyChangeReceipt) : res pystr :=
  let* v := canonical_record r in domain_fingerprint STRATEGY_CHANGE_ID_DOMAIN v.

End StrategyChangeReceipt.

Definition evaluate_strategy_change (task_id governance_id : pystr) (orchestration_state : OrchestrationState)
    (prior_strategy proposed_strategy : StrategyMaterialization) (cycle_evidence : option CycleEvidence)
    : res StrategyChangeReceipt :=
  require_fingerprint task_id ;;*
  require_fingerprint governance_id ;;*
  validate_orchestration_authority orchestration_state ;;*
  StrategyMaterialization.check_authority prior_strategy ;;*
  StrategyMaterialization.check_authority proposed_strategy ;;*
  check_option CycleEvidence.check_authority cycle_evidence ;;*
  let* reason := derive_strategy_change_reason orchestration_state prior_strategy proposed_strategy cycle_evidence in
  let status := status_of_reason reason in
  let* state_id := OrchestrationState.state_id orchestration_state in
  let* prior_id := StrategyMaterialization.strategy_material_id prior_strategy in
  let* proposed_id := StrategyMaterialization.strategy_material_id proposed_strategy in
  let* strategy_id := Strategy.strategy_id (sm_strategy proposed_strategy) in
  let* cycle_id := res_option CycleEvidence.cycle_evidence_id cycle_evidence in
  StrategyChangeReceipt.make {|
    sr_task_id := task_id; sr_governance_id := governance_id; sr_orchestration_state_id := state_id;
    sr_prior_strategy_material_id := prior_id; sr_proposed_strategy_material_id := proposed_id;
    sr_proposed_strategy_id := strategy_id; sr_status := status; sr_reason := reason;
    sr_orchestration_state := orchestration_state; sr_prior_strategy := prior_strategy;
    sr_proposed_strategy := proposed_strategy; sr_cycle_evidence := cycle_evidence;
    sr_cycle_evidence_id := cycle_id |}.
