(* ===== verification/StrategyFacts.v ===== *)
(** * Facts about strategy changes and cycle evidence

    The cycle a snapshot shows is the one the bounded kernel's detector finds; a strategy change is
    admitted exactly when its authority, its material difference and its departure from the cycle
    can be checked. *)

From Stdlib Require Import Ascii String.
From stdpp Require Import base list gmap.
From S2P Require Import Prelude PyStr PyNumber Sha256 Canonical CanonicalFacts Fingerprints Records RecordsFacts Kernel KernelFacts Kahn Obligations Epistemic Orchestration Admission AdmissionSpec Budget BudgetFacts Progress ProgressFacts Snapshot Receipts Strategy.

(** ** Equality of literals with the same keys *)

Lemma string_keys_obj kvs :
  string_keys (map (λ '(k, v), (VStr (u k), v)) kvs) = obj_keys kvs.
Proof.
  induction kvs as [|[k v] kvs IH]; [done|]. simpl. f_equal. exact IH.
Qed.

Lemma find_field kvs k v :
  NoDup (obj_keys kvs) → (k, v) ∈ kvs →
  find (λ kv', match VStr (u k), kv'.1 with VStr s, VStr t => bool_decide (s = t) | _, _ => false end)
    (map (λ '(k, v), (VStr (u k), v)) kvs) = Some (VStr (u k), v).
Proof.
  intros Hnd Hin. apply find_own_item.
  - apply Forall_forall. intros kv ([k' v'] & <- & _)%list_elem_of_In%in_map_iff. done.
  - by rewrite string_keys_obj.
  - apply list_elem_of_In, in_map_iff. exists (k, v). split; [done|]. by apply list_elem_of_In.
Qed.

Lemma py_equal_obj kvs1 kvs2 :
  map fst kvs1 = map fst kvs2 → NoDup (obj_keys kvs2) →
  py_equal (obj kvs1) (obj kvs2) = true ↔ Forall2 (λ a b, py_equal a.2 b.2 = true) kvs1 kvs2.
Proof.
  intros Hk Hnd. unfold obj. cbn [py_equal number_value]. rewrite !length_map.
  rewrite <- (length_map fst kvs1), Hk, length_map, Nat.eqb_refl. cbn [andb].
  assert (Hgen : ∀ l1 l2, map fst l1 = map fst l2 → (∀ kv, kv ∈ l2 → kv ∈ kvs2) →
    forallb (λ kv, match find (λ kv', match kv.1, kv'.1 with
                                      | VStr s, VStr t => bool_decide (s = t)
                                      | _, _ => false
                                      end) (map (λ '(k, v), (VStr (u k), v)) kvs2) with
                   | Some kv' => py_equal kv.2 kv'.2
                   | None => false
                   end) (map (λ '(k, v), (VStr (u k), v)) l1) = true ↔
    Forall2 (λ a b, py_equal a.2 b.2 = true) l1 l2); [|by apply Hgen].
  induction l1 as [|[k v] l1 IH]; intros [|[k' v'] l2] Hks Hsub; try done.
  cbn [map fst] in Hks. injection Hks as -> Hks. cbn [map forallb fst snd].
  rewrite (find_field kvs2 k' v') by (auto using list_elem_of_here). cbn [snd].
  rewrite andb_true_iff, Forall2_cons, IH; [done|done|]. intros kv ?. apply Hsub. by right.
Qed.

Lemma py_equal_str s t : py_equal (VStr s) (VStr t) = true ↔ s = t.
Proof. apply bool_decide_eq_true. Qed.

Lemma py_equal_strs l1 l2 : py_equal (strs_val l1) (strs_val l2) = true ↔ l1 = l2.
Proof.
  unfold strs_val. revert l2. induction l1 as [|x l1 IH]; intros [|y l2]; try (by split).
  specialize (IH l2). cbn in IH |- *. rewrite andb_true_iff, bool_decide_eq_true, IH. naive_solver.
Qed.

(** ** Cycle evidence *)

Lemma repeats_detects h p :
  (1 <= p)%nat →
  CycleEvidence.repeats h (Z.of_nat p) =
  negb (length h <? p * 2)%nat && bool_decide (slice_back h (p * 2) p = slice_back h p 0).
Proof.
  intros Hp. unfold CycleEvidence.repeats, slice_back, last_items.
  replace (Z.of_nat p * 2 <=? Z.of_nat (length h)) with (negb (length h <? p * 2)%nat)
    by (destruct (Nat.ltb_spec (length h) (p * 2)); symmetry; [apply Z.leb_gt|apply Z.leb_le]; lia).
  destruct (Nat.ltb_spec (length h) (p * 2)); [done|]. cbn [negb andb]. apply bool_decide_ext.
  rewrite Nat.sub_0_r, (take_ge (drop (length h - p) h)) by (rewrite length_drop; lia).
  by replace (Z.to_nat (Z.of_nat p * 2)) with (p * 2)%nat by lia; rewrite Nat2Z.id;
    replace (p * 2 - p)%nat with p by lia.
Qed.

Lemma find_detects h :
  find (CycleEvidence.repeats h) [1; 2; 3] = option_map Z.of_nat (detect_short_cycle h 3).
Proof.
  unfold detect_short_cycle. cbn [find detect_from].
  pose proof (repeats_detects h 1) as H1. pose proof (repeats_detects h 2) as H2. pose proof (repeats_detects h 3) as H3.
  change (Z.of_nat 1) with 1 in H1. change (Z.of_nat 2) with 2 in H2. change (Z.of_nat 3) with 3 in H3.
  rewrite H1, H2, H3 by lia.
  destruct (length h <? 1 * 2)%nat, (length h <? 2 * 2)%nat, (length h <? 3 * 2)%nat; cbn [negb andb];
    repeat case_bool_decide; done.
Qed.

Lemma make_cycle_Ok e e' : CycleEvidence.make e = Ok e' → e' = e.
Proof.
  unfold CycleEvidence.make. intros H. do 3 (apply res_bind_Ok in H as ([] & _ & H)).
  apply res_bind_Ok in H as (l & Hl & H). apply res_bind_Ok in H as ([] & _ & [= <-]).
  unfold checked_strings in Hl. apply res_bind_Ok in Hl as (l' & [-> _]%materialize_Ok & Hl).
  do 2 (apply res_bind_Ok in Hl as ([] & _ & Hl)). injection Hl as <-. by destruct e.
Qed.

(** The pattern is the tail of the history. *)
Lemma from_snapshot_Ok snap o :
  CycleEvidence.from_snapshot snap = Ok o →
  o = option_map (λ p, {|
    ce_runtime_session_id := rs_session_id snap; ce_runtime_state_id := rs_state_id snap;
    ce_period := Z.of_nat p; ce_transition_pattern := last_items (Z.of_nat p) (rs_history snap) |})
    (detect_short_cycle (rs_history snap) 3).
Proof.
  unfold CycleEvidence.from_snapshot. rewrite find_detects.
  destruct (detect_short_cycle (rs_history snap) 3) as [p|]; cbn [option_map]; [|by intros [= <-]].
  intros (e & ->%make_cycle_Ok & [= <-])%res_bind_Ok. done.
Qed.

(** ** Reproducing a cycle *)

Lemma Forall_imap_pair {A} (P : nat * A → Prop) l :
  Forall P (imap pair l) ↔ ∀ i x, l !! i = Some x → P (i, x).
Proof.
  rewrite Forall_lookup. split.
  - intros H i x Hi. apply (H i). by rewrite list_lookup_imap, Hi.
  - intros H i [j x] Hi. rewrite list_lookup_imap in Hi. destruct (l !! i) eqn:E; [|done].
    injection Hi as <- <-. by apply H.
Qed.

(** The pattern starts by repeating the cycle, item by item. *)
Definition follows_cycle (e : CycleEvidence) (pattern : list pystr) : Prop :=
  pattern ≠ [] ∧ ce_period e <= Z.of_nat (length pattern) ∧
  ∀ i x, pattern !! i = Some x → ce_transition_pattern e !! Z.to_nat (Z.of_nat i mod ce_period e) = Some x.

Lemma res_exists_all_false {A} (f : A → res bool) l : res_exists f l = Ok false ↔ Forall (λ x, f x = Ok false) l.
Proof.
  induction l as [|x l IH]; simpl; [by split|]. rewrite Forall_cons, <- IH.
  destruct (f x) as [[]|]; simpl; naive_solver.
Qed.

Lemma reproduces_Ok e pattern b :
  CycleEvidence.reproduces e pattern = Ok b → b = true ↔ follows_cycle e pattern.
Proof.
  unfold CycleEvidence.reproduces, follows_cycle. destruct pattern as [|x0 l]; [by intros [= <-]; split; [|intros []]|].
  set (pattern := x0 :: l). cbn [nonempty negb]. change (negb (nonempty pattern)) with false. cbn [negb].
  destruct (Z.ltb_spec (Z.of_nat (length pattern)) (ce_period e)); [intros [= <-]; split; [done|lia]|].
  intros (d & Hd & [= <-])%res_bind_Ok. rewrite negb_true_iff.
  assert (Hiff : d = false ↔ res_exists (λ '(index, transition_id),
        let* item := list_item (ce_transition_pattern e) (Z.to_nat (Z.of_nat index mod ce_period e)) in
        Ok (negb (bool_decide (transition_id = item)))) (imap pair pattern) = Ok false)
    by (rewrite Hd; split; congruence).
  rewrite Hiff, res_exists_all_false, Forall_imap_pair. clear Hiff Hd. split.
  - intros Hall. split; [done|]. split; [done|]. intros i x Hi. specialize (Hall i x Hi). cbn beta iota in Hall.
    unfold list_item in Hall. destruct (ce_transition_pattern e !! _) as [y|]; [|done].
    cbn [res_bind] in Hall. injection Hall as Heq%negb_false_iff%bool_decide_eq_true. by subst.
  - intros (_ & _ & Hall) i x Hi. unfold list_item. rewrite (Hall i x Hi). cbn [res_bind]. by rewrite bool_decide_true.
Qed.

(** ** When a change is admitted *)

Record admissible (st : OrchestrationState) (prior proposed : StrategyMaterialization)
    (ce : option CycleEvidence) : Prop := {
  ad_schema : ∃ schema i, OrchestrationState.strategy_schema st (sg_key (sm_strategy proposed)) = Ok (Some schema) ∧
    StrategySchema.schema_id schema = Ok i ∧ StrategySchema.schema_id (sg_schema (sm_strategy proposed)) = Ok i;
  ad_identity : Strategy.strategy_id (sm_strategy proposed) ≠ Strategy.strategy_id (sm_strategy prior);
  ad_material : StrategyMaterialization.difference_fields proposed ≠ StrategyMaterialization.difference_fields prior;
  ad_capabilities : ∀ name, name ∈ sm_capability_frontier proposed →
    ∃ c, OrchestrationState.capability st name = Ok (Some c) ∧ cap_available c = true;
  ad_targets : ∀ target, target ∈ sm_target_obligation_ids proposed →
    ∃ ids, ObligationRegistry.known_ids (os_obligations st) = Ok ids ∧ target ∈ ids;
  ad_cycle : ∀ e, ce = Some e → ¬ follows_cycle e (sm_initial_transition_pattern proposed)
}.

Lemma difference_equal a b :
  py_equal (obj (StrategyMaterialization.difference_fields a)) (obj (StrategyMaterialization.difference_fields b)) = true ↔
  StrategyMaterialization.difference_fields a = StrategyMaterialization.difference_fields b.
Proof.
  assert (Hiff : ∀ a b, py_equal (obj (StrategyMaterialization.difference_fields a))
      (obj (StrategyMaterialization.difference_fields b)) = true ↔
    sm_capability_frontier a = sm_capability_frontier b ∧ sm_dependency_path a = sm_dependency_path b ∧
    sm_initial_transition_pattern a = sm_initial_transition_pattern b ∧ sm_recovery_mode a = sm_recovery_mode b ∧
    sm_target_obligation_ids a = sm_target_obligation_ids b ∧ True).
  { intros x y. rewrite py_equal_obj; [|done|apply (bool_decide_unpack _); vm_compute; done].
    unfold StrategyMaterialization.difference_fields.
    by rewrite !Forall2_cons, Forall2_nil; cbn [snd]; rewrite !py_equal_strs, py_equal_str. }
  split; [|by intros ->; apply Hiff].
  rewrite Hiff. unfold StrategyMaterialization.difference_fields. by intros (-> & -> & -> & -> & -> & _).
Qed.

Lemma active_schema_true st sg :
  active_schema_matches st sg = Ok true ↔
  ∃ schema i, OrchestrationState.strategy_schema st (sg_key sg) = Ok (Some schema) ∧
    StrategySchema.schema_id schema = Ok i ∧ StrategySchema.schema_id (sg_schema sg) = Ok i.
Proof.
  unfold active_schema_matches. split.
  - intros ([schema|] & Hs & H)%res_bind_Ok; [|done]. apply res_bind_Ok in H as (i & Hi & H).
    apply res_bind_Ok in H as (j & Hj & [= ->%bool_decide_eq_true]). eauto.
  - intros (schema & i & -> & Hi & Hj). cbn [res_bind]. rewrite Hi, Hj. cbn [res_bind]. by rewrite bool_decide_true.
Qed.

Lemma no_missing {A} (f : A → res bool) (P : A → Prop) l b :
  (∀ x, f x = Ok false ↔ P x) → res_exists f l = Ok b → b = false ↔ ∀ x, x ∈ l → P x.
Proof.
  intros Hf Hb. assert (Hiff : b = false ↔ res_exists f l = Ok false) by (rewrite Hb; split; congruence).
  rewrite Hiff, res_exists_all_false, Forall_forall. by setoid_rewrite Hf.
Qed.

Lemma lacks_capability_false st name :
  lacks_capability st name = Ok false ↔
  ∃ c, OrchestrationState.capability st name = Ok (Some c) ∧ cap_available c = true.
Proof.
  unfold lacks_capability. destruct (OrchestrationState.capability st name) as [[c|]|]; cbn [res_bind]; [|naive_solver..].
  split; [intros [= ?%negb_false_iff]; eauto|]. intros (c' & [= <-] & ->). done.
Qed.

Lemma lacks_target_false st target :
  lacks_target st target = Ok false ↔
  ∃ ids, ObligationRegistry.known_ids (os_obligations st) = Ok ids ∧ target ∈ ids.
Proof.
  unfold lacks_target. destruct (ObligationRegistry.known_ids (os_obligations st)) as [ids|]; cbn [res_bind]; [|naive_solver].
  split.
  - intros [= Hin%negb_false_iff%str_in_true]. eauto.
  - intros (ids' & [= <-] & Hin%str_in_true). by rewrite Hin.
Qed.

Lemma derive_reason_Ok st prior proposed ce r :
  derive_strategy_change_reason st prior proposed ce = Ok r →
  r = ADMITTED_MATERIAL_CHANGE ↔ admissible st prior proposed ce.
Proof.
  unfold derive_strategy_change_reason. intros H. apply res_bind_Ok in H as (schema & Hs & H).
  pose proof (active_schema_true st (sm_strategy proposed)) as Hschema. rewrite Hs in Hschema.
  destruct schema; cbn [negb] in H; [|injection H as <-; split; [done|intros [Ha]; by apply Hschema in Ha]].
  apply res_bind_Ok in H as (i & Hi & H). apply res_bind_Ok in H as (j & Hj & H).
  case_bool_decide as Hij; [subst; injection H as <-; split; [done|intros [_ Ha]; congruence]|].
  unfold StrategyMaterialization.semantic_difference_record in H.
  apply res_bind_Ok in H as (dp & (u1 & _ & [= <-])%res_bind_Ok & H).
  apply res_bind_Ok in H as (dq & (u2 & _ & [= <-])%res_bind_Ok & H).
  destruct (py_equal _ _) eqn:Hd.
  { injection H as <-. apply difference_equal in Hd. split; [done|]. by intros [_ _ Ha]. }
  apply res_bind_Ok in H as (uc & Huc & H). apply (no_missing _ _ _ _ (lacks_capability_false st)) in Huc.
  destruct uc; [injection H as <-; split; [done|intros [_ _ _ Ha]; by apply Huc in Ha]|].
  apply res_bind_Ok in H as (ut & Hut & H). apply (no_missing _ _ _ _ (lacks_target_false st)) in Hut.
  destruct ut; [injection H as <-; split; [done|intros [_ _ _ _ Ha]; by apply Hut in Ha]|].
  apply res_bind_Ok in H as (rep & Hrep & [= <-]).
  assert (Hcyc : rep = false ↔ ∀ e, ce = Some e → ¬ follows_cycle e (sm_initial_transition_pattern proposed)).
  { destruct ce as [e|]; [|injection Hrep as <-; by split]. apply reproduces_Ok in Hrep.
    rewrite <- not_true_iff_false, Hrep. split; [by intros ? ? [= <-]|intros Ha; by apply Ha]. }
  destruct rep; [split; [done|intros [_ _ _ _ _ Ha]; by apply Hcyc in Ha]|].
  split; [intros _|done]. constructor; [by apply Hschema|congruence| |by apply Huc|by apply Hut|by apply Hcyc].
  intros He. apply difference_equal in He. congruence.
Qed.

(** ** Properties *)

(** The cycle evidence drawn from a snapshot is what the bounded kernel's cycle detector
    reports of the history: evidence exists exactly when the detector finds a period up to three,
    and then carries that period and the repeated tail. *)
Theorem cycle_evidence_is_detected snap o :
  CycleEvidence.from_snapshot snap = Ok o →
  option_map ce_period o = option_map Z.of_nat (detect_short_cycle (rs_history snap) 3) ∧
  ∀ e, o = Some e →
    (∃ h0, rs_history snap = h0 ++ ce_transition_pattern e ++ ce_transition_pattern e) ∧
    Z.of_nat (length (ce_transition_pattern e)) = ce_period e ∧
    ce_runtime_session_id e = rs_session_id snap ∧ ce_runtime_state_id e = rs_state_id snap.
Proof.
  intros ->%from_snapshot_Ok. destruct (detect_short_cycle (rs_history snap) 3) as [p|] eqn:Hd; cbn [option_map]; [|done].
  split; [done|]. intros e [= <-]. cbn [ce_transition_pattern ce_period ce_runtime_session_id ce_runtime_state_id].
  apply detect_from_Some in Hd as (Hp & (h0 & w & Hh & Hw) & _); [|lia].
  assert (Hl : last_items (Z.of_nat p) (rs_history snap) = w).
  { unfold last_items. rewrite Hh, Nat2Z.id, !length_app, app_assoc.
    replace (length h0 + (length w + length w) - p)%nat with (length (h0 ++ w)) by (rewrite length_app; lia).
    by rewrite drop_app_length. }
  rewrite Hl. split; [by exists h0|]. split; [by rewrite Hw|done].
Qed.

(** C35.  A strategy change is admitted exactly when the orchestrator's active schema is the one
    the proposed strategy uses, the strategy has another identity, something other than the
    description differs, every capability it names is available, every target is a known
    obligation and its first transitions do not repeat the cycle.  The receipt binds the identities
    of what was compared and passes the validation that later readers repeat. *)
Theorem strategy_change_exact task gov st prior proposed ce r :
  evaluate_strategy_change task gov st prior proposed ce = Ok r →
  (sr_status r = CHANGE_ADMITTED ↔ admissible st prior proposed ce) ∧
  (sr_status r = CHANGE_ADMITTED ↔ sr_reason r = ADMITTED_MATERIAL_CHANGE) ∧
  StrategyMaterialization.strategy_material_id prior = Ok (sr_prior_strategy_material_id r) ∧
  StrategyMaterialization.strategy_material_id proposed = Ok (sr_proposed_strategy_material_id r) ∧
  OrchestrationState.state_id st = Ok (sr_orchestration_state_id r) ∧
  res_option CycleEvidence.cycle_evidence_id ce = Ok (sr_cycle_evidence_id r) ∧
  StrategyChangeReceipt.validate_bound_material r = Ok tt.
Proof.
  unfold evaluate_strategy_change. intros H. do 6 (apply res_bind_Ok in H as ([] & _ & H)).
  apply res_bind_Ok in H as (reason & Hr & H). apply derive_reason_Ok in Hr.
  apply res_bind_Ok in H as (si & Hsi & H). apply res_bind_Ok in H as (pi & Hpi & H).
  apply res_bind_Ok in H as (qi & Hqi & H). apply res_bind_Ok in H as (gi & _ & H).
  apply res_bind_Ok in H as (ci & Hci & H). unfold StrategyChangeReceipt.make in H.
  do 3 (apply res_bind_Ok in H as ([] & _ & H)). apply res_bind_Ok in H as ([] & Hv & [= <-]).
  assert (Hst : status_of_reason reason = CHANGE_ADMITTED ↔ reason = ADMITTED_MATERIAL_CHANGE)
    by (unfold status_of_reason; case_decide; split; congruence).
  cbn [sr_status sr_reason sr_prior_strategy_material_id sr_proposed_strategy_material_id sr_orchestration_state_id
    sr_cycle_evidence_id]. rewrite Hst. auto 10.
Qed.

(** ** Concrete changes *)

Definition sx_snapshot : RuntimeSnapshot := {|
  rs_session_id := ex_task_id; rs_state_id := ex_task_id; rs_logical_tick := 0; rs_requests := 0;
  rs_executions := 0; rs_cache_hits := 0; rs_retries := 0;
  rs_history := [ex_task_id; ex_target; ex_task_id; ex_target]; rs_cache := [];
  rs_limits := {| rl_max_requests := 8; rl_max_executions := 4; rl_max_retries := 2; rl_max_history := 8 |};
  rs_continuation := None |}.

Definition sx_evidence : CycleEvidence := {|
  ce_runtime_session_id := ex_task_id; ce_runtime_state_id := ex_task_id; ce_period := 2;
  ce_transition_pattern := [ex_task_id; ex_target] |}.

Lemma cycle_evidence_is_detected_witness :
  option_map ce_period (Some sx_evidence) = option_map Z.of_nat (detect_short_cycle (rs_history sx_snapshot) 3).
Proof. apply (cycle_evidence_is_detected sx_snapshot (Some sx_evidence)). vm_compute. reflexivity. Defined.

Definition sx_material (strategy : Strategy) (pattern : list pystr) (description : string) : StrategyMaterialization := {|
  sm_strategy := strategy; sm_capability_frontier := [u "read"]; sm_target_obligation_ids := [ex_target];
  sm_dependency_path := []; sm_recovery_mode := u "retry"; sm_initial_transition_pattern := pattern;
  sm_description := u description |}.

Definition sx_old : Strategy := {|
  sg_key := u "old";
  sg_schema := {| sc_strategy_key := u "old"; sc_parameter_specs := []; sc_contract_version := 1 |};
  sg_parameters := {| cv_text := u "{}" |} |}.

(** A change of strategy in a runtime that cycles, with the first transitions given. *)
Definition sx_change (pattern : list pystr) : res StrategyChangeReceipt :=
  evaluate_strategy_change ex_task_id ex_task_id ex_state (sx_material sx_old [] "stuck")
    (sx_material ex_strategy pattern "leave the loop") (Some sx_evidence).

Lemma strategy_change_exact_witness :
  admissible ex_state (sx_material sx_old [] "stuck") (sx_material ex_strategy [ex_target] "leave the loop") (Some sx_evidence).
Proof.
  assert (He : (match sx_change [ex_target] with Ok r => bool_decide (sr_status r = CHANGE_ADMITTED) | _ => false end) = true)
    by (vm_compute; reflexivity).
  destruct (sx_change [ex_target]) as [r|e] eqn:Hr; [|discriminate He].
  apply (strategy_change_exact _ _ _ _ _ _ _ Hr). apply bool_decide_eq_true in He. exact He.
Defined.

(** The same change that starts by repeating the cycle is refused. *)
Example sx_cycle_refused :
  (let* r := sx_change [ex_task_id; ex_target; ex_task_id] in Ok (sr_reason r)) = Ok CYCLE_EQUIVALENT.
Proof. vm_compute. reflexivity. Qed.
