(* ===== verification/Lease.v ===== *)
(** * Continuation state and lease records ([src/ibae/continuation.py], fourth part)

    The ledger of lease decisions, the request for a lease and the two receipts that answer it.
    The capabilities that the native runtime attaches to them are [NativeSeals]; [replace] runs
    the constructor again, with the fields given here. *)

From Stdlib Require Import Ascii String.
From stdpp Require Import base list gmap.
From S2P Require Import Prelude PyStr PyNumber Sha256 Canonical Records Kahn Obligations Epistemic Orchestration Budget Progress Snapshot Receipts Strategy.

Definition LEASE_GRANT_RECEIPT_VERSION : pystr := u "IBAE-CONTINUATION-LEASE-GRANT-V1".
Definition LEASE_DENY_RECEIPT_VERSION : pystr := u "IBAE-CONTINUATION-LEASE-DENY-V1".
Definition CONTINUATION_EVIDENCE_VERSION : pystr := u "IBAE-CONTINUATION-EVIDENCE-V1".
Definition CONTINUATION_STATE_ID_DOMAIN : pystr := u "ibae.continuation-state-id.v1".
Definition CONTINUATION_REQUEST_ID_DOMAIN : pystr := u "ibae.continuation-request-id.v1".
Definition LEASE_GRANT_ID_DOMAIN : pystr := u "ibae.continuation-lease-grant-id.v1".
Definition LEASE_GRANT_RECEIPT_ID_DOMAIN : pystr := u "ibae.continuation-lease-grant-receipt-id.v1".
Definition LEASE_DENIAL_ID_DOMAIN : pystr := u "ibae.continuation-lease-denial-id.v1".
Definition LEASE_DENY_RECEIPT_ID_DOMAIN : pystr := u "ibae.continuation-lease-deny-receipt-id.v1".
Definition CONTINUATION_DECISION_AGGREGATE_DOMAIN : pystr := u "ibae.continuation-decision-aggregate.v1".
Definition CONTINUATION_EVIDENCE_PROGRESS_AGGREGATE_DOMAIN : pystr := u "ibae.continuation-progress-aggregate.v1".

(** ** Enumerations *)

Inductive ProgressState :=
  | PROGRESSING | STALLED | STRATEGY_CHANGED | STRATEGY_CHANGE_REJECTED | CYCLE_BLOCKED
  | LEASE_EXHAUSTED | COMPLETE.

Inductive ContinuationRequester :=
  | OPENAI_SUPERVISOR | LOCAL_CANDIDATE_WORKER | DETERMINISTIC_ORCHESTRATOR | RUST_EXECUTION_RUNTIME
  | TOOL_BACKEND.

Inductive LeaseDenialReason :=
  | UNAUTHORIZED_REQUESTER | STALE_CONTINUATION_STATE | STALE_GOVERNANCE | STALE_ORCHESTRATION_STATE
  | STALE_RUNTIME_STATE | STALE_PROGRESS | LEASE_INDEX_MISMATCH | NO_MEASURABLE_PROGRESS | TERMINAL_CYCLE
  | LEASE_CEILING_REACHED | LEASE_REQUEST_LIMIT | STRATEGY_CHANGE_NOT_MATERIAL
  | STRATEGY_CHANGE_CYCLE_EQUIVALENT | STRATEGY_RECOVERY_EXHAUSTED | TASK_ALREADY_COMPLETE
  | BLOCKING_GOVERNANCE_VIOLATION | AMOUNT_EXCEEDS_SCHEDULE | AMOUNT_EXCEEDS_CEILING
  | EMPTY_RESOURCE_VECTOR | UNSUPPORTED_RESOURCE | PENDING_LEASE_APPLICATION.

(** The closed taxonomy ["none"], ["granted"], ["denied"]. *)
Inductive LastDecision := NONE_DECIDED | LAST_GRANTED | LAST_DENIED.

#[export] Instance ProgressState_eq_dec : EqDecision ProgressState.
Proof. solve_decision. Defined.
#[export] Instance ContinuationRequester_eq_dec : EqDecision ContinuationRequester.
Proof. solve_decision. Defined.
#[export] Instance LeaseDenialReason_eq_dec : EqDecision LeaseDenialReason.
Proof. solve_decision. Defined.
#[export] Instance LastDecision_eq_dec : EqDecision LastDecision.
Proof. solve_decision. Defined.

Definition progress_state_value (s : ProgressState) : pystr :=
  match s with
  | PROGRESSING => u "progressing"
  | STALLED => u "stalled"
  | STRATEGY_CHANGED => u "strategy_changed"
  | STRATEGY_CHANGE_REJECTED => u "strategy_change_rejected"
  | CYCLE_BLOCKED => u "cycle_blocked"
  | LEASE_EXHAUSTED => u "lease_exhausted"
  | COMPLETE => u "complete"
  end.

Definition requester_value (r : ContinuationRequester) : pystr :=
  match r with
  | OPENAI_SUPERVISOR => u "openai_supervisor"
  | LOCAL_CANDIDATE_WORKER => u "local_candidate_worker"
  | DETERMINISTIC_ORCHESTRATOR => u "deterministic_orchestrator"
  | RUST_EXECUTION_RUNTIME => u "rust_execution_runtime"
  | TOOL_BACKEND => u "tool_backend"
  end.

Definition denial_value (r : LeaseDenialReason) : pystr :=
  u "IBAE-LEASE-DENY-" ++
  match r with
  | UNAUTHORIZED_REQUESTER => u "UNAUTHORIZED-REQUESTER"
  | STALE_CONTINUATION_STATE => u "STALE-CONTINUATION-STATE"
  | STALE_GOVERNANCE => u "STALE-GOVERNANCE"
  | STALE_ORCHESTRATION_STATE => u "STALE-ORCHESTRATION-STATE"
  | STALE_RUNTIME_STATE => u "STALE-RUNTIME-STATE"
  | STALE_PROGRESS => u "STALE-PROGRESS"
  | LEASE_INDEX_MISMATCH => u "LEASE-INDEX-MISMATCH"
  | NO_MEASURABLE_PROGRESS => u "NO-MEASURABLE-PROGRESS"
  | TERMINAL_CYCLE => u "TERMINAL-CYCLE"
  | LEASE_CEILING_REACHED => u "LEASE-CEILING-REACHED"
  | LEASE_REQUEST_LIMIT => u "LEASE-REQUEST-LIMIT"
  | STRATEGY_CHANGE_NOT_MATERIAL => u "STRATEGY-CHANGE-NOT-MATERIAL"
  | STRATEGY_CHANGE_CYCLE_EQUIVALENT => u "STRATEGY-CHANGE-CYCLE-EQUIVALENT"
  | STRATEGY_RECOVERY_EXHAUSTED => u "STRATEGY-RECOVERY-EXHAUSTED"
  | TASK_ALREADY_COMPLETE => u "TASK-ALREADY-COMPLETE"
  | BLOCKING_GOVERNANCE_VIOLATION => u "BLOCKING-GOVERNANCE-VIOLATION"
  | AMOUNT_EXCEEDS_SCHEDULE => u "AMOUNT-EXCEEDS-SCHEDULE"
  | AMOUNT_EXCEEDS_CEILING => u "AMOUNT-EXCEEDS-CEILING"
  | EMPTY_RESOURCE_VECTOR => u "EMPTY-RESOURCE-VECTOR"
  | UNSUPPORTED_RESOURCE => u "UNSUPPORTED-RESOURCE"
  | PENDING_LEASE_APPLICATION => u "PENDING-LEASE-APPLICATION"
  end.

Definition last_decision_value (d : LastDecision) : pystr :=
  match d with NONE_DECIDED => u "none" | LAST_GRANTED => u "granted" | LAST_DENIED => u "denied" end.

(** ** Aggregates *)

(** [_initial_decision_aggregate] and [_advance_decision_aggregate] *)
Definition decision_seed_record (task_id governance_id continuation_policy_id : pystr) : pyval :=
  obj [("continuation_policy_id", VStr continuation_policy_id); ("governance_id", VStr governance_id);
       ("item_type", VStr (u "seed")); ("task_id", VStr task_id)]%string.

Definition decision_link_record (prior receipt_id : pystr) (ordinal : Z) : pyval :=
  obj [("item_type", VStr (u "decision")); ("ordinal", VInt ordinal); ("prior", VStr prior);
       ("receipt_id", VStr receipt_id)]%string.

Definition initial_decision_aggregate (task_id governance_id continuation_policy_id : pystr) : res pystr :=
  domain_fingerprint CONTINUATION_DECISION_AGGREGATE_DOMAIN
    (decision_seed_record task_id governance_id continuation_policy_id).

Definition advance_decision_aggregate (prior receipt_id : pystr) (ordinal : Z) : res pystr :=
  require_fingerprint prior ;;*
  require_fingerprint receipt_id ;;*
  require_u64 ordinal ;;*
  domain_fingerprint CONTINUATION_DECISION_AGGREGATE_DOMAIN (decision_link_record prior receipt_id ordinal).

(** [_initial_progress_aggregate], [_advance_progress_aggregate] and [_progress_aggregate] *)
Definition progress_seed_record : pyval :=
  obj [("item_type", VStr (u "seed")); ("protocol_version", VStr CONTINUATION_EVIDENCE_VERSION)]%string.

Definition progress_link_record (prior progress_id : pystr) (ordinal : Z) : pyval :=
  obj [("item_type", VStr (u "progress")); ("ordinal", VInt ordinal); ("prior", VStr prior);
       ("progress_id", VStr progress_id)]%string.

Definition initial_progress_aggregate : res pystr :=
  domain_fingerprint CONTINUATION_EVIDENCE_PROGRESS_AGGREGATE_DOMAIN progress_seed_record.

Definition advance_progress_aggregate (prior progress_id : pystr) (ordinal : Z) : res pystr :=
  require_fingerprint prior ;;*
  require_fingerprint progress_id ;;*
  require_u64 ordinal ;;*
  domain_fingerprint CONTINUATION_EVIDENCE_PROGRESS_AGGREGATE_DOMAIN (progress_link_record prior progress_id ordinal).

Definition progress_aggregate (records : list ProgressRecord) : res pystr :=
  let* seed := initial_progress_aggregate in
  res_fold (λ prior '(ordinal, record),
      let* i := ProgressRecord.progress_id record in
      advance_progress_aggregate prior i (Z.of_nat ordinal)) seed (imap pair records).

(** The [receipt_id] of a record with one. *)
Definition receipt_id_of (record : res pyval) : res pystr :=
  let* v := record in
  match v with
  | VDict l => let* i := dict_item l (u "receipt_id") in match i with VStr s => Ok s | _ => Raise TypeError end
  | _ => Raise TypeError
  end.

(** [a == b] for the canonical records of two resource vectors. *)
Definition same_resources (v : RuntimeLeaseResourceVector) (b : BudgetVector) : bool :=
  bool_decide (map snd (RuntimeLeaseResourceVector.items v) = BudgetVector.values b).

(** The limits are those of the budget. *)
Definition limits_match (l : RuntimeLimits) (b : BudgetVector) : bool :=
  (rl_max_requests l =? bv_request_delta b) && (rl_max_executions l =? bv_execution_delta b) &&
  (rl_max_retries l =? bv_retry_delta b) && (rl_max_history l =? bv_history_delta b).

(** ** The continuation state *)

Record ContinuationState {N : NativeSeals} := {
  cs_task_id : pystr;
  cs_governance_id : pystr;
  cs_governance_receipt_id : pystr;
  cs_continuation_policy_id : pystr;
  cs_continuation_policy_receipt_id : pystr;
  cs_progress_contract_id : pystr;
  cs_orchestration_state_id : pystr;
  cs_runtime_session_id : pystr;
  cs_runtime_state_id : pystr;
  cs_lease_requests : Z;
  cs_leases_granted : Z;
  cs_leases_denied : Z;
  cs_cumulative_granted : BudgetVector;
  cs_continuation_logical_tick : Z;
  cs_decision_aggregate_id : pystr;
  cs_decision_receipt_ids : list pystr;
  cs_strategy_recoveries : Z;
  cs_current_strategy_material_id : option pystr;
  cs_last_progress_id : option pystr;
  cs_progress_event_count : Z;
  cs_progress_aggregate_id : pystr;
  cs_last_consumed_progress_id : option pystr;
  cs_last_external_progress_endpoint_id : option pystr;
  cs_last_consumed_external_progress_endpoint_id : option pystr;
  cs_last_progress_classification : option ProgressClassification;
  cs_last_decision : LastDecision;
  cs_last_denial_reason : option LeaseDenialReason;
  cs_progress_state : ProgressState;
  cs_terminal_ceiling_receipt_id : option pystr;
  cs_pending_grant_id : option pystr;
  cs_pending_grant_receipt_id : option pystr;
  cs_decision_lineage_capability : option state_seal
}.

Module ContinuationState.
Section state.
Context {N : NativeSeals}.
Implicit Types s : ContinuationState.

Definition has_pending_grant s : bool := is_some (cs_pending_grant_id s).

(** [_canonical_record_unchecked] *)
Definition canonical_record_unchecked s : pyval :=
  obj [("continuation_logical_tick", VInt (cs_continuation_logical_tick s));
       ("continuation_policy_id", VStr (cs_continuation_policy_id s));
       ("continuation_policy_receipt_id", VStr (cs_continuation_policy_receipt_id s));
       ("progress_contract_id", VStr (cs_progress_contract_id s));
       ("cumulative_granted", BudgetVector.canonical_record (cs_cumulative_granted s));
       ("current_strategy_material_id", opt_val VStr (cs_current_strategy_material_id s));
       ("decision_aggregate_id", VStr (cs_decision_aggregate_id s));
       ("decision_receipt_ids", strs_val (cs_decision_receipt_ids s));
       ("governance_id", VStr (cs_governance_id s));
       ("governance_receipt_id", VStr (cs_governance_receipt_id s));
       ("last_decision", VStr (last_decision_value (cs_last_decision s)));
       ("last_denial_reason", opt_val (λ r, VStr (denial_value r)) (cs_last_denial_reason s));
       ("last_progress_classification",
         opt_val (λ c, VStr (classification_value c)) (cs_last_progress_classification s));
       ("last_consumed_progress_id", opt_val VStr (cs_last_consumed_progress_id s));
       ("last_consumed_external_progress_endpoint_id",
         opt_val VStr (cs_last_consumed_external_progress_endpoint_id s));
       ("last_progress_id", opt_val VStr (cs_last_progress_id s));
       ("progress_event_count", VInt (cs_progress_event_count s));
       ("progress_aggregate_id", VStr (cs_progress_aggregate_id s));
       ("last_external_progress_endpoint_id", opt_val VStr (cs_last_external_progress_endpoint_id s));
       ("lease_requests", VInt (cs_lease_requests s));
       ("leases_denied", VInt (cs_leases_denied s));
       ("leases_granted", VInt (cs_leases_granted s));
       ("orchestration_state_id", VStr (cs_orchestration_state_id s));
       ("pending_grant_id", opt_val VStr (cs_pending_grant_id s));
       ("pending_grant_receipt_id", opt_val VStr (cs_pending_grant_receipt_id s));
       ("progress_state", VStr (progress_state_value (cs_progress_state s)));
       ("protocol_version", VStr CONTINUATION_PROTOCOL_VERSION);
       ("runtime_session_id", VStr (cs_runtime_session_id s));
       ("runtime_state_id", VStr (cs_runtime_state_id s));
       ("strategy_recoveries", VInt (cs_strategy_recoveries s));
       ("task_id", VStr (cs_task_id s));
       ("terminal_ceiling_receipt_id", opt_val VStr (cs_terminal_ceiling_receipt_id s))]%string.

(** [_decision_lineage_text] *)
Definition decision_lineage_text s : res pystr := canonical_json (canonical_record_unchecked s).

(** The ledger's own arithmetic: the checks of [__post_init__] between its counters. *)
Definition check_accounting s : res unit :=
  raise_if (negb (cs_lease_requests s =? cs_leases_granted s + cs_leases_denied s)) ValueError ;;*
  raise_if (negb (cs_continuation_logical_tick s =? cs_lease_requests s)) ValueError ;;*
  checked_strings require_fingerprint (cs_decision_receipt_ids s) MAX_LEASE_REQUESTS false true ;;*
  raise_if (negb (Z.of_nat (length (cs_decision_receipt_ids s)) =? cs_lease_requests s)) ValueError.

Definition check_progress s : res unit :=
  check_option require_fingerprint (cs_current_strategy_material_id s) ;;*
  check_option require_fingerprint (cs_last_progress_id s) ;;*
  require_fingerprint (cs_progress_aggregate_id s) ;;*
  raise_if (negb (Bool.eqb (cs_progress_event_count s =? 0) (negb (is_some (cs_last_progress_id s))))) ValueError ;;*
  check_option require_fingerprint (cs_last_consumed_progress_id s) ;;*
  check_option require_fingerprint (cs_last_external_progress_endpoint_id s) ;;*
  check_option require_fingerprint (cs_last_consumed_external_progress_endpoint_id s).

Definition check_pending s : res unit :=
  match cs_terminal_ceiling_receipt_id s with
  | None => Ok tt
  | Some i =>
      require_fingerprint i ;;*
      raise_if (negb (bool_decide (cs_progress_state s = LEASE_EXHAUSTED))) ValueError
  end ;;*
  raise_if (xorb (is_some (cs_pending_grant_id s)) (is_some (cs_pending_grant_receipt_id s))) ValueError ;;*
  check_option require_fingerprint (cs_pending_grant_id s) ;;*
  check_option require_fingerprint (cs_pending_grant_receipt_id s) ;;*
  raise_if (is_some (cs_terminal_ceiling_receipt_id s) && has_pending_grant s) ValueError.

Definition check_decisions s : res unit :=
  let denied := bool_decide (cs_last_decision s = LAST_DENIED) in
  raise_if (denied && negb (is_some (cs_last_denial_reason s))) ValueError ;;*
  raise_if (negb denied && is_some (cs_last_denial_reason s)) ValueError ;;*
  raise_if (negb (Bool.eqb (cs_lease_requests s =? 0) (bool_decide (cs_last_decision s = NONE_DECIDED))))
    ValueError ;;*
  raise_if (bool_decide (cs_last_decision s = LAST_GRANTED) && (cs_leases_granted s =? 0)) ValueError ;;*
  raise_if (denied && (cs_leases_denied s =? 0)) ValueError ;;*
  raise_if (is_some (cs_last_consumed_progress_id s) && (cs_leases_granted s =? 0)) ValueError ;;*
  raise_if (is_some (cs_last_consumed_external_progress_endpoint_id s) && (cs_leases_granted s =? 0)) ValueError ;;*
  raise_if (is_some (cs_last_consumed_external_progress_endpoint_id s) &&
            negb (is_some (cs_last_external_progress_endpoint_id s))) ValueError ;;*
  raise_if (cs_leases_granted s <? cs_strategy_recoveries s) ValueError.

(** A seal, where there is one, validates the lineage text. *)
Definition check_lineage s : res unit :=
  match cs_decision_lineage_capability s with
  | None => Ok tt
  | Some seal =>
      let* text := decision_lineage_text s in
      raise_if (negb (state_seal_validates seal text)) ValueError
  end.

(** [__post_init__] *)
Definition make s : res ContinuationState :=
  res_iter require_fingerprint
    [cs_task_id s; cs_governance_id s; cs_governance_receipt_id s; cs_continuation_policy_id s;
     cs_continuation_policy_receipt_id s; cs_progress_contract_id s; cs_orchestration_state_id s;
     cs_runtime_session_id s; cs_runtime_state_id s; cs_decision_aggregate_id s] ;;*
  res_iter require_u64
    [cs_lease_requests s; cs_leases_granted s; cs_leases_denied s; cs_continuation_logical_tick s;
     cs_strategy_recoveries s; cs_progress_event_count s] ;;*
  check_accounting s ;;*
  check_progress s ;;*
  check_pending s ;;*
  check_decisions s ;;*
  check_lineage s ;;*
  Ok s.

(** [_require_decision_lineage] *)
Definition require_decision_lineage s : res unit :=
  match cs_decision_lineage_capability s with
  | None => Raise ValueError
  | Some seal =>
      let* text := decision_lineage_text s in
      raise_if (negb (state_seal_validates seal text)) ValueError
  end.

(** [_with_native_lineage] *)
Definition with_native_lineage s (seal : state_seal) : res ContinuationState :=
  raise_if (is_some (cs_decision_lineage_capability s)) ValueError ;;*
  let* text := decision_lineage_text s in
  raise_if (negb (state_seal_validates seal text)) ValueError ;;*
  make {|
    cs_task_id := cs_task_id s; cs_governance_id := cs_governance_id s;
    cs_governance_receipt_id := cs_governance_receipt_id s;
    cs_continuation_policy_id := cs_continuation_policy_id s;
    cs_continuation_policy_receipt_id := cs_continuation_policy_receipt_id s;
    cs_progress_contract_id := cs_progress_contract_id s;
    cs_orchestration_state_id := cs_orchestration_state_id s;
    cs_runtime_session_id := cs_runtime_session_id s; cs_runtime_state_id := cs_runtime_state_id s;
    cs_lease_requests := cs_lease_requests s; cs_leases_granted := cs_leases_granted s;
    cs_leases_denied := cs_leases_denied s; cs_cumulative_granted := cs_cumulative_granted s;
    cs_continuation_logical_tick := cs_continuation_logical_tick s;
    cs_decision_aggregate_id := cs_decision_aggregate_id s;
    cs_decision_receipt_ids := cs_decision_receipt_ids s;
    cs_strategy_recoveries := cs_strategy_recoveries s;
    cs_current_strategy_material_id := cs_current_strategy_material_id s;
    cs_last_progress_id := cs_last_progress_id s; cs_progress_event_count := cs_progress_event_count s;
    cs_progress_aggregate_id := cs_progress_aggregate_id s;
    cs_last_consumed_progress_id := cs_last_consumed_progress_id s;
    cs_last_external_progress_endpoint_id := cs_last_external_progress_endpoint_id s;
    cs_last_consumed_external_progress_endpoint_id := cs_last_consumed_external_progress_endpoint_id s;
    cs_last_progress_classification := cs_last_progress_classification s;
    cs_last_decision := cs_last_decision s; cs_last_denial_reason := cs_last_denial_reason s;
    cs_progress_state := cs_progress_state s;
    cs_terminal_ceiling_receipt_id := cs_terminal_ceiling_receipt_id s;
    cs_pending_grant_id := cs_pending_grant_id s;
    cs_pending_grant_receipt_id := cs_pending_grant_receipt_id s;
    cs_decision_lineage_capability := Some seal |}.

(** [_native_lineage_seal] *)
Definition native_lineage_seal s : res (option state_seal) :=
  require_decision_lineage s ;;* Ok (cs_decision_lineage_capability s).

Definition canonical_record s : res pyval :=
  require_decision_lineage s ;;* Ok (canonical_record_unchecked s).

Definition continuation_state_id s : res pystr :=
  let* r := canonical_record s in domain_fingerprint CONTINUATION_STATE_ID_DOMAIN r.

(** [_require_policy] *)
Definition require_policy s (policy : ContinuationPolicy) : res unit :=
  require_decision_lineage s ;;*
  ContinuationPolicy.check_authority policy ;;*
  let* i := ContinuationPolicy.continuation_policy_id policy in
  raise_if (negb (bool_decide (i = cs_continuation_policy_id s))) ValueError ;;*
  raise_if (negb (bool_decide (cp_progress_contract_id policy = cs_progress_contract_id s))) ValueError ;;*
  raise_if (ContinuationPolicy.max_leases policy <? cs_leases_granted s) ValueError ;;*
  raise_if (cp_max_lease_requests policy <? cs_lease_requests s) ValueError ;;*
  raise_if (cp_max_lease_requests policy + 1 <? cs_progress_event_count s) ValueError ;;*
  raise_if (cp_max_strategy_recoveries policy <? cs_strategy_recoveries s) ValueError ;;*
  raise_if (is_some (cs_terminal_ceiling_receipt_id s) &&
            (negb (cs_lease_requests s =? cp_max_lease_requests policy) || has_pending_grant s)) ValueError.

Definition remaining_capacity s (policy : ContinuationPolicy) : res BudgetVector :=
  require_policy s policy ;;*
  let* capacity := ContinuationPolicy.continuation_capacity policy in
  BudgetVector.subtract_checked capacity (cs_cumulative_granted s).

Definition leases_remaining s (policy : ContinuationPolicy) : res Z :=
  require_policy s policy ;;* Ok (ContinuationPolicy.max_leases policy - cs_leases_granted s).

End state.
End ContinuationState.

(** ** Requests *)

Record ContinuationRequest {N : NativeSeals} := {
  cq_task_id : pystr;
  cq_governance_id : pystr;
  cq_continuation_policy_id : pystr;
  cq_continuation_state_id : pystr;
  cq_orchestration_state_id : pystr;
  cq_runtime_session_id : pystr;
  cq_runtime_state_id : pystr;
  cq_progress_id : pystr;
  cq_lease_index : Z;
  cq_requested_resources : BudgetVector;
  cq_requester : ContinuationRequester;
  cq_strategy_change_id : option pystr;
  cq_native_request_seal : option request_seal
}.

Module ContinuationRequest.
Section request.
Context {N : NativeSeals}.
Implicit Types q : ContinuationRequest.

Definition identities q : list pystr :=
  [cq_task_id q; cq_governance_id q; cq_continuation_policy_id q; cq_continuation_state_id q;
   cq_orchestration_state_id q; cq_runtime_session_id q; cq_runtime_state_id q; cq_progress_id q].

(** [_validate_authority_fields] *)
Definition check_authority q : res unit :=
  res_iter require_fingerprint (identities q) ;;*
  require_u64 (cq_lease_index q) ;;*
  raise_if (cq_lease_index q =? 0) ValueError ;;*
  BudgetVector.check (cq_requested_resources q) ;;*
  check_option require_fingerprint (cq_strategy_change_id q).

Definition canonical_record q : res pyval :=
  check_authority q ;;*
  Ok (obj [("continuation_policy_id", VStr (cq_continuation_policy_id q));
           ("continuation_state_id", VStr (cq_continuation_state_id q));
           ("governance_id", VStr (cq_governance_id q));
           ("lease_index", VInt (cq_lease_index q));
           ("orchestration_state_id", VStr (cq_orchestration_state_id q));
           ("progress_id", VStr (cq_progress_id q));
           ("protocol_version", VStr CONTINUATION_PROTOCOL_VERSION);
           ("requested_resources", BudgetVector.canonical_record (cq_requested_resources q));
           ("requester", VStr (requester_value (cq_requester q)));
           ("runtime_session_id", VStr (cq_runtime_session_id q));
           ("runtime_state_id", VStr (cq_runtime_state_id q));
           ("strategy_change_id", opt_val VStr (cq_strategy_change_id q));
           ("task_id", VStr (cq_task_id q))]%string).

(** [_canonical_text] *)
Definition canonical_text q : res pystr := let* r := canonical_record q in canonical_json r.

Definition continuation_request_id q : res pystr :=
  let* r := canonical_record q in domain_fingerprint CONTINUATION_REQUEST_ID_DOMAIN r.

(** [__post_init__]; the requester is already a member of the closed set. *)
Definition make q : res ContinuationRequest :=
  res_iter require_fingerprint (identities q) ;;*
  require_u64 (cq_lease_index q) ;;*
  raise_if (cq_lease_index q =? 0) ValueError ;;*
  check_option require_fingerprint (cq_strategy_change_id q) ;;*
  match cq_native_request_seal q with
  | None => Ok tt
  | Some seal =>
      raise_if (negb (bool_decide (cq_requester q = OPENAI_SUPERVISOR))) ValueError ;;*
      let* text := canonical_text q in
      raise_if (negb (request_seal_validates seal text)) ValueError
  end ;;*
  check_authority q ;;*
  Ok q.

(** [_native_request_authority] *)
Definition native_request_authority q : res (option request_seal) :=
  match cq_native_request_seal q with
  | None => Ok None
  | Some seal =>
      let* text := canonical_text q in
      raise_if (negb (request_seal_validates seal text)) ValueError ;;*
      Ok (Some seal)
  end.

(** [from_state] without a requester's capability. *)
Definition from_state (s : ContinuationState) (progress : ProgressRecord) (requested_resources : BudgetVector)
    (requester : ContinuationRequester) (strategy_change : option StrategyChangeReceipt)
    : res ContinuationRequest :=
  require_all
    [Ok (bool_decide (pr_task_id progress = cs_task_id s));
     Ok (bool_decide (pr_governance_id progress = cs_governance_id s));
     is_result (cs_progress_contract_id s) (ProgressMeasureContract.contract_id (pr_contract progress));
     Ok (bool_decide (pr_current_orchestration_state_id progress = cs_orchestration_state_id s));
     let* i := ProgressRecord.progress_id progress in Ok (bool_decide (Some i = cs_last_progress_id s))]
    ValueError ;;*
  let* state_id := ContinuationState.continuation_state_id s in
  let* progress_id := ProgressRecord.progress_id progress in
  let* change_id := res_option StrategyChangeReceipt.strategy_change_id strategy_change in
  make {|
    cq_task_id := cs_task_id s; cq_governance_id := cs_governance_id s;
    cq_continuation_policy_id := cs_continuation_policy_id s; cq_continuation_state_id := state_id;
    cq_orchestration_state_id := cs_orchestration_state_id s;
    cq_runtime_session_id := cs_runtime_session_id s; cq_runtime_state_id := cs_runtime_state_id s;
    cq_progress_id := progress_id; cq_lease_index := cs_leases_granted s + 1;
    cq_requested_resources := requested_resources; cq_requester := requester;
    cq_strategy_change_id := change_id; cq_native_request_seal := None |}.

(** [_with_request_authority]: [seal] is the answer of the authority for the request's text. *)
Definition with_request_authority q (seal : request_seal) : res ContinuationRequest :=
  raise_if (negb (bool_decide (cq_requester q = OPENAI_SUPERVISOR))) ValueError ;;*
  canonical_text q ;;*
  make {|
    cq_task_id := cq_task_id q; cq_governance_id := cq_governance_id q;
    cq_continuation_policy_id := cq_continuation_policy_id q;
    cq_continuation_state_id := cq_continuation_state_id q;
    cq_orchestration_state_id := cq_orchestration_state_id q;
    cq_runtime_session_id := cq_runtime_session_id q; cq_runtime_state_id := cq_runtime_state_id q;
    cq_progress_id := cq_progress_id q; cq_lease_index := cq_lease_index q;
    cq_requested_resources := cq_requested_resources q; cq_requester := cq_requester q;
    cq_strategy_change_id := cq_strategy_change_id q; cq_native_request_seal := Some seal |}.

End request.
End ContinuationRequest.

(** ** Grants *)

Record LeaseGrantReceipt {N : NativeSeals} := {
  lg_task_id : pystr;
  lg_governance_id : pystr;
  lg_governance_receipt_id : pystr;
  lg_continuation_policy_id : pystr;
  lg_continuation_policy_receipt_id : pystr;
  lg_continuation_request_id : pystr;
  lg_prior_continuation_state_id : pystr;
  lg_orchestration_state_id : pystr;
  lg_runtime_session_id : pystr;
  lg_prior_runtime_state_id : pystr;
  lg_progress_id : pystr;
  lg_strategy_change_id : option pystr;
  lg_lease_index : Z;
  lg_granted_resources : BudgetVector;
  lg_cumulative_granted : BudgetVector;
  lg_total_ceiling : BudgetVector;
  lg_decision_logical_tick : Z;
  lg_native_seal : option grant_seal
}.

Module LeaseGrantReceipt.
Section grant.
Context {N : NativeSeals}.
Implicit Types g : LeaseGrantReceipt.

Definition identities g : list pystr :=
  [lg_task_id g; lg_governance_id g; lg_governance_receipt_id g; lg_continuation_policy_id g;
   lg_continuation_policy_receipt_id g; lg_continuation_request_id g; lg_prior_continuation_state_id g;
   lg_orchestration_state_id g; lg_runtime_session_id g; lg_prior_runtime_state_id g; lg_progress_id g].

(** [_validate_authority_fields] *)
Definition check_authority g : res unit :=
  res_iter require_fingerprint (identities g) ;;*
  check_option require_fingerprint (lg_strategy_change_id g) ;;*
  require_u64 (lg_lease_index g) ;;*
  require_u64 (lg_decision_logical_tick g) ;;*
  res_iter BudgetVector.check [lg_granted_resources g; lg_cumulative_granted g; lg_total_ceiling g] ;;*
  raise_if (lg_lease_index g =? 0) ValueError ;;*
  raise_if (BudgetVector.is_zero (lg_granted_resources g) ||
            negb (bv_mutation_delta (lg_granted_resources g) =? 0)) ValueError ;;*
  raise_if (negb (BudgetVector.is_within (lg_cumulative_granted g) (lg_total_ceiling g))) ValueError.

(** [_grant_body] *)
Definition grant_body g : res (list (string * pyval)) :=
  check_authority g ;;*
  Ok [("authority_layer", VStr (u "governance"));
      ("continuation_policy_id", VStr (lg_continuation_policy_id g));
      ("continuation_policy_receipt_id", VStr (lg_continuation_policy_receipt_id g));
      ("continuation_request_id", VStr (lg_continuation_request_id g));
      ("cumulative_granted", BudgetVector.canonical_record (lg_cumulative_granted g));
      ("decision_logical_tick", VInt (lg_decision_logical_tick g));
      ("governance_id", VStr (lg_governance_id g));
      ("governance_receipt_id", VStr (lg_governance_receipt_id g));
      ("granted_resources", BudgetVector.canonical_record (lg_granted_resources g));
      ("lease_index", VInt (lg_lease_index g));
      ("orchestration_state_id", VStr (lg_orchestration_state_id g));
      ("prior_continuation_state_id", VStr (lg_prior_continuation_state_id g));
      ("prior_runtime_state_id", VStr (lg_prior_runtime_state_id g));
      ("progress_id", VStr (lg_progress_id g));
      ("protocol_version", VStr LEASE_GRANT_RECEIPT_VERSION);
      ("runtime_session_id", VStr (lg_runtime_session_id g));
      ("status", VStr (u "granted"));
      ("strategy_change_id", opt_val VStr (lg_strategy_change_id g));
      ("task_id", VStr (lg_task_id g));
      ("total_ceiling", BudgetVector.canonical_record (lg_total_ceiling g))]%string.

Definition lease_grant_id g : res pystr :=
  let* body := grant_body g in domain_fingerprint LEASE_GRANT_ID_DOMAIN (obj body).

Definition canonical_record g : res pyval :=
  let* body := grant_body g in
  let* i := lease_grant_id g in
  with_receipt_id LEASE_GRANT_RECEIPT_ID_DOMAIN (body ++ [("lease_grant_id", VStr i)]%string).

Definition receipt_id g : res pystr := receipt_id_of (canonical_record g).

(** [_canonical_text] *)
Definition canonical_text g : res pystr := let* r := canonical_record g in canonical_json r.

Definition check_seal g : res unit :=
  match lg_native_seal g with
  | None => Ok tt
  | Some seal =>
      let* text := canonical_text g in
      raise_if (negb (grant_seal_validates seal text)) ValueError
  end.

(** [__post_init__] *)
Definition make g : res LeaseGrantReceipt :=
  res_iter require_fingerprint (identities g) ;;*
  check_option require_fingerprint (lg_strategy_change_id g) ;;*
  require_u64 (lg_lease_index g) ;;*
  raise_if (lg_lease_index g =? 0) ValueError ;;*
  require_u64 (lg_decision_logical_tick g) ;;*
  raise_if (BudgetVector.is_zero (lg_granted_resources g)) ValueError ;;*
  raise_if (negb (bv_mutation_delta (lg_granted_resources g) =? 0)) ValueError ;;*
  raise_if (negb (BudgetVector.is_within (lg_cumulative_granted g) (lg_total_ceiling g))) ValueError ;;*
  check_seal g ;;*
  Ok g.

(** [governance_bound], which is also [source_bound] *)
Definition governance_bound g : res bool :=
  match lg_native_seal g with
  | None => Ok false
  | Some seal => let* text := canonical_text g in Ok (grant_seal_validates seal text)
  end.

(** [_with_native_seal] *)
Definition with_native_seal g (seal : grant_seal) : res LeaseGrantReceipt :=
  raise_if (is_some (lg_native_seal g)) ValueError ;;*
  let* text := canonical_text g in
  raise_if (negb (grant_seal_validates seal text)) ValueError ;;*
  make {|
    lg_task_id := lg_task_id g; lg_governance_id := lg_governance_id g;
    lg_governance_receipt_id := lg_governance_receipt_id g;
    lg_continuation_policy_id := lg_continuation_policy_id g;
    lg_continuation_policy_receipt_id := lg_continuation_policy_receipt_id g;
    lg_continuation_request_id := lg_continuation_request_id g;
    lg_prior_continuation_state_id := lg_prior_continuation_state_id g;
    lg_orchestration_state_id := lg_orchestration_state_id g;
    lg_runtime_session_id := lg_runtime_session_id g;
    lg_prior_runtime_state_id := lg_prior_runtime_state_id g; lg_progress_id := lg_progress_id g;
    lg_strategy_change_id := lg_strategy_change_id g; lg_lease_index := lg_lease_index g;
    lg_granted_resources := lg_granted_resources g; lg_cumulative_granted := lg_cumulative_granted g;
    lg_total_ceiling := lg_total_ceiling g; lg_decision_logical_tick := lg_decision_logical_tick g;
    lg_native_seal := Some seal |}.

(** [_native_source_seal] *)
Definition native_source_seal g : res (option grant_seal) := check_seal g ;;* Ok (lg_native_seal g).

End grant.
End LeaseGrantReceipt.

(** ** Denials *)

Record LeaseDenyReceipt := {
  ld_task_id : pystr;
  ld_governance_id : pystr;
  ld_continuation_policy_id : pystr;
  ld_continuation_request_id : pystr;
  ld_prior_continuation_state_id : pystr;
  ld_orchestration_state_id : pystr;
  ld_runtime_state_id : pystr;
  ld_progress_id : pystr;
  ld_strategy_change_id : option pystr;
  ld_lease_index : Z;
  ld_denial_reason : LeaseDenialReason;
  ld_decision_logical_tick : Z;
  ld_blocking_evidence_id : option pystr
}.

Module LeaseDenyReceipt.

(** [__post_init__] *)
Definition make (d : LeaseDenyReceipt) : res LeaseDenyReceipt :=
  res_iter require_fingerprint
    [ld_task_id d; ld_governance_id d; ld_continuation_policy_id d; ld_continuation_request_id d;
     ld_prior_continuation_state_id d; ld_orchestration_state_id d; ld_runtime_state_id d; ld_progress_id d] ;;*
  check_option require_fingerprint (ld_strategy_change_id d) ;;*
  check_option require_fingerprint (ld_blocking_evidence_id d) ;;*
  require_u64 (ld_lease_index d) ;;*
  require_u64 (ld_decision_logical_tick d) ;;*
  Ok d.

(** [_denial_body] *)
Definition denial_body (d : LeaseDenyReceipt) : list (string * pyval) :=
  [("authority_layer", VStr (u "governance"));
   ("blocking_evidence_id", opt_val VStr (ld_blocking_evidence_id d));
   ("continuation_policy_id", VStr (ld_continuation_policy_id d));
   ("continuation_request_id", VStr (ld_continuation_request_id d));
   ("decision_logical_tick", VInt (ld_decision_logical_tick d));
   ("denial_reason", VStr (denial_value (ld_denial_reason d)));
   ("governance_id", VStr (ld_governance_id d));
   ("lease_index", VInt (ld_lease_index d));
   ("orchestration_state_id", VStr (ld_orchestration_state_id d));
   ("prior_continuation_state_id", VStr (ld_prior_continuation_state_id d));
   ("progress_id", VStr (ld_progress_id d));
   ("protocol_version", VStr LEASE_DENY_RECEIPT_VERSION);
   ("runtime_state_id", VStr (ld_runtime_state_id d));
   ("status", VStr (u "denied"));
   ("strategy_change_id", opt_val VStr (ld_strategy_change_id d));
   ("task_id", VStr (ld_task_id d))]%string.

Definition lease_denial_id (d : LeaseDenyReceipt) : res pystr :=
  domain_fingerprint LEASE_DENIAL_ID_DOMAIN (obj (denial_body d)).

Definition canonical_record (d : LeaseDenyReceipt) : res pyval :=
  let* i := lease_denial_id d in
  with_receipt_id LEASE_DENY_RECEIPT_ID_DOMAIN (denial_body d ++ [("lease_denial_id", VStr i)]%string).

Definition receipt_id (d : LeaseDenyReceipt) : res pystr := receipt_id_of (canonical_record d).

End LeaseDenyReceipt.
