(* ===== verification/LeaseMachine.v ===== *)
(** * The continuation lease machine ([src/ibae/continuation.py], fifth part)

    The four ways in which a continuation state comes about: creation from a live runtime,
    observation of ordinary work, evaluation of a lease request, and the commit of a lease that
    the runtime applied.  The live runtime session is represented by the snapshot it reports. *)

From Stdlib Require Import Ascii String.
From stdpp Require Import base list gmap.
From S2P Require Import Prelude PyStr PyNumber Sha256 Canonical Records Kahn Obligations Epistemic Orchestration Budget Progress Snapshot Receipts Strategy Lease.

(** ** Profiles *)

(** [_profile_policy] *)
Definition profile_policy (name : pystr) (base : BudgetVector) (schedule : list BudgetVector)
    (progress_contract : ProgressMeasureContract) : res ContinuationPolicy :=
  let* ceiling := res_fold BudgetVector.add_checked base schedule in
  let* contract_id := ProgressMeasureContract.contract_id progress_contract in
  ContinuationPolicy.make {|
    cp_policy_key := u "experimental." ++ name; cp_policy_version := 1;
    cp_task_profile := name; cp_task_profile_version := 1;
    cp_initial_budget := base; cp_lease_schedule := schedule; cp_total_ceiling := ceiling;
    cp_max_lease_requests := Z.max 2 (Z.of_nat (length schedule) * 2);
    cp_progress_contract_id := contract_id; cp_admitted_progress := [MEASURABLE_PROGRESS];
    cp_max_strategy_recoveries := Z.min 1 (Z.of_nat (length schedule)) |}.

Definition profile_names : list pystr := [u "tiny"; u "standard"; u "extended"; u "repository"].

(** The base budget and the schedule of each profile. *)
Definition profile (name : pystr) : res (BudgetVector * list BudgetVector) :=
  let* b8 := BudgetVector.make 8 4 1 0 8 in
  let* b16 := BudgetVector.make 16 8 2 0 16 in
  let* b32 := BudgetVector.make 32 16 4 0 32 in
  let* b64 := BudgetVector.make 64 32 8 0 64 in
  let* tiny_base := BudgetVector.make 8 4 2 0 8 in
  let* tiny_lease := BudgetVector.make 4 2 1 0 4 in
  let* repository_base := BudgetVector.make 128 64 16 0 128 in
  if bool_decide (name = u "tiny") then Ok (tiny_base, [tiny_lease])
  else if bool_decide (name = u "standard") then Ok (b32, [b16; b8])
  else if bool_decide (name = u "extended") then Ok (b64, [b32; b16; b8])
  else if bool_decide (name = u "repository") then Ok (repository_base, [b64; b32; b16])
  else Raise ValueError.

Definition experimental_continuation_profile (name : pystr) (progress_contract : option ProgressMeasureContract)
    : res ContinuationPolicy :=
  require_symbol name ;;*
  let* active_contract :=
    match progress_contract with None => default_obligation_progress_contract | Some c => Ok c end in
  let* bs := profile name in
  profile_policy name bs.1 bs.2 active_contract.

Section machine.
Context {N : NativeSeals}.
Implicit Types s : ContinuationState.

(** ** Creation *)

(** The native context of the snapshot binds the policy and its receipt. *)
Definition native_context_binds (native : RuntimeContinuationSnapshot) (policy : ContinuationPolicy)
    (policy_receipt : ContinuationPolicyReceipt) : res unit :=
  require_all
    [Ok (bool_decide (rc_task native = cr_task_id policy_receipt));
     Ok (bool_decide (rc_governance native = cr_governance_id policy_receipt));
     Ok (bool_decide (rc_governance_receipt native = cr_governance_receipt_id policy_receipt));
     is_result (rc_continuation_policy native) (ContinuationPolicy.continuation_policy_id policy);
     is_result (rc_continuation_policy_receipt native)
       (receipt_id_of (ContinuationPolicyReceipt.canonical_record policy_receipt));
     Ok (bool_decide (rc_progress_contract native = cp_progress_contract_id policy))] ValueError.

(** The progress state that an observed record leads to. *)
Definition observed_progress_state (progress : ProgressRecord) : ProgressState :=
  if pr_task_complete progress then COMPLETE
  else if decide (pr_classification progress = MEASURABLE_PROGRESS) then PROGRESSING else STALLED.

(** [ContinuationState.create] up to the native seal. *)
Definition create_unsealed (policy : ContinuationPolicy) (policy_receipt : ContinuationPolicyReceipt)
    (live_runtime_snapshot : RuntimeSnapshot) (orchestration_state : OrchestrationState)
    (runtime_snapshot : RuntimeSnapshot) (strategy : option StrategyMaterialization)
    (progress : option ProgressRecord) : res ContinuationState :=
  let* policy_id := ContinuationPolicy.continuation_policy_id policy in
  raise_if (negb (bool_decide (cr_continuation_policy_id policy_receipt = policy_id))) ValueError ;;*
  raise_if (negb (bool_decide (cr_progress_contract_id policy_receipt = cp_progress_contract_id policy)))
    ValueError ;;*
  raise_if (negb (bool_decide (rs_session_id live_runtime_snapshot = rs_session_id runtime_snapshot)) ||
            negb (bool_decide (rs_state_id live_runtime_snapshot = rs_state_id runtime_snapshot))) ValueError ;;*
  match rs_continuation runtime_snapshot with
  | None => Raise ValueError
  | Some native =>
      native_context_binds native policy policy_receipt ;;*
      raise_if (negb (rc_leases_applied native =? 0) ||
                negb (RuntimeLeaseResourceVector.is_zero (rc_cumulative_granted native))) ValueError ;;*
      raise_if (negb (same_resources (rc_total_ceiling native) (cp_total_ceiling policy))) ValueError
  end ;;*
  raise_if (negb (limits_match (rs_limits runtime_snapshot) (cp_initial_budget policy))) ValueError ;;*
  check_option (λ p, require_all
    [Ok (bool_decide (pr_task_id p = cr_task_id policy_receipt));
     Ok (bool_decide (pr_governance_id p = cr_governance_id policy_receipt));
     is_result (cp_progress_contract_id policy) (ProgressMeasureContract.contract_id (pr_contract p));
     is_result (pr_current_orchestration_state_id p) (OrchestrationState.state_id orchestration_state)]
    ValueError) progress ;;*
  let* policy_receipt_id := receipt_id_of (ContinuationPolicyReceipt.canonical_record policy_receipt) in
  let* state_id := OrchestrationState.state_id orchestration_state in
  let* seed := initial_decision_aggregate (cr_task_id policy_receipt) (cr_governance_id policy_receipt) policy_id in
  let* material := res_option StrategyMaterialization.strategy_material_id strategy in
  let* progress_id := res_option ProgressRecord.progress_id progress in
  let* aggregate := progress_aggregate (match progress with None => [] | Some p => [p] end) in
  let* endpoint :=
    match progress with None => Ok None | Some p => ProgressRecord.current_external_endpoint_id p end in
  ContinuationState.make {|
    cs_task_id := cr_task_id policy_receipt; cs_governance_id := cr_governance_id policy_receipt;
    cs_governance_receipt_id := cr_governance_receipt_id policy_receipt;
    cs_continuation_policy_id := policy_id; cs_continuation_policy_receipt_id := policy_receipt_id;
    cs_progress_contract_id := cp_progress_contract_id policy; cs_orchestration_state_id := state_id;
    cs_runtime_session_id := rs_session_id runtime_snapshot; cs_runtime_state_id := rs_state_id runtime_snapshot;
    cs_lease_requests := 0; cs_leases_granted := 0; cs_leases_denied := 0;
    cs_cumulative_granted := BudgetVector.zero; cs_continuation_logical_tick := 0;
    cs_decision_aggregate_id := seed; cs_decision_receipt_ids := []; cs_strategy_recoveries := 0;
    cs_current_strategy_material_id := material; cs_last_progress_id := progress_id;
    cs_progress_event_count := match progress with None => 0 | Some _ => 1 end;
    cs_progress_aggregate_id := aggregate; cs_last_consumed_progress_id := None;
    cs_last_external_progress_endpoint_id := endpoint;
    cs_last_consumed_external_progress_endpoint_id := None;
    cs_last_progress_classification := option_map pr_classification progress;
    cs_last_decision := NONE_DECIDED; cs_last_denial_reason := None;
    cs_progress_state := match progress with None => STALLED | Some p => observed_progress_state p end;
    cs_terminal_ceiling_receipt_id := None; cs_pending_grant_id := None; cs_pending_grant_receipt_id := None;
    cs_decision_lineage_capability := None |}.

(** ** Observation *)

(** The native continuation context agrees with the ledger. *)
Definition native_matches_ledger (native : RuntimeContinuationSnapshot) s : bool :=
  bool_decide (rc_task native = cs_task_id s) &&
  bool_decide (rc_governance native = cs_governance_id s) &&
  bool_decide (rc_governance_receipt native = cs_governance_receipt_id s) &&
  bool_decide (rc_continuation_policy native = cs_continuation_policy_id s) &&
  bool_decide (rc_continuation_policy_receipt native = cs_continuation_policy_receipt_id s) &&
  bool_decide (rc_progress_contract native = cs_progress_contract_id s) &&
  (rc_leases_applied native =? cs_leases_granted s) &&
  same_resources (rc_cumulative_granted native) (cs_cumulative_granted s).

(** The runtime's limits are the base budget and everything granted. *)
Definition check_applied_limits (snapshot : RuntimeSnapshot) (policy : ContinuationPolicy) s : res unit :=
  let* expected := BudgetVector.add_checked (cp_initial_budget policy) (cs_cumulative_granted s) in
  raise_if (negb (limits_match (rs_limits snapshot) expected)) ValueError.

(** The record continues the lineage of the ledger. *)
Definition check_observed_progress s (policy : ContinuationPolicy) (state_id : pystr) (p : ProgressRecord)
    : res unit :=
  require_all
    [Ok (bool_decide (pr_task_id p = cs_task_id s));
     Ok (bool_decide (pr_governance_id p = cs_governance_id s));
     is_result (cs_progress_contract_id s) (ProgressMeasureContract.contract_id (pr_contract p));
     Ok (bool_decide (pr_prior_orchestration_state_id p = cs_orchestration_state_id s));
     Ok (bool_decide (pr_current_orchestration_state_id p = state_id))] ValueError ;;*
  match cs_last_external_progress_endpoint_id s with
  | None => Ok tt
  | Some endpoint =>
      let* prior := ProgressRecord.prior_external_endpoint_id p in
      raise_if (negb (bool_decide (prior = Some endpoint))) ValueError
  end ;;*
  raise_if (cp_max_lease_requests policy + 1 <=? cs_progress_event_count s) ValueError.

(** [_observe_continuation_context] *)
Definition observe_continuation_context s (policy : ContinuationPolicy) (orchestration_state : OrchestrationState)
    (runtime_snapshot : RuntimeSnapshot) (progress : option ProgressRecord)
    (strategy : option StrategyMaterialization) : res ContinuationState :=
  check_option (λ p, ProgressRecord.check_authority p ;;* ProgressRecord.validate_bound_claims p) progress ;;*
  ContinuationState.require_policy s policy ;;*
  raise_if (ContinuationState.has_pending_grant s) ValueError ;;*
  raise_if (negb (bool_decide (rs_session_id runtime_snapshot = cs_runtime_session_id s))) ValueError ;;*
  match rs_continuation runtime_snapshot with
  | None => Raise ValueError
  | Some native =>
      raise_if (negb (native_matches_ledger native s) ||
                negb (same_resources (rc_total_ceiling native) (cp_total_ceiling policy))) ValueError
  end ;;*
  check_applied_limits runtime_snapshot policy s ;;*
  let* state_id := OrchestrationState.state_id orchestration_state in
  match progress with
  | Some p => check_observed_progress s policy state_id p
  | None => raise_if (negb (bool_decide (state_id = cs_orchestration_state_id s))) ValueError
  end ;;*
  check_option (λ m,
      let* i := StrategyMaterialization.strategy_material_id m in
      raise_if (negb (bool_decide (Some i = cs_current_strategy_material_id s))) ValueError) strategy ;;*
  let* progress_id := res_option ProgressRecord.progress_id progress in
  let* aggregate :=
    match progress_id with
    | None => Ok (cs_progress_aggregate_id s)
    | Some i => advance_progress_aggregate (cs_progress_aggregate_id s) i (cs_progress_event_count s)
    end in
  let* endpoint :=
    match progress with
    | None => Ok (cs_last_external_progress_endpoint_id s)
    | Some p => ProgressRecord.current_external_endpoint_id p
    end in
  ContinuationState.make {|
    cs_task_id := cs_task_id s; cs_governance_id := cs_governance_id s;
    cs_governance_receipt_id := cs_governance_receipt_id s;
    cs_continuation_policy_id := cs_continuation_policy_id s;
    cs_continuation_policy_receipt_id := cs_continuation_policy_receipt_id s;
    cs_progress_contract_id := cs_progress_contract_id s; cs_orchestration_state_id := state_id;
    cs_runtime_session_id := cs_runtime_session_id s; cs_runtime_state_id := rs_state_id runtime_snapshot;
    cs_lease_requests := cs_lease_requests s; cs_leases_granted := cs_leases_granted s;
    cs_leases_denied := cs_leases_denied s; cs_cumulative_granted := cs_cumulative_granted s;
    cs_continuation_logical_tick := cs_continuation_logical_tick s;
    cs_decision_aggregate_id := cs_decision_aggregate_id s;
    cs_decision_receipt_ids := cs_decision_receipt_ids s;
    cs_strategy_recoveries := cs_strategy_recoveries s;
    cs_current_strategy_material_id := cs_current_strategy_material_id s;
    cs_last_progress_id := match progress_id with None => cs_last_progress_id s | Some i => Some i end;
    cs_progress_event_count :=
      match progress with None => cs_progress_event_count s | Some _ => cs_progress_event_count s + 1 end;
    cs_progress_aggregate_id := aggregate;
    cs_last_consumed_progress_id := cs_last_consumed_progress_id s;
    cs_last_external_progress_endpoint_id := endpoint;
    cs_last_consumed_external_progress_endpoint_id := cs_last_consumed_external_progress_endpoint_id s;
    cs_last_progress_classification :=
      match progress with None => cs_last_progress_classification s | Some p => Some (pr_classification p) end;
    cs_last_decision := cs_last_decision s; cs_last_denial_reason := cs_last_denial_reason s;
    cs_progress_state := match progress with None => cs_progress_state s | Some p => observed_progress_state p end;
    cs_terminal_ceiling_receipt_id := cs_terminal_ceiling_receipt_id s;
    cs_pending_grant_id := cs_pending_grant_id s;
    cs_pending_grant_receipt_id := cs_pending_grant_receipt_id s;
    cs_decision_lineage_capability := None |}.

(** ** Commit of an applied lease *)

(** [record[name] == value] in the application's record. *)
Definition app_is (l : list (pyval * pyval)) (name : string) (value : pyval) : res bool :=
  let* v := dict_item l (u name) in Ok (py_equal v value).

Definition check_application s (policy : ContinuationPolicy) (grant : LeaseGrantReceipt)
    (application : RuntimeLeaseApplicationReceipt) (runtime_snapshot : RuntimeSnapshot) : res unit :=
  let* status := RuntimeLeaseApplicationReceipt.item application "status" in
  raise_if (negb (is_text status (u "accepted"))) ValueError ;;*
  let* record := RuntimeLeaseApplicationReceipt.canonical_record application in
  match record with
  | VDict l =>
      require_all
        [let* i := LeaseGrantReceipt.lease_grant_id grant in Ok (bool_decide (cs_pending_grant_id s = Some i));
         let* i := LeaseGrantReceipt.receipt_id grant in Ok (bool_decide (cs_pending_grant_receipt_id s = Some i));
         let* i := LeaseGrantReceipt.lease_grant_id grant in app_is l "lease_grant_id" (VStr i);
         let* i := LeaseGrantReceipt.receipt_id grant in app_is l "grant_receipt_id" (VStr i);
         app_is l "task_id" (VStr (cs_task_id s));
         app_is l "governance_id" (VStr (cs_governance_id s));
         app_is l "continuation_policy_id" (VStr (cs_continuation_policy_id s));
         app_is l "continuation_policy_receipt_id" (VStr (cs_continuation_policy_receipt_id s));
         app_is l "session_id" (VStr (cs_runtime_session_id s));
         app_is l "lease_index" (VInt (cs_leases_granted s));
         app_is l "cumulative_granted" (BudgetVector.canonical_record (cs_cumulative_granted s));
         app_is l "total_ceiling" (BudgetVector.canonical_record (cp_total_ceiling policy));
         app_is l "prior_state_id" (VStr (cs_runtime_state_id s));
         app_is l "resulting_state_id" (VStr (rs_state_id runtime_snapshot));
         Ok (bool_decide (rs_session_id runtime_snapshot = cs_runtime_session_id s))] ValueError
  | _ => Raise TypeError
  end.

Definition grant_matches_ledger (g : LeaseGrantReceipt) s : bool :=
  bool_decide (lg_task_id g = cs_task_id s) &&
  bool_decide (lg_governance_id g = cs_governance_id s) &&
  bool_decide (lg_continuation_policy_id g = cs_continuation_policy_id s) &&
  (lg_lease_index g =? cs_leases_granted s) &&
  bool_decide (lg_cumulative_granted g = cs_cumulative_granted s).

(** [_commit_lease_application] *)
Definition commit_lease_application s (policy : ContinuationPolicy) (grant : LeaseGrantReceipt)
    (application : RuntimeLeaseApplicationReceipt) (runtime_snapshot : RuntimeSnapshot) : res ContinuationState :=
  ContinuationState.require_policy s policy ;;*
  LeaseGrantReceipt.check_authority grant ;;*
  check_application s policy grant application runtime_snapshot ;;*
  raise_if (negb (grant_matches_ledger grant s)) ValueError ;;*
  match rs_continuation runtime_snapshot with
  | None => Raise ValueError
  | Some native =>
      let* i := LeaseGrantReceipt.lease_grant_id grant in
      raise_if (negb (native_matches_ledger native s) ||
                negb (bool_decide (last_items 1 (rc_applied_grant_ids native) = [i]))) ValueError
  end ;;*
  check_applied_limits runtime_snapshot policy s ;;*
  ContinuationState.make {|
    cs_task_id := cs_task_id s; cs_governance_id := cs_governance_id s;
    cs_governance_receipt_id := cs_governance_receipt_id s;
    cs_continuation_policy_id := cs_continuation_policy_id s;
    cs_continuation_policy_receipt_id := cs_continuation_policy_receipt_id s;
    cs_progress_contract_id := cs_progress_contract_id s;
    cs_orchestration_state_id := cs_orchestration_state_id s;
    cs_runtime_session_id := cs_runtime_session_id s; cs_runtime_state_id := rs_state_id runtime_snapshot;
    cs_lease_requests := cs_lease_requests s; cs_leases_granted := cs_leases_granted s;
    cs_leases_denied := cs_leases_denied s; cs_cumulative_granted := cs_cumulative_granted s;
    cs_continuation_logical_tick := cs_continuation_logical_tick s;
    cs_decision_aggregate_id := cs_decision_aggregate_id s;
    cs_decision_receipt_ids := cs_decision_receipt_ids s;
    cs_strategy_recoveries := cs_strategy_recoveries s;
    cs_current_strategy_material_id := cs_current_strategy_material_id s;
    cs_last_progress_id := cs_last_progress_id s; cs_progress_event_count := cs_progress_event_count s;
    cs_progress_aggregate_id := cs_progress_aggregate_id s;
    cs_last_consumed_progress_id := cs_last_consumed_progress_id s;
    cs_last_external_progress_endpoint_id := cs_last_external_progress_endpoint_id s;
    cs_last_consumed_external_progress_endpoint_id := cs_last_consumed_external_progress_endpoint_id s;
    cs_last_progress_classification := cs_last_progress_classification s;
    cs_last_decision := cs_last_decision s; cs_last_denial_reason := cs_last_denial_reason s;
    cs_progress_state := cs_progress_state s;
    cs_terminal_ceiling_receipt_id := cs_terminal_ceiling_receipt_id s;
    cs_pending_grant_id := None; cs_pending_grant_receipt_id := None;
    cs_decision_lineage_capability := None |}.

(** ** Evaluation of a request *)

Inductive lease_receipt :=
  | Granted (g : LeaseGrantReceipt)
  | Denied (d : LeaseDenyReceipt).

(** [_ContinuationEvaluationResult].  [ev_same_object]: the next state is the prior state itself. *)
Record evaluation_result := {
  ev_next_state : ContinuationState;
  ev_same_object : bool;
  ev_receipt : lease_receipt
}.

Definition ev_granted (r : evaluation_result) : bool :=
  match ev_receipt r with Granted _ => true | Denied _ => false end.

(** [_denial_state] *)
Definition denial_state (reason : LeaseDenialReason) : ProgressState :=
  match reason with
  | TASK_ALREADY_COMPLETE => COMPLETE
  | LEASE_CEILING_REACHED | LEASE_REQUEST_LIMIT => LEASE_EXHAUSTED
  | TERMINAL_CYCLE | STRATEGY_CHANGE_CYCLE_EQUIVALENT => CYCLE_BLOCKED
  | STRATEGY_CHANGE_NOT_MATERIAL => STRATEGY_CHANGE_REJECTED
  | _ => STALLED
  end.

Definition denial_receipt s (request : ContinuationRequest) (progress : ProgressRecord) (reason : LeaseDenialReason)
    (blocking_evidence_id : option pystr) (decision_tick : Z) : res LeaseDenyReceipt :=
  let* request_id := ContinuationRequest.continuation_request_id request in
  let* state_id := ContinuationState.continuation_state_id s in
  let* progress_id := ProgressRecord.progress_id progress in
  LeaseDenyReceipt.make {|
    ld_task_id := cs_task_id s; ld_governance_id := cs_governance_id s;
    ld_continuation_policy_id := cs_continuation_policy_id s; ld_continuation_request_id := request_id;
    ld_prior_continuation_state_id := state_id; ld_orchestration_state_id := cs_orchestration_state_id s;
    ld_runtime_state_id := cs_runtime_state_id s; ld_progress_id := progress_id;
    ld_strategy_change_id := cq_strategy_change_id request; ld_lease_index := cq_lease_index request;
    ld_denial_reason := reason; ld_decision_logical_tick := decision_tick;
    ld_blocking_evidence_id := blocking_evidence_id |}.

(** [_deny_continuation] *)
Definition deny_continuation s (request : ContinuationRequest) (progress : ProgressRecord)
    (reason : LeaseDenialReason) (policy : ContinuationPolicy) (blocking_evidence_id : option pystr)
    (record_decision : bool) : res (evaluation_result * LeaseDenyReceipt) :=
  check_option require_fingerprint blocking_evidence_id ;;*
  let decision_tick := cs_continuation_logical_tick s + (if record_decision then 1 else 0) in
  let* denial := denial_receipt s request progress reason blocking_evidence_id decision_tick in
  if negb record_decision then
    Ok ({| ev_next_state := s; ev_same_object := true; ev_receipt := Denied denial |}, denial)
  else
    let ordinal := cs_lease_requests s in
    let* receipt_id := LeaseDenyReceipt.receipt_id denial in
    let* aggregate := advance_decision_aggregate (cs_decision_aggregate_id s) receipt_id ordinal in
    let* next_state := ContinuationState.make {|
      cs_task_id := cs_task_id s; cs_governance_id := cs_governance_id s;
      cs_governance_receipt_id := cs_governance_receipt_id s;
      cs_continuation_policy_id := cs_continuation_policy_id s;
      cs_continuation_policy_receipt_id := cs_continuation_policy_receipt_id s;
      cs_progress_contract_id := cs_progress_contract_id s;
      cs_orchestration_state_id := cs_orchestration_state_id s;
      cs_runtime_session_id := cs_runtime_session_id s; cs_runtime_state_id := cs_runtime_state_id s;
      cs_lease_requests := cs_lease_requests s + 1; cs_leases_granted := cs_leases_granted s;
      cs_leases_denied := cs_leases_denied s + 1; cs_cumulative_granted := cs_cumulative_granted s;
      cs_continuation_logical_tick := decision_tick; cs_decision_aggregate_id := aggregate;
      cs_decision_receipt_ids := cs_decision_receipt_ids s ++ [receipt_id];
      cs_strategy_recoveries := cs_strategy_recoveries s;
      cs_current_strategy_material_id := cs_current_strategy_material_id s;
      cs_last_progress_id := cs_last_progress_id s; cs_progress_event_count := cs_progress_event_count s;
      cs_progress_aggregate_id := cs_progress_aggregate_id s;
      cs_last_consumed_progress_id := cs_last_consumed_progress_id s;
      cs_last_external_progress_endpoint_id := cs_last_external_progress_endpoint_id s;
      cs_last_consumed_external_progress_endpoint_id := cs_last_consumed_external_progress_endpoint_id s;
      cs_last_progress_classification := cs_last_progress_classification s;
      cs_last_decision := LAST_DENIED; cs_last_denial_reason := Some reason;
      cs_progress_state := denial_state reason;
      cs_terminal_ceiling_receipt_id := cs_terminal_ceiling_receipt_id s;
      cs_pending_grant_id := cs_pending_grant_id s;
      cs_pending_grant_receipt_id := cs_pending_grant_receipt_id s;
      cs_decision_lineage_capability := None |} in
    raise_if (cp_max_lease_requests policy <? cs_lease_requests next_state) AssertionError ;;*
    Ok ({| ev_next_state := next_state; ev_same_object := false; ev_receipt := Denied denial |}, denial).

(** A chain of guarded reasons: the first test that holds decides. *)
Fixpoint first_reason (guards : list (res bool * LeaseDenialReason)) : res (option LeaseDenialReason) :=
  match guards with
  | [] => Ok None
  | (test, reason) :: rest => let* b := test in if b then Ok (Some reason) else first_reason rest
  end.

(** [a != b or ..]: the tests run in order up to the first that fails. *)
Definition mismatch (tests : list (res bool)) : res bool :=
  res_exists (λ t, let* b := t in Ok (negb b)) tests.

Definition requester_denial s (request : ContinuationRequest) (authorized : bool) : list (res bool * LeaseDenialReason) :=
  [(Ok (negb (bool_decide (cq_requester request = OPENAI_SUPERVISOR)) || negb authorized), UNAUTHORIZED_REQUESTER);
   (mismatch [is_result (cq_continuation_state_id request) (ContinuationState.continuation_state_id s)],
     STALE_CONTINUATION_STATE);
   (Ok (negb (bool_decide (cq_task_id request = cs_task_id s)) ||
        negb (bool_decide (cq_governance_id request = cs_governance_id s)) ||
        negb (bool_decide (cq_continuation_policy_id request = cs_continuation_policy_id s))), STALE_GOVERNANCE);
   (Ok (negb (bool_decide (cq_orchestration_state_id request = cs_orchestration_state_id s))),
     STALE_ORCHESTRATION_STATE)].

Definition runtime_denial s (request : ContinuationRequest) (live : RuntimeSnapshot)
    : list (res bool * LeaseDenialReason) :=
  [(Ok (negb (bool_decide (cq_runtime_session_id request = cs_runtime_session_id s)) ||
        negb (bool_decide (cq_runtime_state_id request = cs_runtime_state_id s)) ||
        negb (bool_decide (rs_session_id live = cs_runtime_session_id s)) ||
        negb (bool_decide (rs_state_id live = cs_runtime_state_id s))), STALE_RUNTIME_STATE);
   (Ok (ContinuationState.has_pending_grant s), PENDING_LEASE_APPLICATION)].

Definition progress_denial s (request : ContinuationRequest) (progress : ProgressRecord)
    (blocking : option pystr) : list (res bool * LeaseDenialReason) :=
  [(mismatch
      [Ok (bool_decide (pr_task_id progress = cs_task_id s));
       Ok (bool_decide (pr_governance_id progress = cs_governance_id s));
       is_result (cs_progress_contract_id s) (ProgressMeasureContract.contract_id (pr_contract progress));
       let* i := ProgressRecord.progress_id progress in Ok (bool_decide (Some i = cs_last_progress_id s));
       Ok (bool_decide (pr_current_orchestration_state_id progress = cs_orchestration_state_id s));
       is_result (cq_progress_id request) (ProgressRecord.progress_id progress)], STALE_PROGRESS);
   (Ok (pr_task_complete progress), TASK_ALREADY_COMPLETE);
   (Ok (is_some blocking), BLOCKING_GOVERNANCE_VIOLATION)].

(** [cycle_evidence] names another cycle than the live one. *)
Definition stale_cycle (cycle_evidence live_cycle_evidence : option CycleEvidence) : res bool :=
  match cycle_evidence, live_cycle_evidence with
  | None, _ => Ok false
  | Some _, None => Ok true
  | Some e, Some live =>
      let* i := CycleEvidence.cycle_evidence_id e in
      let* j := CycleEvidence.cycle_evidence_id live in
      Ok (negb (bool_decide (i = j)))
  end.

Definition capacity_denial s (request : ContinuationRequest) (policy : ContinuationPolicy)
    (cycle_evidence live_cycle_evidence : option CycleEvidence) : list (res bool * LeaseDenialReason) :=
  [(Ok (ContinuationPolicy.max_leases policy <=? cs_leases_granted s), LEASE_CEILING_REACHED);
   (Ok (cp_max_lease_requests policy <=? cs_lease_requests s), LEASE_REQUEST_LIMIT);
   (Ok (negb (cq_lease_index request =? cs_leases_granted s + 1)), LEASE_INDEX_MISMATCH);
   (let* capacity := ContinuationPolicy.continuation_capacity policy in
    Ok (negb (BudgetVector.is_within (cs_cumulative_granted s) capacity)), LEASE_CEILING_REACHED);
   (stale_cycle cycle_evidence live_cycle_evidence, STALE_RUNTIME_STATE)].

(** The first stage: the standing of the request. *)
Definition standing_denial s (request : ContinuationRequest) (live : RuntimeSnapshot) (policy : ContinuationPolicy)
    (progress : ProgressRecord) (cycle_evidence live_cycle_evidence : option CycleEvidence)
    (blocking : option pystr) (authorized : bool) : res (option LeaseDenialReason) :=
  first_reason
    (requester_denial s request authorized ++ runtime_denial s request live ++
     progress_denial s request progress blocking ++
     capacity_denial s request policy cycle_evidence live_cycle_evidence).

(** A strategy change that the request names. *)
Definition strategy_denial s (request_change_id : pystr) (strategy_change : option StrategyChangeReceipt)
    (live_cycle_evidence : option CycleEvidence) : res (option LeaseDenialReason) :=
  match strategy_change with
  | None => Ok (Some STRATEGY_CHANGE_NOT_MATERIAL)
  | Some c =>
      first_reason
        [(mismatch
            [is_result request_change_id (StrategyChangeReceipt.strategy_change_id c);
             Ok (bool_decide (sr_task_id c = cs_task_id s));
             Ok (bool_decide (sr_governance_id c = cs_governance_id s));
             Ok (bool_decide (sr_orchestration_state_id c = cs_orchestration_state_id s))],
           STRATEGY_CHANGE_NOT_MATERIAL);
         (Ok (negb (bool_decide (cs_current_strategy_material_id s = Some (sr_prior_strategy_material_id c)))),
           STRATEGY_CHANGE_NOT_MATERIAL);
         (let* live_id := res_option CycleEvidence.cycle_evidence_id live_cycle_evidence in
          Ok (negb (bool_decide (sr_cycle_evidence_id c = live_id))), STRATEGY_CHANGE_CYCLE_EQUIVALENT);
         (Ok (bool_decide (sr_status c = CHANGE_REJECTED)),
           if decide (sr_reason c = CYCLE_EQUIVALENT) then STRATEGY_CHANGE_CYCLE_EQUIVALENT
           else STRATEGY_CHANGE_NOT_MATERIAL)]
  end.

(** The second stage, and whether it admits a strategy change. *)
Definition strategy_stage s (request : ContinuationRequest) (strategy_change : option StrategyChangeReceipt)
    (live_cycle_evidence : option CycleEvidence) (reason : option LeaseDenialReason)
    : res (option LeaseDenialReason * bool) :=
  match reason with
  | Some r => Ok (Some r, false)
  | None =>
      match cq_strategy_change_id request with
      | Some i =>
          let* r := strategy_denial s i strategy_change live_cycle_evidence in
          Ok (r, negb (is_some r))
      | None => Ok (if is_some strategy_change then Some STRATEGY_CHANGE_NOT_MATERIAL else None, false)
      end
  end.

(** Measurable progress that no earlier grant consumed. *)
Definition progress_admitted s (progress : ProgressRecord) : res bool :=
  if decide (pr_classification progress = MEASURABLE_PROGRESS) then
    let* i := ProgressRecord.progress_id progress in
    Ok (negb (bool_decide (Some i = cs_last_consumed_progress_id s)))
  else Ok false.

(** The third stage: what justifies the lease. *)
Definition merit_stage s (policy : ContinuationPolicy) (has_live_cycle admitted_progress strategy_admitted : bool)
    (reason : option LeaseDenialReason) : option LeaseDenialReason :=
  match reason with
  | Some r => Some r
  | None =>
      if has_live_cycle && negb strategy_admitted then Some TERMINAL_CYCLE
      else if negb admitted_progress && negb strategy_admitted then Some NO_MEASURABLE_PROGRESS
      else if strategy_admitted && (cp_max_strategy_recoveries policy <=? cs_strategy_recoveries s)
        then Some STRATEGY_RECOVERY_EXHAUSTED
      else None
  end.

(** The fourth stage: the resources, with the total after the grant when there is no reason. *)
Definition resource_stage s (policy : ContinuationPolicy) (request : ContinuationRequest)
    (reason : option LeaseDenialReason) : res (option LeaseDenialReason * option BudgetVector) :=
  match reason with
  | Some r => Ok (Some r, None)
  | None =>
      let requested := cq_requested_resources request in
      if BudgetVector.is_zero requested then Ok (Some EMPTY_RESOURCE_VECTOR, None)
      else if negb (bv_mutation_delta requested =? 0) then Ok (Some UNSUPPORTED_RESOURCE, None)
      else
        let* scheduled := list_item (cp_lease_schedule policy) (Z.to_nat (cs_leases_granted s)) in
        if negb (BudgetVector.is_within requested scheduled) then Ok (Some AMOUNT_EXCEEDS_SCHEDULE, None)
        else
          match BudgetVector.add_checked (cs_cumulative_granted s) requested with
          | Raise OverflowError => Ok (Some AMOUNT_EXCEEDS_CEILING, None)
          | Raise e => Raise e
          | Ok next_cumulative =>
              let* capacity := ContinuationPolicy.continuation_capacity policy in
              if negb (BudgetVector.is_within next_cumulative capacity)
              then Ok (Some AMOUNT_EXCEEDS_CEILING, Some next_cumulative)
              else Ok (None, Some next_cumulative)
          end
  end.

(** The ledger has no slot left for the decision that the lease is exhausted. *)
Definition terminal_exhaustion s (policy : ContinuationPolicy) (reason : LeaseDenialReason) : bool :=
  (bool_decide (reason = LEASE_CEILING_REACHED) &&
   (ContinuationPolicy.max_leases policy <=? cs_leases_granted s) &&
   (cp_max_lease_requests policy <=? cs_lease_requests s)) ||
  (bool_decide (reason = LEASE_REQUEST_LIMIT) &&
   (cs_leases_granted s <? ContinuationPolicy.max_leases policy) &&
   (cp_max_lease_requests policy <=? cs_lease_requests s)).

Definition record_terminal s (receipt_id : pystr) : res ContinuationState :=
  ContinuationState.make {|
    cs_task_id := cs_task_id s; cs_governance_id := cs_governance_id s;
    cs_governance_receipt_id := cs_governance_receipt_id s;
    cs_continuation_policy_id := cs_continuation_policy_id s;
    cs_continuation_policy_receipt_id := cs_continuation_policy_receipt_id s;
    cs_progress_contract_id := cs_progress_contract_id s;
    cs_orchestration_state_id := cs_orchestration_state_id s;
    cs_runtime_session_id := cs_runtime_session_id s; cs_runtime_state_id := cs_runtime_state_id s;
    cs_lease_requests := cs_lease_requests s; cs_leases_granted := cs_leases_granted s;
    cs_leases_denied := cs_leases_denied s; cs_cumulative_granted := cs_cumulative_granted s;
    cs_continuation_logical_tick := cs_continuation_logical_tick s;
    cs_decision_aggregate_id := cs_decision_aggregate_id s;
    cs_decision_receipt_ids := cs_decision_receipt_ids s;
    cs_strategy_recoveries := cs_strategy_recoveries s;
    cs_current_strategy_material_id := cs_current_strategy_material_id s;
    cs_last_progress_id := cs_last_progress_id s; cs_progress_event_count := cs_progress_event_count s;
    cs_progress_aggregate_id := cs_progress_aggregate_id s;
    cs_last_consumed_progress_id := cs_last_consumed_progress_id s;
    cs_last_external_progress_endpoint_id := cs_last_external_progress_endpoint_id s;
    cs_last_consumed_external_progress_endpoint_id := cs_last_consumed_external_progress_endpoint_id s;
    cs_last_progress_classification := cs_last_progress_classification s;
    cs_last_decision := cs_last_decision s; cs_last_denial_reason := cs_last_denial_reason s;
    cs_progress_state := LEASE_EXHAUSTED; cs_terminal_ceiling_receipt_id := Some receipt_id;
    cs_pending_grant_id := cs_pending_grant_id s;
    cs_pending_grant_receipt_id := cs_pending_grant_receipt_id s;
    cs_decision_lineage_capability := None |}.

(** The denial path of the evaluation. *)
Definition deny_request s (request : ContinuationRequest) (progress : ProgressRecord) (reason : LeaseDenialReason)
    (policy : ContinuationPolicy) (blocking : option pystr) : res evaluation_result :=
  let terminal := terminal_exhaustion s policy reason in
  let blocking_id := if decide (reason = BLOCKING_GOVERNANCE_VIOLATION) then blocking else None in
  let* denied := deny_continuation s request progress reason policy blocking_id
    (negb (bool_decide (reason = UNAUTHORIZED_REQUESTER)) && negb terminal &&
     (cs_lease_requests s <? cp_max_lease_requests policy)) in
  if negb terminal then Ok denied.1
  else if is_some (cs_terminal_ceiling_receipt_id s) then Ok denied.1
  else
    let* receipt_id := LeaseDenyReceipt.receipt_id denied.2 in
    let* next_state := record_terminal s receipt_id in
    Ok {| ev_next_state := next_state; ev_same_object := false; ev_receipt := Denied denied.2 |}.

(** The grant path of the evaluation. *)
Definition grant_request s (request : ContinuationRequest) (progress : ProgressRecord) (policy : ContinuationPolicy)
    (strategy_change : option StrategyChangeReceipt) (has_live_cycle admitted_progress strategy_admitted : bool)
    (next_cumulative : BudgetVector) : res evaluation_result :=
  let decision_tick := cs_continuation_logical_tick s + 1 in
  let* request_id := ContinuationRequest.continuation_request_id request in
  let* state_id := ContinuationState.continuation_state_id s in
  let* progress_id := ProgressRecord.progress_id progress in
  let* change_id :=
    if strategy_admitted then res_option StrategyChangeReceipt.strategy_change_id strategy_change else Ok None in
  let* grant := LeaseGrantReceipt.make {|
    lg_task_id := cs_task_id s; lg_governance_id := cs_governance_id s;
    lg_governance_receipt_id := cs_governance_receipt_id s;
    lg_continuation_policy_id := cs_continuation_policy_id s;
    lg_continuation_policy_receipt_id := cs_continuation_policy_receipt_id s;
    lg_continuation_request_id := request_id; lg_prior_continuation_state_id := state_id;
    lg_orchestration_state_id := cs_orchestration_state_id s; lg_runtime_session_id := cs_runtime_session_id s;
    lg_prior_runtime_state_id := cs_runtime_state_id s; lg_progress_id := progress_id;
    lg_strategy_change_id := change_id; lg_lease_index := cq_lease_index request;
    lg_granted_resources := cq_requested_resources request; lg_cumulative_granted := next_cumulative;
    lg_total_ceiling := cp_total_ceiling policy; lg_decision_logical_tick := decision_tick;
    lg_native_seal := None |} in
  let used_strategy_recovery := strategy_admitted && (has_live_cycle || negb admitted_progress) in
  let* receipt_id := LeaseGrantReceipt.receipt_id grant in
  let* aggregate := advance_decision_aggregate (cs_decision_aggregate_id s) receipt_id (cs_lease_requests s) in
  let* endpoint :=
    if admitted_progress then ProgressRecord.current_external_endpoint_id progress
    else Ok (cs_last_consumed_external_progress_endpoint_id s) in
  let* grant_id := LeaseGrantReceipt.lease_grant_id grant in
  let* next_state := ContinuationState.make {|
    cs_task_id := cs_task_id s; cs_governance_id := cs_governance_id s;
    cs_governance_receipt_id := cs_governance_receipt_id s;
    cs_continuation_policy_id := cs_continuation_policy_id s;
    cs_continuation_policy_receipt_id := cs_continuation_policy_receipt_id s;
    cs_progress_contract_id := cs_progress_contract_id s;
    cs_orchestration_state_id := cs_orchestration_state_id s;
    cs_runtime_session_id := cs_runtime_session_id s; cs_runtime_state_id := cs_runtime_state_id s;
    cs_lease_requests := cs_lease_requests s + 1; cs_leases_granted := cs_leases_granted s + 1;
    cs_leases_denied := cs_leases_denied s; cs_cumulative_granted := next_cumulative;
    cs_continuation_logical_tick := decision_tick; cs_decision_aggregate_id := aggregate;
    cs_decision_receipt_ids := cs_decision_receipt_ids s ++ [receipt_id];
    cs_strategy_recoveries := cs_strategy_recoveries s + (if used_strategy_recovery then 1 else 0);
    cs_current_strategy_material_id :=
      match strategy_change with
      | Some c => if strategy_admitted then Some (sr_proposed_strategy_material_id c)
                  else cs_current_strategy_material_id s
      | None => cs_current_strategy_material_id s
      end;
    cs_last_progress_id := Some progress_id; cs_progress_event_count := cs_progress_event_count s;
    cs_progress_aggregate_id := cs_progress_aggregate_id s;
    cs_last_consumed_progress_id :=
      if admitted_progress then Some progress_id else cs_last_consumed_progress_id s;
    cs_last_external_progress_endpoint_id := cs_last_external_progress_endpoint_id s;
    cs_last_consumed_external_progress_endpoint_id := endpoint;
    cs_last_progress_classification := Some (pr_classification progress);
    cs_last_decision := LAST_GRANTED; cs_last_denial_reason := None;
    cs_progress_state := if used_strategy_recovery then STRATEGY_CHANGED else PROGRESSING;
    cs_terminal_ceiling_receipt_id := cs_terminal_ceiling_receipt_id s;
    cs_pending_grant_id := Some grant_id; cs_pending_grant_receipt_id := Some receipt_id;
    cs_decision_lineage_capability := None |} in
  Ok {| ev_next_state := next_state; ev_same_object := false; ev_receipt := Granted grant |}.

(** The checks that make the supplied records inert before the first comparison. *)
Definition validate_evaluation_inputs s (request : ContinuationRequest) (policy : ContinuationPolicy)
    (policy_receipt : ContinuationPolicyReceipt) (progress : ProgressRecord)
    (strategy_change : option StrategyChangeReceipt) (cycle_evidence : option CycleEvidence)
    (blocking : option pystr) : res unit :=
  check_option require_fingerprint blocking ;;*
  ContinuationRequest.check_authority request ;;*
  ProgressRecord.check_authority progress ;;*
  ProgressRecord.validate_bound_claims progress ;;*
  check_option CycleEvidence.check_authority cycle_evidence ;;*
  check_option (λ c, StrategyChangeReceipt.check_authority c ;;*
                     StrategyChangeReceipt.validate_bound_material c) strategy_change ;;*
  ContinuationPolicy.check_authority policy ;;*
  ContinuationPolicyReceipt.check_authority policy_receipt ;;*
  ContinuationState.require_policy s policy ;;*
  require_all
    [is_result (cr_continuation_policy_id policy_receipt) (ContinuationPolicy.continuation_policy_id policy);
     is_result (cs_continuation_policy_receipt_id s)
       (receipt_id_of (ContinuationPolicyReceipt.canonical_record policy_receipt));
     Ok (bool_decide (cr_task_id policy_receipt = cs_task_id s));
     Ok (bool_decide (cr_governance_id policy_receipt = cs_governance_id s));
     Ok (bool_decide (cr_progress_contract_id policy_receipt = cs_progress_contract_id s))] ValueError.

(** [_evaluate_continuation]; [live] is [runtime_session.snapshot]. *)
Definition evaluate s (request : ContinuationRequest) (live : RuntimeSnapshot) (policy : ContinuationPolicy)
    (policy_receipt : ContinuationPolicyReceipt) (progress : ProgressRecord)
    (strategy_change : option StrategyChangeReceipt) (cycle_evidence : option CycleEvidence)
    (blocking : option pystr) (authorized : bool) : res evaluation_result :=
  validate_evaluation_inputs s request policy policy_receipt progress strategy_change cycle_evidence blocking ;;*
  let* live_cycle_evidence := CycleEvidence.from_snapshot live in
  let* standing := standing_denial s request live policy progress cycle_evidence live_cycle_evidence
    blocking authorized in
  let* staged := strategy_stage s request strategy_change live_cycle_evidence standing in
  let strategy_admitted := staged.2 in
  let* admitted_progress := progress_admitted s progress in
  let has_live_cycle := is_some live_cycle_evidence in
  let merit := merit_stage s policy has_live_cycle admitted_progress strategy_admitted staged.1 in
  let* resources := resource_stage s policy request merit in
  match resources with
  | (Some reason, _) => deny_request s request progress reason policy blocking
  | (None, None) => Raise AssertionError
  | (None, Some next_cumulative) =>
      grant_request s request progress policy strategy_change has_live_cycle admitted_progress
        strategy_admitted next_cumulative
  end.

(** ** Decisions *)

Record ContinuationDecision := {
  cd_next_state : ContinuationState;
  cd_receipt : lease_receipt
}.

(** [ContinuationDecision.__post_init__] *)
Definition make_ContinuationDecision (next_state : ContinuationState) (receipt : lease_receipt)
    : res ContinuationDecision :=
  match receipt with
  | Granted g =>
      let* bound := LeaseGrantReceipt.governance_bound g in
      raise_if (negb bound) ValueError
  | Denied _ => Ok tt
  end ;;*
  Ok {| cd_next_state := next_state; cd_receipt := receipt |}.

Definition receipt_record (r : lease_receipt) : res pyval :=
  match r with Granted g => LeaseGrantReceipt.canonical_record g | Denied d => LeaseDenyReceipt.canonical_record d end.

Definition same_kind (a b : lease_receipt) : bool :=
  match a, b with Granted _, Granted _ | Denied _, Denied _ => true | _, _ => false end.

(** [_finalize]; a receipt of the other kind is a [TypeError]. *)
Definition finalize_result (r : evaluation_result) (next_state : ContinuationState) (receipt : lease_receipt)
    : res ContinuationDecision :=
  raise_if (negb (same_kind receipt (ev_receipt r))) TypeError ;;*
  raise_if (negb (py_equal (ContinuationState.canonical_record_unchecked next_state)
                   (ContinuationState.canonical_record_unchecked (ev_next_state r)))) ValueError ;;*
  let* supplied := receipt_record receipt in
  let* expected := receipt_record (ev_receipt r) in
  raise_if (negb (py_equal supplied expected)) ValueError ;;*
  make_ContinuationDecision next_state receipt.

(** [evaluate_continuation]: a request without a seal is evaluated without authority; with one,
    the native evaluator decides. *)
Definition evaluate_continuation (native_evaluate : request_seal → res ContinuationDecision)
    s (request : ContinuationRequest) (live : RuntimeSnapshot) (policy : ContinuationPolicy)
    (policy_receipt : ContinuationPolicyReceipt) (progress : ProgressRecord)
    (strategy_change : option StrategyChangeReceipt) (cycle_evidence : option CycleEvidence)
    (blocking : option pystr) : res ContinuationDecision :=
  let* request_authority := ContinuationRequest.native_request_authority request in
  match request_authority with
  | None =>
      let* unsigned :=
        evaluate s request live policy policy_receipt progress strategy_change cycle_evidence blocking false in
      raise_if (ev_granted unsigned || negb (ev_same_object unsigned)) AssertionError ;;*
      finalize_result unsigned (ev_next_state unsigned) (ev_receipt unsigned)
  | Some authority => native_evaluate authority
  end.

End machine.
