(* ===== verification/LeaseExamples.v ===== *)
(** * A continuation in concrete states

    A runtime under the smallest profile: the state is created after measurable progress, a lease
    is requested, granted and applied.  The seals are the texts they were issued for. *)

From Stdlib Require Import Ascii String.
From stdpp Require Import base list gmap relations.
From S2P Require Import Prelude PyStr PyNumber Sha256 Canonical Records Kahn Obligations Epistemic Orchestration Budget Progress ProgressFacts Snapshot Receipts ReceiptsFacts Strategy Lease LeaseMachine.

(** The value of a result that is known to be one. *)
Definition value_of {A : Type} (r : res A) : match r return Type with Ok _ => A | Raise _ => unit end :=
  match r with Ok a => a | Raise _ => tt end.

Definition lx_obligation (key : string) (status : ObligationStatus) : Obligation :=
  {| ob_key := u key; ob_description := u "do it"; ob_dependency_ids := [];
     ob_status := status; ob_block_reason := None |}.

Definition lx_work (status : ObligationStatus) : res OrchestrationState :=
  let* registry := ObligationRegistry.make
    [lx_obligation "first" status; lx_obligation "second" UNSATISFIED] MAX_OBLIGATIONS in
  let* epistemic := EpistemicState.make [] MAX_EPISTEMIC_RECORDS in
  OrchestrationState.make {|
    os_obligations := registry; os_epistemic_state := epistemic; os_capabilities := [];
    os_limits := OrchestrationLimits.default; os_logical_tick := 0; os_history := [];
    os_occurrence_owners := []; os_strategy_schemas := [] |}.

Definition lx_before_result : res OrchestrationState := Eval vm_compute in
  lx_work UNSATISFIED.
Definition lx_before : OrchestrationState := Eval cbv in value_of lx_before_result.
Definition lx_after_result : res OrchestrationState := Eval vm_compute in
  lx_work SATISFIED.
Definition lx_after : OrchestrationState := Eval cbv in value_of lx_after_result.
Definition lx_policy_result : res ContinuationPolicy := Eval vm_compute in
  experimental_continuation_profile (u "tiny") None.
Definition lx_policy : ContinuationPolicy := Eval cbv in value_of lx_policy_result.
Definition lx_receipt_result : res ContinuationPolicyReceipt := Eval vm_compute in
  ContinuationPolicyReceipt.make lx_policy {|
     gb_policy_governance_id := ex_task_id; gb_task_profile := u "tiny"; gb_task_profile_version := 1;
     gb_receipt_governance_id := ex_task_id; gb_receipt_task_id := ex_task_id; gb_receipt_id := ex_task_id |}.
Definition lx_receipt : ContinuationPolicyReceipt := Eval cbv in value_of lx_receipt_result.
Definition lx_progress_result : res ProgressRecord := Eval vm_compute in
  evaluate_progress ex_task_id ex_task_id ex_contract lx_before lx_after ∅ ∅.
Definition lx_progress : ProgressRecord := Eval cbv in value_of lx_progress_result.
Definition lx_receipt_id_result : res pystr := Eval vm_compute in
  receipt_id_of (ContinuationPolicyReceipt.canonical_record lx_receipt).
Definition lx_receipt_id : pystr := Eval cbv in value_of lx_receipt_id_result.

Definition lx_vector (requests executions retries mutations history : Z) : RuntimeLeaseResourceVector :=
  {| rv_request_delta := requests; rv_execution_delta := executions; rv_retry_delta := retries;
     rv_mutation_delta := mutations; rv_history_delta := history |}.

Definition lx_snapshot (state_id : pystr) (history : list pystr) : RuntimeSnapshot := {|
  rs_session_id := ex_task_id; rs_state_id := state_id; rs_logical_tick := 0; rs_requests := 0;
  rs_executions := 0; rs_cache_hits := 0; rs_retries := 0; rs_history := history; rs_cache := [];
  rs_limits := {| rl_max_requests := 8; rl_max_executions := 4; rl_max_retries := 2; rl_max_history := 8 |};
  rs_continuation := Some {|
    rc_task := ex_task_id; rc_governance := ex_task_id; rc_governance_receipt := ex_task_id;
    rc_continuation_policy := cr_continuation_policy_id lx_receipt;
    rc_continuation_policy_receipt := lx_receipt_id;
    rc_progress_contract := cp_progress_contract_id lx_policy;
    rc_cumulative_granted := lx_vector 0 0 0 0 0; rc_total_ceiling := lx_vector 12 6 3 0 12;
    rc_applied_grant_ids := []; rc_leases_applied := 0; rc_next_lease_index := 1 |} |}.

Definition lx_live : RuntimeSnapshot := Eval vm_compute in lx_snapshot ex_task_id [].

Definition lx_unsealed_result : res ContinuationState := Eval vm_compute in
  create_unsealed lx_policy lx_receipt lx_live lx_after lx_live None (Some lx_progress).
Definition lx_unsealed : ContinuationState := Eval cbv in value_of lx_unsealed_result.

(** The native side seals a state with its own text. *)
Definition seal_state (t : ContinuationState) : res ContinuationState :=
  let* text := ContinuationState.decision_lineage_text t in ContinuationState.with_native_lineage t text.

Definition lx_state_result : res ContinuationState := Eval vm_compute in
  seal_state lx_unsealed.
Definition lx_state : ContinuationState := Eval cbv in value_of lx_state_result.

Definition lx_amount_result : res BudgetVector := Eval vm_compute in
  BudgetVector.make 4 2 1 0 4.
Definition lx_amount : BudgetVector := Eval cbv in value_of lx_amount_result.

Definition lx_request (requester : ContinuationRequester) : res ContinuationRequest :=
  ContinuationRequest.from_state lx_state lx_progress lx_amount requester None.

Definition lx_supervisor_result : res ContinuationRequest := Eval vm_compute in
  lx_request OPENAI_SUPERVISOR.
Definition lx_supervisor : ContinuationRequest := Eval cbv in value_of lx_supervisor_result.
Definition lx_worker_result : res ContinuationRequest := Eval vm_compute in
  lx_request LOCAL_CANDIDATE_WORKER.
Definition lx_worker : ContinuationRequest := Eval cbv in value_of lx_worker_result.

Definition lx_evaluation (q : ContinuationRequest) (authorized : bool) : res evaluation_result :=
  evaluate lx_state q lx_live lx_policy lx_receipt lx_progress None None None authorized.

Definition lx_grant_result : res evaluation_result := Eval vm_compute in
  lx_evaluation lx_supervisor true.
Definition lx_grant : evaluation_result := Eval cbv in value_of lx_grant_result.
Definition lx_denial_result : res evaluation_result := Eval vm_compute in
  lx_evaluation lx_worker true.
Definition lx_denial : evaluation_result := Eval cbv in value_of lx_denial_result.

Definition lx_granted_state_result : res ContinuationState := Eval vm_compute in
  seal_state (ev_next_state lx_grant).
Definition lx_granted_state : ContinuationState := Eval cbv in value_of lx_granted_state_result.

(** ** The runtime applies the lease *)

Definition lx_granted_receipt : res LeaseGrantReceipt :=
  match ev_receipt lx_grant with Granted g => Ok g | Denied _ => Raise TypeError end.
Definition lx_grant_receipt_result : res LeaseGrantReceipt := Eval vm_compute in
  lx_granted_receipt.
Definition lx_grant_receipt : LeaseGrantReceipt := Eval cbv in value_of lx_grant_receipt_result.

(** The state identity of the runtime after the application. *)
Definition lx_applied_state_id : pystr := cp_progress_contract_id lx_policy.

Definition lx_applied_limits : RuntimeLimits :=
  {| rl_max_requests := 12; rl_max_executions := 6; rl_max_retries := 3; rl_max_history := 12 |}.

Definition lx_application_body (s : ContinuationState) (g : LeaseGrantReceipt) : res (list (string * pyval)) :=
  let* grant_id := LeaseGrantReceipt.lease_grant_id g in
  let* grant_receipt_id := LeaseGrantReceipt.receipt_id g in
  Ok [("authority_layer", VStr (u "execution"));
      ("command_id", VStr ex_task_id);
      ("command_type", VStr (u "apply_lease"));
      ("continuation_policy_id", VStr (cs_continuation_policy_id s));
      ("continuation_policy_receipt_id", VStr (cs_continuation_policy_receipt_id s));
      ("cumulative_granted", BudgetVector.canonical_record (cs_cumulative_granted s));
      ("governance_id", VStr (cs_governance_id s));
      ("grant_receipt_id", VStr grant_receipt_id);
      ("invariant_ids", strs_val []);
      ("lease_grant_id", VStr grant_id);
      ("lease_index", VInt 1);
      ("limit_delta", BudgetVector.canonical_record lx_amount);
      ("logical_tick", VInt 1);
      ("logical_tick_delta", VInt 1);
      ("prior_state_id", VStr (cs_runtime_state_id s));
      ("protocol_version", VStr RUNTIME_LEASE_APPLICATION_PROTOCOL_VERSION);
      ("reason_code", VNone);
      ("resulting_limits", RuntimeLimits.canonical_record lx_applied_limits);
      ("resulting_state_id", VStr lx_applied_state_id);
      ("runtime_budget_delta", BudgetVector.canonical_record BudgetVector.zero);
      ("session_id", VStr (cs_runtime_session_id s));
      ("status", VStr (u "accepted"));
      ("task_id", VStr (cs_task_id s));
      ("total_ceiling", BudgetVector.canonical_record (cp_total_ceiling lx_policy))]%string.

Definition lx_apply (s : ContinuationState) (g : LeaseGrantReceipt) : res RuntimeLeaseApplicationReceipt :=
  let* body := lx_application_body s g in
  let* application_id := domain_fingerprint RUNTIME_LEASE_APPLICATION_ID_DOMAIN (obj body) in
  let identified := body ++ [("lease_application_id", VStr application_id)]%string in
  let* record := with_receipt_id RUNTIME_LEASE_APPLICATION_RECEIPT_ID_DOMAIN identified in
  RuntimeLeaseApplicationReceipt.make record.

Definition lx_application_result : res RuntimeLeaseApplicationReceipt := Eval vm_compute in
  lx_apply lx_granted_state lx_grant_receipt.
Definition lx_application : RuntimeLeaseApplicationReceipt := Eval cbv in value_of lx_application_result.

(** The snapshot that the runtime reports after the application. *)
Definition lx_applied_snapshot (grant_id : pystr) : RuntimeSnapshot := {|
  rs_session_id := ex_task_id; rs_state_id := lx_applied_state_id; rs_logical_tick := 1; rs_requests := 0;
  rs_executions := 0; rs_cache_hits := 0; rs_retries := 0; rs_history := []; rs_cache := [];
  rs_limits := lx_applied_limits;
  rs_continuation := Some {|
    rc_task := ex_task_id; rc_governance := ex_task_id; rc_governance_receipt := ex_task_id;
    rc_continuation_policy := cr_continuation_policy_id lx_receipt;
    rc_continuation_policy_receipt := lx_receipt_id;
    rc_progress_contract := cp_progress_contract_id lx_policy;
    rc_cumulative_granted := lx_vector 4 2 1 0 4; rc_total_ceiling := lx_vector 12 6 3 0 12;
    rc_applied_grant_ids := [grant_id]; rc_leases_applied := 1; rc_next_lease_index := 2 |} |}.

Definition lx_applied : RuntimeSnapshot := Eval vm_compute in
  lx_applied_snapshot (default [] (cs_pending_grant_id lx_granted_state)).

Definition lx_committed_result : res ContinuationState := Eval vm_compute in
  commit_lease_application lx_granted_state lx_policy lx_grant_receipt lx_application lx_applied.
Definition lx_committed : ContinuationState := Eval cbv in value_of lx_committed_result.
