(* ===== verification/LeaseFacts.v ===== *)
(** * Facts about the lease machine

    What the constructor of the state guarantees, how each operation moves the ledger, and the
    conditions under which an evaluation grants. *)

From Stdlib Require Import Ascii String.
From stdpp Require Import base list gmap.
From S2P Require Import Prelude PyStr PyNumber Sha256 Canonical CanonicalFacts Fingerprints Records RecordsFacts Kahn Obligations Epistemic Orchestration Budget BudgetFacts Progress Snapshot Receipts Strategy Lease LeaseMachine.

(** ** Chains of tests *)

Lemma res_exists_false {A} (f : A → res bool) l : res_exists f l = Ok false ↔ Forall (λ x, f x = Ok false) l.
Proof.
  induction l as [|x l IH]; simpl; [by split|]. rewrite Forall_cons, <- IH.
  destruct (f x) as [[]|]; simpl; naive_solver.
Qed.

Lemma mismatch_false tests : mismatch tests = Ok false ↔ Forall (λ t, t = Ok true) tests.
Proof.
  unfold mismatch. rewrite res_exists_false. apply Forall_iff. intros [[]|]; simpl; naive_solver.
Qed.

Lemma require_all_Ok tests e x : require_all tests e = Ok x ↔ Forall (λ t, t = Ok true) tests.
Proof.
  unfold require_all. rewrite res_iter_Ok. apply Forall_iff. intros [[]|]; simpl; naive_solver.
Qed.

Lemma first_reason_None guards :
  first_reason guards = Ok None ↔ Forall (λ g, g.1 = Ok false) guards.
Proof.
  induction guards as [|[t r] l IH]; simpl; [by split|]. rewrite Forall_cons, <- IH.
  destruct t as [[]|]; simpl; naive_solver.
Qed.

(** The reason given is that of a test that holds, after tests that do not. *)
Lemma first_reason_Some guards r :
  first_reason guards = Ok (Some r) →
  ∃ l1 l2, guards = l1 ++ (Ok true, r) :: l2 ∧ Forall (λ g, g.1 = Ok false) l1.
Proof.
  induction guards as [|[t r'] l IH]; simpl; [done|].
  destruct t as [[]|]; simpl; [|intros (l1 & l2 & -> & Hl)%IH|done].
  - intros [= ->]. by exists [], l.
  - exists ((Ok false, r') :: l1), l2. by split; [|constructor].
Qed.

Lemma first_reason_app l1 l2 :
  first_reason (l1 ++ l2) =
  let* r := first_reason l1 in match r with Some r => Ok (Some r) | None => first_reason l2 end.
Proof.
  induction l1 as [|[t r] l IH]; simpl; [done|]. destruct t as [[]|]; simpl; auto.
Qed.

Lemma is_result_true {A} `{EqDecision A} (x : A) r : is_result x r = Ok true ↔ r = Ok x.
Proof.
  unfold is_result. destruct r as [y|]; simpl; [|naive_solver]. split.
  - intros [= H]. by apply bool_decide_eq_true in H as ->.
  - intros [= ->]. by rewrite bool_decide_true.
Qed.

Lemma ok_decide_true P `{Decision P} : Ok (bool_decide P) = Ok true ↔ P.
Proof. split; [by intros [= ?%bool_decide_eq_true]|intros HP; by rewrite bool_decide_true]. Qed.

Lemma check_option_Ok {A} (f : A → res unit) o x :
  check_option f o = Ok x ↔ ∀ a, o = Some a → f a = Ok tt.
Proof. destruct o, x; simpl; split; naive_solver. Qed.

Lemma negb_decide_false P `{Decision P} : negb (bool_decide P) = false ↔ P.
Proof. rewrite negb_false_iff. apply bool_decide_eq_true. Qed.

(** Split the results of a successful check into one fact each. *)
Ltac forall_inv H := rewrite ?Forall_app, ?Forall_cons, ?Forall_nil in H; cbn [fst snd] in H.

Section facts.
Context {N : NativeSeals}.
Implicit Types s t : ContinuationState.

(** ** The state *)

(** What every constructed state satisfies. *)
Record ledger_ok s : Prop := {
  lo_requests : cs_lease_requests s = cs_leases_granted s + cs_leases_denied s;
  lo_tick : cs_continuation_logical_tick s = cs_lease_requests s;
  lo_receipts : Z.of_nat (length (cs_decision_receipt_ids s)) = cs_lease_requests s;
  lo_distinct : NoDup (cs_decision_receipt_ids s);
  lo_bound : cs_lease_requests s <= MAX_LEASE_REQUESTS;
  lo_granted : 0 <= cs_leases_granted s;
  lo_denied : 0 <= cs_leases_denied s;
  lo_recoveries : 0 <= cs_strategy_recoveries s <= cs_leases_granted s;
  lo_terminal : is_some (cs_terminal_ceiling_receipt_id s) = true →
    cs_progress_state s = LEASE_EXHAUSTED ∧ ContinuationState.has_pending_grant s = false;
  lo_denial : cs_last_decision s = LAST_DENIED ↔ is_some (cs_last_denial_reason s) = true;
  lo_none : cs_lease_requests s = 0 ↔ cs_last_decision s = NONE_DECIDED
}.

Lemma make_ok s t : ContinuationState.make s = Ok t → t = s ∧ ledger_ok s.
Proof.
  unfold ContinuationState.make. intros H.
  apply res_bind_Ok in H as ([] & _ & H). apply res_bind_Ok in H as ([] & Hu & H).
  apply res_bind_Ok in H as ([] & Ha & H). apply res_bind_Ok in H as ([] & _ & H).
  apply res_bind_Ok in H as ([] & Hp & H). apply res_bind_Ok in H as ([] & Hd & H).
  apply res_bind_Ok in H as ([] & _ & [= <-]). split; [done|].
  rewrite res_iter_Ok in Hu. forall_inv Hu. setoid_rewrite require_u64_Ok in Hu.
  unfold ContinuationState.check_accounting in Ha. res_inv. bool_inv.
  assert (Hr : Z.of_nat (length (cs_decision_receipt_ids s)) <= MAX_LEASE_REQUESTS ∧ NoDup (cs_decision_receipt_ids s)).
  { match goal with E : checked_strings _ _ _ _ _ = Ok _ |- _ => unfold checked_strings in E; res_inv; bool_inv end.
    match goal with E : materialize _ _ = Ok _ |- _ => apply materialize_Ok in E as [-> ?] end.
    split; [done|]. by apply has_duplicates_false. }
  assert (Ht : is_some (cs_terminal_ceiling_receipt_id s) = true →
    cs_progress_state s = LEASE_EXHAUSTED ∧ ContinuationState.has_pending_grant s = false).
  { unfold ContinuationState.check_pending in Hp. clear -Hp. intros Ht.
    destruct (cs_terminal_ceiling_receipt_id s) as [i|]; [|done]. res_inv. bool_inv. done. }
  unfold ContinuationState.check_decisions in Hd. res_inv.
  destruct Hr. constructor; try tauto || lia; try done.
  all: destruct (cs_last_decision s) eqn:?, (cs_last_denial_reason s); simpl in *; try done.
  all: match goal with H : negb (eqb (?r =? 0) _) = false |- _ => destruct (Z.eqb_spec r 0); simpl in H end.
  all: split; intros ?; congruence.
Qed.

(** ** The ledger part of a state *)

(** What the operations are about; sealing and observation leave it alone. *)
Record ledger_view := {
  lv_policy : pystr;
  lv_requests : Z;
  lv_granted : Z;
  lv_denied : Z;
  lv_cumulative : BudgetVector;
  lv_receipts : list pystr;
  lv_recoveries : Z;
  lv_consumed : option pystr;
  lv_pending : option pystr;
  lv_terminal : option pystr
}.

Definition view s : ledger_view := {|
  lv_policy := cs_continuation_policy_id s; lv_requests := cs_lease_requests s;
  lv_granted := cs_leases_granted s; lv_denied := cs_leases_denied s;
  lv_cumulative := cs_cumulative_granted s; lv_receipts := cs_decision_receipt_ids s;
  lv_recoveries := cs_strategy_recoveries s; lv_consumed := cs_last_consumed_progress_id s;
  lv_pending := cs_pending_grant_id s; lv_terminal := cs_terminal_ceiling_receipt_id s |}.

Lemma with_lineage_view s seal t :
  ContinuationState.with_native_lineage s seal = Ok t → view t = view s ∧ ledger_ok t.
Proof.
  unfold ContinuationState.with_native_lineage. intros H. res_inv.
  apply make_ok in H as [-> Hok]. by split.
Qed.

Lemma observe_view s p os snap pr st t :
  observe_continuation_context s p os snap pr st = Ok t →
  view t = view s ∧ ContinuationState.has_pending_grant s = false.
Proof.
  unfold observe_continuation_context. intros H.
  do 3 (apply res_bind_Ok in H as ([] & ? & H)).
  do 4 (apply res_bind_Ok in H as (? & ? & H)).
  do 5 (apply res_bind_Ok in H as (? & ? & H)).
  apply make_ok in H as [-> _]. split; [done|]. by apply raise_if_Ok in H2.
Qed.

Lemma commit_view s p g app snap t :
  commit_lease_application s p g app snap = Ok t →
  view t = {| lv_policy := cs_continuation_policy_id s; lv_requests := cs_lease_requests s;
              lv_granted := cs_leases_granted s; lv_denied := cs_leases_denied s;
              lv_cumulative := cs_cumulative_granted s; lv_receipts := cs_decision_receipt_ids s;
              lv_recoveries := cs_strategy_recoveries s; lv_consumed := cs_last_consumed_progress_id s;
              lv_pending := None; lv_terminal := cs_terminal_ceiling_receipt_id s |} ∧
  (∃ i, cs_pending_grant_id s = Some i ∧ LeaseGrantReceipt.lease_grant_id g = Ok i) ∧
  (∃ b, BudgetVector.add_checked (cp_initial_budget p) (cs_cumulative_granted s) = Ok b ∧
        limits_match (rs_limits snap) b = true).
Proof.
  unfold commit_lease_application. intros H.
  apply res_bind_Ok in H as ([] & _ & H). apply res_bind_Ok in H as ([] & _ & H).
  apply res_bind_Ok in H as ([] & Hc & H). apply res_bind_Ok in H as ([] & _ & H).
  apply res_bind_Ok in H as ([] & _ & H). apply res_bind_Ok in H as ([] & Hl & H).
  apply make_ok in H as [-> _]. split; [done|]. split.
  - unfold check_application in Hc. apply res_bind_Ok in Hc as (st & _ & Hc).
    apply res_bind_Ok in Hc as ([] & _ & Hc). apply res_bind_Ok in Hc as (rec & _ & Hc).
    match type of Hc with match ?v with _ => _ end = _ => destruct v; try done end.
    rewrite require_all_Ok, Forall_cons in Hc. destruct Hc as [Hi _]. apply res_bind_Ok in Hi as (i & ? & Hi).
    apply ok_decide_true in Hi. eauto.
  - unfold check_applied_limits in Hl. res_inv. bool_inv. eauto.
Qed.

(** ** Denials *)

(** A recorded denial: one more request and one more receipt. *)
Definition denied_view (v : ledger_view) (receipt_id : pystr) : ledger_view := {|
  lv_policy := lv_policy v; lv_requests := lv_requests v + 1; lv_granted := lv_granted v;
  lv_denied := lv_denied v + 1; lv_cumulative := lv_cumulative v;
  lv_receipts := lv_receipts v ++ [receipt_id]; lv_recoveries := lv_recoveries v;
  lv_consumed := lv_consumed v; lv_pending := lv_pending v; lv_terminal := lv_terminal v |}.

Definition closed_view (v : ledger_view) (receipt_id : pystr) : ledger_view := {|
  lv_policy := lv_policy v; lv_requests := lv_requests v; lv_granted := lv_granted v;
  lv_denied := lv_denied v; lv_cumulative := lv_cumulative v;
  lv_receipts := lv_receipts v; lv_recoveries := lv_recoveries v;
  lv_consumed := lv_consumed v; lv_pending := lv_pending v; lv_terminal := Some receipt_id |}.

Lemma denial_receipt_Ok s q pr reason bl tick d :
  denial_receipt s q pr reason bl tick = Ok d →
  ld_denial_reason d = reason ∧ ld_decision_logical_tick d = tick ∧ ld_blocking_evidence_id d = bl ∧
  ContinuationRequest.continuation_request_id q = Ok (ld_continuation_request_id d).
Proof.
  unfold denial_receipt, LeaseDenyReceipt.make. intros H. res_inv. by subst.
Qed.

Lemma deny_continuation_Ok s q pr reason p bl b r d :
  deny_continuation s q pr reason p bl b = Ok (r, d) →
  ev_receipt r = Denied d ∧ ld_denial_reason d = reason ∧
  if b then
    ev_same_object r = false ∧ cs_lease_requests s + 1 <= cp_max_lease_requests p ∧
    ∃ i, LeaseDenyReceipt.receipt_id d = Ok i ∧ view (ev_next_state r) = denied_view (view s) i
  else ev_same_object r = true ∧ ev_next_state r = s.
Proof.
  unfold deny_continuation. intros H. apply res_bind_Ok in H as ([] & _ & H).
  apply res_bind_Ok in H as (d' & Hd & H). apply denial_receipt_Ok in Hd as (Hr & _).
  destruct b; simpl in H; [|injection H as <- <-; by simpl].
  apply res_bind_Ok in H as (i & Hi & H). apply res_bind_Ok in H as (ag & _ & H).
  apply res_bind_Ok in H as (t & Ht & H). apply res_bind_Ok in H as ([] & Hb & H).
  injection H as <- <-. apply make_ok in Ht as [-> _]. apply raise_if_Ok, Z.ltb_ge in Hb. simpl in *. eauto 8.
Qed.

(** The three ways in which a refused request leaves the ledger. *)
Lemma deny_request_Ok s q pr reason p bl r :
  deny_request s q pr reason p bl = Ok r →
  ∃ d, ev_receipt r = Denied d ∧ ld_denial_reason d = reason ∧
  (ev_same_object r = true ∧ ev_next_state r = s ∨
   ev_same_object r = false ∧ reason ≠ UNAUTHORIZED_REQUESTER ∧ terminal_exhaustion s p reason = false ∧
     cs_lease_requests s < cp_max_lease_requests p ∧
     (∃ i, LeaseDenyReceipt.receipt_id d = Ok i ∧ view (ev_next_state r) = denied_view (view s) i) ∨
   ev_same_object r = false ∧ terminal_exhaustion s p reason = true ∧
     cs_terminal_ceiling_receipt_id s = None ∧
     (∃ i, LeaseDenyReceipt.receipt_id d = Ok i ∧ view (ev_next_state r) = closed_view (view s) i)).
Proof.
  unfold deny_request. intros H. apply res_bind_Ok in H as ([r' d] & Hd & H). cbn [fst snd] in H.
  apply deny_continuation_Ok in Hd as (Hr & Hreason & Hd).
  destruct (terminal_exhaustion s p reason) eqn:Et; cbn [negb andb] in *.
  - rewrite andb_false_r in Hd. destruct Hd as [Hs Hn].
    destruct (cs_terminal_ceiling_receipt_id s) eqn:Ec; cbn [is_some] in H.
    + injection H as <-. exists d. auto.
    + apply res_bind_Ok in H as (i & Hi & H). apply res_bind_Ok in H as (t & Ht & [= <-]).
      unfold record_terminal in Ht. apply make_ok in Ht as [-> _]. exists d. simpl. eauto 10.
  - injection H as <-. exists d. split; [done|]. split; [done|]. rewrite andb_true_r in Hd.
    destruct (bool_decide (reason = UNAUTHORIZED_REQUESTER)) eqn:Eu; cbn [negb andb] in Hd; [by left|].
    destruct (cs_lease_requests s <? cp_max_lease_requests p) eqn:El; [|by left].
    destruct Hd as (Hs & _ & Hv). right; left. apply bool_decide_eq_false in Eu. apply Z.ltb_lt in El. eauto.
Qed.

(** ** Grants *)

Definition granted_view (v : ledger_view) (receipt_id grant_id : pystr) (cumulative : BudgetVector)
    (recovery : bool) (consumed : option pystr) : ledger_view := {|
  lv_policy := lv_policy v; lv_requests := lv_requests v + 1; lv_granted := lv_granted v + 1;
  lv_denied := lv_denied v; lv_cumulative := cumulative; lv_receipts := lv_receipts v ++ [receipt_id];
  lv_recoveries := lv_recoveries v + (if recovery then 1 else 0); lv_consumed := consumed;
  lv_pending := Some grant_id; lv_terminal := lv_terminal v |}.

Lemma grant_request_Ok s q pr p sc cycle admitted strategy next r :
  grant_request s q pr p sc cycle admitted strategy next = Ok r →
  ev_same_object r = false ∧
  ∃ g receipt_id grant_id progress_id,
    ev_receipt r = Granted g ∧
    LeaseGrantReceipt.receipt_id g = Ok receipt_id ∧ LeaseGrantReceipt.lease_grant_id g = Ok grant_id ∧
    ProgressRecord.progress_id pr = Ok progress_id ∧
    ContinuationRequest.continuation_request_id q = Ok (lg_continuation_request_id g) ∧
    ContinuationState.continuation_state_id s = Ok (lg_prior_continuation_state_id g) ∧
    lg_lease_index g = cq_lease_index q ∧
    lg_granted_resources g = cq_requested_resources q ∧ lg_cumulative_granted g = next ∧
    lg_total_ceiling g = cp_total_ceiling p ∧
    view (ev_next_state r) =
      granted_view (view s) receipt_id grant_id next (strategy && (cycle || negb admitted))
        (if admitted then Some progress_id else cs_last_consumed_progress_id s).
Proof.
  unfold grant_request. intros H.
  apply res_bind_Ok in H as (qi & Hq & H). apply res_bind_Ok in H as (si & Hs & H).
  apply res_bind_Ok in H as (pi & Hp & H). apply res_bind_Ok in H as (ci & _ & H).
  apply res_bind_Ok in H as (g & Hg & H). apply res_bind_Ok in H as (ri & Hr & H).
  apply res_bind_Ok in H as (ag & _ & H). apply res_bind_Ok in H as (ep & _ & H).
  apply res_bind_Ok in H as (gi & Hgi & H). apply res_bind_Ok in H as (t & Ht & [= <-]).
  apply make_ok in Ht as [-> _]. split; [done|]. exists g, ri, gi, pi.
  unfold LeaseGrantReceipt.make in Hg.
  do 9 (apply res_bind_Ok in Hg as ([] & _ & Hg)). injection Hg as <-. done.
Qed.

(** ** When a request is granted *)

Implicit Types q : ContinuationRequest.

(** The request speaks for the supervisor about the current state of everything. *)
Record standing_ok s q (live : RuntimeSnapshot) (p : ContinuationPolicy) (pr : ProgressRecord)
    (ce lc : option CycleEvidence) (bl : option pystr) (authorized : bool) : Prop := {
  so_authority : cq_requester q = OPENAI_SUPERVISOR ∧ authorized = true;
  so_state : ContinuationState.continuation_state_id s = Ok (cq_continuation_state_id q);
  so_governance : cq_task_id q = cs_task_id s ∧ cq_governance_id q = cs_governance_id s ∧
    cq_continuation_policy_id q = cs_continuation_policy_id s;
  so_orchestration : cq_orchestration_state_id q = cs_orchestration_state_id s;
  so_runtime : cq_runtime_session_id q = cs_runtime_session_id s ∧ cq_runtime_state_id q = cs_runtime_state_id s ∧
    rs_session_id live = cs_runtime_session_id s ∧ rs_state_id live = cs_runtime_state_id s;
  so_pending : cs_pending_grant_id s = None;
  so_progress : pr_task_id pr = cs_task_id s ∧ pr_governance_id pr = cs_governance_id s ∧
    ProgressMeasureContract.contract_id (pr_contract pr) = Ok (cs_progress_contract_id s) ∧
    ProgressRecord.progress_id pr = Ok (cq_progress_id q) ∧ cs_last_progress_id s = Some (cq_progress_id q) ∧
    pr_current_orchestration_state_id pr = cs_orchestration_state_id s;
  so_incomplete : pr_task_complete pr = false;
  so_unblocked : bl = None;
  so_leases : cs_leases_granted s < ContinuationPolicy.max_leases p;
  so_requests : cs_lease_requests s < cp_max_lease_requests p;
  so_index : cq_lease_index q = cs_leases_granted s + 1;
  so_capacity : ∃ c, ContinuationPolicy.continuation_capacity p = Ok c ∧ bv_le (cs_cumulative_granted s) c;
  so_cycle : stale_cycle ce lc = Ok false
}.

Lemma Ok_bool (b b' : bool) : Ok b = Ok b' ↔ b = b'.
Proof. split; congruence. Qed.

Lemma Ok_orb_false (a b : bool) : Ok (a || b) = Ok false ↔ a = false ∧ b = false.
Proof. rewrite Ok_bool. apply orb_false_iff. Qed.

Lemma standing_iff s q live p pr ce lc bl authorized :
  standing_denial s q live p pr ce lc bl authorized = Ok None ↔
  standing_ok s q live p pr ce lc bl authorized.
Proof.
  unfold standing_denial, requester_denial, runtime_denial, progress_denial, capacity_denial.
  rewrite first_reason_None, !Forall_app, !Forall_cons, !Forall_nil. cbn [fst snd].
  rewrite !mismatch_false, !Forall_cons, !Forall_nil, !is_result_true, !ok_decide_true.
  rewrite !Ok_bool, !orb_false_iff, !negb_decide_false.
  split.
  - intros ((H1 & H2 & H3 & H4 & _) & (H5 & H6 & _) & (H7 & H8 & H9 & _) & H10 & H11 & H12 & H13 & H14 & _).
    destruct H7 as (H71 & H72 & H73 & H74 & H75 & H76 & _).
    apply res_bind_Ok in H74 as (i & Hi & Hl%ok_decide_true). rewrite H76 in Hi. injection Hi as <-.
    apply res_bind_Ok in H13 as (c & Hc & [= Hw%negb_false_iff%is_within_true]).
    apply Z.leb_gt in H10, H11. apply negb_false_iff, Z.eqb_eq in H12. destruct H1 as [H1 H1'%negb_false_iff].
    constructor; try tauto; try done; eauto.
    + unfold ContinuationState.has_pending_grant in H6. by destruct (cs_pending_grant_id s).
    + by destruct bl.
  - intros [[A1 ->] A2 A3 A4 A5 A6 A7 A8 -> A10 A11 A12 (c & Hc & Hw) A14].
    destruct A7 as (B1 & B2 & B3 & B4 & B5 & B6).
    assert (ContinuationState.has_pending_grant s = false) by (unfold ContinuationState.has_pending_grant; by rewrite A6).
    rewrite B4, Hc. cbn [res_bind is_some negb].
    rewrite B5, A12, Z.eqb_refl, (proj2 (is_within_true _ _) Hw), bool_decide_true, !Z.leb_gt by done. tauto.
Qed.

(** A strategy change that the request names, for this state and the live cycle. *)
Definition change_admitted s q (sc : option StrategyChangeReceipt) (lc : option CycleEvidence) : Prop :=
  ∃ c i, sc = Some c ∧ cq_strategy_change_id q = Some i ∧
    StrategyChangeReceipt.strategy_change_id c = Ok i ∧
    sr_task_id c = cs_task_id s ∧ sr_governance_id c = cs_governance_id s ∧
    sr_orchestration_state_id c = cs_orchestration_state_id s ∧
    cs_current_strategy_material_id s = Some (sr_prior_strategy_material_id c) ∧
    res_option CycleEvidence.cycle_evidence_id lc = Ok (sr_cycle_evidence_id c) ∧
    sr_status c = CHANGE_ADMITTED.

Lemma strategy_stage_admitted s q sc lc reason :
  strategy_stage s q sc lc reason = Ok (None, true) ↔ reason = None ∧ change_admitted s q sc lc.
Proof.
  unfold strategy_stage, change_admitted. split.
  - intros H. destruct reason; [done|]. split; [done|].
    destruct (cq_strategy_change_id q) as [i|] eqn:Eq; [|done].
    apply res_bind_Ok in H as (r & Hr & [= -> _]). unfold strategy_denial in Hr.
    destruct sc as [c|]; [|done]. rewrite first_reason_None, !Forall_cons in Hr. cbn [fst] in Hr.
    rewrite mismatch_false, !Forall_cons, is_result_true, !ok_decide_true, Ok_bool, negb_decide_false in Hr.
    destruct Hr as ((H1 & H2 & H3 & H4 & _) & H5 & H6 & H7 & _).
    apply res_bind_Ok in H6 as (li & Hl & [= H6]). apply negb_false_iff, bool_decide_eq_true in H6.
    exists c, i. repeat split; try done; [by rewrite H6|]. destruct (sr_status c); [done|]. by rewrite bool_decide_true in H7.
  - intros [-> (c & i & -> & -> & H1 & H2 & H3 & H4 & H5 & H6 & H7)].
    assert (Hd : strategy_denial s i (Some c) lc = Ok None); [|by rewrite Hd].
    unfold strategy_denial. rewrite first_reason_None, !Forall_cons. cbn [fst].
    rewrite mismatch_false, !Forall_cons, is_result_true, !ok_decide_true, Ok_bool, negb_decide_false, H6, H7.
    cbn [res_bind]. rewrite !bool_decide_true by done. rewrite bool_decide_false by done. repeat constructor; done.
Qed.

Lemma strategy_stage_none s q sc lc reason :
  strategy_stage s q sc lc reason = Ok (None, false) ↔
  reason = None ∧ cq_strategy_change_id q = None ∧ sc = None.
Proof.
  unfold strategy_stage. split.
  - destruct reason; [done|]. destruct (cq_strategy_change_id q) as [i|].
    + intros (r & _ & [= -> ?])%res_bind_Ok. done.
    + by destruct sc.
  - by intros (-> & -> & ->).
Qed.

(** A reason that is there stays; a later stage only adds one. *)
Lemma merit_stage_None s p cyc adm str reason :
  merit_stage s p cyc adm str reason = None ↔
  reason = None ∧
  (str = true ∧ cs_strategy_recoveries s < cp_max_strategy_recoveries p ∨ str = false ∧ cyc = false ∧ adm = true).
Proof.
  unfold merit_stage. destruct reason; [naive_solver|].
  destruct str, cyc, adm; simpl; try destruct (Z.leb_spec (cp_max_strategy_recoveries p) (cs_strategy_recoveries s));
    split; try naive_solver lia.
Qed.

(** The resources of the request fit the scheduled lease and the capacity. *)
Definition resources_ok s (p : ContinuationPolicy) q (next : BudgetVector) : Prop :=
  cq_requested_resources q ≠ BudgetVector.zero ∧ bv_mutation_delta (cq_requested_resources q) = 0 ∧
  (∃ scheduled, cp_lease_schedule p !! Z.to_nat (cs_leases_granted s) = Some scheduled ∧
     bv_le (cq_requested_resources q) scheduled) ∧
  BudgetVector.add_checked (cs_cumulative_granted s) (cq_requested_resources q) = Ok next ∧
  ∃ c, ContinuationPolicy.continuation_capacity p = Ok c ∧ bv_le next c.

Lemma list_item_Ok {A} (l : list A) i x : list_item l i = Ok x ↔ l !! i = Some x.
Proof. unfold list_item. destruct (l !! i); naive_solver. Qed.

Lemma resource_stage_None s p q reason next :
  resource_stage s p q reason = Ok (None, Some next) ↔ reason = None ∧ resources_ok s p q next.
Proof.
  unfold resource_stage, resources_ok. destruct reason as [r|]; [naive_solver|]. split.
  - intros H. split; [done|].
    destruct (BudgetVector.is_zero _) eqn:Ez; [done|].
    destruct (bv_mutation_delta _ =? 0) eqn:Em; cbn [negb] in H; [|done].
    apply res_bind_Ok in H as (item & Hi & H). rewrite list_item_Ok in Hi.
    destruct (BudgetVector.is_within (cq_requested_resources q) item) eqn:Ew; cbn [negb] in H; [|done].
    destruct (BudgetVector.add_checked _ _) as [n|[]] eqn:Ea; try done.
    apply res_bind_Ok in H as (c & Hc & H). destruct (BudgetVector.is_within n c) eqn:Ec; cbn [negb] in H; [|done].
    injection H as ->. apply is_within_true in Ew, Ec. apply Z.eqb_eq in Em.
    split; [intros Hz; by rewrite (proj2 (is_zero_true _) Hz) in Ez|]. eauto 8.
  - intros (_ & Hz & Hm & (item & Hi & Hw) & Ha & c & Hc & Hn).
    destruct (BudgetVector.is_zero _) eqn:Ez; [by apply is_zero_true in Ez|].
    rewrite Hm. cbn [Z.eqb negb]. rewrite (proj2 (list_item_Ok _ _ _) Hi). cbn [res_bind].
    rewrite (proj2 (is_within_true _ _) Hw), Ha, Hc. cbn [negb res_bind].
    by rewrite (proj2 (is_within_true _ _) Hn).
Qed.

(** What justifies a lease: an admitted strategy change while recoveries remain, or, without a
    terminal cycle, measurable progress that no earlier grant consumed. *)
Definition merited s q (p : ContinuationPolicy) (pr : ProgressRecord) (sc : option StrategyChangeReceipt)
    (lc : option CycleEvidence) : Prop :=
  change_admitted s q sc lc ∧ cs_strategy_recoveries s < cp_max_strategy_recoveries p ∨
  cq_strategy_change_id q = None ∧ sc = None ∧ lc = None ∧ progress_admitted s pr = Ok true.

Definition grantable s q (live : RuntimeSnapshot) (p : ContinuationPolicy) (pr : ProgressRecord)
    (sc : option StrategyChangeReceipt) (ce lc : option CycleEvidence) (bl : option pystr) (authorized : bool)
    (next : BudgetVector) : Prop :=
  standing_ok s q live p pr ce lc bl authorized ∧ merited s q p pr sc lc ∧ resources_ok s p q next.

Lemma evaluate_lease_Ok s q live p rc pr sc ce bl authorized r :
  evaluate s q live p rc pr sc ce bl authorized = Ok r →
  validate_evaluation_inputs s q p rc pr sc ce bl = Ok tt ∧
  ∃ lc admitted, CycleEvidence.from_snapshot live = Ok lc ∧ progress_admitted s pr = Ok admitted ∧
  ((∃ strategy next, grantable s q live p pr sc ce lc bl authorized next ∧
      (strategy = true → change_admitted s q sc lc ∧ cs_strategy_recoveries s < cp_max_strategy_recoveries p) ∧
      (strategy = false → lc = None ∧ admitted = true) ∧
      grant_request s q pr p sc (is_some lc) admitted strategy next = Ok r) ∨
   (∃ reason, (∀ next, ¬ grantable s q live p pr sc ce lc bl authorized next) ∧
      deny_request s q pr reason p bl = Ok r)).
Proof.
  unfold evaluate. intros H. apply res_bind_Ok in H as ([] & Hv & H). split; [done|].
  apply res_bind_Ok in H as (lc & Hlc & H). apply res_bind_Ok in H as (standing & Hst & H).
  apply res_bind_Ok in H as ([staged strategy] & Hsg & H). cbn [fst snd] in H.
  apply res_bind_Ok in H as (admitted & Ha & H). exists lc, admitted. split; [done|]. split; [done|].
  apply res_bind_Ok in H as ([reason next] & Hres & H).
  destruct reason as [reason|]; [|destruct next as [next|]; [|done]].
  - right. exists reason. split; [|done]. intros next' (Hs & Hm & Hr).
    apply standing_iff in Hs. rewrite Hs in Hst. injection Hst as <-.
    assert (Hmerit : merit_stage s p (is_some lc) admitted strategy staged = None).
    { apply merit_stage_None. destruct Hm as [[Hc Hrec]|(Hq & Hsc & -> & Hadm)].
      - rewrite (proj2 (strategy_stage_admitted _ _ _ _ None)) in Hsg by done. injection Hsg as <- <-. auto.
      - rewrite (proj2 (strategy_stage_none _ _ _ _ None)) in Hsg by done. injection Hsg as <- <-.
        rewrite Hadm in Ha. injection Ha as <-. auto. }
    rewrite Hmerit in Hres. rewrite (proj2 (resource_stage_None _ _ _ None next')) in Hres by done. done.
  - left. exists strategy, next. apply resource_stage_None in Hres as [Hmerit Hres].
    apply merit_stage_None in Hmerit as [-> Hm].
    assert (standing = None) as ->.
    { unfold strategy_stage in Hsg. destruct standing; [done|done]. }
    apply standing_iff in Hst. destruct strategy.
    + apply strategy_stage_admitted in Hsg as [_ Hc]. destruct Hm as [[_ Hrec]|[? _]]; [|done].
      split; [|done]. split; [done|]. split; [by left|done].
    + apply strategy_stage_none in Hsg as (_ & Hq & Hsc). destruct Hm as [[? _]|(_ & Hcyc & ->)]; [done|].
      destruct lc; [done|]. split; [|done]. split; [done|]. split; [by right|done].
Qed.

Lemma unauthorized_standing s q live p pr ce lc bl authorized :
  cq_requester q ≠ OPENAI_SUPERVISOR ∨ authorized = false →
  standing_denial s q live p pr ce lc bl authorized = Ok (Some UNAUTHORIZED_REQUESTER).
Proof.
  intros H. unfold standing_denial. simpl.
  destruct H as [H| ->]; [rewrite bool_decide_false by done|rewrite orb_true_r]; done.
Qed.

(** A requester without authority gets the same denial, and the ledger does not move. *)
Lemma evaluate_unauthorized s q live p rc pr sc ce bl authorized r :
  cq_requester q ≠ OPENAI_SUPERVISOR ∨ authorized = false →
  evaluate s q live p rc pr sc ce bl authorized = Ok r →
  ev_same_object r = true ∧ ev_next_state r = s ∧
  ∃ d, ev_receipt r = Denied d ∧ ld_denial_reason d = UNAUTHORIZED_REQUESTER ∧
    ld_decision_logical_tick d = cs_continuation_logical_tick s.
Proof.
  intros Hu H. unfold evaluate in H. apply res_bind_Ok in H as ([] & _ & H).
  apply res_bind_Ok in H as (lc & _ & H). rewrite unauthorized_standing in H by done.
  cbn [res_bind strategy_stage fst snd] in H. apply res_bind_Ok in H as (admitted & _ & H).
  cbn [merit_stage resource_stage res_bind] in H. unfold deny_request, terminal_exhaustion in H.
  rewrite (bool_decide_false (_ = LEASE_CEILING_REACHED)), (bool_decide_false (_ = LEASE_REQUEST_LIMIT)),
    (bool_decide_true (_ = UNAUTHORIZED_REQUESTER)), decide_False in H by done. cbn [andb orb negb] in H.
  apply res_bind_Ok in H as ([r' d] & Hd & [= <-]). unfold deny_continuation in Hd.
  apply res_bind_Ok in Hd as ([] & _ & Hd). apply res_bind_Ok in Hd as (d' & Hd' & [= <- <-]).
  apply denial_receipt_Ok in Hd' as (? & Ht & _). split; [done|]. split; [done|]. exists d'. split; [done|].
  split; [done|]. rewrite Ht. lia.
Qed.
End facts.
