(* ===== verification/LeaseSpec.v ===== *)
(** * What the lease machine promises

    An abstract ledger of grants and denials under a policy, the steps that a continuation state
    can take between two native seals, and the refinement of the one by the other.  The bounds of
    the abstract ledger are proved once and hold of every run of the machine. *)

From Stdlib Require Import Ascii String.
From stdpp Require Import base list gmap relations.
From S2P Require Import Prelude PyStr PyNumber Sha256 Canonical CanonicalFacts Fingerprints Records RecordsFacts Kahn Obligations Epistemic Orchestration Budget BudgetFacts Progress Snapshot Receipts Strategy Lease LeaseMachine LeaseFacts.

(** ** The abstract ledger *)

Record ledger := {
  al_grants : list BudgetVector;
  al_denials : list LeaseDenialReason;
  al_recoveries : Z;
  al_pending : bool;
  al_closed : bool
}.

Definition new_ledger : ledger :=
  {| al_grants := []; al_denials := []; al_recoveries := 0; al_pending := false; al_closed := false |}.

Definition al_requests (l : ledger) : Z := Z.of_nat (length (al_grants l)) + Z.of_nat (length (al_denials l)).

Inductive ledger_event :=
  | GrantLease (amount : BudgetVector) (recovery : bool)
  | DenyLease (reason : LeaseDenialReason)
  | ApplyLease
  | CloseLedger.

(** A grant takes the next entry of the schedule at most, while nothing is pending; denials are
    counted against the same number of requests; the ledger closes when there are none left. *)
Inductive ledger_step (p : ContinuationPolicy) : ledger → ledger_event → ledger → Prop :=
  | ledger_grant l amount recovery scheduled :
      al_pending l = false → al_requests l < cp_max_lease_requests p →
      cp_lease_schedule p !! length (al_grants l) = Some scheduled → bv_le amount scheduled →
      bv_valid amount → amount ≠ BudgetVector.zero → bv_mutation_delta amount = 0 →
      (recovery = true → al_recoveries l < cp_max_strategy_recoveries p) →
      ledger_step p l (GrantLease amount recovery)
        {| al_grants := al_grants l ++ [amount]; al_denials := al_denials l;
           al_recoveries := al_recoveries l + (if recovery then 1 else 0);
           al_pending := true; al_closed := al_closed l |}
  | ledger_deny l reason :
      al_requests l < cp_max_lease_requests p → reason ≠ UNAUTHORIZED_REQUESTER →
      ledger_step p l (DenyLease reason)
        {| al_grants := al_grants l; al_denials := al_denials l ++ [reason];
           al_recoveries := al_recoveries l; al_pending := al_pending l; al_closed := al_closed l |}
  | ledger_apply l :
      al_pending l = true →
      ledger_step p l ApplyLease
        {| al_grants := al_grants l; al_denials := al_denials l; al_recoveries := al_recoveries l;
           al_pending := false; al_closed := al_closed l |}
  | ledger_close l :
      al_requests l = cp_max_lease_requests p → al_pending l = false → al_closed l = false →
      ledger_step p l CloseLedger
        {| al_grants := al_grants l; al_denials := al_denials l; al_recoveries := al_recoveries l;
           al_pending := false; al_closed := true |}.

(** A sequence of events from the new ledger. *)
Inductive ledger_run (p : ContinuationPolicy) : list ledger_event → ledger → Prop :=
  | ledger_start : ledger_run p [] new_ledger
  | ledger_next evs l ev l' : ledger_run p evs l → ledger_step p l ev l' → ledger_run p (evs ++ [ev]) l'.

Record ledger_within (p : ContinuationPolicy) (l : ledger) : Prop := {
  lw_requests : al_requests l <= cp_max_lease_requests p;
  lw_grants : Forall2 bv_le (al_grants l) (take (length (al_grants l)) (cp_lease_schedule p));
  lw_amounts : Forall (λ b, bv_valid b ∧ b ≠ BudgetVector.zero ∧ bv_mutation_delta b = 0) (al_grants l);
  lw_recoveries : 0 <= al_recoveries l <= cp_max_strategy_recoveries p;
  lw_pending : al_pending l = true → al_grants l ≠ [];
  lw_closed : al_closed l = true → al_requests l = cp_max_lease_requests p ∧ al_pending l = false
}.

Lemma take_snoc_lookup {A} (l : list A) n x : l !! n = Some x → take (S n) l = take n l ++ [x].
Proof. intros. by apply take_S_r. Qed.

Lemma ledger_step_within p l ev l' : ledger_step p l ev l' → ledger_within p l → ledger_within p l'.
Proof.
  intros Hs [Hr Hg Ha Hrec Hp Hc]. destruct Hs as [l amount recovery item Hnp Hlt Hi Hle Hv Hz Hm Hrr|l reason Hlt Hun|l Hpe|l He Hnp Hnc];
    constructor; unfold al_requests in *; cbn [al_grants al_denials al_recoveries al_pending al_closed] in *;
    rewrite ?length_app; cbn [length]; try done; try lia.
  - rewrite Nat.add_1_r, (take_snoc_lookup _ _ _ Hi). apply Forall2_app; [done|]. by constructor.
  - apply Forall_app; split; [done|]. by constructor.
  - destruct recovery; [specialize (Hrr eq_refl)|]; lia.
  - intros _. by destruct (al_grants l).
  - intros Hcl. destruct (Hc Hcl). lia.
  - intros Hcl. destruct (Hc Hcl). lia.
  - intros Hcl. by destruct (Hc Hcl).
Qed.

Lemma ledger_run_within p evs l :
  0 <= cp_max_lease_requests p → 0 <= cp_max_strategy_recoveries p → ledger_run p evs l → ledger_within p l.
Proof.
  intros Hq Hr. induction 1 as [|evs l ev l' _ IH Hs]; [|by eapply ledger_step_within].
  by constructor; cbn.
Qed.

Lemma total_Forall2 l1 l2 : Forall2 bv_le l1 l2 → bv_le (total l1) (total l2).
Proof. induction 1 as [|a b l1 l2 Hab _ IH]; simpl; bv_lia. Qed.

(** All grants together fit the schedule up to the last of them. *)
Lemma ledger_total p l :
  policy_ok p → ledger_within p l →
  bv_le (total (al_grants l)) (total (take (length (al_grants l)) (cp_lease_schedule p))) ∧
  bv_le (total (al_grants l)) (total (cp_lease_schedule p)) ∧
  Z.of_nat (length (al_grants l)) <= ContinuationPolicy.max_leases p.
Proof.
  intros Hp [_ Hg _ _ _ _]. pose proof (total_Forall2 _ _ Hg) as Ht. split; [done|]. split.
  - eapply bv_le_trans; [exact Ht|]. apply total_take_le, Hp.
  - apply Forall2_length in Hg. rewrite length_take in Hg. unfold ContinuationPolicy.max_leases. lia.
Qed.

(** Events that record a decision. *)
Definition is_decision (ev : ledger_event) : bool :=
  match ev with GrantLease _ _ | DenyLease _ => true | _ => false end.

Lemma ledger_run_decisions p evs l :
  ledger_run p evs l → Z.of_nat (length (List.filter is_decision evs)) = al_requests l.
Proof.
  induction 1 as [|evs l ev l' _ IH Hs]; [done|]. rewrite List.filter_app, length_app.
  destruct Hs; unfold al_requests in *; simpl in *; rewrite ?length_app; simpl; lia.
Qed.

(** ** The machine between seals *)

Section machine.
Context {N : NativeSeals}.
Implicit Types s t : ContinuationState.

(** The native side seals what an operation returns; a state returned unchanged keeps its seal. *)
Definition sealed t s : Prop := ∃ seal, ContinuationState.with_native_lineage t seal = Ok s.

Inductive lease_step (p : ContinuationPolicy) : ContinuationState → ContinuationState → Prop :=
  | step_evaluate s q live rc pr sc ce bl authorized r s' :
      evaluate s q live p rc pr sc ce bl authorized = Ok r →
      (if ev_same_object r then s' = ev_next_state r else sealed (ev_next_state r) s') →
      lease_step p s s'
  | step_observe s os snap pr st t s' :
      observe_continuation_context s p os snap pr st = Ok t → sealed t s' → lease_step p s s'
  | step_commit s g app snap t s' :
      commit_lease_application s p g app snap = Ok t → sealed t s' → lease_step p s s'.

(** A new state, created from a live runtime and sealed. *)
Definition created (p : ContinuationPolicy) s : Prop :=
  ∃ rc live os snap st pr t, create_unsealed p rc live os snap st pr = Ok t ∧ sealed t s.

(** The ledger that a state stands for. *)
Record represents (p : ContinuationPolicy) (l : ledger) s : Prop := {
  rp_granted : cs_leases_granted s = Z.of_nat (length (al_grants l));
  rp_denied : cs_leases_denied s = Z.of_nat (length (al_denials l));
  rp_cumulative : cs_cumulative_granted s = total (al_grants l);
  rp_valid : bv_valid (cs_cumulative_granted s);
  rp_recoveries : cs_strategy_recoveries s = al_recoveries l;
  rp_pending : ContinuationState.has_pending_grant s = al_pending l;
  rp_closed : is_some (cs_terminal_ceiling_receipt_id s) = al_closed l;
  rp_policy : ContinuationPolicy.continuation_policy_id p = Ok (cs_continuation_policy_id s);
  rp_ok : ledger_ok s
}.

(** What [represents] says, from the view alone. *)
Definition represents_view (p : ContinuationPolicy) (l : ledger) (v : ledger_view) : Prop :=
  lv_granted v = Z.of_nat (length (al_grants l)) ∧ lv_denied v = Z.of_nat (length (al_denials l)) ∧
  lv_cumulative v = total (al_grants l) ∧ bv_valid (lv_cumulative v) ∧ lv_recoveries v = al_recoveries l ∧
  is_some (lv_pending v) = al_pending l ∧ is_some (lv_terminal v) = al_closed l ∧
  ContinuationPolicy.continuation_policy_id p = Ok (lv_policy v).

Lemma represents_iff p l s : represents p l s ↔ represents_view p l (view s) ∧ ledger_ok s.
Proof.
  split; [intros [A B C D E F G H I]; exact (conj (conj A (conj B (conj C (conj D (conj E (conj F (conj G H))))))) I)|].
  intros [(? & ? & ? & ? & ? & ? & ? & ?) ?]. by constructor.
Qed.

Lemma sealed_represents p l t s : represents_view p l (view t) → sealed t s → represents p l s.
Proof.
  intros Hv [seal Hs]. apply with_lineage_view in Hs as [Hview Hok].
  apply represents_iff. split; [by rewrite Hview|done].
Qed.

Lemma al_requests_represents p l s : represents p l s → al_requests l = cs_lease_requests s.
Proof. intros [Hg Hd _ _ _ _ _ _ Ho]. rewrite (lo_requests _ Ho). unfold al_requests. lia. Qed.

Lemma created_represents p s : created p s → represents p new_ledger s.
Proof.
  intros (rc & live & os & snap & st & pr & t & Hc & Hs). eapply sealed_represents; [|exact Hs].
  unfold create_unsealed in Hc. apply res_bind_Ok in Hc as (i & Hi & Hc).
  do 6 (apply res_bind_Ok in Hc as ([] & _ & Hc)).
  do 7 (apply res_bind_Ok in Hc as (? & _ & Hc)). apply make_ok in Hc as [-> _].
  repeat split; try done; bv_lia || by apply Z.leb_le.
Qed.

(** The inputs that an evaluation validated. *)
Lemma validated_inputs s q p rc pr sc ce bl :
  validate_evaluation_inputs s q p rc pr sc ce bl = Ok tt →
  bv_valid (cq_requested_resources q) ∧ cs_lease_requests s <= cp_max_lease_requests p ∧
  cs_strategy_recoveries s <= cp_max_strategy_recoveries p ∧
  ProgressRecord.validate_bound_claims pr = Ok tt ∧
  (∀ c, sc = Some c → StrategyChangeReceipt.validate_bound_material c = Ok tt).
Proof.
  unfold validate_evaluation_inputs. intros H.
  apply res_bind_Ok in H as ([] & _ & H). apply res_bind_Ok in H as ([] & Hq & H).
  apply res_bind_Ok in H as ([] & _ & H). apply res_bind_Ok in H as ([] & Hpr & H).
  apply res_bind_Ok in H as ([] & _ & H). apply res_bind_Ok in H as ([] & Hsc & H).
  apply res_bind_Ok in H as ([] & _ & H). apply res_bind_Ok in H as ([] & _ & H).
  apply res_bind_Ok in H as ([] & Hp & _).
  unfold ContinuationRequest.check_authority in Hq. do 3 (apply res_bind_Ok in Hq as ([] & _ & Hq)).
  apply res_bind_Ok in Hq as ([] & Hq & _). apply check_valid in Hq.
  unfold ContinuationState.require_policy in Hp. do 2 (apply res_bind_Ok in Hp as ([] & _ & Hp)).
  apply res_bind_Ok in Hp as (? & _ & Hp). do 3 (apply res_bind_Ok in Hp as ([] & _ & Hp)).
  apply res_bind_Ok in Hp as ([] & Hreq%raise_if_Ok%Z.ltb_ge & Hp). apply res_bind_Ok in Hp as ([] & _ & Hp).
  apply res_bind_Ok in Hp as ([] & Hrec%raise_if_Ok%Z.ltb_ge & _).
  split; [done|]. split; [done|]. split; [done|]. split; [done|].
  intros c ->. cbn [check_option] in Hsc. by apply res_bind_Ok in Hsc as ([] & _ & ?).
Qed.

Lemma evaluate_refines p l s q live rc pr sc ce bl authorized r s' :
  represents p l s → evaluate s q live p rc pr sc ce bl authorized = Ok r →
  (if ev_same_object r then s' = ev_next_state r else sealed (ev_next_state r) s') →
  represents p l s' ∨ ∃ ev l', ledger_step p l ev l' ∧ represents p l' s'.
Proof.
  intros Hl He Hs. pose proof (al_requests_represents _ _ _ Hl) as Hreq.
  pose proof (proj1 (represents_iff _ _ _) Hl) as [(Vg & Vd & Vc & Vv & Vr & Vp & Vt & Vi) _].
  apply evaluate_lease_Ok in He as (Hv & lc & admitted & Hlc & Hadm & [(strategy & next & Hgr & Hstr & _ & Hg)|(reason & _ & Hd)]);
    apply validated_inputs in Hv as (Hqv & Hmax & _).
  - apply grant_request_Ok in Hg as (Hsame & g & ri & gi & pi & _ & _ & _ & _ & _ & _ & _ & _ & _ & _ & Hview).
    rewrite Hsame in Hs. destruct Hgr as (Hst & _ & Hz & Hm & (item & Hi & Hle) & Hadd & _).
    apply add_checked_Ok in Hadd as [Hn Hnv]; [|by apply (rp_valid _ _ _ Hl)|done].
    right. eexists (GrantLease (cq_requested_resources q) _), _. split.
    + eapply ledger_grant; try done.
      * rewrite <- (rp_pending _ _ _ Hl). unfold ContinuationState.has_pending_grant. by rewrite (so_pending _ _ _ _ _ _ _ _ _ Hst).
      * rewrite Hreq. apply (so_requests _ _ _ _ _ _ _ _ _ Hst).
      * rewrite (rp_granted _ _ _ Hl), Nat2Z.id in Hi. exact Hi.
      * instantiate (1 := strategy && (is_some lc || negb admitted)). intros [Htrue _]%andb_true_iff.
        rewrite <- (rp_recoveries _ _ _ Hl). by apply Hstr.
    + eapply sealed_represents; [|exact Hs]. rewrite Hview.
      unfold represents_view, granted_view. cbn in Vg, Vd, Vc, Vr, Vt, Vi |- *.
      rewrite length_app, total_app. cbn [length total foldr]. rewrite plus_zero_r, <- Vc, Hn in *.
      repeat split; try done || lia; bv_lia.
  - apply deny_request_Ok in Hd as (d & _ & _ & [[Hsame Hn]|[(Hsame & Hun & _ & Hlt & i & _ & Hview)|(Hsame & Hte & Hc & i & _ & Hview)]]);
      rewrite Hsame in Hs.
    + left. by rewrite Hs, Hn.
    + right. exists (DenyLease reason). eexists. split; [by apply ledger_deny; [lia|]|].
      eapply sealed_represents; [|exact Hs]. rewrite Hview. unfold represents_view, denied_view.
      cbn in Vg, Vd, Vc, Vr, Vt, Vi, Vv, Vp |- *. rewrite length_app. cbn [length].
      split; [done|]. split; [lia|]. done.
    + right. destruct Hs as [seal Hs]. apply with_lineage_view in Hs as [Hvs Hok]. rewrite Hview in Hvs.
      assert (Hterm : cs_terminal_ceiling_receipt_id s' = Some i) by exact (f_equal lv_terminal Hvs).
      assert (Hpend : is_some (lv_pending (view s)) = false).
      { destruct (lo_terminal _ Hok) as [_ Hpe]; [by rewrite Hterm|].
        unfold ContinuationState.has_pending_grant in Hpe.
        assert (He : cs_pending_grant_id s' = lv_pending (view s)) by exact (f_equal lv_pending Hvs). by rewrite <- He. }
      exists CloseLedger. eexists. split.
      * apply ledger_close; [|by rewrite <- Vp|by rewrite <- Vt; cbn; rewrite Hc].
        rewrite Hreq. unfold terminal_exhaustion in Hte. apply orb_true_iff in Hte.
        destruct Hte as [Hte|Hte]; apply andb_true_iff in Hte as [_ Hte]; apply Z.leb_le in Hte; lia.
      * apply represents_iff. split; [|done]. rewrite Hvs. unfold represents_view, closed_view.
        cbn in Vg, Vd, Vc, Vr, Vi, Vv |- *. repeat split; try done; bv_lia.
Qed.

Lemma step_refines p l s s' :
  represents p l s → lease_step p s s' → represents p l s' ∨ ∃ ev l', ledger_step p l ev l' ∧ represents p l' s'.
Proof.
  intros Hl Hs. destruct Hs as [s q live rc pr sc ce bl auth r s' He Hs|s os snap pr st t s' Ho Hs|s g app snap t s' Hc Hs].
  - by eapply evaluate_refines.
  - left. apply observe_view in Ho as [Hv _]. eapply sealed_represents; [|exact Hs]. rewrite Hv.
    by apply represents_iff in Hl as [? _].
  - right. apply commit_view in Hc as (Hv & (i & Hi & _) & _). exists ApplyLease. eexists. split.
    + apply ledger_apply. rewrite <- (rp_pending _ _ _ Hl). unfold ContinuationState.has_pending_grant. by rewrite Hi.
    + eapply sealed_represents; [|exact Hs]. rewrite Hv. destruct Hl as [A B C D E F G H _].
      exact (conj A (conj B (conj C (conj D (conj E (conj eq_refl (conj G H))))))).
Qed.

Lemma run_refines p s s' :
  created p s → rtc (lease_step p) s s' → ∃ evs l, ledger_run p evs l ∧ represents p l s'.
Proof.
  intros Hc Hr. apply created_represents in Hc.
  enough (Hgen : ∀ evs l, ledger_run p evs l → represents p l s → ∃ evs' l', ledger_run p evs' l' ∧ represents p l' s').
  { eapply Hgen; [constructor|done]. }
  clear Hc. induction Hr as [s|s t u Hst _ IH]; intros evs l Hrun Hl; [by eauto|].
  destruct (step_refines _ _ _ _ Hl Hst) as [Ht|(ev & l' & Hstep & Ht)]; [by eauto|].
  eapply IH; [by eapply ledger_next|done].
Qed.
End machine.
