(* ===== verification/LeaseProperties.v ===== *)
(** * The promises of the lease machine, and its runs in a concrete state

    The refinement of the abstract ledger, the bounds it gives every reachable state, exactly when
    a request is granted, and what a request without authority or without remaining leases can
    change. *)

From Stdlib Require Import Ascii String.
From stdpp Require Import base list gmap relations.
From S2P Require Import Prelude PyStr PyNumber Sha256 Canonical CanonicalFacts Fingerprints Records RecordsFacts Kahn Obligations Epistemic Orchestration Budget BudgetFacts Progress Snapshot Receipts ReceiptsFacts Strategy Lease LeaseMachine LeaseExamples LeaseFacts LeaseSpec.

Section equal_records.
Context {N : NativeSeals}.

Lemma opt_val_comparable {A} (f : A → pyval) o :
  (∀ x, comparable (f x) = true) → comparable (opt_val f o) = true.
Proof. destruct o; simpl; auto. Qed.

Lemma strs_val_comparable l : comparable (strs_val l) = true.
Proof. simpl. by induction l. Qed.

(** The records that [finalize] compares are equal to themselves. *)
Lemma state_record_equal (s : ContinuationState) :
  py_equal (ContinuationState.canonical_record_unchecked s) (ContinuationState.canonical_record_unchecked s) = true.
Proof.
  apply py_equal_refl.
  - unfold ContinuationState.canonical_record_unchecked. wf_obj. by rewrite budget_wf, !opt_val_wf.
  - unfold ContinuationState.canonical_record_unchecked, obj. cbn [comparable map forallb fst snd andb].
    by rewrite strs_val_comparable, !opt_val_comparable.
Qed.

Lemma denial_record_equal d v : LeaseDenyReceipt.canonical_record d = Ok v → py_equal v v = true.
Proof.
  unfold LeaseDenyReceipt.canonical_record, with_receipt_id.
  intros (i & _ & (j & _ & [= <-])%res_bind_Ok)%res_bind_Ok. apply py_equal_refl.
  - unfold LeaseDenyReceipt.denial_body. cbn [app]. wf_obj. by rewrite !opt_val_wf.
  - unfold LeaseDenyReceipt.denial_body, obj. cbn [app comparable map forallb fst snd andb].
    by rewrite !opt_val_comparable.
Qed.

(** A denial that is its own evaluation is released as it is. *)
Lemma finalize_denial r d :
  ev_receipt r = Denied d →
  finalize_result r (ev_next_state r) (ev_receipt r) =
  let* _ := receipt_record (Denied d) in Ok {| cd_next_state := ev_next_state r; cd_receipt := Denied d |}.
Proof.
  intros Hd. unfold finalize_result. rewrite Hd, state_record_equal. cbn [same_kind negb raise_if res_bind receipt_record].
  destruct (LeaseDenyReceipt.canonical_record d) as [v|e] eqn:Hv; [|done]. cbn [res_bind].
  by rewrite (denial_record_equal _ _ Hv).
Qed.
End equal_records.

Section properties.
Context {N : NativeSeals}.
Implicit Types s t : ContinuationState.

(** C5.  Every run of the lease machine is a run of the abstract ledger: whatever requests,
    observations and commits follow the creation of a state, its counters, total, pending grant
    and closure are those of a ledger that only grants from the schedule, denies, applies and
    closes. *)
Theorem lease_machine_refines_ledger p s s' :
  created p s → rtc (lease_step p) s s' → ∃ evs l, ledger_run p evs l ∧ represents p l s'.
Proof. apply run_refines. Qed.

(** C6.  In every reachable state the ledger balances (each recorded decision is one request, one
    tick and one distinct receipt) and stays within the policy: at most the scheduled number of
    leases, at most the admitted requests and recoveries, and granted resources that fit the
    schedule up to the last grant, carry no mutations and leave the total ceiling unbroken. *)
Theorem lease_run_within_policy p s s' :
  policy_ok p → created p s → rtc (lease_step p) s s' →
  cs_lease_requests s' = cs_leases_granted s' + cs_leases_denied s' ∧
  cs_continuation_logical_tick s' = cs_lease_requests s' ∧
  Z.of_nat (length (cs_decision_receipt_ids s')) = cs_lease_requests s' ∧ NoDup (cs_decision_receipt_ids s') ∧
  cs_lease_requests s' <= cp_max_lease_requests p ∧
  cs_leases_granted s' <= ContinuationPolicy.max_leases p ∧
  cs_strategy_recoveries s' <= cp_max_strategy_recoveries p ∧
  bv_le (cs_cumulative_granted s') (total (take (Z.to_nat (cs_leases_granted s')) (cp_lease_schedule p))) ∧
  bv_le (plus (cp_initial_budget p) (cs_cumulative_granted s')) (cp_total_ceiling p).
Proof.
  intros Hp Hc Hr. destruct (run_refines _ _ _ Hc Hr) as (evs & l & Hrun & Hl).
  assert (Hw : ledger_within p l) by (eapply ledger_run_within; [destruct Hp; lia..|exact Hrun]).
  destruct (ledger_total _ _ Hp Hw) as (Ht & Hts & Hn). pose proof (rp_ok _ _ _ Hl) as Ho.
  pose proof (al_requests_represents _ _ _ Hl) as Hq. destruct Hl as [Hg Hd Hcum _ Hrec _ _ _ _].
  destruct Hw as [Hwq _ _ Hwr _ _]. rewrite Hg, Nat2Z.id, Hcum.
  repeat split; try (destruct Ho; congruence || lia || done); try done; try lia;
    try (rewrite (po_ceiling _ Hp)); destruct Ht, Hts; simpl; lia.
Qed.

(** C7.  An evaluation that returns has granted the request exactly when it is the supervisor's
    authorized request about the current state, with an admitted strategy change or fresh progress
    and resources within the schedule and the capacity.  A grant carries the requested resources
    and the new total, a denial neither grants nor consumes anything. *)
Theorem evaluate_grants_exactly s q live p rc pr sc ce bl authorized r :
  evaluate s q live p rc pr sc ce bl authorized = Ok r →
  ∃ lc, CycleEvidence.from_snapshot live = Ok lc ∧
  match ev_receipt r with
  | Granted g =>
      (∃ next, grantable s q live p pr sc ce lc bl authorized next ∧ lg_cumulative_granted g = next ∧
         cs_cumulative_granted (ev_next_state r) = next) ∧
      lg_lease_index g = cs_leases_granted s + 1 ∧ lg_granted_resources g = cq_requested_resources q ∧
      lg_total_ceiling g = cp_total_ceiling p ∧
      ContinuationRequest.continuation_request_id q = Ok (lg_continuation_request_id g) ∧
      ContinuationState.continuation_state_id s = Ok (lg_prior_continuation_state_id g) ∧
      LeaseGrantReceipt.lease_grant_id g = Ok (default [] (cs_pending_grant_id (ev_next_state r)))
  | Denied d =>
      (∀ next, ¬ grantable s q live p pr sc ce lc bl authorized next) ∧
      cs_cumulative_granted (ev_next_state r) = cs_cumulative_granted s ∧
      cs_leases_granted (ev_next_state r) = cs_leases_granted s ∧
      cs_last_consumed_progress_id (ev_next_state r) = cs_last_consumed_progress_id s ∧
      cs_pending_grant_id (ev_next_state r) = cs_pending_grant_id s
  end.
Proof.
  intros (_ & lc & adm & Hlc & _ & [(str & next & Hg & _ & _ & H)|(reason & Hn & H)])%evaluate_lease_Ok;
    exists lc; (split; [done|]).
  - apply grant_request_Ok in H as (_ & g & ri & gi & pi & -> & _ & Hgi & _ & Hq & Hs & Hi & Hr & Hc & Ht & Hv).
    pose proof (f_equal lv_cumulative Hv) as Hvc. pose proof (f_equal lv_pending Hv) as Hvp. cbn in Hvc, Hvp.
    split; [by exists next|]. rewrite Hi, (so_index _ _ _ _ _ _ _ _ _ (proj1 Hg)), Hvp. done.
  - apply deny_request_Ok in H as (d & -> & _ & [[_ ->]|[(_ & _ & _ & _ & i & _ & Hv)|(_ & _ & _ & i & _ & Hv)]]);
      [done|split; [done|]..].
    all: exact (conj (f_equal lv_cumulative Hv) (conj (f_equal lv_granted Hv)
                  (conj (f_equal lv_consumed Hv) (f_equal lv_pending Hv)))).
Qed.

(** A request without a native seal is answered by an unrecorded denial: whatever it asks
    for, [evaluate_continuation] returns the state it was given, and the assertion that guards
    this path never fails. *)
Theorem unsealed_request_changes_nothing native s q live p rc pr sc ce bl r :
  cq_native_request_seal q = None →
  evaluate s q live p rc pr sc ce bl false = Ok r →
  ∃ d, ev_receipt r = Denied d ∧ ld_denial_reason d = UNAUTHORIZED_REQUESTER ∧
    ld_decision_logical_tick d = cs_continuation_logical_tick s ∧
    evaluate_continuation native s q live p rc pr sc ce bl =
      let* _ := receipt_record (Denied d) in Ok {| cd_next_state := s; cd_receipt := Denied d |}.
Proof.
  intros Hq He. pose proof He as Hu. apply evaluate_unauthorized in Hu as (Hsame & Hn & d & Hd & Hreason & Ht); [|by right].
  exists d. repeat (split; [done|]). unfold evaluate_continuation, ContinuationRequest.native_request_authority.
  rewrite Hq. cbn [res_bind]. rewrite He. cbn [res_bind]. unfold ev_granted. rewrite Hd, Hsame.
  cbn [orb negb raise_if res_bind]. rewrite <- Hd, (finalize_denial _ _ Hd), Hn. by rewrite Hd.
Qed.

(** C19.  When the requests or the scheduled leases are used up, every evaluation that returns is
    a denial that grants nothing.  A state without requests left records one closing receipt at
    most; once it is closed every evaluation returns the state itself. *)
Theorem exhausted_only_denies s q live p rc pr sc ce bl authorized r :
  cp_max_lease_requests p <= cs_lease_requests s ∨ ContinuationPolicy.max_leases p <= cs_leases_granted s →
  evaluate s q live p rc pr sc ce bl authorized = Ok r →
  (∃ d, ev_receipt r = Denied d) ∧
  cs_cumulative_granted (ev_next_state r) = cs_cumulative_granted s ∧
  cs_leases_granted (ev_next_state r) = cs_leases_granted s ∧
  (cp_max_lease_requests p <= cs_lease_requests s →
     cs_lease_requests (ev_next_state r) = cs_lease_requests s ∧
     cs_decision_receipt_ids (ev_next_state r) = cs_decision_receipt_ids s ∧
     (is_some (cs_terminal_ceiling_receipt_id s) = true → ev_same_object r = true ∧ ev_next_state r = s)).
Proof.
  intros Hex (_ & lc & adm & _ & _ & [(str & next & [Hg _] & _)|(reason & _ & H)])%evaluate_lease_Ok.
  { pose proof (so_leases _ _ _ _ _ _ _ _ _ Hg). pose proof (so_requests _ _ _ _ _ _ _ _ _ Hg). lia. }
  apply deny_request_Ok in H as (d & Hd & _ & [[Hs ->]|[(_ & _ & _ & Hlt & i & _ & Hv)|(_ & _ & Hc & i & _ & Hv)]]);
    (split; [by exists d|]); [done|..].
  all: split; [exact (f_equal lv_cumulative Hv)|]; split; [exact (f_equal lv_granted Hv)|]; intros Hle.
  - lia.
  - split; [exact (f_equal lv_requests Hv)|]. split; [exact (f_equal lv_receipts Hv)|]. by rewrite Hc.
Qed.

End properties.

(** ** The concrete runtime *)

Lemma lx_policy_ok : policy_ok lx_policy.
Proof.
  constructor; try (split; vm_compute; done); try (vm_compute; done); try (repeat split; vm_compute; done).
  all: apply (bool_decide_unpack _); vm_compute; done.
Qed.

Lemma lx_created : created lx_policy lx_state.
Proof.
  exists lx_receipt, lx_live, lx_after, lx_live, None, (Some lx_progress), lx_unsealed.
  split; [vm_compute; reflexivity|].
  exists (default [] (cs_decision_lineage_capability lx_state)). vm_compute. reflexivity.
Qed.

Lemma lx_evaluated : lx_evaluation lx_supervisor true = Ok lx_grant.
Proof. vm_compute. reflexivity. Qed.

Lemma lx_sealed : sealed (ev_next_state lx_grant) lx_granted_state.
Proof. exists (default [] (cs_decision_lineage_capability lx_granted_state)). vm_compute. reflexivity. Qed.

Lemma lx_run : rtc (lease_step lx_policy) lx_state lx_granted_state.
Proof. apply rtc_once. eapply step_evaluate; [exact lx_evaluated|exact lx_sealed]. Qed.

Lemma lease_machine_refines_ledger_witness :
  ∃ evs l, ledger_run lx_policy evs l ∧ represents lx_policy l lx_granted_state.
Proof. exact (lease_machine_refines_ledger lx_policy lx_state lx_granted_state lx_created lx_run). Defined.

Lemma lease_run_within_policy_witness :
  bv_le (plus (cp_initial_budget lx_policy) (cs_cumulative_granted lx_granted_state)) (cp_total_ceiling lx_policy).
Proof. apply (lease_run_within_policy lx_policy lx_state lx_granted_state lx_policy_ok lx_created lx_run). Defined.

(** The evaluation grants the supervisor's request, so the request is grantable. *)
Lemma evaluate_grants_exactly_witness :
  ∃ lc next, CycleEvidence.from_snapshot lx_live = Ok lc ∧
    grantable lx_state lx_supervisor lx_live lx_policy lx_progress None None lc None true next.
Proof.
  destruct (evaluate_grants_exactly _ _ _ _ _ _ _ _ _ _ _ lx_evaluated) as (lc & Hlc & (next & Hg & _) & _).
  exists lc, next. split; [exact Hlc|exact Hg].
Defined.

(** The only lease of the policy is granted and the request has no seal. *)
Definition lx_refusal : res evaluation_result :=
  evaluate lx_granted_state lx_supervisor lx_live lx_policy lx_receipt lx_progress None None None false.

Lemma lx_refused : is_ok lx_refusal = true.
Proof. vm_compute. reflexivity. Qed.

Lemma unsealed_request_changes_nothing_witness : ∃ d,
  evaluate_continuation (λ _, Raise TypeError) lx_granted_state lx_supervisor lx_live lx_policy lx_receipt lx_progress
    None None None =
  let* _ := receipt_record (Denied d) in Ok {| cd_next_state := lx_granted_state; cd_receipt := Denied d |}.
Proof.
  pose proof lx_refused as He. destruct lx_refusal as [r|e] eqn:Hr; [|discriminate He].
  destruct (unsealed_request_changes_nothing (λ _, Raise TypeError) lx_granted_state lx_supervisor lx_live lx_policy
    lx_receipt lx_progress None None None r eq_refl Hr) as (d & _ & _ & _ & H).
  exists d. exact H.
Defined.

Lemma exhausted_only_denies_witness : ∃ r d, lx_refusal = Ok r ∧ ev_receipt r = Denied d.
Proof.
  pose proof lx_refused as He. destruct lx_refusal as [r|e] eqn:Hr; [|discriminate He].
  destruct (exhausted_only_denies lx_granted_state lx_supervisor lx_live lx_policy lx_receipt lx_progress None None None
    false r) as ((d & Hd) & _); [right; vm_compute; discriminate|exact Hr|].
  exists r, d. split; [reflexivity|exact Hd].
Defined.

