(* ===== verification/Session.v ===== *)
(** * The runtime facade ([runtime.py], lines 1249-1756, and [executor.py])

    [RustRuntimeSession] forwards to one private native session: it builds the canonical command
    envelopes, wraps the operation of a read so that only an exact JSON observation can enter the
    native cache, and validates what comes back.  [InvariantExecutor] is the executor over it.

    The native session is not Python, so it is a class of opaque types and calls.  A call that
    changes the native session returns the session after it. *)

From Stdlib Require Import Ascii String.
From stdpp Require Import base list.
From S2P Require Import Prelude PyStr PyNumber Sha256 Canonical Records Kernel Obligations Epistemic Orchestration Budget Progress Snapshot Receipts Strategy Lease.

Definition RUNTIME_ADMISSION_DOMAIN : pystr := u "ibae.runtime-admission-id.v1".

Class NativeRuntime {N : NativeSeals} := {
  native : Type;
  supervisor_authority : Type;
  (** [NativeRuntimeSession(session_key, limits.., continuation_context)] *)
  native_open : pystr → RuntimeLimits → option pystr → res native;
  native_take_authority : native → res (native * supervisor_authority);
  native_snapshot : native → res pystr;
  native_terminal_cycle_period : native → option Z;
  (** [dispatch(command, callback, grant_seal)]; the callback is given by what calling it does. *)
  native_dispatch : native → pystr → option (res pystr) → option grant_seal →
                    native * res (pystr * option receipt_seal);
  native_epoch_status : native → res pystr;
  native_authority_status : native → supervisor_authority → ContinuationState → res pystr;
  native_check_checkpoint : state_seal → native → ContinuationState → RuntimeSnapshot → res unit
}.

Section session.
Context {N : NativeSeals} {R : NativeRuntime}.

(** ** Observations *)

(** [require_exact_json_form] *)
Fixpoint require_exact_json_form (v : pyval) : res unit :=
  match v with
  | VNone | VBool _ | VInt _ | VFloat _ | VStr _ => Ok tt
  | VList l => res_iter require_exact_json_form l
  | VDict l =>
      let* keys := res_map (λ kv, match kv.1 with VStr k => Ok k | _ => Raise TypeError end) l in
      raise_if (negb (bool_decide (keys = sorted keys))) ValueError ;;*
      res_iter (λ kv, require_exact_json_form kv.2) l
  | VTuple _ | VOther => Raise TypeError
  end.

Definition rejected_text (reason_code : pystr) : res pystr :=
  canonical_json (obj [("reason_code", VStr reason_code); ("status", VStr (u "rejected"))]%string).

(** The exceptions that [invoke] turns into an invalid observation. *)
Definition invalid_observation (e : exn) : bool :=
  match e with TypeError | ValueError | OverflowError => true | _ => false end.

(** [invoke] of [_invocation]; [operation] is what calling the operation does. *)
Definition invocation (operation : res pyval) : res pystr :=
  match operation with
  | Raise _ => rejected_text (u "operation_failed")
  | Ok value =>
      match require_exact_json_form value ;;* CanonicalValue.from_value value with
      | Ok observation => Ok (u "{" ++ quote (u "observation") ++ u ":" ++ cv_text observation ++
                              u "," ++ quote (u "status") ++ u ":" ++ quote (u "ok") ++ u "}")
      | Raise e => if invalid_observation e then rejected_text (u "invalid_observation") else Raise e
      end
  end.

(** ** Transitions *)

Inductive transition_receipt :=
  | CommandReceipt (r : RuntimeReceipt)
  | LeaseApplication (r : RuntimeLeaseApplicationReceipt).

Record RuntimeTransition := {
  tn_observation : pyval;
  tn_receipt : transition_receipt
}.

(** [value[name]] of an arbitrary value. *)
Definition subscript (v : pyval) (name : string) : res pyval :=
  match v with VDict l => dict_item l (u name) | _ => Raise TypeError end.

(** The receipt is a lease application by its own protocol version. *)
Definition is_lease_application (receipt_record : pyval) : bool :=
  match receipt_record with
  | VDict l =>
      match dict_item l (u "protocol_version") with
      | Ok version => is_text version RUNTIME_LEASE_APPLICATION_PROTOCOL_VERSION
      | Raise _ => false
      end
  | _ => false
  end.

(** What [dispatch_canonical] makes of the native outcome. *)
Definition read_outcome (outcome_text : pystr) (native_seal : option receipt_seal) : res RuntimeTransition :=
  let* record := CanonicalRuntimeRecord.make outcome_text in
  let* outcome := CanonicalRuntimeRecord.to_value record in
  let* receipt_record := subscript outcome "receipt" in
  let* receipt :=
    if is_lease_application receipt_record then
      raise_if (Epistemic.is_some native_seal) ValueError ;;*
      let* r := RuntimeLeaseApplicationReceipt.make receipt_record in Ok (LeaseApplication r)
    else
      let* r := make_RuntimeReceipt receipt_record native_seal in Ok (CommandReceipt r) in
  let* observation := subscript outcome "observation" in
  Ok {| tn_observation := observation; tn_receipt := receipt |}.

Definition dispatch_canonical (n : native) (command_json : pystr) (operation : option (res pyval))
    (lease_grant_seal : option grant_seal) : native * res RuntimeTransition :=
  let callback := option_map invocation operation in
  let '(n', outcome) := native_dispatch n command_json callback lease_grant_seal in
  (n', let* r := outcome in read_outcome r.1 r.2).

(** A step that changes nothing unless the checks before it pass. *)
Definition with_checked {A B} (n : native) (checked : res A) (step : A → native * res B) : native * res B :=
  match checked with Ok a => step a | Raise e => (n, Raise e) end.

Definition dispatch_protocol (n : native) (command : pyval) (operation : option (res pyval))
    : native * res RuntimeTransition :=
  with_checked n (CanonicalRuntimeRecord.from_value command)
    (λ envelope, dispatch_canonical n (rr_text envelope) operation None).

(** ** Commands *)

Definition read_command (admission_id : pystr) (arguments : pyval) (dependency_fingerprint tool_name : pystr) : pyval :=
  obj [("admission_id", VStr admission_id); ("arguments", arguments); ("command_type", VStr (u "execute_read"));
       ("dependency_fingerprint", VStr dependency_fingerprint);
       ("protocol_version", VStr RUNTIME_PROTOCOL_VERSION); ("tool_name", VStr tool_name)]%string.

(** The envelope of a read, with the checks of [execute_read_transition]. *)
Definition read_envelope (tool_name : pystr) (arguments : pyval) (dependency_fingerprint : pystr)
    (admission_id : option pystr) : res pyval :=
  raise_if (negb (nonempty tool_name)) ValueError ;;*
  raise_if (negb (nonempty dependency_fingerprint)) ValueError ;;*
  let* canonical := CanonicalValue.from_value arguments in
  let* canonical_arguments := CanonicalValue.to_value canonical in
  let* admission_id :=
    match admission_id with
    | Some i => Ok i
    | None => domain_fingerprint RUNTIME_ADMISSION_DOMAIN
                (obj [("arguments", canonical_arguments); ("dependency_fingerprint", VStr dependency_fingerprint);
                      ("tool_name", VStr tool_name)]%string)
    end in
  require_fingerprint admission_id ;;*
  Ok (read_command admission_id canonical_arguments dependency_fingerprint tool_name).

Definition execute_read_transition (n : native) (tool_name : pystr) (arguments : pyval)
    (dependency_fingerprint : pystr) (operation : res pyval) (admission_id : option pystr)
    : native * res RuntimeTransition :=
  with_checked n (read_envelope tool_name arguments dependency_fingerprint admission_id)
    (λ command, dispatch_protocol n command (Some operation)).

(** [transition.receipt.status == "rejected"] *)
Definition transition_rejected (t : RuntimeTransition) : res bool :=
  let* status := match tn_receipt t with
                 | CommandReceipt r => receipt_item r "status"
                 | LeaseApplication r => RuntimeLeaseApplicationReceipt.item r "status"
                 end in
  Ok (is_text status (u "rejected")).

(** Raising on a rejected transition; [RuntimeRejected] and [RuntimeLeaseRejected] are [RuntimeError]s. *)
Definition accepted_observation (t : RuntimeTransition) : res pyval :=
  let* rejected := transition_rejected t in
  raise_if rejected RuntimeError ;;*
  Ok (tn_observation t).

Definition session_execute_read (n : native) (tool_name : pystr) (arguments : pyval)
    (dependency_fingerprint : pystr) (operation : res pyval) (admission_id : option pystr) : native * res pyval :=
  let '(n', t) := execute_read_transition n tool_name arguments dependency_fingerprint operation admission_id in
  (n', let* t := t in accepted_observation t).

(** The checks of [execute_admitted_read]: the arguments and the action that may run. *)
Definition admitted_read (decision : AdmissionDecision) (proposal : ActionProposal) (capability : Capability)
    (dependency_fingerprint : pystr) : res (pyval * pystr) :=
  raise_if (negb (bool_decide (ad_status decision = ADMITTED))) ValueError ;;*
  let* proposal_id := ActionProposal.proposal_id proposal in
  raise_if (negb (bool_decide (ad_proposal_id decision = proposal_id))) ValueError ;;*
  raise_if (negb (bool_decide (ap_capability proposal = cap_name capability))) ValueError ;;*
  raise_if (negb (bool_decide (cap_replay_safety capability = CACHEABLE_READ))) ValueError ;;*
  match ad_action_id decision with
  | None => Raise AssertionError
  | Some action_id =>
      let* arguments := ActionProposal.arguments proposal in
      let* semantic_arguments := Capability.normalize_arguments capability arguments in
      let* capability_id := Capability.capability_id capability in
      let* expected_action_id := domain_fingerprint ACTION_ID_DOMAIN
        (obj [("arguments", semantic_arguments); ("capability_id", VStr capability_id);
              ("dependency_state_id", VStr dependency_fingerprint)]%string) in
      raise_if (negb (bool_decide (action_id = expected_action_id))) ValueError ;;*
      Ok (semantic_arguments, action_id)
  end.

Definition execute_admitted_read (n : native) (decision : AdmissionDecision) (proposal : ActionProposal)
    (capability : Capability) (dependency_fingerprint : pystr) (operation : res pyval)
    : native * res RuntimeTransition :=
  with_checked n (admitted_read decision proposal capability dependency_fingerprint)
    (λ r, execute_read_transition n (cap_name capability) r.1 dependency_fingerprint operation (Some r.2)).

(** [snapshot] *)
Definition session_snapshot (n : native) : res RuntimeSnapshot :=
  let* text := native_snapshot n in
  let* canonical := CanonicalRuntimeRecord.make text in
  let* value := CanonicalRuntimeRecord.to_value canonical in
  RuntimeSnapshot.from_record value.

Definition retry_command (n : native) (admission_id : option pystr) : res pyval :=
  let* admission_id :=
    match admission_id with
    | Some i => Ok i
    | None =>
        let* snapshot := session_snapshot n in
        domain_fingerprint RUNTIME_ADMISSION_DOMAIN
          (obj [("command_type", VStr (u "record_retry")); ("session_id", VStr (rs_session_id snapshot))]%string)
    end in
  require_fingerprint admission_id ;;*
  Ok (obj [("admission_id", VStr admission_id); ("command_type", VStr (u "record_retry"));
           ("protocol_version", VStr RUNTIME_PROTOCOL_VERSION)]%string).

Definition record_retry_transition (n : native) (admission_id : option pystr) : native * res RuntimeTransition :=
  with_checked n (retry_command n admission_id) (λ command, dispatch_protocol n command None).

Definition session_record_retry (n : native) (admission_id : option pystr) : native * res unit :=
  let '(n', t) := record_retry_transition n admission_id in
  (n', let* t := t in let* rejected := transition_rejected t in raise_if rejected RuntimeError).

(** ** Leases *)

Definition apply_lease_envelope (grant : LeaseGrantReceipt) : res (pystr * option grant_seal) :=
  let* record := LeaseGrantReceipt.canonical_record grant in
  let* envelope := CanonicalRuntimeRecord.from_value
    (obj [("command_type", VStr (u "apply_lease")); ("grant_receipt", record);
          ("protocol_version", VStr RUNTIME_PROTOCOL_VERSION)]%string) in
  let* seal := LeaseGrantReceipt.native_source_seal grant in
  Ok (rr_text envelope, seal).

Definition apply_lease_transition (n : native) (grant : LeaseGrantReceipt) : native * res RuntimeTransition :=
  with_checked n (apply_lease_envelope grant) (λ r, dispatch_canonical n r.1 None r.2).

Definition apply_lease (n : native) (grant : LeaseGrantReceipt) : native * res RuntimeLeaseApplicationReceipt :=
  let '(n', t) := apply_lease_transition n grant in
  (n', let* t := t in
       match tn_receipt t with
       | CommandReceipt _ => Raise ValueError
       | LeaseApplication r =>
           let* rejected := transition_rejected t in
           raise_if rejected RuntimeError ;;*
           Ok r
       end).

(** ** Construction *)

(** [RustRuntimeSession(session_key, limits)] without a continuation policy. *)
Definition open_session (session_key : pystr) (limits : option RuntimeLimits) : res native :=
  raise_if (negb (nonempty session_key)) ValueError ;;*
  native_open session_key (match limits with Some l => l | None => RuntimeLimits.default end) None.

(** The limits of a policy's base budget. *)
Definition policy_limits (policy : ContinuationPolicy) : res RuntimeLimits :=
  let base := cp_initial_budget policy in
  RuntimeLimits.make (VInt (bv_request_delta base)) (VInt (bv_execution_delta base))
    (VInt (bv_retry_delta base)) (VInt (bv_history_delta base)).

Definition create_continuation (session_key : pystr) (policy : ContinuationPolicy)
    (policy_receipt : ContinuationPolicyReceipt) (limits : option RuntimeLimits)
    : res (native * supervisor_authority) :=
  raise_if (negb (nonempty session_key)) ValueError ;;*
  let* policy_id := ContinuationPolicy.continuation_policy_id policy in
  raise_if (negb (bool_decide (cr_continuation_policy_id policy_receipt = policy_id))) ValueError ;;*
  let* own := policy_limits policy in
  raise_if (match limits with Some l => negb (bool_decide (l = own)) | None => false end) ValueError ;;*
  let* policy_record := ContinuationPolicy.canonical_record policy in
  let* receipt_record := ContinuationPolicyReceipt.canonical_record policy_receipt in
  let* context := canonical_json
    (obj [("continuation_policy", policy_record); ("continuation_policy_receipt", receipt_record)]%string) in
  let* n := native_open session_key own (Some context) in
  native_take_authority n.

(** ** Status *)

(** [_validate_continuation_checkpoint_snapshot]: a lineage without a seal is not trusted. *)
Definition validate_checkpoint_snapshot (n : native) (lineage : option state_seal) (state : ContinuationState)
    (snapshot : RuntimeSnapshot) : res unit :=
  match lineage with
  | None => Raise TypeError
  | Some seal => native_check_checkpoint seal n state snapshot
  end.

Definition continuation_authority_status (n : native) (authority : option supervisor_authority)
    (state : ContinuationState) : res pyval :=
  let* lineage := ContinuationState.native_lineage_seal state in
  let* snapshot := session_snapshot n in
  validate_checkpoint_snapshot n lineage state snapshot ;;*
  let* canonical :=
    match authority with
    | None => native_epoch_status n
    | Some a => native_authority_status n a state
    end in
  let* record := CanonicalRuntimeRecord.make canonical in
  CanonicalRuntimeRecord.to_value record.

End session.

(** ** The executor over the facade ([executor.py]) *)

Module InvariantExecutor.
Section executor.
Context {N : NativeSeals} {R : NativeRuntime}.

Record InvariantExecutor := {
  ie_limits : BudgetLimits;
  ie_runtime : native;
  ie_last_receipt : option transition_receipt
}.

(** [InvariantExecutor(limits)] with limits that were validated. *)
Definition make (limits : BudgetLimits) : res InvariantExecutor :=
  let* own := RuntimeLimits.make (VInt (max_requests limits)) (VInt (max_executions limits))
                (VInt (max_retries limits)) (VInt (max_history limits)) in
  let* n := open_session (u "invariant-executor") (Some own) in
  Ok {| ie_limits := limits; ie_runtime := n; ie_last_receipt := None |}.

Definition with_transition (x : InvariantExecutor) (n : native) (t : res RuntimeTransition) : InvariantExecutor :=
  {| ie_limits := ie_limits x; ie_runtime := n;
     ie_last_receipt := match t with Ok t => Some (tn_receipt t) | Raise _ => ie_last_receipt x end |}.

Definition state (x : InvariantExecutor) : res ExecutionState :=
  let* s := session_snapshot (ie_runtime x) in
  Ok {| requests := rs_requests s; executions := rs_executions s; cache_hits := rs_cache_hits s;
        retries := rs_retries s; history := rs_history s |}.

(** [transition.receipt.rejection_reason] *)
Definition reason_of (t : RuntimeTransition) : res pyval :=
  match tn_receipt t with
  | CommandReceipt r => rejection_reason r
  | LeaseApplication r => RuntimeLeaseApplicationReceipt.item r "reason_code"
  end.

Definition execute_read (x : InvariantExecutor) (tool_name : pystr) (arguments : pyval)
    (dependency_fingerprint : pystr) (operation : res pyval) : InvariantExecutor * res pyval :=
  let '(n, t) := execute_read_transition (ie_runtime x) tool_name arguments dependency_fingerprint operation None in
  (with_transition x n t,
   let* t := t in
   let* rejected := transition_rejected t in
   if rejected then
     let* reason := reason_of t in
     raise_if (is_str_in reason [u "IBAE-RT-REJECT-REQUEST-BUDGET"; u "IBAE-RT-REJECT-EXECUTION-BUDGET"]) BudgetExceeded ;;*
     raise_if (is_text reason (u "IBAE-RT-REJECT-INVALID-OBSERVATION")) ValueError ;;*
     Raise RuntimeError
   else Ok (tn_observation t)).

Definition record_retry (x : InvariantExecutor) : InvariantExecutor * res unit :=
  let '(n, t) := record_retry_transition (ie_runtime x) None in
  (with_transition x n t,
   let* t := t in
   let* rejected := transition_rejected t in
   if rejected then
     let* reason := reason_of t in
     raise_if (is_text reason (u "IBAE-RT-REJECT-RETRY-BUDGET")) BudgetExceeded ;;*
     Raise RuntimeError
   else Ok tt).

Definition terminal_cycle_period (x : InvariantExecutor) : option Z := native_terminal_cycle_period (ie_runtime x).

Definition assert_no_terminal_cycle (x : InvariantExecutor) : res unit :=
  raise_if (Epistemic.is_some (terminal_cycle_period x)) CycleDetected.

Definition metrics (x : InvariantExecutor) : res pyval :=
  let* s := state x in
  Ok (obj [("cache_hits", VInt (cache_hits s)); ("executions", VInt (executions s));
           ("requests", VInt (requests s)); ("retries", VInt (retries s))]%string).

End executor.
End InvariantExecutor.
