(* ===== verification/JsonFields.v ===== *)
(** * Fields of JSON values by name

    What [record[name]] returns of a JSON value that was read back from its canonical text. *)

From Stdlib Require Import Ascii String.
From stdpp Require Import base list.
From S2P Require Import Prelude PyStr PyNumber Canonical CanonicalFacts Records RecordsFacts Budget CanonFields Session.

(** ** JSON values that are read back *)

Lemma canon_idem_json v : json_form v = true → canon (canon v) = canon v.
Proof.
  intros Hv. destruct (json_form_text v Hv) as (t & Ht & _ & Hl).
  destruct (json_form_text (canon v) (json_form_canon v Hv)) as (t' & Ht' & _ & Hl').
  rewrite canonical_json_canon_eq in Ht'. congruence.
Qed.

Lemma json_form_comparable v : json_form v = true → comparable v = true.
Proof.
  induction v as [|b|z|f|s|l IH|l IH|l IH|] using pyval_nested_ind; intros Hs; try done;
    cbn [json_form comparable] in *; try rewrite Forall_forall in IH.
  - by destruct f.
  - apply forallb_elem. intros x Hx. apply (IH x Hx). by eapply forallb_elem.
  - bool_inv. apply forallb_elem. intros [k w] Hx. destruct (IH _ Hx) as [_ IHw].
    match goal with H : forallb _ l = true |- _ => apply (proj1 (forallb_elem _ _) H) in Hx end.
    cbn [fst snd] in *. bool_inv. destruct k; try done. auto.
Qed.

Lemma json_form_eq v : json_form v = true → py_equal v v = true.
Proof. intros H. apply py_equal_refl; [by apply json_form_wf|by apply json_form_comparable]. Qed.

Lemma subscript_json v name w : json_form v = true → subscript v name = Ok w → json_form w = true.
Proof. destruct v; try done. intros H. by apply json_form_item. Qed.

Lemma subscript_canon v name :
  json_form v = true → subscript (canon v) name = (let* w := subscript v name in Ok (canon w)).
Proof. destruct v; try done. intros [H _]%json_form_dict. rewrite canon_dict. by apply dict_item_canon. Qed.

Lemma subscript_canon_Ok v name w :
  json_form v = true → subscript v name = Ok w → subscript (canon v) name = Ok (canon w) ∧ json_form w = true.
Proof. intros Hv Hw. rewrite subscript_canon, Hw by done. split; [done|by eapply subscript_json]. Qed.
