(* ===== verification/Evidence.v ===== *)
(** * Checkpoints and evidence of a continuation ([continuation.py], lines 2486-2565 and 3872-4610)

    The compact projection of a continuation state, the structural checkpoint and its resumption,
    the evidence receipt over the progress history, the observation of a watchdog and the partial
    receipt.  The native check of a checkpoint's snapshot is the argument [native_snapshot_check];
    the exact-type tests of the constructors are fixed by the types here. *)

From Stdlib Require Import Ascii String.
From stdpp Require Import base list gmap.
From S2P Require Import Prelude PyStr Canonical Records Kahn Obligations Epistemic Orchestration Budget Progress Snapshot Receipts Strategy Lease LeaseMachine.

Definition CHECKPOINT_PROTOCOL_VERSION : pystr := u "IBAE-CONTINUATION-CHECKPOINT-V1".
Definition PARTIAL_CONTINUATION_VERSION : pystr := u "IBAE-CONTINUATION-PARTIAL-V1".
Definition WATCHDOG_OBSERVATION_VERSION : pystr := u "IBAE-WATCHDOG-OBSERVATION-V1".
Definition CHECKPOINT_ID_DOMAIN : pystr := u "ibae.continuation-checkpoint-id.v1".
Definition CONTINUATION_EVIDENCE_RECEIPT_DOMAIN : pystr := u "ibae.continuation-evidence-receipt-id.v1".
Definition PARTIAL_CONTINUATION_ID_DOMAIN : pystr := u "ibae.continuation-partial-id.v1".
Definition WATCHDOG_OBSERVATION_ID_DOMAIN : pystr := u "ibae.watchdog-observation-id.v1".
Definition MAX_CONTINUATION_EVIDENCE_BYTES : Z := 4096.

Inductive ContinuationPartialReason :=
  | LEASE_CEILING_EXHAUSTED | NO_PROGRESS | PARTIAL_TERMINAL_CYCLE | PARTIAL_RECOVERY_EXHAUSTED | WATCHDOG_EXPIRED.

#[export] Instance ContinuationPartialReason_eq_dec : EqDecision ContinuationPartialReason.
Proof. solve_decision. Defined.

Definition partial_reason_value (r : ContinuationPartialReason) : pystr :=
  match r with
  | LEASE_CEILING_EXHAUSTED => u "lease_ceiling_exhausted"
  | NO_PROGRESS => u "no_progress"
  | PARTIAL_TERMINAL_CYCLE => u "terminal_cycle"
  | PARTIAL_RECOVERY_EXHAUSTED => u "strategy_recovery_exhausted"
  | WATCHDOG_EXPIRED => u "watchdog_expired"
  end.

(** ** The compact projection *)

(** The denials after which no recovery is offered. *)
Definition governance_denials : list LeaseDenialReason :=
  [BLOCKING_GOVERNANCE_VIOLATION; UNAUTHORIZED_REQUESTER; STALE_CONTINUATION_STATE; STALE_GOVERNANCE;
   STALE_ORCHESTRATION_STATE; STALE_RUNTIME_STATE; STALE_PROGRESS; LEASE_INDEX_MISMATCH].

Section projection.
Context {N : NativeSeals}.
Implicit Types s : ContinuationState.

Definition governance_blocked s : bool :=
  match cs_last_denial_reason s with
  | None => false
  | Some r => bool_decide (r ∈ governance_denials)
  end.

(** [strategy_recovery_available] *)
Definition strategy_recovery_available s (policy : ContinuationPolicy) : bool :=
  is_some (cs_current_strategy_material_id s) &&
  (cs_strategy_recoveries s <? cp_max_strategy_recoveries policy).

Definition recovery_actions s (policy : ContinuationPolicy)
    (requests_remaining slots_remaining observations_remaining : Z) : list pystr :=
  if ContinuationState.has_pending_grant s then [u "apply_pending_lease"]
  else if governance_blocked s || (requests_remaining =? 0) || (slots_remaining =? 0) then []
  else
    let recovery (action : pystr) := if strategy_recovery_available s policy then [action] else [] in
    match cs_progress_state s with
    | STALLED =>
        (if 0 <? observations_remaining then [u "provide_objective_progress"] else []) ++
        recovery (u "propose_material_strategy_change")
    | CYCLE_BLOCKED => recovery (u "propose_cycle_breaking_strategy")
    | STRATEGY_CHANGE_REJECTED => recovery (u "provide_material_semantic_difference")
    | _ => []
    end.

Definition material_strategy_change_admissible s (policy : ContinuationPolicy)
    (requests_remaining slots_remaining : Z) : bool :=
  negb (governance_blocked s) && (0 <? requests_remaining) && (0 <? slots_remaining) &&
  negb (ContinuationState.has_pending_grant s) && strategy_recovery_available s policy &&
  negb (bool_decide (cs_progress_state s ∈ [COMPLETE; LEASE_EXHAUSTED])).

Definition compact_projection s (policy : ContinuationPolicy) : res pyval :=
  ContinuationState.require_policy s policy ;;*
  let requests_remaining := cp_max_lease_requests policy - cs_lease_requests s in
  let* slots_remaining := ContinuationState.leases_remaining s policy in
  let observations_remaining := cp_max_lease_requests policy + 1 - cs_progress_event_count s in
  let* state_id := ContinuationState.continuation_state_id s in
  let* capacity := ContinuationState.remaining_capacity s policy in
  Ok (obj [("continuation_policy_id", VStr (cs_continuation_policy_id s));
           ("progress_contract_id", VStr (cs_progress_contract_id s));
           ("continuation_state_id", VStr state_id);
           ("current_progress_classification",
             opt_val (λ c, VStr (classification_value c)) (cs_last_progress_classification s));
           ("current_progress_evidence_id", opt_val VStr (cs_last_progress_id s));
           ("last_denial_reason", opt_val (λ r, VStr (denial_value r)) (cs_last_denial_reason s));
           ("last_lease_decision", VStr (last_decision_value (cs_last_decision s)));
           ("lease_requests_remaining", VInt requests_remaining);
           ("lease_schedule_slots_remaining", VInt slots_remaining);
           ("leases_remaining", VInt (Z.min requests_remaining slots_remaining));
           ("leases_used", VInt (cs_leases_granted s));
           ("legal_recovery_actions",
             strs_val (recovery_actions s policy requests_remaining slots_remaining observations_remaining));
           ("material_strategy_change_admissible",
             VBool (material_strategy_change_admissible s policy requests_remaining slots_remaining));
           ("pending_grant_receipt_id", opt_val VStr (cs_pending_grant_receipt_id s));
           ("progress_observations_remaining", VInt observations_remaining);
           ("progress_state", VStr (progress_state_value (cs_progress_state s)));
           ("remaining_total_continuation_ceiling", BudgetVector.canonical_record capacity);
           ("terminal_ceiling_receipt_id", opt_val VStr (cs_terminal_ceiling_receipt_id s))]%string).

(** ** Partial reasons *)

(** The progress state and the denials that a semantic reason needs. *)
Definition required_state (reason : ContinuationPartialReason) : ProgressState :=
  match reason with PARTIAL_TERMINAL_CYCLE => CYCLE_BLOCKED | _ => STALLED end.

Definition required_denials (reason : ContinuationPartialReason) : list LeaseDenialReason :=
  match reason with
  | NO_PROGRESS => [NO_MEASURABLE_PROGRESS]
  | PARTIAL_TERMINAL_CYCLE => [TERMINAL_CYCLE; STRATEGY_CHANGE_CYCLE_EQUIVALENT]
  | PARTIAL_RECOVERY_EXHAUSTED => [STRATEGY_RECOVERY_EXHAUSTED]
  | _ => []
  end.

Definition denied_for s (reasons : list LeaseDenialReason) : bool :=
  bool_decide (cs_last_decision s = LAST_DENIED) &&
  match cs_last_denial_reason s with Some r => bool_decide (r ∈ reasons) | None => false end.

(** [_validate_semantic_partial_reason] *)
Definition validate_semantic_partial_reason s (reason : ContinuationPartialReason)
    (leases_remaining strategy_recoveries_remaining : Z) : res unit :=
  match reason with
  | WATCHDOG_EXPIRED => Ok tt
  | LEASE_CEILING_EXHAUSTED =>
      raise_if (negb (bool_decide (cs_progress_state s = LEASE_EXHAUSTED))) ValueError ;;*
      raise_if (negb (leases_remaining =? 0)) ValueError ;;*
      raise_if (negb (denied_for s [LEASE_CEILING_REACHED]) &&
                negb (is_some (cs_terminal_ceiling_receipt_id s))) ValueError
  | _ =>
      raise_if (negb (bool_decide (cs_progress_state s = required_state reason))) ValueError ;;*
      raise_if (negb (denied_for s (required_denials reason))) ValueError ;;*
      raise_if (bool_decide (reason = PARTIAL_RECOVERY_EXHAUSTED) &&
                negb (strategy_recoveries_remaining =? 0)) ValueError
  end.

End projection.

(** ** Checkpoints *)

Record ContinuationCheckpoint := {
  cc_task_id : pystr;
  cc_governance_id : pystr;
  cc_governance_receipt_id : pystr;
  cc_orchestration_state_id : pystr;
  cc_runtime_session_id : pystr;
  cc_runtime_state_id : pystr;
  cc_continuation_policy_id : pystr;
  cc_continuation_policy_receipt_id : pystr;
  cc_progress_contract_id : pystr;
  cc_continuation_state_id : pystr;
  cc_progress_id : option pystr;
  cc_strategy_material_id : option pystr;
  cc_leases_used : Z;
  cc_leases_remaining : Z;
  cc_lease_requests : Z;
  cc_leases_denied : Z;
  cc_strategy_recoveries_used : Z;
  cc_strategy_recoveries_remaining : Z;
  cc_cumulative_granted : BudgetVector;
  cc_remaining_capacity : BudgetVector;
  cc_compact_evidence_receipt_id : option pystr;
  cc_relevant_receipt_id : option pystr;
  cc_orchestration_logical_tick : Z;
  cc_runtime_logical_tick : Z;
  cc_continuation_logical_tick : Z;
  cc_checkpoint_status : ProgressState;
  cc_partial_reason : option ContinuationPartialReason
}.

Module ContinuationCheckpoint.
Section checkpoint.
Context {N : NativeSeals}.

(** The live native session's own check of the seal, the state and the snapshot. *)
Variable native_snapshot_check : option state_seal → ContinuationState → RuntimeSnapshot → res unit.

(** The supplied context is the one that the state is bound to. *)
Definition check_context (state : ContinuationState) (policy : ContinuationPolicy)
    (orchestration_state : OrchestrationState) (runtime_snapshot : RuntimeSnapshot) : res unit :=
  ContinuationState.require_policy state policy ;;*
  let* seal := ContinuationState.native_lineage_seal state in
  native_snapshot_check seal state runtime_snapshot ;;*
  let* state_id := OrchestrationState.state_id orchestration_state in
  raise_if (negb (bool_decide (state_id = cs_orchestration_state_id state))) ValueError ;;*
  raise_if (negb (bool_decide (rs_session_id runtime_snapshot = cs_runtime_session_id state)) ||
            negb (bool_decide (rs_state_id runtime_snapshot = cs_runtime_state_id state))) ValueError ;;*
  match rs_continuation runtime_snapshot with
  | None => Raise ValueError
  | Some native => raise_if (negb (native_matches_ledger native state)) ValueError
  end ;;*
  check_applied_limits runtime_snapshot policy state.

Definition check_progress (state : ContinuationState) (progress : ProgressRecord) : res unit :=
  require_all
    [Ok (bool_decide (pr_task_id progress = cs_task_id state));
     Ok (bool_decide (pr_governance_id progress = cs_governance_id state));
     is_result (cs_progress_contract_id state) (ProgressMeasureContract.contract_id (pr_contract progress));
     Ok (bool_decide (pr_current_orchestration_state_id progress = cs_orchestration_state_id state));
     let* i := ProgressRecord.progress_id progress in Ok (bool_decide (cs_last_progress_id state = Some i))]
    ValueError.

Definition check_strategy (state : ContinuationState) (strategy : StrategyMaterialization) : res unit :=
  let* i := StrategyMaterialization.strategy_material_id strategy in
  raise_if (negb (bool_decide (cs_current_strategy_material_id state = Some i))) ValueError.

(** The terminal ceiling receipt, when there is one, is the relevant receipt of a ceiling partial. *)
Definition binds_terminal (state : ContinuationState) (reason : option ContinuationPartialReason)
    (receipt_id : option pystr) : bool :=
  negb (bool_decide (reason = Some LEASE_CEILING_EXHAUSTED) && is_some (cs_terminal_ceiling_receipt_id state)) ||
  bool_decide (receipt_id = cs_terminal_ceiling_receipt_id state).

(** [__init__] *)
Definition make (state : ContinuationState) (policy : ContinuationPolicy) (orchestration_state : OrchestrationState)
    (runtime_snapshot : RuntimeSnapshot) (progress : option ProgressRecord)
    (strategy : option StrategyMaterialization) (compact_evidence_receipt_id relevant_receipt_id : option pystr)
    (checkpoint_status : option ProgressState) (partial_reason : option ContinuationPartialReason)
    : res ContinuationCheckpoint :=
  check_context state policy orchestration_state runtime_snapshot ;;*
  check_option (check_progress state) progress ;;*
  check_option (check_strategy state) strategy ;;*
  check_option require_fingerprint compact_evidence_receipt_id ;;*
  check_option require_fingerprint relevant_receipt_id ;;*
  let status := default (cs_progress_state state) checkpoint_status in
  raise_if (negb (bool_decide (status = cs_progress_state state))) ValueError ;;*
  raise_if (bool_decide (status = COMPLETE) && is_some partial_reason) ValueError ;;*
  raise_if (negb (binds_terminal state partial_reason relevant_receipt_id)) ValueError ;;*
  let* slots := ContinuationState.leases_remaining state policy in
  let leases_remaining := Z.min (cp_max_lease_requests policy - cs_lease_requests state) slots in
  let recoveries_remaining := cp_max_strategy_recoveries policy - cs_strategy_recoveries state in
  check_option (λ reason, validate_semantic_partial_reason state reason leases_remaining recoveries_remaining)
    partial_reason ;;*
  let* state_id := ContinuationState.continuation_state_id state in
  let* progress_id := res_option ProgressRecord.progress_id progress in
  let* material_id := res_option StrategyMaterialization.strategy_material_id strategy in
  let* capacity := ContinuationState.remaining_capacity state policy in
  Ok {|
    cc_task_id := cs_task_id state; cc_governance_id := cs_governance_id state;
    cc_governance_receipt_id := cs_governance_receipt_id state;
    cc_orchestration_state_id := cs_orchestration_state_id state;
    cc_runtime_session_id := cs_runtime_session_id state; cc_runtime_state_id := cs_runtime_state_id state;
    cc_continuation_policy_id := cs_continuation_policy_id state;
    cc_continuation_policy_receipt_id := cs_continuation_policy_receipt_id state;
    cc_progress_contract_id := cs_progress_contract_id state; cc_continuation_state_id := state_id;
    cc_progress_id := match progress_id with None => cs_last_progress_id state | Some i => Some i end;
    cc_strategy_material_id :=
      match material_id with None => cs_current_strategy_material_id state | Some i => Some i end;
    cc_leases_used := cs_leases_granted state; cc_leases_remaining := leases_remaining;
    cc_lease_requests := cs_lease_requests state; cc_leases_denied := cs_leases_denied state;
    cc_strategy_recoveries_used := cs_strategy_recoveries state;
    cc_strategy_recoveries_remaining := recoveries_remaining;
    cc_cumulative_granted := cs_cumulative_granted state; cc_remaining_capacity := capacity;
    cc_compact_evidence_receipt_id := compact_evidence_receipt_id;
    cc_relevant_receipt_id := relevant_receipt_id;
    cc_orchestration_logical_tick := os_logical_tick orchestration_state;
    cc_runtime_logical_tick := rs_logical_tick runtime_snapshot;
    cc_continuation_logical_tick := cs_continuation_logical_tick state;
    cc_checkpoint_status := status; cc_partial_reason := partial_reason |}.

Definition canonical_record (c : ContinuationCheckpoint) : pyval :=
  obj [("checkpoint_status", VStr (progress_state_value (cc_checkpoint_status c)));
       ("compact_evidence_receipt_id", opt_val VStr (cc_compact_evidence_receipt_id c));
       ("continuation_logical_tick", VInt (cc_continuation_logical_tick c));
       ("continuation_policy_id", VStr (cc_continuation_policy_id c));
       ("continuation_policy_receipt_id", VStr (cc_continuation_policy_receipt_id c));
       ("progress_contract_id", VStr (cc_progress_contract_id c));
       ("continuation_state_id", VStr (cc_continuation_state_id c));
       ("cumulative_granted", BudgetVector.canonical_record (cc_cumulative_granted c));
       ("governance_id", VStr (cc_governance_id c));
       ("governance_receipt_id", VStr (cc_governance_receipt_id c));
       ("lease_requests", VInt (cc_lease_requests c));
       ("leases_denied", VInt (cc_leases_denied c));
       ("leases_remaining", VInt (cc_leases_remaining c));
       ("leases_used", VInt (cc_leases_used c));
       ("strategy_recoveries_remaining", VInt (cc_strategy_recoveries_remaining c));
       ("strategy_recoveries_used", VInt (cc_strategy_recoveries_used c));
       ("orchestration_logical_tick", VInt (cc_orchestration_logical_tick c));
       ("orchestration_state_id", VStr (cc_orchestration_state_id c));
       ("partial_reason", opt_val (λ r, VStr (partial_reason_value r)) (cc_partial_reason c));
       ("progress_id", opt_val VStr (cc_progress_id c));
       ("protocol_version", VStr CHECKPOINT_PROTOCOL_VERSION);
       ("relevant_receipt_id", opt_val VStr (cc_relevant_receipt_id c));
       ("remaining_capacity", BudgetVector.canonical_record (cc_remaining_capacity c));
       ("runtime_logical_tick", VInt (cc_runtime_logical_tick c));
       ("runtime_session_id", VStr (cc_runtime_session_id c));
       ("runtime_state_id", VStr (cc_runtime_state_id c));
       ("strategy_material_id", opt_val VStr (cc_strategy_material_id c));
       ("task_id", VStr (cc_task_id c));
       ("trust_scope", VStr (u "structural-in-process-lineage-only"))]%string.

Definition checkpoint_id (c : ContinuationCheckpoint) : res pystr :=
  domain_fingerprint CHECKPOINT_ID_DOMAIN (canonical_record c).

(** [resume_continuation_checkpoint] *)
Definition resume (checkpoint : ContinuationCheckpoint) (live_state : ContinuationState)
    (policy : ContinuationPolicy) (orchestration_state : OrchestrationState) (runtime_snapshot : RuntimeSnapshot)
    (progress : option ProgressRecord) (strategy : option StrategyMaterialization) : res ContinuationState :=
  ContinuationState.require_policy live_state policy ;;*
  let* expected := make live_state policy orchestration_state runtime_snapshot progress strategy
    (cc_compact_evidence_receipt_id checkpoint) (cc_relevant_receipt_id checkpoint)
    (Some (cc_checkpoint_status checkpoint)) (cc_partial_reason checkpoint) in
  raise_if (negb (py_equal (canonical_record expected) (canonical_record checkpoint))) ValueError ;;*
  let* expected_id := checkpoint_id expected in
  let* i := checkpoint_id checkpoint in
  raise_if (negb (bool_decide (expected_id = i))) ValueError ;;*
  Ok live_state.

End checkpoint.
End ContinuationCheckpoint.

(** ** Evidence receipts *)

Record ContinuationEvidenceReceipt := {
  cv_task_id : pystr;
  cv_governance_id : pystr;
  cv_continuation_policy_id : pystr;
  cv_progress_contract_id : pystr;
  cv_continuation_state_id : pystr;
  cv_progress_events : Z;
  cv_leases_requested : Z;
  cv_leases_granted : Z;
  cv_leases_denied : Z;
  cv_final_lease_index : Z;
  cv_continuation_status : ProgressState;
  cv_progress_aggregate_id : pystr;
  cv_decision_aggregate_id : pystr;
  cv_final_progress_id : option pystr;
  cv_final_decision_receipt_id : option pystr;
  cv_compact_execution_evidence_receipt_id : option pystr
}.

Module ContinuationEvidenceReceipt.

(** [_body] *)
Definition body (e : ContinuationEvidenceReceipt) : list (string * pyval) :=
  [("authority_layer", VStr (u "evidence"));
   ("compact_execution_evidence_receipt_id", opt_val VStr (cv_compact_execution_evidence_receipt_id e));
   ("continuation_policy_id", VStr (cv_continuation_policy_id e));
   ("progress_contract_id", VStr (cv_progress_contract_id e));
   ("continuation_state_id", VStr (cv_continuation_state_id e));
   ("continuation_status", VStr (progress_state_value (cv_continuation_status e)));
   ("decision_aggregate_id", VStr (cv_decision_aggregate_id e));
   ("final_decision_receipt_id", opt_val VStr (cv_final_decision_receipt_id e));
   ("final_lease_index", VInt (cv_final_lease_index e));
   ("final_progress_id", opt_val VStr (cv_final_progress_id e));
   ("governance_id", VStr (cv_governance_id e));
   ("leases_denied", VInt (cv_leases_denied e));
   ("leases_granted", VInt (cv_leases_granted e));
   ("leases_requested", VInt (cv_leases_requested e));
   ("progress_aggregate_id", VStr (cv_progress_aggregate_id e));
   ("progress_events", VInt (cv_progress_events e));
   ("protocol_version", VStr CONTINUATION_EVIDENCE_VERSION);
   ("status", VStr (u "reported"));
   ("task_id", VStr (cv_task_id e))]%string.

Definition canonical_record (e : ContinuationEvidenceReceipt) : res pyval :=
  with_receipt_id CONTINUATION_EVIDENCE_RECEIPT_DOMAIN (body e).

Definition receipt_id (e : ContinuationEvidenceReceipt) : res pystr := receipt_id_of (canonical_record e).

(** The compact byte bound on the encoded record. *)
Definition check_size (e : ContinuationEvidenceReceipt) : res unit :=
  let* record := canonical_record e in
  let* text := canonical_json record in
  let* encoded := utf8 text in
  raise_if (MAX_CONTINUATION_EVIDENCE_BYTES <? Z.of_nat (length encoded)) ValueError.

Section evidence.
Context {N : NativeSeals}.

Definition check_record (state : ContinuationState) (record : ProgressRecord) : res unit :=
  require_all
    [Ok (bool_decide (pr_task_id record = cs_task_id state));
     Ok (bool_decide (pr_governance_id record = cs_governance_id state));
     is_result (cs_progress_contract_id state) (ProgressMeasureContract.contract_id (pr_contract record))] ValueError.

(** The history ends at the state's last progress, or there is neither. *)
Definition check_endpoint (state : ContinuationState) (records : list ProgressRecord) : res unit :=
  match cs_last_progress_id state, last records with
  | None, None => Ok tt
  | None, Some _ | Some _, None => Raise ValueError
  | Some i, Some final =>
      let* j := ProgressRecord.progress_id final in raise_if (negb (bool_decide (j = i))) ValueError
  end.

(** Each record starts where the one before it ended. *)
Fixpoint contiguous (records : list ProgressRecord) : bool :=
  match records with
  | prior :: (current :: _) as rest =>
      bool_decide (pr_current_orchestration_state_id prior = pr_prior_orchestration_state_id current) &&
      contiguous rest
  | _ => true
  end.

(** The checks of [__init__] on the whole history; its aggregate. *)
Definition check_history (state : ContinuationState) (records : list ProgressRecord) : res pystr :=
  res_iter (check_record state) records ;;*
  check_endpoint state records ;;*
  raise_if (negb (contiguous records)) ValueError ;;*
  raise_if (match last records with
            | None => false
            | Some final =>
                negb (bool_decide (pr_current_orchestration_state_id final = cs_orchestration_state_id state))
            end) ValueError ;;*
  raise_if (negb (Z.of_nat (length records) =? cs_progress_event_count state)) ValueError ;;*
  let* aggregate := progress_aggregate records in
  raise_if (negb (bool_decide (aggregate = cs_progress_aggregate_id state))) ValueError ;;*
  Ok aggregate.

(** [__init__] *)
Definition make (state : ContinuationState) (policy : ContinuationPolicy) (progress_records : list ProgressRecord)
    (compact_execution_evidence_receipt_id : option pystr) : res ContinuationEvidenceReceipt :=
  ContinuationState.require_policy state policy ;;*
  let* records := materialize progress_records (cp_max_lease_requests policy + 1) in
  let* aggregate := check_history state records in
  check_option require_fingerprint compact_execution_evidence_receipt_id ;;*
  let* state_id := ContinuationState.continuation_state_id state in
  let* final_progress_id := res_option ProgressRecord.progress_id (last records) in
  let e := {|
    cv_task_id := cs_task_id state; cv_governance_id := cs_governance_id state;
    cv_continuation_policy_id := cs_continuation_policy_id state;
    cv_progress_contract_id := cs_progress_contract_id state; cv_continuation_state_id := state_id;
    cv_progress_events := Z.of_nat (length records); cv_leases_requested := cs_lease_requests state;
    cv_leases_granted := cs_leases_granted state; cv_leases_denied := cs_leases_denied state;
    cv_final_lease_index := cs_leases_granted state; cv_continuation_status := cs_progress_state state;
    cv_progress_aggregate_id := aggregate; cv_decision_aggregate_id := cs_decision_aggregate_id state;
    cv_final_progress_id := final_progress_id;
    cv_final_decision_receipt_id := last (cs_decision_receipt_ids state);
    cv_compact_execution_evidence_receipt_id := compact_execution_evidence_receipt_id |} in
  check_size e ;;*
  Ok e.

End evidence.
End ContinuationEvidenceReceipt.

(** ** Watchdog observations *)

Record WatchdogObservation := {
  wo_task_id : pystr;
  wo_governance_id : pystr;
  wo_orchestration_state_id : pystr;
  wo_runtime_state_id : pystr;
  wo_continuation_state_id : pystr;
  wo_elapsed_milliseconds : Z;
  wo_lease_exhausted : bool
}.

Module WatchdogObservation.

(** [__post_init__] *)
Definition make (o : WatchdogObservation) : res WatchdogObservation :=
  res_iter require_fingerprint
    [wo_task_id o; wo_governance_id o; wo_orchestration_state_id o; wo_runtime_state_id o;
     wo_continuation_state_id o] ;;*
  require_u64 (wo_elapsed_milliseconds o) ;;*
  Ok o.

(** The elapsed time is not part of the identity. *)
Definition identity_record (o : WatchdogObservation) : pyval :=
  obj [("continuation_state_id", VStr (wo_continuation_state_id o));
       ("governance_id", VStr (wo_governance_id o));
       ("lease_exhausted", VBool (wo_lease_exhausted o));
       ("orchestration_state_id", VStr (wo_orchestration_state_id o));
       ("reason", VStr (partial_reason_value WATCHDOG_EXPIRED));
       ("runtime_state_id", VStr (wo_runtime_state_id o));
       ("task_id", VStr (wo_task_id o))]%string.

Definition observation_id (o : WatchdogObservation) : res pystr :=
  domain_fingerprint WATCHDOG_OBSERVATION_ID_DOMAIN (identity_record o).

Definition canonical_record (o : WatchdogObservation) : res pyval :=
  let* i := observation_id o in
  Ok (obj [("continuation_state_id", VStr (wo_continuation_state_id o));
           ("correctness_authority", VBool false);
           ("elapsed_milliseconds", VInt (wo_elapsed_milliseconds o));
           ("governance_id", VStr (wo_governance_id o));
           ("lease_exhausted", VBool (wo_lease_exhausted o));
           ("observation_id", VStr i);
           ("orchestration_state_id", VStr (wo_orchestration_state_id o));
           ("protocol_version", VStr WATCHDOG_OBSERVATION_VERSION);
           ("reason", VStr (partial_reason_value WATCHDOG_EXPIRED));
           ("runtime_state_id", VStr (wo_runtime_state_id o));
           ("task_complete", VBool false);
           ("task_id", VStr (wo_task_id o))]%string).

End WatchdogObservation.

(** ** Partial receipts *)

Record ContinuationPartialReceipt := {
  pt_task_id : pystr;
  pt_governance_id : pystr;
  pt_orchestration_state_id : pystr;
  pt_runtime_state_id : pystr;
  pt_continuation_state_id : pystr;
  pt_progress_id : option pystr;
  pt_decision_aggregate_id : pystr;
  pt_checkpoint_id : pystr;
  pt_compact_evidence_receipt_id : option pystr;
  pt_execution_receipt_id : option pystr;
  pt_watchdog_observation_id : option pystr;
  pt_reason : ContinuationPartialReason
}.

Module ContinuationPartialReceipt.
Section partial.
Context {N : NativeSeals}.

(** A ceiling partial still binds the terminal receipt of the state. *)
Definition check_terminal (state : ContinuationState) (checkpoint : ContinuationCheckpoint)
    (reason : ContinuationPartialReason) : res unit :=
  match reason, cs_terminal_ceiling_receipt_id state with
  | LEASE_CEILING_EXHAUSTED, Some terminal =>
      match cc_relevant_receipt_id checkpoint with
      | None => Raise TypeError
      | Some receipt =>
          require_fingerprint terminal ;;*
          require_fingerprint receipt ;;*
          raise_if (negb (bool_decide (receipt = terminal))) ValueError
      end
  | _, _ => Ok tt
  end.

(** A supplied receipt id is the one that the checkpoint binds. *)
Definition check_supplied (supplied bound : option pystr) : res unit :=
  check_option (λ i, require_fingerprint i ;;* raise_if (negb (bool_decide (bound = Some i))) ValueError) supplied.

Definition check_watchdog (state : ContinuationState) (checkpoint : ContinuationCheckpoint)
    (reason : ContinuationPartialReason) (watchdog_observation : option WatchdogObservation) : res unit :=
  match reason, watchdog_observation with
  | WATCHDOG_EXPIRED, None => Raise ValueError
  | WATCHDOG_EXPIRED, Some w =>
      let* state_id := ContinuationState.continuation_state_id state in
      raise_if (negb (bool_decide (wo_continuation_state_id w = state_id)) ||
                negb (bool_decide (wo_task_id w = cs_task_id state)) ||
                negb (bool_decide (wo_governance_id w = cs_governance_id state)) ||
                negb (bool_decide (wo_orchestration_state_id w = cs_orchestration_state_id state)) ||
                negb (bool_decide (wo_runtime_state_id w = cs_runtime_state_id state))) ValueError ;;*
      raise_if (negb (Bool.eqb (wo_lease_exhausted w) (cc_leases_remaining checkpoint =? 0))) ValueError
  | _, Some _ => Raise ValueError
  | _, None => Ok tt
  end.

(** [__init__] *)
Definition make (state : ContinuationState) (checkpoint : ContinuationCheckpoint)
    (reason : ContinuationPartialReason) (compact_evidence_receipt_id execution_receipt_id : option pystr)
    (watchdog_observation : option WatchdogObservation) : res ContinuationPartialReceipt :=
  let* state_id := ContinuationState.continuation_state_id state in
  raise_if (negb (bool_decide (cc_continuation_state_id checkpoint = state_id))) ValueError ;;*
  raise_if (negb (bool_decide (cc_partial_reason checkpoint = Some reason))) ValueError ;;*
  raise_if (bool_decide (cs_progress_state state = COMPLETE)) ValueError ;;*
  check_terminal state checkpoint reason ;;*
  validate_semantic_partial_reason state reason (cc_leases_remaining checkpoint)
    (cc_strategy_recoveries_remaining checkpoint) ;;*
  check_supplied compact_evidence_receipt_id (cc_compact_evidence_receipt_id checkpoint) ;;*
  check_supplied execution_receipt_id (cc_relevant_receipt_id checkpoint) ;;*
  check_watchdog state checkpoint reason watchdog_observation ;;*
  let* checkpoint_id := ContinuationCheckpoint.checkpoint_id checkpoint in
  let* watchdog_id := res_option WatchdogObservation.observation_id watchdog_observation in
  Ok {|
    pt_task_id := cs_task_id state; pt_governance_id := cs_governance_id state;
    pt_orchestration_state_id := cs_orchestration_state_id state;
    pt_runtime_state_id := cs_runtime_state_id state; pt_continuation_state_id := state_id;
    pt_progress_id := cs_last_progress_id state; pt_decision_aggregate_id := cs_decision_aggregate_id state;
    pt_checkpoint_id := checkpoint_id;
    pt_compact_evidence_receipt_id := cc_compact_evidence_receipt_id checkpoint;
    pt_execution_receipt_id := cc_relevant_receipt_id checkpoint;
    pt_watchdog_observation_id := watchdog_id; pt_reason := reason |}.

Definition canonical_record (r : ContinuationPartialReceipt) : pyval :=
  obj [("authority_layer", VStr (u "governance"));
       ("checkpoint_id", VStr (pt_checkpoint_id r));
       ("compact_evidence_receipt_id", opt_val VStr (pt_compact_evidence_receipt_id r));
       ("continuation_state_id", VStr (pt_continuation_state_id r));
       ("decision_aggregate_id", VStr (pt_decision_aggregate_id r));
       ("execution_receipt_id", opt_val VStr (pt_execution_receipt_id r));
       ("governance_id", VStr (pt_governance_id r));
       ("orchestration_state_id", VStr (pt_orchestration_state_id r));
       ("progress_id", opt_val VStr (pt_progress_id r));
       ("protocol_version", VStr PARTIAL_CONTINUATION_VERSION);
       ("reason", VStr (partial_reason_value (pt_reason r)));
       ("runtime_state_id", VStr (pt_runtime_state_id r));
       ("status", VStr (u "partial"));
       ("task_complete", VBool false);
       ("task_id", VStr (pt_task_id r));
       ("watchdog_observation_id", opt_val VStr (pt_watchdog_observation_id r))]%string.

Definition partial_id (r : ContinuationPartialReceipt) : res pystr :=
  domain_fingerprint PARTIAL_CONTINUATION_ID_DOMAIN (canonical_record r).

End partial.
End ContinuationPartialReceipt.
