(* ===== verification/TraceFacts.v ===== *)
(** * The histories behind a continuation state

    The two hash chains of the ledger commit to their items; every state that the lease machine
    reaches carries the chain of the progress records that were observed and of the receipts that
    were decided. *)

From Stdlib Require Import Ascii String.
From stdpp Require Import base list gmap relations.
From S2P Require Import Prelude PyStr PyNumber Sha256 Canonical CanonicalFacts Fingerprints Records RecordsFacts Kahn Obligations Epistemic Orchestration Budget BudgetFacts Progress Snapshot Receipts Strategy Lease LeaseMachine LeaseFacts LeaseSpec Evidence.

(** ** Hash chains *)

Section chains.
Context (advance : pystr → pystr → Z → res pystr).

(** One link per item, with its position. *)
Definition chain (seed : pystr) (ids : list pystr) : res pystr :=
  res_fold (λ prior '(ordinal, i), advance prior i (Z.of_nat ordinal)) seed (imap pair ids).

Lemma chain_snoc seed ids i :
  chain seed (ids ++ [i]) = let* prior := chain seed ids in advance prior i (Z.of_nat (length ids)).
Proof.
  unfold chain. rewrite imap_app. simpl. rewrite Nat.add_0_r, res_fold_app.
  destruct (res_fold _ seed _) as [h|]; simpl; [|done]. by destruct (advance h i _).
Qed.

(** The messages that the links of a chain hash. *)
Context (link : pystr → pystr → Z → res (list Z)).

Definition chain_links (seed : pystr) (ids : list pystr) : list (res (list Z)) :=
  imap (λ n i, let* prior := chain seed (take n ids) in link prior i (Z.of_nat n)) ids.

Lemma chain_links_snoc seed ids i :
  chain_links seed (ids ++ [i]) =
  chain_links seed ids ++ [let* prior := chain seed ids in link prior i (Z.of_nat (length ids))].
Proof.
  unfold chain_links. rewrite imap_app. cbn [imap]. rewrite Nat.add_0_r, take_app_length. f_equal.
  apply imap_ext. intros n x Hn%lookup_lt_Some. by rewrite take_app_le by lia.
Qed.

(** A link determines its prior and its item; a seed is never a link. *)
Hypothesis advance_inj : ∀ p1 p2 i1 i2 n1 n2 h,
  advance p1 i1 n1 = Ok h → advance p2 i2 n2 = Ok h → (p1 = p2 ∧ i1 = i2) ∨ collide (link p1 i1 n1) (link p2 i2 n2).
Context (seeds : pystr → res (list Z) → Prop).
Hypothesis seed_fresh : ∀ p i n h m, advance p i n = Ok h → seeds h m → collide (link p i n) m.

(** A chain commits to its seed and to its items, in order. *)
Lemma chain_binds seed1 seed2 m1 m2 ids1 ids2 h :
  seeds seed1 m1 → seeds seed2 m2 → chain seed1 ids1 = Ok h → chain seed2 ids2 = Ok h →
  (seed1 = seed2 ∧ ids1 = ids2) ∨
  collision_among ((m1 :: chain_links seed1 ids1) ++ m2 :: chain_links seed2 ids2).
Proof.
  intros Hs1 Hs2. revert ids2 h. induction ids1 as [|i1 ids1 IH] using rev_ind; intros ids2 h;
    destruct ids2 as [|i2 ids2 _] using rev_ind; rewrite ?chain_snoc, ?chain_links_snoc.
  - intros [= ->] [= ->]. by left.
  - intros [= ->] (p & -> & Hl)%res_bind_Ok. right. eexists _, m1.
    split; [|split; [|by eapply seed_fresh]]; set_solver.
  - intros (p & -> & Hl)%res_bind_Ok [= ->]. right. eexists _, m2.
    split; [|split; [|by eapply seed_fresh]]; set_solver.
  - intros (p1 & Hc1 & Hl1)%res_bind_Ok (p2 & Hc2 & Hl2)%res_bind_Ok. rewrite Hc1, Hc2. cbn [res_bind].
    destruct (advance_inj _ _ _ _ _ _ _ Hl1 Hl2) as [[-> ->]|Hcol].
    + destruct (IH _ _ Hc1 Hc2) as [[-> ->]|Hcol]; [by left|right]. eapply collision_among_incl, Hcol. set_solver.
    + right. eexists _, _. split; [|split; [|exact Hcol]]; set_solver.
Qed.
End chains.

(** Two literals with the same fingerprint. *)
Lemma fingerprint_objs d kvs1 kvs2 h :
  domain_fingerprint d (obj kvs1) = Ok h → domain_fingerprint d (obj kvs2) = Ok h →
  dict_wf (obj kvs1) = true → dict_wf (obj kvs2) = true →
  canon (obj kvs1) = canon (obj kvs2) ∨ collide (domain_message d (obj kvs1)) (domain_message d (obj kvs2)).
Proof. intros H1 H2 W1 W2. destruct (domain_fingerprint_inj _ _ _ _ _ H1 H2 W1 W2) as [[_ ?]|]; auto. Qed.

(** What the links and the seeds of the two chains hash. *)
Definition decision_message (prior receipt_id : pystr) (ordinal : Z) : res (list Z) :=
  domain_message CONTINUATION_DECISION_AGGREGATE_DOMAIN (decision_link_record prior receipt_id ordinal).
Definition progress_message (prior progress_id : pystr) (ordinal : Z) : res (list Z) :=
  domain_message CONTINUATION_EVIDENCE_PROGRESS_AGGREGATE_DOMAIN (progress_link_record prior progress_id ordinal).
Definition decision_seed_message (t g p : pystr) : res (list Z) :=
  domain_message CONTINUATION_DECISION_AGGREGATE_DOMAIN (decision_seed_record t g p).
Definition progress_seed_message : res (list Z) :=
  domain_message CONTINUATION_EVIDENCE_PROGRESS_AGGREGATE_DOMAIN progress_seed_record.

Lemma decision_inj p1 p2 i1 i2 n1 n2 h :
  advance_decision_aggregate p1 i1 n1 = Ok h → advance_decision_aggregate p2 i2 n2 = Ok h →
  (p1 = p2 ∧ i1 = i2) ∨ collide (decision_message p1 i1 n1) (decision_message p2 i2 n2).
Proof.
  unfold advance_decision_aggregate. intros H1 H2.
  do 3 (apply res_bind_Ok in H1 as ([] & _ & H1)). do 3 (apply res_bind_Ok in H2 as ([] & _ & H2)).
  destruct (fingerprint_objs _ _ _ _ H1 H2) as [E|]; [by wf_obj..| |by right]. left.
  obj_field_eq E "prior"%string. obj_field_eq E "receipt_id"%string. cbn [canon] in *. split; congruence.
Qed.

Lemma progress_inj p1 p2 i1 i2 n1 n2 h :
  advance_progress_aggregate p1 i1 n1 = Ok h → advance_progress_aggregate p2 i2 n2 = Ok h →
  (p1 = p2 ∧ i1 = i2) ∨ collide (progress_message p1 i1 n1) (progress_message p2 i2 n2).
Proof.
  unfold advance_progress_aggregate. intros H1 H2.
  do 3 (apply res_bind_Ok in H1 as ([] & _ & H1)). do 3 (apply res_bind_Ok in H2 as ([] & _ & H2)).
  destruct (fingerprint_objs _ _ _ _ H1 H2) as [E|]; [by wf_obj..| |by right]. left.
  obj_field_eq E "prior"%string. obj_field_eq E "progress_id"%string. cbn [canon] in *. split; congruence.
Qed.

(** A seed has another [item_type] than a link. *)
Definition decision_seed (h : pystr) (m : res (list Z)) : Prop :=
  ∃ t g p, initial_decision_aggregate t g p = Ok h ∧ m = decision_seed_message t g p.
Definition progress_seed (h : pystr) (m : res (list Z)) : Prop :=
  initial_progress_aggregate = Ok h ∧ m = progress_seed_message.

Lemma decision_seed_fresh p i n h m :
  advance_decision_aggregate p i n = Ok h → decision_seed h m → collide (decision_message p i n) m.
Proof.
  unfold advance_decision_aggregate. intros H (t & g & q & Hs & ->).
  do 3 (apply res_bind_Ok in H as ([] & _ & H)).
  destruct (fingerprint_objs _ _ _ _ H Hs) as [E|]; [by wf_obj..| |done].
  obj_field_eq E "item_type"%string. by vm_compute in F.
Qed.

Lemma progress_seed_fresh p i n h m :
  advance_progress_aggregate p i n = Ok h → progress_seed h m → collide (progress_message p i n) m.
Proof.
  unfold advance_progress_aggregate. intros H [Hs ->].
  do 3 (apply res_bind_Ok in H as ([] & _ & H)).
  destruct (fingerprint_objs _ _ _ _ H Hs) as [E|]; [by wf_obj..| |done].
  obj_field_eq E "item_type"%string. by vm_compute in F.
Qed.

(** The decisions of a ledger, from the seed of its task. *)
Definition decision_aggregate (task governance policy : pystr) (receipts : list pystr) : res pystr :=
  let* seed := initial_decision_aggregate task governance policy in
  chain advance_decision_aggregate seed receipts.

(** All that a decision aggregate hashes. *)
Definition decision_messages (task governance policy : pystr) (receipts : list pystr) : list (res (list Z)) :=
  decision_seed_message task governance policy ::
  match initial_decision_aggregate task governance policy with
  | Ok seed => chain_links advance_decision_aggregate decision_message seed receipts
  | Raise _ => []
  end.

Lemma decision_aggregate_snoc t g p ids i h h' :
  decision_aggregate t g p ids = Ok h → advance_decision_aggregate h i (Z.of_nat (length ids)) = Ok h' →
  decision_aggregate t g p (ids ++ [i]) = Ok h'.
Proof.
  unfold decision_aggregate. intros (seed & -> & Hc)%res_bind_Ok Ha. cbn [res_bind].
  by rewrite chain_snoc, Hc.
Qed.

Lemma decision_aggregate_binds t1 t2 g1 g2 p1 p2 ids1 ids2 h :
  decision_aggregate t1 g1 p1 ids1 = Ok h → decision_aggregate t2 g2 p2 ids2 = Ok h →
  (t1 = t2 ∧ g1 = g2 ∧ p1 = p2 ∧ ids1 = ids2) ∨
  collision_among (decision_messages t1 g1 p1 ids1 ++ decision_messages t2 g2 p2 ids2).
Proof.
  unfold decision_aggregate, decision_messages. intros (s1 & Hs1 & H1)%res_bind_Ok (s2 & Hs2 & H2)%res_bind_Ok.
  rewrite Hs1, Hs2.
  destruct (chain_binds _ _ decision_inj decision_seed decision_seed_fresh s1 s2
    (decision_seed_message t1 g1 p1) (decision_seed_message t2 g2 p2) ids1 ids2 h) as [[-> ->]|];
    [by repeat eexists|by repeat eexists|done..| |by right].
  destruct (fingerprint_objs _ _ _ _ Hs1 Hs2) as [E|Hcol]; [by wf_obj..|left|right].
  2:{ eexists _, _. split; [|split; [|exact Hcol]]; set_solver. }
  obj_field_eq E "task_id"%string. obj_field_eq E "governance_id"%string.
  obj_field_eq E "continuation_policy_id"%string. cbn [canon] in *. repeat split; congruence.
Qed.

(** The progress aggregate is the chain of the records' identities. *)
Lemma res_map_app_Ok {A B} (f : A → res B) l1 l2 r1 r2 :
  res_map f l1 = Ok r1 → res_map f l2 = Ok r2 → res_map f (l1 ++ l2) = Ok (r1 ++ r2).
Proof. rewrite !res_map_Ok. apply Forall2_app. Qed.

Lemma progress_aggregate_snoc records p :
  progress_aggregate (records ++ [p]) =
  let* prior := progress_aggregate records in
  let* i := ProgressRecord.progress_id p in advance_progress_aggregate prior i (Z.of_nat (length records)).
Proof.
  unfold progress_aggregate. destruct initial_progress_aggregate as [seed|]; [|done]. cbn [res_bind].
  rewrite imap_app. simpl. rewrite Nat.add_0_r, res_fold_app.
  destruct (res_fold _ seed _) as [h|]; simpl; [|done]. destruct (ProgressRecord.progress_id p); simpl; [|done].
  by destruct (advance_progress_aggregate h _ _).
Qed.

Lemma progress_aggregate_chain records h :
  progress_aggregate records = Ok h →
  ∃ seed ids, initial_progress_aggregate = Ok seed ∧ res_map ProgressRecord.progress_id records = Ok ids ∧
    chain advance_progress_aggregate seed ids = Ok h ∧ length ids = length records.
Proof.
  revert h. induction records as [|p records IH] using rev_ind; intros h H.
  - apply res_bind_Ok in H as (seed & Hs & [= ->]). exists h, []. exact (conj Hs (conj eq_refl (conj eq_refl eq_refl))).
  - rewrite progress_aggregate_snoc in H. apply res_bind_Ok in H as (prior & Hp & H).
    apply res_bind_Ok in H as (i & Hi & H). destruct (IH _ Hp) as (seed & ids & Hs & Hm & Hc & Hl).
    exists seed, (ids ++ [i]). split; [exact Hs|]. split.
    { apply res_map_app_Ok; [done|]. simpl. by rewrite Hi. }
    rewrite chain_snoc, Hc, !length_app, Hl. by split; [exact H|].
Qed.

(** All that a progress aggregate hashes. *)
Definition progress_messages (records : list ProgressRecord) : list (res (list Z)) :=
  progress_seed_message ::
  match initial_progress_aggregate, res_map ProgressRecord.progress_id records with
  | Ok seed, Ok ids => chain_links advance_progress_aggregate progress_message seed ids
  | _, _ => []
  end.

Lemma progress_aggregate_binds r1 r2 h :
  progress_aggregate r1 = Ok h → progress_aggregate r2 = Ok h →
  res_map ProgressRecord.progress_id r1 = res_map ProgressRecord.progress_id r2 ∨
  collision_among (progress_messages r1 ++ progress_messages r2).
Proof.
  intros (s1 & ids1 & Hs1 & Hm1 & Hc1 & _)%progress_aggregate_chain (s2 & ids2 & Hs2 & Hm2 & Hc2 & _)%progress_aggregate_chain.
  unfold progress_messages. rewrite Hm1, Hm2. assert (s2 = s1) as -> by congruence. rewrite Hs1.
  destruct (chain_binds _ _ progress_inj progress_seed progress_seed_fresh s1 s1
    progress_seed_message progress_seed_message ids1 ids2 h) as [[_ ->]|]; auto; by split.
Qed.

(** ** What a state records of its history *)

Section trace.
Context {N : NativeSeals}.
Implicit Types s t : ContinuationState.

Record trace_view := {
  tv_task : pystr;
  tv_governance : pystr;
  tv_policy : pystr;
  tv_contract : pystr;
  tv_orchestration : pystr;
  tv_last : option pystr;
  tv_count : Z;
  tv_progress : pystr;
  tv_decisions : pystr;
  tv_receipts : list pystr
}.

Definition trace s : trace_view := {|
  tv_task := cs_task_id s; tv_governance := cs_governance_id s; tv_policy := cs_continuation_policy_id s;
  tv_contract := cs_progress_contract_id s; tv_orchestration := cs_orchestration_state_id s;
  tv_last := cs_last_progress_id s; tv_count := cs_progress_event_count s;
  tv_progress := cs_progress_aggregate_id s; tv_decisions := cs_decision_aggregate_id s;
  tv_receipts := cs_decision_receipt_ids s |}.

(** A record of the task's progress, under its contract. *)
Definition record_bound (v : trace_view) (p : ProgressRecord) : Prop :=
  pr_task_id p = tv_task v ∧ pr_governance_id p = tv_governance v ∧
  ProgressMeasureContract.contract_id (pr_contract p) = Ok (tv_contract v).

(** The last record of a history names the last progress and the orchestration state. *)
Definition ends_at (v : trace_view) (p : ProgressRecord) : Prop :=
  ∃ i, ProgressRecord.progress_id p = Ok i ∧ tv_last v = Some i ∧
    pr_current_orchestration_state_id p = tv_orchestration v.

(** [records] is the progress that the state has seen. *)
Record history_of (records : list ProgressRecord) (v : trace_view) : Prop := {
  hi_bound : Forall (record_bound v) records;
  hi_contiguous : ContinuationEvidenceReceipt.contiguous records = true;
  hi_end : match last records with None => tv_last v = None | Some p => ends_at v p end;
  hi_count : tv_count v = Z.of_nat (length records);
  hi_progress : progress_aggregate records = Ok (tv_progress v);
  hi_decisions : decision_aggregate (tv_task v) (tv_governance v) (tv_policy v) (tv_receipts v) = Ok (tv_decisions v)
}.

(** A decision adds its receipt and leaves the rest. *)
Definition decided_view (v : trace_view) (receipt aggregate : pystr) : trace_view := {|
  tv_task := tv_task v; tv_governance := tv_governance v; tv_policy := tv_policy v; tv_contract := tv_contract v;
  tv_orchestration := tv_orchestration v; tv_last := tv_last v; tv_count := tv_count v;
  tv_progress := tv_progress v; tv_decisions := aggregate; tv_receipts := tv_receipts v ++ [receipt] |}.

Lemma decided_history records v receipt aggregate :
  history_of records v → advance_decision_aggregate (tv_decisions v) receipt (Z.of_nat (length (tv_receipts v))) = Ok aggregate →
  history_of records (decided_view v receipt aggregate).
Proof.
  intros [H1 H2 H3 H4 H5 H6] Ha. constructor; try assumption.
  exact (decision_aggregate_snoc _ _ _ _ _ _ _ H6 Ha).
Qed.

(** The view after a progress record was observed. *)
Definition observed_view (v : trace_view) (p : ProgressRecord) (i aggregate : pystr) : trace_view := {|
  tv_task := tv_task v; tv_governance := tv_governance v; tv_policy := tv_policy v; tv_contract := tv_contract v;
  tv_orchestration := pr_current_orchestration_state_id p; tv_last := Some i; tv_count := tv_count v + 1;
  tv_progress := aggregate; tv_decisions := tv_decisions v; tv_receipts := tv_receipts v |}.

Lemma contiguous_snoc records p :
  ContinuationEvidenceReceipt.contiguous records = true →
  (∀ q, last records = Some q → pr_current_orchestration_state_id q = pr_prior_orchestration_state_id p) →
  ContinuationEvidenceReceipt.contiguous (records ++ [p]) = true.
Proof.
  induction records as [|a [|b records] IH]; intros Hc Hl; [done| |].
  - cbn. rewrite bool_decide_true by (by apply Hl). done.
  - cbn [ContinuationEvidenceReceipt.contiguous app] in *. apply andb_true_iff in Hc as [-> Hc].
    rewrite andb_true_l. apply IH; [exact Hc|]. intros q Hq. by apply Hl.
Qed.

Lemma observed_history records v p i aggregate :
  history_of records v → record_bound v p →
  pr_prior_orchestration_state_id p = tv_orchestration v → ProgressRecord.progress_id p = Ok i →
  advance_progress_aggregate (tv_progress v) i (tv_count v) = Ok aggregate →
  history_of (records ++ [p]) (observed_view v p i aggregate).
Proof.
  intros [H1 H2 H3 H4 H5 H6] Hb Ho Hi Ha. constructor; cbn [tv_count observed_view].
  - apply Forall_app. split; [exact H1|]. by constructor.
  - apply contiguous_snoc; [exact H2|]. intros q Hq. rewrite Hq in H3. destruct H3 as (j & _ & _ & ->). by symmetry.
  - rewrite last_snoc. exists i. exact (conj Hi (conj eq_refl eq_refl)).
  - rewrite length_app, H4. simpl. lia.
  - rewrite progress_aggregate_snoc, H5, Hi. cbn [res_bind]. rewrite <- H4. exact Ha.
  - exact H6.
Qed.

(** ** How each operation moves the trace *)

Lemma with_lineage_trace t seal s :
  ContinuationState.with_native_lineage t seal = Ok s →
  trace s = trace t ∧ ContinuationState.make s = Ok s ∧ ContinuationState.require_decision_lineage s = Ok tt.
Proof.
  unfold ContinuationState.with_native_lineage. intros H.
  apply res_bind_Ok in H as ([] & _ & H). apply res_bind_Ok in H as (text & Ht & H).
  apply res_bind_Ok in H as ([] & Hv & H). pose proof H as Hm. apply make_ok in H as [-> _].
  split; [done|]. split; [exact Hm|]. unfold ContinuationState.require_decision_lineage.
  cbn [cs_decision_lineage_capability]. unfold ContinuationState.decision_lineage_text in *.
  unfold ContinuationState.canonical_record_unchecked in *. cbn in *. rewrite Ht. cbn [res_bind]. exact Hv.
Qed.

Lemma observe_trace s p os snap pr st t :
  observe_continuation_context s p os snap pr st = Ok t →
  ∃ state_id, OrchestrationState.state_id os = Ok state_id ∧
  match pr with
  | None => trace t = trace s
  | Some r => ∃ i aggregate, check_observed_progress s p state_id r = Ok tt ∧ ProgressRecord.progress_id r = Ok i ∧
      advance_progress_aggregate (cs_progress_aggregate_id s) i (cs_progress_event_count s) = Ok aggregate ∧
      trace t = observed_view (trace s) r i aggregate
  end.
Proof.
  unfold observe_continuation_context. intros H.
  do 6 (apply res_bind_Ok in H as ([] & _ & H)).
  apply res_bind_Ok in H as (state_id & Hid & H). apply res_bind_Ok in H as ([] & Hp & H).
  apply res_bind_Ok in H as ([] & _ & H). apply res_bind_Ok in H as (oi & Hi & H).
  apply res_bind_Ok in H as (ag & Ha & H). apply res_bind_Ok in H as (ep & _ & H).
  apply make_ok in H as [-> _]. exists state_id. split; [exact Hid|]. destruct pr as [r|].
  - apply res_bind_Ok in Hi as (i & Hi & [= <-]). exists i, ag. split; [exact Hp|]. split; [exact Hi|].
    split; [exact Ha|]. unfold check_observed_progress in Hp. apply res_bind_Ok in Hp as ([] & Hall & _).
    rewrite require_all_Ok in Hall. forall_inv Hall. rewrite !ok_decide_true in Hall.
    destruct Hall as (_ & _ & _ & _ & Hc & _). unfold trace, observed_view. cbn. by rewrite Hc.
  - injection Hi as <-. injection Ha as <-. apply raise_if_Ok, negb_decide_false in Hp. unfold trace. cbn. by rewrite Hp.
Qed.

Lemma commit_trace s p g app snap t : commit_lease_application s p g app snap = Ok t → trace t = trace s.
Proof.
  unfold commit_lease_application. intros H. do 6 (apply res_bind_Ok in H as ([] & _ & H)).
  by apply make_ok in H as [-> _].
Qed.

Lemma deny_trace s q pr reason p bl r :
  deny_request s q pr reason p bl = Ok r →
  trace (ev_next_state r) = trace s ∨
  ∃ i aggregate, advance_decision_aggregate (cs_decision_aggregate_id s) i (cs_lease_requests s) = Ok aggregate ∧
    trace (ev_next_state r) = decided_view (trace s) i aggregate.
Proof.
  unfold deny_request. intros H. apply res_bind_Ok in H as ([r' d] & Hd & H). cbn [fst snd] in H.
  assert (Hr' : trace (ev_next_state r') = trace s ∨ ∃ i aggregate,
    advance_decision_aggregate (cs_decision_aggregate_id s) i (cs_lease_requests s) = Ok aggregate ∧
    trace (ev_next_state r') = decided_view (trace s) i aggregate).
  { unfold deny_continuation in Hd. apply res_bind_Ok in Hd as ([] & _ & Hd).
    apply res_bind_Ok in Hd as (d' & _ & Hd). destruct (negb _) in Hd; [injection Hd as <- _; by left|].
    apply res_bind_Ok in Hd as (i & _ & Hd). apply res_bind_Ok in Hd as (ag & Ha & Hd).
    apply res_bind_Ok in Hd as (t & Ht & Hd). apply res_bind_Ok in Hd as ([] & _ & Hd). injection Hd as <- _.
    apply make_ok in Ht as [-> _]. right. exists i, ag. by split; [exact Ha|]. }
  destruct (negb _) in H; [by injection H as <-|]. destruct (is_some _) in H; [by injection H as <-|].
  apply res_bind_Ok in H as (i & _ & H). apply res_bind_Ok in H as (t & Ht & H). injection H as <-.
  unfold record_terminal in Ht. apply make_ok in Ht as [-> _]. by left.
Qed.

Lemma grant_trace s q pr p sc cycle admitted strategy next r i :
  grant_request s q pr p sc cycle admitted strategy next = Ok r →
  ProgressRecord.progress_id pr = Ok i → cs_last_progress_id s = Some i →
  ∃ receipt aggregate,
    advance_decision_aggregate (cs_decision_aggregate_id s) receipt (cs_lease_requests s) = Ok aggregate ∧
    trace (ev_next_state r) = decided_view (trace s) receipt aggregate.
Proof.
  unfold grant_request. intros H Hi Hlast.
  apply res_bind_Ok in H as (qi & _ & H). apply res_bind_Ok in H as (si & _ & H).
  apply res_bind_Ok in H as (pi & Hp & H). apply res_bind_Ok in H as (ci & _ & H).
  apply res_bind_Ok in H as (g & _ & H). apply res_bind_Ok in H as (ri & _ & H).
  apply res_bind_Ok in H as (ag & Ha & H). apply res_bind_Ok in H as (ep & _ & H).
  apply res_bind_Ok in H as (gi & _ & H). apply res_bind_Ok in H as (t & Ht & H). injection H as <-.
  apply make_ok in Ht as [-> _]. exists ri, ag. split; [exact Ha|].
  rewrite Hi in Hp. injection Hp as <-. unfold trace, decided_view. cbn. by rewrite Hlast.
Qed.

(** A new state has seen the progress it was created with. *)
Lemma created_history p s :
  created p s → ∃ records, history_of records (trace s) ∧ (length records <= 1)%nat ∧
    cs_progress_contract_id s = cp_progress_contract_id p.
Proof.
  intros (rc & live & os & snap & st & pr & t & Hc & seal & Hs). apply with_lineage_trace in Hs as (Hts & _ & _).
  unfold create_unsealed in Hc. apply res_bind_Ok in Hc as (i & _ & Hc).
  do 5 (apply res_bind_Ok in Hc as ([] & _ & Hc)). apply res_bind_Ok in Hc as ([] & Hpr & Hc).
  apply res_bind_Ok in Hc as (ri & _ & Hc). apply res_bind_Ok in Hc as (sid & Hsid & Hc).
  apply res_bind_Ok in Hc as (seed & Hseed & Hc). apply res_bind_Ok in Hc as (mi & _ & Hc).
  apply res_bind_Ok in Hc as (pi & Hpi & Hc). apply res_bind_Ok in Hc as (ag & Hag & Hc).
  apply res_bind_Ok in Hc as (ep & _ & Hc). apply make_ok in Hc as [-> _].
  assert (Hcontract : cs_progress_contract_id s = cp_progress_contract_id p) by exact (f_equal tv_contract Hts).
  rewrite Hts. assert (Hd : decision_aggregate (cr_task_id rc) (cr_governance_id rc) i [] = Ok seed).
  { unfold decision_aggregate. rewrite Hseed. reflexivity. }
  destruct pr as [r|].
  - cbn [check_option] in Hpr. rewrite require_all_Ok in Hpr. forall_inv Hpr.
    rewrite !ok_decide_true, !is_result_true in Hpr. destruct Hpr as (H1 & H2 & H3 & H4 & _).
    apply res_bind_Ok in Hpi as (j & Hj & [= <-]). exists [r]. split; [|split; [simpl; lia|exact Hcontract]].
    constructor; try assumption; try reflexivity.
    + repeat constructor; assumption.
    + exists j. split; [exact Hj|]. split; [reflexivity|]. cbn. rewrite Hsid in H4. by injection H4.
  - injection Hpi as <-. exists []. split; [|split; [simpl; lia|exact Hcontract]].
    constructor; try assumption; try reflexivity. constructor.
Qed.

(** A step keeps the contract and extends the history by what it observed. *)
Lemma step_history p s s' records :
  ContinuationState.make s = Ok s → lease_step p s s' → history_of records (trace s) →
  ∃ more, history_of (records ++ more) (trace s') ∧ cs_progress_contract_id s' = cs_progress_contract_id s ∧
    (more = [] ∨ length more = 1%nat ∧ cs_progress_event_count s <= cp_max_lease_requests p).
Proof.
  intros Hm Hs Hh. pose proof (proj2 (make_ok _ _ Hm)) as Ho.
  assert (Hsame : ∀ t, trace t = trace s → (t = s' ∨ sealed t s') → ∃ more, history_of (records ++ more) (trace s') ∧
    cs_progress_contract_id s' = cs_progress_contract_id s ∧
    (more = [] ∨ length more = 1%nat ∧ cs_progress_event_count s <= cp_max_lease_requests p)).
  { intros t Ht Hsl. assert (Hts : trace s' = trace s).
    { destruct Hsl as [<- |[seal Hsl]]; [exact Ht|]. apply with_lineage_trace in Hsl as [-> _]. exact Ht. }
    exists []. rewrite app_nil_r, Hts. split; [exact Hh|]. split; [exact (f_equal tv_contract Hts)|by left]. }
  assert (Hdec : ∀ t i ag, advance_decision_aggregate (cs_decision_aggregate_id s) i (cs_lease_requests s) = Ok ag →
    trace t = decided_view (trace s) i ag → (t = s' ∨ sealed t s') → ∃ more, history_of (records ++ more) (trace s') ∧
    cs_progress_contract_id s' = cs_progress_contract_id s ∧
    (more = [] ∨ length more = 1%nat ∧ cs_progress_event_count s <= cp_max_lease_requests p)).
  { intros t i ag Ha Ht Hsl. assert (Hts : trace s' = decided_view (trace s) i ag).
    { destruct Hsl as [<- |[seal Hsl]]; [exact Ht|]. apply with_lineage_trace in Hsl as [-> _]. exact Ht. }
    exists []. rewrite app_nil_r, Hts. split; [|split; [exact (f_equal tv_contract Hts)|by left]].
    apply decided_history; [exact Hh|]. cbn [tv_decisions tv_receipts trace]. rewrite (lo_receipts _ Ho). exact Ha. }
  destruct Hs as [s q live rc pr sc ce bl auth r s' He Hs|s os snap pr st t s' Hob Hs|s g app snap t s' Hc Hs].
  - assert (Hsl : ev_next_state r = s' ∨ sealed (ev_next_state r) s') by (destruct (ev_same_object r); auto).
    apply evaluate_lease_Ok in He as (_ & lc & adm & _ & _ & [(str & next & [Hg _] & _ & _ & H)|(reason & _ & H)]).
    + destruct (so_progress _ _ _ _ _ _ _ _ _ Hg) as (_ & _ & _ & Hi & Hl & _).
      destruct (grant_trace _ _ _ _ _ _ _ _ _ _ _ H Hi Hl) as (ri & ag & Ha & Ht). by eapply Hdec.
    + apply deny_trace in H as [Ht|(i & ag & Ha & Ht)]; [by eapply Hsame|by eapply Hdec].
  - apply observe_trace in Hob as (sid & Hsid & Hob). destruct pr as [r|]; [|by eapply Hsame; [|right]].
    destruct Hob as (i & ag & Hck & Hi & Ha & Ht). destruct Hs as [seal Hs].
    apply with_lineage_trace in Hs as [Hts _]. rewrite Ht in Hts. exists [r].
    unfold check_observed_progress in Hck. apply res_bind_Ok in Hck as ([] & Hall & Hck).
    apply res_bind_Ok in Hck as ([] & _ & Hlt%raise_if_Ok%Z.leb_gt).
    rewrite require_all_Ok in Hall. forall_inv Hall. rewrite !ok_decide_true, is_result_true in Hall.
    destruct Hall as (H1 & H2 & H3 & H4 & H5 & _). rewrite Hts. split; [|split; [exact (f_equal tv_contract Hts)|right; split; [done|lia]]].
    apply observed_history; try assumption. repeat split; assumption.
  - eapply Hsame; [by eapply commit_trace|by right].
Qed.

(** A step returns the state itself or a newly sealed one. *)
Lemma step_same_or_sealed p s s' : lease_step p s s' → s' = s ∨ ∃ t, sealed t s'.
Proof.
  intros [? q live rc pr sc ce bl auth r ? He Hs|? os snap pr st t ? _ Hs|? g app snap t ? _ Hs]; [|by right; exists t..].
  destruct (ev_same_object r) eqn:Er; [left|right; by eexists].
  apply evaluate_lease_Ok in He as (_ & lc & adm & _ & _ & [(str & next & _ & _ & _ & H)|(reason & _ & H)]).
  - apply grant_request_Ok in H as [Hf _]. congruence.
  - apply deny_request_Ok in H as (d & _ & _ & [[_ Hn]|[(Hf & _)|(Hf & _)]]); congruence.
Qed.

(** Every reachable state is constructed, sealed and carries its history. *)
Lemma reachable_history p s s' :
  0 <= cp_max_lease_requests p → created p s → rtc (lease_step p) s s' →
  ContinuationState.make s' = Ok s' ∧ ContinuationState.require_decision_lineage s' = Ok tt ∧
  cs_progress_contract_id s' = cp_progress_contract_id p ∧
  cs_progress_event_count s' <= cp_max_lease_requests p + 1 ∧
  ∃ records, history_of records (trace s').
Proof.
  intros Hp Hc Hr.
  assert (H0 : ContinuationState.make s = Ok s ∧ ContinuationState.require_decision_lineage s = Ok tt ∧
    cs_progress_contract_id s = cp_progress_contract_id p ∧ cs_progress_event_count s <= cp_max_lease_requests p + 1 ∧
    ∃ records, history_of records (trace s)).
  { destruct (created_history _ _ Hc) as (records & Hh & Hlen & Hcon).
    destruct Hc as (rc & live & os & snap & st & pr & t & _ & seal & Hs). apply with_lineage_trace in Hs as (_ & Hm & Hl).
    split; [exact Hm|]. split; [exact Hl|]. split; [exact Hcon|]. split; [|by exists records].
    pose proof (hi_count _ _ Hh) as Hn. cbn in Hn. lia. }
  clear Hc. induction Hr as [s|s t u Hst _ IH]; [exact H0|]. apply IH. clear IH u.
  destruct H0 as (Hm & Hl & Hcon & Hn & records & Hh).
  destruct (step_history _ _ _ _ Hm Hst Hh) as (more & Hh' & Hcon' & Hmore).
  assert (Ht : ContinuationState.make t = Ok t ∧ ContinuationState.require_decision_lineage t = Ok tt).
  { destruct (step_same_or_sealed _ _ _ Hst) as [-> |(x & seal & Hx)]; [exact (conj Hm Hl)|].
    apply with_lineage_trace in Hx as [_ Hx]. exact Hx. }
  destruct Ht as [Hmt Hlt]. split; [exact Hmt|]. split; [exact Hlt|]. split; [congruence|]. split; [|by eexists].
  pose proof (hi_count _ _ Hh) as Hc. pose proof (hi_count _ _ Hh') as Hc'. cbn in Hc, Hc'.
  rewrite length_app in Hc'. destruct Hmore as [-> |[Hlen Hmore]]; simpl in *; lia.
Qed.
End trace.
