(* ===== verification/EvidenceFacts.v ===== *)
(** * Facts about checkpoints and evidence

    Every reachable state can report its evidence within the byte bound; a receipt commits to one
    history; a checkpoint resumes on its own state only; a partial receipt tells the truth about
    what is left; and the compact projection agrees with the lease machine. *)

From Stdlib Require Import Ascii String.
From stdpp Require Import base list gmap relations.
From S2P Require Import Prelude PyStr PyNumber Sha256 Canonical CanonicalFacts Fingerprints Records RecordsFacts Kahn Obligations Epistemic EpistemicFacts Orchestration Admission AdmissionSpec Budget BudgetFacts CanonFields Progress Snapshot Receipts ReceiptsFacts Strategy Lease LeaseMachine LeaseExamples LeaseFacts LeaseSpec LeaseProperties Evidence TraceFacts.

(** ** The size of an evidence record *)

(** A value that fits [n] bytes of the record. *)
Definition fits (n : Z) (v : pyval) : Prop := shape_ok value_limits 1 v = true ∧ json_bytes v <= n.

Lemma serialized_plain s :
  Forall (λ c, 45 <= c <= 122 ∧ c ≠ 92) s →
  zsum (map serialized_width s) = Z.of_nat (length s) ∧ utf8_length s = Z.of_nat (length s).
Proof.
  induction 1 as [|c s Hc _ [IH1 IH2]]; [done|]. rewrite utf8_length_cons, IH2. cbn [map length]. rewrite zsum_cons, IH1.
  assert (Hu : utf8_width c = 1) by (unfold utf8_width; by replace (c <=? 0x7f) with true by lia).
  unfold serialized_width. rewrite Hu. replace (is_short_escape c) with false by (unfold is_short_escape; lia).
  replace (c <=? 0x1f) with false by lia. rewrite andb_false_r. lia.
Qed.

Lemma serialized_hex s :
  Forall (λ c, is_hex c = true) s →
  zsum (map serialized_width s) = Z.of_nat (length s) ∧ utf8_length s = Z.of_nat (length s).
Proof. intros H. apply serialized_plain. eapply Forall_impl; [exact H|]. intros c Hc. unfold is_hex in Hc. lia. Qed.

Lemma fingerprint_fits s : fingerprint_pattern s = true → fits 66 (VStr s).
Proof.
  intros Hf. pose proof (fingerprint_clean _ Hf) as Hn. unfold fingerprint_pattern in Hf. bool_inv.
  destruct (serialized_hex s) as [Hs Hu]; [by apply Forall_forall, forallb_elem|].
  assert (Hl : Z.of_nat (length s) = 64) by lia. rewrite Hl in *. unfold fits. cbn [shape_ok json_bytes].
  unfold string_ok, serialized_length. rewrite Hn, Hu, Hs. split; [reflexivity|lia].
Qed.

Lemma optional_fits o : (∀ i, o = Some i → fingerprint_pattern i = true) → fits 66 (opt_val VStr o).
Proof. intros H. destruct o as [i|]; [by apply fingerprint_fits, H|]. split; [reflexivity|]. by vm_compute. Qed.

Lemma count_fits z : 0 <= z <= 129 → fits 3 (VInt z).
Proof.
  intros Hz. assert (Hall : forallb (λ n, shape_ok value_limits 1 (VInt (Z.of_nat n)) &&
    (json_bytes (VInt (Z.of_nat n)) <=? 3)) (seq 0 130) = true) by (vm_compute; reflexivity).
  rewrite forallb_forall in Hall. specialize (Hall (Z.to_nat z)). rewrite Z2Nat.id in Hall by lia.
  destruct (andb_prop _ _ (Hall ltac:(apply in_seq; lia))) as [H1 H2%Z.leb_le]. by split.
Qed.

Lemma status_fits st : fits 26 (VStr (progress_state_value st)).
Proof. by destruct st; split; vm_compute. Qed.

(** A dict literal of small values is a small record. *)
Lemma obj_fits kvs ns :
  Forall2 (λ kv n, fits n kv.2) kvs ns →
  Z.of_nat (length kvs) <= 1024 → bool_decide (NoDup (obj_keys kvs)) = true →
  forallb string_ok (obj_keys kvs) = true →
  shape_ok value_limits 0 (obj kvs) = true ∧
  json_bytes (obj kvs) <= punctuation kvs + zsum (map (λ k, serialized_length k + 1) (obj_keys kvs)) + zsum ns.
Proof.
  intros Hf Hlen Hnd Hk. split.
  - unfold obj. cbn [shape_ok]. rewrite !andb_true_iff. repeat split.
    + rewrite length_map. by apply Z.leb_le.
    + replace (string_keys _) with (obj_keys kvs); [done|]. clear. unfold obj_keys. induction kvs as [|[k v] l IH]; [done|].
      cbn. by rewrite IH.
    + clear Hlen Hnd. induction Hf as [|[k v] n kvs ns [Hs _] _ IH]; [done|].
      unfold obj_keys in Hk. cbn [map forallb fst snd key_ok] in Hk |- *.
      apply andb_true_iff in Hk as [Hk1 Hk2]. rewrite Hk1, (IH Hk2). cbn [snd] in Hs. change (0 + 1) with 1 in *. by rewrite Hs.
  - unfold obj. cbn [json_bytes]. rewrite map_map.
    replace (punctuation (map _ kvs)) with (punctuation kvs) by (unfold punctuation; by rewrite length_map).
    clear Hlen Hnd Hk. rewrite <- Z.add_assoc. apply Z.add_le_mono_l.
    induction Hf as [|[k v] n kvs ns [_ Hn] _ IH]; [done|]. cbn [map obj_keys fst snd] in *. rewrite !zsum_cons. fold (obj_keys kvs).
    cbn [fst snd] in Hn. lia.
Qed.

Lemma utf8_bytes s b : utf8 s = Ok b → no_surrogate s = true → Z.of_nat (length b) = utf8_length s.
Proof.
  revert b; induction s as [|c s IH]; intros b H Hn; [by injection H as <-|].
  cbn [utf8] in H. apply res_bind_Ok in H as (a & Ha & H). apply res_bind_Ok in H as (b' & Hb & H). injection H as <-.
  cbn [no_surrogate forallb] in Hn. apply andb_true_iff in Hn as [Hc Hn].
  rewrite length_app, Nat2Z.inj_add, (IH _ Hb Hn), utf8_length_cons. f_equal.
  unfold utf8_char, utf8_width, is_surrogate in *. destruct (c <=? 0x7f); [by injection Ha as <-|].
  destruct (c <=? 0x7ff); [by injection Ha as <-|]. destruct (_ && _); [done|].
  destruct (c <=? 0xffff); by injection Ha as <-.
Qed.

(** The fields of a receipt over a constructed state. *)
Record evidence_ok (e : ContinuationEvidenceReceipt) : Prop := {
  eo_ids : Forall (λ i, fingerprint_pattern i = true)
    [cv_task_id e; cv_governance_id e; cv_continuation_policy_id e; cv_progress_contract_id e;
     cv_continuation_state_id e; cv_progress_aggregate_id e; cv_decision_aggregate_id e];
  eo_options : Forall (λ o : option pystr, ∀ i, o = Some i → fingerprint_pattern i = true)
    [cv_final_progress_id e; cv_final_decision_receipt_id e; cv_compact_execution_evidence_receipt_id e];
  eo_counts : Forall (λ z, 0 <= z <= 129)
    [cv_progress_events e; cv_leases_requested e; cv_leases_granted e; cv_leases_denied e; cv_final_lease_index e]
}.

Lemma clean_fields kvs :
  forallb no_surrogate (obj_keys kvs) = true → Forall (λ kv, clean kv.2 = true) kvs → clean (obj kvs) = true.
Proof.
  intros Hk Hv. rewrite clean_obj. induction Hv as [|[k v] kvs Hv _ IH]; [done|].
  unfold obj_keys in *. cbn [map forallb fst snd] in *. apply andb_true_iff in Hk as [-> Hk]. by rewrite Hv, IH.
Qed.

Lemma clean_fingerprint i : fingerprint_pattern i = true → clean (VStr i) = true.
Proof. apply fingerprint_clean. Qed.

Lemma clean_optional o : (∀ i, o = Some i → fingerprint_pattern i = true) → clean (opt_val VStr o) = true.
Proof. intros H. apply clean_opt. intros i Hi. by apply clean_fingerprint, H. Qed.

Lemma clean_status st : clean (VStr (progress_state_value st)) = true.
Proof. by destruct st. Qed.

(** [clean_fields_tac]: each value of a dict literal is clean. *)
Ltac clean_value :=
  lazymatch goal with
  | |- clean (VStr (progress_state_value _)) = true => apply clean_status
  | H : fingerprint_pattern ?i = true |- clean (VStr ?i) = true => exact (clean_fingerprint i H)
  | |- clean (opt_val VStr _) = true => try (apply clean_optional; assumption)
  | |- clean (opt_val _ _) = true => idtac
  | |- clean (strs_val _) = true => idtac
  | _ => vm_compute; reflexivity
  end.
Ltac clean_fields_tac :=
  apply clean_fields; [vm_compute; reflexivity|];
  repeat (apply List.Forall_cons; [cbn [snd]; try clean_value|]);
  try apply List.Forall_nil.

Lemma body_clean e : evidence_ok e → clean (obj (ContinuationEvidenceReceipt.body e)) = true.
Proof.
  intros [Hi Ho _]. rewrite !Forall_cons in Hi. rewrite !Forall_cons in Ho.
  destruct Hi as (H1 & H2 & H3 & H4 & H5 & H6 & H7 & _), Ho as (O1 & O2 & O3 & _).
  unfold ContinuationEvidenceReceipt.body. clean_fields_tac.
Qed.

(** The byte bound never rejects such a receipt. *)
Lemma evidence_size e : evidence_ok e → ContinuationEvidenceReceipt.check_size e = Ok tt.
Proof.
  intros He. pose proof (body_clean _ He) as Hc.
  destruct (domain_fingerprint_total CONTINUATION_EVIDENCE_RECEIPT_DOMAIN _ ltac:(by vm_compute) Hc) as [i Hi].
  pose proof (domain_fingerprint_pattern _ _ _ Hi) as Hip. destruct He as [Hids Ho Hn].
  rewrite !Forall_cons in Hids. rewrite !Forall_cons in Ho. rewrite !Forall_cons in Hn. destruct Hids as (H1 & H2 & H3 & H4 & H5 & H6 & H7 & _).
  destruct Ho as (O1 & O2 & O3 & _), Hn as (N1 & N2 & N3 & N4 & N5 & _).
  destruct (obj_fits (ContinuationEvidenceReceipt.body e ++ [("receipt_id", VStr i)]%string)
    [10; 66; 66; 66; 66; 26; 66; 66; 3; 66; 66; 3; 3; 3; 66; 3; 33; 10; 66; 66]) as [Hs Hb].
  { unfold ContinuationEvidenceReceipt.body. cbn [app].
    repeat (constructor; [cbn [snd]; first [by apply fingerprint_fits | by apply optional_fits | by apply count_fits
      | apply status_fits | by split; vm_compute]|]). constructor. }
  { by vm_compute. } { by vm_compute. } { by vm_compute. }
  destruct (shape_ok_text _ _ _ Hs) as (t & Ht & Hnt & Hlt). destruct (utf8_total t Hnt) as [b Hbt].
  unfold ContinuationEvidenceReceipt.check_size, ContinuationEvidenceReceipt.canonical_record, with_receipt_id.
  rewrite Hi. cbn [res_bind]. unfold canonical_json. rewrite (shape_ok_validate _ _ _ Hs). cbn [res_bind].
  rewrite Ht. cbn [res_bind]. rewrite Hbt. cbn [res_bind]. apply raise_if_Ok, Z.ltb_ge.
  rewrite (utf8_bytes _ _ Hbt Hnt), Hlt. etransitivity; [exact Hb|]. by vm_compute.
Qed.

(** ** The constructed state *)

Section evidence.
Context {N : NativeSeals}.
Implicit Types s t : ContinuationState.

Record state_ids s : Prop := {
  si_ids : Forall (λ i, fingerprint_pattern i = true)
    [cs_task_id s; cs_governance_id s; cs_governance_receipt_id s; cs_continuation_policy_id s;
     cs_continuation_policy_receipt_id s; cs_progress_contract_id s; cs_orchestration_state_id s;
     cs_runtime_session_id s; cs_runtime_state_id s; cs_decision_aggregate_id s; cs_progress_aggregate_id s];
  si_options : Forall (λ o : option pystr, ∀ i, o = Some i → fingerprint_pattern i = true)
    [cs_current_strategy_material_id s; cs_last_progress_id s; cs_last_consumed_progress_id s;
     cs_last_external_progress_endpoint_id s; cs_last_consumed_external_progress_endpoint_id s;
     cs_terminal_ceiling_receipt_id s; cs_pending_grant_id s; cs_pending_grant_receipt_id s];
  si_receipts : Forall (λ i, fingerprint_pattern i = true) (cs_decision_receipt_ids s);
  si_events : 0 <= cs_progress_event_count s
}.

Lemma checked_option o x :
  check_option require_fingerprint o = Ok x → ∀ i, o = Some i → fingerprint_pattern i = true.
Proof. rewrite check_option_Ok. intros H i Hi. by apply require_fingerprint_Ok, H. Qed.

Lemma made_ids s : ContinuationState.make s = Ok s → state_ids s.
Proof.
  unfold ContinuationState.make. intros H.
  apply res_bind_Ok in H as ([] & Hf & H). apply res_bind_Ok in H as ([] & Hu & H).
  apply res_bind_Ok in H as ([] & Ha & H). apply res_bind_Ok in H as ([] & Hp & H).
  apply res_bind_Ok in H as ([] & Hpe & _).
  rewrite res_iter_Ok, !Forall_cons in Hf. rewrite !require_fingerprint_Ok in Hf.
  rewrite res_iter_Ok, !Forall_cons in Hu. rewrite !require_u64_Ok in Hu.
  destruct Hu as (_ & _ & _ & _ & _ & Hev & _). destruct Hf as (F1 & F2 & F3 & F4 & F5 & F6 & F7 & F8 & F9 & F10 & _).
  unfold ContinuationState.check_accounting in Ha. do 2 (apply res_bind_Ok in Ha as ([] & _ & Ha)).
  apply res_bind_Ok in Ha as (rs & Hrs & _). unfold checked_strings in Hrs.
  apply res_bind_Ok in Hrs as (rs' & [-> _]%materialize_Ok & Hrs). apply res_bind_Ok in Hrs as ([] & Hrf & _).
  unfold ContinuationState.check_progress in Hp.
  apply res_bind_Ok in Hp as ([] & O1 & Hp). apply res_bind_Ok in Hp as ([] & O2 & Hp).
  apply res_bind_Ok in Hp as ([] & F11 & Hp). apply res_bind_Ok in Hp as ([] & _ & Hp).
  apply res_bind_Ok in Hp as ([] & O3 & Hp). apply res_bind_Ok in Hp as ([] & O4 & O5).
  unfold ContinuationState.check_pending in Hpe. apply res_bind_Ok in Hpe as ([] & O6 & Hpe).
  apply res_bind_Ok in Hpe as ([] & _ & Hpe). apply res_bind_Ok in Hpe as ([] & O7 & Hpe).
  apply res_bind_Ok in Hpe as ([] & O8 & _). apply require_fingerprint_Ok in F11.
  constructor; [by repeat constructor| | |lia].
  - assert (O6' : ∀ i, cs_terminal_ceiling_receipt_id s = Some i → fingerprint_pattern i = true).
    { intros i Hi. rewrite Hi in O6. apply res_bind_Ok in O6 as ([] & O6 & _). by apply require_fingerprint_Ok. }
    repeat (apply List.Forall_cons; [first [exact O6' | eapply checked_option; eassumption]|]). constructor.
  - apply res_iter_Ok in Hrf. eapply Forall_impl; [exact Hrf|]. intros i. apply require_fingerprint_Ok.
Qed.

Lemma list_clean l : Forall (λ i, fingerprint_pattern i = true) l → clean (strs_val l) = true.
Proof. intros H. apply clean_strs. eapply Forall_impl; [exact H|]. intros i. apply fingerprint_clean. Qed.

Lemma budget_clean b : clean (BudgetVector.canonical_record b) = true.
Proof. unfold BudgetVector.canonical_record, BudgetVector.items. cbn [map fst snd]. clean_fields_tac. Qed.

Lemma value_clean {A} (f : A → pystr) (o : option A) :
  (∀ a, no_surrogate (f a) = true) → clean (opt_val (λ a, VStr (f a)) o) = true.
Proof. intros H. apply clean_opt. intros a _. apply H. Qed.

Lemma state_clean s : state_ids s → clean (ContinuationState.canonical_record_unchecked s) = true.
Proof.
  intros [Hi Ho Hr _]. rewrite !Forall_cons in Hi. rewrite !Forall_cons in Ho.
  destruct Hi as (I1 & I2 & I3 & I4 & I5 & I6 & I7 & I8 & I9 & I10 & I11 & _).
  destruct Ho as (O1 & O2 & O3 & O4 & O5 & O6 & O7 & O8 & _).
  unfold ContinuationState.canonical_record_unchecked. clean_fields_tac.
  - by apply list_clean.
  - by destruct (cs_last_decision s).
  - apply value_clean. by intros [].
  - apply value_clean. by intros [].
Qed.

Lemma state_has_id s :
  state_ids s → ContinuationState.require_decision_lineage s = Ok tt →
  ∃ i, ContinuationState.continuation_state_id s = Ok i ∧ fingerprint_pattern i = true.
Proof.
  intros Hs Hl. destruct (domain_fingerprint_total CONTINUATION_STATE_ID_DOMAIN _ ltac:(by vm_compute) (state_clean _ Hs)) as [i Hi].
  exists i. split; [|by eapply domain_fingerprint_pattern].
  unfold ContinuationState.continuation_state_id, ContinuationState.canonical_record. rewrite Hl. exact Hi.
Qed.

(** ** Reports *)

(** A reachable state passes the policy's own checks. *)
Lemma reachable_policy p s s' :
  policy_ok p → created p s → rtc (lease_step p) s s' → ContinuationState.require_policy s' p = Ok tt.
Proof.
  intros Hp Hc Hr. destruct (run_refines _ _ _ Hc Hr) as (evs & l & Hrun & Hl).
  assert (Hw : ledger_within p l) by (eapply ledger_run_within; [destruct Hp; lia..|exact Hrun]).
  destruct (reachable_history p s s') as (Hm & Hlin & Hcon & Hev & _); [destruct Hp; lia|done..|].
  destruct (ledger_total _ _ Hp Hw) as (_ & _ & Hn). pose proof (al_requests_represents _ _ _ Hl) as Hq.
  pose proof (lw_requests _ _ Hw). pose proof (lw_recoveries _ _ Hw) as Hrec. pose proof (lw_closed _ _ Hw) as Hcl.
  destruct Hl as [Hg _ _ _ Hr' Hpe Hte Hpol _]. unfold ContinuationState.require_policy.
  rewrite Hlin. cbn [res_bind]. unfold ContinuationPolicy.check_authority. rewrite (po_admitted _ Hp), bool_decide_true by done.
  cbn [negb raise_if res_bind]. rewrite Hpol. cbn [res_bind]. rewrite !bool_decide_true by done. cbn [negb raise_if res_bind].
  rewrite !(proj2 (raise_if_Ok _ _ tt)) by (apply Z.ltb_ge; lia). cbn [res_bind]. apply raise_if_Ok.
  destruct (is_some (cs_terminal_ceiling_receipt_id s')); [|done]. destruct (Hcl (eq_sym Hte)) as [Hc1 Hc2].
  rewrite Hpe, Hc2, <- Hq, Hc1, Z.eqb_refl. done.
Qed.

Lemma check_history_ok s records :
  history_of records (trace s) → ContinuationEvidenceReceipt.check_history s records = Ok (cs_progress_aggregate_id s).
Proof.
  intros [H1 H2 H3 H4 H5 _]. unfold ContinuationEvidenceReceipt.check_history.
  rewrite (proj2 (res_iter_Ok _ _ tt)).
  2:{ eapply Forall_impl; [exact H1|]. intros r (A & B & C). apply require_all_Ok.
      repeat constructor; [by apply ok_decide_true..|by apply is_result_true]. }
  cbn [res_bind]. assert (He : ContinuationEvidenceReceipt.check_endpoint s records = Ok tt).
  { unfold ContinuationEvidenceReceipt.check_endpoint. cbn [trace tv_last] in H3. destruct (last records) as [r|].
    - destruct H3 as (i & Hi & Hl & _). cbn [trace tv_last] in Hl. rewrite Hl, Hi. cbn [res_bind].
      by rewrite bool_decide_true.
    - by rewrite H3. }
  rewrite He, H2. cbn [res_bind negb raise_if]. cbn [trace tv_count tv_progress] in H4, H5.
  rewrite H4, Z.eqb_refl, H5. cbn [negb raise_if res_bind]. rewrite bool_decide_true by done.
  destruct (last records) as [r|]; [|done]. destruct H3 as (i & _ & _ & Ho). cbn [trace tv_orchestration] in Ho.
  rewrite Ho, bool_decide_true by done. done.
Qed.

(** C21.  Every reachable state can report: there is a history of progress records that the
    evidence receipt accepts, its byte bound never rejects it, and the receipt carries the counts
    of the ledger, the chain of the observed progress and the chain of the decided receipts. *)
Theorem reachable_state_reports p s s' compact :
  policy_ok p → created p s → rtc (lease_step p) s s' → check_option require_fingerprint compact = Ok tt →
  ∃ records e, ContinuationEvidenceReceipt.make s' p records compact = Ok e ∧
    cv_progress_events e = Z.of_nat (length records) ∧
    cv_leases_requested e = cv_leases_granted e + cv_leases_denied e ∧
    cv_leases_requested e = Z.of_nat (length (cs_decision_receipt_ids s')) ∧
    progress_aggregate records = Ok (cv_progress_aggregate_id e) ∧
    decision_aggregate (cs_task_id s') (cs_governance_id s') (cs_continuation_policy_id s') (cs_decision_receipt_ids s')
      = Ok (cv_decision_aggregate_id e) ∧
    ContinuationState.continuation_state_id s' = Ok (cv_continuation_state_id e).
Proof.
  intros Hp Hc Hr Hcompact. pose proof (reachable_policy _ _ _ Hp Hc Hr) as Hreq.
  destruct (reachable_history p s s') as (Hm & Hlin & Hcon & Hev & records & Hh); [destruct Hp; lia|done..|].
  pose proof (made_ids _ Hm) as Hids. destruct (make_ok _ _ Hm) as [_ Ho].
  destruct (state_has_id _ Hids Hlin) as (i & Hi & Hip). pose proof (hi_count _ _ Hh) as Hcount. cbn in Hcount.
  assert (Hfinal : res_option ProgressRecord.progress_id (last records) = Ok (cs_last_progress_id s')).
  { pose proof (hi_end _ _ Hh) as He. destruct (last records) as [r|]; [|cbn in He |- *; by rewrite He].
    destruct He as (j & Hj & Hl & _). cbn in Hl |- *. by rewrite Hj, Hl. }
  assert (Hmat : materialize records (cp_max_lease_requests p + 1) = Ok records).
  { rewrite materialize_list; [by rewrite (proj2 (Z.leb_le _ _)) by lia|].
    apply (limit_ok_small _ (MAX_LEASE_REQUESTS + 1)); [by vm_compute|]. destruct Hp; unfold ContinuationPolicy.max_leases in *; lia. }
  exists records. unfold ContinuationEvidenceReceipt.make.
  rewrite Hreq, Hmat. cbn [res_bind]. rewrite (check_history_ok _ _ Hh), Hcompact, Hi. cbn [res_bind].
  rewrite Hfinal. cbn [res_bind].
  rewrite evidence_size; [eexists; split; [reflexivity|]; cbn|].
  - pose proof (lo_requests _ Ho). pose proof (lo_receipts _ Ho). pose proof (hi_progress _ _ Hh). pose proof (hi_decisions _ _ Hh).
    repeat split; assumption || lia.
  - pose proof (lo_bound _ Ho). pose proof (lo_granted _ Ho). pose proof (lo_denied _ Ho). pose proof (lo_requests _ Ho).
    pose proof (si_ids _ Hids) as F. rewrite !Forall_cons in F. destruct F as (F1 & F2 & F3 & F4 & F5 & F6 & F7 & F8 & F9 & F10 & F11 & _).
    pose proof (si_options _ Hids) as O. rewrite !Forall_cons in O. destruct O as (_ & O2 & _).
    assert (Hmax : cp_max_lease_requests p <= 128) by exact (proj2 (po_requests _ Hp)). unfold MAX_LEASE_REQUESTS in *.
    constructor; cbn; [by repeat constructor| |].
    + apply List.Forall_cons; [exact O2|]. apply List.Forall_cons.
      * intros j Hj. pose proof (si_receipts _ Hids) as R. rewrite Forall_forall in R. apply R.
        apply last_Some in Hj as [l' ->]. set_solver.
      * apply List.Forall_cons; [by eapply checked_option|constructor].
    + repeat constructor; lia.
Qed.

(** The identity of a record with a [receipt_id] is the fingerprint of its body. *)
Lemma receipt_id_fingerprint domain body i :
  forallb (λ k, negb (bool_decide (k = u "receipt_id"))) (obj_keys body) = true →
  receipt_id_of (with_receipt_id domain body) = Ok i → domain_fingerprint domain (obj body) = Ok i.
Proof.
  intros Hk. unfold receipt_id_of, with_receipt_id, dict_item. destruct (domain_fingerprint domain _) as [h|]; [|done].
  cbn [res_bind obj]. rewrite map_app. cbn [map].
  replace (find _ _) with (Some (VStr (u "receipt_id"), VStr h)); [by intros [= ->]|]. symmetry.
  unfold obj_keys in Hk. induction body as [|[k v] body IH]; cbn [map app find fst].
  - by rewrite bool_decide_true.
  - cbn [map forallb fst] in Hk. apply andb_true_iff in Hk as [Hk1 Hk2]. apply negb_true_iff in Hk1. rewrite Hk1. by apply IH.
Qed.

Lemma evidence_make_Ok s p records compact e :
  ContinuationEvidenceReceipt.make s p records compact = Ok e →
  progress_aggregate records = Ok (cv_progress_aggregate_id e) ∧ Z.of_nat (length records) = cv_progress_events e ∧
  cv_task_id e = cs_task_id s ∧ cv_governance_id e = cs_governance_id s ∧
  cv_continuation_policy_id e = cs_continuation_policy_id s ∧ cv_decision_aggregate_id e = cs_decision_aggregate_id s ∧
  ContinuationState.continuation_state_id s = Ok (cv_continuation_state_id e) ∧
  cv_compact_execution_evidence_receipt_id e = compact.
Proof.
  unfold ContinuationEvidenceReceipt.make. intros H.
  apply res_bind_Ok in H as ([] & _ & H). apply res_bind_Ok in H as (records' & [-> _]%materialize_Ok & H).
  apply res_bind_Ok in H as (ag & Hh & H). apply res_bind_Ok in H as ([] & _ & H).
  apply res_bind_Ok in H as (i & Hi & H). apply res_bind_Ok in H as (fi & _ & H).
  apply res_bind_Ok in H as ([] & _ & H). injection H as <-. cbn.
  unfold ContinuationEvidenceReceipt.check_history in Hh. do 5 (apply res_bind_Ok in Hh as ([] & _ & Hh)).
  apply res_bind_Ok in Hh as (ag' & Hag & Hh). apply res_bind_Ok in Hh as ([] & _ & Hh). injection Hh as ->.
  repeat split; assumption || reflexivity.
Qed.

Lemma body_wf e : dict_wf (obj (ContinuationEvidenceReceipt.body e)) = true.
Proof. unfold ContinuationEvidenceReceipt.body. wf_obj. by rewrite !opt_val_wf. Qed.

(** All that a receipt's identity hashes: its body, the chain of its progress records and the chain of
    the decisions of its state. *)
Definition history_messages (e : ContinuationEvidenceReceipt) (records : list ProgressRecord) (s : ContinuationState)
    : list (res (list Z)) :=
  domain_message CONTINUATION_EVIDENCE_RECEIPT_DOMAIN (obj (ContinuationEvidenceReceipt.body e)) ::
  progress_messages records ++
  decision_messages (cs_task_id s) (cs_governance_id s) (cs_continuation_policy_id s) (cs_decision_receipt_ids s).

(** C22.  A receipt identity commits to one history: two evidence receipts with the same identity,
    of reachable states of any policies, report the same progress records (by identity, in order),
    the same decided receipts, the same task, governance and policy, and the same continuation
    state, unless two of the messages collide that these two histories hash. *)
Theorem evidence_binds_history p1 p2 s1 s2 t1 t2 r1 r2 c1 c2 e1 e2 i :
  policy_ok p1 → created p1 s1 → rtc (lease_step p1) s1 t1 →
  policy_ok p2 → created p2 s2 → rtc (lease_step p2) s2 t2 →
  ContinuationEvidenceReceipt.make t1 p1 r1 c1 = Ok e1 → ContinuationEvidenceReceipt.make t2 p2 r2 c2 = Ok e2 →
  ContinuationEvidenceReceipt.receipt_id e1 = Ok i → ContinuationEvidenceReceipt.receipt_id e2 = Ok i →
  (res_map ProgressRecord.progress_id r1 = res_map ProgressRecord.progress_id r2 ∧
   cs_decision_receipt_ids t1 = cs_decision_receipt_ids t2 ∧ cs_task_id t1 = cs_task_id t2 ∧
   cs_governance_id t1 = cs_governance_id t2 ∧ cs_continuation_policy_id t1 = cs_continuation_policy_id t2 ∧
   ContinuationState.continuation_state_id t1 = ContinuationState.continuation_state_id t2) ∨
  collision_among (history_messages e1 r1 t1 ++ history_messages e2 r2 t2).
Proof.
  intros Hp1 Hc1 Hr1 Hp2 Hc2 Hr2 He1 He2 Hi1 Hi2.
  apply receipt_id_fingerprint in Hi1, Hi2; [|by vm_compute..].
  unfold history_messages. destruct (fingerprint_objs _ _ _ _ Hi1 Hi2 (body_wf _) (body_wf _)) as [E|Hcol%collision_pair].
  2:{ right. among Hcol. }
  apply evidence_make_Ok in He1 as (P1 & _ & _ & _ & _ & D1 & S1 & _), He2 as (P2 & _ & _ & _ & _ & D2 & S2 & _).
  destruct (reachable_history p1 s1 t1) as (_ & _ & _ & _ & h1 & Hh1); [destruct Hp1; lia|done..|].
  destruct (reachable_history p2 s2 t2) as (_ & _ & _ & _ & h2 & Hh2); [destruct Hp2; lia|done..|].
  pose proof (hi_decisions _ _ Hh1) as Q1. pose proof (hi_decisions _ _ Hh2) as Q2.
  cbn [trace tv_task tv_governance tv_policy tv_receipts tv_decisions] in Q1, Q2.
  obj_field_eq E "progress_aggregate_id"%string. obj_field_eq E "decision_aggregate_id"%string.
  obj_field_eq E "continuation_state_id"%string. cbn [canon] in F, F0, F1.
  injection F as F. injection F0 as F0. injection F1 as F1.
  rewrite <- F in P2. rewrite <- D1, F0, D2 in Q1. 
  destruct (progress_aggregate_binds _ _ _ P1 P2) as [Hr|Hcol]; [|right; among Hcol].
  destruct (decision_aggregate_binds _ _ _ _ _ _ _ _ _ Q1 Q2) as [(A & B & C & D)|Hcol]; [|right; among Hcol].
  left. repeat split; try assumption. by rewrite S1, S2, F1.
Qed.

(** ** Checkpoints *)

Implicit Types check : option state_seal → ContinuationState → RuntimeSnapshot → res unit.

(** A checkpoint was made for the state's own progress state. *)
Lemma checkpoint_status check s p os snap pr st ce rr status reason c :
  ContinuationCheckpoint.make check s p os snap pr st ce rr status reason = Ok c →
  ContinuationCheckpoint.make check s p os snap pr st ce rr (Some (cs_progress_state s)) reason = Ok c.
Proof.
  intros H. destruct status as [st'|]; [|exact H]. pose proof H as H0. unfold ContinuationCheckpoint.make in H0.
  do 5 (apply res_bind_Ok in H0 as ([] & _ & H0)). apply res_bind_Ok in H0 as ([] & Hs & _).
  apply raise_if_Ok, negb_decide_false in Hs. cbn in Hs. by subst st'.
Qed.

Lemma checkpoint_make_Ok check s p os snap pr st ce rr status reason c :
  ContinuationCheckpoint.make check s p os snap pr st ce rr status reason = Ok c →
  (∃ slots, ContinuationState.leases_remaining s p = Ok slots ∧
     cc_leases_remaining c = Z.min (cp_max_lease_requests p - cs_lease_requests s) slots) ∧
  cc_strategy_recoveries_remaining c = cp_max_strategy_recoveries p - cs_strategy_recoveries s ∧
  check_option require_fingerprint ce = Ok tt ∧ check_option require_fingerprint rr = Ok tt ∧
  ContinuationState.continuation_state_id s = Ok (cc_continuation_state_id c) ∧
  cc_compact_evidence_receipt_id c = ce ∧ cc_relevant_receipt_id c = rr ∧
  cc_checkpoint_status c = cs_progress_state s ∧ cc_partial_reason c = reason ∧
  ContinuationState.require_policy s p = Ok tt.
Proof.
  intros H. apply checkpoint_status in H. unfold ContinuationCheckpoint.make in H.
  apply res_bind_Ok in H as ([] & Hc & H). do 2 (apply res_bind_Ok in H as ([] & _ & H)).
  apply res_bind_Ok in H as ([] & Hce & H). apply res_bind_Ok in H as ([] & Hrr & H).
  do 3 (apply res_bind_Ok in H as ([] & _ & H)). apply res_bind_Ok in H as (slots & Hsl & H).
  apply res_bind_Ok in H as ([] & _ & H). apply res_bind_Ok in H as (i & Hi & H).
  do 3 (apply res_bind_Ok in H as (? & _ & H)). injection H as <-. cbn. split; [by exists slots|].
  unfold ContinuationCheckpoint.check_context in Hc. apply res_bind_Ok in Hc as ([] & Hc & _).
  repeat split; assumption.
Qed.

(** The identities that a checkpoint carries are fingerprints. *)
Lemma optional_id {A} (f : A → res pystr) (o : option A) (own : option pystr) r :
  (∀ a i, f a = Ok i → fingerprint_pattern i = true) → (∀ i, own = Some i → fingerprint_pattern i = true) →
  res_option f o = Ok r →
  ∀ i, match r with None => own | Some j => Some j end = Some i → fingerprint_pattern i = true.
Proof.
  intros Hf Hown Hr i. destruct o as [a|]; cbn in Hr.
  - apply res_bind_Ok in Hr as (j & Hj & [= <-]). intros [= <-]. by eapply Hf.
  - injection Hr as <-. apply Hown.
Qed.

Lemma progress_id_pattern r i : ProgressRecord.progress_id r = Ok i → fingerprint_pattern i = true.
Proof. unfold ProgressRecord.progress_id. intros (v & _ & Hi)%res_bind_Ok. by eapply domain_fingerprint_pattern. Qed.

Lemma material_id_pattern m i : StrategyMaterialization.strategy_material_id m = Ok i → fingerprint_pattern i = true.
Proof. unfold StrategyMaterialization.strategy_material_id. intros (v & _ & Hi)%res_bind_Ok. by eapply domain_fingerprint_pattern. Qed.

Lemma checkpoint_clean check s p os snap pr st ce rr status reason c :
  ContinuationState.make s = Ok s → ContinuationCheckpoint.make check s p os snap pr st ce rr status reason = Ok c →
  clean (ContinuationCheckpoint.canonical_record c) = true.
Proof.
  intros Hm H. pose proof (made_ids _ Hm) as Hids. pose proof (checkpoint_make_Ok _ _ _ _ _ _ _ _ _ _ _ _ H) as (_ & _ & Hce & Hrr & _).
  pose proof (checked_option _ _ Hce) as O1. pose proof (checked_option _ _ Hrr) as O2.
  unfold ContinuationCheckpoint.make in H. do 8 (apply res_bind_Ok in H as ([] & _ & H)).
  apply res_bind_Ok in H as (slots & _ & H). apply res_bind_Ok in H as ([] & _ & H).
  apply res_bind_Ok in H as (i & Hi & H). apply res_bind_Ok in H as (pi & Hpi & H).
  apply res_bind_Ok in H as (mi & Hmi & H). apply res_bind_Ok in H as (cap & _ & H).
  assert (Hip : fingerprint_pattern i = true).
  { unfold ContinuationState.continuation_state_id in Hi. apply res_bind_Ok in Hi as (v & _ & Hi). by eapply domain_fingerprint_pattern. }
  pose proof (si_ids _ Hids) as F. rewrite !Forall_cons in F. destruct F as (F1 & F2 & F3 & F4 & F5 & F6 & F7 & F8 & F9 & F10 & F11 & _).
  pose proof (si_options _ Hids) as O. rewrite !Forall_cons in O. destruct O as (P1 & P2 & _).
  pose proof (optional_id _ _ _ _ progress_id_pattern P2 Hpi) as O3.
  pose proof (optional_id _ _ _ _ material_id_pattern P1 Hmi) as O4.
  injection H as <-. unfold ContinuationCheckpoint.canonical_record.
  cbn [cc_task_id cc_governance_id cc_governance_receipt_id cc_orchestration_state_id cc_runtime_session_id
    cc_runtime_state_id cc_continuation_policy_id cc_continuation_policy_receipt_id cc_progress_contract_id
    cc_continuation_state_id cc_progress_id cc_strategy_material_id cc_compact_evidence_receipt_id
    cc_relevant_receipt_id cc_checkpoint_status cc_partial_reason].
  clean_fields_tac. apply value_clean. by intros [].
Qed.

Lemma checkpoint_wf c : dict_wf (ContinuationCheckpoint.canonical_record c) = true.
Proof. unfold ContinuationCheckpoint.canonical_record. wf_obj. by rewrite !budget_wf, !opt_val_wf. Qed.

Lemma checkpoint_record_equal c :
  py_equal (ContinuationCheckpoint.canonical_record c) (ContinuationCheckpoint.canonical_record c) = true.
Proof.
  apply py_equal_refl; [apply checkpoint_wf|]. unfold ContinuationCheckpoint.canonical_record, obj.
  cbn [comparable map forallb fst snd andb]. by rewrite !opt_val_comparable.
Qed.

(** A checkpoint resumes its own state. *)
Lemma resume_own check s p os snap pr st ce rr status reason c :
  ContinuationState.make s = Ok s →
  ContinuationCheckpoint.make check s p os snap pr st ce rr status reason = Ok c →
  ContinuationCheckpoint.resume check c s p os snap pr st = Ok s.
Proof.
  intros Hm H. pose proof (checkpoint_clean _ _ _ _ _ _ _ _ _ _ _ _ Hm H) as Hc.
  pose proof (checkpoint_make_Ok _ _ _ _ _ _ _ _ _ _ _ _ H) as (_ & _ & _ & _ & _ & Ece & Err & Est & Ere & Hreq).
  destruct (domain_fingerprint_total CHECKPOINT_ID_DOMAIN _ ltac:(by vm_compute) Hc) as [i Hi].
  unfold ContinuationCheckpoint.resume. rewrite Hreq, Ece, Err, Est, Ere, (checkpoint_status _ _ _ _ _ _ _ _ _ _ _ _ H).
  cbn [res_bind]. rewrite checkpoint_record_equal. unfold ContinuationCheckpoint.checkpoint_id. rewrite Hi.
  cbn [res_bind negb raise_if]. by rewrite bool_decide_true.
Qed.

(** C24.  A checkpoint resumes in the context it was taken in: with the same live state, policy,
    orchestration state, snapshot, progress and strategy, [resume_continuation_checkpoint] returns
    the live state, whatever status argument and receipts the checkpoint was made with. *)
Theorem checkpoint_roundtrip check s p os snap pr st ce rr status reason c :
  ContinuationState.make s = Ok s →
  ContinuationCheckpoint.make check s p os snap pr st ce rr status reason = Ok c →
  ContinuationCheckpoint.resume check c s p os snap pr st = Ok s.
Proof. apply resume_own. Qed.

Lemma state_record_wf s : dict_wf (ContinuationState.canonical_record_unchecked s) = true.
Proof. unfold ContinuationState.canonical_record_unchecked. wf_obj. by rewrite budget_wf, !opt_val_wf. Qed.

Lemma progress_state_inj a b : progress_state_value a = progress_state_value b → a = b.
Proof. destruct a, b; (reflexivity || (intros H; vm_compute in H; discriminate H)). Qed.

(** What the identity of a state hashes. *)
Definition state_message (s : ContinuationState) : res (list Z) :=
  record_message CONTINUATION_STATE_ID_DOMAIN (ContinuationState.canonical_record s).

(** The identity of a state determines its ledger, its history and its bindings. *)
Lemma state_id_binds s1 s2 i :
  ContinuationState.continuation_state_id s1 = Ok i → ContinuationState.continuation_state_id s2 = Ok i →
  (view s1 = view s2 ∧ trace s1 = trace s2 ∧ cs_progress_state s1 = cs_progress_state s2 ∧
   cs_runtime_session_id s1 = cs_runtime_session_id s2 ∧ cs_runtime_state_id s1 = cs_runtime_state_id s2) ∨
  collide (state_message s1) (state_message s2).
Proof.
  unfold ContinuationState.continuation_state_id, state_message, record_message.
  intros (v1 & R1 & H1)%res_bind_Ok (v2 & R2 & H2)%res_bind_Ok. rewrite R1, R2. cbn [res_bind].
  unfold ContinuationState.canonical_record in R1, R2.
  apply res_bind_Ok in R1 as (u1 & _ & [= <-]). apply res_bind_Ok in R2 as (u2 & _ & [= <-]).
  destruct (fingerprint_objs _ _ _ _ H1 H2 (state_record_wf _) (state_record_wf _)) as [E|]; [left|by right].
  assert (Hv : view s1 = view s2).
  { unfold view. f_equal.
    - obj_field_eq E "continuation_policy_id"%string. cbn [canon] in F. congruence.
    - obj_field_eq E "lease_requests"%string. cbn [canon] in F. congruence.
    - obj_field_eq E "leases_granted"%string. cbn [canon] in F. congruence.
    - obj_field_eq E "leases_denied"%string. cbn [canon] in F. congruence.
    - obj_field_eq E "cumulative_granted"%string. by apply canon_budget.
    - obj_field_eq E "decision_receipt_ids"%string. rewrite !canon_strs in F. by apply strs_val_inj.
    - obj_field_eq E "strategy_recoveries"%string. cbn [canon] in F. congruence.
    - obj_field_eq E "last_consumed_progress_id"%string. by apply canon_opt_str.
    - obj_field_eq E "pending_grant_id"%string. by apply canon_opt_str.
    - obj_field_eq E "terminal_ceiling_receipt_id"%string. by apply canon_opt_str. }
  split; [exact Hv|]. split.
  { pose proof (f_equal lv_receipts Hv) as Hr. pose proof (f_equal lv_policy Hv) as Hp. cbn in Hr, Hp. unfold trace. f_equal.
    - obj_field_eq E "task_id"%string. cbn [canon] in F. congruence.
    - obj_field_eq E "governance_id"%string. cbn [canon] in F. congruence.
    - exact Hp.
    - obj_field_eq E "progress_contract_id"%string. cbn [canon] in F. congruence.
    - obj_field_eq E "orchestration_state_id"%string. cbn [canon] in F. congruence.
    - obj_field_eq E "last_progress_id"%string. by apply canon_opt_str.
    - obj_field_eq E "progress_event_count"%string. cbn [canon] in F. congruence.
    - obj_field_eq E "progress_aggregate_id"%string. cbn [canon] in F. congruence.
    - obj_field_eq E "decision_aggregate_id"%string. cbn [canon] in F. congruence.
    - exact Hr. }
  repeat split.
  - obj_field_eq E "progress_state"%string. cbn [canon] in F. injection F as F. by apply progress_state_inj.
  - obj_field_eq E "runtime_session_id"%string. cbn [canon] in F. congruence.
  - obj_field_eq E "runtime_state_id"%string. cbn [canon] in F. congruence.
Qed.

(** C25.  A checkpoint resumes only the state it was taken from: whatever state, policy and context
    are presented, a resumption that returns gives back the presented state, which the native
    session validated and whose own checkpoint has the record and the identity of the given one.
    So both states have one identity, and then one ledger, history, progress state and runtime,
    unless the canonical bytes of these two states collide. *)
Theorem resumed_state_is_checkpointed check check' s p os snap pr st ce rr status reason c s' p' os' snap' pr' st' t :
  ContinuationCheckpoint.make check s p os snap pr st ce rr status reason = Ok c →
  ContinuationCheckpoint.resume check' c s' p' os' snap' pr' st' = Ok t →
  t = s' ∧ check' (cs_decision_lineage_capability s') s' snap' = Ok tt ∧
  (∃ c' i, ContinuationCheckpoint.make check' s' p' os' snap' pr' st' (cc_compact_evidence_receipt_id c)
      (cc_relevant_receipt_id c) (Some (cc_checkpoint_status c)) (cc_partial_reason c) = Ok c' ∧
    py_equal (ContinuationCheckpoint.canonical_record c') (ContinuationCheckpoint.canonical_record c) = true ∧
    ContinuationCheckpoint.checkpoint_id c' = Ok i ∧ ContinuationCheckpoint.checkpoint_id c = Ok i) ∧
  (∃ i, ContinuationState.continuation_state_id s = Ok i ∧ ContinuationState.continuation_state_id s' = Ok i) ∧
  ((view s = view s' ∧ trace s = trace s' ∧ cs_progress_state s = cs_progress_state s' ∧
    cs_runtime_session_id s = cs_runtime_session_id s' ∧ cs_runtime_state_id s = cs_runtime_state_id s') ∨
   collide (state_message s) (state_message s')).
Proof.
  intros H Hr. apply checkpoint_make_Ok in H as (_ & _ & _ & _ & Hi & _). unfold ContinuationCheckpoint.resume in Hr.
  apply res_bind_Ok in Hr as ([] & _ & Hr). apply res_bind_Ok in Hr as (c' & Hc' & Hr).
  apply res_bind_Ok in Hr as ([] & Heq%raise_if_Ok%negb_false_iff & Hr). apply res_bind_Ok in Hr as (i1 & H1 & Hr).
  apply res_bind_Ok in Hr as (i2 & H2 & Hr). apply res_bind_Ok in Hr as ([] & He & Hr). injection Hr as <-.
  apply raise_if_Ok, negb_decide_false in He as <-. split; [reflexivity|].
  assert (Hids : ContinuationState.continuation_state_id s' = Ok (cc_continuation_state_id c)).
  { apply checkpoint_make_Ok in Hc' as (_ & _ & _ & _ & Hi' & _). rewrite Hi'. f_equal.
    equal_field Heq "continuation_state_id"%string. by apply py_equal_text. }
  split; [|split; [by exists c', i1|split; [by eexists|by eapply state_id_binds]]].
  - unfold ContinuationCheckpoint.make in Hc'. apply res_bind_Ok in Hc' as ([] & Hc' & _).
    unfold ContinuationCheckpoint.check_context in Hc'. apply res_bind_Ok in Hc' as ([] & _ & Hc').
    apply res_bind_Ok in Hc' as (seal & Hs & Hc'). apply res_bind_Ok in Hc' as ([] & Hn & _).
    unfold ContinuationState.native_lineage_seal in Hs. apply res_bind_Ok in Hs as ([] & _ & [= <-]). exact Hn.
Qed.

(** ** Partial receipts *)

(** No request can be granted: the requests or the leases are used up. *)
Definition ceiling_reached s (p : ContinuationPolicy) : Prop :=
  cp_max_lease_requests p <= cs_lease_requests s ∨ ContinuationPolicy.max_leases p <= cs_leases_granted s.

Lemma leases_remaining_zero s p slots :
  ContinuationState.leases_remaining s p = Ok slots →
  0 <= Z.min (cp_max_lease_requests p - cs_lease_requests s) slots ∧
  (Z.min (cp_max_lease_requests p - cs_lease_requests s) slots = 0 ↔ ceiling_reached s p).
Proof.
  unfold ContinuationState.leases_remaining, ContinuationState.require_policy, ceiling_reached.
  intros ([] & H & [= <-])%res_bind_Ok. do 2 (apply res_bind_Ok in H as ([] & _ & H)).
  apply res_bind_Ok in H as (i & _ & H). do 2 (apply res_bind_Ok in H as ([] & _ & H)).
  apply res_bind_Ok in H as ([] & H1%raise_if_Ok%Z.ltb_ge & H).
  apply res_bind_Ok in H as ([] & H2%raise_if_Ok%Z.ltb_ge & _). lia.
Qed.

(** No evaluation grants once the ceiling is reached. *)
Lemma ceiling_not_grantable s p q live pr sc ce lc bl authorized next :
  ceiling_reached s p → ¬ grantable s q live p pr sc ce lc bl authorized next.
Proof.
  intros Hc [Hg _]. pose proof (so_leases _ _ _ _ _ _ _ _ _ Hg). pose proof (so_requests _ _ _ _ _ _ _ _ _ Hg).
  destruct Hc; lia.
Qed.

Lemma evaluate_granted_grantable s q live p rc pr sc ce bl authorized r g :
  evaluate s q live p rc pr sc ce bl authorized = Ok r → ev_receipt r = Granted g →
  ∃ lc next, CycleEvidence.from_snapshot live = Ok lc ∧ grantable s q live p pr sc ce lc bl authorized next.
Proof.
  intros (_ & lc & adm & Hlc & _ & [(str & next & Hg & _)|(reason & _ & H)])%evaluate_lease_Ok Hr; [by exists lc, next|].
  apply deny_request_Ok in H as (d & Hd & _). congruence.
Qed.

Lemma progress_admitted_Ok s pr :
  progress_admitted s pr = Ok true →
  pr_classification pr = MEASURABLE_PROGRESS ∧
  ∃ i, ProgressRecord.progress_id pr = Ok i ∧ cs_last_consumed_progress_id s ≠ Some i.
Proof.
  unfold progress_admitted. destruct (decide _) as [Hc|]; [|discriminate]. intros (i & Hi & [= H])%res_bind_Ok.
  apply negb_true_iff, bool_decide_eq_false in H. split; [exact Hc|]. exists i. split; [exact Hi|congruence].
Qed.

Lemma denied_for_true s reasons :
  denied_for s reasons = true ↔ cs_last_decision s = LAST_DENIED ∧ ∃ r, cs_last_denial_reason s = Some r ∧ r ∈ reasons.
Proof.
  unfold denied_for. rewrite andb_true_iff, bool_decide_eq_true.
  destruct (cs_last_denial_reason s) as [r|]; [rewrite bool_decide_eq_true|]; naive_solver.
Qed.

(** What each reason says about the ledger. *)
Definition reason_holds s (reason : ContinuationPartialReason) (leases recoveries : Z) : Prop :=
  match reason with
  | WATCHDOG_EXPIRED => True
  | LEASE_CEILING_EXHAUSTED =>
      cs_progress_state s = LEASE_EXHAUSTED ∧ leases = 0 ∧
      (denied_for s [LEASE_CEILING_REACHED] = true ∨ is_some (cs_terminal_ceiling_receipt_id s) = true)
  | _ =>
      cs_progress_state s = required_state reason ∧ denied_for s (required_denials reason) = true ∧
      (reason = PARTIAL_RECOVERY_EXHAUSTED → recoveries = 0)
  end.

Lemma validate_reason s reason leases recoveries x :
  validate_semantic_partial_reason s reason leases recoveries = Ok x → reason_holds s reason leases recoveries.
Proof.
  intros H. destruct reason; cbn [validate_semantic_partial_reason reason_holds] in *; try done;
    apply res_bind_Ok in H as ([] & H1%raise_if_Ok%negb_decide_false & H);
    apply res_bind_Ok in H as ([] & H2%raise_if_Ok%negb_false_iff & H3%raise_if_Ok).
  - apply Z.eqb_eq in H2. split; [exact H1|]. split; [exact H2|].
    destruct (denied_for s _); [by left|]. right. by destruct (is_some _).
  - split; [exact H1|]. split; [exact H2|]. discriminate.
  - split; [exact H1|]. split; [exact H2|]. discriminate.
  - split; [exact H1|]. split; [exact H2|]. intros _. rewrite bool_decide_true in H3 by done.
    by apply negb_false_iff, Z.eqb_eq in H3.
Qed.

Lemma partial_make_Ok s c reason ce er w r :
  ContinuationPartialReceipt.make s c reason ce er w = Ok r →
  pt_reason r = reason ∧ cc_partial_reason c = Some reason ∧ cs_progress_state s ≠ COMPLETE ∧
  ContinuationCheckpoint.checkpoint_id c = Ok (pt_checkpoint_id r) ∧
  reason_holds s reason (cc_leases_remaining c) (cc_strategy_recoveries_remaining c) ∧
  ContinuationPartialReceipt.check_terminal s c reason = Ok tt ∧
  ContinuationPartialReceipt.check_watchdog s c reason w = Ok tt ∧
  res_option WatchdogObservation.observation_id w = Ok (pt_watchdog_observation_id r) ∧
  pt_execution_receipt_id r = cc_relevant_receipt_id c.
Proof.
  unfold ContinuationPartialReceipt.make. intros H. apply res_bind_Ok in H as (i & _ & H).
  apply res_bind_Ok in H as ([] & _ & H). apply res_bind_Ok in H as ([] & Hr%raise_if_Ok%negb_decide_false & H).
  apply res_bind_Ok in H as ([] & Hc%raise_if_Ok%bool_decide_eq_false & H).
  apply res_bind_Ok in H as ([] & Ht & H). apply res_bind_Ok in H as ([] & Hv%validate_reason & H).
  apply res_bind_Ok in H as ([] & _ & H). apply res_bind_Ok in H as ([] & _ & H).
  apply res_bind_Ok in H as ([] & Hw & H). apply res_bind_Ok in H as (ci & Hci & H).
  apply res_bind_Ok in H as (wi & Hwi & H). injection H as <-. repeat split; assumption.
Qed.

(** C23.  A partial receipt tells the truth about what is left.  It is never issued for a complete
    task; a ceiling receipt means that no evaluation of the state can grant, and binds the
    terminal receipt; an exhausted-recovery receipt means that the strategy recoveries are used up,
    and an evaluation can then grant only without a strategy change, outside a terminal cycle and on
    measurable progress that no grant has consumed; a stall or a cycle is the recorded denial; and a watchdog's observation is of
    this very state and says that leases are exhausted exactly when the ceiling is reached. *)
Theorem partial_receipt_truthful check s p os snap pr st ce rr status reason' c reason ce' er w r :
  ContinuationCheckpoint.make check s p os snap pr st ce rr status reason' = Ok c →
  ContinuationPartialReceipt.make s c reason ce' er w = Ok r →
  pt_reason r = reason ∧ cs_progress_state s ≠ COMPLETE ∧ ContinuationCheckpoint.checkpoint_id c = Ok (pt_checkpoint_id r) ∧
  match reason with
  | LEASE_CEILING_EXHAUSTED =>
      cs_progress_state s = LEASE_EXHAUSTED ∧
      (∀ i, cs_terminal_ceiling_receipt_id s = Some i → pt_execution_receipt_id r = Some i) ∧
      (∀ q live rc pr sc ev bl authorized d, evaluate s q live p rc pr sc ev bl authorized = Ok d →
         ∃ denial, ev_receipt d = Denied denial)
  | PARTIAL_RECOVERY_EXHAUSTED =>
      cs_progress_state s = STALLED ∧ cs_last_denial_reason s = Some STRATEGY_RECOVERY_EXHAUSTED ∧
      cs_strategy_recoveries s = cp_max_strategy_recoveries p ∧
      (∀ q live rc pr sc ev bl authorized d g, evaluate s q live p rc pr sc ev bl authorized = Ok d →
         ev_receipt d = Granted g → sc = None ∧ CycleEvidence.from_snapshot live = Ok None ∧
         pr_classification pr = MEASURABLE_PROGRESS ∧
         ∃ i, ProgressRecord.progress_id pr = Ok i ∧ cs_last_consumed_progress_id s ≠ Some i)
  | NO_PROGRESS => cs_progress_state s = STALLED ∧ cs_last_denial_reason s = Some NO_MEASURABLE_PROGRESS
  | PARTIAL_TERMINAL_CYCLE =>
      cs_progress_state s = CYCLE_BLOCKED ∧
      (cs_last_denial_reason s = Some TERMINAL_CYCLE ∨ cs_last_denial_reason s = Some STRATEGY_CHANGE_CYCLE_EQUIVALENT)
  | WATCHDOG_EXPIRED =>
      ∃ o i, w = Some o ∧ WatchdogObservation.observation_id o = Ok i ∧ pt_watchdog_observation_id r = Some i ∧
        ContinuationState.continuation_state_id s = Ok (wo_continuation_state_id o) ∧
        (wo_lease_exhausted o = true ↔ ceiling_reached s p)
  end.
Proof.
  intros Hc Hr. apply checkpoint_make_Ok in Hc as ((slots & Hs & El) & Erec & _).
  apply leases_remaining_zero in Hs as [_ Hz]. rewrite <- El in Hz. clear El.
  apply partial_make_Ok in Hr as (E1 & _ & Hne & Hci & Hh & Ht & Hw & Hwi & Hex).
  split; [exact E1|]. split; [exact Hne|]. split; [exact Hci|]. destruct reason; cbn [reason_holds] in Hh.
  - destruct Hh as (H1 & H2%Hz & _). split; [exact H1|]. split.
    + intros i Hi. unfold ContinuationPartialReceipt.check_terminal in Ht. rewrite Hi in Ht. rewrite Hex.
      destruct (cc_relevant_receipt_id c) as [j|]; [|done]. do 2 (apply res_bind_Ok in Ht as ([] & _ & Ht)).
      by apply raise_if_Ok, negb_decide_false in Ht as ->.
    + intros q live rc pr' sc ev bl au d Hd. destruct (ev_receipt d) as [g|denial] eqn:E; [|by exists denial].
      destruct (evaluate_granted_grantable _ _ _ _ _ _ _ _ _ _ _ _ Hd E) as (lc & next & _ & Hg).
      by destruct (ceiling_not_grantable _ _ _ _ _ _ _ _ _ _ _ H2 Hg).
  - destruct Hh as (H1 & (_ & d & Hd & Hin)%denied_for_true & _). split; [exact H1|].
    apply list_elem_of_singleton in Hin as ->. exact Hd.
  - destruct Hh as (H1 & (_ & d & Hd & Hin)%denied_for_true & _). split; [exact H1|]. rewrite Hd.
    apply elem_of_cons in Hin as [-> |Hin]; [by left|]. apply list_elem_of_singleton in Hin as ->. by right.
  - destruct Hh as (H1 & (_ & d & Hd & Hin)%denied_for_true & H3). split; [exact H1|].
    apply list_elem_of_singleton in Hin as ->. split; [exact Hd|]. specialize (H3 eq_refl). split; [lia|].
    intros q live rc pr' sc ev bl au d g Hev Hg.
    destruct (evaluate_granted_grantable _ _ _ _ _ _ _ _ _ _ _ _ Hev Hg) as (lc & next & Hlc & _ & Hm & _).
    destruct Hm as [[_ Hrec]|(_ & Hsc & -> & Ha)]; [lia|]. split; [exact Hsc|]. split; [exact Hlc|].
    by apply progress_admitted_Ok.
  - unfold ContinuationPartialReceipt.check_watchdog in Hw. destruct w as [o|]; [|done].
    apply res_bind_Ok in Hw as (i & Hi & Hw). apply res_bind_Ok in Hw as ([] & Hb%raise_if_Ok & Hx%raise_if_Ok).
    cbn [res_option] in Hwi. apply res_bind_Ok in Hwi as (oi & Hoi & [= <-]). exists o, oi.
    rewrite !orb_false_iff, !negb_decide_false in Hb. destruct Hb as ((((Hb & _) & _) & _) & _).
    apply negb_false_iff, eqb_prop in Hx. repeat split; try assumption; try reflexivity; [by rewrite Hb| |].
    + rewrite Hx. intros Heq%Z.eqb_eq. by apply Hz.
    + intros Hcr%Hz. rewrite Hx. by apply Z.eqb_eq.
Qed.

(** ** The compact projection *)

Lemma compact_projection_Ok s p v :
  compact_projection s p = Ok v →
  ∃ slots kvs, v = obj kvs ∧ ContinuationState.leases_remaining s p = Ok slots ∧
  let requests := cp_max_lease_requests p - cs_lease_requests s in
  CanonicalFacts.field "leases_remaining"%string kvs = Some (VInt (Z.min requests slots)) ∧
  CanonicalFacts.field "legal_recovery_actions"%string kvs = Some (strs_val (recovery_actions s p requests slots
    (cp_max_lease_requests p + 1 - cs_progress_event_count s))) ∧
  CanonicalFacts.field "material_strategy_change_admissible"%string kvs =
    Some (VBool (material_strategy_change_admissible s p requests slots)).
Proof.
  unfold compact_projection. intros H. apply res_bind_Ok in H as ([] & _ & H).
  apply res_bind_Ok in H as (slots & Hs & H). apply res_bind_Ok in H as (i & _ & H).
  apply res_bind_Ok in H as (cap & _ & H). injection H as <-. exists slots. eexists.
  split; [reflexivity|]. split; [exact Hs|]. exact (conj eq_refl (conj eq_refl eq_refl)).
Qed.

(** The conditions of the projection, in the fields of the state. *)
Definition governed s : Prop := ∀ r, cs_last_denial_reason s = Some r → r ∉ governance_denials.
Definition recoverable s (p : ContinuationPolicy) : Prop :=
  is_Some (cs_current_strategy_material_id s) ∧ cs_strategy_recoveries s < cp_max_strategy_recoveries p.

(** The strategy proposal that each progress state recovers by. *)
Definition strategy_proposals : list (pystr * ProgressState) :=
  [(u "propose_material_strategy_change", STALLED); (u "propose_cycle_breaking_strategy", CYCLE_BLOCKED);
   (u "provide_material_semantic_difference", STRATEGY_CHANGE_REJECTED)].

Lemma governed_iff s : governance_blocked s = false ↔ governed s.
Proof.
  unfold governance_blocked, governed. destruct (cs_last_denial_reason s) as [r|]; [|by split; [intros _ r|]].
  rewrite bool_decide_eq_false. naive_solver.
Qed.

Lemma recoverable_iff s p : strategy_recovery_available s p = true ↔ recoverable s p.
Proof.
  unfold strategy_recovery_available, recoverable. rewrite andb_true_iff, Z.ltb_lt.
  destruct (cs_current_strategy_material_id s) as [m|]; split; intros [H1 H2]; (split; [|exact H2]);
    [by exists m|reflexivity|discriminate H1|by destruct H1].
Qed.

(** Exactly the recoveries that are offered while no grant is pending. *)
Lemma recovery_offered s p requests slots observations action :
  ContinuationState.has_pending_grant s = false →
  action ∈ recovery_actions s p requests slots observations ↔
  requests ≠ 0 ∧ slots ≠ 0 ∧ governed s ∧
  (action = u "provide_objective_progress" ∧ cs_progress_state s = STALLED ∧ 0 < observations ∨
   recoverable s p ∧ (action, cs_progress_state s) ∈ strategy_proposals).
Proof.
  intros Hp. unfold recovery_actions. rewrite Hp, <- governed_iff, <- recoverable_iff.
  destruct (governance_blocked s); [cbn [orb]; set_solver|].
  destruct (Z.eqb_spec requests 0); [cbn [orb]; set_solver|]. destruct (Z.eqb_spec slots 0); [cbn [orb]; set_solver|].
  cbn [orb]. unfold strategy_proposals. rewrite !elem_of_cons, elem_of_nil.
  destruct (cs_progress_state s), (strategy_recovery_available s p);
    rewrite ?elem_of_app, ?list_elem_of_singleton, ?elem_of_nil; try (destruct (Z.ltb_spec 0 observations));
    rewrite ?list_elem_of_singleton, ?elem_of_nil; naive_solver lia.
Qed.

Lemma strategy_admissible s p requests slots :
  material_strategy_change_admissible s p requests slots = true ↔
  0 < requests ∧ 0 < slots ∧ governed s ∧ ContinuationState.has_pending_grant s = false ∧ recoverable s p ∧
  cs_progress_state s ∉ [COMPLETE; LEASE_EXHAUSTED].
Proof.
  unfold material_strategy_change_admissible. rewrite !andb_true_iff, !negb_true_iff, !Z.ltb_lt, bool_decide_eq_false.
  rewrite governed_iff, recoverable_iff. tauto.
Qed.

(** C26.  The compact projection agrees with the lease machine.  It reports the leases that are
    left, none exactly when no request can be granted.  A pending grant leaves only its application.
    Otherwise it offers exactly these recoveries, while leases are left and no governance denial is
    the last: progress to a stalled task that may still be observed, and the strategy proposal of the
    progress state while a recovery is left.  A material strategy change is announced as admissible
    exactly when leases and recoveries are left, nothing is pending or denied by governance and the
    progress is not final; and whatever an evaluation grants had a lease left and no pending grant,
    and by a strategy change also a recovery. *)
Theorem projection_agrees s p v :
  compact_projection s p = Ok v →
  ∃ kvs leases actions admissible, v = obj kvs ∧
  CanonicalFacts.field "leases_remaining"%string kvs = Some (VInt leases) ∧
  CanonicalFacts.field "legal_recovery_actions"%string kvs = Some (strs_val actions) ∧
  CanonicalFacts.field "material_strategy_change_admissible"%string kvs = Some (VBool admissible) ∧
  0 <= leases ∧ (leases = 0 ↔ ceiling_reached s p) ∧
  (ContinuationState.has_pending_grant s = true → actions = [u "apply_pending_lease"]) ∧
  (ContinuationState.has_pending_grant s = false → ∀ action, action ∈ actions ↔
     ¬ ceiling_reached s p ∧ governed s ∧
     (action = u "provide_objective_progress" ∧ cs_progress_state s = STALLED ∧
        cs_progress_event_count s <= cp_max_lease_requests p ∨
      recoverable s p ∧ (action, cs_progress_state s) ∈ strategy_proposals)) ∧
  (admissible = true ↔
     ¬ ceiling_reached s p ∧ governed s ∧ ContinuationState.has_pending_grant s = false ∧ recoverable s p ∧
     cs_progress_state s ∉ [COMPLETE; LEASE_EXHAUSTED]) ∧
  (∀ q live rc pr sc ev bl authorized d g, evaluate s q live p rc pr sc ev bl authorized = Ok d →
     ev_receipt d = Granted g →
     0 < leases ∧ ContinuationState.has_pending_grant s = false ∧ (is_some sc = true → recoverable s p)).
Proof.
  intros (slots & kvs & -> & Hs & F1 & F2 & F3)%compact_projection_Ok.
  pose proof (leases_remaining_zero _ _ _ Hs) as [Hnn Hz]. clear Hs.
  eexists kvs, _, _, _. split; [reflexivity|]. split; [exact F1|]. split; [exact F2|]. split; [exact F3|].
  split; [exact Hnn|]. split; [exact Hz|]. split; [|split; [|split]].
  - intros Hp. unfold recovery_actions. by rewrite Hp.
  - intros Hp action. rewrite recovery_offered, <- Hz by exact Hp. naive_solver lia.
  - rewrite strategy_admissible, <- Hz. naive_solver lia.
  - intros q live rc pr sc ev bl au d g Hev Hg.
    destruct (evaluate_granted_grantable _ _ _ _ _ _ _ _ _ _ _ _ Hev Hg) as (lc & next & _ & Hst & Hm & _).
    pose proof (so_pending _ _ _ _ _ _ _ _ _ Hst) as Hpe. pose proof (so_leases _ _ _ _ _ _ _ _ _ Hst) as Hl.
    pose proof (so_requests _ _ _ _ _ _ _ _ _ Hst) as Hr.
    assert (Hpos : Z.min (cp_max_lease_requests p - cs_lease_requests s) slots ≠ 0).
    { intros Heq%Hz. destruct Heq; lia. }
    split; [lia|]. split; [unfold ContinuationState.has_pending_grant; by rewrite Hpe|].
    intros Hsc. destruct Hm as [[Hc Hrec]|(_ & -> & _)]; [|done].
    destruct Hc as (c & i & _ & _ & _ & _ & _ & _ & Hmat & _). split; [|exact Hrec]. rewrite Hmat. by eexists.
Qed.
End evidence.

(** ** The concrete runtime *)

Definition ex_evidence_result : res ContinuationEvidenceReceipt := Eval vm_compute in
  ContinuationEvidenceReceipt.make lx_granted_state lx_policy [lx_progress] None.
Definition ex_evidence : ContinuationEvidenceReceipt := Eval cbv in value_of ex_evidence_result.
Definition ex_evidence_id_result : res pystr := Eval vm_compute in ContinuationEvidenceReceipt.receipt_id ex_evidence.
Definition ex_evidence_id : pystr := Eval cbv in value_of ex_evidence_id_result.

Definition ex_check (_ : option state_seal) (_ : ContinuationState) (_ : RuntimeSnapshot) : res unit := Ok tt.

(** A checkpoint of the new state, taken when its watchdog fires. *)
Definition ex_checkpoint_result : res ContinuationCheckpoint := Eval vm_compute in
  ContinuationCheckpoint.make ex_check lx_state lx_policy lx_after lx_live (Some lx_progress) None None None None
    (Some WATCHDOG_EXPIRED).
Definition ex_checkpoint : ContinuationCheckpoint := Eval cbv in value_of ex_checkpoint_result.

Definition ex_observation : WatchdogObservation := Eval vm_compute in {|
  wo_task_id := cs_task_id lx_state; wo_governance_id := cs_governance_id lx_state;
  wo_orchestration_state_id := cs_orchestration_state_id lx_state; wo_runtime_state_id := cs_runtime_state_id lx_state;
  wo_continuation_state_id := cc_continuation_state_id ex_checkpoint; wo_elapsed_milliseconds := 1500;
  wo_lease_exhausted := false |}.

Definition ex_partial_result : res ContinuationPartialReceipt := Eval vm_compute in
  ContinuationPartialReceipt.make lx_state ex_checkpoint WATCHDOG_EXPIRED None None (Some ex_observation).
Definition ex_partial : ContinuationPartialReceipt := Eval cbv in value_of ex_partial_result.

Definition ex_projection_result : res pyval := Eval vm_compute in compact_projection lx_granted_state lx_policy.
Definition ex_projection : pyval := Eval cbv in value_of ex_projection_result.

Lemma ex_evidence_made : ContinuationEvidenceReceipt.make lx_granted_state lx_policy [lx_progress] None = Ok ex_evidence.
Proof. vm_compute. reflexivity. Qed.

Lemma ex_evidence_identified : ContinuationEvidenceReceipt.receipt_id ex_evidence = Ok ex_evidence_id.
Proof. vm_compute. reflexivity. Qed.

Lemma ex_checkpoint_made :
  ContinuationCheckpoint.make ex_check lx_state lx_policy lx_after lx_live (Some lx_progress) None None None None
    (Some WATCHDOG_EXPIRED) = Ok ex_checkpoint.
Proof. vm_compute. reflexivity. Qed.

Lemma ex_live_made : ContinuationState.make lx_state = Ok lx_state.
Proof. vm_compute. reflexivity. Qed.

Lemma reachable_state_reports_witness : ∃ records e,
  ContinuationEvidenceReceipt.make lx_granted_state lx_policy records None = Ok e.
Proof.
  destruct (reachable_state_reports lx_policy lx_state lx_granted_state None lx_policy_ok lx_created lx_run eq_refl)
    as (records & e & H & _).
  exists records, e. exact H.
Defined.

Lemma evidence_binds_history_witness :
  cs_decision_receipt_ids lx_granted_state = cs_decision_receipt_ids lx_granted_state.
Proof.
  destruct (evidence_binds_history lx_policy lx_policy lx_state lx_state lx_granted_state lx_granted_state
    [lx_progress] [lx_progress] None None ex_evidence ex_evidence ex_evidence_id
    lx_policy_ok lx_created lx_run lx_policy_ok lx_created lx_run ex_evidence_made ex_evidence_made
    ex_evidence_identified ex_evidence_identified) as [(_ & H & _)|H]; [exact H|].
  destruct (no_collision_sound (history_messages ex_evidence [lx_progress] lx_granted_state ++
    history_messages ex_evidence [lx_progress] lx_granted_state)); [vm_compute; reflexivity|exact H].
Defined.

Lemma checkpoint_roundtrip_witness :
  ContinuationCheckpoint.resume ex_check ex_checkpoint lx_state lx_policy lx_after lx_live (Some lx_progress) None =
  Ok lx_state.
Proof.
  apply (checkpoint_roundtrip ex_check lx_state lx_policy lx_after lx_live (Some lx_progress) None None None None
    (Some WATCHDOG_EXPIRED) ex_checkpoint ex_live_made ex_checkpoint_made).
Defined.

Lemma resumed_state_is_checkpointed_witness :
  view lx_state = view lx_state ∧ trace lx_state = trace lx_state.
Proof.
  destruct (resumed_state_is_checkpointed ex_check ex_check lx_state lx_policy lx_after lx_live (Some lx_progress) None
    None None None (Some WATCHDOG_EXPIRED) ex_checkpoint lx_state lx_policy lx_after lx_live (Some lx_progress) None lx_state
    ex_checkpoint_made) as (_ & _ & _ & _ & [(H1 & H2 & _)|(b1 & b2 & E1 & E2 & Hne & _)]);
    [exact (resume_own _ _ _ _ _ _ _ _ _ _ _ _ ex_live_made ex_checkpoint_made)|exact (conj H1 H2)|].
  destruct Hne. congruence.
Defined.

Lemma partial_receipt_truthful_witness :
  wo_lease_exhausted ex_observation = false ∧ ¬ ceiling_reached lx_state lx_policy.
Proof.
  destruct (partial_receipt_truthful ex_check lx_state lx_policy lx_after lx_live (Some lx_progress) None None None None
    (Some WATCHDOG_EXPIRED) ex_checkpoint WATCHDOG_EXPIRED None None (Some ex_observation) ex_partial ex_checkpoint_made)
    as (_ & _ & _ & o & i & Ho & _ & _ & _ & Hx); [vm_compute; reflexivity|].
  split; [reflexivity|]. intros Hc. apply Hx in Hc. injection Ho as <-. discriminate Hc.
Defined.

Lemma projection_agrees_witness : ∃ kvs, ex_projection = obj kvs ∧
  CanonicalFacts.field "legal_recovery_actions"%string kvs = Some (strs_val [u "apply_pending_lease"]).
Proof.
  destruct (projection_agrees lx_granted_state lx_policy ex_projection)
    as (kvs & leases & actions & admissible & Hv & _ & Ha & _ & _ & _ & Hp & _); [vm_compute; reflexivity|].
  exists kvs. split; [exact Hv|]. rewrite <- (Hp eq_refl). exact Ha.
Defined.
