(* ===== verification/Effects.v ===== *)
(** * Effect snapshots and receipts ([effects.py], lines 64-149, 189-225, 364-685 and 743-788)

    The records in which the native effect ledger reports its synthetic effects.  They arrive as
    arbitrary JSON values or as text: a bounded copy is taken first, then every field is checked
    and the checks between the fields tie status, evidence, accounting and identities together.
    A validation returns the typed fields that it read. *)

From Stdlib Require Import Ascii String.
From stdpp Require Import base list.
From S2P Require Import Prelude PyStr PyNumber Sha256 Canonical Records Kahn Obligations Epistemic Orchestration Budget Progress Snapshot Receipts.

Definition EFFECT_RUNTIME_VERSION : pystr := u "IBAE-EFFECT-RUNTIME-V1".
Definition EFFECT_SNAPSHOT_VERSION : pystr := u "IBAE-EFFECT-SNAPSHOT-V1".
Definition EFFECT_RECEIPT_VERSION : pystr := u "IBAE-EFFECT-RECEIPT-V1".
Definition EFFECT_OBSERVATION_VERSION : pystr := u "IBAE-EFFECT-OBSERVATION-V1".
Definition EFFECT_SESSION_ID_DOMAIN : pystr := u "ibae.effect-session-id.v1".
Definition EFFECT_STATE_ID_DOMAIN : pystr := u "ibae.effect-state-id.v1".
Definition EFFECT_OBSERVATION_ID_DOMAIN : pystr := u "ibae.effect-observation-id.v1".
Definition EFFECT_COMMAND_ID_DOMAIN : pystr := u "ibae.effect-command-id.v1".
Definition EFFECT_EVENT_ID_DOMAIN : pystr := u "ibae.effect-event-id.v1".
Definition EFFECT_RECEIPT_ID_DOMAIN : pystr := u "ibae.effect-receipt-id.v1".
Definition MAX_EFFECT_ENTRIES : Z := 64.
Definition MAX_EFFECT_CELLS : Z := 64.
Definition MAX_EFFECT_REQUESTS : Z := 4096.
Definition MAX_EFFECT_EXECUTIONS : Z := 1024.
Definition MAX_EFFECT_RETRIES : Z := 1024.
Definition MAX_EFFECT_RECONCILIATIONS : Z := 1024.
Definition MAX_EFFECT_OUTCOMES : Z := 16.
Definition MAX_EFFECT_RECORD_BYTES : Z := 1048576.
Definition MIN_I64 : Z := - Z.shiftl 1 63.
Definition MAX_I64 : Z := Z.shiftl 1 63 - 1.

Inductive EffectCommand := EXECUTE_EFFECT | RETRY_EFFECT | RECONCILE_EFFECT | CANCEL_EFFECT.

Inductive EffectStatus :=
  | EFFECT_PENDING | EFFECT_NOT_APPLIED | EFFECT_APPLIED | EFFECT_AMBIGUOUS | EFFECT_CANCELLED
  | RECONCILED_APPLIED | RECONCILED_NOT_APPLIED.

#[export] Instance EffectCommand_eq_dec : EqDecision EffectCommand.
Proof. solve_decision. Defined.
#[export] Instance EffectStatus_eq_dec : EqDecision EffectStatus.
Proof. solve_decision. Defined.

Definition effect_commands : list EffectCommand := [EXECUTE_EFFECT; RETRY_EFFECT; RECONCILE_EFFECT; CANCEL_EFFECT].

Definition effect_command_value (c : EffectCommand) : pystr :=
  match c with
  | EXECUTE_EFFECT => u "execute_effect" | RETRY_EFFECT => u "retry_effect"
  | RECONCILE_EFFECT => u "reconcile_effect" | CANCEL_EFFECT => u "cancel_effect"
  end.

Definition effect_statuses : list EffectStatus :=
  [EFFECT_PENDING; EFFECT_NOT_APPLIED; EFFECT_APPLIED; EFFECT_AMBIGUOUS; EFFECT_CANCELLED; RECONCILED_APPLIED;
   RECONCILED_NOT_APPLIED].

Definition effect_status_value (s : EffectStatus) : pystr :=
  match s with
  | EFFECT_PENDING => u "pending" | EFFECT_NOT_APPLIED => u "not_applied" | EFFECT_APPLIED => u "applied"
  | EFFECT_AMBIGUOUS => u "ambiguous" | EFFECT_CANCELLED => u "cancelled"
  | RECONCILED_APPLIED => u "reconciled_applied" | RECONCILED_NOT_APPLIED => u "reconciled_not_applied"
  end.

(** ** Exact fields *)

(** [_exact] for the types that occur: anything else is a [TypeError]. *)
Definition exact_str (v : pyval) : res pystr := match v with VStr s => Ok s | _ => Raise TypeError end.
Definition exact_z (v : pyval) : res Z := match v with VInt z => Ok z | _ => Raise TypeError end.
Definition exact_bool (v : pyval) : res bool := match v with VBool b => Ok b | _ => Raise TypeError end.
Definition exact_list (v : pyval) : res (list pyval) := match v with VList l => Ok l | _ => Raise TypeError end.
Definition exact_dict (v : pyval) : res (list (pyval * pyval)) := match v with VDict l => Ok l | _ => Raise TypeError end.

(** [_identity], [_symbol], [_count] and [_integer] *)
Definition identity (v : pyval) : res pystr := let* s := exact_str v in require_fingerprint s ;;* Ok s.

Definition symbol (v : pyval) : res pystr := let* s := exact_str v in require_symbol s ;;* Ok s.

Definition count (v : pyval) (maximum : Z) (positive : bool) : res Z :=
  let* z := exact_z v in
  raise_if (negb (((if positive then 1 else 0) <=? z) && (z <=? maximum))) ValueError ;;*
  Ok z.

Definition integer (v : pyval) : res Z :=
  let* z := exact_z v in
  raise_if (negb ((MIN_I64 <=? z) && (z <=? MAX_I64))) ValueError ;;*
  Ok z.

(** [_fields]; the keys are text from here on. *)
Definition fields (v : pyval) (expected : list pystr) : res (list (pystr * pyval)) :=
  let* l := exact_dict v in
  raise_if (negb (length l =? length expected)%nat || existsb (λ kv, negb (is_str_in kv.1 expected)) l) ValueError ;;*
  res_map (λ kv, let* k := exact_str kv.1 in Ok (k, kv.2)) l.

(** [None if value is None else check(value)] *)
Definition optional {A} (check : pyval → res A) (v : pyval) : res (option A) :=
  match v with VNone => Ok None | _ => let* a := check v in Ok (Some a) end.

(** The enumeration member with the given text. *)
Definition parse_member {A} (members : list A) (value : A → pystr) (v : pyval) : res A :=
  let* s := exact_str v in
  match find (λ a, bool_decide (value a = s)) members with Some a => Ok a | None => Raise ValueError end.

(** [_status] *)
Definition status : pyval → res EffectStatus := parse_member effect_statuses effect_status_value.

(** ** The bounded copy *)

(** [copy] of [_json_copy]: the budget counts nodes and bytes down. *)
Fixpoint copy_json (depth : Z) (budget : Z * Z) (item : pyval) : res (pyval * (Z * Z)) :=
  let nodes := budget.1 - 1 in
  let bytes := budget.2 in
  raise_if ((nodes <? 0) || (24 <? depth)) ValueError ;;*
  let* out :=
    match item with
    | VStr s =>
        let* size := bounded_utf8_length s MAX_EFFECT_RECORD_BYTES in
        Ok (item, (nodes, bytes - (size + 2)))
    | VNone | VBool _ => Ok (item, (nodes, bytes - 5))
    | VInt z =>
        raise_if (256 <? bit_length z) ValueError ;;*
        Ok (item, (nodes, bytes - Z.of_nat (length (int_str z))))
    | VList l =>
        raise_if (1024 <? Z.of_nat (length l)) ValueError ;;*
        let* r := (fix go (budget : Z * Z) (l : list pyval) : res (list pyval * (Z * Z)) :=
            match l with
            | [] => Ok ([], budget)
            | child :: rest =>
                let* c := copy_json (depth + 1) budget child in
                let* cs := go c.2 rest in
                Ok (c.1 :: cs.1, cs.2)
            end) (nodes, bytes - (Z.of_nat (length l) + 2)) l in
        Ok (VList r.1, r.2)
    | VDict l =>
        raise_if ((256 <? Z.of_nat (length l)) ||
                  existsb (λ kv, match kv.1 with VStr _ => false | _ => true end) l) ValueError ;;*
        let* r := (fix go (budget : Z * Z) (l : list (pyval * pyval)) : res (list (pyval * pyval) * (Z * Z)) :=
            match l with
            | [] => Ok ([], budget)
            | (key, child) :: rest =>
                let* k := copy_json (depth + 1) budget key in
                let* c := copy_json (depth + 1) k.2 child in
                let* cs := go c.2 rest in
                Ok ((k.1, c.1) :: cs.1, cs.2)
            end) (nodes, bytes - (2 * Z.of_nat (length l) + 2)) l in
        Ok (VDict r.1, r.2)
    | VFloat _ | VTuple _ | VOther => Raise TypeError
    end in
  raise_if (out.2.2 <? 0) ValueError ;;*
  Ok out.

(** [_json_copy] *)
Definition json_copy (value : pyval) : res pyval :=
  let* out := copy_json 0 (32768, MAX_EFFECT_RECORD_BYTES) value in
  let* text := canonical_json out.1 in
  bounded_utf8_length text MAX_EFFECT_RECORD_BYTES ;;*
  Ok out.1.

(** [_read_text] *)
Definition read_text (text : pystr) : res pyval :=
  bounded_utf8_length text MAX_EFFECT_RECORD_BYTES ;;*
  let* value := json_loads text in
  let* record := json_copy value in
  match record with
  | VDict _ =>
      let* text' := canonical_json record in
      raise_if (negb (bool_decide (text' = text))) ValueError ;;*
      Ok record
  | _ => Raise ValueError
  end.

(** ** Limits and counters *)

Record EffectLimits := {
  el_max_requests : Z;
  el_max_executions : Z;
  el_max_retries : Z;
  el_max_reconciliations : Z
}.

Module EffectLimits.

Definition field_names : list pystr :=
  [u "max_requests"; u "max_executions"; u "max_retries"; u "max_reconciliations"].

(** [__post_init__] on values of any type *)
Definition make (max_requests max_executions max_retries max_reconciliations : pyval) : res EffectLimits :=
  let* requests := count max_requests MAX_EFFECT_REQUESTS true in
  let* executions := count max_executions MAX_EFFECT_EXECUTIONS true in
  let* retries := count max_retries MAX_EFFECT_RETRIES false in
  let* reconciliations := count max_reconciliations MAX_EFFECT_RECONCILIATIONS false in
  Ok {| el_max_requests := requests; el_max_executions := executions; el_max_retries := retries;
        el_max_reconciliations := reconciliations |}.

Definition default : EffectLimits :=
  {| el_max_requests := 64; el_max_executions := 16; el_max_retries := 8; el_max_reconciliations := 16 |}.

Definition canonical_record (l : EffectLimits) : res pyval :=
  let* l := make (VInt (el_max_requests l)) (VInt (el_max_executions l)) (VInt (el_max_retries l))
                 (VInt (el_max_reconciliations l)) in
  Ok (obj [("max_requests", VInt (el_max_requests l)); ("max_executions", VInt (el_max_executions l));
           ("max_retries", VInt (el_max_retries l)); ("max_reconciliations", VInt (el_max_reconciliations l))]%string).

Definition from_record (record : pyval) : res EffectLimits :=
  let* active := fields record field_names in
  let* requests := field active "max_requests" in
  let* executions := field active "max_executions" in
  let* retries := field active "max_retries" in
  let* reconciliations := field active "max_reconciliations" in
  make requests executions retries reconciliations.

End EffectLimits.

Record EffectCounters := {
  ec_requests : Z;
  ec_executions : Z;
  ec_retries : Z;
  ec_reconciliations : Z
}.

Definition COUNTER_FIELDS : list pystr := [u "requests"; u "executions"; u "retries"; u "reconciliations"].

(** The ceilings of [_counters] when no limits are given. *)
Definition effect_caps : EffectLimits :=
  {| el_max_requests := MAX_EFFECT_REQUESTS; el_max_executions := MAX_EFFECT_EXECUTIONS;
     el_max_retries := MAX_EFFECT_RETRIES; el_max_reconciliations := MAX_EFFECT_RECONCILIATIONS |}.

(** [_counters] *)
Definition read_counters (record : pyval) (limits : EffectLimits) : res EffectCounters :=
  let* active := fields record COUNTER_FIELDS in
  let* v := field active "requests" in
  let* requests := count v (el_max_requests limits) false in
  let* v := field active "executions" in
  let* executions := count v (el_max_executions limits) false in
  let* v := field active "retries" in
  let* retries := count v (el_max_retries limits) false in
  let* v := field active "reconciliations" in
  let* reconciliations := count v (el_max_reconciliations limits) false in
  raise_if ((requests <? executions + reconciliations) || (executions <? retries)) ValueError ;;*
  Ok {| ec_requests := requests; ec_executions := executions; ec_retries := retries;
        ec_reconciliations := reconciliations |}.

(** ** Identities *)

(** [_effect_session_identity]: the session binds its four sources. *)
Definition session_sources_record (profile runtime task governance : pystr) : pyval :=
  obj [("effect_profile_id", VStr profile); ("runtime_session_id", VStr runtime); ("task_id", VStr task);
       ("governance_id", VStr governance)]%string.

Definition check_session_identity (session profile runtime task governance : pystr) : res unit :=
  let* i := domain_fingerprint EFFECT_SESSION_ID_DOMAIN (session_sources_record profile runtime task governance) in
  raise_if (negb (bool_decide (session = i))) ValueError.

(** [_hashed_record] *)
Definition hashed_record (record : list (pystr * pyval)) (name : string) (domain : pystr) : res unit :=
  let* v := field record name in
  let* i := identity v in
  let* expected := domain_fingerprint domain (record_val (without record name)) in
  raise_if (negb (bool_decide (i = expected))) ValueError.

(** [record[name]] through a check. *)
Definition read {A} (record : list (pystr * pyval)) (name : string) (check : pyval → res A) : res A :=
  let* v := field record name in check v.

Definition count_u64 (v : pyval) : res Z := count v (Z.shiftl 1 64 - 1) false.

(** ** Snapshots *)

Record EffectOccurrence := {
  eoc_action_id : pystr;
  eoc_occurrence_key : pystr;
  eoc_status : EffectStatus;
  eoc_attempts : Z;
  eoc_cancel_requested : bool;
  eoc_last_event_id : option pystr
}.

Definition OCCURRENCE_FIELDS : list pystr :=
  [u "action_id"; u "occurrence_key"; u "status"; u "attempts"; u "cancel_requested"; u "last_event_id"].

Definition read_occurrence (v : pyval) : res EffectOccurrence :=
  let* entry := fields v OCCURRENCE_FIELDS in
  let* action := read entry "action_id" identity in
  let* key := read entry "occurrence_key" symbol in
  let* st := read entry "status" status in
  let* attempts := read entry "attempts" (λ v, count v MAX_EFFECT_OUTCOMES false) in
  let* cancel := read entry "cancel_requested" exact_bool in
  let* event := read entry "last_event_id" (optional identity) in
  Ok {| eoc_action_id := action; eoc_occurrence_key := key; eoc_status := st; eoc_attempts := attempts;
        eoc_cancel_requested := cancel; eoc_last_event_id := event |}.

(** The loop over the occurrences: each owns its action and its key. *)
Fixpoint read_occurrences (actions keys : list pystr) (l : list pyval) : res (list EffectOccurrence) :=
  match l with
  | [] => Ok []
  | v :: rest =>
      let* entry := read_occurrence v in
      raise_if (str_in (eoc_action_id entry) actions || str_in (eoc_occurrence_key entry) keys) ValueError ;;*
      let* entries := read_occurrences (eoc_action_id entry :: actions) (eoc_occurrence_key entry :: keys) rest in
      Ok (entry :: entries)
  end.

Definition read_cell (kv : pyval * pyval) : res (pystr * Z) :=
  let* k := symbol kv.1 in
  let* z := integer kv.2 in
  Ok (k, z).

Definition read_cells (v : pyval) : res (list (pystr * Z)) :=
  let* l := exact_dict v in
  raise_if (MAX_EFFECT_CELLS <? Z.of_nat (length l)) ValueError ;;*
  res_map read_cell l.

Record EffectSnapshotFields := {
  es_effect_session_id : pystr;
  es_effect_profile_id : pystr;
  es_runtime_session_id : pystr;
  es_task_id : pystr;
  es_governance_id : pystr;
  es_authority_epoch : Z;
  es_generation : Z;
  es_logical_tick : Z;
  es_revoked : bool;
  es_limits : EffectLimits;
  es_counters : EffectCounters;
  es_cells : list (pystr * Z);
  es_occurrences : list EffectOccurrence;
  es_state_id : pystr
}.

Definition SNAPSHOT_FIELDS : list pystr :=
  [u "protocol_version"; u "effect_session_id"; u "effect_profile_id"; u "runtime_session_id"; u "task_id";
   u "governance_id"; u "authority_epoch"; u "revoked"; u "generation"; u "logical_tick"; u "limits"; u "counters";
   u "cells"; u "occurrences"; u "state_id"].

(** [sum(.. for entry in occurrences)] *)
Definition total_attempts (l : list EffectOccurrence) : Z := foldr (λ e n, eoc_attempts e + n) 0 l.
Definition attempted (l : list EffectOccurrence) : Z := Z.of_nat (length (List.filter (λ e, 0 <? eoc_attempts e) l)).

(** The status of an occurrence against its other fields. *)
Definition check_occurrence (e : EffectOccurrence) : res unit :=
  raise_if (bool_decide (eoc_status e = EFFECT_CANCELLED) && negb (eoc_cancel_requested e)) ValueError ;;*
  raise_if (bool_decide (eoc_status e ∈ [EFFECT_PENDING; EFFECT_APPLIED; EFFECT_NOT_APPLIED]) &&
            eoc_cancel_requested e) ValueError ;;*
  if decide (eoc_status e = EFFECT_PENDING) then
    raise_if (negb (eoc_attempts e =? 0) || is_some (eoc_last_event_id e) || eoc_cancel_requested e) ValueError
  else
    raise_if (negb (is_some (eoc_last_event_id e)) ||
              ((eoc_attempts e =? 0) && negb (bool_decide (eoc_status e = EFFECT_CANCELLED)))) ValueError.

(** The accounting between the clock, the counters and the occurrences. *)
Definition check_effect_accounting (generation tick : Z) (counters : EffectCounters) (occurrences : list EffectOccurrence)
    : res unit :=
  raise_if (negb (generation =? tick) || negb (tick =? ec_requests counters)) ValueError ;;*
  raise_if (negb (total_attempts occurrences =? ec_executions counters)) ValueError ;;*
  raise_if (negb (ec_retries counters =? ec_executions counters - attempted occurrences)) ValueError ;;*
  res_iter check_occurrence occurrences.

(** [_validate_snapshot]; returns what it read. *)
Definition validate_snapshot (value : pyval) : res EffectSnapshotFields :=
  let* record := fields value SNAPSHOT_FIELDS in
  let* version := field record "protocol_version" in
  raise_if (negb (is_text version EFFECT_SNAPSHOT_VERSION)) ValueError ;;*
  let* session := read record "effect_session_id" identity in
  let* profile := read record "effect_profile_id" identity in
  let* runtime := read record "runtime_session_id" identity in
  let* task := read record "task_id" identity in
  let* governance := read record "governance_id" identity in
  let* epoch := read record "authority_epoch" count_u64 in
  let* generation := read record "generation" count_u64 in
  let* tick := read record "logical_tick" count_u64 in
  let* revoked := read record "revoked" exact_bool in
  let* limits := read record "limits" EffectLimits.from_record in
  let* counters := read record "counters" (λ v, read_counters v limits) in
  let* cells := read record "cells" read_cells in
  let* items := read record "occurrences" exact_list in
  raise_if (negb ((1 <=? Z.of_nat (length items)) && (Z.of_nat (length items) <=? MAX_EFFECT_ENTRIES))) ValueError ;;*
  let* occurrences := read_occurrences [] [] items in
  check_effect_accounting generation tick counters occurrences ;;*
  check_session_identity session profile runtime task governance ;;*
  hashed_record record "state_id" EFFECT_STATE_ID_DOMAIN ;;*
  let* state := read record "state_id" identity in
  Ok {|
    es_effect_session_id := session; es_effect_profile_id := profile; es_runtime_session_id := runtime;
    es_task_id := task; es_governance_id := governance; es_authority_epoch := epoch; es_generation := generation;
    es_logical_tick := tick; es_revoked := revoked; es_limits := limits; es_counters := counters; es_cells := cells;
    es_occurrences := occurrences; es_state_id := state |}.

Record EffectSnapshot := { esn_text : pystr }.

Module EffectSnapshot.

(** [__init__] *)
Definition make (record : pyval) : res EffectSnapshot :=
  let* copied := json_copy record in
  validate_snapshot copied ;;*
  let* text := canonical_json copied in
  Ok {| esn_text := text |}.

(** [canonical_record]: the stored text is read and validated again. *)
Definition canonical_record (s : EffectSnapshot) : res (pyval * EffectSnapshotFields) :=
  let* record := read_text (esn_text s) in
  let* f := validate_snapshot record in
  Ok (record, f).

Definition proven_applied (e : EffectOccurrence) : bool :=
  bool_decide (eoc_status e ∈ [EFFECT_APPLIED; RECONCILED_APPLIED]).

Definition applied_count (s : EffectSnapshot) : res Z :=
  let* r := canonical_record s in
  Ok (Z.of_nat (length (List.filter proven_applied (es_occurrences r.2)))).

Definition manifest_complete (s : EffectSnapshot) : res bool :=
  let* r := canonical_record s in Ok (forallb proven_applied (es_occurrences r.2)).

Definition partial (s : EffectSnapshot) : res bool :=
  let* n := applied_count s in
  if 0 <? n then let* r := canonical_record s in Ok (n <? Z.of_nat (length (es_occurrences r.2))) else Ok false.

End EffectSnapshot.

(** ** Receipts *)

Inductive ObservationPhase := PHASE_BEFORE | PHASE_AFTER | PHASE_RECONCILIATION.

#[export] Instance ObservationPhase_eq_dec : EqDecision ObservationPhase.
Proof. solve_decision. Defined.

Definition phase_value (p : ObservationPhase) : pystr :=
  match p with PHASE_BEFORE => u "before" | PHASE_AFTER => u "after" | PHASE_RECONCILIATION => u "reconciliation" end.

Inductive EffectFailure := FAILURE_BEFORE | PRECONDITION_MISMATCH | ACKNOWLEDGEMENT_LOST | RECONCILIATION_UNKNOWN.

#[export] Instance EffectFailure_eq_dec : EqDecision EffectFailure.
Proof. solve_decision. Defined.

Definition failure_value (f : EffectFailure) : pystr :=
  match f with
  | FAILURE_BEFORE => u "synthetic_failure_before" | PRECONDITION_MISMATCH => u "precondition_mismatch"
  | ACKNOWLEDGEMENT_LOST => u "acknowledgement_lost" | RECONCILIATION_UNKNOWN => u "reconciliation_unknown"
  end.

Record EffectObservation := {
  eob_phase : ObservationPhase;
  eob_key : pystr;
  eob_value : Z;
  eob_observation_id : pystr
}.

Definition OBSERVATION_FIELDS : list pystr :=
  [u "protocol_version"; u "effect_session_id"; u "action_id"; u "occurrence_key"; u "attempt"; u "phase"; u "key";
   u "value"; u "observation_id"].

Record EffectReceiptFields := {
  er_effect_session_id : pystr;
  er_effect_profile_id : pystr;
  er_runtime_session_id : pystr;
  er_task_id : pystr;
  er_governance_id : pystr;
  er_command_id : pystr;
  er_action_id : pystr;
  er_tool_admission_receipt_id : pystr;
  er_arguments_id : pystr;
  er_event_id : pystr;
  er_prior_state_id : pystr;
  er_resulting_state_id : pystr;
  er_occurrence_key : pystr;
  er_command_type : EffectCommand;
  er_status : EffectStatus;
  er_authority_class : pystr;
  er_authority_epoch : Z;
  er_logical_tick : Z;
  er_attempt : Z;
  er_ambiguous : bool;
  er_cancel_requested : bool;
  er_effect_applied : option bool;
  er_recovery_of_event_id : option pystr;
  er_failure_reason : option EffectFailure;
  er_counters : EffectCounters;
  er_pre_evidence : option EffectObservation;
  er_post_evidence : option EffectObservation
}.

Definition RECEIPT_FIELD_NAMES : list pystr :=
  [u "protocol_version"; u "effect_session_id"; u "effect_profile_id"; u "runtime_session_id"; u "task_id";
   u "governance_id"; u "authority_epoch"; u "command_id"; u "command_type"; u "action_id"; u "occurrence_key";
   u "tool_admission_receipt_id"; u "authority_class"; u "arguments_id"; u "attempt"; u "status"; u "ambiguous";
   u "effect_applied"; u "pre_evidence"; u "post_evidence"; u "recovery_of_event_id"; u "event_id";
   u "prior_state_id"; u "resulting_state_id"; u "counters"; u "logical_tick"; u "cancel_requested";
   u "evidence_scope"; u "failure_reason"; u "receipt_id"].

(** [_observation]: evidence is bound to the session, action, occurrence and attempt of its receipt. *)
Definition read_observation (session action key : pystr) (attempt : Z) (v : pyval) : res EffectObservation :=
  let* record := fields v OBSERVATION_FIELDS in
  let* version := field record "protocol_version" in
  raise_if (negb (is_text version EFFECT_OBSERVATION_VERSION)) ValueError ;;*
  let bound (name : string) (own : pyval) := let* v := field record name in
    raise_if (match v, own with
              | VStr a, VStr b => negb (bool_decide (a = b))
              | VInt a, VInt b => negb (a =? b)
              | _, _ => true
              end) ValueError in
  bound "effect_session_id"%string (VStr session) ;;*
  bound "action_id"%string (VStr action) ;;*
  bound "occurrence_key"%string (VStr key) ;;*
  bound "attempt"%string (VInt attempt) ;;*
  let* phase := read record "phase" (parse_member [PHASE_BEFORE; PHASE_AFTER; PHASE_RECONCILIATION] phase_value) in
  let* cell := read record "key" symbol in
  let* value := read record "value" integer in
  hashed_record record "observation_id" EFFECT_OBSERVATION_ID_DOMAIN ;;*
  let* i := read record "observation_id" identity in
  Ok {| eob_phase := phase; eob_key := cell; eob_value := value; eob_observation_id := i |}.

Definition AUTHORITY_CLASSES : list pystr := [u "idempotent_mutation"; u "non_idempotent_mutation"].

(** The typed reading at the head of [_validate_receipt]. *)
Definition read_receipt (record : list (pystr * pyval)) : res EffectReceiptFields :=
  let* version := field record "protocol_version" in
  let* scope := field record "evidence_scope" in
  raise_if (negb (is_text version EFFECT_RECEIPT_VERSION) ||
            negb (is_text scope (u "synthetic-native-in-process"))) ValueError ;;*
  let* session := read record "effect_session_id" identity in
  let* profile := read record "effect_profile_id" identity in
  let* runtime := read record "runtime_session_id" identity in
  let* task := read record "task_id" identity in
  let* governance := read record "governance_id" identity in
  let* command_id := read record "command_id" identity in
  let* action := read record "action_id" identity in
  let* admission := read record "tool_admission_receipt_id" identity in
  let* arguments := read record "arguments_id" identity in
  let* event := read record "event_id" identity in
  let* prior := read record "prior_state_id" identity in
  let* resulting := read record "resulting_state_id" identity in
  let* key := read record "occurrence_key" symbol in
  let* command := read record "command_type" (parse_member effect_commands effect_command_value) in
  let* st := read record "status" status in
  let* class := read record "authority_class" exact_str in
  raise_if (negb (str_in class AUTHORITY_CLASSES)) ValueError ;;*
  let* epoch := read record "authority_epoch" count_u64 in
  let* tick := read record "logical_tick" count_u64 in
  let* attempt := read record "attempt" (λ v, count v MAX_EFFECT_OUTCOMES false) in
  let* ambiguous := read record "ambiguous" exact_bool in
  let* cancel := read record "cancel_requested" exact_bool in
  let* applied := read record "effect_applied" (optional exact_bool) in
  let* recovery := read record "recovery_of_event_id" (optional identity) in
  let* reason := read record "failure_reason" (optional (parse_member
    [FAILURE_BEFORE; PRECONDITION_MISMATCH; ACKNOWLEDGEMENT_LOST; RECONCILIATION_UNKNOWN] failure_value)) in
  let* counters := read record "counters" (λ v, read_counters v effect_caps) in
  let* before := read record "pre_evidence" (optional (read_observation session action key attempt)) in
  let* after := read record "post_evidence" (optional (read_observation session action key attempt)) in
  Ok {|
    er_effect_session_id := session; er_effect_profile_id := profile; er_runtime_session_id := runtime;
    er_task_id := task; er_governance_id := governance; er_command_id := command_id; er_action_id := action;
    er_tool_admission_receipt_id := admission; er_arguments_id := arguments; er_event_id := event;
    er_prior_state_id := prior; er_resulting_state_id := resulting; er_occurrence_key := key;
    er_command_type := command; er_status := st; er_authority_class := class; er_authority_epoch := epoch;
    er_logical_tick := tick; er_attempt := attempt; er_ambiguous := ambiguous; er_cancel_requested := cancel;
    er_effect_applied := applied; er_recovery_of_event_id := recovery; er_failure_reason := reason;
    er_counters := counters; er_pre_evidence := before; er_post_evidence := after |}.

(** The checks between the fields, in the order of the code. *)
Definition check_outcome (r : EffectReceiptFields) : res unit :=
  let st := er_status r in
  let applied := er_effect_applied r in
  raise_if (bool_decide (st = EFFECT_AMBIGUOUS) && (is_some applied || negb (er_ambiguous r))) ValueError ;;*
  raise_if (bool_decide (st ∈ [EFFECT_APPLIED; RECONCILED_APPLIED]) &&
            (negb (bool_decide (applied = Some true)) || er_ambiguous r)) ValueError ;;*
  raise_if (bool_decide (st ∈ [EFFECT_NOT_APPLIED; RECONCILED_NOT_APPLIED; EFFECT_CANCELLED]) &&
            (negb (bool_decide (applied = Some false)) || er_ambiguous r)) ValueError ;;*
  raise_if (bool_decide (st = EFFECT_PENDING)) ValueError.

Definition check_receipt_accounting (r : EffectReceiptFields) : res unit :=
  let c := er_counters r in
  raise_if (negb (er_logical_tick r =? ec_requests c) || (er_logical_tick r =? 0)) ValueError ;;*
  raise_if (bool_decide (er_prior_state_id r = er_resulting_state_id r)) ValueError ;;*
  raise_if ((er_attempt r =? 0) && negb (bool_decide (er_status r = EFFECT_CANCELLED))) ValueError ;;*
  raise_if ((ec_executions c <? er_attempt r) || (ec_retries c <? Z.max 0 (er_attempt r - 1))) ValueError ;;*
  raise_if (bool_decide (er_status r ∈ [EFFECT_APPLIED; EFFECT_NOT_APPLIED]) && er_cancel_requested r) ValueError ;;*
  raise_if (bool_decide (er_command_type r = RECONCILE_EFFECT) && (ec_reconciliations c =? 0)) ValueError ;;*
  raise_if (bool_decide (er_command_type r = CANCEL_EFFECT) &&
            (ec_executions c + ec_reconciliations c =? ec_requests c)) ValueError.

(** The phases and the cell of the two observations. *)
Definition check_observations (r : EffectReceiptFields) : res unit :=
  let expected := if decide (er_command_type r = RECONCILE_EFFECT) then PHASE_RECONCILIATION else PHASE_AFTER in
  raise_if (match er_pre_evidence r with
            | Some b => negb (bool_decide (eob_phase b = PHASE_BEFORE))
            | None => false
            end) ValueError ;;*
  raise_if (match er_post_evidence r with
            | Some a => negb (bool_decide (eob_phase a = expected))
            | None => false
            end) ValueError ;;*
  raise_if (match er_pre_evidence r, er_post_evidence r with
            | Some b, Some a => negb (bool_decide (eob_key b = eob_key a))
            | _, _ => false
            end) ValueError.

(** [execute_effect] and [retry_effect] *)
Definition check_execution (r : EffectReceiptFields) : res unit :=
  let st := er_status r in
  let reason := er_failure_reason r in
  raise_if (negb (bool_decide (st ∈ [EFFECT_APPLIED; EFFECT_NOT_APPLIED; EFFECT_AMBIGUOUS])) ||
            negb (is_some (er_pre_evidence r))) ValueError ;;*
  raise_if (bool_decide (er_command_type r = EXECUTE_EFFECT) &&
            (negb (er_attempt r =? 1) || is_some (er_recovery_of_event_id r))) ValueError ;;*
  raise_if (bool_decide (er_command_type r = RETRY_EFFECT) &&
            ((er_attempt r <? 2) || negb (is_some (er_recovery_of_event_id r)))) ValueError ;;*
  if decide (st = EFFECT_AMBIGUOUS) then
    raise_if (is_some (er_post_evidence r) || negb (bool_decide (reason = Some ACKNOWLEDGEMENT_LOST))) ValueError
  else
    match er_pre_evidence r, er_post_evidence r with
    | _, None => Raise ValueError
    | before, Some after =>
        if decide (st = EFFECT_NOT_APPLIED) then
          raise_if (negb (bool_decide (reason ∈ [Some FAILURE_BEFORE; Some PRECONDITION_MISMATCH])) ||
                    match before with Some b => negb (eob_value b =? eob_value after) | None => true end) ValueError
        else raise_if (is_some reason) ValueError
    end.

Definition check_reconciliation (r : EffectReceiptFields) : res unit :=
  let reason := er_failure_reason r in
  raise_if (is_some (er_pre_evidence r) || negb (is_some (er_recovery_of_event_id r))) ValueError ;;*
  if decide (er_status r = EFFECT_AMBIGUOUS) then
    raise_if (is_some (er_post_evidence r) || negb (bool_decide (reason = Some RECONCILIATION_UNKNOWN))) ValueError
  else
    raise_if (negb (bool_decide (er_status r ∈ [RECONCILED_APPLIED; RECONCILED_NOT_APPLIED])) ||
              negb (is_some (er_post_evidence r)) || is_some reason) ValueError.

Definition check_cancellation (r : EffectReceiptFields) : res unit :=
  raise_if (negb (bool_decide (er_status r ∈ [EFFECT_CANCELLED; EFFECT_AMBIGUOUS])) ||
            negb (er_cancel_requested r) || is_some (er_pre_evidence r) || is_some (er_post_evidence r) ||
            is_some (er_failure_reason r)) ValueError.

Definition check_command (r : EffectReceiptFields) : res unit :=
  match er_command_type r with
  | EXECUTE_EFFECT | RETRY_EFFECT => check_execution r
  | RECONCILE_EFFECT => check_reconciliation r
  | CANCEL_EFFECT => check_cancellation r
  end.

(** The command that a receipt answers. *)
Definition command_record (command : EffectCommand) (session state action key : pystr) : pyval :=
  obj [("protocol_version", VStr EFFECT_RUNTIME_VERSION); ("command_type", VStr (effect_command_value command));
       ("effect_session_id", VStr session); ("expected_state_id", VStr state); ("action_id", VStr action);
       ("occurrence_key", VStr key)]%string.

(** The event takes its fields from the record, evidence included. *)
Definition event_fields : list string :=
  ["effect_session_id"; "command_id"; "action_id"; "occurrence_key"; "attempt"; "status"; "effect_applied";
   "pre_evidence"; "post_evidence"; "failure_reason"; "cancel_requested"]%string.

Definition event_record (record : list (pystr * pyval)) (generation : Z) : res pyval :=
  let* items := res_map (λ name, let* v := field record name in Ok (name, v)) event_fields in
  Ok (obj (items ++ [("generation", VInt generation)]%string)).

Definition check_receipt_identities (record : list (pystr * pyval)) (r : EffectReceiptFields) : res unit :=
  let* command_id := domain_fingerprint EFFECT_COMMAND_ID_DOMAIN
    (command_record (er_command_type r) (er_effect_session_id r) (er_prior_state_id r) (er_action_id r)
       (er_occurrence_key r)) in
  raise_if (negb (bool_decide (er_command_id r = command_id))) ValueError ;;*
  let* event := event_record record (er_logical_tick r) in
  let* event_id := domain_fingerprint EFFECT_EVENT_ID_DOMAIN event in
  raise_if (negb (bool_decide (er_event_id r = event_id))) ValueError ;;*
  check_session_identity (er_effect_session_id r) (er_effect_profile_id r) (er_runtime_session_id r) (er_task_id r)
    (er_governance_id r) ;;*
  hashed_record record "receipt_id" EFFECT_RECEIPT_ID_DOMAIN.

(** [_validate_receipt]; returns what it read. *)
Definition validate_receipt (value : pyval) : res EffectReceiptFields :=
  let* record := fields value RECEIPT_FIELD_NAMES in
  let* r := read_receipt record in
  check_outcome r ;;*
  check_receipt_accounting r ;;*
  check_observations r ;;*
  check_command r ;;*
  check_receipt_identities record r ;;*
  Ok r.

Section sealed_receipts.
(** The seals of the native effect ledger, and whether one validates a text. *)
Context {effect_seal : Type} (effect_seal_validates : effect_seal → pystr → bool).

Record EffectReceipt := {
  ert_text : pystr;
  ert_seal : option effect_seal
}.

(** [EffectReceipt.__init__] *)
Definition make_EffectReceipt (record : pyval) (native_seal : option effect_seal) : res EffectReceipt :=
  let* copied := json_copy record in
  validate_receipt copied ;;*
  let* text := canonical_json copied in
  match native_seal with
  | None => Ok tt
  | Some seal => raise_if (negb (effect_seal_validates seal text)) ValueError
  end ;;*
  Ok {| ert_text := text; ert_seal := native_seal |}.

(** [source_bound] *)
Definition effect_source_bound (r : EffectReceipt) : bool :=
  match ert_seal r with None => false | Some seal => effect_seal_validates seal (ert_text r) end.

(** [EffectReceipt.canonical_record] *)
Definition effect_receipt_record (r : EffectReceipt) : res (pyval * EffectReceiptFields) :=
  let* record := read_text (ert_text r) in
  let* f := validate_receipt record in
  raise_if (is_some (ert_seal r) && negb (effect_source_bound r)) ValueError ;;*
  Ok (record, f).

(** [EffectSession.validates_receipt]: the native ledger is asked about sealed receipts only. *)
Definition validates_receipt (native_validates : pystr → effect_seal → bool) (r : EffectReceipt) : res bool :=
  match ert_seal r with
  | Some seal =>
      if effect_source_bound r then
        let* record := effect_receipt_record r in
        let* text := canonical_json record.1 in
        Ok (native_validates text seal)
      else Ok false
  | None => Ok false
  end.

(** [EffectSession.dispatch]: the native ledger answers a command text with a text and a seal. *)
Definition dispatch_text (answer : pystr * effect_seal) : res EffectReceipt :=
  let* record := read_text answer.1 in
  make_EffectReceipt record (Some answer.2).

End sealed_receipts.

(** ** Commands *)

Definition COMMAND_FIELD_NAMES : list pystr :=
  [u "protocol_version"; u "command_type"; u "effect_session_id"; u "expected_state_id"; u "action_id";
   u "occurrence_key"].

(** [EffectSession.command] on the snapshot that the session reports. *)
Definition prepare_command (snapshot : EffectSnapshot) (kind : EffectCommand) (action_id : pyval) : res pyval :=
  let* action := identity action_id in
  let* record := EffectSnapshot.canonical_record snapshot in
  let s := record.2 in
  match find (λ e, bool_decide (eoc_action_id e = action)) (es_occurrences s) with
  | None => Raise ValueError
  | Some e =>
      Ok (command_record kind (es_effect_session_id s) (es_state_id s) action (eoc_occurrence_key e))
  end.

(** [EffectSession._command_text] *)
Definition command_text (command : pyval) : res pystr :=
  let* copied := json_copy command in
  let* record := fields copied COMMAND_FIELD_NAMES in
  let* version := field record "protocol_version" in
  raise_if (negb (is_text version EFFECT_RUNTIME_VERSION)) ValueError ;;*
  read record "command_type" (parse_member effect_commands effect_command_value) ;;*
  read record "effect_session_id" identity ;;*
  read record "expected_state_id" identity ;;*
  read record "action_id" identity ;;*
  read record "occurrence_key" symbol ;;*
  canonical_json copied.

(** [EffectSession.snapshot] of the text that the native ledger reports. *)
Definition session_snapshot (text : pystr) : res EffectSnapshot :=
  let* record := read_text text in EffectSnapshot.make record.
