(* ===== verification/EffectFacts.v ===== *)
(** * Facts about effect records

    The bounded copy accepts exactly the values within its limits and changes nothing; a validated
    snapshot accounts for every attempt; a validated receipt reports an outcome only with the
    evidence for it, and its identities bind the command and the event. *)

From Stdlib Require Import Ascii String Btauto.
From stdpp Require Import base list.
From S2P Require Import Prelude PyStr PyNumber Sha256 Canonical CanonicalFacts Fingerprints Records RecordsFacts Kahn Obligations Epistemic Orchestration Budget Progress Snapshot SnapshotFacts Receipts ReceiptsFacts Lease LeaseExamples TraceFacts Evidence EvidenceFacts Effects.

(** ** The bounded copy *)

Fixpoint effect_shape (depth : Z) (v : pyval) : bool :=
  (depth <=? 24) &&
  match v with
  | VNone | VBool _ => true
  | VStr s => no_surrogate s && (utf8_length s <=? MAX_EFFECT_RECORD_BYTES)
  | VInt z => bit_length z <=? 256
  | VList l => (Z.of_nat (length l) <=? 1024) && forallb (effect_shape (depth + 1)) l
  | VDict l =>
      (Z.of_nat (length l) <=? 256) &&
      forallb (λ kv, match kv.1 with VStr _ => true | _ => false end &&
                     effect_shape (depth + 1) kv.1 && effect_shape (depth + 1) kv.2) l
  | VFloat _ | VTuple _ | VOther => false
  end.

(** Every key counts as a node. *)
Fixpoint copy_nodes (v : pyval) : Z :=
  match v with
  | VList l => 1 + zsum (map copy_nodes l)
  | VDict l => 1 + zsum (map (λ kv, copy_nodes kv.1 + copy_nodes kv.2) l)
  | _ => 1
  end.

Fixpoint copy_bytes (v : pyval) : Z :=
  match v with
  | VStr s => utf8_length s + 2
  | VInt z => Z.of_nat (length (int_str z))
  | VList l => Z.of_nat (length l) + 2 + zsum (map copy_bytes l)
  | VDict l => 2 * Z.of_nat (length l) + 2 + zsum (map (λ kv, copy_bytes kv.1 + copy_bytes kv.2) l)
  | _ => 5
  end.

Lemma copy_costs_nonneg v : 0 <= copy_nodes v ∧ 0 <= copy_bytes v.
Proof.
  induction v as [|b|z|f|s|l IH|l IH|l IH|] using pyval_nested_ind; cbn [copy_nodes copy_bytes]; try lia.
  - pose proof (utf8_length_nonneg s). lia.
  - assert (H : 0 <= zsum (map copy_nodes l) ∧ 0 <= zsum (map copy_bytes l)); [|lia].
    induction IH as [|x l Hx _ IHl]; [done|]. cbn [map]. rewrite !zsum_cons. lia.
  - assert (H : 0 <= zsum (map (λ kv, copy_nodes kv.1 + copy_nodes kv.2) l) ∧
                0 <= zsum (map (λ kv, copy_bytes kv.1 + copy_bytes kv.2) l)); [|lia].
    induction IH as [|x l [Hx Hy] _ IHl]; [done|]. cbn [map]. rewrite !zsum_cons. lia.
Qed.

Lemma copy_nodes_pos v : 1 <= copy_nodes v.
Proof.
  destruct v as [| | | | |l|l|l|]; cbn [copy_nodes]; try lia.
  - pose proof (zsum_map_nonneg copy_nodes l (λ x, proj1 (copy_costs_nonneg x))). lia.
  - pose proof (zsum_map_nonneg (λ kv, copy_nodes kv.1 + copy_nodes kv.2) l
      (λ x, Z.add_nonneg_nonneg _ _ (proj1 (copy_costs_nonneg x.1)) (proj1 (copy_costs_nonneg x.2)))). lia.
Qed.

(** What a successful copy is. *)
Definition copied (depth : Z) (budget : Z * Z) (v : pyval) (out : pyval * (Z * Z)) : Prop :=
  effect_shape depth v = true ∧ out = (v, (budget.1 - copy_nodes v, budget.2 - copy_bytes v)) ∧
  0 <= budget.1 - copy_nodes v ∧ 0 <= budget.2 - copy_bytes v.

Lemma utf8_limit : limit_ok MAX_EFFECT_RECORD_BYTES.
Proof. reflexivity. Qed.

(** The two checks around one node. *)
Lemma copy_step depth n b (body : res (pyval * (Z * Z))) shape v cn cb out :
  1 <= cn →
  (0 <= n - 1 → ∀ o, body = Ok o ↔
     shape = true ∧ o = (v, (n - cn, b - cb)) ∧ (cn = 1 ∨ 0 <= n - cn ∧ 0 <= b - cb)) →
  (raise_if ((n - 1 <? 0) || (24 <? depth)) ValueError ;;*
   let* o := body in raise_if (o.2.2 <? 0) ValueError ;;* Ok o) = Ok out ↔
  (depth <=? 24) && shape = true ∧ out = (v, (n - cn, b - cb)) ∧ 0 <= n - cn ∧ 0 <= b - cb.
Proof.
  intros Hcn Hbody. destruct (Z.ltb_spec (n - 1) 0) as [Hn|Hn]; cbn [orb raise_if res_bind].
  { split; [done|]. lia. }
  destruct (Z.ltb_spec 24 depth), (Z.leb_spec depth 24); try lia; cbn [raise_if res_bind andb].
  { split; [done|]. by intros [? _]. }
  specialize (Hbody Hn). rewrite res_bind_Ok. split.
  - intros (o & Ho & H1). apply Hbody in Ho as (Hs & -> & Hc). cbn [fst snd] in H1.
    apply res_bind_Ok in H1 as ([] & Hb%raise_if_Ok%Z.ltb_ge & [= <-]). repeat split; try done; lia.
  - intros (Hs & -> & Hn' & Hb'). exists (v, (n - cn, b - cb)). split; [apply Hbody; auto|]. cbn [fst snd].
    by rewrite (proj2 (raise_if_Ok _ _ tt)) by (by apply Z.ltb_ge).
Qed.

Lemma copy_list_spec depth l :
  Forall (λ v, ∀ depth budget out, copy_json depth budget v = Ok out ↔ copied depth budget v out) l →
  ∀ n b out,
  (fix go (budget : Z * Z) (l : list pyval) : res (list pyval * (Z * Z)) :=
     match l with
     | [] => Ok ([], budget)
     | child :: rest =>
         let* c := copy_json depth budget child in let* cs := go c.2 rest in Ok (c.1 :: cs.1, cs.2)
     end) (n, b) l = Ok out ↔
  forallb (effect_shape depth) l = true ∧ out = (l, (n - zsum (map copy_nodes l), b - zsum (map copy_bytes l))) ∧
  (l = [] ∨ 0 <= n - zsum (map copy_nodes l) ∧ 0 <= b - zsum (map copy_bytes l)).
Proof.
  induction 1 as [|v l Hv Hl IH]; intros n b out.
  - cbn. rewrite !Z.sub_0_r. naive_solver.
  - cbn [forallb map]. rewrite !zsum_cons, res_bind_Ok.
    assert (Hnn : 0 <= zsum (map copy_nodes l) ∧ 0 <= zsum (map copy_bytes l)).
    { clear. induction l as [|x l IH]; [done|]. cbn [map]. rewrite !zsum_cons. pose proof (copy_costs_nonneg x). lia. }
    split.
    + intros (c & Hc & H). apply Hv in Hc as (Hs & -> & Hn & Hb). cbn [fst snd] in *.
      apply res_bind_Ok in H as (cs & Hcs & [= <-]). apply IH in Hcs as (Hs' & -> & Hc). cbn [fst snd].
      rewrite Hs, Hs'. split; [done|]. split; [do 2 f_equal; lia|]. right. destruct Hc as [-> |Hc]; cbn [map zsum foldr] in *; lia.
    + rewrite andb_true_iff. intros ((Hs & Hs') & -> & [?|[Hn Hb]]); [done|].
      exists (v, (n - copy_nodes v, b - copy_bytes v)). split; [apply Hv; repeat split; cbn [fst snd]; try done; lia|].
      cbn [fst snd]. rewrite res_bind_Ok. eexists. split; [apply IH; split; [done|]; split; [reflexivity|right; lia]|].
      cbn [fst snd]. do 3 f_equal; lia.
Qed.

Lemma copy_dict_spec depth l :
  Forall (λ kv, (∀ depth budget out, copy_json depth budget kv.1 = Ok out ↔ copied depth budget kv.1 out) ∧
                (∀ depth budget out, copy_json depth budget kv.2 = Ok out ↔ copied depth budget kv.2 out)) l →
  ∀ n b out,
  (fix go (budget : Z * Z) (l : list (pyval * pyval)) : res (list (pyval * pyval) * (Z * Z)) :=
     match l with
     | [] => Ok ([], budget)
     | (key, child) :: rest =>
         let* k := copy_json depth budget key in
         let* c := copy_json depth k.2 child in
         let* cs := go c.2 rest in
         Ok ((k.1, c.1) :: cs.1, cs.2)
     end) (n, b) l = Ok out ↔
  forallb (λ kv, effect_shape depth kv.1 && effect_shape depth kv.2) l = true ∧
  out = (l, (n - zsum (map (λ kv, copy_nodes kv.1 + copy_nodes kv.2) l),
             b - zsum (map (λ kv, copy_bytes kv.1 + copy_bytes kv.2) l))) ∧
  (l = [] ∨ 0 <= n - zsum (map (λ kv, copy_nodes kv.1 + copy_nodes kv.2) l) ∧
            0 <= b - zsum (map (λ kv, copy_bytes kv.1 + copy_bytes kv.2) l)).
Proof.
  induction 1 as [|[k v] l [Hk Hv] Hl IH]; intros n b out.
  - cbn. rewrite !Z.sub_0_r. naive_solver.
  - cbn [forallb map fst snd] in *. rewrite !zsum_cons, res_bind_Ok.
    assert (Hnn : 0 <= zsum (map (λ kv, copy_nodes kv.1 + copy_nodes kv.2) l) ∧
                  0 <= zsum (map (λ kv, copy_bytes kv.1 + copy_bytes kv.2) l)).
    { clear. induction l as [|[x y] l IH]; [done|]. cbn [map fst snd]. rewrite !zsum_cons.
      pose proof (copy_costs_nonneg x). pose proof (copy_costs_nonneg y). lia. }
    pose proof (copy_costs_nonneg v) as Hcv. split.
    + intros (c & Hc & H). apply Hk in Hc as (Hs & -> & Hn & Hb). cbn [fst snd] in *.
      apply res_bind_Ok in H as (c & Hc & H). apply Hv in Hc as (Hs1 & -> & Hn1 & Hb1). cbn [fst snd] in *.
      apply res_bind_Ok in H as (cs & Hcs & [= <-]). apply IH in Hcs as (Hs' & -> & Hc). cbn [fst snd].
      rewrite Hs, Hs1, Hs'. split; [done|]. split; [do 2 f_equal; lia|]. right.
      destruct Hc as [-> |Hc]; cbn [map zsum foldr] in *; lia.
    + rewrite !andb_true_iff. intros (((Hs & Hs1) & Hs') & -> & [?|[Hn Hb]]); [done|].
      exists (k, (n - copy_nodes k, b - copy_bytes k)). split; [apply Hk; repeat split; cbn [fst snd]; try done; lia|].
      cbn [fst snd]. rewrite res_bind_Ok. exists (v, (n - copy_nodes k - copy_nodes v, b - copy_bytes k - copy_bytes v)).
      split; [apply Hv; repeat split; cbn [fst snd]; try done; lia|]. cbn [fst snd]. rewrite res_bind_Ok.
      eexists. split; [apply IH; split; [done|]; split; [reflexivity|right; lia]|]. cbn [fst snd]. do 3 f_equal; lia.
Qed.

Lemma copy_json_spec v : ∀ depth budget out, copy_json depth budget v = Ok out ↔ copied depth budget v out.
Proof.
  induction v as [|b|z|f|s|l IH|l IH|l IH|] using pyval_nested_ind; intros depth [n b'] out; unfold copied;
    cbn [copy_json effect_shape copy_nodes copy_bytes fst snd].
  - apply copy_step; [lia|]. intros _ o. naive_solver.
  - apply copy_step; [lia|]. intros _ o. naive_solver.
  - apply copy_step; [lia|]. intros _ o. rewrite res_bind_Ok.
    destruct (Z.ltb_spec 256 (bit_length z)), (Z.leb_spec (bit_length z) 256); try lia; simpl; naive_solver.
  - apply copy_step; [lia|]. intros _ o. naive_solver.
  - apply copy_step; [lia|]. intros _ o. rewrite res_bind_Ok. setoid_rewrite bounded_utf8_length_spec.
    rewrite andb_true_iff, Z.leb_le. pose proof utf8_limit. naive_solver.
  - pose proof (zsum_map_nonneg copy_nodes l (λ x, proj1 (copy_costs_nonneg x))) as Hnn.
    apply copy_step; [lia|]. intros Hn o.
    destruct (Z.ltb_spec 1024 (Z.of_nat (length l))), (Z.leb_spec (Z.of_nat (length l)) 1024); try lia;
      cbn [raise_if res_bind andb]; [naive_solver|]. rewrite res_bind_Ok. split.
    + intros (r & Hr & [= <-]). apply (copy_list_spec (depth + 1) l IH) in Hr as (Hs & -> & Hc). cbn [fst snd].
      split; [exact Hs|]. split; [do 2 f_equal; lia|]. destruct Hc as [-> |Hc]; [left; reflexivity|right; lia].
    + intros (Hs & -> & Hc). eexists. split; [apply (copy_list_spec (depth + 1) l IH)|].
      * split; [exact Hs|]. split; [reflexivity|]. destruct Hc as [Hc|Hc]; [|right; lia].
        destruct l as [|x l]; [left; reflexivity|]. cbn [map] in Hc. rewrite zsum_cons in Hc.
        pose proof (copy_nodes_pos x). pose proof (zsum_map_nonneg copy_nodes l (λ x, proj1 (copy_costs_nonneg x))). lia.
      * cbn [fst snd]. do 3 f_equal; lia.
  - apply copy_step; [lia|]. intros _ o. naive_solver.
  - pose proof (zsum_map_nonneg (λ kv, copy_nodes kv.1 + copy_nodes kv.2) l
      (λ x, Z.add_nonneg_nonneg _ _ (proj1 (copy_costs_nonneg x.1)) (proj1 (copy_costs_nonneg x.2)))) as Hnn.
    apply copy_step; [lia|]. intros Hn o. rewrite res_bind_Ok.
    assert (Hk : forallb (λ kv, match kv.1 with VStr _ => true | _ => false end && effect_shape (depth + 1) kv.1 &&
                   effect_shape (depth + 1) kv.2) l =
                 negb (existsb (λ kv, match kv.1 with VStr _ => false | _ => true end) l) &&
                 forallb (λ kv, effect_shape (depth + 1) kv.1 && effect_shape (depth + 1) kv.2) l).
    { clear. induction l as [|[k v] l IHl]; [reflexivity|]. cbn [forallb existsb fst snd]. rewrite IHl, negb_orb.
      destruct k; cbn [negb andb]; try reflexivity; btauto. }
    rewrite Hk. clear Hk.
    destruct (Z.ltb_spec 256 (Z.of_nat (length l))), (Z.leb_spec (Z.of_nat (length l)) 256); try lia;
      cbn [orb raise_if res_bind andb]; [naive_solver|]. destruct (existsb _ l); cbn [raise_if negb andb]; [naive_solver|].
    split.
    + intros (u0 & _ & (r & Hr & [= <-])%res_bind_Ok). apply (copy_dict_spec (depth + 1) l IH) in Hr as (Hs & -> & Hc).
      cbn [fst snd]. split; [exact Hs|]. split; [do 2 f_equal; lia|]. destruct Hc as [-> |Hc]; [left; reflexivity|right; lia].
    + intros (Hs & -> & Hc). exists tt. split; [reflexivity|]. rewrite res_bind_Ok. eexists.
      split; [apply (copy_dict_spec (depth + 1) l IH)|].
      * split; [exact Hs|]. split; [reflexivity|]. destruct Hc as [Hc|Hc]; [|right; lia].
        destruct l as [|[x y] l]; [by left|]. cbn [map fst snd] in Hc. rewrite zsum_cons in Hc.
        pose proof (copy_nodes_pos x). pose proof (copy_costs_nonneg y).
        pose proof (zsum_map_nonneg (λ kv, copy_nodes kv.1 + copy_nodes kv.2) l
          (λ x, Z.add_nonneg_nonneg _ _ (proj1 (copy_costs_nonneg x.1)) (proj1 (copy_costs_nonneg x.2)))). lia.
      * cbn [fst snd]. do 3 f_equal; lia.
  - apply copy_step; [lia|]. intros _ o. naive_solver.
Qed.

(** The exact contract of [_json_copy]. *)
Lemma json_copy_iff v w :
  json_copy v = Ok w ↔
  w = v ∧ effect_shape 0 v = true ∧ copy_nodes v <= 32768 ∧ copy_bytes v <= MAX_EFFECT_RECORD_BYTES ∧
  ∃ text, canonical_json v = Ok text ∧ no_surrogate text = true ∧ utf8_length text <= MAX_EFFECT_RECORD_BYTES.
Proof.
  unfold json_copy. rewrite res_bind_Ok. split.
  - intros (out & (Hs & -> & Hn & Hb)%copy_json_spec & H). cbn [fst snd] in *.
    apply res_bind_Ok in H as (text & Ht & H). apply res_bind_Ok in H as (n & Hl & [= <-]).
    apply bounded_utf8_length_spec in Hl as (_ & Hsu & Hle & _). repeat split; try done; try lia. by exists text.
  - intros (-> & Hs & Hn & Hb & text & Ht & Hsu & Hle). eexists. split.
    + apply copy_json_spec. repeat split; cbn [fst snd]; [done|lia..].
    + cbn [fst snd]. rewrite Ht. cbn [res_bind].
      rewrite (proj2 (bounded_utf8_length_spec text MAX_EFFECT_RECORD_BYTES _)) by (repeat split; done). done.
Qed.

(** The copy of an effect record succeeds exactly on inert JSON values within every bound: nesting, nodes with
    the keys counted, array and object sizes, integer widths, text without surrogates, the byte budget, and the
    length of the canonical text.  It changes nothing. *)
Theorem json_copy_exact v w :
  json_copy v = Ok w ↔
  w = v ∧ effect_shape 0 v = true ∧ copy_nodes v <= 32768 ∧ copy_bytes v <= MAX_EFFECT_RECORD_BYTES ∧
  ∃ text, canonical_json v = Ok text ∧ no_surrogate text = true ∧ utf8_length text <= MAX_EFFECT_RECORD_BYTES.
Proof. apply json_copy_iff. Qed.

(** ** What a receipt may report *)

(** The application status with the flag that must go with it. *)
Definition reports (r : EffectReceiptFields) (st : EffectStatus) (known : option bool) : Prop :=
  er_status r = st ∧ er_effect_applied r = known ∧ er_ambiguous r = negb (is_some known).

(** A first execution or a retry that names the event it recovers from. *)
Definition attempted_by (r : EffectReceiptFields) : Prop :=
  (er_command_type r = EXECUTE_EFFECT ∧ er_attempt r = 1 ∧ er_recovery_of_event_id r = None) ∨
  (er_command_type r = RETRY_EFFECT ∧ 2 <= er_attempt r ∧ is_some (er_recovery_of_event_id r) = true).

Definition recovers (r : EffectReceiptFields) : Prop :=
  er_command_type r = RECONCILE_EFFECT ∧ is_some (er_recovery_of_event_id r) = true ∧ er_pre_evidence r = None.

Definition observed (r : EffectReceiptFields) (b a : EffectObservation) : Prop :=
  er_pre_evidence r = Some b ∧ er_post_evidence r = Some a ∧ eob_phase b = PHASE_BEFORE ∧ eob_phase a = PHASE_AFTER ∧
  eob_key b = eob_key a.

Definition withdrawn (r : EffectReceiptFields) : Prop :=
  er_command_type r = CANCEL_EFFECT ∧ er_cancel_requested r = true ∧ er_pre_evidence r = None ∧
  er_post_evidence r = None ∧ er_failure_reason r = None.

(** The reports that are allowed, each with the evidence it needs. *)
Inductive attested (r : EffectReceiptFields) : Prop :=
  | attested_applied b a :
      attempted_by r → observed r b a → reports r EFFECT_APPLIED (Some true) → er_failure_reason r = None →
      er_cancel_requested r = false → attested r
  | attested_not_applied b a f :
      attempted_by r → observed r b a → eob_value b = eob_value a → reports r EFFECT_NOT_APPLIED (Some false) →
      er_failure_reason r = Some f → f ∈ [FAILURE_BEFORE; PRECONDITION_MISMATCH] → er_cancel_requested r = false →
      attested r
  | attested_unacknowledged b :
      attempted_by r → er_pre_evidence r = Some b → eob_phase b = PHASE_BEFORE → er_post_evidence r = None →
      reports r EFFECT_AMBIGUOUS None → er_failure_reason r = Some ACKNOWLEDGEMENT_LOST → attested r
  | attested_reconciled a (applied : bool) :
      recovers r → er_post_evidence r = Some a → eob_phase a = PHASE_RECONCILIATION →
      reports r (if applied then RECONCILED_APPLIED else RECONCILED_NOT_APPLIED) (Some applied) →
      er_failure_reason r = None → attested r
  | attested_unreconciled :
      recovers r → er_post_evidence r = None → reports r EFFECT_AMBIGUOUS None →
      er_failure_reason r = Some RECONCILIATION_UNKNOWN → attested r
  | attested_cancelled : withdrawn r → reports r EFFECT_CANCELLED (Some false) → attested r
  | attested_late_cancel : withdrawn r → reports r EFFECT_AMBIGUOUS None → attested r.

(** One committed request per tick, a real transition, and attempts within the counters. *)
Definition accounted (r : EffectReceiptFields) : Prop :=
  let c := er_counters r in
  er_logical_tick r = ec_requests c ∧ er_logical_tick r ≠ 0 ∧ er_prior_state_id r ≠ er_resulting_state_id r ∧
  (er_attempt r = 0 → er_status r = EFFECT_CANCELLED) ∧
  er_attempt r <= ec_executions c ∧ Z.max 0 (er_attempt r - 1) <= ec_retries c ∧
  (er_command_type r = RECONCILE_EFFECT → ec_reconciliations c ≠ 0) ∧
  (er_command_type r = CANCEL_EFFECT → ec_executions c + ec_reconciliations c ≠ ec_requests c).

Lemma guard_Ok {A} (b : bool) (e : exn) (k : res A) x : (raise_if b e ;;* k) = Ok x ↔ b = false ∧ k = Ok x.
Proof. destruct b; simpl; naive_solver. Qed.

Definition receipt_checks (r : EffectReceiptFields) : res unit :=
  check_outcome r ;;* check_receipt_accounting r ;;* check_observations r ;;* check_command r.

Lemma accounting_exact r :
  check_receipt_accounting r = Ok tt ↔
  accounted r ∧ (er_status r ∈ [EFFECT_APPLIED; EFFECT_NOT_APPLIED] → er_cancel_requested r = false).
Proof.
  unfold check_receipt_accounting, accounted. cbv zeta. rewrite !guard_Ok, raise_if_Ok.
  rewrite !orb_false_iff, !andb_false_iff, !negb_false_iff, !Z.eqb_eq, !Z.eqb_neq, !Z.ltb_ge,
    !bool_decide_eq_false, !bool_decide_eq_true.
  assert (forall P Q : Prop, Decision P → (¬ P ∨ Q) ↔ (P → Q)) as Himp by (intros P Q [|]; tauto).
  rewrite !Himp by apply _. clear Himp.
  destruct (Z.eq_dec (er_attempt r) 0); intuition congruence.
Qed.

Lemma seq_Ok {A} (m : res unit) (k : res A) x : (m ;;* k) = Ok x ↔ m = Ok tt ∧ k = Ok x.
Proof. destruct m as [[]|]; simpl; naive_solver. Qed.

Lemma outcome_exact r :
  check_outcome r = Ok tt ↔
  ∃ st k, reports r st k ∧ match st, k with
    | EFFECT_APPLIED, Some true | RECONCILED_APPLIED, Some true => True
    | EFFECT_NOT_APPLIED, Some false | RECONCILED_NOT_APPLIED, Some false | EFFECT_CANCELLED, Some false => True
    | EFFECT_AMBIGUOUS, None => True
    | _, _ => False
    end.
Proof.
  unfold check_outcome, reports. destruct (er_status r), (er_effect_applied r) as [[]|], (er_ambiguous r);
    (split; [intros H; first [discriminate H | eexists _, _; split; [split; [reflexivity|split; reflexivity]|exact I]]
            |intros (st & k & (<- & <- & H) & H'); first [contradiction | discriminate H | reflexivity]]).
Qed.

Lemma evidence_exact r :
  check_observations r = Ok tt ↔
  (∀ b, er_pre_evidence r = Some b → eob_phase b = PHASE_BEFORE) ∧
  (∀ a, er_post_evidence r = Some a →
     eob_phase a = if decide (er_command_type r = RECONCILE_EFFECT) then PHASE_RECONCILIATION else PHASE_AFTER) ∧
  (∀ b a, er_pre_evidence r = Some b → er_post_evidence r = Some a → eob_key b = eob_key a).
Proof.
  unfold check_observations. cbv zeta. rewrite !guard_Ok, raise_if_Ok.
  destruct (er_pre_evidence r) as [b|], (er_post_evidence r) as [a|];
    rewrite ?negb_false_iff, ?bool_decide_eq_true; naive_solver.
Qed.

Ltac known_decisions :=
  repeat first [rewrite decide_True by reflexivity | rewrite decide_False by discriminate].

Lemma execution_exact r :
  er_command_type r = EXECUTE_EFFECT ∨ er_command_type r = RETRY_EFFECT →
  check_execution r = Ok tt ↔
  attempted_by r ∧ ∃ b, er_pre_evidence r = Some b ∧
    match er_status r with
    | EFFECT_APPLIED => is_some (er_post_evidence r) = true ∧ er_failure_reason r = None
    | EFFECT_NOT_APPLIED => ∃ a f, er_post_evidence r = Some a ∧ eob_value b = eob_value a ∧
        er_failure_reason r = Some f ∧ f ∈ [FAILURE_BEFORE; PRECONDITION_MISMATCH]
    | EFFECT_AMBIGUOUS => er_post_evidence r = None ∧ er_failure_reason r = Some ACKNOWLEDGEMENT_LOST
    | _ => False
    end.
Proof.
  intros Hc. unfold check_execution, attempted_by. cbv zeta. rewrite !guard_Ok.
  assert (Hattempt :
    (bool_decide (er_command_type r = EXECUTE_EFFECT) &&
     (negb (er_attempt r =? 1) || is_some (er_recovery_of_event_id r)) = false ∧
     bool_decide (er_command_type r = RETRY_EFFECT) &&
     ((er_attempt r <? 2) || negb (is_some (er_recovery_of_event_id r))) = false) ↔
    (er_command_type r = EXECUTE_EFFECT ∧ er_attempt r = 1 ∧ er_recovery_of_event_id r = None) ∨
    (er_command_type r = RETRY_EFFECT ∧ 2 <= er_attempt r ∧ is_some (er_recovery_of_event_id r) = true)).
  { destruct Hc as [-> | ->], (er_recovery_of_event_id r), (Z.eqb_spec (er_attempt r) 1), (Z.ltb_spec (er_attempt r) 2);
      rewrite ?(bool_decide_true (EXECUTE_EFFECT = EXECUTE_EFFECT)), ?(bool_decide_true (RETRY_EFFECT = RETRY_EFFECT)),
        ?(bool_decide_false (EXECUTE_EFFECT = RETRY_EFFECT)), ?(bool_decide_false (RETRY_EFFECT = EXECUTE_EFFECT)) by done;
      cbn [andb orb negb is_some]; intuition (congruence || lia). }
  rewrite <- Hattempt. clear Hc Hattempt.
  destruct (er_pre_evidence r) as [b|]; cbn [is_some negb].
  2: { rewrite orb_true_r. naive_solver. }
  rewrite orb_false_r.
  generalize (bool_decide (er_command_type r = EXECUTE_EFFECT) &&
    (negb (er_attempt r =? 1) || is_some (er_recovery_of_event_id r))).
  generalize (bool_decide (er_command_type r = RETRY_EFFECT) &&
    ((er_attempt r <? 2) || negb (is_some (er_recovery_of_event_id r)))).
  intros b2 b1. destruct (er_status r); try (split; [intros (H & _); discriminate H | naive_solver]).
  - assert (H : bool_decide (er_failure_reason r ∈ [Some FAILURE_BEFORE; Some PRECONDITION_MISMATCH]) = true ↔
      ∃ f, er_failure_reason r = Some f ∧ f ∈ [FAILURE_BEFORE; PRECONDITION_MISMATCH])
      by (rewrite bool_decide_eq_true; destruct (er_failure_reason r) as [f|]; setoid_rewrite list_elem_of_In; simpl;
          naive_solver).
    known_decisions.
    destruct (er_post_evidence r) as [a|]; [|naive_solver]. known_decisions.
    rewrite raise_if_Ok, orb_false_iff, !negb_false_iff, H, Z.eqb_eq. naive_solver.
  - known_decisions.
    destruct (er_post_evidence r) as [a|]; cbn [is_some]; [|naive_solver]. known_decisions.
    rewrite raise_if_Ok. destruct (er_failure_reason r); naive_solver.
  - known_decisions.
    change (negb (bool_decide (EFFECT_AMBIGUOUS ∈ [EFFECT_APPLIED; EFFECT_NOT_APPLIED; EFFECT_AMBIGUOUS]))) with false.
    rewrite raise_if_Ok, orb_false_iff, negb_false_iff, bool_decide_eq_true.
    destruct (er_post_evidence r); cbn [is_some]; naive_solver.
Qed.

Lemma reconciliation_exact r :
  er_command_type r = RECONCILE_EFFECT →
  check_reconciliation r = Ok tt ↔
  recovers r ∧
  match er_status r with
  | EFFECT_AMBIGUOUS => er_post_evidence r = None ∧ er_failure_reason r = Some RECONCILIATION_UNKNOWN
  | RECONCILED_APPLIED | RECONCILED_NOT_APPLIED => is_some (er_post_evidence r) = true ∧ er_failure_reason r = None
  | _ => False
  end.
Proof.
  intros Hc. unfold check_reconciliation, recovers. cbv zeta. rewrite guard_Ok, orb_false_iff, negb_false_iff.
  destruct (er_pre_evidence r) as [b|]; cbn [is_some]; [naive_solver|].
  destruct (er_status r); known_decisions; rewrite raise_if_Ok; cbn;
    destruct (er_post_evidence r), (er_failure_reason r) as [[]|]; naive_solver.
Qed.

Lemma cancellation_exact r :
  er_command_type r = CANCEL_EFFECT →
  check_cancellation r = Ok tt ↔ withdrawn r ∧ (er_status r = EFFECT_CANCELLED ∨ er_status r = EFFECT_AMBIGUOUS).
Proof.
  intros Hc. unfold check_cancellation, withdrawn. rewrite raise_if_Ok.
  destruct (er_status r), (er_cancel_requested r), (er_pre_evidence r), (er_post_evidence r), (er_failure_reason r);
    cbn; naive_solver.
Qed.

Lemma is_some_true {A} (o : option A) : is_some o = true → ∃ a, o = Some a.
Proof. destruct o; naive_solver. Qed.

Lemma commands_attest r :
  check_outcome r = Ok tt → (er_status r ∈ [EFFECT_APPLIED; EFFECT_NOT_APPLIED] → er_cancel_requested r = false) →
  check_observations r = Ok tt → check_command r = Ok tt → attested r.
Proof.
  rewrite outcome_exact, evidence_exact. intros (st & k & Hr & Hk) Hcancel (Hbefore & Hafter & Hkey) H.
  pose proof (proj1 Hr) as Hst. unfold check_command in H. destruct (er_command_type r) eqn:Hc.
  1,2: apply execution_exact in H as (Ha & b & Hb & H); [|by rewrite Hc; auto]; rewrite Hst in H, Hcancel;
    destruct st; try contradiction; destruct k as [[]|]; try contradiction.
  1,4: destruct H as (a & f & Hp & Hv & Hf & Hin); apply (attested_not_applied r b a f); unfold observed;
    eauto 10 using list_elem_of_here, list_elem_of_further.
  1,3: destruct H as [(a & Hp)%is_some_true Hf]; apply (attested_applied r b a); unfold observed;
    eauto 10 using list_elem_of_here.
  1,2: destruct H; apply (attested_unacknowledged r b); auto.
  - apply reconciliation_exact in H as [Hrec H]; [|done]. rewrite Hst in H.
    rewrite decide_True in Hafter by reflexivity.
    destruct st; try contradiction; destruct k as [[]|]; try contradiction; destruct H as [H Hf].
    + by apply attested_unreconciled.
    + apply is_some_true in H as [a H]. apply (attested_reconciled r a true); auto.
    + apply is_some_true in H as [a H]. apply (attested_reconciled r a false); auto.
  - apply cancellation_exact in H as [Hw H]; [|done]. rewrite Hst in H.
    destruct H as [-> | ->], k as [[]|]; try contradiction; [by apply attested_cancelled|by apply attested_late_cancel].
Qed.

Lemma attested_commands r :
  attested r →
  check_outcome r = Ok tt ∧ (er_status r ∈ [EFFECT_APPLIED; EFFECT_NOT_APPLIED] → er_cancel_requested r = false) ∧
  check_observations r = Ok tt ∧ check_command r = Ok tt.
Proof.
  rewrite outcome_exact, evidence_exact.
  assert (Hin : ∀ st, st ∈ [EFFECT_APPLIED; EFFECT_NOT_APPLIED] → st = EFFECT_APPLIED ∨ st = EFFECT_NOT_APPLIED)
    by (intros st; rewrite list_elem_of_In; simpl; naive_solver).
  intros H. split; [|split; [|split]].
  - destruct H; (eexists _, _; split; [eassumption|]); try exact I. by destruct applied.
  - intros Hs%Hin. destruct H as [| | |? [] ? ? ? [H]|? ? [H]|? [H]|? [H]]; try assumption;
      try (match goal with H : reports _ _ _ |- _ => destruct H as [H _] end); destruct Hs; congruence.
  - destruct H as [b a Ha (Hb & Hp & H1 & H2 & H3)|b a f Ha (Hb & Hp & H1 & H2 & H3)|b Ha Hb H1 Hp|a k (Hc & _ & Hb) Hp H2
      |(Hc & _ & Hb) Hp|(Hc & _ & Hb & Hp & _)|(Hc & _ & Hb & Hp & _)]; rewrite Hb, Hp; split_and!; try naive_solver;
      intros ? [= <-]; [rewrite decide_False by (destruct Ha as [[]|[]]; congruence)..|rewrite decide_True by done]; done.
  - unfold check_command.
    assert (Hex : attempted_by r → (check_execution r = Ok tt) →
      match er_command_type r with
      | EXECUTE_EFFECT | RETRY_EFFECT => check_execution r | RECONCILE_EFFECT => check_reconciliation r
      | CANCEL_EFFECT => check_cancellation r
      end = Ok tt) by (intros [[-> _]|[-> _]]; auto).
    destruct H as [b a Ha (Hb & Hp & _) [Hs _] Hf|b a f Ha (Hb & Hp & _) Hv [Hs _] Hf Hi|b Ha Hb _ Hp [Hs _] Hf
      |a k Hr Hp _ [Hs _] Hf|Hr Hp [Hs _] Hf|Hw [Hs _]|Hw [Hs _]].
    1-3: apply Hex, execution_exact; [done|by destruct Ha as [[? _]|[? _]]; auto|]; rewrite Hs, Hb, Hp, Hf; eauto 10.
    1-2: rewrite (proj1 Hr); apply reconciliation_exact; [exact (proj1 Hr)|]; rewrite Hs, Hp, Hf; by try destruct k.
    all: rewrite (proj1 Hw); apply cancellation_exact; [exact (proj1 Hw)|]; rewrite Hs; auto.
Qed.

Lemma receipt_checks_iff r : receipt_checks r = Ok tt ↔ attested r ∧ accounted r.
Proof.
  unfold receipt_checks. rewrite !seq_Ok, accounting_exact. split.
  - intros (Ho & [Ha Hc] & He & Hk). split; [by apply commands_attest|done].
  - intros [(Ho & Hc & He & Hk)%attested_commands Ha]. auto.
Qed.

(** The checks between the fields of an effect receipt accept exactly the reports that carry the evidence for
    what they claim: an effect is reported applied only with observations before and after it and no failure, not
    applied only when the cell kept its value, ambiguous only without a claim about application; a reconciliation
    names the event that it settles; a cancellation claims no known outcome.  The clock, the attempt and the counters
    agree and the state changed. *)
Theorem receipt_checks_exact r : receipt_checks r = Ok tt ↔ attested r ∧ accounted r.
Proof. apply receipt_checks_iff. Qed.

(** ** Validated receipts *)

Lemma identity_Ok v s : identity v = Ok s ↔ v = VStr s ∧ fingerprint_pattern s = true.
Proof.
  unfold identity. destruct v as [| | | |s0| | | |]; cbn [exact_str res_bind]; try (split; [discriminate|by intros [[=] _]]).
  destruct (require_fingerprint s0) as [[]|] eqn:E; cbn [res_bind].
  - apply require_fingerprint_Ok in E. naive_solver.
  - split; [discriminate|]. intros [[= <-] H]. apply require_fingerprint_Ok in H. congruence.
Qed.

(** What [validate_receipt] has checked. *)
Lemma validate_receipt_Ok v r :
  validate_receipt v = Ok r →
  attested r ∧ accounted r ∧
  domain_fingerprint EFFECT_COMMAND_ID_DOMAIN (command_record (er_command_type r) (er_effect_session_id r)
    (er_prior_state_id r) (er_action_id r) (er_occurrence_key r)) = Ok (er_command_id r) ∧
  check_session_identity (er_effect_session_id r) (er_effect_profile_id r) (er_runtime_session_id r) (er_task_id r)
    (er_governance_id r) = Ok tt.
Proof.
  unfold validate_receipt. intros (record & _ & (r' & _ & H)%res_bind_Ok)%res_bind_Ok.
  apply seq_Ok in H as [Ho H]. apply seq_Ok in H as [Ha H]. apply seq_Ok in H as [He H]. apply seq_Ok in H as [Hc H].
  apply seq_Ok in H as [Hi H]. injection H as ->.
  assert (Hchecks : receipt_checks r = Ok tt) by (unfold receipt_checks; rewrite !seq_Ok; auto).
  apply receipt_checks_iff in Hchecks as [Hat Hac]. split; [exact Hat|]. split; [exact Hac|].
  unfold check_receipt_identities in Hi. apply res_bind_Ok in Hi as (i & Hcmd & Hi).
  apply guard_Ok in Hi as [->%negb_false_iff%bool_decide_eq_true Hi].
  apply res_bind_Ok in Hi as (ev & _ & Hi). apply res_bind_Ok in Hi as (ei & _ & Hi). apply guard_Ok in Hi as [_ Hi].
  apply seq_Ok in Hi as [Hs _]. split; [exact Hcmd|exact Hs].
Qed.

Lemma command_record_wf c s st a k : dict_wf (command_record c s st a k) = true.
Proof. unfold command_record. by wf_obj. Qed.

Lemma effect_command_inj a b : effect_command_value a = effect_command_value b → a = b.
Proof. destruct a, b; (reflexivity || (intros H; vm_compute in H; discriminate H)). Qed.

(** What the identities of a command and of a session hash. *)
Definition command_message (c : EffectCommand) (session state action key : pystr) : res (list Z) :=
  domain_message EFFECT_COMMAND_ID_DOMAIN (command_record c session state action key).
Definition session_message (profile runtime task governance : pystr) : res (list Z) :=
  domain_message EFFECT_SESSION_ID_DOMAIN (session_sources_record profile runtime task governance).

(** A command identity determines the command. *)
Lemma command_id_binds c1 c2 s1 s2 st1 st2 a1 a2 k1 k2 i :
  domain_fingerprint EFFECT_COMMAND_ID_DOMAIN (command_record c1 s1 st1 a1 k1) = Ok i →
  domain_fingerprint EFFECT_COMMAND_ID_DOMAIN (command_record c2 s2 st2 a2 k2) = Ok i →
  (c1 = c2 ∧ s1 = s2 ∧ st1 = st2 ∧ a1 = a2 ∧ k1 = k2) ∨
  collide (command_message c1 s1 st1 a1 k1) (command_message c2 s2 st2 a2 k2).
Proof.
  intros H1 H2. destruct (fingerprint_objs _ _ _ _ H1 H2) as [E|]; [apply command_record_wf..| |by right]. left.
  obj_field_eq E "command_type"%string. obj_field_eq E "effect_session_id"%string.
  obj_field_eq E "expected_state_id"%string. obj_field_eq E "action_id"%string. obj_field_eq E "occurrence_key"%string.
  cbn [canon] in *. injection F as F%effect_command_inj. repeat split; congruence.
Qed.

(** A session identity determines its sources. *)
Lemma session_identity_binds s p1 p2 r1 r2 t1 t2 g1 g2 :
  check_session_identity s p1 r1 t1 g1 = Ok tt → check_session_identity s p2 r2 t2 g2 = Ok tt →
  (p1 = p2 ∧ r1 = r2 ∧ t1 = t2 ∧ g1 = g2) ∨ collide (session_message p1 r1 t1 g1) (session_message p2 r2 t2 g2).
Proof.
  unfold check_session_identity. intros (i & H1 & ->%raise_if_Ok%negb_false_iff%bool_decide_eq_true)%res_bind_Ok
    (j & H2 & ->%raise_if_Ok%negb_false_iff%bool_decide_eq_true)%res_bind_Ok.
  destruct (fingerprint_objs _ _ _ _ H1 H2) as [E|]; [by wf_obj..| |by right]. left.
  obj_field_eq E "effect_profile_id"%string. obj_field_eq E "runtime_session_id"%string.
  obj_field_eq E "task_id"%string. obj_field_eq E "governance_id"%string. cbn [canon] in *. repeat split; congruence.
Qed.

(** ** Validated snapshots *)

Lemma count_Ok v m p z : count v m p = Ok z ↔ v = VInt z ∧ (if p then 1 else 0) <= z <= m.
Proof.
  unfold count. destruct v; cbn [exact_z res_bind]; try (split; [discriminate|by intros [[=] _]]).
  rewrite guard_Ok, negb_false_iff, andb_true_iff, !Z.leb_le. naive_solver.
Qed.

Lemma read_Ok {A} record name (check : pyval → res A) a :
  read record name check = Ok a ↔ ∃ v, Snapshot.field record name = Ok v ∧ check v = Ok a.
Proof. unfold read. by rewrite res_bind_Ok. Qed.

(** Each field of an occurrence on its own. *)
Definition occurrence_fields (e : EffectOccurrence) : Prop :=
  0 <= eoc_attempts e <= MAX_EFFECT_OUTCOMES ∧ fingerprint_pattern (eoc_action_id e) = true ∧
  symbol_pattern (eoc_occurrence_key e) = true.

Lemma symbol_Ok v s : Effects.symbol v = Ok s → v = VStr s ∧ symbol_pattern s = true.
Proof.
  unfold Effects.symbol. intros (w & Hw & (u0 & Hs%raise_if_Ok%negb_false_iff & [= <-])%res_bind_Ok)%res_bind_Ok.
  destruct v; try discriminate Hw. injection Hw as ->. split; [reflexivity|exact Hs].
Qed.

Lemma read_occurrence_fields v e : read_occurrence v = Ok e → occurrence_fields e.
Proof.
  unfold read_occurrence. intros (en & _ & H)%res_bind_Ok.
  apply res_bind_Ok in H as (a & (w1 & _ & [_ Ha]%identity_Ok)%read_Ok & H).
  apply res_bind_Ok in H as (k & (w2 & _ & [_ Hk]%symbol_Ok)%read_Ok & H). apply res_bind_Ok in H as (? & _ & H).
  apply res_bind_Ok in H as (n & (w & _ & Hn)%read_Ok & H). apply count_Ok in Hn as [_ Hn].
  do 2 (apply res_bind_Ok in H as (? & _ & H)). injection H as <-.
  split; [exact Hn|split; [exact Ha|exact Hk]].
Qed.

Lemma read_occurrences_unique l : ∀ actions keys entries,
  read_occurrences actions keys l = Ok entries →
  NoDup (map eoc_action_id entries) ∧ NoDup (map eoc_occurrence_key entries) ∧
  (∀ e, e ∈ entries → eoc_action_id e ∉ actions ∧ eoc_occurrence_key e ∉ keys) ∧
  Forall occurrence_fields entries ∧ length entries = length l.
Proof.
  induction l as [|v l IH]; intros actions keys entries H; cbn [read_occurrences] in H.
  - injection H as <-. split_and!; try constructor; by apply not_elem_of_nil in H.
  - apply res_bind_Ok in H as (e & He & H). apply guard_Ok in H as [[Ha Hk]%orb_false_iff H].
    apply res_bind_Ok in H as (es & Hes & [= <-]). apply IH in Hes as (Hna & Hnk & Hout & Hb & Hl).
    apply str_in_false in Ha, Hk. cbn [map]. split_and!.
    + apply NoDup_cons. split; [|done]. intros (e' & E & He')%list_elem_of_fmap. apply Hout in He' as [Hn _].
      rewrite <- E in Hn. by apply Hn, list_elem_of_here.
    + apply NoDup_cons. split; [|done]. intros (e' & E & He')%list_elem_of_fmap. apply Hout in He' as [_ Hn].
      rewrite <- E in Hn. by apply Hn, list_elem_of_here.
    + intros e' [-> |He']%elem_of_cons; [done|]. apply Hout in He' as [Hn1 Hn2].
      by split; intros Hin; [apply Hn1|apply Hn2]; apply list_elem_of_further.
    + constructor; [|done]. by apply read_occurrence_fields in He.
    + cbn. by rewrite Hl.
Qed.

(** The retries of an occurrence are its attempts after the first. *)
Definition retried (e : EffectOccurrence) : Z := Z.max 0 (eoc_attempts e - 1).

Lemma total_attempts_zsum l : total_attempts l = zsum (map eoc_attempts l).
Proof. induction l as [|e l IH]; [done|]. cbn [map total_attempts foldr]. rewrite zsum_cons, <- IH. reflexivity. Qed.

Lemma retries_split l :
  Forall occurrence_fields l →
  total_attempts l - attempted l = zsum (map retried l).
Proof.
  rewrite total_attempts_zsum. induction 1 as [|e l [[He _] _] _ IH]; [done|]. cbn [map]. rewrite !zsum_cons, <- IH.
  unfold attempted, retried. cbn [List.filter]. destruct (Z.ltb_spec 0 (eoc_attempts e)); cbn [length]; lia.
Qed.

(** The status of an occurrence, its attempts and its event. *)
Inductive occurrence_ok (e : EffectOccurrence) : Prop :=
  | occurrence_pending :
      eoc_status e = EFFECT_PENDING → eoc_attempts e = 0 → eoc_last_event_id e = None →
      eoc_cancel_requested e = false → occurrence_ok e
  | occurrence_settled i :
      eoc_status e ≠ EFFECT_PENDING → eoc_last_event_id e = Some i →
      (eoc_attempts e = 0 → eoc_status e = EFFECT_CANCELLED) →
      (eoc_status e = EFFECT_CANCELLED → eoc_cancel_requested e = true) →
      (eoc_status e ∈ [EFFECT_APPLIED; EFFECT_NOT_APPLIED] → eoc_cancel_requested e = false) → occurrence_ok e.

Lemma occurrence_exact e : check_occurrence e = Ok tt ↔ occurrence_ok e.
Proof.
  unfold check_occurrence. rewrite !guard_Ok. destruct (decide (eoc_status e = EFFECT_PENDING)) as [Hp|Hp].
  - rewrite raise_if_Ok, !orb_false_iff, negb_false_iff, Z.eqb_eq, Hp. split.
    + intros (_ & _ & [Ha Hl] & Hc). apply occurrence_pending; auto. by destruct (eoc_last_event_id e).
    + intros [_ -> -> -> |? []]; [by vm_compute|done].
  - assert (Hset : ∀ st, st ∈ [EFFECT_APPLIED; EFFECT_NOT_APPLIED] ↔ st = EFFECT_APPLIED ∨ st = EFFECT_NOT_APPLIED)
      by (intros st; rewrite list_elem_of_In; simpl; naive_solver).
    destruct e as [a k st n c ev]. cbn [eoc_status eoc_cancel_requested eoc_last_event_id eoc_attempts] in *.
    rewrite raise_if_Ok. split.
    + intros (H1 & H2 & H3). destruct ev as [i|]; [|done]. destruct (Z.eqb_spec n 0), st, c; cbn in H1, H2, H3; try done;
        (eapply occurrence_settled; cbn; try rewrite Hset; [done|reflexivity|naive_solver..]).
    + intros [? | i _ [= ->] Ha Hc Hk]; [done|]. cbn in Ha, Hc, Hk. rewrite Hset in Hk.
      destruct (Z.eqb_spec n 0), st, c; cbn; naive_solver.
Qed.

(** The accounting that a snapshot must satisfy. *)
Record snapshot_accounts (s : EffectSnapshotFields) : Prop := {
  sa_clock : es_generation s = es_logical_tick s ∧ es_logical_tick s = ec_requests (es_counters s);
  sa_executions : ec_executions (es_counters s) = zsum (map eoc_attempts (es_occurrences s));
  sa_retries : ec_retries (es_counters s) = zsum (map retried (es_occurrences s));
  sa_requests : ec_executions (es_counters s) + ec_reconciliations (es_counters s) <= ec_requests (es_counters s);
  sa_limits :
    ec_requests (es_counters s) <= el_max_requests (es_limits s) ∧
    ec_executions (es_counters s) <= el_max_executions (es_limits s) ∧
    ec_retries (es_counters s) <= el_max_retries (es_limits s) ∧
    ec_reconciliations (es_counters s) <= el_max_reconciliations (es_limits s);
  sa_count : 1 <= Z.of_nat (length (es_occurrences s)) <= MAX_EFFECT_ENTRIES;
  sa_actions : NoDup (map eoc_action_id (es_occurrences s));
  sa_keys : NoDup (map eoc_occurrence_key (es_occurrences s));
  sa_fields : Forall occurrence_fields (es_occurrences s);
  sa_occurrences : Forall occurrence_ok (es_occurrences s)
}.

Lemma read_counters_Ok v l c :
  read_counters v l = Ok c →
  0 <= ec_requests c <= el_max_requests l ∧ 0 <= ec_executions c <= el_max_executions l ∧
  0 <= ec_retries c <= el_max_retries l ∧ 0 <= ec_reconciliations c <= el_max_reconciliations l ∧
  ec_executions c + ec_reconciliations c <= ec_requests c ∧ ec_retries c <= ec_executions c.
Proof.
  unfold read_counters. intros (a & _ & H)%res_bind_Ok.
  apply res_bind_Ok in H as (v1 & _ & H). apply res_bind_Ok in H as (n1 & [_ H1]%count_Ok & H).
  apply res_bind_Ok in H as (v2 & _ & H). apply res_bind_Ok in H as (n2 & [_ H2]%count_Ok & H).
  apply res_bind_Ok in H as (v3 & _ & H). apply res_bind_Ok in H as (n3 & [_ H3]%count_Ok & H).
  apply res_bind_Ok in H as (v4 & _ & H). apply res_bind_Ok in H as (n4 & [_ H4]%count_Ok & H).
  apply guard_Ok in H as [[Ha%Z.ltb_ge Hb%Z.ltb_ge]%orb_false_iff [= <-]].
  cbn [ec_requests ec_executions ec_retries ec_reconciliations]. lia.
Qed.

Lemma effect_accounting_Ok g t c l :
  check_effect_accounting g t c l = Ok tt →
  g = t ∧ t = ec_requests c ∧ ec_executions c = total_attempts l ∧ ec_retries c = total_attempts l - attempted l ∧
  Forall occurrence_ok l.
Proof.
  unfold check_effect_accounting. rewrite !guard_Ok, !negb_false_iff, orb_false_iff, !negb_false_iff, !Z.eqb_eq.
  intros ([-> ->] & <- & Hr & H). split_and!; try done; try lia.
  clear Hr. induction l as [|e l IH]; [constructor|]. cbn in H. apply seq_Ok in H as [He H].
  constructor; [by apply occurrence_exact|by apply IH].
Qed.

Lemma validate_snapshot_Ok v s :
  validate_snapshot v = Ok s →
  snapshot_accounts s ∧
  check_session_identity (es_effect_session_id s) (es_effect_profile_id s) (es_runtime_session_id s) (es_task_id s)
    (es_governance_id s) = Ok tt ∧
  Forall (λ i, fingerprint_pattern i = true)
    [es_effect_session_id s; es_effect_profile_id s; es_runtime_session_id s; es_task_id s; es_governance_id s;
     es_state_id s].
Proof.
  unfold validate_snapshot. intros (record & _ & H)%res_bind_Ok.
  apply res_bind_Ok in H as (version & _ & H). apply guard_Ok in H as [_ H].
  apply res_bind_Ok in H as (i1 & (w1 & _ & [_ H1]%identity_Ok)%read_Ok & H).
  apply res_bind_Ok in H as (i2 & (w2 & _ & [_ H2]%identity_Ok)%read_Ok & H).
  apply res_bind_Ok in H as (i3 & (w3 & _ & [_ H3]%identity_Ok)%read_Ok & H).
  apply res_bind_Ok in H as (i4 & (w4 & _ & [_ H4]%identity_Ok)%read_Ok & H).
  apply res_bind_Ok in H as (i5 & (w5 & _ & [_ H5]%identity_Ok)%read_Ok & H).
  do 4 (apply res_bind_Ok in H as (? & _ & H)).
  apply res_bind_Ok in H as (limits & _ & H).
  apply res_bind_Ok in H as (counters & (wc & _ & Hc%read_counters_Ok)%read_Ok & H).
  apply res_bind_Ok in H as (cells & _ & H). apply res_bind_Ok in H as (items & _ & H).
  apply guard_Ok in H as [[Hl1%Z.leb_le Hl2%Z.leb_le]%negb_false_iff%andb_true_iff H].
  apply res_bind_Ok in H as (es & (Hna & Hnk & _ & Hb & Hlen)%read_occurrences_unique & H).
  apply seq_Ok in H as [(-> & -> & He & Hr & Ho)%effect_accounting_Ok H].
  apply seq_Ok in H as [Hs H]. apply seq_Ok in H as [_ H].
  apply res_bind_Ok in H as (i6 & (w6 & _ & [_ H6]%identity_Ok)%read_Ok & [= <-]).
  split; [|split; [exact Hs|by repeat constructor]].
  constructor; cbn; rewrite ?Hlen, <- ?total_attempts_zsum, <- ?retries_split by done; auto; lia.
Qed.

(** Every proven application was an attempt. *)
Lemma applied_attempts l :
  Forall occurrence_ok l → Forall occurrence_fields l →
  Z.of_nat (length (List.filter EffectSnapshot.proven_applied l)) <= zsum (map eoc_attempts l).
Proof.
  induction 1 as [|e l He _ IH]; intros Hb; [done|]. apply Forall_cons in Hb as [[Hb1 _] Hb]. specialize (IH Hb).
  cbn [List.filter map]. rewrite zsum_cons. destruct (EffectSnapshot.proven_applied e) eqn:E; cbn [length]; [|lia].
  assert (eoc_attempts e ≠ 0); [|lia]. intros H0. unfold EffectSnapshot.proven_applied in E.
  apply bool_decide_eq_true in E. destruct He as [Hs|i _ _ Ha]; [rewrite Hs in E|rewrite (Ha H0) in E];
    rewrite list_elem_of_In in E; cbn in E; naive_solver.
Qed.

Lemma filter_full {A} (f : A → bool) l :
  forallb f l = (Z.of_nat (length (List.filter f l)) =? Z.of_nat (length l)).
Proof.
  assert (Hle : ∀ l, (length (List.filter f l) <= length l)%nat).
  { clear. induction l as [|x l IH]; [done|]. cbn. destruct (f x); cbn; lia. }
  induction l as [|x l IH]; [done|]. cbn [forallb List.filter length].
  destruct (f x); cbn [andb length]; [rewrite IH|]; specialize (Hle l);
    destruct (Z.eqb_spec (Z.of_nat (length (List.filter f l))) (Z.of_nat (length l))); symmetry;
    first [apply Z.eqb_eq; lia | apply Z.eqb_neq; lia].
Qed.

(** C32.  A validated snapshot accounts for every effect: the clock counts the committed requests, the executions are
    the attempts of the occurrences, the retries their attempts after the first, all within the declared limits and
    each occurrence owning its action and key with a status that fits its history.  The proven applications never
    exceed the executions; the manifest is complete exactly when every occurrence is one of them, and partial exactly
    when some but not all are. *)
Theorem snapshot_accounting snap record s :
  EffectSnapshot.canonical_record snap = Ok (record, s) →
  snapshot_accounts s ∧
  ∃ n, EffectSnapshot.applied_count snap = Ok n ∧ 0 <= n <= ec_executions (es_counters s) ∧
    let total := Z.of_nat (length (es_occurrences s)) in
    n <= total ∧ EffectSnapshot.manifest_complete snap = Ok (n =? total) ∧
    EffectSnapshot.partial snap = Ok ((0 <? n) && (n <? total)).
Proof.
  intros H. pose proof H as (text & _ & (f & Hf%validate_snapshot_Ok & [= -> ->])%res_bind_Ok)%res_bind_Ok.
  destruct Hf as [Ha _]. split; [exact Ha|].
  unfold EffectSnapshot.partial, EffectSnapshot.applied_count, EffectSnapshot.manifest_complete. rewrite H. cbn [res_bind snd].
  eexists. split; [reflexivity|].
  pose proof (applied_attempts _ (sa_occurrences _ Ha) (sa_fields _ Ha)) as Hle. rewrite <- (sa_executions _ Ha) in Hle.
  split; [lia|]. split; [apply inj_le, filter_length_le|]. split; [by rewrite filter_full|]. by destruct (0 <? _).
Qed.

(** ** Commands and their receipts *)

Lemma symbol_short k : symbol_pattern k = true → no_surrogate k = true ∧ utf8_length k <= 128 ∧ fits 130 (VStr k).
Proof.
  intros Hk. assert (Hn : no_surrogate k = true) by (apply symbol_clean, raise_if_Ok, negb_false_iff, Hk).
  destruct (serialized_plain k) as [Hs Hu].
  { destruct k as [|c k]; [done|]. cbn [symbol_pattern] in Hk. bool_inv. constructor; [unfold is_lower in *; lia|].
    apply Forall_forall. intros x Hx. assert (Hc : is_symbol_char x = true) by (by eapply forallb_elem).
    unfold is_symbol_char, is_lower, is_digit in Hc. lia. }
  assert (Hl : Z.of_nat (length k) <= 128).
  { destruct k as [|c k]; [done|]. cbn [symbol_pattern length] in *. bool_inv. lia. }
  rewrite Hu. split; [done|]. split; [done|]. unfold fits. cbn [shape_ok json_bytes].
  unfold string_ok, serialized_length. rewrite Hn, Hu, Hs. split; [|lia].
  unfold MAX_CANONICAL_STRING_BYTES, MAX_CANONICAL_VALUE_BYTES in *. cbn [andb].
  rewrite !andb_true_iff, !Z.leb_le. cbn. unfold MAX_CANONICAL_VALUE_DEPTH. lia.
Qed.

Lemma fingerprint_length i : fingerprint_pattern i = true → utf8_length i = 64.
Proof.
  intros Hf. unfold fingerprint_pattern in Hf. bool_inv.
  destruct (serialized_hex i) as [_ ->]; [by apply Forall_forall, forallb_elem|done].
Qed.

(** The session accepts the text of every command that it prepares. *)
Lemma command_accepted c s st a k :
  fingerprint_pattern s = true → fingerprint_pattern st = true → fingerprint_pattern a = true → symbol_pattern k = true →
  ∃ text, command_text (command_record c s st a k) = Ok text.
Proof.
  intros Hs Hst Ha Hk. destruct (symbol_short k Hk) as (Hkn & Hkl & Hkf).
  destruct (obj_fits [("protocol_version", VStr EFFECT_RUNTIME_VERSION); ("command_type", VStr (effect_command_value c));
    ("effect_session_id", VStr s); ("expected_state_id", VStr st); ("action_id", VStr a);
    ("occurrence_key", VStr k)]%string [30; 30; 66; 66; 66; 130]) as [Hsh Hb].
  { repeat (constructor; [cbn [snd]; first [by apply fingerprint_fits | exact Hkf | by destruct c; split; vm_compute
      | by split; vm_compute]|]). constructor. }
  { by vm_compute. } { by vm_compute. } { by vm_compute. }
  fold (command_record c s st a k) in Hsh, Hb.
  destruct (shape_ok_text _ _ _ Hsh) as (t & Ht & Hnt & Hlt).
  assert (Hcj : canonical_json (command_record c s st a k) = Ok t)
    by (unfold canonical_json; by rewrite (shape_ok_validate _ _ _ Hsh)).
  exists t. unfold command_text.
  assert (Hcopy : json_copy (command_record c s st a k) = Ok (command_record c s st a k)).
  { apply json_copy_iff. split; [done|].
    pose proof (fingerprint_clean _ Hs). pose proof (fingerprint_clean _ Hst). pose proof (fingerprint_clean _ Ha).
    pose proof (fingerprint_length _ Hs). pose proof (fingerprint_length _ Hst). pose proof (fingerprint_length _ Ha).
    assert (Hle : utf8_length k <=? MAX_EFFECT_RECORD_BYTES = true) by (apply Z.leb_le; etransitivity; [exact Hkl|by vm_compute]).
    unfold command_record, obj. cbn [map effect_shape copy_nodes copy_bytes forallb fst snd length].
    split_and!; [|by vm_compute| |by exists t; rewrite Hlt; split_and!; try done; etransitivity; [exact Hb|by vm_compute]].
    - rewrite H, H0, H1, H2, H3, H4, Hkn, Hle. by destruct c; vm_compute.
    - rewrite H2, H3, H4. revert Hkl. generalize (utf8_length k). intros n Hn. unfold zsum. cbn [foldr].
      unfold MAX_EFFECT_RECORD_BYTES. destruct c;
        repeat match goal with
        | |- context [utf8_length ?t] => let n := eval vm_compute in (utf8_length t) in change (utf8_length t) with n
        end; lia. }
  rewrite Hcopy. cbn [res_bind]. clear Hcopy Hsh Hb Ht Hlt.
  set (record := [(u "protocol_version", VStr EFFECT_RUNTIME_VERSION); (u "command_type", VStr (effect_command_value c));
    (u "effect_session_id", VStr s); (u "expected_state_id", VStr st); (u "action_id", VStr a);
    (u "occurrence_key", VStr k)]).
  assert (Hf : fields (command_record c s st a k) COMMAND_FIELD_NAMES = Ok record) by reflexivity.
  assert (Hc : read record "command_type" (parse_member effect_commands effect_command_value) = Ok c)
    by (apply read_Ok; eexists; split; [reflexivity|by destruct c; vm_compute]).
  assert (H1 : read record "effect_session_id" identity = Ok s)
    by (apply read_Ok; eexists; split; [reflexivity|by apply identity_Ok]).
  assert (H2 : read record "expected_state_id" identity = Ok st)
    by (apply read_Ok; eexists; split; [reflexivity|by apply identity_Ok]).
  assert (H3 : read record "action_id" identity = Ok a)
    by (apply read_Ok; eexists; split; [reflexivity|by apply identity_Ok]).
  assert (H4 : read record "occurrence_key" symbol = Ok k).
  { apply read_Ok. eexists. split; [reflexivity|]. unfold symbol. cbn [snd exact_str res_bind].
    unfold require_symbol. by rewrite Hk. }
  rewrite Hf. cbn [res_bind]. change (Snapshot.field record "protocol_version") with (Ok (VStr EFFECT_RUNTIME_VERSION)).
  cbn [res_bind]. change (negb (is_text (VStr EFFECT_RUNTIME_VERSION) EFFECT_RUNTIME_VERSION)) with false.
  cbn [raise_if res_bind]. by rewrite Hc, H1, H2, H3, H4.
Qed.

Lemma find_Some_elem {A} (f : A → bool) l x : find f l = Some x → x ∈ l ∧ f x = true.
Proof. intros [? ?]%find_some. by rewrite list_elem_of_In. Qed.

(** C31.  A receipt answers the command that its identity names: the session accepts the text of every command that it
    prepares, and a validated receipt with that command's identity is for the same command, session, action and
    occurrence, starts from the state that the snapshot showed, names the same runtime, task and governance, and is
    attested and accounted for, unless the bytes of the command that the receipt tells of collide with those of the
    prepared command, or the sources of its session with those of the snapshot's. *)
Theorem receipt_answers_command snap kind action c i v r :
  prepare_command snap kind action = Ok c → domain_fingerprint EFFECT_COMMAND_ID_DOMAIN c = Ok i →
  validate_receipt v = Ok r → er_command_id r = i →
  ∃ record s e text, EffectSnapshot.canonical_record snap = Ok (record, s) ∧ e ∈ es_occurrences s ∧
    action = VStr (eoc_action_id e) ∧ command_text c = Ok text ∧ attested r ∧ accounted r ∧
    ((er_command_type r = kind ∧ er_action_id r = eoc_action_id e ∧ er_occurrence_key r = eoc_occurrence_key e ∧
      er_prior_state_id r = es_state_id s ∧ er_resulting_state_id r ≠ es_state_id s ∧
      er_effect_session_id r = es_effect_session_id s ∧ er_runtime_session_id r = es_runtime_session_id s ∧
      er_task_id r = es_task_id s ∧ er_governance_id r = es_governance_id s) ∨
     collide (command_message (er_command_type r) (er_effect_session_id r) (er_prior_state_id r) (er_action_id r)
                (er_occurrence_key r))
       (command_message kind (es_effect_session_id s) (es_state_id s) (eoc_action_id e) (eoc_occurrence_key e)) ∨
     collide (session_message (er_effect_profile_id r) (er_runtime_session_id r) (er_task_id r) (er_governance_id r))
       (session_message (es_effect_profile_id s) (es_runtime_session_id s) (es_task_id s) (es_governance_id s))).
Proof.
  unfold prepare_command. intros (a & [-> Ha]%identity_Ok & H)%res_bind_Ok Hi (Hat & Hac & Hcmd & Hsess)%validate_receipt_Ok Hid.
  apply res_bind_Ok in H as ([record s] & Hs & H). cbn [snd] in H.
  destruct (find _ _) as [e|] eqn:Ef; [|done]. apply find_Some_elem in Ef as [He <-%bool_decide_eq_true].
  injection H as <-. exists record, s, e.
  pose proof Hs as (text & _ & (f & Hf%validate_snapshot_Ok & [= -> ->])%res_bind_Ok)%res_bind_Ok.
  destruct Hf as (Hacc & Hss & Hids). rewrite !Forall_cons in Hids. destruct Hids as (F1 & _ & _ & _ & _ & F6 & _).
  pose proof (proj1 (Forall_forall _ _) (sa_fields _ Hacc) e He) as (_ & _ & Hk).
  destruct (command_accepted kind (es_effect_session_id s) (es_state_id s) (eoc_action_id e) (eoc_occurrence_key e)
    F1 F6 Ha Hk) as [t Ht].
  exists t. do 6 (split; [assumption || reflexivity|]).
  rewrite Hid in Hcmd. destruct (command_id_binds _ _ _ _ _ _ _ _ _ _ _ Hcmd Hi) as [(E1 & E2 & E3 & E4 & E5)|]; [|by right; left].
  rewrite E2 in Hsess. destruct (session_identity_binds _ _ _ _ _ _ _ _ _ Hsess Hss) as [(_ & G1 & G2 & G3)|]; [left|by right; right].
  destruct Hac as (_ & _ & Hne & _). repeat split; try assumption. by rewrite <- E3.
Qed.

(** ** A concrete effect *)

Definition fx_id (c : Z) : pystr := replicate 64 c.

(** A record closed by the identity of its body. *)
Definition fx_close (domain : pystr) (name : string) (kvs : list (string * pyval)) : res pyval :=
  let* i := domain_fingerprint domain (obj kvs) in Ok (obj (kvs ++ [(name, VStr i)])).

Definition fx_session_result : res pystr := Eval vm_compute in
  domain_fingerprint EFFECT_SESSION_ID_DOMAIN
    (obj [("effect_profile_id", VStr (fx_id 97)); ("runtime_session_id", VStr (fx_id 98)); ("task_id", VStr (fx_id 99));
          ("governance_id", VStr (fx_id 100))]%string).
Definition fx_session : pystr := Eval cbv in value_of fx_session_result.

Definition fx_sources : list (string * pyval) :=
  [("effect_session_id", VStr fx_session); ("effect_profile_id", VStr (fx_id 97));
   ("runtime_session_id", VStr (fx_id 98)); ("task_id", VStr (fx_id 99)); ("governance_id", VStr (fx_id 100));
   ("authority_epoch", VInt 0)]%string.

Definition fx_counters (requests executions : Z) : pyval :=
  obj [("requests", VInt requests); ("executions", VInt executions); ("retries", VInt 0);
       ("reconciliations", VInt 0)]%string.

(** The snapshot before the effect. *)
Definition fx_record_result : res pyval := Eval vm_compute in
  let* limits := EffectLimits.canonical_record EffectLimits.default in
  fx_close EFFECT_STATE_ID_DOMAIN "state_id" (("protocol_version"%string, VStr EFFECT_SNAPSHOT_VERSION) :: fx_sources ++
    [("revoked", VBool false); ("generation", VInt 0); ("logical_tick", VInt 0); ("limits", limits);
     ("counters", fx_counters 0 0); ("cells", obj [("cell", VInt 1)]%string);
     ("occurrences", VList [obj [("action_id", VStr (fx_id 101)); ("occurrence_key", VStr (u "set-once"));
        ("status", VStr (u "pending")); ("attempts", VInt 0); ("cancel_requested", VBool false);
        ("last_event_id", VNone)]%string])]%string).
Definition fx_record : pyval := Eval cbv in value_of fx_record_result.
Definition fx_snapshot_result : res EffectSnapshot := Eval vm_compute in EffectSnapshot.make fx_record.
Definition fx_snapshot : EffectSnapshot := Eval cbv in value_of fx_snapshot_result.
Definition fx_command_result : res pyval := Eval vm_compute in
  prepare_command fx_snapshot EXECUTE_EFFECT (VStr (fx_id 101)).
Definition fx_command : pyval := Eval cbv in value_of fx_command_result.
Definition fx_command_id_result : res pystr := Eval vm_compute in domain_fingerprint EFFECT_COMMAND_ID_DOMAIN fx_command.
Definition fx_command_id : pystr := Eval cbv in value_of fx_command_id_result.

Definition fx_observation (phase : ObservationPhase) (value : Z) : res pyval :=
  fx_close EFFECT_OBSERVATION_ID_DOMAIN "observation_id"
    [("protocol_version", VStr EFFECT_OBSERVATION_VERSION); ("effect_session_id", VStr fx_session);
     ("action_id", VStr (fx_id 101)); ("occurrence_key", VStr (u "set-once")); ("attempt", VInt 1);
     ("phase", VStr (phase_value phase)); ("key", VStr (u "cell")); ("value", VInt value)]%string.
Definition fx_before_result : res pyval := Eval vm_compute in fx_observation PHASE_BEFORE 1.
Definition fx_before : pyval := Eval cbv in value_of fx_before_result.
Definition fx_after_result : res pyval := Eval vm_compute in fx_observation PHASE_AFTER 2.
Definition fx_after : pyval := Eval cbv in value_of fx_after_result.

(** The receipt of the applied effect. *)
Definition fx_state_id : pyval := match fx_command with
  | VDict [_; _; _; (_, v); _; _] => v | _ => VNone end.
Definition fx_outcome : list (string * pyval) :=
  [("action_id", VStr (fx_id 101)); ("occurrence_key", VStr (u "set-once")); ("attempt", VInt 1);
   ("status", VStr (u "applied")); ("effect_applied", VBool true); ("pre_evidence", fx_before);
   ("post_evidence", fx_after); ("failure_reason", VNone); ("cancel_requested", VBool false)]%string.
Definition fx_event_result : res pystr := Eval vm_compute in
  domain_fingerprint EFFECT_EVENT_ID_DOMAIN
    (obj ([("effect_session_id", VStr fx_session); ("command_id", VStr fx_command_id)]%string ++ fx_outcome ++
          [("generation"%string, VInt 1)])).
Definition fx_event : pystr := Eval cbv in value_of fx_event_result.
Definition fx_receipt_result : res pyval := Eval vm_compute in
  fx_close EFFECT_RECEIPT_ID_DOMAIN "receipt_id" (fx_sources ++ fx_outcome ++
    [("protocol_version", VStr EFFECT_RECEIPT_VERSION); ("command_id", VStr fx_command_id);
     ("command_type", VStr (u "execute_effect")); ("tool_admission_receipt_id", VStr (fx_id 102));
     ("authority_class", VStr (u "idempotent_mutation")); ("arguments_id", VStr (fx_id 102)); ("ambiguous", VBool false);
     ("recovery_of_event_id", VNone); ("event_id", VStr fx_event); ("prior_state_id", fx_state_id);
     ("resulting_state_id", VStr (fx_id 102)); ("counters", fx_counters 1 1); ("logical_tick", VInt 1);
     ("evidence_scope", VStr (u "synthetic-native-in-process"))]%string).
Definition fx_receipt : pyval := Eval cbv in value_of fx_receipt_result.
Definition fx_fields_result : res EffectReceiptFields := Eval vm_compute in validate_receipt fx_receipt.
Definition fx_fields : EffectReceiptFields := Eval cbv in value_of fx_fields_result.
Definition fx_snapshot_fields_result : res (pyval * EffectSnapshotFields) := Eval vm_compute in
  EffectSnapshot.canonical_record fx_snapshot.
Definition fx_snapshot_fields : pyval * EffectSnapshotFields := Eval cbv in value_of fx_snapshot_fields_result.

Lemma fx_snapshot_read : EffectSnapshot.canonical_record fx_snapshot = Ok fx_snapshot_fields.
Proof. vm_compute. reflexivity. Qed.

Lemma receipt_answers_command_witness :
  attested fx_fields ∧ accounted fx_fields ∧ er_prior_state_id fx_fields = es_state_id fx_snapshot_fields.2 ∧
  er_resulting_state_id fx_fields ≠ es_state_id fx_snapshot_fields.2.
Proof.
  destruct (receipt_answers_command fx_snapshot EXECUTE_EFFECT (VStr (fx_id 101)) fx_command fx_command_id fx_receipt
    fx_fields) as (record & s & e & text & Hs & He & _ & _ & Hat & Hac & H); [vm_compute; reflexivity..|].
  rewrite fx_snapshot_read in Hs. assert (s = fx_snapshot_fields.2) as ->.
  { symmetry. exact (f_equal (λ r, match r with Ok x => x.2 | Raise _ => s end) Hs). }
  clear Hs.
  split; [exact Hat|]. split; [exact Hac|]. apply list_elem_of_singleton in He as ->.
  destruct H as [(_ & _ & _ & H1 & H2 & _)|[H|H]]; [exact (conj H1 H2)|exfalso; revert H..].
  - intros H%collision_pair. revert H. apply no_collision_sound. vm_compute. reflexivity.
  - intros H%collision_pair. revert H. apply no_collision_sound. vm_compute. reflexivity.
Defined.

Lemma snapshot_accounting_witness : snapshot_accounts fx_snapshot_fields.2.
Proof.
  destruct (snapshot_accounting fx_snapshot fx_snapshot_fields.1 fx_snapshot_fields.2) as [H _]; [|exact H].
  vm_compute. reflexivity.
Defined.
