(* ===== verification/Governance.v ===== *)
(** * Governance policies and tool authority ([src/ibae/governance.py], first part)

    The policy that names every tool with its authority class, the receipts that admit a task under
    it, and the receipt that gives one admitted action the authority to use one tool.  Records are
    rebuilt from their parts and compared in full before they are believed. *)

From Stdlib Require Import Ascii String.
From stdpp Require Import base list gmap.
From S2P Require Import Prelude PyStr PyNumber Sha256 Canonical Records Kahn Obligations Epistemic Orchestration Budget Progress Snapshot Receipts.

Definition GOVERNANCE_PROTOCOL_VERSION : pystr := u "IBAE-GOVERNANCE-PROTOCOL-V1".
Definition TASK_RECEIPT_VERSION : pystr := u "IBAE-TASK-RECEIPT-V1".
Definition GOVERNANCE_RECEIPT_VERSION : pystr := u "IBAE-GOVERNANCE-RECEIPT-V1".
Definition TOOL_ADMISSION_RECEIPT_VERSION : pystr := u "IBAE-TOOL-ADMISSION-RECEIPT-V1".
Definition TASK_ID_DOMAIN : pystr := u "ibae.task-id.v1".
Definition TASK_RECEIPT_ID_DOMAIN : pystr := u "ibae.task-receipt-id.v1".
Definition GOVERNANCE_ID_DOMAIN : pystr := u "ibae.governance-id.v1".
Definition GOVERNANCE_RECEIPT_ID_DOMAIN : pystr := u "ibae.governance-receipt-id.v1".
Definition TOOL_PERMISSION_ID_DOMAIN : pystr := u "ibae.tool-permission-id.v1".
Definition TOOL_ACTION_ID_DOMAIN : pystr := u "ibae.governed-tool-action-id.v1".
Definition TOOL_DECISION_ID_DOMAIN : pystr := u "ibae.governed-admission-decision-id.v1".
Definition TOOL_ADMISSION_RECEIPT_ID_DOMAIN : pystr := u "ibae.tool-admission-receipt-id.v1".
Definition MAX_TOOL_PERMISSIONS : Z := 256.
Definition MAX_TOOL_ADMISSIONS : Z := MAX_PROPOSALS_PER_BATCH.
Definition MAX_REQUIRED_GATES : Z := 64.
Definition COMPACT_EVIDENCE_GATE_KEY : pystr := u "compact_evidence_valid".
Definition ORCHESTRATION_RECEIPT_GATE_KEY : pystr := u "orchestration_receipt_valid".
Definition EXECUTION_RECEIPT_GATE_KEY : pystr := u "execution_receipt_valid".
Definition SUPPORTED_REQUIRED_GATE_KEYS : list pystr :=
  [COMPACT_EVIDENCE_GATE_KEY; ORCHESTRATION_RECEIPT_GATE_KEY; EXECUTION_RECEIPT_GATE_KEY].

(** ** Authorities *)

Inductive ProviderAuthority := OPENAI.

Inductive PrincipalAuthority := OPENAI_SUPERVISOR | LOCAL_CANDIDATE_WORKER | DETERMINISTIC_ORCHESTRATOR | RUST_EXECUTION_RUNTIME.

Inductive ToolAuthorityClass :=
  | PURE_READ | SNAPSHOT_READ | VOLATILE_READ | IDEMPOTENT_MUTATION | NON_IDEMPOTENT_MUTATION.

#[export] Instance ProviderAuthority_eq_dec : EqDecision ProviderAuthority.
Proof. solve_decision. Defined.
#[export] Instance PrincipalAuthority_eq_dec : EqDecision PrincipalAuthority.
Proof. solve_decision. Defined.
#[export] Instance ToolAuthorityClass_eq_dec : EqDecision ToolAuthorityClass.
Proof. solve_decision. Defined.

Definition provider_value (p : ProviderAuthority) : pystr := match p with OPENAI => u "openai" end.

Definition principal_value (p : PrincipalAuthority) : pystr :=
  match p with
  | OPENAI_SUPERVISOR => u "openai_supervisor" | LOCAL_CANDIDATE_WORKER => u "local_candidate_worker"
  | DETERMINISTIC_ORCHESTRATOR => u "deterministic_orchestrator" | RUST_EXECUTION_RUNTIME => u "rust_execution_runtime"
  end.

Definition tool_class_value (c : ToolAuthorityClass) : pystr :=
  match c with
  | PURE_READ => u "pure_read" | SNAPSHOT_READ => u "snapshot_read" | VOLATILE_READ => u "volatile_read"
  | IDEMPOTENT_MUTATION => u "idempotent_mutation" | NON_IDEMPOTENT_MUTATION => u "non_idempotent_mutation"
  end.

(** The name of the member, [authority_class.name]. *)
Definition tool_class_name (c : ToolAuthorityClass) : pystr :=
  match c with
  | PURE_READ => u "PURE_READ" | SNAPSHOT_READ => u "SNAPSHOT_READ" | VOLATILE_READ => u "VOLATILE_READ"
  | IDEMPOTENT_MUTATION => u "IDEMPOTENT_MUTATION" | NON_IDEMPOTENT_MUTATION => u "NON_IDEMPOTENT_MUTATION"
  end.

Definition principals : list PrincipalAuthority := [OPENAI_SUPERVISOR; LOCAL_CANDIDATE_WORKER; DETERMINISTIC_ORCHESTRATOR; RUST_EXECUTION_RUNTIME].
Definition tool_classes : list ToolAuthorityClass :=
  [PURE_READ; SNAPSHOT_READ; VOLATILE_READ; IDEMPOTENT_MUTATION; NON_IDEMPOTENT_MUTATION].

Definition is_mutation (c : ToolAuthorityClass) : bool :=
  match c with IDEMPOTENT_MUTATION | NON_IDEMPOTENT_MUTATION => true | _ => false end.

Definition is_read (c : ToolAuthorityClass) : bool := negb (is_mutation c).

(** An enumeration called on a value of any type, its [TypeError] turned into a [ValueError]. *)
Definition member {A} (members : list A) (value : A → pystr) (v : pyval) : res A :=
  match v with
  | VStr s => match find (λ a, bool_decide (value a = s)) members with Some a => Ok a | None => Raise ValueError end
  | _ => Raise ValueError
  end.

(** ** Helpers *)

(** [_require_bool] *)
Definition require_bool (v : pyval) : res bool := match v with VBool b => Ok b | _ => Raise TypeError end.

(** [_canonical_mapping] *)
Definition canonical_mapping (v : pyval) : res CanonicalValue :=
  match v with VDict _ => CanonicalValue.from_value v | _ => Raise TypeError end.

(** [require_positive_int] of an arbitrary value *)
Definition positive_value (v : pyval) : res Z :=
  match v with VInt z => require_positive_int z ;;* Ok z | _ => Raise ValueError end.

(** [materialize_bounded_iterable] of an arbitrary value *)
Definition materialize_value (v : pyval) (limit : Z) : res (list pyval) :=
  let* items := iterate_value v in materialize items limit.

(** [_bounded_unique_symbols] and [_bounded_fingerprints]: the elements are checked before they are sorted. *)
Definition bounded_unique (check : pystr → res unit) (values : list pystr) (limit : Z) : res (list pystr) :=
  let* supplied := materialize values limit in
  res_iter check supplied ;;*
  let normalized := sorted supplied in
  raise_if (has_duplicates normalized) ValueError ;;*
  Ok normalized.

Definition bounded_unique_symbols : list pystr → Z → res (list pystr) := bounded_unique require_symbol.
Definition bounded_fingerprints : list pystr → Z → res (list pystr) := bounded_unique require_fingerprint.

(** The texts of a value whose items are checked by [check]; any other item fails that check. *)
Definition checked_texts (v : pyval) (limit : Z) : res (list pystr) :=
  let* supplied := materialize_value v limit in
  res_map (λ item, match item with VStr s => Ok s | _ => Raise ValueError end) supplied.

(** [_with_receipt_id] *)
Definition with_governed_id (domain : pystr) (body : list (string * pyval)) : res pyval :=
  let* cv := CanonicalValue.from_value (obj body) in
  let* canonical_body := CanonicalValue.to_value cv in
  let* i := domain_fingerprint domain canonical_body in
  match canonical_body with
  | VDict l => Ok (VDict (l ++ [(VStr (u "receipt_id"), VStr i)]))
  | _ => Raise TypeError
  end.

(** [canonical_record()["receipt_id"]] *)
Definition governed_receipt_id (record : res pyval) : res pystr :=
  let* v := record in
  match v with
  | VDict l => let* i := dict_item l (u "receipt_id") in match i with VStr s => Ok s | _ => Raise TypeError end
  | _ => Raise TypeError
  end.

(** [_bounded_exact_mapping] *)
Definition bounded_exact_mapping (value : pyval) (field_names : list pystr) : res (list (pystr * pyval)) :=
  match value with
  | VDict l =>
      let expected := sorted field_names in
      let* keys := materialize (map fst l) (Z.of_nat (length expected)) in
      let* copied := res_fold (λ copied key,
          match key with
          | VStr k =>
              raise_if (str_in k (map fst copied)) ValueError ;;*
              let* v := dict_item l k in
              Ok (copied ++ [(k, v)])
          | _ => Raise TypeError
          end) [] keys in
      raise_if (negb (bool_decide (sorted (map fst copied) = expected))) ValueError ;;*
      res_map (λ key,
          match find (λ kv, bool_decide (kv.1 = key)) copied with
          | Some kv => Ok (key, kv.2)
          | None => Raise KeyError
          end) expected
  | _ => Raise TypeError
  end.

(** The keys of a record that came out of [json.loads]. *)
Definition text_keys (l : list (pyval * pyval)) : list pystr :=
  omap (λ kv, match kv.1 with VStr k => Some k | _ => None end) l.

(** [_require_exact_record] *)
Definition require_exact_record (record expected : pyval) : res unit :=
  match record with
  | VDict _ =>
      let* cv := CanonicalValue.from_value expected in
      let* canonical_expected := CanonicalValue.to_value cv in
      match canonical_expected with
      | VDict l =>
          let* bounded_record := bounded_exact_mapping record (text_keys l) in
          let* cv := CanonicalValue.from_value (record_val bounded_record) in
          let* actual := CanonicalValue.to_value cv in
          raise_if (negb (py_equal actual canonical_expected)) ValueError
      | _ => Raise TypeError
      end
  | _ => Raise TypeError
  end.

(** [value.canonical_record() != validated.canonical_record()] *)
Definition require_same_record (value validated : pyval) : res unit :=
  raise_if (negb (py_equal value validated)) ValueError.

(** ** Validated copies of orchestration records *)

(** [_validated_admission_decision_copy] *)
Definition validated_admission_decision_copy (d : AdmissionDecision) : res AdmissionDecision :=
  let* validated := AdmissionDecision.make d in
  require_same_record (AdmissionDecision.canonical_record d) (AdmissionDecision.canonical_record validated) ;;*
  Ok validated.

(** [_validated_batch_rejection_copy] *)
Definition validated_batch_rejection_copy (r : option BatchRejection) : res (option BatchRejection) :=
  match r with
  | None => Ok None
  | Some r =>
      let* validated := BatchRejection.make r in
      require_same_record (BatchRejection.canonical_record r) (BatchRejection.canonical_record validated) ;;*
      Ok (Some validated)
  end.

(** [_validated_admission_receipt_copy] *)
Definition validated_admission_receipt_copy (r : AdmissionReceipt) : res AdmissionReceipt :=
  let* decisions := materialize (rc_decisions r) MAX_PROPOSALS_PER_BATCH in
  let* copies := res_map validated_admission_decision_copy decisions in
  let* rejection := validated_batch_rejection_copy (rc_batch_rejection r) in
  let* validated := AdmissionReceipt.make {|
    rc_batch_id := rc_batch_id r; rc_strategy_id := rc_strategy_id r; rc_prior_state_id := rc_prior_state_id r;
    rc_next_state_id := rc_next_state_id r; rc_status := rc_status r;
    rc_proposal_ordering := rc_proposal_ordering r; rc_logical_tick_start := rc_logical_tick_start r;
    rc_logical_tick_end := rc_logical_tick_end r; rc_decisions := copies; rc_batch_rejection := rejection |} in
  require_same_record (AdmissionReceipt.canonical_record r) (AdmissionReceipt.canonical_record validated) ;;*
  Ok validated.

(** [_validated_action_proposal_copy] *)
Definition validated_action_proposal_copy (p : ActionProposal) : res ActionProposal :=
  let* arguments := ActionProposal.arguments p in
  let* metadata := ActionProposal.observational_metadata p in
  let* validated := ActionProposal.make (ap_proposal_key p) (ap_capability p) arguments (ap_target_obligation_ids p)
    (ap_required_state_keys p) (ap_occurrence_key p) (match metadata with VNone => None | v => Some v end) in
  let* own := ActionProposal.agent_record p in
  let* record := ActionProposal.agent_record validated in
  require_same_record own record ;;*
  Ok validated.

(** [_validated_capability_copy] *)
Definition validated_capability_copy (c : Capability) : res Capability :=
  let* validated := Capability.make (cap_name c) (cap_replay_safety c) (cap_description c) (cap_available c)
    (cap_contract_version c) (cap_required_state_keys c) (cap_semantic_argument_keys c) (cap_replay_evidence_id c) in
  let* own := Capability.canonical_record c in
  let* record := Capability.canonical_record validated in
  require_same_record own record ;;*
  Ok validated.

(** ** Policies *)

Record ToolPermission := {
  tp_tool_name : pystr;
  tp_authority_class : ToolAuthorityClass;
  tp_allow_mutation : bool;
  tp_allow_cache_reuse : bool
}.

#[export] Instance ToolPermission_eq_dec : EqDecision ToolPermission.
Proof. solve_decision. Defined.

Module ToolPermission.

Definition field_names : list pystr := [u "allow_cache_reuse"; u "allow_mutation"; u "authority_class"; u "tool_name"].

(** [__post_init__] *)
Definition make (tool_name : pystr) (authority_class : ToolAuthorityClass) (allow_mutation allow_cache_reuse : bool)
    : res ToolPermission :=
  require_symbol tool_name ;;*
  raise_if (is_read authority_class && allow_mutation) ValueError ;;*
  raise_if (is_mutation authority_class && allow_cache_reuse) ValueError ;;*
  raise_if (bool_decide (authority_class = VOLATILE_READ) && allow_cache_reuse) ValueError ;;*
  Ok {| tp_tool_name := tool_name; tp_authority_class := authority_class; tp_allow_mutation := allow_mutation;
        tp_allow_cache_reuse := allow_cache_reuse |}.

Definition canonical_record (p : ToolPermission) : pyval :=
  obj [("allow_cache_reuse", VBool (tp_allow_cache_reuse p)); ("allow_mutation", VBool (tp_allow_mutation p));
       ("authority_class", VStr (tool_class_value (tp_authority_class p))); ("tool_name", VStr (tp_tool_name p))]%string.

Definition permission_id (p : ToolPermission) : res pystr :=
  domain_fingerprint TOOL_PERMISSION_ID_DOMAIN (canonical_record p).

Definition from_record (record : pyval) : res ToolPermission :=
  let* active := bounded_exact_mapping record field_names in
  let* v := field active "authority_class" in
  let* authority_class := member tool_classes tool_class_value v in
  let* v := field active "tool_name" in
  let* tool_name := require_symbol_value v in
  let* v := field active "allow_mutation" in
  let* allow_mutation := require_bool v in
  let* v := field active "allow_cache_reuse" in
  let* allow_cache_reuse := require_bool v in
  let* permission := make tool_name authority_class allow_mutation allow_cache_reuse in
  require_exact_record (record_val active) (canonical_record permission) ;;*
  Ok permission.

End ToolPermission.

Record GovernancePolicy := {
  gp_policy_key : pystr;
  gp_policy_version : Z;
  gp_task_profile : pystr;
  gp_task_profile_version : Z;
  gp_provider_authority : ProviderAuthority;
  gp_tool_permissions : list ToolPermission;
  gp_required_gate_keys : list pystr;
  gp_supervisor_authority : PrincipalAuthority;
  gp_worker_authority : PrincipalAuthority;
  gp_orchestration_authority : PrincipalAuthority;
  gp_runtime_authority : PrincipalAuthority
}.

#[export] Instance GovernancePolicy_eq_dec : EqDecision GovernancePolicy.
Proof. solve_decision. Defined.

(** [set(a) != set(b)] *)
Definition same_texts (a b : list pystr) : bool := forallb (λ x, str_in x b) a && forallb (λ x, str_in x a) b.

Module GovernancePolicy.

Definition field_names : list pystr :=
  [u "orchestration_authority"; u "policy_key"; u "policy_version"; u "protocol_version"; u "provider_authority";
   u "required_gate_keys"; u "runtime_authority"; u "supervisor_authority"; u "task_profile"; u "task_profile_version";
   u "tool_permissions"; u "worker_authority"].

(** [__post_init__] on the supplied fields *)
Definition make (p : GovernancePolicy) : res GovernancePolicy :=
  require_symbol (gp_policy_key p) ;;*
  require_positive_int (gp_policy_version p) ;;*
  require_symbol (gp_task_profile p) ;;*
  require_positive_int (gp_task_profile_version p) ;;*
  raise_if (negb (bool_decide (gp_provider_authority p = OPENAI))) ValueError ;;*
  raise_if (negb (bool_decide (gp_supervisor_authority p = OPENAI_SUPERVISOR))) ValueError ;;*
  raise_if (negb (bool_decide (gp_worker_authority p = LOCAL_CANDIDATE_WORKER))) ValueError ;;*
  raise_if (negb (bool_decide (gp_orchestration_authority p = DETERMINISTIC_ORCHESTRATOR))) ValueError ;;*
  raise_if (negb (bool_decide (gp_runtime_authority p = RUST_EXECUTION_RUNTIME))) ValueError ;;*
  let* permissions := materialize (gp_tool_permissions p) MAX_TOOL_PERMISSIONS in
  let normalized := sorted_by tp_tool_name permissions in
  raise_if (has_duplicates (map tp_tool_name normalized)) ValueError ;;*
  let* gates := bounded_unique_symbols (gp_required_gate_keys p) MAX_REQUIRED_GATES in
  raise_if (negb (same_texts gates SUPPORTED_REQUIRED_GATE_KEYS)) ValueError ;;*
  Ok {|
    gp_policy_key := gp_policy_key p; gp_policy_version := gp_policy_version p; gp_task_profile := gp_task_profile p;
    gp_task_profile_version := gp_task_profile_version p; gp_provider_authority := gp_provider_authority p;
    gp_tool_permissions := normalized; gp_required_gate_keys := gates;
    gp_supervisor_authority := gp_supervisor_authority p; gp_worker_authority := gp_worker_authority p;
    gp_orchestration_authority := gp_orchestration_authority p; gp_runtime_authority := gp_runtime_authority p |}.

Definition canonical_record (p : GovernancePolicy) : pyval :=
  obj [("orchestration_authority", VStr (principal_value (gp_orchestration_authority p)));
       ("policy_key", VStr (gp_policy_key p)); ("policy_version", VInt (gp_policy_version p));
       ("protocol_version", VStr GOVERNANCE_PROTOCOL_VERSION);
       ("provider_authority", VStr (provider_value (gp_provider_authority p)));
       ("required_gate_keys", strs_val (gp_required_gate_keys p));
       ("runtime_authority", VStr (principal_value (gp_runtime_authority p)));
       ("supervisor_authority", VStr (principal_value (gp_supervisor_authority p)));
       ("task_profile", VStr (gp_task_profile p)); ("task_profile_version", VInt (gp_task_profile_version p));
       ("tool_permissions", VList (map ToolPermission.canonical_record (gp_tool_permissions p)));
       ("worker_authority", VStr (principal_value (gp_worker_authority p)))]%string.

Definition governance_id (p : GovernancePolicy) : res pystr :=
  domain_fingerprint GOVERNANCE_ID_DOMAIN (canonical_record p).

Definition permission_for (p : GovernancePolicy) (tool_name : pystr) : res (option ToolPermission) :=
  require_symbol tool_name ;;*
  Ok (find (λ item, bool_decide (tp_tool_name item = tool_name)) (gp_tool_permissions p)).

Definition from_record (record : pyval) : res GovernancePolicy :=
  let* active := bounded_exact_mapping record field_names in
  let principal (name : string) := let* v := field active name in member principals principal_value v in
  let* v := field active "provider_authority" in
  let* provider := member [OPENAI] provider_value v in
  let* supervisor := principal "supervisor_authority"%string in
  let* worker := principal "worker_authority"%string in
  let* orchestration := principal "orchestration_authority"%string in
  let* runtime := principal "runtime_authority"%string in
  let* v := field active "tool_permissions" in
  let* permission_records := materialize_value v MAX_TOOL_PERMISSIONS in
  let* gates_val := field active "required_gate_keys" in
  materialize_value gates_val MAX_REQUIRED_GATES ;;*
  let* permissions := res_map ToolPermission.from_record permission_records in
  let* v := field active "policy_key" in
  let* policy_key := require_symbol_value v in
  let* v := field active "policy_version" in
  let* policy_version := positive_value v in
  let* v := field active "task_profile" in
  let* task_profile := require_symbol_value v in
  let* v := field active "task_profile_version" in
  let* task_profile_version := positive_value v in
  let* gates := checked_texts gates_val MAX_REQUIRED_GATES in
  let* policy := make {|
    gp_policy_key := policy_key; gp_policy_version := policy_version; gp_task_profile := task_profile;
    gp_task_profile_version := task_profile_version; gp_provider_authority := provider;
    gp_tool_permissions := permissions; gp_required_gate_keys := gates; gp_supervisor_authority := supervisor;
    gp_worker_authority := worker; gp_orchestration_authority := orchestration; gp_runtime_authority := runtime |} in
  require_exact_record (record_val active) (canonical_record policy) ;;*
  Ok policy.

End GovernancePolicy.

(** ** Task and governance receipts *)

Record TaskReceipt := {
  tr_task_key : pystr;
  tr_contract_version : Z;
  tr_required_gate_keys : list pystr;
  tr_acceptance_contract : CanonicalValue
}.

Module TaskReceipt.

Definition field_names : list pystr :=
  [u "acceptance_contract"; u "authority_layer"; u "contract_version"; u "protocol_version"; u "receipt_id";
   u "required_gate_keys"; u "status"; u "task_id"; u "task_key"].

(** [__init__] *)
Definition make (task_key : pystr) (acceptance_contract : pyval) (required_gate_keys : list pystr)
    (contract_version : Z) : res TaskReceipt :=
  require_symbol task_key ;;*
  require_positive_int contract_version ;;*
  let* gates := bounded_unique_symbols required_gate_keys MAX_REQUIRED_GATES in
  raise_if (negb (nonempty gates)) ValueError ;;*
  let* contract := canonical_mapping acceptance_contract in
  Ok {| tr_task_key := task_key; tr_contract_version := contract_version; tr_required_gate_keys := gates;
        tr_acceptance_contract := contract |}.

Definition acceptance_contract (t : TaskReceipt) : res pyval := CanonicalValue.to_value (tr_acceptance_contract t).

Definition identity_record (t : TaskReceipt) : res (list (string * pyval)) :=
  let* contract := acceptance_contract t in
  Ok [("acceptance_contract", contract); ("contract_version", VInt (tr_contract_version t));
      ("required_gate_keys", strs_val (tr_required_gate_keys t)); ("task_key", VStr (tr_task_key t))]%string.

Definition task_id (t : TaskReceipt) : res pystr :=
  let* r := identity_record t in domain_fingerprint TASK_ID_DOMAIN (obj r).

Definition canonical_record (t : TaskReceipt) : res pyval :=
  let* r := identity_record t in
  let* i := task_id t in
  with_governed_id TASK_RECEIPT_ID_DOMAIN
    (r ++ [("authority_layer", VStr (u "governance")); ("protocol_version", VStr TASK_RECEIPT_VERSION);
           ("status", VStr (u "admitted")); ("task_id", VStr i)]%string).

Definition receipt_id (t : TaskReceipt) : res pystr := governed_receipt_id (canonical_record t).

Definition from_record (record : pyval) : res TaskReceipt :=
  let* active := bounded_exact_mapping record field_names in
  let* v := field active "task_key" in
  let* task_key := require_symbol_value v in
  let* v := field active "contract_version" in
  let* contract_version := positive_value v in
  let* v := field active "required_gate_keys" in
  let* gates := checked_texts v MAX_REQUIRED_GATES in
  let* contract := field active "acceptance_contract" in
  let* receipt := make task_key contract gates contract_version in
  let* expected := canonical_record receipt in
  require_exact_record (record_val active) expected ;;*
  Ok receipt.

End TaskReceipt.

Record GovernanceReceipt := {
  gr_task_id : pystr;
  gr_task_receipt_id : pystr;
  gr_governance_id : pystr;
  gr_policy_key : pystr;
  gr_policy_version : Z;
  gr_provider_authority : ProviderAuthority;
  gr_requester : PrincipalAuthority;
  gr_required_gate_keys : list pystr;
  gr_task_profile : pystr;
  gr_task_profile_version : Z
}.

Module GovernanceReceipt.

(** [__init__] *)
Definition make (policy : GovernancePolicy) (task : TaskReceipt) (requester : PrincipalAuthority)
    : res GovernanceReceipt :=
  raise_if (negb (bool_decide (requester = OPENAI_SUPERVISOR))) ValueError ;;*
  raise_if (negb (bool_decide (tr_required_gate_keys task = gp_required_gate_keys policy))) ValueError ;;*
  let* task_id := TaskReceipt.task_id task in
  let* task_receipt_id := TaskReceipt.receipt_id task in
  let* governance_id := GovernancePolicy.governance_id policy in
  Ok {| gr_task_id := task_id; gr_task_receipt_id := task_receipt_id; gr_governance_id := governance_id;
        gr_policy_key := gp_policy_key policy; gr_policy_version := gp_policy_version policy;
        gr_provider_authority := gp_provider_authority policy; gr_requester := requester;
        gr_required_gate_keys := gp_required_gate_keys policy; gr_task_profile := gp_task_profile policy;
        gr_task_profile_version := gp_task_profile_version policy |}.

Definition canonical_record (g : GovernanceReceipt) : res pyval :=
  with_governed_id GOVERNANCE_RECEIPT_ID_DOMAIN
    [("authority_layer", VStr (u "governance")); ("governance_id", VStr (gr_governance_id g));
     ("policy_key", VStr (gr_policy_key g)); ("policy_version", VInt (gr_policy_version g));
     ("protocol_version", VStr GOVERNANCE_RECEIPT_VERSION);
     ("provider_authority", VStr (provider_value (gr_provider_authority g)));
     ("requester", VStr (principal_value (gr_requester g))); ("required_gate_keys", strs_val (gr_required_gate_keys g));
     ("status", VStr (u "accepted")); ("task_id", VStr (gr_task_id g)); ("task_profile", VStr (gr_task_profile g));
     ("task_profile_version", VInt (gr_task_profile_version g)); ("task_receipt_id", VStr (gr_task_receipt_id g))]%string.

Definition receipt_id (g : GovernanceReceipt) : res pystr := governed_receipt_id (canonical_record g).

Definition from_record (record : pyval) (policy : GovernancePolicy) (task : TaskReceipt) : res GovernanceReceipt :=
  let* receipt := make policy task OPENAI_SUPERVISOR in
  let* expected := canonical_record receipt in
  require_exact_record record expected ;;*
  Ok receipt.

End GovernanceReceipt.

(** [_require_governance_binding]: policy, task and receipt are rebuilt and compared. *)
Definition require_governance_binding (policy : GovernancePolicy) (task : TaskReceipt) (governance : GovernanceReceipt)
    : res unit :=
  let* expected_policy := GovernancePolicy.from_record (GovernancePolicy.canonical_record policy) in
  require_same_record (GovernancePolicy.canonical_record policy) (GovernancePolicy.canonical_record expected_policy) ;;*
  let* contract := TaskReceipt.acceptance_contract task in
  let* expected_task := TaskReceipt.make (tr_task_key task) contract (tr_required_gate_keys task)
    (tr_contract_version task) in
  let* own := TaskReceipt.canonical_record task in
  let* record := TaskReceipt.canonical_record expected_task in
  require_same_record own record ;;*
  let* expected := GovernanceReceipt.make policy task OPENAI_SUPERVISOR in
  let* own := GovernanceReceipt.canonical_record governance in
  let* record := GovernanceReceipt.canonical_record expected in
  require_same_record own record.

(** ** Tool admissions *)

Record ToolAdmissionReceipt := {
  ta_task_id : pystr;
  ta_governance_id : pystr;
  ta_governance_receipt_id : pystr;
  ta_action_id : pystr;
  ta_admission_decision : AdmissionDecision;
  ta_proposal : ActionProposal;
  ta_capability : Capability;
  ta_permission_id : pystr;
  ta_tool_name : pystr;
  ta_authority_class : ToolAuthorityClass;
  ta_requester : PrincipalAuthority;
  ta_dependency_fingerprint : pystr;
  ta_occurrence_key : option pystr;
  ta_arguments : CanonicalValue;
  ta_cache_reuse_permitted : bool
}.

Definition is_replayed_read (c : ToolAuthorityClass) : bool :=
  match c with PURE_READ | SNAPSHOT_READ => true | _ => false end.

Module ToolAdmissionReceipt.

(** The decision, the proposal and the capability must speak of the same action. *)
Definition check_action (permission : ToolPermission) (decision : AdmissionDecision) (proposal : ActionProposal)
    (capability : Capability) : res unit :=
  raise_if (negb (bool_decide (ad_status decision = ADMITTED))) ValueError ;;*
  raise_if (negb (bool_decide (ad_authority_layer decision = ORCHESTRATION))) ValueError ;;*
  raise_if (nonempty (ad_blocking_obligation_ids decision) || nonempty (ad_unresolved_state_keys decision)) ValueError ;;*
  let* proposal_id := ActionProposal.proposal_id proposal in
  raise_if (negb (bool_decide (ad_proposal_id decision = proposal_id)) ||
            negb (bool_decide (ad_proposal_key decision = ap_proposal_key proposal))) ValueError ;;*
  raise_if (negb (bool_decide (ap_capability proposal = cap_name capability))) ValueError ;;*
  raise_if (negb (bool_decide (tp_tool_name permission = cap_name capability))) ValueError ;;*
  raise_if (negb (cap_available capability)) ValueError.

Definition expected_dependency_keys (capability : Capability) (proposal : ActionProposal) : list pystr :=
  sorted_set (cap_required_state_keys capability ++ ap_required_state_keys proposal).

(** The identity of the action, from its arguments, capability and dependency state. *)
Definition expected_action_id (capability : Capability) (proposal : ActionProposal) (semantic_arguments : pyval)
    (dependency_state_id : pystr) : res pystr :=
  let* capability_id := Capability.capability_id capability in
  domain_fingerprint ACTION_ID_DOMAIN
    (obj ([("arguments", semantic_arguments); ("capability_id", VStr capability_id);
           ("dependency_state_id", VStr dependency_state_id)]%string ++
          if decide (cap_replay_safety capability = OCCURRENCE_SENSITIVE)
          then [("occurrence_key"%string, opt_val VStr (ap_occurrence_key proposal))] else [])).

(** The authority class against the replay safety and the declared state. *)
Definition check_class (authority_class : ToolAuthorityClass) (capability : Capability) (dependency_keys : list pystr)
    : res unit :=
  if is_replayed_read authority_class then
    raise_if (negb (bool_decide (cap_replay_safety capability = CACHEABLE_READ))) ValueError ;;*
    raise_if (negb (bool_decide (authority_class = if nonempty dependency_keys then SNAPSHOT_READ else PURE_READ)))
      ValueError
  else raise_if (negb (bool_decide (cap_replay_safety capability = OCCURRENCE_SENSITIVE))) ValueError.

(** Mutations need their permission; volatile reads and mutations their occurrence, other reads none. *)
Definition check_occurrence_key (permission : ToolPermission) (occurrence_key : option pystr) : res unit :=
  let authority_class := tp_authority_class permission in
  raise_if (is_mutation authority_class && negb (tp_allow_mutation permission)) ValueError ;;*
  if is_mutation authority_class || bool_decide (authority_class = VOLATILE_READ) then
    match occurrence_key with None => Raise ValueError | Some k => require_symbol k end
  else raise_if (is_some occurrence_key) ValueError.

(** [__init__] *)
Definition make (policy : GovernancePolicy) (task : TaskReceipt) (governance : GovernanceReceipt)
    (permission : ToolPermission) (requester : PrincipalAuthority) (admission_decision : AdmissionDecision)
    (proposal : ActionProposal) (capability : Capability) (dependency_state_id : pystr) : res ToolAdmissionReceipt :=
  require_governance_binding policy task governance ;;*
  let* owned := GovernancePolicy.permission_for policy (tp_tool_name permission) in
  raise_if (negb (bool_decide (owned = Some permission))) ValueError ;;*
  raise_if (negb (bool_decide (requester = DETERMINISTIC_ORCHESTRATOR))) ValueError ;;*
  let* decision := validated_admission_decision_copy admission_decision in
  let* proposal := validated_action_proposal_copy proposal in
  let* capability := validated_capability_copy capability in
  check_action permission decision proposal capability ;;*
  let dependency_keys := expected_dependency_keys capability proposal in
  raise_if (negb (bool_decide (ad_dependency_state_keys decision = dependency_keys))) ValueError ;;*
  require_fingerprint dependency_state_id ;;*
  let* arguments := ActionProposal.arguments proposal in
  let* semantic_arguments := Capability.normalize_arguments capability arguments in
  let* action_id := expected_action_id capability proposal semantic_arguments dependency_state_id in
  raise_if (negb (bool_decide (ad_action_id decision = Some action_id))) ValueError ;;*
  check_class (tp_authority_class permission) capability dependency_keys ;;*
  check_occurrence_key permission (ap_occurrence_key proposal) ;;*
  let* task_id := TaskReceipt.task_id task in
  let* governance_id := GovernancePolicy.governance_id policy in
  let* governance_receipt_id := GovernanceReceipt.receipt_id governance in
  let* permission_id := ToolPermission.permission_id permission in
  let* arguments := CanonicalValue.from_value semantic_arguments in
  Ok {|
    ta_task_id := task_id; ta_governance_id := governance_id; ta_governance_receipt_id := governance_receipt_id;
    ta_action_id := action_id; ta_admission_decision := decision; ta_proposal := proposal; ta_capability := capability;
    ta_permission_id := permission_id; ta_tool_name := tp_tool_name permission;
    ta_authority_class := tp_authority_class permission; ta_requester := requester;
    ta_dependency_fingerprint := dependency_state_id; ta_occurrence_key := ap_occurrence_key proposal;
    ta_arguments := arguments; ta_cache_reuse_permitted := tp_allow_cache_reuse permission |}.

Definition arguments (t : ToolAdmissionReceipt) : res pyval := CanonicalValue.to_value (ta_arguments t).

Definition decision_id (t : ToolAdmissionReceipt) : res pystr :=
  domain_fingerprint TOOL_DECISION_ID_DOMAIN (AdmissionDecision.canonical_record (ta_admission_decision t)).

Definition arguments_id (t : ToolAdmissionReceipt) : res pystr :=
  let* v := arguments t in canonical_fingerprint v.

Definition action_identity_record (t : ToolAdmissionReceipt) : res (list (string * pyval)) :=
  let* arguments := arguments t in
  let* arguments_id := arguments_id t in
  let* capability_id := Capability.capability_id (ta_capability t) in
  let* decision_id := decision_id t in
  let* proposal_id := ActionProposal.proposal_id (ta_proposal t) in
  Ok [("action_id", VStr (ta_action_id t)); ("arguments", arguments); ("arguments_id", VStr arguments_id);
      ("authority_class", VStr (tool_class_value (ta_authority_class t))); ("capability_id", VStr capability_id);
      ("decision_id", VStr decision_id); ("dependency_fingerprint", VStr (ta_dependency_fingerprint t));
      ("governance_id", VStr (ta_governance_id t)); ("occurrence_key", opt_val VStr (ta_occurrence_key t));
      ("permission_id", VStr (ta_permission_id t)); ("proposal_id", VStr proposal_id);
      ("replay_safety", VStr (replay_value (cap_replay_safety (ta_capability t)))); ("task_id", VStr (ta_task_id t));
      ("tool_name", VStr (ta_tool_name t))]%string.

Definition governed_action_id (t : ToolAdmissionReceipt) : res pystr :=
  let* r := action_identity_record t in domain_fingerprint TOOL_ACTION_ID_DOMAIN (obj r).

Definition canonical_record (t : ToolAdmissionReceipt) : res pyval :=
  let* r := action_identity_record t in
  let* i := governed_action_id t in
  with_governed_id TOOL_ADMISSION_RECEIPT_ID_DOMAIN
    (r ++ [("authority_layer", VStr (u "governance")); ("cache_reuse_permitted", VBool (ta_cache_reuse_permitted t));
           ("governed_action_id", VStr i); ("governance_receipt_id", VStr (ta_governance_receipt_id t));
           ("protocol_version", VStr TOOL_ADMISSION_RECEIPT_VERSION);
           ("requester", VStr (principal_value (ta_requester t))); ("status", VStr (u "accepted"))]%string).

Definition receipt_id (t : ToolAdmissionReceipt) : res pystr := governed_receipt_id (canonical_record t).

End ToolAdmissionReceipt.

(** [_require_tool_admission_binding]: the receipt is rebuilt from its parts and compared. *)
Definition require_tool_admission_binding (policy : GovernancePolicy) (task : TaskReceipt)
    (governance : GovernanceReceipt) (tool_admission : ToolAdmissionReceipt) : res ToolAdmissionReceipt :=
  require_governance_binding policy task governance ;;*
  let* permission := GovernancePolicy.permission_for policy (ta_tool_name tool_admission) in
  match permission with
  | None => Raise ValueError
  | Some permission =>
      let* expected := ToolAdmissionReceipt.make policy task governance permission DETERMINISTIC_ORCHESTRATOR
        (ta_admission_decision tool_admission) (ta_proposal tool_admission) (ta_capability tool_admission)
        (ta_dependency_fingerprint tool_admission) in
      let* own := ToolAdmissionReceipt.canonical_record tool_admission in
      let* record := ToolAdmissionReceipt.canonical_record expected in
      require_same_record own record ;;*
      Ok expected
  end.
