(* ===== verification/CompactEvidence.v ===== *)
(** * Compact evidence ([src/ibae/evidence.py])

    The sealed aggregates that the native evidence reducer reports: the summary that an execution
    is bound to, the compact receipt that finalization asks for, the bounded expansion of failures,
    and the facade that feeds the reducer.  The reducer itself is native code: its seals and its
    operations are arguments. *)

From Stdlib Require Import Ascii String.
From stdpp Require Import base list.
From S2P Require Import Prelude PyStr PyNumber Sha256 Canonical Records Kahn Obligations Epistemic Orchestration Budget Progress Snapshot Receipts Governance.

Definition EVIDENCE_PROTOCOL_VERSION : pystr := u "IBAE-COMPACT-EVIDENCE-V1".
Definition EVIDENCE_PROFILE : pystr := u "IBAE-COMPACT-EVIDENCE-COUNTS-AND-IDENTITIES-V1".
Definition EVIDENCE_RECEIPT_DOMAIN : pystr := u "ibae.compact-evidence-receipt.v1".
Definition EVIDENCE_SUMMARY_DOMAIN : pystr := u "ibae.evidence-aggregate-summary.v1".
Definition EVIDENCE_EXPANSION_DOMAIN : pystr := u "ibae.evidence-expansion.v1".
Definition EVIDENCE_ADMISSION_DOMAIN : pystr := u "ibae.evidence-admission-aggregate.v1".
Definition EVIDENCE_AUTHORIZATION_DOMAIN : pystr := u "ibae.evidence-authorization-manifest.v1".
Definition FAST_FOLD_ALGORITHM : pystr := u "fnv1a64-non-cryptographic-v1".
Definition MAX_EVIDENCE_CASES : Z := 1000000.
Definition MAX_EVIDENCE_FAILURE_DETAILS : Z := 32.
Definition MAX_EVIDENCE_FAILURE_DETAIL_BYTES : Z := 4096.
Definition MAX_COMPACT_EVIDENCE_BYTES : Z := 2048.
Definition MAX_EVIDENCE_EXPANSION_BYTES : Z := 262144.
Definition MAX_EVIDENCE_AUTHORIZATIONS : Z := 256.

Definition EVIDENCE_RECEIPT_FIELDS : list pystr :=
  [u "aggregate_identities"; u "authorization_manifest"; u "bound_identities"; u "case_counts"; u "counter_totals";
   u "evidence_profile"; u "failure_summary"; u "item_counts"; u "limits"; u "protocol_version"; u "receipt_id";
   u "runtime_boundary"; u "status"].
Definition EVIDENCE_SUMMARY_FIELDS : list pystr :=
  [u "aggregate_identities"; u "authorization_manifest"; u "bound_identities"; u "case_counts"; u "counter_totals";
   u "evidence_profile"; u "item_counts"; u "protocol_version"; u "runtime_boundary"; u "summary_id"].
Definition EVIDENCE_COUNTER_FIELDS : list pystr :=
  [u "actual_executions"; u "cache_hits"; u "canonical_mismatches"; u "invariant_violations"; u "mutations";
   u "receipt_mismatches"; u "requests"; u "retries"].
Definition BOUNDARY_FIELDS : list pystr :=
  [u "final_state_id"; u "first_runtime_receipt_id"; u "initial_state_id"; u "last_runtime_receipt_id"; u "session_id"].
Definition AUTHORIZATION_FIELDS : list pystr :=
  [u "action_id"; u "arguments_id"; u "authority_class"; u "cache_reuse_permitted"; u "dependency_fingerprint";
   u "tool_admission_receipt_id"; u "tool_name"].

(** What a compact receipt of this profile can be used for. *)
Definition EVIDENCE_PROFILE_CLAIMS : list pystr :=
  [u "authorization_manifest_binding"; u "bound_execution_identity"; u "bound_governance_identity"; 
   u "bound_orchestration_identity"; u "bound_task_identity"; u "declared_case_count"; 
   u "execution_manifest_root_boundary_count_correspondence"; u "exact_reported_counters"; 
   u "governed_authorization_manifest_coverage"; u "ordered_admission_aggregate"; u "ordered_input_aggregate"; 
   u "ordered_runtime_admission_aggregate"; u "ordered_result_aggregate"; u "ordered_case_receipt_aggregate"; 
   u "reported_failure_summary"; u "runtime_session_state_boundary_continuity"].

(** ** Helpers *)

(** [_exact_mapping] *)
Definition exact_mapping (value : pyval) (field_names : list pystr) : res (list (pystr * pyval)) :=
  match value with
  | VDict l =>
      raise_if (length field_names <? length l)%nat ValueError ;;*
      raise_if (negb (has_keys l field_names)) ValueError ;;*
      res_map (λ name, let* v := dict_item l name in Ok (name, v)) (sorted field_names)
  | _ => Raise ValueError
  end.

(** [_u64] and [_bounded_positive] *)
Definition u64_value (v : pyval) : res Z :=
  match v with
  | VInt z => raise_if ((z <? 0) || (MAX_U64 <? z)) ValueError ;;* Ok z
  | _ => Raise ValueError
  end.

Definition bounded_positive (v : pyval) (maximum : Z) : res Z :=
  let* z := u64_value v in
  raise_if ((z =? 0) || (maximum <? z)) ValueError ;;*
  Ok z.

(** [require_fingerprint] of an arbitrary value *)
Definition fingerprint_value (v : pyval) : res pystr := ProgressCounterEvidence.require_fingerprint_value v.

(** [len(text.encode("utf-8")) > limit] *)
Definition encoded_over (text : pystr) (limit : Z) : res bool :=
  let* bytes := utf8 text in Ok (limit <? Z.of_nat (length bytes)).

(** A field of the record through a check. *)
Definition checked {A} (record : list (pystr * pyval)) (name : string) (check : pyval → res A) : res A :=
  let* v := field record name in check v.

(** The loop that requires every value of a record to be a fingerprint. *)
Definition require_fingerprints (record : list (pystr * pyval)) : res unit :=
  res_iter (λ kv, fingerprint_value kv.2 ;;* Ok tt) record.

(** [value[a][b]] *)
Fixpoint item_at (v : pyval) (path : list string) : res pyval :=
  match path with
  | [] => Ok v
  | name :: rest =>
      match v with
      | VDict l => let* w := dict_item l (u name) in item_at w rest
      | _ => Raise TypeError
      end
  end.

(** ** Authorization manifests *)

(** One entry of [_normalize_authorization_manifest]. *)
Definition check_authorization (entry : pyval) : res (list (pystr * pyval)) :=
  let* record := exact_mapping entry AUTHORIZATION_FIELDS in
  checked record "action_id" fingerprint_value ;;*
  checked record "arguments_id" fingerprint_value ;;*
  checked record "dependency_fingerprint" fingerprint_value ;;*
  checked record "tool_admission_receipt_id" fingerprint_value ;;*
  let* v := field record "authority_class" in
  match v with
  | VList _ | VDict _ => Raise TypeError
  | _ => raise_if (negb (is_str_in v [u "PURE_READ"; u "SNAPSHOT_READ"])) ValueError
  end ;;*
  let* v := field record "cache_reuse_permitted" in
  raise_if (match v with VBool _ => false | _ => true end) ValueError ;;*
  let* v := field record "tool_name" in
  match v with
  | VStr s => raise_if (negb (nonempty s)) ValueError ;;* bounded_utf8_length s 4096 ;;* Ok record
  | _ => Raise ValueError
  end.

Definition entry_action (record : list (pystr * pyval)) : pystr :=
  match field record "action_id" with Ok (VStr s) => s | _ => [] end.

(** [_normalize_authorization_manifest]: entries are read one by one up to the bound. *)
Definition normalize_authorization_manifest (entries : pyval) : res (list (list (pystr * pyval))) :=
  let* items := iterate_value entries in
  let* records := res_map check_authorization (take (Z.to_nat MAX_EVIDENCE_AUTHORIZATIONS) items) in
  raise_if (MAX_EVIDENCE_AUTHORIZATIONS <? Z.of_nat (length items)) ValueError ;;*
  let normalized := sorted_by entry_action records in
  raise_if (has_duplicates (map entry_action normalized)) ValueError ;;*
  Ok normalized.

Definition authorization_manifest_identity (entries : pyval) : res pystr :=
  let* normalized := normalize_authorization_manifest entries in
  let* cv := CanonicalValue.from_value (obj [("entries", VList (map record_val normalized))]%string) in
  let* record := CanonicalValue.to_value cv in
  domain_fingerprint EVIDENCE_AUTHORIZATION_DOMAIN record.

(** [aggregate_admission_stream]: the root of a hash chain over the admissions. *)
Definition advance_admission (prior : pystr) (ordinal : Z) (identity : pystr) : res pystr :=
  domain_fingerprint EVIDENCE_ADMISSION_DOMAIN
    (obj [("identity", VStr identity); ("item_type", VStr (u "case")); ("ordinal", VInt ordinal);
          ("prior", VStr prior)]%string).

Definition aggregate_admission_stream (admission_ids : list pyval) : res pystr :=
  let* seed := domain_fingerprint EVIDENCE_ADMISSION_DOMAIN (obj [("profile", VStr EVIDENCE_PROFILE)]%string) in
  let* last := res_fold (λ st v,
      raise_if (snd st =? MAX_EVIDENCE_CASES) ValueError ;;*
      let* identity := fingerprint_value v in
      let* prior := advance_admission (fst st) (snd st) identity in
      Ok (prior, snd st + 1)) (seed, 0) admission_ids in
  Ok (fst last).

(** ** Limits, counts and counters *)

Record EvidenceLimits := {
  vl_max_cases : Z;
  vl_max_failure_details : Z
}.

Module EvidenceLimits.

Definition make (max_cases max_failure_details : pyval) : res EvidenceLimits :=
  let* cases := bounded_positive max_cases MAX_EVIDENCE_CASES in
  let* details := bounded_positive max_failure_details MAX_EVIDENCE_FAILURE_DETAILS in
  Ok {| vl_max_cases := cases; vl_max_failure_details := details |}.

Definition default : EvidenceLimits := {| vl_max_cases := 100000; vl_max_failure_details := 8 |}.

Definition canonical_record (l : EvidenceLimits) : pyval :=
  obj [("max_cases", VInt (vl_max_cases l)); ("max_failure_details", VInt (vl_max_failure_details l))]%string.

End EvidenceLimits.

Record EvidenceCaseCounts := {
  vc_failed : Z;
  vc_passed : Z;
  vc_rejected : Z;
  vc_total : Z
}.

#[export] Instance EvidenceCaseCounts_eq_dec : EqDecision EvidenceCaseCounts.
Proof. solve_decision. Defined.

Module EvidenceCaseCounts.

Definition from_record (value : pyval) (allow_zero : bool) : res EvidenceCaseCounts :=
  let* record := exact_mapping value [u "failed"; u "passed"; u "rejected"; u "total"] in
  let* failed := checked record "failed" u64_value in
  let* passed := checked record "passed" u64_value in
  let* rejected := checked record "rejected" u64_value in
  let* total := checked record "total" u64_value in
  raise_if (negb (total =? failed + passed + rejected)) ValueError ;;*
  raise_if (negb allow_zero && (total =? 0)) ValueError ;;*
  Ok {| vc_failed := failed; vc_passed := passed; vc_rejected := rejected; vc_total := total |}.

Definition failure_count (c : EvidenceCaseCounts) : Z := vc_failed c + vc_rejected c.

Definition canonical_record (c : EvidenceCaseCounts) : pyval :=
  obj [("failed", VInt (vc_failed c)); ("passed", VInt (vc_passed c)); ("rejected", VInt (vc_rejected c));
       ("total", VInt (vc_total c))]%string.

End EvidenceCaseCounts.

Record EvidenceCounters := {
  vk_actual_executions : Z;
  vk_cache_hits : Z;
  vk_canonical_mismatches : Z;
  vk_invariant_violations : Z;
  vk_mutations : Z;
  vk_receipt_mismatches : Z;
  vk_requests : Z;
  vk_retries : Z
}.

Module EvidenceCounters.

(** [__post_init__] *)
Definition make (actual_executions cache_hits canonical_mismatches invariant_violations mutations receipt_mismatches
    requests retries : pyval) : res EvidenceCounters :=
  let* a := u64_value actual_executions in
  let* b := u64_value cache_hits in
  let* c := u64_value canonical_mismatches in
  let* d := u64_value invariant_violations in
  let* e := u64_value mutations in
  let* f := u64_value receipt_mismatches in
  let* g := u64_value requests in
  let* h := u64_value retries in
  Ok {| vk_actual_executions := a; vk_cache_hits := b; vk_canonical_mismatches := c; vk_invariant_violations := d;
        vk_mutations := e; vk_receipt_mismatches := f; vk_requests := g; vk_retries := h |}.

Definition zero : EvidenceCounters :=
  {| vk_actual_executions := 0; vk_cache_hits := 0; vk_canonical_mismatches := 0; vk_invariant_violations := 0;
     vk_mutations := 0; vk_receipt_mismatches := 0; vk_requests := 0; vk_retries := 0 |}.

Definition from_record (value : pyval) : res EvidenceCounters :=
  let* record := exact_mapping value EVIDENCE_COUNTER_FIELDS in
  let* a := field record "actual_executions" in
  let* b := field record "cache_hits" in
  let* c := field record "canonical_mismatches" in
  let* d := field record "invariant_violations" in
  let* e := field record "mutations" in
  let* f := field record "receipt_mismatches" in
  let* g := field record "requests" in
  let* h := field record "retries" in
  make a b c d e f g h.

Definition has_correctness_mismatch (k : EvidenceCounters) : bool :=
  negb (vk_canonical_mismatches k =? 0) || negb (vk_invariant_violations k =? 0) || negb (vk_receipt_mismatches k =? 0).

Definition canonical_record (k : EvidenceCounters) : pyval :=
  obj [("actual_executions", VInt (vk_actual_executions k)); ("cache_hits", VInt (vk_cache_hits k));
       ("canonical_mismatches", VInt (vk_canonical_mismatches k));
       ("invariant_violations", VInt (vk_invariant_violations k)); ("mutations", VInt (vk_mutations k));
       ("receipt_mismatches", VInt (vk_receipt_mismatches k)); ("requests", VInt (vk_requests k));
       ("retries", VInt (vk_retries k))]%string.

End EvidenceCounters.

(** [_validate_aggregate_identities] *)
Definition validate_aggregate_identities (value : pyval) : res (list (pystr * pyval)) :=
  let* record := exact_mapping value [u "admissions"; u "inputs"; u "receipts"; u "results"] in
  require_fingerprints record ;;*
  Ok record.

(** [_validate_authorization_manifest_record] *)
Definition validate_authorization_manifest_record (value : pyval) : res (Z * pystr) :=
  let* record := exact_mapping value [u "count"; u "manifest_id"] in
  let* count := checked record "count" u64_value in
  raise_if (MAX_EVIDENCE_AUTHORIZATIONS <? count) ValueError ;;*
  let* identity := checked record "manifest_id" fingerprint_value in
  Ok (count, identity).

(** [_validate_item_counts] *)
Definition validate_item_counts (value : pyval) (cases : EvidenceCaseCounts) : res (Z * Z) :=
  let* record := exact_mapping value [u "case_records"; u "child_receipts"] in
  let* case_records := checked record "case_records" u64_value in
  let* child_receipts := checked record "child_receipts" u64_value in
  raise_if (case_records + child_receipts =? 0) ValueError ;;*
  raise_if (vc_total cases <? case_records + child_receipts) ValueError ;;*
  Ok (case_records, child_receipts).

(** [_validate_runtime_boundary] *)
Definition validate_runtime_boundary (value : pyval) : res (option (list (pystr * pyval))) :=
  match value with
  | VNone => Ok None
  | _ =>
      let* record := exact_mapping value BOUNDARY_FIELDS in
      require_fingerprints record ;;*
      Ok (Some record)
  end.

(** A boundary stands for direct cases only. *)
Definition check_direct (boundary : option (list (pystr * pyval))) (cases : EvidenceCaseCounts) (items : Z * Z)
    : res unit :=
  raise_if (is_some boundary && (negb (snd items =? 0) || negb (fst items =? vc_total cases))) ValueError.

(** ** Seals *)

(** The seals of the native reducer: the text each validates, and whether it came from a live reducer. *)
Class EvidenceSeals := {
  summary_seal : Type;
  summary_seal_validates : summary_seal → pystr → bool;
  summary_seal_source_bound : summary_seal → bool;
  evidence_seal : Type;
  evidence_seal_validates : evidence_seal → pystr → bool;
  evidence_seal_source_bound : evidence_seal → bool
}.

(** ** The aggregate summary *)

(** The record of a sealed text: its identity is taken out and compared with that of the rest. *)
Definition check_identity (record : list (pystr * pyval)) (name : string) (domain : pystr) : res unit :=
  let* i := checked record name fingerprint_value in
  let* expected := domain_fingerprint domain (record_val (without record name)) in
  raise_if (negb (bool_decide (expected = i))) ValueError.

Definition check_versions (record : list (pystr * pyval)) : res unit :=
  let* v := field record "protocol_version" in
  raise_if (negb (is_text v EVIDENCE_PROTOCOL_VERSION)) ValueError ;;*
  let* v := field record "evidence_profile" in
  raise_if (negb (is_text v EVIDENCE_PROFILE)) ValueError.

Section summaries.
Context {N : NativeSeals} {E : EvidenceSeals}.

Record EvidenceAggregateSummary := {
  sm_record : CanonicalValue;
  sm_native_seal : summary_seal;
  sm_first_runtime_receipt : option RuntimeReceipt;
  sm_last_runtime_receipt : option RuntimeReceipt
}.

(** [value[name]] of a runtime receipt against the boundary. *)
Definition receipt_matches (value : pyval) (name : string) (boundary : list (pystr * pyval)) (slot : string) : res bool :=
  let* v := item_at value [name] in
  let* w := field boundary slot in
  Ok (py_equal v w).

(** Both endpoints are sealed receipts of the boundary's session and states. *)
Definition check_endpoints (boundary : list (pystr * pyval)) (first last : option RuntimeReceipt) : res unit :=
  match first, last with
  | Some first, Some last =>
      raise_if (negb (receipt_source_bound first) || negb (receipt_source_bound last)) ValueError ;;*
      let* first_record := receipt_value first in
      let* last_record := receipt_value last in
      require_all [receipt_matches first_record "receipt_id" boundary "first_runtime_receipt_id";
                   receipt_matches last_record "receipt_id" boundary "last_runtime_receipt_id";
                   receipt_matches first_record "session_id" boundary "session_id";
                   receipt_matches last_record "session_id" boundary "session_id";
                   receipt_matches first_record "prior_state_id" boundary "initial_state_id";
                   receipt_matches last_record "resulting_state_id" boundary "final_state_id"] ValueError
  | _, _ => Raise ValueError
  end.

(** [EvidenceAggregateSummary.__init__] *)
Definition make_summary (canonical_text : pystr) (seal : summary_seal) (first last : option RuntimeReceipt)
    : res EvidenceAggregateSummary :=
  let* canonical := CanonicalValue.make canonical_text in
  raise_if (negb (summary_seal_validates seal (cv_text canonical))) ValueError ;;*
  let* over := encoded_over (cv_text canonical) MAX_COMPACT_EVIDENCE_BYTES in
  raise_if over ValueError ;;*
  let* value := CanonicalValue.to_value canonical in
  let* record := exact_mapping value EVIDENCE_SUMMARY_FIELDS in
  check_versions record ;;*
  check_identity record "summary_id" EVIDENCE_SUMMARY_DOMAIN ;;*
  checked record "aggregate_identities" validate_aggregate_identities ;;*
  let* v := field record "bound_identities" in
  let* bound := exact_mapping v [u "governance"; u "orchestration"; u "task"] in
  require_fingerprints bound ;;*
  checked record "authorization_manifest" validate_authorization_manifest_record ;;*
  let* cases := checked record "case_counts" (λ v, EvidenceCaseCounts.from_record v false) in
  checked record "counter_totals" EvidenceCounters.from_record ;;*
  let* items := checked record "item_counts" (λ v, validate_item_counts v cases) in
  let* boundary := checked record "runtime_boundary" validate_runtime_boundary in
  check_direct boundary cases items ;;*
  match boundary with
  | Some boundary => check_endpoints boundary first last
  | None => raise_if (is_some first || is_some last) ValueError
  end ;;*
  let* record := CanonicalValue.from_value (record_val record) in
  Ok {| sm_record := record; sm_native_seal := seal; sm_first_runtime_receipt := first;
        sm_last_runtime_receipt := last |}.

(** [_validated_value] *)
Definition summary_value (s : EvidenceAggregateSummary) : res pyval :=
  CanonicalValue.make (cv_text (sm_record s)) ;;*
  raise_if (negb (summary_seal_validates (sm_native_seal s) (cv_text (sm_record s)))) ValueError ;;*
  CanonicalValue.to_value (sm_record s).

(** [_runtime_endpoint] *)
Definition runtime_endpoint (s : EvidenceAggregateSummary) (first : bool) : res (option RuntimeReceipt) :=
  let* value := summary_value s in
  let* boundary := item_at value ["runtime_boundary"%string] in
  let endpoint := if first then sm_first_runtime_receipt s else sm_last_runtime_receipt s in
  match boundary with
  | VNone => raise_if (is_some endpoint) ValueError ;;* Ok None
  | _ =>
      match endpoint with
      | None => Raise ValueError
      | Some endpoint =>
          raise_if (negb (receipt_source_bound endpoint)) ValueError ;;*
          let* runtime_record := receipt_value endpoint in
          let same (name slot : string) :=
            let* v := item_at runtime_record [name] in
            let* w := item_at boundary [slot] in
            Ok (py_equal v w) in
          require_all [same "receipt_id" (if first then "first_runtime_receipt_id" else "last_runtime_receipt_id");
                       same "session_id" "session_id";
                       if first then same "prior_state_id" "initial_state_id"
                       else same "resulting_state_id" "final_state_id"]%string ValueError ;;*
          Ok (Some endpoint)
      end
  end.

(** [source_bound]: a test that answers [False] where validation raises. *)
Definition summary_source_bound (s : EvidenceAggregateSummary) : bool :=
  match
    CanonicalValue.make (cv_text (sm_record s)) ;;*
    if negb (summary_seal_source_bound (sm_native_seal s) &&
             summary_seal_validates (sm_native_seal s) (cv_text (sm_record s))) then Ok false
    else
      let* value := CanonicalValue.to_value (sm_record s) in
      let* boundary := item_at value ["runtime_boundary"%string] in
      match boundary with
      | VNone => Ok true
      | _ => runtime_endpoint s true ;;* runtime_endpoint s false ;;* Ok true
      end
  with Ok b => b | Raise _ => false end.

(** The properties that read one item of the validated value. *)
Definition summary_item (s : EvidenceAggregateSummary) (path : list string) : res pyval :=
  let* value := summary_value s in item_at value path.

Definition summary_case_counts (s : EvidenceAggregateSummary) : res EvidenceCaseCounts :=
  let* v := summary_item s ["case_counts"%string] in EvidenceCaseCounts.from_record v false.

Definition summary_counter_totals (s : EvidenceAggregateSummary) : res EvidenceCounters :=
  let* v := summary_item s ["counter_totals"%string] in EvidenceCounters.from_record v.

(** [None if boundary is None else boundary[name]] *)
Definition boundary_item (value : pyval) (name : string) : res pyval :=
  let* boundary := item_at value ["runtime_boundary"%string] in
  match boundary with VNone => Ok VNone | _ => item_at boundary [name] end.

Definition summary_boundary_item (s : EvidenceAggregateSummary) (name : string) : res pyval :=
  let* value := summary_value s in boundary_item value name.

(** ** The compact receipt *)

Record CompactEvidenceReceipt := {
  ce_record : CanonicalValue;
  ce_native_seal : option evidence_seal
}.

(** The failure summary against the case counts and the declared limits. *)
Definition check_failure_summary (v : pyval) (cases : EvidenceCaseCounts) (max_details : Z) : res Z :=
  let* failure := exact_mapping v [u "count"; u "details_available"; u "details_truncated"; u "first_index"] in
  let* count := checked failure "count" u64_value in
  let* available := checked failure "details_available" u64_value in
  let* truncated := field failure "details_truncated" in
  match truncated with
  | VBool truncated =>
      raise_if (negb (count =? EvidenceCaseCounts.failure_count cases) || negb (available =? Z.min count max_details))
        ValueError ;;*
      raise_if (negb (Bool.eqb truncated (available <? count))) ValueError ;;*
      let* first := field failure "first_index" in
      (if count =? 0 then raise_if (negb (is_none first)) ValueError
       else let* first := u64_value first in raise_if (vc_total cases <=? first) ValueError) ;;*
      Ok count
  | _ => Raise ValueError
  end.

(** [CompactEvidenceReceipt.__init__] under the one supported profile *)
Definition make_compact (canonical_text : pystr) (required_profile : pystr) (seal : option evidence_seal)
    : res CompactEvidenceReceipt :=
  let* canonical := CanonicalValue.make canonical_text in
  match seal with
  | None => Ok tt
  | Some s => raise_if (negb (evidence_seal_validates s (cv_text canonical))) ValueError
  end ;;*
  let* over := encoded_over (cv_text canonical) MAX_COMPACT_EVIDENCE_BYTES in
  raise_if over ValueError ;;*
  let* value := CanonicalValue.to_value canonical in
  let* record := exact_mapping value EVIDENCE_RECEIPT_FIELDS in
  raise_if (negb (bool_decide (required_profile = EVIDENCE_PROFILE))) ValueError ;;*
  check_versions record ;;*
  check_identity record "receipt_id" EVIDENCE_RECEIPT_DOMAIN ;;*
  checked record "aggregate_identities" validate_aggregate_identities ;;*
  let* v := field record "bound_identities" in
  let* bound := exact_mapping v [u "execution"; u "governance"; u "orchestration"; u "task"] in
  require_fingerprints bound ;;*
  checked record "authorization_manifest" validate_authorization_manifest_record ;;*
  let* cases := checked record "case_counts" (λ v, EvidenceCaseCounts.from_record v false) in
  let* counters := checked record "counter_totals" EvidenceCounters.from_record in
  let* items := checked record "item_counts" (λ v, validate_item_counts v cases) in
  let* boundary := checked record "runtime_boundary" validate_runtime_boundary in
  check_direct boundary cases items ;;*
  let* v := field record "limits" in
  let* limits := exact_mapping v [u "max_cases"; u "max_failure_details"] in
  let* max_cases := checked limits "max_cases" (λ v, bounded_positive v MAX_EVIDENCE_CASES) in
  let* max_details := checked limits "max_failure_details" (λ v, bounded_positive v MAX_EVIDENCE_FAILURE_DETAILS) in
  raise_if (max_cases <? vc_total cases) ValueError ;;*
  let* count := checked record "failure_summary" (λ v, check_failure_summary v cases max_details) in
  let* status := field record "status" in
  raise_if (negb (is_text status (if count =? 0 then u "complete_no_failures" else u "complete_with_failures")))
    ValueError ;;*
  raise_if ((count =? 0) && EvidenceCounters.has_correctness_mismatch counters) ValueError ;;*
  let* record := CanonicalValue.from_value (record_val record) in
  Ok {| ce_record := record; ce_native_seal := seal |}.

(** [CompactEvidenceReceipt.evidence_profile] *)
Definition compact_evidence_profile (_ : CompactEvidenceReceipt) : pystr := EVIDENCE_PROFILE.

(** [_validated_value] *)
Definition compact_value (c : CompactEvidenceReceipt) : res pyval :=
  CanonicalValue.make (cv_text (ce_record c)) ;;*
  match ce_native_seal c with
  | None => Ok tt
  | Some s => raise_if (negb (evidence_seal_validates s (cv_text (ce_record c)))) ValueError
  end ;;*
  CanonicalValue.to_value (ce_record c).

Definition compact_from_json (canonical_text required_profile : pystr) : res CompactEvidenceReceipt :=
  make_compact canonical_text required_profile None.

Definition compact_from_record (record : pyval) (required_profile : pystr) : res CompactEvidenceReceipt :=
  let* cv := CanonicalValue.from_value record in make_compact (cv_text cv) required_profile None.

(** [source_bound] *)
Definition compact_source_bound (c : CompactEvidenceReceipt) : bool :=
  match ce_native_seal c with
  | None => false
  | Some s => is_ok (CanonicalValue.make (cv_text (ce_record c))) && evidence_seal_source_bound s &&
              evidence_seal_validates s (cv_text (ce_record c))
  end.

Definition compact_item (c : CompactEvidenceReceipt) (path : list string) : res pyval :=
  let* value := compact_value c in item_at value path.

Definition compact_case_counts (c : CompactEvidenceReceipt) : res EvidenceCaseCounts :=
  let* v := compact_item c ["case_counts"%string] in EvidenceCaseCounts.from_record v false.

Definition compact_counter_totals (c : CompactEvidenceReceipt) : res EvidenceCounters :=
  let* v := compact_item c ["counter_totals"%string] in EvidenceCounters.from_record v.

Definition compact_boundary_item (c : CompactEvidenceReceipt) (name : string) : res pyval :=
  let* value := compact_value c in boundary_item value name.

(** [require_sufficient_for] on a set of strings *)
Definition require_sufficient_for (claims : list pystr) : res unit :=
  let unsupported := List.filter (λ c, negb (str_in c EVIDENCE_PROFILE_CLAIMS)) claims in
  raise_if (nonempty unsupported) ValueError.

(** [verification_scope] of a summary or a compact receipt, from its [source_bound] *)
Definition verification_scope (source_bound : bool) : pystr :=
  if source_bound then u "live_rust_reducer_ingestion_path" else u "structural_schema_and_identity_only".

(** [_native_source_seal] *)
Definition compact_source_seal (c : CompactEvidenceReceipt) : res evidence_seal :=
  match ce_native_seal c with
  | Some s => raise_if (negb (compact_source_bound c)) ValueError ;;* Ok s
  | None => Raise ValueError
  end.
End summaries.

(** ** Failure expansions *)

Record FailureExpansion := { fe_record : CanonicalValue }.

Module FailureExpansion.

(** One turn of the loop over the details: their indexes increase from the start. *)
Definition check_detail (start : Z) (prior : option Z) (detail : pyval) : res (option Z) :=
  let* item := exact_mapping detail
    [u "case_id"; u "case_index"; u "detail"; u "reason_code"; u "receipt_id"; u "status"] in
  checked item "case_id" fingerprint_value ;;*
  checked item "receipt_id" fingerprint_value ;;*
  let* case_index := checked item "case_index" u64_value in
  raise_if ((case_index <? start) || match prior with Some p => case_index <=? p | None => false end) ValueError ;;*
  let* status := field item "status" in
  match status with
  | VList _ | VDict _ => Raise TypeError
  | _ => raise_if (negb (is_str_in status [u "failed"; u "rejected"])) ValueError
  end ;;*
  let* reason := field item "reason_code" in
  match reason with
  | VStr s => raise_if (negb (nonempty s)) ValueError ;;* bounded_utf8_length s 256 ;;* Ok tt
  | _ => Raise ValueError
  end ;;*
  let* v := field item "detail" in
  let* cv := CanonicalValue.from_value v in
  let* over := encoded_over (cv_text cv) MAX_EVIDENCE_FAILURE_DETAIL_BYTES in
  raise_if over ValueError ;;*
  Ok (Some case_index).

(** [__init__] *)
Definition make (canonical_text : pystr) (expected_parent_id : pystr) : res FailureExpansion :=
  require_fingerprint expected_parent_id ;;*
  let* canonical := CanonicalValue.make canonical_text in
  let* over := encoded_over (cv_text canonical) MAX_EVIDENCE_EXPANSION_BYTES in
  raise_if over ValueError ;;*
  let* value := CanonicalValue.to_value canonical in
  let* record := exact_mapping value
    [u "details"; u "evidence_receipt_id"; u "expansion_id"; u "protocol_version"; u "start_case_index"] in
  let* v := field record "protocol_version" in
  raise_if (negb (is_text v EVIDENCE_PROTOCOL_VERSION)) ValueError ;;*
  let* v := field record "evidence_receipt_id" in
  raise_if (negb (is_text v expected_parent_id)) ValueError ;;*
  check_identity record "expansion_id" EVIDENCE_EXPANSION_DOMAIN ;;*
  let* start := checked record "start_case_index" u64_value in
  let* details := field record "details" in
  match details with
  | VList l =>
      raise_if (MAX_EVIDENCE_FAILURE_DETAILS <? Z.of_nat (length l)) ValueError ;;*
      res_fold (check_detail start) None l ;;*
      let* record := CanonicalValue.from_value (record_val record) in
      Ok {| fe_record := record |}
  | _ => Raise ValueError
  end.

Definition details (e : FailureExpansion) : res (list pyval) :=
  let* v := CanonicalValue.to_value (fe_record e) in
  let* l := item_at v ["details"%string] in iterate_value l.

End FailureExpansion.

(** [FastRegressionObservation.from_json]: a hint that carries no authority. *)
Record FastRegressionObservation := {
  fo_algorithm : pystr;
  fo_correctness_authority : bool;
  fo_protocol_version : pystr;
  fo_value : pystr
}.

Definition hex16 (s : pystr) : bool := (length s =? 16)%nat && forallb is_hex s.

Definition fast_observation_from_json (canonical_text : pystr) : res FastRegressionObservation :=
  let* canonical := CanonicalValue.make canonical_text in
  let* value := CanonicalValue.to_value canonical in
  let* record := exact_mapping value [u "algorithm"; u "correctness_authority"; u "protocol_version"; u "value"] in
  let* v := field record "algorithm" in
  raise_if (negb (is_text v FAST_FOLD_ALGORITHM)) ValueError ;;*
  let* v := field record "correctness_authority" in
  raise_if (match v with VBool false => false | _ => true end) ValueError ;;*
  let* v := field record "protocol_version" in
  raise_if (negb (is_text v EVIDENCE_PROTOCOL_VERSION)) ValueError ;;*
  let* v := field record "value" in
  match v with
  | VStr s =>
      raise_if (negb (hex16 s)) ValueError ;;*
      Ok {| fo_algorithm := FAST_FOLD_ALGORITHM; fo_correctness_authority := false;
            fo_protocol_version := EVIDENCE_PROTOCOL_VERSION; fo_value := s |}
  | _ => Raise ValueError
  end.

(** ** The accumulator *)

(** The native reducer: its state and the operations that the facade calls. *)
Class NativeReducer {N : NativeSeals} {E : EvidenceSeals} := {
  reducer : Type;
  reducer_new : pystr → pystr → pystr → pystr → EvidenceLimits → bool → res reducer;
  ingest_structural : reducer → pystr → res reducer;
  ingest_runtime : reducer → pystr → receipt_seal → res reducer;
  ingest_child_text : reducer → pystr → evidence_seal → res reducer;
  reducer_summary : reducer → res (reducer * (pystr * summary_seal));
  reducer_finalize : reducer → pystr → res (reducer * (pystr * evidence_seal));
  reducer_expand : reducer → pystr → res pystr;
  reducer_observation : reducer → res (option pystr)
}.

Inductive EvidenceStatus := PASSED | FAILED | REJECTED_CASE.

#[export] Instance EvidenceStatus_eq_dec : EqDecision EvidenceStatus.
Proof. solve_decision. Defined.

Definition evidence_status_value (s : EvidenceStatus) : pystr :=
  match s with PASSED => u "passed" | FAILED => u "failed" | REJECTED_CASE => u "rejected" end.

Section accumulator.
Context {N : NativeSeals} {E : EvidenceSeals} {R : NativeReducer}.

Record EvidenceAccumulator := {
  ac_native : reducer;
  ac_summary : option EvidenceAggregateSummary;
  ac_final : option CompactEvidenceReceipt;
  ac_first_runtime_receipt : option RuntimeReceipt;
  ac_last_runtime_receipt : option RuntimeReceipt;
  ac_last_runtime_state_id : option pystr;
  ac_runtime_session_id : option pystr;
  ac_task_identity : pystr;
  ac_governance_identity : pystr;
  ac_orchestration_identity : pystr;
  ac_limits : EvidenceLimits
}.

(** [__init__] *)
Definition make_accumulator (task governance orchestration : pystr) (authorization_manifest : pyval)
    (limits : EvidenceLimits) (enable_fast_fold : bool) : res EvidenceAccumulator :=
  require_fingerprint task ;;*
  require_fingerprint governance ;;*
  require_fingerprint orchestration ;;*
  let* manifest := normalize_authorization_manifest authorization_manifest in
  let* cv := CanonicalValue.from_value (VList (map record_val manifest)) in
  let* native := reducer_new task governance orchestration (cv_text cv) limits enable_fast_fold in
  Ok {| ac_native := native; ac_summary := None; ac_final := None; ac_first_runtime_receipt := None;
        ac_last_runtime_receipt := None; ac_last_runtime_state_id := None; ac_runtime_session_id := None;
        ac_task_identity := task; ac_governance_identity := governance; ac_orchestration_identity := orchestration;
        ac_limits := limits |}.

Definition with_native (a : EvidenceAccumulator) (native : reducer) : EvidenceAccumulator := {|
  ac_native := native; ac_summary := ac_summary a; ac_final := ac_final a;
  ac_first_runtime_receipt := ac_first_runtime_receipt a; ac_last_runtime_receipt := ac_last_runtime_receipt a;
  ac_last_runtime_state_id := ac_last_runtime_state_id a; ac_runtime_session_id := ac_runtime_session_id a;
  ac_task_identity := ac_task_identity a; ac_governance_identity := ac_governance_identity a;
  ac_orchestration_identity := ac_orchestration_identity a; ac_limits := ac_limits a |}.

(** The record of one case, structural or from the runtime. *)
Definition case_item (admission case_id input receipt result : pyval) (counters : EvidenceCounters) (failure source : pyval)
    (status : EvidenceStatus) : pyval :=
  obj [("admission_id", admission); ("case_id", case_id); ("counters", EvidenceCounters.canonical_record counters);
       ("failure", failure); ("input_id", input); ("item_type", VStr (u "case"));
       ("protocol_version", VStr EVIDENCE_PROTOCOL_VERSION); ("receipt_id", receipt); ("result_id", result);
       ("runtime_source", source); ("status", VStr (evidence_status_value status))]%string.

(** [record_case] *)
Definition record_case (a : EvidenceAccumulator) (case_id : pystr) (admission_identity : option pystr)
    (input_identity result_identity receipt_identity : pystr) (status : EvidenceStatus)
    (counters : option EvidenceCounters) (failure_reason : option pystr) (failure_detail : pyval)
    : res EvidenceAccumulator :=
  let admission := match admission_identity with None => case_id | Some i => i end in
  require_fingerprint admission ;;*
  require_fingerprint case_id ;;*
  require_fingerprint input_identity ;;*
  require_fingerprint result_identity ;;*
  require_fingerprint receipt_identity ;;*
  let counters := match counters with None => EvidenceCounters.zero | Some k => k end in
  let* failure :=
    if decide (status = PASSED) then
      raise_if (is_some failure_reason || negb (is_none failure_detail)) ValueError ;;*
      raise_if (EvidenceCounters.has_correctness_mismatch counters) ValueError ;;*
      Ok VNone
    else
      match failure_reason with
      | None => Raise ValueError
      | Some reason =>
          raise_if (negb (nonempty reason)) ValueError ;;*
          bounded_utf8_length reason 256 ;;*
          Ok (obj [("detail", failure_detail); ("reason_code", VStr reason)]%string)
      end in
  let* item := CanonicalValue.from_value (case_item (VStr admission) (VStr case_id) (VStr input_identity)
    (VStr receipt_identity) (VStr result_identity) counters failure VNone status) in
  let* native := ingest_structural (ac_native a) (cv_text item) in
  Ok (with_native a native).

(** [record["transition_id"] or record["resulting_state_id"]] *)
Definition runtime_result (record : pyval) : res pyval :=
  let* v := item_at record ["transition_id"%string] in
  match v with
  | VNone | VStr [] => item_at record ["resulting_state_id"%string]
  | _ => Ok v
  end.

(** [record_runtime_case]: the receipt continues the session and the state of the one before. *)
Definition record_runtime_case (a : EvidenceAccumulator) (receipt : RuntimeReceipt) : res EvidenceAccumulator :=
  raise_if (negb (receipt_source_bound receipt)) ValueError ;;*
  let* record := receipt_value receipt in
  let* command_type := item_at record ["command_type"%string] in
  raise_if (negb (is_str_in command_type [u "execute_read"; u "record_retry"])) ValueError ;;*
  let* command_id := item_at record ["command_id"%string] in
  let* admission_id := item_at record ["admission_id"%string] in
  let* result_id := runtime_result record in
  let* receipt_id := item_at record ["receipt_id"%string] in
  let* prior := item_at record ["prior_state_id"%string] in
  let* resulting := item_at record ["resulting_state_id"%string] in
  let* session := item_at record ["session_id"%string] in
  fingerprint_value admission_id ;;*
  fingerprint_value command_id ;;*
  fingerprint_value result_id ;;*
  fingerprint_value receipt_id ;;*
  let* prior_id := fingerprint_value prior in
  let* resulting_id := fingerprint_value resulting in
  let* session_id := fingerprint_value session in
  let* executions := item_at record ["budget_delta"; "executions"]%string in
  let* cache_hits := item_at record ["budget_delta"; "cache_hits"]%string in
  let* requests := item_at record ["budget_delta"; "requests"]%string in
  let* retries := item_at record ["budget_delta"; "retries"]%string in
  let* counters := EvidenceCounters.make executions cache_hits (VInt 0) (VInt 0) (VInt 0) (VInt 0) requests retries in
  let* status := item_at record ["status"%string] in
  let rejected := is_text status (u "rejected") in
  let* rejection := item_at record ["rejection"%string] in
  let* failure :=
    if rejected then
      let* reason := item_at rejection ["reason_code"%string] in
      Ok (obj [("detail", obj [("runtime_rejection", rejection)]); ("reason_code", reason)]%string)
    else Ok VNone in
  let source := obj [("prior_state_id", prior); ("resulting_state_id", resulting); ("runtime_receipt_id", receipt_id);
                     ("session_id", session)]%string in
  let* item := CanonicalValue.from_value (case_item admission_id command_id command_id receipt_id result_id counters
    failure source (if rejected then REJECTED_CASE else PASSED)) in
  match ac_runtime_session_id a with
  | None => Ok tt
  | Some s =>
      raise_if (negb (bool_decide (session_id = s))) ValueError ;;*
      raise_if (negb (bool_decide (Some prior_id = ac_last_runtime_state_id a))) ValueError
  end ;;*
  match rt_native_seal receipt with
  | None => Raise ValueError
  | Some seal =>
      let* native := ingest_runtime (ac_native a) (cv_text item) seal in
      Ok {| ac_native := native; ac_summary := ac_summary a; ac_final := ac_final a;
            ac_first_runtime_receipt :=
              match ac_first_runtime_receipt a with None => Some receipt | first => first end;
            ac_last_runtime_receipt := Some receipt; ac_last_runtime_state_id := Some resulting_id;
            ac_runtime_session_id :=
              match ac_first_runtime_receipt a with None => Some session_id | _ => ac_runtime_session_id a end;
            ac_task_identity := ac_task_identity a; ac_governance_identity := ac_governance_identity a;
            ac_orchestration_identity := ac_orchestration_identity a; ac_limits := ac_limits a |}
  end.

(** [ingest_child] *)
Definition ingest_child (a : EvidenceAccumulator) (receipt : CompactEvidenceReceipt) : res EvidenceAccumulator :=
  raise_if (negb (compact_source_bound receipt)) ValueError ;;*
  let same (name : string) (own : pystr) :=
    let* v := compact_item receipt ["bound_identities"%string; name] in Ok (is_text v own) in
  require_all [same "task"%string (ac_task_identity a); same "governance"%string (ac_governance_identity a);
               same "orchestration"%string (ac_orchestration_identity a)] ValueError ;;*
  let* record := compact_value receipt in
  let* item := CanonicalValue.from_value
    (obj [("item_type", VStr (u "child_receipt")); ("protocol_version", VStr EVIDENCE_PROTOCOL_VERSION);
          ("receipt", record)]%string) in
  let* seal := compact_source_seal receipt in
  let* native := ingest_child_text (ac_native a) (cv_text item) seal in
  Ok (with_native a native).

(** [aggregate_summary]: computed once; endpoints go with a source-bound seal only. *)
Definition aggregate_summary (a : EvidenceAccumulator) : res (EvidenceAccumulator * EvidenceAggregateSummary) :=
  match ac_summary a with
  | Some s => Ok (a, s)
  | None =>
      let* r := reducer_summary (ac_native a) in
      let bound := summary_seal_source_bound r.2.2 in
      let* s := make_summary r.2.1 r.2.2 (if bound then ac_first_runtime_receipt a else None)
        (if bound then ac_last_runtime_receipt a else None) in
      Ok ({| ac_native := r.1; ac_summary := Some s; ac_final := ac_final a;
             ac_first_runtime_receipt := ac_first_runtime_receipt a; ac_last_runtime_receipt := ac_last_runtime_receipt a;
             ac_last_runtime_state_id := ac_last_runtime_state_id a; ac_runtime_session_id := ac_runtime_session_id a;
             ac_task_identity := ac_task_identity a; ac_governance_identity := ac_governance_identity a;
             ac_orchestration_identity := ac_orchestration_identity a; ac_limits := ac_limits a |}, s)
  end.

(** [finalize]: only after the summary, and for one execution identity. *)
Definition finalize_evidence (a : EvidenceAccumulator) (execution_identity : pystr)
    : res (EvidenceAccumulator * CompactEvidenceReceipt) :=
  require_fingerprint execution_identity ;;*
  raise_if (negb (is_some (ac_summary a))) ValueError ;;*
  match ac_final a with
  | None =>
      let* r := reducer_finalize (ac_native a) execution_identity in
      let* c := make_compact r.2.1 EVIDENCE_PROFILE (Some r.2.2) in
      Ok ({| ac_native := r.1; ac_summary := ac_summary a; ac_final := Some c;
             ac_first_runtime_receipt := ac_first_runtime_receipt a; ac_last_runtime_receipt := ac_last_runtime_receipt a;
             ac_last_runtime_state_id := ac_last_runtime_state_id a; ac_runtime_session_id := ac_runtime_session_id a;
             ac_task_identity := ac_task_identity a; ac_governance_identity := ac_governance_identity a;
             ac_orchestration_identity := ac_orchestration_identity a; ac_limits := ac_limits a |}, c)
  | Some c =>
      let* own := compact_item c ["bound_identities"; "execution"]%string in
      raise_if (negb (is_text own execution_identity)) ValueError ;;*
      Ok (a, c)
  end.

(** [expand] *)
Definition expand (a : EvidenceAccumulator) (evidence_receipt_id : pystr) (start_case_index max_details : pyval)
    : res FailureExpansion :=
  require_fingerprint evidence_receipt_id ;;*
  let* start := u64_value start_case_index in
  let* details := bounded_positive max_details (vl_max_failure_details (ac_limits a)) in
  let* request := CanonicalValue.from_value
    (obj [("evidence_receipt_id", VStr evidence_receipt_id); ("max_details", VInt details);
          ("protocol_version", VStr EVIDENCE_PROTOCOL_VERSION); ("start_case_index", VInt start)]%string) in
  let* text := reducer_expand (ac_native a) (cv_text request) in
  FailureExpansion.make text evidence_receipt_id.

(** [fast_regression_observation] *)
Definition fast_regression_observation (a : EvidenceAccumulator) : res (option FastRegressionObservation) :=
  let* observation := reducer_observation (ac_native a) in
  match observation with
  | None => Ok None
  | Some text => let* o := fast_observation_from_json text in Ok (Some o)
  end.
End accumulator.
