(* ===== verification/GovernanceReceipts.v ===== *)
(** * Governed receipts ([src/ibae/governance.py], second part)

    The receipts that bind an admitted batch, its execution and the acceptance of the task to one
    policy and one task: each is rebuilt from its parts when it is used as evidence. *)

From Stdlib Require Import Ascii String.
From stdpp Require Import base list gmap.
From S2P Require Import Prelude PyStr PyNumber Sha256 Canonical Records Kahn Obligations Epistemic Orchestration Budget Progress Snapshot Receipts Governance CompactEvidence.

Definition ORCHESTRATION_RECEIPT_VERSION : pystr := u "IBAE-ORCHESTRATION-RECEIPT-V1".
Definition EXECUTION_RECEIPT_VERSION : pystr := u "IBAE-EXECUTION-RECEIPT-V1".
Definition EXECUTION_PLAN_RECEIPT_VERSION : pystr := u "IBAE-EXECUTION-PLAN-RECEIPT-V1".
Definition BENCHMARK_RECEIPT_VERSION : pystr := u "IBAE-BENCHMARK-RECEIPT-V1".
Definition FINAL_ACCEPTANCE_RECEIPT_VERSION : pystr := u "IBAE-FINAL-ACCEPTANCE-RECEIPT-V1".
Definition REJECTION_RECEIPT_VERSION : pystr := u "IBAE-REJECTION-RECEIPT-V1".
Definition PARTIAL_RECEIPT_VERSION : pystr := u "IBAE-PARTIAL-RECEIPT-V1".
Definition AUTHORIZATION_MANIFEST_ID_DOMAIN : pystr := u "ibae.evidence-authorization-manifest.v1".
Definition ORCHESTRATION_ID_DOMAIN : pystr := u "ibae.governed-orchestration-id.v1".
Definition ORCHESTRATION_RECEIPT_ID_DOMAIN : pystr := u "ibae.orchestration-receipt-id.v1".
Definition EXECUTION_ID_DOMAIN : pystr := u "ibae.governed-execution-id.v1".
Definition EXECUTION_RECEIPT_ID_DOMAIN : pystr := u "ibae.execution-receipt-id.v1".
Definition EXECUTION_PLAN_ID_DOMAIN : pystr := u "ibae.execution-plan-id.v1".
Definition EXECUTION_PLAN_RECEIPT_ID_DOMAIN : pystr := u "ibae.execution-plan-receipt-id.v1".
Definition BENCHMARK_ID_DOMAIN : pystr := u "ibae.benchmark-id.v1".
Definition BENCHMARK_RECEIPT_ID_DOMAIN : pystr := u "ibae.benchmark-receipt-id.v1".
Definition FINAL_ACCEPTANCE_ID_DOMAIN : pystr := u "ibae.final-acceptance-id.v1".
Definition FINAL_ACCEPTANCE_RECEIPT_ID_DOMAIN : pystr := u "ibae.final-acceptance-receipt-id.v1".
Definition REJECTION_RECEIPT_ID_DOMAIN : pystr := u "ibae.rejection-receipt-id.v1".
Definition PARTIAL_RECEIPT_ID_DOMAIN : pystr := u "ibae.partial-receipt-id.v1".
Definition GATE_RESULT_ID_DOMAIN : pystr := u "ibae.acceptance-gate-result-id.v1".
Definition MAX_REJECTION_INVARIANTS : Z := 64.
Definition MAX_BOUND_RECEIPT_IDS : Z := 4096.

(** ** Orchestration *)

Record OrchestrationReceipt := {
  or_task_id : pystr;
  or_governance_id : pystr;
  or_governance_receipt_id : pystr;
  or_admission_receipt : AdmissionReceipt;
  or_tool_admissions : list ToolAdmissionReceipt;
  or_authorization_manifest : CanonicalValue;
  or_authorization_manifest_id : pystr;
  or_authorization_manifest_count : Z
}.

(** The dictionaries and sets that the loop over the decisions fills. *)
Record decision_index := {
  di_by_proposal : list (pystr * pystr);
  di_by_action : list (pystr * AdmissionDecision);
  di_proposal_ids : list pystr;
  di_proposal_keys : list pystr
}.

Definition lookup_text {A} (l : list (pystr * A)) (key : pystr) : option A :=
  option_map snd (find (λ kv, bool_decide (kv.1 = key)) l).

Module OrchestrationReceipt.

(** One turn of the loop over the decisions. *)
Definition index_decision (st : decision_index) (d : AdmissionDecision) : res decision_index :=
  raise_if (str_in (ad_proposal_id d) (di_proposal_ids st)) ValueError ;;*
  raise_if (str_in (ad_proposal_key d) (di_proposal_keys st)) ValueError ;;*
  raise_if (negb (bool_decide (ad_authority_layer d = ORCHESTRATION))) ValueError ;;*
  raise_if ((bool_decide (ad_status d = ADMITTED) || bool_decide (ad_status d = DEDUPLICATED)) &&
            (nonempty (ad_blocking_obligation_ids d) || nonempty (ad_unresolved_state_keys d))) ValueError ;;*
  let seen by_proposal by_action := {|
    di_by_proposal := by_proposal; di_by_action := by_action; di_proposal_ids := ad_proposal_id d :: di_proposal_ids st;
    di_proposal_keys := ad_proposal_key d :: di_proposal_keys st |} in
  match ad_status d with
  | ADMITTED =>
      match ad_action_id d with
      | None => Raise ValueError
      | Some action =>
          raise_if (is_some (lookup_text (di_by_action st) action)) ValueError ;;*
          Ok (seen (di_by_proposal st ++ [(ad_proposal_id d, action)]) (di_by_action st ++ [(action, d)]))
      end
  | DEDUPLICATED =>
      match ad_action_id d with
      | None => Raise ValueError
      | Some action =>
          let equivalent :=
            match ad_equivalent_proposal_id d with Some p => lookup_text (di_by_proposal st) p | None => None end in
          raise_if (negb (bool_decide (equivalent = Some action))) ValueError ;;*
          Ok (seen (di_by_proposal st) (di_by_action st))
      end
  | DECISION_REJECTED => Ok (seen (di_by_proposal st) (di_by_action st))
  end.

Definition index_decisions (decisions : list AdmissionDecision) : res decision_index :=
  res_fold index_decision {| di_by_proposal := []; di_by_action := []; di_proposal_ids := []; di_proposal_keys := [] |}
    decisions.

(** Every tool admission binds the batch's own decision for its action. *)
Definition check_decisions (by_action : list (pystr * AdmissionDecision)) (admissions : list ToolAdmissionReceipt)
    : res unit :=
  res_iter (λ t,
    match lookup_text by_action (ta_action_id t) with
    | None => Raise KeyError
    | Some d => require_same_record (AdmissionDecision.canonical_record d)
                  (AdmissionDecision.canonical_record (ta_admission_decision t))
    end) admissions.

(** No two replayed reads share a runtime cache key. *)
Definition check_cache_keys (admissions : list ToolAdmissionReceipt) : res unit :=
  let* _ := res_fold (λ keys t,
    if is_replayed_read (ta_authority_class t) then
      let* arguments_id := ToolAdmissionReceipt.arguments_id t in
      let key := (ta_tool_name t, arguments_id, ta_dependency_fingerprint t) in
      raise_if (bool_decide (key ∈ keys)) ValueError ;;*
      Ok (key :: keys)
    else Ok keys) [] admissions in
  Ok tt.

Definition manifest_entry (t : ToolAdmissionReceipt) : res pyval :=
  let* arguments_id := ToolAdmissionReceipt.arguments_id t in
  let* receipt_id := ToolAdmissionReceipt.receipt_id t in
  Ok (obj [("action_id", VStr (ta_action_id t)); ("arguments_id", VStr arguments_id);
           ("authority_class", VStr (tool_class_name (ta_authority_class t)));
           ("cache_reuse_permitted", VBool (ta_cache_reuse_permitted t));
           ("dependency_fingerprint", VStr (ta_dependency_fingerprint t));
           ("tool_admission_receipt_id", VStr receipt_id); ("tool_name", VStr (ta_tool_name t))]%string).

(** [__init__] *)
Definition make (policy : GovernancePolicy) (task : TaskReceipt) (governance : GovernanceReceipt)
    (admission_receipt : AdmissionReceipt) (tool_admissions : list ToolAdmissionReceipt) : res OrchestrationReceipt :=
  require_governance_binding policy task governance ;;*
  let* receipt := validated_admission_receipt_copy admission_receipt in
  raise_if (negb (bool_decide (rc_status receipt = PROCESSED))) ValueError ;;*
  let* supplied := materialize tool_admissions MAX_TOOL_ADMISSIONS in
  let* validated := res_map (require_tool_admission_binding policy task governance) supplied in
  let normalized := sorted_by ta_action_id validated in
  let action_ids := map ta_action_id normalized in
  raise_if (has_duplicates action_ids) ValueError ;;*
  let* index := index_decisions (rc_decisions receipt) in
  raise_if (negb (bool_decide (action_ids = sorted (map fst (di_by_action index))))) ValueError ;;*
  check_decisions (di_by_action index) normalized ;;*
  raise_if (existsb (λ t, bool_decide (cap_replay_safety (ta_capability t) = OCCURRENCE_SENSITIVE)) normalized &&
            negb (bool_decide (rc_proposal_ordering receipt = DECLARED_SEQUENCE))) ValueError ;;*
  check_cache_keys normalized ;;*
  let* manifest := res_map manifest_entry normalized in
  let* manifest_id := domain_fingerprint AUTHORIZATION_MANIFEST_ID_DOMAIN (obj [("entries", VList manifest)]%string) in
  let* task_id := TaskReceipt.task_id task in
  let* governance_id := GovernancePolicy.governance_id policy in
  let* governance_receipt_id := GovernanceReceipt.receipt_id governance in
  let* manifest := CanonicalValue.from_value (VList manifest) in
  Ok {| or_task_id := task_id; or_governance_id := governance_id; or_governance_receipt_id := governance_receipt_id;
        or_admission_receipt := receipt; or_tool_admissions := normalized; or_authorization_manifest := manifest;
        or_authorization_manifest_id := manifest_id;
        or_authorization_manifest_count := Z.of_nat (length normalized) |}.

Definition identity_record (o : OrchestrationReceipt) : res (list (string * pyval)) :=
  let* admission_receipt_id := AdmissionReceipt.receipt_id (or_admission_receipt o) in
  Ok [("admission_receipt_id", VStr admission_receipt_id);
      ("authorization_manifest_count", VInt (or_authorization_manifest_count o));
      ("authorization_manifest_id", VStr (or_authorization_manifest_id o));
      ("batch_id", VStr (rc_batch_id (or_admission_receipt o))); ("governance_id", VStr (or_governance_id o));
      ("next_state_id", VStr (rc_next_state_id (or_admission_receipt o)));
      ("prior_state_id", VStr (rc_prior_state_id (or_admission_receipt o))); ("task_id", VStr (or_task_id o))]%string.

Definition orchestration_id (o : OrchestrationReceipt) : res pystr :=
  let* r := identity_record o in domain_fingerprint ORCHESTRATION_ID_DOMAIN (obj r).

Definition canonical_record (o : OrchestrationReceipt) : res pyval :=
  let* r := identity_record o in
  let* manifest := CanonicalValue.to_value (or_authorization_manifest o) in
  let* i := orchestration_id o in
  with_governed_id ORCHESTRATION_RECEIPT_ID_DOMAIN
    (r ++ [("authorization_manifest", manifest); ("authority_layer", VStr (u "orchestration"));
           ("governance_receipt_id", VStr (or_governance_receipt_id o));
           ("logical_tick_end", VInt (rc_logical_tick_end (or_admission_receipt o)));
           ("logical_tick_start", VInt (rc_logical_tick_start (or_admission_receipt o)));
           ("orchestration_id", VStr i); ("protocol_version", VStr ORCHESTRATION_RECEIPT_VERSION);
           ("source_status", VStr (batch_status_value (rc_status (or_admission_receipt o))));
           ("status", VStr (u "accepted"))]%string).

Definition receipt_id (o : OrchestrationReceipt) : res pystr := governed_receipt_id (canonical_record o).

End OrchestrationReceipt.

(** [_require_orchestration_binding] *)
Definition require_orchestration_binding (policy : GovernancePolicy) (task : TaskReceipt)
    (governance : GovernanceReceipt) (orchestration : OrchestrationReceipt) : res unit :=
  require_governance_binding policy task governance ;;*
  require_all [is_result (or_task_id orchestration) (TaskReceipt.task_id task);
               is_result (or_governance_id orchestration) (GovernancePolicy.governance_id policy);
               is_result (or_governance_receipt_id orchestration) (GovernanceReceipt.receipt_id governance)] ValueError ;;*
  let* expected := OrchestrationReceipt.make policy task governance (or_admission_receipt orchestration)
    (or_tool_admissions orchestration) in
  let* own := OrchestrationReceipt.canonical_record orchestration in
  let* record := OrchestrationReceipt.canonical_record expected in
  require_same_record own record.

(** ** Execution *)

Section execution.
Context {N : NativeSeals}.

Record ExecutionReceipt := {
  xr_task_id : pystr;
  xr_governance_id : pystr;
  xr_orchestration_id : pystr;
  xr_orchestration_receipt_id : pystr;
  xr_aggregate_admission_id : pystr;
  xr_aggregate_input_id : pystr;
  xr_aggregate_result_id : pystr;
  xr_aggregate_receipt_id : pystr;
  xr_authorization_manifest_id : pystr;
  xr_authorization_manifest_count : Z;
  xr_initial_runtime_state_id : pyval;
  xr_transition_count : Z;
  xr_initial_runtime_receipt : RuntimeReceipt;
  xr_final_runtime_receipt : RuntimeReceipt
}.

(** The four identities that an evidence aggregate contributes. *)
Record aggregate_ids := {
  ag_admission : pystr;
  ag_input : pystr;
  ag_result : pystr;
  ag_receipt : pystr
}.

(** [record[name]] of a runtime receipt's value. *)
Definition value_item (v : pyval) (name : string) : res pyval :=
  match v with VDict l => dict_item l (u name) | _ => Raise TypeError end.

(** [a > b] of two values of a record. *)
Definition int_gtb (a b : pyval) : res bool :=
  match a, b with VInt x, VInt y => Ok (y <? x) | _, _ => Raise TypeError end.
End execution.

Module ExecutionReceipt.
Section execution_receipt.
Context {N : NativeSeals}.

(** The boundary receipts of one execution. *)
Definition check_boundary (initial final : RuntimeReceipt) (initial_record final_record : pyval) (transition_count : Z)
    : res unit :=
  let* s1 := value_item initial_record "session_id" in
  let* s2 := value_item final_record "session_id" in
  raise_if (negb (py_equal s1 s2)) ValueError ;;*
  (if transition_count =? 1 then
     let* i1 := receipt_item initial "receipt_id" in
     let* i2 := receipt_item final "receipt_id" in
     raise_if (negb (py_equal i1 i2) || negb (py_equal initial_record final_record)) ValueError
   else Ok tt) ;;*
  (if 1 <? transition_count then
     let* i1 := receipt_item initial "receipt_id" in
     let* i2 := receipt_item final "receipt_id" in
     raise_if (py_equal i1 i2) ValueError
   else Ok tt) ;;*
  let* t1 := value_item initial_record "logical_tick" in
  let* t2 := value_item final_record "logical_tick" in
  let* later := int_gtb t1 t2 in
  raise_if later ValueError.

(** [__init__] *)
Definition make (policy : GovernancePolicy) (task : TaskReceipt) (governance : GovernanceReceipt)
    (orchestration : OrchestrationReceipt) (initial final : RuntimeReceipt) (ids : aggregate_ids)
    (transition_count : Z) : res ExecutionReceipt :=
  require_orchestration_binding policy task governance orchestration ;;*
  let* initial_record := receipt_value initial in
  let* final_record := receipt_value final in
  let* s1 := value_item initial_record "status" in
  let* s2 := value_item final_record "status" in
  raise_if (negb (is_text s1 (u "accepted")) || negb (is_text s2 (u "accepted"))) ValueError ;;*
  require_fingerprint (ag_admission ids) ;;*
  require_fingerprint (ag_input ids) ;;*
  require_fingerprint (ag_result ids) ;;*
  require_fingerprint (ag_receipt ids) ;;*
  require_positive_int transition_count ;;*
  check_boundary initial final initial_record final_record transition_count ;;*
  let* task_id := TaskReceipt.task_id task in
  let* governance_id := GovernancePolicy.governance_id policy in
  let* orchestration_id := OrchestrationReceipt.orchestration_id orchestration in
  let* orchestration_receipt_id := OrchestrationReceipt.receipt_id orchestration in
  let* initial_state := value_item initial_record "prior_state_id" in
  Ok {|
    xr_task_id := task_id; xr_governance_id := governance_id; xr_orchestration_id := orchestration_id;
    xr_orchestration_receipt_id := orchestration_receipt_id; xr_aggregate_admission_id := ag_admission ids;
    xr_aggregate_input_id := ag_input ids; xr_aggregate_result_id := ag_result ids;
    xr_aggregate_receipt_id := ag_receipt ids;
    xr_authorization_manifest_id := or_authorization_manifest_id orchestration;
    xr_authorization_manifest_count := or_authorization_manifest_count orchestration;
    xr_initial_runtime_state_id := initial_state; xr_transition_count := transition_count;
    xr_initial_runtime_receipt := initial; xr_final_runtime_receipt := final |}.

Definition identity_record (x : ExecutionReceipt) : res (list (string * pyval)) :=
  let* initial_record := receipt_value (xr_initial_runtime_receipt x) in
  let* final_record := receipt_value (xr_final_runtime_receipt x) in
  let* final_id := receipt_item (xr_final_runtime_receipt x) "receipt_id" in
  let* final_state := value_item final_record "resulting_state_id" in
  let* initial_id := receipt_item (xr_initial_runtime_receipt x) "receipt_id" in
  let* session := value_item initial_record "session_id" in
  Ok [("aggregate_admission_id", VStr (xr_aggregate_admission_id x));
      ("aggregate_input_id", VStr (xr_aggregate_input_id x)); ("aggregate_receipt_id", VStr (xr_aggregate_receipt_id x));
      ("aggregate_result_id", VStr (xr_aggregate_result_id x));
      ("authorization_manifest_count", VInt (xr_authorization_manifest_count x));
      ("authorization_manifest_id", VStr (xr_authorization_manifest_id x)); ("final_runtime_receipt_id", final_id);
      ("final_runtime_state_id", final_state); ("governance_id", VStr (xr_governance_id x));
      ("initial_runtime_receipt_id", initial_id); ("initial_runtime_state_id", xr_initial_runtime_state_id x);
      ("orchestration_id", VStr (xr_orchestration_id x)); ("runtime_session_id", session);
      ("task_id", VStr (xr_task_id x)); ("transition_count", VInt (xr_transition_count x))]%string.

Definition execution_id (x : ExecutionReceipt) : res pystr :=
  let* r := identity_record x in domain_fingerprint EXECUTION_ID_DOMAIN (obj r).

Definition canonical_record (x : ExecutionReceipt) : res pyval :=
  let* r := identity_record x in
  let* i := execution_id x in
  with_governed_id EXECUTION_RECEIPT_ID_DOMAIN
    (r ++ [("authority_layer", VStr (u "execution")); ("execution_id", VStr i);
           ("orchestration_receipt_id", VStr (xr_orchestration_receipt_id x));
           ("protocol_version", VStr EXECUTION_RECEIPT_VERSION); ("status", VStr (u "accepted"))]%string).

Definition receipt_id (x : ExecutionReceipt) : res pystr := governed_receipt_id (canonical_record x).

End execution_receipt.
End ExecutionReceipt.

(** [_require_execution_binding] *)
Definition require_execution_binding {N : NativeSeals} (policy : GovernancePolicy) (task : TaskReceipt)
    (governance : GovernanceReceipt) (orchestration : OrchestrationReceipt) (execution : ExecutionReceipt) : res unit :=
  require_orchestration_binding policy task governance orchestration ;;*
  require_all [is_result (xr_task_id execution) (TaskReceipt.task_id task);
               is_result (xr_governance_id execution) (GovernancePolicy.governance_id policy);
               is_result (xr_orchestration_id execution) (OrchestrationReceipt.orchestration_id orchestration);
               is_result (xr_orchestration_receipt_id execution) (OrchestrationReceipt.receipt_id orchestration)]
    ValueError ;;*
  let* expected := ExecutionReceipt.make policy task governance orchestration (xr_initial_runtime_receipt execution)
    (xr_final_runtime_receipt execution)
    {| ag_admission := xr_aggregate_admission_id execution; ag_input := xr_aggregate_input_id execution;
       ag_result := xr_aggregate_result_id execution; ag_receipt := xr_aggregate_receipt_id execution |}
    (xr_transition_count execution) in
  let* own := ExecutionReceipt.canonical_record execution in
  let* record := ExecutionReceipt.canonical_record expected in
  require_same_record own record.

(** [_require_source_bound_execution] *)
Definition require_source_bound_execution {N : NativeSeals} (execution : ExecutionReceipt) : res unit :=
  raise_if (negb (receipt_source_bound (xr_initial_runtime_receipt execution)) ||
            negb (receipt_source_bound (xr_final_runtime_receipt execution))) ValueError.

(** ** Plans and benchmarks, which carry no authority *)

Record ExecutionPlanReceipt := {
  pr_task_id : pystr;
  pr_governance_id : pystr;
  pr_orchestration_id : pystr;
  pr_plan : CanonicalValue
}.

Module ExecutionPlanReceipt.

(** [__init__] *)
Definition make (policy : GovernancePolicy) (task : TaskReceipt) (governance : GovernanceReceipt)
    (orchestration : OrchestrationReceipt) (plan : pyval) : res ExecutionPlanReceipt :=
  require_orchestration_binding policy task governance orchestration ;;*
  let* task_id := TaskReceipt.task_id task in
  let* governance_id := GovernancePolicy.governance_id policy in
  let* orchestration_id := OrchestrationReceipt.orchestration_id orchestration in
  let* plan := canonical_mapping plan in
  Ok {| pr_task_id := task_id; pr_governance_id := governance_id; pr_orchestration_id := orchestration_id;
        pr_plan := plan |}.

Definition identity_record (p : ExecutionPlanReceipt) : res (list (string * pyval)) :=
  let* plan := CanonicalValue.to_value (pr_plan p) in
  Ok [("governance_id", VStr (pr_governance_id p)); ("orchestration_id", VStr (pr_orchestration_id p)); ("plan", plan);
      ("task_id", VStr (pr_task_id p))]%string.

Definition execution_plan_id (p : ExecutionPlanReceipt) : res pystr :=
  let* r := identity_record p in domain_fingerprint EXECUTION_PLAN_ID_DOMAIN (obj r).

Definition canonical_record (p : ExecutionPlanReceipt) : res pyval :=
  let* r := identity_record p in
  let* i := execution_plan_id p in
  with_governed_id EXECUTION_PLAN_RECEIPT_ID_DOMAIN
    (r ++ [("authority_layer", VStr (u "execution_plan")); ("correctness_authority", VBool false);
           ("execution_plan_id", VStr i); ("protocol_version", VStr EXECUTION_PLAN_RECEIPT_VERSION);
           ("status", VStr (u "observed"))]%string).

Definition receipt_id (p : ExecutionPlanReceipt) : res pystr := governed_receipt_id (canonical_record p).

End ExecutionPlanReceipt.

Record BenchmarkReceipt := {
  bn_task_id : pystr;
  bn_execution_id : pystr;
  bn_observations : CanonicalValue
}.

Module BenchmarkReceipt.

(** [__init__] *)
Definition make {N : NativeSeals} (task : TaskReceipt) (execution : ExecutionReceipt) (observations : pyval)
    : res BenchmarkReceipt :=
  let* task_id := TaskReceipt.task_id task in
  raise_if (negb (bool_decide (xr_task_id execution = task_id))) ValueError ;;*
  let* execution_id := ExecutionReceipt.execution_id execution in
  let* observations := canonical_mapping observations in
  Ok {| bn_task_id := task_id; bn_execution_id := execution_id; bn_observations := observations |}.

Definition identity_record (b : BenchmarkReceipt) : res (list (string * pyval)) :=
  let* observations := CanonicalValue.to_value (bn_observations b) in
  Ok [("execution_id", VStr (bn_execution_id b)); ("observations", observations);
      ("task_id", VStr (bn_task_id b))]%string.

Definition benchmark_id (b : BenchmarkReceipt) : res pystr :=
  let* r := identity_record b in domain_fingerprint BENCHMARK_ID_DOMAIN (obj r).

Definition canonical_record (b : BenchmarkReceipt) : res pyval :=
  let* r := identity_record b in
  let* i := benchmark_id b in
  with_governed_id BENCHMARK_RECEIPT_ID_DOMAIN
    (r ++ [("authority_layer", VStr (u "benchmark")); ("benchmark_id", VStr i); ("correctness_authority", VBool false);
           ("protocol_version", VStr BENCHMARK_RECEIPT_VERSION); ("status", VStr (u "observed"))]%string).

Definition receipt_id (b : BenchmarkReceipt) : res pystr := governed_receipt_id (canonical_record b).

End BenchmarkReceipt.

(** ** Acceptance gates *)

Record AcceptanceGateResult := {
  gt_gate_key : pystr;
  gt_satisfied : bool;
  gt_evidence_receipt_id : option pystr
}.

#[export] Instance AcceptanceGateResult_eq_dec : EqDecision AcceptanceGateResult.
Proof. solve_decision. Defined.

Module AcceptanceGateResult.

(** [__post_init__] *)
Definition make (gate_key : pystr) (satisfied : bool) (evidence_receipt_id : option pystr) : res AcceptanceGateResult :=
  require_symbol gate_key ;;*
  raise_if (satisfied && negb (is_some evidence_receipt_id)) ValueError ;;*
  opt_check require_fingerprint evidence_receipt_id ;;*
  Ok {| gt_gate_key := gate_key; gt_satisfied := satisfied; gt_evidence_receipt_id := evidence_receipt_id |}.

Definition canonical_record (g : AcceptanceGateResult) : pyval :=
  obj [("evidence_receipt_id", opt_val VStr (gt_evidence_receipt_id g)); ("gate_key", VStr (gt_gate_key g));
       ("satisfied", VBool (gt_satisfied g))]%string.

Definition gate_result_id (g : AcceptanceGateResult) : res pystr :=
  domain_fingerprint GATE_RESULT_ID_DOMAIN (canonical_record g).

(** [AcceptanceGateResult(item["gate_key"], item["satisfied"], item["evidence_receipt_id"])] *)
Definition from_value (v : pyval) : res AcceptanceGateResult :=
  let* key := value_item v "gate_key" in
  let* satisfied := value_item v "satisfied" in
  let* evidence := value_item v "evidence_receipt_id" in
  let* key := require_symbol_value key in
  let* satisfied := require_bool satisfied in
  let* evidence :=
    match evidence with
    | VNone => Ok None
    | VStr s => Ok (Some s)
    | _ => Raise ValueError
    end in
  make key satisfied evidence.

End AcceptanceGateResult.

(** [_normalize_gate_results] *)
Definition normalize_gate_results (gate_results : list AcceptanceGateResult) : res (list AcceptanceGateResult) :=
  let* supplied := materialize gate_results MAX_REQUIRED_GATES in
  let* validated := res_map (λ item,
    let* expected := AcceptanceGateResult.make (gt_gate_key item) (gt_satisfied item) (gt_evidence_receipt_id item) in
    require_same_record (AcceptanceGateResult.canonical_record item) (AcceptanceGateResult.canonical_record expected) ;;*
    Ok expected) supplied in
  let normalized := sorted_by gt_gate_key validated in
  raise_if (has_duplicates (map gt_gate_key normalized)) ValueError ;;*
  Ok normalized.

(** [result_by_key.get(key)] of unique keys *)
Definition result_for (results : list AcceptanceGateResult) (key : pystr) : option AcceptanceGateResult :=
  find (λ g, bool_decide (gt_gate_key g = key)) results.

(** The required gates without a satisfied result. *)
Definition missing_gates (required : list pystr) (results : list AcceptanceGateResult) : list pystr :=
  List.filter (λ key, match result_for results key with Some g => negb (gt_satisfied g) | None => true end) required.

(** ** Rejections *)

Inductive ReceiptStage := STAGE_GOVERNANCE | STAGE_ORCHESTRATION | STAGE_EXECUTION | STAGE_FINALIZATION.

Inductive GovernanceRejectionReason :=
  | UNKNOWN_AUTHORITY | AUTHORITY_ESCALATION | UNKNOWN_TOOL_PERMISSION | TOOL_CLASS_MISMATCH | MUTATION_NOT_PERMITTED
  | DEPENDENCY_ID_REQUIRED | OCCURRENCE_ID_REQUIRED | OCCURRENCE_ID_FORBIDDEN | MALFORMED_ACTION
  | INVALID_BOUND_RECEIPT | UNKNOWN_ACCEPTANCE_GATE.

#[export] Instance ReceiptStage_eq_dec : EqDecision ReceiptStage.
Proof. solve_decision. Defined.
#[export] Instance GovernanceRejectionReason_eq_dec : EqDecision GovernanceRejectionReason.
Proof. solve_decision. Defined.

Definition stage_value (s : ReceiptStage) : pystr :=
  match s with
  | STAGE_GOVERNANCE => u "governance" | STAGE_ORCHESTRATION => u "orchestration"
  | STAGE_EXECUTION => u "execution" | STAGE_FINALIZATION => u "finalization"
  end.

Definition stages : list ReceiptStage := [STAGE_GOVERNANCE; STAGE_ORCHESTRATION; STAGE_EXECUTION; STAGE_FINALIZATION].

Definition rejection_reason_value (r : GovernanceRejectionReason) : pystr :=
  u "IBAE-REJECT-" ++
  match r with
  | UNKNOWN_AUTHORITY => u "UNKNOWN-AUTHORITY"
  | AUTHORITY_ESCALATION => u "AUTHORITY-ESCALATION"
  | UNKNOWN_TOOL_PERMISSION => u "UNKNOWN-TOOL-PERMISSION"
  | TOOL_CLASS_MISMATCH => u "TOOL-CLASS-MISMATCH"
  | MUTATION_NOT_PERMITTED => u "MUTATION-NOT-PERMITTED"
  | DEPENDENCY_ID_REQUIRED => u "DEPENDENCY-ID-REQUIRED"
  | OCCURRENCE_ID_REQUIRED => u "OCCURRENCE-ID-REQUIRED"
  | OCCURRENCE_ID_FORBIDDEN => u "OCCURRENCE-ID-FORBIDDEN"
  | MALFORMED_ACTION => u "MALFORMED-ACTION"
  | INVALID_BOUND_RECEIPT => u "INVALID-BOUND-RECEIPT"
  | UNKNOWN_ACCEPTANCE_GATE => u "UNKNOWN-ACCEPTANCE-GATE"
  end.

Definition rejection_reasons : list GovernanceRejectionReason :=
  [UNKNOWN_AUTHORITY; AUTHORITY_ESCALATION; UNKNOWN_TOOL_PERMISSION; TOOL_CLASS_MISMATCH; MUTATION_NOT_PERMITTED;
   DEPENDENCY_ID_REQUIRED; OCCURRENCE_ID_REQUIRED; OCCURRENCE_ID_FORBIDDEN; MALFORMED_ACTION; INVALID_BOUND_RECEIPT;
   UNKNOWN_ACCEPTANCE_GATE].

Record RejectionReceipt := {
  rj_stage : ReceiptStage;
  rj_reason : GovernanceRejectionReason;
  rj_task_id : option pystr;
  rj_governance_id : option pystr;
  rj_invariant_ids : list pystr;
  rj_bound_receipt_ids : list pystr;
  rj_details : CanonicalValue
}.

Module RejectionReceipt.

Definition field_names : list pystr :=
  [u "authority_layer"; u "bound_receipt_ids"; u "details"; u "governance_id"; u "invariant_ids"; u "protocol_version";
   u "reason"; u "receipt_id"; u "stage"; u "status"; u "task_id"].

(** [__init__]; absent details are an empty mapping. *)
Definition make (stage : ReceiptStage) (reason : GovernanceRejectionReason) (task_id governance_id : option pystr)
    (invariant_ids bound_receipt_ids : list pystr) (details : pyval) : res RejectionReceipt :=
  opt_check require_fingerprint task_id ;;*
  opt_check require_fingerprint governance_id ;;*
  let* supplied := materialize invariant_ids MAX_REJECTION_INVARIANTS in
  raise_if (negb (nonempty supplied)) ValueError ;;*
  let normalized := sorted supplied in
  raise_if (has_duplicates normalized) ValueError ;;*
  res_iter require_invariant_id normalized ;;*
  let* bound_ids := bounded_fingerprints bound_receipt_ids MAX_BOUND_RECEIPT_IDS in
  let* details := canonical_mapping details in
  Ok {| rj_stage := stage; rj_reason := reason; rj_task_id := task_id; rj_governance_id := governance_id;
        rj_invariant_ids := normalized; rj_bound_receipt_ids := bound_ids; rj_details := details |}.

Definition canonical_record (r : RejectionReceipt) : res pyval :=
  let* details := CanonicalValue.to_value (rj_details r) in
  with_governed_id REJECTION_RECEIPT_ID_DOMAIN
    [("authority_layer", VStr (u "governance")); ("bound_receipt_ids", strs_val (rj_bound_receipt_ids r));
     ("details", details); ("governance_id", opt_val VStr (rj_governance_id r));
     ("invariant_ids", strs_val (rj_invariant_ids r)); ("protocol_version", VStr REJECTION_RECEIPT_VERSION);
     ("reason", VStr (rejection_reason_value (rj_reason r))); ("stage", VStr (stage_value (rj_stage r)));
     ("status", VStr (u "rejected")); ("task_id", opt_val VStr (rj_task_id r))]%string.

Definition receipt_id (r : RejectionReceipt) : res pystr := governed_receipt_id (canonical_record r).

(** The optional fingerprint of [__init__] on a value of any type. *)
Definition optional_fingerprint (v : pyval) : res (option pystr) :=
  match v with VNone => Ok None | _ => let* i := fingerprint_value v in Ok (Some i) end.

(** [details or {}] *)
Definition details_or_empty (v : pyval) : pyval :=
  match v with VNone | VBool false | VInt 0 | VStr [] | VList [] | VTuple [] => obj [] | v => v end.

Definition from_record (record : pyval) : res RejectionReceipt :=
  let* active := bounded_exact_mapping record field_names in
  let* v := field active "stage" in
  let* stage := member stages stage_value v in
  let* v := field active "reason" in
  let* reason := member rejection_reasons rejection_reason_value v in
  let* v := field active "task_id" in
  let* task_id := optional_fingerprint v in
  let* v := field active "governance_id" in
  let* governance_id := optional_fingerprint v in
  let* v := field active "invariant_ids" in
  let* invariant_ids := checked_texts v MAX_REJECTION_INVARIANTS in
  let* v := field active "bound_receipt_ids" in
  let* bound_ids := checked_texts v MAX_BOUND_RECEIPT_IDS in
  let* details := field active "details" in
  let* receipt := make stage reason task_id governance_id invariant_ids bound_ids (details_or_empty details) in
  let* expected := canonical_record receipt in
  require_exact_record (record_val active) expected ;;*
  Ok receipt.

End RejectionReceipt.

(** ** Partial receipts *)

Inductive PartialReason := MISSING_ORCHESTRATION_RECEIPT | MISSING_EXECUTION_RECEIPT | UNSATISFIED_ACCEPTANCE_GATES.

#[export] Instance PartialReason_eq_dec : EqDecision PartialReason.
Proof. solve_decision. Defined.

Definition governed_partial_value (r : PartialReason) : pystr :=
  match r with
  | MISSING_ORCHESTRATION_RECEIPT => u "IBAE-PARTIAL-MISSING-ORCHESTRATION-RECEIPT"
  | MISSING_EXECUTION_RECEIPT => u "IBAE-PARTIAL-MISSING-EXECUTION-RECEIPT"
  | UNSATISFIED_ACCEPTANCE_GATES => u "IBAE-PARTIAL-UNSATISFIED-ACCEPTANCE-GATES"
  end.

Definition partial_reasons : list PartialReason :=
  [MISSING_ORCHESTRATION_RECEIPT; MISSING_EXECUTION_RECEIPT; UNSATISFIED_ACCEPTANCE_GATES].

Record PartialReceipt := {
  pa_reason : PartialReason;
  pa_task_id : pystr;
  pa_task_receipt_id : pystr;
  pa_governance_id : pystr;
  pa_governance_receipt_id : pystr;
  pa_orchestration_id : option pystr;
  pa_orchestration_receipt_id : option pystr;
  pa_execution_id : option pystr;
  pa_execution_receipt_id : option pystr;
  pa_missing_gate_keys : list pystr;
  pa_bound_gate_results : list AcceptanceGateResult
}.

(** [None if value is None else f(value)] *)
Definition opt_map {A B} (f : A → res B) (o : option A) : res (option B) :=
  match o with None => Ok None | Some a => let* b := f a in Ok (Some b) end.

Module PartialReceipt.
Section partial_receipt.
Context {N : NativeSeals}.

(** A satisfied gate of a partial receipt must bind the receipt of that kind. *)
Definition check_bound_gate {A} (results : list AcceptanceGateResult) (key : pystr) (bound : option A)
    (receipt_id : A → res pystr) : res unit :=
  match result_for results key with
  | Some g =>
      if gt_satisfied g then
        match bound with
        | None => Raise ValueError
        | Some b =>
            let* i := receipt_id b in
            raise_if (negb (bool_decide (gt_evidence_receipt_id g = Some i))) ValueError
        end
      else Ok tt
  | None => Ok tt
  end.

Definition check_reason (reason : PartialReason) (orchestration : option OrchestrationReceipt)
    (execution : option ExecutionReceipt) (missing : list pystr) : res unit :=
  match reason with
  | MISSING_ORCHESTRATION_RECEIPT => raise_if (is_some orchestration || is_some execution) ValueError
  | MISSING_EXECUTION_RECEIPT => raise_if (negb (is_some orchestration) || is_some execution) ValueError
  | UNSATISFIED_ACCEPTANCE_GATES => raise_if (negb (is_some execution) || negb (nonempty missing)) ValueError
  end.

(** [__init__] *)
Definition make (policy : GovernancePolicy) (task : TaskReceipt) (governance : GovernanceReceipt) (reason : PartialReason)
    (orchestration : option OrchestrationReceipt) (execution : option ExecutionReceipt)
    (missing_gate_keys : list pystr) (gate_results : list AcceptanceGateResult) : res PartialReceipt :=
  require_governance_binding policy task governance ;;*
  match orchestration with
  | None => Ok tt
  | Some o => require_orchestration_binding policy task governance o
  end ;;*
  match execution, orchestration with
  | None, _ => Ok tt
  | Some _, None => Raise ValueError
  | Some x, Some o => require_execution_binding policy task governance o x
  end ;;*
  let* missing := bounded_unique_symbols missing_gate_keys MAX_REQUIRED_GATES in
  raise_if (existsb (λ k, negb (str_in k (gp_required_gate_keys policy))) missing) ValueError ;;*
  let* results := normalize_gate_results gate_results in
  raise_if (existsb (λ g, negb (str_in (gt_gate_key g) (gp_required_gate_keys policy))) results) ValueError ;;*
  raise_if (match result_for results COMPACT_EVIDENCE_GATE_KEY with Some g => gt_satisfied g | None => false end)
    ValueError ;;*
  check_bound_gate results ORCHESTRATION_RECEIPT_GATE_KEY orchestration OrchestrationReceipt.receipt_id ;;*
  check_bound_gate results EXECUTION_RECEIPT_GATE_KEY execution ExecutionReceipt.receipt_id ;;*
  raise_if (negb (bool_decide (missing = missing_gates (gp_required_gate_keys policy) results))) ValueError ;;*
  check_reason reason orchestration execution missing ;;*
  let* task_id := TaskReceipt.task_id task in
  let* task_receipt_id := TaskReceipt.receipt_id task in
  let* governance_id := GovernancePolicy.governance_id policy in
  let* governance_receipt_id := GovernanceReceipt.receipt_id governance in
  let* orchestration_id := opt_map OrchestrationReceipt.orchestration_id orchestration in
  let* orchestration_receipt_id := opt_map OrchestrationReceipt.receipt_id orchestration in
  let* execution_id := opt_map ExecutionReceipt.execution_id execution in
  let* execution_receipt_id := opt_map ExecutionReceipt.receipt_id execution in
  Ok {|
    pa_reason := reason; pa_task_id := task_id; pa_task_receipt_id := task_receipt_id; pa_governance_id := governance_id;
    pa_governance_receipt_id := governance_receipt_id; pa_orchestration_id := orchestration_id;
    pa_orchestration_receipt_id := orchestration_receipt_id; pa_execution_id := execution_id;
    pa_execution_receipt_id := execution_receipt_id; pa_missing_gate_keys := missing;
    pa_bound_gate_results := results |}.
End partial_receipt.

Definition canonical_record (p : PartialReceipt) : res pyval :=
  with_governed_id PARTIAL_RECEIPT_ID_DOMAIN
    [("authority_layer", VStr (u "governance"));
     ("bound_gate_results", VList (map AcceptanceGateResult.canonical_record (pa_bound_gate_results p)));
     ("execution_id", opt_val VStr (pa_execution_id p));
     ("execution_receipt_id", opt_val VStr (pa_execution_receipt_id p)); ("governance_id", VStr (pa_governance_id p));
     ("governance_receipt_id", VStr (pa_governance_receipt_id p));
     ("missing_gate_keys", strs_val (pa_missing_gate_keys p)); ("orchestration_id", opt_val VStr (pa_orchestration_id p));
     ("orchestration_receipt_id", opt_val VStr (pa_orchestration_receipt_id p));
     ("protocol_version", VStr PARTIAL_RECEIPT_VERSION); ("reason", VStr (governed_partial_value (pa_reason p)));
     ("status", VStr (u "partial")); ("task_id", VStr (pa_task_id p));
     ("task_receipt_id", VStr (pa_task_receipt_id p))]%string.

Definition receipt_id (p : PartialReceipt) : res pystr := governed_receipt_id (canonical_record p).

End PartialReceipt.

(** ** Final acceptance *)

Record FinalAcceptanceReceipt := {
  fa_task_id : pystr;
  fa_task_receipt_id : pystr;
  fa_governance_id : pystr;
  fa_governance_receipt_id : pystr;
  fa_orchestration_id : pystr;
  fa_orchestration_receipt_id : pystr;
  fa_execution_id : pystr;
  fa_execution_receipt_id : pystr;
  fa_compact_evidence_receipt_id : pystr;
  fa_gate_results : list AcceptanceGateResult
}.

(** [_validate_compact_evidence_binding] *)
Definition validate_compact_evidence_binding {N : NativeSeals} {E : EvidenceSeals} (task : TaskReceipt)
    (policy : GovernancePolicy) (orchestration : OrchestrationReceipt) (execution : ExecutionReceipt)
    (compact : CompactEvidenceReceipt) : res pystr :=
  let item (path : list string) := compact_item compact path in
  let text (path : list string) (expected : res pystr) :=
    let* v := item path in let* s := expected in raise_if (negb (is_text v s)) ValueError in
  let number (path : list string) (expected : Z) :=
    let* v := item path in raise_if (negb (py_equal v (VInt expected))) ValueError in
  raise_if (negb (bool_decide (compact_evidence_profile compact = EVIDENCE_PROFILE))) ValueError ;;*
  text ["status"]%string (Ok (u "complete_no_failures")) ;;*
  raise_if (negb (compact_source_bound compact)) ValueError ;;*
  number ["item_counts"; "child_receipts"]%string 0 ;;*
  let* cases := compact_case_counts compact in
  number ["item_counts"; "case_records"]%string (vc_total cases) ;;*
  text ["bound_identities"; "task"]%string (TaskReceipt.task_id task) ;;*
  text ["bound_identities"; "governance"]%string (GovernancePolicy.governance_id policy) ;;*
  text ["bound_identities"; "orchestration"]%string (OrchestrationReceipt.orchestration_id orchestration) ;;*
  text ["bound_identities"; "execution"]%string (ExecutionReceipt.execution_id execution) ;;*
  text ["authorization_manifest"; "manifest_id"]%string (Ok (xr_authorization_manifest_id execution)) ;;*
  number ["authorization_manifest"; "count"]%string (xr_authorization_manifest_count execution) ;;*
  text ["aggregate_identities"; "admissions"]%string (Ok (xr_aggregate_admission_id execution)) ;;*
  text ["aggregate_identities"; "inputs"]%string (Ok (xr_aggregate_input_id execution)) ;;*
  text ["aggregate_identities"; "results"]%string (Ok (xr_aggregate_result_id execution)) ;;*
  text ["aggregate_identities"; "receipts"]%string (Ok (xr_aggregate_receipt_id execution)) ;;*
  raise_if (negb (vc_total cases =? xr_transition_count execution)) ValueError ;;*
  let* execution_record := ExecutionReceipt.identity_record execution in
  let boundary (name slot : string) :=
    let* v := compact_boundary_item compact name in
    let* w := value_item (obj execution_record) slot in
    Ok (py_equal v w) in
  require_all [boundary "last_runtime_receipt_id" "final_runtime_receipt_id";
               boundary "final_state_id" "final_runtime_state_id";
               boundary "first_runtime_receipt_id" "initial_runtime_receipt_id";
               boundary "initial_state_id" "initial_runtime_state_id";
               boundary "session_id" "runtime_session_id"]%string ValueError ;;*
  let* i := item ["receipt_id"]%string in
  fingerprint_value i.

Module FinalAcceptanceReceipt.
Section final_receipt.
Context {N : NativeSeals} {E : EvidenceSeals}.

(** [next(item for item in results if ..)], whose evidence must be the given receipt. *)
Definition require_gate (results : list AcceptanceGateResult) (key : pystr) (expected : res pystr) : res unit :=
  match result_for results key with
  | None => Raise AssertionError
  | Some g =>
      let* i := expected in
      raise_if (negb (bool_decide (gt_evidence_receipt_id g = Some i))) ValueError
  end.

(** [__init__] *)
Definition make (policy : GovernancePolicy) (task : TaskReceipt) (governance : GovernanceReceipt)
    (orchestration : OrchestrationReceipt) (execution : ExecutionReceipt) (compact_evidence : CompactEvidenceReceipt)
    (gate_results : list AcceptanceGateResult) (requester : PrincipalAuthority) : res FinalAcceptanceReceipt :=
  require_execution_binding policy task governance orchestration execution ;;*
  require_source_bound_execution execution ;;*
  raise_if (negb (bool_decide (requester = OPENAI_SUPERVISOR))) ValueError ;;*
  let* results := normalize_gate_results gate_results in
  raise_if (negb (bool_decide (map gt_gate_key results = gp_required_gate_keys policy))) ValueError ;;*
  raise_if (existsb (λ g, negb (gt_satisfied g)) results) ValueError ;;*
  let* compact_id := validate_compact_evidence_binding task policy orchestration execution compact_evidence in
  require_gate results COMPACT_EVIDENCE_GATE_KEY (Ok compact_id) ;;*
  require_gate results ORCHESTRATION_RECEIPT_GATE_KEY (OrchestrationReceipt.receipt_id orchestration) ;;*
  require_gate results EXECUTION_RECEIPT_GATE_KEY (ExecutionReceipt.receipt_id execution) ;;*
  let* task_id := TaskReceipt.task_id task in
  let* task_receipt_id := TaskReceipt.receipt_id task in
  let* governance_id := GovernancePolicy.governance_id policy in
  let* governance_receipt_id := GovernanceReceipt.receipt_id governance in
  let* orchestration_id := OrchestrationReceipt.orchestration_id orchestration in
  let* orchestration_receipt_id := OrchestrationReceipt.receipt_id orchestration in
  let* execution_id := ExecutionReceipt.execution_id execution in
  let* execution_receipt_id := ExecutionReceipt.receipt_id execution in
  Ok {|
    fa_task_id := task_id; fa_task_receipt_id := task_receipt_id; fa_governance_id := governance_id;
    fa_governance_receipt_id := governance_receipt_id; fa_orchestration_id := orchestration_id;
    fa_orchestration_receipt_id := orchestration_receipt_id; fa_execution_id := execution_id;
    fa_execution_receipt_id := execution_receipt_id; fa_compact_evidence_receipt_id := compact_id;
    fa_gate_results := results |}.
End final_receipt.

Definition identity_record (f : FinalAcceptanceReceipt) : res (list (string * pyval)) :=
  let* gate_ids := res_map AcceptanceGateResult.gate_result_id (fa_gate_results f) in
  Ok [("compact_evidence_receipt_id", VStr (fa_compact_evidence_receipt_id f)); ("execution_id", VStr (fa_execution_id f));
      ("execution_receipt_id", VStr (fa_execution_receipt_id f)); ("gate_result_ids", strs_val gate_ids);
      ("governance_id", VStr (fa_governance_id f)); ("governance_receipt_id", VStr (fa_governance_receipt_id f));
      ("orchestration_id", VStr (fa_orchestration_id f));
      ("orchestration_receipt_id", VStr (fa_orchestration_receipt_id f)); ("task_id", VStr (fa_task_id f));
      ("task_receipt_id", VStr (fa_task_receipt_id f))]%string.

Definition final_acceptance_id (f : FinalAcceptanceReceipt) : res pystr :=
  let* r := identity_record f in domain_fingerprint FINAL_ACCEPTANCE_ID_DOMAIN (obj r).

Definition canonical_record (f : FinalAcceptanceReceipt) : res pyval :=
  let* r := identity_record f in
  let* i := final_acceptance_id f in
  with_governed_id FINAL_ACCEPTANCE_RECEIPT_ID_DOMAIN
    (r ++ [("authority_layer", VStr (u "governance")); ("final_acceptance_id", VStr i);
           ("gate_results", VList (map AcceptanceGateResult.canonical_record (fa_gate_results f)));
           ("producer_authentication_scope", VStr (u "not-established-by-v0.4"));
           ("protocol_version", VStr FINAL_ACCEPTANCE_RECEIPT_VERSION); ("status", VStr (u "accepted"));
           ("verification_scope", VStr (u "deterministic-contract-consistency-only"))]%string).

Definition receipt_id (f : FinalAcceptanceReceipt) : res pystr := governed_receipt_id (canonical_record f).

End FinalAcceptanceReceipt.
