(* ===== verification/Wrapper.v ===== *)
(** * The governance wrapper ([src/ibae/governance.py], third part)

    The authority surface: admission of a task and of a tool, the binding of an orchestration and of
    an execution, finalization, and the validators that rebuild each receipt from its record.  A call
    returns, or raises [GovernanceRejected] with a rejection receipt, or lets another exception out. *)

From Stdlib Require Import Ascii String.
From stdpp Require Import base list gmap.
From S2P Require Import Prelude PyStr PyNumber Sha256 Canonical Records Kahn Obligations Epistemic Orchestration Budget Progress Snapshot Receipts Governance CompactEvidence GovernanceReceipts.

(** ** Outcomes of the wrapper's calls *)

Inductive outcome (A : Type) :=
  | Granted (a : A)
  | Rejected (r : RejectionReceipt)
  | Failed (e : exn).
Arguments Granted {A} a.
Arguments Rejected {A} r.
Arguments Failed {A} e.

Definition outcome_bind {A B} (o : outcome A) (k : A → outcome B) : outcome B :=
  match o with
  | Granted a => k a
  | Rejected r => Rejected r
  | Failed e => Failed e
  end.

(** A call outside any [try]. *)
Definition uncaught {A} (r : res A) : outcome A := match r with Ok a => Granted a | Raise e => Failed e end.

(** [try: r except ..: handler] *)
Definition catching {A} (caught : exn → bool) (r : res A) (handler : outcome A) : outcome A :=
  match r with
  | Ok a => Granted a
  | Raise e => if caught e then handler else Failed e
  end.

(** [if b: handler], where the handler never returns. *)
Definition reject_if {A} (b : bool) (handler : outcome unit) (k : outcome A) : outcome A :=
  if b then outcome_bind handler (λ _, k) else k.

(** [except (AttributeError, TypeError, ValueError)] and the wider clause of the tool admission. *)
Definition type_or_value (e : exn) : bool := match e with TypeError | ValueError => true | _ => false end.
Definition malformed (e : exn) : bool := match e with TypeError | ValueError | OverflowError => true | _ => false end.

Declare Scope outcome_scope.
Delimit Scope outcome_scope with outcome.
Notation "'let?' x ':=' e 'in' k" := (outcome_bind e (fun x => k))
  (at level 200, x pattern, e at level 200, k at level 200) : outcome_scope.
Local Open Scope outcome_scope.

Definition ids (names : list string) : list pystr := map u names.
Definition one_detail (key : string) (v : pyval) : pyval := obj [(key, v)].
Definition text_detail (key value : string) : pyval := one_detail key (VStr (u value)).

(** [_reject] *)
Definition reject {A} (policy : GovernancePolicy) (stage : ReceiptStage) (reason : GovernanceRejectionReason)
    (invariant_ids : list string) (bound : option (TaskReceipt * GovernanceReceipt)) (details : pyval) : outcome A :=
  match
    let* task_id := opt_map (λ b, TaskReceipt.task_id b.1) bound in
    let* governance_id := GovernancePolicy.governance_id policy in
    let* bound_ids := match bound with None => Ok [] | Some b => let* i := GovernanceReceipt.receipt_id b.2 in Ok [i] end in
    RejectionReceipt.make stage reason task_id (Some governance_id) (ids invariant_ids) bound_ids details
  with
  | Ok r => Rejected r
  | Raise e => Failed e
  end.

Module GovernanceWrapper.

(** [__init__]: the policy is rebuilt from its record. *)
Definition init (policy : GovernancePolicy) : res GovernancePolicy :=
  GovernancePolicy.from_record (GovernancePolicy.canonical_record policy).

Definition policy_record (policy : GovernancePolicy) : res pyval :=
  let* cv := CanonicalValue.from_value (GovernancePolicy.canonical_record policy) in CanonicalValue.to_value cv.

(** [admit_task] *)
Definition admit_task (policy : GovernancePolicy) (task_key : pystr) (acceptance_contract : pyval)
    (requester : PrincipalAuthority) (contract_version : Z) : outcome (TaskReceipt * GovernanceReceipt) :=
  reject_if (negb (bool_decide (requester = OPENAI_SUPERVISOR)))
    (reject policy STAGE_GOVERNANCE AUTHORITY_ESCALATION ["IBAE-GOV-002"; "IBAE-LAY-002"]%string None
       (text_detail "requested_operation" "admit_task"))
  (uncaught
    (let* task := TaskReceipt.make task_key acceptance_contract (gp_required_gate_keys policy) contract_version in
     let* governance := GovernanceReceipt.make policy task requester in
     Ok (task, governance))).

(** [admit_tool]; an [authority_class] of [None] is a value that is not a member of the enumeration. *)
Definition admit_tool (policy : GovernancePolicy) (task : TaskReceipt) (governance : GovernanceReceipt)
    (admission_decision : AdmissionDecision) (proposal : ActionProposal) (capability : Capability)
    (authority_class : option ToolAuthorityClass) (dependency_state_id : option pystr)
    (requester : PrincipalAuthority) : outcome ToolAdmissionReceipt :=
  let bound := Some (task, governance) in
  let? _ := catching type_or_value (require_governance_binding policy task governance)
    (reject policy STAGE_GOVERNANCE INVALID_BOUND_RECEIPT ["IBAE-GOV-006"; "IBAE-GOV-007"; "IBAE-ID-002"]%string None
       (text_detail "record_type" "governance_context")) in
  reject_if (negb (bool_decide (requester = DETERMINISTIC_ORCHESTRATOR)))
    (reject policy STAGE_GOVERNANCE AUTHORITY_ESCALATION ["IBAE-GOV-003"; "IBAE-LAY-002"]%string bound
       (text_detail "requested_operation" "admit_tool")) (
  let? copies := catching malformed
    (let* decision := validated_admission_decision_copy admission_decision in
     let* proposal := validated_action_proposal_copy proposal in
     let* capability := validated_capability_copy capability in
     Ok (decision, proposal, capability))
    (reject policy STAGE_GOVERNANCE MALFORMED_ACTION ["IBAE-DET-001"; "IBAE-GOV-006"]%string bound
       (text_detail "record_type" "typed_v0.2_admission")) in
  let '(admission_decision, proposal, capability) := copies in
  let tool_name := cap_name capability in
  let named := one_detail "tool_name" (VStr tool_name) in
  let? permission := catching type_or_value (GovernancePolicy.permission_for policy tool_name)
    (reject policy STAGE_GOVERNANCE UNKNOWN_TOOL_PERMISSION ["IBAE-GOV-004"; "IBAE-GOV-006"]%string bound
       (text_detail "requested_operation" "admit_tool")) in
  match permission with
  | None => reject policy STAGE_GOVERNANCE UNKNOWN_TOOL_PERMISSION ["IBAE-GOV-004"; "IBAE-GOV-006"]%string bound named
  | Some permission =>
  match authority_class with
  | None => reject policy STAGE_GOVERNANCE UNKNOWN_AUTHORITY ["IBAE-GOV-004"; "IBAE-GOV-006"]%string bound named
  | Some authority_class =>
  reject_if (negb (bool_decide (authority_class = tp_authority_class permission)))
    (reject policy STAGE_GOVERNANCE TOOL_CLASS_MISMATCH ["IBAE-GOV-004"; "IBAE-ORCH-003"]%string bound named) (
  reject_if (is_mutation authority_class && negb (tp_allow_mutation permission))
    (reject policy STAGE_GOVERNANCE MUTATION_NOT_PERMITTED ["IBAE-GOV-004"; "IBAE-GOV-006"]%string bound named)
  match dependency_state_id with
  | None => reject policy STAGE_GOVERNANCE DEPENDENCY_ID_REQUIRED ["IBAE-REUSE-001"; "IBAE-REUSE-002"]%string bound named
  | Some dependency_state_id =>
  let occurrence_key := ap_occurrence_key proposal in
  reject_if ((is_mutation authority_class || bool_decide (authority_class = VOLATILE_READ)) &&
             negb (is_some occurrence_key))
    (reject policy STAGE_GOVERNANCE OCCURRENCE_ID_REQUIRED ["IBAE-GOV-004"; "IBAE-ORCH-007"]%string bound named) (
  reject_if (is_replayed_read authority_class && is_some occurrence_key)
    (reject policy STAGE_GOVERNANCE OCCURRENCE_ID_FORBIDDEN ["IBAE-GOV-004"; "IBAE-ORCH-007"]%string bound named) (
  catching malformed
    (ToolAdmissionReceipt.make policy task governance permission requester admission_decision proposal capability
       dependency_state_id)
    (reject policy STAGE_GOVERNANCE MALFORMED_ACTION ["IBAE-DET-001"; "IBAE-GOV-006"]%string bound named)))
  end)
  end
  end).

(** [bind_orchestration] *)
Definition bind_orchestration (policy : GovernancePolicy) (task : TaskReceipt) (governance : GovernanceReceipt)
    (admission_receipt : AdmissionReceipt) (tool_admissions : list ToolAdmissionReceipt) : outcome OrchestrationReceipt :=
  let? _ := catching type_or_value (require_governance_binding policy task governance)
    (reject policy STAGE_ORCHESTRATION INVALID_BOUND_RECEIPT ["IBAE-GOV-006"; "IBAE-GOV-007"; "IBAE-ID-002"]%string None
       (text_detail "record_type" "governance_context")) in
  catching type_or_value (OrchestrationReceipt.make policy task governance admission_receipt tool_admissions)
    (reject policy STAGE_ORCHESTRATION INVALID_BOUND_RECEIPT ["IBAE-GOV-007"; "IBAE-ID-003"]%string
       (Some (task, governance)) (text_detail "record_type" "orchestration")).

Section runtime.
Context {N : NativeSeals} {E : EvidenceSeals}.

(** The summary is source-bound, of this task, policy and orchestration, and counts direct cases only. *)
Definition check_summary (policy : GovernancePolicy) (task : TaskReceipt) (orchestration : OrchestrationReceipt)
    (s : EvidenceAggregateSummary) : res EvidenceCaseCounts :=
  raise_if (negb (summary_source_bound s)) ValueError ;;*
  let same (path : list string) (expected : res pystr) :=
    let* v := summary_item s path in let* i := expected in Ok (is_text v i) in
  require_all [same ["bound_identities"; "task"]%string (TaskReceipt.task_id task);
               same ["bound_identities"; "governance"]%string (GovernancePolicy.governance_id policy);
               same ["bound_identities"; "orchestration"]%string (OrchestrationReceipt.orchestration_id orchestration)]
    ValueError ;;*
  let* children := summary_item s ["item_counts"; "child_receipts"]%string in
  raise_if (negb (py_equal children (VInt 0))) ValueError ;;*
  let* records := summary_item s ["item_counts"; "case_records"]%string in
  let* cases := summary_case_counts s in
  raise_if (negb (py_equal records (VInt (vc_total cases)))) ValueError ;;*
  Ok cases.

(** The four aggregate identities of the summary; each is a fingerprint in the execution receipt. *)
Definition summary_ids (s : EvidenceAggregateSummary) : res aggregate_ids :=
  let id_of (name : string) := let* v := summary_item s ["aggregate_identities"%string; name] in fingerprint_value v in
  let* admission := id_of "admissions"%string in
  let* input := id_of "inputs"%string in
  let* result := id_of "results"%string in
  let* receipt := id_of "receipts"%string in
  Ok {| ag_admission := admission; ag_input := input; ag_result := result; ag_receipt := receipt |}.

(** The summary's authorization manifest is the orchestration's. *)
Definition check_manifest (orchestration : OrchestrationReceipt) (s : EvidenceAggregateSummary) : res unit :=
  let* manifest_id := summary_item s ["authorization_manifest"; "manifest_id"]%string in
  let* count := summary_item s ["authorization_manifest"; "count"]%string in
  raise_if (negb (is_text manifest_id (or_authorization_manifest_id orchestration)) ||
            negb (py_equal count (VInt (or_authorization_manifest_count orchestration)))) ValueError.

(** The execution's boundary is the summary's: the two dictionaries, compared by key. *)
Definition check_execution_boundary (execution : ExecutionReceipt) (s : EvidenceAggregateSummary) : res unit :=
  let* identity := ExecutionReceipt.identity_record execution in
  let same (slot name : string) :=
    let* v := summary_boundary_item s name in
    let* w := value_item (obj identity) slot in
    Ok (py_equal v w) in
  require_all [same "final_runtime_receipt_id" "last_runtime_receipt_id";
               same "final_runtime_state_id" "final_state_id";
               same "initial_runtime_receipt_id" "first_runtime_receipt_id";
               same "initial_runtime_state_id" "initial_state_id";
               same "runtime_session_id" "session_id"]%string ValueError.

(** The [try] block of [bind_execution]. *)
Definition execution_of_summary (policy : GovernancePolicy) (task : TaskReceipt) (governance : GovernanceReceipt)
    (orchestration : OrchestrationReceipt) (s : EvidenceAggregateSummary) : res ExecutionReceipt :=
  let* cases := check_summary policy task orchestration s in
  let* initial := runtime_endpoint s true in
  let* final := runtime_endpoint s false in
  match initial, final with
  | Some initial, Some final =>
      let* aggregates := summary_ids s in
      let* execution := ExecutionReceipt.make policy task governance orchestration initial final aggregates
        (vc_total cases) in
      check_manifest orchestration s ;;*
      check_execution_boundary execution s ;;*
      Ok execution
  | _, _ => Raise ValueError
  end.

(** [bind_execution] *)
Definition bind_execution (policy : GovernancePolicy) (task : TaskReceipt) (governance : GovernanceReceipt)
    (orchestration : OrchestrationReceipt) (s : EvidenceAggregateSummary) : outcome ExecutionReceipt :=
  let? _ := catching type_or_value (require_orchestration_binding policy task governance orchestration)
    (reject policy STAGE_EXECUTION INVALID_BOUND_RECEIPT ["IBAE-GOV-006"; "IBAE-GOV-007"; "IBAE-ID-003"]%string None
       (text_detail "record_type" "orchestration_context")) in
  catching type_or_value (execution_of_summary policy task governance orchestration s)
    (reject policy STAGE_EXECUTION INVALID_BOUND_RECEIPT ["IBAE-GOV-007"; "IBAE-ID-004"]%string
       (Some (task, governance)) (text_detail "record_type" "execution")).

(** A rejection of [finalize] that binds the task. *)
Definition invalid_final {A} (policy : GovernancePolicy) (task : TaskReceipt) (governance : GovernanceReceipt)
    (invariant_ids : list string) (record_type : string) : outcome A :=
  reject policy STAGE_FINALIZATION INVALID_BOUND_RECEIPT invariant_ids (Some (task, governance))
    (text_detail "record_type" record_type).

(** The local function [partial_receipt] *)
Definition partial_receipt (policy : GovernancePolicy) (task : TaskReceipt) (governance : GovernanceReceipt)
    (missing : list pystr) (results : list AcceptanceGateResult) (reason : PartialReason)
    (orchestration : option OrchestrationReceipt) (execution : option ExecutionReceipt)
    : outcome (FinalAcceptanceReceipt + PartialReceipt) :=
  let? p := catching type_or_value
    (PartialReceipt.make policy task governance reason orchestration execution missing results)
    (invalid_final policy task governance ["IBAE-GOV-006"; "IBAE-GOV-007"]%string "partial") in
  Granted (inr p).

(** [finalize] *)
Definition finalize (policy : GovernancePolicy) (task : TaskReceipt) (governance : GovernanceReceipt)
    (orchestration : option OrchestrationReceipt) (execution : option ExecutionReceipt)
    (compact_evidence : option CompactEvidenceReceipt) (gate_results : list AcceptanceGateResult)
    (requester : PrincipalAuthority) : outcome (FinalAcceptanceReceipt + PartialReceipt) :=
  let bound := Some (task, governance) in
  let? _ := catching type_or_value (require_governance_binding policy task governance)
    (reject policy STAGE_FINALIZATION INVALID_BOUND_RECEIPT ["IBAE-GOV-007"; "IBAE-ID-004"]%string None
       (text_detail "record_type" "governance_context")) in
  reject_if (negb (bool_decide (requester = OPENAI_SUPERVISOR)))
    (reject policy STAGE_FINALIZATION AUTHORITY_ESCALATION ["IBAE-GOV-002"; "IBAE-GOV-007"; "IBAE-LAY-002"]%string bound
       (text_detail "requested_operation" "finalize")) (
  let? results := catching type_or_value (normalize_gate_results gate_results)
    (invalid_final policy task governance ["IBAE-GOV-006"; "IBAE-GOV-007"]%string "acceptance_gate_results") in
  let unknown := List.filter (λ k, negb (str_in k (gp_required_gate_keys policy))) (map gt_gate_key results) in
  reject_if (nonempty unknown)
    (reject policy STAGE_FINALIZATION UNKNOWN_ACCEPTANCE_GATE ["IBAE-GOV-006"; "IBAE-GOV-007"]%string bound
       (one_detail "unknown_gate_keys" (strs_val unknown))) (
  let missing := missing_gates (gp_required_gate_keys policy) results in
  let partial := partial_receipt policy task governance missing results in
  match orchestration with
  | None =>
      reject_if (is_some execution || is_some compact_evidence)
        (invalid_final policy task governance ["IBAE-GOV-006"; "IBAE-GOV-007"]%string "partial_dependency_order")
        (partial MISSING_ORCHESTRATION_RECEIPT None None)
  | Some orch =>
      let? _ := catching type_or_value (require_orchestration_binding policy task governance orch)
        (invalid_final policy task governance ["IBAE-GOV-007"; "IBAE-ID-004"]%string "orchestration") in
      match execution with
      | None =>
          reject_if (is_some compact_evidence)
            (invalid_final policy task governance ["IBAE-GOV-006"; "IBAE-GOV-007"]%string "partial_dependency_order")
            (partial MISSING_EXECUTION_RECEIPT (Some orch) None)
      | Some exec =>
          let? _ := catching type_or_value (require_execution_binding policy task governance orch exec)
            (invalid_final policy task governance ["IBAE-GOV-007"; "IBAE-ID-004"]%string "execution") in
          if nonempty missing then
            reject_if (is_some compact_evidence)
              (invalid_final policy task governance ["IBAE-GOV-006"; "IBAE-GOV-007"]%string "partial_compact_evidence")
              (partial UNSATISFIED_ACCEPTANCE_GATES (Some orch) (Some exec))
          else
            match compact_evidence with
            | None => invalid_final policy task governance ["IBAE-GOV-007"; "IBAE-ID-004"]%string "compact_evidence"
            | Some compact =>
                let? f := catching type_or_value
                  (FinalAcceptanceReceipt.make policy task governance orch exec compact results requester)
                  (invalid_final policy task governance ["IBAE-GOV-007"; "IBAE-ID-004"]%string "final_acceptance") in
                Granted (inl f)
            end
      end
  end)).
End runtime.

End GovernanceWrapper.

(** ** Validators *)

Module ReceiptValidator.

Definition TOOL_ADMISSION_FIELDS : list pystr :=
  [u "action_id"; u "arguments"; u "arguments_id"; u "authority_class"; u "authority_layer"; u "cache_reuse_permitted";
   u "capability_id"; u "decision_id"; u "dependency_fingerprint"; u "governance_id"; u "governance_receipt_id";
   u "governed_action_id"; u "occurrence_key"; u "permission_id"; u "proposal_id"; u "protocol_version"; u "receipt_id";
   u "requester"; u "replay_safety"; u "status"; u "task_id"; u "tool_name"].

(** [validate_tool_admission]; the dependency identity is checked before the receipt is rebuilt, so of
    two faults the other one may be the one reported by the code. *)
Definition validate_tool_admission (record : pyval) (policy : GovernancePolicy) (task : TaskReceipt)
    (governance : GovernanceReceipt) (admission_decision : AdmissionDecision) (proposal : ActionProposal)
    (capability : Capability) : res ToolAdmissionReceipt :=
  let* active := bounded_exact_mapping record TOOL_ADMISSION_FIELDS in
  let* v := field active "authority_class" in
  let* authority_class := member tool_classes tool_class_value v in
  let* v := field active "requester" in
  let* requester := member principals principal_value v in
  let* v := field active "tool_name" in
  let* tool_name := require_symbol_value v in
  let* permission := GovernancePolicy.permission_for policy tool_name in
  match permission with
  | None => Raise ValueError
  | Some permission =>
      raise_if (negb (bool_decide (tp_authority_class permission = authority_class))) ValueError ;;*
      let* dependency := checked active "dependency_fingerprint" fingerprint_value in
      let* expected := ToolAdmissionReceipt.make policy task governance permission requester admission_decision proposal
        capability dependency in
      let* expected_record := ToolAdmissionReceipt.canonical_record expected in
      require_exact_record (record_val active) expected_record ;;*
      Ok expected
  end.

(** [validate_orchestration] *)
Definition validate_orchestration (record : pyval) (policy : GovernancePolicy) (task : TaskReceipt)
    (governance : GovernanceReceipt) (admission_receipt : AdmissionReceipt)
    (tool_admissions : list ToolAdmissionReceipt) : res OrchestrationReceipt :=
  let* expected := OrchestrationReceipt.make policy task governance admission_receipt tool_admissions in
  let* expected_record := OrchestrationReceipt.canonical_record expected in
  require_exact_record record expected_record ;;*
  Ok expected.

Definition EXECUTION_FIELDS : list pystr :=
  [u "aggregate_admission_id"; u "aggregate_input_id"; u "aggregate_receipt_id"; u "aggregate_result_id";
   u "authorization_manifest_count"; u "authorization_manifest_id"; u "authority_layer"; u "execution_id";
   u "final_runtime_receipt_id"; u "final_runtime_state_id"; u "governance_id"; u "initial_runtime_receipt_id";
   u "initial_runtime_state_id"; u "orchestration_id"; u "orchestration_receipt_id"; u "protocol_version";
   u "receipt_id"; u "runtime_session_id"; u "status"; u "task_id"; u "transition_count"].

(** [validate_execution]; the aggregate identities and the count are checked before the receipt is rebuilt. *)
Definition validate_execution {N : NativeSeals} (record : pyval) (policy : GovernancePolicy) (task : TaskReceipt)
    (governance : GovernanceReceipt) (orchestration : OrchestrationReceipt) (initial final : RuntimeReceipt)
    : res ExecutionReceipt :=
  let* active := bounded_exact_mapping record EXECUTION_FIELDS in
  let* admission := checked active "aggregate_admission_id" fingerprint_value in
  let* input := checked active "aggregate_input_id" fingerprint_value in
  let* result := checked active "aggregate_result_id" fingerprint_value in
  let* receipt := checked active "aggregate_receipt_id" fingerprint_value in
  let* transition_count := checked active "transition_count" positive_value in
  let* expected := ExecutionReceipt.make policy task governance orchestration initial final
    {| ag_admission := admission; ag_input := input; ag_result := result; ag_receipt := receipt |} transition_count in
  let* expected_record := ExecutionReceipt.canonical_record expected in
  require_exact_record (record_val active) expected_record ;;*
  Ok expected.

(** [if not isinstance(record, Mapping) or name not in record] *)
Definition mapping_item (record : pyval) (name : string) : res pyval :=
  match record with
  | VDict l => match dict_item l (u name) with Ok v => Ok v | Raise _ => Raise ValueError end
  | _ => Raise ValueError
  end.

(** [validate_execution_plan] *)
Definition validate_execution_plan (record : pyval) (policy : GovernancePolicy) (task : TaskReceipt)
    (governance : GovernanceReceipt) (orchestration : OrchestrationReceipt) : res ExecutionPlanReceipt :=
  let* plan := mapping_item record "plan" in
  let* expected := ExecutionPlanReceipt.make policy task governance orchestration plan in
  let* expected_record := ExecutionPlanReceipt.canonical_record expected in
  require_exact_record record expected_record ;;*
  Ok expected.

(** [validate_benchmark] *)
Definition validate_benchmark {N : NativeSeals} (record : pyval) (task : TaskReceipt) (execution : ExecutionReceipt)
    : res BenchmarkReceipt :=
  let* observations := mapping_item record "observations" in
  let* expected := BenchmarkReceipt.make task execution observations in
  let* expected_record := BenchmarkReceipt.canonical_record expected in
  require_exact_record record expected_record ;;*
  Ok expected.

(** [except (KeyError, TypeError) as exc: raise ValueError] *)
Definition malformed_as_value_error {A} (r : res A) : res A :=
  match r with Raise KeyError | Raise TypeError => Raise ValueError | _ => r end.

(** The gate results of a record: each item's three fields, through the constructor. *)
Definition gate_results_of (record : pyval) (name : string) : res (list AcceptanceGateResult) :=
  malformed_as_value_error
    (let* v := value_item record name in
     let* items := materialize_value v MAX_REQUIRED_GATES in
     res_map AcceptanceGateResult.from_value items).

(** [validate_partial] *)
Definition validate_partial {N : NativeSeals} (record : pyval) (policy : GovernancePolicy) (task : TaskReceipt)
    (governance : GovernanceReceipt) (orchestration : option OrchestrationReceipt) (execution : option ExecutionReceipt)
    : res PartialReceipt :=
  match record with
  | VDict _ =>
      let* reason := malformed_as_value_error
        (let* v := value_item record "reason" in member partial_reasons governed_partial_value v) in
      let* gate_results := gate_results_of record "bound_gate_results" in
      let* missing := malformed_as_value_error
        (let* v := value_item record "missing_gate_keys" in checked_texts v MAX_REQUIRED_GATES) in
      let* expected := PartialReceipt.make policy task governance reason orchestration execution missing gate_results in
      let* expected_record := PartialReceipt.canonical_record expected in
      require_exact_record record expected_record ;;*
      Ok expected
  | _ => Raise TypeError
  end.

(** [validate_final] *)
Definition validate_final {N : NativeSeals} {E : EvidenceSeals} (record : pyval) (policy : GovernancePolicy)
    (task : TaskReceipt) (governance : GovernanceReceipt) (orchestration : OrchestrationReceipt)
    (execution : ExecutionReceipt) (compact_evidence : CompactEvidenceReceipt) : res FinalAcceptanceReceipt :=
  match record with
  | VDict _ =>
      let* gate_results := gate_results_of record "gate_results" in
      let* expected := FinalAcceptanceReceipt.make policy task governance orchestration execution compact_evidence
        gate_results OPENAI_SUPERVISOR in
      let* expected_record := FinalAcceptanceReceipt.canonical_record expected in
      require_exact_record record expected_record ;;*
      Ok expected
  | _ => Raise TypeError
  end.

End ReceiptValidator.
