(* ===== verification/CompactEvidenceFacts.v ===== *)
(** * What compact evidence accounts for (facts about [CompactEvidence])

    The accumulator as a machine over its operations: the runtime receipts that it takes form one
    continuous run of one session, whose ends a live summary reports.  A compact receipt is a
    consistent account of its cases. *)

From Stdlib Require Import Ascii String.
From stdpp Require Import base list.
From S2P Require Import Prelude PyStr PyNumber Sha256 Canonical CanonicalFacts Records RecordsFacts Kahn Obligations Epistemic Orchestration Admission AdmissionFacts Budget CanonFields Progress Snapshot SnapshotFacts Receipts Governance CompactEvidence.

Section accumulator.
Context {N : NativeSeals} {E : EvidenceSeals} {R : NativeReducer}.

(** One operation of the accumulator; a runtime case records its receipt. *)
Inductive evidence_step (a : EvidenceAccumulator) : list RuntimeReceipt → EvidenceAccumulator → Prop :=
  | step_case case_id admission input result receipt status counters reason detail a' :
      record_case a case_id admission input result receipt status counters reason detail = Ok a' →
      evidence_step a [] a'
  | step_runtime r a' : record_runtime_case a r = Ok a' → evidence_step a [r] a'
  | step_child c a' : ingest_child a c = Ok a' → evidence_step a [] a'
  | step_summary a' s : aggregate_summary a = Ok (a', s) → evidence_step a [] a'
  | step_final i a' c : finalize_evidence a i = Ok (a', c) → evidence_step a [] a'.

(** A run of the accumulator and the receipts it recorded, in order. *)
Inductive evidence_run (a : EvidenceAccumulator) : list RuntimeReceipt → EvidenceAccumulator → Prop :=
  | run_start : evidence_run a [] a
  | run_step rs rs' a' a'' : evidence_run a rs a' → evidence_step a' rs' a'' → evidence_run a (rs ++ rs') a''.

(** A live runtime receipt that takes [session] from one state to another. *)
Record moves (session prior : pystr) (r : RuntimeReceipt) (next : pystr) : Prop := {
  mv_source : receipt_source_bound r = true;
  mv_items : ∃ v, receipt_value r = Ok v ∧ item_at v ["session_id"%string] = Ok (VStr session) ∧
    item_at v ["prior_state_id"%string] = Ok (VStr prior) ∧ item_at v ["resulting_state_id"%string] = Ok (VStr next)
}.

(** Receipts in which each starts from the state that the one before left. *)
Inductive continuous (session : pystr) : pystr → list RuntimeReceipt → pystr → Prop :=
  | cont_nil s : continuous session s [] s
  | cont_snoc s rs m r t : continuous session s rs m → moves session m r t → continuous session s (rs ++ [r]) t.

(** What the accumulator holds after recording some receipts. *)
Record accounted (a0 a : EvidenceAccumulator) (rs : list RuntimeReceipt) : Prop := {
  ae_identities : ac_task_identity a = ac_task_identity a0 ∧ ac_governance_identity a = ac_governance_identity a0 ∧
    ac_orchestration_identity a = ac_orchestration_identity a0 ∧ ac_limits a = ac_limits a0;
  ae_first : ac_first_runtime_receipt a = head rs;
  ae_last : ac_last_runtime_receipt a = last rs;
  ae_run : match ac_runtime_session_id a, ac_last_runtime_state_id a with
    | None, None => rs = []
    | Some session, Some state => rs ≠ [] ∧ ∃ start, continuous session start rs state
    | _, _ => False
    end;
  ae_summary : ∀ s, ac_summary a = Some s → ∃ rs1 rs2, rs = rs1 ++ rs2 ∧
    (summary_seal_source_bound (sm_native_seal s) = true →
      sm_first_runtime_receipt s = head rs1 ∧ sm_last_runtime_receipt s = last rs1)
}.

Lemma fingerprint_text v i : CompactEvidence.fingerprint_value v = Ok i → v = VStr i.
Proof. by intros [-> _]%fingerprint_value_Ok. Qed.

Lemma record_runtime_Ok a r a' :
  record_runtime_case a r = Ok a' →
  ∃ session prior next native, moves session prior r next ∧
    (∀ s, ac_runtime_session_id a = Some s → session = s ∧ ac_last_runtime_state_id a = Some prior) ∧
    a' = {| ac_native := native; ac_summary := ac_summary a; ac_final := ac_final a;
            ac_first_runtime_receipt := match ac_first_runtime_receipt a with None => Some r | first => first end;
            ac_last_runtime_receipt := Some r; ac_last_runtime_state_id := Some next;
            ac_runtime_session_id := match ac_first_runtime_receipt a with None => Some session | _ => ac_runtime_session_id a end;
            ac_task_identity := ac_task_identity a; ac_governance_identity := ac_governance_identity a;
            ac_orchestration_identity := ac_orchestration_identity a; ac_limits := ac_limits a |}.
Proof.
  unfold record_runtime_case. intros ([] & Hs%raise_if_Ok%negb_false_iff & H)%res_bind_Ok.
  apply res_bind_Ok in H as (v & Hv & H). apply res_bind_Ok in H as (? & _ & H). apply res_bind_Ok in H as (? & _ & H).
  do 4 (apply res_bind_Ok in H as (? & _ & H)).
  apply res_bind_Ok in H as (prior & Hp & H). apply res_bind_Ok in H as (next & Hn & H).
  apply res_bind_Ok in H as (session & Hse & H). do 4 (apply res_bind_Ok in H as (? & _ & H)).
  apply res_bind_Ok in H as (pid & ->%fingerprint_text & H). apply res_bind_Ok in H as (nid & ->%fingerprint_text & H).
  apply res_bind_Ok in H as (sid & ->%fingerprint_text & H).
  do 9 (apply res_bind_Ok in H as (? & _ & H)). apply res_bind_Ok in H as ([] & Hc & H).
  destruct (rt_native_seal r) as [seal|]; [|discriminate]. apply res_bind_Ok in H as (native & _ & [= <-]).
  exists sid, pid, nid, native. split; [|split; [|reflexivity]].
  - constructor; [exact Hs|]. by exists v.
  - intros s Es. rewrite Es in Hc. apply res_bind_Ok in Hc as ([] & H1%raise_if_Ok & H2%raise_if_Ok). bool_inv. by subst.
Qed.

Lemma make_accumulator_Ok t g o manifest limits fold a :
  make_accumulator t g o manifest limits fold = Ok a →
  ac_summary a = None ∧ ac_final a = None ∧ ac_first_runtime_receipt a = None ∧ ac_last_runtime_receipt a = None ∧
  ac_last_runtime_state_id a = None ∧ ac_runtime_session_id a = None ∧ ac_task_identity a = t ∧
  ac_governance_identity a = g ∧ ac_orchestration_identity a = o ∧ ac_limits a = limits.
Proof. unfold make_accumulator. intros H. by do 6 (apply res_bind_Ok in H as (? & _ & H)); injection H as <-. Qed.

Lemma make_summary_Ok text seal first last s :
  make_summary text seal first last = Ok s →
  sm_native_seal s = seal ∧ sm_first_runtime_receipt s = first ∧ sm_last_runtime_receipt s = last.
Proof. unfold make_summary. intros H. by do 20 (apply res_bind_Ok in H as (? & _ & H)); injection H as <-. Qed.

Lemma structural_step a rs a' :
  evidence_step a rs a' →
  (∃ r, rs = [r] ∧ record_runtime_case a r = Ok a') ∨
  (rs = [] ∧ ac_first_runtime_receipt a' = ac_first_runtime_receipt a ∧ ac_last_runtime_receipt a' = ac_last_runtime_receipt a ∧
   ac_runtime_session_id a' = ac_runtime_session_id a ∧ ac_last_runtime_state_id a' = ac_last_runtime_state_id a ∧
   ac_task_identity a' = ac_task_identity a ∧ ac_governance_identity a' = ac_governance_identity a ∧
   ac_orchestration_identity a' = ac_orchestration_identity a ∧ ac_limits a' = ac_limits a ∧
   (ac_summary a' = ac_summary a ∨ ∃ s, ac_summary a' = Some s ∧
     (summary_seal_source_bound (sm_native_seal s) = true →
       sm_first_runtime_receipt s = ac_first_runtime_receipt a ∧ sm_last_runtime_receipt s = ac_last_runtime_receipt a))).
Proof.
  intros [? ? ? ? ? ? ? ? ? a1 H|r a1 H|c a1 H|a1 s H|i a1 c H]; [right| left; by exists r|right..]; (split; [reflexivity|]).
  - unfold record_case in H. do 7 (apply res_bind_Ok in H as (? & _ & H)).
    apply res_bind_Ok in H as (? & _ & [= <-]). cbn. auto 10.
  - unfold ingest_child in H. do 6 (apply res_bind_Ok in H as (? & _ & H)). injection H as <-. cbn. auto 10.
  - unfold aggregate_summary in H. destruct (ac_summary a) as [s0|] eqn:Es; [injection H as <- <-; rewrite Es; auto 10|].
    apply res_bind_Ok in H as (x & _ & H). apply res_bind_Ok in H as (s1 & (Hn & Hf & Hl)%make_summary_Ok & [= <- <-]).
    cbn. repeat (split; [reflexivity|]). right. exists s1. split; [reflexivity|]. rewrite Hn, Hf, Hl. intros ->. auto.
  - unfold finalize_evidence in H. apply res_bind_Ok in H as (? & _ & H). apply res_bind_Ok in H as (? & _ & H).
    destruct (ac_final a) as [c0|].
    + do 2 (apply res_bind_Ok in H as (? & _ & H)). injection H as <- <-. auto 10.
    + do 2 (apply res_bind_Ok in H as (? & _ & H)). injection H as <- <-. cbn. auto 10.
Qed.

Lemma accounted_step a0 a rs rs' a' :
  accounted a0 a rs → evidence_step a rs' a' → accounted a0 a' (rs ++ rs').
Proof.
  intros [(I1 & I2 & I3 & I4) Hf Hl Hr Hs] [(r & -> & H)|(-> & E1 & E2 & E3 & E4 & E5 & E6 & E7 & E8 & E9)]%structural_step.
  - apply record_runtime_Ok in H as (session & prior & next & native & Hm & Hc & ->).
    constructor; cbn; [auto| | | |].
    + rewrite Hf. by destruct rs.
    + by rewrite last_snoc.
    + rewrite Hf. destruct (ac_runtime_session_id a) as [s|] eqn:Es, (ac_last_runtime_state_id a) as [q|] eqn:Eq; try contradiction.
      * destruct (Hc s eq_refl) as [-> [= ->]], Hr as [Hne (start & Hrun)]. destruct rs as [|r0 rs]; [done|]. cbn [head].
        split; [by destruct rs|]. exists start. by eapply cont_snoc.
      * subst rs. cbn [head]. split; [done|]. exists prior. apply (cont_snoc _ _ [] prior); [constructor|exact Hm].
    + intros s (rs1 & rs2 & -> & Hb)%Hs. exists rs1, (rs2 ++ [r]). split; [by rewrite app_assoc|exact Hb].
  - rewrite app_nil_r. constructor; rewrite ?E1, ?E2, ?E3, ?E4, ?E5, ?E6, ?E7, ?E8; auto.
    destruct E9 as [->|(s & -> & Hb)]; [exact Hs|]. intros s' [= <-]. exists rs, []. rewrite app_nil_r. split; [reflexivity|].
    rewrite <- Hf, <- Hl. exact Hb.
Qed.

Lemma run_accounted a0 rs a :
  accounted a0 a0 [] → evidence_run a0 rs a → accounted a0 a rs.
Proof. intros H0. induction 1 as [|rs rs' a' a'' _ IH Hs]; [exact H0|]. by eapply accounted_step. Qed.

End accumulator.

(** ** Sealed texts *)

Lemma exact_mapping_Ok v names record :
  exact_mapping v names = Ok record →
  ∃ l, v = VDict l ∧ has_keys l names = true ∧ Forall2 (λ name kv, dict_item l name = Ok kv.2 ∧ kv.1 = name) (sorted names) record.
Proof.
  unfold exact_mapping. destruct v as [| | | | | | |l|]; try discriminate. intros ([] & _ & H)%res_bind_Ok.
  apply res_bind_Ok in H as ([] & Hk%raise_if_Ok%negb_false_iff & H%res_map_Ok). exists l. split; [done|]. split; [done|].
  eapply Forall2_impl; [exact H|]. intros name kv (w & Hw & [= <-])%res_bind_Ok. auto.
Qed.

(** A field of the checked record is the item of the value. *)
Lemma exact_field v names record name w :
  exact_mapping v names = Ok record → Snapshot.field record name = Ok w → item_at v [name] = Ok w.
Proof.
  intros (l & -> & _ & H)%exact_mapping_Ok Hf. unfold Snapshot.field in Hf.
  destruct (find _ record) as [kv|] eqn:Ef; [|discriminate]. injection Hf as <-.
  apply find_elem in Ef as [Hin Ek]. apply bool_decide_eq_true in Ek. apply list_elem_of_lookup in Hin as [i Hi].
  destruct (Forall2_lookup_r _ _ _ _ _ H Hi) as (n & _ & Hd & En). cbn [item_at]. by rewrite <- Ek, En, Hd.
Qed.

Lemma exact_keys v names record : exact_mapping v names = Ok record → map fst record = sorted names.
Proof.
  intros (l & _ & _ & H)%exact_mapping_Ok. induction H as [|n kv ns r [_ <-] _ IH]; [done|]. cbn. by rewrite IH.
Qed.

(** The checked record is the value, up to the order of the keys. *)
Lemma exact_perm l names record :
  NoDup names → NoDup (string_keys l) → exact_mapping (VDict l) names = Ok record →
  map (λ kv : pystr * pyval, (VStr kv.1, kv.2)) record ≡ₚ l.
Proof.
  intros Hn Hl Hr. pose proof (exact_keys _ _ _ Hr) as Hfst. apply exact_mapping_Ok in Hr as (l' & [= <-] & Hk & H). unfold has_keys in Hk. apply andb_true_iff in Hk as [Hk _].
  apply NoDup_Permutation.
  - apply (NoDup_fmap_1 (λ kv : pyval * pyval, kv.1)). change (NoDup (map fst (map (λ kv : pystr * pyval, (VStr kv.1, kv.2)) record))).
    rewrite map_map. cbn [fst]. rewrite <- (map_map fst VStr), Hfst.
    apply NoDup_fmap_2; [by intros ? ? [= ->]|by rewrite sorted_perm].
  - clear -Hl Hk. induction l as [|[k w] l IH]; [constructor|]. cbn [forallb fst] in Hk. apply andb_true_iff in Hk as [Hs Hk].
    destruct k as [| | | |k| | | |]; try discriminate. unfold string_keys in Hl. cbn [omap list_omap fst] in Hl.
    apply NoDup_cons in Hl as [Hni Hl]. constructor; [|by apply IH]. intros Hin. apply Hni, list_elem_of_omap. by exists (VStr k, w).
  - intros [k w]. split.
    + intros ([k' w'] & [= -> ->] & Hin)%list_elem_of_fmap. apply list_elem_of_lookup in Hin as [i Hi].
      destruct (Forall2_lookup_r _ _ _ _ _ H Hi) as (n & _ & Hd & En). cbn in Hd, En. subst n. by apply dict_item_elem.
    + intros Hin. pose proof (proj1 (forallb_elem _ _) Hk _ Hin) as Hs. cbn [fst] in Hs.
      destruct k as [| | | |k| | | |]; try discriminate. apply str_in_true in Hs. rewrite <- (sorted_perm names) in Hs.
      apply list_elem_of_lookup in Hs as [i Hi]. destruct (Forall2_lookup_l _ _ _ _ _ H Hi) as ([k' w'] & Hi' & Hd & Ek).
      cbn in Hd, Ek. subst k'. rewrite (dict_item_unique l k w Hl Hin) in Hd. injection Hd as <-.
      apply list_elem_of_fmap. exists (k, w). split; [done|]. by eapply list_elem_of_lookup_2.
Qed.

(** A canonical text, the value it holds, and the record that is stored of it. *)
Lemma stored_text text cv v names record stored :
  CanonicalValue.make text = Ok cv → CanonicalValue.to_value cv = Ok v → NoDup names →
  exact_mapping v names = Ok record → CanonicalValue.from_value (record_val record) = Ok stored →
  cv_text cv = text ∧ stored = cv.
Proof.
  unfold CanonicalValue.make. intros ([] & Hc & [= <-])%res_bind_Ok Hv Hn Hr Hs.
  apply check_canonical_text_inv in Hc as (w & Hload & Ha & Ht & Hcan); [|apply value_limits_ok].
  unfold CanonicalValue.to_value in Hv. cbn [cv_text] in *. rewrite Hload in Hv. injection Hv as <-. split; [done|].
  apply from_value_iff in Hs as [_ Hs]. pose proof Hr as (l & -> & _ & _)%exact_mapping_Ok.
  assert (Hwf : dict_wf (VDict l) = true) by (destruct Ha as [Ha _]; by eapply shape_ok_wf).
  cbn [dict_wf] in Hwf. apply andb_true_iff in Hwf as [Hnd%bool_decide_eq_true _].
  pose proof (exact_perm _ _ _ Hn Hnd Hr) as Hp.
  assert (Hcr : canon (record_val record) = canon (VDict l)).
  { unfold record_val. cbn [canon]. f_equal. apply sorted_by_perm_eq.
    - change (NoDup (map dict_key (map (λ kv : pyval * pyval, (kv.1, canon kv.2))
        (map (λ kv : pystr * pyval, (VStr kv.1, kv.2)) record)))).
      rewrite !map_map. change (NoDup (map fst record)). by rewrite (exact_keys _ _ _ Hr), sorted_perm.
    - by rewrite Hp. }
  rewrite <- canonical_json_canon_eq, Hcr, canonical_json_canon_eq, Ht in Hs. injection Hs as Hs.
  destruct stored. cbn in Hs. by subst.
Qed.

(** ** Compact receipts *)

Lemma case_counts_Ok v z cases :
  EvidenceCaseCounts.from_record v z = Ok cases →
  vc_total cases = vc_failed cases + vc_passed cases + vc_rejected cases ∧ 0 <= vc_failed cases ∧ 0 <= vc_passed cases ∧
  0 <= vc_rejected cases ∧ (z = false → 0 < vc_total cases).
Proof.
  assert (Hu : ∀ r name n, checked r name u64_value = Ok n → 0 <= n).
  { intros r name n (w & _ & Hw)%res_bind_Ok. unfold u64_value in Hw. destruct w; try discriminate.
    apply res_bind_Ok in Hw as ([] & H%raise_if_Ok & [= <-]). bool_inv. lia. }
  unfold EvidenceCaseCounts.from_record. intros (r & _ & H)%res_bind_Ok.
  apply res_bind_Ok in H as (a & Ha%Hu & H). apply res_bind_Ok in H as (b & Hb%Hu & H).
  apply res_bind_Ok in H as (c & Hc%Hu & H). apply res_bind_Ok in H as (t & Ht%Hu & H).
  apply res_bind_Ok in H as ([] & H1%raise_if_Ok & H). apply res_bind_Ok in H as ([] & H2%raise_if_Ok & [= <-]).
  cbn. bool_inv. repeat (split; [lia|]). intros ->. cbn in H2. apply Z.eqb_neq in H2. lia.
Qed.

Lemma failure_summary_Ok v cases limit count :
  check_failure_summary v cases limit = Ok count → count = EvidenceCaseCounts.failure_count cases.
Proof.
  unfold check_failure_summary. intros H. do 4 (apply res_bind_Ok in H as (? & _ & H)).
  match type of H with match ?t with _ => _ end = _ => destruct t; try discriminate end.
  apply res_bind_Ok in H as ([] & H1%raise_if_Ok & H). do 3 (apply res_bind_Ok in H as (? & _ & H)). injection H as <-.
  by bool_inv.
Qed.

Lemma checked_field {A} v names record name (f : pyval → res A) a :
  exact_mapping v names = Ok record → checked record name f = Ok a → ∃ w, item_at v [name] = Ok w ∧ f w = Ok a.
Proof. intros Hr (w & Hw & Hf)%res_bind_Ok. exists w. split; [by eapply exact_field|exact Hf]. Qed.

(** What a compact receipt says of its cases. *)
Record truthful (cases : EvidenceCaseCounts) (counters : EvidenceCounters) (status : pystr) : Prop := {
  tf_total : vc_total cases = vc_failed cases + vc_passed cases + vc_rejected cases;
  tf_nonneg : 0 <= vc_failed cases ∧ 0 <= vc_passed cases ∧ 0 <= vc_rejected cases;
  tf_bounds : 0 < vc_total cases <= MAX_EVIDENCE_CASES;
  tf_status : status = if vc_passed cases =? vc_total cases then u "complete_no_failures" else u "complete_with_failures";
  tf_clean : vc_passed cases = vc_total cases → EvidenceCounters.has_correctness_mismatch counters = false
}.

Lemma is_text_eq v s : is_text v s = true → v = VStr s.
Proof. unfold is_text. destruct v as [| | |f| | | | |]; cbn; try discriminate; [by destruct f|by intros ->%bool_decide_eq_true]. Qed.

Lemma receipt_fields_distinct : NoDup EVIDENCE_RECEIPT_FIELDS.
Proof. by apply (bool_decide_unpack _). Qed.

Section compact.
Context {N : NativeSeals} {E : EvidenceSeals}.

Lemma bounded_positive_Ok v m n : bounded_positive v m = Ok n → 0 < n <= m.
Proof.
  unfold bounded_positive, u64_value. intros (z & Hz & H)%res_bind_Ok. destruct v; try discriminate.
  apply res_bind_Ok in Hz as ([] & H1%raise_if_Ok & [= <-]). apply res_bind_Ok in H as ([] & H2%raise_if_Ok & [= <-]).
  bool_inv. lia.
Qed.

(** C30.  A compact receipt is a consistent account: its text is stored unchanged within the byte bound, its case
    counts add up to at least one and at most the declared number of cases, its status is
    [complete_no_failures] exactly when every case passed - and then no counter reports a mismatch -
    and it is source-bound exactly when its native seal is. *)
Theorem compact_receipt_truthful text profile seal c :
  make_compact text profile seal = Ok c →
  cv_text (ce_record c) = text ∧ (∃ bytes, utf8 text = Ok bytes ∧ Z.of_nat (length bytes) <= MAX_COMPACT_EVIDENCE_BYTES) ∧
  (∃ cases counters status, compact_case_counts c = Ok cases ∧ compact_counter_totals c = Ok counters ∧
    compact_item c ["status"%string] = Ok (VStr status) ∧ truthful cases counters status) ∧
  (compact_source_bound c = true ↔ ∃ s, seal = Some s ∧ evidence_seal_source_bound s = true).
Proof.
  unfold make_compact. intros (cv & Hcv & H)%res_bind_Ok. apply res_bind_Ok in H as ([] & Hseal & H).
  apply res_bind_Ok in H as (over & Hover & H). apply res_bind_Ok in H as ([] & Hov%raise_if_Ok & H).
  apply res_bind_Ok in H as (v & Hv & H). apply res_bind_Ok in H as (record & Hr & H).
  do 4 (apply res_bind_Ok in H as (? & _ & H)). apply res_bind_Ok in H as (bi & _ & H).
  do 3 (apply res_bind_Ok in H as (? & _ & H)).
  apply res_bind_Ok in H as (cases & (w1 & I1 & Hcases)%(checked_field _ _ _ _ _ _ Hr) & H).
  apply res_bind_Ok in H as (counters & (w2 & I2 & Hcounters)%(checked_field _ _ _ _ _ _ Hr) & H).
  do 5 (apply res_bind_Ok in H as (? & _ & H)).
  apply res_bind_Ok in H as (max & (? & _ & Hmax%bounded_positive_Ok)%res_bind_Ok & H).
  apply res_bind_Ok in H as (det & _ & H). apply res_bind_Ok in H as ([] & Hlim%raise_if_Ok%Z.ltb_ge & H).
  apply res_bind_Ok in H as (count & (w3 & _ & Hcount%failure_summary_Ok)%res_bind_Ok & H).
  apply res_bind_Ok in H as (st & Hst%(exact_field _ _ _ _ _ Hr) & H).
  apply res_bind_Ok in H as ([] & Hs%raise_if_Ok%negb_false_iff & H).
  apply res_bind_Ok in H as ([] & Hm%raise_if_Ok & H). apply res_bind_Ok in H as (stored & Hstored & [= <-]).
  destruct (stored_text _ _ _ _ _ _ Hcv Hv receipt_fields_distinct Hr Hstored) as [Htext ->].
  unfold compact_case_counts, compact_counter_totals, compact_item, compact_value, compact_source_bound. cbn [ce_record ce_native_seal].
  rewrite Htext in Hseal, Hover |- *. rewrite Hcv. cbn [res_bind is_ok andb]. rewrite Hseal. cbn [res_bind]. rewrite Hv.
  cbn [res_bind]. rewrite I1, I2, Hst. cbn [res_bind].
  pose proof (case_counts_Ok _ _ _ Hcases) as (T1 & T2 & T3 & T4 & T5). specialize (T5 eq_refl).
  unfold EvidenceCaseCounts.failure_count in Hcount. rewrite (is_text_eq _ _ Hs).
  assert (Hz : (count =? 0) = (vc_passed cases =? vc_total cases)).
  { destruct (Z.eqb_spec count 0), (Z.eqb_spec (vc_passed cases) (vc_total cases)); lia || reflexivity. }
  rewrite Hz in Hm |- *. split; [reflexivity|]. split; [|split].
  - unfold encoded_over in Hover. apply res_bind_Ok in Hover as (bytes & Hb & [= Ho]). exists bytes. rewrite Hov in Ho.
    apply Z.ltb_ge in Ho. exact (conj Hb Ho).
  - exists cases, counters. eexists. split; [exact Hcases|]. split; [exact Hcounters|]. split; [reflexivity|].
    constructor; [exact T1|repeat (split; [assumption|]); assumption|lia|reflexivity|].
    intros Hp. rewrite (proj2 (Z.eqb_eq _ _) Hp) in Hm. exact Hm.
  - destruct seal as [s|]; [|split; [discriminate|intros (? & ? & _); discriminate]].
    apply raise_if_Ok, negb_false_iff in Hseal. rewrite Hseal, andb_true_r. split; [intros Hb; by exists s|].
    intros (s' & [= <-] & Hb). exact Hb.
Qed.
End compact.
