(* ===== verification/GovernanceFacts.v ===== *)
(** * Policies and tool authority (facts about [Governance] and [Wrapper])

    Records that are rebuilt and compared, the invariant of a policy, what the receipt of a tool
    admission establishes, and the table of the wrapper's refusals. *)

From Stdlib Require Import Ascii String Sorting.Sorted.
From stdpp Require Import base list gmap.
From S2P Require Import Prelude PyStr PyNumber Sha256 Canonical CanonicalFacts Fingerprints Records RecordsFacts Kahn Obligations Epistemic Orchestration Admission AdmissionFacts Budget CanonFields Progress Snapshot SnapshotFacts Receipts Governance CompactEvidence GovernanceReceipts Wrapper.

(** ** Exact records *)

Lemma obj_record kvs : obj kvs = record_val (map (λ kv, (u kv.1, kv.2)) kvs).
Proof. unfold obj, record_val. rewrite map_map. f_equal. apply map_ext. by intros []. Qed.

Lemma dict_item_record kvs k :
  dict_item (map (λ kv : pystr * pyval, (VStr kv.1, kv.2)) kvs) k =
  match find (λ kv, bool_decide (kv.1 = k)) kvs with Some kv => Ok kv.2 | None => Raise KeyError end.
Proof.
  unfold dict_item. induction kvs as [|[k' v] kvs IH]; [done|]. cbn [map find fst].
  destruct (bool_decide (k' = k)); [done|exact IH].
Qed.

Lemma find_key (kvs : list (pystr * pyval)) kv :
  NoDup (map fst kvs) → kv ∈ kvs → find (λ kv', bool_decide (kv'.1 = kv.1)) kvs = Some kv.
Proof. intros Hnd Hin. by apply (find_unique fst). Qed.

Lemma sorted_keys {A} (kvs : list (pystr * A)) : sorted (map fst kvs) = map fst (sorted_by fst kvs).
Proof. unfold sorted. apply (sorted_by_map id fst). Qed.

Lemma copied_items (kvs : list (pystr * pyval)) : NoDup (map fst kvs) →
  ∀ rest copied, kvs = copied ++ rest →
  res_fold (λ copied key,
    match key with
    | VStr k =>
        raise_if (str_in k (map fst copied)) ValueError ;;*
        let* v := dict_item (map (λ kv : pystr * pyval, (VStr kv.1, kv.2)) kvs) k in
        Ok (copied ++ [(k, v)])
    | _ => Raise TypeError
    end) copied (map (λ kv, VStr kv.1) rest) = Ok kvs.
Proof.
  intros Hnd. induction rest as [|[k v] rest IH]; intros copied E; [by rewrite E, app_nil_r|].
  cbn [map res_fold fst].
  assert (str_in k (map fst copied) = false) as ->.
  { apply str_in_false. rewrite E, map_app in Hnd. apply NoDup_app in Hnd as (_ & Hd & _). intros Hin. apply (Hd k Hin).
    apply list_elem_of_here. }
  rewrite dict_item_record. pose proof (find_key kvs (k, v) Hnd) as Hf. cbn [fst] in Hf.
  rewrite Hf by (rewrite E; set_solver). cbn [raise_if res_bind snd]. apply IH. by rewrite <- app_assoc.
Qed.

Lemma exact_items (kvs : list (pystr * pyval)) names :
  NoDup (map fst kvs) → sorted names = sorted (map fst kvs) → limit_ok (Z.of_nat (length kvs)) →
  bounded_exact_mapping (record_val kvs) names = Ok (sorted_by fst kvs).
Proof.
  intros Hnd Hn Hl. unfold bounded_exact_mapping, record_val. rewrite Hn, sorted_keys, length_map, length_sorted_by.
  rewrite map_map, materialize_list by done. rewrite length_map, Z.leb_refl. cbn [res_bind fst].
  rewrite (copied_items kvs Hnd kvs []) by done. cbn [res_bind]. rewrite sorted_keys.
  rewrite bool_decide_true by done. cbn [negb raise_if res_bind]. apply res_map_Ok.
  assert (Hsub : ∀ l, (∀ kv, kv ∈ l → kv ∈ kvs) → Forall2 (λ key kv,
    match find (λ kv : pystr * pyval, bool_decide (kv.1 = key)) kvs with
    | Some kv => Ok (key, kv.2) | None => Raise KeyError end = Ok kv) (map fst l) l).
  { induction l as [|kv l IH]; intros Hsub; cbn [map]; constructor.
    - rewrite (find_key kvs kv); [by destruct kv|done|apply Hsub, list_elem_of_here].
    - apply IH. intros kv' Hin. by apply Hsub, list_elem_of_further. }
  apply Hsub. intros kv Hin. by apply elem_of_sorted_by in Hin.
Qed.

Lemma canon_record kvs :
  canon (record_val kvs) = record_val (map (λ kv, (kv.1, canon kv.2)) (sorted_by fst kvs)).
Proof.
  unfold record_val. cbn [canon]. rewrite !map_map. cbn [fst snd]. f_equal.
  rewrite (sorted_by_map dict_key). by f_equal.
Qed.

Lemma shape_ok_comparable lim v d : shape_ok lim d v = true → comparable v = true.
Proof.
  revert d; induction v as [|b|z|f|s|l IH|l IH|l IH|] using pyval_nested_ind; intros d Hs; try done;
    cbn [shape_ok comparable] in *; bool_inv; try done; [by destruct f|..]; rewrite Forall_forall in IH; apply forallb_elem; intros x Hx.
  1,2: apply (IH x Hx (d + 1)); by eapply forallb_elem.
  destruct (IH x Hx) as [_ IHx].
  match goal with H : forallb _ l = true |- _ => apply (proj1 (forallb_elem _ _) H x) in Hx end.
  bool_inv. apply andb_true_iff. split; [by destruct x.1|by apply (IHx (d + 1))].
Qed.

Lemma canon_equal v : admissible value_limits v → py_equal (canon v) (canon v) = true.
Proof.
  intros [Hs _]. rewrite <- shape_ok_canon in Hs. apply py_equal_refl; [by eapply shape_ok_wf|by eapply shape_ok_comparable].
Qed.

Lemma admissible_value v : admissible value_limits v → ∃ cv, CanonicalValue.from_value v = Ok cv ∧
  CanonicalValue.to_value cv = Ok (canon v).
Proof.
  intros Ha. destruct (admissible_text _ _ Ha) as (t & Ht & _). exists {| cv_text := t |}.
  assert (CanonicalValue.from_value v = Ok {| cv_text := t |}) as Hv by (by apply from_value_iff).
  split; [done|]. by apply from_value_to_value.
Qed.

(** A record with the items of the expected one, in any order, is exact. *)
Lemma exact_record_same kvs kvs' :
  kvs' ≡ₚ kvs → NoDup (map fst kvs) → limit_ok (Z.of_nat (length kvs)) → admissible value_limits (record_val kvs) →
  require_exact_record (record_val kvs') (record_val kvs) = Ok tt.
Proof.
  intros Hp Hnd Hl Ha. unfold require_exact_record. destruct (admissible_value _ Ha) as (cv & Hcv & Hv).
  unfold record_val at 1. rewrite Hcv. cbn [res_bind]. rewrite Hv. cbn [res_bind].
  rewrite canon_record. unfold record_val at 1. cbn [res_bind].
  set (canonical := map _ (sorted_by fst kvs)).
  assert (Hkeys : text_keys (map (λ kv : pystr * pyval, (VStr kv.1, kv.2)) canonical) = map fst (sorted_by fst kvs)).
  { subst canonical. unfold text_keys. generalize (sorted_by fst kvs) as l.
    induction l as [|kv l IH]; [done|]. cbn in IH |- *. by rewrite IH. }
  rewrite Hkeys, exact_items; [|by rewrite Hp| |by rewrite Hp].
  2:{ rewrite <- sorted_keys. unfold sorted. rewrite sorted_by_idem.
      apply sorted_by_perm_eq; [by rewrite list_fmap_id|by rewrite Hp]. }
  cbn [res_bind]. rewrite (sorted_by_perm_eq fst kvs' kvs); [|by rewrite Hp|done].
  assert (Hc : canon (record_val (sorted_by fst kvs)) = canon (record_val kvs)) by (by rewrite !canon_record, sorted_by_idem).
  destruct (admissible_value (record_val (sorted_by fst kvs))) as (cv' & -> & Hv').
  { rewrite <- admissible_canon, Hc. by rewrite admissible_canon. }
  cbn [res_bind]. rewrite Hv'. cbn [res_bind]. rewrite Hc, canon_record.
  fold (record_val canonical). subst canonical. rewrite <- canon_record, canon_equal by done. done.
Qed.

(** ** Policies *)

(** A permission: reads never mutate, and only pure and snapshot reads may be answered from a cache. *)
Record permission_ok (p : ToolPermission) : Prop := {
  pm_name : require_symbol (tp_tool_name p) = Ok tt;
  pm_mutation : tp_allow_mutation p = true → is_mutation (tp_authority_class p) = true;
  pm_reuse : tp_allow_cache_reuse p = true → is_replayed_read (tp_authority_class p) = true
}.

(** The authorities of a policy are fixed, its permissions unique by name, its gates exactly the supported ones. *)
Record policy_ok (p : GovernancePolicy) : Prop := {
  po_key : require_symbol (gp_policy_key p) = Ok tt;
  po_version : require_positive_int (gp_policy_version p) = Ok tt;
  po_profile : require_symbol (gp_task_profile p) = Ok tt;
  po_profile_version : require_positive_int (gp_task_profile_version p) = Ok tt;
  po_principals : gp_supervisor_authority p = OPENAI_SUPERVISOR ∧ gp_worker_authority p = LOCAL_CANDIDATE_WORKER ∧
    gp_orchestration_authority p = DETERMINISTIC_ORCHESTRATOR ∧ gp_runtime_authority p = RUST_EXECUTION_RUNTIME;
  po_permissions : Forall permission_ok (gp_tool_permissions p);
  po_unique : NoDup (map tp_tool_name (gp_tool_permissions p));
  po_sorted : StronglySorted (key_le tp_tool_name) (gp_tool_permissions p);
  po_bound : Z.of_nat (length (gp_tool_permissions p)) <= MAX_TOOL_PERMISSIONS;
  po_gates : gp_required_gate_keys p = sorted SUPPORTED_REQUIRED_GATE_KEYS
}.

Lemma permission_make_Ok name c m r p :
  ToolPermission.make name c m r = Ok p →
  permission_ok p ∧ p = {| tp_tool_name := name; tp_authority_class := c; tp_allow_mutation := m; tp_allow_cache_reuse := r |}.
Proof.
  unfold ToolPermission.make. intros H.
  apply res_bind_Ok in H as ([] & Hs & H). apply res_bind_Ok in H as ([] & H1%raise_if_Ok & H).
  apply res_bind_Ok in H as ([] & H2%raise_if_Ok & H). apply res_bind_Ok in H as ([] & H3%raise_if_Ok & [= <-]).
  split; [|done]. constructor; cbn; [done|..]; intros ->; destruct c;
    first [reflexivity | by vm_compute in H1 | by vm_compute in H2 | by vm_compute in H3].
Qed.

Lemma permission_remake p :
  permission_ok p →
  ToolPermission.make (tp_tool_name p) (tp_authority_class p) (tp_allow_mutation p) (tp_allow_cache_reuse p) = Ok p.
Proof.
  intros [H1 H2 H3]. unfold ToolPermission.make. rewrite H1. destruct p as [n c m r]. cbn in *.
  destruct c, m, r; first [reflexivity | by specialize (H2 eq_refl) | by specialize (H3 eq_refl)].
Qed.

Lemma member_value {A} (members : list A) (value : A → pystr) a :
  NoDup (map value members) → a ∈ members → member members value (VStr (value a)) = Ok a.
Proof. intros Hnd Hin. unfold member. by rewrite (find_unique value members a). Qed.

Lemma class_member c : member tool_classes tool_class_value (VStr (tool_class_value c)) = Ok c.
Proof. destruct c; vm_compute; reflexivity. Qed.

Lemma principal_member c : member principals principal_value (VStr (principal_value c)) = Ok c.
Proof. destruct c; vm_compute; reflexivity. Qed.

(** The literal of a record, read by its field names. *)
Lemma exact_obj kvs names :
  bool_decide (NoDup (obj_keys kvs)) = true → bool_decide (sorted names = sorted (obj_keys kvs)) = true →
  0 < Z.of_nat (length kvs) <= 64 →
  bounded_exact_mapping (obj kvs) names = Ok (sorted_by fst (map (λ kv, (u kv.1, kv.2)) kvs)).
Proof.
  intros Hnd%bool_decide_eq_true Hn%bool_decide_eq_true Hl. rewrite obj_record.
  assert (Hk : map fst (map (λ kv : string * pyval, (u kv.1, kv.2)) kvs) = obj_keys kvs) by (unfold obj_keys; by rewrite map_map).
  apply exact_items; rewrite ?Hk; [done..|]. rewrite length_map. apply (limit_ok_small _ 64); [by vm_compute|done].
Qed.

(** Reading a literal back and comparing it in full. *)
Lemma exact_obj_record kvs active :
  bool_decide (NoDup (obj_keys kvs)) = true → 0 < Z.of_nat (length kvs) <= 64 → admissible value_limits (obj kvs) →
  active = sorted_by fst (map (λ kv, (u kv.1, kv.2)) kvs) →
  require_exact_record (record_val active) (obj kvs) = Ok tt.
Proof.
  intros Hnd%bool_decide_eq_true Hl Ha ->. rewrite obj_record in *.
  assert (Hk : map fst (map (λ kv : string * pyval, (u kv.1, kv.2)) kvs) = obj_keys kvs) by (unfold obj_keys; by rewrite map_map).
  apply exact_record_same; rewrite ?Hk, ?length_map; [apply sorted_by_perm|done| |done].
  apply (limit_ok_small _ 64); [by vm_compute|done].
Qed.

(** What can be looked up in the sorted items of a literal. *)
Lemma field_obj kvs name v :
  bool_decide (NoDup (obj_keys kvs)) = true → CanonicalFacts.field name kvs = Some v →
  Snapshot.field (sorted_by fst (map (λ kv : string * pyval, (u kv.1, kv.2)) kvs)) name = Ok v.
Proof.
  intros Hnd%bool_decide_eq_true Hf%field_elem. unfold Snapshot.field.
  set (items := map _ kvs). assert (Hk : map fst items = obj_keys kvs) by (unfold items, obj_keys; by rewrite map_map).
  pose proof (find_key (sorted_by fst items) (u name, v)) as H. cbn [fst] in H. rewrite H; [done| |].
  - by rewrite sorted_by_perm, Hk.
  - apply elem_of_sorted_by. unfold items. apply list_elem_of_In, in_map_iff. exists (name, v). split; [done|].
    by apply list_elem_of_In.
Qed.

(** Read the fields of a literal by name. *)
Ltac read_obj :=
  repeat match goal with
  | |- context [Snapshot.field (sorted_by fst (map _ ?kvs)) ?name] =>
      rewrite (field_obj kvs name _ ltac:(vm_compute; reflexivity) eq_refl); cbn [res_bind]
  end.

Lemma permission_record_inv v p : ToolPermission.from_record v = Ok p → permission_ok p.
Proof.
  unfold ToolPermission.from_record. intros (active & _ & H)%res_bind_Ok.
  do 8 (apply res_bind_Ok in H as (? & _ & H)).
  by apply res_bind_Ok in H as (q & [Hq _]%permission_make_Ok & ([] & _ & [= <-])%res_bind_Ok).
Qed.

Lemma permission_read_back p :
  permission_ok p → admissible value_limits (ToolPermission.canonical_record p) →
  ToolPermission.from_record (ToolPermission.canonical_record p) = Ok p.
Proof.
  intros Hp Ha. unfold ToolPermission.from_record. unfold ToolPermission.canonical_record at 1.
  rewrite exact_obj by (vm_compute; done). cbn [res_bind]. read_obj.
  rewrite class_member. cbn [res_bind require_symbol_value]. rewrite (pm_name _ Hp). cbn [res_bind require_bool].
  rewrite permission_remake by done. cbn [res_bind]. unfold ToolPermission.canonical_record at 1.
  by rewrite exact_obj_record.
Qed.

(** ** Parts of admissible values *)

Lemma shape_ok_shallower lim v d d' : d' <= d → shape_ok lim d v = true → shape_ok lim d' v = true.
Proof.
  revert d d'; induction v as [|b|z|f|s|l IH|l IH|l IH|] using pyval_nested_ind; intros d d' Hd Hs;
    cbn [shape_ok] in *; apply andb_true_iff in Hs as [Hm Hs]; apply andb_true_iff; (split; [lia|]); try done.
  1,2: apply andb_true_iff in Hs as [Hl Hs]; apply andb_true_iff; split; [done|]; rewrite Forall_forall in IH;
    apply forallb_elem; intros x Hx; apply (IH x Hx (d + 1)); [lia|]; by apply (proj1 (forallb_elem _ _) Hs).
  apply andb_true_iff in Hs as [Hl Hs]; apply andb_true_iff; split; [done|]. rewrite Forall_forall in IH.
  apply forallb_elem. intros x Hx. pose proof (proj1 (forallb_elem _ _) Hs x Hx) as Hk.
  apply andb_true_iff in Hk as [Hk Hv]. apply andb_true_iff; split; [done|]. destruct (IH x Hx) as [_ IHx].
  apply (IHx (d + 1)); [lia|done].
Qed.

Lemma zsum_member {A} (f : A → Z) l x : (∀ y, 0 <= f y) → x ∈ l → f x <= zsum (map f l).
Proof.
  intros Hf. induction l as [|y l IH]; [by intros ?%elem_of_nil|]. cbn [map]. rewrite zsum_cons.
  pose proof (zsum_map_nonneg f l Hf). pose proof (Hf y). intros [-> |?%IH]%elem_of_cons; lia.
Qed.

Lemma admissible_item lim l v : admissible lim (VList l) → v ∈ l → admissible lim v.
Proof.
  intros (Hs & Hn & Hb) Hin. cbn [shape_ok nodes json_bytes] in *. bool_inv. split; [|split].
  - apply (shape_ok_shallower lim v (0 + 1)); [lia|]. by eapply forallb_elem.
  - pose proof (zsum_member nodes l v nodes_nonneg Hin). lia.
  - pose proof (zsum_member json_bytes l v json_bytes_nonneg Hin). unfold punctuation in *. lia.
Qed.

Lemma admissible_value_of lim l k v : admissible lim (VDict l) → (k, v) ∈ l → admissible lim v.
Proof.
  intros (Hs & Hn & Hb) Hin. cbn [shape_ok nodes json_bytes] in *. bool_inv. split; [|split].
  - apply (shape_ok_shallower lim v (0 + 1)); [lia|].
    match goal with H : forallb _ l = true |- _ => apply (proj1 (forallb_elem _ _) H) in Hin end. by bool_inv.
  - pose proof (zsum_member (λ kv, nodes kv.2) l (k, v) (λ kv, nodes_nonneg kv.2) Hin). cbn [snd] in *. lia.
  - pose proof (zsum_member (λ kv, key_bytes kv + json_bytes kv.2) l (k, v)
      (λ kv, Z.add_nonneg_nonneg _ _ (key_bytes_nonneg kv) (json_bytes_nonneg kv.2)) Hin) as Hv.
    pose proof (key_bytes_nonneg (k, v)). unfold punctuation, key_bytes in *. cbn [fst snd] in *. lia.
Qed.

(** ** Policies are what their records say *)

Lemma bounded_unique_Ok check values limit l :
  bounded_unique check values limit = Ok l →
  l = sorted values ∧ NoDup l ∧ Forall (λ s, check s = Ok tt) l ∧ Z.of_nat (length values) <= limit.
Proof.
  unfold bounded_unique. intros (supplied & [-> Hl]%materialize_Ok & H)%res_bind_Ok.
  apply res_bind_Ok in H as ([] & Hc%res_iter_Ok & H).
  apply res_bind_Ok in H as ([] & Hd%raise_if_Ok%has_duplicates_false & [= <-]).
  split; [done|]. split; [done|]. split; [|done]. by rewrite sorted_perm.
Qed.

Lemma bounded_unique_again check values limit l :
  limit_ok limit → bounded_unique check values limit = Ok l → bounded_unique check l limit = Ok l.
Proof.
  intros Hl H. destruct (bounded_unique_Ok _ _ _ _ H) as (-> & Hnd & Hc & Hb). unfold bounded_unique.
  rewrite materialize_list by done. rewrite (Permutation_length (sorted_perm values)).
  replace (Z.of_nat (length values) <=? limit) with true by lia. cbn [res_bind].
  rewrite (proj2 (res_iter_Ok check (sorted values) tt)) by done. cbn [res_bind].
  rewrite sorted_idem. by rewrite (proj2 (has_duplicates_false _) Hnd).
Qed.

(** A duplicate-free list with the elements of another is its sorting. *)
Lemma same_texts_sorted l1 l2 :
  NoDup l1 → NoDup l2 → sorted l1 = l1 → same_texts l1 l2 = true → l1 = sorted l2.
Proof.
  intros H1 H2 Hs. unfold same_texts. rewrite andb_true_iff, !forallb_elem. intros [Ha Hb]. rewrite <- Hs.
  apply sorted_by_perm_eq; [by rewrite list_fmap_id|]. apply NoDup_Permutation; [done..|].
  intros x. specialize (Ha x). specialize (Hb x). rewrite str_in_true in Ha, Hb. naive_solver.
Qed.

Lemma policy_make_Ok p q :
  Forall permission_ok (gp_tool_permissions p) → GovernancePolicy.make p = Ok q →
  policy_ok q.
Proof.
  intros Hp. unfold GovernancePolicy.make. intros ([] & H1 & H)%res_bind_Ok.
  apply res_bind_Ok in H as ([] & H2 & H). apply res_bind_Ok in H as ([] & H3 & H).
  apply res_bind_Ok in H as ([] & H4 & H). apply res_bind_Ok in H as ([] & H5%raise_if_Ok & H).
  apply res_bind_Ok in H as ([] & H6%raise_if_Ok & H). apply res_bind_Ok in H as ([] & H7%raise_if_Ok & H).
  apply res_bind_Ok in H as ([] & H8%raise_if_Ok & H). apply res_bind_Ok in H as ([] & H9%raise_if_Ok & H).
  apply res_bind_Ok in H as (perms & [-> Hl]%materialize_Ok & H).
  apply res_bind_Ok in H as ([] & Hd%raise_if_Ok%has_duplicates_false & H).
  apply res_bind_Ok in H as (gates & Hg%bounded_unique_Ok & H).
  apply res_bind_Ok in H as ([] & Hs%raise_if_Ok%negb_false_iff & [= <-]). bool_inv.
  destruct Hg as (-> & Hnd & _ & _). constructor; cbn -[sorted SUPPORTED_REQUIRED_GATE_KEYS]; try done.
  - by rewrite sorted_by_perm.
  - apply sorted_by_sorted.
  - by rewrite length_sorted_by.
  - apply same_texts_sorted; [done| |by rewrite sorted_idem|done]. by apply (bool_decide_unpack _).
Qed.

Lemma policy_remake p : policy_ok p → GovernancePolicy.make p = Ok p.
Proof.
  intros [H1 H2 H3 H4 (P1 & P2 & P3 & P4) H5 H6 H7 H8 H9]. unfold GovernancePolicy.make.
  rewrite H1, H2, H3, H4. cbn [res_bind]. rewrite P1, P2, P3, P4.
  assert (Hpr : gp_provider_authority p = OPENAI) by (by destruct (gp_provider_authority p)). rewrite Hpr.
  rewrite !bool_decide_true by done. cbn [negb raise_if res_bind].
  rewrite materialize_list by (by vm_compute). replace (_ <=? _) with true by lia. cbn [res_bind].
  rewrite sorted_by_id by done. rewrite (proj2 (has_duplicates_false _) H6). cbn [raise_if res_bind].
  rewrite H9. rewrite (bounded_unique_again require_symbol SUPPORTED_REQUIRED_GATE_KEYS MAX_REQUIRED_GATES) by (by vm_compute).
  cbn [res_bind]. replace (same_texts _ _) with true by (by vm_compute). cbn [negb raise_if res_bind].
  destruct p; cbn in *; by subst.
Qed.

Lemma policy_record_inv v p : GovernancePolicy.from_record v = Ok p → policy_ok p.
Proof.
  unfold GovernancePolicy.from_record. intros (active & _ & H)%res_bind_Ok.
  do 9 (apply res_bind_Ok in H as (? & _ & H)).
  apply res_bind_Ok in H as (? & _ & H). apply res_bind_Ok in H as (perms & Hp & H).
  do 9 (apply res_bind_Ok in H as (? & _ & H)).
  apply res_bind_Ok in H as (q & Hq & ([] & _ & [= <-])%res_bind_Ok). eapply policy_make_Ok; [|done].
  cbn. apply res_map_Ok in Hp. apply Forall_forall. intros pm Hin.
  apply list_elem_of_lookup in Hin as [i Hi]. destruct (Forall2_lookup_r _ _ _ _ _ Hp Hi) as (w & _ & Hw).
  by eapply permission_record_inv.
Qed.

Lemma texts_read_back check values limit :
  limit_ok limit → bounded_unique check values limit = Ok values → checked_texts (strs_val values) limit = Ok values.
Proof.
  intros Hl Hu. destruct (bounded_unique_Ok _ _ _ _ Hu) as (_ & _ & _ & Hb). unfold checked_texts, materialize_value, strs_val.
  cbn [iterate_value res_bind]. rewrite materialize_list, length_map by done. replace (_ <=? _) with true by lia.
  cbn [res_bind]. apply res_map_Ok. clear. induction values; constructor; done.
Qed.

Lemma permissions_read_back l :
  Forall permission_ok l → admissible value_limits (VList (map ToolPermission.canonical_record l)) →
  res_map ToolPermission.from_record (map ToolPermission.canonical_record l) = Ok l.
Proof.
  intros Hl Ha. apply res_map_Ok.
  assert (Hin : ∀ p, p ∈ l → admissible value_limits (ToolPermission.canonical_record p)).
  { intros p Hp. eapply admissible_item; [exact Ha|]. apply list_elem_of_In, in_map. by apply list_elem_of_In. }
  clear Ha. induction Hl as [|p l Hp _ IH]; [constructor|]. constructor.
  - apply permission_read_back; [done|]. apply Hin, list_elem_of_here.
  - apply IH. intros q Hq. by apply Hin, list_elem_of_further.
Qed.

Lemma policy_read_back p :
  policy_ok p → admissible value_limits (GovernancePolicy.canonical_record p) →
  GovernancePolicy.from_record (GovernancePolicy.canonical_record p) = Ok p.
Proof.
  intros Hp Ha. pose proof (policy_remake p Hp) as Hmake. destruct Hp as [H1 H2 H3 H4 _ H5 _ _ H8 H9].
  unfold GovernancePolicy.from_record. unfold GovernancePolicy.canonical_record at 1.
  rewrite exact_obj by (vm_compute; done). cbn [res_bind]. read_obj.
  replace (member [OPENAI] _ _) with (Ok OPENAI) by (destruct (gp_provider_authority p); by vm_compute).
  rewrite !principal_member. cbn [res_bind].
  assert (Hperm : admissible value_limits (VList (map ToolPermission.canonical_record (gp_tool_permissions p)))).
  { eapply (admissible_value_of _ _ (VStr (u "tool_permissions"))); [exact Ha|]. cbn [map]. set_solver. }
  unfold materialize_value at 1. cbn [iterate_value res_bind].
  rewrite materialize_list, length_map by (by vm_compute). replace (_ <=? _) with true by lia. cbn [res_bind].
  assert (Hgates : bounded_unique require_symbol (gp_required_gate_keys p) MAX_REQUIRED_GATES = Ok (gp_required_gate_keys p))
    by (rewrite H9; by vm_compute).
  unfold materialize_value at 1, strs_val at 1. cbn [iterate_value res_bind]. rewrite materialize_list, length_map by (by vm_compute).
  replace (_ <=? _) with true by (rewrite H9; by vm_compute). cbn [res_bind].
  rewrite permissions_read_back by done. cbn [res_bind require_symbol_value positive_value]. rewrite H1, H2, H3, H4. cbn [res_bind].
  rewrite (texts_read_back require_symbol) by (done || by vm_compute). cbn [res_bind].
  match goal with |- context [GovernancePolicy.make ?q] => replace q with p end.
  2:{ destruct p as [? ? ? ? []]; done. }
  rewrite Hmake. cbn [res_bind]. unfold GovernancePolicy.canonical_record at 1. by rewrite exact_obj_record.
Qed.

(** A record is read as a policy only when it is one: fixed principals, one permission per tool
    name in name order, no read that may mutate, no mutation and no volatile read that may be answered
    from a cache, exactly the three supported gates.  A policy whose record fits the canonical bounds
    reads back as itself, so the wrapper that snapshots it governs by the same policy. *)
Theorem policy_roundtrip :
  (∀ v p, GovernancePolicy.from_record v = Ok p → policy_ok p) ∧
  (∀ p, policy_ok p → admissible value_limits (GovernancePolicy.canonical_record p) →
    GovernancePolicy.from_record (GovernancePolicy.canonical_record p) = Ok p ∧ GovernanceWrapper.init p = Ok p).
Proof.
  split; [exact policy_record_inv|]. intros p Hp Ha. unfold GovernanceWrapper.init. by rewrite policy_read_back.
Qed.

(** ** What a tool admission establishes *)

(** The receipt holds a permission of the policy, for the action that the orchestrator admitted. *)
Record grant_ok (policy : GovernancePolicy) (task : TaskReceipt) (governance : GovernanceReceipt)
    (t : ToolAdmissionReceipt) : Prop := {
  gk_bound : require_governance_binding policy task governance = Ok tt;
  gk_ids : TaskReceipt.task_id task = Ok (ta_task_id t) ∧ GovernancePolicy.governance_id policy = Ok (ta_governance_id t) ∧
    GovernanceReceipt.receipt_id governance = Ok (ta_governance_receipt_id t);
  gk_requester : ta_requester t = DETERMINISTIC_ORCHESTRATOR;
  gk_permission : ∃ p, p ∈ gp_tool_permissions policy ∧ tp_tool_name p = ta_tool_name t ∧
    tp_authority_class p = ta_authority_class t ∧ tp_allow_cache_reuse p = ta_cache_reuse_permitted t ∧
    (is_mutation (ta_authority_class t) = true → tp_allow_mutation p = true) ∧
    ToolPermission.permission_id p = Ok (ta_permission_id t);
  gk_capability : cap_name (ta_capability t) = ta_tool_name t ∧ ap_capability (ta_proposal t) = ta_tool_name t ∧
    cap_available (ta_capability t) = true;
  gk_decision : ad_status (ta_admission_decision t) = ADMITTED ∧
    ActionProposal.proposal_id (ta_proposal t) = Ok (ad_proposal_id (ta_admission_decision t)) ∧
    ad_proposal_key (ta_admission_decision t) = ap_proposal_key (ta_proposal t) ∧
    ad_blocking_obligation_ids (ta_admission_decision t) = [] ∧ ad_unresolved_state_keys (ta_admission_decision t) = [] ∧
    ad_dependency_state_keys (ta_admission_decision t) = dependency_keys (ta_capability t) (ta_proposal t);
  gk_action : ad_action_id (ta_admission_decision t) = Some (ta_action_id t) ∧
    ∃ own args, ActionProposal.arguments (ta_proposal t) = Ok own ∧
      Capability.normalize_arguments (ta_capability t) own = Ok args ∧
      CanonicalValue.from_value args = Ok (ta_arguments t) ∧
      action_id (ta_capability t) args (ta_occurrence_key t) (ta_dependency_fingerprint t) = Ok (ta_action_id t);
  gk_occurrence : ta_occurrence_key t = ap_occurrence_key (ta_proposal t);
  gk_read : is_replayed_read (ta_authority_class t) = true →
    cap_replay_safety (ta_capability t) = CACHEABLE_READ ∧ ta_occurrence_key t = None ∧
    (ta_authority_class t = SNAPSHOT_READ ↔ dependency_keys (ta_capability t) (ta_proposal t) ≠ []);
  gk_effect : is_replayed_read (ta_authority_class t) = false →
    cap_replay_safety (ta_capability t) = OCCURRENCE_SENSITIVE ∧
    ∃ k, ta_occurrence_key t = Some k ∧ require_symbol k = Ok tt
}.

Lemma expected_action_id_eq c p args d :
  ToolAdmissionReceipt.expected_action_id c p args d = action_id c args (ap_occurrence_key p) d.
Proof.
  unfold ToolAdmissionReceipt.expected_action_id, action_id, action_identity. destruct (Capability.capability_id c); [|done].
  cbn [res_bind]. by destruct (decide _).
Qed.

Lemma check_action_Ok pm d p c :
  ToolAdmissionReceipt.check_action pm d p c = Ok tt →
  ad_status d = ADMITTED ∧ ad_blocking_obligation_ids d = [] ∧ ad_unresolved_state_keys d = [] ∧
  ActionProposal.proposal_id p = Ok (ad_proposal_id d) ∧ ad_proposal_key d = ap_proposal_key p ∧
  ap_capability p = cap_name c ∧ tp_tool_name pm = cap_name c ∧ cap_available c = true.
Proof.
  unfold ToolAdmissionReceipt.check_action. intros ([] & H1%raise_if_Ok & H)%res_bind_Ok.
  apply res_bind_Ok in H as ([] & _ & H). apply res_bind_Ok in H as ([] & H3%raise_if_Ok & H).
  apply res_bind_Ok in H as (i & Hi & H). apply res_bind_Ok in H as ([] & H4%raise_if_Ok & H).
  apply res_bind_Ok in H as ([] & H5%raise_if_Ok & H). apply res_bind_Ok in H as ([] & H6%raise_if_Ok & H%raise_if_Ok).
  bool_inv. subst. destruct (ad_blocking_obligation_ids d), (ad_unresolved_state_keys d); done.
Qed.

Lemma check_class_Ok a c keys :
  ToolAdmissionReceipt.check_class a c keys = Ok tt →
  (is_replayed_read a = true → cap_replay_safety c = CACHEABLE_READ ∧ (a = SNAPSHOT_READ ↔ keys ≠ [])) ∧
  (is_replayed_read a = false → cap_replay_safety c = OCCURRENCE_SENSITIVE).
Proof.
  unfold ToolAdmissionReceipt.check_class. destruct (is_replayed_read a) eqn:E.
  - intros ([] & H1%raise_if_Ok & H2%raise_if_Ok)%res_bind_Ok. bool_inv. split; [|done]. intros _. split; [done|].
    subst. by destruct keys.
  - intros H%raise_if_Ok. by bool_inv.
Qed.

Lemma check_occurrence_Ok pm k :
  ToolAdmissionReceipt.check_occurrence_key pm k = Ok tt →
  (is_mutation (tp_authority_class pm) = true → tp_allow_mutation pm = true) ∧
  (is_replayed_read (tp_authority_class pm) = true → k = None) ∧
  (is_replayed_read (tp_authority_class pm) = false → ∃ s, k = Some s ∧ require_symbol s = Ok tt).
Proof.
  unfold ToolAdmissionReceipt.check_occurrence_key. intros ([] & H1%raise_if_Ok & H2)%res_bind_Ok. split.
  - intros Hm. rewrite Hm in H1. by destruct (tp_allow_mutation pm).
  - destruct (tp_authority_class pm); cbn in H2 |- *; destruct k; try done; (split; [done|]); eauto.
Qed.

Lemma make_grant policy task governance pm requester d p c dep t :
  ToolAdmissionReceipt.make policy task governance pm requester d p c dep = Ok t →
  grant_ok policy task governance t ∧ requester = DETERMINISTIC_ORCHESTRATOR ∧ ta_dependency_fingerprint t = dep ∧
  ta_authority_class t = tp_authority_class pm ∧
  validated_admission_decision_copy d = Ok (ta_admission_decision t) ∧
  validated_action_proposal_copy p = Ok (ta_proposal t) ∧ validated_capability_copy c = Ok (ta_capability t).
Proof.
  unfold ToolAdmissionReceipt.make. intros ([] & Hb & H)%res_bind_Ok.
  apply res_bind_Ok in H as (owned & Hown & H). apply res_bind_Ok in H as ([] & H1%raise_if_Ok & H).
  apply res_bind_Ok in H as ([] & H2%raise_if_Ok & H). apply res_bind_Ok in H as (d' & Hd & H).
  apply res_bind_Ok in H as (p' & Hp & H). apply res_bind_Ok in H as (c' & Hc & H).
  apply res_bind_Ok in H as ([] & Hact%check_action_Ok & H). apply res_bind_Ok in H as ([] & H3%raise_if_Ok & H).
  apply res_bind_Ok in H as ([] & _ & H). apply res_bind_Ok in H as (own & Harg & H).
  apply res_bind_Ok in H as (args & Hsem & H). apply res_bind_Ok in H as (act & Haid & H).
  apply res_bind_Ok in H as ([] & H4%raise_if_Ok & H). apply res_bind_Ok in H as ([] & Hcls%check_class_Ok & H).
  apply res_bind_Ok in H as ([] & Hocc%check_occurrence_Ok & H).
  apply res_bind_Ok in H as (tid & Ht & H). apply res_bind_Ok in H as (gid & Hg & H).
  apply res_bind_Ok in H as (grid & Hgr & H). apply res_bind_Ok in H as (pid & Hpid & H).
  apply res_bind_Ok in H as (cv & Hcv & [= <-]). rewrite expected_action_id_eq in Haid. bool_inv. subst.
  apply res_bind_Ok in Hown as ([] & _ & [= Hf]). apply find_elem in Hf as [Hin _].
  destruct Hact as (A1 & A2 & A3 & A4 & A5 & A6 & A7 & A8), Hcls as [C1 C2], Hocc as (O1 & O2 & O3).
  split; [|repeat split; assumption]. constructor; cbn.
  - exact Hb.
  - exact (conj Ht (conj Hg Hgr)).
  - reflexivity.
  - exists pm. repeat split; assumption || reflexivity.
  - rewrite A7, A6. repeat split; assumption || reflexivity.
  - repeat split; assumption.
  - split; [assumption|]. exists own, args. repeat split; assumption.
  - reflexivity.
  - intros Hr. destruct (C1 Hr) as [Hs Hk]. exact (conj Hs (conj (O2 Hr) Hk)).
  - intros Hr. exact (conj (C2 Hr) (O3 Hr)).
Qed.

(** ** Equal decisions *)

Lemma strs_map_inj {A} (f : A → pystr) l1 l2 :
  (∀ a b, f a = f b → a = b) → map f l1 = map f l2 → l1 = l2.
Proof. intros Hf. revert l2; induction l1 as [|x l1 IH]; intros [|y l2]; try done. cbn. intros [= ->%Hf H]. f_equal; auto. Qed.

Lemma layer_value_inj a b : layer_value a = layer_value b → a = b.
Proof. by destruct a, b. Qed.
Lemma decision_value_inj a b : decision_value a = decision_value b → a = b.
Proof. by destruct a, b. Qed.
Lemma reason_value_inj a b : reason_value a = reason_value b → a = b.
Proof. destruct a, b; (reflexivity || discriminate). Qed.
Lemma recovery_value_inj a b : recovery_value a = recovery_value b → a = b.
Proof. destruct a, b; (reflexivity || discriminate). Qed.

(** A decision is determined by its record. *)
Lemma decision_record_inj d1 d2 :
  py_equal (AdmissionDecision.canonical_record d1) (AdmissionDecision.canonical_record d2) = true → d1 = d2.
Proof.
  unfold AdmissionDecision.canonical_record. intros H.
  equal_field H "action_id"%string. equal_field H "authority_layer"%string. equal_field H "blocking_obligation_ids"%string.
  equal_field H "dependency_state_keys"%string. equal_field H "equivalent_proposal_id"%string.
  equal_field H "logical_tick"%string. equal_field H "invariant_ids"%string. equal_field H "proposal_id"%string.
  equal_field H "proposal_key"%string. equal_field H "recovery_actions"%string. equal_field H "rejection_reason"%string.
  equal_field H "status"%string. equal_field H "unresolved_state_keys"%string. clear H.
  apply py_equal_opt in F, F3. apply py_equal_text in F0, F6, F7, F10. apply py_equal_texts in F1, F2, F5, F8, F11.
  apply py_equal_int in F4. apply layer_value_inj in F0. apply decision_value_inj in F10.
  apply strs_map_inj in F8; [|exact recovery_value_inj].
  assert (ad_rejection_reason d1 = ad_rejection_reason d2).
  { destruct (ad_rejection_reason d1), (ad_rejection_reason d2); cbn in F9; try done.
    by apply bool_decide_eq_true, reason_value_inj in F9 as ->. }
  destruct d1, d2; cbn in *; by subst.
Qed.

(** A validated copy of a decision is the decision. *)
Lemma decision_copy_id d d' : validated_admission_decision_copy d = Ok d' → d' = d.
Proof.
  unfold validated_admission_decision_copy. intros (v & _ & ([] & H%raise_if_Ok%negb_false_iff & [= <-])%res_bind_Ok)%res_bind_Ok.
  symmetry. by apply decision_record_inj.
Qed.
