(* ===== verification/GovernanceSpec.v ===== *)
(** * What the governance wrapper grants

    The calls of the wrapper, against what they promise: a granted tool admission holds a permission
    for an admitted action, an orchestration authorizes exactly the admitted actions of its batch,
    a task is finally accepted only on complete, bound and source-bound evidence.  The batches of the
    orchestrator meet what governance asks of them. *)

From Stdlib Require Import Ascii String Sorting.Sorted.
From stdpp Require Import base list gmap.
From S2P Require Import Prelude PyStr PyNumber Sha256 Canonical CanonicalFacts Fingerprints Records RecordsFacts Kahn Obligations Epistemic Orchestration Admission AdmissionFacts AdmissionSpec Budget Progress Snapshot Receipts Governance CompactEvidence CompactEvidenceFacts GovernanceReceipts Wrapper GovernanceFacts.

(** ** Granted outcomes *)

Lemma outcome_bind_granted {A B} (o : outcome A) (k : A → outcome B) b :
  outcome_bind o k = Granted b ↔ ∃ a, o = Granted a ∧ k a = Granted b.
Proof. destruct o; cbn; naive_solver. Qed.

Lemma reject_not_granted {A} policy stage reason ids bound details (a : A) :
  reject policy stage reason ids bound details ≠ Granted a.
Proof. unfold reject. by destruct (res_bind _ _). Qed.

Lemma catching_granted {A} caught (r : res A) h a :
  (∀ b, h ≠ Granted b) → catching caught r h = Granted a ↔ r = Ok a.
Proof.
  intros Hh. unfold catching. destruct r as [b|e]; [split; congruence|].
  split; [|discriminate]. destruct (caught e); [intros H; by destruct (Hh a)|discriminate].
Qed.

Lemma reject_if_granted {A} b h (k : outcome A) a :
  (∀ u, h ≠ Granted u) → reject_if b h k = Granted a ↔ b = false ∧ k = Granted a.
Proof.
  intros Hh. unfold reject_if. destruct b; [|naive_solver]. rewrite outcome_bind_granted. split; [|intros [? _]; discriminate].
  intros (u & H & _). by destruct (Hh u).
Qed.

(** [granted_inv H]: the steps of a granted call. *)
Ltac granted_step H :=
  lazymatch type of H with
  | outcome_bind _ _ = Granted _ =>
      let a := fresh "a" in let E := fresh "G" in apply outcome_bind_granted in H as (a & E & H);
      apply catching_granted in E; [|intros ?; apply reject_not_granted]
  | reject_if _ _ _ = Granted _ =>
      let E := fresh "G" in apply reject_if_granted in H as [E H]; [|intros ?; apply reject_not_granted]
  | catching _ _ _ = Granted _ => apply catching_granted in H; [|intros ?; apply reject_not_granted]
  end.

(** ** Tools *)

Lemma permission_of_policy policy name pm :
  GovernancePolicy.permission_for policy name = Ok (Some pm) → pm ∈ gp_tool_permissions policy ∧ tp_tool_name pm = name.
Proof.
  unfold GovernancePolicy.permission_for. intros ([] & _ & [= H])%res_bind_Ok.
  apply find_elem in H as [? H]. by apply bool_decide_eq_true in H.
Qed.

Lemma admit_tool_granted policy task governance d p c class dep requester t :
  GovernanceWrapper.admit_tool policy task governance d p c class dep requester = Granted t →
  grant_ok policy task governance t ∧ requester = DETERMINISTIC_ORCHESTRATOR ∧ class = Some (ta_authority_class t) ∧
  dep = Some (ta_dependency_fingerprint t) ∧ ta_admission_decision t = d.
Proof.
  unfold GovernanceWrapper.admit_tool. intros H. granted_step H. granted_step H. granted_step H.
  destruct a0 as [[d1 p1] c1]. granted_step H. destruct a0 as [pm|]; [|apply reject_not_granted in H; contradiction].
  destruct class as [class|]; [|apply reject_not_granted in H; contradiction]. granted_step H. granted_step H.
  destruct dep as [dep|]; [|apply reject_not_granted in H; contradiction]. do 3 granted_step H.
  apply make_grant in H as (Hk & -> & -> & -> & Hd & _ & _). split; [exact Hk|]. split; [reflexivity|].
  apply negb_false_iff, bool_decide_eq_true in G3 as ->. split; [reflexivity|]. split; [reflexivity|].
  apply res_bind_Ok in G1 as (d2 & Hd2%decision_copy_id & G1). apply res_bind_Ok in G1 as (? & _ & G1).
  apply res_bind_Ok in G1 as (? & _ & G1). injection G1 as <- <- <-. apply decision_copy_id in Hd. congruence.
Qed.

(** C9.  A granted tool admission carries a permission of the policy for the very action that the
    orchestrator admitted: the decision is admitted and unblocked, the proposal and the capability are
    the ones it names, and the action identity is that of the capability, the normalized arguments and
    the dependency state.  Only the orchestrator gets one.  A mutation needs its permission and an
    occurrence key; a pure or snapshot read is a cacheable read without one; only such reads may be
    answered from a cache. *)
Theorem tool_grant_sound policy task governance d p c class dep requester t :
  policy_ok policy →
  GovernanceWrapper.admit_tool policy task governance d p c class dep requester = Granted t →
  grant_ok policy task governance t ∧ requester = DETERMINISTIC_ORCHESTRATOR ∧ class = Some (ta_authority_class t) ∧
  dep = Some (ta_dependency_fingerprint t) ∧ ta_admission_decision t = d ∧
  (ta_cache_reuse_permitted t = true →
    is_replayed_read (ta_authority_class t) = true ∧ cap_replay_safety (ta_capability t) = CACHEABLE_READ).
Proof.
  intros Hp (Hk & Hr & Hc & Hd & He)%admit_tool_granted. repeat (split; [assumption|]). intros Hu.
  destruct (gk_permission _ _ _ _ Hk) as (pm & Hin & _ & Hcl & Hru & _). rewrite Hu in Hru.
  pose proof (proj1 (Forall_forall _ _) (po_permissions _ Hp) pm Hin) as Hpm.
  pose proof (pm_reuse _ Hpm Hru) as Hread. rewrite Hcl in Hread. split; [exact Hread|].
  exact (proj1 (gk_read _ _ _ _ Hk Hread)).
Qed.

(** ** The index of a batch's decisions *)

Definition admitted_action (d : AdmissionDecision) : option (pystr * AdmissionDecision) :=
  match ad_status d, ad_action_id d with ADMITTED, Some act => Some (act, d) | _, _ => None end.

(** The dictionaries that the loop builds, as functions of the decisions read so far. *)
Definition index_of (l : list AdmissionDecision) : decision_index := {|
  di_by_proposal := map (λ ad, (ad_proposal_id ad.2, ad.1)) (omap admitted_action l);
  di_by_action := omap admitted_action l;
  di_proposal_ids := rev (map ad_proposal_id l);
  di_proposal_keys := rev (map ad_proposal_key l) |}.

(** What governance asks of a decision after those before it. *)
Record decision_indexed (l : list AdmissionDecision) (d : AdmissionDecision) : Prop := {
  dx_id : ad_proposal_id d ∉ map ad_proposal_id l;
  dx_key : ad_proposal_key d ∉ map ad_proposal_key l;
  dx_layer : ad_authority_layer d = ORCHESTRATION;
  dx_clear : ad_status d ≠ DECISION_REJECTED → ad_blocking_obligation_ids d = [] ∧ ad_unresolved_state_keys d = [];
  dx_admitted : ad_status d = ADMITTED →
    ∃ act, ad_action_id d = Some act ∧ act ∉ map fst (omap admitted_action l);
  dx_deduplicated : ad_status d = DEDUPLICATED →
    ∃ act p, ad_action_id d = Some act ∧ ad_equivalent_proposal_id d = Some p ∧
      lookup_text (map (λ ad, (ad_proposal_id ad.2, ad.1)) (omap admitted_action l)) p = Some act
}.

Lemma lookup_text_None {A} (l : list (pystr * A)) k : lookup_text l k = None ↔ k ∉ map fst l.
Proof.
  unfold lookup_text. induction l as [|[k' a] l IH]; cbn [find map fst].
  - split; [intros _; apply not_elem_of_nil|done].
  - rewrite not_elem_of_cons, <- IH. destruct (bool_decide (k' = k)) eqn:E; bool_inv; cbn; naive_solver.
Qed.

Lemma lookup_text_elem {A} (l : list (pystr * A)) k a : lookup_text l k = Some a → (k, a) ∈ l.
Proof.
  unfold lookup_text. destruct (find _ l) as [[k' a']|] eqn:E; [|done]. cbn. intros [= <-].
  apply find_elem in E as [Hin E]. apply bool_decide_eq_true in E. cbn in E. by subst.
Qed.

Lemma lookup_text_unique {A} (l : list (pystr * A)) k a : NoDup (map fst l) → (k, a) ∈ l → lookup_text l k = Some a.
Proof. intros Hnd Hin. unfold lookup_text. by rewrite (find_unique fst l (k, a)). Qed.

Lemma not_nonempty {A} (l : list A) : nonempty l = false ↔ l = [].
Proof. by destruct l. Qed.

Lemma elem_of_rev {A} (x : A) l : x ∈ rev l ↔ x ∈ l.
Proof. by rewrite <- Permutation_rev. Qed.

Lemma index_of_snoc l d :
  index_of (l ++ [d]) =
  {| di_by_proposal := di_by_proposal (index_of l) ++ map (λ ad, (ad_proposal_id ad.2, ad.1)) (option_list (admitted_action d));
     di_by_action := di_by_action (index_of l) ++ option_list (admitted_action d);
     di_proposal_ids := ad_proposal_id d :: di_proposal_ids (index_of l);
     di_proposal_keys := ad_proposal_key d :: di_proposal_keys (index_of l) |}.
Proof.
  unfold index_of. cbn. rewrite !map_app, !rev_app_distr, omap_app, map_app. cbn. by destruct (admitted_action d).
Qed.

Lemma index_decision_Ok l d st :
  OrchestrationReceipt.index_decision (index_of l) d = Ok st ↔ decision_indexed l d ∧ st = index_of (l ++ [d]).
Proof.
  unfold OrchestrationReceipt.index_decision. rewrite index_of_snoc. cbn [di_proposal_ids di_proposal_keys index_of].
  split.
  - intros ([] & H1%raise_if_Ok & H)%res_bind_Ok. apply res_bind_Ok in H as ([] & H2%raise_if_Ok & H).
    apply res_bind_Ok in H as ([] & H3%raise_if_Ok & H). apply res_bind_Ok in H as ([] & H4%raise_if_Ok & H).
    apply str_in_false in H1, H2. rewrite elem_of_rev in H1, H2. apply negb_false_iff, bool_decide_eq_true in H3.
    assert (Hclear : ad_status d ≠ DECISION_REJECTED → ad_blocking_obligation_ids d = [] ∧ ad_unresolved_state_keys d = []).
    { intros Hs. rewrite <- !not_nonempty. apply orb_false_iff. destruct (ad_status d); try done; exact H4. }
    unfold admitted_action. destruct (ad_status d) eqn:Es, (ad_action_id d) as [act|] eqn:Ea; try done; cbn [option_list].
    + apply res_bind_Ok in H as ([] & H5%raise_if_Ok & [= <-]). cbn [di_by_action index_of] in H5.
      destruct (lookup_text _ act) eqn:El; [done|]. apply lookup_text_None in El.
      split; [|done]. constructor; rewrite ?Es; try done. intros _. by exists act.
    + apply res_bind_Ok in H as ([] & H5%raise_if_Ok & [= <-]). cbn [di_by_proposal index_of] in H5. bool_inv.
      cbn [map]. rewrite !app_nil_r. split; [|done]. constructor; rewrite ?Es; try done. intros _.
      destruct (ad_equivalent_proposal_id d) as [p|]; [|done]. by exists act, p.
    + injection H as <-. cbn [map]. rewrite !app_nil_r. split; [|done]. by constructor; rewrite ?Es.
    + injection H as <-. cbn [map]. rewrite !app_nil_r. split; [|done]. by constructor; rewrite ?Es.
  - intros [[H1 H2 H3 H4 H5 H6] ->].
    rewrite (proj2 (str_in_false _ _)) by (by rewrite elem_of_rev). cbn [raise_if res_bind].
    rewrite (proj2 (str_in_false _ _)) by (by rewrite elem_of_rev). cbn [raise_if res_bind].
    rewrite (bool_decide_true _ H3). cbn [negb raise_if res_bind].
    unfold admitted_action. destruct (ad_status d) eqn:Es.
    + destruct (H5 eq_refl) as (act & Ha & Hn), (H4 ltac:(done)) as [-> ->]. rewrite Ha.
      cbn [nonempty orb]. rewrite andb_false_r. cbn [raise_if res_bind di_by_action index_of option_list].
      apply lookup_text_None in Hn. by rewrite Hn.
    + destruct (H6 eq_refl) as (act & p & Ha & Hp & Hl), (H4 ltac:(done)) as [-> ->]. rewrite Ha, Hp.
      cbn [nonempty orb]. rewrite andb_false_r. cbn [raise_if res_bind di_by_proposal index_of option_list map].
      rewrite Hl, bool_decide_true by done. cbn [negb raise_if res_bind]. by rewrite !app_nil_r.
    + rewrite !bool_decide_false by done. cbn [orb andb raise_if res_bind option_list map]. by rewrite !app_nil_r.
Qed.

(** Every decision is indexed after those before it. *)
Definition indexed (ds : list AdmissionDecision) : Prop :=
  ∀ l1 d l2, ds = l1 ++ d :: l2 → decision_indexed l1 d.

Lemma index_fold l ds idx :
  res_fold OrchestrationReceipt.index_decision (index_of l) ds = Ok idx ↔
  (∀ l1 d l2, ds = l1 ++ d :: l2 → decision_indexed (l ++ l1) d) ∧ idx = index_of (l ++ ds).
Proof.
  revert l; induction ds as [|d ds IH]; intros l; cbn [res_fold].
  - rewrite app_nil_r. split; [intros [= <-]; split; [by intros []|done]|by intros [_ ->]].
  - rewrite res_bind_Ok. setoid_rewrite index_decision_Ok. split.
    + intros (st & [Hd ->] & H). apply IH in H as [Hds ->]. rewrite <- app_assoc. split; [|done].
      intros [|d1 l1] d2 l2 [= -> ->]; [by rewrite app_nil_r|]. specialize (Hds l1 d2 l2 eq_refl).
      by rewrite <- app_assoc in Hds.
    + intros [Hds ->]. exists (index_of (l ++ [d])). split.
      * split; [|done]. specialize (Hds [] d ds eq_refl). by rewrite app_nil_r in Hds.
      * apply IH. rewrite <- app_assoc. split; [|done]. intros l1 d2 l2 ->. rewrite <- app_assoc. by apply (Hds (d :: l1) d2 l2).
Qed.

Lemma index_decisions_Ok ds idx : OrchestrationReceipt.index_decisions ds = Ok idx ↔ indexed ds ∧ idx = index_of ds.
Proof. apply (index_fold []). Qed.

(** ** Orchestrations *)

Lemma receipt_copy_Ok r r' :
  validated_admission_receipt_copy r = Ok r' →
  rc_decisions r' = rc_decisions r ∧ rc_status r' = rc_status r ∧ rc_proposal_ordering r' = rc_proposal_ordering r ∧
  rc_batch_id r' = rc_batch_id r ∧ rc_next_state_id r' = rc_next_state_id r.
Proof.
  unfold validated_admission_receipt_copy. intros (ds & [-> _]%materialize_Ok & H)%res_bind_Ok.
  apply res_bind_Ok in H as (copies & Hc%res_map_Ok & H). apply res_bind_Ok in H as (rj & _ & H).
  apply res_bind_Ok in H as (v & ->%receipt_make_Ok & ([] & _ & [= <-])%res_bind_Ok). cbn.
  split; [|done]. induction Hc as [|d c ds cs ->%decision_copy_id _ IH]; [done|]. by rewrite IH.
Qed.

Lemma tool_binding_Ok policy task governance t t' :
  require_tool_admission_binding policy task governance t = Ok t' → grant_ok policy task governance t'.
Proof.
  unfold require_tool_admission_binding. intros ([] & _ & H)%res_bind_Ok.
  apply res_bind_Ok in H as (pm & _ & H). destruct pm as [pm|]; [|discriminate].
  apply res_bind_Ok in H as (t1 & [Hg _]%make_grant & H). apply res_bind_Ok in H as (? & _ & H).
  apply res_bind_Ok in H as (? & _ & H). apply res_bind_Ok in H as (? & _ & [= <-]). exact Hg.
Qed.

(** The key under which the runtime caches a replayed read. *)
Definition cache_key (t : ToolAdmissionReceipt) : option (pystr * pystr * pystr) :=
  if is_replayed_read (ta_authority_class t) then
    match ToolAdmissionReceipt.arguments_id t with
    | Ok i => Some (ta_tool_name t, i, ta_dependency_fingerprint t)
    | Raise _ => None
    end
  else None.

Lemma cache_keys_Ok l : OrchestrationReceipt.check_cache_keys l = Ok tt → NoDup (omap cache_key l).
Proof.
  unfold OrchestrationReceipt.check_cache_keys. intros (keys & H & _)%res_bind_Ok.
  match type of H with res_fold ?f _ _ = _ => set (step := f) in H end.
  assert (Hgen : ∀ l seen, res_fold step seen l = Ok keys → NoDup seen → NoDup (rev (omap cache_key l) ++ seen)).
  { clear. induction l as [|t l IH]; intros seen H Hs; [done|]. cbn [res_fold] in H.
    apply res_bind_Ok in H as (seen' & Ht & H). cbn [omap list_omap]. unfold step in Ht. unfold cache_key at 1.
    destruct (is_replayed_read (ta_authority_class t)); [|injection Ht as <-; by apply IH].
    apply res_bind_Ok in Ht as (i & -> & Ht). apply res_bind_Ok in Ht as ([] & Hn%raise_if_Ok & [= <-]).
    apply bool_decide_eq_false in Hn. cbn [rev]. rewrite <- app_assoc. apply IH; [exact H|]. by constructor. }
  specialize (Hgen l [] H ltac:(constructor)). by rewrite app_nil_r, <- Permutation_rev in Hgen.
Qed.

Lemma check_decisions_Ok ds l :
  NoDup (map fst (omap admitted_action ds)) →
  OrchestrationReceipt.check_decisions (omap admitted_action ds) l = Ok tt →
  ∀ t, t ∈ l → ta_admission_decision t ∈ ds ∧ ad_action_id (ta_admission_decision t) = Some (ta_action_id t).
Proof.
  intros Hnd. unfold OrchestrationReceipt.check_decisions. rewrite res_iter_Ok, Forall_forall. intros H t Ht%H.
  destruct (lookup_text _ (ta_action_id t)) as [d|] eqn:E; [|discriminate].
  apply raise_if_Ok, negb_false_iff, decision_record_inj in Ht as <-. apply lookup_text_elem in E.
  apply list_elem_of_omap in E as (d' & Hin & E). unfold admitted_action in E.
  destruct (ad_status d'); try discriminate. destruct (ad_action_id d') as [act|] eqn:Ea; [|discriminate].
  injection E as <- <-. exact (conj Hin Ea).
Qed.

(** What an orchestration receipt authorizes. *)
Record orchestration_ok (policy : GovernancePolicy) (task : TaskReceipt) (governance : GovernanceReceipt)
    (r : AdmissionReceipt) (o : OrchestrationReceipt) : Prop := {
  oc_processed : rc_status r = PROCESSED;
  oc_decisions : rc_decisions (or_admission_receipt o) = rc_decisions r;
  oc_indexed : indexed (rc_decisions r);
  oc_actions : map ta_action_id (or_tool_admissions o) = sorted (map fst (omap admitted_action (rc_decisions r)));
  oc_once : NoDup (map ta_action_id (or_tool_admissions o));
  oc_grants : Forall (grant_ok policy task governance) (or_tool_admissions o);
  oc_bound : ∀ t, t ∈ or_tool_admissions o → ta_admission_decision t ∈ rc_decisions r;
  oc_sequence : ∀ t, t ∈ or_tool_admissions o → cap_replay_safety (ta_capability t) = OCCURRENCE_SENSITIVE →
    rc_proposal_ordering r = DECLARED_SEQUENCE;
  oc_cache : NoDup (omap cache_key (or_tool_admissions o));
  oc_count : or_authorization_manifest_count o = Z.of_nat (length (or_tool_admissions o))
}.

Lemma orchestration_make_Ok policy task governance r admissions o :
  OrchestrationReceipt.make policy task governance r admissions = Ok o → orchestration_ok policy task governance r o.
Proof.
  unfold OrchestrationReceipt.make. intros ([] & _ & H)%res_bind_Ok.
  apply res_bind_Ok in H as (r' & (Ed & Es & Eo & _)%receipt_copy_Ok & H).
  apply res_bind_Ok in H as ([] & Hs%raise_if_Ok%negb_false_iff%bool_decide_eq_true & H).
  apply res_bind_Ok in H as (supplied & _ & H). apply res_bind_Ok in H as (validated & Hv%res_map_Ok & H).
  apply res_bind_Ok in H as ([] & Hnd%raise_if_Ok%has_duplicates_false & H).
  apply res_bind_Ok in H as (idx & [Hix ->]%index_decisions_Ok & H).
  apply res_bind_Ok in H as ([] & Hact%raise_if_Ok%negb_false_iff%bool_decide_eq_true & H).
  cbn [di_by_action index_of] in Hact, H. rewrite Ed in *.
  apply res_bind_Ok in H as ([] & Hdec & H). apply res_bind_Ok in H as ([] & Hseq%raise_if_Ok & H).
  apply res_bind_Ok in H as ([] & Hcache%cache_keys_Ok & H).
  do 6 (apply res_bind_Ok in H as (? & _ & H)). injection H as <-.
  assert (Hkeys : NoDup (map fst (omap admitted_action (rc_decisions r)))) by (by rewrite Hact, sorted_perm in Hnd).
  pose proof (check_decisions_Ok _ _ Hkeys Hdec) as Hb.
  constructor; cbn [or_tool_admissions or_admission_receipt or_authorization_manifest_count].
  - congruence.
  - exact Ed.
  - exact Hix.
  - exact Hact.
  - exact Hnd.
  - rewrite sorted_by_perm. clear -Hv. induction Hv as [|t t' ts ts' Ht%tool_binding_Ok _ IH]; constructor; assumption.
  - intros t Ht. by destruct (Hb t Ht).
  - intros t Ht Hsens. rewrite <- Eo. apply andb_false_iff in Hseq as [Hseq|Hseq].
    + pose proof (proj1 (existsb_elem_false _ _) Hseq t Ht) as Hf. apply bool_decide_eq_false in Hf. contradiction.
    + by apply negb_false_iff, bool_decide_eq_true in Hseq.
  - exact Hcache.
  - reflexivity.
Qed.

(** C10.  An orchestration receipt authorizes exactly the admitted decisions of one processed batch:
    its tool admissions are the admitted actions, each once and in order of action, each a sound grant
    for the batch's own decision on it; proposals, keys and actions of the batch are distinct and every
    deduplicated decision repeats an earlier admitted action.  Occurrence-sensitive actions come only
    from a declared sequence, and no two replayed reads share a cache key. *)
Theorem orchestration_authorizes_exactly policy task governance r admissions o :
  GovernanceWrapper.bind_orchestration policy task governance r admissions = Granted o →
  orchestration_ok policy task governance r o.
Proof.
  unfold GovernanceWrapper.bind_orchestration. intros H. granted_step H. granted_step H.
  by eapply orchestration_make_Ok.
Qed.

(** ** The orchestrator's batches are what governance asks for *)

(** Decisions are the orchestration layer's; a decision that is not a rejection is unblocked. *)
Definition decision_plain (d : AdmissionDecision) : Prop :=
  ad_authority_layer d = ORCHESTRATION ∧
  (ad_status d ≠ DECISION_REJECTED → ad_blocking_obligation_ids d = [] ∧ ad_unresolved_state_keys d = []).

Lemma made_plain d0 d :
  AdmissionDecision.make d0 = Ok d → ad_authority_layer d0 = ORCHESTRATION →
  (ad_status d0 ≠ DECISION_REJECTED → ad_blocking_obligation_ids d0 = [] ∧ ad_unresolved_state_keys d0 = []) →
  decision_plain d.
Proof.
  unfold AdmissionDecision.make. intros H Hl Hc.
  do 6 (apply res_bind_Ok in H as (? & _ & H)). apply res_bind_Ok in H as (bl & (-> & _)%unique_sorted_Ok & H).
  apply res_bind_Ok in H as (? & _ & H). apply res_bind_Ok in H as (un & (-> & _)%unique_sorted_Ok & H).
  do 2 (apply res_bind_Ok in H as (? & _ & H)). injection H as <-. split; [exact Hl|]. cbn. intros Hs.
  by destruct (Hc Hs) as [-> ->].
Qed.

Lemma rejected_plain p tick reason rec bl keys un d : rejected_decision p tick reason rec bl keys un = Ok d → decision_plain d.
Proof. unfold rejected_decision. intros (i & _ & H)%res_bind_Ok. by eapply made_plain. Qed.

Lemma admitted_plain i key tick act eqv keys d : admitted_decision i key tick act eqv keys = Ok d → decision_plain d.
Proof. intros H. by eapply made_plain. Qed.

Lemma targets_plain s p tick keys d : validate_targets s p tick keys = Ok (Some d) → decision_plain d.
Proof.
  unfold validate_targets. intros (? & _ & H)%res_bind_Ok.
  assert (Hr : ∀ reason rec bl, (let* d := rejected_decision p tick reason [rec] bl keys [] in Ok (Some d)) = Ok (Some d) → decision_plain d).
  { intros ??? (d' & Hd%rejected_plain & [= <-])%res_bind_Ok. exact Hd. }
  destruct (nonempty _); [by eapply Hr|]. apply res_bind_Ok in H as (? & _ & H).
  destruct (nonempty _); [by eapply Hr|]. apply res_bind_Ok in H as (? & _ & H).
  destruct (nonempty _); [by eapply Hr|]. apply res_bind_Ok in H as (? & _ & H).
  destruct (nonempty _); [|discriminate]. apply res_bind_Ok in H as (? & _ & H). by eapply Hr.
Qed.

Lemma action_plain s p c args keys st tick v : decide_action s p c args keys st tick = Ok v → decision_plain v.1.1.
Proof.
  unfold decide_action. intros (? & _ & H)%res_bind_Ok. do 2 (apply res_bind_Ok in H as (? & _ & H)).
  assert (Hr : ∀ reason rec, (let* d := rejected_decision p tick reason [rec] [] keys [] in Ok (d, ls_replay_safe st, ls_owners st)) = Ok v →
    decision_plain v.1.1).
  { intros ?? (d' & Hd%rejected_plain & [= <-])%res_bind_Ok. exact Hd. }
  destruct (Capability.is_replay_safe c).
  - destruct (ls_replay_safe st !! _); by apply res_bind_Ok in H as (d & Hd%admitted_plain & [= <-]).
  - destruct (ap_occurrence_key p); [|discriminate]. destruct (find_owner _ _); [by eapply Hr|].
    destruct (_ =? _); [by eapply Hr|]. apply res_bind_Ok in H as (? & _ & H).
    by apply res_bind_Ok in H as (d & Hd%admitted_plain & [= <-]).
Qed.

Lemma proposal_plain s b st p tick v : decide_proposal s b st p tick = Ok v → decision_plain v.1.1.
Proof.
  unfold decide_proposal. intros (found & _ & H)%res_bind_Ok.
  assert (Hr : ∀ reason rec keys un, (let* d := rejected_decision p tick reason [rec] [] keys un in
    Ok (d, ls_replay_safe st, ls_owners st)) = Ok v → decision_plain v.1.1).
  { intros ???? (d' & Hd%rejected_plain & [= <-])%res_bind_Ok. exact Hd. }
  destruct found as [c|]; [|by eapply Hr]. destruct (negb (cap_available c)); [by eapply Hr|].
  apply res_bind_Ok in H as (args & _ & H). destruct args as [args|]; [|by eapply Hr].
  destruct (_ && _); [by eapply Hr|]. apply res_bind_Ok in H as (invalid & Hi & H).
  destruct invalid as [d|]; [injection H as <-; by eapply targets_plain|].
  apply res_bind_Ok in H as (un & _ & H). destruct (nonempty un); [by eapply Hr|].
  destruct (_ && _); [by eapply Hr|]. destruct (_ && _); [by eapply Hr|]. by eapply action_plain.
Qed.

Lemma loop_plain s b ps st st' :
  Forall decision_plain (ls_decisions st) → res_fold (admit_step s b) st ps = Ok st' → Forall decision_plain (ls_decisions st').
Proof.
  revert st; induction ps as [|p ps IH]; intros st Hst H; cbn [res_fold] in H; [by injection H as <-|].
  apply res_bind_Ok in H as (st1 & H1 & H). apply (IH st1); [|exact H]. unfold admit_step in H1.
  apply res_bind_Ok in H1 as ([[d rs] ow] & Hd%proposal_plain & H1). do 3 (apply res_bind_Ok in H1 as (? & _ & H1)).
  injection H1 as <-. cbn [ls_decisions]. by rewrite Forall_app, Forall_singleton.
Qed.

Lemma batch_plain s b tr : admit_batch s b = Ok tr → Forall decision_plain (rc_decisions (tr_receipt tr)).
Proof.
  assert (Hrej : ∀ reason rec, rejected_batch_transition s b reason rec = Ok tr → Forall decision_plain (rc_decisions (tr_receipt tr))).
  { intros reason rec H. unfold rejected_batch_transition in H. do 7 (apply res_bind_Ok in H as (? & _ & H)).
    apply res_bind_Ok in H as (r & ->%receipt_make_Ok & ->%transition_Ok). constructor. }
  unfold admit_batch. intros (ok & _ & H)%res_bind_Ok. destruct (negb ok); [by eapply Hrej|].
  apply res_bind_Ok in H as (? & _ & H). destruct (_ <? _); [by eapply Hrej|].
  apply res_bind_Ok in H as (ps & _ & H). apply res_bind_Ok in H as (st & Hst & H).
  do 4 (apply res_bind_Ok in H as (? & _ & H)).
  apply res_bind_Ok in H as (r & ->%receipt_make_Ok & ->%transition_Ok). cbn. eapply loop_plain; [|exact Hst]. constructor.
Qed.

(** What the orchestrator hashes to identify the action that a proposal asks for, and to identify the
    proposals of a batch. *)
Definition requested_messages (s : OrchestrationState) (p : ActionProposal) : list (res (list Z)) :=
  flat_map (λ c, match admitted_arguments c p with Ok (Some args) => cleared_messages s p c args | _ => [] end)
    (List.filter (λ c, bool_decide (cap_name c = ap_capability p)) (os_capabilities s)).

Definition batch_messages (s : OrchestrationState) (b : ProposalBatch) : list (res (list Z)) :=
  map proposal_message (pb_proposals b) ++ flat_map (requested_messages s) (pb_proposals b).

Lemma cleared_requested s b p c args m :
  cleared s b p c args → m ∈ cleared_messages s p c args → m ∈ requested_messages s p.
Proof.
  intros Hc Hm. apply list_elem_of_In, in_flat_map. exists c. rewrite (cl_arguments _ _ _ _ _ Hc).
  split; [|by apply list_elem_of_In]. apply filter_In. destruct (cl_capability _ _ _ _ _ Hc) as [Hin Hn].
  split; [by apply list_elem_of_In|by apply bool_decide_eq_true].
Qed.

Lemma requested_in s ps p m : p ∈ ps → m ∈ requested_messages s p → m ∈ flat_map (requested_messages s) ps.
Proof. rewrite !list_elem_of_In, in_flat_map. eauto. Qed.

(** Two proposals let through for the same action are the same occurrence, or both replay safe. *)
Lemma same_occurrence s b p1 p2 c1 c2 a1 a2 act :
  cleared s b p1 c1 a1 → cleared s b p2 c2 a2 → action_of s p1 c1 a1 act → action_of s p2 c2 a2 act →
  ap_occurrence_key p1 = ap_occurrence_key p2 ∨ collision_among (requested_messages s p1 ++ requested_messages s p2).
Proof.
  intros H1 H2 A1 A2. pose proof (cl_occurrence _ _ _ _ _ H1) as K1. pose proof (cl_occurrence _ _ _ _ _ H2) as K2.
  destruct (action_determines _ _ _ _ _ _ _ _ _ H1 H2 A1 A2) as [((_ & Hr & _) & _ & _ & Ho)|Hcol]; [left|right].
  2:{ eapply collision_among_incl, Hcol. intros m. rewrite !elem_of_app. intros [Hm|Hm]; [left|right]; by eapply cleared_requested. }
  destruct (decide (cap_replay_safety c1 = OCCURRENCE_SENSITIVE)) as [Hs|Hs]; [by apply Ho|].
  rewrite bool_decide_false in K1 by exact Hs. rewrite bool_decide_false in K2 by congruence.
  by destruct (ap_occurrence_key p1), (ap_occurrence_key p2).
Qed.

Lemma distinct_actions s b l st :
  loop_ok s b l st → ∀ l1 l2, l = l1 ++ l2 →
  NoDup (map fst (omap admitted_action (map snd l1))) ∨ collision_among (flat_map (requested_messages s) (map fst l)).
Proof.
  intros Hlo. induction l1 as [|[p d] l1 IH] using rev_ind; intros l2 El; [left; constructor|].
  rewrite <- app_assoc in El. cbn [app] in El. destruct (IH _ El) as [Hnd|]; [|by right].
  rewrite map_app, omap_app, map_app. cbn [map omap list_omap snd].
  destruct (admitted_action d) as [[act d0]|] eqn:Ed; [|left; cbn; by rewrite app_nil_r].
  cbn [map fst]. assert (Hd : ad_status d = ADMITTED ∧ ad_action_id d = Some act).
  { unfold admitted_action in Ed. destruct (ad_status d), (ad_action_id d); try discriminate. by injection Ed as -> _. }
  clear Ed. destruct Hd as [Hs Ha].
  destruct (decide (act ∈ map fst (omap admitted_action (map snd l1)))) as [Hin|Hni].
  2:{ left. apply NoDup_app. split; [done|]. split; [|apply NoDup_singleton]. intros x Hx ->%list_elem_of_singleton. done. }
  apply list_elem_of_fmap in Hin as ([act' d2] & E & Hin). cbn in E. subst act'.
  apply list_elem_of_omap in Hin as (d' & Hd' & E). apply list_elem_of_fmap in Hd' as ([p' d3] & E3 & Hin). cbn in E3. subst d3.
  assert (Hd' : ad_status d' = ADMITTED ∧ ad_action_id d' = Some act).
  { unfold admitted_action in E. destruct (ad_status d'), (ad_action_id d'); try discriminate. by injection E as -> _. }
  clear E. destruct Hd' as [Hs' Ha'].
  destruct (lo_cleared _ _ _ _ Hlo p d) as (c & args & x & Hc & Hact & Ex); [rewrite El; set_solver|congruence|].
  destruct (lo_cleared _ _ _ _ Hlo p' d') as (c' & args' & x' & Hc' & Hact' & Ex'); [rewrite El; set_solver|congruence|].
  assert (x = act) as -> by congruence. assert (x' = act) as -> by congruence.
  destruct (same_occurrence _ _ _ _ _ _ _ _ _ Hc Hc' Hact Hact') as [Ho|Hcol]; [exfalso|right].
  2:{ eapply collision_among_incl, Hcol. intros m. rewrite elem_of_app. rewrite El.
      intros [Hm|Hm]; (eapply requested_in; [|exact Hm]); rewrite map_app, elem_of_app; [right; apply list_elem_of_here|left].
      apply (list_elem_of_fmap_2 fst _ _ Hin). }
  destruct (ap_occurrence_key p) as [key|] eqn:Ek.
  - pose proof (lo_keys _ _ _ _ Hlo) as Hk. rewrite (lo_owners _ _ _ _ Hlo), El, omap_app, !map_app in Hk.
    cbn [omap list_omap] in Hk. unfold owner_of at 2 in Hk. cbn [fst snd] in Hk. rewrite Hs, Ek, Ha in Hk. cbn [map] in Hk.
    rewrite app_assoc in Hk. apply NoDup_app in Hk as (_ & Hk & _). apply (Hk key); [|apply list_elem_of_here].
    apply elem_of_app. right. apply list_elem_of_fmap.
    exists {| oo_occurrence_key := key; oo_action_id := act; oo_proposal_id := ad_proposal_id d' |}. split; [done|].
    apply list_elem_of_omap. exists (p', d'). split; [exact Hin|]. unfold owner_of. cbn [fst snd]. by rewrite Hs', <- Ho, Ha'.
  - eapply (lo_once _ _ _ _ Hlo l1 p d l2 El Ek Hs p' d' Hin); congruence.
Qed.

Lemma admitted_action_Some d x : admitted_action d = Some x ↔ ad_status d = ADMITTED ∧ ad_action_id d = Some x.1 ∧ x.2 = d.
Proof.
  unfold admitted_action. destruct x as [act d']. cbn. destruct (ad_status d), (ad_action_id d); naive_solver.
Qed.

Lemma admitted_ids l :
  NoDup (map ad_proposal_id l) → NoDup (map fst (map (λ ad, (ad_proposal_id ad.2, ad.1)) (omap admitted_action l))).
Proof.
  induction l as [|d l IH]; [constructor|]. cbn [map omap list_omap]. intros [Hni Hnd]%NoDup_cons.
  destruct (admitted_action d) as [x|] eqn:E; [|by apply IH]. apply admitted_action_Some in E as (_ & _ & <-).
  cbn [map fst]. constructor; [|by apply IH]. intros Hin. apply Hni. rewrite map_map in Hin.
  apply list_elem_of_fmap in Hin as (y & Ey & Hin). apply list_elem_of_omap in Hin as (d' & Hin & Hd').
  apply admitted_action_Some in Hd' as (_ & _ & <-). cbn in Ey. rewrite Ey. by apply list_elem_of_fmap_2.
Qed.

(** C27.  The two layers agree on a batch: the decisions of every processed batch of the orchestrator,
    from any state and with proposals as they are made, pass the checks of an orchestration receipt -
    distinct proposals and keys, one admitted decision per action, each deduplication after the
    admission it repeats, nothing let through while blocked - unless two of the messages collide that
    identify the batch's own proposals, their actions and the capabilities they name. *)
Theorem processed_batch_indexed s b tr :
  made s → Forall made_proposal (pb_proposals b) → NoDup (map ap_proposal_key (pb_proposals b)) →
  admit_batch s b = Ok tr → rc_status (tr_receipt tr) = PROCESSED →
  OrchestrationReceipt.index_decisions (rc_decisions (tr_receipt tr)) = Ok (index_of (rc_decisions (tr_receipt tr))) ∨
  collision_among (batch_messages s b).
Proof.
  intros Hm Hp Hkeys H Hs. pose proof (batch_plain _ _ _ H) as Hplain.
  destruct (admit_batch_Ok s b tr Hm H) as [[l Hl]|Hl]; [|by destruct Hl; congruence].
  destruct Hl as [_ _ Hord (st & Hlo & _) _ Hd _ _]. rewrite Hd in *. clear Hd.
  assert (Hperm : map fst l ≡ₚ pb_proposals b) by (by apply ordered_proposals_perm).
  destruct (distinct_ids (map fst l) (map ad_proposal_id (map snd l))) as [Hids|Hcol]; [by rewrite Hperm|by rewrite Hperm| | |].
  3:{ right. eapply collision_among_incl, Hcol. intros m. unfold batch_messages. rewrite Hperm. set_solver. }
  { pose proof (lo_about _ _ _ _ Hlo) as Hab. clear -Hab. induction l as [|[p d] l IH]; [constructor|]. cbn [map fst snd].
    constructor; [apply (Hab p d), list_elem_of_here|]. apply IH. intros p' d' ?. by apply Hab, list_elem_of_further. }
  destruct (distinct_actions s b l st Hlo l []) as [Hacts|Hcol]; [by rewrite app_nil_r| |].
  2:{ right. eapply collision_among_incl, Hcol. intros m. unfold batch_messages. rewrite elem_of_app, !list_elem_of_In, !in_flat_map.
      intros (p & Hin & ?). right. exists p. split; [|done]. revert Hin. rewrite <- !list_elem_of_In. by rewrite Hperm. }
  left. apply index_decisions_Ok. split; [|done]. intros m1 d m2 E.
  apply map_eq_app in E as (l1 & l2' & -> & <- & E). apply map_eq_cons in E as ([p d'] & l2 & -> & E & <-). cbn in E. subst d'.
  assert (Hin : (p, d) ∈ l1 ++ (p, d) :: l2) by set_solver.
  pose proof (lo_about _ _ _ _ Hlo p d Hin) as [_ Hkey].
  rewrite !map_app in Hids, Hacts. rewrite omap_app, map_app in Hacts. cbn [map snd omap list_omap] in Hids, Hacts.
  rewrite map_app in Hids. cbn [map] in Hids. pose proof (proj1 (NoDup_app _ _) Hids) as (Hids1 & Hfresh & _).
  constructor.
  - intros Hx. apply (Hfresh _ Hx). apply list_elem_of_here.
  - rewrite <- Hperm, map_app in Hkeys. cbn [map fst] in Hkeys. rewrite map_app in Hkeys. cbn [map] in Hkeys. apply NoDup_app in Hkeys as (_ & Hk & _).
    intros Hx. apply (Hk (ad_proposal_key d)); [|rewrite Hkey; apply list_elem_of_here].
    apply list_elem_of_fmap in Hx as (d' & E & Hx). apply list_elem_of_fmap in Hx as ([p' d2] & E2 & Hx). cbn in E2. subst d2.
    destruct (lo_about _ _ _ _ Hlo p' d') as [_ Hkey']; [set_solver|]. rewrite E, Hkey'. apply list_elem_of_fmap_2.
    apply (list_elem_of_fmap_2 fst _ _ Hx).
  - apply (proj1 (Forall_forall _ _) Hplain). apply (list_elem_of_fmap_2 snd _ _ Hin).
  - apply (proj1 (Forall_forall _ _) Hplain). apply (list_elem_of_fmap_2 snd _ _ Hin).
  - intros Ha. destruct (lo_cleared _ _ _ _ Hlo p d Hin) as (c & args & act & _ & _ & Eact); [congruence|].
    exists act. split; [exact Eact|]. rewrite (proj2 (admitted_action_Some d (act, d))) in Hacts by done.
    apply NoDup_app in Hacts as (_ & Hn & _). intros Hx. apply (Hn _ Hx). apply list_elem_of_here.
  - intros Hdd. destruct (lo_dedup _ _ _ _ Hlo l1 p d l2 eq_refl Hdd) as (_ & p' & d' & Hin' & Ha' & Eact & Eeq & _).
    destruct (lo_cleared _ _ _ _ Hlo p d Hin) as (c & args & act & _ & _ & Hact); [congruence|].
    exists act, (ad_proposal_id d'). split; [exact Hact|]. split; [exact Eeq|].
    apply lookup_text_unique; [by apply admitted_ids|].
    apply (list_elem_of_fmap_2 (λ ad : pystr * AdmissionDecision, (ad_proposal_id ad.2, ad.1)) _ (act, d')).
    apply list_elem_of_omap. exists d'. split; [apply (list_elem_of_fmap_2 snd _ _ Hin')|].
    apply admitted_action_Some. cbn. split; [exact Ha'|]. split; [congruence|done].
Qed.

(** ** Finalization *)

Section finalization.
Context {N : NativeSeals} {E : EvidenceSeals}.

(** The compact receipt is a live, failure-free account of this execution and no other. *)
Record compact_bound (task : TaskReceipt) (policy : GovernancePolicy) (orchestration : OrchestrationReceipt)
    (execution : ExecutionReceipt) (c : CompactEvidenceReceipt) : Prop := {
  cb_source : compact_source_bound c = true;
  cb_status : compact_item c ["status"%string] = Ok (VStr (u "complete_no_failures"));
  cb_identities :
    Forall (λ ni, ∃ i, ni.2 = Ok i ∧ compact_item c ["bound_identities"%string; ni.1] = Ok (VStr i))
      [("task"%string, TaskReceipt.task_id task); ("governance"%string, GovernancePolicy.governance_id policy);
       ("orchestration"%string, OrchestrationReceipt.orchestration_id orchestration);
       ("execution"%string, ExecutionReceipt.execution_id execution)];
  cb_aggregates :
    Forall (λ ni, compact_item c ["aggregate_identities"%string; ni.1] = Ok (VStr ni.2))
      [("admissions"%string, xr_aggregate_admission_id execution); ("inputs"%string, xr_aggregate_input_id execution);
       ("results"%string, xr_aggregate_result_id execution); ("receipts"%string, xr_aggregate_receipt_id execution)];
  cb_manifest : compact_item c ["authorization_manifest"; "manifest_id"]%string =
    Ok (VStr (xr_authorization_manifest_id execution));
  cb_cases : ∃ cases, compact_case_counts c = Ok cases ∧ vc_total cases = xr_transition_count execution
}.

Lemma text_check c path expected u0 :
  (let* v := compact_item c path in let* s := expected in raise_if (negb (is_text v s)) ValueError) = Ok u0 →
  ∃ s, expected = Ok s ∧ compact_item c path = Ok (VStr s).
Proof.
  intros (v & Hv & (s & -> & H%raise_if_Ok%negb_false_iff%is_text_eq)%res_bind_Ok)%res_bind_Ok. subst. by exists s.
Qed.

Lemma fixed_text_check c path s u0 :
  (let* v := compact_item c path in let* s := Ok s in raise_if (negb (is_text v s)) ValueError) = Ok u0 →
  compact_item c path = Ok (VStr s).
Proof. intros (s' & [= <-] & H)%text_check. exact H. Qed.

Lemma compact_binding_Ok task policy orchestration execution c i :
  validate_compact_evidence_binding task policy orchestration execution c = Ok i →
  compact_bound task policy orchestration execution c ∧ compact_item c ["receipt_id"%string] = Ok (VStr i).
Proof.
  unfold validate_compact_evidence_binding. intros H. apply res_bind_Ok in H as (? & _ & H).
  apply res_bind_Ok in H as (? & H1%fixed_text_check & H). apply res_bind_Ok in H as (? & H2%raise_if_Ok%negb_false_iff & H).
  apply res_bind_Ok in H as (? & _ & H). apply res_bind_Ok in H as (cases & H3 & H). apply res_bind_Ok in H as (? & _ & H).
  apply res_bind_Ok in H as (? & H4%text_check & H). apply res_bind_Ok in H as (? & H5%text_check & H).
  apply res_bind_Ok in H as (? & H6%text_check & H). apply res_bind_Ok in H as (? & H7%text_check & H).
  apply res_bind_Ok in H as (? & H8%fixed_text_check & H). apply res_bind_Ok in H as (? & _ & H).
  apply res_bind_Ok in H as (? & H9%fixed_text_check & H). apply res_bind_Ok in H as (? & H10%fixed_text_check & H).
  apply res_bind_Ok in H as (? & H11%fixed_text_check & H). apply res_bind_Ok in H as (? & H12%fixed_text_check & H).
  apply res_bind_Ok in H as (? & H13%raise_if_Ok%negb_false_iff%Z.eqb_eq & H).
  apply res_bind_Ok in H as (? & _ & H). apply res_bind_Ok in H as (? & _ & H). apply res_bind_Ok in H as (v & Hv & H).
  split.
  - constructor; [exact H2|exact H1| | |exact H8|by exists cases].
    + repeat (constructor; [assumption|]). constructor.
    + repeat (constructor; [assumption|]). constructor.
  - unfold fingerprint_value, ProgressCounterEvidence.require_fingerprint_value in H. destruct v; try discriminate.
    by apply res_bind_Ok in H as (? & _ & [= <-]).
Qed.

Lemma gate_make_Ok key sat ev g :
  AcceptanceGateResult.make key sat ev = Ok g →
  g = {| gt_gate_key := key; gt_satisfied := sat; gt_evidence_receipt_id := ev |}.
Proof. unfold AcceptanceGateResult.make. intros H. by do 3 (apply res_bind_Ok in H as (? & _ & H)); injection H. Qed.

Lemma gates_normal gates results :
  normalize_gate_results gates = Ok results → results = sorted_by gt_gate_key gates ∧ NoDup (map gt_gate_key results).
Proof.
  unfold normalize_gate_results. intros (supplied & [-> _]%materialize_Ok & H)%res_bind_Ok.
  apply res_bind_Ok in H as (validated & Hv%res_map_Ok & H).
  apply res_bind_Ok in H as ([] & Hnd%raise_if_Ok%has_duplicates_false & [= <-]).
  assert (Heq : validated = gates); [|subst; exact (conj eq_refl Hnd)]. clear Hnd.
  induction Hv as [|g v gs vs (e & Hg%gate_make_Ok & He)%res_bind_Ok _ IH]; [done|].
  apply res_bind_Ok in He as (? & _ & [= <-]). rewrite IH, Hg. by destruct g.
Qed.

Lemma result_for_unique results g :
  NoDup (map gt_gate_key results) → g ∈ results → result_for results (gt_gate_key g) = Some g.
Proof. intros Hnd Hin. by apply (find_unique gt_gate_key). Qed.

Lemma result_for_elem results k g : result_for results k = Some g → g ∈ results ∧ gt_gate_key g = k.
Proof. unfold result_for. intros [? H]%find_elem. by apply bool_decide_eq_true in H. Qed.

Lemma missing_gates_elem required results k :
  NoDup (map gt_gate_key results) →
  k ∈ missing_gates required results ↔
  k ∈ required ∧ ∀ g, g ∈ results → gt_gate_key g = k → gt_satisfied g = false.
Proof.
  intros Hnd. unfold missing_gates. rewrite (list_elem_of_In (List.filter _ _)), filter_In, <- list_elem_of_In. split.
  - intros [Hk H]. split; [exact Hk|]. intros g Hg <-. rewrite (result_for_unique _ _ Hnd Hg) in H. by apply negb_true_iff.
  - intros [Hk H]. split; [exact Hk|]. destruct (result_for results k) as [g|] eqn:Hr; [|done].
    apply result_for_elem in Hr as [Hg Hgk]. by rewrite (H g Hg Hgk).
Qed.

(** The evidence that each of the three gates must carry. *)
Definition gate_evidence (orchestration : OrchestrationReceipt) (execution : ExecutionReceipt) (compact_id key : pystr)
    : res pystr :=
  if bool_decide (key = COMPACT_EVIDENCE_GATE_KEY) then Ok compact_id
  else if bool_decide (key = ORCHESTRATION_RECEIPT_GATE_KEY) then OrchestrationReceipt.receipt_id orchestration
  else ExecutionReceipt.receipt_id execution.

(** What a final acceptance receipt stands for. *)
Record finally_accepted (policy : GovernancePolicy) (task : TaskReceipt) (governance : GovernanceReceipt)
    (orchestration : OrchestrationReceipt) (execution : ExecutionReceipt) (c : CompactEvidenceReceipt)
    (f : FinalAcceptanceReceipt) : Prop := {
  fx_binding : require_execution_binding policy task governance orchestration execution = Ok tt;
  fx_endpoints : receipt_source_bound (xr_initial_runtime_receipt execution) = true ∧
    receipt_source_bound (xr_final_runtime_receipt execution) = true;
  fx_compact : compact_bound task policy orchestration execution c;
  fx_compact_id : compact_item c ["receipt_id"%string] = Ok (VStr (fa_compact_evidence_receipt_id f));
  fx_gates : map gt_gate_key (fa_gate_results f) = gp_required_gate_keys policy;
  fx_satisfied : ∀ g, g ∈ fa_gate_results f → gt_satisfied g = true ∧ ∃ i, gt_evidence_receipt_id g = Some i ∧
    gate_evidence orchestration execution (fa_compact_evidence_receipt_id f) (gt_gate_key g) = Ok i;
  fx_ids : TaskReceipt.task_id task = Ok (fa_task_id f) ∧ GovernancePolicy.governance_id policy = Ok (fa_governance_id f) ∧
    OrchestrationReceipt.orchestration_id orchestration = Ok (fa_orchestration_id f) ∧
    ExecutionReceipt.execution_id execution = Ok (fa_execution_id f)
}.

Lemma require_gate_Ok results key expected g :
  FinalAcceptanceReceipt.require_gate results key expected = Ok tt → NoDup (map gt_gate_key results) →
  g ∈ results → gt_gate_key g = key → ∃ i, gt_evidence_receipt_id g = Some i ∧ expected = Ok i.
Proof.
  unfold FinalAcceptanceReceipt.require_gate. intros H Hnd Hin <-. rewrite (result_for_unique _ _ Hnd Hin) in H.
  apply res_bind_Ok in H as (i & -> & H%raise_if_Ok). bool_inv. by exists i.
Qed.

Lemma final_make_Ok policy task governance orchestration execution c gates requester f :
  policy_ok policy →
  FinalAcceptanceReceipt.make policy task governance orchestration execution c gates requester = Ok f →
  finally_accepted policy task governance orchestration execution c f ∧ requester = OPENAI_SUPERVISOR.
Proof.
  intros Hp. unfold FinalAcceptanceReceipt.make. intros ([] & Hb & H)%res_bind_Ok.
  apply res_bind_Ok in H as ([] & Hsrc%raise_if_Ok & H). apply res_bind_Ok in H as ([] & Hr%raise_if_Ok & H).
  apply res_bind_Ok in H as (results & [-> Hnd]%gates_normal & H).
  apply res_bind_Ok in H as ([] & Hk%raise_if_Ok & H). apply res_bind_Ok in H as ([] & Hsat%raise_if_Ok & H).
  apply res_bind_Ok in H as (cid & [Hc Hcid]%compact_binding_Ok & H).
  apply res_bind_Ok in H as ([] & G1 & H). apply res_bind_Ok in H as ([] & G2 & H). apply res_bind_Ok in H as ([] & G3 & H).
  apply res_bind_Ok in H as (i1 & I1 & H). apply res_bind_Ok in H as (? & _ & H). apply res_bind_Ok in H as (i2 & I2 & H).
  apply res_bind_Ok in H as (? & _ & H). apply res_bind_Ok in H as (i3 & I3 & H). apply res_bind_Ok in H as (? & _ & H).
  apply res_bind_Ok in H as (i4 & I4 & H). apply res_bind_Ok in H as (? & _ & [= <-]). bool_inv.
  split; [|assumption]. constructor; cbn -[sorted_by]; [exact Hb|by split|exact Hc|exact Hcid|assumption| |].
  2:{ repeat (split; [assumption|]). assumption. }
  intros g Hin. split; [apply (proj1 (existsb_elem_false _ _) Hsat) in Hin; by apply negb_false_iff|].
  pose proof (po_gates _ Hp) as Hg. unfold gate_evidence.
  assert (Hkey : gt_gate_key g ∈ SUPPORTED_REQUIRED_GATE_KEYS).
  { rewrite <- (sorted_perm SUPPORTED_REQUIRED_GATE_KEYS), <- Hg. match goal with E : _ = gp_required_gate_keys _ |- _ => rewrite <- E end.
    by apply list_elem_of_fmap_2. }
  unfold SUPPORTED_REQUIRED_GATE_KEYS in Hkey. rewrite !elem_of_cons in Hkey.
  destruct Hkey as [Ek|[Ek|[Ek|[]%elem_of_nil]]]; rewrite Ek.
  - rewrite bool_decide_true by reflexivity. exact (require_gate_Ok _ _ _ _ G1 Hnd Hin Ek).
  - rewrite bool_decide_false by (vm_compute; discriminate). rewrite bool_decide_true by reflexivity.
    exact (require_gate_Ok _ _ _ _ G2 Hnd Hin Ek).
  - rewrite !bool_decide_false by (vm_compute; discriminate). exact (require_gate_Ok _ _ _ _ G3 Hnd Hin Ek).
Qed.

Lemma final_exact policy task governance orchestration execution c gates requester f :
  policy_ok policy →
  GovernanceWrapper.finalize policy task governance orchestration execution c gates requester = Granted (inl f) →
  requester = OPENAI_SUPERVISOR ∧ ∃ o x e, orchestration = Some o ∧ execution = Some x ∧ c = Some e ∧
    finally_accepted policy task governance o x e f.
Proof.
  intros Hp. unfold GovernanceWrapper.finalize. intros H. do 4 granted_step H.
  assert (Hno : ∀ reason o x, GovernanceWrapper.partial_receipt policy task governance
    (missing_gates (gp_required_gate_keys policy) a0) a0 reason o x ≠ Granted (inl f)).
  { intros reason o x Hx. unfold GovernanceWrapper.partial_receipt in Hx. by apply outcome_bind_granted in Hx as (? & _ & ?). }
  destruct orchestration as [o|]; [|granted_step H; apply Hno in H; contradiction]. granted_step H.
  destruct execution as [x|]; [|granted_step H; apply Hno in H; contradiction]. granted_step H.
  destruct (nonempty (missing_gates _ _)); [granted_step H; by apply Hno in H|].
  destruct c as [e|]; [|apply reject_not_granted in H; contradiction]. granted_step H. injection H as <-.
  apply final_make_Ok in G5 as [Hf Hr]; [|exact Hp]. split; [exact Hr|]. exists o, x, e. auto.
Qed.

(** The first part of the evidence that is missing. *)
Definition missing_part (orchestration : option OrchestrationReceipt) (execution : option ExecutionReceipt) : PartialReason :=
  match orchestration, execution with
  | None, _ => MISSING_ORCHESTRATION_RECEIPT
  | Some _, None => MISSING_EXECUTION_RECEIPT
  | Some _, Some _ => UNSATISFIED_ACCEPTANCE_GATES
  end.

(** What a partial receipt reports, against the receipts that were presented. *)
Record partially_accepted (policy : GovernancePolicy) (task : TaskReceipt) (governance : GovernanceReceipt)
    (orchestration : option OrchestrationReceipt) (execution : option ExecutionReceipt)
    (gates : list AcceptanceGateResult) (p : PartialReceipt) : Prop := {
  px_results : pa_bound_gate_results p = sorted_by gt_gate_key gates ∧ NoDup (map gt_gate_key (pa_bound_gate_results p));
  px_missing : ∀ k, k ∈ pa_missing_gate_keys p ↔ k ∈ gp_required_gate_keys policy ∧
    ∀ g, g ∈ gates → gt_gate_key g = k → gt_satisfied g = false;
  px_compact : COMPACT_EVIDENCE_GATE_KEY ∈ gp_required_gate_keys policy →
    COMPACT_EVIDENCE_GATE_KEY ∈ pa_missing_gate_keys p;
  px_reason : pa_reason p = missing_part orchestration execution;
  px_orchestration : opt_map OrchestrationReceipt.orchestration_id orchestration = Ok (pa_orchestration_id p) ∧
    ∀ o, orchestration = Some o → require_orchestration_binding policy task governance o = Ok tt;
  px_execution : opt_map ExecutionReceipt.execution_id execution = Ok (pa_execution_id p) ∧
    ∀ x, execution = Some x → ∃ o, orchestration = Some o ∧ require_execution_binding policy task governance o x = Ok tt
}.

Lemma gates_normal_idem gates results :
  normalize_gate_results gates = Ok results → ∀ again, normalize_gate_results results = Ok again → again = results.
Proof.
  intros [-> _]%gates_normal again [-> _]%gates_normal. apply sorted_by_idem.
Qed.

Lemma partial_exact policy task governance reason orchestration execution gates results p :
  normalize_gate_results gates = Ok results →
  PartialReceipt.make policy task governance reason orchestration execution
    (missing_gates (gp_required_gate_keys policy) results) results = Ok p →
  reason = missing_part orchestration execution →
  partially_accepted policy task governance orchestration execution gates p.
Proof.
  intros Hn H Hreason. pose proof (gates_normal _ _ Hn) as [Hres Hnd]. unfold PartialReceipt.make in H.
  apply res_bind_Ok in H as (? & _ & H). apply res_bind_Ok in H as ([] & Ho & H). apply res_bind_Ok in H as ([] & Hx & H).
  apply res_bind_Ok in H as (missing & _ & H).
  apply res_bind_Ok in H as (? & _ & H). apply res_bind_Ok in H as (again & Hagain & H).
  apply (gates_normal_idem _ _ Hn) in Hagain as ->.
  apply res_bind_Ok in H as (? & _ & H). apply res_bind_Ok in H as ([] & Hcompact%raise_if_Ok & H).
  apply res_bind_Ok in H as (? & _ & H). apply res_bind_Ok in H as (? & _ & H).
  apply res_bind_Ok in H as ([] & Hm%raise_if_Ok%negb_false_iff%bool_decide_eq_true & H).
  apply res_bind_Ok in H as (? & _ & H). do 4 (apply res_bind_Ok in H as (? & _ & H)).
  apply res_bind_Ok in H as (oid & Hoid & H). apply res_bind_Ok in H as (? & _ & H).
  apply res_bind_Ok in H as (xid & Hxid & H). apply res_bind_Ok in H as (? & _ & [= <-]).
  assert (Hmissing : ∀ k, k ∈ missing ↔ k ∈ gp_required_gate_keys policy ∧
    ∀ g, g ∈ gates → gt_gate_key g = k → gt_satisfied g = false).
  { intros k. rewrite Hm, missing_gates_elem by exact Hnd. rewrite Hres. by setoid_rewrite elem_of_sorted_by. }
  constructor; cbn [pa_bound_gate_results pa_missing_gate_keys pa_reason pa_orchestration_id pa_execution_id].
  - by rewrite <- Hres.
  - exact Hmissing.
  - intros Hreq. rewrite Hm, missing_gates_elem by exact Hnd. split; [exact Hreq|]. intros g Hg Hk.
    rewrite <- Hk, (result_for_unique _ _ Hnd Hg) in Hcompact. exact Hcompact.
  - exact Hreason.
  - split; [exact Hoid|]. intros o ->. exact Ho.
  - split; [exact Hxid|]. intros exec ->. destruct orchestration as [o|]; [|discriminate]. exists o. split; [reflexivity|exact Hx].
Qed.

(** C8.  A task is finally accepted only for the supervisor, with an orchestration and an execution that
    bind it, source-bound runtime endpoints, a live failure-free compact evidence receipt of exactly
    that execution, and every required gate satisfied on the evidence of its kind. *)
Theorem final_acceptance_sound policy task governance orchestration execution c gates requester f :
  policy_ok policy →
  GovernanceWrapper.finalize policy task governance orchestration execution c gates requester = Granted (inl f) →
  requester = OPENAI_SUPERVISOR ∧ ∃ o x e, orchestration = Some o ∧ execution = Some x ∧ c = Some e ∧
    finally_accepted policy task governance o x e f.
Proof. exact (final_exact policy task governance orchestration execution c gates requester f). Qed.

(** C28.  A partial receipt is issued only without compact evidence.  Its reason says what is missing -
    the orchestration, the execution, or gates - and its missing gates are exactly the required ones
    without a satisfied result; the compact evidence gate is always among them. *)
Theorem partial_acceptance_exact policy task governance orchestration execution c gates requester p :
  GovernanceWrapper.finalize policy task governance orchestration execution c gates requester = Granted (inr p) →
  requester = OPENAI_SUPERVISOR ∧ c = None ∧ (orchestration = None → execution = None) ∧
  partially_accepted policy task governance orchestration execution gates p.
Proof.
  unfold GovernanceWrapper.finalize. intros H. do 4 granted_step H.
  apply negb_false_iff, bool_decide_eq_true in G0.
  assert (Hyes : ∀ reason o x, GovernanceWrapper.partial_receipt policy task governance
    (missing_gates (gp_required_gate_keys policy) a0) a0 reason o x = Granted (inr p) →
    PartialReceipt.make policy task governance reason o x (missing_gates (gp_required_gate_keys policy) a0) a0 = Ok p).
  { intros reason o x Hx. unfold GovernanceWrapper.partial_receipt in Hx. granted_step Hx. by injection Hx as <-. }
  destruct orchestration as [o|].
  - granted_step H. destruct execution as [x|].
    + granted_step H. destruct (nonempty (missing_gates _ _)).
      * granted_step H. destruct c as [e|]; [discriminate G5|]. split; [exact G0|]. split; [reflexivity|]. split; [discriminate|].
        exact (partial_exact _ _ _ _ _ _ _ _ _ G1 (Hyes _ _ _ H) eq_refl).
      * destruct c as [e|]; [|apply reject_not_granted in H; contradiction]. granted_step H. discriminate H.
    + granted_step H. destruct c as [e|]; [discriminate G4|]. split; [exact G0|]. split; [reflexivity|]. split; [discriminate|].
      exact (partial_exact _ _ _ _ _ _ _ _ _ G1 (Hyes _ _ _ H) eq_refl).
  - granted_step H. destruct execution as [x|]; [discriminate G3|]. destruct c as [e|]; [discriminate G3|].
    split; [exact G0|]. split; [reflexivity|]. split; [reflexivity|]. exact (partial_exact _ _ _ _ _ _ _ _ _ G1 (Hyes _ _ _ H) eq_refl).
Qed.
End finalization.
