(* ===== verification/GovernanceExamples.v ===== *)
(** * A governed run

    One task under a policy with one pure read: the admission of the tool for a decision of the
    orchestrator, the orchestration, an execution of one transition, its compact evidence and the final
    acceptance; and a run of the evidence accumulator. *)

From Stdlib Require Import Ascii String.
From stdpp Require Import base list.
From S2P Require Import Prelude PyStr PyNumber Sha256 Canonical Fingerprints Records RecordsFacts Kahn Obligations Epistemic Orchestration Admission AdmissionFacts AdmissionSpec Budget Progress Snapshot Receipts ReceiptsFacts LeaseExamples Governance CompactEvidence CompactEvidenceFacts GovernanceReceipts Wrapper GovernanceFacts GovernanceSpec.

(** Seals that are the texts they were issued for, by a live reducer. *)
#[export] Instance text_evidence_seals : EvidenceSeals := {|
  summary_seal := pystr; summary_seal_validates := λ s t, bool_decide (s = t); summary_seal_source_bound := λ _, true;
  evidence_seal := pystr; evidence_seal_validates := λ s t, bool_decide (s = t); evidence_seal_source_bound := λ _, true
|}.

(** ** The task and its tool *)

Definition gx_read_result : res ToolPermission := Eval vm_compute in ToolPermission.make (u "read") PURE_READ false true.
Definition gx_read : ToolPermission := Eval cbv in value_of gx_read_result.

Definition gx_policy_result : res GovernancePolicy := Eval vm_compute in
  GovernancePolicy.make {| gp_policy_key := u "policy"; gp_policy_version := 1; gp_task_profile := u "profile";
     gp_task_profile_version := 1; gp_provider_authority := OPENAI; gp_tool_permissions := [gx_read];
     gp_required_gate_keys := SUPPORTED_REQUIRED_GATE_KEYS; gp_supervisor_authority := OPENAI_SUPERVISOR;
     gp_worker_authority := LOCAL_CANDIDATE_WORKER; gp_orchestration_authority := DETERMINISTIC_ORCHESTRATOR;
     gp_runtime_authority := RUST_EXECUTION_RUNTIME |}.
Definition gx_policy : GovernancePolicy := Eval cbv in value_of gx_policy_result.

Definition granted {A : Type} (o : outcome A) : match o return Type with Granted _ => A | _ => unit end :=
  match o with Granted a => a | _ => tt end.

Definition gx_task_result : outcome (TaskReceipt * GovernanceReceipt) := Eval vm_compute in
  GovernanceWrapper.admit_task gx_policy (u "task") (obj []) OPENAI_SUPERVISOR 1.
Definition gx_task : TaskReceipt := Eval cbv in fst (granted gx_task_result).
Definition gx_governance : GovernanceReceipt := Eval cbv in snd (granted gx_task_result).

Definition gx_decision_result : option AdmissionDecision := Eval vm_compute in
  head (rc_decisions (tr_receipt ex_read_transition)).
Definition gx_decision : AdmissionDecision := Eval cbv in
  match gx_decision_result as o return match o with Some _ => AdmissionDecision | None => unit end with Some d => d | None => tt end.

Definition gx_digest_result : res pystr := Eval vm_compute in
  EpistemicState.dependency_digest (os_epistemic_state ex_state) [].
Definition gx_digest : pystr := Eval cbv in value_of gx_digest_result.

Notation gx_admit :=
  (GovernanceWrapper.admit_tool gx_policy gx_task gx_governance gx_decision ex_p2 (ex_capability (u "read") CACHEABLE_READ)
    (Some PURE_READ) (Some gx_digest) DETERMINISTIC_ORCHESTRATOR).
Definition gx_tool_result : outcome ToolAdmissionReceipt := Eval vm_compute in gx_admit.
Definition gx_tool : ToolAdmissionReceipt := Eval cbv in granted gx_tool_result.

Notation gx_bind :=
  (GovernanceWrapper.bind_orchestration gx_policy gx_task gx_governance (tr_receipt ex_read_transition) [gx_tool]).
Definition gx_orchestration_result : outcome OrchestrationReceipt := Eval vm_compute in gx_bind.
Definition gx_orchestration : OrchestrationReceipt := Eval cbv in granted gx_orchestration_result.

(** ** Its execution *)

Definition gx_record_result : res pyval := Eval vm_compute in with_receipt_id RUNTIME_RECEIPT_DOMAIN rx_body.
Definition gx_runtime_result : res RuntimeReceipt := Eval vm_compute in
  (let* record := gx_record_result in
   let* cv := CanonicalValue.from_value record in
   make_RuntimeReceipt record (Some (cv_text cv)))%res.
Definition gx_runtime : RuntimeReceipt := Eval cbv in value_of gx_runtime_result.

Definition gx_execution_result : res ExecutionReceipt := Eval vm_compute in
  ExecutionReceipt.make gx_policy gx_task gx_governance gx_orchestration gx_runtime gx_runtime
    {| ag_admission := rx_id; ag_input := rx_id; ag_result := rx_id; ag_receipt := rx_id |} 1.
Definition gx_execution : ExecutionReceipt := Eval cbv in value_of gx_execution_result.

(** The text of a record with its identity under [domain]. *)
Definition identified (name : string) (domain : pystr) (body : list (string * pyval)) : res pystr :=
  let* i := domain_fingerprint domain (obj body) in
  canonical_json (obj (body ++ [(name, VStr i)])).

Definition gx_compact_body (x : ExecutionReceipt) : res (list (string * pyval)) :=
  let* i := ExecutionReceipt.execution_id x in
  Ok [("aggregate_identities", obj [("admissions", VStr rx_id); ("inputs", VStr rx_id); ("receipts", VStr rx_id);
         ("results", VStr rx_id)]);
      ("authorization_manifest", obj [("count", VInt (xr_authorization_manifest_count x));
         ("manifest_id", VStr (xr_authorization_manifest_id x))]);
      ("bound_identities", obj [("execution", VStr i); ("governance", VStr (xr_governance_id x));
         ("orchestration", VStr (xr_orchestration_id x)); ("task", VStr (xr_task_id x))]);
      ("case_counts", EvidenceCaseCounts.canonical_record {| vc_failed := 0; vc_passed := 1; vc_rejected := 0; vc_total := 1 |});
      ("counter_totals", EvidenceCounters.canonical_record EvidenceCounters.zero);
      ("evidence_profile", VStr EVIDENCE_PROFILE);
      ("failure_summary", obj [("count", VInt 0); ("details_available", VInt 0); ("details_truncated", VBool false);
         ("first_index", VNone)]);
      ("item_counts", obj [("case_records", VInt 1); ("child_receipts", VInt 0)]);
      ("limits", EvidenceLimits.canonical_record EvidenceLimits.default);
      ("protocol_version", VStr EVIDENCE_PROTOCOL_VERSION);
      ("runtime_boundary", obj [("final_state_id", VStr rx_next_id);
         ("first_runtime_receipt_id", match receipt_item gx_runtime "receipt_id" with Ok v => v | Raise _ => VNone end);
         ("initial_state_id", VStr rx_id);
         ("last_runtime_receipt_id", match receipt_item gx_runtime "receipt_id" with Ok v => v | Raise _ => VNone end);
         ("session_id", VStr rx_id)]);
      ("status", VStr (u "complete_no_failures"))]%string.

Definition gx_text_result : res pystr := Eval vm_compute in
  (let* body := gx_compact_body gx_execution in identified "receipt_id" EVIDENCE_RECEIPT_DOMAIN body)%res.
Definition gx_text : pystr := Eval cbv in value_of gx_text_result.
Definition gx_compact_result : res CompactEvidenceReceipt := Eval vm_compute in
  make_compact gx_text EVIDENCE_PROFILE (Some gx_text).
Definition gx_compact : CompactEvidenceReceipt := Eval cbv in value_of gx_compact_result.

Definition gx_gates_result : res (list AcceptanceGateResult) := Eval vm_compute in
  (let* v := compact_item gx_compact ["receipt_id"%string] in
   let* c := fingerprint_value v in
   let* o := OrchestrationReceipt.receipt_id gx_orchestration in
   let* x := ExecutionReceipt.receipt_id gx_execution in
   Ok [{| gt_gate_key := COMPACT_EVIDENCE_GATE_KEY; gt_satisfied := true; gt_evidence_receipt_id := Some c |};
       {| gt_gate_key := ORCHESTRATION_RECEIPT_GATE_KEY; gt_satisfied := true; gt_evidence_receipt_id := Some o |};
       {| gt_gate_key := EXECUTION_RECEIPT_GATE_KEY; gt_satisfied := true; gt_evidence_receipt_id := Some x |}])%res.
Definition gx_gates : list AcceptanceGateResult := Eval cbv in value_of gx_gates_result.

Notation gx_finalize :=
  (GovernanceWrapper.finalize gx_policy gx_task gx_governance (Some gx_orchestration) (Some gx_execution) (Some gx_compact)
    gx_gates OPENAI_SUPERVISOR).
Notation gx_partial := (GovernanceWrapper.finalize gx_policy gx_task gx_governance None None None [] OPENAI_SUPERVISOR).

(** ** Every step is granted

    The identities, records and bindings that the steps repeat are computed once and rewritten with. *)

Definition text_of (r : res pystr) : pystr := match r with Ok s => s | Raise _ => [] end.
Definition record_of (r : res pyval) : pyval := match r with Ok v => v | Raise _ => VNone end.

Definition gx_task_id : pystr := Eval vm_compute in text_of (TaskReceipt.task_id gx_task).
Definition gx_task_receipt_id : pystr := Eval vm_compute in text_of (TaskReceipt.receipt_id gx_task).
Definition gx_governance_id : pystr := Eval vm_compute in text_of (GovernancePolicy.governance_id gx_policy).
Definition gx_governance_receipt_id : pystr := Eval vm_compute in text_of (GovernanceReceipt.receipt_id gx_governance).
Definition gx_tool_record : pyval := Eval vm_compute in record_of (ToolAdmissionReceipt.canonical_record gx_tool).
Definition gx_orchestration_id : pystr := Eval vm_compute in text_of (OrchestrationReceipt.orchestration_id gx_orchestration).
Definition gx_orchestration_record : pyval := Eval vm_compute in
  record_of (OrchestrationReceipt.canonical_record gx_orchestration).
Definition gx_execution_id : pystr := Eval vm_compute in text_of (ExecutionReceipt.execution_id gx_execution).
Definition gx_execution_record : pyval := Eval vm_compute in record_of (ExecutionReceipt.canonical_record gx_execution).
Definition gx_compact_record : pyval := Eval vm_compute in record_of (compact_value gx_compact).

Lemma gx_task_id_is : TaskReceipt.task_id gx_task = Ok gx_task_id.
Proof. vm_compute. reflexivity. Qed.
Lemma gx_task_receipt_is : TaskReceipt.receipt_id gx_task = Ok gx_task_receipt_id.
Proof. vm_compute. reflexivity. Qed.
Lemma gx_governance_id_is : GovernancePolicy.governance_id gx_policy = Ok gx_governance_id.
Proof. vm_compute. reflexivity. Qed.
Lemma gx_governance_receipt_is : GovernanceReceipt.receipt_id gx_governance = Ok gx_governance_receipt_id.
Proof. vm_compute. reflexivity. Qed.
Lemma gx_tool_record_is : ToolAdmissionReceipt.canonical_record gx_tool = Ok gx_tool_record.
Proof. vm_compute. reflexivity. Qed.
Lemma gx_orchestration_id_is : OrchestrationReceipt.orchestration_id gx_orchestration = Ok gx_orchestration_id.
Proof. vm_compute. reflexivity. Qed.
Lemma gx_orchestration_record_is : OrchestrationReceipt.canonical_record gx_orchestration = Ok gx_orchestration_record.
Proof. vm_compute. reflexivity. Qed.
Lemma gx_execution_id_is : ExecutionReceipt.execution_id gx_execution = Ok gx_execution_id.
Proof. vm_compute. reflexivity. Qed.
Lemma gx_execution_record_is : ExecutionReceipt.canonical_record gx_execution = Ok gx_execution_record.
Proof. vm_compute. reflexivity. Qed.
Lemma gx_compact_record_is : compact_value gx_compact = Ok gx_compact_record.
Proof. vm_compute. reflexivity. Qed.

Lemma bind_result {A B} (a : A) (k : A → res B) : res_bind (Ok a) k = k a.
Proof. reflexivity. Qed.

(** Uses what is computed above, then evaluates the rest. *)
Ltac computed :=
  unfold OrchestrationReceipt.receipt_id, ExecutionReceipt.receipt_id, ToolAdmissionReceipt.receipt_id;
  rewrite ?gx_task_id_is, ?gx_task_receipt_is, ?gx_governance_id_is, ?gx_governance_receipt_is, ?gx_tool_record_is,
    ?gx_orchestration_id_is, ?gx_orchestration_record_is, ?gx_execution_id_is, ?gx_execution_record_is,
    ?gx_compact_record_is;
  vm_compute; reflexivity.

Lemma gx_policy_ok : policy_ok gx_policy.
Proof. apply (policy_record_inv (GovernancePolicy.canonical_record gx_policy)). vm_compute. reflexivity. Qed.

Lemma gx_governed : require_governance_binding gx_policy gx_task gx_governance = Ok tt.
Proof. vm_compute. reflexivity. Qed.

Lemma gx_decision_copied : validated_admission_decision_copy gx_decision = Ok gx_decision.
Proof. vm_compute. reflexivity. Qed.

Lemma gx_proposal_copied : validated_action_proposal_copy ex_p2 = Ok ex_p2.
Proof. vm_compute. reflexivity. Qed.

Notation gx_capability := (ex_capability (u "read") CACHEABLE_READ).

Lemma gx_capability_copied : validated_capability_copy gx_capability = Ok gx_capability.
Proof. vm_compute. reflexivity. Qed.

Lemma gx_permitted : GovernancePolicy.permission_for gx_policy (cap_name gx_capability) = Ok (Some gx_read).
Proof. vm_compute. reflexivity. Qed.

Lemma gx_tool_made :
  ToolAdmissionReceipt.make gx_policy gx_task gx_governance gx_read DETERMINISTIC_ORCHESTRATOR gx_decision ex_p2
    gx_capability gx_digest = Ok gx_tool.
Proof.
  unfold ToolAdmissionReceipt.make. rewrite gx_governed, gx_decision_copied, gx_proposal_copied, gx_capability_copied.
  computed.
Qed.

Lemma gx_tool_admitted : gx_admit = Granted gx_tool.
Proof.
  unfold GovernanceWrapper.admit_tool. rewrite gx_governed, gx_decision_copied, gx_proposal_copied, gx_capability_copied.
  rewrite !bind_result. unfold catching at 1 2. cbn [outcome_bind]. rewrite gx_permitted.
  unfold catching at 1. cbn [outcome_bind]. rewrite gx_tool_made. reflexivity.
Qed.

Lemma gx_tool_parts :
  ta_tool_name gx_tool = cap_name gx_capability ∧ ta_admission_decision gx_tool = gx_decision ∧ ta_proposal gx_tool = ex_p2 ∧
  ta_capability gx_tool = gx_capability ∧ ta_dependency_fingerprint gx_tool = gx_digest.
Proof. vm_compute. repeat split; reflexivity. Qed.

Lemma gx_tool_bound : require_tool_admission_binding gx_policy gx_task gx_governance gx_tool = Ok gx_tool.
Proof.
  unfold require_tool_admission_binding. destruct gx_tool_parts as (-> & -> & -> & -> & ->).
  rewrite gx_governed, gx_permitted, !bind_result, gx_tool_made, !bind_result. computed.
Qed.

Lemma gx_tools_bound : res_map (require_tool_admission_binding gx_policy gx_task gx_governance) [gx_tool] = Ok [gx_tool].
Proof. cbn [res_map]. rewrite gx_tool_bound. reflexivity. Qed.

Lemma gx_batch_copied :
  validated_admission_receipt_copy (tr_receipt ex_read_transition) = Ok (tr_receipt ex_read_transition).
Proof. vm_compute. reflexivity. Qed.

Lemma gx_orchestration_made :
  OrchestrationReceipt.make gx_policy gx_task gx_governance (tr_receipt ex_read_transition) [gx_tool] = Ok gx_orchestration.
Proof.
  unfold OrchestrationReceipt.make. rewrite gx_governed, gx_batch_copied.
  replace (materialize [gx_tool] MAX_TOOL_ADMISSIONS) with (Ok [gx_tool]) by reflexivity.
  rewrite !bind_result, gx_tools_bound. computed.
Qed.

Lemma gx_bound : gx_bind = Granted gx_orchestration.
Proof. unfold GovernanceWrapper.bind_orchestration. rewrite gx_governed, gx_orchestration_made. reflexivity. Qed.

Lemma gx_orchestration_parts :
  or_admission_receipt gx_orchestration = tr_receipt ex_read_transition ∧ or_tool_admissions gx_orchestration = [gx_tool].
Proof. vm_compute. split; reflexivity. Qed.

Lemma gx_orchestration_bound : require_orchestration_binding gx_policy gx_task gx_governance gx_orchestration = Ok tt.
Proof.
  unfold require_orchestration_binding. destruct gx_orchestration_parts as [-> ->].
  rewrite gx_governed, gx_orchestration_made, !bind_result. computed.
Qed.

Lemma gx_execution_made :
  ExecutionReceipt.make gx_policy gx_task gx_governance gx_orchestration gx_runtime gx_runtime
    {| ag_admission := rx_id; ag_input := rx_id; ag_result := rx_id; ag_receipt := rx_id |} 1 = Ok gx_execution.
Proof. unfold ExecutionReceipt.make. rewrite gx_orchestration_bound. computed. Qed.

Lemma gx_execution_parts :
  (xr_initial_runtime_receipt gx_execution = gx_runtime ∧ xr_final_runtime_receipt gx_execution = gx_runtime) ∧
  (xr_aggregate_admission_id gx_execution = rx_id ∧ xr_aggregate_input_id gx_execution = rx_id ∧
   xr_aggregate_result_id gx_execution = rx_id ∧ xr_aggregate_receipt_id gx_execution = rx_id) ∧
  xr_transition_count gx_execution = 1.
Proof. vm_compute. repeat split; reflexivity. Qed.

Lemma gx_execution_bound :
  require_execution_binding gx_policy gx_task gx_governance gx_orchestration gx_execution = Ok tt.
Proof.
  unfold require_execution_binding. destruct gx_execution_parts as ([-> ->] & (-> & -> & -> & ->) & ->).
  rewrite gx_orchestration_bound, gx_execution_made, !bind_result. computed.
Qed.

Definition is_final {A B} (o : outcome (A + B)) : bool := match o with Granted (inl _) => true | _ => false end.
Definition is_partial {A B} (o : outcome (A + B)) : bool := match o with Granted (inr _) => true | _ => false end.

Lemma gx_finalized : is_final gx_finalize = true.
Proof.
  unfold GovernanceWrapper.finalize, FinalAcceptanceReceipt.make, validate_compact_evidence_binding, compact_case_counts,
    compact_boundary_item, compact_item.
  rewrite gx_governed, gx_orchestration_bound, gx_execution_bound. computed.
Qed.

Lemma gx_partially_finalized : is_partial gx_partial = true.
Proof.
  unfold GovernanceWrapper.finalize, GovernanceWrapper.partial_receipt, PartialReceipt.make. rewrite gx_governed. computed.
Qed.

(** ** A reducer that keeps the texts it was given *)

#[export] Instance text_reducer : NativeReducer := {|
  reducer := list pystr;
  reducer_new := λ _ _ _ manifest _ _, Ok [manifest];
  ingest_structural := λ r t, Ok (r ++ [t]);
  ingest_runtime := λ r t _, Ok (r ++ [t]);
  ingest_child_text := λ r t _, Ok (r ++ [t]);
  reducer_summary := λ r, Ok (r, (concat r, concat r));
  reducer_finalize := λ r _, Ok (r, (concat r, concat r));
  reducer_expand := λ _ t, Ok t;
  reducer_observation := λ _, Ok None
|}.

Definition gx_accumulator_result : res EvidenceAccumulator := Eval vm_compute in
  make_accumulator rx_id rx_id rx_id (VList []) EvidenceLimits.default false.
Definition gx_accumulator : EvidenceAccumulator := Eval cbv in value_of gx_accumulator_result.
Definition gx_recorded_result : res EvidenceAccumulator := Eval vm_compute in record_runtime_case gx_accumulator gx_runtime.
Definition gx_recorded : EvidenceAccumulator := Eval cbv in value_of gx_recorded_result.

Lemma gx_accumulator_made : make_accumulator rx_id rx_id rx_id (VList []) EvidenceLimits.default false = Ok gx_accumulator.
Proof. vm_compute. reflexivity. Qed.

Lemma gx_case_recorded : record_runtime_case gx_accumulator gx_runtime = Ok gx_recorded.
Proof. vm_compute. reflexivity. Qed.

Lemma gx_compact_made : make_compact gx_text EVIDENCE_PROFILE (Some gx_text) = Ok gx_compact.
Proof. vm_compute. reflexivity. Qed.

(** ** Witnesses *)

Lemma policy_roundtrip_witness :
  GovernancePolicy.from_record (GovernancePolicy.canonical_record gx_policy) = Ok gx_policy ∧
  GovernanceWrapper.init gx_policy = Ok gx_policy.
Proof.
  apply (proj2 policy_roundtrip gx_policy gx_policy_ok). unfold admissible.
  split; [vm_compute; reflexivity|]. split; vm_compute; discriminate.
Defined.

Lemma tool_grant_sound_witness :
  grant_ok gx_policy gx_task gx_governance gx_tool ∧ ta_cache_reuse_permitted gx_tool = true ∧
  cap_replay_safety (ta_capability gx_tool) = CACHEABLE_READ.
Proof.
  destruct (tool_grant_sound _ _ _ _ _ _ _ _ _ _ gx_policy_ok gx_tool_admitted) as (H & _ & _ & _ & _ & Hr).
  split; [exact H|]. split; [vm_compute; reflexivity|]. apply Hr. vm_compute. reflexivity.
Defined.

Lemma orchestration_authorizes_exactly_witness :
  orchestration_ok gx_policy gx_task gx_governance (tr_receipt ex_read_transition) gx_orchestration.
Proof. exact (orchestration_authorizes_exactly _ _ _ _ _ _ gx_bound). Defined.

Lemma processed_batch_indexed_witness :
  OrchestrationReceipt.index_decisions (rc_decisions (tr_receipt ex_transition)) =
    Ok (index_of (rc_decisions (tr_receipt ex_transition))).
Proof.
  destruct (processed_batch_indexed ex_state ex_writes ex_transition ex_state_made) as [H|H];
    [| |exact ex_transition_ok|reflexivity|exact H|].
  - repeat constructor; apply ex_made; vm_compute; reflexivity.
  - apply (proj1 (bool_decide_eq_true _)). vm_compute. reflexivity.
  - destruct (no_collision_sound (batch_messages ex_state ex_writes)); [vm_compute; reflexivity|exact H].
Defined.

Lemma final_acceptance_sound_witness : ∃ f, gx_finalize = Granted (inl f) ∧
  finally_accepted gx_policy gx_task gx_governance gx_orchestration gx_execution gx_compact f.
Proof.
  pose proof gx_finalized as H. destruct gx_finalize as [[f|p]| |] eqn:E; try discriminate H.
  exists f. split; [reflexivity|].
  destruct (final_acceptance_sound _ _ _ _ _ _ _ _ _ gx_policy_ok E) as (_ & o & x & e & Ho & Hx & He & Hf).
  injection Ho as <-. injection Hx as <-. injection He as <-. exact Hf.
Defined.

Lemma partial_acceptance_exact_witness : ∃ p, gx_partial = Granted (inr p) ∧
  partially_accepted gx_policy gx_task gx_governance None None [] p.
Proof.
  pose proof gx_partially_finalized as H. destruct gx_partial as [[f|p]| |] eqn:E; try discriminate H.
  exists p. split; [reflexivity|]. apply (partial_acceptance_exact _ _ _ _ _ _ _ _ _ E).
Defined.


Lemma compact_receipt_truthful_witness :
  cv_text (ce_record gx_compact) = gx_text ∧ compact_source_bound gx_compact = true.
Proof.
  destruct (compact_receipt_truthful _ _ _ _ gx_compact_made) as (H & _ & _ & Hs). split; [exact H|].
  apply Hs. exists gx_text. split; reflexivity.
Defined.
