(* ===== verification/Supervisor.v ===== *)
(** * Supervisor observations ([supervisor.py])

    The bounded projection of a live task that a model may see: its schema and its validation, the
    handoff to a fresh context, and the classification of a recovery.  Nothing here grants
    authority; a record is checked field by field and compared with what the live task projects. *)

From Stdlib Require Import Ascii String.
From stdpp Require Import base list gmap.
From S2P Require Import Prelude PyStr PyNumber Sha256 Canonical Records Kahn Obligations Epistemic Orchestration Assurance Budget Progress Snapshot Receipts Strategy Lease Evidence Governance InertJson Session.

Definition SUPERVISOR_PROJECTION_VERSION : pystr := u "IBAE-SUPERVISOR-PROJECTION-V1".
Definition FRESH_CONTEXT_VERSION : pystr := u "IBAE-FRESH-CONTEXT-V1".
Definition RECOVERY_VERSION : pystr := u "IBAE-RECOVERY-CLASSIFICATION-V1".
Definition MAX_SUPERVISOR_PROJECTION_BYTES : Z := 1048576.
Definition MAX_FRESH_CONTEXT_BYTES : Z := MAX_SUPERVISOR_PROJECTION_BYTES + 1024.
Definition MAX_DATA_ITEMS : Z := 16.
Definition MAX_DATA_TEXT_BYTES : Z := 4096.
Definition PROJECTION_DOMAIN : pystr := u "ibae.supervisor-projection-id.v1".
Definition HANDOFF_DOMAIN : pystr := u "ibae.fresh-context-id.v1".

(** [_json_copy] *)
Definition supervisor_copy (limit : Z) (value : pyval) : res pyval := inert_copy (supervisor_profile limit) value.

(** ** Closed schemas *)

(** A rule of the transport schema; an array may ask for items in strict order, by themselves or by
    one of their fields. *)
Inductive schema :=
  | SFields (rules : list (string * schema))
  | SOptional (rule : schema)
  | SArray (rule : schema) (bound : Z) (order : option (option string))
  | SEnum (members : list pystr)
  | SFingerprint
  | SSymbol
  | SU64
  | SBool
  | SConst (constant : pyval).

(** [_fields] *)
Definition closed_fields (value : pyval) (names : list string) : res (list (pyval * pyval)) :=
  match value with
  | VDict l => raise_if (negb (has_keys l (map u names))) ValueError ;;* Ok l
  | _ => Raise TypeError
  end.

(** [_exact(label, value, str)] and the like *)
Definition expect_str (v : pyval) : res pystr := match v with VStr s => Ok s | _ => Raise TypeError end.
Definition expect_bool (v : pyval) : res bool := match v with VBool b => Ok b | _ => Raise TypeError end.
Definition expect_int (v : pyval) : res Z := match v with VInt z => Ok z | _ => Raise TypeError end.
Definition expect_list (v : pyval) : res (list pyval) := match v with VList l => Ok l | _ => Raise TypeError end.

(** The texts that [sorted(set(keys))] compares; anything else cannot be compared with text. *)
Definition order_key (order : option string) (item : pyval) : res pystr :=
  let* key := match order with
              | None => Ok item
              | Some name => subscript item name
              end in
  expect_str key.

(** [_shape] *)
Fixpoint shape (rule : schema) (value : pyval) {struct rule} : res unit :=
  match rule with
  | SFields rules =>
      let* l := closed_fields value (map fst rules) in
      res_iter (λ '(name, r), let* v := dict_item l (u name) in shape r v) rules
  | SOptional r => match value with VNone => Ok tt | _ => shape r value end
  | SArray r bound order =>
      let* l := expect_list value in
      raise_if (bound <? Z.of_nat (length l)) ValueError ;;*
      res_iter (shape r) l ;;*
      match order with
      | None => Ok tt
      | Some by_field =>
          let* keys := res_map (order_key by_field) l in
          raise_if (negb (bool_decide (keys = sorted_set keys))) ValueError
      end
  | SEnum members =>
      let* s := expect_str value in
      raise_if (negb (str_in s members)) ValueError
  | SFingerprint => let* s := expect_str value in require_fingerprint s
  | SSymbol => let* s := expect_str value in require_symbol s
  | SU64 =>
      let* z := expect_int value in
      raise_if (negb ((0 <=? z) && (z <=? 2 ^ 64 - 1))) ValueError
  | SBool => let* _ := expect_bool value in Ok tt
  | SConst c =>
      raise_if (match value, c with
                | VStr a, VStr b => negb (bool_decide (a = b))
                | VInt a, VInt b => negb (a =? b)
                | VBool a, VBool b => negb (Bool.eqb a b)
                | VNone, VNone => false
                | _, _ => true
                end) ValueError
  end.

(** ** Data of the projection *)

Inductive DataOrigin :=
  | MODEL_OUTPUT | WEB_PAGE | REPOSITORY_CONTENT | DOCUMENT | TOOL_OUTPUT | WORKER_OUTPUT
  | OCR_UI_TEXT | DOWNLOAD | BENCHMARK_REPORT | EXTERNAL_RECEIPT.

#[export] Instance DataOrigin_eq_dec : EqDecision DataOrigin.
Proof. solve_decision. Defined.

Definition data_origins : list DataOrigin :=
  [MODEL_OUTPUT; WEB_PAGE; REPOSITORY_CONTENT; DOCUMENT; TOOL_OUTPUT; WORKER_OUTPUT; OCR_UI_TEXT; DOWNLOAD;
   BENCHMARK_REPORT; EXTERNAL_RECEIPT].

Definition data_origin_value (o : DataOrigin) : pystr :=
  match o with
  | MODEL_OUTPUT => u "model_output" | WEB_PAGE => u "web_page" | REPOSITORY_CONTENT => u "repository_content"
  | DOCUMENT => u "document" | TOOL_OUTPUT => u "tool_output" | WORKER_OUTPUT => u "worker_output"
  | OCR_UI_TEXT => u "ocr_ui_text" | DOWNLOAD => u "download" | BENCHMARK_REPORT => u "benchmark_report"
  | EXTERNAL_RECEIPT => u "external_receipt"
  end.

Record SupervisorData := {
  sd_origin : DataOrigin;
  sd_source_id : pystr;
  sd_text : pystr
}.

Module SupervisorData.

(** [DataOrigin(value)] *)
Definition parse_origin (v : pyval) : res DataOrigin :=
  match v with
  | VStr s => match find (λ o, bool_decide (data_origin_value o = s)) data_origins with
              | Some o => Ok o
              | None => Raise ValueError
              end
  | _ => Raise ValueError
  end.

(** [__post_init__] on the supplied fields. *)
Definition make (origin : DataOrigin) (source_id text : pyval) : res SupervisorData :=
  let* source_id := expect_str source_id in
  require_fingerprint source_id ;;*
  let* text := expect_str text in
  bounded_utf8_length text MAX_DATA_TEXT_BYTES ;;*
  Ok {| sd_origin := origin; sd_source_id := source_id; sd_text := text |}.

Definition canonical_record (d : SupervisorData) : res pyval :=
  let* d := make (sd_origin d) (VStr (sd_source_id d)) (VStr (sd_text d)) in
  Ok (obj [("origin", VStr (data_origin_value (sd_origin d))); ("source_id", VStr (sd_source_id d));
           ("text", VStr (sd_text d)); ("control_authority", VBool false)]%string).

End SupervisorData.

(** ** The schema of a projection *)

Definition PROJECTION_FIELDS : list string :=
  ["protocol_version"; "authoritative"; "trust_scope"; "sources"; "decision_surface"; "data"]%string.

Definition SOURCE_FIELDS : list string :=
  ["task_id"; "task_receipt_id"; "governance_id"; "governance_receipt_id"; "orchestration_state_id";
   "runtime_session_id"; "runtime_state_id"; "continuation_state_id"; "continuation_policy_id";
   "continuation_policy_receipt_id"; "progress_contract_id"; "progress_evidence_id"; "progress_aggregate_id";
   "decision_aggregate_id"; "strategy_material_id"; "calibration_profile_id"]%string.

Definition OPTIONAL_SOURCES : list pystr :=
  [u "progress_evidence_id"; u "strategy_material_id"; u "calibration_profile_id"].

Definition SURFACE_FIELDS : list string :=
  ["authority"; "control_classification"; "legal_next_action_classes"; "ready_obligation_ids";
   "blocked_obligation_ids"; "obligations"; "capabilities"; "budgets"; "completion"; "continuation";
   "epistemic"; "strategy_schema_ids"]%string.

Definition CONTROL_PROVENANCE : pystr := u "exact-live-native-lineage-and-governed-policy".

Definition optional_id : schema := SOptional SFingerprint.
Definition id_set : schema := SArray SFingerprint 256 (Some None).
Definition symbol_set : schema := SArray SSymbol 64 (Some None).

Definition vector_schema : schema :=
  SFields [("execution_delta", SU64); ("history_delta", SU64); ("mutation_delta", SU64); ("request_delta", SU64);
           ("retry_delta", SU64)]%string.

Definition authority_schema : schema :=
  SFields [("protocol_version", SConst (VStr (u "IBAE-AUTHORITY-EPOCH-V1"))); ("task_id", SFingerprint);
           ("governance_id", SFingerprint); ("continuation_policy_id", SFingerprint);
           ("runtime_session_id", SFingerprint); ("authority_epoch", SU64); ("revoked", SBool);
           ("authority_epoch_status_id", SFingerprint); ("supervisor_capability_present", SBool);
           ("control_provenance", SConst (VStr CONTROL_PROVENANCE))]%string.

Definition progress_states : list ProgressState :=
  [PROGRESSING; STALLED; STRATEGY_CHANGED; STRATEGY_CHANGE_REJECTED; CYCLE_BLOCKED; LEASE_EXHAUSTED; COMPLETE].

Definition progress_classifications : list ProgressClassification :=
  [MEASURABLE_PROGRESS; Budget.NO_PROGRESS; REGRESSION; NEW_INFORMATION; INCOMPARABLE].

Definition denial_reasons : list LeaseDenialReason :=
  [UNAUTHORIZED_REQUESTER; STALE_CONTINUATION_STATE; STALE_GOVERNANCE; STALE_ORCHESTRATION_STATE;
   STALE_RUNTIME_STATE; STALE_PROGRESS; LEASE_INDEX_MISMATCH; NO_MEASURABLE_PROGRESS; TERMINAL_CYCLE;
   LEASE_CEILING_REACHED; LEASE_REQUEST_LIMIT; STRATEGY_CHANGE_NOT_MATERIAL; STRATEGY_CHANGE_CYCLE_EQUIVALENT;
   STRATEGY_RECOVERY_EXHAUSTED; TASK_ALREADY_COMPLETE; BLOCKING_GOVERNANCE_VIOLATION; AMOUNT_EXCEEDS_SCHEDULE;
   AMOUNT_EXCEEDS_CEILING; EMPTY_RESOURCE_VECTOR; UNSUPPORTED_RESOURCE; PENDING_LEASE_APPLICATION].

Definition control_schema : schema :=
  SEnum (map progress_state_value progress_states ++
         [u "revoked"; u "authorization_required"; u "governance_blocked"; u "pending_lease"]).

Definition ACTION_CLASSES : list pystr :=
  map u ["inspect_bound_evidence"; "stop"; "ask_human_authorization"; "propose_governed_read";
         "propose_cache_reuse_subject_to_exact_key_match"; "request_progress_lease"; "propose_material_strategy_change";
         "apply_pending_lease"; "propose_completion_for_gate_validation"; "observe_bound_progress";
         "record_terminal_continuation_denial"]%string.

Definition actions_schema : schema := SArray (SEnum ACTION_CLASSES) 16 (Some None).

Definition obligations_schema : schema :=
  SArray (SFields [("obligation_id", SFingerprint); ("key", SSymbol);
                   ("status", SEnum (map status_value [UNSATISFIED; SATISFIED; BLOCKED]));
                   ("readiness", SEnum (map OrchestrationState.readiness_value [READY; DEPENDENCY_BLOCKED; EXPLICITLY_BLOCKED; READINESS_SATISFIED]));
                   ("blocking_dependency_count", SU64); ("blocking_dependency_set_id", SFingerprint);
                   ("block_reason_data_id", optional_id)]%string)
         128 (Some (Some "obligation_id"%string)).

Definition capabilities_schema : schema :=
  SArray (SFields [("capability_id", SFingerprint); ("name", SSymbol); ("available", SBool);
                   ("replay_safety", SEnum (map replay_value [CACHEABLE_READ; PROVEN_REPLAY_SAFE; OCCURRENCE_SENSITIVE]));
                   ("semantic_argument_count", SU64); ("required_state_count", SU64); ("unresolved_state_count", SU64);
                   ("unresolved_state_set_id", SFingerprint); ("permission_id", optional_id);
                   ("granted_authority_class", SOptional (SEnum (map tool_class_value tool_classes)));
                   ("runtime_supported", SBool); ("cache_reuse_granted", SBool); ("read_proposal_eligible", SBool);
                   ("cache_reuse_proposal_eligible", SBool)]%string)
         64 (Some (Some "name"%string)).

Definition budgets_schema : schema :=
  SFields ([("requests_remaining", SU64); ("executions_remaining", SU64); ("retries_remaining", SU64);
            ("history_capacity", SU64); ("history_retained", SU64); ("history_unused_slots", SU64);
            ("lease_requests_remaining", SU64); ("lease_schedule_slots_remaining", SU64); ("leases_remaining", SU64);
            ("progress_observations_remaining", SU64); ("strategy_recoveries_remaining", SU64);
            ("mutations_remaining", SConst (VInt 0)); ("continuation_ceiling_remaining", vector_schema);
            ("orchestration_capacity",
              SFields [("obligations", SU64); ("capabilities", SU64); ("epistemic_records", SU64);
                       ("occurrence_owners", SU64); ("strategy_schemas", SU64); ("max_batch_proposals", SU64)])]%string).

Definition completion_schema : schema :=
  SFields [("eligible_for_gate_validation", SBool); ("final_acceptance", SConst (VBool false));
           ("required_gate_keys", symbol_set)]%string.

Definition RECOVERY_ACTIONS : list pystr :=
  map u ["provide_objective_progress"; "propose_material_strategy_change"; "propose_cycle_breaking_strategy";
         "provide_material_semantic_difference"; "apply_pending_lease"]%string.

Definition continuation_schema : schema :=
  SFields [("continuation_policy_id", SFingerprint); ("progress_contract_id", SFingerprint);
           ("continuation_state_id", SFingerprint);
           ("current_progress_classification", SOptional (SEnum (map classification_value progress_classifications)));
           ("current_progress_evidence_id", optional_id);
           ("last_denial_reason", SOptional (SEnum (map denial_value denial_reasons)));
           ("last_lease_decision", SEnum [u "none"; u "granted"; u "denied"]);
           ("lease_requests_remaining", SU64); ("lease_schedule_slots_remaining", SU64); ("leases_remaining", SU64);
           ("leases_used", SU64); ("progress_observations_remaining", SU64);
           ("legal_recovery_actions", SArray (SEnum RECOVERY_ACTIONS) 8 (Some None));
           ("material_strategy_change_admissible", SBool); ("pending_grant_receipt_id", optional_id);
           ("progress_state", SEnum (map progress_state_value progress_states));
           ("remaining_total_continuation_ceiling", vector_schema); ("terminal_ceiling_receipt_id", optional_id);
           ("request_eligible", SBool); ("progress_lease_eligible", SBool);
           ("terminal_denial_recording_eligible", SBool); ("cycle_evidence_id", optional_id)]%string.

Definition epistemic_schema : schema :=
  SArray (SFields [("key", SSymbol);
                   ("epistemic_class", SEnum [u "observed"; u "derived"; u "model_proposed"; u "unknown"]);
                   ("record_id", optional_id); ("dependency_resolved", SBool)]%string)
         256 (Some (Some "key"%string)).

(** ** Validation of a projection *)

(** [value[name]] equals [other[name']]. *)
Definition same_item (value : pyval) (name : string) (other : pyval) (name' : string) : res bool :=
  let* a := subscript value name in
  let* b := subscript other name' in
  Ok (py_equal a b).

(** [require_fingerprint] on an arbitrary value. *)
Definition fingerprint_value (v : pyval) : res unit :=
  match v with VStr s => require_fingerprint s | _ => Raise ValueError end.

Definition is_false (v : pyval) : bool := match v with VBool false => true | _ => false end.

(** The dictionary without the given keys. *)
Definition without_keys (l : list (pyval * pyval)) (names : list pystr) : pyval :=
  VDict (List.filter (λ kv, negb (is_str_in kv.1 names)) l).

Definition check_sources (sources : pyval) : res unit :=
  let* l := closed_fields sources SOURCE_FIELDS in
  res_iter (λ kv, if is_none kv.2 && is_str_in kv.1 OPTIONAL_SOURCES then Ok tt else fingerprint_value kv.2) l.

Definition check_authority_status (sources authority : pyval) : res unit :=
  shape authority_schema authority ;;*
  let* l := match authority with VDict l => Ok l | _ => Raise TypeError end in
  let* status_id := dict_item l (u "authority_epoch_status_id") in
  let native_status := without_keys l
    [u "authority_epoch_status_id"; u "supervisor_capability_present"; u "control_provenance"] in
  let* expected := domain_fingerprint (u "ibae.authority-epoch-status-id.v1") native_status in
  raise_if (negb (is_text status_id expected)) ValueError ;;*
  require_all (map (λ name, same_item authority name sources name)
                   ["task_id"; "governance_id"; "continuation_policy_id"; "runtime_session_id"]%string) ValueError.

(** Every field of the decision surface but the authority. *)
Definition surface_rules : list (string * schema) :=
  [("control_classification", control_schema); ("legal_next_action_classes", actions_schema);
   ("ready_obligation_ids", id_set); ("blocked_obligation_ids", id_set); ("strategy_schema_ids", id_set);
   ("obligations", obligations_schema); ("capabilities", capabilities_schema); ("budgets", budgets_schema);
   ("completion", completion_schema); ("continuation", continuation_schema); ("epistemic", epistemic_schema)]%string.

Definition check_surface (surface : pyval) : res unit :=
  res_iter (λ '(name, rule), let* v := subscript surface name in shape rule v) surface_rules.

(** The continuation shows the sources it was read from. *)
Definition check_continuation_binding (sources surface : pyval) : res unit :=
  let* continuation := subscript surface "continuation" in
  require_all (map (λ '(key, source_key), same_item continuation key sources source_key)
                   [("continuation_policy_id", "continuation_policy_id"); ("progress_contract_id", "progress_contract_id");
                    ("continuation_state_id", "continuation_state_id");
                    ("current_progress_evidence_id", "progress_evidence_id")]%string) ValueError.

Definition check_data_item (item : pyval) : res unit :=
  let* l := closed_fields item ["origin"; "source_id"; "text"; "control_authority"]%string in
  let* control := dict_item l (u "control_authority") in
  raise_if (negb (is_false control)) ValueError ;;*
  let* raw := dict_item l (u "origin") in
  let* origin := SupervisorData.parse_origin raw in
  let* source_id := dict_item l (u "source_id") in
  let* text := dict_item l (u "text") in
  SupervisorData.make origin source_id text ;;* Ok tt.

Definition check_data (data : pyval) : res unit :=
  let* items := expect_list data in
  raise_if (MAX_DATA_ITEMS <? Z.of_nat (length items)) ValueError ;;*
  res_iter check_data_item items.

(** [_validate_projection]; the exact-type checks that its end repeats were made by the shapes. *)
Definition validate_projection (value : pyval) : res pyval :=
  let* value := supervisor_copy MAX_SUPERVISOR_PROJECTION_BYTES value in
  let* l := closed_fields value PROJECTION_FIELDS in
  let* version := dict_item l (u "protocol_version") in
  let* authoritative := dict_item l (u "authoritative") in
  let* scope := dict_item l (u "trust_scope") in
  raise_if (negb (is_text version SUPERVISOR_PROJECTION_VERSION) || negb (is_false authoritative) ||
            negb (is_text scope (u "structural-in-process-lineage-only"))) ValueError ;;*
  let* sources := dict_item l (u "sources") in
  check_sources sources ;;*
  let* surface := dict_item l (u "decision_surface") in
  closed_fields surface SURFACE_FIELDS ;;*
  let* authority := subscript surface "authority" in
  check_authority_status sources authority ;;*
  check_surface surface ;;*
  check_continuation_binding sources surface ;;*
  let* data := dict_item l (u "data") in
  check_data data ;;*
  Ok value.

(** ** The live context *)

(** The objects that a context refers to.  Python compares the runtime session and the lineage of a
    handoff with those of a context by identity, so both carry one. *)
Class ObjectIdentity {N : NativeSeals} := { lineage_object : state_seal → Z }.

Section supervisor.
Context {N : NativeSeals} {R : NativeRuntime} {I : ObjectIdentity}.

Record RustRuntimeSession := {
  rt_object : Z;
  rt_native : native
}.

Record SupervisorContext := {
  sx_task : TaskReceipt;
  sx_governance : GovernanceReceipt;
  sx_governance_policy : GovernancePolicy;
  sx_continuation_policy : ContinuationPolicy;
  sx_continuation_state : ContinuationState;
  sx_orchestration_state : OrchestrationState;
  sx_runtime_session : RustRuntimeSession;
  sx_supervisor_authority : option supervisor_authority;
  sx_calibration : option CalibrationBinding
}.

(** What [ContinuationPolicyReceipt] reads of the policy and the receipt. *)
Definition governance_binding (policy : GovernancePolicy) (governance : GovernanceReceipt) : res GovernanceBinding :=
  let* policy_id := GovernancePolicy.governance_id policy in
  let* receipt_id := GovernanceReceipt.receipt_id governance in
  Ok {| gb_policy_governance_id := policy_id; gb_task_profile := gp_task_profile policy;
        gb_task_profile_version := gp_task_profile_version policy;
        gb_receipt_governance_id := gr_governance_id governance; gb_receipt_task_id := gr_task_id governance;
        gb_receipt_id := receipt_id |}.

(** [state_id] of the sources that the continuation state must show. *)
Definition check_bound_sources (c : SupervisorContext) : res unit :=
  let state := sx_continuation_state c in
  let* binding := governance_binding (sx_governance_policy c) (sx_governance c) in
  let* expected := ContinuationPolicyReceipt.make (sx_continuation_policy c) binding in
  let* task_id := TaskReceipt.task_id (sx_task c) in
  let* policy_id := GovernancePolicy.governance_id (sx_governance_policy c) in
  let* receipt_id := GovernanceReceipt.receipt_id (sx_governance c) in
  let* expected_id := receipt_id_of (ContinuationPolicyReceipt.canonical_record expected) in
  let* orchestration_id := OrchestrationState.state_id (sx_orchestration_state c) in
  raise_if (negb (bool_decide (cs_task_id state = task_id)) ||
            negb (bool_decide (cs_governance_id state = policy_id)) ||
            negb (bool_decide (cs_governance_receipt_id state = receipt_id)) ||
            negb (bool_decide (cs_continuation_policy_receipt_id state = expected_id)) ||
            negb (bool_decide (cs_orchestration_state_id state = orchestration_id))) ValueError.

(** [_validate]: the runtime snapshot and the status of the authority. *)
Definition validate_context (c : SupervisorContext) : res (RuntimeSnapshot * pyval) :=
  let state := sx_continuation_state c in
  let n := rt_native (sx_runtime_session c) in
  raise_if (MAX_TOOL_PERMISSIONS <? Z.of_nat (length (gp_tool_permissions (sx_governance_policy c)))) ValueError ;;*
  res_iter (λ gates, raise_if (64 <? Z.of_nat (length gates)) ValueError)
    [gp_required_gate_keys (sx_governance_policy c); tr_required_gate_keys (sx_task c);
     gr_required_gate_keys (sx_governance c)] ;;*
  require_governance_binding (sx_governance_policy c) (sx_task c) (sx_governance c) ;;*
  validate_orchestration_authority (sx_orchestration_state c) ;;*
  ContinuationState.require_policy state (sx_continuation_policy c) ;;*
  check_bound_sources c ;;*
  let* snapshot := session_snapshot n in
  let* lineage := ContinuationState.native_lineage_seal state in
  validate_checkpoint_snapshot n lineage state snapshot ;;*
  raise_if (negb (bool_decide (rs_session_id snapshot = cs_runtime_session_id state)) ||
            negb (bool_decide (rs_state_id snapshot = cs_runtime_state_id state))) ValueError ;;*
  let* status := continuation_authority_status n (sx_supervisor_authority c) state in
  match sx_calibration c with
  | None => Ok tt
  | Some b => CalibrationBinding.require_policy_binding b (cs_governance_id state)
                (cs_continuation_policy_id state) (cs_progress_contract_id state)
  end ;;*
  Ok (snapshot, status).

(** ** The projection of a context *)

(** [{**record, ...}]: later items replace earlier ones in place. *)
Definition merged (record : pyval) (extra : list (string * pyval)) : res pyval :=
  match record with
  | VDict l => Ok (VDict (fold_left (λ d kv, dict_set (u kv.1) kv.2 d) extra l))
  | _ => Raise TypeError
  end.

(** [len(values)] *)
Definition len_val {A} (l : list A) : pyval := VInt (Z.of_nat (length l)).

Definition obligation_view (registry : ObligationRegistry) (o : Obligation) : res (list (string * pyval)) :=
  let* i := obligation_id o in
  let* readiness := ObligationRegistry.readiness registry i in
  let* blocking := ObligationRegistry.blocking_dependency_ids registry i in
  let* blocking_id := domain_fingerprint (u "ibae.supervisor-blocking-dependencies.v1") (strs_val blocking) in
  let* reason_id :=
    match ob_block_reason o with
    | None => Ok VNone
    | Some reason =>
        let* h := domain_fingerprint (u "ibae.supervisor-blocker-data.v1") (obj [("text", VStr reason)]%string) in
        Ok (VStr h)
    end in
  Ok [("obligation_id", VStr i); ("key", VStr (ob_key o)); ("status", VStr (status_value (ob_status o)));
      ("readiness", VStr (OrchestrationState.readiness_value readiness)); ("blocking_dependency_count", len_val blocking);
      ("blocking_dependency_set_id", VStr blocking_id); ("block_reason_data_id", reason_id)]%string.

(** What a read may be proposed under: the flags shared by all capabilities. *)
Record read_conditions := {
  rc_can_propose : bool;
  rc_batch_possible : bool;
  rc_ready : list pystr;
  rc_requests_remaining : Z;
  rc_executions_remaining : Z;
  rc_cache_nonempty : bool
}.

(** The class of the permission fits the capability's dependencies. *)
Definition dependency_class_possible (permission : option ToolPermission) (capability : Capability)
    (records : list EpistemicRecord) : bool :=
  match permission with
  | None => false
  | Some p =>
      (bool_decide (tp_authority_class p = PURE_READ) && negb (nonempty (cap_required_state_keys capability))) ||
      (bool_decide (tp_authority_class p = SNAPSHOT_READ) &&
       (nonempty (cap_required_state_keys capability) || existsb EpistemicRecord.is_resolved records))
  end.

Definition read_supported (permission : option ToolPermission) (capability : Capability)
    (records : list EpistemicRecord) : bool :=
  bool_decide (cap_replay_safety capability = CACHEABLE_READ) &&
  dependency_class_possible permission capability records.

Definition read_possible (rc : read_conditions) (permission : option ToolPermission) (capability : Capability)
    (records : list EpistemicRecord) (unresolved : list pystr) : bool :=
  rc_can_propose rc && rc_batch_possible rc && nonempty (rc_ready rc) && cap_available capability &&
  negb (nonempty unresolved) && read_supported permission capability records && (0 <? rc_requests_remaining rc).

Definition cache_granted (permission : option ToolPermission) : bool :=
  match permission with None => false | Some p => tp_allow_cache_reuse p end.

Definition capability_view (policy : GovernancePolicy) (epistemic : EpistemicState) (rc : read_conditions)
    (capability : Capability) : res (list (string * pyval)) :=
  let* permission := GovernancePolicy.permission_for policy (cap_name capability) in
  let* unresolved := EpistemicState.unresolved_keys epistemic (cap_required_state_keys capability) in
  let possible := read_possible rc permission capability (es_records epistemic) unresolved in
  let eligible := possible && (0 <? rc_executions_remaining rc) in
  let reuse := possible && cache_granted permission && rc_cache_nonempty rc in
  let* i := Capability.capability_id capability in
  let* unresolved_id := domain_fingerprint (u "ibae.supervisor-unresolved-state.v1") (strs_val unresolved) in
  let* permission_id :=
    match permission with
    | None => Ok VNone
    | Some p => let* h := ToolPermission.permission_id p in Ok (VStr h)
    end in
  Ok [("capability_id", VStr i); ("name", VStr (cap_name capability)); ("available", VBool (cap_available capability));
      ("replay_safety", VStr (replay_value (cap_replay_safety capability)));
      ("semantic_argument_count", len_val (cap_semantic_argument_keys capability));
      ("required_state_count", len_val (cap_required_state_keys capability));
      ("unresolved_state_count", len_val unresolved); ("unresolved_state_set_id", VStr unresolved_id);
      ("permission_id", permission_id);
      ("granted_authority_class", opt_val (λ p, VStr (tool_class_value (tp_authority_class p))) permission);
      ("cache_reuse_granted", VBool (cache_granted permission));
      ("runtime_supported", VBool (read_supported permission capability (es_records epistemic)));
      ("read_proposal_eligible", VBool eligible);
      ("cache_reuse_proposal_eligible", VBool reuse)]%string.

(** [item[name]] of a view is true. *)
Definition view_flag (name : string) (view : list (string * pyval)) : bool :=
  match find (λ kv, String.eqb kv.1 name) view with Some (_, VBool b) => b | _ => false end.

Definition epistemic_view (r : EpistemicRecord) : res pyval :=
  let* record_id :=
    if EpistemicRecord.is_resolved r then let* i := EpistemicRecord.record_id r in Ok (VStr i) else Ok VNone in
  Ok (obj [("key", VStr (er_key r)); ("epistemic_class", VStr (class_value (er_class r)));
           ("record_id", record_id); ("dependency_resolved", VBool (EpistemicRecord.is_resolved r))]%string).

(** The denials after which governance blocks every proposal. *)
Definition blocked_denials : list LeaseDenialReason :=
  [BLOCKING_GOVERNANCE_VIOLATION; UNAUTHORIZED_REQUESTER; STALE_CONTINUATION_STATE; STALE_GOVERNANCE;
   STALE_ORCHESTRATION_STATE; STALE_RUNTIME_STATE; STALE_PROGRESS; LEASE_INDEX_MISMATCH].

Definition denied_by (state : ContinuationState) (reasons : list LeaseDenialReason) : bool :=
  match cs_last_denial_reason state with None => false | Some r => bool_decide (r ∈ reasons) end.

(** What the eligibility of every action is derived from. *)
Record surface_conditions := {
  sf_revoked : bool;
  sf_active : bool;
  sf_governance_blocked : bool;
  sf_pending : bool;
  sf_complete : bool;
  sf_cycle : bool;
  sf_leases_remaining : Z
}.

Definition can_propose (f : surface_conditions) : bool :=
  sf_active f && negb (sf_governance_blocked f) && negb (sf_pending f) && negb (sf_complete f).

(** [request_eligible], [lease_eligible] and [terminal_denial_eligible] *)
Definition request_eligible (f : surface_conditions) (state : ContinuationState) : bool :=
  sf_active f && negb (sf_governance_blocked f) && negb (sf_pending f) &&
  Epistemic.is_some (cs_last_progress_id state) && negb (sf_complete f) && (0 <? sf_leases_remaining f).

Definition lease_eligible (f : surface_conditions) (state : ContinuationState) : bool :=
  request_eligible f state && negb (sf_cycle f) &&
  bool_decide (cs_last_progress_classification state = Some MEASURABLE_PROGRESS) &&
  negb (bool_decide (cs_last_progress_id state = cs_last_consumed_progress_id state)).

Definition terminal_denial_eligible (f : surface_conditions) (state : ContinuationState) : bool :=
  can_propose f && Epistemic.is_some (cs_last_progress_id state) && (sf_leases_remaining f =? 0) &&
  negb (Epistemic.is_some (cs_terminal_ceiling_receipt_id state)) &&
  negb (denied_by state [LEASE_CEILING_REACHED; LEASE_REQUEST_LIMIT]).

Definition control_classification (f : surface_conditions) (state : ContinuationState) : pystr :=
  if sf_revoked f then u "revoked"
  else if negb (sf_active f) then u "authorization_required"
  else if sf_governance_blocked f then u "governance_blocked"
  else if sf_complete f then u "complete"
  else if sf_cycle f then u "cycle_blocked"
  else if sf_pending f then u "pending_lease"
  else progress_state_value (cs_progress_state state).

(** The classes of proposals that the surface offers, before sorting. *)
Definition action_classes (f : surface_conditions) (state : ContinuationState) (strategy_eligible : bool)
    (observations_remaining : Z) (capabilities : list (list (string * pyval))) : list pystr :=
  [u "inspect_bound_evidence"; u "stop"] ++
  (if negb (sf_active f) || sf_governance_blocked f then [u "ask_human_authorization"] else []) ++
  (if existsb (view_flag "read_proposal_eligible") capabilities then [u "propose_governed_read"] else []) ++
  (if existsb (view_flag "cache_reuse_proposal_eligible") capabilities
   then [u "propose_cache_reuse_subject_to_exact_key_match"] else []) ++
  (if lease_eligible f state then [u "request_progress_lease"] else []) ++
  (if strategy_eligible then [u "propose_material_strategy_change"] else []) ++
  (if sf_active f && negb (sf_governance_blocked f) && sf_pending f then [u "apply_pending_lease"] else []) ++
  (if terminal_denial_eligible f state then [u "record_terminal_continuation_denial"] else []) ++
  (if sf_active f && negb (sf_governance_blocked f) && sf_complete f
   then [u "propose_completion_for_gate_validation"] else []) ++
  (if can_propose f && (0 <? observations_remaining) then [u "observe_bound_progress"] else []).

(** [bool(value)] *)
Definition truthy (v : pyval) : bool :=
  match v with
  | VNone => false
  | VBool b => b
  | VInt z => negb (z =? 0)
  | VFloat f => negb (py_equal v (VInt 0))
  | VStr s => nonempty s
  | VList l | VTuple l => nonempty l
  | VDict l => nonempty l
  | VOther => true
  end.

(** An integer and a flag of the compact projection. *)
Definition int_item (record : pyval) (name : string) : res Z :=
  let* v := subscript record name in expect_int v.
Definition bool_item (record : pyval) (name : string) : res bool :=
  let* v := subscript record name in expect_bool v.

Definition capacity_val (o : OrchestrationState) : pyval :=
  let l := os_limits o in
  obj [("obligations", VInt (ol_max_obligations l - Z.of_nat (length (reg_obligations (os_obligations o)))));
       ("capabilities", VInt (ol_max_capabilities l - Z.of_nat (length (os_capabilities o))));
       ("epistemic_records", VInt (ol_max_epistemic_records l - Z.of_nat (length (es_records (os_epistemic_state o)))));
       ("occurrence_owners", VInt (ol_max_occurrence_owners l - Z.of_nat (length (os_occurrence_owners o))));
       ("strategy_schemas", VInt (ol_max_strategy_schemas l - Z.of_nat (length (os_strategy_schemas o))));
       ("max_batch_proposals", VInt (ol_max_batch_proposals l))]%string.

Definition requests_remaining (snapshot : RuntimeSnapshot) : Z :=
  rl_max_requests (rs_limits snapshot) - rs_requests snapshot.
Definition executions_remaining (snapshot : RuntimeSnapshot) : Z :=
  rl_max_executions (rs_limits snapshot) - rs_executions snapshot.

Definition budgets_val (snapshot : RuntimeSnapshot) (state : ContinuationState) (policy : ContinuationPolicy)
    (orchestration : OrchestrationState) (continuation : pyval) : res pyval :=
  let limits := rs_limits snapshot in
  let retained := Z.of_nat (length (rs_history snapshot)) in
  let* lease_requests := subscript continuation "lease_requests_remaining" in
  let* slots := subscript continuation "lease_schedule_slots_remaining" in
  let* leases := subscript continuation "leases_remaining" in
  let* observations := subscript continuation "progress_observations_remaining" in
  let* ceiling := subscript continuation "remaining_total_continuation_ceiling" in
  Ok (obj [("requests_remaining", VInt (requests_remaining snapshot));
           ("executions_remaining", VInt (executions_remaining snapshot));
           ("retries_remaining", VInt (rl_max_retries limits - rs_retries snapshot));
           ("mutations_remaining", VInt 0);
           ("history_capacity", VInt (rl_max_history limits)); ("history_retained", VInt retained);
           ("history_unused_slots", VInt (rl_max_history limits - retained));
           ("lease_requests_remaining", lease_requests); ("lease_schedule_slots_remaining", slots);
           ("leases_remaining", leases); ("progress_observations_remaining", observations);
           ("strategy_recoveries_remaining", VInt (cp_max_strategy_recoveries policy - cs_strategy_recoveries state));
           ("continuation_ceiling_remaining", ceiling);
           ("orchestration_capacity", capacity_val orchestration)]%string).

Definition sources_val (c : SupervisorContext) (snapshot : RuntimeSnapshot) : res pyval :=
  let state := sx_continuation_state c in
  let* task_id := TaskReceipt.task_id (sx_task c) in
  let* task_receipt_id := TaskReceipt.receipt_id (sx_task c) in
  let* governance_receipt_id := GovernanceReceipt.receipt_id (sx_governance c) in
  let* state_id := ContinuationState.continuation_state_id state in
  let* profile_id :=
    match sx_calibration c with
    | None => Ok VNone
    | Some b => let* h := CalibrationBinding.profile_id b in Ok (VStr h)
    end in
  Ok (obj [("task_id", VStr task_id); ("task_receipt_id", VStr task_receipt_id);
           ("governance_id", VStr (gr_governance_id (sx_governance c)));
           ("governance_receipt_id", VStr governance_receipt_id);
           ("orchestration_state_id", VStr (cs_orchestration_state_id state));
           ("runtime_session_id", VStr (rs_session_id snapshot)); ("runtime_state_id", VStr (rs_state_id snapshot));
           ("continuation_state_id", VStr state_id);
           ("continuation_policy_id", VStr (cs_continuation_policy_id state));
           ("continuation_policy_receipt_id", VStr (cs_continuation_policy_receipt_id state));
           ("progress_contract_id", VStr (cs_progress_contract_id state));
           ("progress_evidence_id", opt_val VStr (cs_last_progress_id state));
           ("progress_aggregate_id", VStr (cs_progress_aggregate_id state));
           ("decision_aggregate_id", VStr (cs_decision_aggregate_id state));
           ("strategy_material_id", opt_val VStr (cs_current_strategy_material_id state));
           ("calibration_profile_id", profile_id)]%string).

(** The recovery actions: while a cycle stands, only a strategy that breaks it. *)
Definition recovery_val (f : surface_conditions) (continuation : pyval) (strategy_eligible : bool) : res (list pystr) :=
  if sf_cycle f && strategy_eligible && negb (sf_pending f) then Ok [u "propose_cycle_breaking_strategy"]
  else if sf_active f && negb (sf_governance_blocked f) then
    let* v := subscript continuation "legal_recovery_actions" in
    let* l := expect_list v in
    res_map expect_str l
  else Ok [].

Definition conditions (c : SupervisorContext) (revoked : bool) (cycle : option CycleEvidence)
    (leases_remaining : Z) : surface_conditions :=
  let state := sx_continuation_state c in
  {| sf_revoked := revoked;
     sf_active := Epistemic.is_some (sx_supervisor_authority c) && negb revoked;
     sf_governance_blocked := denied_by state blocked_denials;
     sf_pending := ContinuationState.has_pending_grant state;
     sf_complete := bool_decide (cs_progress_state state = COMPLETE);
     sf_cycle := Epistemic.is_some cycle;
     sf_leases_remaining := leases_remaining |}.

(** Obligations that wait, by their readiness. *)
Definition is_blocked_view (view : list (string * pyval)) : bool :=
  match find (λ kv, String.eqb kv.1 "readiness") view with
  | Some (_, v) => is_str_in v (map OrchestrationState.readiness_value [EXPLICITLY_BLOCKED; DEPENDENCY_BLOCKED])
  | None => false
  end.

Definition view_item (name : string) (view : list (string * pyval)) : res pyval := subscript (obj view) name.

Definition surface_val (c : SupervisorContext) (snapshot : RuntimeSnapshot) (authority : pyval) : res pyval :=
  let state := sx_continuation_state c in
  let orchestration := sx_orchestration_state c in
  let* continuation := compact_projection state (sx_continuation_policy c) in
  let* status := subscript authority "revoked" in
  let revoked := truthy status in
  let* cycle := CycleEvidence.from_snapshot snapshot in
  let* leases_remaining := int_item continuation "leases_remaining" in
  let f := conditions c revoked cycle leases_remaining in
  let* budgets := budgets_val snapshot state (sx_continuation_policy c) orchestration continuation in
  let* obligations := res_map (obligation_view (os_obligations orchestration)) (reg_obligations (os_obligations orchestration)) in
  let* ready := ObligationRegistry.ready_ids (os_obligations orchestration) in
  let rc := {| rc_can_propose := can_propose f;
               rc_batch_possible := nonempty (os_strategy_schemas orchestration) &&
                                    (os_logical_tick orchestration <? 2 ^ MAX_IDENTITY_INTEGER_BITS - 1);
               rc_ready := ready; rc_requests_remaining := requests_remaining snapshot;
               rc_executions_remaining := executions_remaining snapshot;
               rc_cache_nonempty := nonempty (rs_cache snapshot) |} in
  let* capabilities := res_map (capability_view (sx_governance_policy c) (os_epistemic_state orchestration) rc)
                               (os_capabilities orchestration) in
  let* admissible := bool_item continuation "material_strategy_change_admissible" in
  let strategy_eligible := sf_active f && admissible in
  let* recovery := recovery_val f continuation strategy_eligible in
  let* observations := int_item continuation "progress_observations_remaining" in
  let actions := action_classes f state strategy_eligible observations capabilities in
  let* authority := merged authority
    [("supervisor_capability_present", VBool (Epistemic.is_some (sx_supervisor_authority c)));
     ("control_provenance", VStr CONTROL_PROVENANCE)]%string in
  let* blocked := res_map (view_item "obligation_id") (List.filter is_blocked_view obligations) in
  let* cycle_id :=
    match cycle with
    | None => Ok VNone
    | Some e => let* h := CycleEvidence.cycle_evidence_id e in Ok (VStr h)
    end in
  let* continuation := merged continuation
    [("request_eligible", VBool (request_eligible f state)); ("progress_lease_eligible", VBool (lease_eligible f state));
     ("terminal_denial_recording_eligible", VBool (terminal_denial_eligible f state));
     ("material_strategy_change_admissible", VBool strategy_eligible);
     ("legal_recovery_actions", strs_val (sorted_set recovery)); ("cycle_evidence_id", cycle_id)]%string in
  let* epistemic := res_map epistemic_view (es_records (os_epistemic_state orchestration)) in
  let* schema_ids := res_map StrategySchema.schema_id (os_strategy_schemas orchestration) in
  Ok (obj [("authority", authority);
           ("control_classification", VStr (control_classification f state));
           ("legal_next_action_classes", strs_val (sorted_set actions));
           ("ready_obligation_ids", strs_val ready); ("blocked_obligation_ids", VList blocked);
           ("obligations", VList (map obj obligations)); ("capabilities", VList (map obj capabilities));
           ("budgets", budgets);
           ("completion", obj [("eligible_for_gate_validation", VBool (sf_complete f)); ("final_acceptance", VBool false);
                               ("required_gate_keys", strs_val (tr_required_gate_keys (sx_task c)))]);
           ("continuation", continuation); ("epistemic", VList epistemic);
           ("strategy_schema_ids", strs_val (sorted schema_ids))]%string).

(** [_projection_record] *)
Definition projection_record (c : SupervisorContext) (data : list SupervisorData) : res pyval :=
  raise_if (MAX_DATA_ITEMS <? Z.of_nat (length data)) ValueError ;;*
  let* data_records := res_map SupervisorData.canonical_record data in
  let* live := validate_context c in
  let* surface := surface_val c live.1 live.2 in
  let* sources := sources_val c live.1 in
  Ok (obj [("protocol_version", VStr SUPERVISOR_PROJECTION_VERSION); ("authoritative", VBool false);
           ("trust_scope", VStr (u "structural-in-process-lineage-only")); ("sources", sources);
           ("decision_surface", surface); ("data", VList data_records)]%string).

(** ** Projections *)

Record SupervisorProjection := {
  sp_text : pystr;
  sp_source_runtime : Z;
  sp_source_lineage : option state_seal
}.

(** [SupervisorProjection(context, data=data)] *)
Definition make_projection (c : SupervisorContext) (data : list SupervisorData) : res SupervisorProjection :=
  let* raw := projection_record c data in
  let* record := supervisor_copy MAX_SUPERVISOR_PROJECTION_BYTES raw in
  let* text := canonical_json record in
  let* lineage := ContinuationState.native_lineage_seal (sx_continuation_state c) in
  Ok {| sp_text := text; sp_source_runtime := rt_object (sx_runtime_session c); sp_source_lineage := lineage |}.

(** [canonical_record] of a projection *)
Definition projection_value (p : SupervisorProjection) : res pyval :=
  bounded_utf8_length (sp_text p) MAX_SUPERVISOR_PROJECTION_BYTES ;;*
  let* value := json_loads (sp_text p) in
  validate_projection value.

Definition projection_id (p : SupervisorProjection) : res pystr :=
  let* v := projection_value p in domain_fingerprint PROJECTION_DOMAIN v.

Definition decision_surface (p : SupervisorProjection) : res pyval :=
  let* v := projection_value p in subscript v "decision_surface".

(** ** Handoffs to a fresh context *)

Record FreshContextHandoff := {
  fh_text : pystr;
  fh_source_runtime : option Z;
  fh_source_lineage : option state_seal
}.

Definition HANDOFF_FIELDS : list string :=
  ["protocol_version"; "projection"; "projection_id"; "restores_native_authority"; "handoff_id"]%string.

(** [FreshContextHandoff(projection)] *)
Definition make_handoff (p : SupervisorProjection) : res FreshContextHandoff :=
  let* value := projection_value p in
  let* own_id := projection_id p in
  let body := [("protocol_version", VStr FRESH_CONTEXT_VERSION); ("projection", value);
               ("projection_id", VStr own_id); ("restores_native_authority", VBool false)]%string in
  let* handoff_id := domain_fingerprint HANDOFF_DOMAIN (obj body) in
  let* record := supervisor_copy MAX_FRESH_CONTEXT_BYTES (obj (body ++ [("handoff_id", VStr handoff_id)]%string)) in
  let* text := canonical_json record in
  Ok {| fh_text := text; fh_source_runtime := Some (sp_source_runtime p);
        fh_source_lineage := sp_source_lineage p |}.

(** The checks of [from_record]: the record as copied. *)
Definition check_handoff (record : pyval) : res pyval :=
  let* record := supervisor_copy MAX_FRESH_CONTEXT_BYTES record in
  let* l := closed_fields record HANDOFF_FIELDS in
  let* version := dict_item l (u "protocol_version") in
  let* restores := dict_item l (u "restores_native_authority") in
  raise_if (negb (is_text version FRESH_CONTEXT_VERSION) || negb (is_false restores)) ValueError ;;*
  let* raw := dict_item l (u "projection") in
  let* projection := validate_projection raw in
  let* given := dict_item l (u "projection_id") in
  let* expected := domain_fingerprint PROJECTION_DOMAIN projection in
  raise_if (negb (is_text given expected)) ValueError ;;*
  let* given := dict_item l (u "handoff_id") in
  let* expected := domain_fingerprint HANDOFF_DOMAIN (without_keys l [u "handoff_id"]) in
  raise_if (negb (is_text given expected)) ValueError ;;*
  Ok record.

(** [canonical_record] of a handoff: its text is parsed and checked again. *)
Definition handoff_value (h : FreshContextHandoff) : res pyval :=
  bounded_utf8_length (fh_text h) MAX_FRESH_CONTEXT_BYTES ;;*
  let* value := json_loads (fh_text h) in
  let* record := check_handoff value in
  let* text := canonical_json record in
  json_loads text.

(** [FreshContextHandoff.from_record(record, source_handoff=..)] *)
Definition handoff_from_record (record : pyval) (source_handoff : option FreshContextHandoff)
    : res FreshContextHandoff :=
  let* record := check_handoff record in
  let* text := canonical_json record in
  match source_handoff with
  | None => Ok {| fh_text := text; fh_source_runtime := None; fh_source_lineage := None |}
  | Some source =>
      let* own := handoff_value source in
      raise_if (negb (py_equal own record)) ValueError ;;*
      Ok {| fh_text := text; fh_source_runtime := fh_source_runtime source;
            fh_source_lineage := fh_source_lineage source |}
  end.

Definition handoff_id (h : FreshContextHandoff) : res pyval :=
  let* v := handoff_value h in subscript v "handoff_id".

(** The data items of a validated record. *)
Definition data_of (item : pyval) : res SupervisorData :=
  let* raw := subscript item "origin" in
  let* origin := SupervisorData.parse_origin raw in
  let* source_id := subscript item "source_id" in
  let* text := subscript item "text" in
  SupervisorData.make origin source_id text.

(** [record[name][name']] *)
Definition subscript2 (v : pyval) (name name' : string) : res pyval :=
  let* w := subscript v name in subscript w name'.

(** The handoff was made from this runtime object and this lineage object. *)
Definition source_witnessed (h : FreshContextHandoff) (c : SupervisorContext) : res bool :=
  if negb (bool_decide (fh_source_runtime h = Some (rt_object (sx_runtime_session c)))) then Ok false
  else match fh_source_lineage h with
       | None => Ok false
       | Some seal =>
           let* lineage := ContinuationState.native_lineage_seal (sx_continuation_state c) in
           Ok (bool_decide (Some (lineage_object seal) = option_map lineage_object lineage))
       end.

Definition fresh_session_surface (h : FreshContextHandoff) (c : SupervisorContext) : res pyval :=
  let* witnessed := source_witnessed h c in
  raise_if (negb witnessed) ValueError ;;*
  let* record := handoff_value h in
  let* raw := subscript2 record "projection" "data" in
  let* items := expect_list raw in
  let* data := res_map data_of items in
  let* p := make_projection c data in
  let* current := make_handoff p in
  let* live := handoff_value current in
  raise_if (negb (py_equal live record)) ValueError ;;*
  let* projection := subscript live "projection" in
  subscript projection "decision_surface".

(** ** Recovery *)

Inductive RecoveryClass :=
  | RESUME_VERIFIED_LIVE_TASK | START_FRESH_AUTHORIZED_TASK | ASK_HUMAN_AUTHORIZATION | STOP_UNVERIFIABLE.

Definition recovery_class_value (r : RecoveryClass) : pystr :=
  match r with
  | RESUME_VERIFIED_LIVE_TASK => u "resume_verified_live_task"
  | START_FRESH_AUTHORIZED_TASK => u "start_fresh_authorized_task"
  | ASK_HUMAN_AUTHORIZATION => u "ask_human_authorization"
  | STOP_UNVERIFIABLE => u "stop_unverifiable"
  end.

Definition recovery_reasons (r : RecoveryClass) : list pystr :=
  match r with
  | RESUME_VERIFIED_LIVE_TASK => [u "exact_live_lineage_verified"]
  | START_FRESH_AUTHORIZED_TASK => [u "separate_authority_selects_historical_observation"]
  | ASK_HUMAN_AUTHORIZATION => [u "new_task_authority_unverified"; u "separate_bound_authority_required";
                                u "live_task_authority_unavailable"]
  | STOP_UNVERIFIABLE => [u "live_source_unavailable"; u "source_or_lineage_unverifiable"]
  end.

Definition requires_target (r : RecoveryClass) : bool :=
  match r with RESUME_VERIFIED_LIVE_TASK | START_FRESH_AUTHORIZED_TASK => true | _ => false end.

Record RecoveryDecision := {
  rd_classification : RecoveryClass;
  rd_reason : pystr;
  rd_evidence_handoff_id : pystr;
  rd_target_task_id : option pystr
}.

(** [__post_init__] *)
Definition make_decision (classification : RecoveryClass) (reason : pystr) (evidence : pyval)
    (target_task_id : option pystr) : res RecoveryDecision :=
  require_symbol reason ;;*
  let* evidence := expect_str evidence in
  require_fingerprint evidence ;;*
  match target_task_id with None => Ok tt | Some t => require_fingerprint t end ;;*
  raise_if (negb (str_in reason (recovery_reasons classification))) ValueError ;;*
  raise_if (negb (Bool.eqb (requires_target classification) (Epistemic.is_some target_task_id))) ValueError ;;*
  Ok {| rd_classification := classification; rd_reason := reason; rd_evidence_handoff_id := evidence;
        rd_target_task_id := target_task_id |}.

Definition decision_record (d : RecoveryDecision) : res pyval :=
  make_decision (rd_classification d) (rd_reason d) (VStr (rd_evidence_handoff_id d)) (rd_target_task_id d) ;;*
  Ok (obj [("protocol_version", VStr RECOVERY_VERSION);
           ("classification", VStr (recovery_class_value (rd_classification d)));
           ("reason", VStr (rd_reason d)); ("evidence_handoff_id", VStr (rd_evidence_handoff_id d));
           ("target_task_id", opt_val VStr (rd_target_task_id d)); ("grants_authority", VBool false);
           ("restores_native_authority", VBool false); ("final_acceptance", VBool false)]%string).

(** [except (TypeError, ValueError, RuntimeError)] *)
Definition recovery_caught (e : exn) : bool :=
  match e with
  | TypeError | ValueError | RuntimeError | PolicyViolation | BudgetExceeded | CycleDetected => true
  | KeyError | OverflowError | IndexError | AssertionError | LookupError | OSError => false
  end.

(** [mapping.get(name)] *)
Definition get_item (v : pyval) (name : string) : pyval :=
  match subscript v name with Ok w => w | Raise _ => VNone end.

(** The authority of a projected surface can act. *)
Definition authority_available (authority : pyval) : res bool :=
  let* revoked := subscript authority "revoked" in
  if truthy revoked then Ok false
  else let* present := subscript authority "supervisor_capability_present" in Ok (truthy present).

(** A separate task whose contract names the handoff and its task. *)
Definition selects_handoff (h : FreshContextHandoff) (c : SupervisorContext) (target : pyval) (evidence : pyval)
    : res bool :=
  let* contract := TaskReceipt.acceptance_contract (sx_task c) in
  let* surface := subscript target "decision_surface" in
  let* authority := subscript surface "authority" in
  let* record := handoff_value h in
  let* prior := subscript2 record "projection" "sources" in
  let* available := authority_available authority in
  if negb available then Ok false
  else
    let* task_id := TaskReceipt.task_id (sx_task c) in
    let* prior_task := subscript prior "task_id" in
    let* session := subscript2 target "sources" "runtime_session_id" in
    let* prior_session := subscript prior "runtime_session_id" in
    Ok (negb (py_equal (VStr task_id) prior_task) && negb (py_equal session prior_session) &&
        py_equal (get_item contract "recovery_evidence_id") evidence &&
        py_equal (get_item contract "recovery_source_task_id") prior_task).

Definition classify_new_task (h : FreshContextHandoff) (c : SupervisorContext) (evidence : pyval) : res RecoveryDecision :=
  match (let* p := make_projection c [] in projection_value p) with
  | Raise e =>
      if recovery_caught e then make_decision ASK_HUMAN_AUTHORIZATION (u "new_task_authority_unverified") evidence None
      else Raise e
  | Ok target =>
      let* selected := selects_handoff h c target evidence in
      if selected then
        let* task_id := TaskReceipt.task_id (sx_task c) in
        make_decision START_FRESH_AUTHORIZED_TASK (u "separate_authority_selects_historical_observation")
          evidence (Some task_id)
      else make_decision ASK_HUMAN_AUTHORIZATION (u "separate_bound_authority_required") evidence None
  end.

Definition classify_recovery (h : FreshContextHandoff) (source_context new_task_context : option SupervisorContext)
    : res RecoveryDecision :=
  let* evidence := handoff_id h in
  match new_task_context, source_context with
  | Some c, _ => classify_new_task h c evidence
  | None, None => make_decision STOP_UNVERIFIABLE (u "live_source_unavailable") evidence None
  | None, Some c =>
      match fresh_session_surface h c with
      | Raise e =>
          if recovery_caught e then make_decision STOP_UNVERIFIABLE (u "source_or_lineage_unverifiable") evidence None
          else Raise e
      | Ok surface =>
          let* authority := subscript surface "authority" in
          let* available := authority_available authority in
          if available then
            let* task_id := TaskReceipt.task_id (sx_task c) in
            make_decision RESUME_VERIFIED_LIVE_TASK (u "exact_live_lineage_verified") evidence (Some task_id)
          else make_decision ASK_HUMAN_AUTHORIZATION (u "live_task_authority_unavailable") evidence None
      end
  end.

End supervisor.
