(* ===== verification/Proposals.v ===== *)
(** * Normalized proposals and frozen adapters ([synthetic_protocol.py])

    The closed data contracts of the offline harness: the proposals that a supervisor may send, the
    frozen read fixtures and the universe that answers a read from them, and the fake adapters.
    Each record is stored as canonical text and parsed and checked again at every use. *)

From Stdlib Require Import Ascii String.
From stdpp Require Import base list.
From S2P Require Import Prelude PyStr PyNumber Sha256 Canonical Records Budget Progress Snapshot Receipts InertJson Session Supervisor.

Definition NORMALIZED_PROPOSAL_VERSION : pystr := u "IBAE-NORMALIZED-SUPERVISOR-PROPOSAL-V1".
Definition SYNTHETIC_FIXTURE_VERSION : pystr := u "IBAE-SYNTHETIC-READ-FIXTURE-V1".
Definition SYNTHETIC_UNIVERSE_VERSION : pystr := u "IBAE-SYNTHETIC-READ-UNIVERSE-V1".
Definition SYNTHETIC_RESULT_VERSION : pystr := u "IBAE-SYNTHETIC-ADAPTER-RESULT-V1".
Definition SYNTHETIC_SUPERVISOR_VERSION : pystr := u "IBAE-SYNTHETIC-SUPERVISOR-V1".
Definition MAX_PROPOSAL_BYTES : Z := 65536.
Definition MAX_FIXTURE_BYTES : Z := 65536.
Definition MAX_STREAM_BYTES : Z := 1048576.
Definition MAX_PROPOSALS : Z := 128.
Definition MAX_READ_FIXTURES : Z := 128.
Definition MAX_TEXT_BYTES : Z := 4096.
Definition MAX_BATCH_ACTIONS : Z := 64.
Definition MAX_STRATEGY_PATTERN : Z := 12.
Definition MAX_JSON_NODES : Z := 4096.
Definition STREAM_NODES : Z := 65536.

(** [_copy_json] *)
Definition synthetic_copy (limit node_limit : Z) (value : pyval) : res pyval :=
  inert_copy (synthetic_profile limit node_limit) value.

Definition bounded_synthetic_data (value : pyval) (max_bytes : Z) : res pyval :=
  raise_if (negb ((1 <=? max_bytes) && (max_bytes <=? MAX_STREAM_BYTES))) ValueError ;;*
  synthetic_copy max_bytes STREAM_NODES value.

(** ** Field checks *)

(** [_fields] *)
Definition exact_fields (value : pyval) (names : list string) : res (list (pyval * pyval)) :=
  match value with
  | VDict l =>
      raise_if (negb (length l =? length names)%nat ||
                existsb (λ kv, match kv.1 with VStr _ => false | _ => true end) l ||
                negb (has_keys l (map u names))) ValueError ;;*
      Ok l
  | _ => Raise TypeError
  end.

(** [_symbol], [_fingerprint] and [_text] *)
Definition expect_symbol (v : pyval) : res pystr := let* s := expect_str v in require_symbol s ;;* Ok s.
Definition expect_fingerprint (v : pyval) : res pystr := let* s := expect_str v in require_fingerprint s ;;* Ok s.
Definition expect_text (v : pyval) : res unit :=
  let* s := expect_str v in bounded_utf8_length s MAX_TEXT_BYTES ;;* Ok tt.
Definition expect_dict (v : pyval) : res (list (pyval * pyval)) := match v with VDict l => Ok l | _ => Raise TypeError end.

(** [_ordered_strings] *)
Definition ordered_strings (value : pyval) (fingerprints must_have ordered : bool) : res unit :=
  let* l := expect_list value in
  raise_if ((128 <? Z.of_nat (length l)) || (must_have && negb (nonempty l))) ValueError ;;*
  let* texts := res_map (if fingerprints then expect_fingerprint else expect_symbol) l in
  raise_if (has_duplicates texts || (ordered && negb (bool_decide (texts = sorted texts)))) ValueError.

(** [check(value[name])] *)
Definition at_field {A} (l : list (pyval * pyval)) (name : string) (check : pyval → res A) : res A :=
  let* v := dict_item l (u name) in check v.

(** ** Proposals *)

Inductive ProposalKind :=
  | READ | READ_BATCH | CONTINUE | STRATEGY | STRATEGY_CHANGE | OBSERVE | INSPECT_RECOVERY | COMPLETE_CLAIM
  | PROGRESS_CLAIM | EFFECT_ATTEMPT | STOP.

#[export] Instance ProposalKind_eq_dec : EqDecision ProposalKind.
Proof. solve_decision. Defined.

Definition proposal_kinds : list ProposalKind :=
  [READ; READ_BATCH; CONTINUE; STRATEGY; STRATEGY_CHANGE; OBSERVE; INSPECT_RECOVERY; COMPLETE_CLAIM;
   PROGRESS_CLAIM; EFFECT_ATTEMPT; STOP].

Definition proposal_kind_value (k : ProposalKind) : pystr :=
  match k with
  | READ => u "read" | READ_BATCH => u "read_batch" | CONTINUE => u "continue" | STRATEGY => u "strategy"
  | STRATEGY_CHANGE => u "strategy_change" | OBSERVE => u "observe" | INSPECT_RECOVERY => u "inspect_recovery"
  | COMPLETE_CLAIM => u "complete" | PROGRESS_CLAIM => u "progress_claim" | EFFECT_ATTEMPT => u "effect_attempt"
  | STOP => u "stop"
  end.

(** [Enum(text)] *)
Definition enum_of {A} (members : list A) (value : A → pystr) (s : pystr) : res A :=
  match find (λ a, bool_decide (value a = s)) members with Some a => Ok a | None => Raise ValueError end.

(** A parameter of a strategy descriptor *)
Definition strategy_parameter (v : pyval) : res unit :=
  match v with
  | VList l =>
      raise_if (64 <? Z.of_nat (length l)) ValueError ;;*
      res_iter (λ x, expect_symbol x ;;* Ok tt) l
  | VStr _ => expect_symbol v ;;* Ok tt
  | VBool _ | VInt _ => Ok tt
  | _ => Raise TypeError
  end.

(** [_strategy] *)
Definition strategy_descriptor (value : pyval) : res unit :=
  let* l := exact_fields value ["key"; "schema_id"; "parameters"]%string in
  at_field l "key" expect_symbol ;;*
  at_field l "schema_id" expect_fingerprint ;;*
  let* parameters := at_field l "parameters" expect_dict in
  raise_if (32 <? Z.of_nat (length parameters)) ValueError ;;*
  res_iter (λ kv, expect_symbol kv.1 ;;* strategy_parameter kv.2) parameters.

(** An action of a read batch; its proposal key. *)
Definition batch_action (action : pyval) : res pystr :=
  let* l := exact_fields action ["proposal_key"; "capability"; "arguments"; "target_obligation_ids";
                                 "required_state_keys"]%string in
  let* key := at_field l "proposal_key" expect_symbol in
  at_field l "capability" expect_symbol ;;*
  at_field l "arguments" expect_dict ;;*
  at_field l "target_obligation_ids" (λ v, ordered_strings v true true true) ;;*
  at_field l "required_state_keys" (λ v, ordered_strings v false false true) ;;*
  Ok key.

(** [_validate_payload] *)
Definition validate_payload (kind : ProposalKind) (payload : pyval) : res unit :=
  match kind with
  | CONTINUE | OBSERVE | INSPECT_RECOVERY | STOP => exact_fields payload [] ;;* Ok tt
  | READ =>
      let* l := exact_fields payload ["proposal_key"; "tool_name"; "arguments"; "target_obligation_keys"]%string in
      at_field l "proposal_key" expect_symbol ;;*
      at_field l "tool_name" expect_symbol ;;*
      at_field l "arguments" expect_dict ;;*
      at_field l "target_obligation_keys" (λ v, ordered_strings v false true true)
  | READ_BATCH =>
      let* l := exact_fields payload ["batch_key"; "strategy"; "proposals"]%string in
      at_field l "batch_key" expect_symbol ;;*
      at_field l "strategy" strategy_descriptor ;;*
      let* actions := at_field l "proposals" expect_list in
      raise_if (negb ((1 <=? Z.of_nat (length actions)) && (Z.of_nat (length actions) <=? MAX_BATCH_ACTIONS))) ValueError ;;*
      let* keys := res_map batch_action actions in
      raise_if (has_duplicates keys) ValueError
  | COMPLETE_CLAIM | PROGRESS_CLAIM =>
      let* l := exact_fields payload ["claim"]%string in
      at_field l "claim" expect_text
  | STRATEGY =>
      let* l := exact_fields payload ["mode"; "description"]%string in
      let* mode := at_field l "mode" expect_str in
      raise_if (negb (str_in mode [u "primary"; u "alternate"])) ValueError ;;*
      at_field l "description" expect_text
  | STRATEGY_CHANGE =>
      let* l := exact_fields payload ["strategy"; "capability_names"; "target_obligation_ids"; "dependency_path";
                                      "recovery_mode"; "initial_transition_pattern"]%string in
      at_field l "strategy" strategy_descriptor ;;*
      at_field l "capability_names" (λ v, ordered_strings v false false true) ;;*
      at_field l "target_obligation_ids" (λ v, ordered_strings v true true true) ;;*
      at_field l "dependency_path" (λ v, ordered_strings v true false false) ;;*
      at_field l "recovery_mode" expect_symbol ;;*
      let* pattern := at_field l "initial_transition_pattern" expect_list in
      raise_if (MAX_STRATEGY_PATTERN <? Z.of_nat (length pattern)) ValueError ;;*
      res_iter (λ v, expect_fingerprint v ;;* Ok tt) pattern
  | EFFECT_ATTEMPT =>
      let* l := exact_fields payload ["capability"; "arguments"]%string in
      at_field l "capability" expect_symbol ;;*
      at_field l "arguments" expect_dict ;;*
      Ok tt
  end.

(** [_proposal_record] *)
Definition proposal_record (record : pyval) : res pyval :=
  let* value := synthetic_copy MAX_PROPOSAL_BYTES MAX_JSON_NODES record in
  let* l := exact_fields value ["protocol_version"; "provider"; "kind"; "payload"; "epistemic_class";
                                "control_authority"]%string in
  let* version := dict_item l (u "protocol_version") in
  let* provider := dict_item l (u "provider") in
  let* class := dict_item l (u "epistemic_class") in
  let* control := dict_item l (u "control_authority") in
  raise_if (negb (is_text version NORMALIZED_PROPOSAL_VERSION) || negb (is_text provider (u "openai")) ||
            negb (is_text class (u "model_proposed")) || negb (is_false control)) ValueError ;;*
  let* kind_text := at_field l "kind" expect_str in
  let* kind := enum_of proposal_kinds proposal_kind_value kind_text in
  at_field l "payload" (validate_payload kind) ;;*
  Ok value.

Record NormalizedProposal := { np_text : pystr }.

#[export] Instance NormalizedProposal_eq_dec : EqDecision NormalizedProposal.
Proof. solve_decision. Defined.

Module NormalizedProposal.

(** [NormalizedProposal(kind, payload, provider=..)] *)
Definition make (kind : ProposalKind) (payload : pyval) (provider : pystr) : res NormalizedProposal :=
  let* record := proposal_record
    (obj [("protocol_version", VStr NORMALIZED_PROPOSAL_VERSION); ("provider", VStr provider);
          ("kind", VStr (proposal_kind_value kind)); ("payload", payload);
          ("epistemic_class", VStr (u "model_proposed")); ("control_authority", VBool false)]%string) in
  let* text := canonical_json record in
  Ok {| np_text := text |}.

Definition from_record (record : pyval) : res NormalizedProposal :=
  let* value := proposal_record record in
  let* kind_value := subscript value "kind" in
  let* kind_text := expect_str kind_value in
  let* kind := enum_of proposal_kinds proposal_kind_value kind_text in
  let* payload := subscript value "payload" in
  let* provider_value := subscript value "provider" in
  let* provider := expect_str provider_value in
  make kind payload provider.

Definition canonical_record (p : NormalizedProposal) : res pyval :=
  bounded_utf8_length (np_text p) MAX_PROPOSAL_BYTES ;;*
  let* value := json_loads (np_text p) in
  proposal_record value.

Definition kind (p : NormalizedProposal) : res ProposalKind :=
  let* record := canonical_record p in
  let* v := subscript record "kind" in
  let* s := expect_str v in
  enum_of proposal_kinds proposal_kind_value s.

Definition payload (p : NormalizedProposal) : res pyval :=
  let* record := canonical_record p in subscript record "payload".

Definition proposal_id (p : NormalizedProposal) : res pystr :=
  let* record := canonical_record p in
  domain_fingerprint (u "ibae.normalized-supervisor-proposal-id.v1") record.

End NormalizedProposal.

(** ** Adapters *)

Inductive AdapterInterface := CHATGPT | WORK | CODEX | GITHUB | FILESYSTEM | WEB | READ_INTERFACE | WORKER | EFFECT.

Inductive AdapterStatus := AVAILABLE | UNAVAILABLE | UNSUPPORTED.

#[export] Instance AdapterInterface_eq_dec : EqDecision AdapterInterface.
Proof. solve_decision. Defined.
#[export] Instance AdapterStatus_eq_dec : EqDecision AdapterStatus.
Proof. solve_decision. Defined.

Definition interfaces : list AdapterInterface :=
  [CHATGPT; WORK; CODEX; GITHUB; FILESYSTEM; WEB; READ_INTERFACE; WORKER; EFFECT].

Definition interface_value (i : AdapterInterface) : pystr :=
  match i with
  | CHATGPT => u "chatgpt" | WORK => u "work" | CODEX => u "codex" | GITHUB => u "github"
  | FILESYSTEM => u "filesystem" | WEB => u "web" | READ_INTERFACE => u "read" | WORKER => u "worker"
  | EFFECT => u "effect"
  end.

Definition adapter_statuses : list AdapterStatus := [AVAILABLE; UNAVAILABLE; UNSUPPORTED].

Definition adapter_status_value (s : AdapterStatus) : pystr :=
  match s with AVAILABLE => u "available" | UNAVAILABLE => u "unavailable" | UNSUPPORTED => u "unsupported" end.

(** [_READ_INTERFACES] *)
Definition is_read_interface (i : AdapterInterface) : bool :=
  match i with GITHUB | FILESYSTEM | WEB | READ_INTERFACE | WORKER => true | _ => false end.

Definition synthetic_interface_manifest : pyval :=
  obj [("protocol_version", VStr (u "IBAE-SYNTHETIC-INTERFACES-V1")); ("provider", VStr (u "openai"));
       ("transport", VStr (u "fixture_only")); ("network_enabled", VBool false); ("control_authority", VBool false);
       ("interfaces", VList (map (λ i,
          obj [("interface", VStr (interface_value i));
               ("synthetic_status", VStr (adapter_status_value
                  (if is_read_interface i then AVAILABLE
                   else if bool_decide (i = EFFECT) then UNSUPPORTED else UNAVAILABLE)));
               ("live_status", VStr (adapter_status_value (if bool_decide (i = EFFECT) then UNSUPPORTED else UNAVAILABLE)));
               ("implementation", VStr (if is_read_interface i then u "frozen_data_only" else u "proposed_interface_only"))]%string)
          interfaces))]%string.

(** [_fixture_record] *)
Definition fixture_record (record : pyval) : res pyval :=
  let* value := synthetic_copy MAX_FIXTURE_BYTES MAX_JSON_NODES record in
  let* l := exact_fields value ["protocol_version"; "interface"; "tool_name"; "arguments"; "dependency_fingerprint";
                                "output"; "control_authority"]%string in
  let* version := dict_item l (u "protocol_version") in
  let* control := dict_item l (u "control_authority") in
  raise_if (negb (is_text version SYNTHETIC_FIXTURE_VERSION) || negb (is_false control)) ValueError ;;*
  let* interface_text := at_field l "interface" expect_str in
  let* interface := enum_of interfaces interface_value interface_text in
  raise_if (negb (is_read_interface interface)) ValueError ;;*
  at_field l "tool_name" expect_symbol ;;*
  at_field l "arguments" expect_dict ;;*
  at_field l "dependency_fingerprint" expect_fingerprint ;;*
  Ok value.

Record SyntheticReadFixture := { sf_text : pystr }.

Module SyntheticReadFixture.

Definition make (tool_name arguments dependency_fingerprint output : pyval) (interface : AdapterInterface)
    : res SyntheticReadFixture :=
  let* record := fixture_record
    (obj [("protocol_version", VStr SYNTHETIC_FIXTURE_VERSION); ("interface", VStr (interface_value interface));
          ("tool_name", tool_name); ("arguments", arguments);
          ("dependency_fingerprint", dependency_fingerprint); ("output", output); ("control_authority", VBool false)]%string) in
  let* text := canonical_json record in
  Ok {| sf_text := text |}.

Definition from_record (record : pyval) : res SyntheticReadFixture :=
  let* value := fixture_record record in
  let* tool_name := subscript value "tool_name" in
  let* arguments := subscript value "arguments" in
  let* dependency := subscript value "dependency_fingerprint" in
  let* output := subscript value "output" in
  let* raw := subscript value "interface" in
  let* interface_text := expect_str raw in
  let* interface := enum_of interfaces interface_value interface_text in
  make tool_name arguments dependency output interface.

Definition canonical_record (f : SyntheticReadFixture) : res pyval :=
  bounded_utf8_length (sf_text f) MAX_FIXTURE_BYTES ;;*
  let* value := json_loads (sf_text f) in
  fixture_record value.

(** The properties read one item of the record. *)
Definition item (f : SyntheticReadFixture) (name : string) : res pyval :=
  let* record := canonical_record f in subscript record name.

(** The tool key of a fixture record. *)
Definition record_key (record : pyval) : res pystr :=
  let* raw := subscript record "tool_name" in
  let* tool_name := expect_str raw in
  let* arguments := subscript record "arguments" in
  let* raw := subscript record "dependency_fingerprint" in
  let* dependency := expect_str raw in
  canonical_tool_key tool_name arguments dependency.

Definition tool_key (f : SyntheticReadFixture) : res pystr :=
  let* record := canonical_record f in record_key record.

Definition fixture_id (f : SyntheticReadFixture) : res pystr :=
  let* record := canonical_record f in domain_fingerprint (u "ibae.synthetic-read-fixture-id.v1") record.

End SyntheticReadFixture.

Definition status_reason (s : AdapterStatus) : pystr :=
  match s with
  | AVAILABLE => u "exact_frozen_fixture"
  | UNAVAILABLE => u "no_exact_frozen_fixture"
  | UNSUPPORTED => u "effects_unsupported_pending_v0.6d"
  end.

(** [_result_record] *)
Definition result_record (record : pyval) : res pyval :=
  let* value := synthetic_copy MAX_FIXTURE_BYTES MAX_JSON_NODES record in
  let* l := exact_fields value ["protocol_version"; "interface"; "status"; "tool_key"; "output"; "reason";
                                "control_authority"]%string in
  let* version := dict_item l (u "protocol_version") in
  let* control := dict_item l (u "control_authority") in
  raise_if (negb (is_text version SYNTHETIC_RESULT_VERSION) || negb (is_false control)) ValueError ;;*
  let* interface_text := at_field l "interface" expect_str in
  let* status_text := at_field l "status" expect_str in
  let* interface := enum_of interfaces interface_value interface_text in
  let* status := enum_of adapter_statuses adapter_status_value status_text in
  at_field l "tool_key" expect_fingerprint ;;*
  let* reason := dict_item l (u "reason") in
  raise_if (negb (is_text reason (status_reason status))) ValueError ;;*
  let* output := dict_item l (u "output") in
  raise_if (negb (bool_decide (status = AVAILABLE)) && negb (is_none output)) ValueError ;;*
  raise_if ((bool_decide (status = AVAILABLE) && negb (is_read_interface interface)) ||
            (bool_decide (status = UNSUPPORTED) && negb (bool_decide (interface = EFFECT))) ||
            (bool_decide (interface = EFFECT) && negb (bool_decide (status = UNSUPPORTED)))) ValueError ;;*
  Ok value.

Record AdapterResult := { ar_text : pystr }.

Module AdapterResult.

Definition make (interface : AdapterInterface) (status : AdapterStatus) (tool_key output : pyval) : res AdapterResult :=
  let* record := result_record
    (obj [("protocol_version", VStr SYNTHETIC_RESULT_VERSION); ("interface", VStr (interface_value interface));
          ("status", VStr (adapter_status_value status)); ("tool_key", tool_key); ("output", output);
          ("reason", VStr (status_reason status)); ("control_authority", VBool false)]%string) in
  let* text := canonical_json record in
  Ok {| ar_text := text |}.

Definition from_record (record : pyval) : res AdapterResult :=
  let* value := result_record record in
  let* raw := subscript value "interface" in
  let* interface_text := expect_str raw in
  let* interface := enum_of interfaces interface_value interface_text in
  let* raw := subscript value "status" in
  let* status_text := expect_str raw in
  let* status := enum_of adapter_statuses adapter_status_value status_text in
  let* tool_key := subscript value "tool_key" in
  let* output := subscript value "output" in
  make interface status tool_key output.

Definition canonical_record (r : AdapterResult) : res pyval :=
  bounded_utf8_length (ar_text r) MAX_FIXTURE_BYTES ;;*
  let* value := json_loads (ar_text r) in
  result_record value.

Definition status (r : AdapterResult) : res AdapterStatus :=
  let* record := canonical_record r in
  let* raw := subscript record "status" in
  let* s := expect_str raw in
  enum_of adapter_statuses adapter_status_value s.

Definition output (r : AdapterResult) : res pyval :=
  let* record := canonical_record r in subscript record "output".

Definition result_id (r : AdapterResult) : res pystr :=
  let* record := canonical_record r in domain_fingerprint (u "ibae.synthetic-adapter-result-id.v1") record.

End AdapterResult.

(** ** The frozen universe *)

(** [sorted] on pairs of texts: a stable sort by the second, then by the first component. *)
Definition sorted_pairs {A} (key : A → pystr * pystr) (l : list A) : list A :=
  sorted_by (λ x, (key x).1) (sorted_by (λ x, (key x).2) l).

(** The fixtures with their interface text and tool key. *)
Definition with_key (f : SyntheticReadFixture) : res (SyntheticReadFixture * (pystr * pystr)) :=
  let* raw := SyntheticReadFixture.item f "interface" in
  let* interface_text := expect_str raw in
  let* interface := enum_of interfaces interface_value interface_text in
  let* key := SyntheticReadFixture.tool_key f in
  Ok (f, (interface_value interface, key)).

Record FakeReadUniverse := { ru_fixtures : list SyntheticReadFixture }.

Module FakeReadUniverse.

Definition canonical_record (w : FakeReadUniverse) : res pyval :=
  raise_if (MAX_READ_FIXTURES <? Z.of_nat (length (ru_fixtures w))) ValueError ;;*
  let* entries := res_map (λ f,
      let* record := SyntheticReadFixture.canonical_record f in
      let* keyed := with_key f in
      Ok (record, keyed.2)) (ru_fixtures w) in
  let keys := map snd entries in
  raise_if (negb (bool_decide (keys = sorted_pairs id (remove_dups keys)))) ValueError ;;*
  synthetic_copy MAX_STREAM_BYTES STREAM_NODES
    (obj [("protocol_version", VStr SYNTHETIC_UNIVERSE_VERSION); ("fixtures", VList (map fst entries));
          ("control_authority", VBool false); ("network_enabled", VBool false)]%string).

Definition make (fixtures : list SyntheticReadFixture) : res FakeReadUniverse :=
  raise_if (MAX_READ_FIXTURES <? Z.of_nat (length fixtures)) ValueError ;;*
  let* frozen := res_map (λ f,
      let* record := SyntheticReadFixture.canonical_record f in SyntheticReadFixture.from_record record) fixtures in
  let* keyed := res_map with_key frozen in
  let ordered := sorted_pairs snd keyed in
  raise_if (negb (bool_decide (NoDup (map snd ordered)))) ValueError ;;*
  let w := {| ru_fixtures := map fst ordered |} in
  canonical_record w ;;*
  Ok w.

Definition from_record (record : pyval) : res FakeReadUniverse :=
  let* value := synthetic_copy MAX_STREAM_BYTES STREAM_NODES record in
  let* l := exact_fields value ["protocol_version"; "fixtures"; "control_authority"; "network_enabled"]%string in
  let* version := dict_item l (u "protocol_version") in
  let* control := dict_item l (u "control_authority") in
  let* network := dict_item l (u "network_enabled") in
  raise_if (negb (is_text version SYNTHETIC_UNIVERSE_VERSION) || negb (is_false control) ||
            negb (is_false network)) ValueError ;;*
  let* items := at_field l "fixtures" expect_list in
  let* fixtures := res_map SyntheticReadFixture.from_record items in
  let* result := make fixtures in
  let* own := canonical_record result in
  raise_if (negb (py_equal own value)) ValueError ;;*
  Ok result.

Definition universe_id (w : FakeReadUniverse) : res pystr :=
  let* record := canonical_record w in domain_fingerprint (u "ibae.synthetic-read-universe-id.v1") record.

(** The fixture of the universe that answers a read. *)
Fixpoint find_fixture (interface : AdapterInterface) (tool_name key : pystr) (fixtures : list pyval)
    : res (option pyval) :=
  match fixtures with
  | [] => Ok None
  | f :: rest =>
      let* own_interface := subscript f "interface" in
      let* own_tool := subscript f "tool_name" in
      let* matches :=
        if is_text own_interface (interface_value interface) && is_text own_tool tool_name then
          let* own_key := SyntheticReadFixture.record_key f in Ok (bool_decide (own_key = key))
        else Ok false in
      if matches then Ok (Some f) else find_fixture interface tool_name key rest
  end.

Definition read (w : FakeReadUniverse) (tool_name dependency_fingerprint : pystr) (arguments : pyval)
    (interface : AdapterInterface) : res AdapterResult :=
  require_symbol tool_name ;;*
  require_fingerprint dependency_fingerprint ;;*
  expect_dict arguments ;;*
  let* arguments := synthetic_copy MAX_PROPOSAL_BYTES MAX_JSON_NODES arguments in
  let* key := canonical_tool_key tool_name arguments dependency_fingerprint in
  let* record := canonical_record w in
  if bool_decide (interface = EFFECT) then AdapterResult.make interface UNSUPPORTED (VStr key) VNone
  else
    let* raw := subscript record "fixtures" in
    let* fixtures := expect_list raw in
    let* found := find_fixture interface tool_name key fixtures in
    match found with
    | Some f => let* output := subscript f "output" in AdapterResult.make interface AVAILABLE (VStr key) output
    | None => AdapterResult.make interface UNAVAILABLE (VStr key) VNone
    end.

Definition lookup (w : FakeReadUniverse) (tool_name dependency_fingerprint : pystr) (arguments : pyval)
    (interface : AdapterInterface) : res pyval :=
  let* result := read w tool_name dependency_fingerprint arguments interface in
  let* status := AdapterResult.status result in
  raise_if (negb (bool_decide (status = AVAILABLE))) LookupError ;;*
  AdapterResult.output result.

End FakeReadUniverse.

(** ** Fake adapters *)

(** [_FakeAdapter]: a universe whose fixtures all belong to the adapter's interface.  [FakeGitHub],
    [FakeFilesystem], [FakeWeb], [FakeReadTool] and [FakeWorker] fix the interface. *)
Record FakeAdapter := {
  fa_universe : FakeReadUniverse;
  fa_interface : AdapterInterface
}.

Module FakeAdapter.

Definition make (fixtures : list SyntheticReadFixture) (interface : AdapterInterface) : res FakeAdapter :=
  let* universe := FakeReadUniverse.make fixtures in
  let* record := FakeReadUniverse.canonical_record universe in
  let* raw := subscript record "fixtures" in
  let* items := expect_list raw in
  let* foreign := res_exists (λ item,
      let* own := subscript item "interface" in Ok (negb (is_text own (interface_value interface)))) items in
  raise_if foreign ValueError ;;*
  Ok {| fa_universe := universe; fa_interface := interface |}.

Definition FakeGitHub (fixtures : list SyntheticReadFixture) : res FakeAdapter := make fixtures GITHUB.
Definition FakeFilesystem (fixtures : list SyntheticReadFixture) : res FakeAdapter := make fixtures FILESYSTEM.
Definition FakeWeb (fixtures : list SyntheticReadFixture) : res FakeAdapter := make fixtures WEB.
Definition FakeReadTool (fixtures : list SyntheticReadFixture) : res FakeAdapter := make fixtures READ_INTERFACE.
Definition FakeWorker (fixtures : list SyntheticReadFixture) : res FakeAdapter := make fixtures WORKER.

Definition read (a : FakeAdapter) (tool_name dependency_fingerprint : pystr) (arguments : pyval) : res AdapterResult :=
  FakeReadUniverse.read (fa_universe a) tool_name dependency_fingerprint arguments (fa_interface a).

Definition lookup (a : FakeAdapter) (tool_name dependency_fingerprint : pystr) (arguments : pyval) : res pyval :=
  FakeReadUniverse.lookup (fa_universe a) tool_name dependency_fingerprint arguments (fa_interface a).

End FakeAdapter.

(** [FakeEffectTool.attempt] *)
Definition attempt_effect (proposal : NormalizedProposal) : res AdapterResult :=
  let* kind := NormalizedProposal.kind proposal in
  raise_if (negb (bool_decide (kind = EFFECT_ATTEMPT))) ValueError ;;*
  let* i := NormalizedProposal.proposal_id proposal in
  AdapterResult.make EFFECT UNSUPPORTED (VStr i) VNone.

(** [FakeCredentialBroker.accept] *)
Definition accept_credential (handle provider : pystr) : res pyval :=
  bounded_utf8_length handle 64 ;;*
  raise_if (negb (bool_decide (provider = u "openai")) || negb (bool_decide (handle = u "cred:openai.test"))) ValueError ;;*
  Ok (obj [("protocol_version", VStr (u "IBAE-SYNTHETIC-CREDENTIAL-STATUS-V1")); ("provider", VStr (u "openai"));
           ("status", VStr (u "accepted_test_handle")); ("secret_resolved", VBool false);
           ("control_authority", VBool false)]%string).

(** ** The frozen supervisor *)

Record FakeSupervisor := { fs_proposals : list NormalizedProposal }.

Module FakeSupervisor.

Definition canonical_record (s : FakeSupervisor) : res pyval :=
  raise_if (MAX_PROPOSALS <? Z.of_nat (length (fs_proposals s))) ValueError ;;*
  let* records := res_map NormalizedProposal.canonical_record (fs_proposals s) in
  synthetic_copy MAX_STREAM_BYTES STREAM_NODES
    (obj [("protocol_version", VStr SYNTHETIC_SUPERVISOR_VERSION); ("provider", VStr (u "openai"));
          ("proposals", VList records); ("control_authority", VBool false); ("network_enabled", VBool false)]%string).

Definition make (proposals : list NormalizedProposal) : res FakeSupervisor :=
  raise_if (MAX_PROPOSALS <? Z.of_nat (length proposals)) ValueError ;;*
  let* frozen := res_map (λ p,
      let* record := NormalizedProposal.canonical_record p in NormalizedProposal.from_record record) proposals in
  let s := {| fs_proposals := frozen |} in
  canonical_record s ;;*
  Ok s.

Definition from_record (record : pyval) : res FakeSupervisor :=
  let* value := synthetic_copy MAX_STREAM_BYTES STREAM_NODES record in
  let* l := exact_fields value ["protocol_version"; "provider"; "proposals"; "control_authority"; "network_enabled"]%string in
  let* version := dict_item l (u "protocol_version") in
  let* provider := dict_item l (u "provider") in
  let* control := dict_item l (u "control_authority") in
  let* network := dict_item l (u "network_enabled") in
  raise_if (negb (is_text version SYNTHETIC_SUPERVISOR_VERSION) || negb (is_text provider (u "openai")) ||
            negb (is_false control) || negb (is_false network)) ValueError ;;*
  let* items := at_field l "proposals" expect_list in
  let* proposals := res_map NormalizedProposal.from_record items in
  make proposals.

Definition stream_id (s : FakeSupervisor) : res pystr :=
  let* record := canonical_record s in domain_fingerprint (u "ibae.synthetic-supervisor-stream-id.v1") record.

(** The proposal at an index; [None] after the last one. *)
Definition propose (s : FakeSupervisor) (projection : pyval) (index : Z) : res (option NormalizedProposal) :=
  expect_dict projection ;;*
  validate_projection projection ;;*
  raise_if (negb ((0 <=? index) && (index <=? MAX_PROPOSALS))) ValueError ;;*
  let* record := canonical_record s in
  let* raw := subscript record "proposals" in
  let* items := expect_list raw in
  match items !! Z.to_nat index with
  | None => Ok None
  | Some item => let* p := NormalizedProposal.from_record item in Ok (Some p)
  end.

End FakeSupervisor.
