(* ===== verification/GitHub.v ===== *)
(** * Read-only GitHub observations ([readonly_adapters.py], lines 90-525 and 840-858)

    Selections, request plans and observation receipts: inert records that are parsed and rebuilt at
    every use.  A selection names literal targets, a plan is the one GET that a proposal and a
    selection determine, and a receipt keeps a closed projection of the response.  The parsed
    body of a response is an argument: [_json_body] decodes bytes that come from outside. *)

From Stdlib Require Import Ascii String.
From stdpp Require Import base list.
From S2P Require Import Prelude PyStr PyNumber Sha256 Canonical Records Budget Progress Snapshot Receipts InertJson Session Supervisor Proposals.

Definition GITHUB_SELECTION_VERSION : pystr := u "IBAE-GITHUB-READ-SELECTION-V1".
Definition GITHUB_REQUEST_VERSION : pystr := u "IBAE-GITHUB-READ-REQUEST-V1".
Definition EXTERNAL_OBSERVATION_VERSION : pystr := u "IBAE-EXTERNAL-READ-OBSERVATION-V1".
Definition GITHUB_API_VERSION : pystr := u "2026-03-10".
Definition MAX_GITHUB_RESPONSE_BYTES : Z := 262144.
Definition MAX_GITHUB_PAGE_ITEMS : Z := 100.
Definition GITHUB_TIMEOUT_MS : Z := 10000.
Definition MAX_OBSERVATION_BYTES : Z := 262144.
Definition OBSERVATION_NODES : Z := 16384.

Definition GITHUB_READ_TOOLS : list pystr :=
  map u ["github.repository"; "github.branch"; "github.commit"; "github.pull_request"; "github.check_runs";
         "github.commit_status"]%string.

(** [_source_semantics] *)
Definition source_semantics (tool_name : pystr) : pyval :=
  obj [("resource_mutability", VStr (if bool_decide (tool_name = u "github.commit")
                                     then u "immutable_commit_content" else u "mutable_remote_state"));
       ("selection_is_content_snapshot", VBool false); ("network_operation_cacheable", VBool false);
       ("current_remote_state_verified", VBool false); ("freshness_scope", VStr (u "returned_response_only"));
       ("native_consumption", VStr (u "separately_admitted_content_bound_snapshot_only"))]%string.

(** ** Field profiles *)

(** [_text] *)
Definition bounded_text (v : pyval) (limit : Z) : res pystr :=
  let* s := expect_str v in
  bounded_utf8_length s limit ;;*
  raise_if (negb (nonempty s) || negb (bool_decide (s = strip s)) || existsb (λ c, c <? 32) s) ValueError ;;*
  Ok s.

(** [_integer] *)
Definition bounded_integer (v : pyval) (minimum maximum : Z) : res Z :=
  let* z := expect_int v in
  raise_if (negb ((minimum <=? z) && (z <=? maximum))) ValueError ;;*
  Ok z.

Definition MAX_INTEGER : Z := 2 ^ 63 - 1.
Definition MAX_PULL_NUMBER : Z := 2 ^ 31 - 1.

(** [_sha] *)
Definition commit_sha (v : pyval) : res pystr :=
  let* s := expect_str v in
  raise_if (negb ((Z.of_nat (length s) =? 40) && forallb is_hex s)) ValueError ;;*
  Ok s.

(** [_message] *)
Definition commit_message (v : pyval) : res pystr :=
  let* s := expect_str v in
  bounded_utf8_length s 4096 ;;*
  Ok s.

Definition is_alnum (c : Z) : bool := is_lower c || is_upper c || is_digit c.

(** [s.split("/")] *)
Fixpoint split_slash (s : pystr) : list pystr :=
  match s with
  | [] => [[]]
  | c :: r =>
      if c =? 47 then [] :: split_slash r
      else match split_slash r with
           | [] => [[c]]
           | p :: ps => (c :: p) :: ps
           end
  end.

Definition starts_with (prefix s : pystr) : bool := Epistemic.is_some (strip_prefix prefix s).
Definition ends_with (suffix s : pystr) : bool := starts_with (rev suffix) (rev s).

(** [part in s] *)
Fixpoint contains (part s : pystr) : bool :=
  starts_with part s || match s with [] => false | _ :: r => contains part r end.

(** [_branch] *)
Definition branch_pattern (s : pystr) : bool :=
  match s with
  | [] => false
  | c :: r => (is_alnum c || (c =? 95)) &&
              forallb (λ c, is_alnum c || (c =? 46) || (c =? 95) || (c =? 47) || (c =? 45)) r
  end.

Definition branch_name (v : pyval) : res pystr :=
  let* s := bounded_text v 256 in
  raise_if (negb (branch_pattern s) || contains (u "..") s || contains (u "//") s ||
            ends_with (u "/") s || ends_with (u ".") s ||
            existsb (λ part, starts_with (u ".") part || ends_with (u ".lock") part) (split_slash s)) ValueError ;;*
  Ok s.

Definition owner_pattern (s : pystr) : bool :=
  match s with
  | [] => false
  | c :: r => is_alnum c && forallb (λ c, is_alnum c || (c =? 45)) r && is_alnum (List.last r c)
  end.

Definition repository_pattern (s : pystr) : bool :=
  nonempty s && forallb (λ c, is_alnum c || (c =? 95) || (c =? 46) || (c =? 45)) s.

(** ** Selections *)

(** The check of a field that may be absent. *)
Definition unless_none {A} (check : pyval → res A) (v : pyval) : res unit :=
  match v with VNone => Ok tt | _ => check v ;;* Ok tt end.

(** [_selection] *)
Definition selection_record (record : pyval) : res pyval :=
  let* value := synthetic_copy MAX_PROPOSAL_BYTES MAX_JSON_NODES record in
  let* l := exact_fields value ["protocol_version"; "owner"; "repository"; "branch"; "commit_sha"; "pull_number";
                                "control_authority"]%string in
  let* version := dict_item l (u "protocol_version") in
  let* control := dict_item l (u "control_authority") in
  raise_if (negb (is_text version GITHUB_SELECTION_VERSION) || negb (is_false control)) ValueError ;;*
  let* owner := at_field l "owner" (λ v, bounded_text v 39) in
  let* repository := at_field l "repository" (λ v, bounded_text v 100) in
  raise_if (negb (owner_pattern owner)) ValueError ;;*
  raise_if (negb (repository_pattern repository) || str_in repository [u "."; u ".."] ||
            ends_with (u ".git") repository) ValueError ;;*
  at_field l "branch" (unless_none branch_name) ;;*
  at_field l "commit_sha" (unless_none commit_sha) ;;*
  at_field l "pull_number" (unless_none (λ v, bounded_integer v 1 MAX_PULL_NUMBER)) ;;*
  Ok value.

Record GitHubReadSelection := { gs_text : pystr }.

Module GitHubReadSelection.

Definition make (owner repository branch commit_sha pull_number : pyval) : res GitHubReadSelection :=
  let* value := selection_record
    (obj [("protocol_version", VStr GITHUB_SELECTION_VERSION); ("owner", owner); ("repository", repository);
          ("branch", branch); ("commit_sha", commit_sha); ("pull_number", pull_number);
          ("control_authority", VBool false)]%string) in
  let* text := canonical_json value in
  Ok {| gs_text := text |}.

Definition from_record (record : pyval) : res GitHubReadSelection :=
  let* value := selection_record record in
  let* owner := subscript value "owner" in
  let* repository := subscript value "repository" in
  let* branch := subscript value "branch" in
  let* sha := subscript value "commit_sha" in
  let* number := subscript value "pull_number" in
  make owner repository branch sha number.

Definition canonical_record (s : GitHubReadSelection) : res pyval :=
  bounded_utf8_length (gs_text s) 4096 ;;*
  let* value := json_loads (gs_text s) in
  selection_record value.

Definition selection_id (s : GitHubReadSelection) : res pystr :=
  let* record := canonical_record s in domain_fingerprint (u "ibae.github-read-selection-id.v1") record.

(** The field of the selection that a tool reads besides the repository. *)
Definition target_field (tool_name : pystr) : option string :=
  if bool_decide (tool_name = u "github.branch") then Some "branch"%string
  else if bool_decide (tool_name = u "github.pull_request") then Some "pull_number"%string
  else if str_in tool_name (map u ["github.commit"; "github.check_runs"; "github.commit_status"]%string)
  then Some "commit_sha"%string else None.

Definition arguments_for (s : GitHubReadSelection) (tool_name : pystr) : res pyval :=
  raise_if (negb (str_in tool_name GITHUB_READ_TOOLS)) ValueError ;;*
  let* value := canonical_record s in
  let* owner := subscript value "owner" in
  let* repository := subscript value "repository" in
  let base := [("owner", owner); ("repository", repository)]%string in
  match target_field tool_name with
  | None => Ok (obj base)
  | Some key =>
      let* target := subscript value key in
      raise_if (is_none target) ValueError ;;*
      Ok (obj (base ++ [(key, target)]))
  end.

End GitHubReadSelection.

(** ** Request plans *)

(** [urllib.parse.quote(s, safe="")] *)
Definition quote_url (s : pystr) : res pystr :=
  let* bytes := utf8 s in
  Ok (concat (map (λ b, if is_alnum b || (b =? 95) || (b =? 46) || (b =? 45) || (b =? 126) then [b]
                        else 37 :: map (λ c, if is_lower c then c - 32 else c)
                                       [hex_digit (b / 16); hex_digit (b mod 16)]) bytes)).

Definition str_at (v : pyval) (name : string) : res pystr := let* w := subscript v name in expect_str w.

(** The path of the GET of a tool. *)
Definition request_path (tool : pystr) (arguments : pyval) : res pystr :=
  let* owner := str_at arguments "owner" in
  let* repository := str_at arguments "repository" in
  let* owner := quote_url owner in
  let* repository := quote_url repository in
  let path := u "/repos/" ++ owner ++ u "/" ++ repository in
  if bool_decide (tool = u "github.branch") then
    let* branch := str_at arguments "branch" in
    let* branch := quote_url branch in
    Ok (path ++ u "/branches/" ++ branch)
  else if bool_decide (tool = u "github.pull_request") then
    let* raw := subscript arguments "pull_number" in
    let* number := expect_int raw in
    Ok (path ++ u "/pulls/" ++ int_str number)
  else if str_in tool (map u ["github.commit"; "github.check_runs"; "github.commit_status"]%string) then
    let* sha := str_at arguments "commit_sha" in
    Ok (path ++ u "/commits/" ++ sha ++
        (if bool_decide (tool = u "github.check_runs") then u "/check-runs?filter=latest&per_page=100&page=1"
         else if bool_decide (tool = u "github.commit_status") then u "/status?per_page=100&page=1" else []))
  else Ok path.

(** [canonical_json(a) != canonical_json(b)] *)
Definition same_text (a b : pyval) : res bool :=
  let* s := canonical_json a in
  let* t := canonical_json b in
  Ok (bool_decide (s = t)).

(** [_request] *)
Definition request_value (proposal : NormalizedProposal) (selection : GitHubReadSelection) (dependency : pyval)
    : res pyval :=
  let* dependency := expect_fingerprint dependency in
  let* record := NormalizedProposal.canonical_record proposal in
  let* kind := subscript record "kind" in
  raise_if (negb (is_text kind (proposal_kind_value READ))) ValueError ;;*
  let* payload := subscript record "payload" in
  let* tool := str_at payload "tool_name" in
  let* arguments := GitHubReadSelection.arguments_for selection tool in
  let* proposed := subscript payload "arguments" in
  let* same := same_text proposed arguments in
  raise_if (negb same) ValueError ;;*
  let* path := request_path tool arguments in
  let* selected := GitHubReadSelection.canonical_record selection in
  let* key := canonical_tool_key tool arguments dependency in
  let url := u "https://api.github.com" ++ path in
  Ok (obj [("protocol_version", VStr GITHUB_REQUEST_VERSION); ("selection", selected); ("proposal", record);
           ("dependency_fingerprint", VStr dependency); ("tool_key", VStr key); ("method", VStr (u "GET"));
           ("url", VStr url);
           ("headers", obj [("Accept", VStr (u "application/vnd.github+json"));
                            ("X-GitHub-Api-Version", VStr GITHUB_API_VERSION)]);
           ("max_calls", VInt 1); ("max_response_bytes", VInt MAX_GITHUB_RESPONSE_BYTES);
           ("timeout_ms", VInt GITHUB_TIMEOUT_MS); ("follow_redirects", VBool false);
           ("automatic_retries", VInt 0); ("automatic_pagination", VBool false);
           ("authentication", VStr (u "public_unauthenticated_only"));
           ("source_semantics", source_semantics tool); ("control_authority", VBool false)]%string).

Definition REQUEST_FIELDS : list string :=
  ["protocol_version"; "selection"; "proposal"; "dependency_fingerprint"; "tool_key"; "method"; "url"; "headers";
   "max_calls"; "max_response_bytes"; "timeout_ms"; "follow_redirects"; "automatic_retries"; "automatic_pagination";
   "authentication"; "source_semantics"; "control_authority"]%string.

(** [_request_record]: the plan is rebuilt from its parts and compared as text. *)
Definition request_record (record : pyval) : res pyval :=
  let* value := synthetic_copy MAX_PROPOSAL_BYTES MAX_JSON_NODES record in
  let* l := exact_fields value REQUEST_FIELDS in
  let* raw := dict_item l (u "proposal") in
  let* proposal := NormalizedProposal.from_record raw in
  let* raw := dict_item l (u "selection") in
  let* selection := GitHubReadSelection.from_record raw in
  let* dependency := dict_item l (u "dependency_fingerprint") in
  let* expected := request_value proposal selection dependency in
  let* same := same_text value expected in
  raise_if (negb same) ValueError ;;*
  Ok expected.

Record GitHubRequestPlan := { gp_text : pystr }.

Module GitHubRequestPlan.

Definition make (proposal : NormalizedProposal) (selection : GitHubReadSelection) (dependency_fingerprint : pyval)
    : res GitHubRequestPlan :=
  let* raw := request_value proposal selection dependency_fingerprint in
  let* value := synthetic_copy MAX_PROPOSAL_BYTES MAX_JSON_NODES raw in
  let* text := canonical_json value in
  Ok {| gp_text := text |}.

Definition from_record (record : pyval) : res GitHubRequestPlan :=
  let* value := request_record record in
  let* raw := subscript value "proposal" in
  let* proposal := NormalizedProposal.from_record raw in
  let* raw := subscript value "selection" in
  let* selection := GitHubReadSelection.from_record raw in
  let* dependency := subscript value "dependency_fingerprint" in
  make proposal selection dependency.

Definition canonical_record (p : GitHubRequestPlan) : res pyval :=
  bounded_utf8_length (gp_text p) 65536 ;;*
  let* value := json_loads (gp_text p) in
  request_record value.

Definition request_id (p : GitHubRequestPlan) : res pystr :=
  let* record := canonical_record p in domain_fingerprint (u "ibae.github-read-request-id.v1") record.

End GitHubRequestPlan.

(** ** Responses *)

Definition request_id_pattern (s : pystr) : bool :=
  nonempty s && forallb (λ c, is_alnum c || (c =? 58) || (c =? 45)) s.

Definition is_hex_any (c : Z) : bool := is_digit c || ((65 <=? c) && (c <=? 70)) || ((97 <=? c) && (c <=? 102)).

(** [(?:W/)?] and a quoted hexadecimal text *)
Definition etag_pattern (s : pystr) : bool :=
  let body := match strip_prefix (u "W/") s with Some r => r | None => s end in
  match body with
  | q :: r =>
      (q =? 34) &&
      match rev r with
      | q' :: m => (q' =? 34) && nonempty m && forallb is_hex_any m
      | [] => false
      end
  | [] => false
  end.

(** [_metadata] *)
Definition metadata_record (record : pyval) : res pyval :=
  let* value := synthetic_copy 2048 MAX_JSON_NODES record in
  let* l := exact_fields value ["request_id"; "etag"; "has_next_page"]%string in
  let check (name : string) (limit : Z) (pattern : pystr → bool) : res unit :=
    at_field l name (unless_none (λ v, let* s := bounded_text v limit in raise_if (negb (pattern s)) ValueError)) in
  check "request_id"%string 128 request_id_pattern ;;*
  check "etag"%string 256 etag_pattern ;;*
  at_field l "has_next_page" expect_bool ;;*
  Ok value.

(** [_boolean] and [_enum], nullable or not *)
Definition boolean (v : pyval) : res pyval := let* b := expect_bool v in Ok (VBool b).
Definition choice (choices : list pystr) (v : pyval) : res pyval :=
  let* s := expect_str v in raise_if (negb (str_in s choices)) ValueError ;;* Ok (VStr s).
Definition nullable (check : pyval → res pyval) (v : pyval) : res pyval :=
  match v with VNone => Ok VNone | _ => check v end.

(** [data.get(name)] *)
Definition dict_or_none (l : list (pyval * pyval)) (name : string) : pyval :=
  match dict_item l (u name) with Ok v => v | Raise _ => VNone end.

(** [None if expected is None else sha == expected] *)
Definition matches_selected (sha : pystr) (expected : pyval) : pyval :=
  match expected with VNone => VNone | _ => VBool (is_text expected sha) end.

Definition CHECK_STATUSES : list pystr :=
  map u ["queued"; "in_progress"; "completed"; "waiting"; "requested"; "pending"]%string.
Definition CONCLUSIONS : list pystr :=
  map u ["success"; "failure"; "neutral"; "cancelled"; "skipped"; "timed_out"; "action_required"; "stale";
         "startup_failure"]%string.

Definition normalize_repository (full_name : pystr) (data : list (pyval * pyval)) : res pyval :=
  let* name := bounded_text (dict_or_none data "full_name") 256 in
  raise_if (negb (bool_decide (name = full_name))) ValueError ;;*
  let* branch := branch_name (dict_or_none data "default_branch") in
  let* private := boolean (dict_or_none data "private") in
  let* archived := boolean (dict_or_none data "archived") in
  Ok (obj [("full_name", VStr full_name); ("default_branch", VStr branch); ("private", private);
           ("archived", archived)]%string).

Definition normalize_branch (wanted : pyval) (selected : pyval) (data : list (pyval * pyval)) : res pyval :=
  let* name := branch_name (dict_or_none data "name") in
  raise_if (negb (is_text wanted name)) ValueError ;;*
  let* commit := expect_dict (dict_or_none data "commit") in
  let* sha := commit_sha (dict_or_none commit "sha") in
  let* protected := boolean (dict_or_none data "protected") in
  Ok (obj [("name", wanted); ("head_sha", VStr sha); ("matches_selected_commit", matches_selected sha selected);
           ("protected", protected)]%string).

Definition normalize_commit (wanted : pyval) (data : list (pyval * pyval)) : res pyval :=
  let* sha := commit_sha (dict_or_none data "sha") in
  raise_if (negb (is_text wanted sha)) ValueError ;;*
  let* commit := expect_dict (dict_or_none data "commit") in
  let* tree := expect_dict (dict_or_none commit "tree") in
  let* tree_sha := commit_sha (dict_or_none tree "sha") in
  let* message := commit_message (dict_or_none commit "message") in
  Ok (obj [("sha", wanted); ("tree_sha", VStr tree_sha); ("message", VStr message)]%string).

Definition normalize_pull (full_name : pystr) (wanted : pyval) (selected : pyval) (data : list (pyval * pyval)) : res pyval :=
  let* number := bounded_integer (dict_or_none data "number") 1 MAX_PULL_NUMBER in
  let* base := expect_dict (dict_or_none data "base") in
  let* bound := if negb (py_equal (VInt number) wanted) then Ok false
                else let* repo := expect_dict (dict_or_none base "repo") in
                     Ok (is_text (dict_or_none repo "full_name") full_name) in
  raise_if (negb bound) ValueError ;;*
  let* head := expect_dict (dict_or_none data "head") in
  let* head_sha := commit_sha (dict_or_none head "sha") in
  let* state := choice [u "open"; u "closed"] (dict_or_none data "state") in
  let* base_sha := commit_sha (dict_or_none base "sha") in
  let* draft := boolean (dict_or_none data "draft") in
  let* merged := boolean (dict_or_none data "merged") in
  let* mergeable := nullable boolean (dict_or_none data "mergeable") in
  Ok (obj [("number", VInt number); ("state", state); ("head_sha", VStr head_sha); ("base_sha", VStr base_sha);
           ("matches_selected_commit", matches_selected head_sha selected); ("draft", draft); ("merged", merged);
           ("mergeable", mergeable)]%string).

(** One item of a CI page: its identity and its record. *)
Definition normalize_ci_item (is_checks : bool) (wanted : pyval) (item : pyval) : res (Z * pyval) :=
  let* l := expect_dict item in
  let* identity := bounded_integer (dict_or_none l "id") 1 MAX_INTEGER in
  if is_checks then
    let* sha := commit_sha (dict_or_none l "head_sha") in
    raise_if (negb (is_text wanted sha)) ValueError ;;*
    let* name := bounded_text (dict_or_none l "name") 256 in
    let* status := choice CHECK_STATUSES (dict_or_none l "status") in
    let* conclusion := nullable (choice CONCLUSIONS) (dict_or_none l "conclusion") in
    Ok (identity, obj [("id", VInt identity); ("name", VStr name); ("head_sha", wanted); ("status", status);
                       ("conclusion", conclusion)]%string)
  else
    let* context := bounded_text (dict_or_none l "context") 256 in
    let* state := choice (map u ["error"; "failure"; "pending"; "success"]%string) (dict_or_none l "state") in
    Ok (identity, obj [("id", VInt identity); ("context", VStr context); ("state", state)]%string).

(** [sorted(output, key=id)] *)
Fixpoint insert_id (x : Z * pyval) (l : list (Z * pyval)) : list (Z * pyval) :=
  match l with
  | [] => [x]
  | y :: r => if x.1 <=? y.1 then x :: y :: r else y :: insert_id x r
  end.

Definition normalize_ci (is_checks : bool) (wanted : pyval) (metadata : pyval) (data : list (pyval * pyval)) : res pyval :=
  let* bound :=
    if is_checks then Ok true
    else let* sha := commit_sha (dict_or_none data "sha") in Ok (is_text wanted sha) in
  raise_if (negb bound) ValueError ;;*
  let* items := expect_list (dict_or_none data (if is_checks then "check_runs" else "statuses")) in
  raise_if (MAX_GITHUB_PAGE_ITEMS <? Z.of_nat (length items)) ValueError ;;*
  let* total := bounded_integer (dict_or_none data "total_count") 0 MAX_INTEGER in
  raise_if (total <? Z.of_nat (length items)) ValueError ;;*
  let* output := res_map (normalize_ci_item is_checks wanted) items in
  raise_if (negb (bool_decide (NoDup (map fst output)))) ValueError ;;*
  let* next := subscript metadata "has_next_page" in
  let complete := (total =? Z.of_nat (length output)) && negb (truthy next) in
  let body := [("sha", wanted); ("total_count", VInt total); ("returned_count", len_val output);
               ("items", VList (map snd (foldr insert_id [] output))); ("complete_page_set", VBool complete);
               ("coverage", VStr (if is_checks then u "latest_check_runs" else u "combined_commit_statuses"));
               ("required_checks_verified", VBool false)]%string in
  if is_checks then Ok (obj body)
  else
    let* state := choice (map u ["failure"; "pending"; "success"]%string) (dict_or_none data "state") in
    Ok (obj (body ++ [("reported_state", state)]%string)).

(** [_normalize_response] *)
Definition normalize_response (request : pyval) (data : list (pyval * pyval)) (metadata : pyval) : res pyval :=
  let* proposal := subscript request "proposal" in
  let* payload := subscript proposal "payload" in
  let* arguments := subscript payload "arguments" in
  let* tool := str_at payload "tool_name" in
  let* owner := str_at arguments "owner" in
  let* repository := str_at arguments "repository" in
  let full_name := owner ++ u "/" ++ repository in
  let* selection := subscript request "selection" in
  if bool_decide (tool = u "github.repository") then normalize_repository full_name data
  else if bool_decide (tool = u "github.branch") then
    let* wanted := subscript arguments "branch" in
    let* selected := subscript selection "commit_sha" in
    normalize_branch wanted selected data
  else if bool_decide (tool = u "github.commit") then
    let* wanted := subscript arguments "commit_sha" in
    normalize_commit wanted data
  else if bool_decide (tool = u "github.pull_request") then
    let* wanted := subscript arguments "pull_number" in
    let* selected := subscript selection "commit_sha" in
    normalize_pull full_name wanted selected data
  else
    let* wanted := subscript arguments "commit_sha" in
    normalize_ci (bool_decide (tool = u "github.check_runs")) wanted metadata data.

(** ** Observations *)

(** [_validate_output]: the output is read back as a response and normalized again. *)
Definition output_as_response (tool full_name : pystr) (output : list (pyval * pyval)) : list (pyval * pyval) :=
  let get (name : string) : pyval := dict_or_none output name in
  let as_dict (v : pyval) : list (pyval * pyval) := match v with VDict l => l | _ => [] end in
  if bool_decide (tool = u "github.repository") then output
  else if bool_decide (tool = u "github.branch") then
    as_dict (obj [("name", get "name"); ("commit", obj [("sha", get "head_sha")]); ("protected", get "protected")]%string)
  else if bool_decide (tool = u "github.commit") then
    as_dict (obj [("sha", get "sha");
                  ("commit", obj [("tree", obj [("sha", get "tree_sha")]); ("message", get "message")])]%string)
  else if bool_decide (tool = u "github.pull_request") then
    as_dict (obj [("number", get "number"); ("state", get "state"); ("draft", get "draft"); ("merged", get "merged");
                  ("mergeable", get "mergeable"); ("head", obj [("sha", get "head_sha")]);
                  ("base", obj [("sha", get "base_sha"); ("repo", obj [("full_name", VStr full_name)])])]%string)
  else
    as_dict (obj [("sha", get "sha"); ("total_count", get "total_count");
                  ((if bool_decide (tool = u "github.check_runs") then "check_runs" else "statuses"), get "items");
                  ("state", get "reported_state")]%string).

Definition validate_output (request output metadata : pyval) : res unit :=
  let* l := expect_dict output in
  let* proposal := subscript request "proposal" in
  let* payload := subscript proposal "payload" in
  let* arguments := subscript payload "arguments" in
  let* tool := str_at payload "tool_name" in
  let* owner := str_at arguments "owner" in
  let* repository := str_at arguments "repository" in
  let* normalized := normalize_response request (output_as_response tool (owner ++ u "/" ++ repository) l) metadata in
  let* same := same_text normalized output in
  raise_if (negb same) ValueError.

(** How an HTTP status is classified: status and reason. *)
Definition classify_status (code : Z) : pystr * pystr :=
  if code =? 200 then (u "observed", u "response_observed")
  else if (300 <=? code) && (code <? 400) then (u "unavailable", u "redirect_rejected")
  else (u "unavailable", u "http_unavailable").

Definition OBSERVATION_FIELDS : list string :=
  ["protocol_version"; "request"; "status_code"; "status"; "reason"; "output"; "source_metadata";
   "source_semantics"; "control_authority"; "native_evidence"; "source_authentication"]%string.

(** [_observation_record] *)
Definition observation_record (record : pyval) : res pyval :=
  let* value := synthetic_copy MAX_OBSERVATION_BYTES OBSERVATION_NODES record in
  let* l := exact_fields value OBSERVATION_FIELDS in
  let* version := dict_item l (u "protocol_version") in
  let* control := dict_item l (u "control_authority") in
  let* native := dict_item l (u "native_evidence") in
  let* authentication := dict_item l (u "source_authentication") in
  raise_if (negb (is_text version EXTERNAL_OBSERVATION_VERSION) || negb (is_false control) ||
            negb (is_false native) || negb (is_text authentication (u "not_established"))) ValueError ;;*
  let* request := at_field l "request" request_record in
  let* semantics := dict_item l (u "source_semantics") in
  let* expected := subscript request "source_semantics" in
  let* same := same_text semantics expected in
  raise_if (negb same) ValueError ;;*
  let* metadata := at_field l "source_metadata" metadata_record in
  let* code := at_field l "status_code" (λ v, bounded_integer v 100 599) in
  let* status := dict_item l (u "status") in
  let* reason := dict_item l (u "reason") in
  raise_if (negb (is_text status (classify_status code).1) || negb (is_text reason (classify_status code).2)) ValueError ;;*
  let* output := dict_item l (u "output") in
  raise_if (negb (code =? 200) && negb (is_none output)) ValueError ;;*
  (if code =? 200 then validate_output request output metadata else Ok tt) ;;*
  Ok value.

Record ExternalObservationReceipt := { eo_text : pystr }.

Module ExternalObservationReceipt.

(** [ExternalObservationReceipt(record)], and [from_record] *)
Definition make (record : pyval) : res ExternalObservationReceipt :=
  let* value := observation_record record in
  let* text := canonical_json value in
  Ok {| eo_text := text |}.

Definition canonical_record (o : ExternalObservationReceipt) : res pyval :=
  bounded_utf8_length (eo_text o) MAX_OBSERVATION_BYTES ;;*
  let* value := json_loads (eo_text o) in
  observation_record value.

Definition output (o : ExternalObservationReceipt) : res pyval :=
  let* record := canonical_record o in subscript record "output".

(** Transport metadata is not part of the identity of an observation. *)
Definition observation_id (o : ExternalObservationReceipt) : res pystr :=
  let* record := canonical_record o in
  let* request := subscript record "request" in
  let* key := subscript request "tool_key" in
  let* status := subscript record "status" in
  let* reason := subscript record "reason" in
  let* output := subscript record "output" in
  domain_fingerprint (u "ibae.external-read-observation-id.v1")
    (obj [("tool_key", key); ("status", status); ("reason", reason); ("output", output)]%string).

Definition receipt_id (o : ExternalObservationReceipt) : res pystr :=
  let* record := canonical_record o in domain_fingerprint (u "ibae.external-read-observation-receipt-id.v1") record.

End ExternalObservationReceipt.

(** [parse_github_response]; [length_body] and [parsed] are the length of the body and what
    [_json_body] makes of it. *)
Definition parse_github_response (plan : GitHubRequestPlan) (status_code : Z) (length_body : Z)
    (parsed : res (list (pyval * pyval))) (source_metadata : option pyval) : res ExternalObservationReceipt :=
  let* request := GitHubRequestPlan.canonical_record plan in
  bounded_integer (VInt status_code) 100 599 ;;*
  let* raw := subscript request "max_response_bytes" in
  let* bound := expect_int raw in
  raise_if (bound <? length_body) ValueError ;;*
  let* metadata := metadata_record
    (match source_metadata with
     | None => obj [("request_id", VNone); ("etag", VNone); ("has_next_page", VBool false)]%string
     | Some m => m
     end) in
  let* output := if status_code =? 200 then let* data := parsed in normalize_response request data metadata
                 else Ok VNone in
  let* semantics := subscript request "source_semantics" in
  ExternalObservationReceipt.make
    (obj [("protocol_version", VStr EXTERNAL_OBSERVATION_VERSION); ("request", request);
          ("status_code", VInt status_code); ("status", VStr (classify_status status_code).1);
          ("reason", VStr (classify_status status_code).2); ("output", output); ("source_metadata", metadata);
          ("source_semantics", semantics); ("control_authority", VBool false); ("native_evidence", VBool false);
          ("source_authentication", VStr (u "not_established"))]%string).

(** ** Frozen reads and manifests *)

(** [FrozenReadAdapter.read]; its universe is a fake filesystem. *)
Definition frozen_read (adapter : FakeAdapter) (proposal : NormalizedProposal) (dependency_fingerprint : pystr)
    : res AdapterResult :=
  let* kind := NormalizedProposal.kind proposal in
  raise_if (negb (bool_decide (kind = READ))) ValueError ;;*
  let* payload := NormalizedProposal.payload proposal in
  let* tool := str_at payload "tool_name" in
  let* arguments := subscript payload "arguments" in
  FakeAdapter.read adapter tool dependency_fingerprint arguments.

Definition readonly_interface_manifest : pyval :=
  obj [("protocol_version", VStr (u "IBAE-READONLY-INTERFACES-V1")); ("control_authority", VBool false);
       ("local_filesystem", VStr (u "exact_frozen_data_only")); ("github_public", VStr (u "stage3_gated_get_backend"));
       ("github_native_consumption", VStr (u "separate_observed_snapshot_only"));
       ("current_remote_state_verified", VBool false);
       ("github_authenticated", VStr (u "unavailable_no_credential_broker"));
       ("chatgpt_continuation", VStr (u "unsupported")); ("work_continuation", VStr (u "unsupported"));
       ("codex_continuation", VStr (u "unsupported")); ("effects", VStr (u "unsupported_pending_v0.6d"));
       ("live_verification", VStr (u "not_established"))]%string.

Definition unsupported_session_continuation (interface : AdapterInterface) : res pyval :=
  raise_if (negb (bool_decide (interface ∈ [CHATGPT; WORK; CODEX]))) ValueError ;;*
  Ok (obj [("protocol_version", VStr (u "IBAE-SESSION-INTERFACE-STATUS-V1"));
           ("interface", VStr (interface_value interface)); ("status", VStr (u "unsupported"));
           ("reason", VStr (u "no_supported_session_continuation_api")); ("network_attempted", VBool false);
           ("native_resume_supported", VBool false); ("control_authority", VBool false)]%string).
