(* ===== verification/ObservedSnapshots.v ===== *)
(** * Retained observations ([observed_snapshots.py], lines 23-193)

    An observed snapshot freezes the content of one observation receipt under its identity; the
    snapshot adapter answers a read from a closed set of them and fetches nothing. *)

From Stdlib Require Import Ascii String.
From stdpp Require Import base list.
From S2P Require Import Prelude PyStr PyNumber Sha256 Canonical Records Kahn Obligations Epistemic Budget Progress Snapshot Receipts InertJson Session Supervisor Proposals GitHub.

Definition OBSERVED_SNAPSHOT_VERSION : pystr := u "IBAE-OBSERVED-SNAPSHOT-V1".
Definition SNAPSHOT_READ_ADAPTER_VERSION : pystr := u "IBAE-OBSERVED-SNAPSHOT-READ-ADAPTER-V1".
Definition SNAPSHOT_TOOL_NAME : pystr := u "read.observed_snapshot".
Definition MAX_OBSERVED_SNAPSHOTS : Z := 16.
Definition MAX_OBSERVED_SNAPSHOT_BYTES : Z := 60000.
Definition MAX_SNAPSHOT_SET_BYTES : Z := 1048576.
Definition SNAPSHOT_ID_DOMAIN : pystr := u "ibae.observed-read-snapshot-id.v1".
Definition SOURCE_RECEIPT_ID_DOMAIN : pystr := u "ibae.external-read-observation-receipt-id.v1".

(** The constants of a snapshot record, in the order in which they are tested. *)
Definition snapshot_constants : list (string * pyval) :=
  [("protocol_version", VStr OBSERVED_SNAPSHOT_VERSION); ("content_immutable", VBool true);
   ("consumption_scope", VStr (u "exact_retained_observation_content")); ("live_capture_verified", VBool false);
   ("current_remote_state_verified", VBool false); ("remote_producer_authenticated", VBool false);
   ("native_authority", VBool false)]%string.

(** [value[name] != constant] for a text, [is not constant] for a boolean. *)
Definition is_constant (v constant : pyval) : bool :=
  match constant, v with
  | VStr s, _ => is_text v s
  | VBool b, VBool b' => Bool.eqb b b'
  | _, _ => false
  end.

(** [_snapshot_record] *)
Definition snapshot_record (record : pyval) : res pyval :=
  let* value := synthetic_copy MAX_OBSERVED_SNAPSHOT_BYTES OBSERVATION_NODES record in
  let* l := exact_fields value (["source_receipt"; "source_receipt_id"]%string ++ map fst snapshot_constants) in
  require_all (map (λ '(name, constant), let* v := dict_item l (u name) in Ok (is_constant v constant))
                   snapshot_constants) ValueError ;;*
  let* source := dict_item l (u "source_receipt") in
  ExternalObservationReceipt.make source ;;*
  let* given := at_field l "source_receipt_id" expect_fingerprint in
  let* receipt_id := domain_fingerprint SOURCE_RECEIPT_ID_DOMAIN source in
  raise_if (negb (bool_decide (given = receipt_id))) ValueError ;;*
  Ok value.

Record ObservedReadSnapshot := { os_text : pystr }.

Module ObservedReadSnapshot.

(** [ObservedReadSnapshot(source_receipt)], and [from_receipt] *)
Definition make (source_receipt : ExternalObservationReceipt) : res ObservedReadSnapshot :=
  let* source := ExternalObservationReceipt.canonical_record source_receipt in
  let* receipt_id := domain_fingerprint SOURCE_RECEIPT_ID_DOMAIN source in
  let* value := snapshot_record
    (obj ([("source_receipt", source); ("source_receipt_id", VStr receipt_id)]%string ++ snapshot_constants)) in
  let* text := canonical_json value in
  Ok {| os_text := text |}.

Definition from_record (record : pyval) : res ObservedReadSnapshot :=
  let* value := snapshot_record record in
  let* text := canonical_json value in
  Ok {| os_text := text |}.

Definition canonical_record (s : ObservedReadSnapshot) : res pyval :=
  bounded_utf8_length (os_text s) MAX_OBSERVED_SNAPSHOT_BYTES ;;*
  let* value := json_loads (os_text s) in
  snapshot_record value.

Definition snapshot_id (s : ObservedReadSnapshot) : res pystr :=
  let* record := canonical_record s in domain_fingerprint SNAPSHOT_ID_DOMAIN record.

Definition source_receipt (s : ObservedReadSnapshot) : res ExternalObservationReceipt :=
  let* record := canonical_record s in
  let* source := subscript record "source_receipt" in
  ExternalObservationReceipt.make source.

Definition arguments (s : ObservedReadSnapshot) : res pyval :=
  let* i := snapshot_id s in Ok (obj [("snapshot_id", VStr i)]%string).

(** [state_key] *)
Definition state_key (s : ObservedReadSnapshot) : res pystr :=
  let* i := snapshot_id s in Ok (u "snapshot." ++ i).

Definition epistemic_record (s : ObservedReadSnapshot) : res EpistemicRecord :=
  let* identity := snapshot_id s in
  let* content := domain_fingerprint (u "ibae.observed-snapshot-content-binding.v1")
                    (obj [("snapshot_id", VStr identity)]%string) in
  let* provenance := ObservationProvenance.make SNAPSHOT_TOOL_NAME identity content false in
  EpistemicRecord.make (u "snapshot." ++ identity) OBSERVED
    (Some (obj [("snapshot_id", VStr identity); ("scope", VStr (u "retained_content_only"))]%string)) [] (Some provenance).

Definition dependency_fingerprint (s : ObservedReadSnapshot) : res pystr :=
  let* source := epistemic_record s in
  let* state := EpistemicState.make [source] MAX_EPISTEMIC_RECORDS in
  EpistemicState.dependency_digest state [er_key source].

Definition tool_key (s : ObservedReadSnapshot) : res pystr :=
  let* own := arguments s in
  let* dependency := dependency_fingerprint s in
  canonical_tool_key SNAPSHOT_TOOL_NAME own dependency.

End ObservedReadSnapshot.

(** ** Sets of snapshots *)

(** A snapshot with its identity, [item.snapshot_id]. *)
Definition with_identity (s : ObservedReadSnapshot) : res (pystr * ObservedReadSnapshot) :=
  let* i := ObservedReadSnapshot.snapshot_id s in Ok (i, s).

(** [_snapshots] *)
Definition snapshot_set (values : list ObservedReadSnapshot) (must_have : bool) : res (list ObservedReadSnapshot) :=
  raise_if ((MAX_OBSERVED_SNAPSHOTS <? Z.of_nat (length values)) || (must_have && negb (nonempty values))) ValueError ;;*
  let* selected := res_map (λ item,
      let* record := ObservedReadSnapshot.canonical_record item in ObservedReadSnapshot.from_record record) values in
  let* keyed := res_map with_identity selected in
  let ordered := sorted_by fst keyed in
  raise_if (has_duplicates (map fst ordered)) ValueError ;;*
  let* records := res_map ObservedReadSnapshot.canonical_record (map snd ordered) in
  synthetic_copy MAX_SNAPSHOT_SET_BYTES STREAM_NODES (VList records) ;;*
  Ok (map snd ordered).

Record SnapshotReadAdapter := { sa_snapshots : list ObservedReadSnapshot }.

Module SnapshotReadAdapter.

Definition make (snapshots : list ObservedReadSnapshot) : res SnapshotReadAdapter :=
  let* selected := snapshot_set snapshots false in Ok {| sa_snapshots := selected |}.

Definition canonical_record (a : SnapshotReadAdapter) : res pyval :=
  raise_if (MAX_OBSERVED_SNAPSHOTS <? Z.of_nat (length (sa_snapshots a))) ValueError ;;*
  let* entries := res_map (λ item,
      let* record := ObservedReadSnapshot.canonical_record item in
      let* i := domain_fingerprint SNAPSHOT_ID_DOMAIN record in
      Ok (record, i)) (sa_snapshots a) in
  raise_if (negb (bool_decide (map snd entries = sorted_set (map snd entries)))) ValueError ;;*
  synthetic_copy MAX_SNAPSHOT_SET_BYTES STREAM_NODES
    (obj [("protocol_version", VStr SNAPSHOT_READ_ADAPTER_VERSION); ("snapshots", VList (map fst entries));
          ("network_enabled", VBool false); ("live_capture_verified", VBool false);
          ("control_authority", VBool false)]%string).

(** The first retained record with the identity. *)
Fixpoint find_snapshot (identity : pystr) (records : list pyval) : res (option pyval) :=
  match records with
  | [] => Ok None
  | record :: rest =>
      let* i := domain_fingerprint SNAPSHOT_ID_DOMAIN record in
      if bool_decide (i = identity) then Ok (Some record) else find_snapshot identity rest
  end.

Definition lookup (a : SnapshotReadAdapter) (tool_name : pystr) (arguments : pyval) (dependency_fingerprint : pystr)
    : res pyval :=
  raise_if (negb (bool_decide (tool_name = SNAPSHOT_TOOL_NAME))) ValueError ;;*
  let* copied := synthetic_copy 1024 MAX_JSON_NODES arguments in
  let* l := exact_fields copied ["snapshot_id"]%string in
  let* identity := at_field l "snapshot_id" expect_fingerprint in
  require_fingerprint dependency_fingerprint ;;*
  let* own := canonical_record a in
  let* raw := subscript own "snapshots" in
  let* records := expect_list raw in
  let* found := find_snapshot identity records in
  match found with
  | None => Raise LookupError
  | Some record =>
      let* item := ObservedReadSnapshot.from_record record in
      let* dependency := ObservedReadSnapshot.dependency_fingerprint item in
      raise_if (negb (bool_decide (dependency = dependency_fingerprint))) LookupError ;;*
      ObservedReadSnapshot.canonical_record item
  end.

Definition read (a : SnapshotReadAdapter) (proposal : NormalizedProposal) (dependency_fingerprint : pystr) : res pyval :=
  let* kind := NormalizedProposal.kind proposal in
  raise_if (negb (bool_decide (kind = READ))) ValueError ;;*
  let* payload := NormalizedProposal.payload proposal in
  let* tool := str_at payload "tool_name" in
  let* arguments := subscript payload "arguments" in
  lookup a tool arguments dependency_fingerprint.

End SnapshotReadAdapter.
