(* ===== verification/TransportLedger.v ===== *)
(** * Stages, authorizations and the transport ledger ([transport_activation.py], lines 25-300)

    The stages of activation and the operator instruction that may enter one, and the small ledger
    that issues one call reservation at a time, counts every call once and retires reservations
    by epoch. *)

From Stdlib Require Import Ascii String.
From stdpp Require Import base list.
From S2P Require Import Prelude PyStr PyNumber Sha256 Canonical Records Supervisor Proposals.

Definition ACTIVATION_VERSION : pystr := u "IBAE-TRANSPORT-ACTIVATION-V1".
Definition MAX_TRANSPORT_CALLS : Z := 1024.
Definition MAX_SELECTED_READ_TOOLS : Z := 32.
Definition MAX_RETAINED_PROPOSALS : Z := 16.
Definition MAX_SELECTED_READ_CAPTURES : Z := 16.
Definition MAX_EPOCH : Z := Z.shiftl 1 64 - 1.

(** ** Stages *)

Inductive ActivationStage := SYNTHETIC | OPENAI_FAKE_TOOLS | OPENAI_DETERMINISTIC_READS | OPENAI_SELECTED_READS.
Inductive ToolProfile := FAKE | DETERMINISTIC_READONLY | SELECTED_READONLY.

#[export] Instance ActivationStage_eq_dec : EqDecision ActivationStage.
Proof. solve_decision. Defined.
#[export] Instance ToolProfile_eq_dec : EqDecision ToolProfile.
Proof. solve_decision. Defined.

(** [int(stage)] *)
Definition stage_number (s : ActivationStage) : Z :=
  match s with
  | SYNTHETIC => 0 | OPENAI_FAKE_TOOLS => 1 | OPENAI_DETERMINISTIC_READS => 2 | OPENAI_SELECTED_READS => 3
  end.

Definition tool_profile_value (p : ToolProfile) : pystr :=
  match p with
  | FAKE => u "fake_tools"
  | DETERMINISTIC_READONLY => u "deterministic_readonly_fixtures"
  | SELECTED_READONLY => u "selected_readonly_tools"
  end.

(** [_PROFILES] *)
Definition profile_of (s : ActivationStage) : ToolProfile :=
  match s with
  | SYNTHETIC | OPENAI_FAKE_TOOLS => FAKE
  | OPENAI_DETERMINISTIC_READS => DETERMINISTIC_READONLY
  | OPENAI_SELECTED_READS => SELECTED_READONLY
  end.

(** ** Field checks *)

(** [_count] *)
Definition check_count (value limit : Z) (positive : bool) : res unit :=
  raise_if (negb (((if positive then 1 else 0) <=? value) && (value <=? limit))) ValueError.

(** [_tools] and [_selections]: [check] is the check of an item. *)
Definition selected_texts (check : pystr → res unit) (l : list pystr) : res unit :=
  raise_if (MAX_SELECTED_READ_TOOLS <? Z.of_nat (length l)) ValueError ;;*
  res_iter check l ;;*
  raise_if (negb (bool_decide (l = sorted_set l))) ValueError.

Definition check_tools : list pystr → res unit := selected_texts require_symbol.
Definition check_selections : list pystr → res unit := selected_texts require_fingerprint.

(** ** Operator authorizations *)

Record OperatorStageAuthorization := {
  oa_stage : ActivationStage;
  oa_task_id : pystr;
  oa_governance_id : pystr;
  oa_epoch : Z;
  oa_operator_key : pystr;
  oa_tool_profile : ToolProfile;
  oa_selected_read_tools : list pystr;
  oa_transport_policy_id : pystr;
  oa_credential_reference_id : pystr;
  oa_selected_read_selection_ids : list pystr;
  oa_simulation_only : bool
}.

#[export] Instance OperatorStageAuthorization_eq_dec : EqDecision OperatorStageAuthorization.
Proof. solve_decision. Defined.

Module OperatorStageAuthorization.

(** [__post_init__] *)
Definition check (a : OperatorStageAuthorization) : res unit :=
  require_fingerprint (oa_task_id a) ;;*
  require_fingerprint (oa_governance_id a) ;;*
  require_fingerprint (oa_transport_policy_id a) ;;*
  require_fingerprint (oa_credential_reference_id a) ;;*
  check_count (oa_epoch a) MAX_EPOCH false ;;*
  require_symbol (oa_operator_key a) ;;*
  check_tools (oa_selected_read_tools a) ;;*
  check_selections (oa_selected_read_selection_ids a) ;;*
  raise_if (bool_decide (oa_stage a = SYNTHETIC)) ValueError ;;*
  raise_if (negb (bool_decide (oa_tool_profile a = profile_of (oa_stage a)))) ValueError ;;*
  let selected := bool_decide (oa_stage a = OPENAI_SELECTED_READS) in
  raise_if (negb (Bool.eqb (nonempty (oa_selected_read_tools a)) selected)) ValueError ;;*
  raise_if (negb (Bool.eqb (nonempty (oa_selected_read_selection_ids a)) selected)) ValueError ;;*
  raise_if (MAX_SELECTED_READ_CAPTURES <? Z.of_nat (length (oa_selected_read_tools a)) *
                                          Z.of_nat (length (oa_selected_read_selection_ids a))) ValueError.

Definition make (a : OperatorStageAuthorization) : res OperatorStageAuthorization := check a ;;* Ok a.

Definition canonical_record (a : OperatorStageAuthorization) : res pyval :=
  check a ;;*
  Ok (obj [("protocol_version", VStr ACTIVATION_VERSION); ("stage", VInt (stage_number (oa_stage a)));
           ("task_id", VStr (oa_task_id a)); ("governance_id", VStr (oa_governance_id a));
           ("epoch", VInt (oa_epoch a)); ("operator_key", VStr (oa_operator_key a));
           ("transport_policy_id", VStr (oa_transport_policy_id a));
           ("credential_reference_id", VStr (oa_credential_reference_id a));
           ("tool_profile", VStr (tool_profile_value (oa_tool_profile a)));
           ("simulation_only", VBool (oa_simulation_only a));
           ("selected_read_tools", strs_val (oa_selected_read_tools a));
           ("selected_read_selection_ids", strs_val (oa_selected_read_selection_ids a));
           ("authenticated_operator", VBool false); ("grants_native_authority", VBool false)]%string).

End OperatorStageAuthorization.

(** [StageObservation]: the canonical text of a bounded record. *)
Record StageObservation := { so_text : pystr }.

#[export] Instance StageObservation_eq_dec : EqDecision StageObservation.
Proof. solve_decision. Defined.

Module StageObservation.

Definition make (record : pyval) : res StageObservation :=
  let* value := bounded_synthetic_data record 65536 in
  let* text := canonical_json value in
  Ok {| so_text := text |}.

Definition canonical_record (o : StageObservation) : res pyval := json_loads (so_text o).

Definition observation_id (o : StageObservation) : res pystr :=
  let* record := canonical_record o in domain_fingerprint (u "ibae.transport-stage-observation.v1") record.

End StageObservation.

(** ** Reservations *)

Inductive CallKind := CALL_OPENAI | CALL_SELECTED_READ | CALL_ROLLBACK_REHEARSAL.

(** A reservation object.  Reservations compare by identity; the ledger that issued one and its call
    index identify it ([LedgerFacts.issued_distinct]), and no caller can make one. *)
Record TransportCallReservation := {
  tc_owner : Z;
  tc_epoch : Z;
  tc_stage : ActivationStage;
  tc_task_id : pystr;
  tc_governance_id : pystr;
  tc_transport_policy_id : option pystr;
  tc_credential_reference_id : option pystr;
  tc_call_index : Z;
  tc_kind : CallKind;
  tc_projection_id : option pystr;
  tc_tool_name : option pystr;
  tc_selection_id : option pystr;
  tc_proposal_id : option pystr;
  tc_dependency_fingerprint : option pystr;
  tc_simulation_only : bool
}.

#[export] Instance CallKind_eq_dec : EqDecision CallKind.
Proof. solve_decision. Defined.
#[export] Instance TransportCallReservation_eq_dec : EqDecision TransportCallReservation.
Proof. solve_decision. Defined.

(** What a call to [reserve] passes besides its owner. *)
Record call_request := {
  cq_stage : ActivationStage;
  cq_task : pystr;
  cq_governance : pystr;
  cq_kind : CallKind;
  cq_projection : option pystr;
  cq_tool : option pystr;
  cq_policy : option pystr;
  cq_credential : option pystr;
  cq_selection : option pystr;
  cq_proposal : option pystr;
  cq_dependency : option pystr
}.

(** ** The ledger *)

Record TransportLedger := {
  tl_epoch : Z;
  tl_used : Z;
  tl_limit : Z;
  tl_revoked : bool;
  tl_pending : option TransportCallReservation;
  tl_openai_calls : Z;
  tl_selected_read_calls : Z
}.

#[export] Instance TransportLedger_eq_dec : EqDecision TransportLedger.
Proof. solve_decision. Defined.

Module TransportLedger.

Definition make (limit : Z) : TransportLedger :=
  {| tl_epoch := 0; tl_used := 0; tl_limit := limit; tl_revoked := false; tl_pending := None;
     tl_openai_calls := 0; tl_selected_read_calls := 0 |}.

(** The reservation that a request becomes; the owner's type decides whether it is a simulation. *)
Definition issue (l : TransportLedger) (owner : Z) (simulation : bool) (q : call_request) : TransportCallReservation :=
  {| tc_owner := owner; tc_epoch := tl_epoch l; tc_stage := cq_stage q; tc_task_id := cq_task q;
     tc_governance_id := cq_governance q; tc_transport_policy_id := cq_policy q;
     tc_credential_reference_id := cq_credential q; tc_call_index := tl_used l; tc_kind := cq_kind q;
     tc_projection_id := cq_projection q; tc_tool_name := cq_tool q; tc_selection_id := cq_selection q;
     tc_proposal_id := cq_proposal q; tc_dependency_fingerprint := cq_dependency q;
     tc_simulation_only := simulation |}.

Definition reserve (l : TransportLedger) (owner : Z) (simulation : bool) (q : call_request)
    : TransportLedger * res TransportCallReservation :=
  if tl_revoked l then (l, Raise ValueError)
  else if Epistemic.is_some (tl_pending l) then (l, Raise ValueError)
  else if tl_limit l <=? tl_used l then (l, Raise ValueError)
  else
    let r := issue l owner simulation q in
    ({| tl_epoch := tl_epoch l; tl_used := tl_used l + 1; tl_limit := tl_limit l; tl_revoked := tl_revoked l;
        tl_pending := Some r;
        tl_openai_calls := tl_openai_calls l + (if bool_decide (cq_kind q = CALL_OPENAI) then 1 else 0);
        tl_selected_read_calls := tl_selected_read_calls l +
                                  (if bool_decide (cq_kind q = CALL_SELECTED_READ) then 1 else 0) |}, Ok r).

Definition check (l : TransportLedger) (r : TransportCallReservation) (owner : Z) : res unit :=
  raise_if (negb (tc_owner r =? owner) || negb (bool_decide (tl_pending l = Some r)) ||
            negb (tc_epoch r =? tl_epoch l) || tl_revoked l) ValueError.

Definition with_pending (l : TransportLedger) (pending : option TransportCallReservation) : TransportLedger :=
  {| tl_epoch := tl_epoch l; tl_used := tl_used l; tl_limit := tl_limit l; tl_revoked := tl_revoked l;
     tl_pending := pending; tl_openai_calls := tl_openai_calls l;
     tl_selected_read_calls := tl_selected_read_calls l |}.

(** An exhausted epoch revokes the ledger before it raises. *)
Definition retire_epoch (l : TransportLedger) (revoke : bool) : TransportLedger * res unit :=
  if tl_epoch l =? MAX_EPOCH then
    ({| tl_epoch := tl_epoch l; tl_used := tl_used l; tl_limit := tl_limit l; tl_revoked := true; tl_pending := None;
        tl_openai_calls := tl_openai_calls l; tl_selected_read_calls := tl_selected_read_calls l |}, Raise ValueError)
  else
    ({| tl_epoch := tl_epoch l + 1; tl_used := tl_used l; tl_limit := tl_limit l; tl_revoked := tl_revoked l || revoke;
        tl_pending := None; tl_openai_calls := tl_openai_calls l;
        tl_selected_read_calls := tl_selected_read_calls l |}, Ok tt).

End TransportLedger.

(** ** The rollback rehearsal *)

(** [digit * 64] *)
Definition repeated (digit : Z) : pystr := repeat digit 64.

Definition rehearsal_request : call_request :=
  {| cq_stage := OPENAI_FAKE_TOOLS; cq_task := repeated 48; cq_governance := repeated 49;
     cq_kind := CALL_ROLLBACK_REHEARSAL; cq_projection := None; cq_tool := None; cq_policy := Some (repeated 50);
     cq_credential := Some (repeated 51); cq_selection := None; cq_proposal := None; cq_dependency := None |}.

(** [_rollback_rehearsal]; the owner is a fresh object. *)
Definition rollback_rehearsal (owner : Z) : res pyval :=
  let '(ledger, reserved) := TransportLedger.reserve (TransportLedger.make 1) owner false rehearsal_request in
  let* reservation := reserved in
  TransportLedger.check ledger reservation owner ;;*
  let before := tl_used ledger in
  let '(ledger, retired) := TransportLedger.retire_epoch ledger false in
  retired ;;*
  raise_if (is_ok (TransportLedger.check ledger reservation owner)) ValueError ;;*
  let '(ledger, again) := TransportLedger.reserve ledger owner false rehearsal_request in
  raise_if (is_ok again) ValueError ;;*
  raise_if (negb (tl_used ledger =? before)) ValueError ;;*
  Ok (obj [("scope", VStr (u "isolated_python_transport_ledger")); ("retired_reservation", VBool true);
           ("exhaustion_preserved", VBool true); ("budget_refunded", VBool false);
           ("live_recovery_verified", VBool false); ("provider_request_cancelled", VBool false)]%string).
