(* ===== verification/Activation.v ===== *)
(** * The activation controller ([transport_activation.py], lines 296-299 and 404-927, 1102-1129)

    The default-off transport control of one task: its stages, the operator authorizations that
    advance them, the call reservations of its ledger, rollback and revocation.  Every method that the
    source serializes with the controller's lock is one action [controller -> controller * result];
    the state it leaves is given also when it raises.  Concurrent callers are sequences of actions. *)

From Stdlib Require Import Ascii String.
From stdpp Require Import base list.
From S2P Require Import Prelude PyStr PyNumber Sha256 Canonical Records Obligations Epistemic Orchestration Governance Session Supervisor Proposals GitHub ObservedSnapshots TransportLedger.

#[export] Instance AdmissionDecision_eq_dec : EqDecision AdmissionDecision.
Proof. solve_decision. Defined.
#[export] Instance BatchRejection_eq_dec : EqDecision BatchRejection.
Proof. solve_decision. Defined.
#[export] Instance AdmissionReceipt_eq_dec : EqDecision AdmissionReceipt.
Proof. solve_decision. Defined.
#[export] Instance ActionProposal_eq_dec : EqDecision ActionProposal.
Proof. solve_decision. Defined.
#[export] Instance ToolAdmissionReceipt_eq_dec : EqDecision ToolAdmissionReceipt.
Proof. solve_decision. Defined.
#[export] Instance ObservedReadSnapshot_eq_dec : EqDecision ObservedReadSnapshot.
Proof. solve_decision. Defined.

(** [_source_binding] *)
Definition source_binding (projection : pyval) : res pystr :=
  let* sources := subscript projection "sources" in
  let* authority := subscript2 projection "decision_surface" "authority" in
  domain_fingerprint (u "ibae.transport-live-source-binding.v1")
    (obj [("sources", sources); ("authority", authority)]%string).

(** ** Captures, attempts and plans *)

Record SelectedReadCapture := {
  rc_snapshot : ObservedReadSnapshot;
  rc_next_orchestration_state : OrchestrationState;
  rc_admission_receipt : AdmissionReceipt;
  rc_tool_admission : ToolAdmissionReceipt;
  rc_selection_id : pystr;
  rc_proposal_id : pystr;
  rc_epoch : Z;
  rc_transport_call_index : Z;
  rc_transport_policy_id : option pystr;
  rc_credential_reference_id : option pystr;
  rc_simulation_only : bool
}.

Record SelectedReadAttempt := {
  sr_next_orchestration_state : OrchestrationState;
  sr_admission_receipt : AdmissionReceipt;
  sr_tool_admission : ToolAdmissionReceipt;
  sr_source_binding_id : pystr;
  sr_selection_id : pystr;
  sr_proposal_id : pystr;
  sr_epoch : Z;
  sr_transport_call_index : option Z;
  sr_transport_policy_id : option pystr;
  sr_credential_reference_id : option pystr;
  sr_status : pystr;
  sr_reason : pystr;
  sr_snapshot_id : option pystr;
  sr_simulation_only : bool
}.

(** [_PendingCapture]: an object whose call index is set once its reservation is issued. *)
Record PendingCapture := {
  pc_source_binding : pystr;
  pc_tool_name : pystr;
  pc_selection_id : pystr;
  pc_proposal_id : pystr;
  pc_dependency_fingerprint : pystr;
  pc_transport_call_index : option Z
}.

#[export] Instance SelectedReadCapture_eq_dec : EqDecision SelectedReadCapture.
Proof. solve_decision. Defined.
#[export] Instance SelectedReadAttempt_eq_dec : EqDecision SelectedReadAttempt.
Proof. solve_decision. Defined.
#[export] Instance PendingCapture_eq_dec : EqDecision PendingCapture.
Proof. solve_decision. Defined.

(** ** The state *)

(** What belongs to the current epoch: every retirement of the epoch clears it.  A plan is named by
    its place among the plans that were ever made. *)
Record OwnedStream := {
  ow_live_proposals : list NormalizedProposal;
  ow_stream_overflow : bool;
  ow_live_source_bindings : list pystr;
  ow_captures : list SelectedReadCapture;
  ow_used_read_proposals : list pystr;
  ow_capture_plan : option nat;
  ow_selection_records : list (pystr * pystr)
}.

(** The evidence of captures, which nothing clears. *)
Record CaptureLog := {
  cl_next_state_id : option pystr;
  cl_attempts : list SelectedReadAttempt;
  cl_inflight : list nat;
  cl_plans : list PendingCapture
}.

#[export] Instance OwnedStream_eq_dec : EqDecision OwnedStream.
Proof. solve_decision. Defined.

(** [ac_object] names the object and [ac_simulation_only] says whether it is a
    [SimulationActivationController]. *)
Record ActivationController := {
  ac_object : Z;
  ac_simulation_only : bool;
  ac_task_id : pystr;
  ac_governance_id : pystr;
  ac_transport_policy_id : option pystr;
  ac_credential_reference_id : option pystr;
  ac_ledger : TransportLedger;
  ac_stage : ActivationStage;
  ac_authorization : option OperatorStageAuthorization;
  ac_observations : list (ActivationStage * StageObservation);
  ac_owned : OwnedStream;
  ac_log : CaptureLog;
  ac_last_capture_surface : option pystr
}.

Definition no_stream : OwnedStream :=
  {| ow_live_proposals := []; ow_stream_overflow := false; ow_live_source_bindings := []; ow_captures := [];
     ow_used_read_proposals := []; ow_capture_plan := None; ow_selection_records := [] |}.

Definition no_captures : CaptureLog :=
  {| cl_next_state_id := None; cl_attempts := []; cl_inflight := []; cl_plans := [] |}.

(** Functional updates. *)
Definition set_ledger (l : TransportLedger) (c : ActivationController) : ActivationController :=
  {| ac_object := ac_object c; ac_simulation_only := ac_simulation_only c; ac_task_id := ac_task_id c;
     ac_governance_id := ac_governance_id c; ac_transport_policy_id := ac_transport_policy_id c;
     ac_credential_reference_id := ac_credential_reference_id c; ac_ledger := l; ac_stage := ac_stage c;
     ac_authorization := ac_authorization c; ac_observations := ac_observations c; ac_owned := ac_owned c;
     ac_log := ac_log c; ac_last_capture_surface := ac_last_capture_surface c |}.

Definition set_deployment (policy credential : pystr) (c : ActivationController) : ActivationController :=
  {| ac_object := ac_object c; ac_simulation_only := ac_simulation_only c; ac_task_id := ac_task_id c;
     ac_governance_id := ac_governance_id c; ac_transport_policy_id := Some policy;
     ac_credential_reference_id := Some credential; ac_ledger := ac_ledger c; ac_stage := ac_stage c;
     ac_authorization := ac_authorization c; ac_observations := ac_observations c; ac_owned := ac_owned c;
     ac_log := ac_log c; ac_last_capture_surface := ac_last_capture_surface c |}.

Definition set_stage (stage : ActivationStage) (authorization : option OperatorStageAuthorization)
    (c : ActivationController) : ActivationController :=
  {| ac_object := ac_object c; ac_simulation_only := ac_simulation_only c; ac_task_id := ac_task_id c;
     ac_governance_id := ac_governance_id c; ac_transport_policy_id := ac_transport_policy_id c;
     ac_credential_reference_id := ac_credential_reference_id c; ac_ledger := ac_ledger c; ac_stage := stage;
     ac_authorization := authorization; ac_observations := ac_observations c; ac_owned := ac_owned c;
     ac_log := ac_log c; ac_last_capture_surface := ac_last_capture_surface c |}.

Definition set_observations (l : list (ActivationStage * StageObservation)) (c : ActivationController)
    : ActivationController :=
  {| ac_object := ac_object c; ac_simulation_only := ac_simulation_only c; ac_task_id := ac_task_id c;
     ac_governance_id := ac_governance_id c; ac_transport_policy_id := ac_transport_policy_id c;
     ac_credential_reference_id := ac_credential_reference_id c; ac_ledger := ac_ledger c; ac_stage := ac_stage c;
     ac_authorization := ac_authorization c; ac_observations := l; ac_owned := ac_owned c;
     ac_log := ac_log c; ac_last_capture_surface := ac_last_capture_surface c |}.

Definition set_owned (o : OwnedStream) (c : ActivationController) : ActivationController :=
  {| ac_object := ac_object c; ac_simulation_only := ac_simulation_only c; ac_task_id := ac_task_id c;
     ac_governance_id := ac_governance_id c; ac_transport_policy_id := ac_transport_policy_id c;
     ac_credential_reference_id := ac_credential_reference_id c; ac_ledger := ac_ledger c; ac_stage := ac_stage c;
     ac_authorization := ac_authorization c; ac_observations := ac_observations c; ac_owned := o;
     ac_log := ac_log c; ac_last_capture_surface := ac_last_capture_surface c |}.

Definition set_log (l : CaptureLog) (c : ActivationController) : ActivationController :=
  {| ac_object := ac_object c; ac_simulation_only := ac_simulation_only c; ac_task_id := ac_task_id c;
     ac_governance_id := ac_governance_id c; ac_transport_policy_id := ac_transport_policy_id c;
     ac_credential_reference_id := ac_credential_reference_id c; ac_ledger := ac_ledger c; ac_stage := ac_stage c;
     ac_authorization := ac_authorization c; ac_observations := ac_observations c; ac_owned := ac_owned c;
     ac_log := l; ac_last_capture_surface := ac_last_capture_surface c |}.

Definition set_last_capture_surface (text : pystr) (c : ActivationController) : ActivationController :=
  {| ac_object := ac_object c; ac_simulation_only := ac_simulation_only c; ac_task_id := ac_task_id c;
     ac_governance_id := ac_governance_id c; ac_transport_policy_id := ac_transport_policy_id c;
     ac_credential_reference_id := ac_credential_reference_id c; ac_ledger := ac_ledger c; ac_stage := ac_stage c;
     ac_authorization := ac_authorization c; ac_observations := ac_observations c; ac_owned := ac_owned c;
     ac_log := ac_log c; ac_last_capture_surface := Some text |}.

(** ** Actions *)

Definition act (A : Type) : Type := ActivationController → ActivationController * res A.

Definition act_bind {A B} (m : act A) (k : A → act B) : act B := λ c,
  let '(c, r) := m c in
  match r with
  | Ok a => k a c
  | Raise e => (c, Raise e)
  end.

Definition reading {A} (f : ActivationController → res A) : act A := λ c, (c, f c).
Definition updating (f : ActivationController → ActivationController) : act unit := λ c, (f c, Ok tt).
Definition on_ledger {A} (f : ActivationController → TransportLedger → TransportLedger * res A) : act A := λ c,
  let '(l, r) := f c (ac_ledger c) in (set_ledger l c, r).

Declare Scope act_scope.
Delimit Scope act_scope with act.
Notation "'do!' x ':=' e 'in' k" := (act_bind e (fun x => k))
  (at level 200, x pattern, e at level 200, k at level 200) : act_scope.
Notation "e ;;! k" := (act_bind e (fun _ => k)) (at level 100, right associativity) : act_scope.
Open Scope act_scope.

(** What [_verification_fence] compares. *)
Record fence := {
  fe_epoch : Z;
  fe_stage : ActivationStage;
  fe_policy : option pystr;
  fe_credential : option pystr;
  fe_call_count : Z;
  fe_pending : option TransportCallReservation;
  fe_owned : OwnedStream;
  fe_next_state_id : option pystr;
  fe_attempts : list SelectedReadAttempt;
  fe_inflight : list nat
}.

#[export] Instance fence_eq_dec : EqDecision fence.
Proof. solve_decision. Defined.

Module ActivationController.

(** [ActivationController(task_id, governance_id, max_transport_calls=.., ..)] *)
Definition make (object : Z) (simulation : bool) (task_id governance_id : pystr) (max_transport_calls : Z)
    (transport_policy_id credential_reference_id : option pystr) : res ActivationController :=
  require_fingerprint task_id ;;*
  require_fingerprint governance_id ;;*
  check_count max_transport_calls MAX_TRANSPORT_CALLS true ;;*
  raise_if (negb (Bool.eqb (Epistemic.is_some transport_policy_id) (Epistemic.is_some credential_reference_id))) ValueError ;;*
  match transport_policy_id with None => Ok tt | Some p => require_fingerprint p end ;;*
  match credential_reference_id with None => Ok tt | Some p => require_fingerprint p end ;;*
  Ok {| ac_object := object; ac_simulation_only := simulation; ac_task_id := task_id;
        ac_governance_id := governance_id; ac_transport_policy_id := transport_policy_id;
        ac_credential_reference_id := credential_reference_id;
        ac_ledger := TransportLedger.make max_transport_calls; ac_stage := SYNTHETIC; ac_authorization := None;
        ac_observations := []; ac_owned := no_stream; ac_log := no_captures; ac_last_capture_surface := None |}.

(** ** Properties *)

Definition tool_profile (c : ActivationController) : ToolProfile := profile_of (ac_stage c).

Definition selected_read_tools (c : ActivationController) : list pystr :=
  match ac_authorization c with None => [] | Some a => oa_selected_read_tools a end.

Definition selected_read_selection_ids (c : ActivationController) : list pystr :=
  match ac_authorization c with None => [] | Some a => oa_selected_read_selection_ids a end.

Definition epoch (c : ActivationController) : Z := tl_epoch (ac_ledger c).
Definition revoked (c : ActivationController) : bool := tl_revoked (ac_ledger c).
Definition call_count (c : ActivationController) : Z := tl_used (ac_ledger c).
Definition remaining_transport_calls (c : ActivationController) : Z := tl_limit (ac_ledger c) - tl_used (ac_ledger c).

Definition occurrence_at (epoch call : Z) : pystr := u "capture." ++ int_str epoch ++ u "." ++ int_str call.
Definition capture_occurrence_key (c : ActivationController) : pystr := occurrence_at (epoch c) (call_count c).

(** ** Checks *)

(** [_active] *)
Definition check_active (c : ActivationController) : res unit := raise_if (revoked c) ValueError.

(** [_binding] *)
Definition check_binding (task_id governance_id : pystr) (c : ActivationController) : res unit :=
  require_fingerprint task_id ;;*
  require_fingerprint governance_id ;;*
  raise_if (negb (bool_decide ((task_id, governance_id) = (ac_task_id c, ac_governance_id c)))) ValueError.

(** The pair of identities is the deployment of the controller. *)
Definition is_deployment (policy credential : pystr) (c : ActivationController) : bool :=
  bool_decide ((Some policy, Some credential) = (ac_transport_policy_id c, ac_credential_reference_id c)).

(** [_deployment] *)
Definition check_deployment (policy credential : pystr) (c : ActivationController) : res unit :=
  require_fingerprint policy ;;*
  require_fingerprint credential ;;*
  raise_if (negb (is_deployment policy credential c)) ValueError.

(** [self._binding(record["sources"]["task_id"], record["sources"]["governance_id"])] *)
Definition check_record_binding (record : pyval) (c : ActivationController) : res unit :=
  let* task := subscript2 record "sources" "task_id" in
  let* governance := subscript2 record "sources" "governance_id" in
  let* task_id := expect_str task in
  let* governance_id := expect_str governance in
  check_binding task_id governance_id c.

(** [authority["revoked"] or not authority["supervisor_capability_present"]] *)
Definition authority_missing (record : pyval) : res bool :=
  let* authority := subscript2 record "decision_surface" "authority" in
  let* is_revoked := subscript authority "revoked" in
  if truthy is_revoked then Ok true
  else let* present := subscript authority "supervisor_capability_present" in Ok (negb (truthy present)).

(** [_projection] *)
Definition check_projection (projection : pyval) (c : ActivationController) : res pyval :=
  let* record := validate_projection projection in
  check_record_binding record c ;;*
  let* missing := authority_missing record in
  raise_if missing ValueError ;;*
  Ok record.

Definition projection_binding (record : pyval) : res pystr :=
  domain_fingerprint (u "ibae.transport-projection-binding.v1") record.

(** ** The verification fence *)

Definition fence_of (c : ActivationController) : fence :=
  {| fe_epoch := epoch c; fe_stage := ac_stage c; fe_policy := ac_transport_policy_id c;
     fe_credential := ac_credential_reference_id c; fe_call_count := call_count c;
     fe_pending := tl_pending (ac_ledger c); fe_owned := ac_owned c;
     fe_next_state_id := cl_next_state_id (ac_log c); fe_attempts := cl_attempts (ac_log c);
     fe_inflight := cl_inflight (ac_log c) |}.

(** [_verification_fence] *)
Definition verification_fence (c : ActivationController) : res fence := check_active c ;;* Ok (fence_of c).

(** [_check_verification_fence] *)
Definition check_verification_fence (expected : fence) (c : ActivationController) : res unit :=
  let* now := verification_fence c in raise_if (negb (bool_decide (expected = now))) ValueError.

(** ** Stage observations *)

Definition observation_at (stage : ActivationStage) (c : ActivationController) : option StageObservation :=
  snd <$> find (λ kv, bool_decide (kv.1 = stage)) (ac_observations c).

(** [self._observations[stage] = observation] *)
Definition put_observation (stage : ActivationStage) (observation : StageObservation) (c : ActivationController)
    : ActivationController :=
  set_observations ((stage, observation) ::
                    filter (λ kv, kv.1 ≠ stage) (ac_observations c)) c.

(** [observation.canonical_record()["epoch"] == self.epoch] *)
Definition observed_in_epoch (observation : StageObservation) (c : ActivationController) : res bool :=
  let* record := StageObservation.canonical_record observation in
  let* e := subscript record "epoch" in
  Ok (py_equal e (VInt (epoch c))).

(** [_observation]; the owner of the rehearsal's ledger is a fresh object. *)
Definition make_observation (owner : Z) (live : bool) (evidence : pyval) (c : ActivationController)
    : res StageObservation :=
  let* rollback := rollback_rehearsal owner in
  StageObservation.make
    (obj [("protocol_version", VStr (u "IBAE-TRANSPORT-STAGE-OBSERVATION-V1"));
          ("stage", VInt (stage_number (ac_stage c)));
          ("task_id", VStr (ac_task_id c)); ("governance_id", VStr (ac_governance_id c));
          ("epoch", VInt (epoch c)); ("transport_policy_id", opt_val VStr (ac_transport_policy_id c));
          ("credential_reference_id", opt_val VStr (ac_credential_reference_id c));
          ("tool_profile", VStr (tool_profile_value (tool_profile c))); ("verification", VStr (u "passed"));
          ("simulation_only", VBool (ac_simulation_only c));
          ("live_transport_observed", VBool (live && negb (ac_simulation_only c)));
          ("live_recovery_verified", VBool false); ("grants_native_authority", VBool false);
          ("restores_native_authority", VBool false); ("final_acceptance", VBool false);
          ("evidence", evidence); ("rollback", rollback)]%string).

(** The locked end of the stage verifiers: nothing changed since the fence, and the observation of the
    stage that was verified is kept. *)
Definition conclude_verification (owner : Z) (expected : fence) (stage : ActivationStage) (live : bool)
    (evidence : ActivationController → res pyval) : act StageObservation :=
  reading (check_verification_fence expected) ;;!
  do! data := reading evidence in
  do! observation := reading (make_observation owner live data) in
  updating (put_observation stage observation) ;;!
  reading (λ _, Ok observation).

(** ** Authorization *)

Definition authorize (a : OperatorStageAuthorization) : act unit :=
  reading (λ c,
    OperatorStageAuthorization.check a ;;*
    check_active c ;;*
    raise_if (negb (Bool.eqb (oa_simulation_only a) (ac_simulation_only c))) ValueError ;;*
    check_binding (oa_task_id a) (oa_governance_id a) c ;;*
    check_deployment (oa_transport_policy_id a) (oa_credential_reference_id a) c ;;*
    raise_if (negb (oa_epoch a =? epoch c)) ValueError ;;*
    raise_if (negb (stage_number (oa_stage a) =? stage_number (ac_stage c) + 1)) ValueError ;;*
    raise_if (Epistemic.is_some (tl_pending (ac_ledger c))) ValueError ;;*
    match observation_at (ac_stage c) c with
    | None => Raise ValueError
    | Some observation =>
        let* current := observed_in_epoch observation c in raise_if (negb current) ValueError
    end ;;*
    raise_if (remaining_transport_calls c =? 0) ValueError) ;;!
  on_ledger (λ _ l, TransportLedger.retire_epoch l false) ;;!
  updating (set_stage (oa_stage a) (Some a)) ;;!
  updating (set_owned no_stream).

(** ** Retirement *)

Definition rollback : act unit :=
  reading check_active ;;!
  on_ledger (λ _ l, TransportLedger.retire_epoch l false) ;;!
  updating (λ c, set_owned no_stream (set_observations [] (set_stage SYNTHETIC None c))).

(** Revocation keeps the stage and its authorization. *)
Definition revoke : act unit := λ c,
  if revoked c then (c, Ok tt)
  else (on_ledger (λ _ l, TransportLedger.retire_epoch l true) ;;!
        updating (λ c, set_owned no_stream (set_observations [] c))) c.

Definition configure_transport (policy credential : pystr) : act unit := λ c,
  match (check_active c ;;* require_fingerprint policy ;;* require_fingerprint credential) with
  | Raise e => (c, Raise e)
  | Ok _ =>
      if is_deployment policy credential c then (c, Ok tt)
      else (rollback ;;! updating (set_deployment policy credential)) c
  end.

(** ** Reservations *)

(** [self._ledger.reserve(self, ..)] *)
Definition reserve (request : ActivationController → call_request) : act TransportCallReservation :=
  on_ledger (λ c l, TransportLedger.reserve l (ac_object c) (ac_simulation_only c) (request c)).

Definition openai_request (policy credential projection_id : pystr) (c : ActivationController) : call_request :=
  {| cq_stage := ac_stage c; cq_task := ac_task_id c; cq_governance := ac_governance_id c; cq_kind := CALL_OPENAI;
     cq_projection := Some projection_id; cq_tool := None; cq_policy := Some policy; cq_credential := Some credential;
     cq_selection := None; cq_proposal := None; cq_dependency := None |}.

Definition reserve_call (projection : pyval) (stage : ActivationStage) (profile : ToolProfile)
    (policy credential : pystr) (selected_tools : list pystr) : act TransportCallReservation :=
  do! projection_id := reading (λ c,
    check_active c ;;*
    check_deployment policy credential c ;;*
    check_tools selected_tools ;;*
    raise_if (bool_decide (stage = SYNTHETIC) || negb (bool_decide (stage = ac_stage c)) ||
              negb (bool_decide (profile = tool_profile c)) ||
              negb (bool_decide (selected_tools = selected_read_tools c))) ValueError ;;*
    let* record := check_projection projection c in
    projection_binding record) in
  reserve (openai_request policy credential projection_id).

(** The plan of the outstanding capture. *)
Definition current_plan (c : ActivationController) : option (nat * PendingCapture) :=
  match ow_capture_plan (ac_owned c) with
  | None => None
  | Some n => (λ p, (n, p)) <$> cl_plans (ac_log c) !! n
  end.

(** [_check_capture_plan] *)
Definition check_capture_plan (tool selection proposal dependency : option pystr) (c : ActivationController)
    : res (nat * PendingCapture) :=
  match current_plan c with
  | None => Raise ValueError
  | Some (n, plan) =>
      raise_if (negb (bool_decide ((tool, selection, proposal, dependency) =
        (Some (pc_tool_name plan), Some (pc_selection_id plan), Some (pc_proposal_id plan),
         Some (pc_dependency_fingerprint plan))))) ValueError ;;*
      Ok (n, plan)
  end.

Definition read_request (tool selection proposal dependency : pystr) (c : ActivationController) : call_request :=
  {| cq_stage := ac_stage c; cq_task := ac_task_id c; cq_governance := ac_governance_id c;
     cq_kind := CALL_SELECTED_READ; cq_projection := None; cq_tool := Some tool;
     cq_policy := ac_transport_policy_id c; cq_credential := ac_credential_reference_id c;
     cq_selection := Some selection; cq_proposal := Some proposal; cq_dependency := Some dependency |}.

(** [plan.transport_call_index = index] *)
Definition index_plan (n : nat) (index : Z) (l : CaptureLog) : CaptureLog :=
  {| cl_next_state_id := cl_next_state_id l; cl_attempts := cl_attempts l; cl_inflight := cl_inflight l;
     cl_plans := alter (λ p, {| pc_source_binding := pc_source_binding p; pc_tool_name := pc_tool_name p;
                                pc_selection_id := pc_selection_id p; pc_proposal_id := pc_proposal_id p;
                                pc_dependency_fingerprint := pc_dependency_fingerprint p;
                                pc_transport_call_index := Some index |}) n (cl_plans l) |}.

Definition set_call_index (n : nat) (index : Z) (c : ActivationController) : ActivationController :=
  set_log (index_plan n index (ac_log c)) c.

Definition reserve_read (task_id governance_id tool selection proposal dependency : pystr)
    : act TransportCallReservation :=
  do! n := reading (λ c,
    check_active c ;;*
    check_binding task_id governance_id c ;;*
    require_symbol tool ;;*
    require_fingerprint selection ;;*
    require_fingerprint proposal ;;*
    require_fingerprint dependency ;;*
    raise_if (negb (bool_decide (ac_stage c = OPENAI_SELECTED_READS)) || negb (str_in tool (selected_read_tools c)) ||
              negb (str_in selection (selected_read_selection_ids c))) ValueError ;;*
    let* planned := check_capture_plan (Some tool) (Some selection) (Some proposal) (Some dependency) c in
    raise_if (Epistemic.is_some (pc_transport_call_index planned.2)) ValueError ;;*
    Ok planned.1) in
  do! reservation := reserve (read_request tool selection proposal dependency) in
  updating (set_call_index n (tc_call_index reservation)) ;;!
  reading (λ _, Ok reservation).

Definition check_read_reservation (r : TransportCallReservation) (c : ActivationController) : res unit :=
  TransportLedger.check (ac_ledger c) r (ac_object c) ;;*
  raise_if (negb (bool_decide (ac_stage c = OPENAI_SELECTED_READS)) || negb (bool_decide (tc_stage r = ac_stage c)) ||
            negb (bool_decide (tc_kind r = CALL_SELECTED_READ)) ||
            negb (bool_decide (tc_transport_policy_id r = ac_transport_policy_id c)) ||
            negb (bool_decide (tc_credential_reference_id r = ac_credential_reference_id c)) ||
            negb (from_option (λ s, str_in s (selected_read_selection_ids c)) false (tc_selection_id r)) ||
            negb (from_option (λ s, str_in s (selected_read_tools c)) false (tc_tool_name r))) ValueError ;;*
  check_capture_plan (tc_tool_name r) (tc_selection_id r) (tc_proposal_id r) (tc_dependency_fingerprint r) c ;;*
  Ok tt.

Definition complete_call (r : TransportCallReservation) : act unit := λ c,
  if negb (tc_owner r =? ac_object c) then (c, Raise ValueError)
  else if bool_decide (tl_pending (ac_ledger c) = Some r)
  then (set_ledger (TransportLedger.with_pending (ac_ledger c) None) c, Ok tt)
  else (c, Ok tt).

(** [_require_live_outcome]; an outcome of [None] is not a reservation. *)
Definition require_live_outcome (outcome : option TransportCallReservation) (kind : CallKind) (at_epoch index : Z)
    (c : ActivationController) : res unit :=
  match outcome with
  | None => Raise ValueError
  | Some r =>
      raise_if (negb (tc_owner r =? ac_object c) || tc_simulation_only r || ac_simulation_only c ||
                negb (tc_epoch r =? at_epoch) || negb (epoch c =? at_epoch) ||
                negb (bool_decide (tc_stage r = ac_stage c)) || negb (bool_decide (tc_kind r = kind)) ||
                negb (tc_call_index r =? index) ||
                negb (bool_decide (tc_transport_policy_id r = ac_transport_policy_id c)) ||
                negb (bool_decide (tc_credential_reference_id r = ac_credential_reference_id c))) ValueError
  end.

(** ** Owned proposals *)

(** A proposal of an official or simulated call enters the stream, or overflows it. *)
Definition retain_proposal (proposal : NormalizedProposal) (source : pystr) : act unit := λ c,
  let o := ac_owned c in
  if Z.of_nat (length (ow_live_proposals o)) =? MAX_RETAINED_PROPOSALS then
    (set_owned {| ow_live_proposals := ow_live_proposals o; ow_stream_overflow := true;
                  ow_live_source_bindings := ow_live_source_bindings o; ow_captures := ow_captures o;
                  ow_used_read_proposals := ow_used_read_proposals o; ow_capture_plan := ow_capture_plan o;
                  ow_selection_records := ow_selection_records o |} c, Ok tt)
  else
    match (let* record := NormalizedProposal.canonical_record proposal in NormalizedProposal.from_record record) with
    | Raise e => (c, Raise e)
    | Ok copy =>
        (set_owned {| ow_live_proposals := ow_live_proposals o ++ [copy]; ow_stream_overflow := ow_stream_overflow o;
                      ow_live_source_bindings := ow_live_source_bindings o ++ [source]; ow_captures := ow_captures o;
                      ow_used_read_proposals := ow_used_read_proposals o; ow_capture_plan := ow_capture_plan o;
                      ow_selection_records := ow_selection_records o |} c, Ok tt)
    end.

(** What [propose] remembers of the controller before the official call. *)
Record call_start := {
  ca_epoch : Z;
  ca_stage : ActivationStage;
  ca_before : Z;
  ca_selection_records : list (pystr * pystr)
}.

(** The beginning of [propose]: [deployment] is the deployment record of the official supervisor. *)
Definition propose_begin (policy credential : pystr) (projection : pyval) (c : ActivationController)
    : res (call_start * pystr) :=
  raise_if (ac_simulation_only c) TypeError ;;*
  check_active c ;;*
  check_deployment policy credential c ;;*
  let* detached := check_projection projection c in
  let* source := source_binding detached in
  Ok ({| ca_epoch := epoch c; ca_stage := ac_stage c; ca_before := call_count c;
         ca_selection_records := ow_selection_records (ac_owned c) |}, source).

(** The locked end of [propose], after the official call returned [proposal] and [outcome]. *)
Definition propose_conclude (start : call_start) (source : pystr) (proposal : NormalizedProposal)
    (outcome : option TransportCallReservation) : act NormalizedProposal :=
  reading (λ c,
    raise_if (revoked c || negb (epoch c =? ca_epoch start) || negb (bool_decide (ac_stage c = ca_stage start)) ||
              negb (bool_decide (ow_selection_records (ac_owned c) = ca_selection_records start)) ||
              negb (call_count c =? ca_before start + 1) || Epistemic.is_some (tl_pending (ac_ledger c))) ValueError ;;*
    require_live_outcome outcome CALL_OPENAI (ca_epoch start) (ca_before start) c) ;;!
  retain_proposal proposal source ;;!
  reading (λ _, Ok proposal).

(** [register_selected_read] *)
Definition register_selected_read (selection : GitHubReadSelection) : act unit := λ c,
  match
    (check_active c ;;*
     raise_if (negb (bool_decide (ac_stage c = OPENAI_SELECTED_READS))) ValueError ;;*
     let* selection_id := GitHubReadSelection.selection_id selection in
     raise_if (negb (str_in selection_id (selected_read_selection_ids c))) ValueError ;;*
     let* record := GitHubReadSelection.canonical_record selection in
     let* text := canonical_json record in
     Ok (selection_id, text))
  with
  | Raise e => (c, Raise e)
  | Ok (selection_id, text) =>
      let o := ac_owned c in
      if bool_decide (find (λ kv, bool_decide (kv.1 = selection_id)) (ow_selection_records o) = Some (selection_id, text))
      then (c, Ok tt)
      else if nonempty (ow_live_proposals o) then (c, Raise ValueError)
      else if Epistemic.is_some (tl_pending (ac_ledger c)) || Epistemic.is_some (ow_capture_plan o)
      then (c, Raise ValueError)
      else
        (set_owned {| ow_live_proposals := ow_live_proposals o; ow_stream_overflow := ow_stream_overflow o;
                      ow_live_source_bindings := ow_live_source_bindings o; ow_captures := ow_captures o;
                      ow_used_read_proposals := ow_used_read_proposals o; ow_capture_plan := ow_capture_plan o;
                      ow_selection_records :=
                        sorted_by fst ((selection_id, text) ::
                                       filter (λ kv, kv.1 ≠ selection_id) (ow_selection_records o)) |} c, Ok tt)
  end.

End ActivationController.
