(* ===== verification/Adapters.v ===== *)
(** * The read adapters ([readonly_adapters.py], lines 580-837)

    The public GET adapter, whose network is what a closed HTTPS exchange answers, and the frozen
    simulation of it.  Both reserve one selected read of their controller, check the reservation
    again before and after the exchange and retire it whatever happens. *)

From Stdlib Require Import Ascii String.
From stdpp Require Import base list.
From S2P Require Import Prelude PyStr PyNumber Sha256 Canonical Records Kernel Obligations Epistemic Receipts Session Supervisor Proposals GitHub TransportLedger Activation.

(** ** Reading a response *)

(** What a response answers: its headers, the length of its body and what [_json_body] makes of
    that body. *)
Record http_response := {
  hr_status : Z;
  hr_content_length : option pystr;
  hr_content_encoding : option pystr;
  hr_link : option pystr;
  hr_request_id : option pystr;
  hr_etag : option pystr;
  hr_length : Z;
  hr_parsed : res (list (pyval * pyval))
}.

(** [needle in s] *)
Fixpoint contains (needle s : pystr) : bool :=
  starts_with needle s || match s with [] => false | _ :: r => contains needle r end.

(** The checks of a declared content length. *)
Definition declared_length (text : pystr) (bound : Z) : res Z :=
  raise_if ((10 <? Z.of_nat (length text)) || negb (nonempty text) || negb (forallb is_digit text)) ValueError ;;*
  let declared := digits_fold 0 text in
  raise_if (bound <? declared) ValueError ;;*
  Ok declared.

(** [_read_http_observation]: no more than one byte above the bound is read. *)
Definition read_http_observation (plan : GitHubRequestPlan) (response : http_response)
    : res ExternalObservationReceipt :=
  let* request := GitHubRequestPlan.canonical_record plan in
  let* raw := subscript request "max_response_bytes" in
  let* bound := expect_int raw in
  let* declared := match hr_content_length response with
                   | None => Ok None
                   | Some text => let* n := declared_length text bound in Ok (Some n)
                   end in
  raise_if (match hr_content_encoding response with None => false | Some e => negb (bool_decide (e = u "identity")) end)
    ValueError ;;*
  let length_body := Z.min (hr_length response) (bound + 1) in
  raise_if (match declared with None => false | Some n => negb (length_body =? n) end) ValueError ;;*
  match hr_link response with None => Ok tt | Some link => bounded_utf8_length link 4096 ;;* Ok tt end ;;*
  let next := match hr_link response with None => false | Some link => contains (u "next") (lower link) end in
  parse_github_response plan (hr_status response) length_body (hr_parsed response)
    (Some (obj [("request_id", opt_val VStr (hr_request_id response)); ("etag", opt_val VStr (hr_etag response));
                ("has_next_page", VBool next)]%string)).

(** The names of a request that its reservation binds. *)
Record bound_read := {
  br_request : pyval;
  br_tool : pystr;
  br_selection_id : pystr;
  br_proposal_id : pystr
}.

(** [request["proposal"]["payload"]["tool_name"]] *)
Definition request_tool (request : pyval) : res pystr :=
  let* payload := subscript2 request "proposal" "payload" in
  let* tool := subscript payload "tool_name" in
  expect_str tool.

Definition bind_read (proposal : NormalizedProposal) (selection : GitHubReadSelection) (dependency : pystr)
    : res (GitHubRequestPlan * bound_read) :=
  let* plan := GitHubRequestPlan.make proposal selection (VStr dependency) in
  let* request := GitHubRequestPlan.canonical_record plan in
  let* tool := request_tool request in
  let* selection_id := GitHubReadSelection.selection_id selection in
  let* proposal_id := NormalizedProposal.proposal_id proposal in
  Ok (plan, {| br_request := request; br_tool := tool; br_selection_id := selection_id;
               br_proposal_id := proposal_id |}).

(** The checks that an adapter belongs to the controller. *)
Definition check_owner (object : Z) (task_id governance_id : pystr) (c : ActivationController) : res unit :=
  raise_if (negb (object =? ac_object c)) ValueError ;;*
  require_fingerprint task_id ;;*
  require_fingerprint governance_id ;;*
  raise_if (negb (bool_decide (task_id = ac_task_id c)) || negb (bool_decide (governance_id = ac_governance_id c)))
    ValueError.

(** [GitHubReadSelection.from_record(selection.canonical_record())] *)
Definition copy_selection (selection : GitHubReadSelection) : res GitHubReadSelection :=
  let* record := GitHubReadSelection.canonical_record selection in GitHubReadSelection.from_record record.

Definition binding_fields (task_id governance_id : pystr) (selection : GitHubReadSelection)
    : res (list (string * pyval)) :=
  let* selection_id := GitHubReadSelection.selection_id selection in
  let* record := GitHubReadSelection.canonical_record selection in
  Ok [("task_id", VStr task_id); ("governance_id", VStr governance_id); ("selection_id", VStr selection_id);
      ("selection", record); ("network_operation_cacheable", VBool false)]%string.

(** ** The live adapter *)

(** [_live_outcome]: a receipt is named by the identity of its object. *)
Record live_outcome := {
  lo_controller : Z;
  lo_reservation : TransportCallReservation;
  lo_receipt : Z;
  lo_receipt_id : pystr
}.

Record GitHubReadAdapter := {
  ga_selection : GitHubReadSelection;
  ga_activation : Z;
  ga_task_id : pystr;
  ga_governance_id : pystr;
  ga_live_outcome : option live_outcome
}.

(** One exchange with the closed network, and what other callers do to the controller meanwhile. *)
Record network := {
  nw_open : res unit;
  nw_connected : bool;
  nw_response : res http_response;
  nw_meanwhile : ActivationController → ActivationController;
  nw_still_closed : res unit;
  nw_close : res unit;
  nw_receipt : Z
}.

Module GitHubReadAdapter.

Definition make (selection : GitHubReadSelection) (c : ActivationController) (task_id governance_id : pystr)
    : res GitHubReadAdapter :=
  raise_if (ac_simulation_only c) TypeError ;;*
  require_fingerprint task_id ;;*
  require_fingerprint governance_id ;;*
  let* copy := copy_selection selection in
  Ok {| ga_selection := copy; ga_activation := ac_object c; ga_task_id := task_id; ga_governance_id := governance_id;
        ga_live_outcome := None |}.

Definition with_outcome (a : GitHubReadAdapter) (outcome : option live_outcome) : GitHubReadAdapter :=
  {| ga_selection := ga_selection a; ga_activation := ga_activation a; ga_task_id := ga_task_id a;
     ga_governance_id := ga_governance_id a; ga_live_outcome := outcome |}.

Definition validate_activation (a : GitHubReadAdapter) (c : ActivationController) : res unit :=
  raise_if (ac_simulation_only c) TypeError ;;*
  check_owner (ga_activation a) (ga_task_id a) (ga_governance_id a) c ;;*
  GitHubReadSelection.canonical_record (ga_selection a) ;;*
  Ok tt.

Definition binding_record (a : GitHubReadAdapter) (c : ActivationController) : res pyval :=
  validate_activation a c ;;*
  let* fields := binding_fields (ga_task_id a) (ga_governance_id a) (ga_selection a) in
  Ok (obj (fields ++ [("control_authority", VBool false)]%string)).

(** [except (OSError, HTTPException)] *)
Definition unavailable (e : exn) : exn := match e with OSError => RuntimeError | _ => e end.

(** The body of the [try] of [observe]: the outcome and its receipt, in the controller at its end. *)
Definition exchange (a : GitHubReadAdapter) (w : network) (plan : GitHubRequestPlan) (r : TransportCallReservation)
    (c : ActivationController) : ActivationController * res (ExternalObservationReceipt * live_outcome) :=
  match (nw_open w ;;* ActivationController.check_read_reservation r c) with
  | Raise e => (c, Raise e)
  | Ok _ =>
      let c := nw_meanwhile w c in
      (c, let* response := nw_response w in
          let* receipt := read_http_observation plan response in
          ActivationController.check_read_reservation r c ;;*
          nw_still_closed w ;;*
          let* receipt_id := ExternalObservationReceipt.receipt_id receipt in
          Ok (receipt, {| lo_controller := ac_object c; lo_reservation := r; lo_receipt := nw_receipt w;
                          lo_receipt_id := receipt_id |}))
  end.

(** [observe]: the receipt and the identity of its object. *)
Definition observe (a : GitHubReadAdapter) (w : network) (proposal : NormalizedProposal) (dependency : pystr)
    (c : ActivationController) : GitHubReadAdapter * (ActivationController * res (Z * ExternalObservationReceipt)) :=
  let a := with_outcome a None in
  match
    (raise_if (ac_simulation_only c) TypeError ;;*
     require_fingerprint (ga_task_id a) ;;*
     require_fingerprint (ga_governance_id a) ;;*
     bind_read proposal (ga_selection a) dependency)
  with
  | Raise e => (a, (c, Raise e))
  | Ok (plan, b) =>
      match ActivationController.reserve_read (ga_task_id a) (ga_governance_id a) (br_tool b) (br_selection_id b)
              (br_proposal_id b) dependency c with
      | (c, Raise e) => (a, (c, Raise e))
      | (c, Ok r) =>
          let '(c, answer) := exchange a w plan r c in
          let closed := if nw_connected w then nw_close w else Ok tt in
          let '(c, retired) := ActivationController.complete_call r c in
          match answer, closed, retired with
          | Ok (receipt, outcome), Ok _, Ok _ => (with_outcome a (Some outcome), (c, Ok (nw_receipt w, receipt)))
          | Raise e, Ok _, Ok _ => (a, (c, Raise (unavailable e)))
          | _, Raise e, Ok _ => (a, (c, Raise e))
          | _, _, Raise e => (a, (c, Raise e))
          end
      end
  end.

(** [_consume_live_outcome] *)
Definition consume_live_outcome (a : GitHubReadAdapter) (c : ActivationController)
    (receipt : Z * ExternalObservationReceipt) : GitHubReadAdapter * res (option TransportCallReservation) :=
  (with_outcome a None,
   match ga_live_outcome a with
   | None => Ok None
   | Some o =>
       if ac_simulation_only c || negb (lo_controller o =? ac_object c) || negb (lo_receipt o =? receipt.1) then Ok None
       else
         let r := lo_reservation o in
         let* record := ExternalObservationReceipt.canonical_record receipt.2 in
         let* request := subscript record "request" in
         let foreign :=
           negb (tc_owner r =? ac_object c) || tc_simulation_only r ||
           negb (bool_decide (tc_kind r = CALL_SELECTED_READ)) ||
           negb (tc_epoch r =? ActivationController.epoch c) || negb (bool_decide (tc_stage r = ac_stage c)) ||
           negb (bool_decide (tc_transport_policy_id r = ac_transport_policy_id c)) ||
           negb (bool_decide (tc_credential_reference_id r = ac_credential_reference_id c)) ||
           negb (bool_decide (tc_task_id r = ga_task_id a)) ||
           negb (bool_decide (tc_governance_id r = ga_governance_id a)) in
         let* rejected := res_exists (λ t, t)
           [Ok foreign;
            (let* i := GitHubReadSelection.selection_id (ga_selection a) in
             Ok (negb (bool_decide (tc_selection_id r = Some i))));
            (let* tool := request_tool request in Ok (negb (bool_decide (tc_tool_name r = Some tool))));
            (let* raw := subscript request "proposal" in
             let* proposal := NormalizedProposal.from_record raw in
             let* i := NormalizedProposal.proposal_id proposal in
             Ok (negb (bool_decide (tc_proposal_id r = Some i))));
            (let* dependency := subscript request "dependency_fingerprint" in
             Ok (negb (match tc_dependency_fingerprint r with Some d => is_text dependency d | None => false end)));
            Ok (ActivationController.revoked c);
            (let* i := ExternalObservationReceipt.receipt_id receipt.2 in
             Ok (negb (bool_decide (i = lo_receipt_id o))))] in
         if rejected then Ok None
         else validate_activation a c ;;* Ok (Some r)
   end).

End GitHubReadAdapter.

(** ** The simulated adapter *)

(** The body is given by its length and by what [_json_body] makes of it. *)
Record SimulatedGitHubReadAdapter := {
  gx_selection : GitHubReadSelection;
  gx_activation : Z;
  gx_task_id : pystr;
  gx_governance_id : pystr;
  gx_length : Z;
  gx_parsed : res (list (pyval * pyval));
  gx_status_code : Z;
  gx_metadata_text : pystr;
  gx_failure_reason : option pystr;
  gx_calls : Z
}.

Definition transport_unavailable : pystr := u "transport_unavailable".

Module SimulatedGitHubReadAdapter.

Definition make (selection : GitHubReadSelection) (c : ActivationController) (task_id governance_id : pystr)
    (length_body : Z) (parsed : res (list (pyval * pyval))) (status_code : Z) (failure_reason : option pystr)
    (source_metadata : option pyval) : res SimulatedGitHubReadAdapter :=
  raise_if (negb (ac_simulation_only c)) TypeError ;;*
  require_fingerprint task_id ;;*
  require_fingerprint governance_id ;;*
  raise_if (MAX_GITHUB_RESPONSE_BYTES <? length_body) ValueError ;;*
  bounded_integer (VInt status_code) 100 599 ;;*
  match failure_reason with
  | None => Ok tt
  | Some reason => raise_if (negb (bool_decide (reason = transport_unavailable))) ValueError
  end ;;*
  let* metadata := metadata_record
    (match source_metadata with
     | None => obj [("request_id", VNone); ("etag", VNone); ("has_next_page", VBool false)]%string
     | Some m => m
     end) in
  let* copy := copy_selection selection in
  let* text := canonical_json metadata in
  Ok {| gx_selection := copy; gx_activation := ac_object c; gx_task_id := task_id; gx_governance_id := governance_id;
        gx_length := length_body; gx_parsed := parsed; gx_status_code := status_code; gx_metadata_text := text;
        gx_failure_reason := failure_reason; gx_calls := 0 |}.

(** [call_count] *)
Definition call_count (a : SimulatedGitHubReadAdapter) : res Z :=
  bounded_integer (VInt (gx_calls a)) 0 MAX_TRANSPORT_CALLS.

Definition with_calls (a : SimulatedGitHubReadAdapter) (calls : Z) : SimulatedGitHubReadAdapter :=
  {| gx_selection := gx_selection a; gx_activation := gx_activation a; gx_task_id := gx_task_id a;
     gx_governance_id := gx_governance_id a; gx_length := gx_length a; gx_parsed := gx_parsed a;
     gx_status_code := gx_status_code a; gx_metadata_text := gx_metadata_text a;
     gx_failure_reason := gx_failure_reason a; gx_calls := calls |}.

Definition validate_activation (a : SimulatedGitHubReadAdapter) (c : ActivationController) : res unit :=
  raise_if (negb (ac_simulation_only c)) TypeError ;;*
  check_owner (gx_activation a) (gx_task_id a) (gx_governance_id a) c ;;*
  GitHubReadSelection.canonical_record (gx_selection a) ;;*
  Ok tt.

Definition binding_record (a : SimulatedGitHubReadAdapter) (c : ActivationController) : res pyval :=
  validate_activation a c ;;*
  let* fields := binding_fields (gx_task_id a) (gx_governance_id a) (gx_selection a) in
  Ok (obj (fields ++ [("simulation_only", VBool true); ("live_verification", VBool false);
                      ("control_authority", VBool false)]%string)).

(** What the [try] of [observe] returns after the call was counted. *)
Definition replay (a : SimulatedGitHubReadAdapter) (plan : GitHubRequestPlan) (r : TransportCallReservation)
    (c : ActivationController) : res ExternalObservationReceipt :=
  ActivationController.check_read_reservation r c ;;*
  match gx_failure_reason a with
  | Some reason => raise_if (negb (bool_decide (reason = transport_unavailable))) ValueError ;;* Raise RuntimeError
  | None => Ok tt
  end ;;*
  bounded_utf8_length (gx_metadata_text a) 2048 ;;*
  let* metadata := json_loads (gx_metadata_text a) in
  let* receipt := parse_github_response plan (gx_status_code a) (gx_length a) (gx_parsed a) (Some metadata) in
  ActivationController.check_read_reservation r c ;;*
  Ok receipt.

Definition observe (a : SimulatedGitHubReadAdapter) (proposal : NormalizedProposal) (dependency : pystr)
    (c : ActivationController)
    : SimulatedGitHubReadAdapter * (ActivationController * res ExternalObservationReceipt) :=
  match (validate_activation a c ;;* bind_read proposal (gx_selection a) dependency) with
  | Raise e => (a, (c, Raise e))
  | Ok (plan, b) =>
      match ActivationController.reserve_read (gx_task_id a) (gx_governance_id a) (br_tool b) (br_selection_id b)
              (br_proposal_id b) dependency c with
      | (c, Raise e) => (a, (c, Raise e))
      | (c, Ok r) =>
          let '(a, answer) :=
            match (raise_if (negb (tc_simulation_only r)) RuntimeError ;;* call_count a) with
            | Raise e => (a, Raise e)
            | Ok n => let a := with_calls a (n + 1) in (a, replay a plan r c)
            end in
          let '(c, retired) := ActivationController.complete_call r c in
          (a, (c, retired ;;* answer))
      end
  end.

End SimulatedGitHubReadAdapter.
