(* ===== verification/Capture.v ===== *)
(** * Selected captures ([transport_activation.py], lines 302-402, 615-632 and 955-1062)

    Admission of an owned read by the orchestration and the governance of its native context, and the
    capture of its observation: a locked section that admits and plans it, the exchange of the
    adapter, a locked section that keeps the capture if nothing else moved, and a last one that keeps
    the attempt whatever happened. *)

From Stdlib Require Import Ascii String.
From stdpp Require Import base list.
From S2P Require Import Prelude PyStr PyNumber Sha256 Canonical Records Kahn Obligations Epistemic Orchestration Admission Budget Progress Snapshot Receipts Strategy Lease Governance GovernanceReceipts Wrapper Session Supervisor Proposals GitHub ObservedSnapshots TransportLedger Activation Adapters.

(** ** Reading a record *)

Definition flag_at (v : pyval) (name : string) : res bool := let* w := subscript v name in Ok (truthy w).
Definition list_at (v : pyval) (name : string) : res (list pyval) := let* w := subscript v name in expect_list w.
Definition texts_at (v : pyval) (name : string) : res (list pystr) := let* l := list_at v name in res_map expect_str l.

(** [MAX_SELECTED_READ_CAPTURES - len(attempts) - len(inflight)] *)
Definition attempts_left (c : ActivationController) : Z :=
  MAX_SELECTED_READ_CAPTURES - Z.of_nat (length (cl_attempts (ac_log c))) - Z.of_nat (length (cl_inflight (ac_log c))).

(** ** Records of captures and attempts *)

(** The fields that a capture and an attempt share. *)
Definition admission_fields (next_state : OrchestrationState) (receipt : AdmissionReceipt)
    (admission : ToolAdmissionReceipt) : res (list (string * pyval)) :=
  let* state_id := OrchestrationState.state_id next_state in
  let* receipt_id := AdmissionReceipt.receipt_id receipt in
  let* admission_id := ToolAdmissionReceipt.receipt_id admission in
  Ok [("next_orchestration_state_id", VStr state_id); ("admission_receipt_id", VStr receipt_id);
      ("tool_admission_receipt_id", VStr admission_id); ("task_id", VStr (ta_task_id admission));
      ("governance_id", VStr (ta_governance_id admission)); ("tool_name", VStr (ta_tool_name admission))]%string.

Module SelectedReadCapture.

Definition canonical_record (r : SelectedReadCapture) : res pyval :=
  let* snapshot_id := ObservedReadSnapshot.snapshot_id (rc_snapshot r) in
  let* source := ObservedReadSnapshot.source_receipt (rc_snapshot r) in
  let* source_id := ExternalObservationReceipt.receipt_id source in
  let* admission := admission_fields (rc_next_orchestration_state r) (rc_admission_receipt r) (rc_tool_admission r) in
  Ok (obj ([("protocol_version", VStr (u "IBAE-SELECTED-READ-CAPTURE-V1")); ("snapshot_id", VStr snapshot_id);
            ("source_receipt_id", VStr source_id)]%string ++ admission ++
           [("selection_id", VStr (rc_selection_id r)); ("proposal_id", VStr (rc_proposal_id r));
            ("epoch", VInt (rc_epoch r)); ("transport_call_index", VInt (rc_transport_call_index r));
            ("transport_policy_id", opt_val VStr (rc_transport_policy_id r));
            ("credential_reference_id", opt_val VStr (rc_credential_reference_id r));
            ("simulation_only", VBool (rc_simulation_only r)); ("http_capture_native_accounted", VBool false);
            ("native_snapshot_read_required", VBool true); ("control_authority", VBool false);
            ("final_acceptance", VBool false)]%string)).

End SelectedReadCapture.

Module SelectedReadAttempt.

Definition canonical_record (r : SelectedReadAttempt) : res pyval :=
  let* admission := admission_fields (sr_next_orchestration_state r) (sr_admission_receipt r) (sr_tool_admission r) in
  Ok (obj ([("protocol_version", VStr (u "IBAE-SELECTED-READ-ATTEMPT-V1"))]%string ++ admission ++
           [("selection_id", VStr (sr_selection_id r)); ("proposal_id", VStr (sr_proposal_id r));
            ("source_binding_id", VStr (sr_source_binding_id r));
            ("occurrence_key", opt_val VStr (ta_occurrence_key (sr_tool_admission r)));
            ("epoch", VInt (sr_epoch r)); ("transport_call_index", opt_val VInt (sr_transport_call_index r));
            ("transport_reservation_consumed", VBool (Epistemic.is_some (sr_transport_call_index r)));
            ("transport_policy_id", opt_val VStr (sr_transport_policy_id r));
            ("credential_reference_id", opt_val VStr (sr_credential_reference_id r));
            ("status", VStr (sr_status r)); ("reason", VStr (sr_reason r));
            ("snapshot_id", opt_val VStr (sr_snapshot_id r)); ("simulation_only", VBool (sr_simulation_only r));
            ("native_http_execution", VBool false); ("control_authority", VBool false);
            ("final_acceptance", VBool false)]%string)).

End SelectedReadAttempt.

(** ** Admission of an owned read *)

Section capture.
Context {N : NativeSeals} {R : NativeRuntime} {I : ObjectIdentity}.

(** [SupervisorProjection(context).canonical_record()] *)
Definition live_projection (x : SupervisorContext) : res pyval :=
  let* projection := make_projection x [] in projection_value projection.

(** The proposed action is the owned read at its current occurrence. *)
Definition differs_from_read (payload : pyval) (action : ActionProposal) (occurrence : pystr) : res bool :=
  res_exists (λ t, t)
    [(let* key := subscript payload "proposal_key" in Ok (negb (is_text key (ap_proposal_key action))));
     (let* tool := subscript payload "tool_name" in Ok (negb (is_text tool (ap_capability action))));
     (let* own := ActionProposal.arguments action in
      let* proposed := subscript payload "arguments" in
      let* same := same_text own proposed in Ok (negb same));
     (let* keys := texts_at payload "target_obligation_keys" in
      let* targets := res_map canonical_obligation_id keys in
      Ok (negb (bool_decide (ap_target_obligation_ids action = sorted targets))));
     Ok (negb (bool_decide (ap_occurrence_key action = Some occurrence)))].

(** The governance rejection of a tool is an exception here. *)
Definition granted {A} (o : outcome A) : res A :=
  match o with Granted a => Ok a | Rejected _ => Raise RuntimeError | Failed e => Raise e end.

(** [_admit_selected_read] *)
Definition admit_selected_read (x : SupervisorContext) (proposal : NormalizedProposal) (batch : ProposalBatch)
    (dependency occurrence : pystr) : res (AdmissionTransition * ToolAdmissionReceipt) :=
  live_projection x ;;*
  require_fingerprint dependency ;;*
  let* kind := NormalizedProposal.kind proposal in
  match bool_decide (kind = READ), pb_proposals batch, bool_decide (pb_ordering batch = DECLARED_SEQUENCE) with
  | true, [action], true =>
      let* payload := NormalizedProposal.payload proposal in
      let* differs := differs_from_read payload action occurrence in
      raise_if differs ValueError ;;*
      let* named := OrchestrationState.capability (sx_orchestration_state x) (ap_capability action) in
      match named with
      | None => Raise TypeError
      | Some capability =>
          raise_if (negb (bool_decide (cap_replay_safety capability = OCCURRENCE_SENSITIVE))) ValueError ;;*
          let* transition := admit_batch (sx_orchestration_state x) batch in
          match rc_decisions (tr_receipt transition) with
          | [decision] =>
              raise_if (negb (bool_decide (ad_status decision = ADMITTED))) ValueError ;;*
              let* admission := granted (GovernanceWrapper.admit_tool (sx_governance_policy x) (sx_task x)
                (sx_governance x) decision action capability (Some VOLATILE_READ) (Some dependency)
                DETERMINISTIC_ORCHESTRATOR) in
              Ok (transition, admission)
          | _ => Raise ValueError
          end
      end
  | _, _, _ => Raise ValueError
  end.

(** ** Capture of a selected read *)

Inductive ReadAdapter :=
  | LiveAdapter (a : GitHubReadAdapter) (w : network)
  | SimulatedAdapter (a : SimulatedGitHubReadAdapter).

(** The adapter has the type that the controller asks for and belongs to it. *)
Definition adapter_binding (a : ReadAdapter) (c : ActivationController) : res pyval :=
  match a, ac_simulation_only c with
  | LiveAdapter a _, false => GitHubReadAdapter.binding_record a c
  | SimulatedAdapter a, true => SimulatedGitHubReadAdapter.binding_record a c
  | _, _ => Raise TypeError
  end.

(** [adapter_type.observe], and what the live adapter then says of the receipt it returned. *)
Definition adapter_observe (a : ReadAdapter) (proposal : NormalizedProposal) (dependency : pystr)
    (c : ActivationController)
    : ReadAdapter * (ActivationController * res (ExternalObservationReceipt * option TransportCallReservation)) :=
  match a with
  | LiveAdapter a w =>
      let '(a, (c, observed)) := GitHubReadAdapter.observe a w proposal dependency c in
      match observed with
      | Raise e => (LiveAdapter a w, (c, Raise e))
      | Ok receipt =>
          let '(a, outcome) := GitHubReadAdapter.consume_live_outcome a c receipt in
          (LiveAdapter a w, (c, let* o := outcome in Ok (receipt.2, o)))
      end
  | SimulatedAdapter a =>
      let '(a, (c, observed)) := SimulatedGitHubReadAdapter.observe a proposal dependency c in
      (SimulatedAdapter a, (c, let* receipt := observed in Ok (receipt, None)))
  end.

(** What [capture_selected_read] keeps between its locked sections. *)
Record capture_ticket := {
  ct_plan : nat;
  ct_source : pystr;
  ct_tool : pystr;
  ct_selection_id : pystr;
  ct_proposal_id : pystr;
  ct_dependency : pystr;
  ct_request : pyval;
  ct_transition : AdmissionTransition;
  ct_admission : ToolAdmissionReceipt;
  ct_next_state_id : pystr;
  ct_fence : fence
}.

(** What is checked before the lock is taken. *)
Record capture_target := {
  cg_selection_id : pystr;
  cg_request : pyval
}.

Definition capture_target_of (a : ReadAdapter) (proposal : NormalizedProposal) (dependency : pystr)
    (c : ActivationController) : res capture_target :=
  require_fingerprint dependency ;;*
  let* binding := adapter_binding a c in
  let* task_id := str_at binding "task_id" in
  let* governance_id := str_at binding "governance_id" in
  ActivationController.check_binding task_id governance_id c ;;*
  let* raw := subscript binding "selection" in
  let* selection := GitHubReadSelection.from_record raw in
  let* plan := GitHubRequestPlan.make proposal selection (VStr dependency) in
  let* request := GitHubRequestPlan.canonical_record plan in
  let* selection_id := GitHubReadSelection.selection_id selection in
  Ok {| cg_selection_id := selection_id; cg_request := request |}.

(** The projection of the live context, bound to the controller and with authority to act. *)
Definition current_source (x : SupervisorContext) (c : ActivationController) : res pystr :=
  let* live := live_projection x in
  let* current := ActivationController.check_projection live c in
  source_binding current.

(** An owned live proposal of the same native context. *)
Definition is_owned (proposal : NormalizedProposal) (source : pystr) (o : OwnedStream) : bool :=
  existsb (λ kv, bool_decide (kv.1 = proposal) && bool_decide (kv.2 = source))
          (zip (ow_live_proposals o) (ow_live_source_bindings o)).

(** The checks and the admission of the first locked section. *)
Definition capture_admission (g : capture_target) (x : SupervisorContext) (proposal : NormalizedProposal)
    (batch : ProposalBatch) (dependency : pystr) (c : ActivationController)
    : res (PendingCapture * (AdmissionTransition * ToolAdmissionReceipt) * pystr) :=
  ActivationController.check_active c ;;*
  raise_if (negb (bool_decide (ac_stage c = OPENAI_SELECTED_READS))) ValueError ;;*
  raise_if (Epistemic.is_some (ow_capture_plan (ac_owned c)) || Epistemic.is_some (tl_pending (ac_ledger c))) ValueError ;;*
  raise_if (attempts_left c <=? 0) ValueError ;;*
  let* proposal_id := NormalizedProposal.proposal_id proposal in
  raise_if (str_in proposal_id (ow_used_read_proposals (ac_owned c))) ValueError ;;*
  let* payload := NormalizedProposal.payload proposal in
  let* tool := str_at payload "tool_name" in
  raise_if (negb (str_in tool (ActivationController.selected_read_tools c)) ||
            negb (str_in (cg_selection_id g) (ActivationController.selected_read_selection_ids c))) ValueError ;;*
  let* source := current_source x c in
  raise_if (negb (is_owned proposal source (ac_owned c))) ValueError ;;*
  match cl_next_state_id (ac_log c) with
  | None => Ok tt
  | Some expected =>
      let* state_id := OrchestrationState.state_id (sx_orchestration_state x) in
      raise_if (negb (bool_decide (state_id = expected))) ValueError
  end ;;*
  let* admitted := admit_selected_read x proposal batch dependency (ActivationController.capture_occurrence_key c) in
  let* next_state_id := OrchestrationState.state_id (tr_next_state admitted.1) in
  Ok ({| pc_source_binding := source; pc_tool_name := tool; pc_selection_id := cg_selection_id g;
         pc_proposal_id := proposal_id; pc_dependency_fingerprint := dependency; pc_transport_call_index := None |},
      admitted, next_state_id).

Definition set_plan (plan : option nat) (o : OwnedStream) : OwnedStream :=
  {| ow_live_proposals := ow_live_proposals o; ow_stream_overflow := ow_stream_overflow o;
     ow_live_source_bindings := ow_live_source_bindings o; ow_captures := ow_captures o;
     ow_used_read_proposals := ow_used_read_proposals o; ow_capture_plan := plan;
     ow_selection_records := ow_selection_records o |}.

Definition set_next_state (next : pystr) (l : CaptureLog) : CaptureLog :=
  {| cl_next_state_id := Some next; cl_attempts := cl_attempts l; cl_inflight := cl_inflight l; cl_plans := cl_plans l |}.

(** The new plan is outstanding, its proposal is consumed and the host state advances. *)
Definition start_plan (plan : PendingCapture) (next_state_id : pystr) (c : ActivationController)
    : ActivationController :=
  let o := ac_owned c in
  let l := ac_log c in
  let n := length (cl_plans l) in
  set_owned {| ow_live_proposals := ow_live_proposals o; ow_stream_overflow := ow_stream_overflow o;
               ow_live_source_bindings := ow_live_source_bindings o; ow_captures := ow_captures o;
               ow_used_read_proposals := ow_used_read_proposals o ++ [pc_proposal_id plan]; ow_capture_plan := Some n;
               ow_selection_records := ow_selection_records o |}
    (set_log {| cl_next_state_id := Some next_state_id; cl_attempts := cl_attempts l; cl_inflight := cl_inflight l ++ [n];
                cl_plans := cl_plans l ++ [plan] |} c).

(** The first locked section. *)
Definition capture_begin (a : ReadAdapter) (proposal : NormalizedProposal) (dependency : pystr)
    (x : SupervisorContext) (batch : ProposalBatch) : act capture_ticket :=
  do! g := reading (capture_target_of a proposal dependency) in
  do! n := reading (λ c, Ok (length (cl_plans (ac_log c)))) in
  do! admitted := reading (capture_admission g x proposal batch dependency) in
  let '(plan, (transition, admission), next_state_id) := admitted in
  updating (start_plan plan next_state_id) ;;!
  reading (λ c, let* f := ActivationController.verification_fence c in
    Ok {| ct_plan := n; ct_source := pc_source_binding plan; ct_tool := pc_tool_name plan;
          ct_selection_id := pc_selection_id plan; ct_proposal_id := pc_proposal_id plan; ct_dependency := dependency;
          ct_request := cg_request g; ct_transition := transition; ct_admission := admission;
          ct_next_state_id := next_state_id; ct_fence := f |}).

(** [status, reason] *)
Definition verdict : Type := pystr * pystr.
Definition capture_failed : verdict := (u "failed", u "capture_failed").
Definition request_mismatch : verdict := (u "invalid_observation", u "capture_request_mismatch").
Definition remote_unavailable : verdict := (u "unavailable", u "remote_observation_unavailable").
Definition content_rejected : verdict := (u "invalid_observation", u "snapshot_content_rejected").
Definition context_changed : verdict := (u "interrupted", u "capture_context_changed").
Definition epoch_retired : verdict := (u "interrupted", u "transport_epoch_retired").
Definition not_dispatched : verdict := (u "not_dispatched", u "capture_not_dispatched").
Definition captured : verdict := (u "captured", u "observation_captured").

(** A step of the [try] body that runs under a verdict. *)
Definition under {A B} (v : verdict) (r : res A) (k : A → verdict * res B) : verdict * res B :=
  match r with Ok a => k a | Raise e => (v, Raise e) end.

(** The native context has not changed. *)
Definition revalidate (t : capture_ticket) (x : SupervisorContext) (c : ActivationController) : res unit :=
  let* source := current_source x c in raise_if (negb (bool_decide (source = ct_source t))) ValueError.

(** From the answer of the adapter to the frozen snapshot. *)
Definition judge_answer (t : capture_ticket) (x : SupervisorContext)
    (answer : ExternalObservationReceipt * option TransportCallReservation) (c : ActivationController)
    : verdict * res ObservedReadSnapshot :=
  under capture_failed
    (if ac_simulation_only c then Ok tt
     else ActivationController.require_live_outcome answer.2 CALL_SELECTED_READ (fe_epoch (ct_fence t))
            (fe_call_count (ct_fence t)) c) (λ _,
  under capture_failed
    (let* observed := ExternalObservationReceipt.canonical_record answer.1 in
     let* request := subscript observed "request" in
     let* status := subscript observed "status" in
     Ok (request, status)) (λ '(request, status),
  under request_mismatch (raise_if (negb (py_equal request (ct_request t))) ValueError) (λ _,
  under remote_unavailable (raise_if (negb (is_text status (u "observed"))) ValueError) (λ _,
  under content_rejected (ObservedReadSnapshot.make answer.1) (λ snapshot,
  under context_changed (revalidate t x c) (λ _, (context_changed, Ok snapshot))))))).

(** [expected[4] += 1] *)
Definition one_more_call (f : fence) : fence :=
  {| fe_epoch := fe_epoch f; fe_stage := fe_stage f; fe_policy := fe_policy f; fe_credential := fe_credential f;
     fe_call_count := fe_call_count f + 1; fe_pending := fe_pending f; fe_owned := fe_owned f;
     fe_next_state_id := fe_next_state_id f; fe_attempts := fe_attempts f; fe_inflight := fe_inflight f |}.

Definition keep_capture (capture : SelectedReadCapture) (next : pystr) (c : ActivationController)
    : ActivationController :=
  let o := ac_owned c in
  set_owned {| ow_live_proposals := ow_live_proposals o; ow_stream_overflow := ow_stream_overflow o;
               ow_live_source_bindings := ow_live_source_bindings o; ow_captures := ow_captures o ++ [capture];
               ow_used_read_proposals := ow_used_read_proposals o; ow_capture_plan := ow_capture_plan o;
               ow_selection_records := ow_selection_records o |}
    (set_log (set_next_state next (ac_log c)) c).

(** The second locked section: the capture is kept if only its own reservation advanced. *)
Definition capture_retain (t : capture_ticket) (snapshot : ObservedReadSnapshot) : act SelectedReadCapture :=
  reading (ActivationController.check_verification_fence (one_more_call (ct_fence t))) ;;!
  reading (ActivationController.check_capture_plan (Some (ct_tool t)) (Some (ct_selection_id t))
             (Some (ct_proposal_id t)) (Some (ct_dependency t))) ;;!
  do! capture := reading (λ c, Ok
    {| rc_snapshot := snapshot; rc_next_orchestration_state := tr_next_state (ct_transition t);
       rc_admission_receipt := tr_receipt (ct_transition t); rc_tool_admission := ct_admission t;
       rc_selection_id := ct_selection_id t; rc_proposal_id := ct_proposal_id t;
       rc_epoch := ActivationController.epoch c; rc_transport_call_index := fe_call_count (ct_fence t);
       rc_transport_policy_id := ac_transport_policy_id c; rc_credential_reference_id := ac_credential_reference_id c;
       rc_simulation_only := ac_simulation_only c |}) in
  updating (keep_capture capture (ct_next_state_id t)) ;;!
  reading (λ _, Ok capture).

(** The call index of the ticket's plan. *)
Definition plan_index (t : capture_ticket) (c : ActivationController) : option Z :=
  cl_plans (ac_log c) !! ct_plan t ≫= pc_transport_call_index.

(** [except Exception] *)
Definition caught_verdict (t : capture_ticket) (v : verdict) (c : ActivationController) : verdict :=
  if ActivationController.revoked c || negb (ActivationController.epoch c =? fe_epoch (ct_fence t)) then epoch_retired
  else if Epistemic.is_some (plan_index t c) then v else not_dispatched.

(** The last locked section: the attempt is kept whatever happened. *)
Definition capture_finish (t : capture_ticket) (v : verdict) (capture : option SelectedReadCapture)
    : act SelectedReadAttempt :=
  do! snapshot_id := reading (λ _, match capture with
                                   | None => Ok None
                                   | Some r => let* i := ObservedReadSnapshot.snapshot_id (rc_snapshot r) in Ok (Some i)
                                   end) in
  do! attempt := reading (λ c, Ok
    {| sr_next_orchestration_state := tr_next_state (ct_transition t);
       sr_admission_receipt := tr_receipt (ct_transition t); sr_tool_admission := ct_admission t;
       sr_source_binding_id := ct_source t; sr_selection_id := ct_selection_id t; sr_proposal_id := ct_proposal_id t;
       sr_epoch := fe_epoch (ct_fence t); sr_transport_call_index := plan_index t c;
       sr_transport_policy_id := fe_policy (ct_fence t); sr_credential_reference_id := fe_credential (ct_fence t);
       sr_status := v.1; sr_reason := v.2; sr_snapshot_id := snapshot_id;
       sr_simulation_only := ac_simulation_only c |}) in
  updating (λ c,
    let l := ac_log c in
    let own := bool_decide (ow_capture_plan (ac_owned c) = Some (ct_plan t)) in
    let next := if own then Some (ct_next_state_id t) else cl_next_state_id l in
    let plan := if own then None else ow_capture_plan (ac_owned c) in
    set_owned (set_plan plan (ac_owned c))
      (set_log {| cl_next_state_id := next; cl_attempts := cl_attempts l ++ [attempt];
                  cl_inflight := filter (λ n, n ≠ ct_plan t) (cl_inflight l); cl_plans := cl_plans l |} c)) ;;!
  reading (λ _, Ok attempt).

(** The [try] body between the first and the last locked section: [x1] and [x2] are the native
    context before and after the exchange. *)
Definition capture_body (a : ReadAdapter) (t : capture_ticket) (proposal : NormalizedProposal)
    (x1 x2 : SupervisorContext) (c : ActivationController)
    : ReadAdapter * (ActivationController * (verdict * option SelectedReadCapture)) :=
  let '(a, (c, tried)) :=
    match revalidate t x1 c with
    | Raise e => (a, (c, (capture_failed, Raise e)))
    | Ok _ =>
        let '(a, (c, observed)) := adapter_observe a proposal (ct_dependency t) c in
        (a, (c, under capture_failed observed (λ answer, judge_answer t x2 answer c)))
    end in
  match tried with
  | (v, Ok snapshot) =>
      match capture_retain t snapshot c with
      | (c, Ok capture) => (a, (c, (captured, Some capture)))
      | (c, Raise _) => (a, (c, (caught_verdict t v c, None)))
      end
  | (v, Raise _) => (a, (c, (caught_verdict t v c, None)))
  end.

(** [capture_selected_read]: the capture, or the attempt that [SelectedReadCaptureError] carries. *)
Definition capture_selected_read (a : ReadAdapter) (proposal : NormalizedProposal) (dependency : pystr)
    (x x1 x2 : SupervisorContext) (batch : ProposalBatch) (c : ActivationController)
    : ReadAdapter * (ActivationController * res (SelectedReadCapture + SelectedReadAttempt)) :=
  match capture_begin a proposal dependency x batch c with
  | (c, Raise e) => (a, (c, Raise e))
  | (c, Ok t) =>
      let '(a, (c, (v, capture))) := capture_body a t proposal x1 x2 c in
      let '(c, finished) := capture_finish t v capture c in
      (a, (c, let* attempt := finished in
              Ok (match capture with Some r => inl r | None => inr attempt end)))
  end.

End capture.

