(* ===== verification/Gates.v ===== *)
(** * The gates of activation ([transport_activation.py], lines 496-610, 745-768, 815-830, 1064-1265)

    The surface of selected captures that a model may see, the check of a model request, the
    verification of the stages, the record of the controller and the simulated supervisor call. *)

From Stdlib Require Import Ascii String.
From stdpp Require Import base list.
From S2P Require Import Prelude PyStr PyNumber Sha256 Canonical Records Kahn Obligations Epistemic Orchestration Admission Budget Progress Snapshot Receipts Strategy Lease Governance GovernanceReceipts Wrapper Session Supervisor Proposals GitHub ObservedSnapshots TransportLedger Activation Adapters Capture.

Definition SELECTED_CAPTURE_SURFACE_VERSION : pystr := u "IBAE-SELECTED-CAPTURE-SURFACE-V1".
Definition MAX_SELECTED_CAPTURE_SURFACE_BYTES : Z := 131072.

(** ** The surface of selected captures *)

(** [if b: reasons.append(name)] *)
Definition reason (b : bool) (name : string) : list pystr := if b then [u name] else [].

Definition unready_classes : list pystr := [u "governance_blocked"; u "pending_lease"; u "complete"].

(** What blocks every candidate. *)
Definition blocking_reasons (record surface : pyval) (reserved : bool) (remaining : Z) (c : ActivationController)
    : res (list pystr) :=
  let* missing := ActivationController.authority_missing record in
  let* class := str_at surface "control_classification" in
  let* ready := flag_at surface "ready_obligation_ids" in
  let* schemas := flag_at surface "strategy_schema_ids" in
  let* capacity := subscript2 surface "budgets" "orchestration_capacity" in
  let* batch := int_item capacity "max_batch_proposals" in
  let* owners := int_item capacity "occurrence_owners" in
  let* state_id := subscript2 record "sources" "orchestration_state_id" in
  Ok (reason (negb (bool_decide (ac_stage c = OPENAI_SELECTED_READS))) "stage3_not_active" ++
      reason (ActivationController.revoked c) "transport_revoked" ++
      reason missing "native_authority_unavailable" ++
      reason (str_in class unready_classes) "native_control_not_ready" ++
      reason (remaining =? 0) "no_transport_capacity_after_model_call" ++
      reason (attempts_left c =? 0) "capture_attempt_limit" ++
      reason (MAX_RETAINED_PROPOSALS <=? Z.of_nat (length (ow_live_proposals (ac_owned c))))
        "owned_proposal_retention_limit" ++
      reason (Epistemic.is_some (ow_capture_plan (ac_owned c)) ||
              (Epistemic.is_some (tl_pending (ac_ledger c)) && negb reserved))
        "another_transport_operation_outstanding" ++
      reason (negb ready) "no_ready_obligation" ++
      reason (negb schemas) "no_declared_strategy_schema" ++
      reason (batch <? 1) "no_batch_capacity" ++
      reason (owners <? 1) "no_occurrence_capacity" ++
      reason (match cl_next_state_id (ac_log c) with None => false | Some i => negb (is_text state_id i) end)
        "host_orchestration_state_not_advanced").

(** What blocks a capability; [None] is a capability the surface does not name. *)
Definition capability_reasons (capability : option pyval) : res (list pystr) :=
  match capability with
  | None => Ok [u "capability_unavailable"]
  | Some v =>
      let* available := flag_at v "available" in
      let* safety := subscript v "replay_safety" in
      let* permission := subscript v "permission_id" in
      let* class := subscript v "granted_authority_class" in
      let* reuse := flag_at v "cache_reuse_granted" in
      let* unresolved := flag_at v "unresolved_state_count" in
      Ok (reason (negb available) "capability_unavailable" ++
          reason (negb (is_text safety (u "occurrence_sensitive"))) "capture_requires_occurrence_sensitive_capability" ++
          reason (is_none permission || negb (is_text class (u "volatile_read"))) "volatile_read_permission_missing" ++
          reason reuse "remote_http_cache_reuse_forbidden" ++
          reason unresolved "unresolved_capability_dependencies")
  end.

(** The arguments that a registered selection gives a tool; [except (TypeError, ValueError)]. *)
Definition selection_arguments (text : option pystr) (tool : pystr) : res (option (list (pyval * pyval)) * list pystr) :=
  match text with
  | None => Ok (None, [u "selected_resource_not_registered"])
  | Some text =>
      match (let* record := json_loads text in
             let* selection := GitHubReadSelection.from_record record in
             let* arguments := GitHubReadSelection.arguments_for selection tool in
             expect_dict arguments)
      with
      | Ok l => Ok (Some l, [])
      | Raise e => if type_or_value e then Ok (None, [u "selected_resource_does_not_support_tool"]) else Raise e
      end
  end.

(** [None if capability is None else capability[name]] *)
Definition capability_item (capability : option pyval) (name : string) : res pyval :=
  match capability with None => Ok VNone | Some v => subscript v name end.

(** One candidate: the record and whether it may be proposed. *)
Definition candidate (reasons : list pystr) (capabilities : list (pystr * pyval)) (selections : list (pystr * pystr))
    (pair : pystr * pystr) : res (bool * pyval) :=
  let '(tool, identity) := pair in
  let capability := snd <$> find (λ kv, bool_decide (kv.1 = tool)) (rev capabilities) in
  let text := snd <$> find (λ kv, bool_decide (kv.1 = identity)) selections in
  let* unavailable := capability_reasons capability in
  let* selected := selection_arguments text tool in
  let '(arguments, unsupported) := selected in
  let* uncovered := match capability, arguments with
                    | Some v, Some l =>
                        let* n := int_item v "semantic_argument_count" in
                        Ok (reason (n <? Z.of_nat (length l)) "argument_schema_cannot_cover_selection")
                    | _, _ => Ok []
                    end in
  let blocked := reasons ++ unavailable ++ unsupported ++ uncovered in
  let* capability_id := capability_item capability "capability_id" in
  let* permission_id := capability_item capability "permission_id" in
  let may := negb (nonempty blocked) in
  Ok (may,
      obj [("tool_name", VStr tool); ("selection_id", VStr identity);
           ("arguments", match arguments with None => VNone | Some l => VDict l end);
           ("proposal_kind", VStr (u "read")); ("may_propose_candidate", VBool may);
           ("host_admission_required", VBool true); ("execution_authorized", VBool false);
           ("blocking_reasons", strs_val (sorted_set blocked)); ("capability_id", capability_id);
           ("permission_id", permission_id)]%string).

(** [for tool in tools: for identity in identities] *)
Definition tool_pairs (c : ActivationController) : list (pystr * pystr) :=
  tool ← ActivationController.selected_read_tools c;
  identity ← ActivationController.selected_read_selection_ids c;
  [(tool, identity)].

(** [{name: item[name] for name in names}] *)
Definition picked (names : list (string * string)) (item : pyval) : res pyval :=
  let* l := res_map (λ n, let* v := subscript item n.2 in Ok (n.1, v)) names in Ok (obj l).

(** A reservation must be the pending model request of this record. *)
Definition check_reserved (record : pyval) (r : TransportCallReservation) (c : ActivationController) : res unit :=
  TransportLedger.check (ac_ledger c) r (ac_object c) ;;*
  let* binding := ActivationController.projection_binding record in
  raise_if (negb (bool_decide (tc_kind r = CALL_OPENAI)) || negb (bool_decide (tc_stage r = ac_stage c)) ||
            negb (bool_decide (tc_projection_id r = Some binding))) ValueError.

Definition selected_capture_surface (projection : pyval) (reservation : option TransportCallReservation)
    (c : ActivationController) : res pyval :=
  let* record := validate_projection projection in
  ActivationController.check_record_binding record c ;;*
  match reservation with None => Ok tt | Some r => check_reserved record r c end ;;*
  let reserved := Epistemic.is_some reservation in
  let pending_call := (if reserved then 0 else 1)%Z in
  let remaining_calls := ActivationController.remaining_transport_calls c in
  let remaining := Z.max 0 (remaining_calls - pending_call) in
  let* surface := subscript record "decision_surface" in
  let* reasons := blocking_reasons record surface reserved remaining c in
  let* ready := texts_at surface "ready_obligation_ids" in
  let* obligations := list_at surface "obligations" in
  let* flagged := res_map (λ item, let* i := str_at item "obligation_id" in
                                   Ok (str_in i ready, item)) obligations in
  let* targets := res_map (picked [("key", "key"); ("obligation_id", "obligation_id")]%string)
                          (map snd (filter (λ kv, kv.1 = true) flagged)) in
  let* capability_items := list_at surface "capabilities" in
  let* capabilities := res_map (λ item, let* name := str_at item "name" in Ok (name, item)) capability_items in
  let* candidates := res_map (candidate reasons capabilities (ow_selection_records (ac_owned c))) (tool_pairs c) in
  let* binding := source_binding record in
  let* epistemic := list_at surface "epistemic" in
  let* resolved := res_map (λ item, let* b := flag_at item "dependency_resolved" in Ok (b, item)) epistemic in
  let* dependencies := res_map (picked [("key", "key"); ("record_id", "record_id")]%string)
                               (map snd (filter (λ kv, kv.1 = true) resolved)) in
  let next_call := ActivationController.call_count c + pending_call in
  let result :=
    obj [("protocol_version", VStr SELECTED_CAPTURE_SURFACE_VERSION);
         ("simulation_only", VBool (ac_simulation_only c)); ("task_id", VStr (ac_task_id c));
         ("governance_id", VStr (ac_governance_id c)); ("stage", VInt (stage_number (ac_stage c)));
         ("epoch", VInt (ActivationController.epoch c));
         ("transport_policy_id", opt_val VStr (ac_transport_policy_id c));
         ("credential_reference_id", opt_val VStr (ac_credential_reference_id c));
         ("source_binding_id", VStr binding);
         ("selected_read_tools", strs_val (ActivationController.selected_read_tools c));
         ("selected_read_selection_ids", strs_val (ActivationController.selected_read_selection_ids c));
         ("current_openai_call_reserved", VBool reserved); ("remaining_transport_calls", VInt remaining_calls);
         ("remaining_after_current_openai_call", VInt remaining);
         ("remaining_capture_attempts", VInt (attempts_left c));
         ("host_next_capture_occurrence_key",
          VStr (ActivationController.occurrence_at (ActivationController.epoch c) next_call));
         ("ready_targets", VList targets); ("resolved_dependency_records", VList dependencies);
         ("candidates", VList (map snd candidates)); ("blocking_reasons", strs_val (sorted_set reasons));
         ("may_propose_candidate", VBool (existsb fst candidates)); ("host_admission_required", VBool true);
         ("unresolved_admission_checks", strs_val (map u
           ["fresh_native_context"; "exact_argument_schema"; "exact_strategy_parameters";
            "current_orchestration_tick"; "exact_dependency_fingerprint"; "declared_sequence_occurrence";
            "deterministic_batch_admission"; "governed_volatile_tool_admission"]));
         ("http_capture_native_accounted", VBool false); ("snapshot_native_read_separate", VBool true);
         ("control_authority", VBool false); ("execution_authorized", VBool false);
         ("final_acceptance", VBool false)]%string in
  let* copy := supervisor_copy MAX_SELECTED_CAPTURE_SURFACE_BYTES result in
  let* surface_id := domain_fingerprint (u "ibae.selected-capture-surface.v1") copy in
  merged copy [("surface_id", VStr surface_id)]%string.

(** [check_reservation] *)
Definition check_reservation (r : TransportCallReservation) (projection : pyval) (policy credential : pystr)
    (capture_surface_id : option pystr) (c : ActivationController) : res unit :=
  TransportLedger.check (ac_ledger c) r (ac_object c) ;;*
  ActivationController.check_deployment policy credential c ;;*
  let* record := ActivationController.check_projection projection c in
  let* binding := ActivationController.projection_binding record in
  raise_if (negb (bool_decide (tc_stage r = ac_stage c)) || negb (bool_decide (tc_kind r = CALL_OPENAI)) ||
            negb (bool_decide (tc_transport_policy_id r = Some policy)) ||
            negb (bool_decide (tc_credential_reference_id r = Some credential)) ||
            negb (bool_decide (tc_projection_id r = Some binding))) ValueError ;;*
  match capture_surface_id with
  | None => Ok tt
  | Some expected =>
      require_fingerprint expected ;;*
      let* surface := selected_capture_surface record (Some r) c in
      let* own := subscript surface "surface_id" in
      raise_if (negb (is_text own expected)) ValueError
  end.

(** ** Verification of the stages *)

(** [value is b] *)
Definition is_bool (v : pyval) (b : bool) : bool := match v with VBool b' => Bool.eqb b b' | _ => false end.

(** A replayed transcript: its record, the record of a second run and the identity of the report. *)
Record replayed := {
  rp_record : pyval;
  rp_replay : pyval;
  rp_report_id : pystr
}.

Definition accepts (r : replayed) (accepted : bool) : res bool :=
  let* final := subscript2 (rp_record r) "summary" "global_final_acceptance" in
  Ok (py_equal (rp_record r) (rp_replay r) && is_bool final accepted).

Definition offline (r : replayed) : res bool :=
  let* used := subscript2 (rp_record r) "trust_scope" "network_used" in Ok (is_bool used false).

Definition synthetic_cases : list (string * bool) :=
  [("happy_path", true); ("fake_completion_claim", false); ("missing_evidence", false)]%string.

(** [verify_synthetic_stage]; [run] is what the synthetic runner makes of a reference transcript, and
    [meanwhile] what other callers do to the controller while it runs. *)
Definition verify_synthetic_stage (owner : Z) (run : string → res replayed)
    (meanwhile : ActivationController → ActivationController) : act StageObservation :=
  do! f := reading ActivationController.verification_fence in
  reading (λ c, raise_if (negb (bool_decide (ac_stage c = SYNTHETIC))) ValueError) ;;!
  do! evidence := reading (λ _, res_map (λ '(name, accepted),
    let* r := run name in
    let* ok := accepts r accepted in
    raise_if (negb ok) ValueError ;;*
    let* quiet := offline r in
    raise_if (negb quiet) ValueError ;;*
    Ok (obj [("case", VStr (u name)); ("report_id", VStr (rp_report_id r))]%string)) synthetic_cases) in
  updating meanwhile ;;!
  ActivationController.conclude_verification owner f SYNTHETIC false
    (λ _, Ok (obj [("scope", VStr (u "offline_governed_replay")); ("cases", VList evidence)]%string)).

(** [_require_smoke_stream]; [expected] are the proposals of the happy path. *)
Definition require_smoke_stream (stage : ActivationStage) (expected : pyval) (c : ActivationController) : res unit :=
  ActivationController.check_active c ;;*
  raise_if (negb (bool_decide (ac_stage c = stage)) || Epistemic.is_some (tl_pending (ac_ledger c))) ValueError ;;*
  let o := ac_owned c in
  raise_if (ow_stream_overflow o || negb (nonempty (ow_live_proposals o))) ValueError ;;*
  let* records := res_map NormalizedProposal.canonical_record (ow_live_proposals o) in
  raise_if (negb (py_equal (VList records) expected)) ValueError.

Definition stream_binding (proposals : pyval) : res pystr :=
  domain_fingerprint (u "ibae.transport-proposal-stream.v1") proposals.

Definition stage_scope (simulated live : string) (c : ActivationController) : pyval :=
  VStr (u (if ac_simulation_only c then simulated else live)).

(** [verify_fake_tool_stage] *)
Definition verify_fake_tool_stage (owner : Z) (expected : pyval) (run : res replayed)
    (meanwhile : ActivationController → ActivationController) : act StageObservation :=
  do! f := reading ActivationController.verification_fence in
  reading (require_smoke_stream OPENAI_FAKE_TOOLS expected) ;;!
  do! r := reading (λ _, let* r := run in
                         let* ok := accepts r true in raise_if (negb ok) ValueError ;;* Ok r) in
  updating meanwhile ;;!
  ActivationController.conclude_verification owner f OPENAI_FAKE_TOOLS true (λ c,
    let* stream := stream_binding expected in
    Ok (obj [("scope", stage_scope "closed_simulated_stream_fake_tool_equivalence"
                                   "closed_live_stream_fake_tool_equivalence" c);
             ("proposal_stream_id", VStr stream); ("probe_report_id", VStr (rp_report_id r))]%string)).

(** [verify_fixture_stage]; [probe] is the report of the built-in fixture probe. *)
Definition verify_fixture_stage (owner : Z) (expected : pyval) (probe : res pyval)
    (meanwhile : ActivationController → ActivationController) : act StageObservation :=
  do! f := reading ActivationController.verification_fence in
  reading (require_smoke_stream OPENAI_DETERMINISTIC_READS expected) ;;!
  do! found := reading (λ _,
    let* raw := probe in
    let* result := bounded_synthetic_data raw 262144 in
    let* stream := stream_binding expected in
    raise_if (negb (is_bool (get_item result "equivalent") true) ||
              negb (is_bool (get_item result "live_verification") false) ||
              negb (is_text (get_item result "proposal_stream_id") stream)) ValueError ;;*
    let* report := expect_fingerprint (get_item result "report_id") in
    Ok (stream, report)) in
  updating meanwhile ;;!
  ActivationController.conclude_verification owner f OPENAI_DETERMINISTIC_READS true (λ c,
    Ok (obj [("scope", stage_scope "closed_simulated_stream_readonly_fixture_equivalence"
                                   "closed_live_stream_readonly_fixture_equivalence" c);
             ("proposal_stream_id", VStr found.1); ("probe_report_id", VStr found.2)]%string)).

(** [{(a, b), ..} == {(a', b'), ..}] *)
Definition same_pairs (a b : list (pystr * pystr)) : bool := forallb (λ p, bool_decide (p ∈ b)) a && forallb (λ p, bool_decide (p ∈ a)) b.

(** The locked beginning of [verify_selected_read_stage]: the fence and the snapshots to prove. *)
Definition selected_stage_begin (c : ActivationController) : res (fence * list pystr) :=
  let* f := ActivationController.verification_fence c in
  raise_if (negb (bool_decide (ac_stage c = OPENAI_SELECTED_READS)) || Epistemic.is_some (tl_pending (ac_ledger c)) ||
            Epistemic.is_some (ow_capture_plan (ac_owned c))) ValueError ;;*
  let captures := ow_captures (ac_owned c) in
  raise_if (negb (nonempty (tool_pairs c)) ||
            negb (same_pairs (map (λ r, (ta_tool_name (rc_tool_admission r), rc_selection_id r)) captures) (tool_pairs c)))
    ValueError ;;*
  let* ids := res_map (λ r, ObservedReadSnapshot.snapshot_id (rc_snapshot r)) captures in
  let snapshot_ids := sorted_set ids in
  raise_if (negb (length snapshot_ids =? length captures)%nat) ValueError ;;*
  Ok (f, snapshot_ids).

Definition check_snapshot_proof (result : pyval) (snapshot_ids : list pystr) : res pystr :=
  raise_if (negb (is_bool (get_item result "equivalent") true) ||
            negb (is_bool (get_item result "live_verification") false) ||
            negb (py_equal (get_item result "transport_calls") (VInt 0)) ||
            negb (py_equal (get_item result "source_snapshot_ids") (strs_val snapshot_ids)) ||
            negb (py_equal (get_item result "snapshot_count") (VInt (Z.of_nat (length snapshot_ids)))) ||
            negb (is_bool (get_item result "final_acceptance") false)) ValueError ;;*
  expect_fingerprint (get_item result "report_id").

Definition selected_stage_evidence (result : pyval) (report : pystr) (snapshot_ids : list pystr)
    (c : ActivationController) : res pyval :=
  let count := VInt (Z.of_nat (length snapshot_ids)) in
  let* receipts := res_map SelectedReadCapture.canonical_record (ow_captures (ac_owned c)) in
  let* attempts := res_map SelectedReadAttempt.canonical_record
                     (filter (λ r, sr_epoch r = ActivationController.epoch c) (cl_attempts (ac_log c))) in
  let* proof := subscript result "native_proof" in
  let* runs := subscript result "fresh_native_runs" in
  let* counters := subscript result "native_total_counters" in
  Ok (obj [("scope", stage_scope "simulated_capture_then_native_snapshot_consumption"
                                 "governed_http_capture_then_separate_native_snapshot_consumption" c);
           ("source_snapshot_ids", strs_val snapshot_ids);
           ("http_captures", if ac_simulation_only c then VInt 0 else count);
           ("simulated_http_captures", if ac_simulation_only c then count else VInt 0);
           ("capture_receipts", VList receipts); ("capture_attempts", VList attempts);
           ("probe_report_id", VStr report); ("native_proof", proof); ("fresh_native_runs", runs);
           ("native_total_counters", counters); ("native_proof_transport_calls", VInt 0);
           ("http_capture_native_accounted", VBool false); ("remote_current_state_verified", VBool false);
           ("external_truth_authenticated", VBool false)]%string).

(** [verify_selected_read_stage]; [probe] is the report of the snapshot proof. *)
Definition verify_selected_read_stage (owner : Z) (probe : res pyval)
    (meanwhile : ActivationController → ActivationController) : act StageObservation :=
  do! started := reading selected_stage_begin in
  let '(f, snapshot_ids) := started in
  do! proved := reading (λ _,
    let* raw := probe in
    let* result := bounded_synthetic_data raw 65536 in
    let* report := check_snapshot_proof result snapshot_ids in
    Ok (result, report)) in
  updating meanwhile ;;!
  ActivationController.conclude_verification owner f OPENAI_SELECTED_READS true
    (selected_stage_evidence proved.1 proved.2 snapshot_ids).

(** ** The record of the controller *)

Definition is_reserved (p : PendingCapture) : bool := Epistemic.is_some (pc_transport_call_index p).

(** Attempts and plans in flight that consumed a reservation. *)
Definition reserved_captures (c : ActivationController) : Z :=
  Z.of_nat (length (filter (λ r, Epistemic.is_some (sr_transport_call_index r) = true) (cl_attempts (ac_log c)))) +
  Z.of_nat (length (filter (λ n, from_option is_reserved false (cl_plans (ac_log c) !! n) = true)
                           (cl_inflight (ac_log c)))).

Definition attempt_statuses : list string :=
  ["captured"; "failed"; "unavailable"; "invalid_observation"; "interrupted"; "not_dispatched"]%string.

(** [self._observations.get(self.stage)] holds for this epoch. *)
Definition stage_verified (c : ActivationController) : res bool :=
  match ActivationController.observation_at (ac_stage c) c with
  | None => Ok false
  | Some observation => ActivationController.observed_in_epoch observation c
  end.

Definition all_stages : list ActivationStage :=
  [SYNTHETIC; OPENAI_FAKE_TOOLS; OPENAI_DETERMINISTIC_READS; OPENAI_SELECTED_READS].

(** The observations in the order of their stages. *)
Definition ordered_observations (c : ActivationController) : list StageObservation :=
  omap (λ s, ActivationController.observation_at s c) all_stages.

Definition controller_record (c : ActivationController) : res pyval :=
  raise_if (negb (reserved_captures c =? tl_selected_read_calls (ac_ledger c))) ValueError ;;*
  let* verified := stage_verified c in
  let* attempts := res_map SelectedReadAttempt.canonical_record (cl_attempts (ac_log c)) in
  let* observations := res_map StageObservation.canonical_record (ordered_observations c) in
  let passed := if ac_simulation_only c then u "simulation_passed" else u "passed" in
  let count (status : string) := Z.of_nat (length (filter (λ r, sr_status r = u status) (cl_attempts (ac_log c)))) in
  Ok (obj [("protocol_version", VStr ACTIVATION_VERSION); ("task_id", VStr (ac_task_id c));
           ("simulation_only", VBool (ac_simulation_only c));
           ("network_dispatch_allowed", VBool (negb (ac_simulation_only c)));
           ("governance_id", VStr (ac_governance_id c)); ("stage", VInt (stage_number (ac_stage c)));
           ("transport_policy_id", opt_val VStr (ac_transport_policy_id c));
           ("credential_reference_id", opt_val VStr (ac_credential_reference_id c));
           ("tool_profile", VStr (tool_profile_value (ActivationController.tool_profile c)));
           ("selected_read_tools", strs_val (ActivationController.selected_read_tools c));
           ("selected_read_selection_ids", strs_val (ActivationController.selected_read_selection_ids c));
           ("registered_selected_read_selection_ids", strs_val (map fst (ow_selection_records (ac_owned c))));
           ("epoch", VInt (ActivationController.epoch c)); ("epoch_scope", VStr (u "python_transport_only"));
           ("revoked", VBool (ActivationController.revoked c));
           ("maximum_transport_calls", VInt (tl_limit (ac_ledger c)));
           ("consumed_transport_calls", VInt (ActivationController.call_count c));
           ("openai_transport_calls", VInt (tl_openai_calls (ac_ledger c)));
           ("selected_http_reservations", VInt (tl_selected_read_calls (ac_ledger c)));
           ("remaining_transport_calls", VInt (ActivationController.remaining_transport_calls c));
           ("outstanding_call", VBool (Epistemic.is_some (tl_pending (ac_ledger c))));
           ("active_stage_verification", VStr (if verified then passed else u "not_verified"));
           ("selected_read_stage_verifier", VStr (u "owned_capture_and_native_snapshot_parity"));
           ("selected_capture_count", len_val (ow_captures (ac_owned c)));
           ("consumed_selected_proposals", len_val (ow_used_read_proposals (ac_owned c)));
           ("selected_capture_attempts_remaining", VInt (attempts_left c));
           ("selected_capture_attempts", VList attempts);
           ("selected_capture_outcomes", obj (map (λ s, (s, VInt (count s))) attempt_statuses));
           ("selected_capture_incomplete", len_val (cl_inflight (ac_log c)));
           ("stage_observations", VList observations); ("native_authority", VBool false);
           ("serialized_restore_supported", VBool false); ("live_recovery_verified", VBool false);
           ("effects_supported", VBool false)]%string).

(** ** The simulated supervisor call *)

(** [try: body finally: end], where an exception of the end replaces the result. *)
Definition act_finally {A} (body : act A) (last : act unit) : act A := λ c,
  let '(c, r) := body c in
  let '(c, closed) := last c in
  (c, closed ;;* r).

Section simulated.
Context {N : NativeSeals} {R : NativeRuntime} {I : ObjectIdentity}.

(** [SimulationActivationController.propose]; the deployment is that of the controller. *)
Definition simulate_propose (supervisor : FakeSupervisor) (projection : pyval) (index : Z)
    (fresh_handoff : option pyval) (previous_response_id : option pystr) : act NormalizedProposal :=
  do! started := reading (λ c,
    raise_if (negb (ac_simulation_only c)) TypeError ;;*
    raise_if (Epistemic.is_some previous_response_id) ValueError ;;*
    let* detached := ActivationController.check_projection projection c in
    match fresh_handoff with
    | None => Ok tt
    | Some raw =>
        let* handoff := handoff_from_record raw None in
        let* record := handoff_value handoff in
        let* own := subscript record "projection" in
        raise_if (negb (py_equal own detached)) ValueError
    end ;;*
    let* source := source_binding detached in
    ActivationController.check_active c ;;*
    match ac_transport_policy_id c, ac_credential_reference_id c with
    | Some policy, Some credential => Ok (detached, source, policy, credential)
    | _, _ => Raise TypeError
    end) in
  let '(detached, source, policy, credential) := started in
  do! r := (λ c, ActivationController.reserve_call detached (ac_stage c) (ActivationController.tool_profile c)
                   policy credential (ActivationController.selected_read_tools c) c) in
  act_finally
    (do! surface := reading (selected_capture_surface detached (Some r)) in
     do! text := reading (λ _, canonical_json surface) in
     updating (set_last_capture_surface text) ;;!
     do! proposed := reading (λ _, FakeSupervisor.propose supervisor detached index) in
     match proposed with
     | None => reading (λ _, Raise TypeError)
     | Some proposal =>
         reading (check_reservation r detached policy credential None) ;;!
         reading (λ _, raise_if (negb (tc_simulation_only r)) ValueError) ;;!
         ActivationController.retain_proposal proposal source ;;!
         reading (λ _, Ok proposal)
     end)
    (ActivationController.complete_call r).

End simulated.
