(* ===== verification/LedgerFacts.v ===== *)
(** * The transport ledger spends every call once

    Runs of the ledger, with the reservations they issue.  A budget is never refunded, one
    reservation at a time is valid, and one that is retired is never valid again. *)

From stdpp Require Import base list sorting relations numbers.
From S2P Require Import Prelude PyStr PyNumber Canonical Records Supervisor Proposals TransportLedger.

(** What holds of a ledger between two calls. *)
Record ledger_ok (owner : Z) (simulation : bool) (l : TransportLedger) : Prop := {
  lo_used : 0 <= tl_used l <= tl_limit l;
  lo_epoch : 0 <= tl_epoch l <= MAX_EPOCH;
  lo_counts : 0 <= tl_openai_calls l ∧ 0 <= tl_selected_read_calls l ∧
              tl_openai_calls l + tl_selected_read_calls l <= tl_used l;
  lo_revoked : tl_revoked l = true → tl_pending l = None;
  lo_pending : ∀ r, tl_pending l = Some r →
    tc_owner r = owner ∧ tc_epoch r = tl_epoch l ∧ tc_call_index r = tl_used l - 1 ∧
    tc_simulation_only r = simulation
}.

(** One call of the ledger by its owner, and the reservation it issues. *)
Inductive ledger_step (owner : Z) (simulation : bool)
    : TransportLedger → option TransportCallReservation → TransportLedger → Prop :=
  | step_reserved l q l' r :
      TransportLedger.reserve l owner simulation q = (l', Ok r) → ledger_step owner simulation l (Some r) l'
  | step_refused l q l' e :
      TransportLedger.reserve l owner simulation q = (l', Raise e) → ledger_step owner simulation l None l'
  | step_released l : ledger_step owner simulation l None (TransportLedger.with_pending l None)
  | step_retired l revoke : ledger_step owner simulation l None (TransportLedger.retire_epoch l revoke).1.

(** A run and the reservations it issued, in order. *)
Inductive ledger_run (owner : Z) (simulation : bool)
    : TransportLedger → list TransportCallReservation → TransportLedger → Prop :=
  | run_nil l : ledger_run owner simulation l [] l
  | run_step l o l1 rs l2 :
      ledger_step owner simulation l o l1 → ledger_run owner simulation l1 rs l2 →
      ledger_run owner simulation l (option_list o ++ rs) l2.

(** What a run can only increase. *)
Record ledger_grows (l l' : TransportLedger) : Prop := {
  lg_epoch : tl_epoch l <= tl_epoch l';
  lg_used : tl_used l <= tl_used l';
  lg_limit : tl_limit l' = tl_limit l;
  lg_revoked : tl_revoked l = true → tl_revoked l' = true
}.

#[export] Instance ledger_grows_preorder : PreOrder ledger_grows.
Proof.
  split; [by split|]. intros x y z [] []. split; [lia|lia|congruence|auto].
Qed.

Section ledger.
Context (owner : Z) (simulation : bool).

Lemma made_ledger_ok limit : 0 <= limit → ledger_ok owner simulation (TransportLedger.make limit).
Proof. intros H. split; cbn; try done; lia. Qed.

(** [reserve] grants exactly when the ledger is alive, idle and has budget left. *)
Lemma reserve_Ok l q l' r :
  TransportLedger.reserve l owner simulation q = (l', Ok r) ↔
  tl_revoked l = false ∧ tl_pending l = None ∧ tl_used l < tl_limit l ∧
  r = TransportLedger.issue l owner simulation q ∧
  l' = {| tl_epoch := tl_epoch l; tl_used := tl_used l + 1; tl_limit := tl_limit l; tl_revoked := false;
          tl_pending := Some r;
          tl_openai_calls := tl_openai_calls l + (if bool_decide (cq_kind q = CALL_OPENAI) then 1 else 0);
          tl_selected_read_calls := tl_selected_read_calls l +
                                    (if bool_decide (cq_kind q = CALL_SELECTED_READ) then 1 else 0) |}.
Proof.
  unfold TransportLedger.reserve. destruct (tl_revoked l) eqn:?, (tl_pending l) eqn:?; cbn; try naive_solver.
  destruct (Z.leb_spec (tl_limit l) (tl_used l)); [naive_solver lia|]. naive_solver.
Qed.

Lemma reserve_Raise l q l' e :
  TransportLedger.reserve l owner simulation q = (l', Raise e) → l' = l ∧ e = ValueError.
Proof.
  unfold TransportLedger.reserve. repeat case_match; naive_solver.
Qed.

Lemma check_Ok l r u :
  TransportLedger.check l r owner = Ok u ↔
  tc_owner r = owner ∧ tl_pending l = Some r ∧ tc_epoch r = tl_epoch l ∧ tl_revoked l = false.
Proof.
  unfold TransportLedger.check. rewrite raise_if_Ok, !orb_false_iff, !negb_false_iff, !Z.eqb_eq, bool_decide_eq_true.
  tauto.
Qed.

(** A revoked ledger, or one at the end of its epochs, stays at its epoch. *)
Lemma retire_epoch_state l revoke :
  let l' := (TransportLedger.retire_epoch l revoke).1 in
  tl_used l' = tl_used l ∧ tl_limit l' = tl_limit l ∧ tl_pending l' = None ∧
  tl_openai_calls l' = tl_openai_calls l ∧ tl_selected_read_calls l' = tl_selected_read_calls l ∧
  (tl_revoked l = true ∨ revoke = true → tl_revoked l' = true) ∧
  (tl_epoch l = MAX_EPOCH ∧ tl_epoch l' = tl_epoch l ∧ tl_revoked l' = true ∨
   tl_epoch l ≠ MAX_EPOCH ∧ tl_epoch l' = tl_epoch l + 1).
Proof.
  unfold TransportLedger.retire_epoch. destruct (Z.eqb_spec (tl_epoch l) MAX_EPOCH); cbn; [tauto|].
  repeat split; try tauto. intros [->| ->]; [done|]. apply orb_true_r.
Qed.

Lemma ledger_step_ok l o l' :
  ledger_step owner simulation l o l' → ledger_ok owner simulation l → ledger_ok owner simulation l'.
Proof.
  intros Hs Hl. pose proof Hl as [Hu He Hc Hr Hp]. destruct Hs as [l q l' r H|l q l' e H|l|l b].
  - apply reserve_Ok in H as (? & ? & ? & -> & ->). split; cbn; try done; try lia.
    + repeat case_bool_decide; try lia. congruence.
    + intros r [= <-]. repeat split; cbn; lia.
  - apply reserve_Raise in H as [-> _]. done.
  - split; cbn; auto. done.
  - pose proof (retire_epoch_state l b) as (? & ? & ? & ? & ? & ? & He').
    split; [lia| |lia|auto|congruence]. destruct He' as [(? & ? & _)|(? & ?)]; lia.
Qed.

Lemma ledger_step_grows l o l' : ledger_step owner simulation l o l' → ledger_grows l l'.
Proof.
  intros [l0 q l0' r H|l0 q l0' e H|l0|l0 b].
  - apply reserve_Ok in H as (? & ? & ? & -> & ->). split; cbn; try lia; congruence.
  - by apply reserve_Raise in H as [-> _].
  - by split.
  - pose proof (retire_epoch_state l0 b) as (? & ? & ? & ? & ? & ? & He).
    split; [|lia|done|auto]. destruct He as [(? & ? & _)|(? & ?)]; lia.
Qed.

Lemma ledger_run_ok l rs l' :
  ledger_run owner simulation l rs l' → ledger_ok owner simulation l → ledger_ok owner simulation l'.
Proof. induction 1; eauto using ledger_step_ok. Qed.

Lemma ledger_run_grows l rs l' : ledger_run owner simulation l rs l' → ledger_grows l l'.
Proof. induction 1; [done|]. etrans; [by eapply ledger_step_grows|done]. Qed.

Lemma ledger_run_app l1 rs1 l2 rs2 l3 :
  ledger_run owner simulation l1 rs1 l2 → ledger_run owner simulation l2 rs2 l3 →
  ledger_run owner simulation l1 (rs1 ++ rs2) l3.
Proof. induction 1; [done|]. intros. rewrite <- app_assoc. econstructor; eauto. Qed.

(** A step spends one call exactly when it issues a reservation, which names that call. *)
Lemma ledger_step_spends l o l' :
  ledger_step owner simulation l o l' →
  tl_used l' = tl_used l + Z.of_nat (length (option_list o)) ∧ ∀ r, o = Some r → tc_call_index r = tl_used l.
Proof.
  intros [l0 q l0' r H|l0 q l0' e H|l0|l0 b].
  - apply reserve_Ok in H as (? & ? & ? & -> & ->). cbn. split; [lia|]. by intros ? [= <-].
  - apply reserve_Raise in H as [-> _]. cbn. split; [lia|done].
  - cbn. split; [lia|done].
  - pose proof (retire_epoch_state l0 b) as (? & _). cbn. split; [lia|done].
Qed.

(** The calls of a run are numbered from the count at its start. *)
Lemma ledger_run_indices l rs l' :
  ledger_run owner simulation l rs l' →
  map tc_call_index rs = seqZ (tl_used l) (Z.of_nat (length rs)) ∧
  tl_used l' = tl_used l + Z.of_nat (length rs).
Proof.
  induction 1 as [l|l o l1 rs l2 Hs Hr [IH1 IH2]]; [cbn; split; [done|lia]|].
  apply ledger_step_spends in Hs as [Hu Hi]. rewrite IH2, Hu. destruct o as [r|]; cbn in *.
  - rewrite (Hi r eq_refl), IH1, Hu. split; [|lia].
    rewrite (seqZ_cons (tl_used l)) by lia. f_equal. f_equal; lia.
  - rewrite IH1, Hu. split; [|lia]. f_equal. lia.
Qed.

(** Reservations are never issued twice: the record of one identifies its object. *)
Lemma issued_distinct l rs l' : ledger_run owner simulation l rs l' → NoDup rs.
Proof.
  intros [H _]%ledger_run_indices. apply (NoDup_fmap_1 tc_call_index). change (fmap ?f ?l) with (map f l).
  rewrite H. apply NoDup_seqZ.
Qed.

(** A spent reservation that is not pending is refused from then on. *)
Lemma spent_stays_spent l rs l' r :
  ledger_ok owner simulation l → ledger_run owner simulation l rs l' →
  tc_call_index r < tl_used l → tl_pending l ≠ Some r → tl_pending l' ≠ Some r.
Proof.
  intros Hok Hrun. induction Hrun as [l|l o l1 rs l2 Hs Hr IH]; [done|]. intros Hi Hp.
  apply IH; [by eapply ledger_step_ok| |].
  - pose proof (lg_used _ _ (ledger_step_grows _ _ _ Hs)). lia.
  - destruct Hs as [l0 q l0' r0 H|l0 q l0' e H|l0|l0 b].
    + apply reserve_Ok in H as (? & ? & ? & -> & ->). cbn. intros [= <-]. cbn in Hi. lia.
    + by apply reserve_Raise in H as [-> _].
    + done.
    + pose proof (retire_epoch_state l0 b) as (_ & _ & -> & _). done.
Qed.

End ledger.

(** After a run from a new ledger, only the last reservation issued can pass the check. *)
Lemma only_last_valid owner simulation limit rs l :
  0 <= limit → ledger_run owner simulation (TransportLedger.make limit) rs l →
  ∀ r, TransportLedger.check l r owner = Ok tt → ∃ earlier, rs = earlier ++ [r].
Proof.
  intros Hlim Hrun r (_ & Hp & _)%check_Ok. pose proof (made_ledger_ok owner simulation limit Hlim) as Hok0.
  enough (∀ l0, ledger_ok owner simulation l0 → ledger_run owner simulation l0 rs l →
            tl_pending l0 = Some r ∧ rs = [] ∨ ∃ earlier, rs = earlier ++ [r]) as Hlast.
  { destruct (Hlast _ Hok0 Hrun) as [[? _]|?]; done. }
  clear Hrun Hok0. intros l0 Hok0 Hrun. induction Hrun as [l|l0 o l1 rs l2 Hs Hr IH]; [by left|].
  pose proof (ledger_step_ok _ _ _ _ _ Hs Hok0) as Hok1. destruct (IH Hp Hok1) as [[Hp1 ->]|Hlast].
  - destruct Hs as [l0 q l1 r0 H|l0 q l1 e H|l0|l0 b]; cbn.
    + apply reserve_Ok in H as (_ & _ & _ & -> & ->). cbn in Hp1. injection Hp1 as <-. right. by exists [].
    + apply reserve_Raise in H as [-> _]. by left.
    + done.
    + pose proof (retire_epoch_state l0 b) as (_ & _ & Hn & _). congruence.
  - right. destruct Hlast as [e ->]. exists (option_list o ++ e). by rewrite app_assoc.
Qed.

(** The rehearsal of a rollback succeeds for every owner: the retired reservation is refused and the
    exhausted budget stays exhausted. *)
Lemma rollback_rehearsal_passes owner : ∃ v, rollback_rehearsal owner = Ok v.
Proof.
  unfold rollback_rehearsal.
  set (r := TransportLedger.issue (TransportLedger.make 1) owner false rehearsal_request).
  destruct (TransportLedger.reserve (TransportLedger.make 1) owner false rehearsal_request) as [l [r'|e]] eqn:E.
  2: { vm_compute in E. discriminate E. }
  apply reserve_Ok in E as (_ & _ & _ & -> & ->). fold r. cbn [res_bind].
  match goal with |- context [TransportLedger.check ?l r owner ;;* _] => set (l1 := l) end.
  assert (TransportLedger.check l1 r owner = Ok tt) as -> by by apply check_Ok.
  cbn [res_bind]. destruct (TransportLedger.retire_epoch l1 false) as [l2 [u|e]] eqn:E2.
  2: { unfold TransportLedger.retire_epoch in E2. cbn in E2. discriminate E2. }
  pose proof (retire_epoch_state l1 false) as (Hu & Hl & Hp & _). rewrite E2 in Hu, Hl, Hp. cbn [fst] in Hu, Hl, Hp.
  cbn [res_bind]. destruct (TransportLedger.check l2 r owner) as [v|e] eqn:Ec; [apply check_Ok in Ec; naive_solver|].
  cbn [is_ok raise_if res_bind].
  destruct (TransportLedger.reserve l2 owner false rehearsal_request) as [l3 [r3|e3]] eqn:E3.
  { apply reserve_Ok in E3 as (_ & _ & H & _). rewrite Hu, Hl in H. cbn in H. lia. }
  apply reserve_Raise in E3 as [-> _]. cbn [is_ok raise_if res_bind]. rewrite Hu, Z.eqb_refl. cbn [negb raise_if res_bind].
  eauto.
Qed.
