(* ===== verification/ActivationFacts.v ===== *)
(** * The activation controller under any interleaving

    The invariant of the controller that every locked action keeps, its refinement of the transport
    ledger, and a system of concurrent captures: callers interleave locked actions in any order.  What
    a permit, an authorization and the record of captures mean follows from the invariant. *)

From stdpp Require Import base list relations.
From S2P Require Import Prelude PyStr PyNumber Canonical Records RecordsFacts Orchestration Admission Governance Receipts Strategy Lease Session Supervisor Proposals GitHub ObservedSnapshots TransportLedger LedgerFacts Activation Adapters Capture Gates.

Import ActivationController.

(** ** Actions *)

Lemma bind_reading {A B} (f : ActivationController → res A) (k : A → act B) c :
  act_bind (reading f) k c = match f c with Ok a => k a c | Raise e => (c, Raise e) end.
Proof. done. Qed.

Lemma bind_updating {B} f (k : unit → act B) c : act_bind (updating f) k c = k tt (f c).
Proof. done. Qed.

(** A property of the state that an action keeps, whether it returns or raises. *)
Definition keeps {A} (P : ActivationController → Prop) (m : act A) : Prop := ∀ c, P c → P (m c).1.

Lemma keeps_bind {A B} P (m : act A) (k : A → act B) : keeps P m → (∀ a, keeps P (k a)) → keeps P (act_bind m k).
Proof.
  intros Hm Hk c Hc. unfold act_bind. specialize (Hm c Hc). destruct (m c) as [c' [a|e]]; [by apply Hk|done].
Qed.

Lemma keeps_reading {A} P (f : ActivationController → res A) : keeps P (reading f).
Proof. by intros c Hc. Qed.

Lemma keeps_updating P f : (∀ c, P c → P (f c)) → keeps P (updating f).
Proof. intros Hf c Hc. by apply Hf. Qed.

Lemma keeps_finally {A} P (m : act A) last : keeps P m → keeps P last → keeps P (act_finally m last).
Proof.
  intros Hm Hl c Hc. unfold act_finally. specialize (Hm c Hc). destruct (m c) as [c' r].
  specialize (Hl c' Hm). by destruct (last c') as [c'' ?].
Qed.

#[export] Hint Resolve keeps_bind keeps_reading keeps_updating keeps_finally : activation.

(** ** The invariant *)

(** The authorization in force is a checked instruction for this controller in its current stage. *)
Record authorized (a : OperatorStageAuthorization) (c : ActivationController) : Prop := {
  az_check : OperatorStageAuthorization.check a = Ok tt;
  az_stage : oa_stage a = ac_stage c;
  az_mode : oa_simulation_only a = ac_simulation_only c;
  az_task : oa_task_id a = ac_task_id c;
  az_governance : oa_governance_id a = ac_governance_id c;
  az_policy : ac_transport_policy_id c = Some (oa_transport_policy_id a);
  az_credential : ac_credential_reference_id c = Some (oa_credential_reference_id a)
}.

(** An outstanding reservation is within the current stage, deployment and authorization. *)
Record permitted (r : TransportCallReservation) (c : ActivationController) : Prop := {
  pm_stage : tc_stage r = ac_stage c;
  pm_task : tc_task_id r = ac_task_id c;
  pm_governance : tc_governance_id r = ac_governance_id c;
  pm_policy : tc_transport_policy_id r = ac_transport_policy_id c;
  pm_credential : tc_credential_reference_id r = ac_credential_reference_id c;
  pm_active : ac_stage c ≠ SYNTHETIC;
  pm_kind : match tc_kind r with
            | CALL_OPENAI => True
            | CALL_SELECTED_READ =>
                ac_stage c = OPENAI_SELECTED_READS ∧
                (∃ tool, tc_tool_name r = Some tool ∧ tool ∈ selected_read_tools c) ∧
                (∃ selection, tc_selection_id r = Some selection ∧ selection ∈ selected_read_selection_ids c)
            | CALL_ROLLBACK_REHEARSAL => False
            end
}.

(** The reservations that attempts and plans in flight consumed. *)
Definition reserved_of (l : CaptureLog) : nat :=
  length (filter (λ r, Epistemic.is_some (sr_transport_call_index r) = true) (cl_attempts l)) +
  length (filter (λ n, from_option is_reserved false (cl_plans l !! n) = true) (cl_inflight l)).

(** The captures are accounted for. *)
Record log_ok (plan : option nat) (reads : Z) (l : CaptureLog) : Prop := {
  lk_plan : ∀ n, plan = Some n → n ∈ cl_inflight l;
  lk_distinct : NoDup (cl_inflight l);
  lk_plans : ∀ n, n ∈ cl_inflight l → (n < length (cl_plans l))%nat;
  lk_bound : Z.of_nat (length (cl_attempts l) + length (cl_inflight l)) <= MAX_SELECTED_READ_CAPTURES;
  lk_reserved : Z.of_nat (reserved_of l) = reads
}.

Record controller_ok (c : ActivationController) : Prop := {
  co_ledger : ledger_ok (ac_object c) (ac_simulation_only c) (ac_ledger c);
  co_calls : tl_openai_calls (ac_ledger c) + tl_selected_read_calls (ac_ledger c) = tl_used (ac_ledger c);
  co_authorization : match ac_authorization c with None => ac_stage c = SYNTHETIC | Some a => authorized a c end;
  co_permit : ∀ r, tl_pending (ac_ledger c) = Some r → permitted r c;
  co_stream : Z.of_nat (length (ow_live_proposals (ac_owned c))) <= MAX_RETAINED_PROPOSALS ∧
              length (ow_live_source_bindings (ac_owned c)) = length (ow_live_proposals (ac_owned c));
  co_log : log_ok (ow_capture_plan (ac_owned c)) (tl_selected_read_calls (ac_ledger c)) (ac_log c)
}.

Lemma no_captures_ok : log_ok None 0 no_captures.
Proof. split; cbn; try done; [constructor|by intros n ?%elem_of_nil]. Qed.

Lemma log_ok_no_plan plan reads l : log_ok plan reads l → log_ok None reads l.
Proof. intros []. by split. Qed.

(** A new controller satisfies the invariant. *)
Lemma make_controller_ok object simulation task governance limit policy credential c :
  make object simulation task governance limit policy credential = Ok c → controller_ok c.
Proof.
  unfold make, check_count. intros H. res_inv. bool_inv. subst. split; cbn; try done.
  - apply made_ledger_ok. lia.
  - apply no_captures_ok.
Qed.

(** ** Updates that keep the invariant *)

Lemma set_observations_ok l c : controller_ok c → controller_ok (set_observations l c).
Proof.
  intros [H1 H2 H3 H4 H5 H6]. split; cbn; try done.
  - destruct (ac_authorization c); [|done]. by destruct H3; split.
  - intros r Hr. by destruct (H4 r Hr); split.
Qed.

Lemma set_last_capture_surface_ok text c : controller_ok c → controller_ok (set_last_capture_surface text c).
Proof.
  intros [H1 H2 H3 H4 H5 H6]. split; cbn; try done.
  - destruct (ac_authorization c); [|done]. by destruct H3; split.
  - intros r Hr. by destruct (H4 r Hr); split.
Qed.

(** The stream of the epoch may be replaced by a bounded one with the same plan or none. *)
Lemma set_owned_ok o c :
  controller_ok c → Z.of_nat (length (ow_live_proposals o)) <= MAX_RETAINED_PROPOSALS →
  length (ow_live_source_bindings o) = length (ow_live_proposals o) →
  ow_capture_plan o = None ∨ ow_capture_plan o = ow_capture_plan (ac_owned c) → controller_ok (set_owned o c).
Proof.
  intros [H1 H2 H3 H4 H5 H6] Hn Hb Hp. split; cbn; try done.
  - destruct (ac_authorization c); [|done]. by destruct H3; split.
  - intros r Hr. by destruct (H4 r Hr); split.
  - destruct Hp as [->| ->]; [by eapply log_ok_no_plan|done].
Qed.

(** The ledger may take a step that issues nothing. *)
Lemma set_ledger_ok l c :
  controller_ok c → ledger_step (ac_object c) (ac_simulation_only c) (ac_ledger c) None l →
  tl_pending l = None ∨ l = ac_ledger c → tl_openai_calls l = tl_openai_calls (ac_ledger c) →
  tl_selected_read_calls l = tl_selected_read_calls (ac_ledger c) → controller_ok (set_ledger l c).
Proof.
  intros [H1 H2 H3 H4 H5 H6] Hs Hp Ho Hr. split; cbn; try done.
  - by eapply ledger_step_ok.
  - apply ledger_step_spends in Hs as [-> _]. cbn. rewrite Ho, Hr. lia.
  - destruct (ac_authorization c); [|done]. by destruct H3; split.
  - destruct Hp as [->| ->]; [done|]. intros r Hq. by destruct (H4 r Hq); split.
  - by rewrite Hr.
Qed.

Lemma retire_ok revoke c :
  controller_ok c → controller_ok (set_ledger (TransportLedger.retire_epoch (ac_ledger c) revoke).1 c).
Proof.
  intros H. pose proof (retire_epoch_state (ac_ledger c) revoke) as (_ & _ & ? & ? & ? & _).
  apply set_ledger_ok; auto. constructor.
Qed.

(** The stage moves only while no call is outstanding. *)
Lemma set_stage_ok stage a c :
  controller_ok c → tl_pending (ac_ledger c) = None →
  match a with None => stage = SYNTHETIC | Some a => authorized a (set_stage stage (Some a) c) end →
  controller_ok (set_stage stage a c).
Proof.
  intros [H1 H2 H3 H4 H5 H6] Hp Ha. split; cbn; try done.
  - destruct a as [a|]; [|done]. by destruct Ha; split.
  - by rewrite Hp.
Qed.

Lemma set_deployment_ok policy credential c :
  controller_ok c → tl_pending (ac_ledger c) = None → ac_authorization c = None →
  controller_ok (set_deployment policy credential c).
Proof.
  intros [H1 H2 H3 H4 H5 H6] Hp Ha. rewrite Ha in H3. split; cbn; try done; [by rewrite Ha|by rewrite Hp].
Qed.

Lemma no_stream_ok c : controller_ok c → controller_ok (set_owned no_stream c).
Proof. intros H. apply set_owned_ok; auto. done. Qed.

(** ** Reservations *)

Lemma reserve_step request c :
  (reserve request c).1 = set_ledger (ac_ledger (reserve request c).1) c ∧
  ledger_step (ac_object c) (ac_simulation_only c) (ac_ledger c)
    (match (reserve request c).2 with Ok r => Some r | Raise _ => None end) (ac_ledger (reserve request c).1).
Proof.
  unfold reserve, on_ledger.
  destruct (TransportLedger.reserve _ _ _ _) as [l [r|e]] eqn:E; cbn; (split; [done|]).
  - by eapply step_reserved.
  - by eapply step_refused.
Qed.

Lemma set_ledger_same c : set_ledger (ac_ledger c) c = c.
Proof. by destruct c. Qed.

(** What a granted reservation is, and the controller after it. *)
Lemma reserve_granted request c c' r :
  reserve request c = (c', Ok r) →
  tl_revoked (ac_ledger c) = false ∧ tl_pending (ac_ledger c) = None ∧
  r = TransportLedger.issue (ac_ledger c) (ac_object c) (ac_simulation_only c) (request c) ∧
  ∃ l, TransportLedger.reserve (ac_ledger c) (ac_object c) (ac_simulation_only c) (request c) = (l, Ok r) ∧
       c' = set_ledger l c.
Proof.
  unfold reserve, on_ledger. destruct (TransportLedger.reserve _ _ _ _) as [l o] eqn:E. intros [= <- ->].
  pose proof E as (? & ? & _ & ? & _)%reserve_Ok. eauto 10.
Qed.

Lemma reserve_refused request c c' e : reserve request c = (c', Raise e) → c' = c.
Proof.
  unfold reserve, on_ledger. destruct (TransportLedger.reserve _ _ _ _) as [l o] eqn:E. intros [= <- ->].
  apply reserve_Raise in E as [-> _]. apply set_ledger_same.
Qed.

(** A granted request that is within the stage leaves everything but the captures in order. *)
Lemma granted_ok request c l r :
  controller_ok c → permitted (TransportLedger.issue (ac_ledger c) (ac_object c) (ac_simulation_only c) (request c)) c →
  TransportLedger.reserve (ac_ledger c) (ac_object c) (ac_simulation_only c) (request c) = (l, Ok r) →
  ledger_ok (ac_object c) (ac_simulation_only c) l ∧ tl_openai_calls l + tl_selected_read_calls l = tl_used l ∧
  (∀ r, tl_pending l = Some r → permitted r (set_ledger l c)).
Proof.
  intros [H1 H2 H3 H4 H5 H6] Hr E. split; [by eapply ledger_step_ok; [eapply step_reserved|]|].
  apply reserve_Ok in E as (_ & _ & _ & -> & ->). cbn. pose proof (pm_kind _ _ Hr) as Hk. cbn in Hk. split.
  - destruct (cq_kind (request c)); [| |done]; repeat case_bool_decide; try congruence; lia.
  - intros r [= <-]. by destruct Hr; split.
Qed.

(** ** The actions *)

Lemma rollback_ok : keeps controller_ok rollback.
Proof.
  intros c Hc. unfold rollback. rewrite bind_reading. destruct (check_active c); [|done].
  unfold act_bind, on_ledger. pose proof (retire_ok false c Hc) as Hr.
  pose proof (retire_epoch_state (ac_ledger c) false) as (_ & _ & Hp & _).
  destruct (TransportLedger.retire_epoch (ac_ledger c) false) as [l [u|e]]; [|done]. cbn in *.
  apply no_stream_ok, set_observations_ok, set_stage_ok; done.
Qed.

Lemma revoke_ok : keeps controller_ok revoke.
Proof.
  intros c Hc. unfold revoke. destruct (revoked c); [done|]. unfold act_bind, on_ledger. pose proof (retire_ok true c Hc) as Hr.
  destruct (TransportLedger.retire_epoch (ac_ledger c) true) as [l [u|e]]; [|done]. cbn in *.
  by apply no_stream_ok, set_observations_ok.
Qed.

(** A rollback that returned left no call outstanding and no authorization. *)
Lemma rollback_returned c c' :
  rollback c = (c', Ok tt) →
  tl_pending (ac_ledger c') = None ∧ ac_authorization c' = None ∧ ac_stage c' = SYNTHETIC ∧
  tl_epoch (ac_ledger c') = tl_epoch (ac_ledger c) + 1 ∧ ac_observations c' = [] ∧ ac_owned c' = no_stream ∧
  tl_used (ac_ledger c') = tl_used (ac_ledger c) ∧ ac_log c' = ac_log c.
Proof.
  unfold rollback. rewrite bind_reading. destruct (check_active c); [|done].
  unfold act_bind, on_ledger, TransportLedger.retire_epoch. destruct (_ =? _); [done|]. cbn. by intros [= <-].
Qed.

Lemma configure_transport_ok policy credential : keeps controller_ok (configure_transport policy credential).
Proof.
  intros c Hc. unfold configure_transport. destruct (_ ;;* _); [|done]. destruct (is_deployment _ _ _); [done|].
  unfold act_bind. pose proof (rollback_ok c Hc) as Hr. destruct (rollback c) as [c' [[]|e]] eqn:E; [|done].
  apply rollback_returned in E as (? & ? & _). cbn in *. by apply set_deployment_ok.
Qed.

Lemma authorize_ok a : keeps controller_ok (authorize a).
Proof.
  intros c Hc. unfold authorize. rewrite bind_reading. match goal with |- context [match ?t with _ => _ end] => destruct t as [u|e] eqn:E end; [|done].
  unfold act_bind, on_ledger. pose proof (retire_ok false c Hc) as Hr.
  pose proof (retire_epoch_state (ac_ledger c) false) as (_ & _ & Hp & _).
  destruct (TransportLedger.retire_epoch (ac_ledger c) false) as [l [v|e]]; [|done]. cbn in *.
  apply no_stream_ok, set_stage_ok; [done|done|]. unfold check_binding, check_deployment, is_deployment in E.
  res_inv. bool_inv. simplify_eq. repeat match goal with H : Bool.eqb _ _ = true |- _ => apply Bool.eqb_prop in H end.
  by split.
Qed.

Lemma reserve_call_ok projection stage profile policy credential tools :
  keeps controller_ok (reserve_call projection stage profile policy credential tools).
Proof.
  intros c Hc. unfold reserve_call. rewrite bind_reading.
  match goal with |- context [match ?t with _ => _ end] => destruct t as [i|e] eqn:E end; [|done].
  destruct (reserve _ c) as [c' [r|e]] eqn:Er; [|by apply reserve_refused in Er as ->]. cbn [fst].
  apply reserve_granted in Er as (_ & _ & _ & l & El & ->).
  assert (permitted (TransportLedger.issue (ac_ledger c) (ac_object c) (ac_simulation_only c)
            (openai_request policy credential i c)) c) as Hp.
  { unfold check_deployment, is_deployment in E. res_inv. bool_inv. simplify_eq. split; cbn; congruence || done. }
  destruct (granted_ok _ _ _ _ Hc Hp El) as (? & ? & ?).
  apply reserve_Ok in El as (_ & _ & _ & -> & ->). destruct Hc as [_ _ Ha _ Hs Hl].
  split; cbn; try done.
  - destruct (ac_authorization c); [|done]. by destruct Ha; split.
  - by rewrite Z.add_0_r.
Qed.

(** The entries of a list of numbers that a predicate selects, when one more of them is selected. *)
Lemma count_one_more (l : list nat) (P Q : nat → bool) n :
  NoDup l → n ∈ l → P n = false → Q n = true → (∀ m, m ≠ n → Q m = P m) →
  length (filter (λ m, Q m = true) l) = S (length (filter (λ m, P m = true) l)).
Proof.
  intros Hd Hn HP HQ Ho. induction Hd as [|m l Hm Hd IH]; [by apply elem_of_nil in Hn|].
  rewrite !filter_cons. apply elem_of_cons in Hn as [<-|Hn].
  - rewrite decide_True by done. rewrite decide_False by congruence. cbn. f_equal. f_equal.
    apply filter_ext_elem. intros x Hx. rewrite Ho; [done|]. by intros ->.
  - assert (m ≠ n) as Hmn by by intros ->. rewrite (Ho m Hmn). specialize (IH Hn).
    destruct (decide (P m = true)); cbn; lia.
Qed.

Lemma filter_absent (l : list nat) n : n ∉ l → filter (λ m, m ≠ n) l = l.
Proof.
  induction l as [|m l IH]; intros Hn; [done|]. apply not_elem_of_cons in Hn as [? Hn].
  rewrite filter_cons_True by congruence. by rewrite IH.
Qed.

Lemma count_removed (l : list nat) (P : nat → bool) n :
  NoDup l → n ∈ l →
  length (filter (λ m, P m = true) l) =
    ((if P n then 1 else 0) + length (filter (λ m, P m = true) (filter (λ m, m ≠ n) l)))%nat ∧
  length l = S (length (filter (λ m, m ≠ n) l)).
Proof.
  intros Hd Hn. induction Hd as [|m l Hm Hd IH]; [by apply elem_of_nil in Hn|].
  apply elem_of_cons in Hn as [<-|Hn].
  - assert (filter (λ x, x ≠ n) (n :: l) = l) as ->.
    { rewrite filter_cons_False by naive_solver. by apply filter_absent. }
    rewrite filter_cons. destruct (P n) eqn:E; case_decide; cbn; try congruence; done.
  - assert (m ≠ n) by by intros ->. destruct (IH Hn) as [IH1 IH2].
    rewrite (filter_cons_True (λ x, x ≠ n)) by done. rewrite !(filter_cons (λ x, P x = true)).
    case_decide; cbn; lia.
Qed.

(** The reservation of a planned read is recorded in its plan. *)
Lemma index_plan_ok n i plan reads l p :
  log_ok plan reads l → plan = Some n → cl_plans l !! n = Some p → pc_transport_call_index p = None →
  log_ok plan (reads + 1) (index_plan n i l).
Proof.
  intros [H1 H2 H3 H4 H5] Hn Hp Hi. pose proof (H1 _ Hn) as Hin. split; cbn; try done.
  - intros m Hm. rewrite length_alter. by apply H3.
  - unfold reserved_of in *. cbn. rewrite (count_one_more (cl_inflight l)
      (λ m, from_option is_reserved false (cl_plans l !! m)) (λ m, from_option is_reserved false (alter _ n (cl_plans l) !! m)) n);
      [lia|done|done| | |].
    + rewrite Hp. cbn. unfold is_reserved. by rewrite Hi.
    + by rewrite list_lookup_alter_eq, Hp.
    + intros m Hm. by rewrite list_lookup_alter_ne by done.
Qed.

Lemma check_capture_plan_Ok tool selection proposal dependency c n p :
  check_capture_plan tool selection proposal dependency c = Ok (n, p) →
  ow_capture_plan (ac_owned c) = Some n ∧ cl_plans (ac_log c) !! n = Some p ∧
  tool = Some (pc_tool_name p) ∧ selection = Some (pc_selection_id p) ∧ proposal = Some (pc_proposal_id p) ∧
  dependency = Some (pc_dependency_fingerprint p).
Proof.
  unfold check_capture_plan, current_plan. destruct (ow_capture_plan (ac_owned c)) as [m|]; [|done].
  destruct (cl_plans (ac_log c) !! m) as [q|] eqn:E; [|done]. cbn. intros H. res_inv. bool_inv. simplify_eq. done.
Qed.

Lemma str_in_elem x l : str_in x l = true ↔ x ∈ l.
Proof. apply bool_decide_eq_true. Qed.

(** What a granted selected read went through, and the controller after it. *)
Lemma reserve_read_granted task governance tool selection proposal dependency c c' r :
  reserve_read task governance tool selection proposal dependency c = (c', Ok r) →
  ac_stage c = OPENAI_SELECTED_READS ∧ tool ∈ selected_read_tools c ∧ selection ∈ selected_read_selection_ids c ∧
  ∃ n p l, ow_capture_plan (ac_owned c) = Some n ∧ cl_plans (ac_log c) !! n = Some p ∧
    pc_transport_call_index p = None ∧ pc_tool_name p = tool ∧ pc_selection_id p = selection ∧
    pc_proposal_id p = proposal ∧ pc_dependency_fingerprint p = dependency ∧
    TransportLedger.reserve (ac_ledger c) (ac_object c) (ac_simulation_only c)
      (read_request tool selection proposal dependency c) = (l, Ok r) ∧
    c' = set_call_index n (tc_call_index r) (set_ledger l c).
Proof.
  unfold reserve_read. rewrite bind_reading.
  match goal with |- context [match ?t with _ => _ end] => destruct t as [n|e] eqn:E end; [|done].
  unfold act_bind. destruct (reserve _ c) as [c1 [r1|e1]] eqn:Er; [|done]. intros [= <- ->].
  apply reserve_granted in Er as (_ & _ & _ & l & El & ->). res_inv. bool_inv.
  repeat match goal with H : _ || _ = false |- _ => apply orb_false_iff in H; destruct H end. bool_inv.
  repeat match goal with H : str_in _ _ = true |- _ => apply str_in_elem in H end.
  match goal with H : check_capture_plan _ _ _ _ _ = Ok ?a |- _ => destruct a as [n' p]; apply check_capture_plan_Ok in H end.
  cbn in *. destruct_and!. simplify_eq. destruct (pc_transport_call_index p) eqn:?; [done|].
  split; [done|]. split; [done|]. split; [done|]. by exists n, p, l.
Qed.

Lemma reserve_read_refused task governance tool selection proposal dependency c c' e :
  reserve_read task governance tool selection proposal dependency c = (c', Raise e) → c' = c.
Proof.
  unfold reserve_read. rewrite bind_reading.
  match goal with |- context [match ?t with _ => _ end] => destruct t as [n|e'] end; [|by intros [= <- _]].
  unfold act_bind. destruct (reserve _ c) as [c1 [r1|e1]] eqn:Er; [done|]. intros [= <- _].
  by apply reserve_refused in Er.
Qed.

Lemma reserve_read_ok task governance tool selection proposal dependency :
  keeps controller_ok (reserve_read task governance tool selection proposal dependency).
Proof.
  intros c Hc. destruct (reserve_read _ _ _ _ _ _ c) as [c' [r|e]] eqn:E; cbn.
  - apply reserve_read_granted in E as (Hst & Ht & Hsel & n & p & l & Hn & Hp & Hi & _ & _ & _ & _ & El & ->).
    assert (permitted (TransportLedger.issue (ac_ledger c) (ac_object c) (ac_simulation_only c)
              (read_request tool selection proposal dependency c)) c) as Hpm.
    { split; cbn; try done; [by rewrite Hst|]. split; [done|]. split; eauto. }
    destruct (granted_ok _ _ _ _ Hc Hpm El) as (? & ? & Hq). apply reserve_Ok in El as (_ & _ & _ & -> & ->).
    destruct Hc as [_ _ Ha _ Hs Hl]. split; cbn; try done.
    + destruct (ac_authorization c); [|done]. by destruct Ha; split.
    + intros r Hr. by destruct (Hq r Hr); split.
    + by eapply index_plan_ok.
  - by apply reserve_read_refused in E as ->.
Qed.

Lemma complete_call_ok r : keeps controller_ok (complete_call r).
Proof.
  intros c Hc. unfold complete_call. destruct (negb _); [done|]. case_bool_decide; [|done]. cbn.
  apply set_ledger_ok; auto. constructor.
Qed.

Lemma retain_proposal_ok proposal source : keeps controller_ok (retain_proposal proposal source).
Proof.
  intros c Hc. pose proof (co_stream _ Hc) as [Hn Hb]. unfold retain_proposal.
  destruct (Z.eqb_spec (Z.of_nat (length (ow_live_proposals (ac_owned c)))) MAX_RETAINED_PROPOSALS).
  - apply set_owned_ok; auto.
  - destruct (res_bind _ _) as [copy|e]; [|done]. apply set_owned_ok; cbn; auto; rewrite !length_app; cbn; lia.
Qed.

Lemma propose_conclude_ok start source proposal outcome :
  keeps controller_ok (propose_conclude start source proposal outcome).
Proof. unfold propose_conclude. auto using retain_proposal_ok with activation. Qed.

Lemma register_selected_read_ok selection : keeps controller_ok (register_selected_read selection).
Proof.
  intros c Hc. pose proof (co_stream _ Hc) as [Hn Hb]. unfold register_selected_read.
  destruct (_ ;;* _) as [[i text]|e]; [|done]. case_bool_decide; [done|]. destruct (nonempty _); [done|].
  destruct (_ || _); [done|]. apply set_owned_ok; auto.
Qed.

Lemma conclude_verification_ok owner f stage live evidence :
  keeps controller_ok (conclude_verification owner f stage live evidence).
Proof.
  unfold conclude_verification. apply keeps_bind; [auto with activation|]. intros []. apply keeps_bind; [auto with activation|].
  intros data. apply keeps_bind; [auto with activation|]. intros o. apply keeps_bind; [|auto with activation].
  apply keeps_updating. intros c. apply set_observations_ok.
Qed.

(** ** The capture sections *)

Section captures.
Context {N : NativeSeals} {R : NativeRuntime} {I : ObjectIdentity}.

(** A new plan is in flight and consumed nothing yet. *)
Lemma start_plan_ok plan next c :
  controller_ok c → pc_transport_call_index plan = None → 0 < attempts_left c → controller_ok (start_plan plan next c).
Proof.
  intros [H1 H2 H3 H4 H5 [K1 K2 K3 K4 K5]] Hi Hleft. unfold attempts_left in Hleft.
  assert (length (cl_plans (ac_log c)) ∉ cl_inflight (ac_log c)) as Hfresh.
  { intros Hin%K3. lia. }
  split; cbn; try done.
  - destruct (ac_authorization c); [|done]. by destruct H3; split.
  - intros r Hr. by destruct (H4 r Hr); split.
  - split; cbn.
    + intros n [= <-]. apply elem_of_app. right. by apply list_elem_of_singleton.
    + apply NoDup_app. repeat split; [done| |apply NoDup_singleton]. intros x Hx ->%list_elem_of_singleton. done.
    + intros n [Hn%K3| ->%list_elem_of_singleton]%elem_of_app; rewrite length_app; cbn; lia.
    + rewrite length_app. cbn. lia.
    + rewrite <- K5. unfold reserved_of. cbn. rewrite filter_app, length_app, filter_cons_False, filter_nil.
      2: { rewrite lookup_app_r, Nat.sub_diag by done. cbn. unfold is_reserved. by rewrite Hi. }
      cbn. rewrite Nat.add_0_r. do 2 f_equal. f_equal. apply filter_ext_elem. intros n Hn.
      rewrite lookup_app_l by auto. done.
Qed.

Lemma capture_begin_state a proposal dependency x batch c c' r :
  capture_begin a proposal dependency x batch c = (c', r) →
  c' = c ∧ (∀ t, r ≠ Ok t) ∨
  ∃ plan next, pc_transport_call_index plan = None ∧ 0 < attempts_left c ∧ c' = start_plan plan next c ∧
    ∀ t, r = Ok t → ct_plan t = length (cl_plans (ac_log c)) ∧ ct_fence t = fence_of c'.
Proof.
  unfold capture_begin. rewrite bind_reading. destruct (capture_target_of _ _ _ c) as [g|e]; [|intros [= <- <-]; by left].
  rewrite !bind_reading. destruct (capture_admission g x proposal batch dependency c) as [[[plan [tr ad]] next]|e] eqn:E;
    [|intros [= <- <-]; by left].
  rewrite bind_updating. unfold reading. intros [= <- <-]. right. exists plan, next.
  unfold capture_admission in E. res_inv. simplify_eq. bool_inv. split; [done|]. split; [done|]. split; [done|].
  intros t Ht. unfold verification_fence in Ht. res_inv. by subst.
Qed.

Lemma capture_begin_ok a proposal dependency x batch :
  keeps controller_ok (capture_begin a proposal dependency x batch).
Proof.
  intros c Hc. destruct (capture_begin _ _ _ _ _ c) as [c' r] eqn:E. cbn.
  apply capture_begin_state in E as [[-> _]|(plan & next & ? & ? & -> & _)]; [done|]. by apply start_plan_ok.
Qed.

Lemma keep_capture_ok capture next c : controller_ok c → controller_ok (keep_capture capture next c).
Proof.
  intros [H1 H2 H3 H4 H5 [K1 K2 K3 K4 K5]]. split; cbn; try done.
  - destruct (ac_authorization c); [|done]. by destruct H3; split.
  - intros r Hr. by destruct (H4 r Hr); split.
Qed.

Lemma capture_retain_ok t snapshot : keeps controller_ok (capture_retain t snapshot).
Proof.
  unfold capture_retain. apply keeps_bind; [auto with activation|]. intros []. apply keeps_bind; [auto with activation|].
  intros _. apply keeps_bind; [auto with activation|]. intros capture. apply keeps_bind; [|auto with activation].
  apply keeps_updating. auto using keep_capture_ok.
Qed.

(** The attempt that replaces a plan in flight carries its reservation. *)
Lemma capture_finish_ok t v capture c :
  controller_ok c → ct_plan t ∈ cl_inflight (ac_log c) → controller_ok (capture_finish t v capture c).1.
Proof.
  intros Hc Hin. unfold capture_finish. rewrite bind_reading.
  match goal with |- context [match ?t with Ok _ => _ | Raise _ => _ end] => destruct t as [i|e] end; [|done].
  rewrite bind_reading, bind_updating. cbn [reading fst]. destruct Hc as [H1 H2 H3 H4 H5 [K1 K2 K3 K4 K5]].
  destruct (count_removed _ (λ n, from_option is_reserved false (cl_plans (ac_log c) !! n)) _ K2 Hin) as [Hcount Hlen].
  split; cbn; try done.
  - destruct (ac_authorization c); [|done]. by destruct H3; split.
  - intros r Hr. by destruct (H4 r Hr); split.
  - split; cbn.
    + intros n Hn. case_bool_decide; [done|]. apply list_elem_of_filter. split; [congruence|auto].
    + by apply NoDup_filter.
    + intros n [_ Hn]%list_elem_of_filter. auto.
    + rewrite length_app. cbn. lia.
    + rewrite <- K5. unfold reserved_of. cbn. rewrite Hcount, filter_app, length_app, filter_cons, filter_nil.
      unfold plan_index. destruct (cl_plans (ac_log c) !! ct_plan t) as [p|]; cbn.
      * unfold is_reserved at 3. destruct (pc_transport_call_index p); cbn; case_decide; cbn; congruence || lia.
      * case_decide; cbn; congruence || lia.
Qed.

(** ** Concurrent callers *)

(** One controller and the captures whose last section has not run. *)
Record system := {
  sy_controller : ActivationController;
  sy_running : list capture_ticket
}.

(** The locked actions of callers, other than the sections of a capture. *)
Inductive caller : ∀ {A}, act A → Prop :=
  | call_configure policy credential : caller (configure_transport policy credential)
  | call_register selection : caller (register_selected_read selection)
  | call_authorize a : caller (authorize a)
  | call_reserve_call projection stage profile policy credential tools :
      caller (reserve_call projection stage profile policy credential tools)
  | call_reserve_read task governance tool selection proposal dependency :
      caller (reserve_read task governance tool selection proposal dependency)
  | call_complete r : caller (complete_call r)
  | call_propose start source proposal outcome : caller (propose_conclude start source proposal outcome)
  | call_retain proposal source : caller (retain_proposal proposal source)
  | call_surface text : caller (updating (set_last_capture_surface text))
  | call_verify owner f stage live evidence : caller (conclude_verification owner f stage live evidence)
  | call_rollback : caller rollback
  | call_revoke : caller revoke.

Inductive system_step : system → system → Prop :=
  | step_caller {A} (m : act A) c rs : caller m → system_step (Build_system c rs) (Build_system (m c).1 rs)
  | step_begin a proposal dependency x batch c rs c' t :
      capture_begin a proposal dependency x batch c = (c', Ok t) →
      system_step (Build_system c rs) (Build_system c' (t :: rs))
  | step_begin_refused a proposal dependency x batch c rs c' e :
      capture_begin a proposal dependency x batch c = (c', Raise e) →
      system_step (Build_system c rs) (Build_system c' rs)
  | step_retain t snapshot c rs :
      t ∈ rs → system_step (Build_system c rs) (Build_system (capture_retain t snapshot c).1 rs)
  | step_finish t v capture c rs1 rs2 :
      system_step (Build_system c (rs1 ++ t :: rs2)) (Build_system (capture_finish t v capture c).1 (rs1 ++ rs2)).

(** Every running capture has its own plan in flight. *)
Record system_ok (s : system) : Prop := {
  so_controller : controller_ok (sy_controller s);
  so_running : NoDup (map ct_plan (sy_running s)) ∧
               ∀ t, t ∈ sy_running s → ct_plan t ∈ cl_inflight (ac_log (sy_controller s))
}.

Lemma caller_ok {A} (m : act A) : caller m → keeps controller_ok m.
Proof.
  destruct 1; auto using configure_transport_ok, register_selected_read_ok, authorize_ok, reserve_call_ok,
    reserve_read_ok, complete_call_ok, propose_conclude_ok, retain_proposal_ok, conclude_verification_ok, rollback_ok,
    revoke_ok.
  apply keeps_updating. intros c. apply set_last_capture_surface_ok.
Qed.

(** Callers never touch the captures in flight. *)
Definition same_inflight (c0 c : ActivationController) : Prop := cl_inflight (ac_log c) = cl_inflight (ac_log c0).

Lemma same_inflight_ledger {A} c0 (f : ActivationController → TransportLedger → TransportLedger * res A) :
  keeps (same_inflight c0) (on_ledger f).
Proof. intros c Hc. unfold on_ledger. by destruct (f c (ac_ledger c)). Qed.

Lemma rollback_inflight c0 : keeps (same_inflight c0) rollback.
Proof.
  unfold rollback. apply keeps_bind; [auto with activation|]. intros _. apply keeps_bind; [apply same_inflight_ledger|].
  intros _. by apply keeps_updating.
Qed.

Lemma caller_inflight {A} (m : act A) c0 : caller m → keeps (same_inflight c0) m.
Proof.
  assert (∀ P s, keeps (same_inflight c0) (retain_proposal P s)) as Hretain.
  { intros P s c Hc. unfold retain_proposal. repeat case_match; done. }
  destruct 1.
  - intros c Hc. unfold configure_transport. repeat case_match; try done. unfold act_bind.
    pose proof (rollback_inflight c0 c Hc). destruct (rollback c) as [c' [u|e]]; done.
  - intros c Hc. unfold register_selected_read. repeat case_match; done.
  - unfold authorize. repeat (apply keeps_bind; [|intros _]); try apply same_inflight_ledger; auto with activation;
      by apply keeps_updating.
  - apply keeps_bind; [auto with activation|]. intros i. apply same_inflight_ledger.
  - apply keeps_bind; [auto with activation|]. intros n. apply keeps_bind; [apply same_inflight_ledger|].
    intros r. apply keeps_bind; [|auto with activation]. by apply keeps_updating.
  - intros c Hc. unfold complete_call. repeat case_match; done.
  - unfold propose_conclude. auto with activation.
  - auto.
  - by apply keeps_updating.
  - unfold conclude_verification. repeat (apply keeps_bind; [|intros ?]); auto with activation.
  - apply rollback_inflight.
  - intros c Hc. unfold revoke. case_match; [done|].
    apply keeps_bind; [apply same_inflight_ledger| |done]. intros _. by apply keeps_updating.
Qed.

Lemma system_step_ok s s' : system_step s s' → system_ok s → system_ok s'.
Proof.
  intros Hs [Hc [Hd Hr]]. destruct Hs as [A m c rs Hm|a p d x b c rs c' t E|a p d x b c rs c' e E|t sn c rs Ht|t v cap c rs1 rs2];
    cbn [sy_controller sy_running] in *.
  - split; cbn; [by apply (caller_ok m Hm)|]. split; [done|]. intros t Ht.
    pose proof (caller_inflight m c Hm c eq_refl) as H. unfold same_inflight in H. rewrite H. auto.
  - pose proof (capture_begin_ok a p d x b c Hc) as Hc'. rewrite E in Hc'.
    apply capture_begin_state in E as [[_ Hn]|(plan & next & _ & _ & -> & Ht)]; [by destruct (Hn t)|].
    destruct (Ht t eq_refl) as [Hp _]. pose proof (lk_plans _ _ _ (co_log _ Hc)) as Hlt. split; cbn; [done|]. split.
    + constructor; [|done]. rewrite Hp. intros (t' & Ht' & Hin)%list_elem_of_fmap.
      apply Hr, Hlt in Hin. lia.
    + intros t' [->|Ht']%elem_of_cons; apply elem_of_app; [right; rewrite Hp; by apply list_elem_of_singleton|left; auto].
  - pose proof (capture_begin_ok a p d x b c Hc) as Hc'. rewrite E in Hc'. split; cbn; [done|]. split; [done|].
    apply capture_begin_state in E as [[-> _]|(plan & next & _ & _ & -> & _)]; [done|]. intros t Ht. cbn.
    apply elem_of_app. left. auto.
  - split; cbn; [by apply capture_retain_ok|]. split; [done|]. intros t' Ht'.
    destruct (check_verification_fence _ c); [|auto]. destruct (check_capture_plan _ _ _ _ c); [|auto]. cbn. auto.
  - rewrite map_app in Hd. cbn in Hd. apply NoDup_app in Hd as (Hd1 & Hd2 & [Hd3 Hd4]%NoDup_cons).
    assert (ct_plan t ∈ cl_inflight (ac_log c)) as Ht by (apply Hr, elem_of_app; right; apply list_elem_of_here).
    split; cbn; [by apply capture_finish_ok|]. split.
    + rewrite map_app. apply NoDup_app. split; [done|]. split; [|done]. intros y Hy Hy'. apply (Hd2 y Hy).
      by apply list_elem_of_further.
    + intros t' Ht'. assert (ct_plan t' ≠ ct_plan t ∧ ct_plan t' ∈ cl_inflight (ac_log c)) as [Hne Hin].
      { apply elem_of_app in Ht' as [Ht'|Ht'].
        - split; [|apply Hr, elem_of_app; by left]. intros He.
          apply (Hd2 (ct_plan t')); [by apply list_elem_of_fmap_2|]. rewrite He. apply list_elem_of_here.
        - split; [|apply Hr, elem_of_app; right; by apply list_elem_of_further]. intros He. apply Hd3. rewrite <- He.
          by apply list_elem_of_fmap_2. }
      case_match; [|done]. cbn. by apply list_elem_of_filter.
Qed.

Lemma reachable_ok c s :
  controller_ok c → rtc system_step (Build_system c []) s → system_ok s.
Proof.
  intros Hc Hr. assert (system_ok (Build_system c [])) as H.
  { split; [done|]. split; [constructor|]. intros t []%elem_of_nil. }
  revert H. induction Hr; eauto using system_step_ok.
Qed.

End captures.
