(* ===== verification/CaptureFacts.v ===== *)
(** * One capture, run alone

    The sections of a capture composed, when no other caller moves the controller while the adapter
    works: how the controller may change, and what a kept capture says of the call it used. *)

From stdpp Require Import base list.
From S2P Require Import Prelude PyStr PyNumber Canonical Records RecordsFacts Orchestration Admission Governance Receipts Strategy Lease Session Supervisor Proposals GitHub ObservedSnapshots TransportLedger LedgerFacts Activation Adapters Capture Gates ActivationFacts.

Import ActivationController.

Section capture.
Context {N : NativeSeals} {R : NativeRuntime} {I : ObjectIdentity}.

(** No other caller moves the controller during the exchange. *)
Definition undisturbed (a : ReadAdapter) : Prop :=
  match a with LiveAdapter _ w => ∀ c, nw_meanwhile w c = c | SimulatedAdapter _ => True end.

(** The state of a controller after a read of its plan [n] was reserved and retired. *)
Definition read_done (n : nat) (c c' : ActivationController) : Prop :=
  ∃ l r, TransportLedger.reserve (ac_ledger c) (ac_object c) (ac_simulation_only c) r = (l, Ok (TransportLedger.issue (ac_ledger c) (ac_object c) (ac_simulation_only c) r)) ∧
    c' = set_ledger (TransportLedger.with_pending l None) (set_call_index n (call_count c) (set_ledger l c)).

(** What a reserved read leads to once it is completed. *)
Lemma reserve_complete task governance tool selection proposal dependency c c1 r :
  reserve_read task governance tool selection proposal dependency c = (c1, Ok r) →
  ∃ n, ow_capture_plan (ac_owned c) = Some n ∧ read_done n c (complete_call r c1).1 ∧
    (complete_call r c1).2 = Ok tt.
Proof.
  intros (_ & _ & _ & n & p & l & Hn & _ & _ & _ & _ & _ & _ & Hl & ->)%reserve_read_granted.
  exists n. split; [done|]. pose proof Hl as (_ & _ & _ & -> & Hl')%reserve_Ok. unfold complete_call.
  cbn [tc_owner TransportLedger.issue ac_object set_call_index set_log set_ledger]. rewrite Z.eqb_refl. cbn [negb].
  rewrite bool_decide_true by (rewrite Hl'; done). split; [|done]. eexists _, _. split; [exact Hl|done].
Qed.

Lemma observe_state a proposal dependency c a' c' r :
  undisturbed a → adapter_observe a proposal dependency c = (a', (c', r)) →
  c' = c ∨ ∃ n, ow_capture_plan (ac_owned c) = Some n ∧ read_done n c c'.
Proof.
  intros Hq. destruct a as [a w|a]; cbn in *.
  - destruct (GitHubReadAdapter.observe a w proposal dependency c) as [a1 [c1 o]] eqn:E.
    assert (c1 = c ∨ ∃ n, ow_capture_plan (ac_owned c) = Some n ∧ read_done n c c1) as Hc1.
    { unfold GitHubReadAdapter.observe in E. destruct (_ ;;* _) as [[plan b]|e]; [|injection E as <- <- <-; by left].
      destruct (reserve_read _ _ _ _ _ _ c) as [c2 [r2|e]] eqn:Er.
      - assert (∃ x, GitHubReadAdapter.exchange (GitHubReadAdapter.with_outcome a None) w plan r2 c2 = (c2, x)) as [x Hx].
        { unfold GitHubReadAdapter.exchange. destruct (_ ;;* _); rewrite ?Hq; eauto. }
        rewrite Hx in E. apply reserve_complete in Er as (n & Hn & Hd & Hok).
        destruct (complete_call r2 c2) as [c3 u]. cbn in Hd, Hok. subst u. right. exists n. split; [done|].
        repeat case_match; by simplify_eq.
      - left. injection E as <- <- <-. by apply reserve_read_refused in Er. }
    destruct o as [receipt|e]; [|intros [= <- <- <-]; done].
    destruct (GitHubReadAdapter.consume_live_outcome a1 c1 receipt). by intros [= <- <- <-].
  - destruct (SimulatedGitHubReadAdapter.observe a proposal dependency c) as [a1 [c1 o]] eqn:E. intros [= <- <- <-].
    unfold SimulatedGitHubReadAdapter.observe in E. destruct (_ ;;* _) as [[plan b]|e]; [|injection E as <- <- <-; by left].
    destruct (reserve_read _ _ _ _ _ _ c) as [c2 [r2|e]] eqn:Er.
    + apply reserve_complete in Er as (n & Hn & Hd & Hok). destruct (complete_call r2 c2) as [c3 u]. cbn in Hd, Hok. subst u.
      right. exists n. split; [done|]. destruct (match raise_if _ _ ;;* _ with Ok _ => _ | Raise _ => _ end). by simplify_eq.
    + left. injection E as <- <- <-. by apply reserve_read_refused in Er.
Qed.

(** The controller during a capture: only the plan's own call may have been spent since [c]. *)
Record during (n : nat) (c c' : ActivationController) : Prop := {
  du_epoch : epoch c' = epoch c;
  du_stage : ac_stage c' = ac_stage c;
  du_revoked : revoked c' = revoked c;
  du_idle : tl_pending (ac_ledger c') = None;
  du_owned : ac_owned c' = ac_owned c;
  du_attempts : cl_attempts (ac_log c') = cl_attempts (ac_log c);
  du_inflight : cl_inflight (ac_log c') = cl_inflight (ac_log c);
  du_calls : call_count c' = call_count c ∧ cl_plans (ac_log c') = cl_plans (ac_log c) ∨
             call_count c' = call_count c + 1 ∧
             cl_plans (ac_log c') !! n ≫= pc_transport_call_index = Some (call_count c)
}.

Lemma during_observe a proposal dependency c a' c' r n p :
  undisturbed a → adapter_observe a proposal dependency c = (a', (c', r)) → tl_pending (ac_ledger c) = None →
  ow_capture_plan (ac_owned c) = Some n → cl_plans (ac_log c) !! n = Some p → during n c c'.
Proof.
  intros Hq Ho Hp Hn Hplan. destruct (observe_state _ _ _ _ _ _ _ Hq Ho) as [->|(m & Hm & l & q & Hl & ->)].
  { split; auto. }
  rewrite Hn in Hm. injection Hm as <-. apply reserve_Ok in Hl as (Hr & _ & _ & _ & ->).
  split; cbn; try done. right. split; [done|]. by rewrite list_lookup_alter_eq, Hplan.
Qed.

(** A capture begins only while no call is outstanding. *)
Lemma capture_begin_idle a proposal dependency x batch c c' t :
  capture_begin a proposal dependency x batch c = (c', Ok t) → tl_pending (ac_ledger c') = None.
Proof.
  unfold capture_begin. rewrite bind_reading. destruct (capture_target_of _ _ _ c) as [g|e]; [|done].
  rewrite !bind_reading. destruct (capture_admission g x proposal batch dependency c) as [[[plan [tr ad]] next]|e] eqn:E; [|done].
  rewrite bind_updating. unfold reading. intros [= <- _]. cbn. unfold capture_admission in E. res_inv. bool_inv.
  by destruct (tl_pending (ac_ledger c)).
Qed.

(** The plan that a capture starts is outstanding. *)
Lemma start_plan_state plan next c :
  ow_capture_plan (ac_owned (start_plan plan next c)) = Some (length (cl_plans (ac_log c))) ∧
  cl_plans (ac_log (start_plan plan next c)) !! length (cl_plans (ac_log c)) = Some plan.
Proof. split; [done|]. cbn. by rewrite lookup_app_r, Nat.sub_diag by done. Qed.

(** A kept capture: the fence allows exactly one more call. *)
Lemma retain_state t snapshot c c' capture :
  capture_retain t snapshot c = (c', Ok capture) →
  call_count c = fe_call_count (ct_fence t) + 1 ∧ rc_transport_call_index capture = fe_call_count (ct_fence t) ∧
  rc_snapshot capture = snapshot ∧ rc_proposal_id capture = ct_proposal_id t ∧
  rc_selection_id capture = ct_selection_id t ∧ rc_epoch capture = epoch c ∧
  c' = keep_capture capture (ct_next_state_id t) c.
Proof.
  unfold capture_retain. rewrite bind_reading. destruct (check_verification_fence _ c) as [u|e] eqn:E; [|done].
  rewrite bind_reading. destruct (check_capture_plan _ _ _ _ c); [|done]. intros [= <- <-].
  unfold check_verification_fence, verification_fence in E. res_inv. subst. bool_inv.
  injection E. intros. cbn. split; [congruence|]. done.
Qed.

Lemma retain_refused t snapshot c c' e : capture_retain t snapshot c = (c', Raise e) → c' = c.
Proof.
  unfold capture_retain. rewrite bind_reading. destruct (check_verification_fence _ c); [|by intros [= <- _]].
  rewrite bind_reading. destruct (check_capture_plan _ _ _ _ c); [done|by intros [= <- _]].
Qed.

(** What the middle of a capture does: it keeps one capture, or it keeps none and the controller only
    spent the plan's call. *)
Lemma body_state a t proposal x1 x2 c a' c' v capture p :
  undisturbed a → tl_pending (ac_ledger c) = None → ow_capture_plan (ac_owned c) = Some (ct_plan t) →
  cl_plans (ac_log c) !! ct_plan t = Some p → ct_fence t = fence_of c →
  capture_body a t proposal x1 x2 c = (a', (c', (v, capture))) →
  ∃ c1, during (ct_plan t) c c1 ∧
    match capture with
    | None => c' = c1
    | Some r => call_count c1 = call_count c + 1 ∧ rc_transport_call_index r = call_count c ∧
                rc_proposal_id r = ct_proposal_id t ∧ rc_selection_id r = ct_selection_id t ∧
                rc_epoch r = epoch c ∧ v = captured ∧ c' = keep_capture r (ct_next_state_id t) c1
    end.
Proof.
  intros Hq Hidle Hn Hp Hf. unfold capture_body.
  assert (∃ a1 c1 tried, match revalidate t x1 c with
            | Ok _ => let '(a, (c, observed)) := adapter_observe a proposal (ct_dependency t) c in
                      (a, (c, under capture_failed observed (λ answer, judge_answer t x2 answer c)))
            | Raise e => (a, (c, (capture_failed, Raise e)))
            end = (a1, (c1, tried)) ∧ during (ct_plan t) c c1) as (a1 & c1 & [v1 tried] & -> & Hd).
  { destruct (revalidate t x1 c).
    - destruct (adapter_observe a proposal (ct_dependency t) c) as [a1 [c1 o]] eqn:E. eexists _, _, _. split; [done|].
      by eapply during_observe.
    - eexists _, _, _. split; [done|]. split; auto. }
  destruct tried as [snapshot|e].
  - destruct (capture_retain t snapshot c1) as [c2 [r|e]] eqn:E; intros [= <- <- <- <-].
    + apply retain_state in E as (H1 & H2 & H3 & H4 & H5 & H6 & ->). rewrite Hf in *. exists c1. split; [done|].
      cbn in *. split; [done|]. split; [done|]. split; [done|]. split; [done|]. split; [|done].
      rewrite H6. apply (du_epoch _ _ _ Hd).
    + apply retain_refused in E as ->. by exists c1.
  - intros [= <- <- <- <-]. by exists c1.
Qed.

(** The last section: an attempt with the plan's call, and no plan outstanding. *)
Lemma finish_state t v capture c c' r :
  ow_capture_plan (ac_owned c) = Some (ct_plan t) → capture_finish t v capture c = (c', r) →
  ac_ledger c' = ac_ledger c ∧ ac_stage c' = ac_stage c ∧ ow_captures (ac_owned c') = ow_captures (ac_owned c) ∧
  match r with
  | Raise _ => c' = c
  | Ok attempt =>
      ow_capture_plan (ac_owned c') = None ∧ cl_attempts (ac_log c') = cl_attempts (ac_log c) ++ [attempt] ∧
      cl_inflight (ac_log c') = filter (λ n, n ≠ ct_plan t) (cl_inflight (ac_log c)) ∧
      sr_status attempt = v.1 ∧ sr_proposal_id attempt = ct_proposal_id t ∧
      sr_transport_call_index attempt = plan_index t c
  end.
Proof.
  intros Hp. unfold capture_finish. rewrite bind_reading.
  match goal with |- context [match ?t with Ok _ => _ | Raise _ => _ end] => destruct t as [i|e] end.
  - rewrite bind_reading, bind_updating. intros [= <- <-]. cbn. rewrite bool_decide_true by done. done.
  - by intros [= <- <-].
Qed.

End capture.
