(* ===== verification/ActivationProperties.v ===== *)
(** * What the activation controller guarantees

    Under any interleaving of its callers: the controller refines its ledger, its stages move only
    through the gates, a revocation is final, an outstanding permit is inside the authorization in
    force and the record of captures always reconciles. *)

From stdpp Require Import base list relations.
From S2P Require Import Prelude PyStr PyNumber Canonical Records RecordsFacts Orchestration Admission Governance Receipts Strategy Lease Session Supervisor Proposals GitHub ObservedSnapshots TransportLedger LedgerFacts Activation Adapters Capture Gates ActivationFacts CaptureFacts.

Import ActivationController.

(** ** The ledger *)

(** The controller is the same object, and its ledger is reached from [l] by calls of the ledger. *)
Definition runs_from (object : Z) (simulation : bool) (l : TransportLedger) (c : ActivationController) : Prop :=
  ac_object c = object ∧ ac_simulation_only c = simulation ∧
  ∃ rs, ledger_run object simulation l rs (ac_ledger c).

Lemma runs_from_refl c : runs_from (ac_object c) (ac_simulation_only c) (ac_ledger c) c.
Proof. split; [done|]. split; [done|]. exists []. constructor. Qed.

Section refinement.
Context (object : Z) (simulation : bool) (l0 : TransportLedger).
Notation P := (runs_from object simulation l0).

Lemma runs_step c o l : P c → ledger_step (ac_object c) (ac_simulation_only c) (ac_ledger c) o l → P (set_ledger l c).
Proof.
  intros (Ho & Hs & rs & Hr) Hl. rewrite Ho, Hs in Hl. split; [done|]. split; [done|]. exists (rs ++ option_list o).
  eapply ledger_run_app; [done|]. cbn. rewrite <- (app_nil_r (option_list o)). econstructor; [done|constructor].
Qed.

Lemma runs_retire revoke : keeps P (on_ledger (λ _ l, TransportLedger.retire_epoch l revoke)).
Proof.
  intros c Hc. unfold on_ledger.
  pose proof (runs_step c None (TransportLedger.retire_epoch (ac_ledger c) revoke).1 Hc ltac:(constructor)) as H.
  by destruct (TransportLedger.retire_epoch (ac_ledger c) revoke).
Qed.

Lemma runs_reserve request : keeps P (reserve request).
Proof. intros c Hc. destruct (reserve_step request c) as [-> H]. by eapply runs_step. Qed.

Lemma runs_updating f :
  (∀ c, ac_object (f c) = ac_object c ∧ ac_simulation_only (f c) = ac_simulation_only c ∧ ac_ledger (f c) = ac_ledger c) →
  keeps P (updating f).
Proof. intros H. apply keeps_updating. intros c. destruct (H c) as (Ho & Hs & Hl). unfold runs_from. by rewrite Ho, Hs, Hl. Qed.

Lemma runs_rollback : keeps P rollback.
Proof.
  unfold rollback. apply keeps_bind; [auto with activation|]. intros _. apply keeps_bind; [apply runs_retire|].
  intros _. by apply runs_updating.
Qed.

Lemma runs_retain proposal source : keeps P (retain_proposal proposal source).
Proof. intros c Hc. unfold retain_proposal. repeat case_match; done. Qed.

End refinement.

Section properties.
Context {N : NativeSeals} {R : NativeRuntime} {I : ObjectIdentity}.

Lemma caller_runs object simulation l0 {A} (m : act A) : caller m → keeps (runs_from object simulation l0) m.
Proof.
  destruct 1.
  - intros c Hc. unfold configure_transport. repeat case_match; try done. unfold act_bind.
    pose proof (runs_rollback _ _ _ c Hc). destruct (rollback c) as [c' [u|e]]; done.
  - intros c Hc. unfold register_selected_read. repeat case_match; done.
  - unfold authorize. apply keeps_bind; [auto with activation|]. intros _. apply keeps_bind; [apply runs_retire|].
    intros _. apply keeps_bind; [|intros _]; by apply runs_updating.
  - apply keeps_bind; [auto with activation|]. intros i. apply runs_reserve.
  - apply keeps_bind; [auto with activation|]. intros n. apply keeps_bind; [apply runs_reserve|].
    intros r. apply keeps_bind; [|auto with activation]. by apply runs_updating.
  - intros c Hc. unfold complete_call. destruct (negb _); [done|]. case_bool_decide; [|done].
    eapply runs_step; [done|]. apply step_released.
  - unfold propose_conclude. auto using runs_retain with activation.
  - apply runs_retain.
  - by apply runs_updating.
  - unfold conclude_verification. repeat (apply keeps_bind; [|intros ?]); auto with activation.
  - apply runs_rollback.
  - intros c Hc. unfold revoke. case_match; [done|].
    apply keeps_bind; [apply runs_retire| |done]. intros _. by apply runs_updating.
Qed.

(** The sections of a capture leave the ledger, the stage and the authorization alone. *)
Definition same_gates (c c' : ActivationController) : Prop :=
  ac_object c' = ac_object c ∧ ac_simulation_only c' = ac_simulation_only c ∧ ac_ledger c' = ac_ledger c ∧
  ac_stage c' = ac_stage c ∧ ac_authorization c' = ac_authorization c ∧ ac_observations c' = ac_observations c.

Lemma capture_section_gates s s' :
  system_step s s' →
  (∃ A (m : act A), caller m ∧ sy_controller s' = (m (sy_controller s)).1) ∨
  same_gates (sy_controller s) (sy_controller s').
Proof.
  intros [A m c rs Hm|a p d x b c rs c' t E|a p d x b c rs c' e E|t sn c rs Ht|t v cap c rs1 rs2];
    cbn [sy_controller sy_running] in *.
  - left. eauto.
  - right. by apply capture_begin_state in E as [[-> _]|(plan & next & _ & _ & -> & _)].
  - right. by apply capture_begin_state in E as [[-> _]|(plan & next & _ & _ & -> & _)].
  - right. unfold capture_retain. rewrite bind_reading. destruct (check_verification_fence _ c); [|done].
    rewrite bind_reading. destruct (check_capture_plan _ _ _ _ c); by repeat split.
  - right. unfold capture_finish. rewrite bind_reading.
    match goal with |- context [match ?t with Ok _ => _ | Raise _ => _ end] => destruct t end; by repeat split.
Qed.

Lemma system_step_runs object simulation l0 s s' :
  system_step s s' → runs_from object simulation l0 (sy_controller s) → runs_from object simulation l0 (sy_controller s').
Proof.
  intros [(A & m & Hm & ->)|(Ho & Hs & Hl & _)]%capture_section_gates H; [by apply caller_runs|].
  unfold runs_from in *. by rewrite Ho, Hs, Hl.
Qed.

Lemma system_runs object simulation l0 s s' :
  rtc system_step s s' → runs_from object simulation l0 (sy_controller s) →
  runs_from object simulation l0 (sy_controller s').
Proof. induction 1; eauto using system_step_runs. Qed.

(** C11.  Refinement: whatever the callers of a new controller do, and in whatever order their locked
    actions and captures interleave, its ledger is in a state that a sequence of ledger calls by the
    controller alone reaches, and that sequence issued every reservation; so the calls spent are the
    reservations issued, within the limit, all distinct, and only the last one issued can still pass
    the ledger's check. *)
Theorem controller_refines_ledger object simulation task governance limit policy credential c s :
  make object simulation task governance limit policy credential = Ok c →
  rtc system_step (Build_system c []) s →
  ∃ rs, ledger_run object simulation (TransportLedger.make limit) rs (ac_ledger (sy_controller s)) ∧
    call_count (sy_controller s) = Z.of_nat (length rs) ∧ call_count (sy_controller s) <= limit ∧ NoDup rs ∧
    ∀ r, TransportLedger.check (ac_ledger (sy_controller s)) r object = Ok tt → ∃ earlier, rs = earlier ++ [r].
Proof.
  intros Hm Hr. unfold make, check_count in Hm. res_inv. bool_inv. subst c.
  destruct (system_runs object simulation (TransportLedger.make limit) _ _ Hr) as (_ & _ & rs & Hrun).
  { split; [done|]. split; [done|]. exists []. constructor. }
  exists rs. split; [done|]. pose proof (made_ledger_ok object simulation limit ltac:(lia)) as Hok.
  pose proof (ledger_run_indices _ _ _ _ _ Hrun) as [_ Hu]. cbn in Hu.
  pose proof (ledger_run_grows _ _ _ _ _ Hrun) as [_ _ Hl _]. cbn in Hl.
  split; [done|]. split; [unfold call_count; rewrite <- Hl; apply (ledger_run_ok _ _ _ _ _ Hrun Hok)|].
  split; [by eapply issued_distinct|]. apply (only_last_valid object simulation limit); [lia|done].
Qed.

(** ** Gates *)

(** How the stage may move in one step. *)
Inductive gate_move (c c' : ActivationController) : Prop :=
  | gate_stays :
      ac_stage c' = ac_stage c → ac_authorization c' = ac_authorization c → gate_move c c'
  | gate_returns :
      ac_stage c' = SYNTHETIC → ac_authorization c' = None → ac_observations c' = [] → ac_owned c' = no_stream →
      epoch c' = epoch c + 1 → revoked c = false → gate_move c c'
  | gate_advances a observation :
      ac_authorization c' = Some a → ac_stage c' = oa_stage a →
      stage_number (ac_stage c') = stage_number (ac_stage c) + 1 →
      OperatorStageAuthorization.check a = Ok tt → oa_epoch a = epoch c →
      observation_at (ac_stage c) c = Some observation → observed_in_epoch observation c = Ok true →
      tl_pending (ac_ledger c) = None → revoked c = false → remaining_transport_calls c ≠ 0 →
      epoch c' = epoch c + 1 → ac_owned c' = no_stream → gate_move c c'.

Lemma reserve_gates request c :
  ac_stage (reserve request c).1 = ac_stage c ∧ ac_authorization (reserve request c).1 = ac_authorization c.
Proof. unfold reserve, on_ledger. by destruct (TransportLedger.reserve _ _ _ _). Qed.

(** Keeping the stage and the authorization is kept by composition. *)
Definition at_gate (stage : ActivationStage) (a : option OperatorStageAuthorization) (c : ActivationController) : Prop :=
  ac_stage c = stage ∧ ac_authorization c = a.

Lemma at_gate_reserve stage a request : keeps (at_gate stage a) (reserve request).
Proof. intros c [? ?]. destruct (reserve_gates request c). split; congruence. Qed.

Lemma at_gate_retain stage a proposal source : keeps (at_gate stage a) (retain_proposal proposal source).
Proof. intros c Hc. unfold retain_proposal. repeat case_match; done. Qed.

Lemma stays_by {A} (m : act A) c : (∀ stage a, keeps (at_gate stage a) m) → gate_move c (m c).1.
Proof. intros H. destruct (H (ac_stage c) (ac_authorization c) c (conj eq_refl eq_refl)). by apply gate_stays. Qed.

Lemma rollback_gates c : gate_move c (rollback c).1.
Proof.
  unfold rollback. rewrite bind_reading. unfold check_active. destruct (revoked c) eqn:Er; [by apply gate_stays|].
  cbn [raise_if]. unfold act_bind, on_ledger, TransportLedger.retire_epoch.
  destruct (_ =? _); [by apply gate_stays|]. by apply gate_returns.
Qed.

Lemma configure_gates policy credential c : gate_move c (configure_transport policy credential c).1.
Proof.
  unfold configure_transport. destruct (_ ;;* _); [|by apply gate_stays].
  destruct (is_deployment _ _ _); [by apply gate_stays|]. unfold act_bind. pose proof (rollback_gates c) as H.
  destruct (rollback c) as [c' [u|e]]; [|done].
  destruct H as [| |a' o]; [by apply gate_stays|by apply gate_returns|].
  by apply (gate_advances _ _ a' o).
Qed.

Lemma authorize_gates a c : gate_move c (authorize a c).1.
Proof.
  unfold authorize. rewrite bind_reading.
  match goal with |- context [match ?t with Ok _ => _ | Raise _ => _ end] => destruct t eqn:E end; [|by apply gate_stays].
  unfold act_bind, on_ledger, TransportLedger.retire_epoch.
  destruct (Z.eqb_spec (tl_epoch (ac_ledger c)) MAX_EPOCH); [by apply gate_stays|]. cbn.
  res_inv. destruct (observation_at (ac_stage c) c) as [o|] eqn:Eo; [|done].
  match goal with H : res_bind (observed_in_epoch o c) _ = Ok _ |- _ => rename H into Hobs end.
  res_inv. bool_inv. subst.
  apply (gate_advances _ _ a o); cbn; try done.
  - by destruct (tl_pending (ac_ledger c)).
  - match goal with H : check_active c = Ok _ |- _ => by apply raise_if_Ok in H end.
Qed.

Lemma caller_gates {A} (m : act A) c : caller m → gate_move c (m c).1.
Proof.
  destruct 1.
  - apply configure_gates.
  - apply stays_by. intros stage0 a0 c' Hc. unfold register_selected_read. repeat case_match; done.
  - apply authorize_gates.
  - apply stays_by. intros stage0 a0. apply keeps_bind; [auto with activation|]. intros i. apply at_gate_reserve.
  - apply stays_by. intros stage0 a0. apply keeps_bind; [auto with activation|]. intros n.
    apply keeps_bind; [apply at_gate_reserve|]. intros r. apply keeps_bind; [|auto with activation]. by apply keeps_updating.
  - apply stays_by. intros stage0 a0 c' Hc. unfold complete_call. destruct (negb _); [done|]. case_bool_decide; done.
  - apply stays_by. intros stage0 a0. unfold propose_conclude. auto using at_gate_retain with activation.
  - apply stays_by. intros stage0 a0. apply at_gate_retain.
  - apply stays_by. intros stage0 a0. by apply keeps_updating.
  - apply stays_by. intros stage0 a0. unfold conclude_verification.
    repeat (apply keeps_bind; [|intros ?]); auto with activation.
  - apply rollback_gates.
  - apply stays_by. intros stage0 a0 c' Hc. unfold revoke. case_match; [done|].
    apply (keeps_bind (at_gate stage0 a0)); [| |done].
    + intros c1 Hc1. unfold on_ledger. by destruct (TransportLedger.retire_epoch _ _).
    + intros _. by apply keeps_updating.
Qed.

(** C15.  Stages move only through the gates: in one step of any caller the stage and its authorization
    stay as they are, or a rollback returns to the synthetic stage with every observation, proposal and
    plan cleared, or one checked operator authorization for the current epoch advances the stage by
    exactly one while the verification of the stage before it is an observation of this very epoch, no
    call is outstanding, the controller is not revoked and budget is left; whenever the authorization
    changes, the epoch moves on. *)
Theorem stages_advance_through_gates s s' :
  system_step s s' → gate_move (sy_controller s) (sy_controller s').
Proof.
  intros [(A & m & Hm & ->)|(_ & _ & _ & Hs & Ha & _)]%capture_section_gates; [by apply caller_gates|by apply gate_stays].
Qed.

(** ** Permits and the record of captures *)

Lemma reachable_controller object simulation task governance limit policy credential c s :
  make object simulation task governance limit policy credential = Ok c → rtc system_step (Build_system c []) s →
  controller_ok (sy_controller s) ∧ ac_object (sy_controller s) = object.
Proof.
  intros Hm Hr. pose proof (make_controller_ok _ _ _ _ _ _ _ _ Hm) as Hc. split; [apply (reachable_ok _ _ Hc Hr)|].
  destruct (system_runs _ _ _ _ _ Hr (runs_from_refl c)) as (-> & _). unfold make in Hm. res_inv. by subst.
Qed.

(** C12.  Whatever the callers of a new controller do, in any interleaving, a reservation that passes the
    ledger's check is inside the operator authorization in force: the authorization is a valid one for
    this task, deployment and stage, the reservation carries the same stage, task, governance and
    deployment, it is no rehearsal, and a selected read names a tool and a resource of the authorization,
    which is then one of the last stage. *)
Theorem valid_permit_is_authorized object simulation task governance limit policy credential c s r :
  make object simulation task governance limit policy credential = Ok c →
  rtc system_step (Build_system c []) s →
  TransportLedger.check (ac_ledger (sy_controller s)) r object = Ok tt →
  ∃ a, ac_authorization (sy_controller s) = Some a ∧ OperatorStageAuthorization.check a = Ok tt ∧
    tc_stage r = oa_stage a ∧ tc_task_id r = oa_task_id a ∧ tc_governance_id r = oa_governance_id a ∧
    tc_transport_policy_id r = Some (oa_transport_policy_id a) ∧
    tc_credential_reference_id r = Some (oa_credential_reference_id a) ∧
    (tc_kind r = CALL_OPENAI ∨
     tc_kind r = CALL_SELECTED_READ ∧ oa_stage a = OPENAI_SELECTED_READS ∧
     ∃ tool selection, tc_tool_name r = Some tool ∧ tool ∈ oa_selected_read_tools a ∧
       tc_selection_id r = Some selection ∧ selection ∈ oa_selected_read_selection_ids a).
Proof.
  intros Hm Hr (_ & Hp & _)%check_Ok. destruct (reachable_controller _ _ _ _ _ _ _ _ _ Hm Hr) as [[_ _ Ha Hpm _ _] _].
  destruct (Hpm r Hp) as [Hst Htask Hgov Hpol Hcred Hact Hkind]. unfold selected_read_tools, selected_read_selection_ids in Hkind.
  destruct (ac_authorization (sy_controller s)) as [a|]; [|done]. destruct Ha as [Hck Has Hmode Hat Hag Hap Hac].
  exists a. do 7 (split; [congruence|]). destruct (tc_kind r); [by left| |done]. right.
  destruct Hkind as (? & (tool & ? & ?) & (sel & ? & ?)). split; [done|]. split; [congruence|]. by exists tool, sel.
Qed.

(** C16.  In every state that callers of a new controller can reach, in any interleaving and with any
    number of captures running, the evidence of captures reconciles with the ledger -- the attempts and
    the plans in flight that consumed a reservation are exactly the selected-read calls that were spent,
    so the guard of [canonical_record] never raises --, attempts and plans in flight stay within the
    capture bound, the calls of both kinds add up to the calls spent, and the owned stream keeps its bound
    with a source for every proposal. *)
Theorem captures_always_reconcile object simulation task governance limit policy credential c s :
  make object simulation task governance limit policy credential = Ok c →
  rtc system_step (Build_system c []) s →
  reserved_captures (sy_controller s) = tl_selected_read_calls (ac_ledger (sy_controller s)) ∧
  0 <= attempts_left (sy_controller s) ∧
  tl_openai_calls (ac_ledger (sy_controller s)) + tl_selected_read_calls (ac_ledger (sy_controller s)) =
    call_count (sy_controller s) ∧
  Z.of_nat (length (ow_live_proposals (ac_owned (sy_controller s)))) <= MAX_RETAINED_PROPOSALS ∧
  length (ow_live_source_bindings (ac_owned (sy_controller s))) = length (ow_live_proposals (ac_owned (sy_controller s))).
Proof.
  intros Hm Hr. destruct (reachable_controller _ _ _ _ _ _ _ _ _ Hm Hr) as [[_ Hcalls _ _ [Hn Hb] [_ _ _ Hbound Hres]] _].
  unfold reserved_captures, attempts_left. unfold reserved_of in Hres. split; [lia|]. split; [lia|]. done.
Qed.

(** ** Revocation *)

Lemma revoked_step s s' object simulation :
  ac_object (sy_controller s) = object → ac_simulation_only (sy_controller s) = simulation →
  ledger_ok object simulation (ac_ledger (sy_controller s)) → revoked (sy_controller s) = true → system_step s s' →
  revoked (sy_controller s') = true ∧ call_count (sy_controller s') = call_count (sy_controller s) ∧
  ac_stage (sy_controller s') = ac_stage (sy_controller s).
Proof.
  intros <- <- Hok Hrev Hs. pose proof (system_step_runs _ _ _ _ _ Hs (runs_from_refl _)) as (_ & _ & rs & Hrun).
  assert (∀ l rs l', ledger_run (ac_object (sy_controller s)) (ac_simulation_only (sy_controller s)) l rs l' →
            tl_revoked l = true → tl_used l' = tl_used l) as Hused.
  { clear. induction 1 as [|l o l1 rs l2 Hs Hr IH]; [done|]. intros Hrev.
    rewrite IH by apply (lg_revoked _ _ (ledger_step_grows _ _ _ _ _ Hs) Hrev).
    destruct Hs as [l0 q l0' r H|l0 q l0' e H|l0|l0 b]; [|by apply reserve_Raise in H as [-> _]|done|].
    - apply reserve_Ok in H as (? & _). congruence.
    - by pose proof (retire_epoch_state l0 b) as (-> & _). }
  split; [by apply (lg_revoked _ _ (ledger_run_grows _ _ _ _ _ Hrun))|]. split; [by eapply Hused|].
  destruct (stages_advance_through_gates _ _ Hs); congruence.
Qed.

(** C17.  Revocation is final: once a controller is revoked, no interleaving of its callers -- not an
    authorization, a new deployment, a rollback or a capture that was running -- makes it live again,
    spends another call or moves its stage, and no reservation, old or new, passes the ledger's check. *)
Theorem revocation_is_final object simulation task governance limit policy credential c s s' :
  make object simulation task governance limit policy credential = Ok c →
  rtc system_step (Build_system c []) s → revoked (sy_controller s) = true → rtc system_step s s' →
  revoked (sy_controller s') = true ∧ call_count (sy_controller s') = call_count (sy_controller s) ∧
  ac_stage (sy_controller s') = ac_stage (sy_controller s) ∧
  (∀ r owner, is_ok (TransportLedger.check (ac_ledger (sy_controller s')) r owner) = false).
Proof.
  intros Hm Hr Hrev Hr'.
  enough (revoked (sy_controller s') = true ∧ call_count (sy_controller s') = call_count (sy_controller s) ∧
          ac_stage (sy_controller s') = ac_stage (sy_controller s)) as (H1 & H2 & H3).
  { split; [done|]. split; [done|]. split; [done|]. intros r owner.
    destruct (TransportLedger.check _ r owner) eqn:E; [|done]. apply check_Ok in E as (_ & _ & _ & E).
    unfold revoked in H1. congruence. }
  induction Hr' as [s|s s1 s2 Hs _ IH]; [done|]. destruct (reachable_controller _ _ _ _ _ _ _ _ _ Hm Hr) as [Hc _].
  destruct (revoked_step s s1 _ _ eq_refl eq_refl (co_ledger _ Hc) Hrev Hs) as (H1 & H2 & H3).
  destruct IH as (? & ? & ?); [by eapply rtc_r|done|]. split; [done|]. split; congruence.
Qed.

(** ** One capture *)

(** A selected capture that no other caller disturbs, whatever its adapter, the remote answer and the
    native context do, spends at most one transport call and stays in its epoch and stage.  A capture that
    is returned spent exactly the next call of the budget, is kept once and under that call's index, and
    leaves no call and no plan outstanding; one that fails after its admission keeps no capture but adds
    exactly one attempt, which names the call if and only if one was spent. *)
Theorem capture_spends_one_call a proposal dependency x x1 x2 batch c a' c' r :
  undisturbed a →
  capture_selected_read a proposal dependency x x1 x2 batch c = (a', (c', r)) →
  epoch c' = epoch c ∧ ac_stage c' = ac_stage c ∧ call_count c <= call_count c' <= call_count c + 1 ∧
  match r with
  | Ok (inl capture) =>
      call_count c' = call_count c + 1 ∧ rc_transport_call_index capture = call_count c ∧
      rc_epoch capture = epoch c ∧ ow_captures (ac_owned c') = ow_captures (ac_owned c) ++ [capture] ∧
      ow_capture_plan (ac_owned c') = None ∧ tl_pending (ac_ledger c') = None ∧
      ∃ attempt, cl_attempts (ac_log c') = cl_attempts (ac_log c) ++ [attempt] ∧
        sr_status attempt = captured.1 ∧ sr_transport_call_index attempt = Some (call_count c)
  | Ok (inr attempt) =>
      ow_captures (ac_owned c') = ow_captures (ac_owned c) ∧
      ow_capture_plan (ac_owned c') = None ∧ tl_pending (ac_ledger c') = None ∧
      cl_attempts (ac_log c') = cl_attempts (ac_log c) ++ [attempt] ∧
      sr_transport_call_index attempt = (if call_count c' =? call_count c then None else Some (call_count c))
  | Raise _ => True
  end.
Proof.
  intros Hq. unfold capture_selected_read. destruct (capture_begin a proposal dependency x batch c) as [cs [t|e]] eqn:E.
  2: { intros [= <- <- <-]. apply capture_begin_state in E as [[-> _]|(plan & next & _ & _ & -> & _)]; cbn;
         (split; [done|]; split; [done|]; split; [unfold call_count; cbn; lia|done]). }
  pose proof (capture_begin_idle _ _ _ _ _ _ _ _ E) as Hidle.
  apply capture_begin_state in E as [[_ Hn]|(plan & next & Hi & _ & -> & Ht)]; [by destruct (Hn t)|].
  destruct (Ht t eq_refl) as [Hp Hf]. destruct (start_plan_state plan next c) as [Hplan Hlook].
  destruct (capture_body a t proposal x1 x2 (start_plan plan next c)) as [a1 [c2 [v capture]]] eqn:Eb.
  apply body_state with (p := plan) in Eb as (c1 & Hd & Hr); [|done|done|by rewrite Hp|by rewrite Hp|done].
  destruct (capture_finish t v capture c2) as [c3 fin] eqn:Ef. intros [= <- <- <-].
  assert (ow_capture_plan (ac_owned c2) = Some (ct_plan t)) as Hplan2.
  { rewrite Hp, <- Hplan, <- (du_owned _ _ _ Hd). destruct capture as [k|]; [|by subst].
    destruct Hr as (_ & _ & _ & _ & _ & _ & ->). done. }
  apply finish_state in Ef as (Hl & Hst & Hcap & Hfin); [|done].
  destruct Hd as [D1 D2 _ D4 D5 D6 _ D8]. unfold plan_index in Hfin.
  assert (ac_ledger c3 = ac_ledger c1 ∧ ac_stage c3 = ac_stage c1) as [Hl3 Hst3].
  { destruct capture as [k|]; [destruct Hr as (_ & _ & _ & _ & _ & _ & ->)|subst c2]; done. }
  unfold epoch, call_count in *. rewrite Hl3, Hst3. cbn in D1, D2, D8. split; [done|]. split; [done|].
  split; [destruct D8 as [[? _]|[? _]]; lia|]. destruct fin as [attempt|e]; [|done]. cbn.
  destruct Hfin as (Hnone & Hatt & _ & Hstatus & _ & Hindex). destruct capture as [k|].
  - destruct Hr as (H1 & H2 & _ & _ & H5 & -> & ->). cbn in *. destruct D8 as [[? _]|[_ Hix]]; [lia|].
    split; [done|]. split; [done|]. split; [done|]. split; [by rewrite Hcap, D5|]. split; [done|]. split; [done|].
    exists attempt. split; [by rewrite Hatt, D6|]. split; [done|]. by rewrite Hindex, Hix.
  - subst c2. split; [by rewrite Hcap, D5|]. split; [done|]. split; [done|]. split; [by rewrite Hatt, D6|].
    rewrite Hindex. destruct D8 as [[-> Hpl]|[-> Hix]].
    + rewrite Z.eqb_refl, Hp. rewrite Hpl. cbn. rewrite lookup_app_r, Nat.sub_diag by done. done.
    + rewrite Hix. by destruct (Z.eqb_spec (tl_used (ac_ledger c) + 1) (tl_used (ac_ledger c))); [lia|].
Qed.

End properties.
