(* ===== verification/ActivationExamples.v ===== *)
(** * A controller through its first gate

    Concrete states for the properties of the activation controller: a controller is made, its synthetic
    stage is verified, an operator authorizes the first live stage and one call is reserved for a valid
    projection; then the controller is revoked. *)

From Stdlib Require Import Ascii String.
From stdpp Require Import base list relations.
From S2P Require Import Prelude PyStr PyNumber Sha256 Canonical Records Orchestration Admission Governance Receipts Strategy Lease Session Supervisor Proposals GitHub ObservedSnapshots TransportLedger LedgerFacts Activation Adapters Capture Gates ActivationFacts CaptureFacts ActivationProperties.

(** A runtime whose native side answers nothing. *)
#[export] Instance silent_seals : NativeSeals := {|
  receipt_seal := unit; receipt_seal_validates := λ _ _, false;
  state_seal := unit; state_seal_validates := λ _ _, false;
  request_seal := unit; request_seal_validates := λ _ _, false;
  grant_seal := unit; grant_seal_validates := λ _ _, false
|}.

#[export] Instance silent_runtime : NativeRuntime := {|
  native := unit; supervisor_authority := unit;
  native_open := λ _ _ _, Raise RuntimeError;
  native_take_authority := λ _, Raise RuntimeError;
  native_snapshot := λ _, Raise RuntimeError;
  native_terminal_cycle_period := λ _, None;
  native_dispatch := λ s _ _ _, (s, Raise RuntimeError);
  native_epoch_status := λ _, Raise RuntimeError;
  native_authority_status := λ _ _ _, Raise RuntimeError;
  native_check_checkpoint := λ _ _ _ _, Raise RuntimeError
|}.

#[export] Instance silent_identity : ObjectIdentity := {| lineage_object := λ _, 0 |}.

(** The smallest value of a schema. *)
Fixpoint smallest (rule : schema) : pyval :=
  match rule with
  | SFields rules => obj (map (λ '(name, r), (name, smallest r)) rules)
  | SOptional _ => VNone
  | SArray _ _ _ => VList []
  | SEnum members => VStr (hd [] members)
  | SFingerprint => VStr (repeated 48)
  | SSymbol => VStr (u "key")
  | SU64 => VInt 1
  | SBool => VBool false
  | SConst c => c
  end.

Definition ax_status : list (string * pyval) :=
  [("protocol_version", VStr (u "IBAE-AUTHORITY-EPOCH-V1")); ("task_id", VStr (repeated 48));
   ("governance_id", VStr (repeated 48)); ("continuation_policy_id", VStr (repeated 48));
   ("runtime_session_id", VStr (repeated 48)); ("authority_epoch", VInt 0); ("revoked", VBool false)]%string.

Definition ax_status_id : pystr :=
  Eval vm_compute in
    match domain_fingerprint (u "ibae.authority-epoch-status-id.v1") (obj ax_status) with Ok i => i | _ => [] end.

Definition ax_authority : pyval :=
  obj (ax_status ++ [("authority_epoch_status_id", VStr ax_status_id); ("supervisor_capability_present", VBool true);
                     ("control_provenance", VStr CONTROL_PROVENANCE)]%string).

Definition ax_projection : pyval :=
  obj [("protocol_version", VStr SUPERVISOR_PROJECTION_VERSION); ("authoritative", VBool false);
       ("trust_scope", VStr (u "structural-in-process-lineage-only"));
       ("sources", obj (map (λ name, (name, if str_in (u name) OPTIONAL_SOURCES then VNone else VStr (repeated 48)))
                            SOURCE_FIELDS));
       ("decision_surface", obj (("authority", ax_authority) :: map (λ '(name, r), (name, smallest r)) surface_rules)%string);
       ("data", VList [])]%string.

Example ax_projection_valid : validate_projection ax_projection = Ok ax_projection.
Proof. vm_compute. reflexivity. Qed.

(** ** A run *)

Definition ax_controller : ActivationController :=
  {| ac_object := 7; ac_simulation_only := false; ac_task_id := repeated 48; ac_governance_id := repeated 48;
     ac_transport_policy_id := Some (repeated 50); ac_credential_reference_id := Some (repeated 51);
     ac_ledger := TransportLedger.make 2; ac_stage := SYNTHETIC; ac_authorization := None; ac_observations := [];
     ac_owned := no_stream; ac_log := no_captures; ac_last_capture_surface := None |}.

Lemma ax_made :
  ActivationController.make 7 false (repeated 48) (repeated 48) 2 (Some (repeated 50)) (Some (repeated 51)) = Ok ax_controller.
Proof. vm_compute. reflexivity. Qed.

Definition ax_verify : act StageObservation :=
  ActivationController.conclude_verification 9 (ActivationController.fence_of ax_controller) SYNTHETIC false (λ _, Ok (obj [])).

Definition ax_authorization : OperatorStageAuthorization :=
  {| oa_stage := OPENAI_FAKE_TOOLS; oa_task_id := repeated 48; oa_governance_id := repeated 48; oa_epoch := 0;
     oa_operator_key := u "operator"; oa_tool_profile := FAKE; oa_selected_read_tools := [];
     oa_transport_policy_id := repeated 50; oa_credential_reference_id := repeated 51;
     oa_selected_read_selection_ids := []; oa_simulation_only := false |}.

Definition ax_reserve : act TransportCallReservation :=
  ActivationController.reserve_call ax_projection OPENAI_FAKE_TOOLS FAKE (repeated 50) (repeated 51) [].

Definition ax_verified : ActivationController := Eval vm_compute in (ax_verify ax_controller).1.
Definition ax_authorized : ActivationController :=
  Eval vm_compute in (ActivationController.authorize ax_authorization ax_verified).1.
Definition ax_reserved : ActivationController := Eval vm_compute in (ax_reserve ax_authorized).1.
Definition ax_revoked : ActivationController := Eval vm_compute in (ActivationController.revoke ax_reserved).1.

Lemma ax_verified_step : (ax_verify ax_controller).1 = ax_verified.
Proof. vm_compute. reflexivity. Qed.
Lemma ax_authorized_step : (ActivationController.authorize ax_authorization ax_verified).1 = ax_authorized.
Proof. vm_compute. reflexivity. Qed.
Lemma ax_reserved_step : (ax_reserve ax_authorized).1 = ax_reserved.
Proof. vm_compute. reflexivity. Qed.
Lemma ax_revoked_step : (ActivationController.revoke ax_reserved).1 = ax_revoked.
Proof. vm_compute. reflexivity. Qed.

(** The gate opened and the call is outstanding. *)
Example ax_gate_opened :
  (ac_stage ax_authorized, ActivationController.epoch ax_authorized, tl_used (ac_ledger ax_reserved),
   Epistemic.is_some (tl_pending (ac_ledger ax_reserved)), ActivationController.revoked ax_revoked) =
  (OPENAI_FAKE_TOOLS, 1, 1, true, true).
Proof. reflexivity. Qed.

Lemma ax_calls {A} (m : act A) c c' : caller m → (m c).1 = c' → system_step (Build_system c []) (Build_system c' []).
Proof. intros Hm <-. by apply step_caller. Qed.

Lemma ax_verify_caller : caller ax_verify.
Proof. apply call_verify. Qed.
Lemma ax_reserve_caller : caller ax_reserve.
Proof. apply call_reserve_call. Qed.

Lemma ax_reaches : rtc system_step (Build_system ax_controller []) (Build_system ax_reserved []).
Proof.
  eapply rtc_l; [apply (ax_calls ax_verify _ _ ax_verify_caller ax_verified_step)|].
  eapply rtc_l; [apply (ax_calls _ _ _ (call_authorize _) ax_authorized_step)|].
  eapply rtc_l; [apply (ax_calls ax_reserve _ _ ax_reserve_caller ax_reserved_step)|]. apply rtc_refl.
Qed.

Lemma ax_reaches_revoked : rtc system_step (Build_system ax_controller []) (Build_system ax_revoked []).
Proof.
  eapply rtc_r; [apply ax_reaches|]. apply (ax_calls _ _ _ call_revoke ax_revoked_step).
Qed.

(** The outstanding reservation. *)
Definition ax_reservation : TransportCallReservation :=
  Eval vm_compute in match tl_pending (ac_ledger ax_reserved) with Some r => r | None =>
    TransportLedger.issue (TransportLedger.make 0) 0 false rehearsal_request end.

(** ** Witnesses *)

Lemma controller_refines_ledger_witness :
  ∃ rs, ledger_run 7 false (TransportLedger.make 2) rs (ac_ledger ax_reserved) ∧
    ActivationController.call_count ax_reserved = Z.of_nat (length rs) ∧
    ActivationController.call_count ax_reserved <= 2 ∧ NoDup rs ∧
    ∀ r, TransportLedger.check (ac_ledger ax_reserved) r 7 = Ok tt → ∃ earlier, rs = earlier ++ [r].
Proof. apply (controller_refines_ledger _ _ _ _ _ _ _ _ _ ax_made ax_reaches). Defined.

Lemma valid_permit_is_authorized_witness :
  ∃ a, ac_authorization ax_reserved = Some a ∧ OperatorStageAuthorization.check a = Ok tt ∧
    tc_stage ax_reservation = oa_stage a ∧ tc_task_id ax_reservation = oa_task_id a ∧
    tc_governance_id ax_reservation = oa_governance_id a ∧
    tc_transport_policy_id ax_reservation = Some (oa_transport_policy_id a) ∧
    tc_credential_reference_id ax_reservation = Some (oa_credential_reference_id a) ∧
    (tc_kind ax_reservation = CALL_OPENAI ∨
     tc_kind ax_reservation = CALL_SELECTED_READ ∧ oa_stage a = OPENAI_SELECTED_READS ∧
     ∃ tool selection, tc_tool_name ax_reservation = Some tool ∧ tool ∈ oa_selected_read_tools a ∧
       tc_selection_id ax_reservation = Some selection ∧ selection ∈ oa_selected_read_selection_ids a).
Proof. apply (valid_permit_is_authorized _ _ _ _ _ _ _ _ _ _ ax_made ax_reaches). vm_compute. reflexivity. Defined.

Lemma captures_always_reconcile_witness :
  reserved_captures ax_reserved = tl_selected_read_calls (ac_ledger ax_reserved) ∧
  0 <= attempts_left ax_reserved ∧
  tl_openai_calls (ac_ledger ax_reserved) + tl_selected_read_calls (ac_ledger ax_reserved) =
    ActivationController.call_count ax_reserved ∧
  Z.of_nat (length (ow_live_proposals (ac_owned ax_reserved))) <= MAX_RETAINED_PROPOSALS ∧
  length (ow_live_source_bindings (ac_owned ax_reserved)) = length (ow_live_proposals (ac_owned ax_reserved)).
Proof. apply (captures_always_reconcile _ _ _ _ _ _ _ _ _ ax_made ax_reaches). Defined.

Lemma revocation_is_final_witness :
  ActivationController.revoked ax_revoked = true ∧
  ActivationController.call_count ax_revoked = ActivationController.call_count ax_revoked ∧
  ac_stage ax_revoked = ac_stage ax_revoked ∧
  (∀ r owner, is_ok (TransportLedger.check (ac_ledger ax_revoked) r owner) = false).
Proof.
  apply (revocation_is_final _ _ _ _ _ _ _ _ _ (Build_system ax_revoked []) ax_made ax_reaches_revoked); [reflexivity|].
  apply rtc_refl.
Defined.

Lemma stages_advance_through_gates_witness : gate_move ax_verified ax_authorized.
Proof. apply (stages_advance_through_gates _ _ (ax_calls _ _ _ (call_authorize _) ax_authorized_step)). Defined.
