(* ===== verification/SupervisorExamples.v ===== *)
(** * A live supervisor context

    One governed task under a continuation policy, with its orchestration state, a continuation state that
    the native side sealed, and a runtime that reports the snapshot and the authority it was sealed for. *)

From Stdlib Require Import Ascii String.
From stdpp Require Import base list gmap.
From S2P Require Import Prelude PyStr PyNumber Sha256 Canonical Records Kahn Obligations Epistemic Orchestration Admission AdmissionSpec Budget Progress ProgressFacts Snapshot Receipts ReceiptsFacts Strategy Lease LeaseMachine LeaseExamples Governance GovernanceReceipts GovernanceExamples Session Supervisor.

(** A native session is the snapshot and the authority status that it reports, in canonical text. *)
#[export] Instance reporting_runtime : NativeRuntime := {|
  native := pystr * pystr; supervisor_authority := unit;
  native_open := λ _ _ _, Raise RuntimeError;
  native_take_authority := λ n, Ok (n, tt);
  native_snapshot := λ n, Ok n.1;
  native_terminal_cycle_period := λ _, None;
  native_dispatch := λ n _ _ _, (n, Raise RuntimeError);
  native_epoch_status := λ n, Ok n.2;
  native_authority_status := λ n _ _, Ok n.2;
  native_check_checkpoint := λ s n t _,
    let* text := ContinuationState.decision_lineage_text t in raise_if (negb (bool_decide (s = text))) ValueError
|}.

(** Every lineage object is the one of the run. *)
#[export] Instance one_lineage : ObjectIdentity := {| lineage_object := λ _, 1 |}.

Definition px_policy_result : res ContinuationPolicy := Eval vm_compute in
  ContinuationPolicy.make {|
    cp_policy_key := cp_policy_key lx_policy; cp_policy_version := 1; cp_task_profile := u "profile";
    cp_task_profile_version := 1; cp_initial_budget := cp_initial_budget lx_policy;
    cp_lease_schedule := cp_lease_schedule lx_policy; cp_total_ceiling := cp_total_ceiling lx_policy;
    cp_max_lease_requests := cp_max_lease_requests lx_policy;
    cp_progress_contract_id := cp_progress_contract_id lx_policy;
    cp_admitted_progress := cp_admitted_progress lx_policy;
    cp_max_strategy_recoveries := cp_max_strategy_recoveries lx_policy |}.
Definition px_policy : ContinuationPolicy := Eval cbv in value_of px_policy_result.

Definition px_receipt_result : res ContinuationPolicyReceipt := Eval vm_compute in
  let* binding := governance_binding gx_policy gx_governance in ContinuationPolicyReceipt.make px_policy binding.
Definition px_receipt : ContinuationPolicyReceipt := Eval cbv in value_of px_receipt_result.

Definition px_receipt_id : pystr := Eval vm_compute in
  text_of (receipt_id_of (ContinuationPolicyReceipt.canonical_record px_receipt)).

Definition px_snapshot : RuntimeSnapshot := {|
  rs_session_id := ex_task_id; rs_state_id := ex_task_id; rs_logical_tick := 0; rs_requests := 0;
  rs_executions := 0; rs_cache_hits := 0; rs_retries := 0; rs_history := []; rs_cache := [];
  rs_limits := {| rl_max_requests := 8; rl_max_executions := 4; rl_max_retries := 2; rl_max_history := 8 |};
  rs_continuation := Some {|
    rc_task := cr_task_id px_receipt; rc_governance := cr_governance_id px_receipt;
    rc_governance_receipt := cr_governance_receipt_id px_receipt;
    rc_continuation_policy := cr_continuation_policy_id px_receipt;
    rc_continuation_policy_receipt := px_receipt_id;
    rc_progress_contract := cp_progress_contract_id px_policy;
    rc_cumulative_granted := lx_vector 0 0 0 0 0; rc_total_ceiling := lx_vector 12 6 3 0 12;
    rc_applied_grant_ids := []; rc_leases_applied := 0; rc_next_lease_index := 1 |} |}.

Definition px_state_result : res ContinuationState := Eval vm_compute in
  let* s := create_unsealed px_policy px_receipt px_snapshot ex_state px_snapshot None None in seal_state s.
Definition px_state : ContinuationState := Eval cbv in value_of px_state_result.

Definition px_snapshot_text : pystr := Eval vm_compute in text_of (RuntimeSnapshot.canonical_text px_snapshot).

Definition px_status (revoked : bool) : res pystr :=
  let body := [("protocol_version", VStr (u "IBAE-AUTHORITY-EPOCH-V1")); ("task_id", VStr (cr_task_id px_receipt));
               ("governance_id", VStr (cr_governance_id px_receipt));
               ("continuation_policy_id", VStr (cr_continuation_policy_id px_receipt));
               ("runtime_session_id", VStr ex_task_id); ("authority_epoch", VInt 0); ("revoked", VBool revoked)]%string in
  let* i := domain_fingerprint (u "ibae.authority-epoch-status-id.v1") (obj body) in
  canonical_json (obj (body ++ [("authority_epoch_status_id", VStr i)]%string)).
Definition px_live_status : pystr := Eval vm_compute in text_of (px_status false).
Definition px_revoked_status : pystr := Eval vm_compute in text_of (px_status true).

Definition px_context (status : pystr) : SupervisorContext := {|
  sx_task := gx_task; sx_governance := gx_governance; sx_governance_policy := gx_policy;
  sx_continuation_policy := px_policy; sx_continuation_state := px_state; sx_orchestration_state := ex_state;
  sx_runtime_session := {| rt_object := 7; rt_native := (px_snapshot_text, status) |};
  sx_supervisor_authority := Some tt; sx_calibration := None |}.

(** ** A projection of the live context and its handoff *)

Definition px_data : list SupervisorData :=
  [{| sd_origin := TOOL_OUTPUT; sd_source_id := ex_task_id; sd_text := u "observed" |}].

Definition px_live : SupervisorContext := px_context px_live_status.

Definition px_projection_result : res SupervisorProjection := Eval vm_compute in make_projection px_live px_data.
Definition px_projection : SupervisorProjection := Eval cbv in value_of px_projection_result.
Definition px_value_result : res pyval := Eval vm_compute in projection_value px_projection.
Definition px_value : pyval := Eval cbv in value_of px_value_result.
Definition px_handoff_result : res FreshContextHandoff := Eval vm_compute in make_handoff px_projection.
Definition px_handoff : FreshContextHandoff := Eval cbv in value_of px_handoff_result.
Definition px_status_result : res (RuntimeSnapshot * pyval) := Eval vm_compute in validate_context px_live.
Definition px_authority : RuntimeSnapshot * pyval := Eval cbv in value_of px_status_result.

Lemma px_context_valid : validate_context px_live = Ok px_authority.
Proof. vm_compute. reflexivity. Qed.

Lemma px_projection_made : make_projection px_live px_data = Ok px_projection.
Proof. unfold make_projection, projection_record. rewrite px_context_valid. vm_compute. reflexivity. Qed.

Lemma px_projection_value : projection_value px_projection = Ok px_value.
Proof. vm_compute. reflexivity. Qed.

Lemma px_handoff_made : make_handoff px_projection = Ok px_handoff.
Proof. unfold make_handoff, projection_id. rewrite px_projection_value. cbn [res_bind]. vm_compute. reflexivity. Qed.
