(* ===== verification/SupervisorFacts.v ===== *)
(** * Projections, handoffs and recovery: what they say and what they restore

    The projection of a live context is read back as it was made, its surface offers exactly the actions
    that the live state allows, a handoff is read back from its record without the witness of its source,
    and a recovery resumes only the exact live task. *)

From Stdlib Require Import Ascii String.
From stdpp Require Import base list.
From S2P Require Import Prelude PyStr PyNumber Sha256 Canonical CanonicalFacts Fingerprints Records RecordsFacts Kahn Obligations ObligationsFacts Epistemic EpistemicFacts Orchestration Admission Assurance Budget BudgetFacts Progress CanonFields Snapshot Receipts Strategy Lease Evidence CompactEvidence Governance GovernanceReceipts InertJson InertJsonFacts Session JsonFields Supervisor.

(** ** Bounded copies of the supervisor *)

Lemma supervisor_copy_iff limit v r :
  limit_ok limit →
  supervisor_copy limit v = Ok r ↔
  r = v ∧ inert_shape (supervisor_profile limit) 0 v = true ∧ inert_nodes v <= 65536 ∧ json_bytes v <= limit.
Proof. intros Hl. apply (inert_copy_iff (supervisor_profile limit) (supervisor_float limit) v r Hl). Qed.

Lemma projection_limit : limit_ok MAX_SUPERVISOR_PROJECTION_BYTES.
Proof. reflexivity. Qed.
Lemma context_limit : limit_ok MAX_FRESH_CONTEXT_BYTES.
Proof. reflexivity. Qed.

(** A value that was copied and whose objects have distinct keys is in JSON form. *)
Lemma inert_json_form limit depth v :
  inert_shape (supervisor_profile limit) depth v = true → dict_wf v = true → json_form v = true.
Proof.
  revert depth. induction v as [|b|z|f|s|l IH|l IH|l IH|] using pyval_nested_ind; intros depth Hs Hw; try done;
    cbn [inert_shape dict_wf json_form] in *; try rewrite Forall_forall in IH; bool_inv; try done.
  - apply forallb_elem. intros x Hx. apply (IH x Hx (depth + 1)); by eapply forallb_elem.
  - apply andb_true_intro. split; [by apply bool_decide_eq_true|]. apply forallb_elem. intros [k w] Hx.
    destruct (IH _ Hx) as [_ IHw]. cbn [fst snd] in *.
    repeat match goal with H : forallb _ l = true |- _ => apply (proj1 (forallb_elem _ _)) with (x := (k, w)) in H; [|exact Hx] end.
    cbn [fst snd] in *. bool_inv. destruct k; try done. cbn [inert_shape] in *. bool_inv.
    apply andb_true_intro. split; [done|]. by apply (IHw (depth + 1)).
Qed.

(** Reordering the items of a copied object changes nothing that the copy checks. *)
Lemma supervisor_copy_perm limit l l' :
  limit_ok limit → l ≡ₚ l' → supervisor_copy limit (VDict l) = Ok (VDict l) →
  supervisor_copy limit (VDict l') = Ok (VDict l').
Proof.
  intros Hl Hp (_ & Hs & Hn & Hb)%supervisor_copy_iff; [|done]. apply supervisor_copy_iff; [done|].
  assert (Hz : ∀ f : pyval * pyval → Z, zsum (map f l') = zsum (map f l)) by (intros f; by rewrite Hp).
  assert (Hlen : length l' = length l) by (by rewrite Hp).
  split; [done|]. cbn [inert_shape inert_nodes json_bytes] in *. unfold punctuation in *. rewrite Hlen, !Hz.
  split; [|done]. cbn [cp_dict cp_depth cp_keys supervisor_profile] in *.
  apply andb_true_iff in Hs as [-> [[-> Hkeys]%andb_true_iff Hf]%andb_true_iff]. rewrite !andb_true_l.
  apply andb_true_intro. split.
  - revert Hkeys. rewrite !is_ok_raise_if, !negb_true_iff, !existsb_elem_false.
    intros Hk x Hx. apply Hk. by rewrite Hp.
  - apply forallb_elem. intros x Hx. rewrite <- Hp in Hx. by apply (proj1 (forallb_elem _ _) Hf).
Qed.

(** ** The records of a projection have distinct keys *)

Lemma list_wf l : Forall (λ v, dict_wf v = true) l → dict_wf (VList l) = true.
Proof. intros H. cbn [dict_wf]. apply forallb_elem. by apply Forall_forall. Qed.

Lemma res_map_wf {A} (f : A → res pyval) l vs :
  (∀ x v, f x = Ok v → dict_wf v = true) → res_map f l = Ok vs → dict_wf (VList vs) = true.
Proof. intros Hf H%res_map_Ok. apply list_wf. induction H; constructor; eauto. Qed.

Lemma dict_wf_VDict l : dict_wf (VDict l) = true ↔ NoDup (string_keys l) ∧ Forall (λ kv, dict_wf kv.2 = true) l.
Proof. cbn [dict_wf]. by rewrite andb_true_iff, bool_decide_eq_true, forallb_elem, Forall_forall. Qed.

Lemma merged_wf record extra v :
  dict_wf record = true → Forall (λ kv : string * pyval, dict_wf kv.2 = true) extra → merged record extra = Ok v →
  dict_wf v = true.
Proof.
  intros Hr He. destruct record as [| | | | | | |l|]; try done. intros [= <-]. revert l Hr.
  induction He as [|[k w] extra Hw _ IH]; intros l Hr; [done|]. cbn [fold_left]. apply IH.
  apply dict_wf_VDict in Hr as [Hn Hf]. apply dict_wf_VDict. split; [by apply dict_set_keys|].
  apply Forall_forall. intros kv [->|Hin]%dict_set_elem; [done|]. by rewrite Forall_forall in Hf; apply Hf.
Qed.

(** [binds H]: the values that a successful computation bound on its way. *)
Ltac binds H := repeat (let E := fresh "E" in apply res_bind_Ok in H as (? & E & H)).
Ltac bound H := binds H; injection H as <-.

Lemma obligation_view_wf registry o view : obligation_view registry o = Ok view → dict_wf (obj view) = true.
Proof. unfold obligation_view. intros H. bound H. destruct (ob_block_reason o); [bound E3|injection E3 as <-]; by wf_obj. Qed.

Lemma capability_view_wf policy epistemic rc c view :
  capability_view policy epistemic rc c = Ok view → dict_wf (obj view) = true.
Proof.
  unfold capability_view. intros H. bound H. destruct x as [p|]; [bound E3|injection E3 as <-]; by wf_obj.
Qed.

Lemma epistemic_view_wf r v : epistemic_view r = Ok v → dict_wf v = true.
Proof. unfold epistemic_view. intros H. bound H. destruct (EpistemicRecord.is_resolved r); [bound E|injection E as <-]; by wf_obj. Qed.

Lemma data_record_wf d v : SupervisorData.canonical_record d = Ok v → dict_wf v = true.
Proof. unfold SupervisorData.canonical_record. intros H. bound H. by wf_obj. Qed.

Lemma opt_wf {A} (f : A → pystr) o : dict_wf (opt_val (λ a, VStr (f a)) o) = true.
Proof. by destruct o. Qed.
Lemma optional_text_wf o : dict_wf (opt_val VStr o) = true.
Proof. by destruct o. Qed.

(** [wf_fields]: the values of a dict literal are atoms, options of atoms or known to be well formed. *)
Ltac wf_fields :=
  wf_obj; rewrite ?optional_text_wf, ?opt_wf;
  repeat match goal with H : dict_wf _ = true |- _ => rewrite H; clear H | H : forallb dict_wf _ = true |- _ => rewrite H; clear H end;
  reflexivity.

Section projections.
Context {N : NativeSeals} {R : NativeRuntime} {I : ObjectIdentity}.

Lemma compact_projection_wf s policy v : compact_projection s policy = Ok v → dict_wf v = true.
Proof. unfold compact_projection. intros H. bound H. pose proof (budget_wf x2). wf_fields. Qed.

Lemma subscript_wf v name w : dict_wf v = true → subscript v name = Ok w → dict_wf w = true.
Proof.
  destruct v as [| | | | | | |l|]; try done. intros [_ Hf]%dict_wf_VDict H%dict_item_elem. rewrite Forall_forall in Hf. by apply Hf in H.
Qed.

Lemma budgets_wf snapshot state policy orchestration continuation v :
  dict_wf continuation = true → budgets_val snapshot state policy orchestration continuation = Ok v → dict_wf v = true.
Proof.
  unfold budgets_val. intros Hc H. bound H. apply subscript_wf in E, E0, E1, E2, E3; [|done..].
  assert (dict_wf (capacity_val orchestration) = true) by (unfold capacity_val; wf_fields). wf_fields.
Qed.

Lemma sources_wf c snapshot v : sources_val c snapshot = Ok v → dict_wf v = true.
Proof. unfold sources_val. intros H. bound H. destruct (sx_calibration c); [bound E3|injection E3 as <-]; wf_fields. Qed.

Lemma views_wf {A} (f : A → res (list (string * pyval))) l views :
  (∀ x view, f x = Ok view → dict_wf (obj view) = true) → res_map f l = Ok views →
  Forall (λ view, dict_wf (obj view) = true) views.
Proof. intros Hf H%res_map_Ok. induction H; constructor; eauto. Qed.

Lemma view_list_wf views : Forall (λ view, dict_wf (obj view) = true) views → dict_wf (VList (map obj views)) = true.
Proof. intros H. apply list_wf, Forall_map. exact H. Qed.

Lemma view_items_wf name views vs :
  Forall (λ view, dict_wf (obj view) = true) views → res_map (view_item name) (List.filter is_blocked_view views) = Ok vs →
  dict_wf (VList vs) = true.
Proof.
  intros Hf H%res_map_Ok. apply list_wf.
  assert (Hf' : Forall (λ view, dict_wf (obj view) = true) (List.filter is_blocked_view views)).
  { rewrite Forall_forall in Hf |- *. intros view Hv. apply Hf, list_elem_of_In. by apply list_elem_of_In, filter_In in Hv as [Hv _]. }
  clear Hf. induction H as [|view v l vs Hv H IH]; [done|]. apply Forall_cons in Hf' as [Hw Hf'].
  constructor; [by eapply subscript_wf|by apply IH].
Qed.

Lemma surface_wf c snapshot authority v :
  dict_wf authority = true → surface_val c snapshot authority = Ok v → dict_wf v = true.
Proof.
  unfold surface_val. intros Ha H. bound H.
  apply compact_projection_wf in E as Wc. apply (budgets_wf _ _ _ _ _ _ Wc) in E3.
  apply (views_wf _ _ _ (obligation_view_wf _)) in E4 as Wo. apply (view_items_wf _ _ _ Wo) in E11. apply view_list_wf in Wo.
  apply (views_wf _ _ _ (capability_view_wf _ _ _)) in E6 as Wp. apply view_list_wf in Wp.
  apply (merged_wf _ _ _ Ha) in E10; [|by repeat constructor].
  apply (res_map_wf _ _ _ epistemic_view_wf) in E14.
  assert (dict_wf x12 = true) by (destruct x1; [bound E12|injection E12 as <-]; reflexivity).
  apply (merged_wf _ _ _ Wc) in E13; [|repeat constructor; cbn [snd]; [apply strs_val_wf|done]].
  cbn [dict_wf] in E11, E14, Wo, Wp. wf_obj. rewrite E10, E3, E11, E13, E14, Wo, Wp, ?andb_true_l. rewrite !andb_true_r. wf_obj. reflexivity.
Qed.

Lemma validate_context_inv c snapshot status :
  validate_context c = Ok (snapshot, status) →
  session_snapshot (rt_native (sx_runtime_session c)) = Ok snapshot ∧
  continuation_authority_status (rt_native (sx_runtime_session c)) (sx_supervisor_authority c) (sx_continuation_state c) = Ok status.
Proof. unfold validate_context. intros H. binds H. by injection H as <- <-. Qed.

Lemma status_wf n a s status : continuation_authority_status n a s = Ok status → dict_wf status = true.
Proof. unfold continuation_authority_status. intros H. binds H. by apply json_loads_wf in H. Qed.

(** ** What a projection is read back as *)

(** The record of a live context. *)
Definition record_of_parts (sources surface : pyval) (data : list pyval) : pyval :=
  obj [("protocol_version", VStr SUPERVISOR_PROJECTION_VERSION); ("authoritative", VBool false);
       ("trust_scope", VStr (u "structural-in-process-lineage-only")); ("sources", sources);
       ("decision_surface", surface); ("data", VList data)]%string.

Lemma projection_parts c data p :
  make_projection c data = Ok p →
  ∃ snapshot status surface sources records,
    validate_context c = Ok (snapshot, status) ∧ surface_val c snapshot status = Ok surface ∧
    sources_val c snapshot = Ok sources ∧ res_map SupervisorData.canonical_record data = Ok records ∧
    let raw := record_of_parts sources surface records in
    json_form raw = true ∧ canonical_json raw = Ok (sp_text p) ∧ json_loads (sp_text p) = Ok (canon raw).
Proof.
  unfold make_projection, projection_record. intros H. binds H. injection H as <-. cbn [sp_text].
  binds E. injection E as <-. destruct x5 as [snapshot status]. cbn [fst snd] in *.
  apply supervisor_copy_iff in E0 as (-> & Hs & _); [|exact projection_limit].
  exists snapshot, status, x6, x7, x4. split; [done|]. split; [done|]. split; [done|]. split; [done|].
  apply validate_context_inv in E5 as [_ Hst%status_wf].
  assert (Hj : json_form (record_of_parts x7 x6 x4) = true).
  { eapply inert_json_form; [exact Hs|]. apply (surface_wf _ _ _ _ Hst) in E6. apply sources_wf in E7.
    apply (res_map_wf _ _ _ data_record_wf) in E4. cbn [dict_wf] in E4. unfold record_of_parts. wf_fields. }
  split; [done|]. split; [done|]. destruct (json_form_text _ Hj) as (t & Ht & _ & Hl). unfold record_of_parts in *. congruence.
Qed.

(** What the projection of a live context is read back as. *)
Lemma projection_read c data p v :
  make_projection c data = Ok p → projection_value p = Ok v →
  ∃ snapshot status surface sources records,
    validate_context c = Ok (snapshot, status) ∧ surface_val c snapshot status = Ok surface ∧
    sources_val c snapshot = Ok sources ∧ res_map SupervisorData.canonical_record data = Ok records ∧
    json_form (record_of_parts sources surface records) = true ∧ json_form v = true ∧ v = canon (record_of_parts sources surface records) ∧ canon v = v ∧ validate_projection v = Ok v.
Proof.
  intros (snapshot & status & surface & sources & records & Hc & Hs & Ho & Hd & Hj & _ & Hl)%projection_parts Hv.
  unfold projection_value in Hv. rewrite Hl in Hv. apply res_bind_Ok in Hv as (n & _ & Hv). cbn [res_bind] in Hv.
  assert (v = canon (record_of_parts sources surface records)) as ->.
  { unfold validate_projection in Hv. binds Hv. injection Hv as <-. by apply supervisor_copy_iff in E as (-> & _); [|exact projection_limit]. }
  exists snapshot, status, surface, sources, records. split; [done|]. split; [done|]. split; [done|]. split; [done|].
  split; [done|]. split; [by apply json_form_canon|]. split; [done|].
  split; [by apply canon_idem_json|done].
Qed.

Lemma projection_field c data p v :
  make_projection c data = Ok p → projection_value p = Ok v →
  ∃ snapshot status surface sources,
    validate_context c = Ok (snapshot, status) ∧ surface_val c snapshot status = Ok surface ∧
    sources_val c snapshot = Ok sources ∧
    (∀ name w, subscript surface name = Ok w → subscript2 v "decision_surface" name = Ok (canon w)) ∧
    (∀ name w, subscript sources name = Ok w → subscript2 v "sources" name = Ok (canon w)).
Proof.
  intros Hp Hv. destruct (projection_read _ _ _ _ Hp Hv)
    as (snapshot & status & surface & sources & records & Hc & Hs & Ho & _ & Hj & _ & -> & _).
  exists snapshot, status, surface, sources. split; [done|]. split; [done|]. split; [done|].
  split; intros name w Hw; unfold subscript2.
  - destruct (subscript_canon_Ok _ "decision_surface" surface Hj eq_refl) as [-> Hj']. cbn [res_bind].
    by apply subscript_canon_Ok.
  - destruct (subscript_canon_Ok _ "sources" sources Hj eq_refl) as [-> Hj']. cbn [res_bind]. by apply subscript_canon_Ok.
Qed.

(** ** The surface *)

(** The names that carry a true condition. *)
Fixpoint offered (l : list (pystr * bool)) : list pystr :=
  match l with
  | [] => []
  | (name, b) :: rest => (if b then [name] else []) ++ offered rest
  end.

Lemma offered_elem l x b :
  NoDup (map fst l) → find (λ p, bool_decide (p.1 = x)) l = Some (x, b) → x ∈ offered l ↔ b = true.
Proof.
  induction l as [|[n c] l IH]; [done|]. intros [Hn Hnd]%NoDup_cons. cbn [find fst offered].
  assert (Hno : n ∉ offered l).
  { intros Hin. apply Hn. clear -Hin. induction l as [|[m d] l IH]; [done|]. cbn [offered map fst] in *.
    apply elem_of_app in Hin as [Hin|Hin]; [|right; by apply IH]. destruct d; [|by apply elem_of_nil in Hin].
    apply list_elem_of_singleton in Hin as ->. left. }
  rewrite elem_of_app. case_bool_decide as E.
  - subst n. intros [= ->]. destruct b; [|by rewrite elem_of_nil; naive_solver]. rewrite list_elem_of_singleton. naive_solver.
  - intros H. rewrite <- (IH Hnd H). destruct c; rewrite ?list_elem_of_singleton, ?elem_of_nil; naive_solver.
Qed.

(** The actions of a surface by their conditions. *)
Definition action_conditions (f : surface_conditions) (state : ContinuationState) (strategy_eligible : bool)
    (observations_remaining : Z) (views : list (list (string * pyval))) : list (pystr * bool) :=
  let live := sf_active f && negb (sf_governance_blocked f) in
  [(u "inspect_bound_evidence", true); (u "stop", true);
   (u "ask_human_authorization", negb (sf_active f) || sf_governance_blocked f);
   (u "propose_governed_read", existsb (view_flag "read_proposal_eligible") views);
   (u "propose_cache_reuse_subject_to_exact_key_match", existsb (view_flag "cache_reuse_proposal_eligible") views);
   (u "request_progress_lease", lease_eligible f state);
   (u "propose_material_strategy_change", strategy_eligible);
   (u "apply_pending_lease", live && sf_pending f);
   (u "record_terminal_continuation_denial", terminal_denial_eligible f state);
   (u "propose_completion_for_gate_validation", live && sf_complete f);
   (u "observe_bound_progress", can_propose f && (0 <? observations_remaining))].

Lemma action_classes_offered f s strategy observations views :
  action_classes f s strategy observations views = offered (action_conditions f s strategy observations views).
Proof. unfold action_classes, action_conditions. cbn [offered]. by rewrite app_nil_r. Qed.

Lemma action_iff f s strategy observations views name b :
  find (λ p, bool_decide (p.1 = u name)) (action_conditions f s strategy observations views) = Some (u name, b) →
  u name ∈ sorted_set (action_classes f s strategy observations views) ↔ b = true.
Proof.
  intros H. rewrite sorted_set_elem, action_classes_offered. apply offered_elem; [|done].
  apply (bool_decide_eq_true_1 _). vm_compute. reflexivity.
Qed.

(** A read of a capability may be proposed: what the live state has to allow for any read, and what it
    has to allow for an execution or for a reuse of the cache. *)
Record requestable (c : SupervisorContext) (snapshot : RuntimeSnapshot) (capability : Capability) : Prop := {
  rd_declared : capability ∈ os_capabilities (sx_orchestration_state c);
  rd_available : cap_available capability = true;
  rd_cacheable : cap_replay_safety capability = CACHEABLE_READ;
  rd_resolved : EpistemicState.unresolved_keys (os_epistemic_state (sx_orchestration_state c)) (cap_required_state_keys capability) = Ok [];
  rd_permitted : ∃ permission, GovernancePolicy.permission_for (sx_governance_policy c) (cap_name capability) = Ok (Some permission) ∧
    (tp_authority_class permission = PURE_READ ∧ cap_required_state_keys capability = [] ∨
     tp_authority_class permission = SNAPSHOT_READ ∧
       (cap_required_state_keys capability ≠ [] ∨
        ∃ r, r ∈ es_records (os_epistemic_state (sx_orchestration_state c)) ∧ EpistemicRecord.is_resolved r = true));
  rd_ready : ∃ i ready, ObligationRegistry.ready_ids (os_obligations (sx_orchestration_state c)) = Ok (i :: ready);
  rd_batch : os_strategy_schemas (sx_orchestration_state c) ≠ [] ∧
             os_logical_tick (sx_orchestration_state c) < 2 ^ MAX_IDENTITY_INTEGER_BITS - 1;
  rd_budget : rs_requests snapshot < rl_max_requests (rs_limits snapshot)
}.

Definition readable (c : SupervisorContext) (snapshot : RuntimeSnapshot) (capability : Capability) : Prop :=
  requestable c snapshot capability ∧ rs_executions snapshot < rl_max_executions (rs_limits snapshot).

Definition reusable (c : SupervisorContext) (snapshot : RuntimeSnapshot) (capability : Capability) : Prop :=
  requestable c snapshot capability ∧ rs_cache snapshot ≠ [] ∧
  ∃ permission, GovernancePolicy.permission_for (sx_governance_policy c) (cap_name capability) = Ok (Some permission) ∧
    tp_allow_cache_reuse permission = true.

Lemma nonempty_cons {A} (l : list A) : nonempty l = true ↔ ∃ x r, l = x :: r.
Proof. destruct l; naive_solver. Qed.

Lemma dependency_class_spec permission capability records :
  dependency_class_possible permission capability records = true ↔
  ∃ p, permission = Some p ∧
    (tp_authority_class p = PURE_READ ∧ cap_required_state_keys capability = [] ∨
     tp_authority_class p = SNAPSHOT_READ ∧
       (cap_required_state_keys capability ≠ [] ∨ ∃ r, r ∈ records ∧ EpistemicRecord.is_resolved r = true)).
Proof.
  unfold dependency_class_possible. destruct permission as [p|]; [|naive_solver].
  rewrite orb_true_iff, !andb_true_iff, !bool_decide_eq_true, orb_true_iff, existsb_elem, negb_true_iff.
  destruct (cap_required_state_keys capability); cbn [nonempty]; naive_solver.
Qed.

(** The flags of a capability's view. *)
Lemma capability_view_eligible policy epistemic rc capability view :
  capability_view policy epistemic rc capability = Ok view →
  ∃ permission unresolved,
    GovernancePolicy.permission_for policy (cap_name capability) = Ok permission ∧
    EpistemicState.unresolved_keys epistemic (cap_required_state_keys capability) = Ok unresolved ∧
    let possible := read_possible rc permission capability (es_records epistemic) unresolved in
    view_flag "read_proposal_eligible" view = possible && (0 <? rc_executions_remaining rc) ∧
    view_flag "cache_reuse_proposal_eligible" view = possible && cache_granted permission && rc_cache_nonempty rc.
Proof. unfold capability_view. intros H. bound H. exists x, x0. done. Qed.

Section views.
Context (c : SupervisorContext) (snapshot : RuntimeSnapshot) (f : surface_conditions) (ready : list pystr).
Hypothesis Hready : ObligationRegistry.ready_ids (os_obligations (sx_orchestration_state c)) = Ok ready.

(** What [surface_val] derives the views of the capabilities from. *)
Definition view_conditions : read_conditions :=
  {| rc_can_propose := can_propose f;
     rc_batch_possible := nonempty (os_strategy_schemas (sx_orchestration_state c)) &&
                          (os_logical_tick (sx_orchestration_state c) <? 2 ^ MAX_IDENTITY_INTEGER_BITS - 1);
     rc_ready := ready; rc_requests_remaining := requests_remaining snapshot;
     rc_executions_remaining := executions_remaining snapshot;
     rc_cache_nonempty := nonempty (rs_cache snapshot) |}.

Lemma possible_requestable capability permission unresolved :
  capability ∈ os_capabilities (sx_orchestration_state c) →
  GovernancePolicy.permission_for (sx_governance_policy c) (cap_name capability) = Ok permission →
  EpistemicState.unresolved_keys (os_epistemic_state (sx_orchestration_state c)) (cap_required_state_keys capability) = Ok unresolved →
  read_possible view_conditions permission capability (es_records (os_epistemic_state (sx_orchestration_state c))) unresolved = true ↔
  can_propose f = true ∧ requestable c snapshot capability.
Proof.
  intros Hin Hp Hu. unfold read_possible, read_supported, view_conditions, requests_remaining.
  cbn [rc_can_propose rc_batch_possible rc_ready rc_requests_remaining].
  rewrite !andb_true_iff, negb_true_iff, bool_decide_eq_true, dependency_class_spec, !Z.ltb_lt.
  split.
  - intros (((((( Hf & (Hs & Ht)) & Hn) & Ha) & Hun) & (Hc & (p & -> & Hd))) & Hq). split; [done|].
    apply nonempty_cons in Hn as (i & r & ->). apply nonempty_cons in Hs as (s & ss & Hss).
    destruct unresolved; [|done]. split; try done; [by exists p|by exists i, r|by rewrite Hss|lia].
  - intros (Hf & [_ Ha Hc Hun (p & Hp' & Hd) (i & r & Hi) (Hs & Ht) Hq]).
    rewrite Hu in Hun. injection Hun as ->. rewrite Hp in Hp'. injection Hp' as ->. rewrite Hready in Hi. injection Hi as ->.
    destruct (os_strategy_schemas (sx_orchestration_state c)); [done|]. repeat (split || lia || done || by exists p).
Qed.

Context (views : list (list (string * pyval))).
Hypothesis Hviews :
  res_map (capability_view (sx_governance_policy c) (os_epistemic_state (sx_orchestration_state c)) view_conditions)
    (os_capabilities (sx_orchestration_state c)) = Ok views.

(** Some view has a flag exactly when some declared capability has what the flag tells of. *)
Lemma views_flag name (P : Capability → Prop) :
  (∀ capability, P capability → capability ∈ os_capabilities (sx_orchestration_state c)) →
  (∀ capability view, capability ∈ os_capabilities (sx_orchestration_state c) →
     capability_view (sx_governance_policy c) (os_epistemic_state (sx_orchestration_state c)) view_conditions capability = Ok view →
     view_flag name view = true ↔ can_propose f = true ∧ P capability) →
  existsb (view_flag name) views = true ↔ can_propose f = true ∧ ∃ capability, P capability.
Proof.
  intros Hin Hflag. rewrite existsb_elem. pose proof (proj1 (res_map_Ok _ _ _) Hviews) as Hv. split.
  - intros (view & (i & Hi)%list_elem_of_lookup & Ht). destruct (Forall2_lookup_r _ _ _ _ _ Hv Hi) as (capability & Hc & Hvw).
    apply list_elem_of_lookup_2 in Hc. destruct (proj1 (Hflag _ _ Hc Hvw) Ht). eauto.
  - intros (Hf & capability & HP). pose proof (Hin _ HP) as Hc. destruct (proj1 (list_elem_of_lookup _ _) Hc) as [i Hi].
    destruct (Forall2_lookup_l _ _ _ _ _ Hv Hi) as (view & Hvi & Hvw). exists view.
    split; [by apply list_elem_of_lookup_2 in Hvi|]. by apply (Hflag _ _ Hc Hvw).
Qed.

Lemma views_readable :
  existsb (view_flag "read_proposal_eligible") views = true ↔ can_propose f = true ∧ ∃ capability, readable c snapshot capability.
Proof.
  apply views_flag; [by intros capability [[] _]|]. intros capability view Hin (permission & unresolved & Hp & Hu & -> & _)%capability_view_eligible.
  rewrite andb_true_iff, (possible_requestable _ _ _ Hin Hp Hu), Z.ltb_lt. cbn [view_conditions rc_executions_remaining].
  unfold executions_remaining, readable. split; intros ?; intuition lia.
Qed.

Lemma views_reusable :
  existsb (view_flag "cache_reuse_proposal_eligible") views = true ↔ can_propose f = true ∧ ∃ capability, reusable c snapshot capability.
Proof.
  apply views_flag; [by intros capability [[] _]|]. intros capability view Hin (permission & unresolved & Hp & Hu & _ & ->)%capability_view_eligible.
  rewrite !andb_true_iff, (possible_requestable _ _ _ Hin Hp Hu). cbn [view_conditions rc_cache_nonempty]. unfold reusable.
  rewrite Hp. assert (nonempty (rs_cache snapshot) = true ↔ rs_cache snapshot ≠ []) as -> by by destruct (rs_cache snapshot).
  assert (cache_granted permission = true ↔ ∃ p, Ok permission = Ok (Some p) ∧ tp_allow_cache_reuse p = true) as ->; [|tauto].
  unfold cache_granted. destruct permission; naive_solver.
Qed.
End views.

(** What a surface reads of the compact projection. *)
Lemma projection_items s p v :
  compact_projection s p = Ok v →
  ∃ slots, ContinuationState.leases_remaining s p = Ok slots ∧
  let requests := cp_max_lease_requests p - cs_lease_requests s in
  int_item v "leases_remaining" = Ok (Z.min requests slots) ∧
  bool_item v "material_strategy_change_admissible" = Ok (material_strategy_change_admissible s p requests slots) ∧
  int_item v "progress_observations_remaining" = Ok (cp_max_lease_requests p + 1 - cs_progress_event_count s).
Proof. unfold compact_projection. intros H. bound H. eexists. split; [eassumption|]. by repeat split. Qed.

(** What the derivation of a surface fixes. *)
Lemma surface_actions c snapshot status surface :
  surface_val c snapshot status = Ok surface →
  ∃ revoked cycle slots views,
    subscript status "revoked" = Ok revoked ∧
    let s := sx_continuation_state c in
    let p := sx_continuation_policy c in
    let requests := cp_max_lease_requests p - cs_lease_requests s in
    let f := conditions c (truthy revoked) cycle (Z.min requests slots) in
    ContinuationState.leases_remaining s p = Ok slots ∧
    subscript surface "legal_next_action_classes" =
      Ok (strs_val (sorted_set (action_classes f s (sf_active f && material_strategy_change_admissible s p requests slots)
        (cp_max_lease_requests p + 1 - cs_progress_event_count s) views))) ∧
    CycleEvidence.from_snapshot snapshot = Ok cycle ∧
    (existsb (view_flag "read_proposal_eligible") views = true ↔
     can_propose f = true ∧ ∃ capability, readable c snapshot capability) ∧
    (existsb (view_flag "cache_reuse_proposal_eligible") views = true ↔
     can_propose f = true ∧ ∃ capability, reusable c snapshot capability).
Proof.
  unfold surface_val. intros H. bound H. destruct (projection_items _ _ _ E) as (slots & Hs & Hl & Hm & Ho).
  rewrite Hl in E2. injection E2 as <-. rewrite Hm in E7. injection E7 as <-. rewrite Ho in E9. injection E9 as <-.
  eexists _, _, slots, _. split; [done|]. split; [done|]. split; [reflexivity|]. split; [done|].
  split; [by eapply views_readable|by eapply views_reusable].
Qed.

(** ** The authority that a projection shows *)

Lemma truthy_canon v : truthy (canon v) = truthy v.
Proof.
  destruct v as [| | | | |l|l|l|]; try done; cbn [canon truthy]; [by destruct l..|].
  fold (canon_items l). pose proof (length_canon_items l). by destruct l, (canon_items _).
Qed.

Lemma dict_item_set k v l k' :
  dict_item (dict_set k v l) k' = if bool_decide (k = k') then Ok v else dict_item l k'.
Proof.
  unfold dict_item. induction l as [|[a w] l IH].
  - cbn [dict_set find fst snd]. by case_bool_decide.
  - destruct a as [| | | |s| | | |]; cbn [dict_set]; try exact IH.
    destruct (bool_decide_reflect (k = s)) as [->|Hs]; cbn [find fst snd].
    + by case_bool_decide.
    + destruct (bool_decide_reflect (s = k')) as [->|Hs']; [by rewrite bool_decide_false by done|exact IH].
Qed.

Lemma projected_authority c data p v :
  make_projection c data = Ok p → projection_value p = Ok v →
  ∃ snapshot status revoked authority,
    validate_context c = Ok (snapshot, status) ∧ subscript status "revoked" = Ok revoked ∧
    subscript2 v "decision_surface" "authority" = Ok authority ∧
    authority_available authority = Ok (negb (truthy revoked) && Epistemic.is_some (sx_supervisor_authority c)).
Proof.
  intros Hp Hv. destruct (projection_read _ _ _ _ Hp Hv)
    as (snapshot & status & surface & sources & records & Hc & Hs & _ & _ & Hj & _ & -> & _).
  assert (Hjs : json_form surface = true) by exact (subscript_json _ "decision_surface" _ Hj eq_refl).
  unfold surface_val in Hs. bound Hs.
  destruct (subscript_canon_Ok _ "authority" x10 Hjs eq_refl) as [Ha Hja].
  exists snapshot, status, x0, (canon x10). split; [done|]. split; [done|]. split.
  { unfold subscript2. destruct (subscript_canon_Ok _ "decision_surface" _ Hj eq_refl) as [-> _]. exact Ha. }
  destruct status as [| | | | | | |l|]; try discriminate E0. cbn [merged fold_left fst snd] in E10. injection E10 as <-.
  unfold authority_available. rewrite !subscript_canon by done. cbn [subscript] in *. rewrite !dict_item_set.
  change (bool_decide (u "control_provenance" = u "revoked")) with false.
  change (bool_decide (u "supervisor_capability_present" = u "revoked")) with false.
  change (bool_decide (u "control_provenance" = u "supervisor_capability_present")) with false.
  change (bool_decide (u "supervisor_capability_present" = u "supervisor_capability_present")) with true.
  rewrite E0. cbn [res_bind]. rewrite truthy_canon. by destruct (truthy x0).
Qed.

(** ** Handoffs *)

Lemma canonical_text_bounded v t limit :
  json_form v = true → canonical_json v = Ok t → limit_ok limit → json_bytes v <= limit → ∃ n, bounded_utf8_length t limit = Ok n.
Proof.
  intros Hj Ht Hl Hb. destruct (json_form_text v Hj) as (t' & Ht' & [Hs Hn] & _). assert (t' = t) as -> by congruence.
  exists (utf8_length t). apply bounded_utf8_length_spec. split; [done|]. split; [done|]. split; [lia|done].
Qed.

Lemma filter_perm {A} (f : A → bool) l l' : l ≡ₚ l' → List.filter f l ≡ₚ List.filter f l'.
Proof.
  induction 1 as [|x l l' _ IH|x y l|l l' l'' _ IH1 _ IH2]; cbn [List.filter]; [done| | |by etrans].
  - destruct (f x); [by constructor|done].
  - destruct (f x), (f y); done || constructor.
Qed.

Lemma json_keys l : json_form (VDict l) = true → NoDup (dict_key <$> l).
Proof.
  intros [Hn Hk]%json_form_dict. enough (dict_key <$> l = string_keys l) as -> by done. clear Hn.
  induction l as [|[k w] l IH]; [done|]. destruct (Hk k w) as [(s & -> & _) _]; [left|].
  rewrite string_keys_cons. cbn. f_equal. apply IH. intros k' w' Hin. apply (Hk k' w'). by right.
Qed.

(** The canonical form of a dictionary without some keys is that of the rest. *)
Lemma canon_without l names :
  json_form (VDict l) = true → canon (without_keys (canon_items l) names) = canon (without_keys l names).
Proof.
  intros Hj. pose proof (json_keys _ Hj) as Hn. apply json_form_dict in Hj as [_ Hk]. unfold without_keys.
  set (keep := λ kv : pyval * pyval, negb (is_str_in kv.1 names)). rewrite !canon_dict. f_equal. unfold canon_items at 1 3.
  assert (Hm : map (λ kv, (kv.1, canon kv.2)) (List.filter keep (canon_items l)) ≡ₚ
               map (λ kv, (kv.1, canon kv.2)) (List.filter keep l)).
  { rewrite (filter_perm keep _ _ (canon_items_perm l)). clear Hn.
    match goal with |- ?a ≡ₚ ?b => enough (a = b) as -> by done end.
    induction l as [|[k w] l IH]; [done|]. cbn [map List.filter fst snd].
    change (keep (k, canon w)) with (keep (k, w)). assert (Hw : canon (canon w) = canon w).
    { apply canon_idem_json. apply (Hk k w). left. }
    destruct (keep (k, w)); cbn [map fst snd]; rewrite ?Hw, IH; try done; intros k' w' Hin; apply (Hk k' w'); by right. }
  symmetry. apply sorted_by_perm_eq; [|by symmetry].
  clear -Hn. induction l as [|[k w] l IH]; [constructor|]. apply NoDup_cons in Hn as [Hk Hn]. cbn [List.filter].
  destruct (keep (k, w)); [|by apply IH]. cbn [map]. apply NoDup_cons. split; [|by apply IH].
  intros ([k' w'] & He & ([k2 w2] & Heq & [Hin _]%filter_In)%list_elem_of_In%in_map_iff)%list_elem_of_fmap.
  injection Heq as <- _. apply Hk, list_elem_of_fmap. exists (k2, w2). split; [exact He|]. by apply list_elem_of_In.
Qed.

Lemma fingerprint_canon domain v w : canon v = canon w → domain_fingerprint domain v = domain_fingerprint domain w.
Proof. intros H. unfold domain_fingerprint. by rewrite <- (canonical_json_canon_eq v), H, canonical_json_canon_eq. Qed.

Lemma is_text_refl s : is_text (VStr s) s = true.
Proof. unfold is_text. cbn [py_equal]. by rewrite bool_decide_true. Qed.

(** The fields of the record of a handoff. *)
Definition handoff_body (v : pyval) (i : pystr) : list (string * pyval) :=
  [("protocol_version", VStr FRESH_CONTEXT_VERSION); ("projection", v); ("projection_id", VStr i);
   ("restores_native_authority", VBool false)]%string.
Definition handoff_record (v : pyval) (i h : pystr) : pyval :=
  obj (handoff_body v i ++ [("handoff_id", VStr h)]%string).

(** The record is accepted in its own canonical form. *)
Lemma check_handoff_canon v i h :
  canon v = v → validate_projection v = Ok v → domain_fingerprint PROJECTION_DOMAIN v = Ok i →
  domain_fingerprint HANDOFF_DOMAIN (obj (handoff_body v i)) = Ok h →
  json_form (handoff_record v i h) = true →
  supervisor_copy MAX_FRESH_CONTEXT_BYTES (handoff_record v i h) = Ok (handoff_record v i h) →
  check_handoff (canon (handoff_record v i h)) = Ok (canon (handoff_record v i h)).
Proof.
  intros Hv Hval Hi Hh Hj Hcopy. unfold handoff_record, handoff_body, obj in *. cbn [app map] in *.
  match type of Hj with json_form (VDict ?l) = _ => set (fields := l) in * end.
  pose proof (json_form_dict _ Hj) as [Hn _]. rewrite canon_dict. unfold check_handoff.
  rewrite (supervisor_copy_perm MAX_FRESH_CONTEXT_BYTES fields (canon_items fields) context_limit); [|..|exact Hcopy].
  2: { symmetry. rewrite canon_items_perm. unfold fields. cbn [map fst snd canon]. by rewrite Hv. }
  cbn [res_bind closed_fields]. rewrite has_keys_canon by done.
  change (has_keys fields (map u HANDOFF_FIELDS)) with true. cbn [negb raise_if res_bind].
  rewrite !(dict_item_canon fields) by done.
  change (dict_item fields (u "protocol_version")) with (Ok (VStr FRESH_CONTEXT_VERSION)).
  change (dict_item fields (u "restores_native_authority")) with (Ok (VBool false)).
  change (dict_item fields (u "projection")) with (Ok v).
  change (dict_item fields (u "projection_id")) with (Ok (VStr i)).
  change (dict_item fields (u "handoff_id")) with (Ok (VStr h)). cbn [res_bind canon].
  rewrite Hv, Hval, (fingerprint_canon _ _ _ (canon_without fields [u "handoff_id"] Hj)).
  match type of Hh with domain_fingerprint _ ?b = _ => change (without_keys fields [u "handoff_id"]) with b end.
  rewrite Hh. cbn [res_bind]. rewrite Hi. cbn [res_bind]. rewrite !is_text_refl. reflexivity.
Qed.

(** What a handoff of a projection is made of. *)
Lemma handoff_parts p h v :
  projection_value p = Ok v → json_form v = true → canon v = v → validate_projection v = Ok v → make_handoff p = Ok h →
  ∃ i identity,
    let record := handoff_record v i identity in
    json_form record = true ∧ canonical_json record = Ok (fh_text h) ∧
    check_handoff (canon record) = Ok (canon record) ∧ handoff_value h = Ok (canon record) ∧
    fh_source_runtime h = Some (sp_source_runtime p) ∧ fh_source_lineage h = sp_source_lineage p ∧
    fingerprint_pattern identity = true.
Proof.
  intros Hv Hj Hc Hval H. unfold make_handoff, projection_id in H. rewrite Hv in H. cbn [res_bind] in H.
  apply res_bind_Ok in H as (i & Hi & H). apply res_bind_Ok in H as (identity & Hid & H).
  apply res_bind_Ok in H as (record & Hcopy & H). apply res_bind_Ok in H as (text & Ht & [= <-]).
  exists i, identity. cbn [fh_text fh_source_runtime fh_source_lineage].
  pose proof Hcopy as (-> & Hs & _ & Hb)%supervisor_copy_iff; [|exact context_limit].
  fold (handoff_body v i) in *. fold (handoff_record v i identity) in *.
  assert (Hr : json_form (handoff_record v i identity) = true).
  { eapply inert_json_form; [exact Hs|]. unfold handoff_record, handoff_body. apply json_form_wf in Hj. cbn [app]. wf_fields. }
  assert (Hk : check_handoff (canon (handoff_record v i identity)) = Ok (canon (handoff_record v i identity))).
  { by apply check_handoff_canon. }
  split; [done|]. split; [done|]. split; [done|]. split; [|split; [reflexivity|split; [reflexivity|by eapply domain_fingerprint_pattern]]]. unfold handoff_value. cbn [fh_text].
  destruct (canonical_text_bounded _ _ _ Hr Ht context_limit Hb) as [n ->]. cbn [res_bind].
  destruct (json_form_text _ Hr) as (t & Ht' & _ & Hl). assert (t = text) as -> by congruence.
  rewrite Hl. cbn [res_bind]. rewrite Hk. cbn [res_bind]. by rewrite canonical_json_canon_eq, Ht.
Qed.

(** The data of a projection is read back as it was given. *)
Lemma data_of_canon d v : SupervisorData.canonical_record d = Ok v → json_form v = true → data_of (canon v) = Ok d.
Proof.
  unfold SupervisorData.canonical_record. intros H Hj. apply res_bind_Ok in H as (d' & Hd & [= <-]).
  assert (d' = d) as ->.
  { unfold SupervisorData.make in Hd. binds Hd. injection Hd as <-. destruct d as [o i t]. cbn [sd_source_id sd_text] in *.
    injection E as <-. by injection E1 as <-. }
  unfold data_of. rewrite !subscript_canon by done. destruct d as [o i t]. cbn [sd_origin sd_source_id sd_text] in *.
  transitivity (let* origin := SupervisorData.parse_origin (VStr (data_origin_value o)) in
                SupervisorData.make origin (VStr i) (VStr t)); [reflexivity|]. destruct o; exact Hd.
Qed.

Lemma data_of_list data records :
  res_map SupervisorData.canonical_record data = Ok records → Forall (λ v, json_form v = true) records →
  res_map data_of (map canon records) = Ok data.
Proof.
  intros H%res_map_Ok. induction H as [|d v data records Hv H IH]; [done|]. intros [Hj Hf]%Forall_cons.
  cbn [map res_map]. rewrite (data_of_canon _ _ Hv Hj), (IH Hf). done.
Qed.

End projections.
