(* ===== verification/SupervisorProperties.v ===== *)
(** * What the supervisor is offered and what a recovery restores *)

From Stdlib Require Import Ascii String.
From stdpp Require Import base list.
From S2P Require Import Prelude PyStr PyNumber Sha256 Canonical CanonicalFacts Records RecordsFacts Kahn Obligations Epistemic EpistemicFacts Orchestration Admission Budget Progress CanonFields Snapshot Receipts Strategy Lease LeaseExamples Evidence EvidenceFacts Governance GovernanceReceipts GovernanceExamples InertJson InertJsonFacts Session JsonFields Supervisor SupervisorFacts SupervisorExamples.

(** The model's test of presence is stdpp's. *)
Lemma is_some_iff {A} (o : option A) : Epistemic.is_some o = true ↔ is_Some o.
Proof. destruct o; cbn; [|split; [done|by intros [? [=]]]]. split; [by eexists|done]. Qed.

Section properties.
Context {N : NativeSeals} {R : NativeRuntime} {I : ObjectIdentity}.

(** The denials after which the surface and the projection of a state both hold every proposal back. *)
Lemma denied_governed s : denied_by s blocked_denials = false ↔ governed s.
Proof. exact (governed_iff s). Qed.

Lemma action_named f s strategy observations views name :
  name ∈ sorted_set (action_classes f s strategy observations views) →
  name ∈ map fst (action_conditions f s strategy observations views).
Proof.
  rewrite sorted_set_elem, action_classes_offered. generalize (action_conditions f s strategy observations views).
  intros l. induction l as [|[n b] l IH]; [done|]. cbn [offered map fst]. rewrite elem_of_app, elem_of_cons.
  intros [H|H]; [left|right; auto]. destruct b; [by apply list_elem_of_singleton in H|by apply elem_of_nil in H].
Qed.

(** The two conditions that depend on the leases that are left. *)
Section conditions.
Context (c : SupervisorContext) (revoked : bool) (cycle : option CycleEvidence) (leases : Z) (reached : Prop) (idle : Prop).
Let s := sx_continuation_state c.
Let f := conditions c revoked cycle leases.
Hypothesis Hleases : 0 <= leases.
Hypothesis Hreached : leases = 0 ↔ reached.
Hypothesis Hidle : can_propose f = true ↔ idle.

Lemma lease_offered snapshot :
  CycleEvidence.from_snapshot snapshot = Ok cycle →
  lease_eligible f s = true ↔
  idle ∧ ¬ reached ∧ CycleEvidence.from_snapshot snapshot = Ok None ∧
  cs_last_progress_classification s = Some MEASURABLE_PROGRESS ∧ is_Some (cs_last_progress_id s) ∧
  cs_last_progress_id s ≠ cs_last_consumed_progress_id s.
Proof using Hleases Hreached Hidle.
  intros ->. rewrite <- Hidle, <- Hreached. unfold lease_eligible, request_eligible, can_propose.
  rewrite !andb_true_iff, !negb_true_iff, bool_decide_eq_true, bool_decide_eq_false, is_some_iff, Z.ltb_lt.
  change (sf_leases_remaining f) with leases. change (sf_cycle f) with (Epistemic.is_some cycle).
  assert (Epistemic.is_some cycle = false ↔ Ok cycle = Ok None) as -> by (destruct cycle; naive_solver).
  split; intros ?; intuition lia.
Qed.

Lemma denial_offered :
  terminal_denial_eligible f s = true ↔
  idle ∧ reached ∧ is_Some (cs_last_progress_id s) ∧ cs_terminal_ceiling_receipt_id s = None ∧
  denied_by s [LEASE_CEILING_REACHED; LEASE_REQUEST_LIMIT] = false.
Proof using Hleases Hreached Hidle.
  rewrite <- Hidle, <- Hreached. unfold terminal_denial_eligible.
  rewrite !andb_true_iff, !negb_true_iff, is_some_iff, Z.eqb_eq. change (sf_leases_remaining f) with leases.
  assert (Epistemic.is_some (cs_terminal_ceiling_receipt_id s) = false ↔ cs_terminal_ceiling_receipt_id s = None) as ->
    by (destruct (cs_terminal_ceiling_receipt_id s); naive_solver).
  tauto.
Qed.
End conditions.

(** C14.  The surface of a projection offers the supervisor exactly what the live context allows.
    Inspection and stopping are always offered, and human authorization exactly when the authority is
    missing, revoked or blocked by governance.  While the authority is live, nothing is pending and the
    task is incomplete: a governed read, and the reuse of a cached one, exactly when some declared
    capability allows it; a lease exactly on unconsumed measurable progress, without a terminal cycle
    and with leases left; the record of a terminal denial exactly when none are left and none was
    recorded; an observation exactly while the progress history has room.  A strategy change is offered
    exactly when leases and recoveries are left and the progress is not final, the application of a lease
    exactly while one is pending, the completion claim exactly when the task is complete, and nothing
    else is offered. *)
Theorem surface_offers_exactly c data p v :
  make_projection c data = Ok p → projection_value p = Ok v →
  ∃ snapshot status revoked actions,
    validate_context c = Ok (snapshot, status) ∧ subscript status "revoked" = Ok revoked ∧
    subscript2 v "decision_surface" "legal_next_action_classes" = Ok (strs_val actions) ∧
    let s := sx_continuation_state c in
    let policy := sx_continuation_policy c in
    let live := is_Some (sx_supervisor_authority c) ∧ truthy revoked = false ∧ governed s in
    let idle := live ∧ ContinuationState.has_pending_grant s = false ∧ cs_progress_state s ≠ COMPLETE in
    u "inspect_bound_evidence" ∈ actions ∧ u "stop" ∈ actions ∧
    (u "ask_human_authorization" ∈ actions ↔ ¬ live) ∧
    (u "propose_governed_read" ∈ actions ↔ idle ∧ ∃ capability, readable c snapshot capability) ∧
    (u "propose_cache_reuse_subject_to_exact_key_match" ∈ actions ↔ idle ∧ ∃ capability, reusable c snapshot capability) ∧
    (u "request_progress_lease" ∈ actions ↔
      idle ∧ ¬ ceiling_reached s policy ∧ CycleEvidence.from_snapshot snapshot = Ok None ∧
      cs_last_progress_classification s = Some MEASURABLE_PROGRESS ∧ is_Some (cs_last_progress_id s) ∧
      cs_last_progress_id s ≠ cs_last_consumed_progress_id s) ∧
    (u "propose_material_strategy_change" ∈ actions ↔
      live ∧ ¬ ceiling_reached s policy ∧ ContinuationState.has_pending_grant s = false ∧ recoverable s policy ∧
      cs_progress_state s ∉ [COMPLETE; LEASE_EXHAUSTED]) ∧
    (u "apply_pending_lease" ∈ actions ↔ live ∧ ContinuationState.has_pending_grant s = true) ∧
    (u "record_terminal_continuation_denial" ∈ actions ↔
      idle ∧ ceiling_reached s policy ∧ is_Some (cs_last_progress_id s) ∧ cs_terminal_ceiling_receipt_id s = None ∧
      denied_by s [LEASE_CEILING_REACHED; LEASE_REQUEST_LIMIT] = false) ∧
    (u "propose_completion_for_gate_validation" ∈ actions ↔ live ∧ cs_progress_state s = COMPLETE) ∧
    (u "observe_bound_progress" ∈ actions ↔ idle ∧ cs_progress_event_count s <= cp_max_lease_requests policy) ∧
    (∀ action, action ∈ actions → action ∈ map u
      ["inspect_bound_evidence"; "stop"; "ask_human_authorization"; "propose_governed_read";
       "propose_cache_reuse_subject_to_exact_key_match"; "request_progress_lease"; "propose_material_strategy_change";
       "apply_pending_lease"; "record_terminal_continuation_denial"; "propose_completion_for_gate_validation";
       "observe_bound_progress"]%string).
Proof.
  intros Hp Hv. destruct (projection_field _ _ _ _ Hp Hv) as (snapshot & status & surface & sources & Hc & Hs & _ & Hf & _).
  destruct (surface_actions _ _ _ _ Hs) as (revoked & cycle & slots & views & Hrev & Hl & Ha & Hcy & Hread & Hreuse).
  exists snapshot, status, revoked. eexists. split; [done|]. split; [done|]. split; [apply Hf in Ha; rewrite canon_strs in Ha; exact Ha|].
  clear Hp Hv Hc Hs Hf Ha Hrev. intros s policy live idle.
  pose proof (leases_remaining_zero _ _ _ Hl) as [Hnn Hz]. clear Hl.
  set (leases := Z.min _ slots) in *. set (f := conditions c (truthy revoked) cycle leases) in *.
  change (sx_continuation_state c) with s in Hz |- *. change (sx_continuation_policy c) with policy in Hz |- *.
  assert (Hactive : sf_active f = true ↔ is_Some (sx_supervisor_authority c) ∧ truthy revoked = false).
  { unfold f. cbn [conditions sf_active]. by rewrite andb_true_iff, negb_true_iff, is_some_iff. }
  assert (Hblocked : sf_governance_blocked f = false ↔ governed s) by apply denied_governed.
  assert (Hlive : sf_active f = true ∧ sf_governance_blocked f = false ↔ live) by (rewrite Hactive, Hblocked; unfold live; tauto).
  assert (Hidle : can_propose f = true ↔ idle).
  { unfold can_propose, idle. rewrite <- Hlive, !andb_true_iff, !negb_true_iff. unfold f. cbn [conditions sf_pending sf_complete].
    rewrite bool_decide_eq_false. tauto. }
  assert (Hpos : leases ≠ 0 ↔ 0 < cp_max_lease_requests policy - cs_lease_requests s ∧ 0 < slots) 
    by (change leases with (Z.min (cp_max_lease_requests policy - cs_lease_requests s) slots) in Hnn |- *; lia).
  split; [by rewrite (action_iff _ _ _ _ _ "inspect_bound_evidence"%string _ eq_refl)|].
  split; [by rewrite (action_iff _ _ _ _ _ "stop"%string _ eq_refl)|].
  split; [rewrite (action_iff _ _ _ _ _ "ask_human_authorization"%string _ eq_refl), <- Hlive;
          by destruct (sf_active f), (sf_governance_blocked f); naive_solver|].
  split; [by rewrite (action_iff _ _ _ _ _ "propose_governed_read"%string _ eq_refl), Hread, Hidle|].
  split; [by rewrite (action_iff _ _ _ _ _ "propose_cache_reuse_subject_to_exact_key_match"%string _ eq_refl), Hreuse, Hidle|].
  split; [rewrite (action_iff _ _ _ _ _ "request_progress_lease"%string _ eq_refl); by apply lease_offered|].
  split; [rewrite (action_iff _ _ _ _ _ "propose_material_strategy_change"%string _ eq_refl), andb_true_iff, strategy_admissible, <- Hz, Hactive;
          unfold live; tauto|].
  split; [rewrite (action_iff _ _ _ _ _ "apply_pending_lease"%string _ eq_refl), !andb_true_iff, negb_true_iff, Hlive; done|].
  split; [rewrite (action_iff _ _ _ _ _ "record_terminal_continuation_denial"%string _ eq_refl); by apply denial_offered|].
  split; [rewrite (action_iff _ _ _ _ _ "propose_completion_for_gate_validation"%string _ eq_refl), !andb_true_iff, negb_true_iff, Hlive;
          unfold f; cbn [conditions sf_complete]; by rewrite bool_decide_eq_true|].
  split; [rewrite (action_iff _ _ _ _ _ "observe_bound_progress"%string _ eq_refl), andb_true_iff, Hidle, Z.ltb_lt; by rewrite Z.lt_0_sub, Z.add_1_r, Z.lt_succ_r|].
  intros action Hin. by apply action_named in Hin.
Qed.

(** A handoff of a live projection, read back. *)
Lemma handoff_read c data p h :
  make_projection c data = Ok p → make_handoff p = Ok h →
  ∃ v record, projection_value p = Ok v ∧ handoff_value h = Ok record ∧ subscript record "projection" = Ok v ∧
    json_form record = true ∧ canonical_json record = Ok (fh_text h) ∧ check_handoff record = Ok record ∧
    (∃ i, subscript record "handoff_id" = Ok (VStr i) ∧ fingerprint_pattern i = true) ∧
    fh_source_runtime h = Some (sp_source_runtime p) ∧ fh_source_lineage h = sp_source_lineage p.
Proof.
  intros Hp Hh. pose proof Hh as Hv. unfold make_handoff in Hv. apply res_bind_Ok in Hv as (v & Hv & _).
  destruct (projection_read _ _ _ _ Hp Hv) as (_ & _ & _ & _ & _ & _ & _ & _ & _ & _ & Hj & _ & Hc & Hval).
  destruct (handoff_parts _ _ _ Hv Hj Hc Hval Hh) as (i & identity & Hr & Ht & Hk & Hval' & Hsr & Hsl & Hid).
  exists v, (canon (handoff_record v i identity)). split; [done|]. split; [done|].
  destruct (subscript_canon_Ok (handoff_record v i identity) "projection" v Hr eq_refl) as [-> _]. rewrite Hc.
  split; [done|]. split; [by apply json_form_canon|]. split; [by rewrite canonical_json_canon_eq|]. split; [done|].
  split; [|done]. exists identity. split; [|done].
  by destruct (subscript_canon_Ok (handoff_record v i identity) "handoff_id" (VStr identity) Hr eq_refl).
Qed.

(** A handoff to a fresh context carries the projection and nothing else: its record gives the
    projection back and is accepted again; with the source handoff at hand it is that handoff, and alone
    it is the text without its source, from which no context ever gets a live surface. *)
Theorem handoff_roundtrip c data p h :
  make_projection c data = Ok p → make_handoff p = Ok h →
  ∃ v record,
    projection_value p = Ok v ∧ handoff_value h = Ok record ∧ subscript record "projection" = Ok v ∧
    handoff_from_record record (Some h) = Ok h ∧
    ∃ alone, handoff_from_record record None = Ok alone ∧ handoff_value alone = Ok record ∧
      ∀ live, fresh_session_surface alone live = Raise ValueError.
Proof.
  intros Hp Hh. destruct (handoff_read _ _ _ _ Hp Hh) as (v & record & Hv & Hr & Hs & Hj & Ht & Hk & _).
  exists v, record. split; [done|]. split; [done|]. split; [done|].
  unfold handoff_from_record. rewrite Hk. cbn [res_bind]. rewrite Ht. cbn [res_bind]. rewrite Hr. cbn [res_bind].
  rewrite json_form_eq by done. split; [by destruct h|].
  eexists. split; [reflexivity|]. split; [exact Hr|]. intros live. reflexivity.
Qed.

(** A handoff witnesses the context it was made of. *)
Lemma source_of_projection c data p h :
  make_projection c data = Ok p → fh_source_runtime h = Some (sp_source_runtime p) →
  fh_source_lineage h = sp_source_lineage p → source_witnessed h c = Ok true.
Proof.
  unfold make_projection. intros H Hr Hl. apply res_bind_Ok in H as (raw & Hraw & H).
  apply res_bind_Ok in H as (record & _ & H). apply res_bind_Ok in H as (text & _ & H).
  apply res_bind_Ok in H as (lineage & Hlin & [= <-]). cbn [sp_source_runtime sp_source_lineage] in *.
  unfold source_witnessed. rewrite Hr, Hl, bool_decide_true by done. cbn [negb]. rewrite Hlin. cbn [res_bind].
  unfold projection_record in Hraw. apply res_bind_Ok in Hraw as (? & _ & Hraw).
  apply res_bind_Ok in Hraw as (? & _ & Hraw). apply res_bind_Ok in Hraw as (live & Hc & _).
  destruct live as [snapshot status]. apply validate_context_inv in Hc as [_ Hst]. unfold continuation_authority_status in Hst.
  rewrite Hlin in Hst. cbn [res_bind] in Hst. apply res_bind_Ok in Hst as (s & _ & Hst).
  apply res_bind_Ok in Hst as (? & Hck & _). destruct lineage as [seal|]; [|discriminate Hck].
  by rewrite bool_decide_true.
Qed.

(** The data that a handoff carries. *)
Lemma data_of_projection c data p v :
  make_projection c data = Ok p → projection_value p = Ok v →
  ∃ items, subscript v "data" = Ok (VList items) ∧ res_map data_of items = Ok data.
Proof.
  intros Hp Hv. destruct (projection_read _ _ _ _ Hp Hv)
    as (_ & _ & surface & sources & records & _ & _ & _ & Hd & Hj & _ & -> & _).
  exists (map canon records). destruct (subscript_canon_Ok _ "data" (VList records) Hj eq_refl) as [-> Hl].
  split; [done|]. apply data_of_list; [done|]. apply Forall_forall. intros x Hx. by eapply forallb_elem.
Qed.

(** A handoff of a live context gives the fresh session the surface of its projection. *)
Lemma live_handoff_surface c data p h :
  make_projection c data = Ok p → make_handoff p = Ok h →
  ∃ v, projection_value p = Ok v ∧ fresh_session_surface h c = subscript v "decision_surface".
Proof.
  intros Hp Hh. destruct (handoff_read _ _ _ _ Hp Hh) as (v & record & Hv & Hr & Hs & Hj & _ & _ & _ & Hsr & Hsl).
  exists v. split; [done|]. unfold fresh_session_surface. rewrite (source_of_projection _ _ _ _ Hp Hsr Hsl). cbn [res_bind negb raise_if].
  rewrite Hr. cbn [res_bind]. unfold subscript2. rewrite Hs. cbn [res_bind].
  destruct (data_of_projection _ _ _ _ Hp Hv) as (items & -> & Hd). cbn [res_bind expect_list]. rewrite Hd. cbn [res_bind].
  rewrite Hp. cbn [res_bind]. rewrite Hh. cbn [res_bind]. rewrite Hr. cbn [res_bind]. rewrite json_form_eq by done.
  cbn [negb raise_if res_bind]. rewrite Hs. done.
Qed.

Lemma make_decision_Ok r reason evidence target d :
  make_decision r reason evidence target = Ok d →
  evidence = VStr (rd_evidence_handoff_id d) ∧ rd_classification d = r ∧ rd_target_task_id d = target ∧
  requires_target r = Epistemic.is_some target.
Proof.
  unfold make_decision. intros H. binds H. injection H as <-. cbn [rd_evidence_handoff_id rd_classification rd_target_task_id].
  destruct evidence; try discriminate E0. injection E0 as ->. apply raise_if_Ok, negb_false_iff, eqb_prop in E4. done.
Qed.

(** The live authority that a decision rests on. *)
Definition authorized (c : SupervisorContext) : Prop :=
  ∃ snapshot status revoked,
    validate_context c = Ok (snapshot, status) ∧ subscript status "revoked" = Ok revoked ∧
    truthy revoked = false ∧ is_Some (sx_supervisor_authority c).

Lemma available_authorized c data p v surface authority :
  make_projection c data = Ok p → projection_value p = Ok v →
  subscript v "decision_surface" = Ok surface → subscript surface "authority" = Ok authority →
  authority_available authority = Ok true → authorized c.
Proof.
  intros Hp Hv Hs Ha Hav. destruct (projected_authority _ _ _ _ Hp Hv) as (snapshot & status & revoked & a & Hc & Hr & Ha' & Hav').
  unfold subscript2 in Ha'. rewrite Hs in Ha'. cbn [res_bind] in Ha'. assert (a = authority) as -> by congruence.
  rewrite Hav in Hav'. injection Hav' as He. symmetry in He. apply andb_true_iff in He as [Hn%negb_true_iff Hi%is_some_iff].
  by exists snapshot, status, revoked.
Qed.

(** What a verified resumption has seen. *)
Definition resumed (h : FreshContextHandoff) (c : SupervisorContext) : Prop :=
  authorized c ∧ source_witnessed h c = Ok true ∧
  ∃ data p current live record, make_projection c data = Ok p ∧ make_handoff p = Ok current ∧
    handoff_value current = Ok live ∧ handoff_value h = Ok record ∧ py_equal live record = true.

Lemma surface_resumed h c surface authority :
  fresh_session_surface h c = Ok surface → subscript surface "authority" = Ok authority →
  authority_available authority = Ok true → resumed h c.
Proof.
  unfold fresh_session_surface. intros H Ha Hav. apply res_bind_Ok in H as (w & Hw & H).
  apply res_bind_Ok in H as ([] & Hn & H). apply raise_if_Ok, negb_false_iff in Hn. subst w.
  apply res_bind_Ok in H as (record & Hr & H). apply res_bind_Ok in H as (raw & _ & H).
  apply res_bind_Ok in H as (items & _ & H). apply res_bind_Ok in H as (data & _ & H).
  apply res_bind_Ok in H as (p & Hp & H). apply res_bind_Ok in H as (current & Hcur & H).
  apply res_bind_Ok in H as (live & Hl & H). apply res_bind_Ok in H as ([] & He & H).
  apply raise_if_Ok, negb_false_iff in He. apply res_bind_Ok in H as (v & Hv & Hs).
  destruct (handoff_read _ _ _ _ Hp Hcur) as (v' & live' & Hv' & Hl' & Hp' & _).
  assert (live' = live) as -> by congruence. assert (v' = v) as -> by congruence.
  split; [exact (available_authorized _ _ _ _ _ _ Hp Hv' Hs Ha Hav)|]. split; [exact Hw|].
  exists data, p, current, live, record. done.
Qed.

(** What a fresh start has seen: the projection of the separate task, whose contract names the handoff
    and the task it came from. *)
Definition started_fresh (h : FreshContextHandoff) (c : SupervisorContext) (evidence : pystr) : Prop :=
  authorized c ∧
  ∃ record prior prior_task contract task,
    handoff_value h = Ok record ∧ subscript2 record "projection" "sources" = Ok prior ∧
    subscript prior "task_id" = Ok prior_task ∧ TaskReceipt.acceptance_contract (sx_task c) = Ok contract ∧
    TaskReceipt.task_id (sx_task c) = Ok task ∧ py_equal (VStr task) prior_task = false ∧
    py_equal (get_item contract "recovery_evidence_id") (VStr evidence) = true ∧
    py_equal (get_item contract "recovery_source_task_id") prior_task = true.

Lemma selects_fresh h c p v evidence :
  make_projection c [] = Ok p → projection_value p = Ok v →
  selects_handoff h c v (VStr evidence) = Ok true → started_fresh h c evidence.
Proof.
  unfold selects_handoff. intros Hp Hv H. apply res_bind_Ok in H as (contract & Hcon & H).
  apply res_bind_Ok in H as (surface & Hs & H). apply res_bind_Ok in H as (authority & Ha & H).
  apply res_bind_Ok in H as (record & Hr & H). apply res_bind_Ok in H as (prior & Hpr & H).
  apply res_bind_Ok in H as ([] & Hav & H); [|done]. cbn [negb] in H.
  apply res_bind_Ok in H as (task & Ht & H). apply res_bind_Ok in H as (prior_task & Hpt & H).
  apply res_bind_Ok in H as (session & _ & H). apply res_bind_Ok in H as (prior_session & _ & H).
  injection H as H. bool_inv.
  split; [exact (available_authorized _ _ _ _ _ _ Hp Hv Hs Ha Hav)|].
  exists record, prior, prior_task, contract, task. done.
Qed.

(** C13.  The classification of a recovery selects a task only on live authority: a resumption only with no
    new task, from the very runtime and lineage the handoff was made of, whose handoff of today equals it;
    a fresh start only for another task whose contract names the handoff and its task; whatever else it
    says names no task. *)
Theorem recovery_classified h source new d :
  classify_recovery h source new = Ok d →
  handoff_id h = Ok (VStr (rd_evidence_handoff_id d)) ∧
  match rd_classification d with
  | RESUME_VERIFIED_LIVE_TASK =>
      new = None ∧ ∃ c task, source = Some c ∧ TaskReceipt.task_id (sx_task c) = Ok task ∧
        rd_target_task_id d = Some task ∧ resumed h c
  | START_FRESH_AUTHORIZED_TASK =>
      ∃ c task, new = Some c ∧ TaskReceipt.task_id (sx_task c) = Ok task ∧ rd_target_task_id d = Some task ∧
        started_fresh h c (rd_evidence_handoff_id d)
  | ASK_HUMAN_AUTHORIZATION | STOP_UNVERIFIABLE => rd_target_task_id d = None
  end.
Proof.
  unfold classify_recovery. intros H. apply res_bind_Ok in H as (evidence & He & H).
  assert (Hd : ∀ r reason target, make_decision r reason evidence target = Ok d →
    handoff_id h = Ok (VStr (rd_evidence_handoff_id d)) ∧ rd_classification d = r ∧ rd_target_task_id d = target).
  { intros r reason target (-> & Hr & Ht & _)%make_decision_Ok. done. }
  destruct new as [c|]; [|destruct source as [c|]].
  - unfold classify_new_task in H. destruct (let* p := make_projection c [] in projection_value p) as [v|e] eqn:E.
    + apply res_bind_Ok in E as (p & Hp & Hv). apply res_bind_Ok in H as (selected & Hs & H). destruct selected.
      * apply res_bind_Ok in H as (task & Ht & H). apply Hd in H as (Hh & -> & Htarget). split; [done|].
        exists c, task. rewrite Hh in He. injection He as <-. split; [done|]. split; [done|]. split; [done|].
        exact (selects_fresh _ _ _ _ _ Hp Hv Hs).
      * by apply Hd in H as (Hh & -> & Htarget).
    + destruct (recovery_caught e); [|done]. by apply Hd in H as (Hh & -> & Htarget).
  - destruct (fresh_session_surface h c) as [surface|e] eqn:E.
    + apply res_bind_Ok in H as (authority & Ha & H). apply res_bind_Ok in H as (available & Hav & H). destruct available.
      * apply res_bind_Ok in H as (task & Ht & H). apply Hd in H as (Hh & -> & Htarget). split; [done|]. split; [done|].
        exists c, task. split; [done|]. split; [done|]. split; [done|]. exact (surface_resumed _ _ _ _ E Ha Hav).
      * by apply Hd in H as (Hh & -> & Htarget).
    + destruct (recovery_caught e); [|done]. by apply Hd in H as (Hh & -> & Htarget).
  - by apply Hd in H as (Hh & -> & Htarget).
Qed.

(** The decision for the handoff of a live context. *)
Lemma live_decision c data p h :
  make_projection c data = Ok p → make_handoff p = Ok h → authorized c →
  ∃ i task, TaskReceipt.task_id (sx_task c) = Ok task ∧
    classify_recovery h (Some c) None =
      Ok {| rd_classification := RESUME_VERIFIED_LIVE_TASK; rd_reason := u "exact_live_lineage_verified";
            rd_evidence_handoff_id := i; rd_target_task_id := Some task |}.
Proof.
  intros Hp Hh (snapshot & status & revoked & Hc & Hrev & Ht & Ha).
  destruct (live_handoff_surface _ _ _ _ Hp Hh) as (v & Hv & Hsurface).
  destruct (handoff_read _ _ _ _ Hp Hh) as (_ & record & _ & Hr & _ & _ & _ & _ & (i & Hi & Hpat) & _).
  destruct (projected_authority _ _ _ _ Hp Hv) as (snapshot' & status' & revoked' & authority & Hc' & Hrev' & Hau & Hav).
  rewrite Hc in Hc'. injection Hc' as <- <-. rewrite Hrev in Hrev'. injection Hrev' as <-.
  rewrite Ht, (proj2 (is_some_iff _) Ha) in Hav. unfold subscript2 in Hau. apply res_bind_Ok in Hau as (surface & Hs & Hau).
  destruct (projection_read _ _ _ _ Hp Hv) as (? & ? & ? & sources & ? & _ & _ & Ho & _).
  unfold sources_val in Ho. apply res_bind_Ok in Ho as (task & Htask & _). exists i, task. split; [exact Htask|].
  unfold classify_recovery, handoff_id. rewrite Hr. cbn [res_bind]. rewrite Hi. cbn [res_bind].
  rewrite Hsurface, Hs, Hau. cbn [res_bind]. rewrite Hav, Htask. cbn [res_bind negb andb]. unfold make_decision.
  cbn [expect_str res_bind]. rewrite (proj2 (require_fingerprint_Ok i) Hpat).
  rewrite (proj2 (require_fingerprint_Ok task)); [reflexivity|]. unfold TaskReceipt.task_id in Htask.
  apply res_bind_Ok in Htask as (r & _ & Htask). by eapply domain_fingerprint_pattern.
Qed.

(** C18.  A live task can always be resumed: the handoff of any projection of a context whose authority is
    present and not revoked is classified as a resumption of exactly that task. *)
Theorem live_handoff_resumes c data p h :
  make_projection c data = Ok p → make_handoff p = Ok h → authorized c →
  ∃ d task, classify_recovery h (Some c) None = Ok d ∧ rd_classification d = RESUME_VERIFIED_LIVE_TASK ∧
    TaskReceipt.task_id (sx_task c) = Ok task ∧ rd_target_task_id d = Some task.
Proof.
  intros Hp Hh Ha. destruct (live_decision _ _ _ _ Hp Hh Ha) as (i & task & Ht & Hd).
  eexists _, task. by split; [exact Hd|].
Qed.

End properties.

(** ** At a live context *)

Lemma px_authorized : authorized px_live.
Proof.
  exists px_authority.1, px_authority.2, (VBool false). split; [exact px_context_valid|].
  split; [reflexivity|]. split; [reflexivity|by eexists].
Qed.

Lemma surface_offers_exactly_witness :
  ∃ actions, subscript2 px_value "decision_surface" "legal_next_action_classes" = Ok (strs_val actions) ∧
    u "stop" ∈ actions.
Proof.
  destruct (surface_offers_exactly px_live px_data px_projection px_value px_projection_made px_projection_value)
    as (snapshot & status & revoked & actions & _ & _ & Ha & _ & Hs & _).
  exists actions. split; [exact Ha|exact Hs].
Defined.

Lemma handoff_roundtrip_witness : ∃ record, handoff_value px_handoff = Ok record ∧ handoff_from_record record (Some px_handoff) = Ok px_handoff.
Proof.
  destruct (handoff_roundtrip px_live px_data px_projection px_handoff px_projection_made px_handoff_made)
    as (v & record & _ & Hr & _ & Hh & _).
  exists record. split; [exact Hr|exact Hh].
Defined.

Lemma live_handoff_resumes_witness : ∃ d, classify_recovery px_handoff (Some px_live) None = Ok d ∧ rd_classification d = RESUME_VERIFIED_LIVE_TASK.
Proof.
  destruct (live_handoff_resumes px_live px_data px_projection px_handoff px_projection_made px_handoff_made px_authorized)
    as (d & task & Hd & Hc & _).
  exists d. split; [exact Hd|exact Hc].
Defined.

Lemma recovery_classified_witness : ∃ d, classify_recovery px_handoff (Some px_live) None = Ok d ∧ resumed px_handoff px_live.
Proof.
  destruct (live_decision px_live px_data px_projection px_handoff px_projection_made px_handoff_made px_authorized)
    as (i & task & _ & Hd).
  destruct (recovery_classified _ _ _ _ Hd) as (_ & _ & c & t & [= <-] & _ & _ & Hr).
  eexists. split; [exact Hd|exact Hr].
Defined.
