(* ===== verification/EffectProfiles.v ===== *)
(** * Effect declarations ([effects.py], lines 56-62, 150-188, 227-362, 692-741 and 790-841)

    A synthetic effect is declared before any ledger exists: an entry is one admitted,
    occurrence-sensitive action, a profile a finite set of entries over declared cells, and a session
    is created only for a task that committed the profile.  Entries and profiles are kept as canonical
    text; every use parses it and rebuilds every record in it.

    Of a declaration whose lists hold values that are not text, [key_texts] says which exception the
    list raises by itself; the order in which several malformed lists of one record raise is not kept. *)

From Stdlib Require Import Ascii String.
From stdpp Require Import base list.
From S2P Require Import Prelude PyStr PyNumber Sha256 Canonical Records Kahn Obligations Epistemic Orchestration Budget Progress Snapshot Receipts Session Effects Governance.

Definition EFFECT_PROFILE_VERSION : pystr := u "IBAE-EFFECT-PROFILE-V1".
Definition EFFECT_PROFILE_ID_DOMAIN : pystr := u "ibae.effect-profile-id.v1".

Inductive SyntheticEffectOutcome := OUTCOME_SUCCESS | FAIL_BEFORE | CRASH_AFTER | CRASH_BEFORE | AMBIGUOUS_UNKNOWN.

Definition effect_outcomes : list SyntheticEffectOutcome :=
  [OUTCOME_SUCCESS; FAIL_BEFORE; CRASH_AFTER; CRASH_BEFORE; AMBIGUOUS_UNKNOWN].

Definition outcome_value (o : SyntheticEffectOutcome) : pystr :=
  match o with
  | OUTCOME_SUCCESS => u "success" | FAIL_BEFORE => u "fail_before" | CRASH_AFTER => u "crash_after"
  | CRASH_BEFORE => u "crash_before" | AMBIGUOUS_UNKNOWN => u "ambiguous_unknown"
  end.

(** ** The graph of an authority record *)

(** What [_inert_record] sees of a record: texts, integers, members and flags, tuples and records. *)
Inductive inert :=
  | IAtom
  | IText (s : pystr)
  | IInt (z : Z)
  | ITuple (items : list inert)
  | IRecord (fields : list inert).

(** [visit]: the nodes that remain after the item. *)
Fixpoint visit (depth remaining : Z) (item : inert) : res Z :=
  let remaining := remaining - 1 in
  let children :=
    fix go (remaining : Z) (l : list inert) : res Z :=
      match l with
      | [] => Ok remaining
      | child :: rest => let* remaining := visit (depth + 1) remaining child in go remaining rest
      end in
  raise_if ((remaining <? 0) || (24 <? depth)) ValueError ;;*
  match item with
  | IAtom => Ok remaining
  | IText s => bounded_utf8_length s MAX_EFFECT_RECORD_BYTES ;;* Ok remaining
  | IInt z => raise_if (256 <? bit_length z) ValueError ;;* Ok remaining
  | ITuple l => raise_if (1024 <? Z.of_nat (length l)) ValueError ;;* children remaining l
  | IRecord l => children remaining l
  end.

(** [_inert_record] *)
Definition inert_record (value : inert) : res unit := visit 0 65536 value ;;* Ok tt.

Definition inert_option {A} (f : A → inert) (o : option A) : inert := match o with None => IAtom | Some a => f a end.
Definition inert_texts (l : list pystr) : inert := ITuple (map IText l).
Definition inert_value (v : CanonicalValue) : inert := IRecord [IText (cv_text v)].

Definition inert_capability (c : Capability) : inert :=
  IRecord [IText (cap_name c); IAtom; IText (cap_description c); IAtom; IInt (cap_contract_version c);
           inert_texts (cap_required_state_keys c); inert_texts (cap_semantic_argument_keys c);
           inert_option IText (cap_replay_evidence_id c)].

Definition inert_proposal (p : ActionProposal) : inert :=
  IRecord [IText (ap_proposal_key p); IText (ap_capability p); inert_texts (ap_target_obligation_ids p);
           inert_texts (ap_required_state_keys p); inert_option IText (ap_occurrence_key p);
           inert_value (ap_arguments p); inert_option inert_value (ap_observational_metadata p)].

Definition inert_decision (d : AdmissionDecision) : inert :=
  IRecord [IText (ad_proposal_id d); IText (ad_proposal_key d); IAtom; IInt (ad_logical_tick d); IAtom;
           inert_texts (ad_invariant_ids d); inert_option IText (ad_action_id d);
           inert_option IText (ad_equivalent_proposal_id d); IAtom;
           ITuple (map (λ _, IAtom) (ad_recovery_actions d)); inert_texts (ad_blocking_obligation_ids d);
           inert_texts (ad_dependency_state_keys d); inert_texts (ad_unresolved_state_keys d)].

Definition inert_permission (p : ToolPermission) : inert := IRecord [IText (tp_tool_name p); IAtom; IAtom; IAtom].

Definition inert_policy (p : GovernancePolicy) : inert :=
  IRecord [IText (gp_policy_key p); IInt (gp_policy_version p); IText (gp_task_profile p);
           IInt (gp_task_profile_version p); IAtom; ITuple (map inert_permission (gp_tool_permissions p));
           inert_texts (gp_required_gate_keys p); IAtom; IAtom; IAtom; IAtom].

Definition inert_task (t : TaskReceipt) : inert :=
  IRecord [IText (tr_task_key t); IInt (tr_contract_version t); inert_texts (tr_required_gate_keys t);
           inert_value (tr_acceptance_contract t)].

Definition inert_governance (g : GovernanceReceipt) : inert :=
  IRecord [IText (gr_task_id g); IText (gr_task_receipt_id g); IText (gr_governance_id g); IText (gr_policy_key g);
           IInt (gr_policy_version g); IAtom; IAtom; inert_texts (gr_required_gate_keys g);
           IText (gr_task_profile g); IInt (gr_task_profile_version g)].

Definition inert_admission (t : ToolAdmissionReceipt) : inert :=
  IRecord [IText (ta_task_id t); IText (ta_governance_id t); IText (ta_governance_receipt_id t);
           IText (ta_action_id t); inert_decision (ta_admission_decision t); inert_proposal (ta_proposal t);
           inert_capability (ta_capability t); IText (ta_permission_id t); IText (ta_tool_name t); IAtom; IAtom;
           IText (ta_dependency_fingerprint t); inert_option IText (ta_occurrence_key t);
           inert_value (ta_arguments t); IAtom].

(** ** Entries *)

Record EffectEntry := { ee_text : pystr }.

Definition SYNTHETIC_SET : pystr := u "synthetic_set".
Definition SYNTHETIC_INCREMENT : pystr := u "synthetic_increment".

(** The name of the operand of a synthetic tool. *)
Definition operand_name (tool : pystr) : string := if bool_decide (tool = SYNTHETIC_SET) then "value" else "delta".

Definition outcomes_val (l : list SyntheticEffectOutcome) : pyval := VList (map (λ o, VStr (outcome_value o)) l).

Module EffectEntry.

(** The arguments of a synthetic effect. *)
Definition check_arguments (tool : pystr) (arguments : pyval) : res unit :=
  let operand := operand_name tool in
  let* active := fields arguments [u "key"; u operand; u "expected_value"] in
  read active "key" symbol ;;*
  read active operand integer ;;*
  read active "expected_value" integer ;;*
  Ok tt.

(** The decision admits exactly this proposal of this capability. *)
Definition check_binding (capability : Capability) (proposal : ActionProposal) (decision : AdmissionDecision) : res unit :=
  let* proposal_id := ActionProposal.proposal_id proposal in
  raise_if (negb (bool_decide (ap_capability proposal = cap_name capability)) ||
            negb (bool_decide (ad_proposal_id decision = proposal_id)) ||
            negb (bool_decide (ad_proposal_key decision = ap_proposal_key proposal))) ValueError ;;*
  raise_if (negb (bool_decide (ad_status decision = ADMITTED)) ||
            negb (bool_decide (ad_authority_layer decision = ORCHESTRATION))) ValueError ;;*
  raise_if (nonempty (ad_blocking_obligation_ids decision) || nonempty (ad_unresolved_state_keys decision)) ValueError ;;*
  raise_if (negb (bool_decide (ad_dependency_state_keys decision =
                               sorted_set (cap_required_state_keys capability ++ ap_required_state_keys proposal))))
    ValueError.

Definition action_record (arguments : pyval) (capability_id dependency_state_id : pystr) (occurrence_key : pystr) : pyval :=
  obj [("arguments", arguments); ("capability_id", VStr capability_id);
       ("dependency_state_id", VStr dependency_state_id); ("occurrence_key", VStr occurrence_key)]%string.

(** [__init__]; the dependency state and the occurrence key may still be of any type. *)
Definition make (capability : Capability) (proposal : ActionProposal) (decision : AdmissionDecision)
    (dependency_state_id : pyval) (outcomes : list SyntheticEffectOutcome) : res EffectEntry :=
  inert_record (inert_capability capability) ;;*
  inert_record (inert_proposal proposal) ;;*
  inert_record (inert_decision decision) ;;*
  let* capability := validated_capability_copy capability in
  let* proposal := validated_action_proposal_copy proposal in
  let* decision := validated_admission_decision_copy decision in
  let* dependency := identity dependency_state_id in
  raise_if (negb ((1 <=? Z.of_nat (length outcomes)) && (Z.of_nat (length outcomes) <=? MAX_EFFECT_OUTCOMES))) ValueError ;;*
  raise_if (negb (str_in (cap_name capability) [SYNTHETIC_SET; SYNTHETIC_INCREMENT])) ValueError ;;*
  raise_if (negb (bool_decide (cap_replay_safety capability = OCCURRENCE_SENSITIVE)) || negb (cap_available capability))
    ValueError ;;*
  let* occurrence := symbol (opt_val VStr (ap_occurrence_key proposal)) in
  check_binding capability proposal decision ;;*
  let* own := ActionProposal.arguments proposal in
  let* arguments := Capability.normalize_arguments capability own in
  raise_if (negb (bool_decide (cap_semantic_argument_keys capability =
                               sorted [u "key"; u (operand_name (cap_name capability)); u "expected_value"]))) ValueError ;;*
  check_arguments (cap_name capability) arguments ;;*
  let* capability_id := Capability.capability_id capability in
  let* expected_action := domain_fingerprint ACTION_ID_DOMAIN (action_record arguments capability_id dependency occurrence) in
  raise_if (negb (bool_decide (ad_action_id decision = Some expected_action))) ValueError ;;*
  let* capability_record := Capability.canonical_record capability in
  let* proposal_record := ActionProposal.canonical_record proposal in
  let* record := json_copy (obj [("capability", capability_record); ("proposal", proposal_record);
    ("admission_decision", AdmissionDecision.canonical_record decision);
    ("dependency_state_id", VStr dependency); ("outcomes", outcomes_val outcomes)]%string) in
  let* text := canonical_json record in
  Ok {| ee_text := text |}.

End EffectEntry.

(** ** Records of entries *)

Definition ENTRY_FIELDS : list pystr :=
  [u "capability"; u "proposal"; u "admission_decision"; u "dependency_state_id"; u "outcomes"].
Definition CAPABILITY_FIELDS : list pystr :=
  [u "argument_schema"; u "available"; u "capability_id"; u "contract_version"; u "description"; u "name";
   u "replay_evidence_id"; u "replay_safety"; u "required_state_keys"; u "semantic_argument_keys"].
Definition PROPOSAL_FIELDS : list pystr :=
  [u "arguments"; u "capability"; u "epistemic_class"; u "occurrence_key"; u "proposal_key"; u "required_state_keys";
   u "target_obligation_ids"].
Definition DECISION_FIELDS : list pystr :=
  [u "action_id"; u "authority_layer"; u "blocking_obligation_ids"; u "dependency_state_keys";
   u "equivalent_proposal_id"; u "logical_tick"; u "invariant_ids"; u "proposal_id"; u "proposal_key";
   u "recovery_actions"; u "rejection_reason"; u "status"; u "unresolved_state_keys"].

(** The members of the enumerations. *)
Definition replay_members : list ReplaySafety := [CACHEABLE_READ; PROVEN_REPLAY_SAFE; OCCURRENCE_SENSITIVE].
Definition decision_members : list DecisionStatus := [ADMITTED; DEDUPLICATED; DECISION_REJECTED].
Definition layer_members : list AuthorityLayer := [GOVERNANCE; ORCHESTRATION; EXECUTION; BENCHMARK].
Definition reason_members : list RejectionReason :=
  [BATCH_LIMIT_EXCEEDED; STRATEGY_SCHEMA_NOT_ADMITTED; UNKNOWN_CAPABILITY; CAPABILITY_UNAVAILABLE;
   ARGUMENT_SCHEMA_MISMATCH; UNKNOWN_OBLIGATION; OBLIGATION_SATISFIED; OBLIGATION_BLOCKED; DEPENDENCY_UNSATISFIED;
   UNKNOWN_STATE; OCCURRENCE_KEY_REQUIRED; UNEXPECTED_OCCURRENCE_KEY; DUPLICATE_OCCURRENCE;
   OCCURRENCE_REGISTRY_FULL; ORDERING_CONTRACT_REQUIRED].
Definition recovery_members : list RecoveryAction :=
  [SPLIT_BATCH; USE_ADMITTED_STRATEGY_SCHEMA; CHOOSE_AVAILABLE_CAPABILITY; USE_ADMITTED_ARGUMENT_SCHEMA;
   CHOOSE_KNOWN_OBLIGATION; TARGET_UNSATISFIED_OBLIGATION; RESOLVE_BLOCKER; SATISFY_DEPENDENCIES;
   OBSERVE_REQUIRED_STATE; ADD_OCCURRENCE_KEY; REMOVE_OCCURRENCE_KEY; USE_DISTINCT_OCCURRENCE_KEY;
   REQUEST_NEW_BOUNDED_SCOPE; USE_DECLARED_SEQUENCE].

(** The keys that a constructor sorts: integers sort and then fail their pattern, a single item is not
    compared but must be hashable, and nothing else that is not text sorts or hashes. *)
Definition is_number (v : pyval) : bool := match v with VInt _ | VBool _ => true | _ => false end.

Definition key_texts (items : list pyval) : res (list pystr) :=
  match res_map exact_str items with
  | Ok texts => Ok texts
  | Raise _ =>
      if forallb is_number items || match items with [VNone] => true | _ => false end then Raise ValueError
      else Raise TypeError
  end.

(** The items of a declared list, within the bound of their constructor and through its check. *)
Definition keys_of (limit : Z) (check : pystr → res unit) (v : pyval) : res (list pystr) :=
  let* items := exact_list v in
  let* items := materialize items limit in
  let* texts := key_texts items in
  unique_sorted texts limit check ;;*
  Ok texts.

Definition optional_value {A} (check : pyval → res A) (v : pyval) : res (option A) :=
  match v with VNone => Ok None | _ => let* a := check v in Ok (Some a) end.

(** [require_text], [require_nonnegative_int] and [require_fingerprint] of arbitrary values *)
Definition text_value (v : pyval) : res pystr :=
  match v with VStr s => require_text s ;;* Ok s | _ => Raise ValueError end.
Definition nonnegative_value (v : pyval) : res Z :=
  match v with VInt z => require_nonnegative_int z ;;* Ok z | _ => Raise ValueError end.
Definition id_value (v : pyval) : res pystr := ProgressCounterEvidence.require_fingerprint_value v.

Definition capability_of (cap : list (pystr * pyval)) : res Capability :=
  let* replay_safety := read cap "replay_safety" (member replay_members replay_value) in
  let* name := read cap "name" require_symbol_value in
  let* description := read cap "description" text_value in
  let* available := read cap "available" require_bool in
  let* contract_version := read cap "contract_version" positive_value in
  let* required := read cap "required_state_keys" (keys_of MAX_STATE_KEYS_PER_DECLARATION require_symbol) in
  let* arguments := read cap "semantic_argument_keys" (keys_of MAX_CAPABILITY_ARGUMENTS require_symbol) in
  let* evidence := read cap "replay_evidence_id" (optional_value id_value) in
  Capability.make name replay_safety description available contract_version required arguments evidence.

Definition proposal_of (prop : list (pystr * pyval)) : res ActionProposal :=
  let* key := read prop "proposal_key" require_symbol_value in
  let* capability := read prop "capability" require_symbol_value in
  let* targets := read prop "target_obligation_ids" (keys_of MAX_OBLIGATIONS require_fingerprint) in
  let* required := read prop "required_state_keys" (keys_of MAX_STATE_KEYS_PER_DECLARATION require_symbol) in
  let* occurrence := read prop "occurrence_key" (optional_value require_symbol_value) in
  let* arguments := field prop "arguments" in
  ActionProposal.make key capability arguments targets required occurrence None.

Definition decision_of (d : list (pystr * pyval)) : res AdmissionDecision :=
  let* status := read d "status" (member decision_members decision_value) in
  let* layer := read d "authority_layer" (member layer_members layer_value) in
  let* reason := read d "rejection_reason" (optional_value (member reason_members reason_value)) in
  let* recoveries := read d "recovery_actions" (λ v, let* l := exact_list v in res_map (member recovery_members recovery_value) l) in
  let* proposal_id := read d "proposal_id" id_value in
  let* proposal_key := read d "proposal_key" require_symbol_value in
  let* tick := read d "logical_tick" nonnegative_value in
  let* action_id := read d "action_id" (optional_value id_value) in
  let* equivalent := read d "equivalent_proposal_id" (optional_value id_value) in
  materialize recoveries RECOVERY_ACTIONS ;;*
  let* blocking := read d "blocking_obligation_ids" (keys_of MAX_OBLIGATIONS require_fingerprint) in
  let* dependency := read d "dependency_state_keys" (keys_of MAX_EPISTEMIC_RECORDS require_symbol) in
  let* unresolved := read d "unresolved_state_keys" (keys_of MAX_EPISTEMIC_RECORDS require_symbol) in
  let* invariants := read d "invariant_ids" (keys_of MAX_INVARIANT_IDS_PER_REJECTION require_invariant_id) in
  AdmissionDecision.make {|
    ad_proposal_id := proposal_id; ad_proposal_key := proposal_key; ad_status := status; ad_logical_tick := tick;
    ad_authority_layer := layer; ad_invariant_ids := invariants; ad_action_id := action_id;
    ad_equivalent_proposal_id := equivalent; ad_rejection_reason := reason; ad_recovery_actions := recoveries;
    ad_blocking_obligation_ids := blocking; ad_dependency_state_keys := dependency;
    ad_unresolved_state_keys := unresolved |}.

(** [_entry_from_record]: every record of the entry is constructed again. *)
Definition entry_from_record (record : pyval) : res EffectEntry :=
  let* entry := fields record ENTRY_FIELDS in
  let* cap := read entry "capability" (λ v, fields v CAPABILITY_FIELDS) in
  let* prop := read entry "proposal" (λ v, fields v PROPOSAL_FIELDS) in
  let* dec := read entry "admission_decision" (λ v, fields v DECISION_FIELDS) in
  res_iter (λ name, let* _ := read cap name exact_list in Ok tt) ["required_state_keys"; "semantic_argument_keys"]%string ;;*
  res_iter (λ name, let* _ := read prop name exact_list in Ok tt) ["required_state_keys"; "target_obligation_ids"]%string ;;*
  res_iter (λ name, let* _ := read dec name exact_list in Ok tt)
    ["blocking_obligation_ids"; "dependency_state_keys"; "invariant_ids"; "recovery_actions"; "unresolved_state_keys"]%string ;;*
  let* outcome_items := read entry "outcomes" exact_list in
  let* capability := capability_of cap in
  let* proposal := proposal_of prop in
  let* decision := decision_of dec in
  let* dependency := field entry "dependency_state_id" in
  let* outcomes := res_map (member effect_outcomes outcome_value) outcome_items in
  let* made := EffectEntry.make capability proposal decision dependency outcomes in
  let* own := read_text (ee_text made) in
  raise_if (negb (py_equal own record)) ValueError ;;*
  Ok made.

(** [EffectEntry.canonical_record] and [EffectEntry.from_record] *)
Definition entry_record (e : EffectEntry) : res pyval :=
  let* record := read_text (ee_text e) in
  entry_from_record record ;;*
  Ok record.

Definition entry_of (record : pyval) : res EffectEntry := let* copied := json_copy record in entry_from_record copied.

(** [entry_records[i][name][name']] *)
Definition entry_item (name name' : string) (record : pyval) : res pyval :=
  let* v := subscript record name in subscript v name'.

Definition entry_action_id (e : EffectEntry) : res pyval :=
  let* r := entry_record e in entry_item "admission_decision" "action_id" r.
Definition entry_occurrence_key (e : EffectEntry) : res pyval :=
  let* r := entry_record e in entry_item "proposal" "occurrence_key" r.

(** ** Profiles *)

Record EffectProfile := { ef_text : pystr }.

Definition PROFILE_FIELDS : list pystr :=
  [u "protocol_version"; u "governance_id"; u "limits"; u "initial_cells"; u "entries"].

(** The texts of a field of every entry are distinct. *)
Definition require_distinct (records : list pyval) (name name' : string) : res unit :=
  let* items := res_map (λ r, let* v := entry_item name name' r in exact_str v) records in
  raise_if (has_duplicates items) ValueError.

Module EffectProfile.

(** The cell that the arguments of an entry name. *)
Definition declared_cell (cells : list (pystr * Z)) (record : pyval) : res bool :=
  let* v := entry_item "proposal" "arguments" record in
  let* key := subscript v "key" in
  let* key := exact_str key in
  Ok (str_in key (map fst cells)).

Definition cells_val (cells : list (pystr * Z)) : pyval := VDict (map (λ c, (VStr c.1, VInt c.2)) cells).

(** [__init__]; the governance and the cells may still be of any type. *)
Definition make (governance_id : pyval) (entries : list EffectEntry) (initial_cells : pyval) (limits : option EffectLimits)
    : res EffectProfile :=
  let* governance := identity governance_id in
  let count := Z.of_nat (length entries) in
  raise_if (negb ((1 <=? count) && (count <=? MAX_EFFECT_ENTRIES))) ValueError ;;*
  let* supplied := exact_dict initial_cells in
  raise_if (Z.of_nat (length supplied) <? 1) ValueError ;;*
  let* cells := read_cells initial_cells in
  let* records := res_map entry_record entries in
  require_distinct records "admission_decision" "action_id" ;;*
  require_distinct records "proposal" "occurrence_key" ;;*
  require_distinct records "proposal" "proposal_key" ;;*
  let* declared := res_map (declared_cell cells) records in
  raise_if (existsb negb declared) ValueError ;;*
  let* limits := EffectLimits.canonical_record (match limits with None => EffectLimits.default | Some l => l end) in
  let* record := json_copy (obj [("protocol_version", VStr EFFECT_PROFILE_VERSION); ("governance_id", VStr governance);
    ("limits", limits); ("initial_cells", cells_val cells); ("entries", VList records)]%string) in
  let* text := canonical_json record in
  Ok {| ef_text := text |}.

End EffectProfile.

(** [_profile_from_record] *)
Definition profile_from_record (record : pyval) : res EffectProfile :=
  let* active := fields record PROFILE_FIELDS in
  let* version := field active "protocol_version" in
  raise_if (negb (py_equal version (VStr EFFECT_PROFILE_VERSION))) ValueError ;;*
  let* items := read active "entries" exact_list in
  let count := Z.of_nat (length items) in
  raise_if (negb ((1 <=? count) && (count <=? MAX_EFFECT_ENTRIES))) ValueError ;;*
  let* governance := field active "governance_id" in
  let* entries := res_map entry_from_record items in
  let* cells := field active "initial_cells" in
  let* limits := read active "limits" EffectLimits.from_record in
  let* profile := EffectProfile.make governance entries cells (Some limits) in
  let* own := read_text (ef_text profile) in
  raise_if (negb (py_equal own record)) ValueError ;;*
  Ok profile.

(** [EffectProfile.canonical_record], [from_record] and [profile_id] *)
Definition profile_record (p : EffectProfile) : res pyval :=
  let* record := read_text (ef_text p) in
  profile_from_record record ;;*
  Ok record.

Definition profile_of (record : pyval) : res EffectProfile := let* copied := json_copy record in profile_from_record copied.

Definition profile_id (p : EffectProfile) : res pystr :=
  let* record := profile_record p in domain_fingerprint EFFECT_PROFILE_ID_DOMAIN record.

(** ** Sessions *)

(** The mutation class of a synthetic tool. *)
Definition synthetic_class (tool : pystr) : ToolAuthorityClass :=
  if bool_decide (tool = SYNTHETIC_SET) then IDEMPOTENT_MUTATION else NON_IDEMPOTENT_MUTATION.

(** The admission of an entry, with the record that the session keeps. *)
Definition cover_entry (policy : GovernancePolicy) (task : TaskReceipt) (governance : GovernanceReceipt)
    (entry : pyval) (admission : ToolAdmissionReceipt) : res pyval :=
  inert_record (inert_admission admission) ;;*
  let* checked := require_tool_admission_binding policy task governance admission in
  let same (own : res pyval) (name : string) := let* a := own in let* b := subscript entry name in Ok (py_equal a b) in
  let* capability := same (Capability.canonical_record (ta_capability checked)) "capability"%string in
  raise_if (negb capability) ValueError ;;*
  let* proposal := same (ActionProposal.canonical_record (ta_proposal checked)) "proposal"%string in
  raise_if (negb proposal) ValueError ;;*
  let* decision := same (Ok (AdmissionDecision.canonical_record (ta_admission_decision checked))) "admission_decision"%string in
  raise_if (negb decision) ValueError ;;*
  let* dependency := same (Ok (VStr (ta_dependency_fingerprint checked))) "dependency_state_id"%string in
  raise_if (negb dependency) ValueError ;;*
  raise_if (negb (bool_decide (ta_authority_class checked = synthetic_class (ta_tool_name checked)))) ValueError ;;*
  ToolAdmissionReceipt.canonical_record checked.

(** [acceptance_contract.get("effect_profile_id") != profile.profile_id] *)
Definition check_committed (task : TaskReceipt) (profile : EffectProfile) : res unit :=
  let* contract := TaskReceipt.acceptance_contract task in
  let* i := profile_id profile in
  let committed := match subscript contract "effect_profile_id" with Ok v => v | Raise _ => VNone end in
  raise_if (negb (py_equal committed (VStr i))) ValueError.

(** The specification that [EffectSession.create] hands to the native ledger. *)
Definition session_spec (profile : EffectProfile) (task : TaskReceipt) (policy : GovernancePolicy)
    (governance : GovernanceReceipt) (tool_admissions : list ToolAdmissionReceipt) : res pystr :=
  inert_record (inert_task task) ;;*
  inert_record (inert_policy policy) ;;*
  inert_record (inert_governance governance) ;;*
  require_governance_binding policy task governance ;;*
  let* active := profile_record profile in
  let* own_governance := subscript active "governance_id" in
  let* governance_id := GovernancePolicy.governance_id policy in
  raise_if (negb (py_equal own_governance (VStr governance_id))) ValueError ;;*
  check_committed task profile ;;*
  let* entries := subscript active "entries" in
  let* entries := exact_list entries in
  raise_if (negb (length tool_admissions =? length entries)%nat) ValueError ;;*
  let* records := res_map (λ '(entry, admission), cover_entry policy task governance entry admission)
                    (combine entries tool_admissions) in
  let* task_record := TaskReceipt.canonical_record task in
  let* governance_record := GovernanceReceipt.canonical_record governance in
  let* spec := json_copy (obj [("protocol_version", VStr EFFECT_RUNTIME_VERSION); ("profile", active);
    ("task_receipt", task_record); ("governance_policy", GovernancePolicy.canonical_record policy);
    ("governance_receipt", governance_record); ("tool_admissions", VList records)]%string) in
  canonical_json spec.

(** [EffectSession.create]: the native ledger is created for the specification, with the enable flag. *)
Definition create_session {native_effects : Type} (native_create : pystr → bool → res native_effects)
    (profile : EffectProfile) (task : TaskReceipt) (policy : GovernancePolicy) (governance : GovernanceReceipt)
    (tool_admissions : list ToolAdmissionReceipt) (enabled : bool) : res native_effects :=
  let* spec := session_spec profile task policy governance tool_admissions in
  native_create spec enabled.
