(* ===== verification/EffectProfileFacts.v ===== *)
(** * What an effect session was created for

    Equal records have equal texts, so an entry, the admission that covers it and the profile that
    lists it speak of the same action; a session needs a mutation permission for each. *)

From Stdlib Require Import Ascii String.
From stdpp Require Import base list.
From S2P Require Import Prelude PyStr PyNumber Sha256 Canonical CanonicalFacts Records RecordsFacts Kahn Obligations Epistemic Orchestration Admission Budget Progress CanonFields Snapshot Receipts Session Effects EffectFacts Governance GovernanceFacts GovernanceSpec EffectProfiles.

(** ** Items of equal records *)

Lemma equal_item l l' k v :
  py_equal (VDict l) (VDict l') = true → dict_item l k = Ok v →
  ∃ v', dict_item l' k = Ok v' ∧ py_equal v v' = true.
Proof.
  cbn [py_equal number_value]. intros [_ He]%andb_true_iff Hv. apply dict_item_elem in Hv.
  apply (proj1 (forallb_elem _ _) He) in Hv. cbn [fst snd] in Hv. unfold dict_item.
  assert (Hf : find (λ kv' : pyval * pyval, match kv'.1 with VStr t => bool_decide (k = t) | _ => false end) l' =
               find (λ kv, match kv.1 with VStr k' => bool_decide (k' = k) | _ => false end) l').
  { clear. induction l' as [|[a w] l' IH]; [done|]. cbn [find fst]. rewrite IH.
    destruct a; try done. by rewrite (bool_decide_ext (k = s) (s = k)). }
  rewrite Hf in Hv. destruct (find _ l') as [kv|]; [|done]. by exists kv.2.
Qed.

Lemma equal_subscript a b name v :
  py_equal a b = true → subscript a name = Ok v → ∃ v', subscript b name = Ok v' ∧ py_equal v v' = true.
Proof.
  intros He Hv. destruct a as [| | | | | | |l|]; try discriminate Hv.
  destruct b as [| | | | | | |l'|]; try discriminate He. by apply (equal_item l l').
Qed.

Lemma equal_text a b name s : py_equal a b = true → subscript a name = Ok (VStr s) → subscript b name = Ok (VStr s).
Proof.
  intros He Hv. destruct (equal_subscript _ _ _ _ He Hv) as (v & -> & Hs).
  destruct v as [| | | |s'| | | |]; try discriminate Hs. by apply py_equal_text in Hs as ->.
Qed.

Lemma equal_entry_text a b name name' s :
  py_equal a b = true → entry_item name name' a = Ok (VStr s) → entry_item name name' b = Ok (VStr s).
Proof.
  unfold entry_item. intros He H. apply res_bind_Ok in H as (w & Hw & Hs).
  destruct (equal_subscript _ _ _ _ He Hw) as (w' & -> & He'). cbn [res_bind]. by apply (equal_text _ _ _ _ He').
Qed.

Lemma equal_to_text v s : py_equal v (VStr s) = true → v = VStr s.
Proof.
  destruct v as [| | |f|t| | | |]; try done; cbn [py_equal number_value].
  - by destruct f.
  - by intros ->%bool_decide_eq_true.
Qed.

(** [_fields] keeps the items. *)
Lemma fields_item v expected l name :
  fields v expected = Ok l → Snapshot.field l name = subscript v name.
Proof.
  unfold fields. intros H. apply res_bind_Ok in H as (kvs & Hd & H). apply res_bind_Ok in H as ([] & _ & H%res_map_Ok).
  destruct v; try discriminate Hd. injection Hd as ->. cbn [subscript]. unfold Snapshot.field, dict_item.
  induction H as [|[k w] [k' w'] kvs l Hk H IH]; [done|]. cbn [find fst snd] in *.
  apply res_bind_Ok in Hk as (s & Hs & [= <- <-]). destruct k; try discriminate Hs. injection Hs as ->.
  cbn [fst]. by case_bool_decide.
Qed.

(** ** Entries *)

Lemma capability_of_name cap c : capability_of cap = Ok c → Snapshot.field cap "name" = Ok (VStr (cap_name c)).
Proof.
  unfold capability_of. intros H. apply res_bind_Ok in H as (? & _ & H). apply res_bind_Ok in H as (name & Hn & H).
  repeat (apply res_bind_Ok in H as (? & _ & H)). unfold Capability.make in H.
  repeat (apply res_bind_Ok in H as (? & _ & H)). injection H as <-. cbn [cap_name].
  apply read_Ok in Hn as (v & -> & Hv). destruct v; try discriminate Hv.
  by apply res_bind_Ok in Hv as (? & _ & [= ->]).
Qed.

Lemma capability_copy_name c c' : validated_capability_copy c = Ok c' → cap_name c' = cap_name c.
Proof.
  unfold validated_capability_copy. intros H. apply res_bind_Ok in H as (v & Hv & H).
  repeat (apply res_bind_Ok in H as (? & _ & H)). injection H as <-. unfold Capability.make in Hv.
  repeat (apply res_bind_Ok in Hv as (? & _ & Hv)). by injection Hv as <-.
Qed.

(** An entry is of a synthetic tool. *)
Lemma entry_tool record e :
  entry_from_record record = Ok e →
  ∃ tool, entry_item "capability" "name" record = Ok (VStr tool) ∧ tool ∈ [SYNTHETIC_SET; SYNTHETIC_INCREMENT].
Proof.
  unfold entry_from_record. intros H. apply res_bind_Ok in H as (entry & He & H). apply res_bind_Ok in H as (cap & Hcap & H).
  do 6 (apply res_bind_Ok in H as (? & _ & H)). apply res_bind_Ok in H as (c & Hc%capability_of_name & H).
  do 4 (apply res_bind_Ok in H as (? & _ & H)). apply res_bind_Ok in H as (made & Hm & _).
  unfold EffectEntry.make in Hm. do 3 (apply res_bind_Ok in Hm as (? & _ & Hm)).
  apply res_bind_Ok in Hm as (c' & Hc'%capability_copy_name & Hm). do 4 (apply res_bind_Ok in Hm as (? & _ & Hm)).
  apply res_bind_Ok in Hm as (? & Ht%raise_if_Ok & _). apply negb_false_iff, str_in_true in Ht.
  exists (cap_name c). rewrite <- Hc' at 2. split; [|exact Ht].
  apply read_Ok in Hcap as (v & Hv & Hcap). unfold entry_item. rewrite (fields_item _ _ _ _ He) in Hv. rewrite Hv. cbn [res_bind].
  by rewrite <- (fields_item _ _ _ _ Hcap).
Qed.

(** The record of a rebuilt entry is the one it was rebuilt from. *)
Lemma entry_own record e :
  entry_from_record record = Ok e → ∃ own, read_text (ee_text e) = Ok own ∧ py_equal own record = true.
Proof.
  unfold entry_from_record. intros H. do 14 (apply res_bind_Ok in H as (? & _ & H)).
  apply res_bind_Ok in H as (own & Hown & H). apply res_bind_Ok in H as ([] & He%raise_if_Ok & [= <-]).
  exists own. split; [exact Hown|]. by apply negb_false_iff.
Qed.

Lemma entry_record_read e record : entry_record e = Ok record → read_text (ee_text e) = Ok record.
Proof. unfold entry_record. intros H. apply res_bind_Ok in H as (r & Hr & H). by apply res_bind_Ok in H as (? & _ & [= <-]). Qed.

(** ** Coverage *)

(** The admission covers the entry: it is a grant of the policy for a mutation of the synthetic tool's
    class, and the entry holds its capability, proposal, decision and dependency state. *)
Record covered (policy : GovernancePolicy) (task : TaskReceipt) (governance : GovernanceReceipt)
    (entry : pyval) (t : ToolAdmissionReceipt) : Prop := {
  cv_grant : grant_ok policy task governance t;
  cv_class : ta_authority_class t = synthetic_class (ta_tool_name t);
  cv_permission : ∃ p, p ∈ gp_tool_permissions policy ∧ tp_tool_name p = ta_tool_name t ∧
    tp_authority_class p = ta_authority_class t ∧ tp_allow_mutation p = true;
  cv_tool : entry_item "capability" "name" entry = Ok (VStr (ta_tool_name t));
  cv_action : entry_item "admission_decision" "action_id" entry = Ok (VStr (ta_action_id t));
  cv_occurrence : ∃ k, ta_occurrence_key t = Some k ∧ entry_item "proposal" "occurrence_key" entry = Ok (VStr k);
  cv_dependency : subscript entry "dependency_state_id" = Ok (VStr (ta_dependency_fingerprint t))
}.

Lemma item_of_part entry part name s own :
  (∃ b, subscript entry part = Ok b ∧ py_equal own b = true) → subscript own name = Ok (VStr s) →
  entry_item part name entry = Ok (VStr s).
Proof. intros (b & Hb & He) Hs. unfold entry_item. rewrite Hb. cbn [res_bind]. by apply (equal_text own). Qed.

Lemma cover_entry_covered policy task governance entry t r :
  cover_entry policy task governance entry t = Ok r → ∃ checked, covered policy task governance entry checked.
Proof.
  unfold cover_entry. intros H. apply res_bind_Ok in H as ([] & _ & H). apply res_bind_Ok in H as (checked & Hk%tool_binding_Ok & H).
  assert (Hsame : ∀ own name (k : bool → res pyval) x,
    (let* b := (let* a := own in let* b := subscript entry name in Ok (py_equal a b)) in k b) = Ok x →
    ∃ a b, own = Ok a ∧ subscript entry name = Ok b ∧ k (py_equal a b) = Ok x).
  { intros own name k x Hx. apply res_bind_Ok in Hx as (b & Hb & Hx). apply res_bind_Ok in Hb as (a & Ha & Hb).
    apply res_bind_Ok in Hb as (b' & Hb' & [= <-]). by exists a, b'. }
  apply Hsame in H as (c & c' & Hc & Hc' & H). apply res_bind_Ok in H as ([] & E1%raise_if_Ok%negb_false_iff & H).
  apply Hsame in H as (p & p' & Hp & Hp' & H). apply res_bind_Ok in H as ([] & E2%raise_if_Ok%negb_false_iff & H).
  apply Hsame in H as (d & d' & Hd & Hd' & H). apply res_bind_Ok in H as ([] & E3%raise_if_Ok%negb_false_iff & H).
  apply Hsame in H as (s & s' & Hs & Hs' & H). apply res_bind_Ok in H as ([] & E4%raise_if_Ok%negb_false_iff & H).
  apply res_bind_Ok in H as ([] & E5%raise_if_Ok%negb_false_iff%bool_decide_eq_true & _). exists checked.
  injection Hd as <-. injection Hs as <-.
  pose proof (gk_capability _ _ _ _ Hk) as (Hn & _ & _). pose proof (gk_action _ _ _ _ Hk) as [Ha _].
  destruct (gk_permission _ _ _ _ Hk) as (pm & Hin & Hname & Hcls & _ & Hmut & _).
  assert (Hm : is_mutation (ta_authority_class checked) = true) by (rewrite E5; unfold synthetic_class; by case_bool_decide).
  assert (Hr : is_replayed_read (ta_authority_class checked) = false) by (rewrite E5; unfold synthetic_class; by case_bool_decide).
  destruct (gk_effect _ _ _ _ Hk Hr) as (_ & k & Hocc & _). pose proof (gk_occurrence _ _ _ _ Hk) as Hpo.
  constructor.
  - exact Hk.
  - exact E5.
  - exists pm. split; [exact Hin|]. split; [exact Hname|]. split; [exact Hcls|]. exact (Hmut Hm).
  - eapply item_of_part; [by exists c'|]. unfold Capability.canonical_record in Hc. apply res_bind_Ok in Hc as (i & _ & [= <-]).
    rewrite <- Hn. reflexivity.
  - eapply item_of_part; [by exists d'|]. unfold AdmissionDecision.canonical_record. rewrite Ha. reflexivity.
  - exists k. split; [exact Hocc|]. eapply item_of_part; [by exists p'|]. unfold ActionProposal.canonical_record in Hp.
    apply res_bind_Ok in Hp as (v & _ & [= <-]). unfold ActionProposal.record_fields. rewrite <- Hpo, Hocc. reflexivity.
  - destruct s' as [| | | |s'| | | |]; try discriminate E4. apply py_equal_text in E4 as <-. exact Hs'.
Qed.

Lemma cover_all policy task governance entries admissions records :
  length admissions = length entries →
  res_map (λ '(entry, admission), cover_entry policy task governance entry admission) (combine entries admissions) = Ok records →
  ∃ granted, Forall2 (covered policy task governance) entries granted.
Proof.
  revert admissions records. induction entries as [|e entries IH]; intros [|a admissions] records Hl H; try discriminate Hl.
  { exists []. constructor. }
  cbn [combine res_map] in H. apply res_bind_Ok in H as (r & Hr%cover_entry_covered & H).
  apply res_bind_Ok in H as (rs & Hrs & _). destruct Hr as [t Ht].
  destruct (IH admissions rs) as [ts Hts]; [by injection Hl|exact Hrs|]. exists (t :: ts). by constructor.
Qed.

(** ** Profiles *)

(** The texts that a profile compares are those of its entries. *)
Lemma distinct_texts (A : Type) (f : A → pystr) items entries records granted name name' :
  Forall2 (λ item e, entry_from_record item = Ok e) items entries →
  Forall2 (λ e r, entry_record e = Ok r) entries records →
  require_distinct records name name' = Ok tt →
  Forall2 (λ item a, entry_item name name' item = Ok (VStr (f a))) items granted →
  NoDup (map f granted).
Proof.
  intros He Hr Hd Hg. unfold require_distinct in Hd. apply res_bind_Ok in Hd as (texts & Ht%res_map_Ok & Hd%raise_if_Ok).
  enough (texts = map f granted) as <- by by apply has_duplicates_false. clear Hd.
  revert entries records texts granted He Hr Ht Hg. induction items as [|item items IH]; intros entries records texts granted He Hr Ht Hg.
  { inversion He; subst. inversion Hr; subst. inversion Ht; subst. by inversion Hg. }
  inversion He as [|? e ? es He1 He2]; subst. inversion Hr as [|? r ? rs Hr1 Hr2]; subst.
  inversion Ht as [|? s ? ss Ht1 Ht2]; subst. inversion Hg as [|? a ? gs Hg1 Hg2]; subst.
  cbn [map]. f_equal; [|by eapply IH]. destruct (entry_own _ _ He1) as (own & Hown & Heq).
  apply entry_record_read in Hr1. assert (own = r) as -> by congruence.
  apply res_bind_Ok in Ht1 as (v & Hv & Hs). destruct v as [| | | |s'| | | |]; try discriminate Hs. injection Hs as ->.
  apply (equal_entry_text _ _ _ _ _ Heq) in Hv. congruence.
Qed.

Lemma profile_entries p active :
  profile_record p = Ok active →
  ∃ items entries records, subscript active "entries" = Ok (VList items) ∧
    Forall2 (λ item e, entry_from_record item = Ok e) items entries ∧
    Forall2 (λ e r, entry_record e = Ok r) entries records ∧
    require_distinct records "admission_decision" "action_id" = Ok tt ∧
    require_distinct records "proposal" "occurrence_key" = Ok tt.
Proof.
  unfold profile_record. intros H. apply res_bind_Ok in H as (record & _ & H). apply res_bind_Ok in H as (made & H & [= <-]).
  unfold profile_from_record in H. apply res_bind_Ok in H as (l & Hl & H). do 2 (apply res_bind_Ok in H as (? & _ & H)).
  apply res_bind_Ok in H as (items & Hi & H). do 2 (apply res_bind_Ok in H as (? & _ & H)).
  apply res_bind_Ok in H as (entries & He%res_map_Ok & H). do 2 (apply res_bind_Ok in H as (? & _ & H)).
  apply res_bind_Ok in H as (profile & Hm & _). unfold EffectProfile.make in Hm. do 5 (apply res_bind_Ok in Hm as (? & _ & Hm)).
  apply res_bind_Ok in Hm as (records & Hr%res_map_Ok & Hm). apply res_bind_Ok in Hm as ([] & Hd1 & Hm).
  apply res_bind_Ok in Hm as ([] & Hd2 & _). exists items, entries, records.
  split; [|done]. apply read_Ok in Hi as (v & Hv & Hi). rewrite (fields_item _ _ _ _ Hl) in Hv.
  destruct v; try discriminate Hi. injection Hi as ->. exact Hv.
Qed.

(** What an effect session was created for: the task committed the profile, the governance is the
    profile's, and every entry of the profile is covered, each by its own grant for its own action. *)
Record governed_session (profile : EffectProfile) (task : TaskReceipt) (policy : GovernancePolicy)
    (governance : GovernanceReceipt) : Prop := {
  gs_bound : require_governance_binding policy task governance = Ok tt;
  gs_committed : ∃ contract i, TaskReceipt.acceptance_contract task = Ok contract ∧ profile_id profile = Ok i ∧
    subscript contract "effect_profile_id" = Ok (VStr i);
  gs_entries : ∃ active items granted, profile_record profile = Ok active ∧
    (∃ g, GovernancePolicy.governance_id policy = Ok g ∧ subscript active "governance_id" = Ok (VStr g)) ∧
    subscript active "entries" = Ok (VList items) ∧ Forall2 (covered policy task governance) items granted ∧
    NoDup (map ta_action_id granted) ∧ NoDup (map ta_occurrence_key granted) ∧
    Forall (λ t, ta_tool_name t ∈ [SYNTHETIC_SET; SYNTHETIC_INCREMENT]) granted
}.

Lemma committed_profile task profile :
  check_committed task profile = Ok tt →
  ∃ contract i, TaskReceipt.acceptance_contract task = Ok contract ∧ profile_id profile = Ok i ∧
    subscript contract "effect_profile_id" = Ok (VStr i).
Proof.
  unfold check_committed. intros H. apply res_bind_Ok in H as (contract & Hc & H). apply res_bind_Ok in H as (i & Hi & H).
  apply raise_if_Ok, negb_false_iff in H. exists contract, i. split; [done|]. split; [done|].
  destruct (subscript contract "effect_profile_id") as [v|]; [|discriminate H].
  by apply equal_to_text in H as ->.
Qed.

Lemma spec_governed profile task policy governance admissions spec :
  session_spec profile task policy governance admissions = Ok spec → governed_session profile task policy governance.
Proof.
  unfold session_spec. intros H. do 3 (apply res_bind_Ok in H as (? & _ & H)).
  apply res_bind_Ok in H as ([] & Hb & H). apply res_bind_Ok in H as (active & Ha & H).
  apply res_bind_Ok in H as (own & Hown & H). apply res_bind_Ok in H as (g & Hg & H).
  apply res_bind_Ok in H as ([] & Hgov%raise_if_Ok%negb_false_iff & H). apply res_bind_Ok in H as ([] & Hcom%committed_profile & H).
  apply res_bind_Ok in H as (v & Hv & H). apply res_bind_Ok in H as (items & Hi & H).
  apply res_bind_Ok in H as ([] & Hlen%raise_if_Ok%negb_false_iff%Nat.eqb_eq & H). apply res_bind_Ok in H as (records & Hcov & _).
  destruct v; try discriminate Hi. injection Hi as ->. destruct (cover_all _ _ _ _ _ _ Hlen Hcov) as [granted Hgr].
  destruct (profile_entries _ _ Ha) as (items' & entries & recs & Hits & He & Hr & Hd1 & Hd2).
  rewrite Hv in Hits. injection Hits as <-. constructor; [exact Hb|exact Hcom|].
  exists active, items, granted. split; [done|]. split.
  { exists g. split; [done|]. by apply equal_to_text in Hgov as ->. }
  split; [done|]. split; [done|]. split; [|split].
  - eapply (distinct_texts _ ta_action_id); [exact He|exact Hr|exact Hd1|].
    eapply Forall2_impl; [exact Hgr|]. intros item t Ht. exact (cv_action _ _ _ _ _ Ht).
  - set (key t := default [] (ta_occurrence_key t)).
    assert (Hk : NoDup (map key granted)).
    { eapply distinct_texts; [exact He|exact Hr|exact Hd2|]. eapply Forall2_impl; [exact Hgr|].
      intros item t Ht. destruct (cv_occurrence _ _ _ _ _ Ht) as (k & Hk & Hitem). unfold key. by rewrite Hk. }
    assert (Hmap : map key granted = map (default []) (map ta_occurrence_key granted)) by by rewrite map_map.
    rewrite Hmap in Hk. apply NoDup_ListNoDup. apply NoDup_ListNoDup in Hk. by apply NoDup_map_inv in Hk.
  - clear Hr Hd1 Hd2 Hcov Hlen Hv. revert entries He. induction Hgr as [|item t items granted Ht Hgr IH]; intros entries He; [constructor|].
    inversion He as [|? e ? es He1 He2]; subst. constructor; [|by eapply IH].
    destruct (entry_tool _ _ He1) as (tool & Hn & Htool). rewrite (cv_tool _ _ _ _ _ Ht) in Hn. by injection Hn as ->.
Qed.

(** C33.  An effect session exists only under governance: the native ledger is asked for one only when the
    task's own acceptance contract commits exactly this profile, the profile names the active governance,
    and every entry of the profile is covered in order by its own grant of the policy, which is a
    mutation permission of the class of the synthetic tool for the entry's capability, proposal, decision,
    dependency state and occurrence; no two entries share an action or an occurrence. *)
Theorem effect_session_governed {E} (native_create : pystr → bool → res E) profile task policy governance admissions enabled session :
  create_session native_create profile task policy governance admissions enabled = Ok session →
  governed_session profile task policy governance ∧
  ∃ spec, session_spec profile task policy governance admissions = Ok spec ∧ native_create spec enabled = Ok session.
Proof.
  unfold create_session. intros H. apply res_bind_Ok in H as (spec & Hs & H).
  split; [by eapply spec_governed|]. by exists spec.
Qed.
