(* ===== verification/EffectProfileReads.v ===== *)
(** * Effect declarations read back

    An entry or a profile that could be made is read back from its text: every record in it is
    rebuilt, the rebuilt declaration has the same text, and so the same identity. *)

From Stdlib Require Import Ascii String.
From stdpp Require Import base list.
From S2P Require Import Prelude PyStr PyNumber Sha256 Canonical CanonicalFacts Fingerprints Records RecordsFacts Kahn Obligations Epistemic EpistemicFacts Orchestration Admission AdmissionFacts AdmissionSpec Budget Progress CanonFields Snapshot Receipts Session JsonFields Effects EffectFacts Governance GovernanceFacts GovernanceSpec EffectProfiles EffectProfileFacts.

(** ** The copied text *)

Lemma effect_shape_canon v depth : effect_shape depth v = true → effect_shape depth (canon v) = true.
Proof.
  revert depth. induction v as [|b|z|f|s|l IH|l IH|l IH|] using pyval_nested_ind; intros depth Hs; try done.
  - cbn [effect_shape canon] in *. rewrite length_map, forallb_map. bool_inv. rewrite !andb_true_iff. split; [lia|]. split; [lia|].
    rewrite Forall_forall in IH. apply forallb_elem. intros x Hx. apply (IH x Hx). by eapply forallb_elem.
  - cbn [effect_shape] in Hs. by rewrite andb_false_r in Hs.
  - rewrite canon_dict. cbn [effect_shape] in *. rewrite length_canon_items. bool_inv. rewrite !andb_true_iff. split; [lia|]. split; [lia|].
    rewrite (forallb_perm _ _ _ (canon_items_perm l)), forallb_map. rewrite Forall_forall in IH. apply forallb_elem. intros [k w] Hx.
    destruct (IH _ Hx) as [_ IHw]. match goal with H : forallb _ l = true |- _ => apply (proj1 (forallb_elem _ _) H) in Hx end.
    cbn [fst snd] in *. bool_inv. rewrite !andb_true_iff. split; [done|]. by apply IHw.
Qed.

Lemma copy_costs_canon v depth :
  effect_shape depth v = true → copy_nodes (canon v) = copy_nodes v ∧ copy_bytes (canon v) = copy_bytes v.
Proof.
  revert depth. induction v as [|b|z|f|s|l IH|l IH|l IH|] using pyval_nested_ind; intros depth Hs; try done.
  - cbn [effect_shape canon copy_nodes copy_bytes] in *. rewrite length_map, !map_map. bool_inv. rewrite Forall_forall in IH.
    assert (Hl : ∀ x, x ∈ l → copy_nodes (canon x) = copy_nodes x ∧ copy_bytes (canon x) = copy_bytes x).
    { intros x Hx. apply (IH x Hx (depth + 1)). by eapply forallb_elem. }
    rewrite (map_ext_in (λ x, copy_nodes (canon x)) copy_nodes l), (map_ext_in (λ x, copy_bytes (canon x)) copy_bytes l); [done|..];
      intros x Hx%list_elem_of_In; by apply Hl.
  - cbn [effect_shape] in Hs. by rewrite andb_false_r in Hs.
  - rewrite canon_dict. cbn [effect_shape copy_nodes copy_bytes] in *. rewrite length_canon_items. bool_inv. rewrite Forall_forall in IH.
    assert (Hl : ∀ kv, kv ∈ l → copy_nodes (canon kv.2) = copy_nodes kv.2 ∧ copy_bytes (canon kv.2) = copy_bytes kv.2).
    { intros [k w] Hx. destruct (IH _ Hx) as [_ IHw].
      match goal with H : forallb _ l = true |- _ => apply (proj1 (forallb_elem _ _) H) in Hx end.
      cbn [fst snd] in *. bool_inv. by apply (IHw (depth + 1)). }
    rewrite !(zsum_map_perm _ _ _ (canon_items_perm l)), !map_map. cbn [fst snd].
    rewrite (map_ext_in (λ kv, copy_nodes kv.1 + copy_nodes (canon kv.2)) (λ kv, copy_nodes kv.1 + copy_nodes kv.2) l),
      (map_ext_in (λ kv, copy_bytes kv.1 + copy_bytes (canon kv.2)) (λ kv, copy_bytes kv.1 + copy_bytes kv.2) l); [done|..];
      intros x Hx%list_elem_of_In; destruct (Hl x Hx) as [En Eb]; by rewrite ?En, ?Eb.
Qed.

Lemma effect_shape_json v depth : effect_shape depth v = true → dict_wf v = true → json_form v = true.
Proof.
  revert depth. induction v as [|b|z|f|s|l IH|l IH|l IH|] using pyval_nested_ind; intros depth Hs Hw; try done;
    cbn [effect_shape dict_wf json_form] in *; bool_inv; try done; rewrite Forall_forall in IH.
  - apply forallb_elem. intros x Hx. apply (IH x Hx (depth + 1)); by eapply forallb_elem.
  - apply andb_true_intro. split; [by apply bool_decide_eq_true|]. apply forallb_elem. intros [k w] Hx.
    destruct (IH _ Hx) as [_ IHw].
    repeat match goal with H : forallb _ l = true |- _ => apply (proj1 (forallb_elem _ _)) with (x := (k, w)) in H; [|exact Hx] end.
    cbn [fst snd] in *. bool_inv. destruct k; try done. cbn [effect_shape] in *. bool_inv.
    apply andb_true_intro. split; [done|]. by apply (IHw (depth + 1)).
Qed.

(** The text of a copied object is read back as its canonical form, which is copied again. *)
Lemma copied_text v w t :
  dict_wf v = true → json_copy v = Ok w → canonical_json w = Ok t →
  w = v ∧ json_form v = true ∧ json_copy (canon v) = Ok (canon v) ∧
  (∀ l, v = VDict l → read_text t = Ok (canon v)).
Proof.
  intros Hw (-> & Hs & Hn & Hb & text & Ht & Hsu & Hle)%json_copy_iff Ht'. assert (t = text) as -> by congruence.
  pose proof (effect_shape_json _ _ Hs Hw) as Hj. destruct (copy_costs_canon _ _ Hs) as [Hcn Hcb].
  assert (Hc : json_copy (canon v) = Ok (canon v)).
  { apply json_copy_iff. split; [done|]. split; [by apply effect_shape_canon|]. split; [lia|]. split; [lia|].
    exists text. by rewrite canonical_json_canon_eq. }
  split; [done|]. split; [done|]. split; [done|]. intros l ->. unfold read_text.
  rewrite (proj2 (bounded_utf8_length_spec text MAX_EFFECT_RECORD_BYTES _)) by (split; [reflexivity|]; by repeat split). cbn [res_bind].
  destruct (json_form_text _ Hj) as (t' & Ht'' & _ & Hl). assert (t' = text) as -> by congruence. rewrite Hl. cbn [res_bind].
  rewrite Hc. cbn [res_bind]. rewrite canon_dict. rewrite <- canon_dict, canonical_json_canon_eq, Ht. cbn [res_bind].
  by rewrite bool_decide_true.
Qed.

(** ** Fields of a record that was read back *)

Lemma res_map_total {A B} (f : A → res B) l : (∀ x, x ∈ l → ∃ y, f x = Ok y) → ∃ l', res_map f l = Ok l'.
Proof.
  induction l as [|x l IH]; intros H; [by exists []|]. destruct (H x) as [y Hy]; [left|].
  destruct IH as [l' Hl]; [intros z Hz; apply H; by right|]. exists (y :: l'). cbn [res_map]. by rewrite Hy, Hl.
Qed.

Lemma fields_canon kvs expected :
  json_form (obj kvs) = true → length kvs = length expected → forallb (λ kv, str_in (u kv.1) expected) kvs = true →
  ∃ l, fields (canon (obj kvs)) expected = Ok l ∧
    ∀ name, Snapshot.field l name = (let* w := subscript (obj kvs) name in Ok (canon w)).
Proof.
  intros Hj Hlen Hk. unfold obj in *. set (items := map (λ '(k, v), (VStr (u k), v)) kvs) in *.
  assert (Hkeys : ∀ kv, kv ∈ canon_items items → ∃ s, kv.1 = VStr s ∧ str_in s expected = true).
  { intros kv. rewrite canon_items_perm. intros (x & -> & Hx)%list_elem_of_fmap. cbn [fst].
    apply list_elem_of_fmap in Hx as ([k v] & -> & Hx). exists (u k). split; [done|].
    by apply (proj1 (forallb_elem _ _) Hk) in Hx. }
  destruct (res_map_total (λ kv : pyval * pyval, let* k := exact_str kv.1 in Ok (k, kv.2)) (canon_items items)) as [l Hl].
  { intros kv (s & Hs & _)%Hkeys. exists (s, kv.2). by rewrite Hs. }
  exists l. assert (Hf : fields (canon (VDict items)) expected = Ok l).
  { rewrite canon_dict. unfold fields. cbn [exact_dict res_bind]. rewrite length_canon_items.
    assert (length items = length expected) as -> by (unfold items; by rewrite length_map).
    rewrite Nat.eqb_refl. cbn [negb orb].
    assert (existsb (λ kv : pyval * pyval, negb (is_str_in kv.1 expected)) (canon_items items) = false) as ->; [|exact Hl].
    apply not_true_is_false. rewrite existsb_elem. intros (kv & (s & Hs & Hin)%Hkeys & Hn). rewrite Hs in Hn. cbn in Hn.
    by rewrite Hin in Hn. }
  split; [done|]. intros name. rewrite (fields_item _ _ _ _ Hf). by apply subscript_canon.
Qed.

(** A declared list of keys that its constructor has sorted. *)
Lemma unique_sorted_again l limit check keys :
  unique_sorted l limit check = Ok keys → unique_sorted keys limit check = Ok keys.
Proof.
  intros H. pose proof H as (-> & Hnd & Hlen & Hc)%unique_sorted_Ok. unfold unique_sorted in *.
  apply res_bind_Ok in H as (supplied & Hm & _).
  assert (Hl : limit_ok limit) by (unfold materialize, materialize_bounded_iterable in Hm; by apply res_bind_Ok in Hm as ([] & Hm & _)).
  rewrite materialize_list by done. rewrite (Permutation_length (sorted_perm l)).
  rewrite (proj2 (Z.leb_le _ _) Hlen). cbn [res_bind]. rewrite sorted_idem.
  rewrite (proj2 (has_duplicates_false (sorted l))) by by rewrite sorted_perm. cbn [raise_if res_bind].
  rewrite (proj2 (res_iter_Ok check (sorted l) tt)); [done|]. apply Forall_forall. intros x Hx. apply Hc. by rewrite <- sorted_elem.
Qed.

Lemma key_texts_strs l : key_texts (map VStr l) = Ok l.
Proof.
  unfold key_texts. assert (res_map exact_str (map VStr l) = Ok l) as ->; [|done].
  apply res_map_Ok. induction l; by constructor.
Qed.

Lemma keys_of_again l limit check keys :
  unique_sorted l limit check = Ok keys → keys_of limit check (strs_val keys) = Ok keys.
Proof.
  intros H%unique_sorted_again. unfold keys_of, strs_val. cbn [exact_list res_bind]. pose proof H as H'.
  unfold unique_sorted in H'. apply res_bind_Ok in H' as (supplied & Hm & _).
  assert (Hl : limit_ok limit) by (unfold materialize, materialize_bounded_iterable in Hm; by apply res_bind_Ok in Hm as ([] & Hm & _)).
  apply materialize_Ok in Hm as [_ Hlen]. rewrite materialize_list by done. rewrite length_map.
  rewrite (proj2 (Z.leb_le _ _) Hlen). cbn [res_bind]. rewrite key_texts_strs. cbn [res_bind]. by rewrite H.
Qed.

Lemma replay_member r : member replay_members replay_value (VStr (replay_value r)) = Ok r.
Proof. by destruct r. Qed.
Lemma decision_member s : member decision_members decision_value (VStr (decision_value s)) = Ok s.
Proof. by destruct s. Qed.
Lemma layer_member l : member layer_members layer_value (VStr (layer_value l)) = Ok l.
Proof. by destruct l. Qed.
Lemma reason_member r : member reason_members reason_value (VStr (reason_value r)) = Ok r.
Proof. by destruct r. Qed.
Lemma recovery_member r : member recovery_members recovery_value (VStr (recovery_value r)) = Ok r.
Proof. by destruct r. Qed.
Lemma outcome_member o : member effect_outcomes outcome_value (VStr (outcome_value o)) = Ok o.
Proof. by destruct o. Qed.

(** ** Capabilities *)

(** A capability as its constructor leaves it. *)
Definition made_capability (c : Capability) : Prop :=
  Capability.make (cap_name c) (cap_replay_safety c) (cap_description c) (cap_available c) (cap_contract_version c)
    (cap_required_state_keys c) (cap_semantic_argument_keys c) (cap_replay_evidence_id c) = Ok c.

Lemma capability_made n r d a v rk sk e c : Capability.make n r d a v rk sk e = Ok c → made_capability c.
Proof.
  unfold made_capability, Capability.make. intros H. apply res_bind_Ok in H as ([] & Hn & H).
  apply res_bind_Ok in H as ([] & Hd & H). apply res_bind_Ok in H as ([] & Hv & H).
  apply res_bind_Ok in H as (rk' & Hrk & H). apply res_bind_Ok in H as (sk' & Hsk & H). apply res_bind_Ok in H as ([] & He & [= <-]).
  cbn [cap_name cap_replay_safety cap_description cap_available cap_contract_version cap_required_state_keys cap_semantic_argument_keys cap_replay_evidence_id].
  rewrite Hn. cbn [res_bind]. rewrite Hd. cbn [res_bind]. rewrite Hv. cbn [res_bind].
  rewrite (unique_sorted_again _ _ _ _ Hrk). cbn [res_bind]. rewrite (unique_sorted_again _ _ _ _ Hsk). cbn [res_bind]. by rewrite He.
Qed.

Lemma canon_option o : canon (opt_val VStr o) = opt_val VStr o.
Proof. by destruct o. Qed.

(** The field of a record that was read back, by its literal. *)
Ltac read_field Hl l name v :=
  let F := fresh "F" in
  assert (F : Snapshot.field l name = Ok v);
    [rewrite Hl; first [reflexivity | transitivity (Ok (canon v)); [reflexivity|by rewrite ?canon_strs, ?canon_option]]
    |unfold read at 1; rewrite F; cbn [res_bind]; clear F].

Lemma optional_again {A} (check : pyval → res A) (f : A → pystr) o :
  (∀ a, o = Some a → check (VStr (f a)) = Ok a) → optional_value check (opt_val (λ a, VStr (f a)) o) = Ok o.
Proof. destruct o as [a|]; [|done]. intros H. cbn [opt_val optional_value]. by rewrite (H a eq_refl). Qed.

Lemma declared_optional_id o : (∀ i, o = Some i → require_fingerprint i = Ok tt) → optional_value id_value (opt_val VStr o) = Ok o.
Proof. intros H. apply (optional_again id_value (λ s, s)). intros a Ha. cbn. by rewrite (H a Ha). Qed.

Lemma capability_reads c r l :
  made_capability c → Capability.canonical_record c = Ok r →
  (∀ name, Snapshot.field l name = (let* w := subscript r name in Ok (canon w))) → capability_of l = Ok c.
Proof.
  unfold Capability.canonical_record. intros Hm Hr Hl. apply res_bind_Ok in Hr as (i & Hi & [= <-]).
  pose proof Hm as H. unfold made_capability, Capability.make in H.
  apply res_bind_Ok in H as ([] & Hn & H). apply res_bind_Ok in H as ([] & Hd & H). apply res_bind_Ok in H as ([] & Hv & H).
  apply res_bind_Ok in H as (rk & Hrk & H). apply res_bind_Ok in H as (sk & Hsk & H). apply res_bind_Ok in H as ([] & He & H).
  assert (rk = cap_required_state_keys c ∧ sk = cap_semantic_argument_keys c) as [-> ->] by (by destruct c; injection H).
  unfold capability_of.
  read_field Hl l "replay_safety"%string (VStr (replay_value (cap_replay_safety c))). rewrite replay_member. cbn [res_bind].
  read_field Hl l "name"%string (VStr (cap_name c)). cbn [require_symbol_value]. rewrite Hn. cbn [res_bind].
  read_field Hl l "description"%string (VStr (cap_description c)). cbn [text_value]. rewrite Hd. cbn [res_bind].
  read_field Hl l "available"%string (VBool (cap_available c)). cbn [require_bool res_bind].
  read_field Hl l "contract_version"%string (VInt (cap_contract_version c)). cbn [positive_value]. rewrite Hv. cbn [res_bind].
  read_field Hl l "required_state_keys"%string (strs_val (cap_required_state_keys c)). rewrite (keys_of_again _ _ _ _ Hrk). cbn [res_bind].
  read_field Hl l "semantic_argument_keys"%string (strs_val (cap_semantic_argument_keys c)). rewrite (keys_of_again _ _ _ _ Hsk). cbn [res_bind].
  read_field Hl l "replay_evidence_id"%string (opt_val VStr (cap_replay_evidence_id c)). rewrite declared_optional_id; [exact Hm|].
  intros j Hj. rewrite Hj in He. case_decide; [exact He|discriminate He].
Qed.

(** ** Decisions *)

Lemma recoveries_again l :
  res_map (member recovery_members recovery_value) (map VStr (map recovery_value l)) = Ok l.
Proof. apply res_map_Ok. induction l as [|r l IH]; constructor; [apply recovery_member|exact IH]. Qed.

Lemma decision_reads d l :
  AdmissionDecision.make d = Ok d →
  (∀ name, Snapshot.field l name = (let* w := subscript (AdmissionDecision.canonical_record d) name in Ok (canon w))) →
  decision_of l = Ok d.
Proof.
  intros Hm Hl. pose proof Hm as H. unfold AdmissionDecision.make in H.
  apply res_bind_Ok in H as ([] & Hi & H). apply res_bind_Ok in H as ([] & Hk & H). apply res_bind_Ok in H as ([] & Ht & H).
  apply res_bind_Ok in H as ([] & Ha & H). apply res_bind_Ok in H as ([] & He & H).
  apply res_bind_Ok in H as (rs & Hrs & H). apply res_bind_Ok in H as (bl & Hbl & H). apply res_bind_Ok in H as (dk & Hdk & H).
  apply res_bind_Ok in H as (un & Hun & H). apply res_bind_Ok in H as (iv & Hiv & H). apply res_bind_Ok in H as ([] & _ & H).
  assert (bl = ad_blocking_obligation_ids d ∧ dk = ad_dependency_state_keys d ∧ un = ad_unresolved_state_keys d ∧
          iv = ad_invariant_ids d) as (-> & -> & -> & ->) by (by destruct d; injection H).
  clear H. unfold decision_of.
  read_field Hl l "status"%string (VStr (decision_value (ad_status d))). rewrite decision_member. cbn [res_bind].
  read_field Hl l "authority_layer"%string (VStr (layer_value (ad_authority_layer d))). rewrite layer_member. cbn [res_bind].
  assert (Hreason : Snapshot.field l "rejection_reason" = Ok (opt_val (λ r, VStr (reason_value r)) (ad_rejection_reason d))).
  { rewrite Hl. transitivity (Ok (canon (opt_val (λ r, VStr (reason_value r)) (ad_rejection_reason d)))); [reflexivity|].
    by destruct (ad_rejection_reason d). }
  unfold read at 1. rewrite Hreason. cbn [res_bind]. rewrite (optional_again _ reason_value) by (intros; apply reason_member). cbn [res_bind].
  read_field Hl l "recovery_actions"%string (strs_val (map recovery_value (ad_recovery_actions d))).
  unfold strs_val at 1. cbn [exact_list res_bind]. rewrite recoveries_again. cbn [res_bind].
  read_field Hl l "proposal_id"%string (VStr (ad_proposal_id d)). unfold id_value at 1. cbn [ProgressCounterEvidence.require_fingerprint_value]. rewrite Hi. cbn [res_bind].
  read_field Hl l "proposal_key"%string (VStr (ad_proposal_key d)). cbn [require_symbol_value]. rewrite Hk. cbn [res_bind].
  read_field Hl l "logical_tick"%string (VInt (ad_logical_tick d)). cbn [nonnegative_value]. rewrite Ht. cbn [res_bind].
  read_field Hl l "action_id"%string (opt_val VStr (ad_action_id d)). rewrite declared_optional_id; [cbn [res_bind]|by intros i Hi'; rewrite Hi' in Ha].
  read_field Hl l "equivalent_proposal_id"%string (opt_val VStr (ad_equivalent_proposal_id d)).
  rewrite declared_optional_id; [cbn [res_bind]|by intros i Hi'; rewrite Hi' in He].
  rewrite Hrs. cbn [res_bind].
  read_field Hl l "blocking_obligation_ids"%string (strs_val (ad_blocking_obligation_ids d)). rewrite (keys_of_again _ _ _ _ Hbl). cbn [res_bind].
  read_field Hl l "dependency_state_keys"%string (strs_val (ad_dependency_state_keys d)). rewrite (keys_of_again _ _ _ _ Hdk). cbn [res_bind].
  read_field Hl l "unresolved_state_keys"%string (strs_val (ad_unresolved_state_keys d)). rewrite (keys_of_again _ _ _ _ Hun). cbn [res_bind].
  read_field Hl l "invariant_ids"%string (strs_val (ad_invariant_ids d)). rewrite (keys_of_again _ _ _ _ Hiv). cbn [res_bind].
  by destruct d.
Qed.

(** ** Proposals *)

(** The proposal without its metadata, which no record holds. *)
Definition plain (p : ActionProposal) : ActionProposal := {|
  ap_proposal_key := ap_proposal_key p; ap_capability := ap_capability p;
  ap_target_obligation_ids := ap_target_obligation_ids p; ap_required_state_keys := ap_required_state_keys p;
  ap_occurrence_key := ap_occurrence_key p; ap_arguments := ap_arguments p; ap_observational_metadata := None |}.

(** A proposal as its constructor leaves it, with its arguments. *)
Record made_proposal (p : ActionProposal) (arguments : pyval) : Prop := {
  mp_arguments : ActionProposal.arguments p = Ok arguments;
  mp_normal : canon arguments = arguments;
  mp_value : CanonicalValue.from_value arguments = Ok (ap_arguments p);
  mp_make : ActionProposal.make (ap_proposal_key p) (ap_capability p) arguments (ap_target_obligation_ids p)
    (ap_required_state_keys p) (ap_occurrence_key p) None = Ok (plain p)
}.

Lemma from_value_canon v cv : CanonicalValue.from_value v = Ok cv → CanonicalValue.from_value (canon v) = Ok cv.
Proof.
  intros [Ha Ht]%from_value_iff. apply from_value_iff. split; [by apply admissible_canon|]. by rewrite canonical_json_canon_eq.
Qed.

Lemma proposal_made k cap args t rk occ meta p :
  ActionProposal.make k cap args t rk occ meta = Ok p → made_proposal p (canon args).
Proof.
  unfold ActionProposal.make. intros H. apply res_bind_Ok in H as ([] & Hk & H). apply res_bind_Ok in H as ([] & Hc & H).
  apply res_bind_Ok in H as (sup & Hs & H). apply res_bind_Ok in H as ([] & Hne & H). apply res_bind_Ok in H as ([] & Hnd & H).
  apply res_bind_Ok in H as ([] & Hf & H). apply res_bind_Ok in H as (keys & Hkeys & H). apply res_bind_Ok in H as ([] & Ho & H).
  apply res_bind_Ok in H as (cv & Hcv & H). apply res_bind_Ok in H as (m & _ & [= <-]). constructor.
  - exact (from_value_to_value _ _ Hcv).
  - apply canon_idem_admissible. by apply from_value_iff in Hcv as [Ha _].
  - exact (from_value_canon _ _ Hcv).
  - unfold ActionProposal.make, plain.
    cbn [ap_proposal_key ap_capability ap_target_obligation_ids ap_required_state_keys ap_occurrence_key ap_arguments ap_observational_metadata].
    rewrite Hk. cbn [res_bind]. rewrite Hc. cbn [res_bind].
    assert (materialize (sorted sup) MAX_OBLIGATIONS = Ok (sorted sup)) as ->.
    { apply materialize_Ok in Hs as [-> Hlen]. rewrite materialize_list by done.
      by rewrite (Permutation_length (sorted_perm t)), (proj2 (Z.leb_le _ _) Hlen). }
    cbn [res_bind]. rewrite sorted_idem, Hne. cbn [res_bind]. rewrite Hnd. cbn [res_bind]. rewrite Hf. cbn [res_bind].
    rewrite (unique_sorted_again _ _ _ _ Hkeys). cbn [res_bind]. rewrite Ho. cbn [res_bind].
    rewrite (from_value_canon _ _ Hcv). reflexivity.
Qed.

Lemma proposal_reads p arguments r l :
  made_proposal p arguments → ActionProposal.canonical_record p = Ok r →
  (∀ name, Snapshot.field l name = (let* w := subscript r name in Ok (canon w))) → proposal_of l = Ok (plain p).
Proof.
  unfold ActionProposal.canonical_record. intros [Ha Hn _ Hm] Hr Hl. rewrite Ha in Hr. injection Hr as <-.
  pose proof Hm as H. unfold ActionProposal.make in H.
  apply res_bind_Ok in H as ([] & Hk & H). apply res_bind_Ok in H as ([] & Hc & H).
  apply res_bind_Ok in H as (sup & Hs & H). apply res_bind_Ok in H as ([] & Hne & H). apply res_bind_Ok in H as ([] & Hnd & H).
  apply res_bind_Ok in H as ([] & Hf & H). apply res_bind_Ok in H as (keys & Hkeys & H). apply res_bind_Ok in H as ([] & Ho & H).
  apply res_bind_Ok in H as (cv & Hcv & H). apply res_bind_Ok in H as (m & _ & H).
  assert (Ht : unique_sorted (ap_target_obligation_ids p) MAX_OBLIGATIONS require_fingerprint = Ok (ap_target_obligation_ids p)).
  { assert (ap_target_obligation_ids p = sorted sup) as E by (by injection H). unfold unique_sorted. rewrite Hs. cbn [res_bind].
    rewrite Hnd. cbn [res_bind]. rewrite Hf. cbn [res_bind]. by rewrite E. }
  assert (keys = ap_required_state_keys p) as -> by (by injection H). unfold proposal_of.
  read_field Hl l "proposal_key"%string (VStr (ap_proposal_key p)). cbn [require_symbol_value]. rewrite Hk. cbn [res_bind].
  read_field Hl l "capability"%string (VStr (ap_capability p)). cbn [require_symbol_value]. rewrite Hc. cbn [res_bind].
  read_field Hl l "target_obligation_ids"%string (strs_val (ap_target_obligation_ids p)). rewrite (keys_of_again _ _ _ _ Ht). cbn [res_bind].
  read_field Hl l "required_state_keys"%string (strs_val (ap_required_state_keys p)). rewrite (keys_of_again _ _ _ _ Hkeys). cbn [res_bind].
  read_field Hl l "occurrence_key"%string (opt_val VStr (ap_occurrence_key p)).
  rewrite (optional_again require_symbol_value (λ s, s)); [cbn [res_bind]|].
  2:{ intros s Hs'. cbn [require_symbol_value]. rewrite Hs' in Ho. by rewrite Ho. }
  assert (Snapshot.field l "arguments" = Ok arguments) as ->; [|exact Hm].
  rewrite Hl. transitivity (Ok (canon arguments)); [reflexivity|]. by rewrite Hn.
Qed.

(** ** The graph of a rebuilt proposal *)

Definition fits_text (s : pystr) : Prop := ∃ n, bounded_utf8_length s MAX_EFFECT_RECORD_BYTES = Ok n.

Lemma visit_text depth r s : depth <= 24 → 0 < r → fits_text s → visit depth r (IText s) = Ok (r - 1).
Proof.
  intros Hd Hr [n Hn]. cbn [visit]. replace (r - 1 <? 0) with false by lia. replace (24 <? depth) with false by lia.
  cbn [orb raise_if res_bind]. by rewrite Hn.
Qed.

Lemma visit_atom depth r : depth <= 24 → 0 < r → visit depth r IAtom = Ok (r - 1).
Proof. intros Hd Hr. cbn [visit]. replace (r - 1 <? 0) with false by lia. by replace (24 <? depth) with false by lia. Qed.

Lemma visit_option depth r o :
  depth <= 24 → 0 < r → (∀ s, o = Some s → fits_text s) → visit depth r (inert_option IText o) = Ok (r - 1).
Proof. intros Hd Hr Ho. destruct o as [s|]; [apply visit_text; auto|by apply visit_atom]. Qed.

Lemma visit_texts depth r l :
  depth < 24 → Z.of_nat (length l) < r → Z.of_nat (length l) <= 1024 → Forall fits_text l →
  visit depth r (inert_texts l) = Ok (r - 1 - Z.of_nat (length l)).
Proof.
  intros Hd Hr Hl Hf. unfold inert_texts. cbn [visit]. replace (r - 1 <? 0) with false by lia. replace (24 <? depth) with false by lia.
  cbn [orb raise_if res_bind]. rewrite length_map. replace (1024 <? Z.of_nat (length l)) with false by lia. cbn [raise_if res_bind].
  clear Hl. revert r Hr. induction Hf as [|s l Hs Hf IH]; intros r Hr; [cbn [map length]; f_equal; lia|].
  cbn [map length]. cbn [length] in Hr. rewrite visit_text by (done || lia). cbn [res_bind].
  rewrite (IH (r - 1)) by lia. f_equal. lia.
Qed.

Lemma short_fits s : no_surrogate s = true → utf8_length s <= MAX_EFFECT_RECORD_BYTES → fits_text s.
Proof. intros Hn Hl. exists (utf8_length s). apply bounded_utf8_length_spec. by repeat split. Qed.

Lemma symbol_fits s : require_symbol s = Ok tt → fits_text s.
Proof. intros (Hn & Hl & _)%raise_if_Ok%negb_false_iff%symbol_short. apply short_fits; [done|]. unfold MAX_EFFECT_RECORD_BYTES. lia. Qed.

Lemma id_fits s : require_fingerprint s = Ok tt → fits_text s.
Proof.
  intros H. apply require_fingerprint_Ok in H. apply short_fits; [|rewrite (fingerprint_length _ H); done].
  apply fingerprint_clean, H.
Qed.

(** The items of a tuple or a record, one after another. *)
Fixpoint visit_all (depth remaining : Z) (l : list inert) : res Z :=
  match l with
  | [] => Ok remaining
  | child :: rest => let* remaining := visit depth remaining child in visit_all depth remaining rest
  end.

Lemma visit_record depth r l : depth <= 24 → 0 < r → visit depth r (IRecord l) = visit_all (depth + 1) (r - 1) l.
Proof.
  intros Hd Hr. cbn [visit]. replace (r - 1 <? 0) with false by lia. replace (24 <? depth) with false by lia.
  cbn [orb raise_if res_bind]. generalize (r - 1). clear Hr. induction l as [|x l IH]; intros z; [done|].
  cbn [visit_all]. destruct (visit (depth + 1) z x); [apply IH|done].
Qed.

Lemma visit_next depth r x l r' : visit depth r x = Ok r' → visit_all depth r (x :: l) = visit_all depth r' l.
Proof. intros H. cbn [visit_all]. by rewrite H. Qed.

Lemma value_fits v cv : CanonicalValue.from_value v = Ok cv → fits_text (cv_text cv).
Proof.
  intros [Ha Ht]%from_value_iff. destruct (admissible_text _ _ Ha) as (t & Ht' & Hn & Hu & _).
  assert (t = cv_text cv) as -> by congruence. apply short_fits; [done|]. destruct Ha as (_ & _ & Hb).
  rewrite Hu. unfold MAX_EFFECT_RECORD_BYTES. cbn in Hb. unfold MAX_CANONICAL_VALUE_BYTES in Hb. lia.
Qed.

Lemma unique_sorted_fits l limit check keys :
  (∀ s, check s = Ok tt → fits_text s) → unique_sorted l limit check = Ok keys →
  Forall fits_text keys ∧ Z.of_nat (length keys) <= limit.
Proof.
  intros Hc (-> & _ & Hl & Hk)%unique_sorted_Ok. split; [|by rewrite (Permutation_length (sorted_perm l))].
  apply Forall_forall. intros s Hs. apply Hc, Hk. by rewrite <- sorted_elem.
Qed.

Lemma plain_inert p arguments : made_proposal p arguments → inert_record (inert_proposal (plain p)) = Ok tt.
Proof.
  intros [_ _ _ H]. unfold ActionProposal.make in H.
  apply res_bind_Ok in H as ([] & Hk & H). apply res_bind_Ok in H as ([] & Hc & H).
  apply res_bind_Ok in H as (sup & [-> Hlen]%materialize_Ok & H). apply res_bind_Ok in H as ([] & _ & H). apply res_bind_Ok in H as ([] & _ & H).
  apply res_bind_Ok in H as ([] & Hf%res_iter_Ok & H). apply res_bind_Ok in H as (keys & Hkeys & H). apply res_bind_Ok in H as ([] & Ho & H).
  apply res_bind_Ok in H as (cv & Hcv%value_fits & H). apply res_bind_Ok in H as (m & _ & H).
  assert (E1 : ap_target_obligation_ids p = sorted (ap_target_obligation_ids p)) by (by injection H).
  assert (E2 : ap_required_state_keys p = keys) by (by injection H). assert (E3 : ap_arguments p = cv) by (by injection H).
  apply (unique_sorted_fits _ _ _ _ symbol_fits) in Hkeys as [Hkf Hkl].
  rewrite <- E1 in Hf. assert (Hft : Forall fits_text (ap_target_obligation_ids p)) by (eapply Forall_impl; [exact Hf|exact id_fits]).
  unfold inert_record. set (k := Z.of_nat (length keys)) in *. set (t := Z.of_nat (length (ap_target_obligation_ids p))) in *.
  change MAX_STATE_KEYS_PER_DECLARATION with 128 in Hkl. change MAX_OBLIGATIONS with 128 in Hlen.
  enough (visit 0 65536 (inert_proposal (plain p)) = Ok (65527 - t - k)) as -> by done.
  unfold inert_proposal, plain, inert_value.
  cbn [ap_proposal_key ap_capability ap_target_obligation_ids ap_required_state_keys ap_occurrence_key ap_arguments ap_observational_metadata].
  rewrite E2, E3, visit_record by lia. change (0 + 1) with 1. change (65536 - 1) with 65535.
  erewrite visit_next by (apply visit_text; [lia..|by apply symbol_fits]).
  erewrite visit_next by (apply visit_text; [lia..|by apply symbol_fits]).
  erewrite visit_next by (apply visit_texts; [lia..|exact Hft]). fold t.
  erewrite visit_next by (apply visit_texts; [lia..|exact Hkf]). fold k.
  erewrite visit_next by (apply visit_option; [lia..|intros s Hs; rewrite Hs in Ho; by apply symbol_fits]).
  cbn [visit_all inert_option]. rewrite visit_record by lia. cbn [visit_all]. rewrite visit_text by (done || lia).
  cbn [res_bind]. rewrite visit_atom by lia. cbn [res_bind]. f_equal. lia.
Qed.

(** ** Entries *)

Lemma py_equal_flag a b : py_equal (VBool a) (VBool b) = true → a = b.
Proof. by destruct a, b. Qed.

(** A validated copy of a capability is the capability. *)
Lemma capability_copy_id c0 c : validated_capability_copy c0 = Ok c → c = c0 ∧ made_capability c.
Proof.
  unfold validated_capability_copy. intros H. apply res_bind_Ok in H as (v & Hv & H). apply capability_made in Hv.
  apply res_bind_Ok in H as (own & Hown & H). apply res_bind_Ok in H as (record & Hrec & H).
  apply res_bind_Ok in H as ([] & He%raise_if_Ok%negb_false_iff & [= <-]). split; [|exact Hv].
  unfold Capability.canonical_record in Hown, Hrec. apply res_bind_Ok in Hown as (i1 & _ & [= <-]).
  apply res_bind_Ok in Hrec as (i2 & _ & [= <-]).
  equal_field He "available"%string. equal_field He "contract_version"%string. equal_field He "description"%string.
  equal_field He "name"%string. equal_field He "replay_evidence_id"%string. equal_field He "replay_safety"%string.
  equal_field He "required_state_keys"%string. equal_field He "semantic_argument_keys"%string.
  apply py_equal_flag in F. apply py_equal_int in F0. apply py_equal_text in F1, F2, F4. apply py_equal_opt in F3.
  apply py_equal_texts in F5, F6. apply replay_value_inj in F4. clear He Hv. destruct c0, v; cbn in *; by subst.
Qed.

Lemma proposal_copy_made p0 p : validated_action_proposal_copy p0 = Ok p → ∃ arguments, made_proposal p arguments.
Proof.
  unfold validated_action_proposal_copy. intros H. apply res_bind_Ok in H as (a & Ha & H). apply res_bind_Ok in H as (m & Hm & H).
  apply res_bind_Ok in H as (v & Hv%proposal_made & H). do 2 (apply res_bind_Ok in H as (? & _ & H)).
  apply res_bind_Ok in H as (? & _ & [= <-]). by eexists.
Qed.

Lemma texts_comparable l : comparable (strs_val l) = true.
Proof. cbn [strs_val comparable]. rewrite forallb_map. by apply forallb_elem. Qed.

Lemma option_comparable o : comparable (opt_val VStr o) = true.
Proof. by destruct o. Qed.

Lemma plain_copy p arguments : made_proposal p arguments → validated_action_proposal_copy (plain p) = Ok (plain p).
Proof.
  intros [Ha Hn Hcv Hm]. unfold validated_action_proposal_copy.
  change (ActionProposal.arguments (plain p)) with (ActionProposal.arguments p). rewrite Ha. cbn [res_bind].
  unfold ActionProposal.observational_metadata at 1. cbn [plain ap_observational_metadata res_bind].
  change (ActionProposal.make _ _ _ _ _ _ _) with (ActionProposal.make (ap_proposal_key p) (ap_capability p) arguments
    (ap_target_obligation_ids p) (ap_required_state_keys p) (ap_occurrence_key p) None). rewrite Hm. cbn [res_bind].
  unfold ActionProposal.agent_record. change (ActionProposal.arguments (plain p)) with (ActionProposal.arguments p). rewrite Ha.
  cbn [res_bind ActionProposal.observational_metadata plain ap_observational_metadata]. unfold require_same_record.
  apply from_value_iff in Hcv as [[Hs _] _]. pose proof (shape_ok_wf _ _ _ Hs) as Hwf. pose proof (shape_ok_comparable _ _ _ Hs) as Hcmp.
  rewrite py_equal_refl; [done|..].
  - unfold ActionProposal.record_fields. cbn [app]. wf_obj. rewrite Hwf. cbn [plain ap_occurrence_key]. by destruct (ap_occurrence_key p).
  - unfold ActionProposal.record_fields. cbn [app obj map comparable forallb fst snd plain ap_occurrence_key].
    rewrite Hcmp, !texts_comparable, option_comparable. done.
Qed.

(** The record of an entry. *)
Definition entry_val (capability proposal : pyval) (decision : AdmissionDecision) (dependency : pystr)
    (outcomes : list SyntheticEffectOutcome) : pyval :=
  obj [("capability", capability); ("proposal", proposal); ("admission_decision", AdmissionDecision.canonical_record decision);
       ("dependency_state_id", VStr dependency); ("outcomes", outcomes_val outcomes)]%string.

Lemma decision_copy_again d0 d :
  validated_admission_decision_copy d0 = Ok d → d = d0 ∧ AdmissionDecision.make d = Ok d.
Proof.
  intros H. pose proof (decision_copy_id _ _ H) as ->. split; [done|]. unfold validated_admission_decision_copy in H.
  apply res_bind_Ok in H as (v & Hv & H). apply res_bind_Ok in H as (? & _ & [= ->]). exact Hv.
Qed.

(** What a made entry was made of, and that it is made again of its own records. *)
Lemma entry_parts c0 p0 d0 depv outcomes e :
  EffectEntry.make c0 p0 d0 depv outcomes = Ok e →
  ∃ c p d a dep capr propr,
    made_capability c ∧ made_proposal p a ∧ AdmissionDecision.make d = Ok d ∧
    Capability.canonical_record c = Ok capr ∧ ActionProposal.canonical_record p = Ok propr ∧
    EffectEntry.make c (plain p) d (VStr dep) outcomes = Ok e ∧
    json_copy (entry_val capr propr d dep outcomes) = Ok (entry_val capr propr d dep outcomes) ∧
    canonical_json (entry_val capr propr d dep outcomes) = Ok (ee_text e).
Proof.
  intros H. unfold EffectEntry.make in H. apply res_bind_Ok in H as ([] & Hic & H). apply res_bind_Ok in H as ([] & _ & H).
  apply res_bind_Ok in H as ([] & Hid & H). apply res_bind_Ok in H as (c & Hc & H). apply res_bind_Ok in H as (p & Hp & H).
  apply res_bind_Ok in H as (d & Hd & H). apply res_bind_Ok in H as (dep & Hdep & H).
  apply res_bind_Ok in H as ([] & H1 & H). apply res_bind_Ok in H as ([] & H2 & H). apply res_bind_Ok in H as ([] & H3 & H).
  apply res_bind_Ok in H as (occ & H4 & H). apply res_bind_Ok in H as ([] & H5 & H). apply res_bind_Ok in H as (own & H6 & H).
  apply res_bind_Ok in H as (args & H7 & H). apply res_bind_Ok in H as ([] & H8 & H). apply res_bind_Ok in H as ([] & H9 & H).
  apply res_bind_Ok in H as (cid & H10 & H). apply res_bind_Ok in H as (act & H11 & H). apply res_bind_Ok in H as ([] & H12 & H).
  apply res_bind_Ok in H as (capr & H13 & H). apply res_bind_Ok in H as (propr & H14 & H). apply res_bind_Ok in H as (rec & H15 & H).
  apply res_bind_Ok in H as (text & H16 & [= <-]).
  destruct (capability_copy_id _ _ Hc) as [<- Hmc]. destruct (proposal_copy_made _ _ Hp) as [a Hmp].
  destruct (decision_copy_again _ _ Hd) as [<- Hmd].
  exists c, p, d, a, dep, capr, propr. split; [exact Hmc|]. split; [exact Hmp|]. split; [exact Hmd|]. split; [exact H13|]. split; [exact H14|].
  pose proof H15 as (-> & _)%json_copy_iff. split; [|split; [exact H15|exact H16]].
  unfold EffectEntry.make. rewrite Hic. cbn [res_bind]. rewrite (plain_inert _ _ Hmp). cbn [res_bind]. rewrite Hid. cbn [res_bind].
  rewrite Hc. cbn [res_bind]. rewrite (plain_copy _ _ Hmp). cbn [res_bind]. rewrite Hd. cbn [res_bind].
  apply identity_Ok in Hdep as [_ Hdep]. rewrite (proj2 (identity_Ok (VStr dep) dep)) by done. cbn [res_bind].
  rewrite H1. cbn [res_bind]. rewrite H2. cbn [res_bind]. rewrite H3. cbn [res_bind].
  cbn [plain ap_occurrence_key]. rewrite H4. cbn [res_bind].
  change (EffectEntry.check_binding c (plain p) d) with (EffectEntry.check_binding c p d). rewrite H5. cbn [res_bind].
  change (ActionProposal.arguments (plain p)) with (ActionProposal.arguments p). rewrite H6. cbn [res_bind].
  rewrite H7. cbn [res_bind]. rewrite H8. cbn [res_bind]. rewrite H9. cbn [res_bind]. rewrite H10. cbn [res_bind].
  rewrite H11. cbn [res_bind]. rewrite H12. cbn [res_bind]. rewrite H13. cbn [res_bind].
  change (ActionProposal.canonical_record (plain p)) with (ActionProposal.canonical_record p). rewrite H14. cbn [res_bind].
  rewrite H15. cbn [res_bind]. by rewrite H16.
Qed.

Lemma list_fields l names :
  Forall (λ name, ∃ items, Snapshot.field l name = Ok (VList items)) names →
  res_iter (λ name, let* _ := read l name exact_list in Ok tt) names = Ok tt.
Proof.
  intros H. apply res_iter_Ok. eapply Forall_impl; [exact H|]. intros name [items Hi]. unfold read. rewrite Hi. done.
Qed.

Lemma outcomes_canon l : canon (outcomes_val l) = outcomes_val l.
Proof. unfold outcomes_val. cbn [canon]. by rewrite map_map. Qed.

Lemma entry_val_wf c p d a dep outcomes capr propr :
  made_proposal p a → Capability.canonical_record c = Ok capr → ActionProposal.canonical_record p = Ok propr →
  dict_wf (entry_val capr propr d dep outcomes) = true.
Proof.
  intros [Ha _ Hcv _] Hc Hp. apply from_value_iff in Hcv as [[Hs _] _]. apply shape_ok_wf in Hs.
  unfold Capability.canonical_record in Hc. apply res_bind_Ok in Hc as (i & _ & [= <-]).
  unfold ActionProposal.canonical_record in Hp. rewrite Ha in Hp. injection Hp as <-.
  assert (H1 : dict_wf (obj (ActionProposal.record_fields p a)) = true).
  { unfold ActionProposal.record_fields. wf_obj. rewrite Hs. by destruct (ap_occurrence_key p). }
  assert (H2 : dict_wf (AdmissionDecision.canonical_record d) = true).
  { unfold AdmissionDecision.canonical_record. wf_obj. by destruct (ad_action_id d), (ad_equivalent_proposal_id d), (ad_rejection_reason d). }
  match goal with |- dict_wf (entry_val ?x _ _ _ _) = _ => assert (H3 : dict_wf x = true) end.
  { wf_obj. by destruct (cap_replay_evidence_id c). }
  unfold entry_val. wf_obj. rewrite H1, H2, H3. unfold outcomes_val. cbn [dict_wf]. rewrite forallb_map.
  by rewrite (proj2 (forallb_elem _ _)).
Qed.

(** A made entry is read back as itself. *)
Lemma entry_reads c0 p0 d0 depv outcomes e :
  EffectEntry.make c0 p0 d0 depv outcomes = Ok e →
  ∃ record, read_text (ee_text e) = Ok record ∧ entry_from_record record = Ok e ∧ json_copy record = Ok record ∧
    json_form record = true ∧ canon record = record.
Proof.
  intros (c & p & d & a & dep & capr & propr & Hc & Hp & Hd & Hcr & Hpr & Hm & Hcopy & Ht)%entry_parts.
  pose proof (entry_val_wf _ _ d _ dep outcomes _ _ Hp Hcr Hpr) as Hwf.
  destruct (copied_text _ _ _ Hwf Hcopy Ht) as (_ & Hj & Hcc & Hread). unfold obj in Hread.
  exists (canon (entry_val capr propr d dep outcomes)). pose proof (Hread _ eq_refl) as Hr.
  split; [exact Hr|]. split; [|split; [exact Hcc|split; [by apply json_form_canon|by apply canon_idem_json]]].
  assert (Hjc : json_form capr = true) by exact (subscript_json _ "capability" _ Hj eq_refl).
  assert (Hjp : json_form propr = true) by exact (subscript_json _ "proposal" _ Hj eq_refl).
  assert (Hjd : json_form (AdmissionDecision.canonical_record d) = true) by exact (subscript_json _ "admission_decision" _ Hj eq_refl).
  unfold entry_from_record. destruct (fields_canon _ ENTRY_FIELDS Hj eq_refl eq_refl) as (l & Hf & Hl).
  fold (entry_val capr propr d dep outcomes) in Hf, Hl. rewrite Hf. cbn [res_bind].
  assert (Hfc : ∃ lc, fields (canon capr) CAPABILITY_FIELDS = Ok lc ∧
    ∀ name, Snapshot.field lc name = (let* w := subscript capr name in Ok (canon w))).
  { pose proof Hcr as Hcr'. unfold Capability.canonical_record in Hcr'. apply res_bind_Ok in Hcr' as (i & _ & [= <-]).
    by apply fields_canon. }
  assert (Hfp : ∃ lp, fields (canon propr) PROPOSAL_FIELDS = Ok lp ∧
    ∀ name, Snapshot.field lp name = (let* w := subscript propr name in Ok (canon w))).
  { pose proof Hpr as Hpr'. unfold ActionProposal.canonical_record in Hpr'. apply res_bind_Ok in Hpr' as (v & _ & [= <-]).
    by apply fields_canon. }
  assert (Hfd : ∃ ld, fields (canon (AdmissionDecision.canonical_record d)) DECISION_FIELDS = Ok ld ∧
    ∀ name, Snapshot.field ld name = (let* w := subscript (AdmissionDecision.canonical_record d) name in Ok (canon w))).
  { by apply fields_canon. }
  destruct Hfc as (lc & Hfc & Hlc), Hfp as (lp & Hfp & Hlp), Hfd as (ld & Hfd & Hld).
  read_field Hl l "capability"%string (canon capr). rewrite Hfc. cbn [res_bind].
  read_field Hl l "proposal"%string (canon propr). rewrite Hfp. cbn [res_bind].
  read_field Hl l "admission_decision"%string (canon (AdmissionDecision.canonical_record d)). rewrite Hfd. cbn [res_bind].
  rewrite list_fields.
  2:{ pose proof Hcr as Hcr'. unfold Capability.canonical_record in Hcr'. apply res_bind_Ok in Hcr' as (i & _ & [= <-]).
      repeat constructor; eexists; rewrite Hlc; reflexivity. }
  cbn [res_bind]. rewrite list_fields.
  2:{ pose proof Hpr as Hpr'. unfold ActionProposal.canonical_record in Hpr'. apply res_bind_Ok in Hpr' as (v & _ & [= <-]).
      repeat constructor; eexists; rewrite Hlp; reflexivity. }
  cbn [res_bind]. rewrite list_fields by (repeat constructor; eexists; rewrite Hld; reflexivity). cbn [res_bind].
  assert (Ho : Snapshot.field l "outcomes" = Ok (outcomes_val outcomes)).
  { rewrite Hl. transitivity (Ok (canon (outcomes_val outcomes))); [reflexivity|]. by rewrite outcomes_canon. }
  unfold read at 1. rewrite Ho. unfold outcomes_val at 1. cbn [res_bind exact_list].
  rewrite (capability_reads _ _ _ Hc Hcr Hlc). cbn [res_bind]. rewrite (proposal_reads _ _ _ _ Hp Hpr Hlp). cbn [res_bind].
  rewrite (decision_reads _ _ Hd Hld). cbn [res_bind].
  assert (Snapshot.field l "dependency_state_id" = Ok (VStr dep)) as -> by (rewrite Hl; reflexivity). cbn [res_bind].
  assert (res_map (member effect_outcomes outcome_value) (map (λ o, VStr (outcome_value o)) outcomes) = Ok outcomes) as ->.
  { apply res_map_Ok. clear. induction outcomes; constructor; [apply outcome_member|done]. }
  cbn [res_bind]. rewrite Hm. cbn [res_bind]. unfold entry_val at 1 in Hr. rewrite Hr. cbn [res_bind].
  fold (entry_val capr propr d dep outcomes). by rewrite (json_form_eq _ (json_form_canon _ Hj)).
Qed.

(** ** Profiles *)

(** An entry that its constructor made. *)
Definition made_entry (e : EffectEntry) : Prop := ∃ c p d dep outcomes, EffectEntry.make c p d dep outcomes = Ok e.

Lemma limits_again l r :
  EffectLimits.canonical_record l = Ok r →
  EffectLimits.make (VInt (el_max_requests l)) (VInt (el_max_executions l)) (VInt (el_max_retries l)) (VInt (el_max_reconciliations l)) = Ok l ∧
  dict_wf r = true ∧ (json_form r = true → EffectLimits.from_record (canon r) = Ok l).
Proof.
  unfold EffectLimits.canonical_record. intros H. apply res_bind_Ok in H as (l' & Hm & [= <-]).
  assert (l' = l) as ->.
  { unfold EffectLimits.make in Hm. apply res_bind_Ok in Hm as (? & [[= <-] _]%count_Ok & Hm). apply res_bind_Ok in Hm as (? & [[= <-] _]%count_Ok & Hm).
    apply res_bind_Ok in Hm as (? & [[= <-] _]%count_Ok & Hm). apply res_bind_Ok in Hm as (? & [[= <-] _]%count_Ok & [= <-]). by destruct l. }
  split; [exact Hm|]. split; [by wf_obj|]. intros Hj. unfold EffectLimits.from_record.
  destruct (fields_canon _ EffectLimits.field_names Hj eq_refl eq_refl) as (f & -> & Hf). cbn [res_bind]. rewrite !Hf. exact Hm.
Qed.

Definition cell_item (c : pystr * Z) : pyval * pyval := (VStr c.1, VInt c.2).

Lemma read_cell_Ok kv c : read_cell kv = Ok c → kv = cell_item c.
Proof.
  unfold read_cell. intros H. apply res_bind_Ok in H as (k & [Hk _]%symbol_Ok & H). apply res_bind_Ok in H as (z & Hz & [= <-]).
  unfold integer in Hz. apply res_bind_Ok in Hz as (z' & Hz' & Hz). apply res_bind_Ok in Hz as (? & _ & [= ->]).
  destruct kv as [a b]. cbn [fst snd] in *. destruct b; try discriminate Hz'. injection Hz' as ->. by rewrite Hk.
Qed.

Lemma read_cells_Ok items cs : read_cells (VDict items) = Ok cs → items = map cell_item cs.
Proof.
  unfold read_cells. cbn [exact_dict res_bind]. intros H. apply res_bind_Ok in H as (? & _ & H%res_map_Ok).
  induction H as [|kv c items cs Hk H IH]; [done|]. cbn [map]. by rewrite (read_cell_Ok _ _ Hk), IH.
Qed.

Lemma read_cells_perm items items' cs :
  items' ≡ₚ items → read_cells (VDict items) = Ok cs → ∃ cs', read_cells (VDict items') = Ok cs' ∧ cs' ≡ₚ cs.
Proof.
  intros Hp H. pose proof (read_cells_Ok _ _ H) as ->. unfold read_cells in *. cbn [exact_dict res_bind] in *.
  apply res_bind_Ok in H as ([] & Hlen & H%res_map_Ok).
  destruct (Permutation_map_inv _ _ Hp) as (cs' & -> & Hcs). exists cs'. split; [|by symmetry].
  rewrite (Permutation_length Hp), Hlen. cbn [res_bind].
  assert (Hall : ∀ c, c ∈ cs' → read_cell (cell_item c) = Ok c).
  { intros c. rewrite <- Hcs. clear -H. revert H. generalize cs at 1 3. intros l H Hc.
    apply list_elem_of_lookup in Hc as [i Hi]. apply Forall2_fmap_l in H. destruct (Forall2_lookup_l _ _ _ _ _ H Hi) as (y & Hy & Hr).
    pose proof (read_cell_Ok _ _ Hr) as E. assert (c = y) as -> by (destruct c, y; by injection E as -> ->). exact Hr. }
  clear -Hall. induction cs' as [|c cs IH]; [done|]. cbn [map res_map]. rewrite Hall by left. cbn [res_bind].
  rewrite IH; [done|]. intros c' Hc'. apply Hall. by right.
Qed.

(** A value in its canonical form copies and serializes like the value. *)
Lemma copy_replace l1 k v l2 w :
  json_form v = true → json_copy (VDict (l1 ++ (k, v) :: l2)) = Ok w →
  json_copy (VDict (l1 ++ (k, canon v) :: l2)) = Ok (VDict (l1 ++ (k, canon v) :: l2)) ∧
  canonical_json (VDict (l1 ++ (k, canon v) :: l2)) = canonical_json (VDict (l1 ++ (k, v) :: l2)).
Proof.
  intros Hj (_ & Hs & Hn & Hb & t & Ht & Hsu & Hle)%json_copy_iff.
  assert (He : canonical_json (VDict (l1 ++ (k, canon v) :: l2)) = canonical_json (VDict (l1 ++ (k, v) :: l2))).
  { rewrite <- (canonical_json_canon_eq (VDict (l1 ++ (k, canon v) :: l2))), <- (canonical_json_canon_eq (VDict (l1 ++ (k, v) :: l2))).
    rewrite !canon_dict. unfold canon_items. rewrite !map_app. cbn [map fst snd]. by rewrite (canon_idem_json _ Hj). }
  split; [|exact He]. cbn [effect_shape] in Hs. rewrite !andb_true_iff in Hs. destruct Hs as (Hd & Hlen & Hk).
  rewrite forallb_app in Hk. cbn [forallb fst snd] in Hk. rewrite !andb_true_iff in Hk. destruct Hk as (Hk1 & ((Hkk & Hks) & Hv) & Hk2).
  destruct (copy_costs_canon _ _ Hv) as [Hcn Hcb].
  apply json_copy_iff. split; [done|]. split; [|split; [|split]].
  - cbn [effect_shape]. rewrite !andb_true_iff. split; [exact Hd|]. split; [rewrite length_app in Hlen |- *; exact Hlen|].
    rewrite forallb_app. cbn [forallb fst snd]. rewrite !andb_true_iff. rewrite (effect_shape_canon _ _ Hv). done.
  - cbn [copy_nodes] in Hn |- *. rewrite map_app, zsum_app in Hn |- *. cbn [map fst snd] in Hn |- *. rewrite zsum_cons in Hn |- *. lia.
  - cbn [copy_bytes] in Hb |- *. rewrite map_app, zsum_app in Hb |- *. cbn [map fst snd] in Hb |- *. rewrite zsum_cons in Hb |- *.
    rewrite length_app in Hb |- *. cbn [length] in Hb |- *. lia.
  - exists t. by rewrite He.
Qed.

Lemma made_records entries records :
  Forall made_entry entries → Forall2 (λ e r, entry_record e = Ok r) entries records →
  res_map entry_from_record records = Ok entries ∧ res_map entry_record entries = Ok records ∧
  Forall (λ r, json_form r = true) records ∧ map canon records = records ∧ res_map entry_of records = Ok entries.
Proof.
  intros Hm H. induction H as [|e r entries records Hr H IH]; [by repeat split|]. apply Forall_cons in Hm as [He Hm].
  destruct (IH Hm) as (IH1 & IH2 & IH3 & IH4 & IH5). destruct He as (c & p & d & dep & outcomes & He).
  destruct (entry_reads _ _ _ _ _ _ He) as (record & Hread & Hfrom & Hcopy & Hj & Hc).
  apply entry_record_read in Hr as Hr'. assert (record = r) as -> by congruence.
  cbn [res_map map]. rewrite Hfrom, IH1, Hr, IH2. cbn [res_bind]. split; [done|]. split; [done|]. split; [by constructor|].
  split; [by rewrite Hc, IH4|]. unfold entry_of at 1. rewrite Hcopy. cbn [res_bind]. by rewrite Hfrom, IH5.
Qed.

Lemma declared_perm cs cs' records : cs' ≡ₚ cs →
  res_map (EffectProfile.declared_cell cs') records = res_map (EffectProfile.declared_cell cs) records.
Proof.
  intros Hp. induction records as [|r records IH]; [done|]. cbn [res_map].
  assert (EffectProfile.declared_cell cs' r = EffectProfile.declared_cell cs r) as ->; [|by rewrite IH].
  unfold EffectProfile.declared_cell. destruct (entry_item "proposal" "arguments" r) as [v|]; [|done]. cbn [res_bind].
  destruct (subscript v "key") as [w|]; [|done]. cbn [res_bind]. destruct (exact_str w) as [s|]; [|done]. cbn [res_bind]. f_equal.
  apply Bool.eq_iff_eq_true. rewrite !str_in_true. by rewrite Hp.
Qed.

(** The record of a profile. *)
Definition profile_val (governance : pystr) (limits cells : pyval) (records : list pyval) : pyval :=
  obj [("protocol_version", VStr EFFECT_PROFILE_VERSION); ("governance_id", VStr governance);
       ("limits", limits); ("initial_cells", cells); ("entries", VList records)]%string.

(** What a made profile was made of. *)
Lemma profile_parts governance entries cells limits p :
  dict_wf cells = true → EffectProfile.make governance entries cells limits = Ok p →
  ∃ g cs records l limr, governance = VStr g ∧ cells = EffectProfile.cells_val cs ∧ read_cells (VDict (map cell_item cs)) = Ok cs ∧
    Forall2 (λ e r, entry_record e = Ok r) entries records ∧ EffectLimits.canonical_record l = Ok limr ∧
    json_copy (profile_val g limr cells records) = Ok (profile_val g limr cells records) ∧
    canonical_json (profile_val g limr cells records) = Ok (ef_text p) ∧
    1 <= Z.of_nat (length entries) <= MAX_EFFECT_ENTRIES ∧
    ∀ cs' w, read_cells (VDict (map cell_item cs')) = Ok cs' → cs' ≡ₚ cs →
      json_copy (profile_val g limr (EffectProfile.cells_val cs') records) = Ok w →
      canonical_json w = Ok (ef_text p) →
      EffectProfile.make (VStr g) entries (EffectProfile.cells_val cs') (Some l) = Ok p.
Proof.
  intros Hw H. unfold EffectProfile.make in H. apply res_bind_Ok in H as (g & Hg & H). apply res_bind_Ok in H as ([] & H1 & H).
  apply res_bind_Ok in H as (items & Hi & H). apply res_bind_Ok in H as ([] & H2 & H). apply res_bind_Ok in H as (cs & Hcs & H).
  apply res_bind_Ok in H as (records & Hr & H). apply res_bind_Ok in H as ([] & H3 & H). apply res_bind_Ok in H as ([] & H4 & H).
  apply res_bind_Ok in H as ([] & H5 & H). apply res_bind_Ok in H as (declared & H6 & H). apply res_bind_Ok in H as ([] & H7 & H).
  set (lim := match limits with None => EffectLimits.default | Some l => l end) in *.
  apply res_bind_Ok in H as (limr & Hl & H). apply res_bind_Ok in H as (record & Hrec & H). apply res_bind_Ok in H as (text & Ht & [= <-]).
  destruct cells as [| | | | | | |l|]; try discriminate Hi. injection Hi as ->. pose proof (read_cells_Ok _ _ Hcs) as ->.
  apply identity_Ok in Hg as [-> Hg]. exists g, cs, records, lim, limr.
  pose proof Hrec as (-> & _)%json_copy_iff.
  split; [done|]. split; [done|]. split; [exact Hcs|]. split; [by apply res_map_Ok|]. split; [exact Hl|]. split; [exact Hrec|]. split; [exact Ht|].
  apply raise_if_Ok, negb_false_iff in H1 as H1'. bool_inv. split; [lia|].
  intros cs' w Hcs' Hp Hcopy Htext. unfold EffectProfile.make. rewrite (proj2 (identity_Ok (VStr g) g)) by done. cbn [res_bind].
  assert (H1'' : raise_if (negb ((1 <=? Z.of_nat (length entries)) && (Z.of_nat (length entries) <=? MAX_EFFECT_ENTRIES))) ValueError = Ok tt).
  { by replace (1 <=? Z.of_nat (length entries)) with true by lia; replace (Z.of_nat (length entries) <=? MAX_EFFECT_ENTRIES) with true by lia. }
  rewrite H1''. cbn [res_bind]. unfold EffectProfile.cells_val at 1. cbn [exact_dict res_bind].
  assert (length (map (λ c : pystr * Z, (VStr c.1, VInt c.2)) cs') = length (map cell_item cs)) as -> by (by rewrite !length_map, (Permutation_length Hp)).
  rewrite H2. cbn [res_bind]. change (EffectProfile.cells_val cs') with (VDict (map cell_item cs')). rewrite Hcs'. cbn [res_bind].
  rewrite Hr. cbn [res_bind]. rewrite H3. cbn [res_bind]. rewrite H4. cbn [res_bind]. rewrite H5. cbn [res_bind].
  rewrite (declared_perm _ _ _ Hp), H6. cbn [res_bind]. rewrite H7. cbn [res_bind]. rewrite Hl. cbn [res_bind].
  unfold profile_val in Hcopy. rewrite Hcopy. cbn [res_bind]. by rewrite Htext.
Qed.

Lemma profile_val_wf g limr cs records :
  dict_wf limr = true → dict_wf (EffectProfile.cells_val cs) = true → Forall (λ r, json_form r = true) records →
  dict_wf (profile_val g limr (EffectProfile.cells_val cs) records) = true.
Proof.
  intros Hl Hc Hr. unfold profile_val. wf_obj. rewrite Hl, Hc. cbn [dict_wf andb]. rewrite andb_true_r.
  apply forallb_elem. intros r Hin. rewrite Forall_forall in Hr. by apply json_form_wf, Hr.
Qed.

Lemma cells_canon cs :
  read_cells (VDict (map cell_item cs)) = Ok cs →
  ∃ cs', canon (EffectProfile.cells_val cs) = EffectProfile.cells_val cs' ∧
    read_cells (VDict (map cell_item cs')) = Ok cs' ∧ cs' ≡ₚ cs.
Proof.
  intros H. destruct (read_cells_perm (map cell_item cs) (canon_items (map cell_item cs)) cs) as (cs' & Hcs' & Hp); [|exact H|].
  { rewrite canon_items_perm, map_map. rewrite (map_ext _ cell_item); [done|]. by intros [k z]. }
  exists cs'. pose proof (read_cells_Ok _ _ Hcs') as E. split; [|split; [by rewrite <- E|exact Hp]].
  change (canon (EffectProfile.cells_val cs)) with (VDict (canon_items (map cell_item cs))). by rewrite E.
Qed.

(** The record with its cells in canonical form makes the profile again. *)
Lemma profile_made_again g entries cs records l limr p cs' :
  json_form (profile_val g limr (EffectProfile.cells_val cs) records) = true →
  json_copy (profile_val g limr (EffectProfile.cells_val cs) records) = Ok (profile_val g limr (EffectProfile.cells_val cs) records) →
  canonical_json (profile_val g limr (EffectProfile.cells_val cs) records) = Ok (ef_text p) →
  (∀ w, json_copy (profile_val g limr (EffectProfile.cells_val cs') records) = Ok w →
    canonical_json w = Ok (ef_text p) → EffectProfile.make (VStr g) entries (EffectProfile.cells_val cs') (Some l) = Ok p) →
  canon (EffectProfile.cells_val cs) = EffectProfile.cells_val cs' →
  EffectProfile.make (VStr g) entries (canon (EffectProfile.cells_val cs)) (Some l) = Ok p.
Proof.
  intros Hj Hcopy Ht Hmake Hcv.
  destruct (copy_replace [(VStr (u "protocol_version"), VStr EFFECT_PROFILE_VERSION); (VStr (u "governance_id"), VStr g); (VStr (u "limits"), limr)]
    (VStr (u "initial_cells")) (EffectProfile.cells_val cs) [(VStr (u "entries"), VList records)] _
    (subscript_json _ "initial_cells" _ Hj eq_refl) Hcopy) as [Hcopy' Htext'].
  rewrite Hcv in Hcopy', Htext' |- *. apply (Hmake _ Hcopy'). etrans; [exact Htext'|exact Ht].
Qed.

Lemma profile_rebuilt governance entries cells limits p :
  Forall made_entry entries → dict_wf cells = true → EffectProfile.make governance entries cells limits = Ok p →
  ∃ record items, read_text (ef_text p) = Ok record ∧ profile_from_record record = Ok p ∧ json_copy record = Ok record ∧
    subscript record "entries" = Ok (VList items) ∧ res_map entry_of items = Ok entries.
Proof.
  intros Hm Hw H. destruct (profile_parts _ _ _ _ _ Hw H) as (g & cs & records & l & limr & -> & -> & Hcells & Hr & Hl & Hcopy & Ht & Hcount & Hmake).
  destruct (made_records _ _ Hm Hr) as (Hfrom & _ & Hjr & Hcr & Hof). destruct (limits_again _ _ Hl) as (_ & Hlw & Hlim).
  pose proof (profile_val_wf g limr cs records Hlw Hw Hjr) as Hwf.
  destruct (copied_text _ _ _ Hwf Hcopy Ht) as (_ & Hj & Hcc & Hread). pose proof (Hread _ eq_refl) as Hr'.
  destruct (cells_canon _ Hcells) as (cs' & Hcv & Hcs' & Hp').
  pose proof (profile_made_again _ _ _ _ l _ _ _ Hj Hcopy Ht (λ w, Hmake cs' w Hcs' Hp') Hcv) as Hagain.
  set (raw := profile_val g limr (EffectProfile.cells_val cs) records) in *.
  assert (Hentries : subscript (canon raw) "entries" = Ok (VList records)).
  { rewrite (subscript_canon _ _ Hj). transitivity (Ok (canon (VList records))); [reflexivity|]. cbn [canon]. by rewrite Hcr. }
  exists (canon raw), records. split; [exact Hr'|]. split; [|split; [exact Hcc|split; [exact Hentries|exact Hof]]].
  unfold profile_from_record. destruct (fields_canon _ PROFILE_FIELDS Hj eq_refl eq_refl) as (f & Hf & Hfl).
  change (fields (canon raw) PROFILE_FIELDS = Ok f) in Hf. rewrite Hf. cbn [res_bind].
  assert (Snapshot.field f "protocol_version" = Ok (VStr EFFECT_PROFILE_VERSION)) as -> by (rewrite Hfl; reflexivity).
  cbn [res_bind]. change (py_equal (VStr EFFECT_PROFILE_VERSION) (VStr EFFECT_PROFILE_VERSION)) with true. cbn [negb raise_if res_bind].
  assert (Hent : read f "entries" exact_list = Ok records) by (unfold read; rewrite (fields_item _ _ _ _ Hf), Hentries; done).
  rewrite Hent. cbn [res_bind]. rewrite <- (Forall2_length _ _ _ Hr).
  replace (1 <=? Z.of_nat (length entries)) with true by lia. replace (Z.of_nat (length entries) <=? MAX_EFFECT_ENTRIES) with true by lia.
  cbn [andb negb raise_if res_bind].
  assert (Snapshot.field f "governance_id" = Ok (VStr g)) as -> by (rewrite Hfl; reflexivity). cbn [res_bind].
  rewrite Hfrom. cbn [res_bind].
  assert (Snapshot.field f "initial_cells" = Ok (canon (EffectProfile.cells_val cs))) as -> by (rewrite Hfl; reflexivity). cbn [res_bind].
  read_field Hfl f "limits"%string (canon limr). rewrite (Hlim (subscript_json _ "limits" _ Hj eq_refl)). cbn [res_bind].
  rewrite Hagain. cbn [res_bind]. rewrite Hr'. cbn [res_bind]. by rewrite (json_form_eq _ (json_form_canon _ Hj)).
Qed.

(** C34.  A declared profile can always be read: every profile made of made entries has a record, from which
    it is rebuilt, entry by entry, as the very same profile with the very same entries, and so under the
    same identity. *)
Theorem profile_reads_back governance entries cells limits p :
  Forall made_entry entries → dict_wf cells = true → EffectProfile.make governance entries cells limits = Ok p →
  ∃ record items, profile_record p = Ok record ∧ profile_of record = Ok p ∧
    subscript record "entries" = Ok (VList items) ∧ res_map entry_of items = Ok entries ∧
    profile_id p = domain_fingerprint EFFECT_PROFILE_ID_DOMAIN record.
Proof.
  intros Hm Hw H. destruct (profile_rebuilt _ _ _ _ _ Hm Hw H) as (record & items & Hr & Hback & Hcopy & He & Hof).
  exists record, items. unfold profile_id, profile_record, profile_of. rewrite Hr. cbn [res_bind]. rewrite Hback. cbn [res_bind].
  rewrite Hcopy. cbn [res_bind]. rewrite Hback. done.
Qed.
