(* ===== verification/EffectProfileExamples.v ===== *)
(** * An effect profile and its session

    One synthetic cell that one admitted proposal sets: its entry, its profile, the task that commits the
    profile, and the grant that covers the entry. *)

From Stdlib Require Import Ascii String.
From stdpp Require Import base list.
From S2P Require Import Prelude PyStr PyNumber Sha256 Canonical Records Obligations Epistemic Orchestration Admission AdmissionSpec Budget Progress Snapshot Receipts Session LeaseExamples Effects Governance GovernanceReceipts Wrapper GovernanceSpec GovernanceExamples EffectProfiles EffectProfileFacts EffectProfileReads.

Definition fp_capability_result : res Capability := Eval vm_compute in
  Capability.make SYNTHETIC_SET OCCURRENCE_SENSITIVE (u "Set a synthetic cell.") true 1 []
    [u "key"; u "value"; u "expected_value"] None.
Definition fp_capability : Capability := Eval cbv in value_of fp_capability_result.

Definition fp_proposal_result : res ActionProposal := Eval vm_compute in
  ActionProposal.make (u "set_cell") SYNTHETIC_SET
    (obj [("key", VStr (u "cell")); ("value", VInt 5); ("expected_value", VInt 0)]%string)
    [ex_target] [] (Some (u "once")) None.
Definition fp_proposal : ActionProposal := Eval cbv in value_of fp_proposal_result.

Definition fp_decision_result : res AdmissionDecision := Eval vm_compute in
  (let* proposal_id := ActionProposal.proposal_id fp_proposal in
   let* own := ActionProposal.arguments fp_proposal in
   let* arguments := Capability.normalize_arguments fp_capability own in
   let* action := action_id fp_capability arguments (Some (u "once")) gx_digest in
   AdmissionDecision.make {|
     ad_proposal_id := proposal_id; ad_proposal_key := u "set_cell"; ad_status := ADMITTED; ad_logical_tick := 1;
     ad_authority_layer := ORCHESTRATION; ad_invariant_ids := []; ad_action_id := Some action;
     ad_equivalent_proposal_id := None; ad_rejection_reason := None; ad_recovery_actions := [];
     ad_blocking_obligation_ids := []; ad_dependency_state_keys := []; ad_unresolved_state_keys := [] |}).
Definition fp_decision : AdmissionDecision := Eval cbv in value_of fp_decision_result.

Definition fp_outcomes : list SyntheticEffectOutcome := [CRASH_AFTER; OUTCOME_SUCCESS].
Definition fp_entry_result : res EffectEntry := Eval vm_compute in
  EffectEntry.make fp_capability fp_proposal fp_decision (VStr gx_digest) fp_outcomes.
Definition fp_entry : EffectEntry := Eval cbv in value_of fp_entry_result.

Definition fp_permission_result : res ToolPermission := Eval vm_compute in
  ToolPermission.make SYNTHETIC_SET IDEMPOTENT_MUTATION true false.
Definition fp_policy_result : res GovernancePolicy := Eval vm_compute in
  (let* permission := fp_permission_result in
   GovernancePolicy.make {| gp_policy_key := u "effects"; gp_policy_version := 1; gp_task_profile := u "profile";
     gp_task_profile_version := 1; gp_provider_authority := OPENAI; gp_tool_permissions := [permission];
     gp_required_gate_keys := SUPPORTED_REQUIRED_GATE_KEYS; gp_supervisor_authority := OPENAI_SUPERVISOR;
     gp_worker_authority := LOCAL_CANDIDATE_WORKER; gp_orchestration_authority := DETERMINISTIC_ORCHESTRATOR;
     gp_runtime_authority := RUST_EXECUTION_RUNTIME |}).
Definition fp_policy : GovernancePolicy := Eval cbv in value_of fp_policy_result.
Definition fp_governance_id : pystr := Eval vm_compute in text_of (GovernancePolicy.governance_id fp_policy).

Definition fp_cells : pyval := obj [("zero", VInt 0); ("cell", VInt 0)]%string.
Definition fp_profile_result : res EffectProfile := Eval vm_compute in
  EffectProfile.make (VStr fp_governance_id) [fp_entry] fp_cells None.
Definition fp_profile : EffectProfile := Eval cbv in value_of fp_profile_result.
Definition fp_record_result : res pyval := Eval vm_compute in profile_record fp_profile.
Definition fp_profile_id : pystr := Eval vm_compute in text_of (profile_id fp_profile).

Definition fp_task_result : outcome (TaskReceipt * GovernanceReceipt) := Eval vm_compute in
  GovernanceWrapper.admit_task fp_policy (u "task") (obj [("effect_profile_id", VStr fp_profile_id)]%string) OPENAI_SUPERVISOR 1.
Definition fp_task : TaskReceipt := Eval cbv in fst (granted fp_task_result).
Definition fp_governance : GovernanceReceipt := Eval cbv in snd (granted fp_task_result).

Definition fp_tool_result : outcome ToolAdmissionReceipt := Eval vm_compute in
  GovernanceWrapper.admit_tool fp_policy fp_task fp_governance fp_decision fp_proposal fp_capability
    (Some IDEMPOTENT_MUTATION) (Some gx_digest) DETERMINISTIC_ORCHESTRATOR.
Definition fp_tool : ToolAdmissionReceipt := Eval cbv in granted fp_tool_result.

Definition fp_spec_result : res pystr := Eval vm_compute in session_spec fp_profile fp_task fp_policy fp_governance [fp_tool].
Definition fp_spec : pystr := Eval cbv in value_of fp_spec_result.

Lemma fp_entry_made : EffectEntry.make fp_capability fp_proposal fp_decision (VStr gx_digest) fp_outcomes = Ok fp_entry.
Proof. vm_compute. reflexivity. Qed.

Lemma fp_profile_made : EffectProfile.make (VStr fp_governance_id) [fp_entry] fp_cells None = Ok fp_profile.
Proof. vm_compute. reflexivity. Qed.

(** The parts of the specification, each computed once. *)
Definition fp_record : pyval := Eval cbv in value_of fp_record_result.
Definition fp_tool_record_result : res pyval := Eval vm_compute in ToolAdmissionReceipt.canonical_record fp_tool.
Definition fp_tool_record : pyval := Eval cbv in value_of fp_tool_record_result.
Definition fp_permission : ToolPermission := Eval cbv in value_of fp_permission_result.

Lemma fp_bound : require_governance_binding fp_policy fp_task fp_governance = Ok tt.
Proof. vm_compute. reflexivity. Qed.

Lemma fp_profile_record : profile_record fp_profile = Ok fp_record.
Proof. vm_compute. reflexivity. Qed.

Lemma fp_tool_canonical : ToolAdmissionReceipt.canonical_record fp_tool = Ok fp_tool_record.
Proof. vm_compute. reflexivity. Qed.

Lemma fp_tool_made :
  ToolAdmissionReceipt.make fp_policy fp_task fp_governance fp_permission DETERMINISTIC_ORCHESTRATOR
    (ta_admission_decision fp_tool) (ta_proposal fp_tool) (ta_capability fp_tool) (ta_dependency_fingerprint fp_tool) = Ok fp_tool.
Proof. unfold ToolAdmissionReceipt.make. rewrite fp_bound. vm_compute. reflexivity. Qed.

Lemma fp_tool_bound : require_tool_admission_binding fp_policy fp_task fp_governance fp_tool = Ok fp_tool.
Proof.
  unfold require_tool_admission_binding. rewrite fp_bound. cbn [res_bind].
  assert (GovernancePolicy.permission_for fp_policy (ta_tool_name fp_tool) = Ok (Some fp_permission)) as -> by (vm_compute; reflexivity).
  cbn [res_bind]. rewrite fp_tool_made. cbn [res_bind]. rewrite fp_tool_canonical. vm_compute. reflexivity.
Qed.

Definition fp_item : pyval := Eval vm_compute in
  match subscript fp_record "entries" with Ok (VList [item]) => item | _ => VNone end.

Lemma fp_covered : cover_entry fp_policy fp_task fp_governance fp_item fp_tool = Ok fp_tool_record.
Proof. unfold cover_entry. rewrite fp_tool_bound. cbn [res_bind]. rewrite fp_tool_canonical. vm_compute. reflexivity. Qed.

Lemma fp_committed : check_committed fp_task fp_profile = Ok tt.
Proof. unfold check_committed, profile_id. rewrite fp_profile_record. vm_compute. reflexivity. Qed.

Lemma fp_spec_made : session_spec fp_profile fp_task fp_policy fp_governance [fp_tool] = Ok fp_spec.
Proof.
  unfold session_spec. rewrite fp_bound, fp_profile_record, fp_committed.
  assert (inert_record (inert_task fp_task) = Ok tt) as -> by (vm_compute; reflexivity).
  assert (inert_record (inert_policy fp_policy) = Ok tt) as -> by (vm_compute; reflexivity).
  assert (inert_record (inert_governance fp_governance) = Ok tt) as -> by (vm_compute; reflexivity).
  cbn [res_bind].
  assert (subscript fp_record "governance_id" = Ok (VStr fp_governance_id)) as -> by (vm_compute; reflexivity).
  assert (GovernancePolicy.governance_id fp_policy = Ok fp_governance_id) as -> by (vm_compute; reflexivity).
  assert (subscript fp_record "entries" = Ok (VList [fp_item])) as -> by (vm_compute; reflexivity). cbn [res_bind].
  assert (py_equal (VStr fp_governance_id) (VStr fp_governance_id) = true) as -> by (vm_compute; reflexivity).
  cbn [negb raise_if res_bind exact_list length Nat.eqb combine res_map]. rewrite fp_covered. cbn [res_bind].
  vm_compute. reflexivity.
Qed.

(** ** Witnesses *)

Lemma effect_session_governed_witness :
  governed_session fp_profile fp_task fp_policy fp_governance ∧
  ∃ spec, session_spec fp_profile fp_task fp_policy fp_governance [fp_tool] = Ok spec.
Proof.
  destruct (effect_session_governed (λ spec enabled, Ok (spec, enabled)) fp_profile fp_task fp_policy fp_governance [fp_tool] false
    (fp_spec, false)) as (H & spec & Hs & _).
  { unfold create_session. rewrite fp_spec_made. reflexivity. }
  split; [exact H|by exists spec].
Defined.

Lemma profile_reads_back_witness : ∃ record, profile_record fp_profile = Ok record ∧ profile_of record = Ok fp_profile.
Proof.
  destruct (profile_reads_back (VStr fp_governance_id) [fp_entry] fp_cells None fp_profile) as (record & items & Hr & Ho & _).
  - constructor; [|constructor]. exists fp_capability, fp_proposal, fp_decision, (VStr gx_digest), fp_outcomes. exact fp_entry_made.
  - reflexivity.
  - exact fp_profile_made.
  - exists record. split; [exact Hr|exact Ho].
Defined.
